(* ===== verification/_CoqProject ===== *)
-Q . S2P
Prelude.v
Util.v
MonoTime.v
BsList.v
PingArray.v
CryptoCore.v
SharedKeyCache.v
TimedAuth.v
State.v
Network.v
LanDiscovery.v
PacketsArray.v
Handshake.v
CryptoConnection.v
NetCrypto.v
Channel.v
Nonces.v
FriendRequests.v
RingBuffer.v
GroupPacket.v
GroupConnection.v
GroupSend.v
GroupReceive.v
GroupFaults.v
DhtDistance.v
DhtPackets.v
DhtLists.v
World.v
Steps.v
Dht.v
DhtLoop.v
DhtSound.v
DhtProtocol.v
DhtSave.v
DhtFaults.v
Onion.v
OnionRoute.v
GroupAnnounce.v
OnionAnnounce.v
OnionTable.v
OnionExchange.v
OnionOverflow.v
CryptoSign.v
GroupModeration.v
GroupState.v
GroupControl.v
SanctionsSync.v
GroupSigned.v
GroupRuns.v
GroupSync.v
GroupSanction.v
TcpCommon.v
TcpStream.v
TcpServer.v
TcpRelay.v
TcpRouting.v
TcpRounds.v
FriendConnection.v
ConnSpec.v
ConnShare.v
ConnTable.v
ConnRuns.v
Messenger.v
FileTransfer.v
FileRuns.v
FileOrder.v
FriendList.v
Receipts.v
MessengerSave.v
MessengerFaults.v
MessengerConns.v
EncryptSave.v
CallTable.v
CallState.v
Msi.v
MsiSound.v
MsiPair.v
ToxAv.v
AvLinked.v
AvSteps.v
