(* ===== verification/Prelude.v ===== *)
(** * A verification library for toxcore

    toxcore is a peer-to-peer messenger core: peers find each other through a
    DHT, talk over encrypted connections that run on UDP or on TCP relays, and
    exchange messages, files, calls and group chats on top of them.  This
    library models the layers that carry the core logic of that traffic, as
    functions and step relations in Rocq, and proves what makes them correct.

    ** The program and the files that model it

    - Shared helpers.  [Prelude] (this file): machine integers, byte arrays,
      little-endian numbers, tactics.  [Util]: [toxcore/util.c] (comparison,
      address checksum, hash).  [MonoTime]: the clock of [toxcore/mono_time.c].
      [Network]: byte order and addresses of [toxcore/network.c].
      [LanDiscovery]: address classes of [toxcore/LAN_discovery.c].  [World]:
      the random numbers and the socket a component works with, and the state
      monad in which the larger components are written.  [Steps]: assertions
      about code in that monad.
    - Containers.  [BsList]: the sorted id table of [toxcore/list.c], with the
      sizes of its allocations.  [PingArray]: the outstanding pings of
      [toxcore/ping_array.c].  [RingBuffer]: [toxav/ring_buffer.c].
    - Cryptography.  [CryptoCore]: [toxcore/crypto_core.c] over the class
      [Sodium], the functions of libsodium the code calls, and [SodiumLaws],
      what they are documented to do; [toy_sodium] is an instance that satisfies
      the laws and runs.  [CryptoSign]: signatures and the extended keys of
      groups in the same way ([SodiumSign], [SodiumSignLaws], [toy_sign]).
      [SharedKeyCache]: [toxcore/shared_key_cache.c].  [TimedAuth]:
      [toxcore/timed_auth.c].
    - Encrypted connections, [toxcore/net_crypto.c].  [Handshake]: cookies and
      handshake packets.  [PacketsArray]: the windows of packets sent and
      received.  [CryptoConnection]: the connection record.  [NetCrypto]: what a
      connection does with packets.  [Channel]: two connections over a network
      that loses, duplicates, reorders and delays packets.  [Nonces]: the nonces
      of a connection.
    - The DHT, [toxcore/DHT.c] and [toxcore/ping.c].  [DhtDistance]: the metric.
      [DhtPackets]: nodes and requests on the wire.  [DhtLists]: the lists of
      clients and the selection of the closest.  [Dht]: the state of a node and
      its handlers.  [DhtLoop]: friends, NAT hole punching, the periodic work
      and the dispatch of packets.  [DhtSound], [DhtProtocol], [DhtSave],
      [DhtFaults]: theorems about it.
    - The onion.  [Onion]: paths, packets and relays of [toxcore/onion.c].
      [OnionRoute]: packets on their way.  [OnionAnnounce]:
      [toxcore/onion_announce.c] and [toxcore/group_onion_announce.c], the table
      of announced friends.  [OnionTable], [OnionExchange], [OnionOverflow]:
      theorems about it.  [GroupAnnounce]: the linked list of announced groups
      of [toxcore/group_announce.c], on an explicit heap.
    - Group connections.  [GroupPacket]: the wire format of
      [toxcore/group_chats.c].  [GroupConnection]: the lossless connections of
      [toxcore/group_connection.c] and the receive path that drives them.
      [GroupSend], [GroupReceive]: the two halves of such a connection.
      [GroupFaults]: what happens outside the conditions of their theorems.
    - Group chats.  [GroupModeration]: [toxcore/group_moderation.c], the lists
      of moderators and sanctions.  [GroupState]: the shared state, topic, peers
      and roles of [toxcore/group_chats.c] and their packets.  [GroupControl]:
      the handlers of those packets and the calls that change the state.
      [SanctionsSync], [GroupSigned], [GroupRuns], [GroupSync], [GroupSanction]:
      theorems about them.
    - Relays.  [TcpCommon]: the framed and encrypted packets of
      [toxcore/TCP_common.c] over sockets that take a part of what they are
      given.  [TcpServer]: the relay of [toxcore/TCP_server.c], in a state monad
      in which an access outside an array has no result.  [TcpStream],
      [TcpRelay], [TcpRouting], [TcpRounds]: theorems about them.
    - Friend connections, [toxcore/friend_connection.c].  [FriendConnection]: the
      table of connections, the callbacks of the layers above, keys, addresses,
      relays, pings and LAN discovery.  [ConnSpec]: what the connections promise
      to the layers above, as a map replayed from the calls they served.
      [ConnTable], [ConnShare], [ConnRuns]: theorems about them.
    - The messenger, [toxcore/Messenger.c].  [Messenger]: friends, names,
      messages and receipts.  [FileTransfer]: file transfers, the packets of a
      friend and the work of an iteration.  [MessengerSave]: the friends in a
      save file.  [FileRuns], [FileOrder], [FriendList], [Receipts],
      [MessengerFaults]: theorems about them.  [MessengerConns]: the messenger on
      the friend connections.
    - Calls.  [CallTable]: the array and linked list of calls that [toxav/msi.c] and
      [toxav/toxav.c] share, on an explicit heap.  [CallState]: the calls and what
      is asked of the rest of the program.  [Msi]: the signalling of calls,
      [toxav/msi.c].  [MsiSound], [MsiPair]: theorems about it.  [ToxAv]: the calls of
      [toxav/toxav.c] on top of it.  [AvLinked], [AvSteps]: theorems about both.
    - Files and requests.  [State]: the sections of a save file,
      [toxcore/state.c].  [EncryptSave]: encrypted save files,
      [toxencryptsave/toxencryptsave.c].  [FriendRequests]:
      [toxcore/friend_requests.c].

    ** How the code is modelled

    Every C function is a definition of the same name that takes the state it
    works on and returns the state after it, with its result; a helper
    definition models a loop or a part of the function, and says so.  The DHT,
    the onion and the groups thread their state through a state monad [ST]
    ([World]).  Structures are records and keep the names of their fields (with
    a prefix where two structures share one); a field assignment [c->f = v] is
    [c <| f := v |>].  A C integer is a [Z], and the conversions [u8], [u16],
    [u32], [u64] and [s32] are written where the source converts or where
    unsigned arithmetic may wrap.  A buffer is a list of bytes.  Whether an
    allocation succeeds, which random number was drawn, what the clock shows,
    and what the sockets answer are arguments or part of the state; packets
    handed to the network and calls of callbacks are results or entries of a
    log.  The messenger asks the friend connections and [net_crypto.c] through
    one log of calls with arbitrary answers, and the friend connections the DHT,
    the onion client and [net_crypto.c] in the same way; [MessengerConns] ties the
    two logs together.  The client of the messenger is an argument where it
    answers a request for a chunk, and the layers above the connections are an
    argument of the code that calls them.  Undefined behaviour is visible: an
    access outside an allocation in [BsList], dangling pointers in
    [GroupAnnounce], [FriendConnection] and [CallTable], the null pointer of
    [Handshake], array indices and null pointers in [TcpServer], an answer written behind its
    array, failed assertions and failed callbacks in [OnionAnnounce], bytes of
    the stack that were never written (arguments of [DhtLoop] and
    [GroupControl]), and failed assertions in [GroupConnection] and [Onion] are
    outcomes of their own.

    Loops are structural recursions on the data where there is one, and
    otherwise recursions on fuel.  The fuel is always enough: the search of
    [BsList] is proved to end within it, the loops of [PacketsArray],
    [GroupConnection] and the DHT run at most once over an array of fixed size
    and carry that size as fuel, the traversals of [GroupAnnounce] carry the
    number of cells, and the fragment loops the length of the payload.  For the
    loops of [TcpServer], which carry the number of unread bytes and of clients,
    [relay_loops_end] shows it.  The loop of [do_friend_connections] takes its
    number of rounds as an argument, because callbacks may add connections while
    it runs; [iteration_ends] says how many are enough.

    ** What is proved

    - Delivery.  [Channel]: as long as the numbers of packets do not wrap around, what
      an application receives is a prefix of what its
      peer wrote, nothing undelivered is lost, and what is reported as received
      was delivered; by induction over all runs of two endpoints.  It rests on
      [PacketsArray], where the windows are shown to refine plain lists and a
      packet request to free only what the peer has.  [GroupReceive]: the same
      for group messages and their fragments, with progress.  [GroupSend]: the
      send array refines the set of unacknowledged packets.
    - Cryptographic state.  [Handshake]: a handshake establishes matching
      sessions, cookies open exactly in their lifetime.  [Nonces]: no nonce is
      used twice, and reordered packets are decrypted with the right one.
      [SharedKeyCache]: caching is transparent.  [TimedAuth]: when tags are
      valid.  [GroupPacket]: wrapping and unwrapping invert each other and stay
      inside their buffers.
    - The DHT.  [DhtDistance]: the two comparisons compute with one metric.
      [DhtLists]: the nodes offered are the closest ones, and a full list drops
      its worst client.  [DhtSound]: a node stays well formed whatever arrives.
      [DhtProtocol]: node requests and pings do what they are for, and only for
      who was asked.  [DhtPackets], [DhtSave]: what is packed or saved is read
      back.
    - The onion.  [OnionRoute]: packets reach their destination and answers
      their way back, inside the bounds of the buffers.  [OnionTable]: which
      announcements a node keeps and what they need.  [OnionExchange]: an
      announced friend is reached, whatever else the node does, until its entry
      expires or a nearer one takes its place.  [GroupAnnounce]: the linked list refines a
      list of groups with their last announcements.
    - Group chats.  [GroupRuns]: in every run of a member, everything it holds
      was signed by who may decide it; its own calls need memory, and the key of
      the chat when it acts as the founder.  [GroupSync]: a member that joins reaches
      the state of the member that answers it.  [GroupSanction]: a sanction
      reaches the members.
    - Relays.  [TcpStream]: what is read from a connection is what was written to
      it, as long as there is memory.  [TcpRounds], on the invariant of [TcpRelay]: the table of clients and
      the links between them stay consistent, data goes to the partner who asked
      for it, requests that meet are linked, and the loops end.
    - Friend connections.  [ConnTable]: the table implements reference counting by
      key, whatever is called from callbacks that leave no pointer into the table
      dangling.  [ConnShare]: a client that keeps
      to the rules may reckon with its own calls alone.  [MessengerConns]: what
      arrives from a friend is handed to that friend, by composition of the two
      with [FriendList].  [ConnRuns]: the iteration ends, and LAN discovery goes
      round the ports.
    - The messenger.  [FileOrder]: a file that survives broken connections
      arrives in order, once and as a whole, whatever else the messenger does
      ([FileRuns] shows that nothing else touches the transfer).  [FriendList]:
      the friends stay well formed in every run, and each has the one connection
      the messenger has taken for it.  [Receipts]: which messages are
      reported as read.  [MessengerSave]: what is saved is restored.
    - Calls.  [MsiPair]: the two sides of a call agree about it.  [AvSteps], on the
      rules of [AvLinked]: the calls of [toxav.c] and of [msi.c] are made and ended
      together, and no pointer between them dangles, as long as friends keep to the
      protocol and are online when the calls are iterated, and the client listens
      for calls and does not use them in its callbacks.
    - Containers.  [BsList] refines a finite map and its search ends,
      [PingArray] finds what was stored, [RingBuffer] is a bounded queue.
    - Formats and decisions.  [State]: sections round trip, truncated files are
      rejected.  [EncryptSave]: an encrypted file gives back what was saved.
      [Network], [LanDiscovery]: address equality and classes.
      [FriendRequests]: which requests are shown.  [Util]: the checksum detects
      a changed byte.
    - Faults.  [GroupFaults], [DhtFaults], [OnionOverflow], [MessengerFaults],
      the last theorems of [GroupSanction], [FileOrder], [ConnRuns], [MsiPair] and
      [AvSteps], and
      [bs_list_remove_shrink_hazard],
      [shared_key_cache_new_drops_timeout], [cookie_request_null_key],
      [last_packet_number_dropped], [lost_priority_packet_desyncs],
      [fragment_failure_reuses_ids] and [full_send_array_stops_resending] follow
      the code into the cases where it does not do what it means to.

    A theorem whose hypotheses restrict its inputs is followed by a lemma
    [..._witness] that applies it to a concrete case.

    ** What is not modelled

    The table of connections and the congestion control of [net_crypto.c] (the
    latter computes in floating point), the onion client, the clients of
    TCP relays, the opening of sockets and the use of [epoll] in relays, the
    loop of the messenger over the other components and the sections it saves
    for them, the conferences, the peer list, handshakes and
    messages of group chats, the codecs and frames of calls, and the public API.  Code that only
    formats, logs, allocates or calls the operating system is left out
    throughout. *)
From Stdlib Require Export ZArith Lia ZifyBool.
From stdpp Require Export prelude gmap list numbers.

#[global] Open Scope Z_scope.
#[global] Set Default Goal Selector "!".

(** ** Machine integers

    A C integer is a [Z] kept inside its width by the conversions below; they
    are written wherever the source converts or where unsigned arithmetic may
    wrap around. *)
Definition u8 (x : Z) : Z := x mod 2 ^ 8.
Definition u16 (x : Z) : Z := x mod 2 ^ 16.
Definition u32 (x : Z) : Z := x mod 2 ^ 32.
Definition u64 (x : Z) : Z := x mod 2 ^ 64.

(** Conversion to a two's complement [int32_t] (the [int] of every supported
    platform). *)
Definition s32 (x : Z) : Z := (x + 2 ^ 31) mod 2 ^ 32 - 2 ^ 31.

Definition UINT16_MAX : Z := 65535.
Definition UINT32_MAX : Z := 4294967295.
Definition UINT64_MAX : Z := 18446744073709551615.

Definition is_u8 (x : Z) : Prop := 0 <= x < 2 ^ 8.
Definition is_u16 (x : Z) : Prop := 0 <= x < 2 ^ 16.
Definition is_u32 (x : Z) : Prop := 0 <= x < 2 ^ 32.
Definition is_u64 (x : Z) : Prop := 0 <= x < 2 ^ 64.

Create HintDb cint.
Create HintDb cintrw.

Ltac unfold_cint :=
  unfold u8, u16, u32, u64, s32, is_u8, is_u16, is_u32, is_u64,
    UINT16_MAX, UINT32_MAX, UINT64_MAX in *.

(** Linear arithmetic with the conversions and [/], [mod] unfolded. *)
Ltac wrap_lia := unfold_cint; Z.to_euclidean_division_equations; lia.

Lemma u8_range x : is_u8 (u8 x).
Proof. apply Z.mod_pos_bound. lia. Qed.
Lemma u16_range x : is_u16 (u16 x).
Proof. apply Z.mod_pos_bound. lia. Qed.
Lemma u32_range x : is_u32 (u32 x).
Proof. apply Z.mod_pos_bound. lia. Qed.
Lemma u64_range x : is_u64 (u64 x).
Proof. apply Z.mod_pos_bound. lia. Qed.

Lemma u8_small x : 0 <= x < 2 ^ 8 → u8 x = x.
Proof. apply Z.mod_small. Qed.
Lemma u16_small x : 0 <= x < 2 ^ 16 → u16 x = x.
Proof. apply Z.mod_small. Qed.
Lemma u32_small x : 0 <= x < 2 ^ 32 → u32 x = x.
Proof. apply Z.mod_small. Qed.
Lemma u64_small x : 0 <= x < 2 ^ 64 → u64 x = x.
Proof. apply Z.mod_small. Qed.

Lemma s32_small x : - 2 ^ 31 <= x < 2 ^ 31 → s32 x = x.
Proof. intros. unfold s32. rewrite Z.mod_small; lia. Qed.

#[export] Hint Resolve u8_range u16_range u32_range u64_range : cint.
#[export] Hint Rewrite u8_small u16_small u32_small u64_small s32_small using lia : cintrw.

(** Subtraction of two in-range numbers wraps exactly when it is negative. *)
Lemma u32_sub a b :
  is_u32 a → is_u32 b → u32 (a - b) = if b <=? a then a - b else a - b + 2 ^ 32.
Proof. intros. destruct (b <=? a) eqn:?; wrap_lia. Qed.

(** ** Boolean tests *)

(** Case analysis on the innermost boolean test or match of the goal. *)
Ltac cases :=
  repeat match goal with
  | |- context [if ?b then _ else _] =>
      lazymatch b with context [if _ then _ else _] => fail | _ => destruct b eqn:? end
  end.

Ltac cases_in H :=
  repeat match type of H with
  | context [if ?b then _ else _] =>
      lazymatch b with context [if _ then _ else _] => fail | _ => destruct b eqn:? end
  end.

(** Splits hypotheses and closes goals of pure bookkeeping. *)
Ltac crush := repeat (simplify_eq/= || destruct_and?); try done; try lia; eauto with cint.

(** ** Bytes and arrays *)

Abbreviation bytes := (list Z).

Definition bytes_ok (l : bytes) : Prop := Forall is_u8 l.

(** [l[i]] of an array that holds [d] where it was never written. *)
Definition aget {A} (d : A) (l : list A) (i : Z) : A := default d (l !! Z.to_nat i).

(** [l[i] = x]; an index outside the array changes nothing. *)
Definition aset {A} (l : list A) (i : Z) (x : A) : list A := <[Z.to_nat i := x]> l.

(** The [n] bytes at [p + off]. *)
Definition slice (off n : Z) (p : bytes) : bytes := take (Z.to_nat n) (drop (Z.to_nat off) p).

Definition zlen {A} (l : list A) : Z := Z.of_nat (length l).

Declare Scope c_scope.
Delimit Scope c_scope with c.
Notation "p @[ off , n ]" := (slice off n p) (at level 1, format "p @[ off ,  n ]") : c_scope.
#[global] Open Scope c_scope.

(** The sign [memcmp] returns for two buffers of the same size. *)
Fixpoint memcmp (a b : bytes) : Z :=
  match a, b with
  | x :: a', y :: b' => if x <? y then -1 else if y <? x then 1 else memcmp a' b'
  | _, _ => 0
  end.

Definition bytes_eqb (a b : bytes) : bool := bool_decide (a = b).

Lemma zlen_nonneg {A} (l : list A) : 0 <= zlen l.
Proof. unfold zlen. lia. Qed.
Lemma zlen_cons {A} (x : A) l : zlen (x :: l) = zlen l + 1.
Proof. unfold zlen. simpl. lia. Qed.
Lemma zlen_app {A} (l k : list A) : zlen (l ++ k) = zlen l + zlen k.
Proof. unfold zlen. rewrite length_app. lia. Qed.
Lemma zlen_aset {A} (l : list A) i x : zlen (aset l i x) = zlen l.
Proof. unfold zlen, aset. by rewrite length_insert. Qed.
Lemma length_aset {A} (l : list A) i x : length (aset l i x) = length l.
Proof. apply length_insert. Qed.

Lemma aget_aset_eq {A} (d : A) l i x : 0 <= i < zlen l → aget d (aset l i x) i = x.
Proof.
  unfold zlen, aget, aset. intros. rewrite list_lookup_insert_eq; [done|]. lia.
Qed.
Lemma aget_aset_ne {A} (d : A) l i j x :
  0 <= i → 0 <= j → i ≠ j → aget d (aset l i x) j = aget d l j.
Proof. unfold aget, aset. intros. rewrite list_lookup_insert_ne; [done|]. lia. Qed.

Lemma aget_lookup {A} (d : A) l i : 0 <= i < zlen l → l !! Z.to_nat i = Some (aget d l i).
Proof.
  unfold zlen, aget. intros.
  destruct (lookup_lt_is_Some_2 l (Z.to_nat i)) as [x Hx]; [lia|]. by rewrite Hx.
Qed.

Lemma aget_byte (p : bytes) i : bytes_ok p → is_u8 (aget 0 p i).
Proof.
  intros H. unfold aget. destruct (p !! Z.to_nat i) eqn:E; [|done].
  by apply (Forall_lookup_1 _ _ _ _ H E).
Qed.

Lemma length_slice off n p :
  0 <= off → 0 <= n → off + n <= zlen p → zlen (slice off n p) = n.
Proof. unfold zlen, slice. intros. rewrite length_take, length_drop. lia. Qed.

Lemma slice_split off n m (p : bytes) :
  0 <= off → 0 <= n → 0 <= m → slice off (n + m) p = slice off n p ++ slice (off + n) m p.
Proof.
  intros. unfold slice. rewrite !Z2Nat.inj_add by lia. rewrite <- drop_drop.
  generalize (drop (Z.to_nat off) p) as q. intros q. rewrite <- (take_drop (Z.to_nat n) q) at 1.
  rewrite take_app. f_equal; [rewrite take_take; f_equal; lia|].
  rewrite length_take. destruct (Nat.le_gt_cases (Z.to_nat n) (length q)).
  - f_equal. lia.
  - rewrite !(drop_ge q) by lia. by rewrite !take_nil.
Qed.

Lemma slice_one off (p : bytes) : 0 <= off < zlen p → slice off 1 p = [aget 0 p off].
Proof.
  intros H. unfold slice. change (Z.to_nat 1) with 1%nat.
  erewrite drop_S by (by apply (aget_lookup 0)). done.
Qed.

(** ** Assignments to record fields *)

(** [c <| field := value |>] is the structure [c] after one assignment. *)
Class Setter {R T : Type} (field : R → T) := { set_field : T → R → R }.
Notation "c <| field := v |>" := (set_field (field := field) v c)
  (at level 8, left associativity, format "c  <| field  :=  v |>") : c_scope.

(** A record is made assignable by the function that takes it apart and builds
    it again: the assignment to a field replaces that field's projection in it. *)
Class Eta (R : Type) := eta : R → R.

#[export] Hint Mode Eta ! : typeclass_instances.

Ltac derive_setter :=
  lazymatch goal with
  | |- @Setter ?R ?T ?field =>
      let e := constr:(_ : Eta R) in
      let e := eval hnf in e in
      let e := lazymatch e with context [field] => eval pattern field in e end in
      lazymatch e with
      | ?g field => let r := eval cbv beta in (λ (v : T) (c : R), g (λ _, v) c) in exact {| set_field := r |}
      end
  end.

#[export] Hint Extern 1 (@Setter _ _ _) => derive_setter : typeclass_instances.

(** ** Order of byte strings *)

Lemma memcmp_refl a : memcmp a a = 0.
Proof. induction a as [|x a IH]; simpl; [done|]. cases; lia. Qed.

Lemma memcmp_eq a : ∀ b, length a = length b → memcmp a b = 0 → a = b.
Proof.
  induction a as [|x a IH]; intros [|y b]; simpl; try done.
  intros ?. cases; try done. intros. f_equal; [lia|]. apply IH; lia.
Qed.

Lemma memcmp_eq_iff a b : length a = length b → memcmp a b = 0 ↔ a = b.
Proof. intros. split; [by apply memcmp_eq|]. intros ->. apply memcmp_refl. Qed.

Lemma memcmp_sym a : ∀ b, memcmp b a = - memcmp a b.
Proof.
  induction a as [|x a IH]; intros [|y b]; simpl; try done.
  rewrite IH. cases; lia.
Qed.

Lemma memcmp_values a : ∀ b, memcmp a b = -1 ∨ memcmp a b = 0 ∨ memcmp a b = 1.
Proof. induction a as [|x a IH]; intros [|y b]; simpl; auto. cases; auto. Qed.

Lemma memcmp_lt_trans a : ∀ b c,
  length a = length b → length b = length c →
  memcmp a b < 0 → memcmp b c < 0 → memcmp a c < 0.
Proof.
  induction a as [|x a IH]; intros [|y b] [|z c]; simpl; try done.
  intros ? ?. repeat case_match; try lia. apply IH; lia.
Qed.

(** ** Bit fields *)

(** Or-ing a number below [2^n] into a shifted one is adding it. *)
Lemma lor_shiftl_add a b n : 0 <= n → 0 <= b < 2 ^ n → Z.lor (Z.shiftl a n) b = a * 2 ^ n + b.
Proof.
  intros Hn Hb.
  assert (Z.land (Z.shiftl a n) b = 0) as Hl.
  { apply Z.bits_inj'. intros i Hi. rewrite Z.land_spec, Z.bits_0.
    destruct (Z.lt_ge_cases i n); [by rewrite Z.shiftl_spec_low|].
    destruct (Z.eq_dec b 0) as [->|]; [by rewrite Z.bits_0, andb_false_r|].
    rewrite (Z.bits_above_log2 b), andb_false_r; [done|lia|].
    apply Z.log2_lt_pow2; [lia|]. apply Z.lt_le_trans with (2 ^ n); [lia|].
    apply Z.pow_le_mono_r; lia. }
  rewrite <- Z.lxor_lor, <- Z.add_nocarry_lxor by done. by rewrite Z.shiftl_mul_pow2.
Qed.

(** ** Little-endian representation

    The in-memory bytes of an unsigned integer: the build targets the model
    covers leave [WORDS_BIGENDIAN] undefined. *)
Fixpoint le_bytes (n : nat) (v : Z) : bytes :=
  match n with
  | O => []
  | S n' => v mod 256 :: le_bytes n' (v / 256)
  end.

Fixpoint le_val (l : bytes) : Z :=
  match l with
  | [] => 0
  | b :: l' => b + 256 * le_val l'
  end.

Lemma length_le_bytes n : ∀ v, length (le_bytes n v) = n.
Proof. induction n; simpl; auto. Qed.

Lemma zlen_le_bytes n v : zlen (le_bytes n v) = Z.of_nat n.
Proof. unfold zlen. by rewrite length_le_bytes. Qed.

Lemma le_bytes_ok n : ∀ v, bytes_ok (le_bytes n v).
Proof.
  unfold bytes_ok. induction n; simpl; constructor; auto. unfold is_u8. wrap_lia.
Qed.

Lemma le_val_bytes n : ∀ v, 0 <= v < 256 ^ Z.of_nat n → le_val (le_bytes n v) = v.
Proof.
  induction n as [|n IH]; intros v Hv; simpl; [simpl in Hv; lia|].
  rewrite IH; [wrap_lia|].
  rewrite Nat2Z.inj_succ, Z.pow_succ_r in Hv by lia. split; [wrap_lia|].
  apply Z.div_lt_upper_bound; lia.
Qed.

Lemma le_val_range l : bytes_ok l → 0 <= le_val l < 256 ^ zlen l.
Proof.
  induction l as [|b l IH]; intros Hl; [done|].
  inversion Hl; subst. specialize (IH H2). unfold is_u8 in *.
  rewrite zlen_cons, Z.pow_add_r by (try apply zlen_nonneg; lia). simpl. nia.
Qed.

Lemma le_bytes_val l : bytes_ok l → le_bytes (length l) (le_val l) = l.
Proof.
  induction l as [|b l IH]; intros Hl; [done|]. inversion Hl; subst.
  unfold is_u8 in *. cbn [length le_bytes le_val]. f_equal; [wrap_lia|].
  replace ((b + 256 * le_val l) / 256) with (le_val l) by wrap_lia. auto.
Qed.

Lemma le_bytes_of_val n l : bytes_ok l → zlen l = Z.of_nat n → le_bytes n (le_val l) = l.
Proof. unfold zlen. intros Hl E. apply Nat2Z.inj in E. subst n. by apply le_bytes_val. Qed.

Lemma le_bytes_inj n v w :
  0 <= v < 256 ^ Z.of_nat n → 0 <= w < 256 ^ Z.of_nat n →
  le_bytes n v = le_bytes n w → v = w.
Proof.
  intros Hv Hw E. rewrite <- (le_val_bytes n v), <- (le_val_bytes n w) by done. by rewrite E.
Qed.

Lemma le_val_inj a b : bytes_ok a → bytes_ok b → length a = length b → le_val a = le_val b → a = b.
Proof.
  intros Ha Hb Hl E. rewrite <- (le_bytes_val a), <- (le_bytes_val b) by done. by rewrite Hl, E.
Qed.

#[export] Hint Rewrite @zlen_cons @zlen_app @zlen_aset length_le_bytes zlen_le_bytes : cintrw.
