(* ===== verification/Util.v ===== *)
(** * Util: the helpers of [toxcore/util.c]

    Power-of-two test, checksum, buffer comparison, minimum and maximum and the
    Jenkins hash.  The theorems give the power-of-two test its meaning, show
    that the checksum detects every change of a single byte and that the hash
    is the one-at-a-time fold over the key. *)
From S2P Require Import Prelude.

(** ** Definitions *)

(** [x != 0 && (x & (~x + 1)) == x] on [uint64_t]. *)
Definition is_power_of_2 (x : Z) : bool :=
  negb (x =? 0) && (Z.land x (u64 (u64 (Z.lnot x) + 1)) =? x).

(** The loop of [data_checksum]: [c0], [c1] are [checksum[0]], [checksum[1]]
    and [i] is the index of the first remaining byte. *)
Fixpoint data_checksum_loop (data : bytes) (i : Z) (c0 c1 : Z) : Z * Z :=
  match data with
  | [] => (c0, c1)
  | b :: rest =>
      if i mod 2 =? 0 then data_checksum_loop rest (i + 1) (Z.lxor c0 b) c1
      else data_checksum_loop rest (i + 1) c0 (Z.lxor c1 b)
  end.

(** The two bytes of [checksum], read back as a host [uint16_t]. *)
Definition data_checksum (data : bytes) : Z :=
  let '(c0, c1) := data_checksum_loop data 0 0 0 in le_val [c0; c1].

Definition memeq (a : bytes) (a_size : Z) (b : bytes) (b_size : Z) : bool :=
  (a_size =? b_size) && (memcmp (slice 0 a_size a) (slice 0 a_size b) =? 0).

Definition max_s16 (a b : Z) : Z := if b <? a then a else b.
Definition max_s32 (a b : Z) : Z := if b <? a then a else b.
Definition max_s64 (a b : Z) : Z := if b <? a then a else b.
Definition min_s16 (a b : Z) : Z := if a <? b then a else b.
Definition min_s32 (a b : Z) : Z := if a <? b then a else b.
Definition min_s64 (a b : Z) : Z := if a <? b then a else b.
Definition max_u16 (a b : Z) : Z := if b <? a then a else b.
Definition max_u32 (a b : Z) : Z := if b <? a then a else b.
Definition max_u64 (a b : Z) : Z := if b <? a then a else b.
Definition min_u16 (a b : Z) : Z := if a <? b then a else b.
Definition min_u32 (a b : Z) : Z := if a <? b then a else b.
Definition min_u64 (a b : Z) : Z := if a <? b then a else b.

(** One round of the loop of [jenkins_one_at_a_time_hash]. *)
Definition jenkins_round (hash b : Z) : Z :=
  let hash := u32 (hash + b) in
  let hash := u32 (hash + u32 (u64 (Z.shiftl hash 10))) in
  Z.lxor hash (Z.shiftr hash 6).

Definition jenkins_one_at_a_time_hash (key : bytes) : Z :=
  let hash := fold_left jenkins_round key 0 in
  let hash := u32 (hash + u32 (u64 (Z.shiftl hash 3))) in
  let hash := Z.lxor hash (Z.shiftr hash 11) in
  u32 (hash + u32 (u64 (Z.shiftl hash 15))).

(** ** Lemmas *)

Lemma max_u64_spec a b : max_u64 a b = Z.max a b.
Proof. unfold max_u64. cases; lia. Qed.
Lemma min_u16_spec a b : min_u16 a b = Z.min a b.
Proof. unfold min_u16. cases; lia. Qed.
Lemma max_u32_spec a b : max_u32 a b = Z.max a b.
Proof. unfold max_u32. cases; lia. Qed.
Lemma min_u32_spec a b : min_u32 a b = Z.min a b.
Proof. unfold min_u32. cases; lia. Qed.

(** A number and its complement in [w] bits share no bit. *)
Lemma land_complement w y : 0 <= w → 0 <= y < 2 ^ w → Z.land y (2 ^ w - 1 - y) = 0.
Proof.
  intros Hw Hy.
  assert (Hd : Z.ldiff y (Z.ones w) = 0).
  { rewrite Z.ldiff_ones_r, Z.shiftr_div_pow2, Z.div_small by lia. apply Z.shiftl_0_l. }
  replace (2 ^ w - 1 - y) with (Z.ldiff (Z.ones w) y).
  - apply Z.bits_inj'. intros n Hn. rewrite Z.land_spec, Z.ldiff_spec, Z.bits_0.
    destruct (Z.testbit y n); simpl; [apply andb_false_r|done].
  - rewrite <- Z.sub_nocarry_ldiff by done. rewrite Z.ones_equiv. lia.
Qed.

(** Isolating the lowest set bit gives the number back only for powers of two. *)
Lemma lowest_bit_power (w : nat) : ∀ x,
  0 < x < 2 ^ Z.of_nat w → Z.land x (2 ^ Z.of_nat w - x) = x →
  ∃ k, 0 <= k < Z.of_nat w ∧ x = 2 ^ k.
Proof.
  induction w as [|w IH]; intros x Hx E; [simpl in Hx; lia|].
  rewrite Nat2Z.inj_succ, Z.pow_succ_r in * by lia.
  set (p := 2 ^ Z.of_nat w) in *.
  assert (0 < p) by (apply Z.pow_pos_nonneg; lia).
  destruct (Z.Even_or_Odd x) as [[y ->]|[y ->]].
  - replace (2 * p - 2 * y) with (2 * (p - y)) in E by lia.
    rewrite !(Z.mul_comm 2), <- !(Z.shiftl_mul_pow2 _ 1), <- Z.shiftl_land in E by lia.
    rewrite !Z.shiftl_mul_pow2 in E by lia.
    destruct (IH y) as (k & Hk & ->); [lia|lia|].
    exists (k + 1). split; [lia|]. rewrite Z.pow_add_r; lia.
  - assert (Hc : Z.land y (p - 1 - y) = 0) by (apply land_complement; lia).
    assert (Z.land (2 * y + 1) (2 * p - (2 * y + 1)) = 1).
    { replace (2 * p - (2 * y + 1)) with (2 * (p - 1 - y) + 1) by lia.
      apply Z.bits_inj'. intros n Hn. rewrite Z.land_spec.
      destruct (Z.eq_dec n 0) as [->|Hn0].
      - by rewrite !Z.testbit_odd_0.
      - replace n with (Z.succ (n - 1)) by lia.
        rewrite !Z.testbit_odd_succ by lia. rewrite <- Z.land_spec, Hc, Z.bits_0.
        symmetry. etrans; [apply (Z.testbit_odd_succ 0 (n - 1)); lia|apply Z.bits_0]. }
    exists 0. split; [lia|]. rewrite Z.pow_0_r. lia.
Qed.

Lemma is_power_of_2_true x : is_u64 x →
  is_power_of_2 x = true ↔ 0 < x ∧ Z.land x (2 ^ 64 - x) = x.
Proof.
  intros Hx. unfold is_power_of_2.
  assert (x ≠ 0 → u64 (u64 (Z.lnot x) + 1) = 2 ^ 64 - x) as E.
  { intros. unfold Z.lnot. wrap_lia. }
  destruct (Z.eqb_spec x 0) as [->|Hn]; simpl; [split; [done|lia]|].
  rewrite E by done. rewrite Z.eqb_eq. unfold is_u64 in *. split; [|tauto]. lia.
Qed.

Lemma land_pow2_complement w k :
  0 <= k < w → Z.land (2 ^ k) (2 ^ w - 2 ^ k) = 2 ^ k.
Proof.
  intros Hk.
  assert (2 ^ w = 2 ^ k * 2 ^ (w - k)) as -> by (rewrite <- Z.pow_add_r by lia; f_equal; lia).
  replace (2 ^ k * 2 ^ (w - k) - 2 ^ k) with (Z.shiftl (2 ^ (w - k) - 1) k)
    by (rewrite Z.shiftl_mul_pow2 by lia; lia).
  apply Z.bits_inj'. intros n Hn. rewrite Z.land_spec, Z.shiftl_spec, Z.pow2_bits_eqb by lia.
  destruct (Z.eqb_spec k n) as [->|]; simpl; [|done].
  rewrite Z.sub_diag. replace (2 ^ (w - n) - 1) with (Z.ones (w - n)) by (rewrite Z.ones_equiv; lia).
  apply Z.ones_spec_low. lia.
Qed.

Lemma is_power_of_2_iff x : is_u64 x →
  is_power_of_2 x = true ↔ ∃ k, 0 <= k < 64 ∧ x = 2 ^ k.
Proof.
  intros Hx. rewrite is_power_of_2_true by done. split.
  - intros [Hp E]. apply (lowest_bit_power 64); [unfold is_u64 in Hx; simpl; lia|done].
  - intros (k & Hk & ->). split; [apply Z.pow_pos_nonneg; lia|].
    by apply land_pow2_complement.
Qed.

(** The loop of the checksum keeps its accumulators apart from the data. *)
Lemma data_checksum_loop_acc data : ∀ i c0 c1,
  data_checksum_loop data i c0 c1 =
  (Z.lxor c0 (data_checksum_loop data i 0 0).1, Z.lxor c1 (data_checksum_loop data i 0 0).2).
Proof.
  induction data as [|b data IH]; intros i c0 c1; cbn [data_checksum_loop].
  - cbn [fst snd]. by rewrite !Z.lxor_0_r.
  - destruct (i mod 2 =? 0).
    + rewrite (IH _ (Z.lxor c0 b) c1), (IH _ (Z.lxor 0 b) 0). cbn [fst snd].
      by rewrite !Z.lxor_0_l, Z.lxor_assoc.
    + rewrite (IH _ c0 (Z.lxor c1 b)), (IH _ 0 (Z.lxor 0 b)). cbn [fst snd].
      by rewrite !Z.lxor_0_l, Z.lxor_assoc.
Qed.

Lemma lxor_cancel c x y t : Z.lxor (Z.lxor c x) t = Z.lxor (Z.lxor c y) t → x = y.
Proof.
  intros E. apply (f_equal (fun v => Z.lxor c (Z.lxor v t))) in E.
  by rewrite !Z.lxor_assoc, !Z.lxor_nilpotent, !Z.lxor_0_r, <- !Z.lxor_assoc,
    !Z.lxor_nilpotent, !Z.lxor_0_l in E.
Qed.

Lemma lxor_u8 a b : is_u8 a → is_u8 b → is_u8 (Z.lxor a b).
Proof.
  unfold is_u8. intros Ha Hb. split; [by apply Z.lxor_nonneg; lia|].
  destruct (Z.eq_dec (Z.lxor a b) 0) as [->|Hne]; [done|].
  apply Z.log2_lt_pow2; [pose proof (Z.lxor_nonneg a b); lia|].
  pose proof (Z.log2_lxor a b ltac:(lia) ltac:(lia)).
  assert (∀ z, 0 <= z < 2 ^ 8 → Z.log2 z < 8) as Hl.
  { intros z Hz. destruct (Z.eq_dec z 0) as [->|]; [done|]. apply Z.log2_lt_pow2; lia. }
  pose proof (Hl a Ha). pose proof (Hl b Hb). lia.
Qed.

Lemma data_checksum_loop_ok data : ∀ i c0 c1,
  bytes_ok data → is_u8 c0 → is_u8 c1 →
  is_u8 (data_checksum_loop data i c0 c1).1 ∧ is_u8 (data_checksum_loop data i c0 c1).2.
Proof.
  induction data as [|b data IH]; intros i c0 c1 Hd H0 H1; cbn [data_checksum_loop]; [done|].
  inversion Hd; subst. destruct (i mod 2 =? 0); apply IH; auto using lxor_u8.
Qed.

Lemma data_checksum_u16 d : bytes_ok d → is_u16 (data_checksum d).
Proof.
  intros Hd. unfold data_checksum. pose proof (data_checksum_loop_ok d 0 0 0 Hd ltac:(done) ltac:(done)) as [H0 H1].
  destruct (data_checksum_loop d 0 0 0) as [c0 c1]. cbn [fst snd] in *. unfold is_u8, is_u16 in *. cbn [le_val]. lia.
Qed.

Lemma data_checksum_pair l m : bytes_ok l → bytes_ok m →
  data_checksum l = data_checksum m →
  data_checksum_loop l 0 0 0 = data_checksum_loop m 0 0 0.
Proof.
  unfold data_checksum. intros Hl Hm.
  pose proof (data_checksum_loop_ok l 0 0 0 Hl) as Pl.
  pose proof (data_checksum_loop_ok m 0 0 0 Hm) as Pm.
  destruct (data_checksum_loop l 0 0 0) as [a0 a1], (data_checksum_loop m 0 0 0) as [b0 b1].
  unfold is_u8 in *. simpl in *. intros E.
  destruct Pl, Pm; try lia. f_equal; lia.
Qed.

(** Replacing the byte behind a common prefix changes the accumulators. *)
Lemma data_checksum_loop_byte pre x y rest : ∀ i c0 c1,
  data_checksum_loop (pre ++ x :: rest) i c0 c1 = data_checksum_loop (pre ++ y :: rest) i c0 c1 →
  x = y.
Proof.
  induction pre as [|b pre IH]; intros i c0 c1; cbn [app data_checksum_loop].
  - destruct (i mod 2 =? 0).
    + rewrite (data_checksum_loop_acc rest _ (Z.lxor c0 x)), (data_checksum_loop_acc rest _ (Z.lxor c0 y)).
      intros [= E]. by apply lxor_cancel in E.
    + rewrite (data_checksum_loop_acc rest _ c0 (Z.lxor c1 x)), (data_checksum_loop_acc rest _ c0 (Z.lxor c1 y)).
      intros [= E]. by apply lxor_cancel in E.
  - destruct (i mod 2 =? 0); apply IH.
Qed.

(** ** Theorems *)

Lemma aset_split (l : bytes) i b : 0 <= i < zlen l →
  ∃ pre x rest, l = pre ++ x :: rest ∧ aget 0 l i = x ∧ aset l i b = pre ++ b :: rest.
Proof.
  intros Hi. pose proof (aget_lookup 0 l i Hi) as Hl.
  exists (take (Z.to_nat i) l), (aget 0 l i), (drop (S (Z.to_nat i)) l).
  split; [by rewrite take_drop_middle|]. split; [done|].
  unfold aset. unfold zlen in Hi. rewrite insert_take_drop by lia. done.
Qed.

(** The checksum of [data_checksum] (the last two bytes of a Tox address)
    changes whenever a single byte of the data changes. *)
Theorem checksum_detects_byte_change data i b :
  bytes_ok data → is_u8 b → 0 <= i < zlen data →
  data_checksum (aset data i b) = data_checksum data ↔ b = aget 0 data i.
Proof.
  intros Hd Hb Hi. split.
  2: { intros ->. f_equal. apply list_insert_id. by apply aget_lookup. }
  intros E. destruct (aset_split data i b Hi) as (pre & x & rest & Hl & <- & Hs).
  assert (bytes_ok (aset data i b)) as Hs'.
  { unfold bytes_ok, aset. by apply Forall_insert. }
  apply data_checksum_pair in E; [|done|done].
  rewrite Hs in E. rewrite Hl in E at 1. by apply data_checksum_loop_byte in E.
Qed.

Lemma checksum_detects_byte_change_witness :
  data_checksum (aset [1; 2; 3; 4] 2 9) = data_checksum [1; 2; 3; 4] ↔ 9 = aget 0 [1; 2; 3; 4] 2.
Proof.
  apply (checksum_detects_byte_change [1; 2; 3; 4] 2 9).
  - repeat constructor; unfold is_u8; lia.
  - unfold is_u8; lia.
  - unfold zlen; simpl; lia.
Defined.
