(* ===== verification/MonoTime.v ===== *)
(** * MonoTime: the clock of [toxcore/mono_time.c]

    [Mono_Time] caches a time in seconds that is refreshed from a millisecond
    callback.  The locks of the C structure only serialise readers and writers
    and have no counterpart here; the callback is an argument, the value it
    returned. *)
From S2P Require Import Prelude.

(** ** Definitions *)

Record Mono_Time := mkMonoTime {
  cur_time : Z;
  base_time : Z
}.

(** [timespec_to_u64]: [1000ULL * tv_sec + tv_nsec / 1000000ULL]. *)
Definition timespec_to_u64 (tv_sec tv_nsec : Z) : Z :=
  u64 (u64 (1000 * tv_sec) + u64 tv_nsec / 1000000).

(** [mono_time_update]; [now_ms] is what [current_time_callback] returns. *)
Definition mono_time_update (mono_time : Mono_Time) (now_ms : Z) : Mono_Time :=
  let t := u64 (now_ms / 1000 + base_time mono_time) in
  mkMonoTime t (base_time mono_time).

(** [mono_time_new]: [alloc], [alloc_lock] and [lock_init] say whether the two
    allocations and the initialisation of the lock succeed, [wall] is
    [time(nullptr)], [ms1] and [ms2] are the two readings of the callback. *)
Definition mono_time_new (alloc alloc_lock lock_init : bool) (wall ms1 ms2 : Z) : option Mono_Time :=
  if negb alloc then None
  else if negb alloc_lock then None
  else if negb lock_init then None
  else Some (mono_time_update (mkMonoTime 0 (u64 (u64 wall - ms1 / 1000))) ms2).

Definition mono_time_get (mono_time : Mono_Time) : Z := cur_time mono_time.

Definition mono_time_is_timeout (mono_time : Mono_Time) (timestamp timeout : Z) : bool :=
  u64 (timestamp + timeout) <=? mono_time_get mono_time.

(** ** Lemmas *)

Lemma mono_time_get_range mono_time now_ms : is_u64 (mono_time_get (mono_time_update mono_time now_ms)).
Proof. apply u64_range. Qed.

Lemma is_timeout_spec mono_time timestamp timeout :
  0 <= timestamp → 0 <= timeout → timestamp + timeout < 2 ^ 64 →
  mono_time_is_timeout mono_time timestamp timeout = true ↔
  timestamp + timeout <= mono_time_get mono_time.
Proof. intros. unfold mono_time_is_timeout. rewrite u64_small by lia. lia. Qed.

Lemma is_timeout_false mono_time timestamp timeout :
  0 <= timestamp → 0 <= timeout → timestamp + timeout < 2 ^ 64 →
  mono_time_is_timeout mono_time timestamp timeout = false ↔
  mono_time_get mono_time < timestamp + timeout.
Proof. intros. unfold mono_time_is_timeout. rewrite u64_small by lia. lia. Qed.

(** The clock follows the wall clock it was started with: after [now_ms]
    milliseconds on the callback it shows the starting time plus the seconds
    that passed since [ms1]. *)
Lemma mono_time_follows_wall wall ms1 ms2 now_ms mt :
  is_u64 wall → is_u64 ms1 → is_u64 now_ms →
  ms1 <= now_ms → wall + (now_ms / 1000 - ms1 / 1000) < 2 ^ 64 →
  mono_time_new true true true wall ms1 ms2 = Some mt →
  mono_time_get (mono_time_update mt now_ms) = wall + (now_ms / 1000 - ms1 / 1000).
Proof.
  unfold mono_time_new. cbn [negb]. intros Hw H1 Hn Hle Hb [= <-].
  unfold mono_time_get, mono_time_update. cbn [cur_time base_time]. wrap_lia.
Qed.
