(* ===== verification/BsList.v ===== *)
(** * BsList: the sorted id table of [toxcore/list.c]

    [BS_List] keeps elements of a fixed size in ascending [memcmp] order next
    to an array of ids, and finds an element by a search that halves its step.
    [net_crypto] maps peer addresses to connections with it.

    The arrays are modelled by their first [n] entries together with the sizes
    that were allocated for them, so an access outside an allocation (or a read
    of an entry that was never written) is visible: such a run is [None].  The
    outcome of each [realloc] is an argument. *)
From Stdlib Require Import Sorted.
From S2P Require Import Prelude.

(** ** Definitions *)

Record BS_List := mkBSList {
  bl_n : Z;             (** number of elements *)
  bl_capacity : Z;      (** number of elements memory is allocated for *)
  bl_element_size : Z;  (** size of the elements *)
  bl_data : list bytes; (** the elements [0 .. n-1] of the data array *)
  bl_data_alloc : Z;    (** bytes allocated for the data array, 0 for a null pointer *)
  bl_ids : list Z;      (** the entries [0 .. n-1] of the id array *)
  bl_ids_alloc : Z      (** ids allocated, 0 for a null pointer *)
}.

(** [~i], returned as [int32_t]. *)
Definition list_index (i : Z) : Z := s32 (u32 (Z.lnot i)).

(** The loop of [find]; [None] when it reads past the [n] elements. *)
Fixpoint find_loop (fuel : nat) (l : BS_List) (data : bytes) (i delta d : Z) : option Z :=
  match fuel with
  | O => None
  | S fuel =>
      e ← bl_data l !! Z.to_nat i;
      let r := memcmp data e in
      if r =? 0 then Some (s32 i)
      else if 0 <? r then
        let i := u32 (i + delta) in
        if (d =? 0) || (i =? bl_n l) then Some (list_index i)
        else
          let delta := delta / 2 in
          if delta =? 0 then find_loop fuel l data i 1 1
          else find_loop fuel l data i delta d
      else
        if (d =? 1) || (i =? 0) then Some (list_index i)
        else
          let i := u32 (i - delta) in
          let delta := delta / 2 in
          if delta =? 0 then find_loop fuel l data i 1 0
          else find_loop fuel l data i delta d
  end.

(** Every iteration either halves [delta] or moves by one in one direction, so
    [2n + 3] iterations are enough ([find_correct]). *)
Definition find (l : BS_List) (data : bytes) : option Z :=
  if bl_n l =? 0 then Some (list_index 0)
  else
    let i := bl_n l / 2 in
    let delta := i / 2 in
    let delta := if delta =? 0 then 1 else delta in
    find_loop (Z.to_nat (2 * bl_n l + 3)) l data i delta (-1).

Definition bs_list_free (l : BS_List) : BS_List :=
  mkBSList (bl_n l) (bl_capacity l) (bl_element_size l) [] 0 [] 0.

(** [resize]: [ok_data] and [ok_ids] are the outcomes of the two [realloc]s.
    Reallocating keeps what fits into the new size. *)
Definition resize (ok_data ok_ids : bool) (l : BS_List) (new_size : Z) : bool * BS_List :=
  if new_size =? 0 then (true, bs_list_free l)
  else if negb ok_data then (false, l)
  else
    let bytes := u32 (bl_element_size l * new_size) in
    let l := mkBSList (bl_n l) (bl_capacity l) (bl_element_size l)
               (take (Z.to_nat (bytes / bl_element_size l)) (bl_data l)) bytes
               (bl_ids l) (bl_ids_alloc l) in
    if negb ok_ids then (false, l)
    else (true, mkBSList (bl_n l) (bl_capacity l) (bl_element_size l) (bl_data l) (bl_data_alloc l)
                  (take (Z.to_nat new_size) (bl_ids l)) new_size).

Definition set_capacity (l : BS_List) (c : Z) : BS_List :=
  mkBSList (bl_n l) c (bl_element_size l) (bl_data l) (bl_data_alloc l) (bl_ids l) (bl_ids_alloc l).

Definition bs_list_init (ok_data ok_ids : bool) (element_size initial_capacity : Z) : Z * BS_List :=
  let l := mkBSList 0 0 element_size [] 0 [] 0 in
  if negb (initial_capacity =? 0) then
    let '(ok, l) := resize ok_data ok_ids l initial_capacity in
    if negb ok then (0, l) else (1, set_capacity l initial_capacity)
  else (1, set_capacity l initial_capacity).

Definition bs_list_find (l : BS_List) (data : bytes) : option Z :=
  r ← find l data;
  if r <? 0 then Some (-1) else bl_ids l !! Z.to_nat r.

(** The block of [bs_list_add] that grows the arrays when they are full. *)
Definition grow_for_add (ok_data ok_ids : bool) (l : BS_List) : bool * BS_List :=
  if bl_n l =? bl_capacity l then
    let new_capacity := u32 (bl_n l + bl_n l / 2 + 1) in
    let '(ok, l) := resize ok_data ok_ids l new_capacity in
    if negb ok then (false, l) else (true, set_capacity l new_capacity)
  else (true, l).

(** The two [memmove]s and the stores of [bs_list_add] write the entries up to
    index [n]; [None] when the allocations do not hold them. *)
Definition insert_at (l : BS_List) (i : Z) (data : bytes) (id : Z) : option BS_List :=
  if (bl_n l + 1) * bl_element_size l <=? bl_data_alloc l then
    if bl_n l + 1 <=? bl_ids_alloc l then
      let k := Z.to_nat i in
      Some (mkBSList (u32 (bl_n l + 1)) (bl_capacity l) (bl_element_size l)
              (take k (bl_data l) ++ data :: drop k (bl_data l)) (bl_data_alloc l)
              (take k (bl_ids l) ++ id :: drop k (bl_ids l)) (bl_ids_alloc l))
    else None
  else None.

Definition bs_list_add (ok_data ok_ids : bool) (l : BS_List) (data : bytes) (id : Z) :
    option (bool * BS_List) :=
  i ← find l data;
  if 0 <=? i then Some (false, l)
  else
    let i := Z.lnot i in
    let '(ok, l) := grow_for_add ok_data ok_ids l in
    if negb ok then Some (false, l)
    else l ← insert_at l i data id; Some (true, l).

(** The block of [bs_list_remove] that halves the arrays when they are mostly
    empty: a failed [resize] is ignored. *)
Definition shrink_for_remove (ok_data ok_ids : bool) (l : BS_List) : BS_List :=
  if bl_n l <? bl_capacity l / 2 then
    let new_capacity := bl_capacity l / 2 in
    let '(ok, l) := resize ok_data ok_ids l new_capacity in
    if ok then set_capacity l new_capacity else l
  else l.

(** The two [memmove]s of [bs_list_remove] read the entries up to index [n]. *)
Definition delete_at (l : BS_List) (i : Z) : option BS_List :=
  if bl_n l * bl_element_size l <=? bl_data_alloc l then
    if bl_n l <=? bl_ids_alloc l then
      let k := Z.to_nat i in
      Some (mkBSList (u32 (bl_n l - 1)) (bl_capacity l) (bl_element_size l)
              (take k (bl_data l) ++ drop (S k) (bl_data l)) (bl_data_alloc l)
              (take k (bl_ids l) ++ drop (S k) (bl_ids l)) (bl_ids_alloc l))
    else None
  else None.

Definition bs_list_remove (ok_data ok_ids : bool) (l : BS_List) (data : bytes) (id : Z) :
    option (bool * BS_List) :=
  i ← find l data;
  if i <? 0 then Some (false, l)
  else
    x ← bl_ids l !! Z.to_nat i;
    if negb (x =? id) then Some (false, l)
    else
      let l := shrink_for_remove ok_data ok_ids l in
      l ← delete_at l i; Some (true, l).

(** ** Invariant *)

(** Strictly ascending in the order of [memcmp]. *)
Definition ascending (l : list bytes) : Prop :=
  ∀ i j x y, (i < j)%nat → l !! i = Some x → l !! j = Some y → memcmp x y < 0.

Record wf (l : BS_List) : Prop := {
  wf_n_data : bl_n l = zlen (bl_data l);
  wf_n_ids : bl_n l = zlen (bl_ids l);
  wf_n_int : bl_n l < 2 ^ 31;
  wf_capacity : bl_n l <= bl_capacity l;
  wf_size : 0 < bl_element_size l;
  wf_data_alloc : bl_capacity l * bl_element_size l <= bl_data_alloc l;
  wf_data_bytes : bl_data_alloc l < 2 ^ 32;
  wf_ids_alloc : bl_capacity l <= bl_ids_alloc l;
  wf_elements : Forall (fun e => zlen e = bl_element_size l) (bl_data l);
  wf_ascending : ascending (bl_data l)
}.

(** What [find] promises: the index of the element, or the complement of the
    place where it belongs. *)
Definition find_spec (l : list bytes) (key : bytes) (r : Z) : Prop :=
  if 0 <=? r then l !! Z.to_nat r = Some key
  else
    let p := Z.lnot r in
    0 <= p <= zlen l ∧
    (∀ j x, l !! j = Some x → Z.of_nat j < p → memcmp x key < 0) ∧
    (∀ j x, l !! j = Some x → p <= Z.of_nat j → memcmp key x < 0).

(** ** The search *)

Lemma list_index_lnot i : 0 <= i < 2 ^ 31 → list_index i = Z.lnot i.
Proof. intros. unfold list_index, Z.lnot. wrap_lia. Qed.

Section search.
Context (l : BS_List) (key : bytes).
Context (Hwf : wf l) (Hkey : zlen key = bl_element_size l).

Lemma same_length i e : bl_data l !! i = Some e → length e = length key.
Proof using Hwf Hkey.
  intros He. pose proof (proj1 (Forall_lookup _ _) (wf_elements _ Hwf) _ _ He) as Hl.
  unfold zlen in *. simpl in Hl. lia.
Qed.

Lemma below_all i e :
  bl_data l !! i = Some e → 0 < memcmp key e →
  ∀ j x, bl_data l !! j = Some x → (j <= i)%nat → memcmp x key < 0.
Proof using Hwf Hkey.
  intros He Hr j x Hx Hj. pose proof (same_length _ _ He). pose proof (same_length _ _ Hx).
  assert (memcmp e key < 0) by (rewrite memcmp_sym; lia).
  destruct (decide (j = i)) as [->|Hne]; [by simplify_eq|].
  apply (memcmp_lt_trans x e key); [congruence|congruence| |done].
  eapply (wf_ascending _ Hwf j i); eauto. lia.
Qed.

Lemma above_all i e :
  bl_data l !! i = Some e → memcmp key e < 0 →
  ∀ j x, bl_data l !! j = Some x → (i <= j)%nat → memcmp key x < 0.
Proof using Hwf Hkey.
  intros He Hr j x Hx Hj. pose proof (same_length _ _ He). pose proof (same_length _ _ Hx).
  destruct (decide (j = i)) as [->|Hne]; [by simplify_eq|].
  apply (memcmp_lt_trans key e x); [congruence|congruence|done|].
  eapply (wf_ascending _ Hwf i j); eauto. lia.
Qed.

(** The place between two neighbours is the complement [find] returns. *)
Lemma find_spec_index p :
  0 <= p <= bl_n l →
  (0 < p → ∃ e, bl_data l !! Z.to_nat (p - 1) = Some e ∧ 0 < memcmp key e) →
  (p < bl_n l → ∃ e, bl_data l !! Z.to_nat p = Some e ∧ memcmp key e < 0) →
  find_spec (bl_data l) key (list_index p).
Proof using Hwf Hkey.
  intros Hp Hlo Hhi. pose proof (wf_n_int _ Hwf). pose proof (wf_n_data _ Hwf).
  rewrite list_index_lnot by lia. unfold find_spec. cases; [unfold Z.lnot in *; lia|].
  rewrite Z.lnot_involutive. split; [lia|]. split; intros j x Hx Hj.
  - destruct Hlo as (e & He & Hr); [lia|]. eapply below_all; eauto. lia.
  - assert (Z.of_nat j < bl_n l) by (apply lookup_lt_Some in Hx; unfold zlen in *; lia).
    destruct Hhi as (e & He & Hr); [lia|]. eapply above_all; eauto. lia.
Qed.

(** State of the search: with [d = -1] the step still halves and stays inside
    the array; with [d = 1] ([d = 0]) the last step went down (up) by one. *)
Definition search_state (i delta d : Z) : Prop :=
  0 <= i < bl_n l ∧ 1 <= delta ∧
  ((d = -1 ∧ i + 2 * delta - 1 <= bl_n l ∧ (2 * delta - 1 <= i ∨ i = 0)) ∨
   (d = 1 ∧ delta = 1 ∧ 0 < i ∧ ∃ e, bl_data l !! Z.to_nat (i - 1) = Some e ∧ 0 < memcmp key e) ∨
   (d = 0 ∧ delta = 1 ∧ i + 1 < bl_n l ∧ ∃ e, bl_data l !! Z.to_nat (i + 1) = Some e ∧ memcmp key e < 0)).

Definition search_measure (i delta d : Z) : Z :=
  if d =? -1 then delta + bl_n l + 1 else if d =? 1 then bl_n l - i else i + 1.

(** While the step still halves, the search is in its first phase. *)
Lemma search_halves i delta d (A B : Prop) (P Q : Prop) :
  (d = -1 ∧ A ∧ B) ∨ (d = 1 ∧ delta = 1 ∧ 0 < i ∧ P) ∨ (d = 0 ∧ delta = 1 ∧ Q) → delta / 2 ≠ 0 →
  d = -1 ∧ A ∧ B.
Proof. intros [H|[(_ & -> & _)|(_ & -> & _)]]; done. Qed.

Lemma find_loop_correct fuel : ∀ i delta d,
  search_state i delta d → search_measure i delta d <= Z.of_nat fuel →
  ∃ r, find_loop fuel l key i delta d = Some r ∧ find_spec (bl_data l) key r.
Proof using Hwf Hkey.
  pose proof (wf_n_int _ Hwf) as Hint. pose proof (wf_n_data _ Hwf) as Hnd.
  induction fuel as [|fuel IH]; intros i delta d (Hi & Hd & Hs) Hm.
  { exfalso. unfold search_measure in Hm. cases_in Hm; lia. }
  destruct (lookup_lt_is_Some_2 (bl_data l) (Z.to_nat i)) as [e He];
    [unfold zlen in *; lia|].
  cbn [find_loop]. rewrite He. cbn [mbind option_bind].
  destruct (memcmp key e =? 0) eqn:E0.
  { exists i. rewrite s32_small by lia. split; [done|]. unfold find_spec. cases; [|lia].
    apply Z.eqb_eq, memcmp_eq in E0; [by subst|]. symmetry. by eapply same_length. }
  destruct (0 <? memcmp key e) eqn:E1.
  - (* down *)
    assert (i + delta <= bl_n l) by intuition lia.
    rewrite u32_small by lia.
    destruct ((d =? 0) || (i + delta =? bl_n l)) eqn:E2.
    + eexists; split; [done|].
      assert (delta = 1) as -> by intuition lia.
      apply find_spec_index; [lia| |].
      * intros _. exists e. replace (i + 1 - 1) with i by lia. split; [done|lia].
      * intros ?. destruct Hs as [Hs|[Hs|Hs]]; [lia|lia|]. by destruct Hs as (_ & _ & _ & Hs).
    + destruct (delta / 2 =? 0) eqn:E3.
      * assert (delta = 1) as -> by wrap_lia.
        apply IH; [|unfold search_measure in *; cases; cases_in Hm; lia].
        split; [lia|]. split; [lia|]. right; left.
        repeat split; [lia|]. exists e. replace (i + 1 - 1) with i by lia. split; [done|lia].
      * apply search_halves in Hs as [-> Hs]; [|lia].
        apply IH; [|unfold search_measure in *; cases; cases_in Hm; wrap_lia].
        split; [lia|]. split; [wrap_lia|]. left. wrap_lia.
  - (* up *)
    destruct ((d =? 1) || (i =? 0)) eqn:E2.
    + eexists; split; [done|]. apply find_spec_index; [lia| |].
      * intros ?. destruct Hs as [Hs|[Hs|Hs]]; [lia| |lia]. by destruct Hs as (_ & _ & _ & Hs).
      * intros _. exists e. split; [done|lia].
    + assert (delta <= i) by intuition lia. rewrite u32_small by lia.
      destruct (delta / 2 =? 0) eqn:E3.
      * assert (delta = 1) as -> by wrap_lia.
        apply IH; [|unfold search_measure in *; cases; cases_in Hm; lia].
        split; [lia|]. split; [lia|]. right; right.
        repeat split; [lia|]. exists e. replace (i - 1 + 1) with i by lia. split; [done|lia].
      * apply search_halves in Hs as [-> Hs]; [|lia].
        apply IH; [|unfold search_measure in *; cases; cases_in Hm; wrap_lia].
        split; [lia|]. split; [wrap_lia|]. left. wrap_lia.
Qed.

Lemma find_correct : ∃ r, find l key = Some r ∧ find_spec (bl_data l) key r.
Proof using Hwf Hkey.
  pose proof (wf_n_int _ Hwf). pose proof (wf_n_data _ Hwf) as Hnd.
  pose proof (zlen_nonneg (bl_data l)).
  unfold find. destruct (bl_n l =? 0) eqn:E0.
  - exists (list_index 0). split; [done|]. apply find_spec_index; lia.
  - apply find_loop_correct.
    + split; [wrap_lia|]. split; [cases; wrap_lia|]. left. cases; wrap_lia.
    + unfold search_measure. cases; wrap_lia.
Qed.
End search.

(** ** The table as a finite map *)

Definition to_map (l : BS_List) : gmap bytes Z := list_to_map (zip (bl_data l) (bl_ids l)).

Lemma ascending_NoDup d : ascending d → NoDup d.
Proof.
  intros Ha. apply NoDup_alt. intros i j x Hi Hj.
  destruct (Nat.lt_trichotomy i j) as [H|[H|H]]; [|done|].
  - pose proof (Ha _ _ _ _ H Hi Hj). rewrite memcmp_refl in *. lia.
  - pose proof (Ha _ _ _ _ H Hj Hi). rewrite memcmp_refl in *. lia.
Qed.

Lemma wf_lengths l : wf l → length (bl_data l) = length (bl_ids l).
Proof. intros H. pose proof (wf_n_data _ H). pose proof (wf_n_ids _ H). unfold zlen in *. lia. Qed.

Lemma wf_keys l : wf l → (zip (bl_data l) (bl_ids l)).*1 = bl_data l.
Proof. intros H. apply fst_zip. by rewrite wf_lengths. Qed.

Lemma to_map_lookup l k id : wf l →
  to_map l !! k = Some id ↔ ∃ i, bl_data l !! i = Some k ∧ bl_ids l !! i = Some id.
Proof.
  intros Hwf. unfold to_map. rewrite <- elem_of_list_to_map
    by (rewrite wf_keys by done; apply ascending_NoDup, Hwf).
  rewrite list_elem_of_lookup. split; intros [i Hi]; exists i; by apply lookup_zip_Some.
Qed.

Lemma to_map_None l k : wf l → to_map l !! k = None ↔ k ∉ bl_data l.
Proof.
  intros Hwf. unfold to_map. rewrite <- not_elem_of_list_to_map. by rewrite wf_keys.
Qed.

Lemma find_spec_found l key r : wf l → find_spec (bl_data l) key r → 0 <= r →
  ∃ id, bl_ids l !! Z.to_nat r = Some id ∧ to_map l !! key = Some id.
Proof.
  intros Hwf Hs Hr. unfold find_spec in Hs. cases_in Hs; [|lia].
  pose proof (lookup_lt_Some _ _ _ Hs). rewrite wf_lengths in * by done.
  destruct (lookup_lt_is_Some_2 (bl_ids l) (Z.to_nat r)) as [id Hid]; [done|].
  exists id. split; [done|]. apply to_map_lookup; eauto.
Qed.

Lemma find_spec_absent l key r : wf l → find_spec (bl_data l) key r → r < 0 → to_map l !! key = None.
Proof.
  intros Hwf Hs Hr. unfold find_spec in Hs. cases_in Hs; [lia|].
  destruct Hs as (_ & Hlo & Hhi). apply to_map_None; [done|].
  intros (j & Hj)%list_elem_of_lookup.
  destruct (Z.lt_ge_cases (Z.of_nat j) (Z.lnot r)).
  - pose proof (Hlo _ _ Hj). rewrite memcmp_refl in *. lia.
  - pose proof (Hhi _ _ Hj). rewrite memcmp_refl in *. lia.
Qed.

(** *** Insertion and deletion at an index *)

Lemma zip_take {A B} (k : nat) : ∀ (l : list A) (l' : list B),
  zip (take k l) (take k l') = take k (zip l l').
Proof. induction k; intros [|? l] [|? l']; simpl; f_equal; auto. Qed.
Lemma zip_drop {A B} (k : nat) : ∀ (l : list A) (l' : list B),
  length l = length l' → zip (drop k l) (drop k l') = drop k (zip l l').
Proof. induction k; intros [|? l] [|? l'] H; simpl in *; auto; lia || auto. Qed.

Lemma lookup_insert_middle {A} (l : list A) p x i : (p <= length l)%nat →
  (take p l ++ x :: drop p l) !! i =
  if decide (i < p)%nat then l !! i else if decide (i = p) then Some x else l !! (i - 1)%nat.
Proof.
  intros Hp. destruct (decide (i < p)%nat).
  - rewrite lookup_app_l by (rewrite length_take; lia). by rewrite lookup_take_lt.
  - rewrite lookup_app_r by (rewrite length_take; lia). rewrite length_take, Nat.min_l by lia.
    destruct (decide (i = p)) as [->|]; [by rewrite Nat.sub_diag|].
    replace (i - p)%nat with (S (i - 1 - p)) by lia. simpl.
    rewrite lookup_drop. f_equal. lia.
Qed.

Lemma lookup_delete_middle {A} (l : list A) p i : (p < length l)%nat →
  (take p l ++ drop (S p) l) !! i = if decide (i < p)%nat then l !! i else l !! S i.
Proof.
  intros Hp. destruct (decide (i < p)%nat).
  - rewrite lookup_app_l by (rewrite length_take; lia). by rewrite lookup_take_lt.
  - rewrite lookup_app_r by (rewrite length_take; lia). rewrite length_take, Nat.min_l by lia.
    rewrite lookup_drop. f_equal. lia.
Qed.

Lemma ascending_insert d p key : (p <= length d)%nat → ascending d →
  (∀ j x, d !! j = Some x → (j < p)%nat → memcmp x key < 0) →
  (∀ j x, d !! j = Some x → (p <= j)%nat → memcmp key x < 0) →
  ascending (take p d ++ key :: drop p d).
Proof.
  intros Hp Ha Hlo Hhi i j x y Hij. rewrite !lookup_insert_middle by done.
  repeat case_decide; intros Hx Hy; simplify_eq; try lia; eauto.
  - eapply Ha; [|exact Hx|exact Hy]. lia.
  - eapply Hhi; eauto. lia.
  - eapply Ha; [|exact Hx|exact Hy]. lia.
Qed.

Lemma ascending_delete d p : (p < length d)%nat → ascending d → ascending (take p d ++ drop (S p) d).
Proof.
  intros Hp Ha i j x y Hij. rewrite !lookup_delete_middle by done.
  repeat case_decide; intros Hx Hy; try lia; (eapply Ha; [|exact Hx|exact Hy]); lia.
Qed.

Lemma to_map_insert_at (d : list bytes) (ids : list Z) k key id :
  length d = length ids → NoDup (take k d ++ key :: drop k d) →
  (list_to_map (zip (take k d ++ key :: drop k d) (take k ids ++ id :: drop k ids)) : gmap bytes Z) =
  <[key:=id]> (list_to_map (zip d ids)).
Proof.
  intros Hl Hnd. rewrite <- list_to_map_cons. apply list_to_map_proper.
  - by rewrite fst_zip by (rewrite !length_app; simpl; rewrite !length_take, !length_drop; lia).
  - rewrite zip_with_app by (rewrite !length_take; lia). cbn [zip_with].
    rewrite zip_take, zip_drop by done. by rewrite <- Permutation_middle, take_drop.
Qed.

Lemma to_map_delete_at (d : list bytes) (ids : list Z) k key :
  length d = length ids → NoDup d → d !! k = Some key →
  (list_to_map (zip (take k d ++ drop (S k) d) (take k ids ++ drop (S k) ids)) : gmap bytes Z) =
  delete key (list_to_map (zip d ids)).
Proof.
  intros Hl Hnd Hk. pose proof (lookup_lt_Some _ _ _ Hk) as Hlt.
  destruct (lookup_lt_is_Some_2 ids k) as [id Hid]; [lia|].
  rewrite zip_with_app by (rewrite !length_take; lia). rewrite zip_take, zip_drop by done.
  assert (zip d ids !! k = Some (key, id)) as Hz by (by apply lookup_zip_Some).
  rewrite <- (take_drop_middle _ _ _ Hz) at 3.
  rewrite (list_to_map_proper (take k (zip d ids) ++ (key, id) :: drop (S k) (zip d ids))
    ((key, id) :: take k (zip d ids) ++ drop (S k) (zip d ids))).
  - rewrite list_to_map_cons, delete_insert_id; [done|]. apply not_elem_of_list_to_map.
    rewrite fmap_app, fmap_take, fmap_drop, fst_zip by lia.
    rewrite <- (take_drop_middle _ _ _ Hk) in Hnd. rewrite <- Permutation_middle in Hnd.
    by inversion Hnd.
  - rewrite take_drop_middle by done. by rewrite fst_zip by lia.
  - by rewrite <- Permutation_middle.
Qed.

(** ** Growing and shrinking *)

Lemma resize_keeps l ok_data ok_ids new_size ok l' :
  wf l → bl_n l <= new_size → 0 < new_size → bl_element_size l * new_size < 2 ^ 32 →
  resize ok_data ok_ids l new_size = (ok, l') →
  bl_n l' = bl_n l ∧ bl_capacity l' = bl_capacity l ∧ bl_element_size l' = bl_element_size l ∧
  bl_data l' = bl_data l ∧ bl_ids l' = bl_ids l ∧
  bl_data_alloc l' = (if ok_data then bl_element_size l * new_size else bl_data_alloc l) ∧
  bl_ids_alloc l' = (if ok_data && ok_ids then new_size else bl_ids_alloc l) ∧
  ok = ok_data && ok_ids.
Proof.
  intros Hwf Hn Hp Hb. pose proof (wf_size _ Hwf). pose proof (wf_n_data _ Hwf).
  pose proof (wf_n_ids _ Hwf). unfold resize. destruct (new_size =? 0) eqn:E0; [lia|].
  rewrite u32_small by nia. unfold zlen in *.
  assert (take (Z.to_nat (bl_element_size l * new_size / bl_element_size l)) (bl_data l) = bl_data l) as Et.
  { rewrite Z.mul_comm, Z.div_mul by lia. apply take_ge. lia. }
  assert (take (Z.to_nat new_size) (bl_ids l) = bl_ids l) as Ei by (apply take_ge; lia).
  destruct ok_data, ok_ids; cbn [negb andb]; intros [= <- <-]; cbn;
    rewrite ?Et, ?Ei; repeat split.
Qed.

Lemma grow_for_add_ok l ok_data ok_ids ok l' :
  wf l → (bl_n l + bl_n l / 2 + 1) * bl_element_size l < 2 ^ 32 →
  grow_for_add ok_data ok_ids l = (ok, l') →
  wf l' ∧ bl_data l' = bl_data l ∧ bl_ids l' = bl_ids l ∧
  bl_element_size l' = bl_element_size l ∧ bl_n l' = bl_n l ∧
  ok = (negb (bl_n l =? bl_capacity l) || (ok_data && ok_ids)) ∧
  (ok = true → bl_n l < bl_capacity l').
Proof.
  intros Hwf Hb. pose proof (wf_size _ Hwf) as Hs. pose proof (wf_capacity _ Hwf) as Hc.
  pose proof (wf_n_data _ Hwf) as Hn. pose proof (zlen_nonneg (bl_data l)).
  pose proof (wf_data_bytes _ Hwf). pose proof (wf_data_alloc _ Hwf). pose proof (wf_ids_alloc _ Hwf).
  unfold grow_for_add. destruct (bl_n l =? bl_capacity l) eqn:E0; cbn [negb orb].
  2: { intros [= <- <-]. split_and!; try done. intros _. lia. }
  assert (0 <= bl_n l / 2) by wrap_lia.
  rewrite u32_small by nia.
  destruct (resize ok_data ok_ids l (bl_n l + bl_n l / 2 + 1)) as [b lr] eqn:Er.
  apply resize_keeps in Er; [|done|lia|lia|nia].
  destruct Er as (En & Ec & Ee & Ed & Ei & Eda & Eia & ->).
  destruct Hwf. destruct ok_data, ok_ids; cbn [negb andb]; intros [= <- <-];
    cbn [negb andb] in *; (split; [constructor; cbn; rewrite ?Ed, ?Ei, ?Ee, ?En, ?Ec; nia || done
                     |cbn; split_and!; try done; try lia]).
Qed.

Lemma shrink_for_remove_ok l ok_data ok_ids :
  wf l → 0 < bl_n l → ok_data = false ∨ ok_ids = true →
  let l' := shrink_for_remove ok_data ok_ids l in
  wf l' ∧ bl_data l' = bl_data l ∧ bl_ids l' = bl_ids l ∧
  bl_element_size l' = bl_element_size l ∧ bl_n l' = bl_n l.
Proof.
  intros Hwf Hpos Hok. pose proof (wf_size _ Hwf) as Hs. pose proof (wf_capacity _ Hwf) as Hc.
  pose proof (wf_data_bytes _ Hwf). pose proof (wf_data_alloc _ Hwf). pose proof (wf_ids_alloc _ Hwf).
  unfold shrink_for_remove. destruct (bl_n l <? bl_capacity l / 2) eqn:E0; cbn zeta; [|split_and!; done].
  assert (bl_capacity l / 2 <= bl_capacity l) by wrap_lia.
  destruct (resize ok_data ok_ids l (bl_capacity l / 2)) as [b lr] eqn:Er.
  apply resize_keeps in Er; [|done|lia|lia|nia].
  destruct Er as (En & Ec & Ee & Ed & Ei & Eda & Eia & ->).
  destruct Hwf. destruct ok_data, ok_ids; cbn [negb andb] in *;
    try (destruct Hok; discriminate);
    (split; [constructor; cbn; rewrite ?Ed, ?Ei, ?Ee, ?En, ?Ec; nia || done
            |cbn; split_and!; try done; try lia]).
Qed.

(** ** Theorems *)

(** On a well-formed table [bs_list_find] terminates without reading
    outside the arrays and returns the id the table maps the element to, or -1
    when the element is absent. *)
Lemma bs_list_find_run l key :
  wf l → zlen key = bl_element_size l →
  bs_list_find l key = Some (default (-1) (to_map l !! key)).
Proof.
  intros Hwf Hk. destruct (find_correct l key Hwf Hk) as (r & Hr & Hs).
  unfold bs_list_find. rewrite Hr. cbn [mbind option_bind].
  destruct (r <? 0) eqn:E.
  - erewrite find_spec_absent by (eauto; lia). done.
  - destruct (find_spec_found _ _ _ Hwf Hs) as (id & -> & ->); [lia|done].
Qed.

Lemma insert_at_ok l i key id :
  wf l → zlen key = bl_element_size l → bl_n l < bl_capacity l → bl_n l + 1 < 2 ^ 31 →
  i < 0 → find_spec (bl_data l) key i →
  ∃ l', insert_at l (Z.lnot i) key id = Some l' ∧ wf l' ∧ to_map l' = <[key:=id]> (to_map l) ∧
    bl_element_size l' = bl_element_size l ∧ bl_n l' = bl_n l + 1.
Proof.
  intros Hwf Hk Hc Hn Hi Hs. unfold find_spec in Hs. cases_in Hs; [lia|].
  destruct Hs as (Hp & Hlo & Hhi). pose proof (wf_lengths _ Hwf) as Hl.
  pose proof Hwf as [W1 W2 W3 W4 W5 W6 W7 W8 W9 W10].
  unfold insert_at. unfold zlen in *.
  replace ((bl_n l + 1) * bl_element_size l <=? bl_data_alloc l) with true by nia.
  replace (bl_n l + 1 <=? bl_ids_alloc l) with true by lia.
  rewrite u32_small by lia. set (k := Z.to_nat (Z.lnot i)).
  assert (ascending (take k (bl_data l) ++ key :: drop k (bl_data l))) as Ha.
  { apply ascending_insert; [lia|done| |]; intros j x Hx Hj;
      [eapply Hlo|eapply Hhi]; eauto; lia. }
  eexists; split; [done|]. split.
  - constructor; cbn; unfold zlen; rewrite ?length_app; cbn [length];
      rewrite ?length_take, ?length_drop; try lia; try done.
    apply Forall_app; split; [by apply Forall_take|]. constructor; [done|]. by apply Forall_drop.
  - split; [|done]. unfold to_map. cbn. apply to_map_insert_at; [done|]. by apply ascending_NoDup.
Qed.

(** [bs_list_add] never touches memory outside its allocations and keeps
    the table well formed whatever the allocator answers; it inserts exactly
    when the element is new and the arrays could be grown, and changes nothing
    in the map otherwise. *)
Lemma bs_list_add_run l ok_data ok_ids key id :
  wf l → zlen key = bl_element_size l → bl_n l + 1 < 2 ^ 31 →
  (bl_n l + bl_n l / 2 + 1) * bl_element_size l < 2 ^ 32 →
  ∃ b l', bs_list_add ok_data ok_ids l key id = Some (b, l') ∧ wf l' ∧
    b = (bool_decide (to_map l !! key = None) &&
         (negb (bl_n l =? bl_capacity l) || (ok_data && ok_ids))) ∧
    to_map l' = (if b then <[key:=id]> (to_map l) else to_map l) ∧
    bl_element_size l' = bl_element_size l ∧ bl_n l' = bl_n l + (if b then 1 else 0).
Proof.
  intros Hwf Hk Hn Hb. destruct (find_correct l key Hwf Hk) as (r & Hr & Hs).
  unfold bs_list_add. rewrite Hr. cbn [mbind option_bind].
  destruct (0 <=? r) eqn:E.
  - destruct (find_spec_found _ _ _ Hwf Hs) as (x & _ & Hm); [lia|].
    exists false, l. rewrite Hm. split_and!; try done; lia.
  - rewrite (find_spec_absent _ _ _ Hwf Hs) by lia.
    destruct (grow_for_add ok_data ok_ids l) as [ok lg] eqn:Eg.
    apply grow_for_add_ok in Eg as (Wg & Ed & Ei & Ee & En & -> & Hc); [|done|done].
    set (ok := negb _ || _) in *. rewrite bool_decide_true by done. cbn [andb].
    destruct ok; cbn [negb].
    + destruct (insert_at_ok lg r key id) as (l' & Hl' & W' & M' & Es & Hn');
        [done|congruence|rewrite En; by apply Hc|lia|lia|by rewrite Ed|].
      exists true, l'. rewrite Hl'. cbn. split_and!; try done; [|by rewrite Es, Ee|lia].
      rewrite M'. unfold to_map. by rewrite Ed, Ei.
    + exists false, lg. split_and!; try done; [|lia]. unfold to_map. by rewrite Ed, Ei.
Qed.

(** [bs_list_remove] removes exactly the given element with the given id,
    keeps the table well formed and stays inside its allocations, as long as
    the second [realloc] of a shrinking table does not fail after the first
    succeeded. *)
Lemma bs_list_remove_run l ok_data ok_ids key id :
  wf l → zlen key = bl_element_size l → ok_data = false ∨ ok_ids = true →
  ∃ b l', bs_list_remove ok_data ok_ids l key id = Some (b, l') ∧ wf l' ∧
    b = bool_decide (to_map l !! key = Some id) ∧
    to_map l' = (if b then delete key (to_map l) else to_map l) ∧
    bl_element_size l' = bl_element_size l ∧ bl_n l' = bl_n l - (if b then 1 else 0).
Proof.
  intros Hwf Hk Hok. destruct (find_correct l key Hwf Hk) as (r & Hr & Hs).
  unfold bs_list_remove. rewrite Hr. cbn [mbind option_bind].
  destruct (r <? 0) eqn:E.
  { exists false, l. rewrite (find_spec_absent _ _ _ Hwf Hs) by lia. split_and!; try done; lia. }
  destruct (find_spec_found _ _ _ Hwf Hs) as (x & Hx & Hm); [lia|].
  rewrite Hx. cbn [mbind option_bind]. rewrite Hm.
  destruct (x =? id) eqn:Ex; cbn [negb].
  2: { exists false, l. rewrite bool_decide_false; [split_and!; try done; lia|]. intros [= ->]. lia. }
  rewrite bool_decide_true by (f_equal; lia).
  unfold find_spec in Hs. cases_in Hs; [|lia].
  pose proof (lookup_lt_Some _ _ _ Hs) as Hlt.
  pose proof (wf_n_data _ Hwf). unfold zlen in *.
  destruct (shrink_for_remove_ok l ok_data ok_ids Hwf ltac:(lia) Hok) as (W & Ed & Ei & Ee & En).
  set (ls := shrink_for_remove ok_data ok_ids l) in *.
  pose proof (wf_lengths _ W) as Hl. pose proof W as [W1 W2 W3 W4 W5 W6 W7 W8 W9 W10].
  unfold delete_at. replace (bl_n ls * bl_element_size ls <=? bl_data_alloc ls) with true by nia.
  replace (bl_n ls <=? bl_ids_alloc ls) with true by lia. cbn [mbind option_bind].
  rewrite u32_small by lia. unfold zlen in *. rewrite Ed, Ei in *. eexists _, _. split; [done|]. split_and!; [|done| |exact Ee|cbn; lia].
  - constructor; cbn; unfold zlen; rewrite ?length_app, ?length_take, ?length_drop; try lia; try done.
    + apply Forall_app; split; [by apply Forall_take|by apply Forall_drop].
    + by apply ascending_delete.
  - unfold to_map. cbn. apply to_map_delete_at; [congruence|by apply ascending_NoDup|done].
Qed.

Lemma ascending_sorted d : StronglySorted (fun x y => memcmp x y < 0) d → ascending d.
Proof.
  induction 1 as [|x d Hd IH Hx]; intros i j a b Hij Ha Hb; [done|].
  destruct i as [|i], j as [|j]; simpl in *; simplify_eq; try lia.
  - by apply (proj1 (Forall_lookup _ _) Hx j).
  - eapply IH; [|exact Ha|exact Hb]. lia.
Qed.

Definition sample : BS_List := mkBSList 2 8 2 [[1; 0]; [3; 0]] 16 [7; 9] 8.

Lemma sample_wf : wf sample.
Proof.
  constructor; cbn; try done; try lia; [repeat constructor|].
  apply ascending_sorted. repeat constructor.
Qed.

(** ** Any sequence of operations *)

Inductive Table_Op :=
  | TFind (key : bytes)
  | TAdd (ok_data ok_ids : bool) (key : bytes) (id : Z)
  | TRemove (ok_data ok_ids : bool) (key : bytes) (id : Z).

Inductive Table_Result := RId (id : Z) | RBool (b : bool).

Definition run_table_op (op : Table_Op) (l : BS_List) : option (Table_Result * BS_List) :=
  match op with
  | TFind key => id ← bs_list_find l key; Some (RId id, l)
  | TAdd ok1 ok2 key id => '(b, l) ← bs_list_add ok1 ok2 l key id; Some (RBool b, l)
  | TRemove ok1 ok2 key id => '(b, l) ← bs_list_remove ok1 ok2 l key id; Some (RBool b, l)
  end.

Fixpoint run_table (ops : list Table_Op) (l : BS_List) : option (list Table_Result * BS_List) :=
  match ops with
  | [] => Some ([], l)
  | op :: ops' => '(r, l) ← run_table_op op l; '(rs, l) ← run_table ops' l; Some (r :: rs, l)
  end.

(** What the operations do to a finite map: an addition fails only for a key that
    is there or when memory was refused. *)
Inductive map_op (m : gmap bytes Z) : Table_Op → Table_Result → gmap bytes Z → Prop :=
  | map_find key : map_op m (TFind key) (RId (default (-1) (m !! key))) m
  | map_add ok1 ok2 key id : m !! key = None → map_op m (TAdd ok1 ok2 key id) (RBool true) (<[key:=id]> m)
  | map_not_added ok1 ok2 key id : m !! key ≠ None ∨ ok1 && ok2 = false → map_op m (TAdd ok1 ok2 key id) (RBool false) m
  | map_remove ok1 ok2 key id : m !! key = Some id → map_op m (TRemove ok1 ok2 key id) (RBool true) (delete key m)
  | map_not_removed ok1 ok2 key id : m !! key ≠ Some id → map_op m (TRemove ok1 ok2 key id) (RBool false) m.

Inductive map_run (m : gmap bytes Z) : list Table_Op → list Table_Result → gmap bytes Z → Prop :=
  | map_run_nil : map_run m [] [] m
  | map_run_cons op ops r rs m1 m2 : map_op m op r m1 → map_run m1 ops rs m2 → map_run m (op :: ops) (r :: rs) m2.

(** Keys of the right size; no shrinking [realloc] fails after its first half. *)
Definition table_op_ok (size : Z) (op : Table_Op) : Prop :=
  match op with
  | TFind key | TAdd _ _ key _ => zlen key = size
  | TRemove ok1 ok2 key _ => zlen key = size ∧ (ok1 = false ∨ ok2 = true)
  end.

(** There is room for [n] more elements. *)
Definition room (n : Z) (l : BS_List) : Prop :=
  bl_n l + n < 2 ^ 31 ∧ (2 * (bl_n l + n) + 1) * bl_element_size l < 2 ^ 32.

Lemma table_op_run l op : wf l → table_op_ok (bl_element_size l) op → room 1 l →
  ∃ r l', run_table_op op l = Some (r, l') ∧ wf l' ∧ map_op (to_map l) op r (to_map l') ∧
    bl_element_size l' = bl_element_size l ∧ bl_n l' <= bl_n l + 1.
Proof.
  intros Hwf Hop [Hr1 Hr2]. pose proof (wf_size l Hwf) as Hsz. assert (0 <= bl_n l) as Hn0 by (rewrite (wf_n_data l Hwf); apply zlen_nonneg).
  destruct op as [key|ok1 ok2 key id|ok1 ok2 key id]; cbn [run_table_op table_op_ok] in *.
  - rewrite bs_list_find_run by done. eexists _, _. split; [reflexivity|]. split; [done|]. split; [constructor|]. lia.
  - destruct (bs_list_add_run l ok1 ok2 key id) as (b & l' & -> & W & Eb & Em & Es & Hn); [done|done|lia| |].
    { assert (bl_n l / 2 <= bl_n l) by (apply Z.div_le_upper_bound; lia). nia. }
    eexists _, _. split; [reflexivity|]. split; [done|]. split; [|split; [done|destruct b; lia]]. rewrite Em.
    case_bool_decide as Ek; cbn [andb] in Eb; [|subst b; constructor; by left].
    destruct b; [by constructor|]. constructor. right. destruct (negb _); [done|]. cbn [orb] in Eb. done.
  - destruct Hop as [Hk Hok]. destruct (bs_list_remove_run l ok1 ok2 key id Hwf Hk Hok) as (b & l' & -> & W & -> & Em & Es & Hn).
    eexists _, _. split; [reflexivity|]. split; [done|]. split; [|split; [done|case_bool_decide; lia]]. rewrite Em.
    case_bool_decide; by constructor.
Qed.

(** C39: Any sequence of operations on a well-formed table is answered as by a
    finite map: every search ends, nothing outside the allocations is read or
    written, whatever the allocator answers (a shrinking table excepted whose
    second [realloc] fails after the first), and the table stays well formed. *)
Theorem bs_list_refines_map (ops : list Table_Op) (l : BS_List) :
  wf l → Forall (table_op_ok (bl_element_size l)) ops → room (zlen ops) l →
  ∃ rs l', run_table ops l = Some (rs, l') ∧ wf l' ∧ map_run (to_map l) ops rs (to_map l').
Proof.
  revert l. induction ops as [|op ops IH]; intros l Hwf Hops Hr; cbn [run_table]; [eexists _, _; split_and!; [done|done|constructor]|].
  apply list.Forall_cons in Hops as [Hop Hops]. unfold room in Hr. rewrite zlen_cons in Hr. pose proof (zlen_nonneg ops). pose proof (wf_size l Hwf).
  destruct (table_op_run l op Hwf Hop) as (r & l1 & -> & W1 & M1 & S1 & N1); [unfold room; nia|]. cbn [mbind option_bind].
  destruct (IH l1 W1) as (rs & l2 & -> & W2 & M2); [by rewrite S1|unfold room; rewrite S1; nia|].
  eexists _, _. split; [reflexivity|]. split; [done|]. by econstructor.
Qed.

Lemma bs_list_refines_map_witness :
  ∃ rs l', run_table [TFind [3; 0]; TAdd true true [2; 0] 5; TRemove true true [1; 0] 7; TFind [1; 0]] sample = Some (rs, l') ∧
    rs = [RId 9; RBool true; RBool true; RId (-1)] ∧ wf l'.
Proof.
  destruct (bs_list_refines_map [TFind [3; 0]; TAdd true true [2; 0] 5; TRemove true true [1; 0] 7; TFind [1; 0]] sample sample_wf)
    as (rs & l' & E & W & _).
  - repeat (apply list.Forall_cons; split; [first [reflexivity|split; [reflexivity|by right]]|]). constructor.
  - split; vm_compute; reflexivity.
  - exists rs, l'. split; [exact E|]. split; [|exact W]. vm_compute in E. by injection E as <- _.
Defined.

(** [n] elements [e, e+1, ..] added one after the other while every allocation
    succeeds. *)
Fixpoint add_all (n : nat) (e : Z) (l : BS_List) : option BS_List :=
  match n with
  | O => Some l
  | S n' => '(_, l) ← bs_list_add true true l [e; 0] e; add_all n' (e + 1) l
  end.

(** When the second [realloc] of a shrinking [bs_list_remove] fails, the
    capacity keeps promising memory the data array has lost: starting from the
    well-formed [sample], three later additions still fit and the fourth writes
    outside the allocation. *)
Theorem bs_list_remove_shrink_hazard :
  ∃ l', bs_list_remove true false sample [1; 0] 7 = Some (true, l') ∧
    bl_data_alloc l' < bl_capacity l' * bl_element_size l' ∧
    is_Some (add_all 3 10 l') ∧ add_all 4 10 l' = None.
Proof.
  eexists. split; [vm_compute; reflexivity|]. split; [done|]. split; [|vm_compute; reflexivity].
  eexists. vm_compute. reflexivity.
Qed.

(** An initialised table is well formed and empty. *)
Lemma bs_list_init_wf ok_data ok_ids element_size initial_capacity l :
  0 < element_size → 0 <= initial_capacity → element_size * initial_capacity < 2 ^ 32 →
  bs_list_init ok_data ok_ids element_size initial_capacity = (1, l) →
  wf l ∧ to_map l = ∅.
Proof.
  intros He Hc Hb. unfold bs_list_init, resize.
  destruct (initial_capacity =? 0) eqn:E0; cbn [negb].
  - intros [= <-]. split; [|done]. constructor; cbn; try done; try nia; by intros ?????.
  - destruct ok_data, ok_ids; cbn; rewrite ?u32_small by nia; intros [= <-].
    rewrite !take_nil. split; [|done]. constructor; cbn; try done; try nia; by intros ?????.
Qed.
