(* ===== verification/PingArray.v ===== *)
(** * PingArray: the pending-ping store of [toxcore/ping_array.c]

    A [Ping_Array] is a ring of entries: a ping that was sent is stored under a
    random 64-bit id whose remainder modulo the ring size is its slot, and the
    answer takes it out again.  [calloc]/[malloc] outcomes and the random
    number are arguments. *)
From S2P Require Import Prelude MonoTime.

(** ** Definitions *)

Record Ping_Array_Entry := mkEntry {
  pe_data : option bytes;   (** [None] is the null pointer *)
  pe_length : Z;
  pe_ping_time : Z;
  pe_ping_id : Z
}.

Definition empty_entry : Ping_Array_Entry := mkEntry None 0 0 0.

Record Ping_Array := mkPingArray {
  pa_entries : list Ping_Array_Entry;
  pa_last_deleted : Z;
  pa_last_added : Z;
  pa_total_size : Z;
  pa_timeout : Z
}.

Definition ping_array_new (alloc alloc_entries : bool) (size timeout : Z) : option Ping_Array :=
  if (size =? 0) || (timeout =? 0) then None
  else if negb (Z.land size (u32 (size - 1)) =? 0) then None
  else if negb alloc then None
  else if negb alloc_entries then None
  else Some (mkPingArray (replicate (Z.to_nat size) empty_entry) 0 0 size timeout).

Definition clear_entry (a : Ping_Array) (index : Z) : Ping_Array :=
  mkPingArray (aset (pa_entries a) index empty_entry) (pa_last_deleted a) (pa_last_added a)
    (pa_total_size a) (pa_timeout a).

Definition set_last_deleted (a : Ping_Array) (d : Z) : Ping_Array :=
  mkPingArray (pa_entries a) d (pa_last_added a) (pa_total_size a) (pa_timeout a).

Definition pa_entry (a : Ping_Array) (index : Z) : Ping_Array_Entry :=
  aget empty_entry (pa_entries a) index.

(** The number of times the loops below can step [last_deleted] before it
    meets [last_added]. *)
Definition pa_window (a : Ping_Array) : Z := u32 (pa_last_added a - pa_last_deleted a).

(** The statements the two loops below share: clear the slot of [last_deleted]
    and advance. *)
Definition delete_next (a : Ping_Array) : Ping_Array :=
  let index := pa_last_deleted a mod pa_total_size a in
  set_last_deleted (clear_entry a index) (u32 (pa_last_deleted a + 1)).

(** The loop of [ping_array_kill], up to the final [free]s. *)
Fixpoint kill_loop (fuel : nat) (a : Ping_Array) : Ping_Array :=
  match fuel with
  | O => a
  | S fuel =>
      if pa_last_deleted a =? pa_last_added a then a
      else kill_loop fuel (delete_next a)
  end.

Definition ping_array_kill (a : Ping_Array) : Ping_Array := kill_loop (Z.to_nat (pa_window a)) a.

(** The loop of [ping_array_clear_timedout]. *)
Fixpoint clear_loop (fuel : nat) (a : Ping_Array) (mono_time : Mono_Time) : Ping_Array :=
  match fuel with
  | O => a
  | S fuel =>
      if pa_last_deleted a =? pa_last_added a then a
      else
        let index := pa_last_deleted a mod pa_total_size a in
        if negb (mono_time_is_timeout mono_time (pe_ping_time (pa_entry a index)) (pa_timeout a)) then a
        else clear_loop fuel (delete_next a) mono_time
  end.

Definition ping_array_clear_timedout (a : Ping_Array) (mono_time : Mono_Time) : Ping_Array :=
  clear_loop (Z.to_nat (pa_window a)) a mono_time.

(** The [if] of [ping_array_add]: free the next slot when it is still in use. *)
Definition make_room (a : Ping_Array) : Ping_Array :=
  let index := pa_last_added a mod pa_total_size a in
  match pe_data (pa_entry a index) with
  | Some _ => clear_entry (set_last_deleted a (u32 (pa_last_added a - pa_total_size a))) index
  | None => a
  end.

(** The stores of [ping_array_add] into the slot [index]. *)
Definition store_entry (a : Ping_Array) (index : Z) (e : Ping_Array_Entry) : Ping_Array :=
  mkPingArray (aset (pa_entries a) index e) (pa_last_deleted a) (u32 (pa_last_added a + 1))
    (pa_total_size a) (pa_timeout a).

(** The id [ping_array_add] computes from the random number. *)
Definition new_ping_id (size rnd index : Z) : Z :=
  let ping_id := rnd / size in
  let ping_id := u64 (ping_id * size) in
  let ping_id := u64 (ping_id + index) in
  if ping_id =? 0 then u64 (ping_id + size) else ping_id.

(** [ping_array_add]: [alloc] is the outcome of [malloc], [rnd] is
    [random_u64]. Returns the ping id, 0 on failure. *)
Definition ping_array_add (a : Ping_Array) (mono_time : Mono_Time) (rnd : Z) (alloc : bool)
    (data : bytes) (length : Z) : Z * Ping_Array :=
  let a := ping_array_clear_timedout a mono_time in
  let index := pa_last_added a mod pa_total_size a in
  let a := make_room a in
  if negb alloc then (0, a)
  else
    let ping_id := new_ping_id (pa_total_size a) rnd index in
    let e := mkEntry (Some (slice 0 length data)) length (mono_time_get mono_time) ping_id in
    (ping_id, store_entry a index e).

(** [ping_array_check]: the length of the stored data and the data copied out,
    or -1. *)
Definition ping_array_check (a : Ping_Array) (mono_time : Mono_Time) (length ping_id : Z) :
    Z * bytes * Ping_Array :=
  if ping_id =? 0 then (-1, [], a)
  else
    let index := ping_id mod pa_total_size a in
    let e := pa_entry a index in
    if negb (pe_ping_id e =? ping_id) then (-1, [], a)
    else if mono_time_is_timeout mono_time (pe_ping_time e) (pa_timeout a) then (-1, [], a)
    else if length <? pe_length e then (-1, [], a)
    else
      match pe_data e with
      | None => (-1, [], a)
      | Some d => (s32 (pe_length e), slice 0 (pe_length e) d, clear_entry a index)
      end.

(** ** Invariant *)

Record wf (a : Ping_Array) : Prop := {
  wf_size : ∃ k, 0 <= k <= 30 ∧ pa_total_size a = 2 ^ k;
  wf_entries : zlen (pa_entries a) = pa_total_size a;
  wf_deleted : is_u32 (pa_last_deleted a);
  wf_added : is_u32 (pa_last_added a);
  wf_timeout : 0 < pa_timeout a < 2 ^ 32;
  wf_window : pa_window a <= 2 * pa_total_size a;
  (** a slot without data is all zero *)
  wf_empty : ∀ i, 0 <= i < pa_total_size a → pe_data (pa_entry a i) = None → pa_entry a i = empty_entry;
  (** a slot with data lies between [last_deleted] and [last_added] *)
  wf_live : ∀ i, 0 <= i < pa_total_size a → pe_data (pa_entry a i) ≠ None →
    ∃ j, 0 <= j < pa_window a ∧ i = (pa_last_deleted a + j) mod pa_total_size a
}.

(** The clock has run for at least one timeout and does not overflow within
    one. *)
Definition clock_ok (a : Ping_Array) (mono_time : Mono_Time) : Prop :=
  pa_timeout a <= mono_time_get mono_time < 2 ^ 63.

(** ** Lemmas *)

Lemma wf_size_pos a : wf a → 0 < pa_total_size a ∧ pa_total_size a <= 2 ^ 30 ∧
  2 ^ 32 mod pa_total_size a = 0 ∧ 2 ^ 64 mod pa_total_size a = 0.
Proof.
  intros Hwf. destruct (wf_size _ Hwf) as (k & Hk & ->).
  split; [apply Z.pow_pos_nonneg; lia|]. split; [apply Z.pow_le_mono_r; lia|].
  split.
  - replace 32 with (32 - k + k) by lia. rewrite Z.pow_add_r by lia. apply Z.mod_mul.
    apply Z.pow_nonzero; lia.
  - replace 64 with (64 - k + k) by lia. rewrite Z.pow_add_r by lia. apply Z.mod_mul.
    apply Z.pow_nonzero; lia.
Qed.

(** Slots are not disturbed by the wrap-around of the 32-bit counters. *)
Lemma u32_mod_size a x : wf a → u32 x mod pa_total_size a = x mod pa_total_size a.
Proof.
  intros Hwf. destruct (wf_size_pos _ Hwf) as (? & _ & Hm & _).
  apply Z.mod_divide in Hm; [|lia]. by apply Z.mod_mod_divide.
Qed.

Lemma slot_range a x : wf a → 0 <= x mod pa_total_size a < pa_total_size a.
Proof. intros Hwf. apply Z.mod_pos_bound. apply (wf_size_pos _ Hwf). Qed.

Lemma pa_entry_clear a i j : wf a → 0 <= i < pa_total_size a → 0 <= j →
  pa_entry (clear_entry a i) j = if i =? j then empty_entry else pa_entry a j.
Proof.
  intros Hwf Hi Hj. pose proof (wf_entries _ Hwf). unfold pa_entry, clear_entry. cbn.
  destruct (Z.eqb_spec i j) as [->|]; [apply aget_aset_eq|apply aget_aset_ne]; lia.
Qed.

Lemma delete_next_window a : wf a → pa_last_deleted a ≠ pa_last_added a →
  0 < pa_window a ∧ pa_window (delete_next a) = pa_window a - 1.
Proof.
  intros Hwf Hne. pose proof (wf_deleted _ Hwf). pose proof (wf_added _ Hwf).
  unfold pa_window, delete_next. cbn. wrap_lia.
Qed.

Lemma window_zero a : wf a → pa_window a = 0 ↔ pa_last_deleted a = pa_last_added a.
Proof.
  intros Hwf. pose proof (wf_deleted _ Hwf). pose proof (wf_added _ Hwf). unfold pa_window. wrap_lia.
Qed.

Lemma delete_next_wf a : wf a → pa_last_deleted a ≠ pa_last_added a → wf (delete_next a).
Proof.
  intros Hwf Hne. destruct (delete_next_window a Hwf Hne) as [Hw Hw'].
  pose proof (slot_range a (pa_last_deleted a) Hwf) as Hs.
  pose proof Hwf as [W1 W2 W3 W4 W5 W6 W7 W8].
  constructor; try (exact W1 || exact W4 || exact W5).
  - cbn. by rewrite zlen_aset.
  - apply u32_range.
  - rewrite Hw'. cbn. lia.
  - intros i Hi. change (pa_entry (delete_next a) i) with
      (pa_entry (clear_entry a (pa_last_deleted a mod pa_total_size a)) i).
    cbn in Hi. rewrite pa_entry_clear by (done || lia). cases; [done|]. by apply W7.
  - intros i Hi. change (pa_entry (delete_next a) i) with
      (pa_entry (clear_entry a (pa_last_deleted a mod pa_total_size a)) i).
    cbn in Hi. rewrite pa_entry_clear by (done || lia). cases; [done|]. intros Hd.
    destruct (W8 i Hi Hd) as (j & Hj & Hij).
    assert (j ≠ 0) by (intros ->; rewrite Z.add_0_r in Hij; lia).
    exists (j - 1). rewrite Hw'. split; [lia|]. cbn.
    rewrite <- Z.add_mod_idemp_l, (u32_mod_size a) by (done || lia).
    rewrite Z.add_mod_idemp_l by lia. rewrite Hij. f_equal. lia.
Qed.

(** *** Clearing what timed out *)

Definition expired (a : Ping_Array) (mono_time : Mono_Time) (i : Z) : bool :=
  mono_time_is_timeout mono_time (pe_ping_time (pa_entry a i)) (pa_timeout a).

Record cleared_from (a a' : Ping_Array) (mono_time : Mono_Time) : Prop := {
  cf_wf : wf a';
  cf_added : pa_last_added a' = pa_last_added a;
  cf_size : pa_total_size a' = pa_total_size a;
  cf_timeout : pa_timeout a' = pa_timeout a;
  cf_window : pa_window a' <= pa_window a;
  cf_entries : ∀ i, 0 <= i < pa_total_size a →
    pa_entry a' i = pa_entry a i ∨ (pa_entry a' i = empty_entry ∧ expired a mono_time i = true)
}.

Lemma cleared_refl a mono_time : wf a → cleared_from a a mono_time.
Proof. intros. constructor; auto; lia. Qed.

Lemma clear_loop_ok mono_time fuel : ∀ a, wf a → pa_window a <= Z.of_nat fuel →
  cleared_from a (clear_loop fuel a mono_time) mono_time ∧
  let a' := clear_loop fuel a mono_time in
  (pa_window a' = 0 ∨ expired a' mono_time (pa_last_deleted a' mod pa_total_size a') = false).
Proof.
  induction fuel as [|fuel IH]; intros a Hwf Hf; cbn [clear_loop].
  { split; [by apply cleared_refl|]. left. unfold pa_window in *. pose proof (u32_range (pa_last_added a - pa_last_deleted a)) as Hr. unfold is_u32 in Hr. lia. }
  destruct (Z.eqb_spec (pa_last_deleted a) (pa_last_added a)) as [E|E].
  { split; [by apply cleared_refl|]. left. by apply window_zero. }
  destruct (delete_next_window a Hwf E) as [Hw Hw'].
  pose proof (slot_range a (pa_last_deleted a) Hwf) as Hs.
  fold (expired a mono_time (pa_last_deleted a mod pa_total_size a)).
  destruct (expired a mono_time (pa_last_deleted a mod pa_total_size a)) eqn:Ex; cbn [negb].
  2: { split; [by apply cleared_refl|]. by right. }
  destruct (IH (delete_next a)) as [[C1 C2 C3 C4 C5 C6] Hend]; [by apply delete_next_wf|lia|].
  split; [|exact Hend]. constructor; [done|by rewrite C2|by rewrite C3|by rewrite C4|lia|].
  intros i Hi. specialize (C6 i Hi).
  assert (pa_entry (delete_next a) i =
    if pa_last_deleted a mod pa_total_size a =? i then empty_entry else pa_entry a i) as Ei
    by (apply (pa_entry_clear a); auto; lia).
  unfold expired in *. rewrite Ei in C6.
  destruct (Z.eqb_spec (pa_last_deleted a mod pa_total_size a) i) as [Heq|]; [|by destruct C6; auto].
  right. subst i. destruct C6 as [C6|[C6 _]]; auto.
Qed.

Lemma clear_timedout_ok mono_time a : wf a →
  let a' := ping_array_clear_timedout a mono_time in
  cleared_from a a' mono_time ∧
  (pa_window a' = 0 ∨ expired a' mono_time (pa_last_deleted a' mod pa_total_size a') = false).
Proof.
  intros Hwf. apply clear_loop_ok; [done|]. unfold pa_window.
  pose proof (u32_range (pa_last_added a - pa_last_deleted a)) as Hr. unfold is_u32 in Hr. lia.
Qed.

(** *** Adding *)

Lemma expired_empty a mono_time i :
  0 < pa_timeout a < 2 ^ 32 → clock_ok a mono_time → pa_entry a i = empty_entry → expired a mono_time i = true.
Proof.
  intros Ht [Hc _] E. unfold expired. rewrite E. cbn [pe_ping_time empty_entry].
  apply is_timeout_spec; lia.
Qed.

(** Every residue lies in a window at least as long as the ring. *)
Lemma window_covers a i : pa_total_size a <= pa_window a → 0 <= i < pa_total_size a →
  ∃ j, 0 <= j < pa_window a ∧ i = (pa_last_deleted a + j) mod pa_total_size a.
Proof.
  intros Hw Hi. exists ((i - pa_last_deleted a) mod pa_total_size a).
  pose proof (Z.mod_pos_bound (i - pa_last_deleted a) (pa_total_size a)).
  split; [lia|]. rewrite Z.add_mod_idemp_r by lia.
  replace (pa_last_deleted a + (i - pa_last_deleted a)) with i by lia. by rewrite Z.mod_small.
Qed.

Lemma make_room_ok a mono_time : wf a → clock_ok a mono_time →
  pa_window a = 0 ∨ expired a mono_time (pa_last_deleted a mod pa_total_size a) = false →
  let a' := make_room a in
  wf a' ∧ pa_window a' < 2 * pa_total_size a ∧
  pa_last_added a' = pa_last_added a ∧ pa_total_size a' = pa_total_size a ∧ pa_timeout a' = pa_timeout a ∧
  pa_entry a' (pa_last_added a mod pa_total_size a) = empty_entry ∧
  (∀ i, 0 <= i < pa_total_size a → i ≠ pa_last_added a mod pa_total_size a → pa_entry a' i = pa_entry a i).
Proof.
  intros Hwf Hc Hd. pose proof Hwf as [W1 W2 W3 W4 W5 W6 W7 W8].
  destruct (wf_size_pos _ Hwf) as (Hp & Hle & _).
  pose proof (slot_range a (pa_last_added a) Hwf) as Hs. cbn zeta. unfold make_room.
  destruct (pe_data (pa_entry a (pa_last_added a mod pa_total_size a))) eqn:E.
  - set (b := set_last_deleted a (u32 (pa_last_added a - pa_total_size a))).
    assert (Hwin : pa_window b = pa_total_size a) by (unfold pa_window, b; cbn; wrap_lia).
    assert (Wb : wf b).
    { constructor; try done; [apply u32_range|rewrite Hwin; cbn; lia|].
      intros i Hi _. apply window_covers; [by rewrite Hwin|done]. }
    assert (∀ i, 0 <= i → pa_entry (clear_entry b (pa_last_added a mod pa_total_size a)) i =
      if pa_last_added a mod pa_total_size a =? i then empty_entry else pa_entry a i) as He.
    { intros i Hi. by apply (pa_entry_clear b). }
    split; [|split; [change (pa_window b < 2 * pa_total_size a); lia|]].
    + constructor; try done; [cbn; by rewrite zlen_aset|apply u32_range
        |change (pa_window b <= 2 * pa_total_size a); lia| |].
      * intros i Hi. rewrite He by (cbn in Hi; lia). cases; [done|]. by apply W7.
      * intros i Hi _. by apply (window_covers b); rewrite ?Hwin.
    + split_and!; try done; [rewrite He by lia; by rewrite Z.eqb_refl|].
      intros i Hi Hne. rewrite He by lia. cases; [lia|done].
  - split; [done|]. split_and!; try done; [|by apply W7].
    destruct (Z.eq_dec (pa_window a) (2 * pa_total_size a)) as [Hw|]; [|lia].
    exfalso. destruct Hd as [Hd|Hd]; [lia|].
    replace (pa_last_deleted a mod pa_total_size a) with (pa_last_added a mod pa_total_size a) in Hd.
    + rewrite (expired_empty a) in Hd; [done|done|done|]. by apply W7.
    + unfold pa_window in Hw.
      assert (pa_last_added a mod pa_total_size a =
              (pa_last_deleted a + 2 * pa_total_size a) mod pa_total_size a) as ->.
      { rewrite <- Hw. rewrite <- Z.add_mod_idemp_r, (u32_mod_size a), Z.add_mod_idemp_r by (done || lia).
        f_equal. lia. }
      by rewrite Z_mod_plus_full.
Qed.

Lemma store_entry_wf a e : wf a → pa_window a < 2 * pa_total_size a → pe_data e ≠ None →
  wf (store_entry a (pa_last_added a mod pa_total_size a) e).
Proof.
  intros Hwf Hw He. pose proof Hwf as [W1 W2 W3 W4 W5 W6 W7 W8].
  destruct (wf_size_pos _ Hwf) as (Hp & Hle & _).
  pose proof (slot_range a (pa_last_added a) Hwf) as Hs.
  set (index := pa_last_added a mod pa_total_size a) in *.
  assert (Hwin : pa_window (store_entry a index e) = pa_window a + 1)
    by (unfold pa_window in *; cbn; wrap_lia).
  assert (∀ i, 0 <= i → pa_entry (store_entry a index e) i = if index =? i then e else pa_entry a i) as Hg.
  { intros i Hi. unfold pa_entry, store_entry. cbn.
    destruct (Z.eqb_spec index i) as [->|]; [apply aget_aset_eq|apply aget_aset_ne]; lia. }
  constructor; try done; [cbn; by rewrite zlen_aset|apply u32_range|rewrite Hwin; cbn; lia| |].
  - intros i Hi. rewrite Hg by (cbn in Hi; lia). cases; [done|]. by apply W7.
  - intros i Hi. rewrite Hg by (cbn in Hi; lia). rewrite Hwin. cbn.
    destruct (Z.eqb_spec index i) as [Hx|]; intros Hd.
    + exists (pa_window a). pose proof (u32_range (pa_last_added a - pa_last_deleted a)) as Hr.
      unfold is_u32 in Hr. split; [unfold pa_window; lia|]. subst i. unfold index, pa_window.
      rewrite <- Z.add_mod_idemp_r, (u32_mod_size a), Z.add_mod_idemp_r by (done || lia).
      f_equal. lia.
    + destruct (W8 i Hi Hd) as (j & Hj & ->). exists j. split; [lia|done].
Qed.

(** *** The ping id *)

Lemma new_ping_id_ok a rnd index : wf a → is_u64 rnd → 0 <= index < pa_total_size a →
  let ping_id := new_ping_id (pa_total_size a) rnd index in
  0 < ping_id < 2 ^ 64 ∧ ping_id mod pa_total_size a = index.
Proof.
  intros Hwf Hr Hi. destruct (wf_size_pos _ Hwf) as (Hp & Hle & _ & Hm).
  apply Z.mod_divide in Hm; [|lia]. destruct Hm as [q Hq]. unfold is_u64 in Hr.
  set (s := pa_total_size a) in *.
  assert (rnd / s < q) by (apply Z.div_lt_upper_bound; lia).
  assert (0 <= rnd / s) by (apply Z.div_pos; lia).
  assert (rnd / s * s + s <= 2 ^ 64) by nia.
  unfold new_ping_id. rewrite !(u64_small (rnd / s * s)), (u64_small (rnd / s * s + index)) by nia.
  destruct (rnd / s * s + index =? 0) eqn:E.
  - assert (rnd / s * s + index = 0) as -> by lia. assert (index = 0) as -> by nia.
    rewrite u64_small by lia. split; [lia|]. apply Z.mod_same. lia.
  - split; [nia|]. rewrite Z.add_comm, Z_mod_plus_full. by apply Z.mod_small.
Qed.

(** *** The operations *)

(** What one [ping_array_add] does to the array. *)
Lemma ping_array_add_ok a mono_time rnd alloc data len : wf a → clock_ok a mono_time →
  let index := pa_last_added a mod pa_total_size a in
  let '(ping_id, a') := ping_array_add a mono_time rnd alloc data len in
  wf a' ∧ pa_total_size a' = pa_total_size a ∧ pa_timeout a' = pa_timeout a ∧
  ping_id = (if alloc then new_ping_id (pa_total_size a) rnd index else 0) ∧
  pa_last_added a' = (if alloc then u32 (pa_last_added a + 1) else pa_last_added a) ∧
  (alloc = true → pa_entry a' index =
     mkEntry (Some (slice 0 len data)) len (mono_time_get mono_time) ping_id) ∧
  (∀ i, 0 <= i < pa_total_size a → i ≠ index → expired a mono_time i = false →
     pa_entry a' i = pa_entry a i).
Proof.
  intros Hwf Hc. cbn zeta. unfold ping_array_add. cbn zeta.
  destruct (clear_timedout_ok mono_time a Hwf) as [[C1 C2 C3 C4 C5 C6] Hd].
  set (a1 := ping_array_clear_timedout a mono_time) in *.
  destruct (make_room_ok a1 mono_time) as (R1 & R2 & R3 & R4 & R5 & R6 & R7);
    [done|unfold clock_ok in *; by rewrite C4|done|].
  set (a2 := make_room a1) in *. rewrite C2, C3 in *. rewrite C4 in R5. rewrite R4.
  pose proof (slot_range a (pa_last_added a) Hwf) as Hs.
  assert (∀ i, 0 <= i < pa_total_size a → i ≠ pa_last_added a mod pa_total_size a →
    expired a mono_time i = false → pa_entry a2 i = pa_entry a i) as Hother.
  { intros i Hi Hne Hx. rewrite R7 by done. destruct (C6 i Hi) as [|[_ Hx']]; [done|congruence]. }
  destruct alloc; cbn [negb]; [|split_and!; done].
  set (e := mkEntry _ _ _ _).
  pose proof (store_entry_wf a2 e R1 ltac:(lia) ltac:(done)) as Ws. rewrite R3, R4 in Ws.
  pose proof (wf_entries _ R1) as Hz. rewrite R4 in Hz.
  split_and!; try done; try (cbn; congruence).
  - intros _. unfold pa_entry, store_entry. cbn. apply aget_aset_eq. lia.
  - intros i Hi Hne Hx. rewrite <- Hother by done. unfold pa_entry, store_entry. cbn.
    apply aget_aset_ne; lia.
Qed.

Lemma ping_array_check_ok a mono_time len ping_id : wf a → 0 <= ping_id →
  wf (ping_array_check a mono_time len ping_id).2.
Proof.
  intros Hwf Hp. pose proof Hwf as [W1 W2 W3 W4 W5 W6 W7 W8].
  pose proof (slot_range a ping_id Hwf) as Hs.
  unfold ping_array_check. cbn zeta. repeat case_match; try done. simpl.
  assert (∀ i, 0 <= i → pa_entry (clear_entry a (ping_id mod pa_total_size a)) i =
    if ping_id mod pa_total_size a =? i then empty_entry else pa_entry a i) as He.
  { intros i Hi. by apply pa_entry_clear. }
  constructor; try done; [cbn; by rewrite zlen_aset| |]; intros i Hi;
    rewrite He by (cbn in Hi; lia); cases; try done; [by apply W7|by apply W8].
Qed.

(** ** Theorems *)

(** Adding a ping (whether or not the allocation succeeds) and checking an
    answer keep the array well formed; in particular every slot in use stays
    between the two counters, which never drift further apart than twice the
    ring, although [ping_array_add] sets [last_deleted] back past slots that
    were already taken out. *)
Theorem ping_array_ops_keep_wf a mono_time rnd alloc data len ping_id :
  wf a → clock_ok a mono_time → 0 <= ping_id →
  wf (ping_array_add a mono_time rnd alloc data len).2 ∧
  wf (ping_array_check a mono_time len ping_id).2.
Proof.
  intros Hwf Hc Hp. split; [|by apply ping_array_check_ok].
  pose proof (ping_array_add_ok a mono_time rnd alloc data len Hwf Hc) as H.
  cbn zeta in H. destruct (ping_array_add a mono_time rnd alloc data len). by destruct H.
Qed.

Lemma kill_loop_empty fuel : ∀ a, wf a → pa_window a <= Z.of_nat fuel →
  pa_last_deleted (kill_loop fuel a) = pa_last_added (kill_loop fuel a) ∧ wf (kill_loop fuel a).
Proof.
  induction fuel as [|fuel IH]; intros a Hwf Hf; cbn [kill_loop].
  - split; [|done]. apply window_zero; [done|].
    pose proof (u32_range (pa_last_added a - pa_last_deleted a)) as Hr.
    unfold is_u32, pa_window in *. lia.
  - destruct (Z.eqb_spec (pa_last_deleted a) (pa_last_added a)) as [E|E]; [done|].
    destruct (delete_next_window a Hwf E). apply IH; [by apply delete_next_wf|lia].
Qed.

(** The loop of [ping_array_kill] ends and releases the data of every
    slot: the array that is freed afterwards holds no pointer any more. *)
Theorem ping_array_kill_frees_all a i :
  wf a → 0 <= i < pa_total_size a → pa_entry (ping_array_kill a) i = empty_entry.
Proof.
  intros Hwf Hi. destruct (kill_loop_empty (Z.to_nat (pa_window a)) a Hwf) as [E W].
  { pose proof (u32_range (pa_last_added a - pa_last_deleted a)) as Hr.
    unfold is_u32, pa_window in *. lia. }
  assert (∀ fuel b, pa_total_size (kill_loop fuel b) = pa_total_size b) as Hsz.
  { induction fuel as [|fuel IH]; intros b; cbn [kill_loop]; [done|]. cases; [done|]. by rewrite IH. }
  fold (ping_array_kill a) in *.
  assert (pa_total_size (ping_array_kill a) = pa_total_size a) as Hs by apply Hsz.
  apply (wf_empty _ W); [lia|].
  destruct (pe_data (pa_entry (ping_array_kill a) i)) eqn:Hd; [|done].
  destruct (wf_live _ W i) as (j & Hj & _); [lia|by rewrite Hd|].
  apply (window_zero _ W) in E. lia.
Qed.

(** A further ping: clock, random number, outcome of the allocation, data and
    its length. *)
Definition Ping : Type := Mono_Time * Z * bool * bytes * Z.

Definition add_ping (a : Ping_Array) (p : Ping) : Ping_Array :=
  let '(mono_time, rnd, alloc, data, len) := p in (ping_array_add a mono_time rnd alloc data len).2.

Definition ping_clock (p : Ping) : Mono_Time := p.1.1.1.1.

(** The entry a ping was stored in survives as long as fewer further pings
    arrive than there are other slots and it does not expire. *)
Lemma entry_survives first e (adds : list Ping) : ∀ a off,
  wf a → 0 <= off → off + zlen adds < pa_total_size a →
  pa_last_added a mod pa_total_size a = (first + 1 + off) mod pa_total_size a →
  pa_entry a (first mod pa_total_size a) = e → 0 <= pe_ping_time e →
  Forall (fun p => clock_ok a (ping_clock p) ∧
            mono_time_get (ping_clock p) < pe_ping_time e + pa_timeout a < 2 ^ 64) adds →
  let a' := fold_left add_ping adds a in
  wf a' ∧ pa_total_size a' = pa_total_size a ∧ pa_timeout a' = pa_timeout a ∧
  pa_entry a' (first mod pa_total_size a) = e.
Proof.
  induction adds as [|[[[[mt rnd] alloc] data] len] adds IH]; intros a off Hwf Ho Hl Ha He Ht HF; [done|].
  inversion HF as [|? ? [Hc Hx] HF']; subst. cbn [fold_left add_ping ping_clock fst snd] in *.
  rewrite zlen_cons in Hl. pose proof (zlen_nonneg adds).
  destruct (wf_size_pos _ Hwf) as (Hp & _).
  pose proof (ping_array_add_ok a mt rnd alloc data len Hwf Hc) as H1. cbn zeta in H1.
  destruct (ping_array_add a mt rnd alloc data len) as [id a1].
  destruct H1 as (W1 & S1 & T1 & _ & A1 & _ & O1). cbn [snd].
  assert (first mod pa_total_size a ≠ pa_last_added a mod pa_total_size a) as Hne.
  { rewrite Ha. intros E. symmetry in E. apply Z.cong_iff_0 in E.
    replace (first + 1 + off - first) with (1 + off) in E by lia.
    rewrite Z.mod_small in E by lia. lia. }
  assert (pa_entry a1 (first mod pa_total_size a) = pa_entry a (first mod pa_total_size a)) as E1.
  { apply O1; [by apply slot_range|done|]. apply is_timeout_false; [lia|pose proof (wf_timeout _ Hwf); lia|lia|lia]. }
  destruct (IH a1 (if alloc then off + 1 else off)) as (R1 & R2 & R3 & R4).
  - done.
  - destruct alloc; lia.
  - rewrite S1. destruct alloc; lia.
  - rewrite S1, A1. destruct alloc; [|done]. rewrite (u32_mod_size a) by done.
    rewrite <- Z.add_mod_idemp_l, Ha, Z.add_mod_idemp_l by lia. f_equal. lia.
  - rewrite S1. exact E1.
  - done.
  - rewrite T1. unfold clock_ok in *. by rewrite T1.
  - rewrite S1 in R4. split_and!; [done|congruence|congruence|done].
Qed.

(** A ping that was stored under an id is found again: after fewer further
    pings than there are other slots, and before it expires, [ping_array_check]
    returns the stored bytes, and a second answer with the same id is refused. *)
Theorem ping_array_roundtrip a mono_time rnd data len adds now buflen ping_id a1 :
  wf a → clock_ok a mono_time → is_u64 rnd → 0 <= len < 2 ^ 31 → len <= zlen data →
  ping_array_add a mono_time rnd true data len = (ping_id, a1) →
  zlen adds + 1 < pa_total_size a →
  Forall (fun p => clock_ok a (ping_clock p) ∧
            mono_time_get (ping_clock p) < mono_time_get mono_time + pa_timeout a) adds →
  mono_time_get now < mono_time_get mono_time + pa_timeout a → len <= buflen →
  let a2 := fold_left add_ping adds a1 in
  ∃ a3, ping_array_check a2 now buflen ping_id = (len, slice 0 len data, a3) ∧
    ping_array_check a3 now buflen ping_id = (-1, [], a3).
Proof.
  intros Hwf Hc Hr Hl Hd Hadd Hn HF Hnow Hb. cbn zeta.
  pose proof (wf_timeout _ Hwf) as Ht. destruct Hc as [Hc1 Hc2].
  pose proof (ping_array_add_ok a mono_time rnd true data len Hwf (conj Hc1 Hc2)) as H1.
  cbn zeta in H1. rewrite Hadd in H1.
  destruct H1 as (W1 & S1 & T1 & Eid & A1 & E1 & _). specialize (E1 eq_refl).
  pose proof (slot_range a (pa_last_added a) Hwf) as Hs.
  destruct (new_ping_id_ok a rnd _ Hwf Hr Hs) as [Hid Hmod]. rewrite <- Eid in Hid, Hmod.
  destruct (entry_survives (pa_last_added a)
    (mkEntry (Some (slice 0 len data)) len (mono_time_get mono_time) ping_id) adds a1 0)
    as (W2 & S2 & T2 & E2).
  - done.
  - lia.
  - rewrite S1. lia.
  - rewrite S1, A1, (u32_mod_size a) by done. f_equal. lia.
  - by rewrite S1.
  - cbn. lia.
  - cbn. rewrite T1. eapply Forall_impl; [|exact HF]. intros p [Hp1 Hp2].
    unfold clock_ok in *. rewrite T1. lia.
  - set (a2 := fold_left add_ping adds a1) in *. rewrite S1 in *.
    rewrite T1 in T2. rewrite <- Hmod in E2. 
    assert (ping_array_check a2 now buflen ping_id =
      (len, slice 0 len data, clear_entry a2 (ping_id mod pa_total_size a))) as Hcheck.
    { unfold ping_array_check. rewrite S2, E2, T2. cbn.
      replace (ping_id =? 0) with false by lia. rewrite Z.eqb_refl. cbn [negb].
      replace (mono_time_is_timeout _ _ _) with false by (symmetry; apply is_timeout_false; lia).
      replace (buflen <? len) with false by lia. rewrite s32_small by lia.
      do 2 f_equal. unfold slice. rewrite drop_0, take_take. f_equal. lia. }
    eexists. split; [exact Hcheck|]. unfold ping_array_check.
    replace (ping_id =? 0) with false by lia. cbn [pa_total_size clear_entry]. rewrite S2.
    rewrite pa_entry_clear by (rewrite ?S2; try apply slot_range; auto; lia).
    rewrite Z.eqb_refl. cbn [pe_ping_id empty_entry].
    replace (0 =? ping_id) with false by lia. done.
Qed.

(** A new array is well formed. *)
Lemma ping_array_new_wf k timeout a : 0 <= k <= 30 → 0 < timeout < 2 ^ 32 →
  ping_array_new true true (2 ^ k) timeout = Some a → wf a.
Proof.
  intros Hk Ht. assert (0 < 2 ^ k) by (apply Z.pow_pos_nonneg; lia).
  unfold ping_array_new. repeat case_match; try done. intros [= <-].
  assert (∀ i, pa_entry (mkPingArray (replicate (Z.to_nat (2 ^ k)) empty_entry) 0 0 (2 ^ k) timeout) i
    = empty_entry) as He.
  { intros i. unfold pa_entry, aget. cbn.
    destruct (replicate (Z.to_nat (2 ^ k)) empty_entry !! Z.to_nat i) eqn:E; [|done].
    by apply lookup_replicate in E as [-> _]. }
  constructor; cbn [pa_total_size pa_entries pa_timeout pa_last_deleted pa_last_added]; try done.
  - by exists k.
  - unfold zlen. rewrite length_replicate. lia.
  - change (0 <= 2 * 2 ^ k). lia.
  - intros i Hi. by rewrite He.
Qed.

Definition sample : Ping_Array := mkPingArray (replicate 4 empty_entry) 0 0 4 5.
Definition sample_clock : Mono_Time := mkMonoTime 100 0.

Lemma ping_sample_wf : wf sample.
Proof. apply (ping_array_new_wf 2 5); [lia|lia|reflexivity]. Qed.

Lemma ping_array_ops_keep_wf_witness :
  wf (ping_array_add sample sample_clock 77 true [1; 2; 3] 3).2 ∧
  wf (ping_array_check sample sample_clock 3 9).2.
Proof.
  apply (ping_array_ops_keep_wf sample sample_clock 77 true [1; 2; 3] 3 9); [apply ping_sample_wf| |lia].
  unfold clock_ok. cbn. lia.
Defined.

Lemma ping_array_kill_frees_all_witness :
  pa_entry (ping_array_kill (ping_array_add sample sample_clock 77 true [1; 2; 3] 3).2) 0 = empty_entry.
Proof.
  apply (ping_array_kill_frees_all (ping_array_add sample sample_clock 77 true [1; 2; 3] 3).2 0).
  - pose proof (ping_array_add_ok sample sample_clock 77 true [1; 2; 3] 3 ping_sample_wf) as H.
    cbn zeta in H. destruct (ping_array_add sample sample_clock 77 true [1; 2; 3] 3).
    apply H. unfold clock_ok. cbn. lia.
  - vm_compute. split; [discriminate|reflexivity].
Defined.

Lemma ping_array_roundtrip_witness :
  ∃ a3, ping_array_check (fold_left add_ping [(sample_clock, 5, true, [7], 1)]
          (ping_array_add sample sample_clock 77 true [1; 2; 3] 3).2) sample_clock 3 76
        = (3, [1; 2; 3], a3) ∧
    ping_array_check a3 sample_clock 3 76 = (-1, [], a3).
Proof.
  apply (ping_array_roundtrip sample sample_clock 77 [1; 2; 3] 3 [(sample_clock, 5, true, [7], 1)]
    sample_clock 3 76 (ping_array_add sample sample_clock 77 true [1; 2; 3] 3).2 ping_sample_wf).
  - unfold clock_ok. cbn. lia.
  - unfold is_u64. lia.
  - lia.
  - unfold zlen. cbn. lia.
  - reflexivity.
  - unfold zlen. cbn. lia.
  - repeat constructor; unfold clock_ok; cbn; lia.
  - unfold zlen. cbn. lia.
  - lia.
Defined.
