(* ===== verification/CryptoCore.v ===== *)
(** * CryptoCore: the wrappers of [toxcore/crypto_core.c] around libsodium

    libsodium is not part of the repository: the class [Sodium] lists the
    functions of it that the code calls, and [SodiumLaws] what their
    documentation promises.  Everything that encrypts, authenticates or hashes
    takes the class as a parameter; [toy_sodium] at the end is a concrete
    instance that satisfies the laws.  The functions that work on bytes alone
    (nonces, keys) are modelled in full. *)
From S2P Require Import Prelude.

(** ** Sizes *)

Definition CRYPTO_PUBLIC_KEY_SIZE : Z := 32.
Definition CRYPTO_SECRET_KEY_SIZE : Z := 32.
Definition CRYPTO_SHARED_KEY_SIZE : Z := 32.
Definition CRYPTO_SYMMETRIC_KEY_SIZE : Z := 32.
Definition CRYPTO_MAC_SIZE : Z := 16.
Definition CRYPTO_NONCE_SIZE : Z := 24.
Definition CRYPTO_SHA512_SIZE : Z := 64.
Definition crypto_box_ZEROBYTES : Z := 32.
Definition crypto_box_BOXZEROBYTES : Z := 16.
Definition crypto_box_MACBYTES : Z := 16.
Definition crypto_box_NONCEBYTES : Z := 24.

Definition zeros (n : Z) : bytes := replicate (Z.to_nat n) 0.

(** ** The library *)

(** The libsodium functions the code calls; [None] stands for an error return. *)
Class Sodium := {
  crypto_box_beforenm : bytes → bytes → option bytes;            (** public key, secret key *)
  crypto_box_afternm : bytes → bytes → bytes → option bytes;     (** padded plain text, nonce, key *)
  crypto_box_open_afternm : bytes → bytes → bytes → option bytes; (** padded cipher text, nonce, key *)
  crypto_auth : bytes → bytes → bytes;                           (** data, key *)
  crypto_auth_verify : bytes → bytes → bytes → bool;             (** tag, data, key *)
  crypto_hash_sha512 : bytes → bytes
}.

(** Documented behaviour: boxing a plain text that starts with
    [crypto_box_ZEROBYTES] zeros succeeds and gives a text of the same length
    that starts with [crypto_box_BOXZEROBYTES] zeros; opening exactly inverts
    it; a tag verifies exactly when it is the tag of the data. *)
Class SodiumLaws (S : Sodium) := {
  afternm_total : ∀ m n k, take 32 m = zeros 32 →
    ∃ c, crypto_box_afternm m n k = Some c ∧ length c = length m ∧ take 16 c = zeros 16;
  open_afternm : ∀ m c n k, crypto_box_afternm m n k = Some c → crypto_box_open_afternm c n k = Some m;
  open_genuine : ∀ m c n k, crypto_box_open_afternm c n k = Some m →
    crypto_box_afternm m n k = Some c ∧ take 32 m = zeros 32;
  open_bytes : ∀ m c n k, crypto_box_open_afternm c n k = Some m → bytes_ok c → bytes_ok m;
  auth_verify_spec : ∀ t d k, crypto_auth_verify t d k = true ↔ t = crypto_auth d k;
  auth_length : ∀ d k, length (crypto_auth d k) = 32%nat;
  beforenm_shared : ∀ pk k, length pk = 32%nat → crypto_box_beforenm pk k = None ∨
    ∃ s, crypto_box_beforenm pk k = Some s ∧ length s = 32%nat;
  sha512_length : ∀ d, length (crypto_hash_sha512 d) = 64%nat
}.

(** ** Keys *)

Definition pk_equal (pk1 pk2 : bytes) : bool := bytes_eqb pk1 pk2.
Definition crypto_sha512_eq (cksum1 cksum2 : bytes) : bool := bytes_eqb cksum1 cksum2.

(** The last bit of a key is always zero. *)
Definition public_key_valid (public_key : bytes) : bool := aget 0 public_key 31 <? 128.

(** ** Nonces *)

(** The loop of [increment_nonce_number], walking from the last byte to the
    first; the list holds the bytes in that order. *)
Fixpoint add_carry (nonce num : bytes) (carry : Z) : bytes :=
  match nonce, num with
  | b :: nonce', x :: num' =>
      let carry := carry + (b + x) in
      u8 carry :: add_carry nonce' num' (Z.shiftr carry 8)
  | _, _ => []
  end.

(** [num_as_nonce], last byte first. *)
Definition num_as_nonce (increment : Z) : bytes :=
  [u8 increment; u8 (Z.shiftr increment 8); u8 (Z.shiftr increment 16); u8 (Z.shiftr increment 24)]
  ++ zeros 20.

Definition increment_nonce_number (nonce : bytes) (increment : Z) : bytes :=
  rev (add_carry (rev nonce) (num_as_nonce increment) 0).

(** The loop of [increment_nonce]: the same walk with the carry alone. *)
Fixpoint inc_carry (nonce : bytes) (carry : Z) : bytes :=
  match nonce with
  | [] => []
  | b :: nonce' =>
      let carry := carry + b in
      u8 carry :: inc_carry nonce' (Z.shiftr carry 8)
  end.

Definition increment_nonce (nonce : bytes) : bytes := rev (inc_carry (rev nonce) 1).

Section crypto.
Context {S : Sodium}.

Definition encrypt_precompute (public_key secret_key : bytes) : option bytes :=
  crypto_box_beforenm public_key secret_key.

(** [alloc] is the outcome of the two [crypto_malloc]s. Returns the length of
    the cipher text and the cipher text, or -1. *)
Definition encrypt_data_symmetric (alloc : bool) (shared_key nonce plain : bytes) (length : Z) : Z * bytes :=
  if length =? 0 then (-1, [])
  else if negb alloc then (-1, [])
  else
    let temp_plain := zeros crypto_box_ZEROBYTES ++ slice 0 length plain in
    match crypto_box_afternm temp_plain nonce shared_key with
    | None => (-1, [])
    | Some temp_encrypted =>
        (length + crypto_box_MACBYTES,
         slice crypto_box_BOXZEROBYTES (length + crypto_box_MACBYTES) temp_encrypted)
    end.

Definition decrypt_data_symmetric (alloc : bool) (shared_key nonce encrypted : bytes) (length : Z) : Z * bytes :=
  if length <=? crypto_box_BOXZEROBYTES then (-1, [])
  else if negb alloc then (-1, [])
  else
    let temp_encrypted := zeros crypto_box_BOXZEROBYTES ++ slice 0 length encrypted in
    match crypto_box_open_afternm temp_encrypted nonce shared_key with
    | None => (-1, [])
    | Some temp_plain =>
        (length - crypto_box_MACBYTES,
         slice crypto_box_ZEROBYTES (length - crypto_box_MACBYTES) temp_plain)
    end.

(** [stack] is what the local key buffer holds before the call: the result of
    [encrypt_precompute] is not checked. *)
Definition encrypt_data (alloc : bool) (stack public_key secret_key nonce plain : bytes) (length : Z) : Z * bytes :=
  let k := default stack (encrypt_precompute public_key secret_key) in
  encrypt_data_symmetric alloc k nonce plain length.

Definition decrypt_data (alloc : bool) (stack public_key secret_key nonce encrypted : bytes) (length : Z) : Z * bytes :=
  let k := default stack (encrypt_precompute public_key secret_key) in
  decrypt_data_symmetric alloc k nonce encrypted length.

Definition crypto_hmac (key data : bytes) : bytes := crypto_auth data key.
Definition crypto_hmac_verify (auth key data : bytes) : bool := crypto_auth_verify auth data key.
Definition crypto_sha512 (data : bytes) : bytes := crypto_hash_sha512 data.
End crypto.

(** ** Nonces as numbers *)

(** A nonce is a big-endian number. *)
Definition be_val (l : bytes) : Z := le_val (rev l).

Lemma le_val_app l m : le_val (l ++ m) = le_val l + 256 ^ zlen l * le_val m.
Proof.
  induction l as [|b l IH]; cbn [app le_val]; [change (zlen (@nil Z)) with 0; lia|].
  rewrite IH, zlen_cons, Z.pow_add_r by (try apply zlen_nonneg; lia). lia.
Qed.

Lemma inc_carry_zeros nonce : ∀ carry, inc_carry nonce carry = add_carry nonce (replicate (length nonce) 0) carry.
Proof.
  induction nonce as [|b nonce IH]; intros carry; [done|]. cbn [inc_carry length replicate add_carry].
  by rewrite Z.add_0_r, IH.
Qed.

Lemma length_add_carry nonce : ∀ num carry, length num = length nonce → length (add_carry nonce num carry) = length nonce.
Proof. induction nonce as [|b nonce IH]; intros [|x num] carry H; simpl in *; auto. Qed.

Lemma add_carry_ok nonce : ∀ num carry, bytes_ok (add_carry nonce num carry).
Proof.
  unfold bytes_ok. induction nonce as [|b nonce IH]; intros [|x num] carry; simpl; constructor; auto with cint.
Qed.

(** The walk adds the two numbers and drops the last carry. *)
Lemma add_carry_val nonce : ∀ num carry,
  length num = length nonce →
  le_val (add_carry nonce num carry) = (le_val nonce + le_val num + carry) mod 256 ^ zlen nonce.
Proof.
  induction nonce as [|b nonce IH]; intros [|x num] carry H; simpl in H; try lia.
  - simpl. by rewrite Z.mod_1_r.
  - cbn [add_carry le_val]. rewrite IH by lia. rewrite zlen_cons, Z.pow_add_r by (try apply zlen_nonneg; lia).
    assert (0 < 256 ^ zlen nonce) by (apply Z.pow_pos_nonneg; [lia|apply zlen_nonneg]).
    rewrite Z.shiftr_div_pow2 by lia. change (256 ^ 1) with 256. change (2 ^ 8) with 256.
    rewrite (Z.mul_comm _ 256), Z.rem_mul_r by lia.
    unfold u8. change (2 ^ 8) with 256. set (p := 256 ^ zlen nonce) in *.
    assert ((carry + (b + x)) mod 256 = (b + 256 * le_val nonce + (x + 256 * le_val num) + carry) mod 256) as ->.
    { replace (b + 256 * le_val nonce + (x + 256 * le_val num) + carry)
        with (carry + (b + x) + (le_val nonce + le_val num) * 256) by lia. by rewrite Z_mod_plus_full. }
    do 2 f_equal. replace (b + 256 * le_val nonce + (x + 256 * le_val num) + carry)
        with (carry + (b + x) + (le_val nonce + le_val num) * 256) by lia.
    rewrite Z.div_add by lia. f_equal. lia.
Qed.

Lemma le_val_zeros n : le_val (replicate n 0) = 0.
Proof. induction n; simpl; lia. Qed.

Lemma num_as_nonce_val increment : is_u32 increment → le_val (num_as_nonce increment) = increment.
Proof.
  intros H. unfold num_as_nonce. rewrite le_val_app. unfold zeros. rewrite le_val_zeros.
  cbn [le_val]. rewrite !Z.shiftr_div_pow2 by lia. wrap_lia.
Qed.

Lemma increment_nonce_number_val nonce increment :
  zlen nonce = 24 → is_u32 increment →
  be_val (increment_nonce_number nonce increment) = (be_val nonce + increment) mod 2 ^ 192.
Proof.
  intros Hl Hi. unfold be_val, increment_nonce_number. rewrite rev_involutive.
  unfold zlen in Hl. rewrite add_carry_val by (rewrite length_rev; simpl; lia).
  rewrite num_as_nonce_val by done. unfold zlen. rewrite length_rev, Hl, Z.add_0_r. done.
Qed.

Lemma increment_nonce_val nonce :
  zlen nonce = 24 → be_val (increment_nonce nonce) = (be_val nonce + 1) mod 2 ^ 192.
Proof.
  intros Hl. unfold be_val, increment_nonce. rewrite rev_involutive, inc_carry_zeros.
  unfold zlen in Hl. rewrite add_carry_val by (by rewrite length_replicate).
  rewrite le_val_zeros. unfold zlen. rewrite length_rev, Hl, Z.add_0_r. done.
Qed.

Lemma increment_nonce_number_ok nonce increment : zlen nonce = 24 →
  zlen (increment_nonce_number nonce increment) = 24 ∧ bytes_ok (increment_nonce_number nonce increment).
Proof.
  intros Hl. unfold increment_nonce_number, zlen in *. split.
  - rewrite length_rev, length_add_carry; rewrite length_rev; [lia|]. simpl. lia.
  - apply Forall_rev, add_carry_ok.
Qed.

Lemma increment_nonce_ok nonce : zlen nonce = 24 →
  zlen (increment_nonce nonce) = 24 ∧ bytes_ok (increment_nonce nonce).
Proof.
  intros Hl. unfold increment_nonce, zlen in *. rewrite inc_carry_zeros. split.
  - rewrite length_rev, length_add_carry; rewrite length_rev, ?length_replicate; lia.
  - apply Forall_rev, add_carry_ok.
Qed.

(** Nonces of the same length are equal when their numbers are. *)
Lemma be_val_inj a b : bytes_ok a → bytes_ok b → length a = length b → be_val a = be_val b → a = b.
Proof.
  unfold be_val. intros Ha Hb Hl E. apply (f_equal (le_bytes (length (rev a)))) in E.
  rewrite le_bytes_val in E by (by apply Forall_rev).
  replace (length (rev a)) with (length (rev b)) in E by (by rewrite !length_rev).
  rewrite le_bytes_val in E by (by apply Forall_rev).
  apply (f_equal (@rev Z)) in E. by rewrite !rev_involutive in E.
Qed.

(** ** Encryption and decryption *)

Lemma length_zeros n : length (zeros n) = Z.to_nat n.
Proof. apply length_replicate. Qed.

Lemma zeros_ok n : bytes_ok (zeros n).
Proof. apply Forall_replicate. unfold is_u8. lia. Qed.

Lemma slice_ok off n p : bytes_ok p → bytes_ok (slice off n p).
Proof. intros. by apply Forall_take, Forall_drop. Qed.

Lemma slice_skip (n len : Z) (a b : bytes) : zlen a = n → 0 <= n → slice n len (a ++ b) = slice 0 len b.
Proof.
  unfold slice, zlen. intros Ha Hn. rewrite drop_app_ge by lia.
  replace (Z.to_nat n - length a)%nat with 0%nat by lia. done.
Qed.

Lemma slice_all (len : Z) (a : bytes) : zlen a = len → slice 0 len a = a.
Proof. unfold slice, zlen. intros <-. rewrite drop_0. apply take_ge. lia. Qed.

(** *** Fields of concatenated buffers *)

Lemma slice_app_r (off n : Z) (a b : bytes) :
  zlen a <= off → slice off n (a ++ b) = slice (off - zlen a) n b.
Proof.
  unfold slice, zlen. intros H. rewrite drop_app_ge by lia. do 2 f_equal. lia.
Qed.

Lemma slice_app_l (n : Z) (a b : bytes) : zlen a = n → slice 0 n (a ++ b) = a.
Proof. unfold slice, zlen. intros H. rewrite drop_0. apply take_app_length'. lia. Qed.

Lemma slice_head (off n : Z) (a b : bytes) : off = 0 → zlen a = n → slice off n (a ++ b) = a.
Proof. intros ->. apply slice_app_l. Qed.

Lemma slice_whole (off n : Z) (a : bytes) : off = 0 → zlen a = n → slice off n a = a.
Proof. intros -> <-. by apply slice_all. Qed.

(** Lengths of buffers whose parts have known lengths. *)
Ltac zlens :=
  autorewrite with cintrw in *;
  repeat match goal with H : zlen ?a = _ |- context [zlen ?a] => rewrite H end;
  unfold zlen, zeros in *; cbn [length] in *; rewrite ?length_replicate in *; lia.

(** Finds the field of a concatenation that a slice selects. *)
Ltac slices :=
  repeat (rewrite slice_app_r by zlens);
  first [rewrite slice_head by zlens | rewrite slice_whole by zlens].

Section laws.
Context {S : Sodium} {L : SodiumLaws S}.

Lemma encrypt_data_symmetric_ok key nonce plain len :
  0 < len <= zlen plain →
  ∃ c, encrypt_data_symmetric true key nonce plain len = (len + 16, c) ∧ zlen c = len + 16 ∧
    crypto_box_afternm (zeros 32 ++ slice 0 len plain) nonce key = Some (zeros 16 ++ c).
Proof.
  intros Hl. unfold encrypt_data_symmetric. replace (len =? 0) with false by lia. cbn [negb].
  assert (zlen (slice 0 len plain) = len) as Hp by (apply length_slice; lia).
  destruct (afternm_total (zeros 32 ++ slice 0 len plain) nonce key) as (c & Hc & Hlen & Ht).
  { by rewrite take_app_length'. }
  unfold crypto_box_ZEROBYTES, crypto_box_MACBYTES, crypto_box_BOXZEROBYTES. rewrite Hc.
  unfold zlen in *. rewrite length_app, length_zeros in Hlen.
  exists (drop 16 c). split; [|split].
  - do 2 f_equal. unfold slice. rewrite take_ge; [done|]. rewrite length_drop. lia.
  - rewrite length_drop. lia.
  - rewrite <- Ht. by rewrite take_drop.
Qed.

(** What [encrypt_data_symmetric] produced, [decrypt_data_symmetric] gives back. *)
Lemma decrypt_encrypt key nonce plain len c :
  0 < len <= zlen plain →
  encrypt_data_symmetric true key nonce plain len = (len + 16, c) →
  decrypt_data_symmetric true key nonce c (len + 16) = (len, slice 0 len plain).
Proof.
  intros Hl He. destruct (encrypt_data_symmetric_ok key nonce plain len Hl) as (c' & He' & Hc & Hb).
  rewrite He in He'. simplify_eq. unfold decrypt_data_symmetric, crypto_box_BOXZEROBYTES.
  replace (len + 16 <=? 16) with false by lia. cbn [negb].
  rewrite (slice_all (len + 16)) by done. apply open_afternm in Hb. rewrite Hb.
  unfold crypto_box_MACBYTES, crypto_box_ZEROBYTES. f_equal; [lia|].
  assert (zlen (slice 0 len plain) = len) by (apply length_slice; lia).
  rewrite slice_skip by done. apply slice_all. lia.
Qed.

(** A text that decrypts is one that was encrypted under the same key and nonce. *)
Lemma decrypt_genuine key nonce c len l m :
  zlen c = len → decrypt_data_symmetric true key nonce c len = (l, m) → l ≠ -1 →
  l = len - 16 ∧ zlen m = l ∧ encrypt_data_symmetric true key nonce m l = (len, c).
Proof.
  intros Hc. unfold decrypt_data_symmetric, crypto_box_BOXZEROBYTES.
  destruct (len <=? 16) eqn:E; [intros; simplify_eq; lia|]. cbn [negb].
  rewrite (slice_all len) by done.
  destruct (crypto_box_open_afternm (zeros 16 ++ c) nonce key) as [p|] eqn:Eo; [|intros; simplify_eq; lia].
  unfold crypto_box_MACBYTES, crypto_box_ZEROBYTES. intros [= <- <-] _.
  apply open_genuine in Eo as [Ea Ep].
  assert (length p = (16 + length c)%nat) as Hp.
  { destruct (afternm_total p nonce key Ep) as (c' & Ea' & Hl & _). rewrite Ea in Ea'. simplify_eq.
    rewrite length_app, length_zeros in Hl. lia. }
  assert (slice 32 (len - 16) p = drop 32 p) as Es.
  { unfold slice. unfold zlen in Hc. apply take_ge. rewrite length_drop. lia. }
  rewrite Es. assert (zlen (drop 32 p) = len - 16) as Hd.
  { unfold zlen in *. rewrite length_drop. lia. }
  split; [done|]. split; [done|].
  unfold encrypt_data_symmetric. replace (len - 16 =? 0) with false by lia. cbn [negb].
  rewrite slice_all by done. unfold crypto_box_ZEROBYTES. rewrite <- Ep, take_drop, Ea.
  unfold crypto_box_MACBYTES, crypto_box_BOXZEROBYTES. f_equal; [lia|].
  rewrite slice_skip by done. apply slice_all. lia.
Qed.

Lemma decrypt_ok key nonce c len l m :
  bytes_ok c → decrypt_data_symmetric true key nonce c len = (l, m) → bytes_ok m.
Proof.
  intros Hc. unfold decrypt_data_symmetric. destruct (len <=? _); [intros [= <- <-]; constructor|].
  cbn [negb]. destruct crypto_box_open_afternm as [p|] eqn:E; [|intros [= <- <-]; constructor].
  intros [= <- <-]. apply slice_ok. eapply open_bytes; [exact E|].
  apply Forall_app. split; [apply zeros_ok|by apply slice_ok].
Qed.
(** Encryption of a whole buffer, and its inverse. *)
Lemma encrypt_ok key nonce plain len :
  zlen plain = len → 0 < len →
  ∃ c, encrypt_data_symmetric true key nonce plain len = (len + 16, c) ∧ zlen c = len + 16 ∧
    decrypt_data_symmetric true key nonce c (len + 16) = (len, plain).
Proof.
  intros Hl Hp. destruct (encrypt_data_symmetric_ok key nonce plain len) as (c & E & Hc & _); [lia|].
  exists c. split_and!; [done..|]. rewrite (decrypt_encrypt key nonce plain len c) by (lia || done).
  by rewrite slice_all.
Qed.
End laws.

(** ** A concrete library

    A box keeps the text and puts the first bytes of the key in front of it; the
    key agreement adds the keys and rejects the all-zero public key. *)
Definition toy_tag (k : bytes) : bytes := take 16 (k ++ zeros 16).

Definition toy_afternm (m n k : bytes) : option bytes :=
  if bool_decide (take 32 m = zeros 32) then Some (zeros 16 ++ toy_tag k ++ drop 32 m) else None.

Definition toy_open (c n k : bytes) : option bytes :=
  if bool_decide (take 32 c = zeros 16 ++ toy_tag k) then Some (zeros 32 ++ drop 32 c) else None.

Definition toy_sodium : Sodium := {|
  crypto_box_beforenm pk sk :=
    if bool_decide (pk = zeros 32) then None
    else Some (take 32 (zip_with (λ a b, (a + b) mod 256) pk sk ++ zeros 32));
  crypto_box_afternm := toy_afternm;
  crypto_box_open_afternm := toy_open;
  crypto_auth d k := take 32 (take 8 k ++ d ++ zeros 32);
  crypto_auth_verify t d k := bytes_eqb t (take 32 (take 8 k ++ d ++ zeros 32));
  crypto_hash_sha512 d := take 64 (d ++ zeros 64)
|}.

Lemma length_toy_tag k : length (toy_tag k) = 16%nat.
Proof. unfold toy_tag. rewrite length_take, length_app, length_zeros. lia. Qed.

Lemma toy_sodium_laws : SodiumLaws toy_sodium.
Proof.
  split; cbn [crypto_box_beforenm crypto_box_afternm crypto_box_open_afternm crypto_auth
    crypto_auth_verify crypto_hash_sha512 toy_sodium].
  - intros m n k Hm. unfold toy_afternm. rewrite bool_decide_true by done. eexists. split; [done|].
    assert (length (take 32 m) = 32%nat) as Hl by (rewrite Hm; done). rewrite length_take in Hl.
    rewrite !length_app, length_zeros, length_toy_tag, length_drop. split; [lia|].
    by rewrite take_app_length'.
  - unfold toy_afternm, toy_open. intros m c n k. case_bool_decide as Hm; [|done].
    intros E%(inj Some). subst c.
    rewrite app_assoc. rewrite take_app_length'
      by (rewrite length_app, length_zeros, length_toy_tag; done).
    rewrite bool_decide_true by done. rewrite drop_app_length'
      by (rewrite length_app, length_zeros, length_toy_tag; done).
    rewrite <- Hm. by rewrite take_drop.
  - unfold toy_afternm, toy_open. intros m c n k. case_bool_decide as Hc; [|done].
    intros E%(inj Some). subst m.
    rewrite take_app_length' by done. split; [|done]. rewrite bool_decide_true by done.
    rewrite drop_app_length' by done. rewrite app_assoc, <- Hc. by rewrite take_drop.
  - unfold toy_open. intros m c n k. case_bool_decide; [|done]. intros E%(inj Some) Hc. subst m.
    apply Forall_app. split; [by apply zeros_ok|by apply Forall_drop].
  - intros. unfold bytes_eqb. by rewrite bool_decide_eq_true.
  - intros d k. rewrite length_take, !length_app, length_zeros. lia.
  - intros pk k Hl. case_bool_decide; [by left|]. right. eexists. split; [done|].
    rewrite length_take, length_app, length_zeros. lia.
  - intros d. rewrite length_take, length_app, length_zeros. lia.
Qed.
