(* ===== verification/SharedKeyCache.v ===== *)
(** * SharedKeyCache: the key cache of [toxcore/shared_key_cache.c]

    Shared keys are cached in 256 buckets chosen by byte 8 of the public key.
    A lookup refreshes a hit, evicts what timed out in the bucket and fills a
    miss into the least recently requested slot.

    [encrypt_precompute] comes from the library parameter of [CryptoCore]: the
    shared key for a public and a secret key, or [None] when it reports an
    error, in which case it leaves the output buffer alone. *)
From S2P Require Import Prelude MonoTime CryptoCore.

(** ** Definitions *)

Record Shared_Key := mkSharedKey {
  sk_public_key : bytes;
  sk_shared_key : bytes;
  sk_time_last_requested : Z
}.

Record Shared_Key_Cache := mkCache {
  skc_keys : list Shared_Key;
  skc_self_secret_key : bytes;
  skc_timeout : Z;
  skc_time : Mono_Time;
  skc_keys_per_slot : Z
}.

Definition zero_key : Shared_Key :=
  mkSharedKey (zeros CRYPTO_PUBLIC_KEY_SIZE) (zeros CRYPTO_SHARED_KEY_SIZE) 0.

Definition shared_key_is_empty (k : Shared_Key) : bool := sk_time_last_requested k =? 0.

Definition shared_key_set_empty (k : Shared_Key) : Shared_Key := zero_key.

(** [shared_key_cache_new] with non-null pointers; [alloc] and [alloc_keys] are
    the outcomes of the two [calloc]s.  The field [timeout] is not assigned: it
    keeps the zero of [calloc]. *)
Definition shared_key_cache_new (alloc alloc_keys : bool) (time : Mono_Time) (self_secret_key : bytes)
    (timeout keys_per_slot : Z) : option Shared_Key_Cache :=
  if (timeout =? 0) || (keys_per_slot =? 0) then None
  else if mono_time_get time =? 0 then None
  else if negb alloc then None
  else if negb alloc_keys then None
  else Some (mkCache (replicate (Z.to_nat (256 * keys_per_slot)) zero_key) self_secret_key 0 time keys_per_slot).

(** First loop of [shared_key_cache_lookup]: the index of the entry that holds
    the public key, and the bucket with that entry refreshed. *)
Fixpoint lookup_loop (public_key : bytes) (cur_time : Z) (bucket : list Shared_Key) :
    option nat * list Shared_Key :=
  match bucket with
  | [] => (None, [])
  | k :: rest =>
      if negb (shared_key_is_empty k) && pk_equal public_key (sk_public_key k) then
        (Some 0%nat, mkSharedKey (sk_public_key k) (sk_shared_key k) cur_time :: rest)
      else
        let '(found, rest) := lookup_loop public_key cur_time rest in
        (S <$> found, k :: rest)
  end.

(** Body of the second loop: evict an entry that timed out. *)
Definition housekeep (timeout cur_time : Z) (k : Shared_Key) : Shared_Key :=
  if shared_key_is_empty k then k
  else if u64 (sk_time_last_requested k + timeout) <? cur_time then shared_key_set_empty k
  else k.

(** Third loop: the least recently used entry; [i] is the index of the head. *)
Fixpoint oldest_loop (bucket : list Shared_Key) (i : nat) (oldest_timestamp : Z) (oldest_index : nat) : nat :=
  match bucket with
  | [] => oldest_index
  | k :: rest =>
      if sk_time_last_requested k <? oldest_timestamp
      then oldest_loop rest (S i) (sk_time_last_requested k) i
      else oldest_loop rest (S i) oldest_timestamp oldest_index
  end.

Section lookup.
Context {Sod : Sodium}.

(** The work of [shared_key_cache_lookup] on one bucket: the shared key the
    returned pointer points at (or the null pointer) and the new bucket. *)
Definition bucket_lookup (self_secret_key : bytes) (timeout cur_time : Z) (public_key : bytes)
    (bucket : list Shared_Key) : option bytes * list Shared_Key :=
  let '(found, bucket) := lookup_loop public_key cur_time bucket in
  let bucket := housekeep timeout cur_time <$> bucket in
  match found with
  | Some i => (sk_shared_key <$> bucket !! i, bucket)
  | None =>
      let oldest_index := oldest_loop bucket 0 UINT64_MAX 0 in
      match encrypt_precompute public_key self_secret_key with
      | None => (None, bucket)
      | Some key => (Some key, <[oldest_index := mkSharedKey public_key key cur_time]> bucket)
      end
  end.

(** The bucket is the part of [keys] at [bucket_idx * keys_per_slot]. *)
Definition shared_key_cache_lookup (cache : Shared_Key_Cache) (public_key : bytes) :
    option bytes * Shared_Key_Cache :=
  let cur_time := mono_time_get (skc_time cache) in
  let bucket_idx := aget 0 public_key 8 in
  let start := Z.to_nat (bucket_idx * skc_keys_per_slot cache) in
  let n := Z.to_nat (skc_keys_per_slot cache) in
  let keys := skc_keys cache in
  let '(found, bucket) :=
    bucket_lookup (skc_self_secret_key cache) (skc_timeout cache) cur_time public_key
      (take n (drop start keys)) in
  (found, mkCache (take start keys ++ bucket ++ drop (start + n) keys)
            (skc_self_secret_key cache) (skc_timeout cache) (skc_time cache) (skc_keys_per_slot cache)).

(** ** Invariant *)

(** An entry in use holds the key computed for its public key. *)
Definition entry_ok (self_secret_key : bytes) (k : Shared_Key) : Prop :=
  shared_key_is_empty k = false →
  encrypt_precompute (sk_public_key k) self_secret_key = Some (sk_shared_key k).

Record wf (cache : Shared_Key_Cache) : Prop := {
  wf_per_slot : 0 < skc_keys_per_slot cache < 2 ^ 8;
  wf_length : zlen (skc_keys cache) = 256 * skc_keys_per_slot cache;
  wf_keys : Forall (entry_ok (skc_self_secret_key cache)) (skc_keys cache);
  (** the clock is neither zero nor about to overflow *)
  wf_time : 0 < mono_time_get (skc_time cache);
  wf_timeout : 0 <= skc_timeout cache ∧ mono_time_get (skc_time cache) + skc_timeout cache < 2 ^ 64
}.

(** ** Lemmas *)

Lemma lookup_loop_spec public_key cur_time bucket :
  let '(found, bucket') := lookup_loop public_key cur_time bucket in
  length bucket' = length bucket ∧
  match found with
  | Some i => ∃ k, bucket !! i = Some k ∧ shared_key_is_empty k = false ∧
      sk_public_key k = public_key ∧
      bucket' = <[i := mkSharedKey (sk_public_key k) (sk_shared_key k) cur_time]> bucket
  | None => bucket' = bucket
  end.
Proof.
  induction bucket as [|k rest IH]; cbn [lookup_loop]; [done|].
  destruct (negb (shared_key_is_empty k) && pk_equal public_key (sk_public_key k)) eqn:E.
  - apply andb_true_iff in E as [E1 E2]. apply bool_decide_eq_true in E2.
    split; [done|]. exists k. split_and!; try done. by apply negb_true_iff.
  - destruct (lookup_loop public_key cur_time rest) as [[i|] rest'].
    + destruct IH as [IHl (k' & H1 & H2 & H3 & ->)]. simpl. split; [by f_equal|].
      exists k'. done.
    + destruct IH as [IHl ->]. done.
Qed.

Lemma entry_ok_housekeep sk timeout cur_time k :
  entry_ok sk k → entry_ok sk (housekeep timeout cur_time k).
Proof. intros H. unfold housekeep. cases; [done|by intros [=]|done]. Qed.

Lemma Forall_housekeep sk timeout cur_time bucket :
  Forall (entry_ok sk) bucket → Forall (entry_ok sk) (housekeep timeout cur_time <$> bucket).
Proof. induction 1; simpl; constructor; auto using entry_ok_housekeep. Qed.

(** The bucket computes the same answer as the cryptographic function, and
    stays valid. *)
Lemma bucket_lookup_ok sk timeout cur_time public_key bucket :
  Forall (entry_ok sk) bucket → 0 < cur_time → 0 <= timeout → cur_time + timeout < 2 ^ 64 →
  let '(found, bucket') := bucket_lookup sk timeout cur_time public_key bucket in
  found = encrypt_precompute public_key sk ∧
  length bucket' = length bucket ∧ Forall (entry_ok sk) bucket'.
Proof.
  intros HF Hc Ht Hb. unfold bucket_lookup.
  pose proof (lookup_loop_spec public_key cur_time bucket) as Hl.
  destruct (lookup_loop public_key cur_time bucket) as [[i|] bucket1]; destruct Hl as [Hlen Hl].
  - destruct Hl as (k & Hk & Hne & Hpk & ->).
    pose proof (proj1 (Forall_lookup _ _) HF _ _ Hk Hne) as Hok.
    rewrite list_lookup_fmap, list_lookup_insert_eq by (by eapply lookup_lt_Some).
    cbn [fmap option_fmap option_map]. unfold housekeep at 1, shared_key_is_empty. cbn.
    replace (cur_time =? 0) with false by lia. rewrite u64_small by lia.
    replace (cur_time + timeout <? cur_time) with false by lia. cbn.
    split; [by rewrite <- Hpk|]. split; [by rewrite length_fmap|].
    apply Forall_housekeep, Forall_insert; [done|]. intros _. done.
  - subst bucket1. pose proof (Forall_housekeep sk timeout cur_time bucket HF) as HF'.
    destruct (encrypt_precompute public_key sk) as [key|] eqn:Ek.
    + split; [done|]. split; [by rewrite length_insert, length_fmap|].
      apply Forall_insert; [done|]. intros _. done.
    + split; [done|]. split; [by rewrite length_fmap|done].
Qed.

(** ** Theorems *)

Lemma shared_key_cache_lookup_ok cache public_key :
  wf cache → 0 <= aget 0 public_key 8 < 2 ^ 8 →
  let '(found, cache') := shared_key_cache_lookup cache public_key in
  found = encrypt_precompute public_key (skc_self_secret_key cache) ∧ wf cache' ∧
  skc_self_secret_key cache' = skc_self_secret_key cache.
Proof.
  intros [W1 W2 W3 W4 [W5 W6]] Hpk. unfold shared_key_cache_lookup, zlen in *.
  set (start := Z.to_nat (aget 0 public_key 8 * skc_keys_per_slot cache)).
  set (n := Z.to_nat (skc_keys_per_slot cache)).
  assert (start + n <= length (skc_keys cache))%nat as Hfit by nia.
  pose proof (bucket_lookup_ok (skc_self_secret_key cache) (skc_timeout cache)
    (mono_time_get (skc_time cache)) public_key (take n (drop start (skc_keys cache)))) as H.
  destruct (bucket_lookup _ _ _ _ _) as [found bucket].
  destruct H as (H1 & H2 & H3); [by apply Forall_take, Forall_drop|lia|lia|lia|].
  split; [done|]. split; [|done]. constructor; cbn; try done.
  - unfold zlen. rewrite !length_app, H2, !length_take, !length_drop. lia.
  - repeat (apply Forall_app; split); [by apply Forall_take|done|by apply Forall_drop].
Qed.

(** A cache without keys. *)
Lemma fresh_wf t sk k : 0 < mono_time_get t < 2 ^ 64 → 0 < k < 2 ^ 8 →
  wf (mkCache (replicate (Z.to_nat (256 * k)) zero_key) sk 0 t k).
Proof.
  intros Ht Hk. constructor; cbn [skc_keys skc_keys_per_slot skc_time skc_timeout]; try lia.
  - unfold zlen. rewrite length_replicate. lia.
  - apply Forall_replicate. unfold entry_ok. done.
Qed.

(** A sequence of lookups, each on the cache the one before left behind. *)
Fixpoint lookups (cache : Shared_Key_Cache) (pks : list bytes)
    : list (option bytes) * Shared_Key_Cache :=
  match pks with
  | [] => ([], cache)
  | pk :: pks' =>
      let '(r, cache) := shared_key_cache_lookup cache pk in
      let '(rs, cache) := lookups cache pks' in
      (r :: rs, cache)
  end.

(** The cache is transparent: starting from a valid cache, every lookup of
    any sequence of lookups returns exactly what [encrypt_precompute] computes
    for its public key (the null pointer when that fails), whatever was hit,
    evicted or timed out before, and the cache stays valid. *)
Theorem shared_key_cache_lookup_transparent cache pks :
  wf cache → Forall (λ pk, is_u8 (aget 0 pk 8)) pks →
  (lookups cache pks).1 = (λ pk, encrypt_precompute pk (skc_self_secret_key cache)) <$> pks ∧
  wf (lookups cache pks).2.
Proof.
  intros Hw Hpks. revert cache Hw. induction Hpks as [|pk pks Hpk _ IH]; intros cache Hw; [done|].
  cbn [lookups fmap list_fmap].
  pose proof (shared_key_cache_lookup_ok cache pk Hw Hpk) as H.
  destruct shared_key_cache_lookup as [r cache1]. destruct H as (-> & Hw1 & E1).
  specialize (IH cache1 Hw1). destruct lookups as [rs cache2]. simpl in *.
  destruct IH as [-> ?]. by rewrite E1.
Qed.

End lookup.

(** The timeout a cache is created with is never stored: whatever the
    caller asked for, the new cache evicts an entry as soon as it is older than
    the current second. *)
Theorem shared_key_cache_new_drops_timeout alloc alloc_keys time sk timeout keys_per_slot cache k :
  shared_key_cache_new alloc alloc_keys time sk timeout keys_per_slot = Some cache →
  is_u64 (sk_time_last_requested k) → shared_key_is_empty k = false →
  skc_timeout cache = 0 ∧
  (sk_time_last_requested k < mono_time_get (skc_time cache) →
   housekeep (skc_timeout cache) (mono_time_get (skc_time cache)) k = zero_key).
Proof.
  unfold shared_key_cache_new. repeat case_match; try done. intros [= <-] Hk He.
  cbn. split; [done|]. intros Hlt. unfold housekeep. rewrite He, Z.add_0_r.
  unfold is_u64 in Hk. rewrite u64_small by lia.
  replace (_ <? _) with true by lia. done.
Qed.

(** The slot that a miss overwrites was requested no later than any other. *)
Lemma oldest_loop_spec bucket : ∀ i ts idx,
  let r := oldest_loop bucket i ts idx in
  (r = idx ∧ Forall (fun k => ts <= sk_time_last_requested k) bucket) ∨
  (∃ j k, r = (i + j)%nat ∧ bucket !! j = Some k ∧ sk_time_last_requested k < ts ∧
     Forall (fun k' => sk_time_last_requested k <= sk_time_last_requested k') bucket).
Proof.
  induction bucket as [|k rest IH]; intros i ts idx; cbn [oldest_loop]; [left; done|].
  destruct (sk_time_last_requested k <? ts) eqn:E.
  - right. destruct (IH (S i) (sk_time_last_requested k) i) as [[-> HF]|(j & k' & -> & Hj & Hlt & HF)].
    + exists 0%nat, k. split_and!; [lia|done|lia|]. constructor; [lia|done].
    + exists (S j), k'. split_and!; [lia|done|lia|]. constructor; [lia|done].
  - destruct (IH (S i) ts idx) as [[-> HF]|(j & k' & -> & Hj & Hlt & HF)].
    + left. split; [done|]. constructor; [lia|done].
    + right. exists (S j), k'. split_and!; [lia|done|lia|]. constructor; [lia|done].
Qed.

Definition toy_cache : Shared_Key_Cache :=
  mkCache (replicate 512 zero_key) (replicate 32 5) 0 (mkMonoTime 10 0) 2.

Lemma toy_cache_wf : @wf toy_sodium toy_cache.
Proof.
  constructor; [cbn; lia|vm_compute; reflexivity| |cbn; lia|cbn; lia].
  apply Forall_replicate. by intros [=].
Qed.

Lemma shared_key_cache_lookup_transparent_witness :
  (@lookups toy_sodium toy_cache [replicate 32 3; replicate 32 4; replicate 32 3]).1
  = [Some (replicate 32 8); Some (replicate 32 9); Some (replicate 32 8)].
Proof.
  destruct (@shared_key_cache_lookup_transparent toy_sodium toy_cache
    [replicate 32 3; replicate 32 4; replicate 32 3] toy_cache_wf) as [H _].
  - repeat constructor; vm_compute; congruence.
  - rewrite H. vm_compute. reflexivity.
Defined.

Lemma shared_key_cache_new_drops_timeout_witness :
  ∃ cache, shared_key_cache_new true true (mkMonoTime 10 0) [1] 600 4 = Some cache ∧
    skc_timeout cache = 0 ∧
    housekeep (skc_timeout cache) (mono_time_get (skc_time cache)) (mkSharedKey [1] [2] 9) = zero_key.
Proof.
  eexists. split; [reflexivity|].
  destruct (shared_key_cache_new_drops_timeout true true (mkMonoTime 10 0) [1] 600 4
    (mkCache (replicate 1024 zero_key) [1] 0 (mkMonoTime 10 0) 4) (mkSharedKey [1] [2] 9)) as [H1 H2].
  - reflexivity.
  - unfold is_u64. cbn. lia.
  - reflexivity.
  - split; [exact H1|]. apply H2. cbn. lia.
Defined.
