(* ===== verification/TimedAuth.v ===== *)
(** * TimedAuth: the time-limited tags of [toxcore/timed_auth.c]

    A tag authenticates some data together with the number of the current
    timeout period; checking accepts the current and the previous period. *)
From S2P Require Import Prelude MonoTime CryptoCore.

(** ** Definitions *)

(** [create_timed_auth_to_hash]: the bytes that are hashed.  A null data
    pointer leaves [to_hash] as it was behind the time. *)
Definition create_timed_auth_to_hash (mono_time : Mono_Time) (timeout : Z) (previous : bool)
    (data : option bytes) (length : Z) (to_hash : bytes) : bytes :=
  let t := u64 (mono_time_get mono_time / timeout - (if previous then 1 else 0)) in
  le_bytes 8 t ++
  match data with
  | Some d => slice 0 length d
  | None => drop 8 to_hash
  end.

Section auth.
Context {Sod : Sodium}.

(** [stack] is what the variable length array holds before it is filled. *)
Definition generate_timed_auth (stack : bytes) (mono_time : Mono_Time) (timeout : Z) (key : bytes)
    (data : option bytes) (length : Z) : bytes :=
  crypto_hmac key (create_timed_auth_to_hash mono_time timeout false data length stack).

(** The loop over [i < 2]; the second round reuses the array of the first. *)
Definition check_timed_auth (stack : bytes) (mono_time : Mono_Time) (timeout : Z) (key : bytes)
    (data : option bytes) (length : Z) (timed_auth : bytes) : bool :=
  let to_hash := create_timed_auth_to_hash mono_time timeout false data length stack in
  if crypto_hmac_verify timed_auth key to_hash then true
  else
    let to_hash := create_timed_auth_to_hash mono_time timeout true data length to_hash in
    if crypto_hmac_verify timed_auth key to_hash then true else false.

Context {L : SodiumLaws Sod}.

(** ** Theorems *)

Lemma crypto_hmac_verify_spec auth key data :
  crypto_hmac_verify auth key data = true ↔ auth = crypto_hmac key data.
Proof using L. unfold crypto_hmac_verify, crypto_hmac. apply auth_verify_spec. Qed.

Lemma check_timed_auth_iff stack now timeout key d length auth :
  check_timed_auth stack now timeout key (Some d) length auth = true ↔
  ∃ previous, auth = crypto_hmac key (create_timed_auth_to_hash now timeout previous (Some d) length stack).
Proof using L.
  unfold check_timed_auth. cbn zeta. split.
  - destruct (crypto_hmac_verify auth key _) eqn:E1.
    + intros _. exists false. by apply crypto_hmac_verify_spec.
    + destruct (crypto_hmac_verify auth key _) eqn:E2 in |- *; [|done].
      intros _. exists true. by apply crypto_hmac_verify_spec in E2.
  - intros [[] ->]; cases; try done.
    + rewrite (proj2 (crypto_hmac_verify_spec _ _ _)) in Heqb0; done.
    + rewrite (proj2 (crypto_hmac_verify_spec _ _ _)) in Heqb; done.
Qed.

(** A tag stays valid for at least the timeout and at most twice the
    timeout: it is accepted at any time up to [timeout] seconds after it was
    made, and where it is accepted later the tag must coincide with the tag of
    one of the two periods then current. *)
Theorem timed_auth_window stack stack' made now timeout key d length :
  0 < timeout → 0 <= mono_time_get made < 2 ^ 64 → 0 <= mono_time_get now < 2 ^ 64 →
  let auth := generate_timed_auth stack made timeout key (Some d) length in
  (mono_time_get made <= mono_time_get now <= mono_time_get made + timeout →
   check_timed_auth stack' now timeout key (Some d) length auth = true) ∧
  (check_timed_auth stack' now timeout key (Some d) length auth = true →
   ∃ period, mono_time_get now - 2 * timeout < period * timeout <= mono_time_get now ∧
     auth = crypto_hmac key (le_bytes 8 (u64 period) ++ slice 0 length d)).
Proof using L.
  intros Ht Hm Hn. cbn zeta. rewrite check_timed_auth_iff. unfold generate_timed_auth, create_timed_auth_to_hash.
  split.
  - intros Hw.
    assert (mono_time_get now / timeout = mono_time_get made / timeout ∨
            mono_time_get now / timeout - 1 = mono_time_get made / timeout) as [E|E].
    { assert (mono_time_get made / timeout <= mono_time_get now / timeout) by (apply Z.div_le_mono; lia).
      assert (mono_time_get now / timeout <= (mono_time_get made + 1 * timeout) / timeout)
        by (apply Z.div_le_mono; lia).
      rewrite Z.div_add in * by lia. lia. }
    + exists false. by rewrite E.
    + exists true. by rewrite E, Z.sub_0_r.
  - intros [previous E]. exists (mono_time_get now / timeout - (if previous then 1 else 0)).
    split; [|exact E].
    pose proof (Z.mul_div_le (mono_time_get now) timeout Ht).
    pose proof (Z.mul_succ_div_gt (mono_time_get now) timeout Ht). destruct previous; nia.
Qed.
End auth.

Lemma timed_auth_window_witness :
  check_timed_auth (Sod := toy_sodium) [] (mkMonoTime 130 0) 60 [9] (Some [1; 2]) 2
    (generate_timed_auth (Sod := toy_sodium) [] (mkMonoTime 100 0) 60 [9] (Some [1; 2]) 2) = true.
Proof.
  apply (timed_auth_window (L := toy_sodium_laws) [] [] (mkMonoTime 100 0) (mkMonoTime 130 0) 60 [9] [1; 2] 2);
    cbn; lia.
Defined.
