(* ===== verification/State.v ===== *)
(** * State: the save format of [toxcore/state.c]

    A save file is a sequence of sections, each a little-endian header (length,
    type and cookie) followed by its payload.  The callback that consumes a
    section is an argument working on an arbitrary outer state. *)
From S2P Require Import Prelude.

(** ** Definitions *)

Inductive State_Load_Status :=
  | STATE_LOAD_STATUS_CONTINUE
  | STATE_LOAD_STATUS_ERROR
  | STATE_LOAD_STATUS_END.

Inductive State_Type :=
  | STATE_TYPE_NOSPAMKEYS | STATE_TYPE_DHT | STATE_TYPE_FRIENDS | STATE_TYPE_NAME
  | STATE_TYPE_STATUSMESSAGE | STATE_TYPE_STATUS | STATE_TYPE_GROUPS | STATE_TYPE_TCP_RELAY
  | STATE_TYPE_PATH_NODE | STATE_TYPE_CONFERENCES | STATE_TYPE_END.

Definition state_type_value (t : State_Type) : Z :=
  match t with
  | STATE_TYPE_NOSPAMKEYS => 1
  | STATE_TYPE_DHT => 2
  | STATE_TYPE_FRIENDS => 3
  | STATE_TYPE_NAME => 4
  | STATE_TYPE_STATUSMESSAGE => 5
  | STATE_TYPE_STATUS => 6
  | STATE_TYPE_GROUPS => 7
  | STATE_TYPE_TCP_RELAY => 10
  | STATE_TYPE_PATH_NODE => 11
  | STATE_TYPE_CONFERENCES => 20
  | STATE_TYPE_END => 255
  end.

Definition STATE_COOKIE_TYPE : Z := 462. (* 0x01ce *)

Definition lendian_to_host16 (lendian : Z) : Z := lendian.
Definition host_to_lendian16 (host : Z) : Z := lendian_to_host16 host.
Definition host_to_lendian_bytes64 (num : Z) : bytes := le_bytes 8 num.
Definition lendian_bytes_to_host64 (lendian : bytes) : Z := le_val (slice 0 8 lendian).
Definition host_to_lendian_bytes32 (num : Z) : bytes := le_bytes 4 num.
Definition lendian_bytes_to_host32 (lendian : bytes) : Z := le_val (slice 0 4 lendian).
Definition host_to_lendian_bytes16 (num : Z) : bytes := le_bytes 2 num.
Definition lendian_bytes_to_host16 (lendian : bytes) : Z := le_val (slice 0 2 lendian).

(** The eight bytes [state_write_section_header] writes. *)
Definition state_write_section_header (cookie_type len section_type : Z) : bytes :=
  host_to_lendian_bytes32 len ++
  host_to_lendian_bytes32
    (u32 (Z.lor (Z.shiftl (host_to_lendian16 (u16 cookie_type)) 16) (host_to_lendian16 (u16 section_type)))).

Section load.
Context {Outer : Type}.
Context (state_load_callback : Outer → bytes → Z → Z → State_Load_Status * Outer).

(** The loop of [state_load]: every round consumes at least the header, so
    [length / 8] rounds are enough. *)
Fixpoint state_load_loop (fuel : nat) (outer : Outer) (data : bytes) (length cookie_inner : Z) : Z * Outer :=
  match fuel with
  | O => (-1, outer)
  | S fuel =>
      let size_head := 8 in
      if size_head <=? length then
        let length_sub := lendian_bytes_to_host32 data in
        let cookie_type := lendian_bytes_to_host32 (drop 4 data) in
        let data := drop 8 data in
        let length := length - size_head in
        if length <? length_sub then (-1, outer)
        else if negb (lendian_to_host16 (u16 (Z.shiftr cookie_type 16)) =? cookie_inner) then (-1, outer)
        else
          let type := lendian_to_host16 (u16 (Z.land cookie_type 65535)) in
          let '(status, outer) := state_load_callback outer (slice 0 length_sub data) length_sub type in
          match status with
          | STATE_LOAD_STATUS_CONTINUE =>
              state_load_loop fuel outer (drop (Z.to_nat length_sub) data) (length - length_sub) cookie_inner
          | STATE_LOAD_STATUS_ERROR => (-1, outer)
          | STATE_LOAD_STATUS_END => (0, outer)
          end
      else if negb (length =? 0) then (-1, outer)
      else (0, outer)
  end.

Definition state_load (outer : Outer) (data : bytes) (length cookie_inner : Z) : Z * Outer :=
  state_load_loop (S (Z.to_nat (length / 8))) outer data length cookie_inner.

(** ** The meaning of a save file *)

(** A section: its type and its payload. *)
Definition Section_ : Type := Z * bytes.

Definition write_section (cookie : Z) (s : Section_) : bytes :=
  state_write_section_header cookie (zlen s.2) s.1 ++ s.2.

Definition section_ok (s : Section_) : Prop := is_u16 s.1 ∧ zlen s.2 < 2 ^ 32.

(** What loading a list of sections means: hand each to the callback until it
    stops. *)
Fixpoint run_sections (outer : Outer) (ss : list Section_) : Z * Outer :=
  match ss with
  | [] => (0, outer)
  | s :: ss =>
      let '(status, outer) := state_load_callback outer s.2 (zlen s.2) s.1 in
      match status with
      | STATE_LOAD_STATUS_CONTINUE => run_sections outer ss
      | STATE_LOAD_STATUS_ERROR => (-1, outer)
      | STATE_LOAD_STATUS_END => (0, outer)
      end
  end.

(** ** Lemmas *)

Lemma le32_roundtrip v rest : is_u32 v → lendian_bytes_to_host32 (host_to_lendian_bytes32 v ++ rest) = v.
Proof using.
  intros Hv. unfold lendian_bytes_to_host32, host_to_lendian_bytes32, slice. rewrite drop_0.
  rewrite take_app_length' by (by rewrite length_le_bytes). apply le_val_bytes. exact Hv.
Qed.

Lemma cookie_word cookie type : is_u16 cookie → is_u16 type →
  let w := u32 (Z.lor (Z.shiftl cookie 16) type) in
  u16 (Z.shiftr w 16) = cookie ∧ u16 (Z.land w 65535) = type.
Proof using.
  intros Hc Ht. cbn zeta. unfold is_u16 in *.
  rewrite lor_shiftl_add, u32_small, Z.shiftr_div_pow2 by lia.
  change 65535 with (Z.ones 16). rewrite Z.land_ones by lia. split; wrap_lia.
Qed.

Lemma header_parts cookie len type rest :
  is_u16 cookie → is_u16 type → is_u32 len →
  let d := state_write_section_header cookie len type ++ rest in
  lendian_bytes_to_host32 d = len ∧
  lendian_bytes_to_host32 (drop 4 d) = u32 (Z.lor (Z.shiftl cookie 16) type) ∧
  drop 8 d = rest.
Proof using.
  intros Hc Ht Hl. cbn zeta. unfold state_write_section_header, host_to_lendian16, lendian_to_host16.
  rewrite !u16_small by (unfold is_u16 in *; lia). rewrite <- app_assoc. split; [by apply le32_roundtrip|].
  split.
  - rewrite drop_app_length' by (unfold host_to_lendian_bytes32; by rewrite length_le_bytes).
    apply le32_roundtrip, u32_range.
  - rewrite app_assoc, drop_app_length'; [done|].
    unfold host_to_lendian_bytes32. by rewrite length_app, !length_le_bytes.
Qed.

(** One round of the loop on a well-formed section. *)
Lemma load_round fuel outer cookie s rest :
  is_u16 cookie → section_ok s →
  state_load_loop (S fuel) outer (write_section cookie s ++ rest) (8 + zlen s.2 + zlen rest) cookie =
  let '(status, outer) := state_load_callback outer s.2 (zlen s.2) s.1 in
  match status with
  | STATE_LOAD_STATUS_CONTINUE => state_load_loop fuel outer rest (zlen rest) cookie
  | STATE_LOAD_STATUS_ERROR => (-1, outer)
  | STATE_LOAD_STATUS_END => (0, outer)
  end.
Proof using.
  intros Hc [Ht Hl]. destruct s as [type payload]. cbn [fst snd] in *.
  unfold write_section. cbn [fst snd]. rewrite <- app_assoc.
  pose proof (zlen_nonneg payload). pose proof (zlen_nonneg rest).
  destruct (header_parts cookie (zlen payload) type (payload ++ rest)) as (H1 & H2 & H3);
    [done|done|unfold is_u32; lia|].
  destruct (cookie_word cookie type) as [H4 H5]; [done|done|].
  cbn [state_load_loop]. replace (8 <=? 8 + zlen payload + zlen rest) with true by lia.
  rewrite H1, H2, H3. unfold lendian_to_host16. rewrite H4, H5, Z.eqb_refl. cbn [negb].
  replace (8 + zlen payload + zlen rest - 8 <? zlen payload) with false by lia.
  unfold slice. rewrite drop_0. unfold zlen. rewrite Nat2Z.id, take_app_length, drop_app_length.
  destruct (state_load_callback outer payload (Z.of_nat (length payload)) type) as [[] outer']; try done.
  f_equal. lia.
Qed.

Lemma zlen_write_section cookie s : zlen (write_section cookie s) = 8 + zlen s.2.
Proof using.
  unfold write_section, state_write_section_header, host_to_lendian_bytes32.
  rewrite !zlen_app, !zlen_le_bytes. lia.
Qed.

(** ** Theorems *)

(** Loading a file written section by section calls the callback with
    every section's type and payload in order, stops where the callback says
    so and reports exactly the callback's error: writing and loading are
    inverse to each other. *)
Theorem state_load_sections outer cookie ss :
  is_u16 cookie → Forall section_ok ss →
  let file := concat (write_section cookie <$> ss) in
  state_load outer file (zlen file) cookie = run_sections outer ss.
Proof using.
  intros Hc HF. cbn zeta. unfold state_load.
  assert (∀ fuel outer, zlen (concat (write_section cookie <$> ss)) < 8 * Z.of_nat fuel →
    state_load_loop fuel outer (concat (write_section cookie <$> ss))
      (zlen (concat (write_section cookie <$> ss))) cookie = run_sections outer ss) as H.
  { induction HF as [|s ss Hs HF IH]; intros fuel o Hf;
      match type of Hf with zlen ?l < _ => pose proof (zlen_nonneg l) end;
      (destruct fuel as [|fuel]; [lia|]).
    - done.
    - cbn [fmap list_fmap concat] in *. rewrite zlen_app, zlen_write_section in *.
      pose proof (zlen_nonneg s.2).
      rewrite load_round by done. cbn [run_sections].
      destruct (state_load_callback o s.2 (zlen s.2) s.1) as [[] o']; try done. apply IH. lia. }
  apply H. pose proof (zlen_nonneg (concat (write_section cookie <$> ss))). wrap_lia.
Qed.

(** A file cut off inside a section is rejected without the section ever
    reaching the callback. *)
Theorem state_load_truncated outer cookie type len rest :
  is_u16 cookie → is_u16 type → is_u32 len → zlen rest < len →
  let file := state_write_section_header cookie len type ++ rest in
  state_load outer file (zlen file) cookie = (-1, outer).
Proof using.
  intros Hc Ht Hl Hr. cbn zeta. unfold state_load.
  destruct (header_parts cookie len type rest) as (H1 & H2 & H3); [done..|].
  assert (zlen (state_write_section_header cookie len type ++ rest) = 8 + zlen rest) as ->.
  { unfold state_write_section_header, host_to_lendian_bytes32. rewrite !zlen_app, !zlen_le_bytes. lia. }
  pose proof (zlen_nonneg rest). cbn [state_load_loop].
  replace (8 <=? 8 + zlen rest) with true by lia. rewrite H1.
  by replace (8 + zlen rest - 8 <? len) with true by lia.
Qed.
End load.

(** A callback that records the sections it sees, newest first, and fails on
    type 9. *)
Definition record_section (seen : list (Z * bytes)) (data : bytes) (len type : Z) :
    State_Load_Status * list (Z * bytes) :=
  if type =? 9 then (STATE_LOAD_STATUS_ERROR, seen)
  else (STATE_LOAD_STATUS_CONTINUE, (type, data) :: seen).

Lemma state_load_sections_witness :
  state_load record_section [] (concat (write_section STATE_COOKIE_TYPE <$> [(4, [72; 105]); (6, [0])]))
    (zlen (concat (write_section STATE_COOKIE_TYPE <$> [(4, [72; 105]); (6, [0])]))) STATE_COOKIE_TYPE
  = (0, [(6, [0]); (4, [72; 105])]).
Proof.
  etrans; [apply (state_load_sections record_section [] STATE_COOKIE_TYPE [(4, [72; 105]); (6, [0])])|reflexivity].
  - unfold is_u16, STATE_COOKIE_TYPE. lia.
  - repeat constructor; unfold is_u16, zlen; cbn; lia.
Defined.

Lemma state_load_truncated_witness :
  state_load record_section [] (state_write_section_header STATE_COOKIE_TYPE 5 4 ++ [1; 2])
    (zlen (state_write_section_header STATE_COOKIE_TYPE 5 4 ++ [1; 2])) STATE_COOKIE_TYPE = (-1, []).
Proof.
  apply (state_load_truncated record_section [] STATE_COOKIE_TYPE 4 5 [1; 2]);
    unfold is_u16, is_u32, STATE_COOKIE_TYPE, zlen; cbn; lia.
Defined.
