(* ===== verification/Network.v ===== *)
(** * Network: addresses and byte order of [toxcore/network.c]

    The big-endian integer codecs, the address families, and the comparison and
    initialisation of addresses.  Sockets and name resolution are system calls
    and are not modelled.  The unions of [network.h] are modelled by their
    bytes: an [IP] holds the 16 bytes of [IP_Union], whose first four are the
    IPv4 view. *)
From S2P Require Import Prelude.

(** ** Byte order *)

(** [htonl]/[htons] of a little-endian host. *)
Definition net_htonl (hostlong : Z) : Z := le_val (rev (le_bytes 4 hostlong)).
Definition net_htons (hostshort : Z) : Z := le_val (rev (le_bytes 2 hostshort)).
Definition net_ntohl (x : Z) : Z := le_val (rev (le_bytes 4 x)).
Definition net_ntohs (x : Z) : Z := le_val (rev (le_bytes 2 x)).

Definition net_pack_bool (v : bool) : bytes := [if v then 1 else 0].
Definition net_pack_u16 (v : Z) : bytes := [u8 (Z.land (Z.shiftr v 8) 255); u8 (Z.land v 255)].
Definition net_pack_u32 (v : Z) : bytes :=
  net_pack_u16 (Z.land (Z.shiftr v 16) 65535) ++ net_pack_u16 (Z.land v 65535).
Definition net_pack_u64 (v : Z) : bytes :=
  net_pack_u32 (Z.land (Z.shiftr v 32) 4294967295) ++ net_pack_u32 (Z.land v 4294967295).

Definition net_unpack_bool (p : bytes) : bool := negb (aget 0 p 0 =? 0).
Definition net_unpack_u16 (p : bytes) : Z := u16 (Z.lor (Z.shiftl (aget 0 p 0) 8) (aget 0 p 1)).
Definition net_unpack_u32 (p : bytes) : Z :=
  let hi := net_unpack_u16 p in
  let lo := net_unpack_u16 (drop 2 p) in
  u32 (Z.lor (Z.shiftl hi 16) lo).
Definition net_unpack_u64 (p : bytes) : Z :=
  let hi := net_unpack_u32 p in
  let lo := net_unpack_u32 (drop 4 p) in
  u64 (Z.lor (Z.shiftl hi 32) lo).

(** ** Address families *)

Definition TOX_AF_UNSPEC : Z := 0.
Definition TOX_AF_INET : Z := 2.
Definition TOX_AF_INET6 : Z := 10.
Definition TCP_CLIENT_FAMILY : Z := TOX_AF_INET6 + 1.
Definition TCP_INET : Z := TOX_AF_INET6 + 2.
Definition TCP_INET6 : Z := TOX_AF_INET6 + 3.
Definition TCP_SERVER_FAMILY : Z := TOX_AF_INET6 + 4.

Definition net_family_is_unspec (family : Z) : bool := family =? TOX_AF_UNSPEC.
Definition net_family_is_ipv4 (family : Z) : bool := family =? TOX_AF_INET.
Definition net_family_is_ipv6 (family : Z) : bool := family =? TOX_AF_INET6.
Definition net_family_is_tcp_server (family : Z) : bool := family =? TCP_SERVER_FAMILY.
Definition net_family_is_tcp_client (family : Z) : bool := family =? TCP_CLIENT_FAMILY.
Definition net_family_is_tcp_ipv4 (family : Z) : bool := family =? TCP_INET.
Definition net_family_is_tcp_ipv6 (family : Z) : bool := family =? TCP_INET6.

(** ** Addresses *)

Record IP := mkIP {
  ip_family : Z;
  ip_addr : bytes   (** the 16 bytes of [IP_Union] *)
}.

Record IP_Port := mkIPPort {
  ipp_ip : IP;
  ipp_port : Z
}.

Definition empty_ip : IP := mkIP 0 (replicate 16 0).
Definition empty_ip_port : IP_Port := mkIPPort empty_ip 0.

Definition v4_uint8 (a : IP) (i : Z) : Z := aget 0 (ip_addr a) i.
Definition v4_uint32 (a : IP) : Z := le_val (slice 0 4 (ip_addr a)).
Definition v6_uint8 (a : IP) (i : Z) : Z := aget 0 (ip_addr a) i.
Definition v6_uint32 (a : IP) (i : Z) : Z := le_val (slice (4 * i) 4 (ip_addr a)).
Definition v6_uint64 (a : IP) (i : Z) : Z := le_val (slice (8 * i) 8 (ip_addr a)).

Definition ipv6_ipv4_in_v6 (a : IP) : bool :=
  (v6_uint64 a 0 =? 0) && (v6_uint32 a 2 =? net_htonl 65535).

Definition ip_equal (a b : IP) : bool :=
  if ip_family a =? ip_family b then
    if net_family_is_ipv4 (ip_family a) || net_family_is_tcp_ipv4 (ip_family a) then
      v4_uint32 a =? v4_uint32 b
    else if net_family_is_ipv6 (ip_family a) || net_family_is_tcp_ipv6 (ip_family a) then
      (v6_uint64 a 0 =? v6_uint64 b 0) && (v6_uint64 a 1 =? v6_uint64 b 1)
    else false
  else if net_family_is_ipv4 (ip_family a) && net_family_is_ipv6 (ip_family b) then
    if ipv6_ipv4_in_v6 b then v4_uint32 a =? v6_uint32 b 3 else false
  else if net_family_is_ipv6 (ip_family a) && net_family_is_ipv4 (ip_family b) then
    if ipv6_ipv4_in_v6 a then v6_uint32 a 3 =? v4_uint32 b else false
  else false.

Definition ipport_equal (a b : IP_Port) : bool :=
  if (ipp_port a =? 0) || negb (ipp_port a =? ipp_port b) then false
  else ip_equal (ipp_ip a) (ipp_ip b).

Definition ip_reset (ip : IP) : IP := empty_ip.
Definition ipport_reset (ipport : IP_Port) : IP_Port := empty_ip_port.
Definition ip_init (ip : IP) (ipv6enabled : bool) : IP :=
  mkIP (if ipv6enabled then TOX_AF_INET6 else TOX_AF_INET) (ip_addr empty_ip).
Definition ip_isset (ip : IP) : bool := negb (net_family_is_unspec (ip_family ip)).
Definition ipport_isset (ipport : IP_Port) : bool :=
  if ipp_port ipport =? 0 then false else ip_isset (ipp_ip ipport).

(** ** Codec lemmas *)

Lemma net_pack_u16_spec v : is_u16 v → net_pack_u16 v = [v / 2 ^ 8; v mod 2 ^ 8].
Proof.
  intros Hv. unfold net_pack_u16. change 255 with (Z.ones 8).
  rewrite !Z.land_ones, Z.shiftr_div_pow2 by lia. f_equal; [wrap_lia|]. f_equal. wrap_lia.
Qed.

Lemma net_unpack_pack_u16 v rest : is_u16 v → net_unpack_u16 (net_pack_u16 v ++ rest) = v.
Proof.
  intros Hv. rewrite net_pack_u16_spec by done. unfold net_unpack_u16.
  change (aget 0 (_ ++ rest) 0) with (v / 2 ^ 8). change (aget 0 (_ ++ rest) 1) with (v mod 2 ^ 8).
  rewrite lor_shiftl_add; wrap_lia.
Qed.

Lemma net_unpack_pack_u32 v rest : is_u32 v → net_unpack_u32 (net_pack_u32 v ++ rest) = v.
Proof.
  intros Hv. unfold net_unpack_u32, net_pack_u32. change 65535 with (Z.ones 16).
  rewrite !Z.land_ones, Z.shiftr_div_pow2 by lia. rewrite <- app_assoc.
  change (drop 2 (net_pack_u16 ?x ++ ?y)) with y.
  rewrite !net_unpack_pack_u16 by wrap_lia. rewrite lor_shiftl_add; wrap_lia.
Qed.

Lemma net_unpack_pack_u64 v rest : is_u64 v → net_unpack_u64 (net_pack_u64 v ++ rest) = v.
Proof.
  intros Hv. unfold net_unpack_u64, net_pack_u64. change 4294967295 with (Z.ones 32).
  rewrite !Z.land_ones, Z.shiftr_div_pow2 by lia. rewrite <- app_assoc.
  change (drop 4 (net_pack_u32 ?x ++ ?y)) with y.
  rewrite !net_unpack_pack_u32 by wrap_lia. rewrite lor_shiftl_add; wrap_lia.
Qed.

(** ** Addresses *)

Definition ip_ok (a : IP) : Prop := zlen (ip_addr a) = 16 ∧ bytes_ok (ip_addr a).

(** The 16 bytes an address stands for: an IPv4 address is the IPv6 address it
    maps to. *)
Definition canon (a : IP) : bytes :=
  if net_family_is_ipv4 (ip_family a)
  then replicate 10 0 ++ [255; 255] ++ slice 0 4 (ip_addr a)
  else ip_addr a.

Lemma slice_bytes_ok off n p : bytes_ok p → bytes_ok (slice off n p).
Proof. intros. by apply Forall_take, Forall_drop. Qed.

Lemma le_slice_eq off off' n (p q : bytes) :
  bytes_ok p → bytes_ok q → 0 <= off → 0 <= off' → 0 <= n → off + n <= zlen p → off' + n <= zlen q →
  (le_val (slice off n p) =? le_val (slice off' n q)) = bytes_eqb (slice off n p) (slice off' n q).
Proof.
  intros. unfold bytes_eqb. apply eq_bool_prop_intro. rewrite bool_decide_spec, Is_true_true, Z.eqb_eq.
  split; [|by intros ->]. apply le_val_inj; try by apply slice_bytes_ok.
  apply Nat2Z.inj. fold (zlen (slice off n p)) (zlen (slice off' n q)). by rewrite !length_slice.
Qed.

(** Sixteen bytes as the parts the unions expose. *)
Lemma addr_split (p : bytes) : zlen p = 16 →
  p = slice 0 8 p ++ slice 8 8 p ∧ slice 8 8 p = slice 8 4 p ++ slice 12 4 p.
Proof.
  unfold zlen. intros H. do 16 (destruct p as [|? p]; [simpl in H; lia|]).
  destruct p; [done|simpl in H; lia].
Qed.

Lemma mapped_prefix a : ip_ok a →
  ipv6_ipv4_in_v6 a = bytes_eqb (slice 0 8 (ip_addr a) ++ slice 8 4 (ip_addr a))
                        (replicate 10 0 ++ [255; 255]).
Proof.
  intros [Hl Hb]. unfold ipv6_ipv4_in_v6, v6_uint64, v6_uint32.
  change (8 * 0) with 0. change (4 * 2) with 8.
  set (m := replicate 8 0 ++ [0; 0; 255; 255]).
  assert (bytes_ok m) as Hm by (repeat constructor; unfold is_u8; lia).
  change 0 with (le_val (slice 0 8 m)) at 2.
  change (net_htonl 65535) with (le_val (slice 8 4 m)).
  rewrite !le_slice_eq by (done || rewrite ?Hl; unfold zlen; simpl; lia).
  change (replicate 10 0 ++ [255; 255]) with (slice 0 8 m ++ slice 8 4 m).
  unfold bytes_eqb. rewrite <- bool_decide_and. apply bool_decide_ext. split; [by intros [-> ->]|].
  intros E. apply app_inj_1 in E; [done|].
  apply Nat2Z.inj. fold (zlen (slice 0 8 (ip_addr a))) (zlen (slice 0 8 m)).
  rewrite !length_slice; rewrite ?Hl; unfold zlen; simpl; lia.
Qed.

Lemma ip_equal_mixed a b : ip_ok a → ip_ok b →
  (ipv6_ipv4_in_v6 b && (v4_uint32 a =? v6_uint32 b 3))
  = bytes_eqb (replicate 10 0 ++ [255; 255] ++ slice 0 4 (ip_addr a)) (ip_addr b).
Proof.
  intros [Hla Hba] Hb. rewrite mapped_prefix by done. destruct Hb as [Hlb Hbb].
  unfold v4_uint32, v6_uint32. change (4 * 3) with 12.
  rewrite le_slice_eq by (done || lia). destruct (addr_split (ip_addr b) Hlb) as [E1 E2].
  unfold bytes_eqb. rewrite <- bool_decide_and. apply bool_decide_ext.
  assert (ip_addr b = (slice 0 8 (ip_addr b) ++ slice 8 4 (ip_addr b)) ++ slice 12 4 (ip_addr b)) as Eb
    by (rewrite <- app_assoc, <- E2; exact E1).
  rewrite app_assoc. split.
  - intros [H1 H2]. by rewrite H2, <- H1.
  - intros E. rewrite Eb in E. apply app_inj_1 in E as [-> ->]; [done|]. cbn [app length replicate].
    rewrite length_app. pose proof (length_slice 0 8 (ip_addr b)) as H1.
    pose proof (length_slice 8 4 (ip_addr b)) as H2. unfold zlen in *. lia.
Qed.

Lemma bytes_eqb_sym a b : bytes_eqb a b = bytes_eqb b a.
Proof. apply bool_decide_ext. naive_solver. Qed.

(** On IPv4 and IPv6 addresses [ip_equal] decides whether the two stand for
    the same address, where an IPv4 address and its IPv4-in-IPv6 form are the
    same; so it is an equivalence. *)
Theorem ip_equal_canon a b :
  ip_ok a → ip_ok b →
  ip_family a = TOX_AF_INET ∨ ip_family a = TOX_AF_INET6 →
  ip_family b = TOX_AF_INET ∨ ip_family b = TOX_AF_INET6 →
  ip_equal a b = bytes_eqb (canon a) (canon b).
Proof.
  intros Ha Hb Fa Fb.
  unfold ip_equal, canon, net_family_is_ipv4, net_family_is_ipv6, net_family_is_tcp_ipv4,
    net_family_is_tcp_ipv6.
  destruct Fa as [->| ->], Fb as [->| ->]; cbn [Z.eqb Pos.eqb orb andb TOX_AF_INET TOX_AF_INET6].
  - unfold v4_uint32. destruct Ha, Hb. rewrite le_slice_eq by (done || lia).
    unfold bytes_eqb. apply bool_decide_ext. split; [by intros ->|]. by intros E%(inj _)%(inj _).
  - rewrite <- ip_equal_mixed by done. by destruct (ipv6_ipv4_in_v6 b).
  - rewrite bytes_eqb_sym, <- ip_equal_mixed by done. rewrite Z.eqb_sym.
    by destruct (ipv6_ipv4_in_v6 a).
  - unfold v6_uint64. destruct Ha as [Hla ?], Hb as [Hlb ?].
    rewrite !le_slice_eq by (done || lia). unfold bytes_eqb. rewrite <- bool_decide_and.
    apply bool_decide_ext. change (8 * 0) with 0. change (8 * 1) with 8.
    split; [|by intros ->]. intros [E1 E2].
    rewrite (proj1 (addr_split _ Hla)), (proj1 (addr_split _ Hlb)). by rewrite E1, E2.
Qed.

Lemma ip_equal_canon_witness :
  let v4 := mkIP TOX_AF_INET ([192; 168; 1; 7] ++ replicate 12 0) in
  let v6 := mkIP TOX_AF_INET6 (replicate 10 0 ++ [255; 255; 192; 168; 1; 7]) in
  ip_equal v4 v6 = true.
Proof.
  intros v4 v6. rewrite (ip_equal_canon v4 v6).
  - reflexivity.
  - split; [reflexivity|]. repeat constructor; unfold is_u8; lia.
  - split; [reflexivity|]. repeat constructor; unfold is_u8; lia.
  - left. reflexivity.
  - right. reflexivity.
Defined.
