(* ===== verification/LanDiscovery.v ===== *)
(** * LanDiscovery: address classes of [toxcore/LAN_discovery.c]

    Which addresses count as local or LAN addresses, and to which addresses a
    discovery packet is sent.  Fetching the interface list and sending are
    system calls: the list is an argument and the sends are the result. *)
From S2P Require Import Prelude CryptoCore Network.

(** ** Definitions *)

Definition NET_PACKET_LAN_DISCOVERY : Z := 33.

Definition ip4_broadcast : bytes := [255; 255; 255; 255].
Definition ip6_broadcast : bytes := [0; 0; 0; 0; 0; 0; 0; 0; 0; 0; 255; 255; 255; 255; 255; 255].

Definition broadcast_ip (family_socket family_broadcast : Z) : IP :=
  let ip := ip_reset empty_ip in
  if net_family_is_ipv6 family_socket then
    if net_family_is_ipv6 family_broadcast then
      mkIP TOX_AF_INET6 (aset (aset (aset (ip_addr ip) 0 255) 1 2) 15 1)
    else if net_family_is_ipv4 family_broadcast then mkIP TOX_AF_INET6 ip6_broadcast
    else ip
  else if net_family_is_ipv4 family_socket && net_family_is_ipv4 family_broadcast then
    mkIP TOX_AF_INET (ip4_broadcast ++ drop 4 (ip_addr ip))
  else ip.

(** [ip4] is the four bytes of an [IP4]. *)
Definition ip4_is_local (ip4 : bytes) : bool := aget 0 ip4 0 =? 127.

Definition ip_is_local (ip : IP) : bool :=
  if net_family_is_ipv4 (ip_family ip) then ip4_is_local (slice 0 4 (ip_addr ip))
  else if ipv6_ipv4_in_v6 ip then ip4_is_local (slice 12 4 (ip_addr ip))
  else (v6_uint64 ip 0 =? 0) && (v6_uint32 ip 2 =? 0) && (v6_uint32 ip 3 =? net_htonl 1).

Definition ip4_is_lan (ip4 : bytes) : bool :=
  let u i := aget 0 ip4 i in
  if u 0 =? 10 then true
  else if (u 0 =? 172) && (16 <=? u 1) && (u 1 <=? 31) then true
  else if (u 0 =? 192) && (u 1 =? 168) then true
  else if (u 0 =? 169) && (u 1 =? 254) && negb (u 2 =? 0) && negb (u 2 =? 255) then true
  else (u 0 =? 100) && (Z.land (u 1) 192 =? 64).

Definition ip_is_lan (ip : IP) : bool :=
  if ip_is_local ip then true
  else if net_family_is_ipv4 (ip_family ip) then ip4_is_lan (slice 0 4 (ip_addr ip))
  else if net_family_is_ipv6 (ip_family ip) then
    if ((v6_uint8 ip 0 =? 255) && (v6_uint8 ip 1 <? 3) && (v6_uint8 ip 15 =? 1))
       || ((v6_uint8 ip 0 =? 254) && (Z.land (v6_uint8 ip 1) 192 =? 128))
    then true
    else if ipv6_ipv4_in_v6 ip then ip4_is_lan (slice 12 4 (ip_addr ip))
    else false
  else false.

Definition send_broadcasts (ips : list IP) (port : Z) (data : bytes) : bool * list (IP_Port * bytes) :=
  match ips with
  | [] => (false, [])
  | _ => (true, (λ ip, (mkIPPort ip port, data)) <$> ips)
  end.

(** The packets sent and the result; [broadcast] is [None] for the null pointer,
    [family] is the family of the socket and [accepted] whether [sendpacket] to
    the multicast or broadcast address reports success. *)
Definition lan_discovery_send (family : Z) (broadcast : option (list IP)) (dht_pk : bytes) (port : Z)
    (accepted : IP_Port → bool) : bool * list (IP_Port * bytes) :=
  match broadcast with
  | None => (false, [])
  | Some ips =>
      let data := NET_PACKET_LAN_DISCOVERY :: slice 0 CRYPTO_PUBLIC_KEY_SIZE dht_pk in
      let '(_, sent) := send_broadcasts ips port data in
      let try (ip : IP) :=
        let ip_port := mkIPPort ip port in
        if ip_isset ip then (accepted ip_port, [(ip_port, data)]) else (false, []) in
      let '(res6, sent6) :=
        if net_family_is_ipv6 family then try (broadcast_ip TOX_AF_INET6 TOX_AF_INET6)
        else (false, []) in
      let '(res4, sent4) := try (broadcast_ip family TOX_AF_INET) in
      (res6 || res4, sent ++ sent6 ++ sent4)
  end.

(** ** Address ranges *)

(** An IPv4 address as a number, most significant byte first. *)
Definition ip4_number (ip4 : bytes) : Z := be_val ip4.

Definition ip4 (a b c d : Z) : Z := ((a * 256 + b) * 256 + c) * 256 + d.

(** The loopback network and the LAN ranges the comments of the source name. *)
Definition lan_ranges : list (Z * Z) := [
  (ip4 127 0 0 0, ip4 127 255 255 255);
  (ip4 10 0 0 0, ip4 10 255 255 255);
  (ip4 172 16 0 0, ip4 172 31 255 255);
  (ip4 192 168 0 0, ip4 192 168 255 255);
  (ip4 169 254 1 0, ip4 169 254 254 255);
  (ip4 100 64 0 0, ip4 100 127 255 255)].

Definition in_ranges (n : Z) : bool := existsb (λ '(lo, hi), (lo <=? n) && (n <=? hi)) lan_ranges.

(** Every byte has its upper two bits [01] exactly from 64 to 127. *)
Lemma land_C0_40 b : is_u8 b → (Z.land b 192 =? 64) = (64 <=? b) && (b <=? 127).
Proof.
  intros Hb. unfold is_u8 in Hb.
  assert (forallb (λ n, let x := Z.of_nat n in
    eqb (Z.land x 192 =? 64) ((64 <=? x) && (x <=? 127))) (seq 0 256) = true) as H
    by (vm_compute; reflexivity).
  rewrite forallb_forall in H. specialize (H (Z.to_nat b)).
  rewrite Z2Nat.id in H by lia. apply eqb_prop. apply H. apply in_seq. lia.
Qed.

Lemma four_bytes (l : bytes) : zlen l = 4 → bytes_ok l →
  ∃ a b c d, l = [a; b; c; d] ∧ is_u8 a ∧ is_u8 b ∧ is_u8 c ∧ is_u8 d.
Proof.
  unfold zlen. intros Hl Hb. do 4 (destruct l as [|? l]; [simpl in Hl; lia|]).
  destruct l; [|simpl in Hl; lia]. unfold bytes_ok in Hb.
  repeat match goal with H : Forall _ (_ :: _) |- _ => inversion H; subst; clear H end.
  by eexists _, _, _, _.
Qed.

Lemma ip4_class_ranges l : zlen l = 4 → bytes_ok l →
  (ip4_is_local l || ip4_is_lan l) = in_ranges (ip4_number l).
Proof.
  intros Hl Hb. destruct (four_bytes l Hl Hb) as (a & b & c & d & -> & Ha & Hb' & Hc & Hd).
  assert (ip4_number [a; b; c; d] = ip4 a b c d) as ->
    by (unfold ip4_number, ip4, be_val; cbn [rev app le_val]; lia).
  unfold ip4_is_local, ip4_is_lan. change (aget 0 [a; b; c; d] 0) with a.
  change (aget 0 [a; b; c; d] 1) with b. change (aget 0 [a; b; c; d] 2) with c.
  rewrite land_C0_40 by done. unfold in_ranges, lan_ranges. cbn [existsb]. rewrite orb_false_r.
  unfold ip4, is_u8 in *. apply eq_bool_prop_intro. rewrite !Is_true_true. cases; lia.
Qed.

(** An IPv4 address is a LAN address exactly when its number lies in one of
    the ranges the source lists (loopback, the three private networks, link-local
    without its first and last /24, and carrier-grade NAT), and the
    IPv4-in-IPv6 form of the address is classified the same way. *)
Theorem ip_is_lan_ranges (addr : bytes) :
  zlen addr = 4 → bytes_ok addr →
  ip_is_lan (mkIP TOX_AF_INET (addr ++ zeros 12)) = in_ranges (ip4_number addr) ∧
  ip_is_lan (mkIP TOX_AF_INET6 (zeros 10 ++ [255; 255] ++ addr)) = in_ranges (ip4_number addr).
Proof.
  intros Hl Hb. rewrite <- ip4_class_ranges by done.
  set (a6 := mkIP TOX_AF_INET6 (zeros 10 ++ [255; 255] ++ addr)).
  assert (ip_ok a6) as Hok.
  { split; [unfold a6, zlen in *; simpl in *; lia|]. simpl. repeat constructor; auto; unfold is_u8; lia. }
  assert (ipv6_ipv4_in_v6 a6 = true) as Hm by (by rewrite mapped_prefix).
  assert (slice 12 4 (ip_addr a6) = addr) as Hs.
  { unfold a6. simpl. unfold slice. simpl. unfold zlen in Hl. apply take_ge. simpl. lia. }
  split.
  - unfold ip_is_lan, ip_is_local. cbn [ip_family ip_addr net_family_is_ipv4 Z.eqb Pos.eqb TOX_AF_INET].
    rewrite slice_app_l by done. by destruct (ip4_is_local addr).
  - unfold ip_is_lan, ip_is_local. rewrite Hm, Hs.
    cbn [ip_family a6 net_family_is_ipv4 net_family_is_ipv6 Z.eqb Pos.eqb TOX_AF_INET TOX_AF_INET6].
    change (v6_uint8 a6 0) with 0. cbn [Z.eqb andb orb]. by destruct (ip4_is_local addr).
Qed.

Lemma ip_is_lan_ranges_witness :
  ip_is_lan (mkIP TOX_AF_INET6 (zeros 10 ++ [255; 255] ++ [100; 127; 3; 4])) = true.
Proof.
  rewrite (proj2 (ip_is_lan_ranges [100; 127; 3; 4] eq_refl
    ltac:(repeat constructor; unfold is_u8; lia))).
  reflexivity.
Defined.

(** The addresses discovery packets go to are themselves LAN or broadcast
    addresses of the family of the socket. *)
Lemma broadcast_ip_class fs fb :
  let ip := broadcast_ip fs fb in
  ip_isset ip = true →
  ip_family ip = fs ∧
  (ip_is_lan ip = true ∨ canon ip = ip6_broadcast).
Proof.
  unfold broadcast_ip, net_family_is_ipv6, net_family_is_ipv4.
  repeat case_match; try done; intros _; (split; [simpl; lia|vm_compute; auto]).
Qed.
