(* ===== verification/PacketsArray.v ===== *)
(** * PacketsArray: the lossless packet window of [toxcore/net_crypto.c]

    [Packets_Array] is a ring of [CRYPTO_PACKET_BUFFER_SIZE] slots indexed by
    32-bit packet numbers that wrap around.  The operations are translated one
    by one; a refinement shows that they implement a plain list of optional
    packets, the window [win], and the packet request codec is proved to free
    exactly the packets the peer has. *)
From S2P Require Import Prelude Util.

(** ** Data *)

Definition CRYPTO_PACKET_BUFFER_SIZE : Z := 32768.
Definition PACKET_ID_REQUEST : Z := 1.

(** The [length] bytes in use of the [data] array. *)
Record Packet_Data := mkPD {
  sent_time : Z;
  pd_data : bytes
}.

(** The slots that are not [nullptr], and the two packet numbers. *)
Record Packets_Array := mkPA {
  buffer : gmap Z Packet_Data;
  buffer_start : Z;
  buffer_end : Z
}.

Definition empty_packets_array : Packets_Array := mkPA ∅ 0 0.

Definition slot (number : Z) : Z := number mod CRYPTO_PACKET_BUFFER_SIZE.

(** ** Operations *)

Definition num_packets_array (a : Packets_Array) : Z := u32 (buffer_end a - buffer_start a).

(** [alloc] is whether [calloc] succeeds. *)
Definition add_data_to_buffer (alloc : bool) (a : Packets_Array) (number : Z) (data : Packet_Data)
    : option Packets_Array :=
  if CRYPTO_PACKET_BUFFER_SIZE <=? u32 (number - buffer_start a) then None
  else
    let num := slot number in
    match buffer a !! num with
    | Some _ => None
    | None =>
        if negb alloc then None
        else
          let end' := if num_packets_array a <=? u32 (number - buffer_start a)
                      then u32 (number + 1) else buffer_end a in
          Some (mkPA (<[num := data]> (buffer a)) (buffer_start a) end')
    end.

(** [None] is the failure [-1], [Some None] an empty slot. *)
Definition get_data_pointer (a : Packets_Array) (number : Z) : option (option Packet_Data) :=
  let num_spots := num_packets_array a in
  if (num_spots <? u32 (buffer_end a - number)) || (num_spots <=? u32 (number - buffer_start a))
  then None
  else Some (buffer a !! slot number).

Definition add_data_end_of_buffer (alloc : bool) (a : Packets_Array) (data : Packet_Data)
    : option (Z * Packets_Array) :=
  let num_spots := num_packets_array a in
  if CRYPTO_PACKET_BUFFER_SIZE <=? num_spots then None
  else if negb alloc then None
  else
    let id := buffer_end a in
    Some (id, mkPA (<[slot id := data]> (buffer a)) (buffer_start a) (u32 (buffer_end a + 1))).

Definition read_data_beg_buffer (a : Packets_Array) : option (Z * Packet_Data * Packets_Array) :=
  if buffer_end a =? buffer_start a then None
  else
    let num := slot (buffer_start a) in
    match buffer a !! num with
    | None => None
    | Some data =>
        let id := buffer_start a in
        Some (id, data, mkPA (delete num (buffer a)) (u32 (buffer_start a + 1)) (buffer_end a))
    end.

(** [for (i = first; i != last; ++i)] runs [u32 (last - first)] times. *)
Fixpoint clear_slots (count : nat) (i : Z) (b : gmap Z Packet_Data) : gmap Z Packet_Data :=
  match count with
  | O => b
  | S count' => clear_slots count' (u32 (i + 1)) (delete (slot i) b)
  end.

Definition clear_buffer_until (a : Packets_Array) (number : Z) : option Packets_Array :=
  let num_spots := num_packets_array a in
  if (num_spots <=? u32 (buffer_end a - number)) || (num_spots <? u32 (number - buffer_start a))
  then None
  else
    let count := Z.to_nat (u32 (number - buffer_start a)) in
    Some (mkPA (clear_slots count (buffer_start a) (buffer a)) number (buffer_end a)).

Definition clear_buffer (a : Packets_Array) : Packets_Array :=
  let count := Z.to_nat (u32 (buffer_end a - buffer_start a)) in
  mkPA (clear_slots count (buffer_start a) (buffer a)) (buffer_end a) (buffer_end a).

Definition set_buffer_end (a : Packets_Array) (number : Z) : option Packets_Array :=
  if CRYPTO_PACKET_BUFFER_SIZE <? u32 (number - buffer_start a) then None
  else if CRYPTO_PACKET_BUFFER_SIZE <? u32 (number - buffer_end a) then None
  else Some (mkPA (buffer a) (buffer_start a) number).

(** The loop of [generate_request_packet]; [out] is [data[0 .. cur_len)]. *)
Fixpoint request_loop (count : nat) (i n length : Z) (b : gmap Z Packet_Data) (out : bytes)
    : bytes :=
  match count with
  | O => out
  | S count' =>
      match b !! slot i with
      | None =>
          let out := out ++ [u8 n] in
          if length <=? zlen out then out
          else request_loop count' (u32 (i + 1)) (u32 (0 + 1)) length b out
      | Some _ =>
          if n =? 255 then
            let out := out ++ [0] in
            if length <=? zlen out then out
            else request_loop count' (u32 (i + 1)) (u32 (0 + 1)) length b out
          else request_loop count' (u32 (i + 1)) (u32 (n + 1)) length b out
      end
  end.

(** The packet written into the [length] bytes of [data]. *)
Definition generate_request_packet (length : Z) (recv_array : Packets_Array) : option bytes :=
  if length =? 0 then None
  else
    let out := [PACKET_ID_REQUEST] in
    if buffer_start recv_array =? buffer_end recv_array then Some out
    else if length <=? zlen out then Some out
    else
      let count := Z.to_nat (u32 (buffer_end recv_array - buffer_start recv_array)) in
      Some (request_loop count (buffer_start recv_array) 1 length (buffer recv_array) out).

(** The loop of [handle_request_packet]: the slots, and [requested] with
    [l_sent_time] unless the loop returned [-1]. *)
Fixpoint handle_loop (count : nat) (i n : Z) (data : bytes) (requested l_sent_time : Z)
    (temp_time rtt_time : Z) (b : gmap Z Packet_Data) : gmap Z Packet_Data * option (Z * Z) :=
  match count, data with
  | O, _ | _, [] => (b, Some (requested, l_sent_time))
  | S count', d :: data' =>
      let num := slot i in
      if n =? d then
        let b :=
          match b !! num with
          | Some p =>
              if u64 (sent_time p + rtt_time) <? temp_time
              then <[num := mkPD 0 (pd_data p)]> b else b
          | None => b
          end in
        handle_loop count' (u32 (i + 1)) (u32 (0 + 1)) data' (u32 (requested + 1)) l_sent_time
          temp_time rtt_time b
      else
        let '(b, l_sent_time) :=
          match b !! num with
          | Some p => (delete num b, max_u64 l_sent_time (sent_time p))
          | None => (b, l_sent_time)
          end in
        if n =? 255 then
          if negb (d =? 0) then (b, None)
          else handle_loop count' (u32 (i + 1)) 1 data' requested l_sent_time temp_time rtt_time b
        else
          handle_loop count' (u32 (i + 1)) (u32 (n + 1)) data requested l_sent_time temp_time
            rtt_time b
  end.

(** The new array, the number of requested packets ([None] is [-1]) and the new
    [*latest_send_time]; [temp_time] is [current_time_monotonic]. *)
Definition handle_request_packet (temp_time : Z) (send_array : Packets_Array) (data : bytes)
    (latest_send_time rtt_time : Z) : Packets_Array * option Z * Z :=
  match data with
  | [] => (send_array, None, latest_send_time)
  | id :: rest =>
      if negb (id =? PACKET_ID_REQUEST) then (send_array, None, latest_send_time)
      else if zlen data =? 1 then (send_array, Some 0, latest_send_time)
      else
        let count := Z.to_nat (u32 (buffer_end send_array - buffer_start send_array)) in
        let '(b, r) :=
          handle_loop count (buffer_start send_array) 1 rest 0 0 temp_time rtt_time
            (buffer send_array) in
        let send_array := mkPA b (buffer_start send_array) (buffer_end send_array) in
        match r with
        | None => (send_array, None, latest_send_time)
        | Some (requested, l_sent_time) =>
            (send_array, Some requested, max_u64 latest_send_time l_sent_time)
        end
  end.

(** ** The window

    What an array stands for: the packets numbered from [buffer_start] on, with
    [None] where none is stored. *)
Fixpoint view (b : gmap Z Packet_Data) (i : Z) (count : nat) : list (option Packet_Data) :=
  match count with
  | O => []
  | S count' => b !! slot i :: view b (u32 (i + 1)) count'
  end.

Definition win (a : Packets_Array) : list (option Packet_Data) :=
  view (buffer a) (buffer_start a) (Z.to_nat (num_packets_array a)).

(** The numbers are 32-bit, the window fits the ring, and no slot outside of the
    window is occupied. *)
Record pa_wf (a : Packets_Array) : Prop := {
  pa_start : is_u32 (buffer_start a);
  pa_end : is_u32 (buffer_end a);
  pa_num : num_packets_array a <= CRYPTO_PACKET_BUFFER_SIZE;
  pa_clean : ∀ k, num_packets_array a <= k < CRYPTO_PACKET_BUFFER_SIZE →
    buffer a !! slot (buffer_start a + k) = None
}.

Lemma slot_u32 x : slot (u32 x) = slot x.
Proof. unfold slot, CRYPTO_PACKET_BUFFER_SIZE. wrap_lia. Qed.

Lemma slot_u32_add x k : slot (u32 x + k) = slot (x + k).
Proof. unfold slot, CRYPTO_PACKET_BUFFER_SIZE. wrap_lia. Qed.

Lemma slot_inj x j k :
  0 <= j < CRYPTO_PACKET_BUFFER_SIZE → 0 <= k < CRYPTO_PACKET_BUFFER_SIZE →
  slot (x + j) = slot (x + k) → j = k.
Proof. unfold slot, CRYPTO_PACKET_BUFFER_SIZE. intros. wrap_lia. Qed.

Lemma num_packets_range a : is_u32 (num_packets_array a).
Proof. apply u32_range. Qed.

(** Distinct packets of one window use distinct slots. *)
Lemma slot_ne x j k :
  0 <= j < CRYPTO_PACKET_BUFFER_SIZE → 0 <= k < CRYPTO_PACKET_BUFFER_SIZE → j ≠ k →
  slot (x + j) ≠ slot (x + k).
Proof. intros Hj Hk Hne E. by apply slot_inj in E. Qed.

#[export] Hint Rewrite slot_u32 slot_u32_add : cintrw.

Lemma length_view b c : ∀ i, length (view b i c) = c.
Proof. induction c; simpl; auto. Qed.

Lemma view_lookup b c : ∀ i (k : nat),
  (k < c)%nat → view b i c !! k = Some (b !! slot (i + Z.of_nat k)).
Proof.
  induction c as [|c IH]; intros i k Hk; [lia|]. destruct k as [|k]; simpl.
  - by rewrite Z.add_0_r.
  - rewrite IH by lia. rewrite slot_u32_add. do 3 f_equal. lia.
Qed.

Lemma view_ext b b' i i' c :
  (∀ k, 0 <= k < Z.of_nat c → b !! slot (i + k) = b' !! slot (i' + k)) →
  view b i c = view b' i' c.
Proof.
  intros H. apply list_eq. intros k.
  destruct (decide (k < c)%nat) as [Hk|].
  - rewrite !view_lookup by done. f_equal. apply H. lia.
  - rewrite !lookup_ge_None_2; rewrite ?length_view; auto; lia.
Qed.

Lemma view_app b c : ∀ i c', view b i (c + c') = view b i c ++ view b (u32 (i + Z.of_nat c)) c'.
Proof.
  induction c as [|c IH]; intros i c'; simpl.
  - rewrite Z.add_0_r. apply view_ext. intros. by autorewrite with cintrw.
  - f_equal. rewrite IH. f_equal. apply view_ext. intros k _.
    f_equal. unfold slot, CRYPTO_PACKET_BUFFER_SIZE. wrap_lia.
Qed.

Lemma length_win a : Z.of_nat (length (win a)) = num_packets_array a.
Proof. unfold win. rewrite length_view. pose proof (num_packets_range a). unfold_cint. lia. Qed.

Lemma zlen_win a : zlen (win a) = num_packets_array a.
Proof. apply length_win. Qed.

Lemma win_lookup a (k : nat) :
  Z.of_nat k < num_packets_array a →
  win a !! k = Some (buffer a !! slot (buffer_start a + Z.of_nat k)).
Proof. intros. unfold win. apply view_lookup. lia. Qed.

Lemma empty_pa_wf : pa_wf empty_packets_array ∧ win empty_packets_array = [].
Proof. split; [|done]. split; try (vm_compute; intuition discriminate). Qed.

(** A ring over [b] that starts at [start] and holds [n] packets. *)
Lemma mkPA_wf b start n :
  is_u32 start → 0 <= n <= CRYPTO_PACKET_BUFFER_SIZE →
  (∀ k, n <= k < CRYPTO_PACKET_BUFFER_SIZE → b !! slot (start + k) = None) →
  let a := mkPA b start (u32 (start + n)) in
  pa_wf a ∧ num_packets_array a = n ∧ win a = view b start (Z.to_nat n).
Proof.
  intros Hs Hn Hb a. unfold CRYPTO_PACKET_BUFFER_SIZE in Hn.
  assert (num_packets_array a = n) as En by (unfold a, num_packets_array; simpl; wrap_lia).
  split_and!; [split| |].
  - done.
  - apply u32_range.
  - rewrite En. unfold CRYPTO_PACKET_BUFFER_SIZE. lia.
  - rewrite En. exact Hb.
  - done.
  - unfold win. by rewrite En.
Qed.

Lemma pa_end_eq a : pa_wf a → buffer_end a = u32 (buffer_start a + num_packets_array a).
Proof. intros [Hs He _ _]. unfold num_packets_array. wrap_lia. Qed.

Lemma pa_eta a : pa_wf a →
  a = mkPA (buffer a) (buffer_start a) (u32 (buffer_start a + num_packets_array a)).
Proof. intros. rewrite <- pa_end_eq by done. by destruct a. Qed.

(** The two numbers are equal exactly when the window is empty. *)
Lemma pa_empty_iff a : pa_wf a → buffer_end a = buffer_start a ↔ win a = [].
Proof.
  intros Hw. rewrite <- length_zero_iff_nil. pose proof (length_win a). destruct Hw as [Hs He _ _].
  unfold num_packets_array in *. split; wrap_lia.
Qed.

(** *** Slots cleared by a loop *)

Lemma clear_slots_in c : ∀ i b k,
  Z.of_nat c <= CRYPTO_PACKET_BUFFER_SIZE → 0 <= k < Z.of_nat c →
  clear_slots c i b !! slot (i + k) = None.
Proof.
  induction c as [|c IH]; intros i b k Hc Hk; [lia|]. simpl.
  destruct (Z.eq_dec k 0) as [->|].
  - clear IH. rewrite Z.add_0_r. generalize (u32 (i + 1)) as j. revert b.
    assert (∀ b j, b !! slot i = None → clear_slots c j b !! slot i = None) as H.
    { clear. induction c as [|c IH]; intros b j H; simpl; [done|]. apply IH.
      apply lookup_delete_None. auto. }
    intros b j. apply H. by rewrite lookup_delete_eq.
  - replace (slot (i + k)) with (slot (u32 (i + 1) + (k - 1)))
      by (rewrite slot_u32_add; f_equal; lia).
    apply IH; lia.
Qed.

Lemma clear_slots_out c : ∀ i b k,
  Z.of_nat c <= k < CRYPTO_PACKET_BUFFER_SIZE →
  clear_slots c i b !! slot (i + k) = b !! slot (i + k).
Proof.
  induction c as [|c IH]; intros i b k Hk; [done|]. simpl.
  replace (slot (i + k)) with (slot (u32 (i + 1) + (k - 1))) at 1
    by (rewrite slot_u32_add; f_equal; lia).
  rewrite IH by lia. rewrite slot_u32_add. replace (i + 1 + (k - 1)) with (i + k) by lia.
  apply lookup_delete_ne. rewrite <- (Z.add_0_r i) at 1. apply slot_ne; lia.
Qed.

(** ** The operations on the window *)

(** [a'] is [a] with [w'] as its window, from packet [start'] on. *)
Definition moves_to (a' : Packets_Array) (start' : Z) (w' : list (option Packet_Data)) : Prop :=
  pa_wf a' ∧ buffer_start a' = start' ∧ win a' = w'.

Lemma view_insert_out b i c j d :
  Z.of_nat c <= j < CRYPTO_PACKET_BUFFER_SIZE →
  view (<[slot (i + j) := d]> b) i c = view b i c.
Proof.
  intros. apply view_ext. intros k Hk. apply lookup_insert_ne. apply slot_ne; lia.
Qed.

Lemma view_replicate_None b i c :
  (∀ k, 0 <= k < Z.of_nat c → b !! slot (i + k) = None) → view b i c = replicate c None.
Proof.
  intros H. apply list_eq. intros k. destruct (decide (k < c)%nat).
  - rewrite view_lookup by lia. rewrite lookup_replicate_2 by lia. f_equal. apply H. lia.
  - rewrite !lookup_ge_None_2; rewrite ?length_view, ?length_replicate; auto; lia.
Qed.

(** A window extended with empty slots. *)
Lemma win_extend a n :
  pa_wf a → num_packets_array a <= n <= CRYPTO_PACKET_BUFFER_SIZE →
  view (buffer a) (buffer_start a) (Z.to_nat n)
  = win a ++ replicate (Z.to_nat (n - num_packets_array a)) None.
Proof.
  intros Hw Hn. pose proof (num_packets_range a) as Hr. unfold is_u32 in Hr.
  replace (Z.to_nat n) with (Z.to_nat (num_packets_array a) + Z.to_nat (n - num_packets_array a))%nat
    by lia.
  rewrite view_app. f_equal. apply view_replicate_None. intros k Hk.
  rewrite slot_u32_add. rewrite <- (pa_clean a Hw (num_packets_array a + k)); [|lia].
  do 2 f_equal. lia.
Qed.

Lemma add_data_end_of_buffer_win alloc a d :
  pa_wf a →
  match add_data_end_of_buffer alloc a d with
  | None => alloc = false ∨ zlen (win a) = CRYPTO_PACKET_BUFFER_SIZE
  | Some (id, a') =>
      id = u32 (buffer_start a + zlen (win a)) ∧
      moves_to a' (buffer_start a) (win a ++ [Some d])
  end.
Proof.
  intros Hw. unfold add_data_end_of_buffer. rewrite zlen_win.
  destruct (CRYPTO_PACKET_BUFFER_SIZE <=? num_packets_array a) eqn:Hfull.
  { right. pose proof (pa_num a Hw). lia. }
  destruct alloc; simpl; [|auto].
  pose proof (num_packets_range a) as Hr. unfold is_u32 in Hr.
  split; [by apply pa_end_eq|]. rewrite (pa_end_eq a Hw), slot_u32.
  replace (u32 (u32 (buffer_start a + num_packets_array a) + 1))
    with (u32 (buffer_start a + (num_packets_array a + 1))) by wrap_lia.
  destruct (mkPA_wf (<[slot (buffer_start a + num_packets_array a) := d]> (buffer a))
              (buffer_start a) (num_packets_array a + 1)) as (Hw' & Hn' & Hv').
  - apply Hw.
  - lia.
  - intros k Hk. rewrite lookup_insert_ne by (apply slot_ne; lia). apply pa_clean; [done|lia].
  - split_and!; [done..|]. rewrite Hv', Z2Nat.inj_add by lia. change (Z.to_nat 1) with 1%nat.
    rewrite view_app, view_insert_out by lia. f_equal. cbn [view].
    rewrite slot_u32, Z2Nat.id by lia. by rewrite lookup_insert_eq.
Qed.

Lemma read_data_beg_buffer_win a :
  pa_wf a →
  match win a with
  | Some d :: w => ∃ a', read_data_beg_buffer a = Some (buffer_start a, d, a') ∧
      moves_to a' (u32 (buffer_start a + 1)) w
  | _ => read_data_beg_buffer a = None
  end.
Proof.
  intros Hw. unfold read_data_beg_buffer.
  pose proof (num_packets_range a) as Hr. unfold is_u32 in Hr.
  destruct (buffer_end a =? buffer_start a) eqn:He.
  { rewrite (proj1 (pa_empty_iff a Hw)) by lia. done. }
  assert (win a ≠ []) as Hne by (rewrite <- pa_empty_iff by done; lia).
  rewrite <- length_zero_iff_nil in Hne. pose proof (length_win a) as Hl.
  unfold win. destruct (Z.to_nat (num_packets_array a)) as [|c] eqn:Hc; [lia|]. cbn [view].
  destruct (buffer a !! slot (buffer_start a)) as [d|] eqn:Hd; [|done].
  eexists. split; [done|]. pose proof (pa_num a Hw) as Hsz.
  rewrite (pa_end_eq a Hw).
  replace (u32 (buffer_start a + num_packets_array a))
    with (u32 (u32 (buffer_start a + 1) + (num_packets_array a - 1))) by wrap_lia.
  destruct (mkPA_wf (delete (slot (buffer_start a)) (buffer a)) (u32 (buffer_start a + 1))
              (num_packets_array a - 1)) as (Hw' & Hn' & Hv').
  - apply u32_range.
  - lia.
  - intros k Hk. rewrite slot_u32_add. destruct (Z.eq_dec (k + 1) CRYPTO_PACKET_BUFFER_SIZE).
    + replace (slot (buffer_start a + 1 + k)) with (slot (buffer_start a))
        by (unfold slot, CRYPTO_PACKET_BUFFER_SIZE in *; wrap_lia).
      apply lookup_delete_eq.
    + apply lookup_delete_None. right. rewrite <- (pa_clean a Hw (k + 1)); [|lia].
      do 2 f_equal. lia.
  - split_and!; [done..|]. rewrite Hv'. replace (Z.to_nat (num_packets_array a - 1)) with c by lia.
    apply view_ext. intros k Hk. rewrite slot_u32_add. apply lookup_delete_ne.
    rewrite <- (Z.add_0_r (buffer_start a)) at 1. rewrite <- Z.add_assoc. apply slot_ne; lia.
Qed.

(** Slots of a window whose first [c] packets were cleared. *)
Lemma clear_slots_moves a c :
  pa_wf a → Z.of_nat c <= num_packets_array a →
  moves_to (mkPA (clear_slots c (buffer_start a) (buffer a))
              (u32 (buffer_start a + Z.of_nat c)) (buffer_end a))
    (u32 (buffer_start a + Z.of_nat c)) (drop c (win a)).
Proof.
  intros Hw Hc. pose proof (pa_num a Hw) as Hsz. set (i := buffer_start a).
  replace (buffer_end a) with (u32 (u32 (i + Z.of_nat c) + (num_packets_array a - Z.of_nat c)))
    by (rewrite (pa_end_eq a Hw); unfold i; wrap_lia).
  destruct (mkPA_wf (clear_slots c i (buffer a)) (u32 (i + Z.of_nat c))
              (num_packets_array a - Z.of_nat c)) as (Hw' & Hn' & Hv').
  - apply u32_range.
  - lia.
  - intros k Hk. rewrite slot_u32_add.
    destruct (Z_lt_le_dec (Z.of_nat c + k) CRYPTO_PACKET_BUFFER_SIZE).
    + rewrite <- Z.add_assoc, clear_slots_out by lia. apply pa_clean; [done|lia].
    + replace (slot (i + Z.of_nat c + k))
        with (slot (i + (Z.of_nat c + k - CRYPTO_PACKET_BUFFER_SIZE)))
        by (unfold slot, CRYPTO_PACKET_BUFFER_SIZE in *; wrap_lia).
      apply clear_slots_in; lia.
  - split_and!; [done..|]. rewrite Hv'. unfold win.
    replace (Z.to_nat (num_packets_array a))
      with (c + Z.to_nat (num_packets_array a - Z.of_nat c))%nat by lia.
    rewrite view_app, drop_app_length' by (by rewrite length_view).
    fold i. apply view_ext. intros k Hk. rewrite slot_u32_add, <- Z.add_assoc.
    apply clear_slots_out. lia.
Qed.

Lemma clear_buffer_until_win a number :
  pa_wf a → is_u32 number →
  let k := u32 (number - buffer_start a) in
  if bool_decide (1 <= k <= zlen (win a)) then
    ∃ a', clear_buffer_until a number = Some a' ∧ moves_to a' number (drop (Z.to_nat k) (win a))
  else clear_buffer_until a number = None.
Proof.
  intros Hw Hn k. unfold clear_buffer_until. rewrite zlen_win. fold k.
  pose proof (num_packets_range a) as Hr. pose proof (pa_start a Hw) as Hs.
  pose proof (pa_num a Hw) as Hsz. unfold CRYPTO_PACKET_BUFFER_SIZE in Hsz.
  assert (is_u32 k) as Hk by apply u32_range.
  assert (u32 (buffer_end a - number) = u32 (num_packets_array a - k)) as Ek.
  { rewrite (pa_end_eq a Hw). unfold k. wrap_lia. }
  rewrite Ek. case_bool_decide as Hc.
  - rewrite (u32_small (_ - k)) by (unfold is_u32 in *; lia).
    rewrite (proj2 (Z.leb_gt _ _)) by lia. rewrite (proj2 (Z.ltb_ge _ _)) by lia. simpl.
    eexists. split; [done|].
    replace number with (u32 (buffer_start a + Z.of_nat (Z.to_nat k)))
      by (unfold is_u32 in *; rewrite Z2Nat.id by lia; unfold k; wrap_lia).
    unfold is_u32 in *. apply clear_slots_moves; [done|lia].
  - destruct (num_packets_array a <? k) eqn:?; [by rewrite orb_true_r|].
    assert (k = 0) as -> by (unfold is_u32 in *; lia). rewrite Z.sub_0_r.
    rewrite u32_small by done. by rewrite Z.leb_refl.
Qed.

Lemma clear_buffer_win a : pa_wf a → moves_to (clear_buffer a) (buffer_end a) [].
Proof.
  intros Hw. unfold clear_buffer. fold (num_packets_array a).
  pose proof (num_packets_range a) as Hr. unfold is_u32 in Hr.
  pose proof (clear_slots_moves a (Z.to_nat (num_packets_array a)) Hw) as H.
  rewrite drop_ge in H by (pose proof (length_win a); lia).
  rewrite !Z2Nat.id, <- pa_end_eq in H by (done || lia). apply H. lia.
Qed.

Lemma set_buffer_end_win a number :
  pa_wf a → is_u32 number →
  let k := u32 (number - buffer_start a) in
  if bool_decide (zlen (win a) <= k <= CRYPTO_PACKET_BUFFER_SIZE) then
    ∃ a', set_buffer_end a number = Some a' ∧
      moves_to a' (buffer_start a) (win a ++ replicate (Z.to_nat (k - zlen (win a))) None)
  else set_buffer_end a number = None.
Proof.
  intros Hw Hn k. unfold set_buffer_end. rewrite zlen_win. fold k.
  pose proof (num_packets_range a) as Hr. pose proof (pa_start a Hw) as Hs.
  pose proof (pa_num a Hw) as Hsz. assert (is_u32 k) as Hk by apply u32_range.
  assert (u32 (number - buffer_end a) = u32 (k - num_packets_array a)) as Ek.
  { rewrite (pa_end_eq a Hw). unfold k. wrap_lia. }
  rewrite Ek. destruct (CRYPTO_PACKET_BUFFER_SIZE <? k) eqn:Hc1.
  { rewrite bool_decide_eq_false_2 by lia. done. }
  unfold CRYPTO_PACKET_BUFFER_SIZE in *. rewrite u32_sub by done.
  unfold is_u32 in *. case_bool_decide as Hc.
  - rewrite (proj2 (Z.leb_le _ _)) by lia. rewrite (proj2 (Z.ltb_ge _ _)) by lia.
    eexists. split; [done|].
    destruct (mkPA_wf (buffer a) (buffer_start a) k) as (Hw' & Hn' & Hv');
      [done|unfold is_u32, CRYPTO_PACKET_BUFFER_SIZE in *; lia| |].
    { intros j Hj. apply pa_clean; [done|lia]. }
    replace (u32 (buffer_start a + k)) with number in * by (unfold k; wrap_lia).
    split_and!; [done..|]. rewrite Hv'. apply win_extend; [done|].
    unfold CRYPTO_PACKET_BUFFER_SIZE. lia.
  - rewrite (proj2 (Z.leb_gt _ _)) by lia. unfold is_u32 in *.
    by rewrite (proj2 (Z.ltb_lt _ _)) by lia.
Qed.

Lemma add_data_to_buffer_win alloc a number d :
  pa_wf a → is_u32 number →
  let k := u32 (number - buffer_start a) in
  match add_data_to_buffer alloc a number d with
  | None => alloc = false ∨ CRYPTO_PACKET_BUFFER_SIZE <= k ∨ ∃ p, win a !! Z.to_nat k = Some (Some p)
  | Some a' =>
      k < CRYPTO_PACKET_BUFFER_SIZE ∧ (∀ p, win a !! Z.to_nat k ≠ Some (Some p)) ∧
      moves_to a' (buffer_start a)
        (<[Z.to_nat k := Some d]> (win a ++ replicate (Z.to_nat (k + 1 - zlen (win a))) None))
  end.
Proof.
  intros Hw Hn k. unfold add_data_to_buffer. fold k. rewrite zlen_win.
  pose proof (num_packets_range a) as Hr. pose proof (pa_start a Hw) as Hs.
  pose proof (pa_num a Hw) as Hsz. assert (is_u32 k) as Hk by apply u32_range.
  destruct (CRYPTO_PACKET_BUFFER_SIZE <=? k) eqn:Hc1; [right; left; lia|].
  assert (slot number = slot (buffer_start a + k)) as Es
    by (unfold k; rewrite <- (slot_u32 (_ + _)); f_equal; wrap_lia).
  rewrite Es. unfold is_u32 in *.
  destruct (buffer a !! slot (buffer_start a + k)) as [p|] eqn:Hp.
  { right. right. exists p. rewrite win_lookup, Z2Nat.id, Hp by
      (try lia; apply Z.nle_gt; intros ?; rewrite pa_clean in Hp; done || lia). done. }
  destruct alloc; simpl; [|auto]. split; [lia|]. split.
  { intros p Hp'. pose proof (lookup_lt_Some _ _ _ Hp'). pose proof (length_win a).
    rewrite win_lookup, Z2Nat.id, Hp in Hp' by lia. done. }
  set (n := Z.max (num_packets_array a) (k + 1)).
  replace (if num_packets_array a <=? k then u32 (number + 1) else buffer_end a)
    with (u32 (buffer_start a + n)).
  2: { unfold n, k in *. rewrite (pa_end_eq a Hw). cases; wrap_lia. }
  destruct (mkPA_wf (<[slot (buffer_start a + k) := d]> (buffer a)) (buffer_start a) n)
    as (Hw' & Hn' & Hv'); [done|lia| |].
  { intros j Hj. rewrite lookup_insert_ne by (apply slot_ne; lia). apply pa_clean; [done|lia]. }
  split_and!; [done..|]. rewrite Hv'.
  replace (Z.to_nat (k + 1 - num_packets_array a)) with (Z.to_nat (n - num_packets_array a)) by lia.
  rewrite <- win_extend by (done || lia). apply list_eq. intros j.
  destruct (decide (j < Z.to_nat n)%nat).
  - rewrite view_lookup by done. destruct (decide (j = Z.to_nat k)) as [->|].
    + rewrite Z2Nat.id, lookup_insert_eq by lia.
      by rewrite list_lookup_insert_eq by (rewrite length_view; lia).
    + rewrite list_lookup_insert_ne, view_lookup, lookup_insert_ne by (done || apply slot_ne; lia).
      done.
  - rewrite !lookup_ge_None_2; rewrite ?length_insert, ?length_view; auto; lia.
Qed.

Lemma get_data_pointer_win a number :
  pa_wf a → is_u32 number →
  get_data_pointer a number = win a !! Z.to_nat (u32 (number - buffer_start a)).
Proof.
  intros Hw Hn. unfold get_data_pointer. set (k := u32 (number - buffer_start a)).
  pose proof (num_packets_range a) as Hr. pose proof (pa_start a Hw) as Hs.
  pose proof (pa_num a Hw) as Hsz. unfold CRYPTO_PACKET_BUFFER_SIZE in Hsz.
  assert (is_u32 k) as Hk by apply u32_range.
  assert (u32 (buffer_end a - number) = u32 (num_packets_array a - k)) as ->.
  { rewrite (pa_end_eq a Hw). unfold k. wrap_lia. }
  pose proof (length_win a) as Hl. unfold is_u32 in *.
  destruct (num_packets_array a <=? k) eqn:Hc.
  { rewrite orb_true_r, lookup_ge_None_2; [done|lia]. }
  rewrite u32_small by lia. rewrite (proj2 (Z.ltb_ge _ _)) by lia. cbn [orb].
  rewrite win_lookup, Z2Nat.id by lia. do 2 f_equal. unfold k.
  rewrite <- (slot_u32 (_ + _)). f_equal. wrap_lia.
Qed.

(** ** Packet requests

    The loops of the request codec over windows instead of rings. *)
Fixpoint request_list (w : list (option Packet_Data)) (n room : Z) : bytes :=
  match w with
  | [] => []
  | None :: w' => n :: (if room <=? 1 then [] else request_list w' 1 (room - 1))
  | Some _ :: w' =>
      if n =? 255 then 0 :: (if room <=? 1 then [] else request_list w' 1 (room - 1))
      else request_list w' (n + 1) room
  end.

(** A requested packet whose last transmission is older than the round trip
    time is marked for retransmission. *)
Definition mark (temp_time rtt_time : Z) (s : option Packet_Data) : option Packet_Data :=
  match s with
  | Some p => if u64 (sent_time p + rtt_time) <? temp_time then Some (mkPD 0 (pd_data p)) else Some p
  | None => None
  end.

Definition later (l_sent_time : Z) (s : option Packet_Data) : Z :=
  match s with Some p => max_u64 l_sent_time (sent_time p) | None => l_sent_time end.

Fixpoint handle_list (w : list (option Packet_Data)) (n : Z) (data : bytes)
    (requested l_sent_time temp_time rtt_time : Z) : list (option Packet_Data) * option (Z * Z) :=
  match w, data with
  | [], _ | _, [] => (w, Some (requested, l_sent_time))
  | s :: w', d :: data' =>
      if n =? d then
        let '(w', r) := handle_list w' 1 data' (u32 (requested + 1)) l_sent_time temp_time rtt_time in
        (mark temp_time rtt_time s :: w', r)
      else if n =? 255 then
        if negb (d =? 0) then (None :: w', None)
        else
          let '(w', r) := handle_list w' 1 data' requested (later l_sent_time s) temp_time rtt_time in
          (None :: w', r)
      else
        let '(w', r) := handle_list w' (u32 (n + 1)) data requested (later l_sent_time s) temp_time
                          rtt_time in
        (None :: w', r)
  end.

Lemma request_loop_list c : ∀ i n room b out,
  1 <= n <= 255 → zlen out < room →
  request_loop c i n room b out = out ++ request_list (view b i c) n (room - zlen out).
Proof.
  induction c as [|c IH]; intros i n room b out Hn Hr;
    cbn [request_loop view request_list]; [by rewrite app_nil_r|]. change (u32 (0 + 1)) with 1.
  assert (∀ x, zlen (out ++ [x]) = zlen out + 1) as El by (intros; by rewrite zlen_app).
  destruct (b !! slot i) as [p|].
  - destruct (n =? 255) eqn:?.
    + rewrite El. destruct (room <=? zlen out + 1) eqn:?.
      * by rewrite (proj2 (Z.leb_le _ 1)) by lia.
      * rewrite (proj2 (Z.leb_gt _ 1)) by lia. rewrite IH, El by (try rewrite El; lia).
        rewrite <- app_assoc. simpl. do 3 f_equal. lia.
    + rewrite (u32_small (n + 1)) by lia. apply IH; lia.
  - rewrite El, u8_small by lia. destruct (room <=? zlen out + 1) eqn:?.
    + by rewrite (proj2 (Z.leb_le _ 1)) by lia.
    + rewrite (proj2 (Z.leb_gt _ 1)) by lia. rewrite IH, El by (try rewrite El; lia).
      rewrite <- app_assoc. simpl. do 3 f_equal. lia.
Qed.

(** Changing the slot before a window does not change the window. *)
Lemma view_tail b b' i c :
  Z.of_nat c < CRYPTO_PACKET_BUFFER_SIZE →
  (∀ s, s ≠ slot i → b' !! s = b !! s) →
  view b' (u32 (i + 1)) c = view b (u32 (i + 1)) c.
Proof.
  intros Hc H. apply view_ext. intros k Hk. apply H. rewrite slot_u32_add.
  rewrite <- (Z.add_0_r i) at 2. rewrite <- Z.add_assoc. apply slot_ne; lia.
Qed.

(** A ring that was changed in slot [i] at most. *)
Lemma touched_elsewhere (b : gmap Z Packet_Data) i b1 :
  b1 = b ∨ b1 = delete (slot i) b ∨ (∃ p, b1 = <[slot i := p]> b) → ∀ s, s ≠ slot i → b1 !! s = b !! s.
Proof. intros [->|[->|[p ->]]] s Hs; auto; [by apply lookup_delete_ne|by apply lookup_insert_ne]. Qed.

(** The ring loop computes the list loop and touches no slot outside its range. *)
Lemma handle_loop_list c : ∀ i n data req lst tt rtt b,
  Z.of_nat c <= CRYPTO_PACKET_BUFFER_SIZE →
  let '(b', r) := handle_loop c i n data req lst tt rtt b in
  handle_list (view b i c) n data req lst tt rtt = (view b' i c, r) ∧
  ∀ s, (∀ k, 0 <= k < Z.of_nat c → s ≠ slot (i + k)) → b' !! s = b !! s.
Proof.
  induction c as [|c IH]; intros i n data req lst tt rtt b Hc; [done|].
  destruct data as [|d data]; [done|].
  (* one iteration: [b1] is the ring after the step on slot [i] *)
  assert (∀ n' data' req' lst' b1, (∀ s, s ≠ slot i → b1 !! s = b !! s) →
    let '(b', r) := handle_loop c (u32 (i + 1)) n' data' req' lst' tt rtt b1 in
    handle_list (view b (u32 (i + 1)) c) n' data' req' lst' tt rtt = (view b' (u32 (i + 1)) c, r) ∧
    b' !! slot i = b1 !! slot i ∧
    ∀ s, (∀ k, 0 <= k < Z.of_nat (S c) → s ≠ slot (i + k)) → b' !! s = b !! s) as Hstep.
  { intros n' data' req' lst' b1 Hb1.
    specialize (IH (u32 (i + 1)) n' data' req' lst' tt rtt b1 ltac:(lia)).
    destruct handle_loop as [b' r]. destruct IH as [IH1 IH2]. split_and!.
    - by rewrite <- IH1, (view_tail b b1) by (done || lia).
    - apply IH2. intros k Hk. rewrite slot_u32_add, <- Z.add_assoc.
      rewrite <- (Z.add_0_r i) at 1. apply slot_ne; lia.
    - intros s Hs. rewrite IH2, Hb1; [done| |].
      + rewrite <- (Z.add_0_r i). apply Hs. lia.
      + intros k Hk. rewrite slot_u32_add, <- Z.add_assoc. apply Hs. lia. }
  pose proof (touched_elsewhere b i) as Hb1.
  simpl. destruct (n =? d).
  - set (b1 := match b !! slot i with Some p => _ | None => b end).
    assert (b1 = b ∨ b1 = delete (slot i) b ∨ (∃ p, b1 = <[slot i := p]> b)) as Eb
      by (unfold b1; repeat case_match; eauto).
    assert (b1 !! slot i = mark tt rtt (b !! slot i)) as Em.
    { unfold b1, mark. repeat case_match; simplify_eq; auto. by rewrite lookup_insert_eq. }
    change (u32 (0 + 1)) with 1.
    specialize (Hstep 1 data (u32 (req + 1)) lst b1 (Hb1 b1 Eb)).
    destruct handle_loop as [b' r]. destruct Hstep as (-> & Ei & Ho).
    by rewrite Ei, Em.
  - assert ((match b !! slot i with
             | Some p => (delete (slot i) b, max_u64 lst (sent_time p))
             | None => (b, lst) end) = (delete (slot i) b, later lst (b !! slot i))) as ->.
    { destruct (b !! slot i) eqn:E; simpl; [done|]. by rewrite delete_id. }
    pose proof (Hb1 (delete (slot i) b) ltac:(auto)) as Hd.
    destruct (n =? 255); [destruct (negb (d =? 0))|].
    + rewrite lookup_delete_eq, (view_tail b (delete (slot i) b)) by (done || lia).
      split; [done|]. intros s Hs. apply Hd. rewrite <- (Z.add_0_r i). apply Hs. lia.
    + specialize (Hstep 1 data req (later lst (b !! slot i)) _ Hd).
      destruct handle_loop as [b' r]. destruct Hstep as (-> & Ei & Ho).
      by rewrite Ei, lookup_delete_eq.
    + specialize (Hstep (u32 (n + 1)) (d :: data) req (later lst (b !! slot i)) _ Hd).
      destruct handle_loop as [b' r]. destruct Hstep as (-> & Ei & Ho).
      by rewrite Ei, lookup_delete_eq.
Qed.

(** What one packet of the sender becomes once the peer reported its own window:
    freed if the peer has it, kept (and marked when due) if it has not. *)
Definition ack_one (temp_time rtt_time : Z) (r s : option Packet_Data) : option Packet_Data :=
  match r with Some _ => None | None => mark temp_time rtt_time s end.

Definition missing (w : list (option Packet_Data)) : Z := zlen (filter (λ s, s = None) w).

(** The first byte of a request never names a slot before the next one. *)
Lemma request_list_head w : ∀ n room,
  1 <= n <= 255 → match request_list w n room with [] => True | d :: _ => d = 0 ∨ n <= d end.
Proof.
  induction w as [|[p|] w IH]; intros n room Hn; simpl; auto; [|lia].
  destruct (n =? 255) eqn:?; [auto|]. specialize (IH (n + 1) room ltac:(lia)).
  destruct request_list; [done|]. lia.
Qed.

Lemma request_list_nil w : ∀ n room,
  request_list w n room = [] → Forall (λ s, s ≠ None) w.
Proof.
  induction w as [|[p|] w IH]; intros n room; simpl; [constructor| |done].
  destruct (n =? 255); [done|]. intros H. constructor; [done|]. eauto.
Qed.

Lemma handle_list_nil w n req lst tt rtt :
  handle_list w n [] req lst tt rtt = (w, Some (req, lst)).
Proof. by destruct w. Qed.

Lemma request_list_acks rw : ∀ sw n room req lst tt rtt,
  (length rw <= length sw)%nat → 1 <= n <= 255 → 1 <= room →
  0 <= req → req + zlen rw < 2 ^ 32 →
  ∃ m lst', (m <= length rw)%nat ∧
    handle_list sw n (request_list rw n room) req lst tt rtt
    = (zip_with (ack_one tt rtt) (take m rw) (take m sw) ++ drop m sw,
       Some (req + missing (take m rw), lst')) ∧
    (zlen (request_list rw n room) < room → Forall (λ s, s ≠ None) (drop m rw)).
Proof.
  induction rw as [|r rw IH]; intros sw n room req lst tt rtt Hl Hn Hroom Hq Hb.
  { exists 0%nat, lst. rewrite handle_list_nil. simpl. split_and!; [lia|by rewrite Z.add_0_r|done]. }
  destruct sw as [|s sw]; simpl in Hl; [lia|]. rewrite zlen_cons in Hb.
  pose proof (zlen_nonneg rw) as Hz.
  assert (∀ n' room' q' l', 1 <= n' <= 255 → 0 <= room' → 0 <= q' → q' + zlen rw < 2 ^ 32 →
    ∃ m lst', (m <= length rw)%nat ∧
      handle_list sw n' (if room' <=? 0 then [] else request_list rw n' room') q' l' tt rtt
      = (zip_with (ack_one tt rtt) (take m rw) (take m sw) ++ drop m sw,
         Some (q' + missing (take m rw), lst')) ∧
      (0 < room' → zlen (request_list rw n' room') < room' →
        Forall (λ s, s ≠ None) (drop m rw))) as Hrec.
  { intros n' room' q' l' Hn' Hr' Hq' Hb'. destruct (room' <=? 0) eqn:?.
    - exists 0%nat, l'. rewrite handle_list_nil. simpl.
      split_and!; [lia|by rewrite Z.add_0_r|lia].
    - destruct (IH sw n' room' q' l' tt rtt) as (m & lst' & ? & E & ?); try lia; eauto 6. }
  assert (∀ m, missing (take (S m) (r :: rw))
    = (match r with None => 1 | Some _ => 0 end) + missing (take m rw)) as Em.
  { intros m. unfold missing. simpl. destruct r; [by rewrite filter_cons_False by done|].
    rewrite filter_cons_True by done. rewrite zlen_cons. lia. }
  assert ((room <=? 1) = (room - 1 <=? 0)) as Er by lia.
  destruct r as [p|]; simpl.
  - destruct (n =? 255) eqn:En.
    + destruct (Hrec 1 (room - 1) req (later lst s)) as (m & lst' & Hm & E & Ht); try lia.
      exists (S m), lst'. rewrite Em. simpl. rewrite (proj2 (Z.eqb_neq n 0)), Er, E by lia.
      split_and!; [lia|done|]. rewrite zlen_cons. destruct (room - 1 <=? 0) eqn:?; intros; [|apply Ht; lia].
      unfold zlen in *. simpl in *. lia.
    + pose proof (request_list_head rw (n + 1) room ltac:(lia)) as Hh.
      destruct (request_list rw (n + 1) room) as [|d data] eqn:Eq.
      * exists 0%nat, lst. split_and!; [lia|by rewrite Z.add_0_r|].
        intros _. constructor; [done|]. by eapply request_list_nil.
      * destruct (IH sw (n + 1) room req (later lst s) tt rtt) as (m & lst' & Hm & E & Ht); try lia.
        exists (S m), lst'. rewrite Em. simpl.
        rewrite (proj2 (Z.eqb_neq n d)), u32_small by lia. rewrite Eq in E. rewrite E.
        split_and!; [lia|done|]. intros. apply Ht. rewrite Eq. lia.
  - destruct (Hrec 1 (room - 1) (req + 1) lst) as (m & lst' & Hm & E & Ht); try lia.
    exists (S m), lst'. rewrite Em, Z.eqb_refl. simpl. rewrite u32_small, Er, E by lia.
    split_and!; [lia|by rewrite Z.add_assoc|]. rewrite zlen_cons.
    destruct (room - 1 <=? 0) eqn:?; intros; [|apply Ht; lia].
    unfold zlen in *. simpl in *. lia.
Qed.

(** *** The codec on rings *)

Lemma handle_loop_moves a n data req lst tt rtt :
  pa_wf a →
  let '(b, r) := handle_loop (Z.to_nat (num_packets_array a)) (buffer_start a) n data req lst tt rtt
                   (buffer a) in
  ∃ w, handle_list (win a) n data req lst tt rtt = (w, r) ∧
    moves_to (mkPA b (buffer_start a) (buffer_end a)) (buffer_start a) w.
Proof.
  intros Hw. pose proof (pa_num a Hw) as Hsz. pose proof (num_packets_range a) as Hr.
  unfold is_u32 in Hr.
  pose proof (handle_loop_list (Z.to_nat (num_packets_array a)) (buffer_start a) n data req lst tt
    rtt (buffer a) ltac:(lia)) as H.
  destruct handle_loop as [b r]. destruct H as [H1 H2]. eexists. split; [exact H1|].
  rewrite (pa_end_eq a Hw).
  destruct (mkPA_wf b (buffer_start a) (num_packets_array a)) as (Hw' & Hn' & Hv');
    [apply Hw|lia| |done].
  intros k Hk. rewrite H2; [by apply pa_clean|]. intros j Hj. apply slot_ne; lia.
Qed.

Lemma generate_request_packet_win len a :
  pa_wf a → 1 <= len →
  generate_request_packet len a
  = Some (PACKET_ID_REQUEST :: if len <=? 1 then [] else request_list (win a) 1 (len - 1)).
Proof.
  intros Hw Hlen. unfold generate_request_packet. rewrite (proj2 (Z.eqb_neq _ _)) by lia.
  change (zlen [PACKET_ID_REQUEST]) with 1.
  destruct (buffer_start a =? buffer_end a) eqn:He.
  { rewrite (proj1 (pa_empty_iff a Hw)) by lia. by destruct (len <=? 1). }
  destruct (len <=? 1) eqn:Hl; [done|]. fold (num_packets_array a).
  by rewrite request_loop_list by (change (zlen [PACKET_ID_REQUEST]) with 1; lia).
Qed.

Lemma zlen_request_list w : ∀ n room, 1 <= room → zlen (request_list w n room) <= room.
Proof.
  induction w as [|[p|] w IH]; intros n room Hr; simpl.
  - unfold zlen. simpl. lia.
  - destruct (n =? 255); [|auto]. rewrite zlen_cons. destruct (room <=? 1) eqn:?; [done|].
    specialize (IH 1 (room - 1)). lia.
  - rewrite zlen_cons. destruct (room <=? 1) eqn:?; [done|]. specialize (IH 1 (room - 1)). lia.
Qed.

Lemma moves_to_refl a : pa_wf a → moves_to a (buffer_start a) (win a).
Proof. by split. Qed.

(** Handling the request generated from the peer's window. *)
Lemma handle_generated_request len R S now lst rtt :
  pa_wf R → pa_wf S → buffer_start R = buffer_start S →
  (length (win R) <= length (win S))%nat → 1 <= len →
  ∃ req m S' lst', generate_request_packet len R = Some req ∧ zlen req <= len ∧
    (m <= length (win R))%nat ∧
    handle_request_packet now S req lst rtt = (S', Some (missing (take m (win R))), lst') ∧
    moves_to S' (buffer_start S)
      (zip_with (ack_one now rtt) (take m (win R)) (take m (win S)) ++ drop m (win S)) ∧
    (zlen req < len → Forall (λ s, s ≠ None) (drop m (win R))).
Proof.
  intros HR HS Est Hl Hlen. rewrite generate_request_packet_win by done.
  set (rest := if len <=? 1 then [] else request_list (win R) 1 (len - 1)).
  assert (zlen rest <= len - 1) as Hrest.
  { unfold rest. destruct (len <=? 1) eqn:?; [unfold zlen; simpl; lia|].
    apply zlen_request_list. lia. }
  assert (rest = [] → zlen (PACKET_ID_REQUEST :: rest) < len → Forall (λ s, s ≠ None) (win R)) as Hnil.
  { rewrite zlen_cons. unfold rest. destruct (len <=? 1) eqn:?; intros E ?.
    - unfold zlen in *. simpl in *. lia.
    - by eapply request_list_nil. }
  exists (PACKET_ID_REQUEST :: rest).
  unfold handle_request_packet. rewrite Z.eqb_refl. cbn [negb]. rewrite zlen_cons.
  destruct (zlen rest + 1 =? 1) eqn:Ez.
  - assert (rest = []) as Er by (apply length_zero_iff_nil; unfold zlen in Ez; lia).
    exists 0%nat, S, lst. rewrite Er in *. rewrite zlen_cons in Hnil.
    split_and!; [done|lia|lia|done|by apply moves_to_refl|by auto].
  - fold (num_packets_array S).
    pose proof (handle_loop_moves S 1 rest 0 0 now rtt HS) as Hh.
    destruct handle_loop as [b r]. destruct Hh as (w & Ew & Hm).
    assert (len <=? 1 = false) as E1 by (pose proof (zlen_nonneg rest); lia).
    unfold rest in *. rewrite E1 in *.
    destruct (request_list_acks (win R) (win S) 1 (len - 1) 0 0 now rtt)
      as (m & lst' & Hmm & E & Ht); try lia.
    { rewrite zlen_win. pose proof (pa_num R HR) as Hn. unfold CRYPTO_PACKET_BUFFER_SIZE in Hn. lia. }
    rewrite E in Ew. simplify_eq. eexists m, _, _.
    split_and!; [done|lia|done|done|done|]. intros. apply Ht. lia.
Qed.

(** ** Refinement

    The calls a connection makes on one of its arrays, and what each returns. *)
Inductive pa_op :=
| AddEnd (alloc : bool) (data : Packet_Data)
| AddNumber (alloc : bool) (number : Z) (data : Packet_Data)
| GetPointer (number : Z)
| ReadBeg
| ClearUntil (number : Z)
| ClearAll
| SetEnd (number : Z)
| GenRequest (length : Z)
| HandleRequest (temp_time : Z) (data : bytes) (latest_send_time rtt_time : Z).

Inductive pa_res :=
| Failed
| Done
| Number (id : Z)
| Packet (id : Z) (data : Packet_Data)
| Slot (s : option Packet_Data)
| Bytes (data : bytes)
| Requested (n : option Z) (latest_send_time : Z).

Definition or_fail {A B} (s : B) (f : A → pa_res * B) (r : option A) : pa_res * B :=
  match r with None => (Failed, s) | Some x => f x end.

Definition pa_apply (op : pa_op) (a : Packets_Array) : pa_res * Packets_Array :=
  match op with
  | AddEnd alloc d => or_fail a (λ '(id, a'), (Number id, a')) (add_data_end_of_buffer alloc a d)
  | AddNumber alloc n d => or_fail a (λ a', (Done, a')) (add_data_to_buffer alloc a n d)
  | GetPointer n => or_fail a (λ s, (Slot s, a)) (get_data_pointer a n)
  | ReadBeg => or_fail a (λ '(id, d, a'), (Packet id d, a')) (read_data_beg_buffer a)
  | ClearUntil n => or_fail a (λ a', (Done, a')) (clear_buffer_until a n)
  | ClearAll => (Done, clear_buffer a)
  | SetEnd n => or_fail a (λ a', (Done, a')) (set_buffer_end a n)
  | GenRequest len => or_fail a (λ p, (Bytes p, a)) (generate_request_packet len a)
  | HandleRequest now data lst rtt =>
      let '(a', r, lst') := handle_request_packet now a data lst rtt in (Requested r lst', a')
  end.

(** The specification: packet numbers are offsets into a list. *)
Definition window : Type := Z * list (option Packet_Data).

Definition win_apply (op : pa_op) (s : window) : pa_res * window :=
  let '(start, w) := s in
  let off n := u32 (n - start) in
  match op with
  | AddEnd alloc d =>
      if (zlen w =? CRYPTO_PACKET_BUFFER_SIZE) || negb alloc then (Failed, s)
      else (Number (u32 (start + zlen w)), (start, w ++ [Some d]))
  | AddNumber alloc n d =>
      if (CRYPTO_PACKET_BUFFER_SIZE <=? off n) || negb alloc then (Failed, s)
      else match w !! Z.to_nat (off n) with
           | Some (Some _) => (Failed, s)
           | _ => (Done, (start, <[Z.to_nat (off n) := Some d]>
                                   (w ++ replicate (Z.to_nat (off n + 1 - zlen w)) None)))
           end
  | GetPointer n => or_fail s (λ x, (Slot x, s)) (w !! Z.to_nat (off n))
  | ReadBeg =>
      match w with
      | Some d :: w' => (Packet start d, (u32 (start + 1), w'))
      | _ => (Failed, s)
      end
  | ClearUntil n =>
      if bool_decide (1 <= off n <= zlen w) then (Done, (n, drop (Z.to_nat (off n)) w))
      else (Failed, s)
  | ClearAll => (Done, (u32 (start + zlen w), []))
  | SetEnd n =>
      if bool_decide (zlen w <= off n <= CRYPTO_PACKET_BUFFER_SIZE)
      then (Done, (start, w ++ replicate (Z.to_nat (off n - zlen w)) None))
      else (Failed, s)
  | GenRequest len =>
      if len =? 0 then (Failed, s)
      else (Bytes (PACKET_ID_REQUEST :: if len <=? 1 then [] else request_list w 1 (len - 1)), s)
  | HandleRequest now data lst rtt =>
      match data with
      | id :: d :: data' =>
          if negb (id =? PACKET_ID_REQUEST) then (Requested None lst, s)
          else
            let '(w', r) := handle_list w 1 (d :: data') 0 0 now rtt in
            match r with
            | None => (Requested None lst, (start, w'))
            | Some (n, l) => (Requested (Some n) (max_u64 lst l), (start, w'))
            end
      | [id] => (Requested (if negb (id =? PACKET_ID_REQUEST) then None else Some 0) lst, s)
      | [] => (Requested None lst, s)
      end
  end.

(** The arguments the callers pass: packet numbers are [uint32_t] and the length
    a [uint16_t]. *)
Definition op_ok (op : pa_op) : Prop :=
  match op with
  | AddNumber _ n _ | GetPointer n | ClearUntil n | SetEnd n => is_u32 n
  | GenRequest len => is_u16 len
  | _ => True
  end.

(** One call keeps the array well formed and acts on its window as specified. *)
Definition refines (op : pa_op) (a : Packets_Array) : Prop :=
  let '(r, a') := pa_apply op a in
  pa_wf a' ∧ win_apply op (buffer_start a, win a) = (r, (buffer_start a', win a')).

Lemma refines_add a alloc number d : pa_wf a → is_u32 number → refines (AddNumber alloc number d) a.
Proof.
  intros Hw Hn. unfold refines. simpl. destruct alloc.
  2: { replace (add_data_to_buffer false a number d) with (@None Packets_Array);
         [by rewrite orb_true_r|]. unfold add_data_to_buffer. repeat case_match; done. }
  pose proof (add_data_to_buffer_win true a number d Hw Hn) as H. simpl in H.
  rewrite orb_false_r. destruct add_data_to_buffer as [a'|]; simpl.
  - destruct H as (Hk & Hp & Hw' & Hs & Hv). split; [done|].
    rewrite (proj2 (Z.leb_gt _ _)) by lia.
    destruct (win a !! _) as [[p|]|] eqn:E; [by destruct (Hp p)|by rewrite Hs, Hv..].
  - destruct H as [?|[H|[p H]]]; [done|by rewrite (proj2 (Z.leb_le _ _)) by lia|].
    rewrite H. by destruct (_ <=? _).
Qed.

Lemma refines_handle a now data lst rtt : pa_wf a → refines (HandleRequest now data lst rtt) a.
Proof.
  intros Hw. unfold refines. simpl. unfold handle_request_packet.
  destruct data as [|id [|d data]]; [done|by destruct (negb _)|].
  destruct (negb (id =? PACKET_ID_REQUEST)); [done|].
  rewrite !zlen_cons. pose proof (zlen_nonneg data).
  rewrite (proj2 (Z.eqb_neq _ 1)) by lia. fold (num_packets_array a).
  pose proof (handle_loop_moves a 1 (d :: data) 0 0 now rtt Hw) as H1.
  destruct handle_loop as [b r]. destruct H1 as (w & -> & Hw' & Hs & Hv).
  destruct r as [[n l]|]; simpl; by rewrite Hv.
Qed.

Lemma pa_apply_refines op a : pa_wf a → op_ok op → refines op a.
Proof.
  intros Hw Hop. destruct op as [alloc d|alloc n d|n| |n| |n|len|now data lst rtt];
    [|by apply refines_add|..|by apply refines_handle]; unfold refines; cbn [pa_apply win_apply].
  - pose proof (add_data_end_of_buffer_win alloc a d Hw) as H.
    destruct alloc; [|by rewrite orb_true_r; unfold add_data_end_of_buffer; destruct (_ <=? _)].
    destruct add_data_end_of_buffer as [[id a']|] eqn:E; simpl.
    + destruct H as (-> & Hw' & Hs & Hv). split; [done|]. rewrite orb_false_r, Hs, Hv.
      destruct (zlen (win a) =? CRYPTO_PACKET_BUFFER_SIZE) eqn:?; [|done].
      unfold add_data_end_of_buffer in E. rewrite zlen_win in *. case_match; [done|lia].
    + destruct H as [|H]; [done|]. by rewrite H, Z.eqb_refl.
  - simpl in Hop. rewrite get_data_pointer_win by done. by destruct (win a !! _).
  - pose proof (read_data_beg_buffer_win a Hw) as H. destruct (win a) as [|[d|] w] eqn:E.
    + rewrite H. simpl. by rewrite E.
    + destruct H as (a' & -> & Hw' & Hs & Hv). simpl. by rewrite Hs, Hv.
    + rewrite H. simpl. by rewrite E.
  - pose proof (clear_buffer_until_win a n Hw Hop) as H. simpl in H. case_bool_decide.
    + destruct H as (a' & -> & Hw' & Hs & Hv). simpl. by rewrite Hs, Hv.
    + by rewrite H.
  - destruct (clear_buffer_win a Hw) as (Hw' & Hs & Hv). rewrite Hs, Hv, zlen_win.
    by rewrite <- pa_end_eq.
  - pose proof (set_buffer_end_win a n Hw Hop) as H. simpl in H. case_bool_decide.
    + destruct H as (a' & -> & Hw' & Hs & Hv). simpl. by rewrite Hs, Hv.
    + by rewrite H.
  - simpl in Hop. unfold is_u16 in Hop. destruct (len =? 0) eqn:E.
    + assert (len = 0) as -> by lia. done.
    + by rewrite generate_request_packet_win by (done || lia).
Qed.

Fixpoint run_ops {S} (f : pa_op → S → pa_res * S) (ops : list pa_op) (s : S) : list pa_res * S :=
  match ops with
  | [] => ([], s)
  | op :: ops' => let '(r, s1) := f op s in let '(rs, s2) := run_ops f ops' s1 in (r :: rs, s2)
  end.

(** C3: Whatever sequence of calls is made on a packet array, every call returns
    what the same call returns on a plain list of optional packets numbered from
    the window's start, across all wrap-arounds of the ring and of the 32-bit
    packet numbers; the array stays well formed throughout. *)
Theorem packets_array_refines_window ops a :
  pa_wf a → Forall op_ok ops →
  let '(rs, a') := run_ops pa_apply ops a in
  pa_wf a' ∧
  run_ops win_apply ops (buffer_start a, win a) = (rs, (buffer_start a', win a')).
Proof.
  intros Hw Hops. revert a Hw. induction Hops as [|op ops Hop Hops IH]; intros a Hw; [done|].
  cbn [run_ops]. pose proof (pa_apply_refines op a Hw Hop) as H. unfold refines in H.
  destruct (pa_apply op a) as [r a1]. destruct H as [Hw1 ->].
  specialize (IH a1 Hw1). destruct (run_ops pa_apply ops a1) as [rs a2].
  destruct IH as [? ->]. done.
Qed.

Lemma packets_array_refines_window_witness :
  let a := mkPA ∅ UINT32_MAX UINT32_MAX in
  let p x := mkPD 0 [x] in
  let ops := [AddEnd true (p 16); AddNumber true 2 (p 18); GetPointer 1; AddNumber true 2 (p 19);
              GenRequest 10; ReadBeg; ReadBeg; SetEnd 40000; ClearUntil 2; ReadBeg] in
  run_ops win_apply ops (UINT32_MAX, [])
  = ([Number UINT32_MAX; Done; Slot None; Failed; Bytes [1; 2; 1]; Packet UINT32_MAX (p 16);
      Failed; Failed; Done; Packet 2 (p 18)],
     (3, [])).
Proof.
  intros a p ops.
  pose proof (packets_array_refines_window ops a) as H.
  assert (pa_wf a) as Hw.
  { split; simpl; [unfold_cint; lia|unfold_cint; lia|done|intros; apply lookup_empty]. }
  assert (Forall op_ok ops) as Hops by (repeat constructor; vm_compute; done).
  specialize (H Hw Hops).
  assert (run_ops pa_apply ops a
    = ([Number UINT32_MAX; Done; Slot None; Failed; Bytes [1; 2; 1]; Packet UINT32_MAX (p 16);
        Failed; Failed; Done; Packet 2 (p 18)], mkPA ∅ 3 3)) as E by (vm_compute; reflexivity).
  rewrite E in H. destruct H as [_ H]. exact H.
Defined.

Lemma missing_none w : Forall (λ s, s ≠ None) w → missing w = 0.
Proof.
  unfold missing. induction 1 as [|s w Hs Hw IH]; [done|]. by rewrite filter_cons_False.
Qed.

Lemma missing_take m w : Forall (λ s, s ≠ None) (drop m w) → missing (take m w) = missing w.
Proof.
  intros H. rewrite <- (take_drop m w) at 2. unfold missing.
  rewrite list.filter_app, zlen_app. fold (missing (drop m w)).
  rewrite missing_none by done. lia.
Qed.

(** C4: When the sender handles the packet request its peer generated from a
    receive window that starts where the send window does, it frees only packets
    the peer has, keeps the payload of every packet the peer is missing, and, if
    the request was not cut off by the packet size, counts every missing packet
    and marks each for retransmission once it is older than the round trip time.
    The request never makes the handler fail. *)
Theorem request_frees_only_received len R S now lst rtt :
  pa_wf R → pa_wf S → buffer_start R = buffer_start S →
  num_packets_array R <= num_packets_array S → 1 <= len →
  ∃ req S' n lst',
    generate_request_packet len R = Some req ∧
    handle_request_packet now S req lst rtt = (S', Some n, lst') ∧
    pa_wf S' ∧ buffer_start S' = buffer_start S ∧ length (win S') = length (win S) ∧
    (∀ k s, win S !! k = Some s →
       win S' !! k = Some s
       ∨ (∃ p, win R !! k = Some (Some p)) ∧ win S' !! k = Some None
       ∨ win R !! k = Some None ∧ win S' !! k = Some (mark now rtt s)) ∧
    (zlen req < len → n = missing (win R) ∧
       ∀ k s, win R !! k = Some None → win S !! k = Some s →
         win S' !! k = Some (mark now rtt s)).
Proof.
  intros HR HS Est Hl Hlen.
  assert (length (win R) <= length (win S))%nat as Hl'.
  { pose proof (length_win R). pose proof (length_win S). lia. }
  destruct (handle_generated_request len R S now lst rtt) as
    (req & m & S' & lst' & Hg & _ & Hm & Hh & (Hw' & Hs' & Hv') & Hfull); [done..|].
  exists req, S', (missing (take m (win R))), lst'.
  assert (length (win S') = length (win S)) as El.
  { rewrite Hv', length_app, length_zip_with, !length_take, length_drop. lia. }
  assert (∀ k s, win S !! k = Some s →
    win S' !! k = (if decide (k < m)%nat then (λ r, ack_one now rtt r s) <$> win R !! k else Some s))
    as Hk.
  { intros k s Hks. rewrite Hv'. destruct (decide (k < m)%nat).
    - rewrite lookup_app_l by (rewrite length_zip_with, !length_take; lia).
      rewrite lookup_zip_with, !lookup_take_lt, Hks by lia. by destruct (win R !! k).
    - rewrite lookup_app_r by (rewrite length_zip_with, !length_take; lia).
      rewrite lookup_drop, length_zip_with, !length_take, <- Hks. f_equal. lia. }
  split_and!; [done..| |].
  - intros k s Hks. rewrite (Hk k s Hks). destruct (decide (k < m)%nat); [|auto].
    destruct (lookup_lt_is_Some_2 (win R) k) as [[p|] Hr]; [lia|..]; rewrite Hr; simpl; eauto.
  - intros Hreq. specialize (Hfull Hreq). split.
    + by apply missing_take.
    + intros k s Hr Hks. rewrite (Hk k s Hks). destruct (decide (k < m)%nat); [by rewrite Hr|].
      exfalso. rewrite Forall_lookup in Hfull. apply (Hfull (k - m)%nat None); [|done].
      rewrite lookup_drop, <- Hr. f_equal. lia.
Qed.

(** The peer misses packets 1 and 3 of five. *)
Lemma request_frees_only_received_witness :
  let p x := mkPD 5 [x] in
  let R := mkPA {[2 := p 18; 4 := p 20]} 0 5 in
  let S := mkPA {[0 := p 16; 1 := p 17; 2 := p 18; 3 := p 19; 4 := p 20]} 0 5 in
  ∃ req S' n lst',
    generate_request_packet 1373 R = Some req ∧
    handle_request_packet 100 S req 0 50 = (S', Some n, lst') ∧
    win S' !! 1%nat = Some (Some (mkPD 0 [17])) ∧ n = 3.
Proof.
  intros p R S.
  assert (pa_wf R) as HR.
  { split; simpl; [unfold_cint; lia|unfold_cint; lia|vm_compute; discriminate|].
    change (num_packets_array R) with 5. unfold CRYPTO_PACKET_BUFFER_SIZE. intros k Hk.
    unfold slot, CRYPTO_PACKET_BUFFER_SIZE. rewrite Z.mod_small by lia.
    rewrite !lookup_insert_ne by lia. apply lookup_singleton_ne. lia. }
  assert (pa_wf S) as HS.
  { split; simpl; [unfold_cint; lia|unfold_cint; lia|vm_compute; discriminate|].
    change (num_packets_array S) with 5. unfold CRYPTO_PACKET_BUFFER_SIZE. intros k Hk.
    unfold slot, CRYPTO_PACKET_BUFFER_SIZE. rewrite Z.mod_small by lia.
    rewrite !lookup_insert_ne by lia. apply lookup_singleton_ne. lia. }
  destruct (request_frees_only_received 1373 R S 100 0 50 HR HS eq_refl)
    as (req & S' & n & lst' & Hg & Hh & _ & _ & _ & _ & Hfull); [vm_compute; discriminate|lia|].
  exists req, S', n, lst'. assert (req = [1; 1; 1; 2]) as ->.
  { apply (inj Some). rewrite <- Hg. vm_compute. reflexivity. }
  destruct Hfull as [Hn Hk]; [unfold zlen; simpl; lia|]. split_and!; [done|done| |].
  - rewrite (Hk 1%nat (Some (p 17))); vm_compute; reflexivity.
  - rewrite Hn. vm_compute. reflexivity.
Defined.
