(* ===== verification/Handshake.v ===== *)
(** * Handshake: cookies and handshake packets of [toxcore/net_crypto.c]

    How two peers that know each other's long-term keys set up a session: a
    cookie request, the cookie response, and the handshake packets that carry
    the cookies, the base nonces and the session keys.  The functions that build
    and open these packets are translated here; the state machine that calls them
    is in NetCrypto. *)
From S2P Require Import Prelude MonoTime CryptoCore SharedKeyCache.

(** ** Sizes and packet ids *)

Definition COOKIE_TIMEOUT : Z := 15.
Definition COOKIE_DATA_LENGTH : Z := CRYPTO_PUBLIC_KEY_SIZE * 2.
Definition COOKIE_CONTENTS_LENGTH : Z := 8 + COOKIE_DATA_LENGTH.
Definition COOKIE_LENGTH : Z := CRYPTO_NONCE_SIZE + COOKIE_CONTENTS_LENGTH + CRYPTO_MAC_SIZE.
Definition COOKIE_REQUEST_PLAIN_LENGTH : Z := COOKIE_DATA_LENGTH + 8.
Definition COOKIE_REQUEST_LENGTH : Z :=
  1 + CRYPTO_PUBLIC_KEY_SIZE + CRYPTO_NONCE_SIZE + COOKIE_REQUEST_PLAIN_LENGTH + CRYPTO_MAC_SIZE.
Definition COOKIE_RESPONSE_LENGTH : Z :=
  1 + CRYPTO_NONCE_SIZE + COOKIE_LENGTH + 8 + CRYPTO_MAC_SIZE.
Definition HANDSHAKE_PLAIN_LENGTH : Z :=
  CRYPTO_NONCE_SIZE + CRYPTO_PUBLIC_KEY_SIZE + CRYPTO_SHA512_SIZE + COOKIE_LENGTH.
Definition HANDSHAKE_PACKET_LENGTH : Z :=
  1 + COOKIE_LENGTH + CRYPTO_NONCE_SIZE + HANDSHAKE_PLAIN_LENGTH + CRYPTO_MAC_SIZE.

Definition NET_PACKET_COOKIE_REQUEST : Z := 24.
Definition NET_PACKET_COOKIE_RESPONSE : Z := 25.
Definition NET_PACKET_CRYPTO_HS : Z := 26.
Definition NET_PACKET_CRYPTO_DATA : Z := 27.

(** ** Outcomes

    [Fail] is a documented error return; [Undef] marks the points where the code
    runs into undefined behaviour. *)
Inductive outcome (A : Type) :=
| Ret (a : A)
| Fail
| Undef.
Arguments Ret {A} a.
Arguments Fail {A}.
Arguments Undef {A}.

(** The keys a [Net_Crypto] works with: its own long-term pair, the symmetric
    key of its cookies and the public key of its DHT node. *)
Record Identity := mkIdentity {
  self_public_key : bytes;
  self_secret_key : bytes;
  secret_symmetric_key : bytes;
  dht_self_public_key : bytes
}.

Section handshake.
Context {Sod : Sodium}.

(** ** Cookies

    [alloc] is the outcome of the allocations of the encryption, [now] is
    [mono_time_get] and [nonce] the bytes [random_nonce] produced. *)
Definition create_cookie (alloc : bool) (nonce : bytes) (now : Z) (data encryption_key : bytes)
    : option bytes :=
  let contents := le_bytes 8 now ++ slice 0 COOKIE_DATA_LENGTH data in
  let '(len, enc) := encrypt_data_symmetric alloc encryption_key nonce contents COOKIE_CONTENTS_LENGTH in
  if negb (len =? COOKIE_LENGTH - CRYPTO_NONCE_SIZE) then None else Some (nonce ++ enc).

Definition open_cookie (alloc : bool) (now : Z) (cookie encryption_key : bytes) : option bytes :=
  let '(len, contents) :=
    decrypt_data_symmetric alloc encryption_key (slice 0 CRYPTO_NONCE_SIZE cookie)
      (drop (Z.to_nat CRYPTO_NONCE_SIZE) cookie) (COOKIE_LENGTH - CRYPTO_NONCE_SIZE) in
  if negb (len =? COOKIE_CONTENTS_LENGTH) then None
  else
    let cookie_time := le_val (slice 0 8 contents) in
    if (u64 (cookie_time + COOKIE_TIMEOUT) <? now) || (now <? cookie_time) then None
    else Some (slice 8 COOKIE_DATA_LENGTH contents).

(** ** Cookie request and response *)

(** [dht_get_shared_key_sent] of [DHT.c]. *)
Definition dht_get_shared_key_sent (cache : Shared_Key_Cache) (public_key : bytes)
    : option bytes * Shared_Key_Cache := shared_key_cache_lookup cache public_key.

(** Returns the packet and the shared key; copying from the null pointer that
    the key lookup returns for a key it cannot use is undefined. *)
Definition create_cookie_request (alloc : bool) (c : Identity) (cache : Shared_Key_Cache)
    (nonce dht_public_key : bytes) (number : Z) : outcome (bytes * bytes) * Shared_Key_Cache :=
  let padding := zeros CRYPTO_PUBLIC_KEY_SIZE in
  let plain := self_public_key c ++ padding ++ le_bytes 8 number in
  let '(tmp_shared_key, cache) := dht_get_shared_key_sent cache dht_public_key in
  match tmp_shared_key with
  | None => (Undef, cache)
  | Some shared_key =>
      let '(len, enc) :=
        encrypt_data_symmetric alloc shared_key nonce plain COOKIE_REQUEST_PLAIN_LENGTH in
      if negb (len =? COOKIE_REQUEST_PLAIN_LENGTH + CRYPTO_MAC_SIZE) then (Fail, cache)
      else (Ret ([NET_PACKET_COOKIE_REQUEST] ++ dht_self_public_key c ++ nonce ++ enc, shared_key),
            cache)
  end.

Definition create_cookie_response (alloc : bool) (c : Identity) (now : Z)
    (cookie_nonce nonce request_plain shared_key dht_public_key : bytes) : option bytes :=
  let cookie_plain := slice 0 CRYPTO_PUBLIC_KEY_SIZE request_plain ++ dht_public_key in
  match create_cookie alloc cookie_nonce now cookie_plain (secret_symmetric_key c) with
  | None => None
  | Some cookie =>
      let plain := cookie ++ slice COOKIE_DATA_LENGTH 8 request_plain in
      let '(len, enc) := encrypt_data_symmetric alloc shared_key nonce plain (COOKIE_LENGTH + 8) in
      if negb (len =? COOKIE_RESPONSE_LENGTH - (1 + CRYPTO_NONCE_SIZE)) then None
      else Some ([NET_PACKET_COOKIE_RESPONSE] ++ nonce ++ enc)
  end.

(** Returns the plain text of the request, the shared key and the sender's DHT
    public key. *)
Definition handle_cookie_request (alloc : bool) (cache : Shared_Key_Cache) (packet : bytes)
    : outcome (bytes * bytes * bytes) * Shared_Key_Cache :=
  if negb (zlen packet =? COOKIE_REQUEST_LENGTH) then (Fail, cache)
  else
    let dht_public_key := slice 1 CRYPTO_PUBLIC_KEY_SIZE packet in
    let '(tmp_shared_key, cache) := dht_get_shared_key_sent cache dht_public_key in
    match tmp_shared_key with
    | None => (Undef, cache)
    | Some shared_key =>
        let '(len, request_plain) :=
          decrypt_data_symmetric alloc shared_key
            (slice (1 + CRYPTO_PUBLIC_KEY_SIZE) CRYPTO_NONCE_SIZE packet)
            (drop (Z.to_nat (1 + CRYPTO_PUBLIC_KEY_SIZE + CRYPTO_NONCE_SIZE)) packet)
            (COOKIE_REQUEST_PLAIN_LENGTH + CRYPTO_MAC_SIZE) in
        if negb (len =? COOKIE_REQUEST_PLAIN_LENGTH) then (Fail, cache)
        else (Ret (request_plain, shared_key, dht_public_key), cache)
    end.

(** The packet [udp_handle_cookie_request] sends back to [source], if it gets
    that far; [cookie_nonce] and [nonce] are its two random nonces. *)
Definition udp_handle_cookie_request (alloc : bool) (c : Identity) (cache : Shared_Key_Cache)
    (now : Z) (cookie_nonce nonce packet : bytes) : outcome bytes * Shared_Key_Cache :=
  match handle_cookie_request alloc cache packet with
  | (Undef, cache) => (Undef, cache)
  | (Fail, cache) => (Fail, cache)
  | (Ret (request_plain, shared_key, dht_public_key), cache) =>
      match create_cookie_response alloc c now cookie_nonce nonce request_plain shared_key
              dht_public_key with
      | None => (Fail, cache)
      | Some data => (Ret data, cache)
      end
  end.

(** The same for a request that came over the TCP connection
    [connections_number]: the packet sent on it, and the result, which is what
    [send_packet_tcp_connection] returned ([tcp_ret]). *)
Definition tcp_handle_cookie_request (alloc : bool) (c : Identity) (cache : Shared_Key_Cache)
    (now : Z) (cookie_nonce nonce : bytes) (connections_number tcp_ret : Z) (packet : bytes)
    : outcome (Z * bytes * Z) * Shared_Key_Cache :=
  match handle_cookie_request alloc cache packet with
  | (Undef, cache) => (Undef, cache)
  | (Fail, cache) => (Fail, cache)
  | (Ret (request_plain, shared_key, dht_public_key), cache) =>
      match create_cookie_response alloc c now cookie_nonce nonce request_plain shared_key
              dht_public_key with
      | None => (Fail, cache)
      | Some data => (Ret (connections_number, data, tcp_ret), cache)
      end
  end.

(** The out-of-band variant also checks the key the relay reports. *)
Definition tcp_oob_handle_cookie_request (alloc : bool) (c : Identity) (cache : Shared_Key_Cache)
    (now : Z) (cookie_nonce nonce dht_public_key packet : bytes) : outcome bytes * Shared_Key_Cache :=
  match handle_cookie_request alloc cache packet with
  | (Undef, cache) => (Undef, cache)
  | (Fail, cache) => (Fail, cache)
  | (Ret (request_plain, shared_key, dht_public_key_temp), cache) =>
      if negb (pk_equal dht_public_key dht_public_key_temp) then (Fail, cache)
      else
        match create_cookie_response alloc c now cookie_nonce nonce request_plain shared_key
                dht_public_key with
        | None => (Fail, cache)
        | Some data => (Ret data, cache)
        end
  end.

(** The cookie and the number of the request it answers. *)
Definition handle_cookie_response (alloc : bool) (packet shared_key : bytes) : option (bytes * Z) :=
  if negb (zlen packet =? COOKIE_RESPONSE_LENGTH) then None
  else
    let '(len, plain) :=
      decrypt_data_symmetric alloc shared_key (slice 1 CRYPTO_NONCE_SIZE packet)
        (drop (Z.to_nat (1 + CRYPTO_NONCE_SIZE)) packet) (zlen packet - (1 + CRYPTO_NONCE_SIZE)) in
    if negb (len =? COOKIE_LENGTH + 8) then None
    else Some (slice 0 COOKIE_LENGTH plain, le_val (slice COOKIE_LENGTH 8 plain)).

(** ** Handshake packets

    [stack] is the uninitialised key buffer of [encrypt_data]. *)
Definition create_crypto_handshake (alloc : bool) (stack : bytes) (c : Identity) (now : Z)
    (cookie_nonce packet_nonce cookie nonce session_pk peer_real_pk peer_dht_pubkey : bytes)
    : option bytes :=
  let cookie_plain := peer_real_pk ++ peer_dht_pubkey in
  match create_cookie alloc cookie_nonce now cookie_plain (secret_symmetric_key c) with
  | None => None
  | Some own_cookie =>
      let plain := nonce ++ session_pk ++ crypto_sha512 (slice 0 COOKIE_LENGTH cookie) ++ own_cookie in
      let '(len, enc) :=
        encrypt_data alloc stack peer_real_pk (self_secret_key c) packet_nonce plain
          HANDSHAKE_PLAIN_LENGTH in
      if negb (len =? HANDSHAKE_PACKET_LENGTH - (1 + COOKIE_LENGTH + CRYPTO_NONCE_SIZE)) then None
      else Some ([NET_PACKET_CRYPTO_HS] ++ slice 0 COOKIE_LENGTH cookie ++ packet_nonce ++ enc)
  end.

(** What a handshake packet tells its receiver. *)
Record Handshake_Info := mkHandshake {
  hs_nonce : bytes;
  hs_session_pk : bytes;
  hs_peer_real_pk : bytes;
  hs_dht_public_key : bytes;
  hs_cookie : bytes
}.

Definition handle_crypto_handshake (alloc : bool) (stack : bytes) (c : Identity) (now : Z)
    (packet : bytes) (expected_real_pk : option bytes) : option Handshake_Info :=
  if negb (zlen packet =? HANDSHAKE_PACKET_LENGTH) then None
  else
    match open_cookie alloc now (slice 1 COOKIE_LENGTH packet) (secret_symmetric_key c) with
    | None => None
    | Some cookie_plain =>
        let cookie_pk := slice 0 CRYPTO_PUBLIC_KEY_SIZE cookie_plain in
        if match expected_real_pk with Some pk => negb (pk_equal cookie_pk pk) | None => false end
        then None
        else
          let cookie_hash := crypto_sha512 (slice 1 COOKIE_LENGTH packet) in
          let '(len, plain) :=
            decrypt_data alloc stack cookie_pk (self_secret_key c)
              (slice (1 + COOKIE_LENGTH) CRYPTO_NONCE_SIZE packet)
              (drop (Z.to_nat (1 + COOKIE_LENGTH + CRYPTO_NONCE_SIZE)) packet)
              (HANDSHAKE_PACKET_LENGTH - (1 + COOKIE_LENGTH + CRYPTO_NONCE_SIZE)) in
          if negb (len =? HANDSHAKE_PLAIN_LENGTH) then None
          else if negb (crypto_sha512_eq cookie_hash
                          (slice (CRYPTO_NONCE_SIZE + CRYPTO_PUBLIC_KEY_SIZE) CRYPTO_SHA512_SIZE plain))
          then None
          else Some (mkHandshake
                       (slice 0 CRYPTO_NONCE_SIZE plain)
                       (slice CRYPTO_NONCE_SIZE CRYPTO_PUBLIC_KEY_SIZE plain)
                       cookie_pk
                       (slice CRYPTO_PUBLIC_KEY_SIZE CRYPTO_PUBLIC_KEY_SIZE cookie_plain)
                       (slice (CRYPTO_NONCE_SIZE + CRYPTO_PUBLIC_KEY_SIZE + CRYPTO_SHA512_SIZE)
                          COOKIE_LENGTH plain))
    end.

(** ** Lemmas *)

Context {L : SodiumLaws Sod}.

Lemma zlen_slice_le off n (p : bytes) : 0 <= n → 0 <= off → off + n <= zlen p → zlen (slice off n p) = n.
Proof. intros. by apply length_slice. Qed.

(** *** Cookies *)

Lemma create_cookie_ok nonce now data key :
  zlen nonce = 24 → zlen data = 64 → is_u64 now →
  ∃ ck, create_cookie true nonce now data key = Some ck ∧ zlen ck = COOKIE_LENGTH ∧
    ∀ now', open_cookie true now' ck key
      = if (u64 (now + COOKIE_TIMEOUT) <? now') || (now' <? now) then None else Some data.
Proof using L.
  intros Hn Hd Ht. unfold create_cookie. change COOKIE_CONTENTS_LENGTH with 72.
  rewrite (slice_all _ data) by done.
  destruct (encrypt_ok key nonce (le_bytes 8 now ++ data) 72) as (c & E & Hc & D); [zlens|done|].
  rewrite E. eexists. split; [reflexivity|]. split; [rewrite zlen_app, Hn, Hc; done|].
  intros now'. unfold open_cookie, CRYPTO_NONCE_SIZE. rewrite slice_app_l by done.
  rewrite drop_app_length' by (unfold zlen in Hn; lia).
  change (COOKIE_LENGTH - 24) with (72 + 16). rewrite D.
  change (negb (72 =? COOKIE_CONTENTS_LENGTH)) with false. cbn match.
  rewrite slice_app_l by zlens. rewrite le_val_bytes by (unfold is_u64 in Ht; simpl; lia).
  cases; [done|]. f_equal. rewrite slice_app_r by zlens. rewrite zlen_le_bytes.
  by apply slice_all.
Qed.

(** A cookie that opens was made with the same key, no more than
    [COOKIE_TIMEOUT] seconds before. *)
Lemma open_cookie_genuine now ck key data :
  zlen ck = COOKIE_LENGTH → bytes_ok ck → is_u64 now →
  open_cookie true now ck key = Some data →
  ∃ t, create_cookie true (slice 0 24 ck) t data key = Some ck ∧
    zlen data = 64 ∧ t <= now ∧ now <= u64 (t + COOKIE_TIMEOUT).
Proof using L.
  intros Hl Hb Ht. unfold open_cookie, CRYPTO_NONCE_SIZE.
  destruct decrypt_data_symmetric as [len m] eqn:D.
  destruct (negb (len =? COOKIE_CONTENTS_LENGTH)) eqn:E1; [done|].
  destruct (_ || _) eqn:E2; [done|]. intros E%(inj Some). subst data.
  assert (len = 72) as -> by (change COOKIE_CONTENTS_LENGTH with 72 in E1; lia).
  assert (zlen (drop 24 ck) = COOKIE_LENGTH - 24) as Hd
    by (unfold zlen in *; rewrite length_drop; change COOKIE_LENGTH with 112 in *; lia).
  assert (bytes_ok m) as Hm by (eapply decrypt_ok; [by apply Forall_drop|exact D]).
  apply decrypt_genuine in D as (_ & Hz & E); [|done|lia].
  exists (le_val (slice 0 8 m)).
  assert (zlen (slice 0 8 m) = 8) as H8 by (apply zlen_slice_le; lia).
  assert (zlen (slice 8 COOKIE_DATA_LENGTH m) = 64) as H64 by (apply zlen_slice_le; lia || done).
  split_and!; [|done|lia|lia]. unfold create_cookie.
  rewrite (slice_all COOKIE_DATA_LENGTH) by done.
  replace 8%nat with (length (slice 0 8 m)) by (unfold zlen in H8; lia).
  rewrite le_bytes_val by (by apply slice_ok).
  replace (slice 0 8 m ++ slice 8 COOKIE_DATA_LENGTH m) with m.
  2: { unfold slice. rewrite (take_ge (drop (Z.to_nat 8) m)), drop_0, take_drop; [done|].
       rewrite length_drop. unfold zlen in Hz. change COOKIE_DATA_LENGTH with 64. lia. }
  change COOKIE_CONTENTS_LENGTH with 72. rewrite E. rewrite Z.eqb_refl. cbn [negb].
  f_equal. unfold slice. rewrite drop_0. apply take_drop.
Qed.

(** ** Two peers *)

Record id_ok (c : Identity) : Prop := {
  ok_pk : zlen (self_public_key c) = 32;
  ok_dht_pk : zlen (dht_self_public_key c) = 32;
  ok_dht_bytes : bytes_ok (dht_self_public_key c)
}.

(** Two identities whose key pairs match: both compute the key [kd] from their
    DHT keys (kept by their caches) and [kr] from their long-term keys. *)
Record peers (A B : Identity) (cacheA cacheB : Shared_Key_Cache) (kd kr : bytes) : Prop := {
  peers_A : id_ok A;
  peers_B : id_ok B;
  peers_cacheA : wf cacheA;
  peers_cacheB : wf cacheB;
  peers_dhtA : encrypt_precompute (dht_self_public_key B) (skc_self_secret_key cacheA) = Some kd;
  peers_dhtB : encrypt_precompute (dht_self_public_key A) (skc_self_secret_key cacheB) = Some kd;
  peers_realA : encrypt_precompute (self_public_key B) (self_secret_key A) = Some kr;
  peers_realB : encrypt_precompute (self_public_key A) (self_secret_key B) = Some kr
}.

Lemma dht_key_ok cache pk k :
  wf cache → bytes_ok pk → encrypt_precompute pk (skc_self_secret_key cache) = Some k →
  ∃ cache', dht_get_shared_key_sent cache pk = (Some k, cache') ∧ wf cache'.
Proof.
  intros Hw Hb Hk.
  pose proof (shared_key_cache_lookup_ok cache pk Hw (aget_byte pk 8 Hb)) as H.
  unfold dht_get_shared_key_sent. destruct shared_key_cache_lookup as [r cache'].
  destruct H as (-> & Hw' & _). rewrite Hk. eauto.
Qed.

(** The fields of a packet: id, key, nonce and cipher text. *)
Lemma request_fields (p : Z) (pk nonce x : bytes) :
  zlen pk = 32 → zlen nonce = 24 →
  slice 1 32 ([p] ++ pk ++ nonce ++ x) = pk ∧ slice (1 + 32) 24 ([p] ++ pk ++ nonce ++ x) = nonce ∧
  drop (Z.to_nat (1 + 32 + 24)) ([p] ++ pk ++ nonce ++ x) = x.
Proof.
  intros Hp Hn. split; [by slices|]. split; [by slices|].
  rewrite !app_assoc, drop_app_length'; [done|].
  apply Nat2Z.inj. fold (zlen (([p] ++ pk) ++ nonce)). zlens.
Qed.

Lemma response_fields (p : Z) (nonce x : bytes) :
  zlen nonce = 24 →
  slice 1 24 ([p] ++ nonce ++ x) = nonce ∧ drop (Z.to_nat (1 + 24)) ([p] ++ nonce ++ x) = x.
Proof.
  intros Hn. split; [by slices|]. rewrite !app_assoc, drop_app_length'; [done|].
  apply Nat2Z.inj. fold (zlen ([p] ++ nonce)). zlens.
Qed.

(** The cookie the requester receives is one the responder will open, with the
    two public keys of the requester in it. *)
Lemma cookie_exchange A B cacheA cacheB kd kr n1 n2 n3 number now :
  peers A B cacheA cacheB kd kr →
  zlen n1 = 24 → zlen n2 = 24 → zlen n3 = 24 → is_u64 number → is_u64 now →
  ∃ req cacheA' resp cacheB' ck,
    create_cookie_request true A cacheA n1 (dht_self_public_key B) number = (Ret (req, kd), cacheA') ∧
    udp_handle_cookie_request true B cacheB now n2 n3 req = (Ret resp, cacheB') ∧
    handle_cookie_response true resp kd = Some (ck, number) ∧ zlen ck = COOKIE_LENGTH ∧
    ∀ now', open_cookie true now' ck (secret_symmetric_key B)
      = if (u64 (now + COOKIE_TIMEOUT) <? now') || (now' <? now) then None
        else Some (self_public_key A ++ dht_self_public_key A).
Proof using L.
  intros [[HpA HdA HbA] [HpB HdB HbB] HcA HcB Hda Hdb _ _] H1 H2 H3 Hnum Hnow.
  destruct (dht_key_ok cacheA _ kd HcA HbB Hda) as (cacheA' & EA & _).
  destruct (dht_key_ok cacheB _ kd HcB HbA Hdb) as (cacheB' & EB & _).
  set (plain := self_public_key A ++ zeros CRYPTO_PUBLIC_KEY_SIZE ++ le_bytes 8 number).
  assert (zlen plain = 72) as Hp by (unfold plain, CRYPTO_PUBLIC_KEY_SIZE; zlens).
  destruct (encrypt_ok kd n1 plain 72) as (c1 & E1 & Hc1 & D1); [done|done|].
  destruct (create_cookie_ok n2 now (self_public_key A ++ dht_self_public_key A)
    (secret_symmetric_key B)) as (ck & Eck & Hck & Hopen); [done|zlens|done|].
  change COOKIE_LENGTH with 112 in Hck.
  destruct (encrypt_ok kd n3 (ck ++ le_bytes 8 number) 120) as (c2 & E2 & Hc2 & D2);
    [zlens|done|].
  set (req := [NET_PACKET_COOKIE_REQUEST] ++ dht_self_public_key A ++ n1 ++ c1).
  set (resp := [NET_PACKET_COOKIE_RESPONSE] ++ n3 ++ c2).
  assert (zlen req = 145) as Hreq by (unfold req; zlens).
  assert (zlen resp = 161) as Hresp by (unfold resp; zlens).
  exists req, cacheA', resp, cacheB', ck. split_and!.
  - unfold create_cookie_request. rewrite EA. change COOKIE_REQUEST_PLAIN_LENGTH with 72.
    fold plain. rewrite E1. reflexivity.
  - unfold udp_handle_cookie_request, handle_cookie_request.
    change COOKIE_REQUEST_LENGTH with 145. rewrite Hreq, Z.eqb_refl. cbn [negb].
    unfold CRYPTO_PUBLIC_KEY_SIZE, CRYPTO_NONCE_SIZE, CRYPTO_MAC_SIZE.
    change COOKIE_REQUEST_PLAIN_LENGTH with 72.
    destruct (request_fields NET_PACKET_COOKIE_REQUEST (dht_self_public_key A) n1 c1) as (F1 & F2 & F3); [done..|].
    fold req in F1, F2, F3. rewrite F1, F2, F3.
    rewrite EB, D1. cbn [negb Z.eqb Pos.eqb].
    unfold create_cookie_response. unfold CRYPTO_PUBLIC_KEY_SIZE.
    replace (slice 0 32 plain) with (self_public_key A) by (unfold plain; by slices).
    rewrite Eck. replace (slice COOKIE_DATA_LENGTH 8 plain) with (le_bytes 8 number)
      by (change COOKIE_DATA_LENGTH with 64; unfold plain, CRYPTO_PUBLIC_KEY_SIZE; by slices).
    change (COOKIE_LENGTH + 8) with 120. rewrite E2. reflexivity.
  - unfold handle_cookie_response. rewrite Hresp. change (negb (161 =? COOKIE_RESPONSE_LENGTH)) with false.
    cbn match. unfold CRYPTO_NONCE_SIZE.
    destruct (response_fields NET_PACKET_COOKIE_RESPONSE n3 c2) as (F1 & F2); [done|].
    fold resp in F1, F2. rewrite F1, F2.
    change (161 - (1 + 24)) with (120 + 16). rewrite D2.
    change (negb (120 =? COOKIE_LENGTH + 8)) with false. cbn match.
    change COOKIE_LENGTH with 112. do 2 f_equal; [by slices|].
    replace (slice 112 8 (ck ++ le_bytes 8 number)) with (le_bytes 8 number) by (by slices).
    apply le_val_bytes. unfold is_u64 in Hnum. simpl. lia.
  - done.
  - exact Hopen.
Qed.

(** The receiver of a handshake that carries a cookie it opens learns exactly
    what the sender put into the packet. *)
Lemma handshake_delivers A B kr stackA stackB nowA nowB n4 n5 ck nonce session_pk expected :
  id_ok A → id_ok B →
  encrypt_precompute (self_public_key B) (self_secret_key A) = Some kr →
  encrypt_precompute (self_public_key A) (self_secret_key B) = Some kr →
  zlen n4 = 24 → zlen n5 = 24 → is_u64 nowA → zlen ck = COOKIE_LENGTH →
  zlen nonce = 24 → zlen session_pk = 32 →
  open_cookie true nowB ck (secret_symmetric_key B)
    = Some (self_public_key A ++ dht_self_public_key A) →
  expected = None ∨ expected = Some (self_public_key A) →
  ∃ hs own, create_crypto_handshake true stackA A nowA n4 n5 ck nonce session_pk
      (self_public_key B) (dht_self_public_key B) = Some hs ∧
    handle_crypto_handshake true stackB B nowB hs expected
      = Some (mkHandshake nonce session_pk (self_public_key A) (dht_self_public_key A) own) ∧
    zlen own = COOKIE_LENGTH ∧
    ∀ now', open_cookie true now' own (secret_symmetric_key A)
      = if (u64 (nowA + COOKIE_TIMEOUT) <? now') || (now' <? nowA) then None
        else Some (self_public_key B ++ dht_self_public_key B).
Proof using L.
  intros [HpA HdA _] [HpB HdB _] Ha Hb H4 H5 Ht Hck Hn Hs Hopen Hexp.
  destruct (create_cookie_ok n4 nowA (self_public_key B ++ dht_self_public_key B)
    (secret_symmetric_key A)) as (own & Eown & Hown & Hown'); [done|zlens|done|].
  change COOKIE_LENGTH with 112 in *.
  set (hash := crypto_sha512 ck).
  assert (zlen hash = 64) as Hh by (unfold hash, zlen, crypto_sha512; by rewrite sha512_length).
  set (plain := nonce ++ session_pk ++ hash ++ own).
  assert (zlen plain = 232) as Hp by (unfold plain; zlens).
  destruct (encrypt_ok kr n5 plain 232) as (c & E & Hc & D); [done|done|].
  set (hs := [NET_PACKET_CRYPTO_HS] ++ ck ++ n5 ++ c).
  assert (zlen hs = 385) as Hhs by (unfold hs; zlens).
  exists hs, own. split_and!; [| |done|exact Hown'].
  - unfold create_crypto_handshake. rewrite Eown. change COOKIE_LENGTH with 112.
    change HANDSHAKE_PLAIN_LENGTH with 232. rewrite (slice_all 112 ck) by done.
    fold hash plain. unfold encrypt_data. rewrite Ha. cbn [default from_option id].
    rewrite E. reflexivity.
  - unfold handle_crypto_handshake. rewrite Hhs.
    change (negb (385 =? HANDSHAKE_PACKET_LENGTH)) with false. cbn match.
    unfold CRYPTO_PUBLIC_KEY_SIZE, CRYPTO_NONCE_SIZE, CRYPTO_SHA512_SIZE.
    change COOKIE_LENGTH with 112. change HANDSHAKE_PLAIN_LENGTH with 232.
    replace (slice 1 112 hs) with ck by (unfold hs; by slices).
    replace (slice (1 + 112) 24 hs) with n5 by (unfold hs; by slices).
    replace (drop (Z.to_nat (1 + 112 + 24)) hs) with c.
    2: { unfold hs. rewrite !app_assoc, drop_app_length' by
           (apply Nat2Z.inj; fold (zlen (([NET_PACKET_CRYPTO_HS] ++ ck) ++ n5)); zlens). done. }
    rewrite Hopen. rewrite (slice_app_l 32 (self_public_key A)) by done.
    rewrite (slice_app_r 32 32 (self_public_key A)) by lia.
    rewrite HpA, Z.sub_diag, (slice_all 32 (dht_self_public_key A)) by done.
    assert (match expected with Some pk => negb (pk_equal (self_public_key A) pk) | None => false end
      = false) as ->.
    { destruct Hexp as [->| ->]; [done|]. unfold pk_equal, bytes_eqb.
      by rewrite bool_decide_true. }
    unfold decrypt_data. rewrite Hb. cbn [default from_option id].
    change (HANDSHAKE_PACKET_LENGTH - (1 + 112 + 24)) with (232 + 16). rewrite D. cbn [negb Z.eqb Pos.eqb].
    fold hash.
    replace (slice (24 + 32) 64 plain) with hash by (unfold plain; by slices).
    unfold crypto_sha512_eq, bytes_eqb. rewrite bool_decide_true by done. cbn [negb].
    do 2 f_equal; unfold plain; by slices.
Qed.

(** C14: A complete handshake between two peers with matching keys: the
    requester's cookie request is answered, the cookie it obtains lets the
    responder open the requester's handshake packet if it arrives within
    [COOKIE_TIMEOUT] seconds of the response, and the responder's handshake,
    sent under the cookie found in that packet, is in turn accepted by the
    requester, who checks the expected long-term key.  Each side ends up with
    exactly the other's base nonce, session key, long-term key and DHT key. *)
Theorem handshake_establishes A B cacheA cacheB kd kr n1 n2 n3 n4 n5 n6 n7 number
    t1 t2 t3 t4 stack nonceA nonceB spkA spkB :
  peers A B cacheA cacheB kd kr →
  Forall (λ n, zlen n = 24) [n1; n2; n3; n4; n5; n6; n7; nonceA; nonceB] →
  zlen spkA = 32 → zlen spkB = 32 → is_u64 number →
  Forall (λ t, 0 <= t < 2 ^ 64 - COOKIE_TIMEOUT) [t1; t2; t3; t4] →
  t1 <= t3 <= t1 + COOKIE_TIMEOUT → t2 <= t4 <= t2 + COOKIE_TIMEOUT →
  ∃ req cacheA' resp cacheB' ckA ckB ckA' hsA hsB,
    create_cookie_request true A cacheA n1 (dht_self_public_key B) number = (Ret (req, kd), cacheA') ∧
    udp_handle_cookie_request true B cacheB t1 n2 n3 req = (Ret resp, cacheB') ∧
    handle_cookie_response true resp kd = Some (ckB, number) ∧
    create_crypto_handshake true stack A t2 n4 n5 ckB nonceA spkA
      (self_public_key B) (dht_self_public_key B) = Some hsA ∧
    handle_crypto_handshake true stack B t3 hsA None
      = Some (mkHandshake nonceA spkA (self_public_key A) (dht_self_public_key A) ckA) ∧
    create_crypto_handshake true stack B t3 n6 n7 ckA nonceB spkB
      (self_public_key A) (dht_self_public_key A) = Some hsB ∧
    handle_crypto_handshake true stack A t4 hsB (Some (self_public_key B))
      = Some (mkHandshake nonceB spkB (self_public_key B) (dht_self_public_key B) ckA').
Proof using L.
  intros Hpeers Hns HsA HsB Hnum Hts H13 H24. unfold COOKIE_TIMEOUT in *.
  repeat match goal with H : Forall _ (_ :: _) |- _ => inversion H; subst; clear H end.
  destruct (cookie_exchange A B cacheA cacheB kd kr n1 n2 n3 number t1 Hpeers)
    as (req & cA & resp & cB & ckB & E1 & E2 & E3 & HckB & Hopen);
    [done..|unfold is_u64; lia|].
  destruct Hpeers as [HA HB _ _ _ _ Hra Hrb].
  destruct (handshake_delivers A B kr stack stack t2 t3 n4 n5 ckB nonceA spkA None)
    as (hsA & ckA & E4 & E5 & HckA & HopenA); auto; [unfold is_u64; lia| |].
  { rewrite Hopen. unfold COOKIE_TIMEOUT. rewrite u64_small by lia.
    rewrite (proj2 (Z.ltb_ge _ _)), (proj2 (Z.ltb_ge _ _)) by lia. done. }
  destruct (handshake_delivers B A kr stack stack t3 t4 n6 n7 ckA nonceB spkB
    (Some (self_public_key B))) as (hsB & ckA' & E6 & E7 & _ & _); auto; [unfold is_u64; lia| |].
  { rewrite HopenA. unfold COOKIE_TIMEOUT. rewrite u64_small by lia.
    rewrite (proj2 (Z.ltb_ge _ _)), (proj2 (Z.ltb_ge _ _)) by lia. done. }
  exists req, cA, resp, cB, ckA, ckB, ckA', hsA, hsB. done.
Qed.

(** A cookie opens exactly from the second it was made to [COOKIE_TIMEOUT]
    seconds later, and gives back the data put into it; and every cookie that
    opens was made, with the same key and data, no longer ago than that. *)
Theorem cookie_lifetime nonce t0 data key :
  zlen nonce = 24 → zlen data = 64 → 0 <= t0 < 2 ^ 64 - COOKIE_TIMEOUT →
  ∃ ck, create_cookie true nonce t0 data key = Some ck ∧
    (∀ now, open_cookie true now ck key = Some data ↔ t0 <= now <= t0 + COOKIE_TIMEOUT) ∧
    (∀ ck' now data', zlen ck' = COOKIE_LENGTH → bytes_ok ck' → is_u64 now →
       open_cookie true now ck' key = Some data' →
       ∃ t, t <= now ∧ now <= u64 (t + COOKIE_TIMEOUT) ∧
         create_cookie true (slice 0 CRYPTO_NONCE_SIZE ck') t data' key = Some ck').
Proof using L.
  intros Hn Hd Ht. unfold COOKIE_TIMEOUT in *.
  destruct (create_cookie_ok nonce t0 data key) as (ck & E & _ & Ho);
    [done|done|unfold is_u64; lia|]. exists ck. split_and!; [done| |].
  - intros now. rewrite Ho. unfold COOKIE_TIMEOUT. rewrite u64_small by lia.
    destruct (_ || _) eqn:?; split; try done; lia.
  - intros ck' now data' H1 H2 H3 H4.
    destruct (open_cookie_genuine now ck' key data' H1 H2 H3 H4) as (t & ? & _ & ? & ?). eauto.
Qed.

(** A cookie request whose DHT public key the key agreement rejects makes
    the handler copy from a null pointer, before anything is authenticated. *)
Theorem cookie_request_null_key cache packet c now n1 n2 :
  wf cache → bytes_ok packet → zlen packet = COOKIE_REQUEST_LENGTH →
  encrypt_precompute (slice 1 CRYPTO_PUBLIC_KEY_SIZE packet) (skc_self_secret_key cache) = None →
  (udp_handle_cookie_request true c cache now n1 n2 packet).1 = Undef.
Proof.
  intros Hw Hb Hl Hk. unfold udp_handle_cookie_request, handle_cookie_request.
  rewrite Hl, Z.eqb_refl. cbn [negb]. unfold dht_get_shared_key_sent.
  pose proof (shared_key_cache_lookup_ok cache (slice 1 CRYPTO_PUBLIC_KEY_SIZE packet) Hw
    (aget_byte _ 8 (slice_ok _ _ _ Hb))) as H.
  destruct shared_key_cache_lookup as [r cache']. destruct H as [-> _]. by rewrite Hk.
Qed.
End handshake.

(** ** Two concrete peers *)

Definition toy_alice : Identity :=
  mkIdentity (replicate 32 1) (replicate 32 1) (replicate 32 11) (replicate 32 3).
Definition toy_bob : Identity :=
  mkIdentity (replicate 32 2) (replicate 32 2) (replicate 32 12) (replicate 32 4).
Definition toy_dht_cache (sk : bytes) : Shared_Key_Cache :=
  mkCache (replicate 512 zero_key) sk 0 (mkMonoTime 1000 0) 2.

Lemma toy_dht_cache_wf sk : @wf toy_sodium (toy_dht_cache sk).
Proof.
  constructor; [cbn; lia|vm_compute; reflexivity| |cbn; lia|cbn; lia].
  apply Forall_replicate. by intros [=].
Qed.

Lemma toy_peers :
  @peers toy_sodium toy_alice toy_bob (toy_dht_cache (replicate 32 3)) (toy_dht_cache (replicate 32 4))
    (replicate 32 7) (replicate 32 3).
Proof.
  assert (∀ x, is_u8 x → bytes_ok (replicate 32 x)) as Hb by (intros; by apply Forall_replicate).
  constructor; try apply toy_dht_cache_wf; try (vm_compute; reflexivity);
    (constructor; [reflexivity|reflexivity|]); apply Hb; unfold is_u8; lia.
Qed.

Lemma handshake_establishes_witness :
  ∃ ckA hsA, @handle_crypto_handshake toy_sodium true [] toy_bob 1005 hsA None
    = Some (mkHandshake (replicate 24 8) (replicate 32 9) (replicate 32 1) (replicate 32 3) ckA).
Proof.
  destruct (@handshake_establishes toy_sodium toy_sodium_laws toy_alice toy_bob _ _ _ _
    (replicate 24 1) (replicate 24 2) (replicate 24 3) (replicate 24 4) (replicate 24 5)
    (replicate 24 6) (replicate 24 7) 77 1000 1002 1005 1010 []
    (replicate 24 8) (replicate 24 9) (replicate 32 9) (replicate 32 10) toy_peers)
    as (req & cA & resp & cB & ckA & ckB & ckA' & hsA & hsB & H).
  - repeat constructor.
  - reflexivity.
  - reflexivity.
  - unfold is_u64. lia.
  - unfold COOKIE_TIMEOUT. repeat constructor; lia.
  - unfold COOKIE_TIMEOUT. lia.
  - unfold COOKIE_TIMEOUT. lia.
  - exists ckA, hsA. apply H.
Defined.

Lemma cookie_lifetime_witness :
  ∃ ck, @create_cookie toy_sodium true (replicate 24 1) 100 (replicate 64 5) [1] = Some ck ∧
    @open_cookie toy_sodium true 115 ck [1] = Some (replicate 64 5) ∧
    ¬ @open_cookie toy_sodium true 116 ck [1] = Some (replicate 64 5).
Proof.
  destruct (@cookie_lifetime toy_sodium toy_sodium_laws (replicate 24 1) 100 (replicate 64 5) [1])
    as (ck & E & Ho & _).
  - reflexivity.
  - reflexivity.
  - unfold COOKIE_TIMEOUT. lia.
  - exists ck. split; [exact E|]. rewrite !Ho. unfold COOKIE_TIMEOUT. lia.
Defined.

Lemma cookie_request_null_key_witness :
  (@udp_handle_cookie_request toy_sodium true toy_bob (toy_dht_cache (replicate 32 4)) 1000
     (replicate 24 2) (replicate 24 3) (replicate 145 0)).1 = Undef.
Proof.
  apply (@cookie_request_null_key toy_sodium).
  - apply toy_dht_cache_wf.
  - apply Forall_replicate. unfold is_u8. lia.
  - reflexivity.
  - vm_compute. reflexivity.
Defined.
