(* ===== verification/CryptoConnection.v ===== *)
(** * CryptoConnection: the connection record of [toxcore/net_crypto.c]

    [Crypto_Connection] and its states.  The floating point fields of the
    congestion control and the callback pointers are not part of the model. *)
From S2P Require Import Prelude CryptoCore Network PacketsArray.

Inductive Crypto_Conn_State :=
| CRYPTO_CONN_FREE
| CRYPTO_CONN_NO_CONNECTION
| CRYPTO_CONN_COOKIE_REQUESTING
| CRYPTO_CONN_HANDSHAKE_SENT
| CRYPTO_CONN_NOT_CONFIRMED
| CRYPTO_CONN_ESTABLISHED.

#[export] Instance Crypto_Conn_State_eq_dec : EqDecision Crypto_Conn_State.
Proof. solve_decision. Defined.

Record Crypto_Connection := mkCC {
  public_key : bytes;
  recv_nonce : bytes;
  sent_nonce : bytes;
  sessionpublic_key : bytes;
  sessionsecret_key : bytes;
  peersessionpublic_key : bytes;
  shared_key : bytes;
  status : Crypto_Conn_State;
  cookie_request_number : Z;
  dht_public_key : bytes;
  temp_packet : option bytes;
  temp_packet_sent_time : Z;
  temp_packet_num_sent : Z;
  ip_portv4 : IP_Port;
  ip_portv6 : IP_Port;
  direct_lastrecv_timev4 : Z;
  direct_lastrecv_timev6 : Z;
  last_tcp_sent : Z;
  send_array : Packets_Array;
  recv_array : Packets_Array;
  direct_send_attempt_time : Z;
  packet_counter : Z;
  packets_left : Z;
  packets_left_requested : Z;
  packets_sent : Z;
  rtt_time : Z;
  connection_number_tcp : Z;
  maximum_speed_reached : bool
}.

Definition empty_crypto_connection : Crypto_Connection := {|
  public_key := zeros 32;
  recv_nonce := zeros 24;
  sent_nonce := zeros 24;
  sessionpublic_key := zeros 32;
  sessionsecret_key := zeros 32;
  peersessionpublic_key := zeros 32;
  shared_key := zeros 32;
  status := CRYPTO_CONN_FREE;
  cookie_request_number := 0;
  dht_public_key := zeros 32;
  temp_packet := None;
  temp_packet_sent_time := 0;
  temp_packet_num_sent := 0;
  ip_portv4 := empty_ip_port;
  ip_portv6 := empty_ip_port;
  direct_lastrecv_timev4 := 0;
  direct_lastrecv_timev6 := 0;
  last_tcp_sent := 0;
  send_array := empty_packets_array;
  recv_array := empty_packets_array;
  direct_send_attempt_time := 0;
  packet_counter := 0;
  packets_left := 0;
  packets_left_requested := 0;
  packets_sent := 0;
  rtt_time := 0;
  connection_number_tcp := 0;
  maximum_speed_reached := false
|}.

#[export] Instance eta_Crypto_Connection : Eta Crypto_Connection := λ c,
  mkCC (public_key c) (recv_nonce c) (sent_nonce c) (sessionpublic_key c) (sessionsecret_key c)
    (peersessionpublic_key c) (shared_key c) (status c) (cookie_request_number c)
    (dht_public_key c) (temp_packet c) (temp_packet_sent_time c) (temp_packet_num_sent c)
    (ip_portv4 c) (ip_portv6 c) (direct_lastrecv_timev4 c) (direct_lastrecv_timev6 c)
    (last_tcp_sent c) (send_array c) (recv_array c) (direct_send_attempt_time c) (packet_counter
    c) (packets_left c) (packets_left_requested c) (packets_sent c) (rtt_time c)
    (connection_number_tcp c) (maximum_speed_reached c).

Ltac unfold_set := cbn [set_field
  public_key recv_nonce sent_nonce sessionpublic_key sessionsecret_key peersessionpublic_key shared_key status cookie_request_number dht_public_key temp_packet temp_packet_sent_time temp_packet_num_sent ip_portv4 ip_portv6 direct_lastrecv_timev4 direct_lastrecv_timev6 last_tcp_sent send_array recv_array direct_send_attempt_time packet_counter packets_left packets_left_requested packets_sent rtt_time connection_number_tcp maximum_speed_reached] in *.
