(* ===== verification/NetCrypto.v ===== *)
(** * NetCrypto: established connections of [toxcore/net_crypto.c]

    Sending and receiving on one connection: routing, encryption under the
    running nonce, lossless and lossy packets, packet requests, and the state
    changes of the handshake.  Every function looks its connection up with
    [get_crypto_connection] first; the functions here take the connection that
    lookup found.  What the network layer and the allocator answer are
    arguments, the packets handed to the network and the callbacks made are
    results. *)
From S2P Require Import Prelude Util MonoTime CryptoCore SharedKeyCache Network LanDiscovery PacketsArray Handshake CryptoConnection.

(** ** Constants *)

Definition PACKET_ID_PADDING : Z := 0.
Definition PACKET_ID_KILL : Z := 2.
Definition PACKET_ID_RANGE_LOSSLESS_START : Z := 16.
Definition PACKET_ID_RANGE_LOSSLESS_END : Z := 191.
Definition PACKET_ID_RANGE_LOSSY_START : Z := 192.
Definition PACKET_ID_RANGE_LOSSY_END : Z := 254.
Definition MAX_CRYPTO_PACKET_SIZE : Z := 1400.
Definition CRYPTO_DATA_PACKET_MIN_SIZE : Z := 1 + 2 + (4 + 4) + CRYPTO_MAC_SIZE.
Definition MAX_CRYPTO_DATA_SIZE : Z := MAX_CRYPTO_PACKET_SIZE - CRYPTO_DATA_PACKET_MIN_SIZE.
Definition CRYPTO_MAX_PADDING : Z := 8.
Definition UDP_DIRECT_TIMEOUT : Z := 8.
Definition DATA_NUM_THRESHOLD : Z := 21845.
Definition DEFAULT_TCP_PING_CONNECTION : Z := 500.

(** ** The environment *)

(** The clock of the protocol in seconds and the monotonic clock in
    milliseconds. *)
Record Env := mkEnv {
  now_s : Z;
  now_ms : Z
}.

(** How one packet fares: whether [sendpacket] accepts it whole, and what
    [send_packet_tcp_connection] returns. *)
Record Link := mkLink {
  udp_sent : bool;
  tcp_ret : Z
}.

(** What a connection does with packets: [Sealed] records that a plain text was
    encrypted under a nonce, the other two that a packet was handed to a socket. *)
Inductive Sent :=
| Sealed (nonce plain : bytes)
| SentUdp (ip_port : IP_Port) (data : bytes)
| SentTcp (connection_number : Z) (data : bytes).

(** ** Routing *)

Definition return_ip_port_connection (env : Env) (conn : Crypto_Connection) : IP_Port :=
  let current_time := now_s env in
  let v4 := current_time <? u64 (UDP_DIRECT_TIMEOUT + direct_lastrecv_timev4 conn) in
  let v6 := current_time <? u64 (UDP_DIRECT_TIMEOUT + direct_lastrecv_timev6 conn) in
  if v4 && ip_is_lan (ipp_ip (ip_portv4 conn)) then ip_portv4 conn
  else if v6 && net_family_is_ipv6 (ip_family (ipp_ip (ip_portv6 conn))) then ip_portv6 conn
  else if v4 && net_family_is_ipv4 (ip_family (ipp_ip (ip_portv4 conn))) then ip_portv4 conn
  else if ip_is_lan (ipp_ip (ip_portv4 conn)) then ip_portv4 conn
  else if net_family_is_ipv6 (ip_family (ipp_ip (ip_portv6 conn))) then ip_portv6 conn
  else if net_family_is_ipv4 (ip_family (ipp_ip (ip_portv4 conn))) then ip_portv4 conn
  else empty_ip_port.

(** [*direct_connected] of [crypto_connection_status]. *)
Definition direct_connected (env : Env) (conn : Crypto_Connection) : bool :=
  let current_time := now_s env in
  if current_time <? u64 (UDP_DIRECT_TIMEOUT + direct_lastrecv_timev4 conn) then true
  else if current_time <? u64 (UDP_DIRECT_TIMEOUT + direct_lastrecv_timev6 conn) then true
  else false.

Definition send_packet_to (env : Env) (link : Link) (conn : Crypto_Connection) (data : bytes)
    : Z * Crypto_Connection * list Sent :=
  let ip_port := return_ip_port_connection env conn in
  let tcp (attempt : bool) (conn : Crypto_Connection) (sent : list Sent) :=
    let ret := tcp_ret link in
    let conn' := if ret =? 0 then conn <| last_tcp_sent := now_ms env |> else conn in
    (if attempt then 0 else ret, conn', sent ++ [SentTcp (connection_number_tcp conn) data]) in
  if negb (net_family_is_unspec (ip_family (ipp_ip ip_port))) then
    if direct_connected env conn then
      if udp_sent link then (0, conn, [SentUdp ip_port data]) else (-1, conn, [SentUdp ip_port data])
    else if ((u64 (UDP_DIRECT_TIMEOUT / 2 + direct_send_attempt_time conn) <? now_s env)
               && (zlen data <? 96))
            || (aget 0 data 0 =? NET_PACKET_COOKIE_REQUEST)
            || (aget 0 data 0 =? NET_PACKET_CRYPTO_HS)
    then
      if udp_sent link
      then tcp true (conn <| direct_send_attempt_time := now_s env |>) [SentUdp ip_port data]
      else tcp false conn [SentUdp ip_port data]
    else tcp false conn []
  else tcp false conn [].

(** The callbacks a connection makes; all four are set when the connection is
    created. *)
Inductive Event :=
| StatusCb (status : bool)
| DataCb (data : bytes)
| LossyCb (data : bytes)
| DhtPkCb (dht_public_key : bytes).

(** ** Temporary packets

    The cookie request or handshake packet that is sent again until it is
    answered. *)
Definition new_temp_packet (alloc : bool) (conn : Crypto_Connection) (packet : bytes)
    : Z * Crypto_Connection :=
  if (zlen packet =? 0) || (MAX_CRYPTO_PACKET_SIZE <? zlen packet) then (-1, conn)
  else if negb alloc then (-1, conn)
  else (0, conn <| temp_packet := Some packet |> <| temp_packet_sent_time := 0 |>
             <| temp_packet_num_sent := 0 |>).

Definition clear_temp_packet (conn : Crypto_Connection) : Crypto_Connection :=
  conn <| temp_packet := None |> <| temp_packet_sent_time := 0 |> <| temp_packet_num_sent := 0 |>.

Definition send_temp_packet (env : Env) (link : Link) (conn : Crypto_Connection)
    : Z * Crypto_Connection * list Sent :=
  match temp_packet conn with
  | None => (-1, conn, [])
  | Some packet =>
      let '(ret, conn, sent) := send_packet_to env link conn packet in
      if negb (ret =? 0) then (-1, conn, sent)
      else (0, conn <| temp_packet_sent_time := now_ms env |>
                 <| temp_packet_num_sent := u32 (temp_packet_num_sent conn + 1) |>, sent)
  end.

Section connection.
Context {Sod : Sodium}.

(** ** Data packets *)

Definition send_data_packet (alloc : bool) (env : Env) (link : Link) (conn : Crypto_Connection)
    (data : bytes) : Z * Crypto_Connection * list Sent :=
  let length := zlen data in
  let max_length := MAX_CRYPTO_PACKET_SIZE - (1 + 2 + CRYPTO_MAC_SIZE) in
  if (length =? 0) || (max_length <? length) then (-1, conn, [])
  else
    let packet_size := 1 + 2 + length + CRYPTO_MAC_SIZE in
    let '(len, enc) := encrypt_data_symmetric alloc (shared_key conn) (sent_nonce conn) data length in
    if negb (len + 1 + 2 =? packet_size) then (-1, conn, [])
    else
      let packet := [NET_PACKET_CRYPTO_DATA] ++ slice (CRYPTO_NONCE_SIZE - 2) 2 (sent_nonce conn) ++ enc in
      let sealed := Sealed (sent_nonce conn) data in
      let conn := conn <| sent_nonce := increment_nonce (sent_nonce conn) |> in
      let '(ret, conn, sent) := send_packet_to env link conn packet in
      (ret, conn, sealed :: sent).

(** The plain text [send_data_packet_helper] builds. *)
Definition data_plain (buffer_start num : Z) (data : bytes) : bytes :=
  let padding_length := (MAX_CRYPTO_DATA_SIZE - zlen data) mod CRYPTO_MAX_PADDING in
  le_bytes 4 (net_htonl buffer_start) ++ le_bytes 4 (net_htonl num)
  ++ replicate (Z.to_nat padding_length) PACKET_ID_PADDING ++ data.

Definition send_data_packet_helper (alloc : bool) (env : Env) (link : Link) (conn : Crypto_Connection)
    (buffer_start num : Z) (data : bytes) : Z * Crypto_Connection * list Sent :=
  let length := zlen data in
  if (length =? 0) || (MAX_CRYPTO_DATA_SIZE <? length) then (-1, conn, [])
  else send_data_packet alloc env link conn (data_plain buffer_start num data).

(** [dt->sent_time = t] through the pointer to the packet's slot. *)
Definition set_sent_time (a : Packets_Array) (number t : Z) : Packets_Array :=
  mkPA (alter (λ p, mkPD t (pd_data p)) (slot number) (buffer a)) (buffer_start a) (buffer_end a).

Definition reset_max_speed_reached (alloc : bool) (env : Env) (link : Link) (conn : Crypto_Connection)
    : Z * Crypto_Connection * list Sent :=
  if maximum_speed_reached conn then
    let packet_num := u32 (buffer_end (send_array conn) - 1) in
    match get_data_pointer (send_array conn) packet_num with
    | Some (Some dt) =>
        if sent_time dt =? 0 then
          let '(ret, conn, sent) :=
            send_data_packet_helper alloc env link conn (buffer_start (recv_array conn)) packet_num
              (pd_data dt) in
          if negb (ret =? 0) then (-1, conn, sent)
          else
            let conn := conn <| send_array := set_sent_time (send_array conn) packet_num (now_ms env) |> in
            (0, conn <| maximum_speed_reached := false |>, sent)
        else (0, conn <| maximum_speed_reached := false |>, [])
    | _ => (0, conn <| maximum_speed_reached := false |>, [])
    end
  else (0, conn, []).

(** [alloc_buf] is the allocation of the new slot; [link1] and [link2] are the
    fates of the packet sent again and of the new one. *)
Definition send_lossless_packet (alloc alloc_buf : bool) (env : Env) (link1 link2 : Link)
    (conn : Crypto_Connection) (data : bytes) (congestion_control : bool)
    : Z * Crypto_Connection * list Sent :=
  let length := zlen data in
  if (length =? 0) || (MAX_CRYPTO_DATA_SIZE <? length) then (-1, conn, [])
  else
    let '(_, conn, sent1) := reset_max_speed_reached alloc env link1 conn in
    if maximum_speed_reached conn && congestion_control then (-1, conn, sent1)
    else
      match add_data_end_of_buffer alloc_buf (send_array conn) (mkPD 0 data) with
      | None => (-1, conn, sent1)
      | Some (packet_num, a) =>
          let conn := conn <| send_array := a |> in
          if negb congestion_control && maximum_speed_reached conn then (packet_num, conn, sent1)
          else
            let '(ret, conn, sent2) :=
              send_data_packet_helper alloc env link2 conn (buffer_start (recv_array conn)) packet_num
                data in
            let conn :=
              if ret =? 0 then
                match get_data_pointer (send_array conn) packet_num with
                | Some (Some _) =>
                    conn <| send_array := set_sent_time (send_array conn) packet_num (now_ms env) |>
                | _ => conn
                end
              else conn <| maximum_speed_reached := true |> in
            (packet_num, conn, sent1 ++ sent2)
      end.

Definition write_cryptpacket (alloc alloc_buf : bool) (env : Env) (link1 link2 : Link)
    (conn : Crypto_Connection) (data : bytes) (congestion_control : bool)
    : Z * Crypto_Connection * list Sent :=
  if zlen data =? 0 then (-1, conn, [])
  else if (aget 0 data 0 <? PACKET_ID_RANGE_LOSSLESS_START)
          || (PACKET_ID_RANGE_LOSSLESS_END <? aget 0 data 0) then (-1, conn, [])
  else if negb (bool_decide (status conn = CRYPTO_CONN_ESTABLISHED)) then (-1, conn, [])
  else if congestion_control && (packets_left conn =? 0) then (-1, conn, [])
  else
    let '(ret, conn, sent) :=
      send_lossless_packet alloc alloc_buf env link1 link2 conn data congestion_control in
    if ret =? -1 then (-1, conn, sent)
    else if congestion_control then
      let conn := conn <| packets_left := u32 (packets_left conn - 1) |> in
      let conn := conn <| packets_left_requested := u32 (packets_left_requested conn - 1) |> in
      let conn := conn <| packets_sent := u32 (packets_sent conn + 1) |> in
      (ret, conn, sent)
    else (ret, conn, sent).

Definition send_lossy_cryptpacket (alloc : bool) (env : Env) (link : Link) (conn : Crypto_Connection)
    (data : bytes) : Z * Crypto_Connection * list Sent :=
  if (zlen data =? 0) || (MAX_CRYPTO_DATA_SIZE <? zlen data) then (-1, conn, [])
  else if (aget 0 data 0 <? PACKET_ID_RANGE_LOSSY_START)
          || (PACKET_ID_RANGE_LOSSY_END <? aget 0 data 0) then (-1, conn, [])
  else send_data_packet_helper alloc env link conn (buffer_start (recv_array conn))
         (buffer_end (send_array conn)) data.

(** Whether the peer has confirmed [packet_number]: 0 if so, -1 if not. *)
Definition cryptpacket_received (conn : Crypto_Connection) (packet_number : Z) : Z :=
  let num := num_packets_array (send_array conn) in
  let num1 := u32 (packet_number - buffer_start (send_array conn)) in
  if num1 <=? num then -1 else 0.

Definition crypto_num_free_sendqueue_slots (conn : Crypto_Connection) : Z :=
  let max_packets := u32 (CRYPTO_PACKET_BUFFER_SIZE - num_packets_array (send_array conn)) in
  if packets_left conn <? max_packets then packets_left conn else max_packets.

Definition send_request_packet (alloc : bool) (env : Env) (link : Link) (conn : Crypto_Connection)
    : Z * Crypto_Connection * list Sent :=
  match generate_request_packet MAX_CRYPTO_DATA_SIZE (recv_array conn) with
  | None => (-1, conn, [])
  | Some data =>
      send_data_packet_helper alloc env link conn (buffer_start (recv_array conn))
        (buffer_end (send_array conn)) data
  end.

(** The loop of [send_requested_packets]; packet [i] meets [link i]. *)
Fixpoint requested_loop (count : nat) (alloc : bool) (env : Env) (link : Z → Link)
    (conn : Crypto_Connection) (i num_sent max_num : Z) : Z * Crypto_Connection * list Sent :=
  match count with
  | O => (num_sent, conn, [])
  | S count' =>
      let packet_num := u32 (i + buffer_start (send_array conn)) in
      match get_data_pointer (send_array conn) packet_num with
      | None => (-1, conn, [])
      | Some None => requested_loop count' alloc env link conn (i + 1) num_sent max_num
      | Some (Some dt) =>
          if negb (sent_time dt =? 0) then
            requested_loop count' alloc env link conn (i + 1) num_sent max_num
          else
            let '(ret, conn, sent) :=
              send_data_packet_helper alloc env (link i) conn (buffer_start (recv_array conn))
                packet_num (pd_data dt) in
            let '(conn, num_sent) :=
              if ret =? 0
              then (conn <| send_array := set_sent_time (send_array conn) packet_num (now_ms env) |>,
                    num_sent + 1)
              else (conn, num_sent) in
            if max_num <=? num_sent then (num_sent, conn, sent)
            else
              let '(r, conn, sent') :=
                requested_loop count' alloc env link conn (i + 1) num_sent max_num in
              (r, conn, sent ++ sent')
      end
  end.

Definition send_requested_packets (alloc : bool) (env : Env) (link : Z → Link)
    (conn : Crypto_Connection) (max_num : Z) : Z * Crypto_Connection * list Sent :=
  if max_num =? 0 then (-1, conn, [])
  else requested_loop (Z.to_nat (num_packets_array (send_array conn))) alloc env link conn 0 0 max_num.

Definition send_kill_packet (alloc : bool) (env : Env) (link : Link) (conn : Crypto_Connection)
    : Z * Crypto_Connection * list Sent :=
  send_data_packet_helper alloc env link conn (buffer_start (recv_array conn))
    (buffer_end (send_array conn)) [PACKET_ID_KILL].

(** ** Receiving *)

Definition get_nonce_uint16 (nonce : bytes) : Z :=
  net_ntohs (le_val (slice (CRYPTO_NONCE_SIZE - 2) 2 nonce)).

(** The plain text, or [None] for -1. *)
Definition handle_data_packet (alloc : bool) (conn : Crypto_Connection) (packet : bytes)
    : option bytes * Crypto_Connection :=
  let length := zlen packet in
  let crypto_packet_overhead := 1 + 2 + CRYPTO_MAC_SIZE in
  if (length <=? crypto_packet_overhead) || (MAX_CRYPTO_PACKET_SIZE <? length) then (None, conn)
  else
    let num_cur_nonce := get_nonce_uint16 (recv_nonce conn) in
    let num := net_unpack_u16 (drop 1 packet) in
    let diff := u16 (num - num_cur_nonce) in
    let nonce := increment_nonce_number (recv_nonce conn) diff in
    let '(len, data) :=
      decrypt_data_symmetric alloc (shared_key conn) nonce (drop 3 packet) (length - (1 + 2)) in
    if negb (u32 len =? length - crypto_packet_overhead) then (None, conn)
    else
      let conn :=
        if DATA_NUM_THRESHOLD * 2 <? diff
        then conn <| recv_nonce := increment_nonce_number (recv_nonce conn) DATA_NUM_THRESHOLD |>
        else conn in
      (Some data, conn).

(** How handling a packet ends: with -1, with 0, with the connection to be
    killed because the peer asked for it, or gone because a callback killed it. *)
Inductive Handled := HError | HDone | HKill | HGone.

(** Skips the padding bytes; [None] when nothing is left. *)
Fixpoint remove_padding (real_data : bytes) : option bytes :=
  match real_data with
  | [] => None
  | b :: rest => if b =? PACKET_ID_PADDING then remove_padding rest else Some real_data
  end.

(** The loop that delivers packets in order.  The packet number is read into
    an [int]; [alive] tells whether the connection survives the callback. *)
Fixpoint deliver_loop (fuel : nat) (alive : bytes → bool) (conn : Crypto_Connection)
    : bool * Crypto_Connection * list Event :=
  match fuel with
  | O => (true, conn, [])
  | S fuel' =>
      match read_data_beg_buffer (recv_array conn) with
      | None => (true, conn, [])
      | Some (id, dt, a) =>
          let conn := conn <| recv_array := a |> in
          let ret := s32 id in
          if ret =? -1 then (true, conn, [])
          else if negb (alive (pd_data dt)) then (false, conn, [DataCb (pd_data dt)])
          else
            let '(ok, conn, evs) := deliver_loop fuel' alive conn in
            (ok, conn, DataCb (pd_data dt) :: evs)
      end
  end.

(** One iteration per packet in the window, and one to find it empty. *)
Definition deliver (alive : bytes → bool) (conn : Crypto_Connection)
    : bool * Crypto_Connection * list Event :=
  deliver_loop (S (Z.to_nat (num_packets_array (recv_array conn)))) alive conn.

(** Processing of the payload [real_data] of a packet numbered [num]. *)
Definition handle_payload (alloc_buf : bool) (env : Env) (udp : bool) (alive : bytes → bool)
    (conn : Crypto_Connection) (num rtt_calc_time : Z) (real_data : bytes)
    : Handled * Crypto_Connection * list Event :=
  let id := aget 0 real_data 0 in
  let finish (conn : Crypto_Connection) (rtt_calc_time : Z) (evs : list Event) :=
    if negb (rtt_calc_time =? 0) then
      let rtt := u64 (now_ms env - rtt_calc_time) in
      if rtt <? rtt_time conn then (HDone, conn <| rtt_time := rtt |>, evs) else (HDone, conn, evs)
    else (HDone, conn, evs) in
  let end_recv (conn : Crypto_Connection) :=
    match set_buffer_end (recv_array conn) num with
    | Some a => conn <| recv_array := a |>
    | None => conn
    end in
  if id =? PACKET_ID_REQUEST then
    let rtt := if udp then rtt_time conn else DEFAULT_TCP_PING_CONNECTION in
    let '(a, requested, rtt_calc_time) :=
      handle_request_packet (now_ms env) (send_array conn) real_data rtt_calc_time rtt in
    let conn := conn <| send_array := a |> in
    match requested with
    | None => (HError, conn, [])
    | Some _ => finish (end_recv conn) rtt_calc_time []
    end
  else if (PACKET_ID_RANGE_LOSSLESS_START <=? id) && (id <=? PACKET_ID_RANGE_LOSSLESS_END) then
    match add_data_to_buffer alloc_buf (recv_array conn) num (mkPD 0 real_data) with
    | None => (HError, conn, [])
    | Some a =>
        let '(ok, conn, evs) := deliver alive (conn <| recv_array := a |>) in
        if negb ok then (HGone, conn, evs)
        else finish (conn <| packet_counter := u32 (packet_counter conn + 1) |>) rtt_calc_time evs
    end
  else if (PACKET_ID_RANGE_LOSSY_START <=? id) && (id <=? PACKET_ID_RANGE_LOSSY_END) then
    finish (end_recv conn) rtt_calc_time [LossyCb real_data]
  else (HError, conn, []).

(** [handle_data_packet_core] on the decrypted text. *)
Definition handle_plain (alloc_buf : bool) (env : Env) (udp : bool) (alive : bytes → bool)
    (conn : Crypto_Connection) (data : bytes) : Handled * Crypto_Connection * list Event :=
  if zlen data <=? 8 then (HError, conn, [])
  else
    let buffer_start' := net_ntohl (le_val (slice 0 4 data)) in
    let num := net_ntohl (le_val (slice 4 4 data)) in
    let cleared :=
      if negb (buffer_start' =? buffer_start (send_array conn)) then
        let rtt_calc_time :=
          match get_data_pointer (send_array conn) (buffer_start (send_array conn)) with
          | Some (Some packet_time) => sent_time packet_time
          | _ => 0
          end in
        a ← clear_buffer_until (send_array conn) buffer_start'; Some (a, rtt_calc_time)
      else Some (send_array conn, 0) in
    match cleared with
    | None => (HError, conn, [])
    | Some (a, rtt_calc_time) =>
        let conn := conn <| send_array := a |> in
        match remove_padding (drop 8 data) with
        | None => (HError, conn, [])
        | Some real_data =>
            if aget 0 real_data 0 =? PACKET_ID_KILL then (HKill, conn, [])
            else
              let '(conn, evs) :=
                if bool_decide (status conn = CRYPTO_CONN_NOT_CONFIRMED)
                then (clear_temp_packet conn <| status := CRYPTO_CONN_ESTABLISHED |>, [StatusCb true])
                else (conn, []) in
              let '(r, conn, evs') :=
                handle_payload alloc_buf env udp alive conn num rtt_calc_time real_data in
              (r, conn, evs ++ evs')
        end
    end.

Definition handle_data_packet_core (alloc alloc_buf : bool) (env : Env) (udp : bool)
    (alive : bytes → bool) (conn : Crypto_Connection) (packet : bytes)
    : Handled * Crypto_Connection * list Event :=
  if (MAX_CRYPTO_PACKET_SIZE <? zlen packet) || (zlen packet <=? CRYPTO_DATA_PACKET_MIN_SIZE)
  then (HError, conn, [])
  else
    match handle_data_packet alloc conn packet with
    | (None, conn) => (HError, conn, [])
    | (Some data, conn) => handle_plain alloc_buf env udp alive conn data
    end.

Definition handle_packet_crypto_data (alloc alloc_buf : bool) (env : Env) (udp : bool)
    (alive : bytes → bool) (conn : Crypto_Connection) (packet : bytes)
    : Handled * Crypto_Connection * list Event :=
  if negb (bool_decide (status conn = CRYPTO_CONN_NOT_CONFIRMED))
     && negb (bool_decide (status conn = CRYPTO_CONN_ESTABLISHED))
  then (HError, conn, [])
  else handle_data_packet_core alloc alloc_buf env udp alive conn packet.

(** ** Handshake states

    [n1] and [n2] are the random nonces of the handshake packet. *)
Definition create_send_handshake (alloc alloc_temp : bool) (stack : bytes) (env : Env) (link : Link)
    (c : Identity) (n1 n2 : bytes) (conn : Crypto_Connection) (cookie dht_public_key' : bytes)
    : Z * Crypto_Connection * list Sent :=
  match create_crypto_handshake alloc stack c (now_s env) n1 n2 cookie (sent_nonce conn)
          (sessionpublic_key conn) (public_key conn) dht_public_key' with
  | None => (-1, conn, [])
  | Some handshake_packet =>
      let '(ret, conn) := new_temp_packet alloc_temp conn handshake_packet in
      if negb (ret =? 0) then (-1, conn, [])
      else
        let '(_, conn, sent) := send_temp_packet env link conn in
        (0, conn, sent)
  end.

Definition handle_packet_cookie_response (alloc alloc_temp : bool) (stack : bytes) (env : Env)
    (link : Link) (c : Identity) (n1 n2 : bytes) (conn : Crypto_Connection) (packet : bytes)
    : Z * Crypto_Connection * list Sent :=
  if negb (bool_decide (status conn = CRYPTO_CONN_COOKIE_REQUESTING)) then (-1, conn, [])
  else
    match handle_cookie_response alloc packet (shared_key conn) with
    | None => (-1, conn, [])
    | Some (cookie, number) =>
        if negb (number =? cookie_request_number conn) then (-1, conn, [])
        else
          let '(ret, conn, sent) :=
            create_send_handshake alloc alloc_temp stack env link c n1 n2 conn cookie
              (dht_public_key conn) in
          if negb (ret =? 0) then (-1, conn, sent)
          else (0, conn <| status := CRYPTO_CONN_HANDSHAKE_SENT |>, sent)
    end.

(** The result of [encrypt_precompute] is not checked: [shared_key] keeps its
    value when it fails. *)
Definition handle_packet_crypto_hs (alloc alloc_temp : bool) (stack : bytes) (env : Env) (link : Link)
    (c : Identity) (n1 n2 : bytes) (conn : Crypto_Connection) (packet : bytes)
    : Z * Crypto_Connection * list Sent * list Event :=
  if negb (bool_decide (status conn = CRYPTO_CONN_COOKIE_REQUESTING))
     && negb (bool_decide (status conn = CRYPTO_CONN_HANDSHAKE_SENT))
     && negb (bool_decide (status conn = CRYPTO_CONN_NOT_CONFIRMED))
  then (-1, conn, [], [])
  else
    match handle_crypto_handshake alloc stack c (now_s env) packet (Some (public_key conn)) with
    | None => (-1, conn, [], [])
    | Some hs =>
        let conn := conn <| recv_nonce := hs_nonce hs |>
                      <| peersessionpublic_key := hs_session_pk hs |> in
        if pk_equal (hs_dht_public_key hs) (dht_public_key conn) then
          let k := default (shared_key conn)
                     (encrypt_precompute (peersessionpublic_key conn) (sessionsecret_key conn)) in
          let conn := conn <| shared_key := k |> in
          if bool_decide (status conn = CRYPTO_CONN_COOKIE_REQUESTING) then
            let '(ret, conn, sent) :=
              create_send_handshake alloc alloc_temp stack env link c n1 n2 conn (hs_cookie hs)
                (hs_dht_public_key hs) in
            if negb (ret =? 0) then (-1, conn, sent, [])
            else (0, conn <| status := CRYPTO_CONN_NOT_CONFIRMED |>, sent, [])
          else (0, conn <| status := CRYPTO_CONN_NOT_CONFIRMED |>, [], [])
        else (0, conn, [], [DhtPkCb (hs_dht_public_key hs)])
    end.

(** The dispatch of [handle_packet_connection]. *)
Definition handle_packet_connection (alloc alloc_buf : bool) (stack : bytes) (env : Env)
    (link : Link) (c : Identity) (n1 n2 : bytes) (udp : bool) (alive : bytes → bool)
    (conn : Crypto_Connection) (packet : bytes)
    : Handled * Crypto_Connection * list Sent * list Event :=
  if (zlen packet =? 0) || (MAX_CRYPTO_PACKET_SIZE <? zlen packet) then (HError, conn, [], [])
  else
    let of_ret (ret : Z) := if ret =? 0 then HDone else HError in
    let id := aget 0 packet 0 in
    if id =? NET_PACKET_COOKIE_RESPONSE then
      let '(ret, conn, sent) :=
        handle_packet_cookie_response alloc alloc_buf stack env link c n1 n2 conn packet in
      (of_ret ret, conn, sent, [])
    else if id =? NET_PACKET_CRYPTO_HS then
      let '(ret, conn, sent, evs) :=
        handle_packet_crypto_hs alloc alloc_buf stack env link c n1 n2 conn packet in
      (of_ret ret, conn, sent, evs)
    else if id =? NET_PACKET_CRYPTO_DATA then
      let '(r, conn, evs) := handle_packet_crypto_data alloc alloc_buf env udp alive conn packet in
      (r, conn, [], evs)
    else (HError, conn, [], []).

(** ** Lemmas *)

(** The plain texts sealed in a trace. *)
Definition sealed (sent : list Sent) : list bytes :=
  omap (λ s, match s with Sealed _ p => Some p | _ => None end) sent.

Lemma sealed_cons n p sent : sealed (Sealed n p :: sent) = p :: sealed sent.
Proof. done. Qed.

Lemma sealed_app s1 s2 : sealed (s1 ++ s2) = sealed s1 ++ sealed s2.
Proof. apply omap_app. Qed.

(** Two connections that differ in nothing the packet windows depend on. *)
Definition same_arrays (c c' : Crypto_Connection) : Prop :=
  send_array c' = send_array c ∧ recv_array c' = recv_array c ∧ status c' = status c.

Lemma send_packet_to_spec env link conn data :
  let '(_, conn', sent) := send_packet_to env link conn data in
  same_arrays conn conn' ∧ sealed sent = [] ∧ sent_nonce conn' = sent_nonce conn.
Proof. unfold send_packet_to. repeat case_match; simplify_eq; done. Qed.

Lemma send_data_packet_helper_spec alloc env link conn bs num data :
  let '(ret, conn', sent) := send_data_packet_helper alloc env link conn bs num data in
  same_arrays conn conn' ∧
  (sealed sent = [] ∧ ret = -1 ∨
   sealed sent = [data_plain bs num data] ∧ 0 < zlen data <= MAX_CRYPTO_DATA_SIZE).
Proof.
  unfold send_data_packet_helper. pose proof (zlen_nonneg data).
  destruct (_ || _) eqn:Hlen; [by split; [|left]|].
  unfold send_data_packet. cbn zeta. destruct ((zlen (data_plain bs num data) =? 0) || _);
    [by split; [|left]|].
  destruct encrypt_data_symmetric as [len enc]. destruct (negb _); [by split; [|left]|].
  set (conn1 := conn <| sent_nonce := _ |>). set (packet := _ ++ _ ++ enc).
  pose proof (send_packet_to_spec env link conn1 packet) as H1.
  destruct send_packet_to as [[ret conn'] sent]. destruct H1 as (Ha & Hs & _).
  split; [exact Ha|]. right. split; [|lia]. by rewrite sealed_cons, Hs.
Qed.

(** ** Nonces *)

Definition nonce_ok (n : bytes) : Prop := zlen n = 24 ∧ bytes_ok n.

(** The last two bytes of a nonce are the low 16 bits of its number. *)
Lemma nonce_low16 n : nonce_ok n →
  get_nonce_uint16 n = be_val n mod 2 ^ 16 ∧
  ∀ rest, net_unpack_u16 (slice 22 2 n ++ rest) = be_val n mod 2 ^ 16.
Proof.
  intros [Hl Hb].
  assert (∃ hi a b, n = hi ++ [a; b] ∧ length hi = 22%nat) as (hi & a & b & -> & Hhi).
  { unfold zlen in Hl. do 22 (destruct n as [|? n]; [simpl in Hl; lia|]).
    destruct n as [|a [|b [|? ?]]]; simpl in Hl; try lia. by eexists (_ :: _ :: _ :: _ :: _ :: _ :: _ :: _ :: _ :: _ ::
      _ :: _ :: _ :: _ :: _ :: _ :: _ :: _ :: _ :: _ :: _ :: [_]), a, b. }
  apply Forall_app in Hb as [_ Hb]. inversion Hb as [|? ? Ha Hb']; subst.
  inversion Hb' as [|? ? Hb'' _]; subst. unfold is_u8 in *.
  assert (slice 22 2 (hi ++ [a; b]) = [a; b]) as Es.
  { rewrite slice_app_r by (unfold zlen; lia). unfold zlen. rewrite Hhi. done. }
  assert (be_val (hi ++ [a; b]) mod 2 ^ 16 = a * 256 + b) as ->.
  { unfold be_val. rewrite rev_app_distr. cbn [rev app le_val]. wrap_lia. }
  unfold get_nonce_uint16. change (CRYPTO_NONCE_SIZE - 2) with 22. rewrite Es. split.
  - unfold net_ntohs. change 2%nat with (length [a; b]). rewrite le_bytes_val by done.
    cbn [rev app le_val]. lia.
  - intros rest. unfold net_unpack_u16.
    change (aget 0 ([a; b] ++ rest) 0) with a. change (aget 0 ([a; b] ++ rest) 1) with b.
    rewrite lor_shiftl_add by lia. wrap_lia.
Qed.

(** The packet [send_data_packet] builds for [data] under a nonce. *)
Definition data_packet (key nonce data : bytes) : bytes :=
  [NET_PACKET_CRYPTO_DATA] ++ slice 22 2 nonce
  ++ (encrypt_data_symmetric true key nonce data (zlen data)).2.

Context {L : SodiumLaws Sod}.

(** A packet sealed [d] numbers after the receiver's nonce is decrypted when
    [d] fits 16 bits, and moves that nonce by [DATA_NUM_THRESHOLD] when [d] is
    more than twice that far ahead. *)
Lemma handle_data_packet_ok conn nonce data d :
  nonce_ok (recv_nonce conn) → nonce_ok nonce →
  be_val nonce = (be_val (recv_nonce conn) + d) mod 2 ^ 192 → 0 <= d < 2 ^ 16 →
  0 < zlen data <= MAX_CRYPTO_PACKET_SIZE - (1 + 2 + CRYPTO_MAC_SIZE) →
  handle_data_packet true conn (data_packet (shared_key conn) nonce data)
  = (Some data,
     if DATA_NUM_THRESHOLD * 2 <? d
     then conn <| recv_nonce := increment_nonce_number (recv_nonce conn) DATA_NUM_THRESHOLD |>
     else conn).
Proof using L.
  intros Hr Hn Hd Hd16 Hlen. unfold data_packet.
  destruct (encrypt_ok (shared_key conn) nonce data (zlen data)) as (c & E & Hc & D); [done|lia|].
  rewrite E. cbn [snd].
  assert (zlen (slice 22 2 nonce) = 2) as H2 by (apply length_slice; destruct Hn; lia).
  set (packet := [NET_PACKET_CRYPTO_DATA] ++ slice 22 2 nonce ++ c).
  assert (zlen packet = zlen data + 19) as Hp by (unfold packet; zlens).
  unfold handle_data_packet. rewrite Hp. unfold MAX_CRYPTO_PACKET_SIZE, CRYPTO_MAC_SIZE in *.
  rewrite (proj2 (Z.leb_gt _ _)), (proj2 (Z.ltb_ge _ _)) by lia. cbn [orb].
  change (drop 1 packet) with (slice 22 2 nonce ++ c).
  rewrite (proj1 (nonce_low16 _ Hr)), (proj2 (nonce_low16 _ Hn)).
  assert (u16 (be_val nonce mod 2 ^ 16 - be_val (recv_nonce conn) mod 2 ^ 16) = d) as ->.
  { rewrite Hd. wrap_lia. }
  assert (increment_nonce_number (recv_nonce conn) d = nonce) as ->.
  { destruct Hr as [Hr1 Hr2], Hn as [Hn1 Hn2].
    destruct (increment_nonce_number_ok (recv_nonce conn) d Hr1) as [I1 I2].
    apply be_val_inj; [done|done|unfold zlen in *; lia|].
    rewrite increment_nonce_number_val by (done || unfold is_u32; lia). done. }
  replace (drop 3 packet) with c.
  2: { unfold packet. rewrite app_assoc, drop_app_length'; [done|].
       rewrite length_app. unfold zlen in H2. simpl. lia. }
  replace (zlen data + 19 - (1 + 2)) with (zlen data + 16) by lia. rewrite D.
  rewrite u32_small by lia. replace (zlen data =? zlen data + 19 - (1 + 2 + 16)) with true by lia.
  done.
Qed.
End connection.

(** The packet with number 2^32 - 1 is lost: its number, read into an [int], is
    taken for the failure value, so the packet is removed from the receive window
    and acknowledged without being passed to the application. *)
Theorem last_packet_number_dropped alive conn dt w :
  pa_wf (recv_array conn) → buffer_start (recv_array conn) = UINT32_MAX →
  win (recv_array conn) = Some dt :: w →
  ∃ conn', deliver alive conn = (true, conn', []) ∧
    win (recv_array conn') = w ∧ buffer_start (recv_array conn') = 0.
Proof.
  intros Hw Hs Hv. unfold deliver. cbn [deliver_loop].
  pose proof (read_data_beg_buffer_win (recv_array conn) Hw) as H. rewrite Hv in H.
  destruct H as (a & -> & _ & Ha & Hva). rewrite Hs in *.
  change (s32 UINT32_MAX =? -1) with true. eexists. split; [done|]. split; [exact Hva|exact Ha].
Qed.

Lemma last_packet_number_dropped_witness :
  let a := mkPA {[32767 := mkPD 0 [16; 1]]} UINT32_MAX 0 in
  let conn := empty_crypto_connection <| recv_array := a |> in
  ∃ conn', deliver (λ _, true) conn = (true, conn', []) ∧ win (recv_array conn') = [].
Proof.
  intros a conn.
  destruct (last_packet_number_dropped (λ _, true) conn (mkPD 0 [16; 1]) []) as (conn' & H1 & H2 & _).
  - split; [vm_compute; intuition discriminate|vm_compute; intuition discriminate|vm_compute; discriminate|].
    change (num_packets_array (recv_array conn)) with 1. intros k Hk.
    unfold slot, CRYPTO_PACKET_BUFFER_SIZE in *. apply lookup_singleton_ne.
    change (buffer_start (recv_array conn)) with 4294967295. wrap_lia.
  - reflexivity.
  - vm_compute. reflexivity.
  - exists conn'. split; [exact H1|exact H2].
Defined.
