(* ===== verification/Channel.v ===== *)
(** * Channel: the lossless channel between two peers

    Two [Crypto_Connection]s joined by a network that loses, duplicates,
    reorders and delays packets at will.  The endpoints run the functions of
    NetCrypto; the network carries the plain texts the endpoints sealed, since
    the encryption lets nothing else through.  An invariant over all reachable
    states shows that what is delivered is always a prefix of what was written,
    and that nothing that was written can get lost. *)
From S2P Require Import Prelude Util CryptoCore Network PacketsArray Handshake CryptoConnection NetCrypto.

(** ** Payloads of a window *)

(** The window without the transmission times. *)
Definition payloads (a : Packets_Array) : list (option bytes) := option_map pd_data <$> win a.

Lemma length_payloads a : length (payloads a) = length (win a).
Proof. apply length_fmap. Qed.

Lemma zlen_payloads a : zlen (payloads a) = num_packets_array a.
Proof. unfold zlen. rewrite length_payloads. apply length_win. Qed.

Lemma payloads_lookup a k d :
  payloads a !! k = Some (Some d) ↔ ∃ t, win a !! k = Some (Some (mkPD t d)).
Proof.
  unfold payloads. rewrite list_lookup_fmap. split.
  - destruct (win a !! k) as [[[t d']|]|]; simpl; intros; simplify_eq; eauto.
  - by intros [t ->].
Qed.

Lemma set_sent_time_spec a number t :
  pa_wf a →
  pa_wf (set_sent_time a number t) ∧ payloads (set_sent_time a number t) = payloads a.
Proof.
  intros Hw. unfold set_sent_time.
  set (b := alter _ _ _).
  assert (∀ s, option_map pd_data (b !! s) = option_map pd_data (buffer a !! s)) as Hb.
  { intros s. unfold b. destruct (decide (s = slot number)) as [->|Hne].
    - rewrite lookup_alter_eq. by destruct (buffer a !! slot number).
    - by rewrite lookup_alter_ne. }
  destruct (mkPA_wf b (buffer_start a) (num_packets_array a)) as (Hw' & Hn' & Hv').
  - apply Hw.
  - pose proof (pa_num a Hw). pose proof (num_packets_range a). unfold is_u32 in *. lia.
  - intros k Hk. pose proof (Hb (slot (buffer_start a + k))) as E. rewrite pa_clean in E by done.
    by destruct (b !! _).
  - rewrite <- pa_end_eq in * by done. split; [done|]. unfold payloads. rewrite Hv'. unfold win.
    generalize (buffer_start a) as i. generalize (Z.to_nat (num_packets_array a)) as c.
    induction c as [|c IH]; intros i; [done|]. cbn [view fmap list_fmap]. by rewrite Hb, IH.
Qed.

(** ** What an endpoint may send *)

(** A transmission of a packet of the send window. *)
Definition emits_data (S R : Packets_Array) (p : bytes) : Prop :=
  ∃ k payload, payloads S !! k = Some (Some payload) ∧
    p = data_plain (buffer_start R) (u32 (buffer_start S + Z.of_nat k)) payload ∧
    0 < zlen payload <= MAX_CRYPTO_DATA_SIZE.

(** A lossy packet or a packet request: both carry the end of the send window. *)
Definition emits_other (S R : Packets_Array) (p : bytes) : Prop :=
  ∃ payload, p = data_plain (buffer_start R) (buffer_end S) payload ∧
    0 < zlen payload <= MAX_CRYPTO_DATA_SIZE ∧
    (PACKET_ID_RANGE_LOSSY_START <= aget 0 payload 0 <= PACKET_ID_RANGE_LOSSY_END ∨
     generate_request_packet MAX_CRYPTO_DATA_SIZE R = Some payload).

Definition emits (S R : Packets_Array) (p : bytes) : Prop := emits_data S R p ∨ emits_other S R p.

(** [conn'] is [conn] after an operation of its own side: the send window may
    have grown by [new], the rest is unchanged, and only packets that satisfy [E]
    of the windows were sealed. *)
Record local_step (E : Packets_Array → Packets_Array → bytes → Prop)
    (conn conn' : Crypto_Connection) (new : list bytes) (sent : list Sent) : Prop := {
  ls_recv : recv_array conn' = recv_array conn;
  ls_status : status conn' = status conn;
  ls_wf : pa_wf (send_array conn) → pa_wf (send_array conn');
  ls_start : buffer_start (send_array conn') = buffer_start (send_array conn);
  ls_payloads : pa_wf (send_array conn) →
    payloads (send_array conn') = payloads (send_array conn) ++ (Some <$> new);
  ls_sealed : pa_wf (send_array conn) →
    Forall (E (send_array conn') (recv_array conn)) (sealed sent)
}.

Lemma local_step_same E conn conn' : same_arrays conn conn' → local_step E conn conn' [] [].
Proof.
  intros (H1 & H2 & H3). split; auto; try (by rewrite H1).
  intros _. by rewrite H1, app_nil_r.
Qed.

Lemma local_step_weaken (E E' : Packets_Array → Packets_Array → bytes → Prop) conn conn' new sent :
  (∀ S R p, E S R p → E' S R p) → local_step E conn conn' new sent → local_step E' conn conn' new sent.
Proof.
  intros HE [H1 H2 H3 H4 H5 H6]. split; auto. intros Hw. eapply Forall_impl; [|by apply H6]. auto.
Qed.

(** What was emitted before the window grew may still be emitted. *)
Lemma emits_data_mono S S' R p new :
  buffer_start S' = buffer_start S → payloads S' = payloads S ++ (Some <$> new) →
  emits_data S R p → emits_data S' R p.
Proof.
  intros Es Ep (k & payload & Hk & -> & Hl). exists k, payload. rewrite Ep, Es.
  split_and!; [by apply lookup_app_l_Some|done|lia|lia].
Qed.

Lemma local_step_trans c c1 c2 n1 n2 s1 s2 :
  local_step emits_data c c1 n1 s1 → local_step emits_data c1 c2 n2 s2 →
  local_step emits_data c c2 (n1 ++ n2) (s1 ++ s2).
Proof.
  intros [R1 T1 W1 S1 P1 E1] [R2 T2 W2 S2 P2 E2]. split; try congruence; auto.
  - intros Hw. by rewrite P2, P1, fmap_app, app_assoc by auto.
  - intros Hw. rewrite sealed_app. apply Forall_app. split.
    + eapply Forall_impl; [|by apply E1]. intros p. rewrite <- R1. apply emits_data_mono with n2; auto.
    + rewrite <- R1. auto.
Qed.

Lemma local_step_sent_time conn number t :
  local_step emits_data conn (conn <| send_array := set_sent_time (send_array conn) number t |>) [] [].
Proof.
  split; try done.
  - intros Hw. by apply set_sent_time_spec.
  - intros Hw. rewrite app_nil_r. by apply set_sent_time_spec.
Qed.

Lemma local_step_add alloc conn id a data :
  add_data_end_of_buffer alloc (send_array conn) (mkPD 0 data) = Some (id, a) →
  local_step emits_data conn (conn <| send_array := a |>) [data] [] ∧
  (pa_wf (send_array conn) → is_u32 id ∧ get_data_pointer a id = Some (Some (mkPD 0 data))).
Proof.
  intros E. assert (buffer_start a = buffer_start (send_array conn)) as Es.
  { unfold add_data_end_of_buffer in E. repeat case_match; simplify_eq; done. }
  assert (pa_wf (send_array conn) → pa_wf a ∧ payloads a = payloads (send_array conn) ++ [Some data] ∧
    is_u32 id ∧ get_data_pointer a id = Some (Some (mkPD 0 data))) as H.
  { intros Hw. pose proof (add_data_end_of_buffer_win alloc _ (mkPD 0 data) Hw) as H.
    rewrite E in H. destruct H as (Hid & Hw' & _ & Hv). split; [done|].
    split; [unfold payloads; by rewrite Hv, fmap_app|].
    assert (is_u32 id) as Hu by (rewrite Hid; apply u32_range). split; [done|].
    rewrite get_data_pointer_win, Hv, Es by done.
    replace (Z.to_nat _) with (length (win (send_array conn))); [by apply list_lookup_middle|].
    pose proof (pa_num _ Hw) as Hn. rewrite <- length_win in Hn. unfold CRYPTO_PACKET_BUFFER_SIZE in Hn.
    pose proof (pa_start _ Hw). rewrite Hid. unfold zlen. wrap_lia. }
  split; [|by intros Hw; apply H]. split; try done; intros Hw; by apply H.
Qed.

Section local.
Context {Sod : Sodium}.

(** One transmission of a packet of the window. *)
Lemma helper_step alloc env link conn number dt :
  is_u32 number →
  get_data_pointer (send_array conn) number = Some (Some dt) →
  let '(_, conn', sent) :=
    send_data_packet_helper alloc env link conn (buffer_start (recv_array conn)) number (pd_data dt) in
  local_step emits_data conn conn' [] sent.
Proof.
  intros Hn Hg.
  pose proof (send_data_packet_helper_spec alloc env link conn (buffer_start (recv_array conn))
    number (pd_data dt)) as H.
  destruct send_data_packet_helper as [[ret conn'] sent]. destruct H as [Hsame Hs].
  destruct (local_step_same emits_data conn conn' Hsame) as [R T W St P _].
  split; auto. intros Hw. destruct Hs as [[-> _]|[-> Hl]]; [constructor|].
  repeat constructor. rewrite get_data_pointer_win in Hg by done.
  destruct Hsame as (-> & _). set (k := u32 (number - buffer_start (send_array conn))) in *.
  pose proof (pa_start _ Hw) as Hst. pose proof (u32_range (number - buffer_start (send_array conn))) as Hk.
  fold k in Hk. unfold is_u32 in Hk.
  exists (Z.to_nat k), (pd_data dt). split_and!; [|f_equal|lia|lia].
  - apply payloads_lookup. exists (sent_time dt). rewrite Hg. by destruct dt.
  - rewrite Z2Nat.id by lia. unfold k. wrap_lia.
Qed.

Lemma reset_max_speed_step alloc env link conn :
  let '(_, conn', sent) := reset_max_speed_reached alloc env link conn in
  local_step emits_data conn conn' [] sent.
Proof.
  unfold reset_max_speed_reached.
  destruct (maximum_speed_reached conn); [|by apply local_step_same].
  destruct get_data_pointer as [[dt|]|] eqn:Hg; [|by apply local_step_same..].
  destruct (sent_time dt =? 0); [|by apply local_step_same].
  pose proof (helper_step alloc env link conn _ dt (u32_range _) Hg) as H1.
  destruct send_data_packet_helper as [[ret conn1] sent]. destruct (negb (ret =? 0)); [done|].
  rewrite <- (app_nil_r sent). apply (local_step_trans _ conn1 _ [] []); [done|].
  rewrite <- (app_nil_r (@nil Sent)).
  eapply (local_step_trans _ _ _ [] []); [apply local_step_sent_time|by apply local_step_same].
Qed.

Lemma send_lossless_step alloc alloc_buf env link1 link2 conn data cc :
  pa_wf (send_array conn) →
  let '(ret, conn', sent) := send_lossless_packet alloc alloc_buf env link1 link2 conn data cc in
  local_step emits_data conn conn' (if ret =? -1 then [] else [data]) sent ∧
  (ret ≠ -1 → 0 < zlen data <= MAX_CRYPTO_DATA_SIZE).
Proof.
  intros Hw. unfold send_lossless_packet. pose proof (zlen_nonneg data).
  destruct (_ || _) eqn:Hlen; [by split; [apply local_step_same|]|].
  pose proof (reset_max_speed_step alloc env link1 conn) as H1.
  destruct reset_max_speed_reached as [[r1 conn1] sent1].
  destruct (_ && cc); [by split|].
  destruct add_data_end_of_buffer as [[id a]|] eqn:Ha; [|by split].
  destruct (local_step_add _ _ _ _ _ Ha) as [H2 Hid].
  assert (local_step emits_data conn (conn1 <| send_array := a |>) [data] sent1) as H12.
  { rewrite <- (app_nil_r sent1). by apply (local_step_trans _ conn1 _ [] [data]). }
  destruct Hid as [Hu Hg]; [by apply H1|].
  assert ((id =? -1) = false) as Hnot by (unfold is_u32 in Hu; lia).
  destruct (negb cc && _); [rewrite Hnot; split; [done|lia]|].
  set (conn2 := conn1 <| send_array := a |>) in *.
  pose proof (helper_step alloc env link2 conn2 id (mkPD 0 data) Hu Hg) as H3. cbn [pd_data] in H3.
  destruct send_data_packet_helper as [[ret conn3] sent2]. rewrite Hnot. split; [|lia].
  rewrite <- (app_nil_r [data]), <- (app_nil_r (sent1 ++ sent2)).
  apply (local_step_trans _ conn3 _ [data] []).
  - by apply (local_step_trans _ conn2 _ [data] []).
  - destruct (ret =? 0); [|by apply local_step_same].
    destruct (get_data_pointer (send_array conn3) id) as [[?|]|];
      [apply local_step_sent_time|by apply local_step_same..].
Qed.

Lemma write_cryptpacket_step alloc alloc_buf env link1 link2 conn data cc :
  pa_wf (send_array conn) →
  let '(ret, conn', sent) := write_cryptpacket alloc alloc_buf env link1 link2 conn data cc in
  local_step emits_data conn conn' (if ret =? -1 then [] else [data]) sent ∧
  (ret ≠ -1 → 0 < zlen data <= MAX_CRYPTO_DATA_SIZE ∧
     PACKET_ID_RANGE_LOSSLESS_START <= aget 0 data 0 <= PACKET_ID_RANGE_LOSSLESS_END).
Proof.
  intros Hw. unfold write_cryptpacket.
  destruct (zlen data =? 0); [by split; [apply local_step_same|]|].
  destruct ((aget 0 data 0 <? _) || _) eqn:Hid; [by split; [apply local_step_same|]|].
  destruct (negb _); [by split; [apply local_step_same|]|].
  destruct (cc && _); [by split; [apply local_step_same|]|].
  pose proof (send_lossless_step alloc alloc_buf env link1 link2 conn data cc Hw) as H.
  destruct send_lossless_packet as [[ret conn1] sent]. destruct H as [H1 H2].
  destruct (ret =? -1) eqn:Hr; [by split|].
  assert (ret ≠ -1 → 0 < zlen data <= MAX_CRYPTO_DATA_SIZE ∧
     PACKET_ID_RANGE_LOSSLESS_START <= aget 0 data 0 <= PACKET_ID_RANGE_LOSSLESS_END) as H3.
  { intros. split; [auto|]. unfold PACKET_ID_RANGE_LOSSLESS_START, PACKET_ID_RANGE_LOSSLESS_END in *. lia. }
  destruct cc; rewrite Hr; split; auto.
  rewrite <- (app_nil_r [data]), <- (app_nil_r sent).
  eapply (local_step_trans _ conn1 _ [data] []); [done|]. by apply local_step_same.
Qed.

Lemma other_step alloc env link conn data :
  (0 < zlen data <= MAX_CRYPTO_DATA_SIZE →
   PACKET_ID_RANGE_LOSSY_START <= aget 0 data 0 <= PACKET_ID_RANGE_LOSSY_END ∨
   generate_request_packet MAX_CRYPTO_DATA_SIZE (recv_array conn) = Some data) →
  let '(_, conn', sent) :=
    send_data_packet_helper alloc env link conn (buffer_start (recv_array conn))
      (buffer_end (send_array conn)) data in
  local_step emits conn conn' [] sent.
Proof.
  intros Hd.
  pose proof (send_data_packet_helper_spec alloc env link conn (buffer_start (recv_array conn))
    (buffer_end (send_array conn)) data) as H.
  destruct send_data_packet_helper as [[ret conn'] sent]. destruct H as [Hsame Hs].
  destruct (local_step_same emits conn conn' Hsame) as [R T W St P _].
  split; auto. intros Hw. destruct Hs as [[-> _]|[-> Hl]]; [constructor|].
  constructor; [|constructor]. right. exists data. destruct Hsame as (-> & _). auto.
Qed.

Lemma send_lossy_step alloc env link conn data :
  let '(_, conn', sent) := send_lossy_cryptpacket alloc env link conn data in
  local_step emits conn conn' [] sent.
Proof.
  unfold send_lossy_cryptpacket. destruct (_ || _); [by apply local_step_same|].
  destruct ((aget 0 data 0 <? _) || _) eqn:Hid; [by apply local_step_same|].
  apply other_step. intros _. left. unfold PACKET_ID_RANGE_LOSSY_START, PACKET_ID_RANGE_LOSSY_END in *. lia.
Qed.

Lemma send_request_step alloc env link conn :
  let '(_, conn', sent) := send_request_packet alloc env link conn in
  local_step emits conn conn' [] sent.
Proof.
  unfold send_request_packet. destruct generate_request_packet as [data|] eqn:E;
    [|by apply local_step_same].
  apply other_step. intros _. by right.
Qed.

Lemma requested_loop_step count alloc env link : ∀ conn i num_sent max_num,
  let '(_, conn', sent) := requested_loop count alloc env link conn i num_sent max_num in
  local_step emits_data conn conn' [] sent.
Proof.
  induction count as [|count IH]; intros conn i num_sent max_num; cbn [requested_loop];
    [by apply local_step_same|].
  destruct get_data_pointer as [[dt|]|] eqn:Hg; [|apply IH|by apply local_step_same].
  destruct (negb (sent_time dt =? 0)); [apply IH|].
  pose proof (helper_step alloc env (link i) conn _ dt (u32_range _) Hg) as H1.
  destruct send_data_packet_helper as [[ret conn1] sent].
  set (next := if ret =? 0 then _ else _).
  assert (local_step emits_data conn next.1 [] sent) as H2.
  { unfold next. destruct (ret =? 0); [|done]. rewrite <- (app_nil_r sent).
    eapply (local_step_trans _ conn1 _ [] []); [done|apply local_step_sent_time]. }
  destruct next as [conn2 num_sent2]. destruct (max_num <=? num_sent2); [done|].
  specialize (IH conn2 (i + 1) num_sent2 max_num).
  destruct requested_loop as [[r conn3] sent']. by apply (local_step_trans _ conn2 _ [] []).
Qed.

Lemma send_requested_step alloc env link conn max_num :
  let '(_, conn', sent) := send_requested_packets alloc env link conn max_num in
  local_step emits_data conn conn' [] sent.
Proof.
  unfold send_requested_packets. destruct (max_num =? 0); [by apply local_step_same|].
  apply requested_loop_step.
Qed.
End local.

(** ** Receiving *)

Lemma net_htonl_range x : is_u32 (net_htonl x).
Proof.
  unfold net_htonl. pose proof (le_val_range (rev (le_bytes 4 x)) (Forall_rev (le_bytes_ok 4 x))) as H.
  unfold zlen in H. rewrite length_rev, length_le_bytes in H. exact H.
Qed.

Lemma net_ntohl_htonl x : is_u32 x → net_ntohl (le_val (le_bytes 4 (net_htonl x))) = x.
Proof.
  intros Hx. rewrite le_val_bytes by apply net_htonl_range. unfold net_ntohl, net_htonl.
  pose proof (Forall_rev (le_bytes_ok 4 x)) as Hb.
  pose proof (le_bytes_val (rev (le_bytes 4 x)) Hb) as E. rewrite length_rev, length_le_bytes in E.
  rewrite E, rev_involutive. by apply le_val_bytes.
Qed.

(** The payload kinds. *)
Definition lossless_ok (d : bytes) : Prop :=
  PACKET_ID_RANGE_LOSSLESS_START <= aget 0 d 0 <= PACKET_ID_RANGE_LOSSLESS_END.
Definition lossy_ok (d : bytes) : Prop :=
  PACKET_ID_RANGE_LOSSY_START <= aget 0 d 0 <= PACKET_ID_RANGE_LOSSY_END.

Lemma remove_padding_spec n d :
  0 < zlen d → aget 0 d 0 ≠ PACKET_ID_PADDING →
  remove_padding (replicate n PACKET_ID_PADDING ++ d) = Some d.
Proof.
  intros Hl Hd. induction n as [|n IH]; simpl; [|done].
  destruct d as [|b d]; [unfold zlen in Hl; simpl in Hl; lia|]. simpl.
  unfold aget in Hd. simpl in Hd. unfold PACKET_ID_PADDING in *. by rewrite (proj2 (Z.eqb_neq _ _)).
Qed.

(** The fields of a plain text. *)
Lemma data_plain_fields bs num d :
  is_u32 bs → is_u32 num → 0 < zlen d →
  let p := data_plain bs num d in
  8 < zlen p ∧ net_ntohl (le_val (slice 0 4 p)) = bs ∧ net_ntohl (le_val (slice 4 4 p)) = num ∧
  (aget 0 d 0 ≠ PACKET_ID_PADDING → remove_padding (drop 8 p) = Some d).
Proof.
  intros Hb Hn Hl p. unfold p, data_plain.
  set (pad := replicate _ _). split_and!.
  - pose proof (zlen_nonneg pad). autorewrite with cintrw. lia.
  - rewrite slice_app_l by zlens. by apply net_ntohl_htonl.
  - rewrite slice_app_r by zlens. rewrite zlen_le_bytes. change (4 - Z.of_nat 4) with 0.
    rewrite slice_app_l by zlens. by apply net_ntohl_htonl.
  - intros Hd. rewrite app_assoc, drop_app_length' by (by rewrite length_app, !length_le_bytes).
    by apply remove_padding_spec.
Qed.

(** [S1] is the send window after the acknowledgement [bs]. *)
Definition acked (S : Packets_Array) (bs : Z) (S1 : Packets_Array) : Prop :=
  bs = buffer_start S ∧ S1 = S ∨ clear_buffer_until S bs = Some S1.

(** [a] with its first packets [ds] delivered, up to the first gap. *)
Definition drained (a : Packets_Array) (R : Packets_Array) (ds : list bytes) : Prop :=
  pa_wf R ∧ buffer_start R = buffer_start a + zlen ds ∧
  payloads a = (Some <$> ds) ++ payloads R ∧
  match payloads R with Some _ :: _ => False | _ => True end.

(** What handling the plain text with these fields does to the two windows, and
    which packets it delivers. *)
Inductive recv_rel (bs num : Z) (d : bytes) (S R : Packets_Array)
    : Packets_Array → Packets_Array → list bytes → Prop :=
| rr_reject : recv_rel bs num d S R S R []
| rr_skip S1 : acked S bs S1 → recv_rel bs num d S R S1 R []
| rr_request S1 S2 R' r now lst lst' rtt :
    acked S bs S1 → aget 0 d 0 = PACKET_ID_REQUEST →
    handle_request_packet now S1 d lst rtt = (S2, r, lst') →
    R' = R ∨ set_buffer_end R num = Some R' → recv_rel bs num d S R S2 R' []
| rr_lossy S1 R' :
    acked S bs S1 → lossy_ok d →
    R' = R ∨ set_buffer_end R num = Some R' → recv_rel bs num d S R S1 R' []
| rr_lossless S1 a R' ds alloc :
    acked S bs S1 → lossless_ok d →
    add_data_to_buffer alloc R num (mkPD 0 d) = Some a →
    (pa_wf a → buffer_start a + zlen (payloads a) < UINT32_MAX → drained a R' ds) →
    recv_rel bs num d S R S1 R' ds.

(** The packets passed to the data callback. *)
Definition data_of (evs : list Event) : list bytes :=
  omap (λ e, match e with DataCb d => Some d | _ => None end) evs.

Lemma data_of_map ds : data_of (DataCb <$> ds) = ds.
Proof. unfold data_of. induction ds as [|d ds IH]; [done|]. cbn. by f_equal. Qed.

Lemma drained_nil a :
  pa_wf a → match payloads a with Some _ :: _ => False | _ => True end → drained a a [].
Proof. intros. split_and!; [done|unfold zlen; simpl; lia|done|done]. Qed.

(** The delivery loop reads exactly the packets up to the first gap. *)
Lemma deliver_loop_drained fuel : ∀ conn,
  pa_wf (recv_array conn) →
  buffer_start (recv_array conn) + zlen (payloads (recv_array conn)) < UINT32_MAX →
  (length (win (recv_array conn)) < fuel)%nat →
  let '(ok, conn', evs) := deliver_loop fuel (λ _, true) conn in
  ok = true ∧ send_array conn' = send_array conn ∧
  ∃ ds, evs = DataCb <$> ds ∧ drained (recv_array conn) (recv_array conn') ds.
Proof.
  induction fuel as [|fuel IH]; intros conn Hw Hb Hf; [lia|]. cbn [deliver_loop].
  pose proof (read_data_beg_buffer_win (recv_array conn) Hw) as Hr.
  destruct (win (recv_array conn)) as [|[dt|] w] eqn:Ew.
  - rewrite Hr. split_and!; [done..|]. exists []. split; [done|]. apply drained_nil; [done|].
    unfold payloads. by rewrite Ew.
  - destruct Hr as (a & -> & Hwa & Hs & Hv).
    assert (zlen (payloads (recv_array conn)) = zlen w + 1) as El.
    { unfold payloads. rewrite Ew. unfold zlen. simpl. rewrite length_fmap. lia. }
    pose proof (zlen_nonneg w) as Hz. pose proof (pa_start _ Hw) as Hst. unfold is_u32, UINT32_MAX in *.
    assert (u32 (buffer_start (recv_array conn) + 1) = buffer_start (recv_array conn) + 1) as Eu
      by (apply u32_small; lia).
    rewrite Eu in Hs.
    assert ((s32 (buffer_start (recv_array conn)) =? -1) = false) as ->.
    { apply Z.eqb_neq. unfold s32. intros E. apply (f_equal (λ x, x mod 2 ^ 32)) in E.
      revert E. rewrite Zminus_mod_idemp_l. replace (_ + 2 ^ 31 - 2 ^ 31) with (buffer_start (recv_array conn)) by lia.
      rewrite Z.mod_small by lia. change (-1 mod 2 ^ 32) with 4294967295. lia. }
    cbn [negb]. set (conn1 := conn <| recv_array := a |>).
    assert (zlen (payloads a) = zlen w) as Ela
      by (unfold payloads; rewrite Hv; unfold zlen; by rewrite length_fmap).
    specialize (IH conn1). change (recv_array conn1) with a in IH.
    destruct (deliver_loop fuel (λ _, true) conn1) as [[ok conn2] evs].
    destruct IH as (-> & Es & ds & -> & Hd); [done|rewrite Hs, Ela; lia|rewrite Hv; simpl in Hf; lia|].
    split_and!; [done..|]. exists (pd_data dt :: ds). split; [done|].
    destruct Hd as (Hw2 & Hs2 & Hp2 & Hh2). split_and!; [done| | |done].
    + rewrite Hs2, Hs, zlen_cons. lia.
    + unfold payloads at 1. rewrite Ew. cbn [fmap list_fmap option_map]. rewrite <- Hv.
      fold (payloads a). by rewrite Hp2.
  - rewrite Hr. split_and!; [done..|]. exists []. split; [done|]. apply drained_nil; [done|].
    unfold payloads. by rewrite Ew.
Qed.

Lemma deliver_loop_send fuel alive : ∀ conn,
  send_array (deliver_loop fuel alive conn).1.2 = send_array conn.
Proof.
  induction fuel as [|fuel IH]; intros conn; cbn [deliver_loop]; [done|].
  destruct read_data_beg_buffer as [[[id dt] a]|]; [|done].
  destruct (s32 id =? -1); [done|]. destruct (negb (alive (pd_data dt))); [done|].
  specialize (IH (conn <| recv_array := a |>)).
  destruct deliver_loop as [[ok conn'] evs]. exact IH.
Qed.

Lemma handle_payload_rel alloc env udp conn num rtt_calc d bs S :
  acked S bs (send_array conn) →
  let '(_, conn', evs) := handle_payload alloc env udp (λ _, true) conn num rtt_calc d in
  recv_rel bs num d S (recv_array conn) (send_array conn') (recv_array conn') (data_of evs).
Proof.
  intros Ha. unfold handle_payload.
  set (end_recv := match set_buffer_end (recv_array conn) num with
                   | Some a => conn <| recv_array := a |> | None => conn end).
  assert (recv_array end_recv = recv_array conn ∨
    set_buffer_end (recv_array conn) num = Some (recv_array end_recv)) as He.
  { unfold end_recv. destruct set_buffer_end; auto. }
  assert (send_array end_recv = send_array conn) as Hes.
  { unfold end_recv. by destruct set_buffer_end. }
  destruct (aget 0 d 0 =? PACKET_ID_REQUEST) eqn:E1.
  { destruct handle_request_packet as [[S2 r] lst'] eqn:Eh.
    set (conn1 := conn <| send_array := S2 |>). destruct r as [n|]; [|by eapply rr_request; eauto; lia].
    change (recv_array conn1) with (recv_array conn).
    destruct set_buffer_end as [a|] eqn:Ese; repeat case_match; simplify_eq;
      eapply rr_request; eauto; lia. }
  destruct (_ && _) eqn:E2.
  { destruct add_data_to_buffer as [a|] eqn:Ead; [|by apply rr_skip].
    set (conn1 := conn <| recv_array := a |>). unfold deliver.
    pose proof (deliver_loop_send (Datatypes.S (Z.to_nat (num_packets_array (recv_array conn1))))
      (λ _, true) conn1) as Hs.
    pose proof (deliver_loop_drained (Datatypes.S (Z.to_nat (num_packets_array (recv_array conn1)))) conn1)
      as Hd.
    destruct deliver_loop as [[ok conn2] evs]. cbn [fst snd] in Hs.
    assert (recv_rel bs num d S (recv_array conn) (send_array conn2) (recv_array conn2) (data_of evs)) as Hrel.
    { rewrite Hs. apply (rr_lossless _ _ _ _ _ _ a _ _ alloc); [done| |done|].
      - unfold lossless_ok, PACKET_ID_RANGE_LOSSLESS_START, PACKET_ID_RANGE_LOSSLESS_END in *. lia.
      - intros Hw Hb. destruct Hd as (_ & _ & ds & -> & Hd); [done..| |].
        + pose proof (length_win (recv_array conn1)). lia.
        + by rewrite data_of_map. }
    repeat case_match; simplify_eq; done. }
  destruct ((PACKET_ID_RANGE_LOSSY_START <=? _) && _) eqn:E3; [|by apply rr_skip].
  rewrite <- Hes in Ha. repeat case_match; simplify_eq;
    (eapply rr_lossy; [done|unfold lossy_ok, PACKET_ID_RANGE_LOSSY_START, PACKET_ID_RANGE_LOSSY_END in *; lia|done]).
Qed.

Lemma handle_plain_rel alloc env udp conn bs num d :
  is_u32 bs → is_u32 num → 0 < zlen d →
  aget 0 d 0 ≠ PACKET_ID_PADDING →
  let '(_, conn', evs) := handle_plain alloc env udp (λ _, true) conn (data_plain bs num d) in
  recv_rel bs num d (send_array conn) (recv_array conn) (send_array conn') (recv_array conn')
    (data_of evs).
Proof.
  intros Hb Hn Hl Hd. destruct (data_plain_fields bs num d Hb Hn Hl) as (F1 & F2 & F3 & F4).
  unfold handle_plain. rewrite (proj2 (Z.leb_gt _ _)), F2, F3, F4 by (done || lia).
  set (cleared := if negb _ then _ else _).
  destruct cleared as [[a rtt]|] eqn:Ec; [|apply rr_reject].
  assert (acked (send_array conn) bs a) as Ha.
  { unfold cleared in Ec. destruct (negb (bs =? _)) eqn:E.
    - destruct (clear_buffer_until (send_array conn) bs) as [a'|] eqn:E2; simplify_eq/=. by right.
    - simplify_eq. left. split; [lia|done]. }
  destruct (aget 0 d 0 =? PACKET_ID_KILL); [by apply rr_skip|].
  case_bool_decide as Hst.
  - set (conn1 := (clear_temp_packet (conn <| send_array := a |>)) <| status := CRYPTO_CONN_ESTABLISHED |>).
    pose proof (handle_payload_rel alloc env udp conn1 num rtt d bs (send_array conn)) as H.
    destruct handle_payload as [[r conn2] evs]. by apply H.
  - set (conn1 := conn <| send_array := a |>).
    pose proof (handle_payload_rel alloc env udp conn1 num rtt d bs (send_array conn)) as H.
    destruct handle_payload as [[r conn2] evs]. by apply H.
Qed.

(** ** One direction

    [S] is the sender's window and [W] what it has written, [R] the receiver's
    window and [G] what it has delivered. *)
Definition recvd (R : Packets_Array) (G : list bytes) (i : nat) : Prop :=
  (i < length G)%nat ∨ ∃ d, payloads R !! (i - length G)%nat = Some (Some d).

(** The packet numbers of the connections considered here do not wrap around,
    and stay clear of the wrap-around by one window. *)
Definition MAX_WRITTEN : Z := 2 ^ 32 - CRYPTO_PACKET_BUFFER_SIZE.

Record dir (S R : Packets_Array) (W G : list bytes) : Prop := {
  d_S : pa_wf S;
  d_R : pa_wf R;
  d_bound : zlen W < MAX_WRITTEN;
  (** the send window ends at the last packet written *)
  d_len : (Z.to_nat (buffer_start S) + length (payloads S) = length W)%nat;
  (** the receive window starts behind the last packet delivered *)
  d_start : buffer_start R = zlen G;
  d_le : (Z.to_nat (buffer_start S) <= length G)%nat;
  d_end : (length G + length (payloads R) <= length W)%nat;
  (** every packet held or delivered is the one that was written *)
  d_got : G = take (length G) W;
  d_Rdata : ∀ k d, payloads R !! k = Some (Some d) → W !! (length G + k)%nat = Some d;
  d_Sdata : ∀ k d, payloads S !! k = Some (Some d) → W !! (Z.to_nat (buffer_start S) + k)%nat = Some d;
  (** only packets the receiver has were freed *)
  d_freed : ∀ k, payloads S !! k = Some None → recvd R G (Z.to_nat (buffer_start S) + k)%nat;
  d_head : match payloads R with Some _ :: _ => False | _ => True end;
  d_W : Forall (λ d, lossless_ok d ∧ 0 < zlen d <= MAX_CRYPTO_DATA_SIZE) W
}.

Lemma payloads_none a k : payloads a !! k = Some None ↔ win a !! k = Some None.
Proof.
  unfold payloads. rewrite list_lookup_fmap. split; [|by intros ->].
  destruct (win a !! k) as [[p|]|]; simpl; intros; simplify_eq; done.
Qed.

Lemma moves_to_payloads a start w :
  moves_to a start w → pa_wf a ∧ buffer_start a = start ∧ payloads a = option_map pd_data <$> w.
Proof. intros (H1 & H2 & H3). unfold payloads. by rewrite H3. Qed.

Lemma dir_S_start S R W G : dir S R W G →
  0 <= buffer_start S ∧ buffer_start S + zlen (win S) < MAX_WRITTEN ∧
  buffer_start S <= zlen G ∧ zlen G + zlen (win R) <= zlen W.
Proof.
  intros H. pose proof (d_len _ _ _ _ H). pose proof (d_bound _ _ _ _ H) as Hb.
  pose proof (pa_start _ (d_S _ _ _ _ H)) as Hs. pose proof (d_le _ _ _ _ H).
  pose proof (d_end _ _ _ _ H). rewrite length_payloads in *. unfold zlen, is_u32 in *. lia.
Qed.

(** Acknowledging what was delivered moves the send window. *)
Lemma dir_acked S R W G bs S1 :
  dir S R W G → is_u32 bs → bs <= zlen G → acked S bs S1 →
  dir S1 R W G ∧ buffer_start S1 = bs.
Proof.
  intros Hd Hu Hb [[-> ->]|Hc]; [done|].
  pose proof (dir_S_start _ _ _ _ Hd) as (B1 & B2 & B3 & B4).
  destruct Hd as [HS HR HW Hlen Hst Hle Hend Hgot HRd HSd Hfr Hh HWok].
  pose proof (clear_buffer_until_win S bs HS Hu) as H. cbn zeta in H.
  rewrite u32_sub in H by (done || apply HS).
  case_bool_decide as Hk; [|congruence]. destruct H as (a' & E & Hm).
  rewrite Hc in E. simplify_eq. unfold MAX_WRITTEN, CRYPTO_PACKET_BUFFER_SIZE, is_u32 in *.
  rewrite length_payloads in Hlen. unfold zlen in *.
  destruct (buffer_start S <=? bs) eqn:Ecmp; [|lia].
  apply moves_to_payloads in Hm as (Hw' & Hs' & Hp').
  rewrite fmap_drop in Hp'. fold (payloads S) in Hp'.
  set (n := Z.to_nat (bs - buffer_start S)) in *.
  split; [|done]. split; auto; rewrite ?Hs'.
  - rewrite Hp', length_drop, length_payloads. lia.
  - lia.
  - intros k d Hkd. rewrite Hp', lookup_drop in Hkd. rewrite <- (HSd _ _ Hkd). f_equal. lia.
  - intros k Hkd. rewrite Hp', lookup_drop in Hkd. apply Hfr in Hkd.
    replace (Z.to_nat bs + k)%nat with (Z.to_nat (buffer_start S) + (n + k))%nat by lia. done.
Qed.

(** [d] is a request generated when the receive window was [R0], of which
    everything received then is still known to be received. *)
Definition request_from (R0 : Packets_Array) (d : bytes) (R : Packets_Array) (W G : list bytes) : Prop :=
  pa_wf R0 ∧ generate_request_packet MAX_CRYPTO_DATA_SIZE R0 = Some d ∧
  (Z.to_nat (buffer_start R0) + length (payloads R0) <= length W)%nat ∧
  ∀ k x, payloads R0 !! k = Some (Some x) → recvd R G (Z.to_nat (buffer_start R0) + k)%nat.

Lemma ack_one_payload now rtt r s :
  option_map pd_data (ack_one now rtt r s)
  = match r with Some _ => None | None => option_map pd_data s end.
Proof. destruct r; [done|]. simpl. unfold mark. repeat case_match; done. Qed.

Lemma dir_request S R W G R0 d now lst rtt S2 r lst' :
  dir S R W G → request_from R0 d R W G → buffer_start R0 = buffer_start S →
  handle_request_packet now S d lst rtt = (S2, r, lst') →
  dir S2 R W G.
Proof.
  intros Hd (Hw0 & Hgen & Hlen0 & Hrec) Hst0 Hh.
  destruct Hd as [HS HR HW Hlen Hst Hle Hend Hgot HRd HSd Hfr Hhd HWok].
  rewrite !length_payloads in *. rewrite Hst0 in *.
  destruct (handle_generated_request MAX_CRYPTO_DATA_SIZE R0 S now lst rtt) as
    (req & m & S' & l' & E1 & _ & Hm & E2 & Hmv & _); [done|done|done|lia|done|].
  rewrite E1 in Hgen. simplify_eq. rewrite E2 in Hh. simplify_eq.
  apply moves_to_payloads in Hmv as (Hw' & Hs' & Hp').
  assert (length (payloads S2) = length (win S)) as El.
  { rewrite Hp', length_fmap, length_app, length_zip_with, !length_take, length_drop. lia. }
  assert (∀ k x, win S !! k = Some x →
    payloads S2 !! k = Some (if decide (k < m)%nat
      then match win R0 !! k with Some (Some _) => None | _ => option_map pd_data x end
      else option_map pd_data x)) as Hk.
  { intros k x Hx. rewrite Hp', list_lookup_fmap. destruct (decide (k < m)%nat).
    - rewrite lookup_app_l by (rewrite length_zip_with, !length_take; lia).
      rewrite lookup_zip_with, !lookup_take_lt, Hx by lia.
      destruct (lookup_lt_is_Some_2 (win R0) k) as [y Hy]; [lia|]. rewrite Hy. simpl.
      rewrite ack_one_payload. by destruct y.
    - rewrite lookup_app_r by (rewrite length_zip_with, !length_take; lia).
      rewrite lookup_drop, length_zip_with, !length_take.
      replace (m + _)%nat with k by lia. by rewrite Hx. }
  split; auto; rewrite ?Hs'; [rewrite El; lia|done|rewrite ?length_payloads; lia| |].
  - intros k x Hx. assert (k < length (win S))%nat as Hlt by (rewrite <- El; by eapply lookup_lt_Some).
    destruct (lookup_lt_is_Some_2 _ _ Hlt) as [y Hy]. rewrite (Hk _ _ Hy) in Hx.
    apply HSd. unfold payloads. rewrite list_lookup_fmap, Hy. simpl.
    repeat case_match; congruence.
  - intros k Hx. assert (k < length (win S))%nat as Hlt by (rewrite <- El; by eapply lookup_lt_Some).
    destruct (lookup_lt_is_Some_2 _ _ Hlt) as [y Hy]. rewrite (Hk _ _ Hy) in Hx.
    assert (option_map pd_data y = None → recvd R G (Z.to_nat (buffer_start S) + k)) as Hnone.
    { intros E. apply Hfr. unfold payloads. by rewrite list_lookup_fmap, Hy; simpl; rewrite E. }
    destruct (decide (k < m)%nat); [|apply Hnone; congruence].
    destruct (win R0 !! k) as [[p|]|] eqn:E0; [|apply Hnone; congruence..].
    apply (Hrec k (pd_data p)). apply payloads_lookup. exists (sent_time p). rewrite E0. by destruct p.
Qed.

Lemma recvd_extend R R' G i :
  (∀ k d, payloads R !! k = Some (Some d) → payloads R' !! k = Some (Some d)) →
  recvd R G i → recvd R' G i.
Proof. intros H [Hi|[d Hd]]; [by left|]. right. eauto. Qed.

(** The offset of a number that is not larger than what was written. *)
Lemma dir_offset S R W G num :
  dir S R W G → 0 <= num <= zlen W →
  u32 (num - buffer_start R) <= CRYPTO_PACKET_BUFFER_SIZE →
  zlen G <= num ∧ u32 (num - buffer_start R) = num - zlen G.
Proof.
  intros Hd Hn. pose proof (dir_S_start _ _ _ _ Hd) as (B1 & B2 & B3 & B4).
  pose proof (d_bound _ _ _ _ Hd) as Hb. pose proof (d_start _ _ _ _ Hd) as ->.
  unfold MAX_WRITTEN, CRYPTO_PACKET_BUFFER_SIZE in *. pose proof (zlen_nonneg G).
  pose proof (zlen_nonneg (win R)). rewrite u32_sub by (unfold is_u32; lia).
  destruct (zlen G <=? num) eqn:?; lia.
Qed.

Lemma dir_set_end S R W G num R' :
  dir S R W G → 0 <= num <= zlen W → set_buffer_end R num = Some R' →
  dir S R' W G ∧ ∀ i, recvd R G i → recvd R' G i.
Proof.
  intros Hd Hn He. pose proof (dir_S_start _ _ _ _ Hd) as (B1 & B2 & B3 & B4).
  pose proof (dir_offset _ _ _ _ _ Hd Hn) as Hoff. pose proof (d_bound _ _ _ _ Hd) as Hbd.
  assert (is_u32 num) as Hu by (unfold MAX_WRITTEN, CRYPTO_PACKET_BUFFER_SIZE, is_u32 in *; lia).
  pose proof (set_buffer_end_win R num (d_R _ _ _ _ Hd) Hu) as H. cbn zeta in H.
  rewrite He in H. case_bool_decide as Hk; [|done].
  destruct H as (a' & E & Hm). simplify_eq. destruct Hoff as [Hg Hoff]; [lia|]. rewrite Hoff in *.
  apply moves_to_payloads in Hm as (Hw' & Hs' & Hp'). rewrite fmap_app, fmap_replicate in Hp'.
  fold (payloads R) in Hp'. cbn [option_map] in Hp'.
  set (z := replicate _ (@None bytes)) in *.
  assert (∀ k d, payloads a' !! k = Some (Some d) ↔ payloads R !! k = Some (Some d)) as Hk'.
  { intros k d. rewrite Hp', lookup_app. destruct (payloads R !! k) eqn:E; [done|]. split; [|done].
    intros Hz. apply lookup_replicate in Hz as [? _]. done. }
  assert (∀ i, recvd R G i → recvd a' G i) as Hrec by (intros i; apply recvd_extend; naive_solver).
  split; [|done]. destruct Hd as [HS HR HW Hlen Hst Hle Hend Hgot HRd HSd Hfr Hh HWok].
  split; auto.
  - by rewrite Hs'.
  - rewrite Hp', length_app. unfold z. rewrite length_replicate, length_payloads.
    unfold zlen in *. lia.
  - intros k d Hkd. apply HRd. by apply Hk'.
  - rewrite Hp'. unfold z. generalize (Z.to_nat (num - zlen G - zlen (win R))). intros n.
    destruct (payloads R) as [|[?|] ?]; simpl; auto. by destruct n.
Qed.

Lemma prefix_extend (G W ds : list bytes) :
  G = take (length G) W → (∀ j x, ds !! j = Some x → W !! (length G + j)%nat = Some x) →
  G ++ ds = take (length (G ++ ds)) W.
Proof.
  intros HG Hds. rewrite length_app, <- (take_take_drop W). f_equal; [done|].
  apply list_eq. intros j. destruct (ds !! j) as [x|] eqn:E.
  - rewrite lookup_take_lt, lookup_drop by (by eapply lookup_lt_Some). symmetry. by apply Hds.
  - apply lookup_ge_None in E. by rewrite lookup_take_ge.
Qed.

(** Packet [d] of the stream [W] in a window whose other packets are of [W]. *)
Lemma payloads_of_stream (W : list bytes) (g k0 n : nat) (ps : list (option bytes)) (d : bytes) :
  (∀ k x, ps !! k = Some (Some x) → W !! (g + k)%nat = Some x) →
  (k0 < length (ps ++ replicate n None))%nat → W !! (g + k0)%nat = Some d →
  ∀ k x, <[k0 := Some d]> (ps ++ replicate n None) !! k = Some (Some x) → W !! (g + k)%nat = Some x.
Proof.
  intros Hps Hk0 HW k x. destruct (decide (k = k0)) as [->|].
  - rewrite list_lookup_insert_eq by done. intros. by simplify_eq.
  - rewrite list_lookup_insert_ne by done. rewrite lookup_app.
    destruct (ps !! k) eqn:E; [intros; simplify_eq; by apply Hps|].
    intros Hz. apply lookup_replicate in Hz as [? _]. done.
Qed.

(** A data packet extends the receive window and what follows the last gap-free
    packet is delivered. *)
Lemma dir_data S R W G num d alloc a R' ds :
  dir S R W G → 0 <= num → W !! Z.to_nat num = Some d →
  add_data_to_buffer alloc R num (mkPD 0 d) = Some a →
  (pa_wf a → buffer_start a + zlen (payloads a) < UINT32_MAX → drained a R' ds) →
  dir S R' W (G ++ ds) ∧ ∀ i, recvd R G i → recvd R' (G ++ ds) i.
Proof.
  intros Hd Hn0 HWn Hadd Hdrain. pose proof (dir_S_start _ _ _ _ Hd) as (B1 & B2 & B3 & B4).
  assert (0 <= num < zlen W) as Hn by (apply lookup_lt_Some in HWn; unfold zlen; lia).
  pose proof (d_bound _ _ _ _ Hd) as Hbd.
  assert (is_u32 num) as Hu by (unfold MAX_WRITTEN, CRYPTO_PACKET_BUFFER_SIZE, is_u32 in *; lia).
  pose proof (add_data_to_buffer_win alloc R num (mkPD 0 d) (d_R _ _ _ _ Hd) Hu) as H.
  cbn zeta in H. rewrite Hadd in H. destruct H as (Hk & Hfree & Hm).
  destruct (dir_offset _ _ _ _ num Hd) as [Hg Hoff]; [lia|lia|]. rewrite Hoff in *.
  destruct Hd as [HS HR HW Hlen Hst Hle Hend Hgot HRd HSd Hfr Hh HWok].
  apply moves_to_payloads in Hm as (Hwa & Hsa & Hpa).
  rewrite list_fmap_insert, fmap_app, fmap_replicate in Hpa. fold (payloads R) in Hpa.
  cbn [option_map pd_data] in Hpa. set (k0 := Z.to_nat (num - zlen G)) in *.
  set (ext := payloads R ++ replicate _ None) in *.
  assert (length (payloads a) = length ext) as Ela by (rewrite Hpa; apply length_insert).
  assert (k0 < length ext)%nat as Hk0.
  { unfold ext. rewrite length_app, length_replicate, length_payloads. unfold k0, zlen in *. lia. }
  assert (length G + length ext <= length W)%nat as Hext.
  { unfold ext. rewrite length_app, length_replicate, length_payloads in *. unfold k0, zlen in *. lia. }
  assert (∀ k x, payloads a !! k = Some (Some x) → W !! (length G + k)%nat = Some x) as Had.
  { rewrite Hpa. apply payloads_of_stream; [done|done|]. rewrite <- HWn. f_equal. unfold k0, zlen in *. lia. }
  assert (∀ k x, payloads R !! k = Some (Some x) → payloads a !! k = Some (Some x)) as HRa.
  { intros k x E. rewrite Hpa. destruct (decide (k = k0)) as [->|].
    - apply payloads_lookup in E as [t E]. by destruct (Hfree _ E).
    - rewrite list_lookup_insert_ne by done. unfold ext. by apply lookup_app_l_Some. }
  destruct Hdrain as (Hw' & Hs' & Hp' & Hh'); [done| |].
  { rewrite Hsa, Hst. unfold MAX_WRITTEN, CRYPTO_PACKET_BUFFER_SIZE, UINT32_MAX, zlen in *. lia. }
  assert (∀ k x, payloads R' !! k = Some x → payloads a !! (length ds + k)%nat = Some x) as HR'.
  { intros k x E. rewrite Hp', lookup_app_r by (rewrite length_fmap; lia).
    rewrite length_fmap, <- E. f_equal. lia. }
  assert (length ext = length ds + length (payloads R'))%nat as Elen
    by (by rewrite <- Ela, Hp', length_app, length_fmap).
  assert (∀ i, recvd R G i → recvd R' (G ++ ds) i) as Hrec.
  { intros i [Hi|[x Hx]]; unfold recvd; rewrite length_app; [left; lia|].
    apply HRa in Hx. rewrite Hp' in Hx. destruct (decide (i < length G + length ds)%nat); [by left|].
    right. exists x. rewrite lookup_app_r, length_fmap in Hx by (rewrite length_fmap; lia).
    rewrite <- Hx. f_equal. lia. }
  split; [|done]. split; auto.
  - rewrite Hs', Hsa, Hst, zlen_app. lia.
  - rewrite length_app. lia.
  - rewrite length_app. lia.
  - apply prefix_extend; [done|]. intros j x Hj. apply Had. rewrite Hp'.
    apply lookup_app_l_Some. by rewrite list_lookup_fmap, Hj.
  - intros k x Hx. apply HR', Had in Hx. rewrite <- Hx, length_app. f_equal. lia.
Qed.

(** Writing extends the send window. *)
Lemma dir_write S R W G S' new :
  dir S R W G → pa_wf S' → buffer_start S' = buffer_start S →
  payloads S' = payloads S ++ (Some <$> new) → zlen (W ++ new) < MAX_WRITTEN →
  Forall (λ d, lossless_ok d ∧ 0 < zlen d <= MAX_CRYPTO_DATA_SIZE) new →
  dir S' R (W ++ new) G.
Proof.
  intros [HS HR HW Hlen Hst Hle Hend Hgot HRd HSd Hfr Hh HWok] Hw Es Ep Hb Hnew.
  split; auto; rewrite ?Es, ?length_app; try lia.
  - rewrite Ep, length_app, length_fmap. lia.
  - rewrite take_app_le by lia. done.
  - intros k d Hk. by apply lookup_app_l_Some, HRd.
  - intros k d Hk. rewrite Ep, lookup_app in Hk. destruct (payloads S !! k) eqn:E; simplify_eq.
    + by apply lookup_app_l_Some, HSd.
    + apply lookup_ge_None in E. rewrite lookup_app_r by lia. rewrite list_lookup_fmap in Hk.
      replace (_ + k - length W)%nat with (k - length (payloads S))%nat by lia.
      destruct (new !! _); simplify_eq/=. done.
  - intros k Hk. rewrite Ep, lookup_app in Hk. destruct (payloads S !! k) eqn:E; simplify_eq; [auto|].
    rewrite list_lookup_fmap in Hk. by destruct (new !! _).
  - by apply Forall_app.
Qed.

(** ** The system *)

(** A side: its connection, what it wrote and delivered, and the plain texts it
    has sealed so far, any of which may reach the peer at any time and any
    number of times. *)
Record side := mkSide {
  s_conn : Crypto_Connection;
  written : list bytes;
  got : list bytes;
  wire : list bytes
}.

(** The packet [p] that [x] sealed for [y] is genuine. *)
Definition msg_ok (x y : side) (p : bytes) : Prop :=
  ∃ bs num d, p = data_plain bs num d ∧ is_u32 bs ∧ 0 < zlen d ∧ 0 <= num ∧ bs <= zlen (got x) ∧
    (lossless_ok d ∧ written x !! Z.to_nat num = Some d ∨
     num <= zlen (written x) ∧
     (lossy_ok d ∨ ∃ R0, buffer_start R0 = bs ∧
        request_from R0 d (recv_array (s_conn x)) (written y) (got x))).

Definition inv (x y : side) : Prop :=
  dir (send_array (s_conn x)) (recv_array (s_conn y)) (written x) (got y) ∧
  dir (send_array (s_conn y)) (recv_array (s_conn x)) (written y) (got x) ∧
  Forall (msg_ok x y) (wire x) ∧ Forall (msg_ok y x) (wire y).

Lemma inv_sym x y : inv x y → inv y x.
Proof. unfold inv. tauto. Qed.

(** A genuine packet stays genuine as both sides move on. *)
Lemma msg_ok_mono x y x' y' p :
  written x `prefix_of` written x' → written y `prefix_of` written y' →
  zlen (got x) <= zlen (got x') →
  (∀ i, recvd (recv_array (s_conn x)) (got x) i → recvd (recv_array (s_conn x')) (got x') i) →
  msg_ok x y p → msg_ok x' y' p.
Proof.
  intros Hwx Hwy Hg Hr (bs & num & d & -> & Hu & Hl & Hn & Hb & Hk).
  pose proof (prefix_length _ _ Hwx). pose proof (prefix_length _ _ Hwy).
  exists bs, num, d. split_and!; [done..|lia|].
  destruct Hk as [[Ho Hk]|(Hk & Hk')]; [left; split; [done|by eapply prefix_lookup_Some]|].
  right. split; [unfold zlen in *; lia|]. destruct Hk' as [?|(R0 & Es & Hw0 & Hgen & Hlen & Hrec)]; [by left|].
  right. exists R0. split; [done|]. split_and!; [done|done|lia|]. eauto.
Qed.

Lemma request_id len R d : generate_request_packet len R = Some d →
  aget 0 d 0 = PACKET_ID_REQUEST ∧ 0 < zlen d.
Proof.
  assert (∀ c i n b out, ∃ rest, request_loop c i n len b out = out ++ rest) as Hloop.
  { induction c as [|c IH]; intros i n b out; cbn [request_loop]; [exists []; by rewrite app_nil_r|].
    assert (∀ x i' n', ∃ rest, request_loop c i' n' len b (out ++ [x]) = out ++ rest) as Hx.
    { intros x i' n'. destruct (IH i' n' b (out ++ [x])) as [r ->]. exists ([x] ++ r). by rewrite app_assoc. }
    repeat case_match; eauto. }
  unfold generate_request_packet. repeat case_match; try done; intros E%(inj Some); subst d; try done.
  destruct (Hloop (Z.to_nat (u32 (buffer_end R - buffer_start R))) (buffer_start R) 1 (buffer R)
    [PACKET_ID_REQUEST]) as [r ->]. unfold zlen. simpl. split; [done|lia].
Qed.

(** What a side emits is genuine. *)
Lemma emits_msg_ok x y p :
  inv x y → emits (send_array (s_conn x)) (recv_array (s_conn x)) p → msg_ok x y p.
Proof.
  intros (H1 & H2 & _) He. pose proof (dir_S_start _ _ _ _ H1) as (B1 & B2 & B3 & B4).
  pose proof (d_bound _ _ _ _ H1) as Hbd. pose proof (d_len _ _ _ _ H1) as Hlen.
  pose proof (d_start _ _ _ _ H2) as Hst. pose proof (pa_start _ (d_R _ _ _ _ H2)) as Hu.
  unfold MAX_WRITTEN, CRYPTO_PACKET_BUFFER_SIZE in *.
  destruct He as [(k & d & Hk & -> & Hl)|(d & -> & Hl & Hd)].
  - pose proof (d_Sdata _ _ _ _ H1 _ _ Hk) as HW.
    pose proof (lookup_lt_Some _ _ _ HW) as Hlt.
    exists (buffer_start (recv_array (s_conn x))), (buffer_start (send_array (s_conn x)) + Z.of_nat k), d.
    rewrite u32_small by (unfold zlen in *; lia). split_and!; [done|done|lia|lia|lia|].
    left. split; [by apply (Forall_lookup_1 _ _ _ _ (d_W _ _ _ _ H1) HW)|].
    rewrite <- HW. f_equal. lia.
  - assert (buffer_end (send_array (s_conn x)) = zlen (written x)) as ->.
    { rewrite pa_end_eq by apply H1. rewrite <- zlen_win. unfold zlen in *.
      rewrite length_payloads in Hlen. rewrite u32_small; lia. }
    exists (buffer_start (recv_array (s_conn x))), (zlen (written x)), d.
    split_and!; [done|done|lia|apply zlen_nonneg|lia|]. right. split; [lia|].
    destruct Hd as [Hd|Hd]; [by left|]. right. exists (recv_array (s_conn x)). split; [done|].
    pose proof (d_end _ _ _ _ H2) as Hend.
    assert (Z.to_nat (buffer_start (recv_array (s_conn x))) = length (got x)) as En
      by (rewrite Hst; unfold zlen; lia).
    split_and!; [apply H2|done|lia|].
    intros k z Hz. right. exists z. rewrite <- Hz. f_equal. lia.
Qed.

(** Receiving a genuine packet keeps both directions intact. *)
Lemma recv_rel_dirs x y bs num d S' R' ds :
  inv x y → is_u32 bs → 0 <= num → bs <= zlen (got y) →
  (lossless_ok d ∧ written y !! Z.to_nat num = Some d ∨
   num <= zlen (written y) ∧
   (lossy_ok d ∨ ∃ R0, buffer_start R0 = bs ∧
      request_from R0 d (recv_array (s_conn y)) (written x) (got y))) →
  recv_rel bs num d (send_array (s_conn x)) (recv_array (s_conn x)) S' R' ds →
  dir S' (recv_array (s_conn y)) (written x) (got y) ∧
  dir (send_array (s_conn y)) R' (written y) (got x ++ ds) ∧
  (∀ i, recvd (recv_array (s_conn x)) (got x) i → recvd R' (got x ++ ds) i).
Proof.
  intros (H1 & H2 & _) Hu Hn Hb Hkind Hrel.
  assert (∀ S1, acked (send_array (s_conn x)) bs S1 →
    dir S1 (recv_array (s_conn y)) (written x) (got y) ∧ buffer_start S1 = bs) as Hack
    by (intros S1; by apply dir_acked).
  assert (∀ r, aget 0 d 0 = r → r = PACKET_ID_REQUEST ∨ lossy_ok d → num <= zlen (written y)) as Hnum.
  { intros r Hr Hc. destruct Hkind as [[Hk _]|[Hk _]]; [|done].
    unfold lossless_ok, lossy_ok, PACKET_ID_REQUEST, PACKET_ID_RANGE_LOSSLESS_START,
      PACKET_ID_RANGE_LOSSLESS_END, PACKET_ID_RANGE_LOSSY_START in *. lia. }
  assert (∀ R1, R1 = recv_array (s_conn x) ∨ set_buffer_end (recv_array (s_conn x)) num = Some R1 →
    num <= zlen (written y) → dir (send_array (s_conn y)) R1 (written y) (got x) ∧
    ∀ i, recvd (recv_array (s_conn x)) (got x) i → recvd R1 (got x) i) as Hend.
  { intros R1 [->|E] Hle; [done|]. apply (dir_set_end _ _ _ _ num); [done|lia|done]. }
  destruct Hrel as [|S1 Ha|S1 S2 R1 r now lst lst' rtt Ha Hid Hh He|S1 R1 Ha Hl He|S1 a R1 ds alloc Ha Hl Hadd Hdr];
    rewrite ?app_nil_r.
  - done.
  - by destruct (Hack S1 Ha).
  - destruct (Hack S1 Ha) as [Hd1 Hs1]. split; [|eapply Hend, Hnum; eauto].
    destruct Hkind as [[Hk _]|[_ [Hk|(R0 & Hs0 & Hreq)]]].
    + unfold lossless_ok, PACKET_ID_REQUEST, PACKET_ID_RANGE_LOSSLESS_START in *. lia.
    + unfold lossy_ok, PACKET_ID_REQUEST, PACKET_ID_RANGE_LOSSY_START in *. lia.
    + eapply dir_request; eauto. congruence.
  - destruct (Hack S1 Ha) as [Hd1 Hs1]. split; [done|]. eapply Hend, Hnum; eauto.
  - destruct (Hack S1 Ha) as [Hd1 Hs1]. split; [done|].
    destruct Hkind as [[_ Hk]|[_ [Hk|(R0 & Hs0 & _ & Hgen & _)]]].
    + eapply dir_data; eauto.
    + unfold lossless_ok, lossy_ok, PACKET_ID_RANGE_LOSSLESS_END, PACKET_ID_RANGE_LOSSY_START in *. lia.
    + apply request_id in Hgen as [Hgen _].
      unfold lossless_ok, PACKET_ID_REQUEST, PACKET_ID_RANGE_LOSSLESS_START in *. lia.
Qed.

Section system.
Context {Sod : Sodium}.

(** The operations a side performs on its own, with everything the
    environment decides. *)
Inductive act :=
| Write (alloc alloc_buf : bool) (env : Env) (link1 link2 : Link) (data : bytes) (cc : bool)
| Lossy (alloc : bool) (env : Env) (link : Link) (data : bytes)
| Request (alloc : bool) (env : Env) (link : Link)
| Resend (alloc : bool) (env : Env) (link : Z → Link) (max_num : Z).

(** The call, and the packet it adds to the stream if it is accepted. *)
Definition act_op (a : act) (conn : Crypto_Connection) : Z * Crypto_Connection * list Sent :=
  match a with
  | Write alloc alloc_buf env link1 link2 data cc =>
      write_cryptpacket alloc alloc_buf env link1 link2 conn data cc
  | Lossy alloc env link data => send_lossy_cryptpacket alloc env link conn data
  | Request alloc env link => send_request_packet alloc env link conn
  | Resend alloc env link max_num => send_requested_packets alloc env link conn max_num
  end.

Definition act_new (a : act) (ret : Z) : list bytes :=
  match a with
  | Write _ _ _ _ _ data _ => if ret =? -1 then [] else [data]
  | _ => []
  end.

Definition run_act (a : act) (x : side) : side :=
  let '(ret, conn, sent) := act_op a (s_conn x) in
  mkSide conn (written x ++ act_new a ret) (got x) (wire x ++ sealed sent).

(** Handling a packet of the peer; [None] when that ends the connection. *)
Definition run_recv (alloc : bool) (env : Env) (udp : bool) (x : side) (p : bytes) : option side :=
  let '(h, conn, evs) := handle_plain alloc env udp (λ _, true) (s_conn x) p in
  match h with
  | HError | HDone => Some (mkSide conn (written x) (got x ++ data_of evs) (wire x))
  | HKill | HGone => None
  end.

Inductive step : side * side → side * side → Prop :=
| step_act_l a x y : step (x, y) (run_act a x, y)
| step_act_r a x y : step (x, y) (x, run_act a y)
| step_recv_l alloc env udp x y p x' :
    p ∈ wire y → run_recv alloc env udp x p = Some x' → step (x, y) (x', y)
| step_recv_r alloc env udp x y p y' :
    p ∈ wire x → run_recv alloc env udp y p = Some y' → step (x, y) (x, y').

(** A new connection: both windows are empty. *)
Definition fresh (x : side) : Prop :=
  send_array (s_conn x) = empty_packets_array ∧ recv_array (s_conn x) = empty_packets_array ∧
  written x = [] ∧ got x = [] ∧ wire x = [].

Definition bounded (s : side * side) : Prop :=
  zlen (written s.1) < MAX_WRITTEN ∧ zlen (written s.2) < MAX_WRITTEN.

Lemma act_local a x :
  pa_wf (send_array (s_conn x)) →
  ∃ new sent, local_step emits (s_conn x) (s_conn (run_act a x)) new sent ∧
    written (run_act a x) = written x ++ new ∧ got (run_act a x) = got x ∧
    wire (run_act a x) = wire x ++ sealed sent ∧
    Forall (λ d, lossless_ok d ∧ 0 < zlen d <= MAX_CRYPTO_DATA_SIZE) new.
Proof.
  intros Hw. unfold run_act. destruct (act_op a (s_conn x)) as [[ret conn] sent] eqn:E.
  exists (act_new a ret), sent. simpl.
  destruct a as [alloc alloc_buf env l1 l2 d cc|alloc env l d|alloc env l|alloc env l n];
    simpl in E; cbn [act_new].
  - pose proof (write_cryptpacket_step alloc alloc_buf env l1 l2 (s_conn x) d cc Hw) as H.
    rewrite E in H. destruct H as [H1 H2]. split_and!; try done.
    + eapply local_step_weaken; [|exact H1]. intros S R p Hp. by left.
    + destruct (ret =? -1) eqn:Er; [constructor|]. constructor; [|constructor].
      unfold lossless_ok. split; apply H2; lia.
  - pose proof (send_lossy_step alloc env l (s_conn x) d) as H. by rewrite E in H.
  - pose proof (send_request_step alloc env l (s_conn x)) as H. by rewrite E in H.
  - pose proof (send_requested_step alloc env l (s_conn x) n) as H. rewrite E in H.
    split_and!; try done. eapply local_step_weaken; [|exact H]. intros S R p Hp. by left.
Qed.

Lemma inv_act a x y :
  inv x y → zlen (written (run_act a x)) < MAX_WRITTEN → inv (run_act a x) y.
Proof.
  intros Hinv Hb. destruct Hinv as (H1 & H2 & H3 & H4).
  destruct (act_local a x (d_S _ _ _ _ H1)) as (new & sent & Hls & Ew & Eg & Ewi & Hnew).
  destruct Hls as [Lr Lt Lw Ls Lp Le]. pose proof (d_S _ _ _ _ H1) as HwS.
  set (x' := run_act a x) in *. rewrite Ew in Hb.
  assert (written x `prefix_of` written x') as Hpre by (rewrite Ew; by apply prefix_app_r).
  assert (dir (send_array (s_conn x')) (recv_array (s_conn y)) (written x') (got y)) as H1'.
  { rewrite Ew. apply dir_write with (send_array (s_conn x)); auto. }
  assert (dir (send_array (s_conn y)) (recv_array (s_conn x')) (written y) (got x')) as H2'.
  { by rewrite Lr, Eg. }
  assert (∀ p, msg_ok x y p → msg_ok x' y p) as Hm.
  { intros p. apply msg_ok_mono; [done|done|by rewrite Eg|by rewrite Lr, Eg]. }
  split_and!; [done|done| |].
  - rewrite Ewi. apply Forall_app. split; [eapply Forall_impl; [|exact H3]; auto|].
    assert (inv (mkSide (s_conn x') (written x') (got x') []) (mkSide (s_conn y) (written y) (got y) []))
      as Hi by (split_and!; [exact H1'|exact H2'|constructor|constructor]).
    eapply Forall_impl; [|by apply Le]. intros p Hp. apply (emits_msg_ok _ _ p Hi).
    by rewrite <- Lr in Hp.
  - eapply Forall_impl; [|exact H4]. intros p. by apply msg_ok_mono.
Qed.

Lemma inv_recv alloc env udp x y p x' :
  inv x y → p ∈ wire y → run_recv alloc env udp x p = Some x' → inv x' y.
Proof.
  intros Hinv Hp Hr. pose proof Hinv as (H1 & H2 & H3 & H4).
  rewrite list.Forall_forall in H4. specialize (H4 p Hp).
  destruct H4 as (bs & num & d & -> & Hu & Hl & Hn & Hb & Hkind).
  assert (aget 0 d 0 ≠ PACKET_ID_PADDING) as Hpad.
  { unfold lossless_ok, lossy_ok, PACKET_ID_PADDING, PACKET_ID_RANGE_LOSSLESS_START,
      PACKET_ID_RANGE_LOSSY_START in *.
    destruct Hkind as [[Hk _]|[_ [Hk|(R0 & _ & _ & Hgen & _)]]]; [lia|lia|].
    apply request_id in Hgen as [-> _]. done. }
  assert (is_u32 num) as Hun.
  { pose proof (d_bound _ _ _ _ H2) as Hbd.
    unfold MAX_WRITTEN, CRYPTO_PACKET_BUFFER_SIZE, is_u32, zlen in *.
    destruct Hkind as [[_ Hk]|[Hk _]]; [apply lookup_lt_Some in Hk|]; lia. }
  pose proof (handle_plain_rel alloc env udp (s_conn x) bs num d Hu Hun Hl Hpad) as Hrel.
  unfold run_recv in Hr. destruct handle_plain as [[h conn'] evs].
  assert (x' = mkSide conn' (written x) (got x ++ data_of evs) (wire x)) as ->
    by (destruct h; congruence).
  destruct (recv_rel_dirs x y bs num d _ _ _ Hinv Hu Hn Hb Hkind Hrel) as (D1 & D2 & Hrec).
  split_and!; [exact D1|exact D2| |].
  - eapply Forall_impl; [|exact H3]. intros q. apply msg_ok_mono; simpl; try done.
    rewrite zlen_app. pose proof (zlen_nonneg (data_of evs)). lia.
  - destruct Hinv as (_ & _ & _ & H4). eapply Forall_impl; [|exact H4]. intros q.
    by apply msg_ok_mono.
Qed.

Lemma written_act a x : written x `prefix_of` written (run_act a x).
Proof. unfold run_act. destruct act_op as [[ret conn] sent]. by apply prefix_app_r. Qed.

Lemma written_recv alloc env udp x p x' :
  run_recv alloc env udp x p = Some x' → written x' = written x.
Proof. unfold run_recv. repeat case_match; intros; simplify_eq; done. Qed.

Lemma bounded_back s s' : step s s' → bounded s' → bounded s.
Proof.
  intros Hs [B1 B2]. unfold bounded. destruct Hs as [a x y|a x y|? ? ? x y p x' _ E|? ? ? x y p y' _ E]; simpl in *;
    rewrite ?(written_recv _ _ _ _ _ _ E) in *; try done;
    pose proof (prefix_length _ _ (written_act a x)); pose proof (prefix_length _ _ (written_act a y));
    unfold zlen in *; lia.
Qed.

Lemma inv_step s s' : step s s' → bounded s' → inv s.1 s.2 → inv s'.1 s'.2.
Proof.
  intros Hs [B1 B2] Hinv. destruct Hs; simpl in *.
  - by apply inv_act.
  - by apply inv_sym, inv_act, B2; apply inv_sym.
  - by eapply inv_recv.
  - apply inv_sym. eapply inv_recv; [by apply inv_sym|done|done].
Qed.

Lemma inv_fresh x y : fresh x → fresh y → inv x y.
Proof.
  intros (Sx & Rx & Wx & Gx & Ox) (Sy & Ry & Wy & Gy & Oy).
  destruct empty_pa_wf as [Hw Hv].
  assert (dir empty_packets_array empty_packets_array [] []) as Hd.
  { assert (payloads empty_packets_array = []) as Hp by (unfold payloads; by rewrite Hv).
    split; rewrite ?Hp; try done. }
  unfold inv. rewrite Sx, Rx, Wx, Gx, Ox, Sy, Ry, Wy, Gy, Oy. split_and!; [done|done|constructor|constructor].
Qed.

Lemma inv_reachable s s' : rtc step s s' → bounded s' → fresh s.1 → fresh s.2 → inv s'.1 s'.2.
Proof.
  intros Hr Hb F1 F2. revert s' Hr Hb.
  apply (rtc_ind_r (λ s', bounded s' → inv s'.1 s'.2)).
  - intros _. by apply inv_fresh.
  - intros s1 s2 _ Hs IH Hb. eapply inv_step; [done|done|]. by apply IH, (bounded_back s1 s2).
Qed.

(** ** Theorems *)

(** C1: Reliable, ordered delivery: in every state two fresh connections can
    reach over a network that loses, duplicates, reorders and delays packets,
    what either side has delivered to its application is a prefix of what the
    other side has written: nothing is delivered twice, out of order, altered
    or invented, as long as each side has written fewer than 2^32 - 32768
    packets, so that their numbers do not wrap around. *)
Theorem delivered_is_prefix_of_written x y x' y' :
  fresh x → fresh y → rtc step (x, y) (x', y') → bounded (x', y') →
  got y' `prefix_of` written x' ∧ got x' `prefix_of` written y'.
Proof.
  intros F1 F2 Hr Hb. destruct (inv_reachable (x, y) (x', y') Hr Hb F1 F2) as (H1 & H2 & _). cbn [fst snd] in *.
  rewrite (d_got _ _ _ _ H1), (d_got _ _ _ _ H2). split; apply prefix_take.
Qed.

(** C2: Nothing is lost: in every reachable state, each packet that was written
    and not yet delivered is still stored, unchanged, in the sender's send
    window or in the receiver's receive window, as long as each side has written
    fewer than 2^32 - 32768 packets. *)
Theorem undelivered_is_stored x y x' y' i d :
  fresh x → fresh y → rtc step (x, y) (x', y') → bounded (x', y') →
  written x' !! i = Some d → (length (got y') <= i)%nat →
  payloads (send_array (s_conn x')) !! (i - Z.to_nat (buffer_start (send_array (s_conn x'))))%nat
    = Some (Some d) ∨
  payloads (recv_array (s_conn y')) !! (i - length (got y'))%nat = Some (Some d).
Proof.
  intros F1 F2 Hr Hb Hi Hge. destruct (inv_reachable (x, y) (x', y') Hr Hb F1 F2) as (H1 & _ & _). cbn [fst snd] in *.
  destruct H1 as [HS HR HW Hlen Hst Hle Hend Hgot HRd HSd Hfr Hh HWok].
  pose proof (lookup_lt_Some _ _ _ Hi) as Hlt.
  set (st := Z.to_nat (buffer_start (send_array (s_conn x')))) in *.
  destruct (lookup_lt_is_Some_2 (payloads (send_array (s_conn x'))) (i - st)) as [[z|] Hx]; [lia| |].
  - left. rewrite Hx. apply HSd in Hx. replace (st + (i - st))%nat with i in Hx by lia. congruence.
  - right. apply Hfr in Hx. replace (st + (i - st))%nat with i in Hx by lia.
    destruct Hx as [Hx|[z Hx]]; [lia|]. rewrite Hx. apply HRd in Hx.
    replace (length (got y') + _)%nat with i in Hx by lia. congruence.
Qed.

(** A packet number the sender is told was received
    ([cryptpacket_received]) has been delivered by the receiver. *)
Theorem received_means_delivered x y x' y' i :
  fresh x → fresh y → rtc step (x, y) (x', y') → bounded (x', y') →
  (i < length (written x'))%nat → cryptpacket_received (s_conn x') (Z.of_nat i) = 0 →
  written x' !! i = got y' !! i ∧ (i < length (got y'))%nat.
Proof.
  intros F1 F2 Hr Hb Hi Hc. destruct (inv_reachable (x, y) (x', y') Hr Hb F1 F2) as (H1 & _ & _). cbn [fst snd] in *.
  pose proof (dir_S_start _ _ _ _ H1) as (B1 & B2 & B3 & B4).
  destruct H1 as [HS HR HW Hlen Hst Hle Hend Hgot HRd HSd Hfr Hh HWok].
  unfold cryptpacket_received in Hc. rewrite <- zlen_win in Hc.
  rewrite length_payloads in Hlen.
  unfold MAX_WRITTEN, CRYPTO_PACKET_BUFFER_SIZE, zlen in *.
  rewrite u32_sub in Hc by (unfold is_u32; lia).
  assert (i < Z.to_nat (buffer_start (send_array (s_conn x'))))%nat as Hlt
    by (destruct (_ <=? Z.of_nat i) eqn:?; [|lia]; destruct (_ <=? Z.of_nat _) eqn:? in Hc; lia).
  split; [|lia]. rewrite Hgot, lookup_take_lt by lia. done.
Qed.
End system.

(** ** A run

    One side writes two packets; the second arrives first, then the first. *)
Definition demo_conn : Crypto_Connection :=
  empty_crypto_connection <| status := CRYPTO_CONN_ESTABLISHED |> <| packets_left := 10 |>.
Definition demo_side : side := mkSide demo_conn [] [] [].
Definition demo_env : Env := mkEnv 100 100000.
Definition demo_link : Link := mkLink false 0.

Definition demo_write (d : bytes) (x : side) : side :=
  @run_act toy_sodium (Write true true demo_env demo_link demo_link d true) x.
Definition demo_recv (p : bytes) (x : side) : side :=
  default x (run_recv true demo_env true x p).

Definition demo_x : side := demo_write [17; 2] (demo_write [16; 1] demo_side).
Definition demo_y1 : side := demo_recv (nth 1 (wire demo_x) []) demo_side.
Definition demo_y2 : side := demo_recv (nth 0 (wire demo_x) []) demo_y1.

Lemma demo_fresh : fresh demo_side.
Proof. done. Qed.

Lemma demo_step_write d x y : @step toy_sodium (x, y) (demo_write d x, y).
Proof. exact (step_act_l (Write true true demo_env demo_link demo_link d true) x y). Qed.

Lemma demo_step_recv n x y :
  (n < length (wire x))%nat → is_Some (run_recv true demo_env true y (nth n (wire x) [])) →
  @step toy_sodium (x, y) (x, demo_recv (nth n (wire x) []) y).
Proof.
  intros Hn [y' E]. unfold demo_recv. rewrite E. simpl.
  refine (step_recv_r true demo_env true x y (nth n (wire x) []) y' _ E).
  apply list_elem_of_In, nth_In. done.
Qed.

Lemma demo_run1 : rtc (@step toy_sodium) (demo_side, demo_side) (demo_x, demo_y1).
Proof.
  apply rtc_l with (demo_write [16; 1] demo_side, demo_side); [apply demo_step_write|].
  apply rtc_l with (demo_x, demo_side); [apply demo_step_write|].
  apply rtc_once. apply demo_step_recv; [vm_compute; lia|vm_compute; eauto].
Qed.

Lemma demo_run2 : rtc (@step toy_sodium) (demo_side, demo_side) (demo_x, demo_y2).
Proof.
  apply rtc_r with (demo_x, demo_y1); [apply demo_run1|].
  apply demo_step_recv; [vm_compute; lia|vm_compute; eauto].
Qed.

Lemma demo_bounded y : written y = [] → bounded (demo_x, y).
Proof. intros E. unfold bounded. simpl. rewrite E. split; vm_compute; reflexivity. Qed.

Lemma delivered_is_prefix_of_written_witness :
  got demo_y2 = [[16; 1]; [17; 2]] ∧ got demo_y2 `prefix_of` written demo_x.
Proof.
  split; [vm_compute; reflexivity|].
  destruct (@delivered_is_prefix_of_written toy_sodium demo_side demo_side demo_x demo_y2
    demo_fresh demo_fresh demo_run2) as [H _].
  - apply demo_bounded. vm_compute. reflexivity.
  - exact H.
Defined.

(** After the second packet arrived alone, both are still stored. *)
Lemma undelivered_is_stored_witness :
  got demo_y1 = [] ∧
  (payloads (send_array (s_conn demo_x))
     !! (0 - Z.to_nat (buffer_start (send_array (s_conn demo_x))))%nat = Some (Some [16; 1]) ∨
   payloads (recv_array (s_conn demo_y1)) !! (0 - length (got demo_y1))%nat = Some (Some [16; 1])).
Proof.
  split; [vm_compute; reflexivity|].
  pose proof (@undelivered_is_stored toy_sodium demo_side demo_side demo_x demo_y1 0 [16; 1]
    demo_fresh demo_fresh demo_run1) as H.
  apply H.
  - apply demo_bounded. vm_compute. reflexivity.
  - vm_compute. reflexivity.
  - vm_compute. lia.
Defined.

(** The receiver's next packet acknowledges what it delivered. *)
Definition demo_y3 : side :=
  @run_act toy_sodium (Request true demo_env demo_link) demo_y2.
Definition demo_x2 : side := demo_recv (nth 0 (wire demo_y3) []) demo_x.

Lemma demo_run3 : rtc (@step toy_sodium) (demo_side, demo_side) (demo_x2, demo_y3).
Proof.
  apply rtc_r with (demo_x, demo_y3).
  - apply rtc_r with (demo_x, demo_y2); [apply demo_run2|].
    exact (step_act_r (Request true demo_env demo_link) demo_x demo_y2).
  - assert (is_Some (run_recv true demo_env true demo_x (nth 0 (wire demo_y3) []))) as [x' E]
      by (vm_compute; eauto).
    unfold demo_x2, demo_recv. rewrite E. simpl.
    refine (step_recv_l true demo_env true demo_x demo_y3 _ x' _ E).
    apply list_elem_of_In, nth_In. vm_compute. lia.
Qed.

Lemma received_means_delivered_witness :
  cryptpacket_received (s_conn demo_x2) 1 = 0 ∧ written demo_x2 !! 1%nat = got demo_y3 !! 1%nat.
Proof.
  split; [vm_compute; reflexivity|].
  pose proof (@received_means_delivered toy_sodium demo_side demo_side demo_x2 demo_y3 1
    demo_fresh demo_fresh demo_run3) as H.
  apply H.
  - unfold bounded. split; vm_compute; reflexivity.
  - vm_compute. lia.
  - vm_compute. reflexivity.
Defined.
