(* ===== verification/Nonces.v ===== *)
(** * Nonces: what encrypts and what decrypts on a connection

    Two properties of the running nonces of [toxcore/net_crypto.c]: no plain text
    is ever sealed under a nonce that was used before, and the receiver decrypts
    everything that is not reordered by more than [DATA_NUM_THRESHOLD] packets. *)
From S2P Require Import Prelude CryptoCore Network PacketsArray Handshake CryptoConnection NetCrypto Channel.

(** ** Sealing *)

Definition nonces (sent : list Sent) : list bytes :=
  omap (λ s, match s with Sealed n _ => Some n | _ => None end) sent.

(** [k] nonces in a row, from [n] on. *)
Fixpoint nonce_run (n : bytes) (k : nat) : list bytes :=
  match k with
  | O => []
  | S k' => n :: nonce_run (increment_nonce n) k'
  end.

Fixpoint nonce_add (n : bytes) (k : nat) : bytes :=
  match k with
  | O => n
  | S k' => nonce_add (increment_nonce n) k'
  end.

(** From [conn] to [conn'] the nonces used are the next ones in a row. *)
Definition nonce_step (conn conn' : Crypto_Connection) (sent : list Sent) : Prop :=
  ∃ k, nonces sent = nonce_run (sent_nonce conn) k ∧ sent_nonce conn' = nonce_add (sent_nonce conn) k.

Lemma nonces_app s1 s2 : nonces (s1 ++ s2) = nonces s1 ++ nonces s2.
Proof. apply omap_app. Qed.

Lemma nonce_run_app n j k : nonce_run n (j + k) = nonce_run n j ++ nonce_run (nonce_add n j) k.
Proof. revert n. induction j as [|j IH]; intros n; simpl; [done|]. by rewrite IH. Qed.

Lemma nonce_add_add n j k : nonce_add n (j + k) = nonce_add (nonce_add n j) k.
Proof. revert n. induction j as [|j IH]; intros n; simpl; auto. Qed.

Lemma nonce_step_same conn conn' : sent_nonce conn' = sent_nonce conn → nonce_step conn conn' [].
Proof. intros E. by exists 0%nat. Qed.

Lemma nonce_step_trans c c1 c2 s1 s2 :
  nonce_step c c1 s1 → nonce_step c1 c2 s2 → nonce_step c c2 (s1 ++ s2).
Proof.
  intros (j & N1 & E1) (k & N2 & E2). exists (j + k)%nat.
  rewrite nonces_app, N1, N2, nonce_run_app, nonce_add_add, E1. by rewrite <- E1.
Qed.

(** A step followed by assignments to other fields. *)
Lemma nonce_step_field c c1 c2 s1 :
  nonce_step c c1 s1 → sent_nonce c2 = sent_nonce c1 → nonce_step c c2 s1.
Proof. intros (k & N & E) E2. exists k. by rewrite E2. Qed.

Create HintDb nonce.
#[export] Hint Resolve nonce_step_same nonce_step_trans : nonce.

Section sealing.
Context {Sod : Sodium}.

Lemma send_packet_to_nonces env link conn data :
  let '(_, conn', sent) := send_packet_to env link conn data in
  nonces sent = [] ∧ sent_nonce conn' = sent_nonce conn.
Proof. unfold send_packet_to. repeat case_match; simplify_eq; done. Qed.

Lemma helper_nonce alloc env link conn bs num data :
  let '(_, conn', sent) := send_data_packet_helper alloc env link conn bs num data in
  nonce_step conn conn' sent.
Proof.
  unfold send_data_packet_helper. destruct (_ || _); [by apply nonce_step_same|].
  unfold send_data_packet. destruct (_ || _); [by apply nonce_step_same|].
  destruct encrypt_data_symmetric as [len enc]. destruct (negb _); [by apply nonce_step_same|].
  set (conn1 := conn <| sent_nonce := _ |>). set (packet := _ ++ _ ++ enc).
  pose proof (send_packet_to_nonces env link conn1 packet) as H.
  destruct send_packet_to as [[ret conn'] sent]. destruct H as [Hn Hs].
  exists 1%nat. split; [|exact Hs]. change (sent_nonce conn :: nonces sent = [sent_nonce conn]).
  by rewrite Hn.
Qed.

Lemma reset_max_speed_nonce alloc env link conn :
  let '(_, conn', sent) := reset_max_speed_reached alloc env link conn in
  nonce_step conn conn' sent.
Proof.
  unfold reset_max_speed_reached.
  destruct (maximum_speed_reached conn); [|by apply nonce_step_same].
  destruct get_data_pointer as [[dt|]|]; [|by apply nonce_step_same..].
  destruct (sent_time dt =? 0); [|by apply nonce_step_same].
  pose proof (helper_nonce alloc env link conn (buffer_start (recv_array conn))
    (u32 (buffer_end (send_array conn) - 1)) (pd_data dt)) as H.
  destruct send_data_packet_helper as [[ret conn1] sent].
  destruct (negb (ret =? 0)); [done|]. by eapply nonce_step_field.
Qed.

Lemma write_nonce alloc alloc_buf env l1 l2 conn data cc :
  let '(_, conn', sent) := write_cryptpacket alloc alloc_buf env l1 l2 conn data cc in
  nonce_step conn conn' sent.
Proof.
  assert (let '(_, conn', sent) := send_lossless_packet alloc alloc_buf env l1 l2 conn data cc in
    nonce_step conn conn' sent) as H.
  { unfold send_lossless_packet. destruct (_ || _); [by apply nonce_step_same|].
    pose proof (reset_max_speed_nonce alloc env l1 conn) as H1.
    destruct reset_max_speed_reached as [[r1 conn1] sent1].
    destruct (_ && cc); [done|]. destruct add_data_end_of_buffer as [[id a]|]; [|done].
    set (conn2 := conn1 <| send_array := a |>).
    assert (nonce_step conn conn2 sent1) as H2 by (by eapply nonce_step_field).
    destruct (negb cc && _); [done|].
    pose proof (helper_nonce alloc env l2 conn2 (buffer_start (recv_array conn2)) id data) as H3.
    destruct send_data_packet_helper as [[ret conn3] sent2].
    eapply nonce_step_field; [by eapply nonce_step_trans|]. repeat case_match; done. }
  unfold write_cryptpacket. destruct (zlen data =? 0); [by apply nonce_step_same|].
  destruct ((aget 0 data 0 <? _) || _); [by apply nonce_step_same|].
  destruct (negb _); [by apply nonce_step_same|]. destruct (cc && _); [by apply nonce_step_same|].
  destruct send_lossless_packet as [[ret conn1] sent].
  destruct (ret =? -1); [done|]. destruct cc; [by eapply nonce_step_field|done].
Qed.

Lemma requested_loop_nonce count alloc env link : ∀ conn i num_sent max_num,
  let '(_, conn', sent) := requested_loop count alloc env link conn i num_sent max_num in
  nonce_step conn conn' sent.
Proof.
  induction count as [|count IH]; intros conn i num_sent max_num; cbn [requested_loop];
    [by apply nonce_step_same|].
  destruct get_data_pointer as [[dt|]|]; [|apply IH|by apply nonce_step_same].
  destruct (negb (sent_time dt =? 0)); [apply IH|].
  set (num := u32 _). pose proof (helper_nonce alloc env (link i) conn (buffer_start (recv_array conn))
    num (pd_data dt)) as H1.
  destruct send_data_packet_helper as [[ret conn1] sent].
  set (next := if ret =? 0 then _ else _).
  assert (nonce_step conn next.1 sent) as H2
    by (eapply nonce_step_field; [exact H1|]; unfold next; by destruct (ret =? 0)).
  destruct next as [conn2 num_sent2]. destruct (max_num <=? num_sent2); [done|].
  specialize (IH conn2 (i + 1) num_sent2 max_num).
  destruct requested_loop as [[r conn3] sent']. by eapply nonce_step_trans.
Qed.

Lemma act_nonce a conn :
  let '(_, conn', sent) := act_op a conn in nonce_step conn conn' sent.
Proof.
  destruct a as [alloc alloc_buf env l1 l2 d cc|alloc env l d|alloc env l|alloc env l n]; simpl.
  - apply write_nonce.
  - unfold send_lossy_cryptpacket. destruct (_ || _); [by apply nonce_step_same|].
    destruct ((aget 0 d 0 <? _) || _); [by apply nonce_step_same|]. apply helper_nonce.
  - unfold send_request_packet. destruct generate_request_packet; [|by apply nonce_step_same].
    apply helper_nonce.
  - unfold send_requested_packets. destruct (n =? 0); [by apply nonce_step_same|].
    apply requested_loop_nonce.
Qed.

(** A sequence of operations, with everything they send. *)
Fixpoint run_acts (acts : list act) (conn : Crypto_Connection) : Crypto_Connection * list Sent :=
  match acts with
  | [] => (conn, [])
  | a :: acts' =>
      let '(_, conn, sent) := act_op a conn in
      let '(conn, sent') := run_acts acts' conn in
      (conn, sent ++ sent')
  end.

Lemma run_acts_nonce acts : ∀ conn, nonce_step conn (run_acts acts conn).1 (run_acts acts conn).2.
Proof.
  induction acts as [|a acts IH]; intros conn; simpl; [by apply nonce_step_same|].
  pose proof (act_nonce a conn) as H. destruct act_op as [[ret conn1] sent].
  specialize (IH conn1). destruct run_acts as [conn2 sent']. by eapply nonce_step_trans.
Qed.
End sealing.

(** The numbers of consecutive nonces. *)
Lemma increment_nonce_nonce_ok n : nonce_ok n → nonce_ok (increment_nonce n).
Proof. intros [Hl _]. by apply increment_nonce_ok. Qed.

Lemma nonce_run_val k : ∀ n i m,
  nonce_ok n → nonce_run n k !! i = Some m →
  be_val m = (be_val n + Z.of_nat i) mod 2 ^ 192.
Proof.
  induction k as [|k IH]; intros n i m Hn Hi; [done|]. destruct i as [|i]; simpl in Hi.
  - simplify_eq. rewrite Z.add_0_r. symmetry. apply Z.mod_small.
    unfold be_val. destruct Hn as [Hl Hb]. pose proof (le_val_range (rev m) (Forall_rev Hb)) as H.
    unfold zlen in *. rewrite length_rev, Hl in H. change (256 ^ 24) with (2 ^ 192) in H. lia.
  - rewrite (IH _ _ _ (increment_nonce_nonce_ok n Hn) Hi), increment_nonce_val by apply Hn.
    rewrite Z.add_mod_idemp_l by lia. f_equal. lia.
Qed.

Lemma nonce_run_NoDup n k :
  nonce_ok n → Z.of_nat k <= 2 ^ 192 → NoDup (nonce_run n k).
Proof.
  intros Hn Hk. apply NoDup_alt. intros i j m Hi Hj.
  assert (∀ l n', length (nonce_run n' l) = l) as Hlen by (induction l; intros; simpl; auto).
  pose proof (lookup_lt_Some _ _ _ Hi). pose proof (lookup_lt_Some _ _ _ Hj). rewrite Hlen in *.
  apply nonce_run_val in Hi, Hj; [|done..]. rewrite Hi in Hj.
  set (v := be_val n) in *.
  assert ((Z.of_nat i - Z.of_nat j) mod 2 ^ 192 = 0) as E.
  { replace (Z.of_nat i - Z.of_nat j) with ((v + Z.of_nat i) - (v + Z.of_nat j)) by lia.
    by rewrite Zminus_mod, Hj, Z.sub_diag. }
  apply Z.mod_divide in E as [q Hq]; [|lia].
  destruct (Z.eq_dec q 0); [lia|]. nia.
Qed.

(** C15: No nonce is used twice: over any sequence of lossless, lossy, request and
    retransmission sends on a connection, whatever fails on the way, all plain
    texts are sealed under different nonces. *)
Theorem nonces_never_repeat {Sod : Sodium} acts conn :
  nonce_ok (sent_nonce conn) →
  zlen (nonces (run_acts acts conn).2) <= 2 ^ 192 →
  NoDup (nonces (run_acts acts conn).2).
Proof.
  intros Hn Hl. destruct (run_acts_nonce acts conn) as (k & E & _). rewrite E in *.
  apply nonce_run_NoDup; [done|].
  assert (∀ l n', length (nonce_run n' l) = l) as Hlen by (induction l; intros; simpl; auto).
  unfold zlen in Hl. by rewrite Hlen in Hl.
Qed.

Lemma nonces_never_repeat_witness :
  let w := Write true true demo_env demo_link demo_link [16] true in
  let ns := nonces (@run_acts toy_sodium [w; Request true demo_env demo_link; w] demo_conn).2 in
  length ns = 3%nat ∧ NoDup ns.
Proof.
  intros w ns. split; [vm_compute; reflexivity|].
  apply (@nonces_never_repeat toy_sodium [w; Request true demo_env demo_link; w] demo_conn).
  - split; [vm_compute; reflexivity|]. apply zeros_ok.
  - vm_compute. discriminate.
Defined.

(** ** Receiving *)

Section window.
Context {Sod : Sodium} {L : SodiumLaws Sod}.

(** The packets in the order they arrive. *)
Fixpoint recv_all (conn : Crypto_Connection) (packets : list bytes)
    : list (option bytes) * Crypto_Connection :=
  match packets with
  | [] => ([], conn)
  | p :: packets' =>
      let '(r, conn) := handle_data_packet true conn p in
      let '(rs, conn) := recv_all conn packets' in
      (r :: rs, conn)
  end.

(** A packet as its sender numbers it: [pk_count] sends after the nonce the
    receiver started with. *)
Record numbered := mkNumbered {
  pk_count : Z;
  pk_nonce : bytes;
  pk_data : bytes
}.

Definition numbered_ok (n0 : bytes) (p : numbered) : Prop :=
  nonce_ok (pk_nonce p) ∧ be_val (pk_nonce p) = (be_val n0 + pk_count p) mod 2 ^ 192 ∧
  0 < zlen (pk_data p) <= MAX_CRYPTO_PACKET_SIZE - (1 + 2 + CRYPTO_MAC_SIZE).

(** No packet is more than [DATA_NUM_THRESHOLD] ahead of or behind the newest
    one received before it. *)
Fixpoint tolerable (newest : Z) (counts : list Z) : Prop :=
  match counts with
  | [] => True
  | c :: counts' =>
      0 <= c ∧ newest - DATA_NUM_THRESHOLD <= c <= newest + DATA_NUM_THRESHOLD ∧
      tolerable (Z.max newest c) counts'
  end.

Lemma recv_all_window n0 key ps : ∀ conn base newest,
  Forall (numbered_ok n0) ps → tolerable newest (pk_count <$> ps) →
  shared_key conn = key → nonce_ok (recv_nonce conn) →
  be_val (recv_nonce conn) = (be_val n0 + base) mod 2 ^ 192 →
  (base = 0 ∨ base <= newest - DATA_NUM_THRESHOLD) → 0 <= base → base <= newest →
  newest - base <= 2 * DATA_NUM_THRESHOLD →
  (recv_all conn ((λ p, data_packet key (pk_nonce p) (pk_data p)) <$> ps)).1
  = (Some ∘ pk_data) <$> ps.
Proof using L.
  induction ps as [|p ps IH]; intros conn base newest Hps Ht Hk Hn Hb Hlow H0 Hle Hspan; [done|].
  inversion Hps as [|? ? Hp Hps']; subst. destruct Ht as (Hc0 & Hc & Ht).
  destruct Hp as (Hpn & Hpv & Hpl). cbn [fmap list_fmap recv_all].
  unfold DATA_NUM_THRESHOLD in *.
  rewrite (handle_data_packet_ok conn (pk_nonce p) (pk_data p) (pk_count p - base)); [|done|done| |lia|done].
  2: { rewrite Hpv, Hb, Z.add_mod_idemp_l by lia. f_equal. lia. }
  set (conn1 := if _ <? _ then _ else conn).
  specialize (IH conn1 (if 21845 * 2 <? pk_count p - base then base + 21845 else base)
    (Z.max newest (pk_count p)) Hps' Ht).
  assert (nonce_ok (recv_nonce conn1) ∧ shared_key conn1 = shared_key conn ∧
    be_val (recv_nonce conn1)
    = (be_val n0 + (if 21845 * 2 <? pk_count p - base then base + 21845 else base)) mod 2 ^ 192)
    as (I1 & I2 & I3).
  { unfold conn1, DATA_NUM_THRESHOLD. destruct (21845 * 2 <? pk_count p - base); [|done]. split_and!.
    - apply increment_nonce_number_ok, Hn.
    - done.
    - change (be_val (increment_nonce_number (recv_nonce conn) 21845)
        = (be_val n0 + (base + 21845)) mod 2 ^ 192).
      rewrite increment_nonce_number_val by (apply Hn || unfold is_u32; lia).
      rewrite Hb, Z.add_mod_idemp_l by lia. f_equal. lia. }
  specialize (IH I2 I1 I3).
  destruct (recv_all conn1 _) as [rs conn2]. simpl in *. f_equal.
  apply IH; destruct (21845 * 2 <? pk_count p - base) eqn:?; lia.
Qed.

(** C16: The receiver decrypts every packet that is neither more than
    [DATA_NUM_THRESHOLD] ahead of nor more than that behind the newest packet
    received before it, through any number of moves of its base nonce and any
    wrap-around of the 16-bit nonce number a packet carries. *)
Theorem reordered_packets_decrypt conn ps :
  nonce_ok (recv_nonce conn) → Forall (numbered_ok (recv_nonce conn)) ps →
  tolerable 0 (pk_count <$> ps) →
  (recv_all conn ((λ p, data_packet (shared_key conn) (pk_nonce p) (pk_data p)) <$> ps)).1
  = (Some ∘ pk_data) <$> ps.
Proof using L.
  intros Hn Hps Ht. apply (recv_all_window (recv_nonce conn) _ _ _ 0 0); auto; try lia.
  - rewrite Z.add_0_r. symmetry. apply Z.mod_small.
    unfold be_val. destruct Hn as [Hl Hb]. pose proof (le_val_range (rev (recv_nonce conn)) (Forall_rev Hb)) as H.
    unfold zlen in *. rewrite length_rev, Hl in H. change (256 ^ 24) with (2 ^ 192) in H. lia.
  - unfold DATA_NUM_THRESHOLD. lia.
Qed.
End window.

(** Packets 40000 sends apart, the later ones first where that is tolerable. *)
Lemma reordered_packets_decrypt_witness :
  let n c := rev (le_bytes 24 (be_val (zeros 24) + c)) in
  let ps := [mkNumbered 20000 (n 20000) [1]; mkNumbered 41000 (n 41000) [2];
             mkNumbered 60000 (n 60000) [3]; mkNumbered 39000 (n 39000) [4]] in
  let conn := empty_crypto_connection in
  (@recv_all toy_sodium conn
     ((λ p, @data_packet toy_sodium (shared_key conn) (pk_nonce p) (pk_data p)) <$> ps)).1
  = [Some [1]; Some [2]; Some [3]; Some [4]].
Proof.
  intros n ps conn.
  rewrite (@reordered_packets_decrypt toy_sodium toy_sodium_laws conn ps).
  - reflexivity.
  - split; [reflexivity|]. apply zeros_ok.
  - assert (∀ c d, 0 <= c < 2 ^ 100 → 0 < zlen d <= 1381 →
      numbered_ok (recv_nonce conn) (mkNumbered c (n c) d)) as H.
    { intros c d Hc Hd. unfold numbered_ok, n. cbn [pk_nonce pk_count pk_data]. split_and!; try lia.
      - split; [unfold zlen; by rewrite length_rev, length_le_bytes|]. apply Forall_rev, le_bytes_ok.
      - unfold be_val at 1. rewrite rev_involutive.
        change (be_val (zeros 24)) with 0. change (be_val (recv_nonce conn)) with 0.
        rewrite le_val_bytes by (change (256 ^ Z.of_nat 24) with (2 ^ 192); lia).
        symmetry. apply Z.mod_small. lia.
      - unfold MAX_CRYPTO_PACKET_SIZE, CRYPTO_MAC_SIZE. lia. }
    unfold ps. do 4 (apply Forall_cons; [apply H; unfold zlen; simpl; lia|]). apply Forall_nil.
  - unfold tolerable, DATA_NUM_THRESHOLD, ps. simpl. lia.
Defined.
