(* ===== verification/FriendRequests.v ===== *)
(** * FriendRequests: incoming friend requests, [toxcore/friend_requests.c]

    A request is shown to the user when it carries our nospam number, passes the
    filter, and its sender is not among the last [MAX_RECEIVED_STORED] senders
    whose request was shown. *)
From S2P Require Import Prelude CryptoCore.

(** ** Definitions *)

Definition MAX_RECEIVED_STORED : Z := 32.
Definition ONION_CLIENT_MAX_DATA_SIZE : Z := 1021.

(** The callback and the filter are functions of the sender's key; the filter
    returns 0 for an acceptable sender. *)
Record Friend_Requests := mkFR {
  nospam : Z;
  handle_friendrequest_isset : bool;
  filter_function : option (bytes → Z);
  fr_requests : list bytes;
  fr_requests_index : Z
}.

Definition friendreq_new : Friend_Requests :=
  mkFR 0 false None (replicate (Z.to_nat MAX_RECEIVED_STORED) (zeros CRYPTO_PUBLIC_KEY_SIZE)) 0.

Definition set_nospam (fr : Friend_Requests) (num : Z) : Friend_Requests :=
  mkFR num (handle_friendrequest_isset fr) (filter_function fr) (fr_requests fr) (fr_requests_index fr).
Definition get_nospam (fr : Friend_Requests) : Z := nospam fr.

Definition callback_friendrequest (fr : Friend_Requests) : Friend_Requests :=
  mkFR (nospam fr) true (filter_function fr) (fr_requests fr) (fr_requests_index fr).

Definition set_filter_function (fr : Friend_Requests) (f : option (bytes → Z)) : Friend_Requests :=
  mkFR (nospam fr) (handle_friendrequest_isset fr) f (fr_requests fr) (fr_requests_index fr).

Definition addto_receivedlist (fr : Friend_Requests) (real_pk : bytes) : Friend_Requests :=
  let i := if MAX_RECEIVED_STORED <=? fr_requests_index fr then 0 else fr_requests_index fr in
  mkFR (nospam fr) (handle_friendrequest_isset fr) (filter_function fr)
    (aset (fr_requests fr) i real_pk) (u16 (i + 1)).

Definition request_received (fr : Friend_Requests) (real_pk : bytes) : bool :=
  existsb (λ k, pk_equal k real_pk) (fr_requests fr).

(** The loop of [remove_request_received]. *)
Fixpoint clear_first (real_pk : bytes) (l : list bytes) : option (list bytes) :=
  match l with
  | [] => None
  | k :: l' =>
      if pk_equal k real_pk then Some (zeros CRYPTO_PUBLIC_KEY_SIZE :: l')
      else l'' ← clear_first real_pk l'; Some (k :: l'')
  end.

Definition remove_request_received (fr : Friend_Requests) (real_pk : bytes) : Z * Friend_Requests :=
  match clear_first real_pk (fr_requests fr) with
  | None => (-1, fr)
  | Some l => (0, mkFR (nospam fr) (handle_friendrequest_isset fr) (filter_function fr) l
                    (fr_requests_index fr))
  end.

(** The return value, the new state, and the message passed to the callback with
    its length; the terminating zero byte is not part of the length. *)
Definition friendreq_handlepacket (fr : Friend_Requests) (source_pubkey packet : bytes)
    : Z * Friend_Requests * option (bytes * Z) :=
  if (zlen packet <=? 1 + 4) || (ONION_CLIENT_MAX_DATA_SIZE <? zlen packet) then (1, fr, None)
  else
    let packet := drop 1 packet in
    if negb (handle_friendrequest_isset fr) then (1, fr, None)
    else if request_received fr source_pubkey then (1, fr, None)
    else if negb (memcmp (slice 0 4 packet) (le_bytes 4 (nospam fr)) =? 0) then (1, fr, None)
    else if match filter_function fr with
            | Some f => negb (f source_pubkey =? 0)
            | None => false
            end then (1, fr, None)
    else
      let fr := addto_receivedlist fr source_pubkey in
      let message_len := zlen packet - 4 in
      let message := slice 4 message_len packet ++ [0] in
      (0, fr, Some (message, message_len)).

(** ** Lemmas *)

Lemma request_received_spec fr pk : request_received fr pk = true ↔ pk ∈ fr_requests fr.
Proof.
  unfold request_received. rewrite existsb_exists. unfold pk_equal, bytes_eqb. split.
  - intros (k & Hk & E). apply bool_decide_eq_true in E. subst. by apply list_elem_of_In.
  - intros H. exists pk. rewrite bool_decide_eq_true. split; [by apply list_elem_of_In|done].
Qed.

(** The senders shown so far, newest first, against the stored ring. *)
Record ring_ok (fr : Friend_Requests) (shown : list bytes) : Prop := {
  ro_len : length (fr_requests fr) = 32%nat;
  ro_index : 0 <= fr_requests_index fr <= 32;
  ro_ring : ∀ j k, (j < 32)%nat → shown !! j = Some k →
    fr_requests fr !! Z.to_nat ((fr_requests_index fr - 1 - Z.of_nat j) mod 32) = Some k
}.

Lemma ring_ok_add fr shown pk :
  ring_ok fr shown → ring_ok (addto_receivedlist fr pk) (pk :: shown).
Proof.
  intros [Hl Hi Hr]. unfold addto_receivedlist, MAX_RECEIVED_STORED.
  set (i := if 32 <=? fr_requests_index fr then 0 else fr_requests_index fr).
  assert (0 <= i < 32) as Hi' by (unfold i; destruct (32 <=? _) eqn:?; lia).
  assert (i mod 32 = fr_requests_index fr mod 32) as Ei.
  { unfold i. destruct (32 <=? fr_requests_index fr) eqn:?; [|done].
    by replace (fr_requests_index fr) with 32 by lia. }
  rewrite u16_small by lia. split; cbn [fr_requests fr_requests_index].
  - by rewrite length_aset.
  - lia.
  - intros j k Hj Hk. unfold aset. destruct j as [|j]; simpl in Hk.
    + simplify_eq. replace ((i + 1 - 1 - Z.of_nat 0) mod 32) with i by wrap_lia.
      apply list_lookup_insert_eq. lia.
    + rewrite list_lookup_insert_ne by wrap_lia. rewrite <- (Hr j k) by (done || lia).
      do 2 f_equal. wrap_lia.
Qed.

Lemma handlepacket_cases fr pk packet :
  let '(ret, fr', shown) := friendreq_handlepacket fr pk packet in
  (ret = 1 ∧ fr' = fr ∧ shown = None) ∨
  (ret = 0 ∧ fr' = addto_receivedlist fr pk ∧ request_received fr pk = false ∧ is_Some shown).
Proof. unfold friendreq_handlepacket. repeat case_match; simplify_eq; eauto 10. Qed.

(** Packets in the order they arrive, and the senders shown to the user, newest
    first. *)
Fixpoint handle_all (fr : Friend_Requests) (packets : list (bytes * bytes)) (shown : list bytes)
    : Friend_Requests * list bytes :=
  match packets with
  | [] => (fr, shown)
  | (pk, packet) :: packets' =>
      let '(ret, fr, _) := friendreq_handlepacket fr pk packet in
      handle_all fr packets' (if ret =? 0 then pk :: shown else shown)
  end.

Lemma handle_all_ok packets : ∀ fr shown,
  ring_ok fr shown → (∀ n, NoDup (take 32 (drop n shown))) →
  let '(fr', shown') := handle_all fr packets shown in
  ring_ok fr' shown' ∧ ∀ n, NoDup (take 32 (drop n shown')).
Proof.
  induction packets as [|[pk packet] packets IH]; intros fr shown Hr Hnd; [done|]. cbn [handle_all].
  pose proof (handlepacket_cases fr pk packet) as H.
  destruct friendreq_handlepacket as [[ret fr'] m].
  destruct H as [(-> & -> & _)|(-> & -> & Hnew & _)]; cbn [Z.eqb]; apply IH; auto.
  - by apply ring_ok_add.
  - intros [|n]; simpl; [|apply Hnd]. apply list.NoDup_cons. split.
    + intros Hin. apply list_elem_of_lookup in Hin as [j Hj].
      apply lookup_take_Some in Hj as [Hj Hlt].
      assert (request_received fr pk = true) as E; [|congruence].
      apply request_received_spec. apply list_elem_of_lookup.
      eexists. apply (ro_ring fr shown Hr j pk); [lia|done].
    + specialize (Hnd 0%nat). rewrite drop_0 in Hnd.
      eapply sublist_NoDup; [exact Hnd|]. replace 31%nat with (31 `min` 32)%nat by lia.
      rewrite <- take_take. apply sublist_take.
Qed.

(** ** Theorems *)

(** However many requests arrive, from whomever and in whatever order, no
    sender is shown to the user twice among any 32 consecutive requests shown. *)
Theorem friend_requests_not_repeated nospam_value filter packets n :
  let fr := set_filter_function (callback_friendrequest (set_nospam friendreq_new nospam_value)) filter in
  NoDup (take 32 (drop n (handle_all fr packets []).2)).
Proof.
  intros fr. pose proof (handle_all_ok packets fr []) as H.
  destruct (handle_all fr packets []) as [fr' shown]. apply H.
  - by split; [|simpl|].
  - intros m. rewrite drop_nil. constructor.
Qed.

(** A request is shown exactly when it is long enough and not too long, a
    callback is set, the sender is not among the stored ones, the four bytes
    behind the packet id are our nospam number, and the filter accepts the
    sender; the message shown is the rest of the packet, zero-terminated. *)
Theorem friend_request_shown_iff fr pk id ns msg m :
  zlen ns = 4 →
  (friendreq_handlepacket fr pk ([id] ++ ns ++ msg)).2 = Some m ↔
  0 < zlen msg <= ONION_CLIENT_MAX_DATA_SIZE - 5 ∧
  handle_friendrequest_isset fr = true ∧ pk ∉ fr_requests fr ∧
  ns = le_bytes 4 (nospam fr) ∧
  (∀ f, filter_function fr = Some f → f pk = 0) ∧
  m = (msg ++ [0], zlen msg).
Proof.
  intros Hns. set (p := [id] ++ ns ++ msg). pose proof (zlen_nonneg msg) as Hm.
  assert (zlen p = zlen msg + 5) as Hp by (unfold p; zlens).
  assert (slice 0 4 (drop 1 p) = ns) as E1 by (unfold p; simpl; by apply slice_app_l).
  assert (slice 4 (zlen (drop 1 p) - 4) (drop 1 p) = msg ∧ zlen (drop 1 p) - 4 = zlen msg) as [E2 E3].
  { change (drop 1 p) with (ns ++ msg). rewrite zlen_app, Hns. split; [|lia].
    rewrite slice_app_r by lia. apply slice_whole; lia. }
  unfold friendreq_handlepacket. rewrite E1, E2, E3, Hp. unfold ONION_CLIENT_MAX_DATA_SIZE.
  assert ((memcmp ns (le_bytes 4 (nospam fr)) =? 0) = bool_decide (ns = le_bytes 4 (nospam fr))) as ->.
  { apply eq_bool_prop_intro. rewrite bool_decide_spec, Is_true_true, Z.eqb_eq. apply memcmp_eq_iff.
    rewrite length_le_bytes. unfold zlen in Hns. lia. }
  rewrite <- request_received_spec, not_true_iff_false.
  destruct ((_ <=? 1 + 4) || _) eqn:Hlen; [split; [done|lia]|].
  destruct (handle_friendrequest_isset fr); [|naive_solver].
  destruct (request_received fr pk); [naive_solver|].
  case_bool_decide; [|naive_solver]. cbn [negb].
  destruct (filter_function fr) as [f|].
  - destruct (f pk =? 0) eqn:Hf; cbn [negb snd].
    + split; [intros; simplify_eq; split_and!; auto; try lia; intros; simplify_eq; lia|naive_solver].
    + split; [done|]. intros (_ & _ & _ & _ & H1 & _). specialize (H1 f eq_refl). lia.
  - cbn [snd]. split; [intros; simplify_eq; split_and!; auto; try lia; done|naive_solver].
Qed.

Lemma friend_request_shown_iff_witness :
  (friendreq_handlepacket (callback_friendrequest (set_nospam friendreq_new 258)) [7]
     ([32] ++ [2; 1; 0; 0] ++ [104; 105])).2 = Some ([104; 105; 0], 2).
Proof.
  apply (friend_request_shown_iff _ [7] 32 [2; 1; 0; 0] [104; 105]); [reflexivity|].
  unfold ONION_CLIENT_MAX_DATA_SIZE. split; [unfold zlen; simpl; lia|].
  split; [reflexivity|]. split.
  - rewrite <- request_received_spec. vm_compute. discriminate.
  - split; [reflexivity|]. split; [|reflexivity]. intros f Hf. vm_compute in Hf. discriminate.
Defined.
