(* ===== verification/RingBuffer.v ===== *)
(** * RingBuffer: the pointer queue of [toxav/ring_buffer.c]

    A ring with one slot kept empty; a write into a full ring drops the oldest
    element and hands it back.  Pointers are numbers, 0 is the null pointer.  The
    ring is proved to behave as a bounded queue on lists. *)
From S2P Require Import Prelude.

(** ** Definitions *)

Record RingBuffer := mkRB {
  rb_size_ : Z;
  rb_start : Z;
  rb_end : Z;
  rb_type : list Z;
  rb_ptrs : list Z
}.

Definition rb_full (b : RingBuffer) : bool := (rb_end b + 1) mod rb_size_ b =? rb_start b.
Definition rb_empty (b : RingBuffer) : bool := rb_end b =? rb_start b.

Definition rb_write (b : RingBuffer) (p data_type : Z) : Z * RingBuffer :=
  let rc := if (rb_end b + 1) mod rb_size_ b =? rb_start b then aget 0 (rb_ptrs b) (rb_start b) else 0 in
  let data := aset (rb_ptrs b) (rb_end b) p in
  let type := aset (rb_type b) (rb_end b) data_type in
  let end' := u16 ((rb_end b + 1) mod rb_size_ b) in
  let start' := if end' =? rb_start b then u16 ((rb_start b + 1) mod rb_size_ b) else rb_start b in
  (rc, mkRB (rb_size_ b) start' end' type data).

(** The pointer and its type, [None] when there is nothing to read. *)
Definition rb_read (b : RingBuffer) : option (Z * Z) * RingBuffer :=
  if rb_end b =? rb_start b then (None, b)
  else (Some (aget 0 (rb_ptrs b) (rb_start b), aget 0 (rb_type b) (rb_start b)),
        mkRB (rb_size_ b) (u16 ((rb_start b + 1) mod rb_size_ b)) (rb_end b) (rb_type b) (rb_ptrs b)).

(** [alloc], [alloc_data] and [alloc_type] are the three allocations. *)
Definition rb_new (alloc alloc_data alloc_type : bool) (size : Z) : option RingBuffer :=
  if negb alloc then None
  else
    let n := u16 (size + 1) in
    if negb alloc_data then None
    else if negb alloc_type then None
    else Some (mkRB n 0 0 (replicate (Z.to_nat n) 0) (replicate (Z.to_nat n) 0)).

Definition rb_size (b : RingBuffer) : Z :=
  if rb_empty b then 0
  else u16 (if rb_start b <? rb_end b then rb_end b - rb_start b
            else (rb_size_ b - rb_start b) + rb_end b).

(** The pointers [rb_data] copies to [dest]. *)
Fixpoint rb_data_loop (count : nat) (b : RingBuffer) (i : Z) : list Z :=
  match count with
  | O => []
  | S count' =>
      aget 0 (rb_ptrs b) ((rb_start b + i) mod rb_size_ b) :: rb_data_loop count' b (u16 (i + 1))
  end.

Definition rb_data (b : RingBuffer) : list Z := rb_data_loop (Z.to_nat (rb_size b)) b 0.

(** ** The queue *)

Record rb_wf (b : RingBuffer) : Prop := {
  rb_wf_size : 2 <= rb_size_ b < 2 ^ 16;
  rb_wf_start : 0 <= rb_start b < rb_size_ b;
  rb_wf_end : 0 <= rb_end b < rb_size_ b;
  rb_wf_data : zlen (rb_ptrs b) = rb_size_ b;
  rb_wf_type : zlen (rb_type b) = rb_size_ b
}.

(** The elements from position [s] on, as pairs of pointer and type. *)
Fixpoint elements (size : Z) (data type : list Z) (s : Z) (n : nat) : list (Z * Z) :=
  match n with
  | O => []
  | S n' => (aget 0 data s, aget 0 type s) :: elements size data type ((s + 1) mod size) n'
  end.

Definition queue (b : RingBuffer) : list (Z * Z) :=
  elements (rb_size_ b) (rb_ptrs b) (rb_type b) (rb_start b)
    (Z.to_nat ((rb_end b - rb_start b) mod rb_size_ b)).

Lemma length_elements size data type n : ∀ s, length (elements size data type s n) = n.
Proof. induction n; simpl; auto. Qed.

(** A slot outside of the range does not matter. *)
Lemma elements_aset_out size data type s n e x t :
  0 <= s < size → 0 <= e < size → Z.of_nat n <= (e - s) mod size →
  elements size (aset data e x) (aset type e t) s n = elements size data type s n.
Proof.
  revert s. induction n as [|n IH]; intros s Hs He Hn; [done|]. cbn [elements].
  assert (s ≠ e) as Hne by (intros ->; rewrite Z.sub_diag, Zmod_0_l in Hn; lia).
  rewrite !aget_aset_ne by lia. f_equal. apply IH; [wrap_lia|done|].
  assert ((e - (s + 1) mod size) mod size = (e - s) mod size - 1) as ->; [|lia].
  destruct (Z.eq_dec (s + 1) size).
  - replace ((s + 1) mod size) with 0 by (subst; by rewrite Z_mod_same_full).
    rewrite (Z.mod_small (e - 0)) by lia.
    replace (e - s) with (e + 1 + (-1) * size) by lia. rewrite Z_mod_plus_full.
    rewrite Z.mod_small; lia.
  - rewrite (Z.mod_small (s + 1)) by lia. destruct (Z_lt_le_dec e s).
    + replace (e - (s + 1)) with (e - (s + 1) + size + (-1) * size) by lia.
      replace (e - s) with (e - s + size + (-1) * size) by lia.
      rewrite !Z_mod_plus_full, !Z.mod_small by lia. lia.
    + rewrite !Z.mod_small by lia. lia.
Qed.

Lemma elements_snoc size data type n : ∀ s, 0 < size → 0 <= s < size →
  elements size data type s (S n)
  = elements size data type s n ++ [(aget 0 data ((s + Z.of_nat n) mod size),
                                     aget 0 type ((s + Z.of_nat n) mod size))].
Proof.
  induction n as [|n IH]; intros s Hp Hs.
  - simpl. by rewrite Z.add_0_r, Z.mod_small.
  - change (elements size data type s (S (S n))) with
      ((aget 0 data s, aget 0 type s) :: elements size data type ((s + 1) mod size) (S n)).
    rewrite IH by (try apply Z.mod_pos_bound; lia). simpl.
    replace (((s + 1) mod size + Z.of_nat n) mod size) with ((s + Z.of_nat (S n)) mod size); [done|].
    rewrite Z.add_mod_idemp_l by lia. f_equal. lia.
Qed.

(** Positions and distances on the ring, without [mod]. *)
Lemma dist_cases size s e : 0 <= s < size → 0 <= e < size →
  (e - s) mod size = if s <=? e then e - s else e - s + size.
Proof.
  intros. destruct (s <=? e) eqn:?; [apply Z.mod_small; lia|].
  rewrite <- (Z_mod_plus_full _ 1), Z.mul_1_l. apply Z.mod_small. lia.
Qed.

Lemma succ_cases size s : 0 <= s < size → (s + 1) mod size = if s + 1 =? size then 0 else s + 1.
Proof.
  intros. destruct (s + 1 =? size) eqn:?; [|apply Z.mod_small; lia].
  replace (s + 1) with size by lia. by rewrite Z_mod_same_full.
Qed.

Lemma length_queue b : rb_wf b →
  zlen (queue b) = if rb_start b <=? rb_end b then rb_end b - rb_start b
                   else rb_end b - rb_start b + rb_size_ b.
Proof.
  intros [Hz Hs He _ _]. unfold queue, zlen. rewrite length_elements, dist_cases by done.
  destruct (_ <=? _) eqn:?; lia.
Qed.

Lemma rb_size_queue b : rb_wf b → rb_size b = zlen (queue b).
Proof.
  intros Hw. rewrite length_queue by done. destruct Hw as [Hz Hs He _ _].
  unfold rb_size, rb_empty. repeat (match goal with |- context [if ?b then _ else _] => destruct b eqn:? end);
    try rewrite u16_small; lia.
Qed.

Lemma rb_full_queue b : rb_wf b → rb_full b = (zlen (queue b) =? rb_size_ b - 1).
Proof.
  intros Hw. rewrite length_queue by done. destruct Hw as [Hz Hs He _ _].
  unfold rb_full. rewrite succ_cases by done.
  repeat (match goal with |- context [if ?b then _ else _] => destruct b eqn:? end); lia.
Qed.

Lemma rb_empty_queue b : rb_wf b → rb_empty b = true ↔ queue b = [].
Proof.
  intros Hw. rewrite <- length_zero_iff_nil. pose proof (length_queue b Hw) as Hl.
  destruct Hw as [Hz Hs He _ _]. unfold zlen in Hl. unfold rb_empty.
  destruct (rb_start b <=? rb_end b) eqn:?; lia.
Qed.

Lemma queue_cons b n : Z.to_nat ((rb_end b - rb_start b) mod rb_size_ b) = S n →
  queue b = (aget 0 (rb_ptrs b) (rb_start b), aget 0 (rb_type b) (rb_start b))
            :: elements (rb_size_ b) (rb_ptrs b) (rb_type b) ((rb_start b + 1) mod rb_size_ b) n.
Proof. intros E. unfold queue. by rewrite E. Qed.

Lemma rb_read_queue b : rb_wf b →
  let '(r, b') := rb_read b in
  rb_wf b' ∧ rb_size_ b' = rb_size_ b ∧
  match queue b with
  | [] => r = None ∧ queue b' = []
  | x :: q => r = Some x ∧ queue b' = q
  end.
Proof.
  intros Hw. unfold rb_read. pose proof (rb_empty_queue b Hw) as He. unfold rb_empty in He.
  destruct (rb_end b =? rb_start b) eqn:E; [by rewrite (proj1 He)|].
  destruct Hw as [Hz Hs Hend Hd Ht].
  pose proof (dist_cases (rb_size_ b) (rb_start b) (rb_end b) Hs Hend) as Hdist.
  destruct (Z.to_nat ((rb_end b - rb_start b) mod rb_size_ b)) as [|n] eqn:En.
  { destruct (rb_start b <=? rb_end b) eqn:?; lia. }
  rewrite (queue_cons b n En). pose proof (succ_cases (rb_size_ b) (rb_start b) Hs) as Hsucc.
  assert (0 <= (rb_start b + 1) mod rb_size_ b < rb_size_ b) as Hr by (apply Z.mod_pos_bound; lia).
  rewrite u16_small by lia. split; [by split|]. split; [done|]. split; [done|]. unfold queue.
  cbn [rb_size_ rb_start rb_end rb_ptrs rb_type]. f_equal.
  rewrite dist_cases by done. rewrite Hsucc in *.
  destruct (rb_start b + 1 =? rb_size_ b) eqn:?, (rb_start b <=? rb_end b) eqn:?;
    repeat (match goal with |- context [if ?b then _ else _] => destruct b eqn:? end); lia.
Qed.

(** A new element sits at the end of the range that starts at any [s]. *)
Lemma elements_write size data type e s n p t :
  0 <= s < size → 0 <= e < size → zlen data = size → zlen type = size → (e - s) mod size = Z.of_nat n →
  elements size (aset data e p) (aset type e t) s (S n) = elements size data type s n ++ [(p, t)].
Proof.
  intros Hs He Hd Ht Hn. assert (Z.of_nat n < size) by (rewrite <- Hn; apply Z.mod_pos_bound; lia).
  rewrite elements_snoc by lia. rewrite elements_aset_out by lia. do 3 f_equal;
  replace ((s + Z.of_nat n) mod size) with e
    by (rewrite <- Hn, Z.add_mod_idemp_r, Zplus_minus, Z.mod_small; lia);
  apply aget_aset_eq; lia.
Qed.

(** Moving the end by one makes the distance to it one larger. *)
Lemma dist_step size s e :
  0 <= s < size → 0 <= e < size → s ≠ (e + 1) mod size → ((e + 1) mod size - s) mod size = (e - s) mod size + 1.
Proof.
  intros Hs He Hne. assert (0 <= (e + 1) mod size < size) by (apply Z.mod_pos_bound; lia).
  rewrite !dist_cases by done. rewrite succ_cases in * by done.
  destruct (e + 1 =? size) eqn:?;
    repeat (match goal with |- context [if ?b then _ else _] => destruct b eqn:? end); lia.
Qed.

(** A write appends; into a full queue it drops and returns the oldest element. *)
Lemma rb_write_queue b p t : rb_wf b →
  let '(rc, b') := rb_write b p t in
  rb_wf b' ∧ rb_size_ b' = rb_size_ b ∧
  if zlen (queue b) =? rb_size_ b - 1
  then rc = (default (0, 0) (head (queue b))).1 ∧ queue b' = tail (queue b) ++ [(p, t)]
  else rc = 0 ∧ queue b' = queue b ++ [(p, t)].
Proof.
  intros Hw. rewrite <- rb_full_queue by done. unfold rb_write, rb_full.
  destruct Hw as [Hz Hs He Hd Ht].
  assert (0 <= (rb_end b + 1) mod rb_size_ b < rb_size_ b) as Hr by (apply Z.mod_pos_bound; lia).
  assert (0 <= (rb_start b + 1) mod rb_size_ b < rb_size_ b) as Hr' by (apply Z.mod_pos_bound; lia).
  rewrite !u16_small by lia. set (e' := (rb_end b + 1) mod rb_size_ b) in *.
  set (s' := (rb_start b + 1) mod rb_size_ b) in *.
  set (data := aset _ _ p). set (type := aset _ _ t).
  assert (∀ s n, 0 <= s < rb_size_ b → (rb_end b - s) mod rb_size_ b = Z.of_nat n →
    elements (rb_size_ b) data type s (S n)
    = elements (rb_size_ b) (rb_ptrs b) (rb_type b) s n ++ [(p, t)]) as Hsnoc by (intros; by apply elements_write).
  assert (∀ s, 0 <= s < rb_size_ b → s ≠ e' →
    (e' - s) mod rb_size_ b = (rb_end b - s) mod rb_size_ b + 1) as Hstep by (intros; by apply dist_step).
  destruct (e' =? rb_start b) eqn:Ef.
  - assert (s' ≠ e') as Hne.
    { unfold s'. rewrite succ_cases by done. destruct (_ =? rb_size_ b) eqn:?; lia. }
    split; [split; cbn [rb_size_ rb_start rb_end rb_ptrs rb_type]; unfold data, type; rewrite ?zlen_aset; done|].
    split; [done|].
    destruct (Z.to_nat ((rb_end b - rb_start b) mod rb_size_ b)) as [|n] eqn:En.
    { rewrite dist_cases in En by done. unfold e' in Ef. rewrite succ_cases in Ef by done.
      destruct (rb_start b <=? rb_end b) eqn:?, (rb_end b + 1 =? rb_size_ b) eqn:?; lia. }
    rewrite (queue_cons b n En). cbn [head tail default from_option id fst]. split; [done|].
    fold s'. unfold queue. cbn [rb_size_ rb_start rb_end rb_ptrs rb_type].
    assert ((rb_end b - s') mod rb_size_ b = Z.of_nat n) as Hn.
    { rewrite dist_cases in * by done. unfold s' in *. rewrite succ_cases in * by done.
      destruct (rb_start b + 1 =? rb_size_ b) eqn:?;
        repeat (match goal with H : context [if ?b then _ else _] |- _ => destruct b eqn:?
                | |- context [if ?b then _ else _] => destruct b eqn:? end); lia. }
    rewrite Hstep, Hn by done. replace (Z.to_nat (Z.of_nat n + 1)) with (S n) by lia. by apply Hsnoc.
  - split; [split; cbn [rb_size_ rb_start rb_end rb_ptrs rb_type]; unfold data, type; rewrite ?zlen_aset; done|].
    split; [done|]. split; [done|]. unfold queue. cbn [rb_size_ rb_start rb_end rb_ptrs rb_type].
    assert (0 <= (rb_end b - rb_start b) mod rb_size_ b) as H0 by (apply Z.mod_pos_bound; lia).
    rewrite Hstep by (done || lia).
    replace (Z.to_nat ((rb_end b - rb_start b) mod rb_size_ b + 1))
      with (S (Z.to_nat ((rb_end b - rb_start b) mod rb_size_ b))) by lia.
    apply Hsnoc; [done|lia].
Qed.

Lemma rb_data_queue b : rb_wf b → rb_data b = (queue b).*1.
Proof.
  intros Hw. unfold rb_data. rewrite rb_size_queue by done. unfold queue.
  assert (zlen (queue b) < rb_size_ b) as Hlt.
  { rewrite length_queue by done. destruct Hw as [Hz Hs He _ _]. destruct (_ <=? _) eqn:?; lia. }
  unfold zlen in *. rewrite Nat2Z.id. unfold queue in *. rewrite length_elements in *.
  destruct Hw as [Hz Hs He _ _]. revert Hlt.
  generalize (Z.to_nat ((rb_end b - rb_start b) mod rb_size_ b)) as n.
  assert (∀ n i, 0 <= i → i + Z.of_nat n < rb_size_ b →
    rb_data_loop n b i
    = (elements (rb_size_ b) (rb_ptrs b) (rb_type b) ((rb_start b + i) mod rb_size_ b) n).*1) as H.
  { induction n as [|n IH]; intros i Hi Hn; [done|]. cbn [rb_data_loop elements fmap list_fmap fst].
    f_equal. rewrite u16_small by lia. rewrite IH by lia. do 2 f_equal.
    rewrite Z.add_mod_idemp_l by lia. f_equal. lia. }
  intros n Hn. rewrite H by lia. by rewrite Z.add_0_r, Z.mod_small.
Qed.

(** ** Refinement *)

Inductive rb_op := OpWrite (p data_type : Z) | OpRead | OpFull | OpEmpty | OpSize | OpData.
Inductive rb_res := RPtr (p : Z) | RRead (r : option (Z * Z)) | RBool (b : bool) | RSize (n : Z) | RData (l : list Z).

Definition rb_apply (op : rb_op) (b : RingBuffer) : rb_res * RingBuffer :=
  match op with
  | OpWrite p t => let '(rc, b) := rb_write b p t in (RPtr rc, b)
  | OpRead => let '(r, b) := rb_read b in (RRead r, b)
  | OpFull => (RBool (rb_full b), b)
  | OpEmpty => (RBool (rb_empty b), b)
  | OpSize => (RSize (rb_size b), b)
  | OpData => (RData (rb_data b), b)
  end.

(** A queue of at most [cap] elements. *)
Definition queue_apply (cap : Z) (op : rb_op) (q : list (Z * Z)) : rb_res * list (Z * Z) :=
  match op with
  | OpWrite p t =>
      if zlen q =? cap then (RPtr (default (0, 0) (head q)).1, tail q ++ [(p, t)])
      else (RPtr 0, q ++ [(p, t)])
  | OpRead => match q with [] => (RRead None, []) | x :: q' => (RRead (Some x), q') end
  | OpFull => (RBool (zlen q =? cap), q)
  | OpEmpty => (RBool (bool_decide (q = [])), q)
  | OpSize => (RSize (zlen q), q)
  | OpData => (RData q.*1, q)
  end.

Fixpoint run {S} (f : rb_op → S → rb_res * S) (ops : list rb_op) (s : S) : list rb_res :=
  match ops with
  | [] => []
  | op :: ops' => let '(r, s) := f op s in r :: run f ops' s
  end.

Lemma rb_apply_refines op b : rb_wf b →
  let '(r, b') := rb_apply op b in
  rb_wf b' ∧ rb_size_ b' = rb_size_ b ∧ queue_apply (rb_size_ b - 1) op (queue b) = (r, queue b').
Proof.
  intros Hw. destruct op as [p t| | | | |]; cbn [rb_apply queue_apply].
  - pose proof (rb_write_queue b p t Hw) as H. destruct rb_write as [rc b'].
    destruct H as (? & ? & H). split_and!; [done..|]. destruct (_ =? _); by destruct H as [-> ->].
  - pose proof (rb_read_queue b Hw) as H. destruct rb_read as [r b'].
    destruct H as (? & ? & H). split_and!; [done..|]. destruct (queue b); by destruct H as [-> ->].
  - by rewrite rb_full_queue.
  - split_and!; [done..|]. do 2 f_equal. apply eq_bool_prop_intro.
    rewrite bool_decide_spec, Is_true_true. symmetry. by apply rb_empty_queue.
  - by rewrite rb_size_queue.
  - by rewrite rb_data_queue.
Qed.

(** A ring made for [size] elements behaves, under any sequence of operations,
    as a queue of at most [size] elements whose write drops and returns the
    oldest element when the queue is full. *)
Theorem ring_buffer_is_bounded_queue size ops b :
  1 <= size < 2 ^ 16 - 1 → rb_new true true true size = Some b →
  run rb_apply ops b = run (queue_apply size) ops [].
Proof.
  intros Hs Hb. unfold rb_new in Hb. cbn [negb] in Hb. rewrite u16_small in Hb by lia.
  apply (inj Some) in Hb. subst b. set (b := mkRB _ _ _ _ _).
  assert (rb_wf b ∧ rb_size_ b - 1 = size ∧ queue b = []) as (Hw & Hsz & Hq).
  { assert (queue b = []) as Hq by (unfold queue, b; cbn [rb_end rb_start rb_size_];
      rewrite Z.sub_diag, Zmod_0_l; done).
    split_and!; [|unfold b; simpl; lia|done].
    split; unfold b; cbn [rb_size_ rb_start rb_end rb_ptrs rb_type]; unfold zlen;
      rewrite ?length_replicate; lia. }
  rewrite <- Hq. clearbody b. clear Hq. revert b Hw Hsz.
  induction ops as [|op ops IH]; intros b Hw Hsz; [done|]. cbn [run].
  pose proof (rb_apply_refines op b Hw) as H. destruct (rb_apply op b) as [r b'].
  destruct H as (Hw' & Hsz' & Hq). rewrite Hsz in Hq. rewrite Hq. f_equal. apply IH; [done|lia].
Qed.

Lemma ring_buffer_is_bounded_queue_witness :
  ∃ b, rb_new true true true 2 = Some b ∧
    run rb_apply [OpWrite 10 1; OpWrite 20 2; OpFull; OpWrite 30 3; OpData; OpRead; OpSize] b
    = [RPtr 0; RPtr 0; RBool true; RPtr 10; RData [20; 30]; RRead (Some (20, 2)); RSize 1].
Proof.
  eexists. split; [reflexivity|]. rewrite (ring_buffer_is_bounded_queue 2) by (lia || reflexivity).
  reflexivity.
Defined.
