(* ===== verification/GroupPacket.v ===== *)
(** * GroupPacket: the wire format of group packets ([toxcore/group_chats.c])

    A group packet is a plain header (packet id, the sender's key, a nonce) and
    an encrypted body: zero padding, the packet type, for a lossless packet the
    message id, and the payload.  The outcomes of the allocations and the random
    nonce are arguments. *)
From S2P Require Import Prelude CryptoCore Network.

(** ** Definitions *)

Definition ENC_PUBLIC_KEY_SIZE : Z := CRYPTO_PUBLIC_KEY_SIZE.
Definition MAX_GC_PACKET_CHUNK_SIZE : Z := 1372.
Definition MAX_GC_PACKET_SIZE : Z := 500 * 100.
Definition GC_MAX_PACKET_PADDING : Z := 8.
Definition GC_MESSAGE_ID_BYTES : Z := 8.
Definition GC_MIN_LOSSLESS_PAYLOAD_SIZE : Z := GC_MESSAGE_ID_BYTES + CRYPTO_NONCE_SIZE + 1 + CRYPTO_MAC_SIZE.
Definition GC_MIN_LOSSY_PAYLOAD_SIZE : Z := GC_MIN_LOSSLESS_PAYLOAD_SIZE - GC_MESSAGE_ID_BYTES.

Inductive Gc_Net_Packet := NET_PACKET_GC_LOSSLESS | NET_PACKET_GC_LOSSY.
#[export] Instance Gc_Net_Packet_eq_dec : EqDecision Gc_Net_Packet.
Proof. solve_decision. Defined.

Definition gc_net_packet_id (t : Gc_Net_Packet) : Z :=
  match t with NET_PACKET_GC_LOSSLESS => 91 | NET_PACKET_GC_LOSSY => 92 end.

Definition is_lossless (t : Gc_Net_Packet) : bool :=
  match t with NET_PACKET_GC_LOSSLESS => true | NET_PACKET_GC_LOSSY => false end.

(** [gc_get_wrapped_packet_size]; [None] when one of its assertions fails. *)
Definition gc_get_wrapped_packet_size (length : Z) (packet_type : Gc_Net_Packet) : option Z :=
  if negb (length <=? MAX_GC_PACKET_CHUNK_SIZE) then None
  else
    let min_header_size := if is_lossless packet_type then GC_MIN_LOSSLESS_PAYLOAD_SIZE
                           else GC_MIN_LOSSY_PAYLOAD_SIZE in
    let header_size := u16 (ENC_PUBLIC_KEY_SIZE + GC_MAX_PACKET_PADDING + min_header_size) in
    if negb (length <=? UINT16_MAX - header_size) then None
    else Some (u16 (length + header_size)).

(** The subtraction and the remainder are those of [int]. *)
Definition group_packet_padding_length (length : Z) : Z :=
  u16 (Z.rem (MAX_GC_PACKET_CHUNK_SIZE - length) GC_MAX_PACKET_PADDING).

(** The body before encryption: padding, type, message id, payload. *)
Definition wrap_plain (net_packet_type : Gc_Net_Packet) (padding_len packet_type message_id : Z)
    (data : bytes) : bytes :=
  zeros padding_len ++ [packet_type]
    ++ (if is_lossless net_packet_type then net_pack_u64 message_id else []) ++ data.

(** A packet, or the negative number the function returns. *)
Inductive Wrapped := WrapError (ret : Z) | WrapPacket (packet : bytes).

(** What [group_packet_unwrap] leaves behind.  [UnwrapOverrun]: the length that
    reaches [memcpy] is negative. *)
Inductive Unwrapped :=
| UnwrapError (ret : Z)
| UnwrapOverrun
| UnwrapData (packet_type message_id : Z) (data : bytes).

(** The loop that removes the padding: [None] when fewer than [min_plain_len]
    bytes are left. *)
Fixpoint unwrap_padding (min_plain_len : Z) (real_plain : bytes) : option bytes :=
  match real_plain with
  | b :: rest =>
      if b =? 0 then if zlen rest <? min_plain_len then None else unwrap_padding min_plain_len rest
      else Some real_plain
  | [] => None
  end.

Section packet.
Context {S : Sodium}.

(** [group_packet_wrap]: [alloc_plain], [alloc_encrypt] and [alloc_box] are
    the outcomes of the allocations of the function and of the encryption,
    [nonce] is the random nonce.  A null [data] is an empty list with
    [length] 0. *)
Definition group_packet_wrap (alloc_plain alloc_encrypt alloc_box : bool) (self_pk shared_key nonce : bytes)
    (packet_size : Z) (data : bytes) (length message_id gp_packet_type : Z)
    (net_packet_type : Gc_Net_Packet) : Wrapped :=
  let padding_len := group_packet_padding_length length in
  let min_packet_size :=
    if is_lossless net_packet_type
    then u16 (length + padding_len + CRYPTO_MAC_SIZE + 1 + ENC_PUBLIC_KEY_SIZE + CRYPTO_NONCE_SIZE
              + GC_MESSAGE_ID_BYTES + 1)
    else u16 (length + padding_len + CRYPTO_MAC_SIZE + 1 + ENC_PUBLIC_KEY_SIZE + CRYPTO_NONCE_SIZE + 1) in
  if packet_size <? min_packet_size then WrapError (-1)
  else if MAX_GC_PACKET_CHUNK_SIZE <? length then WrapError (-1)
  else if negb alloc_plain then WrapError (-1)
  else
    let enc_header_len := 1 + (if is_lossless net_packet_type then GC_MESSAGE_ID_BYTES else 0) in
    let plain := wrap_plain net_packet_type padding_len gp_packet_type message_id (slice 0 length data) in
    let plain_len := u16 (padding_len + enc_header_len + length) in
    let encrypt_buf_size := u16 (plain_len + CRYPTO_MAC_SIZE) in
    if negb alloc_encrypt then WrapError (-2)
    else
      let '(enc_len, encrypt) := encrypt_data_symmetric alloc_box shared_key nonce plain plain_len in
      if negb (enc_len =? encrypt_buf_size) then WrapError (-3)
      else WrapPacket ([gc_net_packet_id net_packet_type] ++ slice 0 ENC_PUBLIC_KEY_SIZE self_pk
                         ++ slice 0 CRYPTO_NONCE_SIZE nonce ++ encrypt).

(** [group_packet_unwrap]: [lossless] says whether [message_id] is a non-null
    pointer; [packet] starts at the nonce. *)
Definition group_packet_unwrap (alloc_plain alloc_box : bool) (session_shared_key : bytes) (lossless : bool)
    (packet : bytes) (length : Z) : Unwrapped :=
  if length <=? CRYPTO_NONCE_SIZE then UnwrapError (-1)
  else if negb alloc_plain then UnwrapError (-1)
  else
    let '(plain_len, plain) :=
      decrypt_data_symmetric alloc_box session_shared_key (slice 0 CRYPTO_NONCE_SIZE packet)
        (drop (Z.to_nat CRYPTO_NONCE_SIZE) packet) (length - CRYPTO_NONCE_SIZE) in
    if plain_len <=? 0 then UnwrapError (if plain_len =? 0 then -3 else -2)
    else
      let min_plain_len := if lossless then 1 + GC_MESSAGE_ID_BYTES else 1 in
      match unwrap_padding min_plain_len plain with
      | None => UnwrapError (-3)
      | Some real_plain =>
          let header_len := 1 + (if lossless then GC_MESSAGE_ID_BYTES else 0) in
          if zlen real_plain <? header_len then UnwrapOverrun
          else UnwrapData (aget 0 real_plain 0)
                 (if lossless then net_unpack_u64 (drop 1 real_plain) else 0)
                 (drop (Z.to_nat header_len) real_plain)
      end.
End packet.

(** ** Lemmas *)

Lemma padding_length_range length :
  0 <= length <= MAX_GC_PACKET_CHUNK_SIZE → 0 <= group_packet_padding_length length < 8.
Proof.
  unfold group_packet_padding_length, MAX_GC_PACKET_CHUNK_SIZE, GC_MAX_PACKET_PADDING. intros.
  rewrite Z.rem_mod_nonneg by lia. wrap_lia.
Qed.

Lemma wrapped_packet_size length t :
  0 <= length <= MAX_GC_PACKET_CHUNK_SIZE →
  gc_get_wrapped_packet_size length t = Some (length + 81 + if is_lossless t then 8 else 0).
Proof.
  unfold MAX_GC_PACKET_CHUNK_SIZE. intros Hl. unfold gc_get_wrapped_packet_size, MAX_GC_PACKET_CHUNK_SIZE.
  replace (length <=? 1372) with true by lia. destruct t; cbn [negb is_lossless].
  - change (u16 _) with 89 at 1. replace (length <=? UINT16_MAX - 89) with true by wrap_lia. cbn [negb].
    f_equal. change (u16 (ENC_PUBLIC_KEY_SIZE + _ + _)) with 89. wrap_lia.
  - change (u16 (ENC_PUBLIC_KEY_SIZE + _ + _)) with 81.
    replace (length <=? UINT16_MAX - 81) with true by wrap_lia. cbn [negb]. f_equal. wrap_lia.
Qed.

Lemma length_net_pack_u64 v : length (net_pack_u64 v) = 8%nat.
Proof. done. Qed.

Lemma zlen_wrap_plain t padding_len packet_type message_id data :
  0 <= padding_len →
  zlen (wrap_plain t padding_len packet_type message_id data)
  = padding_len + (1 + if is_lossless t then 8 else 0) + zlen data.
Proof.
  intros. unfold wrap_plain. rewrite !zlen_app. unfold zlen at 1 2 3. rewrite length_zeros.
  destruct t; cbn [is_lossless length]; rewrite ?length_net_pack_u64; lia.
Qed.

(** The padding is removed up to the packet type, which is never zero. *)
Lemma unwrap_padding_zeros min_plain_len n packet_type rest :
  packet_type ≠ 0 → min_plain_len <= zlen rest + 1 →
  unwrap_padding min_plain_len (zeros n ++ packet_type :: rest) = Some (packet_type :: rest).
Proof.
  intros Ht Hm. unfold zeros. induction (Z.to_nat n) as [|k IH].
  - cbn. by replace (packet_type =? 0) with false by lia.
  - cbn [replicate app unwrap_padding]. rewrite Z.eqb_refl.
    assert (zlen (replicate k 0 ++ packet_type :: rest) = Z.of_nat k + zlen rest + 1) as ->.
    { rewrite zlen_app, zlen_cons. unfold zlen. rewrite length_replicate. lia. }
    replace (_ <? _) with false by lia. done.
Qed.

(** What is left starts with a nonzero byte; it is everything, or enough. *)
Lemma unwrap_padding_spec min_plain_len plain r :
  unwrap_padding min_plain_len plain = Some r →
  aget 0 r 0 ≠ 0 ∧ zlen r <= zlen plain ∧ (zlen plain <= zlen r ∨ min_plain_len <= zlen r).
Proof.
  induction plain as [|b plain IH]; [done|]. cbn [unwrap_padding]. rewrite zlen_cons.
  destruct (b =? 0) eqn:Eb.
  - destruct (zlen plain <? min_plain_len) eqn:E; [done|]. intros H.
    destruct (IH H) as (? & ? & ?). split; [done|]. lia.
  - intros [= <-]. rewrite zlen_cons. split; [|lia]. change (b ≠ 0). lia.
Qed.

(** ** Properties *)

Section theorems.
Context {S : Sodium} {L : SodiumLaws S}.

(** Wrapping succeeds, and its body decrypts to the plain body. *)
Lemma wrap_ok t self_pk key nonce data message_id packet_type :
  zlen self_pk = ENC_PUBLIC_KEY_SIZE → zlen nonce = CRYPTO_NONCE_SIZE →
  zlen data <= MAX_GC_PACKET_CHUNK_SIZE →
  let plain := wrap_plain t (group_packet_padding_length (zlen data)) packet_type message_id data in
  ∃ c, group_packet_wrap true true true self_pk key nonce (zlen data + 81 + if is_lossless t then 8 else 0)
         data (zlen data) message_id packet_type t
       = WrapPacket ((gc_net_packet_id t :: self_pk) ++ nonce ++ c) ∧
    zlen c = group_packet_padding_length (zlen data) + (17 + if is_lossless t then 8 else 0) + zlen data ∧
    decrypt_data_symmetric true key nonce c (zlen c) = (zlen plain, plain).
Proof.
  intros Hpk Hn Hd plain. pose proof (zlen_nonneg data). unfold MAX_GC_PACKET_CHUNK_SIZE in Hd.
  pose proof (padding_length_range (zlen data) ltac:(unfold MAX_GC_PACKET_CHUNK_SIZE; lia)) as Hp.
  set (pad := group_packet_padding_length (zlen data)) in *.
  assert (zlen plain = pad + (1 + if is_lossless t then 8 else 0) + zlen data) as Hz
    by (apply zlen_wrap_plain; lia).
  set (n := zlen plain) in *.
  assert (0 < n <= 1388) as Hnr by (destruct t; cbn [is_lossless] in Hz; lia).
  destruct (encrypt_data_symmetric_ok key nonce plain n) as (c & He & Hc & _); [unfold n; lia|].
  exists c. split; [|split].
  - unfold group_packet_wrap. fold pad. rewrite slice_all by done. fold plain.
    unfold MAX_GC_PACKET_CHUNK_SIZE, CRYPTO_MAC_SIZE, ENC_PUBLIC_KEY_SIZE, CRYPTO_PUBLIC_KEY_SIZE,
      CRYPTO_NONCE_SIZE, GC_MESSAGE_ID_BYTES in *.
    rewrite (slice_all 32 self_pk), (slice_all 24 nonce) by done.
    replace (_ <? (if is_lossless t then _ else _)) with false
      by (destruct t; cbn [is_lossless]; rewrite u16_small by lia; lia).
    replace (1372 <? zlen data) with false by lia. cbn [negb].
    replace (u16 (pad + _ + zlen data)) with n
      by (rewrite u16_small by (destruct t; cbn [is_lossless]; lia); rewrite Hz; by destruct t).
    rewrite He, (u16_small (n + 16)) by lia. rewrite Z.eqb_refl. done.
  - rewrite Hc, Hz. destruct t; cbn [is_lossless]; lia.
  - rewrite Hc. rewrite (decrypt_encrypt key nonce plain n c) by (done || unfold n; lia).
    by rewrite slice_all.
Qed.

(** The plain body is taken apart again. *)
Lemma unwrap_wrap_plain t pad packet_type message_id data :
  packet_type ≠ 0 → is_u64 message_id →
  match unwrap_padding (if is_lossless t then 1 + GC_MESSAGE_ID_BYTES else 1)
          (wrap_plain t pad packet_type message_id data) with
  | None => UnwrapError (-3)
  | Some real_plain =>
      if zlen real_plain <? 1 + (if is_lossless t then GC_MESSAGE_ID_BYTES else 0) then UnwrapOverrun
      else UnwrapData (aget 0 real_plain 0)
             (if is_lossless t then net_unpack_u64 (drop 1 real_plain) else 0)
             (drop (Z.to_nat (1 + (if is_lossless t then GC_MESSAGE_ID_BYTES else 0))) real_plain)
  end = UnwrapData packet_type (if is_lossless t then message_id else 0) data.
Proof.
  intros Hnz Hid. unfold wrap_plain, GC_MESSAGE_ID_BYTES. pose proof (zlen_nonneg data).
  assert (zlen (net_pack_u64 message_id) = 8) as H8 by done.
  cbn [app]. rewrite unwrap_padding_zeros;
    [|done|destruct t; cbn [is_lossless app]; rewrite ?zlen_app, ?H8; lia].
  rewrite zlen_cons, zlen_app.
  replace (_ <? _) with false by (destruct t; cbn [is_lossless]; rewrite ?H8; change (zlen (@nil Z)) with 0; lia).
  destruct t; cbn [is_lossless]; [|done].
  change (drop 1 (packet_type :: ?x)) with x. rewrite net_unpack_pack_u64 by done. done.
Qed.

(** What one peer wraps for a session, the other unwraps: for every
    payload up to [MAX_GC_PACKET_CHUNK_SIZE] bytes and every nonzero packet
    type, the buffer [gc_get_wrapped_packet_size] asks for is large enough,
    wrapping succeeds, the packet starts with the packet id and the sender's
    key, and unwrapping what follows under the same session key gives back
    the type, the message id and the payload. *)
Theorem group_packet_roundtrip (t : Gc_Net_Packet) (self_pk key nonce data : bytes)
    (message_id packet_type : Z)
    (Hpk : zlen self_pk = ENC_PUBLIC_KEY_SIZE) (Hn : zlen nonce = CRYPTO_NONCE_SIZE)
    (Hd : zlen data <= MAX_GC_PACKET_CHUNK_SIZE) (Hid : is_u64 message_id)
    (Ht : is_u8 packet_type) (Hnz : packet_type ≠ 0) :
  ∃ packet_size packet,
    gc_get_wrapped_packet_size (zlen data) t = Some packet_size ∧
    group_packet_wrap true true true self_pk key nonce packet_size data (zlen data)
      message_id packet_type t = WrapPacket packet ∧
    zlen packet <= packet_size ∧
    slice 0 33 packet = gc_net_packet_id t :: self_pk ∧
    group_packet_unwrap true true key (is_lossless t) (drop 33 packet) (zlen packet - 33)
      = UnwrapData packet_type (if is_lossless t then message_id else 0) data.
Proof.
  pose proof (zlen_nonneg data). pose proof (padding_length_range (zlen data) ltac:(lia)) as Hp.
  rewrite wrapped_packet_size by lia. eexists. 
  destruct (wrap_ok t self_pk key nonce data message_id packet_type) as (c & Hw & Hc & Hdec); try done.
  eexists. split; [done|]. split; [exact Hw|].
  set (hd := gc_net_packet_id t :: self_pk).
  assert (zlen hd = 33) as Hh by (unfold hd; rewrite zlen_cons, Hpk; done).
  change (zlen nonce = 24) in Hn.
  assert (zlen (hd ++ nonce ++ c) = 57 + zlen c) as Hz by (rewrite !zlen_app; lia).
  split; [rewrite Hz, Hc; destruct t; cbn [is_lossless]; lia|]. split; [by apply slice_app_l|].
  rewrite drop_app_length' by (unfold zlen in Hh; lia). rewrite Hz.
  unfold group_packet_unwrap, CRYPTO_NONCE_SIZE.
  replace (57 + zlen c - 33 <=? 24) with false by (rewrite Hc; destruct t; cbn [is_lossless]; lia).
  cbn [negb]. rewrite slice_app_l by done. rewrite drop_app_length' by (unfold zlen in Hn; lia).
  replace (57 + zlen c - 33 - 24) with (zlen c) by lia. rewrite Hdec.
  replace (_ <=? 0) with false by (rewrite zlen_wrap_plain by lia; destruct t; cbn [is_lossless]; lia).
  by apply unwrap_wrap_plain.
Qed.

(** [group_packet_unwrap] stays inside its buffers: for every packet of at
    least the size its callers demand, whoever sent it and whatever the
    allocator answers, the length that reaches [memcpy] is not negative, and
    a packet that is accepted has a nonzero type and at most as many payload
    bytes as the packet has beyond nonce, tag and header. *)
Theorem group_packet_unwrap_in_bounds (alloc_plain alloc_box lossless : bool) (key packet : bytes)
    (Hlen : (if lossless then GC_MIN_LOSSLESS_PAYLOAD_SIZE else GC_MIN_LOSSY_PAYLOAD_SIZE) <= zlen packet) :
  match group_packet_unwrap alloc_plain alloc_box key lossless packet (zlen packet) with
  | UnwrapError ret => ret < 0
  | UnwrapOverrun => False
  | UnwrapData packet_type _ data =>
      packet_type ≠ 0 ∧
      zlen data <= zlen packet - (if lossless then GC_MIN_LOSSLESS_PAYLOAD_SIZE else GC_MIN_LOSSY_PAYLOAD_SIZE)
  end.
Proof.
  change GC_MIN_LOSSLESS_PAYLOAD_SIZE with 49 in *. change GC_MIN_LOSSY_PAYLOAD_SIZE with 41 in *.
  unfold group_packet_unwrap, CRYPTO_NONCE_SIZE.
  destruct (zlen packet <=? 24) eqn:E; [done|]. destruct alloc_plain; [|done]. cbn [negb].
  destruct (decrypt_data_symmetric _ _ _ _ _) as [pl plain] eqn:Ed.
  destruct (pl <=? 0) eqn:Epl; [by destruct (pl =? 0)|].
  destruct alloc_box.
  2: { unfold decrypt_data_symmetric in Ed. cbn [negb] in Ed. destruct (_ <=? _) in Ed; simplify_eq; lia. }
  apply decrypt_genuine in Ed as (Hpl & Hz & _); [|unfold zlen in *; rewrite length_drop; lia|lia].
  destruct (unwrap_padding _ plain) as [r|] eqn:Er; [|done].
  destruct (unwrap_padding_spec _ _ _ Er) as (Hnz & Hle & Hge). unfold GC_MESSAGE_ID_BYTES in *.
  replace (zlen r <? _) with false by (destruct lossless; lia).
  split; [done|]. unfold zlen in *. rewrite length_drop. destruct lossless; lia.
Qed.
End theorems.

(** ** Witnesses *)

Lemma group_packet_roundtrip_witness :
  ∃ packet_size packet,
    gc_get_wrapped_packet_size 3 NET_PACKET_GC_LOSSLESS = Some packet_size ∧
    @group_packet_wrap toy_sodium true true true (replicate 32 7) (replicate 32 9) (replicate 24 5) packet_size
      [1; 2; 3] 3 77 243 NET_PACKET_GC_LOSSLESS = WrapPacket packet ∧
    zlen packet <= packet_size ∧
    slice 0 33 packet = 91 :: replicate 32 7 ∧
    @group_packet_unwrap toy_sodium true true (replicate 32 9) true (drop 33 packet) (zlen packet - 33)
      = UnwrapData 243 77 [1; 2; 3].
Proof.
  exact (@group_packet_roundtrip toy_sodium toy_sodium_laws NET_PACKET_GC_LOSSLESS (replicate 32 7)
    (replicate 32 9) (replicate 24 5) [1; 2; 3] 77 243 eq_refl eq_refl ltac:(vm_compute; discriminate)
    ltac:(vm_compute; split; [discriminate|reflexivity]) ltac:(vm_compute; split; [discriminate|reflexivity])
    ltac:(discriminate)).
Defined.

(** A packet whose body is the type alone, 41 bytes, on the lossy path. *)
Lemma group_packet_unwrap_in_bounds_witness :
  match @group_packet_unwrap toy_sodium true true (replicate 32 9) false
          (replicate 24 5 ++ replicate 16 9 ++ [1]) 41 with
  | UnwrapError ret => ret < 0
  | UnwrapOverrun => False
  | UnwrapData packet_type _ data => packet_type ≠ 0 ∧ zlen data <= 41 - GC_MIN_LOSSY_PAYLOAD_SIZE
  end.
Proof.
  exact (@group_packet_unwrap_in_bounds toy_sodium toy_sodium_laws true true false (replicate 32 9)
    (replicate 24 5 ++ replicate 16 9 ++ [1]) ltac:(vm_compute; discriminate)).
Defined.
