(* ===== verification/GroupConnection.v ===== *)
(** * GroupConnection: lossless group connections ([toxcore/group_connection.c])

    A group connection numbers its lossless packets, keeps the ones that are not
    acknowledged in [send_array] and the ones that came too early in
    [recv_array], splits large packets into fragments and puts them together
    again.  The receiving half of [toxcore/group_chats.c] that drives it
    ([handle_gc_lossless_packet] and the acknowledgements) is modelled here too.
    The clock, the allocator, the network and the random numbers are arguments;
    what the dispatch of [handle_gc_lossless_helper] does with a packet is the
    argument [handler].  A failed [assert] is the result [None]. *)
From S2P Require Import Prelude Util MonoTime CryptoCore Network GroupPacket.

(** ** Data *)

Definition GCC_BUFFER_SIZE : Z := 8192.
Definition GC_PING_TIMEOUT : Z := 12.
Definition GC_CONFIRMED_PEER_TIMEOUT : Z := GC_PING_TIMEOUT * 4 + 10.
Definition GCC_UDP_DIRECT_TIMEOUT : Z := GC_PING_TIMEOUT + 4.
Definition MAX_GC_PART_MESSAGE_SIZE : Z := 128.
Definition MAX_FRIEND_TCP_CONNECTIONS : Z := 6.

Definition GP_MESSAGE_ACK : Z := 2.
Definition GP_INVITE_RESPONSE_REJECT : Z := 3.
Definition GP_FRAGMENT : Z := 239.
Definition GP_INVITE_REQUEST : Z := 246.
Definition GP_INVITE_RESPONSE : Z := 247.
Definition GP_HS_RESPONSE_ACK : Z := 255.

Inductive Group_Message_Ack_Type := GR_ACK_RECV | GR_ACK_REQ.

Inductive Group_Exit_Type :=
| GC_EXIT_TYPE_QUIT
| GC_EXIT_TYPE_TIMEOUT
| GC_EXIT_TYPE_DISCONNECTED
| GC_EXIT_TYPE_SELF_DISCONNECTED
| GC_EXIT_TYPE_KICKED
| GC_EXIT_TYPE_SYNC_ERR
| GC_EXIT_TYPE_NO_CALLBACK.

Record GC_Exit_Info := mkExit {
  part_message : bytes;
  exit_length : Z;
  exit_type : Group_Exit_Type
}.

Record Node_format := mkNode {
  node_public_key : bytes;
  node_ip_port : IP_Port
}.

Record GC_Message_Array_Entry := mkEntry {
  e_data : option bytes;
  e_data_length : Z;
  e_packet_type : Z;
  e_message_id : Z;
  e_time_added : Z;
  e_last_send_try : Z
}.

Definition empty_entry : GC_Message_Array_Entry := mkEntry None 0 0 0 0 0.

(** An array of [GCC_BUFFER_SIZE] entries: the entries written since [calloc],
    by index.  Every index the code uses is reduced modulo the size. *)
Abbreviation GC_Array := (gmap Z GC_Message_Array_Entry).
Definition gentry (a : GC_Array) (i : Z) : GC_Message_Array_Entry := default empty_entry (a !! i).

(** The fields of [GC_Connection] that these operations use; the ones of the
    handshake and of the key rotation are left out. *)
Record GC_Connection := mkGC {
  send_message_id : Z;
  send_array_start : Z;
  send_array : GC_Array;
  received_message_id : Z;
  recv_array : GC_Array;
  last_chunk_id : Z;
  addr_public_key : bytes;
  addr_ip_port : IP_Port;
  session_secret_key : bytes;
  session_shared_key : bytes;
  tcp_connection_num : Z;
  last_received_direct_time : Z;
  connected_tcp_relays : list Node_format;
  tcp_relays_count : Z;
  last_received_packet_time : Z;
  last_requested_packet_time : Z;
  handshaked : bool;
  pending_delete : bool;
  exit_info : GC_Exit_Info
}.

Definition empty_gc_connection : GC_Connection := {|
  send_message_id := 0;
  send_array_start := 0;
  send_array := ∅;
  received_message_id := 0;
  recv_array := ∅;
  last_chunk_id := 0;
  addr_public_key := zeros 64;
  addr_ip_port := empty_ip_port;
  session_secret_key := zeros 32;
  session_shared_key := zeros 32;
  tcp_connection_num := 0;
  last_received_direct_time := 0;
  connected_tcp_relays := [];
  tcp_relays_count := 0;
  last_received_packet_time := 0;
  last_requested_packet_time := 0;
  handshaked := false;
  pending_delete := false;
  exit_info := mkExit [] 0 GC_EXIT_TYPE_QUIT
|}.

#[export] Instance eta_GC_Connection : Eta GC_Connection := λ c,
  mkGC (send_message_id c) (send_array_start c) (send_array c) (received_message_id c) (recv_array c)
    (last_chunk_id c) (addr_public_key c) (addr_ip_port c) (session_secret_key c)
    (session_shared_key c) (tcp_connection_num c) (last_received_direct_time c)
    (connected_tcp_relays c) (tcp_relays_count c) (last_received_packet_time c)
    (last_requested_packet_time c) (handshaked c) (pending_delete c) (exit_info c).

Ltac unfold_gset := cbn [set_field
  send_message_id send_array_start send_array received_message_id recv_array last_chunk_id addr_public_key addr_ip_port session_secret_key session_shared_key tcp_connection_num last_received_direct_time connected_tcp_relays tcp_relays_count last_received_packet_time last_requested_packet_time handshaked pending_delete exit_info] in *.

(** ** The environment *)

(** The clock, our own public key, and the address family of our socket. *)
Record GC_Env := mkGCEnv {
  gc_time : Mono_Time;
  self_public_key : bytes;
  net_fam : Z
}.

(** How one packet fares: its nonce, the allocations of the packet buffer and
    of the wrapping, whether [sendpacket] accepts it whole and what
    [send_packet_tcp_connection] returns. *)
Record GC_Link := mkGCLink {
  link_nonce : bytes;
  alloc_packet : bool;
  alloc_wrap : bool;
  gc_udp_sent : bool;
  gc_tcp_ret : Z
}.

Inductive GC_Sent :=
| GcUdp (ip_port : IP_Port) (data : bytes)
| GcTcp (connection_number : Z) (data : bytes).

(** ** Array entries *)

Definition array_entry_is_empty (array_entry : GC_Message_Array_Entry) : bool := e_time_added array_entry =? 0.

Definition clear_array_entry (a : GC_Array) (i : Z) : GC_Array := <[i := empty_entry]> a.

Definition gcc_get_array_index (message_id : Z) : Z := u16 (message_id mod GCC_BUFFER_SIZE).

Definition next_index (i : Z) : Z := (i + 1) mod GCC_BUFFER_SIZE.

(** The loop of [clear_send_queue_id_range]; it takes at most
    [GCC_BUFFER_SIZE] rounds to reach [end_idx]. *)
Fixpoint clear_range_loop (fuel : nat) (a : GC_Array) (i end_idx : Z) : GC_Array :=
  match fuel with
  | O => a
  | S fuel' => if i =? end_idx then a else clear_range_loop fuel' (clear_array_entry a i) (next_index i) end_idx
  end.

Definition buffer_fuel : nat := Z.to_nat GCC_BUFFER_SIZE.

Definition clear_send_queue_id_range (gconn : GC_Connection) (start_id end_id : Z) : GC_Connection :=
  let start_idx := gcc_get_array_index start_id in
  let end_idx := gcc_get_array_index end_id in
  gconn <| send_array := clear_range_loop buffer_fuel (send_array gconn) start_idx end_idx |>
        <| send_message_id := start_id |>.

Definition gcc_set_send_message_id (gconn : GC_Connection) (id : Z) : GC_Connection :=
  gconn <| send_message_id := id |> <| send_array_start := u16 (id mod GCC_BUFFER_SIZE) |>.

Definition gcc_set_recv_message_id (gconn : GC_Connection) (id : Z) : GC_Connection :=
  gconn <| received_message_id := id |>.

(** [create_array_entry] for an empty entry: the new entry, or [None] on failure. *)
Definition create_array_entry (alloc : bool) (mono_time : Mono_Time) (data : option bytes)
    (length packet_type message_id : Z) : option GC_Message_Array_Entry :=
  let tm := mono_time_get mono_time in
  if 0 <? length then
    match data with
    | None => None
    | Some d =>
        if negb alloc then None
        else Some (mkEntry (Some (slice 0 length d)) length packet_type message_id tm tm)
    end
  else Some (mkEntry None length packet_type message_id tm tm).

(** ** Sending *)

(** [GCC_BUFFER_SIZE] is an [int]; [send_array_start - 1] is truncated to 16
    bits. *)
Definition add_to_send_array (alloc : bool) (mono_time : Mono_Time) (gconn : GC_Connection)
    (data : option bytes) (length packet_type : Z) : bool * GC_Connection :=
  if send_message_id gconn mod GCC_BUFFER_SIZE =? u16 (send_array_start gconn - 1) then (false, gconn)
  else
    let idx := gcc_get_array_index (send_message_id gconn) in
    if negb (array_entry_is_empty (gentry (send_array gconn) idx)) then (false, gconn)
    else
      match create_array_entry alloc mono_time data length packet_type (send_message_id gconn) with
      | None => (false, gconn)
      | Some array_entry =>
          (true, gconn <| send_array := <[idx := array_entry]> (send_array gconn) |>
                       <| send_message_id := u64 (send_message_id gconn + 1) |>)
      end.

Definition gcc_conn_is_direct (mono_time : Mono_Time) (gconn : GC_Connection) : bool :=
  mono_time_get mono_time <? u64 (GCC_UDP_DIRECT_TIMEOUT + last_received_direct_time gconn).

Definition gcc_direct_conn_is_possible (env : GC_Env) (gconn : GC_Connection) : bool :=
  negb (net_family_is_unspec (ip_family (ipp_ip (addr_ip_port gconn))))
  && negb (net_family_is_unspec (net_fam env)).

(** [gcc_send_packet]: the answer, and what was handed to the sockets. *)
Definition gcc_send_packet (env : GC_Env) (link : GC_Link) (gconn : GC_Connection) (packet : option bytes)
    (length : Z) : bool * list GC_Sent :=
  match packet with
  | None => (false, [])
  | Some packet =>
      if length =? 0 then (false, [])
      else
        let p := slice 0 length packet in
        let by_udp := [GcUdp (addr_ip_port gconn) p] in
        let by_tcp := [GcTcp (tcp_connection_num gconn) p] in
        if gcc_direct_conn_is_possible env gconn then
          if gcc_conn_is_direct (gc_time env) gconn then (gc_udp_sent link, by_udp)
          else ((gc_tcp_ret link =? 0) || gc_udp_sent link, by_udp ++ by_tcp)
        else (gc_tcp_ret link =? 0, by_tcp)
  end.

Section send.
Context {NaCl : Sodium}.

(** A null [data] has [length] 0. *)
Definition gcc_encrypt_and_send_lossless_packet (env : GC_Env) (link : GC_Link) (gconn : GC_Connection)
    (data : option bytes) (length message_id packet_type : Z) : option (bool * list GC_Sent) :=
  match gc_get_wrapped_packet_size length NET_PACKET_GC_LOSSLESS with
  | None => None
  | Some packet_size =>
      if negb (alloc_packet link) then Some (false, [])
      else
        match group_packet_wrap (alloc_wrap link) (alloc_wrap link) (alloc_wrap link) (self_public_key env)
                (session_shared_key gconn) (link_nonce link) packet_size (default [] data) length message_id
                packet_type NET_PACKET_GC_LOSSLESS with
        | WrapError _ => Some (false, [])
        | WrapPacket packet => Some (gcc_send_packet env link gconn (Some packet) (u16 (zlen packet)))
        end
  end.

Definition gcc_send_lossless_packet (env : GC_Env) (alloc : bool) (link : GC_Link) (gconn : GC_Connection)
    (data : option bytes) (length packet_type : Z) : option (Z * GC_Connection * list GC_Sent) :=
  let message_id := send_message_id gconn in
  let '(added, gconn) := add_to_send_array alloc (gc_time env) gconn data length packet_type in
  if negb added then Some (-1, gconn, [])
  else
    match gcc_encrypt_and_send_lossless_packet env link gconn data length message_id packet_type with
    | None => None
    | Some (sent, packets) => Some (if sent then 0 else -2, gconn, packets)
    end.

(** The loop that adds the chunks after the first; [alloc] is indexed by the
    message id.  The loop ends because each round processes a nonempty chunk. *)
Fixpoint fragment_loop (fuel : nat) (alloc : Z → bool) (mono_time : Mono_Time) (gconn : GC_Connection)
    (data : bytes) (length processed : Z) : bool * GC_Connection :=
  match fuel with
  | O => (true, gconn)
  | S fuel' =>
      if processed <? length then
        let chunk_len := min_u16 MAX_GC_PACKET_CHUNK_SIZE (u16 (length - processed)) in
        let chunk := slice processed chunk_len data in
        let '(added, gconn) :=
          add_to_send_array (alloc (send_message_id gconn)) mono_time gconn (Some chunk) chunk_len GP_FRAGMENT in
        if added then fragment_loop fuel' alloc mono_time gconn data length (u16 (processed + chunk_len))
        else (false, gconn)
      else (true, gconn)
  end.

(** The loop that sends the fragments that were added: [None] for a failed
    assertion, [Some (false, _)] when an entry is missing. *)
Fixpoint send_fragments_loop (fuel : nat) (env : GC_Env) (links : Z → GC_Link) (gconn : GC_Connection)
    (i end_idx : Z) : option (bool * list GC_Sent) :=
  match fuel with
  | O => Some (true, [])
  | S fuel' =>
      if i =? end_idx then Some (true, [])
      else
        let e := gentry (send_array gconn) i in
        if array_entry_is_empty e then Some (false, [])
        else if negb (e_packet_type e =? GP_FRAGMENT) then None
        else
          '(_, sent) ← gcc_encrypt_and_send_lossless_packet env (links (e_message_id e)) gconn (e_data e)
                         (e_data_length e) (e_message_id e) (e_packet_type e);
          '(ok, sent') ← send_fragments_loop fuel' env links gconn (next_index i) end_idx;
          Some (ok, sent ++ sent')
  end.

(** [gcc_send_lossless_packet_fragments].  [start_id] is a [uint16_t]. *)
Definition gcc_send_lossless_packet_fragments (env : GC_Env) (alloc : Z → bool) (links : Z → GC_Link)
    (gconn : GC_Connection) (data : option bytes) (length packet_type : Z)
    : option (bool * GC_Connection * list GC_Sent) :=
  match data with
  | None => Some (false, gconn, [])
  | Some data =>
      if length <=? MAX_GC_PACKET_CHUNK_SIZE then Some (false, gconn, [])
      else
        let start_id := u16 (send_message_id gconn) in
        let chunk := packet_type :: slice 0 (MAX_GC_PACKET_CHUNK_SIZE - 1) data in
        let '(added, gconn) :=
          add_to_send_array (alloc (send_message_id gconn)) (gc_time env) gconn (Some chunk)
            MAX_GC_PACKET_CHUNK_SIZE GP_FRAGMENT in
        if negb added then Some (false, gconn, [])
        else
          let '(added, gconn) := fragment_loop (Z.to_nat length) alloc (gc_time env) gconn data length
                                   (MAX_GC_PACKET_CHUNK_SIZE - 1) in
          if negb added then
            Some (false, clear_send_queue_id_range gconn start_id (send_message_id gconn), [])
          else
            let '(added, gconn) :=
              add_to_send_array (alloc (send_message_id gconn)) (gc_time env) gconn None 0 GP_FRAGMENT in
            if negb added then
              Some (false, clear_send_queue_id_range gconn start_id (send_message_id gconn), [])
            else
              '(ok, sent) ← send_fragments_loop buffer_fuel env links gconn
                              (gcc_get_array_index start_id) (gcc_get_array_index (send_message_id gconn));
              Some (ok, gconn, sent)
  end.

(** [send_lossless_group_packet] of [group_chats.c]. *)
Definition send_lossless_group_packet (env : GC_Env) (alloc : Z → bool) (links : Z → GC_Link)
    (gconn : GC_Connection) (data : option bytes) (length packet_type : Z)
    : option (bool * GC_Connection * list GC_Sent) :=
  if negb (length <=? MAX_GC_PACKET_SIZE) then None
  else if negb (handshaked gconn) || pending_delete gconn then Some (false, gconn, [])
  else if MAX_GC_PACKET_CHUNK_SIZE <? length then
    gcc_send_lossless_packet_fragments env alloc links gconn data length packet_type
  else
    let id := send_message_id gconn in
    '(ret, gconn, sent) ← gcc_send_lossless_packet env (alloc id) (links id) gconn data length packet_type;
    Some (ret =? 0, gconn, sent).
End send.

(** ** Acknowledgements *)

(** The loop that moves [send_array_start] past acknowledged entries; it takes
    at most [GCC_BUFFER_SIZE] rounds to reach [end_idx]. *)
Fixpoint ack_loop (fuel : nat) (a : GC_Array) (end_idx start idx : Z) : Z :=
  match fuel with
  | O => start
  | S fuel' =>
      if array_entry_is_empty (gentry a idx) && negb (start =? end_idx)
      then ack_loop fuel' a end_idx (next_index start) (next_index idx)
      else start
  end.

Definition gcc_handle_ack (gconn : GC_Connection) (message_id : Z) : bool * GC_Connection :=
  let idx := gcc_get_array_index message_id in
  let array_entry := gentry (send_array gconn) idx in
  if array_entry_is_empty array_entry then (true, gconn)
  else if negb (e_message_id array_entry =? message_id) then (false, gconn)
  else
    let gconn := gconn <| send_array := clear_array_entry (send_array gconn) idx |> in
    if idx =? send_array_start gconn then
      let end_idx := u16 (send_message_id gconn mod GCC_BUFFER_SIZE) in
      (true, gconn <| send_array_start :=
                        ack_loop buffer_fuel (send_array gconn) end_idx (send_array_start gconn) idx |>)
    else (true, gconn).

Definition gcc_ip_port_is_set (gconn : GC_Connection) : bool := ipport_isset (addr_ip_port gconn).

Definition gcc_set_ip_port (gconn : GC_Connection) (ipp : option IP_Port) : GC_Connection :=
  match ipp with
  | Some ipp => if ipport_isset ipp then gconn <| addr_ip_port := ipp |> else gconn
  | None => gconn
  end.

Definition empty_node : Node_format := mkNode (zeros 32) empty_ip_port.

(** [rand_idx] is what [random_range_u32] returns. *)
Definition gcc_copy_tcp_relay (rand_idx : Z) (gconn : GC_Connection) : option Node_format :=
  if tcp_relays_count gconn =? 0 then None
  else
    let node := aget empty_node (connected_tcp_relays gconn) rand_idx in
    if negb (ipport_isset (node_ip_port node)) then None else Some node.

(** [gcc_save_tcp_relay]: the list holds the array of
    [MAX_FRIEND_TCP_CONNECTIONS] nodes. *)
Definition gcc_save_tcp_relay (rand_idx : Z) (gconn : GC_Connection) (tcp_node : Node_format)
    : Z * GC_Connection :=
  if negb (ipport_isset (node_ip_port tcp_node)) then (-1, gconn)
  else if existsb (λ n, pk_equal (node_public_key n) (node_public_key tcp_node))
            (take (Z.to_nat (tcp_relays_count gconn)) (connected_tcp_relays gconn)) then (-2, gconn)
  else if MAX_FRIEND_TCP_CONNECTIONS <=? tcp_relays_count gconn then
    (0, gconn <| connected_tcp_relays := aset (connected_tcp_relays gconn) rand_idx tcp_node |>)
  else
    (0, gconn <| connected_tcp_relays := aset (connected_tcp_relays gconn) (tcp_relays_count gconn) tcp_node |>
              <| tcp_relays_count := tcp_relays_count gconn + 1 |>).

(** ** Receiving *)

Definition store_in_recv_array (alloc : bool) (mono_time : Mono_Time) (gconn : GC_Connection)
    (data : option bytes) (length packet_type message_id : Z) : bool * GC_Connection :=
  let idx := gcc_get_array_index message_id in
  if negb (array_entry_is_empty (gentry (recv_array gconn) idx)) then (false, gconn)
  else
    match create_array_entry alloc mono_time data length packet_type message_id with
    | None => (false, gconn)
    | Some e => (true, gconn <| recv_array := <[idx := e]> (recv_array gconn) |>)
    end.

(** The backward search of [reassemble_packet]. *)
Inductive Search :=
| SearchAbort                                   (** an assertion failed *)
| SearchFail                                    (** [return 0] *)
| SearchDone (start_idx packet_length : Z).

Definition prev_index (i : Z) : Z := if 0 <? i then i - 1 else GCC_BUFFER_SIZE - 1.

Fixpoint search_loop (fuel : nat) (a : GC_Array) (end_idx start_idx packet_length : Z) : Search :=
  match fuel with
  | O => SearchFail
  | S fuel' =>
      let e := gentry a start_idx in
      if negb (array_entry_is_empty e) && (e_packet_type e =? GP_FRAGMENT) then
        if bool_decide (e_data e = None) then SearchAbort
        else if negb (e_data_length e <=? MAX_GC_PACKET_CHUNK_SIZE) then SearchAbort
        else
          let diff := u16 (packet_length + e_data_length e) in
          if negb (packet_length <? diff) then SearchAbort
          else if MAX_GC_PACKET_SIZE <? diff then SearchFail
          else
            let start_idx := prev_index start_idx in
            if start_idx =? end_idx then SearchFail
            else search_loop fuel' a end_idx start_idx diff
      else SearchDone start_idx packet_length
  end.

(** The loop that copies and clears the fragments. *)
Fixpoint copy_loop (fuel : nat) (a : GC_Array) (i end_idx packet_length : Z) (payload : bytes) (processed : Z)
    : option (bytes * Z * GC_Array) :=
  match fuel with
  | O => Some (payload, processed, a)
  | S fuel' =>
      if i =? end_idx then Some (payload, processed, a)
      else
        let e := gentry a i in
        if negb (processed + e_data_length e <=? packet_length) then None
        else copy_loop fuel' (clear_array_entry a i) (next_index i) end_idx packet_length
               (payload ++ slice 0 (e_data_length e) (default [] (e_data e)))
               (u16 (processed + e_data_length e))
  end.

(** [reassemble_packet]: the length returned, the payload, and the receive array
    afterwards.  [alloc] is the outcome of [malloc]. *)
Definition reassemble_packet (alloc : bool) (a : GC_Array) (message_id : Z) : option (Z * bytes * GC_Array) :=
  let end_idx := gcc_get_array_index (u64 (message_id - 1)) in
  match search_loop (S buffer_fuel) a end_idx end_idx 0 with
  | SearchAbort => None
  | SearchFail => Some (0, [], a)
  | SearchDone start_idx packet_length =>
      if packet_length =? 0 then Some (0, [], a)
      else if negb alloc then Some (0, [], a)
      else
        '(payload, processed, a) ← copy_loop buffer_fuel a (next_index start_idx) (next_index end_idx)
                                     packet_length [] 0;
        Some (processed, payload, a)
  end.

(** What the receiver does that others can see: packets given to the handler,
    acknowledgements handed to the network. *)
Inductive GC_Event :=
| Handled (packet_type : Z) (data : bytes)
| AckSent (type : Group_Message_Ack_Type) (message_id : Z) (packets : list GC_Sent).

(** The handler: from the connection, the packet type and the payload, whether
    it accepts the packet, and the connection of the sender's key afterwards
    ([None] when it is gone or marked for deletion). *)
Abbreviation GC_Handler := (GC_Connection → Z → bytes → bool * option GC_Connection).

(** [gcc_handle_packet_fragment].  [alloc] is the outcome of its allocation. *)
Definition gcc_handle_packet_fragment (handler : GC_Handler) (alloc : bool) (mono_time : Mono_Time)
    (gconn : GC_Connection) (chunk : option bytes) (length packet_type message_id : Z)
    : option (Z * option GC_Connection * list GC_Event) :=
  if 0 <? length then
    let '(stored, gconn) := store_in_recv_array alloc mono_time gconn chunk length packet_type message_id in
    if negb stored then Some (-1, Some gconn, [])
    else
      let gconn := gcc_set_recv_message_id gconn (u64 (received_message_id gconn + 1)) in
      Some (1, Some (gconn <| last_chunk_id := message_id |>), [])
  else
    '(processed_len, payload, a) ← reassemble_packet alloc (recv_array gconn) message_id;
    let gconn := gconn <| recv_array := a |> in
    if processed_len =? 0 then Some (-1, Some gconn, [])
    else
      let type := aget 0 payload 0 in
      let data := slice 1 (processed_len - 1) payload in
      let '(ok, gconn') := handler gconn type data in
      let ev := [Handled type data] in
      if negb ok then Some (-1, gconn', ev)
      else
        match gconn' with
        | None => Some (0, None, ev)
        | Some gconn =>
            let gconn := gcc_set_recv_message_id gconn (u64 (received_message_id gconn + 1)) in
            Some (0, Some (gconn <| last_chunk_id := 0 |>), ev)
        end.

Definition gcc_handle_received_message (alloc : bool) (mono_time : Mono_Time) (gconn : GC_Connection)
    (data : option bytes) (length packet_type message_id : Z) (direct_conn : bool) : Z * GC_Connection :=
  let gconn := if direct_conn then gconn <| last_received_direct_time := mono_time_get mono_time |> else gconn in
  if message_id <? u64 (received_message_id gconn + 1) then (0, gconn)
  else if packet_type =? GP_FRAGMENT then (3, gconn)
  else if u64 (received_message_id gconn + 1) <? message_id then
    let '(stored, gconn) := store_in_recv_array alloc mono_time gconn data length packet_type message_id in
    if negb stored then (-1, gconn) else (1, gconn)
  else (2, gcc_set_recv_message_id gconn (u64 (received_message_id gconn + 1))).

Section receive.
Context {NaCl : Sodium}.
Variable handler : GC_Handler.

(** [send_lossy_group_packet] of [group_chats.c]. *)
Definition send_lossy_group_packet (env : GC_Env) (link : GC_Link) (gconn : GC_Connection) (data : bytes)
    (length packet_type : Z) : option (bool * list GC_Sent) :=
  if negb (length <=? MAX_GC_PACKET_CHUNK_SIZE) then None
  else if negb (handshaked gconn) || pending_delete gconn then Some (false, [])
  else if length =? 0 then Some (false, [])
  else
    match gc_get_wrapped_packet_size length NET_PACKET_GC_LOSSY with
    | None => None
    | Some packet_size =>
        if negb (alloc_packet link) then Some (false, [])
        else
          match group_packet_wrap (alloc_wrap link) (alloc_wrap link) (alloc_wrap link) (self_public_key env)
                  (session_shared_key gconn) (link_nonce link) packet_size data length 0 packet_type
                  NET_PACKET_GC_LOSSY with
          | WrapError _ => Some (false, [])
          | WrapPacket packet => Some (gcc_send_packet env link gconn (Some packet) (u16 (zlen packet)))
          end
    end.

Definition ack_byte (type : Group_Message_Ack_Type) : Z :=
  match type with GR_ACK_RECV => 0 | GR_ACK_REQ => 1 end.

Definition send_ack (env : GC_Env) (link : GC_Link) (gconn : GC_Connection) (message_id : Z)
    (type : Group_Message_Ack_Type) : option (bool * GC_Connection * list GC_Event) :=
  let data := ack_byte type :: net_pack_u64 message_id in
  '(ok, sent) ← send_lossy_group_packet env link gconn data 9 GP_MESSAGE_ACK;
  Some (ok, gconn, [AckSent type message_id sent]).

Definition gc_send_message_ack (env : GC_Env) (link : GC_Link) (gconn : GC_Connection) (message_id : Z)
    (type : Group_Message_Ack_Type) : option (bool * GC_Connection * list GC_Event) :=
  if pending_delete gconn then Some (true, gconn, [])
  else
    match type with
    | GR_ACK_REQ =>
        let tm := mono_time_get (gc_time env) in
        if last_requested_packet_time gconn =? tm then Some (true, gconn, [])
        else send_ack env link (gconn <| last_requested_packet_time := tm |>) message_id type
    | GR_ACK_RECV => send_ack env link gconn message_id type
    end.

(** [handle_gc_message_ack]: a missing type byte value is ignored. *)
Definition handle_gc_message_ack (env : GC_Env) (link : GC_Link) (gconn : GC_Connection) (data : bytes)
    (length : Z) : option (Z * GC_Connection * list GC_Sent) :=
  if length <? 9 then Some (-1, gconn, [])
  else
    let message_id := net_unpack_u64 (drop 1 data) in
    let type := aget 0 data 0 in
    if type =? ack_byte GR_ACK_RECV then
      let '(ok, gconn) := gcc_handle_ack gconn message_id in
      Some (if ok then 0 else -2, gconn, [])
    else if negb (type =? ack_byte GR_ACK_REQ) then Some (0, gconn, [])
    else
      let tm := mono_time_get (gc_time env) in
      let idx := gcc_get_array_index message_id in
      let e := gentry (send_array gconn) idx in
      if e_message_id e =? message_id then
        '(ok, sent) ← gcc_encrypt_and_send_lossless_packet env link gconn (e_data e) (e_data_length e)
                        (e_message_id e) (e_packet_type e);
        if ok : bool then
          let e' := mkEntry (e_data e) (e_data_length e) (e_packet_type e) (e_message_id e)
                      (e_time_added e) tm in
          Some (0, gconn <| send_array := <[idx := e']> (send_array gconn) |>, sent)
        else Some (-3, gconn, sent)
      else Some (0, gconn, []).

(** [handle_gc_packet_fragment] of [group_chats.c].  The pointer [gconn] it
    uses at the end is taken to be the connection of the sender's key. *)
Definition handle_gc_packet_fragment (env : GC_Env) (link : GC_Link) (alloc : bool) (gconn : GC_Connection)
    (data : option bytes) (length packet_type message_id : Z)
    : option (bool * option GC_Connection * list GC_Event) :=
  let request id :=
    '(ok, gconn, ev) ← gc_send_message_ack env link gconn id GR_ACK_REQ; Some (ok, Some gconn, ev) in
  if negb (last_chunk_id gconn =? 0) && negb (message_id =? u64 (last_chunk_id gconn + 1)) then
    request (u64 (last_chunk_id gconn + 1))
  else if (last_chunk_id gconn =? 0) && negb (message_id =? u64 (received_message_id gconn + 1)) then
    request (u64 (received_message_id gconn + 1))
  else
    '(frag_ret, gconn', ev) ← gcc_handle_packet_fragment handler alloc (gc_time env) gconn data length
                                packet_type message_id;
    if frag_ret =? -1 then Some (false, gconn', ev)
    else
      match gconn' with
      | None => Some (true, None, ev)
      | Some gconn =>
          '(_, gconn, ev') ← (if frag_ret =? 0 then gc_send_message_ack env link gconn message_id GR_ACK_RECV
                              else Some (true, gconn, []));
          Some (true, Some (gconn <| last_received_packet_time := mono_time_get (gc_time env) |>), ev ++ ev')
      end.

(** [handle_gc_lossless_packet] after the packet was unwrapped: the
    connection is not marked for deletion, [data] has [len] bytes. *)
Definition handle_unwrapped (env : GC_Env) (link : GC_Link) (alloc : bool) (gconn : GC_Connection)
    (data : bytes) (len packet_type message_id : Z) (direct_conn : bool)
    : option (bool * option GC_Connection * list GC_Event) :=
  let is_invite_packet := (packet_type =? GP_INVITE_REQUEST) || (packet_type =? GP_INVITE_RESPONSE)
                          || (packet_type =? GP_INVITE_RESPONSE_REJECT) in
  if negb (handshaked gconn)
     && (negb (packet_type =? GP_HS_RESPONSE_ACK) && negb (packet_type =? GP_INVITE_REQUEST))
  then Some (false, Some gconn, [])
  else if (message_id =? 3) && is_invite_packet && (received_message_id gconn <=? 1)
  then Some (false, Some gconn, [])
  else
    let '(lossless_ret, gconn) :=
      gcc_handle_received_message alloc (gc_time env) gconn (Some data) len packet_type message_id direct_conn in
    if (packet_type =? GP_INVITE_REQUEST) && negb (handshaked gconn) then Some (true, Some gconn, [])
    else if lossless_ret <? 0 then Some (false, Some gconn, [])
    else if lossless_ret =? 0 then
      '(ok, gconn, ev) ← gc_send_message_ack env link gconn message_id GR_ACK_RECV;
      Some (ok, Some gconn, ev)
    else if lossless_ret =? 1 then
      '(ok, gconn, ev) ← gc_send_message_ack env link gconn (u64 (received_message_id gconn + 1)) GR_ACK_REQ;
      Some (ok, Some gconn, ev)
    else if lossless_ret =? 3 then
      handle_gc_packet_fragment env link alloc gconn (Some data) len packet_type message_id
    else
      let '(ret, gconn') := handler gconn packet_type (slice 0 len data) in
      let ev := [Handled packet_type (slice 0 len data)] in
      if negb ret then Some (false, gconn', ev)
      else
        match gconn' with
        | None => Some (true, None, ev)
        | Some gconn =>
            '(_, gconn, ev') ← gc_send_message_ack env link gconn message_id GR_ACK_RECV;
            Some (true, Some gconn, ev ++ ev')
        end.

(** [handle_gc_lossless_packet]; [gconn] is the connection of the sender's key. *)
Definition handle_gc_lossless_packet (env : GC_Env) (link : GC_Link) (alloc : bool)
    (gconn : option GC_Connection) (packet : bytes) (length : Z) (direct_conn : bool)
    : option (bool * option GC_Connection * list GC_Event) :=
  if length <? GC_MIN_LOSSLESS_PAYLOAD_SIZE then Some (false, gconn, [])
  else
    match gconn with
    | None => Some (false, None, [])
    | Some gconn =>
        if pending_delete gconn then Some (true, Some gconn, [])
        else if negb alloc then Some (false, Some gconn, [])
        else
          match group_packet_unwrap alloc alloc (session_shared_key gconn) true packet length with
          | UnwrapOverrun => None
          | UnwrapError _ => Some (false, Some gconn, [])
          | UnwrapData packet_type message_id data =>
              handle_unwrapped env link alloc gconn data (u16 (zlen data)) packet_type message_id direct_conn
          end
    end.

(** [process_recv_array_entry]: the entry is cleared before its message id is
    read for the acknowledgement. *)
Definition process_recv_array_entry (env : GC_Env) (link : GC_Link) (gconn : GC_Connection) (idx : Z)
    : option (bool * option GC_Connection * list GC_Event) :=
  let e := gentry (recv_array gconn) idx in
  let data := slice 0 (e_data_length e) (default [] (e_data e)) in
  let '(ret, gconn') := handler gconn (e_packet_type e) data in
  let ev := [Handled (e_packet_type e) data] in
  match gconn' with
  | None => Some (true, None, ev)
  | Some gconn =>
      let gconn := gconn <| recv_array := clear_array_entry (recv_array gconn) idx |> in
      let message_id := e_message_id (gentry (recv_array gconn) idx) in
      if negb ret then
        '(_, gconn, ev') ← gc_send_message_ack env link gconn message_id GR_ACK_REQ;
        Some (false, Some gconn, ev ++ ev')
      else
        '(_, gconn, ev') ← gc_send_message_ack env link gconn message_id GR_ACK_RECV;
        Some (true, Some (gcc_set_recv_message_id gconn (u64 (received_message_id gconn + 1))), ev ++ ev')
  end.

Definition gcc_check_recv_array (env : GC_Env) (link : GC_Link) (gconn : GC_Connection)
    : option (option GC_Connection * list GC_Event) :=
  if negb (last_chunk_id gconn =? 0) then Some (Some gconn, [])
  else
    let idx := u16 (u64 (received_message_id gconn + 1) mod GCC_BUFFER_SIZE) in
    if negb (array_entry_is_empty (gentry (recv_array gconn) idx)) then
      '(_, gconn, ev) ← process_recv_array_entry env link gconn idx; Some (gconn, ev)
    else Some (Some gconn, []).
End receive.

(** ** Retransmission and deletion *)

(** [gcc_mark_for_deletion]; [kill_tcp_connection_to] acts on the TCP
    connections, which are not part of the connection. *)
Definition gcc_mark_for_deletion (gconn : GC_Connection) (type : Group_Exit_Type) (part : option bytes)
    (length : Z) : GC_Connection :=
  if pending_delete gconn then gconn
  else
    let gconn := gconn <| pending_delete := true |>
                       <| exit_info := mkExit (part_message (exit_info gconn)) (exit_length (exit_info gconn)) type |> in
    match part with
    | Some p =>
        if (0 <? length) && (length <=? MAX_GC_PART_MESSAGE_SIZE)
        then gconn <| exit_info := mkExit (slice 0 length p ++ drop (Z.to_nat length) (part_message (exit_info gconn)))
                                     length type |>
        else gconn
    | None => gconn
    end.

Section resend.
Context {NaCl : Sodium}.

(** The loop of [gcc_resend_packets]. *)
Fixpoint resend_loop (fuel : nat) (env : GC_Env) (links : Z → GC_Link) (tm : Z) (gconn : GC_Connection)
    (i end_idx : Z) : option (GC_Connection * list GC_Sent) :=
  match fuel with
  | O => Some (gconn, [])
  | S fuel' =>
      if i =? end_idx then Some (gconn, [])
      else
        let e := gentry (send_array gconn) i in
        if array_entry_is_empty e || (tm =? e_last_send_try e) then
          resend_loop fuel' env links tm gconn (next_index i) end_idx
        else
          let delta := u64 (e_last_send_try e - e_time_added e) in
          let e' := mkEntry (e_data e) (e_data_length e) (e_packet_type e) (e_message_id e)
                      (e_time_added e) tm in
          let gconn := gconn <| send_array := <[i := e']> (send_array gconn) |> in
          '(_, sent) ← (if (1 <? delta) && is_power_of_2 delta
                        then gcc_encrypt_and_send_lossless_packet env (links (e_message_id e)) gconn (e_data e)
                               (e_data_length e) (e_message_id e) (e_packet_type e)
                        else Some (true, []));
          '(gconn, sent') ← resend_loop fuel' env links tm gconn (next_index i) end_idx;
          Some (gconn, sent ++ sent')
  end.

Definition gcc_resend_packets (env : GC_Env) (links : Z → GC_Link) (gconn : GC_Connection)
    : option (GC_Connection * list GC_Sent) :=
  let tm := mono_time_get (gc_time env) in
  let start := send_array_start gconn in
  let end_idx := u16 (send_message_id gconn mod GCC_BUFFER_SIZE) in
  let e := gentry (send_array gconn) start in
  if array_entry_is_empty e then Some (gconn, [])
  else if mono_time_is_timeout (gc_time env) (e_time_added e) GC_CONFIRMED_PEER_TIMEOUT then
    Some (gcc_mark_for_deletion gconn GC_EXIT_TYPE_TIMEOUT None 0, [])
  else resend_loop buffer_fuel env links tm gconn start end_idx.

Definition gcc_make_session_shared_key (gconn : GC_Connection) (sender_pk : bytes) : GC_Connection :=
  gconn <| session_shared_key :=
             default (session_shared_key gconn) (encrypt_precompute sender_pk (session_secret_key gconn)) |>.
End resend.

(** ** Lemmas on the arrays *)

Lemma buffer_fuel_val : Z.of_nat buffer_fuel = GCC_BUFFER_SIZE.
Proof. done. Qed.

Definition is_index (i : Z) : Prop := 0 <= i < GCC_BUFFER_SIZE.

Lemma get_array_index_mod id : gcc_get_array_index id = id mod 8192.
Proof. unfold gcc_get_array_index, GCC_BUFFER_SIZE. wrap_lia. Qed.

Lemma get_array_index_range id : is_index (gcc_get_array_index id).
Proof. rewrite get_array_index_mod. unfold is_index, GCC_BUFFER_SIZE. wrap_lia. Qed.

Lemma next_index_id id : next_index (gcc_get_array_index id) = gcc_get_array_index (id + 1).
Proof. rewrite !get_array_index_mod. unfold next_index, GCC_BUFFER_SIZE. wrap_lia. Qed.

Lemma prev_index_id id : prev_index (gcc_get_array_index id) = gcc_get_array_index (id - 1).
Proof.
  rewrite !get_array_index_mod. unfold prev_index, GCC_BUFFER_SIZE. destruct (0 <? _) eqn:?; wrap_lia.
Qed.

(** Two ids less than [GCC_BUFFER_SIZE] apart share a slot only when they are equal. *)
Lemma get_array_index_inj a b :
  - GCC_BUFFER_SIZE < a - b < GCC_BUFFER_SIZE → gcc_get_array_index a = gcc_get_array_index b → a = b.
Proof. rewrite !get_array_index_mod. unfold GCC_BUFFER_SIZE. wrap_lia. Qed.

Lemma get_array_index_u64 id : gcc_get_array_index (u64 id) = gcc_get_array_index id.
Proof. rewrite !get_array_index_mod. wrap_lia. Qed.

Lemma get_array_index_u16 id : gcc_get_array_index (u16 id) = gcc_get_array_index id.
Proof. rewrite !get_array_index_mod. wrap_lia. Qed.

Lemma gentry_insert_eq a i e : gentry (<[i := e]> a) i = e.
Proof. unfold gentry. by rewrite lookup_insert_eq. Qed.

Lemma gentry_insert_ne a i j e : i ≠ j → gentry (<[i := e]> a) j = gentry a j.
Proof. intros. unfold gentry. by rewrite lookup_insert_ne. Qed.

Lemma gentry_insert a i j e : gentry (<[i := e]> a) j = if decide (i = j) then e else gentry a j.
Proof. destruct (decide (i = j)) as [->|]; [apply gentry_insert_eq|by apply gentry_insert_ne]. Qed.

Lemma gentry_clear a i j : gentry (clear_array_entry a i) j = if decide (i = j) then empty_entry else gentry a j.
Proof. apply gentry_insert. Qed.

Lemma gentry_empty i : gentry ∅ i = empty_entry.
Proof. unfold gentry. by rewrite lookup_empty. Qed.

(** An entry as the code writes it, for the packet type and the payload [p]. *)
Definition entry_for (tm id : Z) (p : Z * bytes) : GC_Message_Array_Entry :=
  mkEntry (if 0 <? zlen p.2 then Some p.2 else None) (zlen p.2) p.1 id tm tm.

(** The packet an entry holds. *)
Definition entry_packet (e : GC_Message_Array_Entry) : Z * bytes :=
  (e_packet_type e, slice 0 (e_data_length e) (default [] (e_data e))).

Lemma entry_packet_for tm id p : entry_packet (entry_for tm id p) = p.
Proof.
  destruct p as [t d]. unfold entry_packet, entry_for. cbn. f_equal.
  destruct (0 <? zlen d) eqn:E; [by apply slice_all|]. destruct d; [done|].
  rewrite zlen_cons in E. pose proof (zlen_nonneg d). lia.
Qed.

Lemma create_array_entry_spec alloc mt data len t id e :
  create_array_entry alloc mt (Some data) len t id = Some e → len = zlen data →
  e = entry_for (mono_time_get mt) id (t, data).
Proof.
  unfold create_array_entry, entry_for. cbn. intros H ->.
  destruct (0 <? zlen data) eqn:E; [|by simplify_eq]. destruct alloc; [|done]. simpl in H. simplify_eq.
  by rewrite slice_all.
Qed.

Lemma create_array_entry_empty alloc mt data t id :
  create_array_entry alloc mt data 0 t id = Some (entry_for (mono_time_get mt) id (t, [])).
Proof. done. Qed.
