(* ===== verification/GroupSend.v ===== *)
(** * GroupSend: the sending half of a group connection

    The send array of [GroupConnection] implements a set of unacknowledged
    packets indexed by message id: sending a message adds its packets (one, or
    its fragments) under the next ids or changes nothing, an acknowledgement
    takes exactly its packet out, and the periodic retransmission changes
    nothing.  Two theorems show where the index arithmetic of the code breaks
    this. *)
From S2P Require Import Prelude Util MonoTime CryptoCore Network GroupPacket GroupConnection.

#[local] Opaque buffer_fuel.

(** ** Specification *)

(** The payload after the first fragment, in pieces of [MAX_GC_PACKET_CHUNK_SIZE]. *)
Fixpoint chunks (fuel : nat) (d : bytes) : list bytes :=
  match fuel with
  | O => []
  | S fuel' =>
      match d with
      | [] => []
      | _ => take 1372 d :: chunks fuel' (drop 1372 d)
      end
  end.

(** The fragments of a large packet: the packet type and the first bytes, the
    pieces, and an empty fragment that ends the sequence. *)
Definition fragments (t : Z) (d : bytes) : list bytes :=
  (t :: take 1371 d) :: chunks (length d) (drop 1371 d) ++ [[]].

(** The packets (type and payload) a message is sent as. *)
Definition packets_of (m : Z * bytes) : list (Z * bytes) :=
  if zlen m.2 <=? MAX_GC_PACKET_CHUNK_SIZE then [m] else pair GP_FRAGMENT <$> fragments m.1 m.2.

(** Packets [ps] under the ids from [n] on. *)
Fixpoint insert_from (n : Z) (ps : list (Z * bytes)) (U : gmap Z (Z * bytes)) : gmap Z (Z * bytes) :=
  match ps with
  | [] => U
  | p :: ps' => insert_from (n + 1) ps' (<[n := p]> U)
  end.

(** The unacknowledged packet with id [m]. *)
Definition unacked (c : GC_Connection) (m : Z) : option (Z * bytes) :=
  let e := gentry (send_array c) (gcc_get_array_index m) in
  if array_entry_is_empty e then None
  else if e_message_id e =? m then Some (entry_packet e) else None.

(** A connection implements the next id [n] and the unacknowledged packets [U]. *)
Record srel (c : GC_Connection) (n : Z) (U : gmap Z (Z * bytes)) : Prop := {
  srel_next : send_message_id c = n;
  srel_unacked : ∀ m, unacked c m = U !! m;
  srel_slot : ∀ i, is_index i → array_entry_is_empty (gentry (send_array c) i) = false →
    gcc_get_array_index (e_message_id (gentry (send_array c) i)) = i;
  srel_len : ∀ i, 0 <= e_data_length (gentry (send_array c) i) <= MAX_GC_PACKET_CHUNK_SIZE;
  srel_start : is_index (send_array_start c)
}.

(** ** Adding packets *)

(** The connection after one packet was added. *)
Definition push (tm : Z) (c : GC_Connection) (p : Z * bytes) : GC_Connection :=
  c <| send_array := <[gcc_get_array_index (send_message_id c) := entry_for tm (send_message_id c) p]> (send_array c) |>
    <| send_message_id := u64 (send_message_id c + 1) |>.

(** [ps] are added one after the other, each into an empty slot. *)
Inductive pushed (tm : Z) : GC_Connection → list (Z * bytes) → GC_Connection → Prop :=
| pushed_nil c : pushed tm c [] c
| pushed_cons c p ps c' :
    array_entry_is_empty (gentry (send_array c) (gcc_get_array_index (send_message_id c))) = true →
    pushed tm (push tm c p) ps c' → pushed tm c (p :: ps) c'.

Lemma pushed_app tm c ps c' qs c'' : pushed tm c ps c' → pushed tm c' qs c'' → pushed tm c (ps ++ qs) c''.
Proof. induction 1; intros; [done|]. cbn [app]. constructor; auto. Qed.

Lemma add_to_send_array_cases alloc mt c data len t b c' :
  (data = Some (default [] data) ∨ len = 0) → len = zlen (default [] data) →
  add_to_send_array alloc mt c data len t = (b, c') →
  (b = true ∧ pushed (mono_time_get mt) c [(t, default [] data)] c') ∨ (b = false ∧ c' = c).
Proof.
  intros Hd Hl. unfold add_to_send_array.
  destruct (_ =? _); [intros [= <- <-]; by right|].
  destruct (array_entry_is_empty _) eqn:E; cbn [negb]; [|intros [= <- <-]; by right].
  destruct (create_array_entry _ _ _ _ _ _) as [e|] eqn:Ec; intros [= <- <-]; [left|by right].
  split; [done|]. constructor; [done|].
  assert (e = entry_for (mono_time_get mt) (send_message_id c) (t, default [] data)) as ->; [|constructor].
  destruct Hd as [Hd| ->].
  - rewrite Hd in Ec. by eapply create_array_entry_spec.
  - destruct data as [d|]; cbn [default] in *; unfold id in *.
    + by eapply create_array_entry_spec.
    + rewrite create_array_entry_empty in Ec. by simplify_eq.
Qed.

Lemma chunks_length fuel : ∀ d, (length (chunks fuel d) <= length d / 1372 + 1)%nat.
Proof.
  induction fuel as [|fuel IH]; intros d; [apply Nat.le_0_l|].
  destruct d as [|b d]; [apply Nat.le_0_l|]. cbn [chunks]. rewrite length_cons. specialize (IH (drop 1372 (b :: d))). rewrite length_drop in IH.
  destruct (Nat.le_gt_cases 1372 (length (b :: d))) as [Hg|Hg].
  - replace (length (b :: d) / 1372)%nat with ((length (b :: d) - 1372) / 1372 + 1)%nat; [lia|].
    replace (length (b :: d)) with ((length (b :: d) - 1372) + 1 * 1372)%nat at 2 by lia.
    rewrite Nat.div_add by lia. lia.
  - rewrite drop_ge by lia. destruct fuel; simpl; lia.
Qed.

Lemma length_packets_of m : zlen m.2 < 2 ^ 16 → (length (packets_of m) <= 50)%nat.
Proof.
  intros Hm. unfold packets_of. destruct (_ <=? _); [simpl; lia|].
  rewrite length_fmap. unfold fragments. cbn [length]. rewrite length_app. cbn [length].
  pose proof (chunks_length (length m.2) (drop 1371 m.2)) as Hc. rewrite length_drop in Hc.
  assert ((length m.2 - 1371) / 1372 < 47)%nat; [|lia].
  apply Nat.Div0.div_lt_upper_bound. unfold zlen in Hm. lia.
Qed.

Lemma chunks_sizes fuel : ∀ d, Forall (λ p, 0 < zlen p <= 1372) (chunks fuel d).
Proof.
  induction fuel as [|fuel IH]; intros d; [constructor|]. destruct d as [|b d]; [constructor|].
  cbn [chunks]. constructor; [|apply IH]. unfold zlen. rewrite length_take, length_cons. lia.
Qed.

Lemma packets_of_sizes m : Forall (λ p, zlen p.2 <= MAX_GC_PACKET_CHUNK_SIZE) (packets_of m).
Proof.
  unfold packets_of, MAX_GC_PACKET_CHUNK_SIZE. destruct (_ <=? _) eqn:E; [constructor; [lia|constructor]|].
  apply Forall_fmap. unfold fragments. constructor; [|apply Forall_app; split].
  - cbn [snd compose]. unfold zlen. rewrite length_cons, length_take. lia.
  - eapply Forall_impl; [|apply chunks_sizes]. cbn. lia.
  - constructor; [|constructor]. done.
Qed.

Lemma chunks_fuel fuel : ∀ d, (length d <= fuel)%nat → chunks fuel d = chunks (length d) d.
Proof.
  induction fuel as [fuel IH] using lt_wf_ind. intros d Hd.
  destruct d as [|b d]; [by destruct fuel|]. destruct fuel as [|fuel]; [simpl in Hd; lia|].
  cbn [length chunks]. f_equal. set (d' := drop 1372 (b :: d)).
  assert (length d' <= length d)%nat by (unfold d'; rewrite length_drop, length_cons; lia).
  rewrite length_cons in Hd. rewrite (IH fuel) by lia.
  destruct (decide (length d = fuel)) as [->|]; [by rewrite (IH fuel) by lia|]. symmetry. apply IH; lia.
Qed.

(** The loop adds the pieces in order, all of them when it succeeds. *)
Lemma fragment_loop_pushed fuel alloc mt data len : len = zlen data → len < 2 ^ 16 → ∀ c processed b c',
  0 <= processed → len - processed <= Z.of_nat fuel →
  fragment_loop fuel alloc mt c data len processed = (b, c') →
  ∃ ps, pushed (mono_time_get mt) c ps c' ∧
    ps `prefix_of` (pair GP_FRAGMENT <$> chunks fuel (drop (Z.to_nat processed) data)) ∧
    (b = true → ps = pair GP_FRAGMENT <$> chunks fuel (drop (Z.to_nat processed) data)).
Proof.
  intros -> Hlen. induction fuel as [|fuel IH]; intros c processed b c' Hp Hf; cbn [fragment_loop].
  { intros [= <- <-]. exists []. split; [constructor|]. split; [apply prefix_nil|done]. }
  destruct (processed <? zlen data) eqn:E.
  2: { intros [= <- <-]. rewrite drop_ge by (unfold zlen in *; lia). cbn [chunks].
       exists []. split; [constructor|]. split; [apply prefix_nil|done]. }
  rewrite min_u16_spec, u16_small by lia. unfold MAX_GC_PACKET_CHUNK_SIZE.
  set (n := Z.min 1372 (zlen data - processed)).
  assert (slice processed n data = take 1372 (drop (Z.to_nat processed) data)) as Es.
  { unfold slice, n, zlen in *. destruct (Z.min_spec 1372 (Z.of_nat (length data) - processed)) as [[? ->]|[? ->]];
      [done|]. rewrite (take_ge _ 1372), take_ge; rewrite ?length_drop; (done || lia). }
  assert (zlen (slice processed n data) = n) as Hn by (apply length_slice; lia).
  destruct (add_to_send_array _ _ _ _ _ _) as [added c1] eqn:Ea.
  apply add_to_send_array_cases in Ea; [|by left|exact (eq_sym Hn)].
  assert (∃ x l, drop (Z.to_nat processed) data = x :: l) as (x & l & Ex).
  { destruct (drop (Z.to_nat processed) data) eqn:Ed; [|by eauto].
    apply (f_equal length) in Ed. rewrite length_drop in Ed. unfold zlen in *. simpl in Ed. lia. }
  assert (chunks (S fuel) (drop (Z.to_nat processed) data)
    = slice processed n data :: chunks fuel (drop 1372 (drop (Z.to_nat processed) data))) as ->.
  { rewrite Es, Ex. done. }
  rewrite fmap_cons.
  destruct Ea as [[-> Hp1]|[-> ->]].
  2: { intros [= <- <-]. exists []. split; [constructor|]. split; [apply prefix_nil|done]. }
  rewrite u16_small by lia. intros Hloop.
  destruct (decide (n = 1372)) as [Hn1|Hn1].
  - apply IH in Hloop as (ps & Hps & Hpre & Heq); [|lia|lia].
    replace (Z.to_nat (processed + n)) with (Z.to_nat processed + 1372)%nat in * by lia.
    rewrite <- drop_drop in Hpre, Heq. exists ((GP_FRAGMENT, slice processed n data) :: ps).
    split; [by apply (pushed_app _ _ [_] _ ps _ Hp1)|]. split; [by apply prefix_cons|].
    intros Hb. by rewrite Heq.
  - assert (processed + n = zlen data) as E2 by lia.
    assert (c' = c1 ∧ b = true) as [-> ->].
    { destruct fuel; cbn [fragment_loop] in Hloop; [by simplify_eq|]. rewrite E2, Z.ltb_irrefl in Hloop. by simplify_eq. }
    assert (chunks fuel (drop 1372 (drop (Z.to_nat processed) data)) = []) as ->.
    { rewrite drop_ge; [by destruct fuel|]. rewrite length_drop. unfold zlen in *. lia. }
    exists [(GP_FRAGMENT, slice processed n data)]. done.
Qed.

(** ** The simulation *)

Lemma srel_push tm c n U p :
  srel c n U → array_entry_is_empty (gentry (send_array c) (gcc_get_array_index n)) = true →
  tm ≠ 0 → 0 <= n → n + 1 < 2 ^ 64 → zlen p.2 <= MAX_GC_PACKET_CHUNK_SIZE →
  srel (push tm c p) (n + 1) (<[n := p]> U).
Proof.
  intros [Hn HU Hs Hl Hst] He Htm H0 Hb Hp. unfold push. rewrite Hn.
  assert (array_entry_is_empty (entry_for tm n p) = false) as Hne by (change ((tm =? 0) = false); lia).
  split.
  - unfold_gset. apply u64_small; lia.
  - intros m. unfold unacked in *. unfold_gset. rewrite gentry_insert.
    destruct (decide (gcc_get_array_index n = gcc_get_array_index m)) as [E|E].
    + rewrite Hne. cbn [entry_for e_message_id]. destruct (Z.eqb_spec n m) as [<-|Hnm].
      * by rewrite lookup_insert_eq, entry_packet_for.
      * rewrite lookup_insert_ne by done. rewrite <- HU, <- E, He. done.
    + rewrite lookup_insert_ne by (by intros ->). apply HU.
  - unfold_gset. intros i Hi. rewrite gentry_insert.
    destruct (decide (gcc_get_array_index n = i)) as [<-|]; [done|by apply Hs].
  - unfold_gset. intros i. rewrite gentry_insert. destruct (decide _); [|done].
    cbn. pose proof (zlen_nonneg p.2). lia.
  - done.
Qed.

Lemma srel_pushed tm c ps c' : pushed tm c ps c' → ∀ n U,
  srel c n U → tm ≠ 0 → 0 <= n → n + zlen ps < 2 ^ 64 →
  Forall (λ p, zlen p.2 <= MAX_GC_PACKET_CHUNK_SIZE) ps →
  srel c' (n + zlen ps) (insert_from n ps U) ∧ ∀ k, 0 <= k < zlen ps → U !! (n + k) = None.
Proof.
  induction 1 as [c|c p ps c' He _ IH]; intros n U HR Htm H0 Hb HF.
  { change (zlen []) with 0. rewrite Z.add_0_r. split; [done|lia]. }
  rewrite zlen_cons in *. pose proof (zlen_nonneg ps). inversion HF; subst.
  pose proof (srel_next _ _ _ HR) as <-.
  assert (U !! send_message_id c = None) as HU.
  { rewrite <- (srel_unacked _ _ _ HR). unfold unacked. by rewrite He. }
  destruct (IH (send_message_id c + 1) (<[send_message_id c := p]> U)) as [HR' HU']; try done; [apply srel_push; (done || lia)|lia|lia|].
  split; [by replace (send_message_id c + (zlen ps + 1)) with (send_message_id c + 1 + zlen ps) by lia|].
  intros k Hk. destruct (decide (k = 0)) as [->|]; [by rewrite Z.add_0_r|].
  specialize (HU' (k - 1) ltac:(lia)). rewrite lookup_insert_ne in HU' by lia.
  by replace (send_message_id c + k) with (send_message_id c + 1 + (k - 1)) by lia.
Qed.

(** Only the next id and the send array matter. *)
Lemma srel_ext c n U c' n' :
  srel c n U → send_array c' = send_array c → send_message_id c' = n' →
  (is_index (send_array_start c) → is_index (send_array_start c')) → srel c' n' U.
Proof.
  intros [H1 H2 H3 H4 H5] Ha Hn Hi. split; [done|..|by apply Hi]; unfold unacked in *; rewrite Ha;
    [exact H2|exact H3|exact H4].
Qed.

(** An empty send array holds no unacknowledged packet. *)
Lemma srel_empty c n :
  send_message_id c = n → send_array c = ∅ → is_index (send_array_start c) → srel c n ∅.
Proof.
  intros Hn Ha Hs. split; unfold unacked; rewrite ?Ha; [done|..|done].
  - intros m. by rewrite gentry_empty, lookup_empty.
  - intros i Hi. by rewrite gentry_empty.
  - intros i. rewrite gentry_empty. unfold MAX_GC_PACKET_CHUNK_SIZE. cbn. lia.
Qed.

(** *** Rollback *)

Fixpoint delete_from (n : Z) (k : nat) (U : gmap Z (Z * bytes)) : gmap Z (Z * bytes) :=
  match k with
  | O => U
  | S k' => delete_from (n + 1) k' (delete n U)
  end.

Lemma lookup_delete_from k : ∀ n U m,
  delete_from n k U !! m = if decide (n <= m < n + Z.of_nat k) then None else U !! m.
Proof.
  induction k as [|k IH]; intros n U m; cbn [delete_from]; [by rewrite decide_False by lia|]. rewrite IH.
  destruct (decide (n = m)) as [->|].
  - rewrite lookup_delete_eq, (decide_True (P := m <= m < _)) by lia. by destruct (decide _).
  - rewrite lookup_delete_ne by done. destruct (decide _), (decide _); (done || lia).
Qed.

Lemma lookup_insert_from ps : ∀ n U m,
  insert_from n ps U !! m = if decide (n <= m < n + zlen ps) then ps !! Z.to_nat (m - n) else U !! m.
Proof.
  induction ps as [|p ps IH]; intros n U m; cbn [insert_from].
  { rewrite decide_False; [done|]. change (zlen []) with 0. lia. }
  rewrite IH, zlen_cons. pose proof (zlen_nonneg ps). destruct (decide (n = m)) as [->|].
  - rewrite lookup_insert_eq, decide_False, decide_True by lia. by rewrite Z.sub_diag.
  - rewrite lookup_insert_ne by done. destruct (decide _), (decide _); try (done || lia).
    replace (Z.to_nat (m - n)) with (S (Z.to_nat (m - (n + 1)))) by lia. done.
Qed.

Lemma delete_insert_from ps n U :
  (∀ k, 0 <= k < zlen ps → U !! (n + k) = None) → delete_from n (length ps) (insert_from n ps U) = U.
Proof.
  intros HU. apply map_eq. intros m. rewrite lookup_delete_from, lookup_insert_from. unfold zlen in *.
  destruct (decide _); [|done]. rewrite <- (HU (m - n)) by lia. f_equal. lia.
Qed.

(** Clearing the slot that holds packet [m] takes it out of the set. *)
Lemma srel_clear c n U m p :
  srel c n U → U !! m = Some p →
  srel (c <| send_array := clear_array_entry (send_array c) (gcc_get_array_index m) |>) n (delete m U).
Proof.
  intros [Hn HU Hs Hl Hst] Hm. split; [done|..|done].
  - intros m'. pose proof (HU m) as HUm. rewrite Hm in HUm. pose proof (HU m') as HUm'.
    unfold unacked in *. unfold_gset. rewrite gentry_clear.
    destruct (decide (gcc_get_array_index m = gcc_get_array_index m')) as [E|E].
    + cbn. destruct (decide (m = m')) as [->|]; [by rewrite lookup_delete_eq|].
      rewrite lookup_delete_ne by done. rewrite <- HUm', <- E.
      destruct (array_entry_is_empty _); [done|]. destruct (Z.eqb_spec (e_message_id (gentry (send_array c) (gcc_get_array_index m))) m) as [->|]; [|done].
      by replace (m =? m') with false by lia.
    + rewrite lookup_delete_ne by (by intros ->). done.
  - unfold_gset. intros i Hi. rewrite gentry_clear. destruct (decide _); [done|]. by apply Hs.
  - unfold_gset. intros i. rewrite gentry_clear. destruct (decide _); [|done].
    unfold MAX_GC_PACKET_CHUNK_SIZE. cbn. lia.
Qed.

Lemma srel_clear_range k : ∀ fuel c n U m,
  srel c n U → (∀ j, 0 <= j < Z.of_nat k → is_Some (U !! (m + j))) → (k <= fuel)%nat → Z.of_nat k < GCC_BUFFER_SIZE →
  srel (c <| send_array := clear_range_loop fuel (send_array c) (gcc_get_array_index m)
               (gcc_get_array_index (m + Z.of_nat k)) |>) n (delete_from m k U).
Proof.
  induction k as [|k IH]; intros fuel c n U m HR Hj Hf Hk; cbn [delete_from].
  { rewrite Z.add_0_r. destruct fuel; cbn [clear_range_loop]; rewrite ?Z.eqb_refl; by destruct HR. }
  destruct fuel as [|fuel]; [lia|]. cbn [clear_range_loop].
  destruct (Z.eqb_spec (gcc_get_array_index m) (gcc_get_array_index (m + Z.of_nat (S k)))) as [E|_].
  { apply get_array_index_inj in E; [lia|unfold GCC_BUFFER_SIZE in *; lia]. }
  rewrite next_index_id. destruct (Hj 0) as [p Hp]; [lia|]. rewrite Z.add_0_r in Hp.
  pose proof (srel_clear c n U m p HR Hp) as HR'. eapply (IH fuel _ _ _ (m + 1)) in HR'; [|..]; try lia.
  - replace (m + 1 + Z.of_nat k) with (m + Z.of_nat (S k)) in HR' by lia. exact HR'.
  - intros j Hj'. rewrite lookup_delete_ne by lia. replace (m + 1 + j) with (m + (j + 1)) by lia. apply Hj. lia.
Qed.

(** When adding fails half way, what was added is taken out again. *)
Lemma srel_rollback tm c ps c' n U :
  pushed tm c ps c' → srel c n U → tm ≠ 0 → 0 <= n < 2 ^ 16 → zlen ps < GCC_BUFFER_SIZE →
  Forall (λ p, zlen p.2 <= MAX_GC_PACKET_CHUNK_SIZE) ps →
  srel (clear_send_queue_id_range c' (u16 n) (send_message_id c')) n U.
Proof.
  intros Hp HR Htm Hn Hps HF. unfold GCC_BUFFER_SIZE in *.
  destruct (srel_pushed _ _ _ _ Hp n U) as [HR' HU]; try done; try lia.
  rewrite (srel_next _ _ _ HR'). unfold clear_send_queue_id_range. rewrite u16_small by lia.
  eapply (srel_clear_range (length ps) buffer_fuel c' _ _ n) in HR'; [|..].
  - rewrite delete_insert_from in HR' by done. 
    eapply srel_ext; [exact HR'|..]. { unfold_gset. unfold zlen. reflexivity. }
    + reflexivity.
    + intros H. exact H.
  - intros j Hj. rewrite lookup_insert_from. unfold zlen in *. rewrite decide_True by lia.
    apply lookup_lt_is_Some_2. lia.
  - pose proof buffer_fuel_val. unfold GCC_BUFFER_SIZE, zlen in *. lia.
  - unfold zlen, GCC_BUFFER_SIZE in *. lia.
Qed.

(** *** Acknowledgements and retransmission *)

Lemma next_index_range i : is_index (next_index i).
Proof. unfold next_index, is_index, GCC_BUFFER_SIZE. wrap_lia. Qed.

Lemma ack_loop_range fuel a end_idx : ∀ start idx, is_index start → is_index (ack_loop fuel a end_idx start idx).
Proof.
  induction fuel as [|fuel IH]; intros start idx Hs; cbn [ack_loop]; [done|].
  destruct (_ && _); [|done]. apply IH, next_index_range.
Qed.

Lemma ack_loop_stop fuel a end_idx start idx : start = end_idx → ack_loop fuel a end_idx start idx = start.
Proof. intros ->. destruct fuel; cbn [ack_loop]; [done|]. by rewrite Z.eqb_refl, andb_false_r. Qed.

Lemma srel_handle_ack c n U m b c' :
  srel c n U → gcc_handle_ack c m = (b, c') → srel c' n (delete m U) ∧ (b = false → U !! m = None).
Proof.
  intros HR. pose proof (srel_unacked _ _ _ HR m) as HU. unfold unacked in HU. unfold gcc_handle_ack.
  destruct (array_entry_is_empty _).
  { intros [= <- <-]. by rewrite delete_id. }
  destruct (_ =? m); cbn [negb].
  2: { intros [= <- <-]. by rewrite delete_id. }
  pose proof (srel_clear c n U m _ HR (eq_sym HU)) as HR'.
  destruct (_ =? send_array_start _); intros [= <- <-]; (split; [|done]); [|done].
  eapply srel_ext; [exact HR'|done|by rewrite <- (srel_next _ _ _ HR)|]. intros Hi. unfold_gset.
  by apply ack_loop_range.
Qed.

(** Changing when an entry was last sent changes nothing. *)
Lemma srel_touch c n U i tm :
  srel c n U → is_index i →
  let e := gentry (send_array c) i in
  srel (c <| send_array := <[i := mkEntry (e_data e) (e_data_length e) (e_packet_type e) (e_message_id e)
                                    (e_time_added e) tm]> (send_array c) |>) n U.
Proof.
  intros [Hn HU Hs Hl Hst] Hi e. split; [done|..|done].
  - intros m. rewrite <- HU. unfold unacked. unfold_gset. rewrite gentry_insert.
    destruct (decide _) as [<-|]; done.
  - unfold_gset. intros j Hj. rewrite gentry_insert. destruct (decide _) as [<-|]; [by apply Hs|by apply Hs].
  - unfold_gset. intros j. rewrite gentry_insert. destruct (decide _) as [<-|]; [apply Hl|apply Hl].
Qed.

Section simulation.
Context {NaCl : Sodium}.

Lemma encrypt_and_send_some env link c data len id t :
  0 <= len <= MAX_GC_PACKET_CHUNK_SIZE →
  is_Some (gcc_encrypt_and_send_lossless_packet env link c data len id t).
Proof.
  intros Hl. unfold gcc_encrypt_and_send_lossless_packet. rewrite wrapped_packet_size by done.
  destruct (alloc_packet link); cbn [negb]; [|done]. by destruct (group_packet_wrap _ _ _ _ _ _ _ _ _ _ _ _).
Qed.

Lemma srel_resend_loop fuel env links tm : ∀ c n U i end_idx,
  srel c n U → is_index i →
  ∃ c' sent, resend_loop fuel env links tm c i end_idx = Some (c', sent) ∧ srel c' n U.
Proof.
  induction fuel as [|fuel IH]; intros c n U i end_idx HR Hi; cbn [resend_loop]; [by eauto|].
  destruct (i =? end_idx); [by eauto|]. pose proof (next_index_range i) as Hi'.
  destruct (array_entry_is_empty (gentry (send_array c) i)) eqn:Ee; cbn [orb]; [by apply IH|].
  destruct (tm =? _); [by apply IH|].
  pose proof (srel_touch c n U i tm HR Hi) as HR'. cbn zeta in HR'.
  destruct (IH _ _ _ (next_index i) end_idx HR' Hi') as (c' & sent & -> & HR'').
  pose proof (srel_len _ _ _ HR i) as Hlen.
  destruct (_ && _); [|by eauto].
  edestruct encrypt_and_send_some as [[b s] ->]; [exact Hlen|]. by eauto.
Qed.

Lemma srel_resend env links c n U :
  srel c n U →
  ∃ c' sent, gcc_resend_packets env links c = Some (c', sent) ∧ srel c' n U.
Proof.
  intros HR. unfold gcc_resend_packets. destruct (array_entry_is_empty _); [by eauto|].
  destruct (mono_time_is_timeout _ _ _); [|by apply srel_resend_loop; [|apply (srel_start _ _ _ HR)]].
  do 2 eexists. split; [done|]. rewrite <- (srel_next _ _ _ HR). unfold gcc_mark_for_deletion.
  destruct (pending_delete c); (eapply srel_ext; [exact HR|done..]).
Qed.

(** *** Sending *)

(** Fragments in consecutive slots are all sent. *)
Lemma send_fragments_loop_ok env links c n U k : srel c n U → ∀ fuel m,
  (∀ j, 0 <= j < Z.of_nat k → ∃ d, U !! (m + j) = Some (GP_FRAGMENT, d)) →
  Z.of_nat k < GCC_BUFFER_SIZE →
  ∃ sent, send_fragments_loop fuel env links c (gcc_get_array_index m) (gcc_get_array_index (m + Z.of_nat k))
          = Some (true, sent).
Proof.
  intros HR. induction k as [|k IH]; intros fuel m HU Hk.
  { rewrite Z.add_0_r. destruct fuel; cbn [send_fragments_loop]; rewrite ?Z.eqb_refl; by eauto. }
  destruct fuel as [|fuel]; cbn [send_fragments_loop]; [by eauto|].
  destruct (_ =? _); [by eauto|]. destruct (HU 0) as [d Hd]; [lia|]. rewrite Z.add_0_r in Hd.
  rewrite <- (srel_unacked _ _ _ HR) in Hd. unfold unacked in Hd.
  destruct (array_entry_is_empty _) eqn:Ee; [done|]. destruct (_ =? m); [|done]. injection Hd as Ht _.
  rewrite Ht, Z.eqb_refl. cbn [negb].
  pose proof (srel_len _ _ _ HR (gcc_get_array_index m)) as Hlen.
  edestruct encrypt_and_send_some as [[b s] ->]; [exact Hlen|]. rewrite next_index_id.
  destruct (IH fuel (m + 1)) as [sent Hs]; [|lia|].
  - intros j Hj. replace (m + 1 + j) with (m + (j + 1)) by lia. apply HU. lia.
  - replace (m + 1 + Z.of_nat k) with (m + Z.of_nat (S k)) in Hs by lia.
    eexists. cbn. rewrite Hs. done.
Qed.

(** The fragments are added in order, or nothing is left of them. *)
Lemma send_fragments_cases env alloc links c n U t d :
  srel c n U → mono_time_get (gc_time env) ≠ 0 → 0 <= n → n + 50 < 2 ^ 64 →
  MAX_GC_PACKET_CHUNK_SIZE < zlen d < 2 ^ 16 →
  ∃ ok c' sent,
    gcc_send_lossless_packet_fragments env alloc links c (Some d) (zlen d) t = Some (ok, c', sent) ∧
    if ok : bool then pushed (mono_time_get (gc_time env)) c (packets_of (t, d)) c'
    else (c' = c ∧ (add_to_send_array (alloc n) (gc_time env) c (Some (t :: slice 0 1371 d)) 1372 GP_FRAGMENT).1 = false)
         ∨ ∃ ps c1, pushed (mono_time_get (gc_time env)) c ps c1 ∧ ps `prefix_of` packets_of (t, d) ∧
           ps ≠ [] ∧ c' = clear_send_queue_id_range c1 (u16 n) (send_message_id c1).
Proof.
  intros HR Htm Hn Hn' Hd. set (tm := mono_time_get (gc_time env)) in *.
  pose proof (length_packets_of (t, d) ltac:(simpl; lia)) as Hlen.
  pose proof (packets_of_sizes (t, d)) as Hsz. unfold MAX_GC_PACKET_CHUNK_SIZE in Hd.
  assert (packets_of (t, d) = [(GP_FRAGMENT, t :: slice 0 1371 d)]
    ++ (pair GP_FRAGMENT <$> chunks (Z.to_nat (zlen d)) (drop (Z.to_nat 1371) d)) ++ [(GP_FRAGMENT, [])]) as Hps.
  { unfold packets_of, MAX_GC_PACKET_CHUNK_SIZE. cbn [snd fst]. replace (zlen d <=? 1372) with false by lia.
    unfold fragments. rewrite fmap_cons, fmap_app. unfold zlen. by rewrite Nat2Z.id. }
  unfold gcc_send_lossless_packet_fragments, MAX_GC_PACKET_CHUNK_SIZE. change (1372 - 1) with 1371. replace (zlen d <=? 1372) with false by lia.
  rewrite (srel_next _ _ _ HR).
  destruct (add_to_send_array _ _ c _ _ _) as [b1 c1] eqn:E1.
  apply add_to_send_array_cases in E1 as [[-> H1]|[-> ->]]; [..|by left|]; cbn [negb]; [|exists false, c, []; split; [done|by left]|].
  2: { cbn [default]. unfold id. rewrite zlen_cons, length_slice by lia. done. }
  cbn [default] in H1; unfold id in H1.
  destruct (fragment_loop _ _ _ c1 _ _ _) as [b2 c2] eqn:E2.
  apply fragment_loop_pushed in E2 as (ps & H2 & Hpre & Heq); [|done|lia|lia|lia].
  pose proof (pushed_app _ _ _ _ _ _ H1 H2) as H12. fold tm in H12.
  destruct b2; cbn [negb].
  2: { do 3 eexists. split; [done|]. right. do 2 eexists. split; [exact H12|]. split_and!; [|done..].
       rewrite Hps. by apply prefix_app, prefix_app_r. }
  rewrite Heq in * by done. clear Hpre.
  destruct (add_to_send_array _ _ c2 _ _ _) as [b3 c3] eqn:E3.
  apply add_to_send_array_cases in E3 as [[-> H3]|[-> ->]]; [..|by right|done]; cbn [negb].
  2: { do 3 eexists. split; [done|]. right. do 2 eexists. split; [exact H12|]. split_and!; [|done..].
       rewrite Hps. by apply prefix_app, prefix_app_r. }
  pose proof (pushed_app _ _ _ _ _ _ H12 H3) as Hall. rewrite <- app_assoc in Hall.
  cbn [default] in Hall. rewrite <- Hps in Hall.
  destruct (srel_pushed _ _ _ _ Hall n U) as [HR3 _]; try done; [unfold zlen; lia|].
  rewrite get_array_index_u16, (srel_next _ _ _ HR3).
  destruct (send_fragments_loop_ok env links c3 _ _ (length (packets_of (t, d))) HR3 buffer_fuel n) as [sent Hs].
  - intros j Hj. rewrite lookup_insert_from. unfold zlen. rewrite decide_True by lia.
    replace (n + j - n) with j by lia.
    destruct (lookup_lt_is_Some_2 (packets_of (t, d)) (Z.to_nat j)) as [[t' d'] Hp]; [lia|]. rewrite Hp.
    exists d'. do 2 f_equal. revert Hp. unfold packets_of, MAX_GC_PACKET_CHUNK_SIZE. cbn [snd fst].
    replace (zlen d <=? 1372) with false by lia. rewrite list_lookup_fmap.
    destruct (fragments t d !! Z.to_nat j); cbn; congruence.
  - unfold GCC_BUFFER_SIZE. lia.
  - unfold zlen. rewrite Hs. do 3 eexists. split; [done|]. exact Hall.
Qed.

(** One operation of the application or of the network on the send array,
    with the environment it meets: sending a message, the payload of an
    acknowledgement packet, the periodic retransmission. *)
Inductive Send_Op :=
| OpSend (env : GC_Env) (alloc : Z → bool) (links : Z → GC_Link) (packet_type : Z) (data : bytes)
| OpAck (env : GC_Env) (link : GC_Link) (data : bytes)
| OpResend (env : GC_Env) (links : Z → GC_Link).

Definition run_send_op (c : GC_Connection) (op : Send_Op) : option (bool * GC_Connection) :=
  match op with
  | OpSend env alloc links t d =>
      '(ok, c, _) ← send_lossless_group_packet env alloc links c (Some d) (zlen d) t; Some (ok, c)
  | OpAck env link data => '(ret, c, _) ← handle_gc_message_ack env link c data (zlen data); Some (ret =? 0, c)
  | OpResend env links => '(c, _) ← gcc_resend_packets env links c; Some (true, c)
  end.

(** What the operation means for the next id and the unacknowledged packets. *)
Inductive spec_step (n : Z) (U : gmap Z (Z * bytes)) : Send_Op → bool → Z → gmap Z (Z * bytes) → Prop :=
| spec_sent env alloc links t d ok :
    spec_step n U (OpSend env alloc links t d) ok (n + zlen (packets_of (t, d)))
      (insert_from n (packets_of (t, d)) U)
| spec_refused env alloc links t d : spec_step n U (OpSend env alloc links t d) false n U
| spec_acked env link data ok :
    9 <= zlen data → aget 0 data 0 = ack_byte GR_ACK_RECV →
    spec_step n U (OpAck env link data) ok n (delete (net_unpack_u64 (drop 1 data)) U)
| spec_not_acked env link data ok :
    zlen data < 9 ∨ aget 0 data 0 ≠ ack_byte GR_ACK_RECV → spec_step n U (OpAck env link data) ok n U
| spec_resent env links : spec_step n U (OpResend env links) true n U.

Definition op_ok (op : Send_Op) : Prop :=
  match op with
  | OpSend env _ _ _ d => mono_time_get (gc_time env) ≠ 0 ∧ zlen d <= MAX_GC_PACKET_SIZE
  | _ => True
  end.

Lemma srel_send env alloc links c n U t d :
  srel c n U → mono_time_get (gc_time env) ≠ 0 → 0 <= n < 2 ^ 16 → zlen d <= MAX_GC_PACKET_SIZE →
  ∃ ok c' sent n' U', send_lossless_group_packet env alloc links c (Some d) (zlen d) t = Some (ok, c', sent) ∧
    spec_step n U (OpSend env alloc links t d) ok n' U' ∧ srel c' n' U'.
Proof.
  intros HR Htm Hn Hd. unfold send_lossless_group_packet. pose proof (zlen_nonneg d).
  unfold MAX_GC_PACKET_SIZE in *. replace (zlen d <=? 500 * 100) with true by lia. cbn [negb].
  pose proof (length_packets_of (t, d) ltac:(simpl; lia)) as Hlen. pose proof (packets_of_sizes (t, d)) as Hsz.
  assert (∀ c', pushed (mono_time_get (gc_time env)) c (packets_of (t, d)) c' →
    srel c' (n + zlen (packets_of (t, d))) (insert_from n (packets_of (t, d)) U)) as Hpush.
  { intros c' Hc'. apply (srel_pushed _ _ _ _ Hc' n U); (done || unfold zlen; lia). }
  destruct (_ || _); [by eauto 10 using spec_step|].
  destruct (MAX_GC_PACKET_CHUNK_SIZE <? zlen d) eqn:El.
  - destruct (send_fragments_cases env alloc links c n U t d) as (ok & c' & sent & -> & Hok); try (done || lia).
    exists ok, c', sent. destruct ok.
    { do 2 eexists. split; [done|]. split; [constructor|]. by apply Hpush. }
    exists n, U. split; [done|]. split; [constructor|].
    destruct Hok as [[-> _]|(ps & c1 & Hps & [k Hk] & _ & ->)]; [done|].
    rewrite Hk in Hsz, Hlen. apply Forall_app in Hsz as [Hsz _]. rewrite length_app in Hlen.
    eapply srel_rollback; try done. unfold GCC_BUFFER_SIZE, zlen. lia.
  - unfold gcc_send_lossless_packet.
    destruct (add_to_send_array _ _ _ _ _ _) as [b c1] eqn:Ea.
    apply add_to_send_array_cases in Ea as [[-> H1]|[-> ->]]; [..|by left|done]; cbn [negb];
      [|by eauto 10 using spec_step].
    edestruct encrypt_and_send_some as [[b s] ->]; [by split; [|apply Z.ltb_ge]|].
    do 5 eexists. split; [done|]. split; [apply spec_sent|]. apply Hpush.
    unfold packets_of. cbn [snd]. by replace (zlen d <=? MAX_GC_PACKET_CHUNK_SIZE) with true by lia.
Qed.

Lemma srel_ack env link c n U data :
  srel c n U →
  ∃ ret c' sent n' U', handle_gc_message_ack env link c data (zlen data) = Some (ret, c', sent) ∧
    spec_step n U (OpAck env link data) (ret =? 0) n' U' ∧ srel c' n' U'.
Proof.
  intros HR. unfold handle_gc_message_ack. destruct (zlen data <? 9) eqn:E9.
  { do 5 eexists. split; [done|]. split; [apply spec_not_acked; lia|done]. }
  destruct (Z.eqb_spec (aget 0 data 0) (ack_byte GR_ACK_RECV)) as [E0|E0].
  { destruct (gcc_handle_ack _ _) as [b c'] eqn:Ea.
    destruct (srel_handle_ack _ _ _ _ _ _ HR Ea) as [HR' _]. do 5 eexists. split; [done|].
    split; [apply spec_acked; [lia|done]|done]. }
  destruct (_ =? ack_byte GR_ACK_REQ); cbn [negb].
  2: { do 5 eexists. split; [done|]. split; [apply spec_not_acked; by right|done]. }
  destruct (_ =? _).
  2: { do 5 eexists. split; [done|]. split; [apply spec_not_acked; by right|done]. }
  edestruct encrypt_and_send_some as [[b s] ->]; [exact (srel_len _ _ _ HR _)|]. cbn [mbind option_bind].
  destruct b; (do 5 eexists; split; [done|]; split; [apply spec_not_acked; by right|]); [|done].
  apply srel_touch; [done|apply get_array_index_range].
Qed.

(** Runs of operations, and of their meaning. *)
Fixpoint run_send_ops (c : GC_Connection) (ops : list Send_Op) : option (list bool * GC_Connection) :=
  match ops with
  | [] => Some ([], c)
  | op :: ops' =>
      '(ok, c) ← run_send_op c op; '(oks, c) ← run_send_ops c ops'; Some (ok :: oks, c)
  end.

Inductive spec_steps : Z → gmap Z (Z * bytes) → list Send_Op → list bool → Z → gmap Z (Z * bytes) → Prop :=
| spec_nil n U : spec_steps n U [] [] n U
| spec_cons n U op ok n1 U1 ops oks n2 U2 :
    spec_step n U op ok n1 U1 → spec_steps n1 U1 ops oks n2 U2 → spec_steps n U (op :: ops) (ok :: oks) n2 U2.

Lemma spec_step_next n U op ok n' U' : op_ok op → spec_step n U op ok n' U' → n <= n' <= n + 50.
Proof.
  intros Hop H. inversion H; subst; try lia. simpl in Hop. unfold MAX_GC_PACKET_SIZE in Hop.
  pose proof (length_packets_of (t, d) ltac:(simpl; lia)). unfold zlen. lia.
Qed.

Lemma run_send_op_sim c n U op :
  srel c n U → op_ok op → 0 <= n < 2 ^ 16 →
  ∃ ok c' n' U', run_send_op c op = Some (ok, c') ∧ spec_step n U op ok n' U' ∧ srel c' n' U'.
Proof.
  intros HR Hop Hn. destruct op as [env alloc links t d|env link data|env links]; cbn [run_send_op op_ok] in *.
  - destruct Hop as [Htm Hd].
    destruct (srel_send env alloc links c n U t d) as (ok & c' & sent & n' & U' & -> & ? & ?); try done.
    cbn. by eauto 10.
  - destruct (srel_ack env link c n U data HR) as (ret & c' & sent & n' & U' & -> & ? & ?). cbn. by eauto 10.
  - destruct (srel_resend env links c n U HR) as (c' & sent & -> & HR'). cbn. by eauto 10 using spec_step.
Qed.

Lemma run_send_ops_sim ops : ∀ c n U,
  srel c n U → Forall op_ok ops → 0 <= n → n + 50 * zlen ops < 2 ^ 16 →
  ∃ oks c' n' U', run_send_ops c ops = Some (oks, c') ∧ spec_steps n U ops oks n' U' ∧ srel c' n' U'.
Proof.
  induction ops as [|op ops IH]; intros c n U HR HF Hn Hb; [by eauto 10 using spec_steps|].
  inversion HF; subst. rewrite zlen_cons in Hb. pose proof (zlen_nonneg ops).
  destruct (run_send_op_sim c n U op) as (ok & c1 & n1 & U1 & E1 & Hs & HR1); try (done || lia).
  pose proof (spec_step_next _ _ _ _ _ _ ltac:(eassumption) Hs).
  destruct (IH c1 n1 U1) as (oks & c2 & n2 & U2 & E2 & Hs2 & HR2); try (done || lia).
  exists (ok :: oks), c2, n2, U2. cbn [run_send_ops]. rewrite E1. cbn. rewrite E2. cbn. eauto using spec_steps.
Qed.

(** C6: The send array implements the set of unacknowledged packets.  Take a
    connection whose send array is empty, numbered from [first], and any
    sequence of messages sent, acknowledgement packets received (genuine or
    not, in any order) and retransmissions, in any network and with any
    outcome of the allocations, within the first 65,536 ids.  No assertion
    fails; every message either takes the next ids, one per packet or
    fragment, or leaves nothing behind; an acknowledgement takes out exactly
    the packet it names; and afterwards the array holds, for every id, the
    packet that was sent under it and not acknowledged. *)
Theorem send_array_is_unacked_set (c : GC_Connection) (first : Z) (ops : list Send_Op)
    (Hempty : send_array c = ∅) (Hfirst : 0 <= first)
    (Hops : Forall op_ok ops) (Hids : first + 50 * zlen ops < 2 ^ 16) :
  ∃ oks c' n U, run_send_ops (gcc_set_send_message_id c first) ops = Some (oks, c') ∧
    spec_steps first ∅ ops oks n U ∧
    send_message_id c' = n ∧ ∀ m, unacked c' m = U !! m.
Proof.
  destruct (run_send_ops_sim ops (gcc_set_send_message_id c first) first ∅) as (oks & c' & n & U & ? & ? & [HR1 HR2 _ _ _]);
    try done; [|by eauto 10].
  apply srel_empty; [done|..|unfold gcc_set_send_message_id; unfold_gset; unfold is_index, GCC_BUFFER_SIZE; wrap_lia].
  exact Hempty.
Qed.

(** [start_id] in [gcc_send_lossless_packet_fragments] is a [uint16_t].
    When a fragmented message fails after its first fragment was added and
    the connection has used 65,536 ids or more, [send_message_id] is not put
    back to where the message began but to that number modulo 65,536; a peer
    that has received everything so far discards whatever is sent under this
    id as a duplicate. *)
Theorem fragment_failure_reuses_ids (env : GC_Env) (alloc : Z → bool) (links : Z → GC_Link)
    (c c' : GC_Connection) (U : gmap Z (Z * bytes)) (t : Z) (d : bytes) (sent : list GC_Sent)
    (HR : srel c (send_message_id c) U) (Htm : mono_time_get (gc_time env) ≠ 0)
    (Hn : 2 ^ 16 <= send_message_id c) (Hn' : send_message_id c + 50 < 2 ^ 64)
    (Hd : MAX_GC_PACKET_CHUNK_SIZE < zlen d < 2 ^ 16)
    (Hfirst : (add_to_send_array (alloc (send_message_id c)) (gc_time env) c
                 (Some (t :: slice 0 1371 d)) 1372 GP_FRAGMENT).1 = true)
    (Hfail : gcc_send_lossless_packet_fragments env alloc links c (Some d) (zlen d) t = Some (false, c', sent)) :
  send_message_id c' = send_message_id c mod 2 ^ 16 ∧
  ∀ (alloc : bool) mt peer data len packet_type direct,
    received_message_id peer = send_message_id c - 1 →
    (gcc_handle_received_message alloc mt peer data len packet_type (send_message_id c') direct).1 = 0.
Proof.
  destruct (send_fragments_cases env alloc links c _ U t d HR) as (ok & c1 & s & E & Hok); try (done || lia).
  rewrite Hfail in E. injection E as <- <- <-.
  destruct Hok as [[_ Hf]|(ps & c2 & _ & _ & _ & ->)]; [congruence|].
  split; [done|]. intros a mt peer data len ty direct Hr. unfold gcc_handle_received_message.
  assert (received_message_id (if direct : bool then peer <| last_received_direct_time := mono_time_get mt |> else peer)
    = send_message_id c - 1) as -> by (by destruct direct).
  change (send_message_id (clear_send_queue_id_range c2 (u16 (send_message_id c)) (send_message_id c2)))
    with (u16 (send_message_id c)).
  replace (_ <? _) with true; [done|]. wrap_lia.
Qed.

(** The test for a full send array compares the slot of the next id with
    [(uint16_t)(send_array_start - 1)], which is 65,535 when
    [send_array_start] is 0.  Then the last free slot is filled too, the
    array looks empty, and an acknowledgement of the oldest packet does not
    move [send_array_start]: [gcc_resend_packets] retransmits none of the
    packets that are still unacknowledged. *)
Theorem full_send_array_stops_resending (c : GC_Connection) (n : Z) (U : gmap Z (Z * bytes)) (mt : Mono_Time)
    (t : Z) (d : bytes) (p : Z * bytes)
    (HR : srel c n U) (Htm : mono_time_get mt ≠ 0) (Hd : zlen d <= MAX_GC_PACKET_CHUNK_SIZE)
    (Hstart : send_array_start c = 0) (Hn : n mod GCC_BUFFER_SIZE = GCC_BUFFER_SIZE - 1) (Hn0 : 0 <= n < 2 ^ 64 - 1)
    (Hfree : array_entry_is_empty (gentry (send_array c) (GCC_BUFFER_SIZE - 1)) = true)
    (Hold : U !! (n - (GCC_BUFFER_SIZE - 1)) = Some p) :
  ∃ c1 c2, add_to_send_array true mt c (Some d) (zlen d) t = (true, c1) ∧
    gcc_handle_ack c1 (n - (GCC_BUFFER_SIZE - 1)) = (true, c2) ∧
    (∀ m, m ≠ n - (GCC_BUFFER_SIZE - 1) → unacked c2 m = <[n := (t, d)]> U !! m) ∧
    ∀ env links, gcc_resend_packets env links c2 = Some (c2, []).
Proof.
  unfold GCC_BUFFER_SIZE in *. change (8192 - 1) with 8191 in *.
  assert (gcc_get_array_index n = 8191) as Hi by (by rewrite get_array_index_mod).
  assert (add_to_send_array true mt c (Some d) (zlen d) t = (true, push (mono_time_get mt) c (t, d))) as Ea.
  { pose proof (srel_next _ _ _ HR) as E. unfold add_to_send_array, GCC_BUFFER_SIZE. rewrite E, Hstart, Hn, Hi, Hfree.
    cbn [negb]. change (8191 =? u16 (0 - 1)) with false. cbn iota.
    destruct (create_array_entry _ _ _ _ _ _) as [e|] eqn:Ec.
    - apply create_array_entry_spec in Ec as ->; [|done]. unfold push. by rewrite E, Hi.
    - unfold create_array_entry in Ec. by destruct (0 <? zlen d). }
  assert (srel (push (mono_time_get mt) c (t, d)) (n + 1) (<[n := (t, d)]> U)) as HR1.
  { apply srel_push; (done || lia || by rewrite Hi). }
  set (c1 := push (mono_time_get mt) c (t, d)) in *. set (m := n - 8191) in *.
  assert (gcc_get_array_index m = 0) as Hm by (rewrite get_array_index_mod; subst m; wrap_lia).
  assert (send_array_start c1 = 0) as Hs1 by done.
  destruct (gcc_handle_ack c1 m) as [b c2] eqn:Eh. pose proof Eh as Eh'.
  apply (srel_handle_ack _ _ _ _ _ _ HR1) in Eh as [HR2 Hb]. rewrite lookup_insert_ne in Hb by lia.
  destruct b; [|by rewrite Hold in Hb; specialize (Hb eq_refl)].
  exists c1, c2. split_and!; [done..|intros m' Hm'; rewrite (srel_unacked _ _ _ HR2); by rewrite lookup_delete_ne|].
  pose proof (srel_unacked _ _ _ HR1 m) as HU. rewrite lookup_insert_ne, Hold in HU by lia.
  unfold unacked in HU. unfold gcc_handle_ack in Eh'. rewrite Hm in HU, Eh'.
  destruct (array_entry_is_empty (gentry (send_array c1) 0)); [done|]. destruct (e_message_id _ =? m); [|done]. cbn [negb] in Eh'.
  unfold_gset. rewrite Hs1 in Eh'. cbn [Z.eqb] in Eh'. injection Eh' as <-.
  rewrite ack_loop_stop.
  - intros env links. unfold gcc_resend_packets. unfold_gset. by rewrite gentry_clear, decide_True.
  - rewrite (srel_next _ _ _ HR). unfold GCC_BUFFER_SIZE. wrap_lia.
Qed.
End simulation.

(** ** Witnesses *)

Definition sample_env : GC_Env := mkGCEnv (mkMonoTime 100 0) (replicate 32 1) 2.
Definition sample_link : GC_Link := mkGCLink (replicate 24 5) true true true 0.
Definition sample_conn : GC_Connection :=
  empty_gc_connection <| handshaked := true |> <| session_shared_key := replicate 32 9 |>.

(** A small message, a large one, the acknowledgement of the first and a retransmission. *)
Definition sample_ops : list Send_Op :=
  [OpSend sample_env (λ _, true) (λ _, sample_link) 243 [1; 2; 3];
   OpSend sample_env (λ _, true) (λ _, sample_link) 242 (replicate 3000 7);
   OpAck sample_env sample_link (0 :: net_pack_u64 2);
   OpResend sample_env (λ _, sample_link)].

Lemma send_array_is_unacked_set_witness :
  ∃ oks c' n U, @run_send_ops toy_sodium (gcc_set_send_message_id sample_conn 2) sample_ops = Some (oks, c') ∧
    spec_steps 2 ∅ sample_ops oks n U ∧ send_message_id c' = n ∧ ∀ m, unacked c' m = U !! m.
Proof.
  refine (@send_array_is_unacked_set toy_sodium sample_conn 2 sample_ops eq_refl _ _ _); [lia|..|done].
  repeat constructor; vm_compute; discriminate.
Defined.

(** The run above, evaluated: ids 3 to 6 are unacknowledged, the last one the
    empty fragment. *)
Example send_ops_run :
  option_map (λ r, (r.1, send_message_id r.2, unacked r.2 2, unacked r.2 6, fst <$> unacked r.2 3))
    (@run_send_ops toy_sodium (gcc_set_send_message_id sample_conn 2) sample_ops)
  = Some ([true; true; true; true], 7, None, Some (239, []), Some 239).
Proof. vm_compute. reflexivity. Qed.

Definition late_conn : GC_Connection :=
  sample_conn <| send_message_id := 65546 |> <| send_array_start := 12 |>.
Definition late_failed : GC_Connection :=
  late_conn <| send_array := <[10 := empty_entry]> ∅ |> <| send_message_id := 10 |>.

Lemma late_conn_srel : srel late_conn (send_message_id late_conn) ∅.
Proof. apply srel_empty; [done..|]. split; done. Qed.

Lemma fragment_failure_reuses_ids_witness :
  send_message_id late_failed = send_message_id late_conn mod 2 ^ 16 ∧
  ∀ (alloc : bool) mt peer data len packet_type direct,
    received_message_id peer = send_message_id late_conn - 1 →
    (gcc_handle_received_message alloc mt peer data len packet_type (send_message_id late_failed) direct).1 = 0.
Proof.
  refine (@fragment_failure_reuses_ids toy_sodium sample_env (λ _, true) (λ _, sample_link) late_conn late_failed ∅
    242 (replicate 2000 7) [] late_conn_srel _ _ _ _ _ _); [done|done|done|by vm_compute|..];
    vm_compute; reflexivity.
Defined.

(** Ids 8192 and 8193 are unacknowledged, everything up to 16382 is acknowledged. *)
Definition nearly_full : GC_Connection :=
  sample_conn <| send_array := <[1 := entry_for 100 8193 (243, [2])]> (<[0 := entry_for 100 8192 (243, [1])]> ∅) |>
              <| send_message_id := 16383 |>.
Definition nearly_full_set : gmap Z (Z * bytes) := <[8193 := (243, [2])]> (<[8192 := (243, [1])]> ∅).

Lemma nearly_full_srel : srel nearly_full 16383 nearly_full_set.
Proof.
  assert (pushed 100 (sample_conn <| send_message_id := 8192 |>) [(243, [1]); (243, [2])]
    (nearly_full <| send_message_id := 8194 |>)) as Hp.
  { do 2 (constructor; [by vm_compute|]). constructor. }
  apply srel_pushed with (n := 8192) (U := ∅) in Hp as [HR _]; [|apply srel_empty; [done..|split; done]|done..|].
  - by eapply srel_ext; [exact HR|..].
  - repeat constructor; done.
Qed.

Lemma full_send_array_stops_resending_witness :
  ∃ c1 c2, add_to_send_array true (mkMonoTime 100 0) nearly_full (Some [3]) 1 243 = (true, c1) ∧
    gcc_handle_ack c1 8192 = (true, c2) ∧
    (∀ m, m ≠ 8192 → unacked c2 m = <[16383 := (243, [3])]> nearly_full_set !! m) ∧
    ∀ env links, @gcc_resend_packets toy_sodium env links c2 = Some (c2, []).
Proof.
  refine (@full_send_array_stops_resending toy_sodium nearly_full 16383 nearly_full_set (mkMonoTime 100 0) 243 [3]
    (243, [1]) nearly_full_srel _ _ _ _ _ _ _); by vm_compute.
Defined.
