(* ===== verification/GroupReceive.v ===== *)
(** * GroupReceive: the receiving half of a group connection

    What a peer sends as a stream of messages, cut into packets by [GroupSend],
    arrives in any order and any number of times.  The theorems here are about
    what the receiver of [GroupConnection] hands on: the messages in order, each
    once, large ones put together again; and about the situations in which the
    code does not manage to. *)
From S2P Require Import Prelude Util MonoTime CryptoCore Network GroupPacket GroupConnection GroupSend.

#[local] Opaque buffer_fuel.

(** ** Putting fragments together *)

(** Slots from [s] on hold the fragments [ds]. *)
Definition holds_fragments (a : GC_Array) (s : Z) (ds : list bytes) : Prop :=
  ∀ k d, ds !! k = Some d → ∃ tm, tm ≠ 0 ∧
    gentry a (gcc_get_array_index (s + Z.of_nat k)) = entry_for tm (s + Z.of_nat k) (GP_FRAGMENT, d).

Definition fragment_sizes (ds : list bytes) : Prop := Forall (λ d, 0 < zlen d <= MAX_GC_PACKET_CHUNK_SIZE) ds.

Definition is_fragment_entry (e : GC_Message_Array_Entry) : bool :=
  negb (array_entry_is_empty e) && (e_packet_type e =? GP_FRAGMENT).

Lemma entry_for_nonempty tm id p : tm ≠ 0 → array_entry_is_empty (entry_for tm id p) = false.
Proof. intros. unfold array_entry_is_empty. cbn [entry_for e_time_added]. lia. Qed.

Lemma entry_for_data tm id t d : 0 < zlen d → e_data (entry_for tm id (t, d)) = Some d.
Proof. intros H. unfold entry_for. cbn. by replace (0 <? zlen d) with true by lia. Qed.

(** The search walks back over the fragments and stops in front of them. *)
Lemma search_loop_ok a s ds n : ∀ fuel m,
  holds_fragments a s ds → fragment_sizes ds → length ds = n → (1 <= n)%nat → Z.of_nat n < GCC_BUFFER_SIZE →
  zlen (concat ds) <= MAX_GC_PACKET_SIZE →
  is_fragment_entry (gentry a (gcc_get_array_index (s - 1))) = false →
  (m <= n)%nat → (m < fuel)%nat →
  search_loop fuel a (gcc_get_array_index (s + Z.of_nat n - 1)) (gcc_get_array_index (s + Z.of_nat m - 1))
    (zlen (concat (drop m ds))) = SearchDone (gcc_get_array_index (s - 1)) (zlen (concat ds)).
Proof.
  intros fuel m Ha Hsz Hn H1 Hn' HL Hs. revert fuel. induction m as [|m IH]; intros fuel Hm Hf.
  { destruct fuel; [lia|]. cbn [search_loop]. rewrite Z.add_0_r.
    unfold is_fragment_entry in Hs. rewrite Hs. by rewrite drop_0. }
  destruct fuel as [|fuel]; [lia|]. cbn [search_loop].
  replace (s + Z.of_nat (S m) - 1) with (s + Z.of_nat m) by lia.
  destruct (lookup_lt_is_Some_2 ds m) as [d Hd]; [lia|]. destruct (Ha m d Hd) as (tm & Htm & ->).
  pose proof (proj1 (list.Forall_forall _ _) Hsz d ltac:(by eapply list_elem_of_lookup_2)) as Hdz. cbn beta in Hdz.
  rewrite entry_for_nonempty, entry_for_data by (done || lia). cbn [entry_for e_packet_type e_data_length fst snd negb andb].
  rewrite Z.eqb_refl, bool_decide_eq_false_2 by done.
  replace (zlen d <=? MAX_GC_PACKET_CHUNK_SIZE) with true by lia. cbn [negb].
  assert (zlen (concat (drop m ds)) = zlen d + zlen (concat (drop (S m) ds))) as E.
  { rewrite (drop_S _ _ _ Hd). cbn [concat]. apply zlen_app. }
  assert (zlen (concat (drop m ds)) <= zlen (concat ds)) as Hle.
  { rewrite <- (take_drop m ds) at 2. rewrite concat_app, zlen_app. pose proof (zlen_nonneg (concat (take m ds))). lia. }
  pose proof (zlen_nonneg (concat (drop (S m) ds))). unfold MAX_GC_PACKET_SIZE, MAX_GC_PACKET_CHUNK_SIZE in *.
  rewrite u16_small by lia. replace (_ <? _) with true by lia. cbn [negb].
  replace (500 * 100 <? _) with false by lia. rewrite prev_index_id.
  destruct (Z.eqb_spec (gcc_get_array_index (s + Z.of_nat m - 1)) (gcc_get_array_index (s + Z.of_nat n - 1))) as [Ei|_].
  { apply get_array_index_inj in Ei; unfold GCC_BUFFER_SIZE in *; lia. }
  replace (zlen (concat (drop (S m) ds)) + zlen d) with (zlen (concat (drop m ds))) by lia.
  apply IH; lia.
Qed.

(** The array after the slots of [k] ids from [s] on were cleared. *)
Fixpoint clear_slots (a : GC_Array) (s : Z) (k : nat) : GC_Array :=
  match k with
  | O => a
  | S k' => clear_slots (clear_array_entry a (gcc_get_array_index s)) (s + 1) k'
  end.

Lemma gentry_clear_slots k : ∀ a s i,
  (∀ j, 0 <= j < Z.of_nat k → i ≠ gcc_get_array_index (s + j)) → gentry (clear_slots a s k) i = gentry a i.
Proof.
  induction k as [|k IH]; intros a s i Hi; cbn [clear_slots]; [done|].
  rewrite IH.
  - rewrite gentry_clear, decide_False; [done|]. intros E. apply (Hi 0); [lia|]. by rewrite Z.add_0_r.
  - intros j Hj. replace (s + 1 + j) with (s + (j + 1)) by lia. apply Hi. lia.
Qed.

Lemma clear_slots_empty k : ∀ a s i, gentry a i = empty_entry → gentry (clear_slots a s k) i = empty_entry.
Proof.
  induction k as [|k IH]; intros a s i Hi; cbn [clear_slots]; [done|].
  apply IH. rewrite gentry_clear. by destruct (decide _).
Qed.

Lemma gentry_clear_slots_in k : ∀ a s j, 0 <= j < Z.of_nat k →
  gentry (clear_slots a s k) (gcc_get_array_index (s + j)) = empty_entry.
Proof.
  induction k as [|k IH]; intros a s j Hj; [lia|]. cbn [clear_slots].
  destruct (decide (0 < j)) as [Hj'|Hj'].
  - replace (s + j) with (s + 1 + (j - 1)) by lia. apply IH. lia.
  - replace j with 0 by lia. rewrite Z.add_0_r. apply clear_slots_empty. rewrite gentry_clear. by rewrite decide_True.
Qed.

(** What is left after clearing was not cleared. *)
Lemma clear_slots_nonempty k a s i :
  array_entry_is_empty (gentry (clear_slots a s k) i) = false →
  gentry (clear_slots a s k) i = gentry a i ∧ ∀ j, 0 <= j < Z.of_nat k → i ≠ gcc_get_array_index (s + j).
Proof.
  intros He. assert (∀ j, 0 <= j < Z.of_nat k → i ≠ gcc_get_array_index (s + j)) as Hout.
  { intros j Hj ->. by rewrite gentry_clear_slots_in in He. }
  split; [|done]. by apply gentry_clear_slots.
Qed.

(** The copy puts the fragments behind each other and clears their slots. *)
Lemma copy_loop_ok ds : ∀ fuel a s packet_length payload,
  holds_fragments a s ds → fragment_sizes ds → Z.of_nat (length ds) < GCC_BUFFER_SIZE →
  (length ds <= fuel)%nat →
  zlen payload + zlen (concat ds) <= packet_length → packet_length <= MAX_GC_PACKET_SIZE →
  copy_loop fuel a (gcc_get_array_index s) (gcc_get_array_index (s + zlen ds)) packet_length payload (zlen payload)
  = Some (payload ++ concat ds, zlen payload + zlen (concat ds), clear_slots a s (length ds)).
Proof.
  induction ds as [|d ds IH]; intros fuel a s L payload Ha Hsz Hn Hf HL HL'.
  { change (zlen (@nil bytes)) with 0. rewrite Z.add_0_r. cbn [concat length clear_slots]. rewrite app_nil_r.
    change (zlen (@nil Z)) with 0. rewrite Z.add_0_r. destruct fuel; cbn [copy_loop]; rewrite ?Z.eqb_refl; done. }
  destruct fuel as [|fuel]; [simpl in Hf; lia|]. cbn [copy_loop concat length clear_slots] in *.
  pose proof (zlen_nonneg ds). pose proof (zlen_nonneg payload). pose proof (zlen_nonneg (concat ds)).
  rewrite !zlen_app in *. rewrite zlen_cons.
  destruct (Z.eqb_spec (gcc_get_array_index s) (gcc_get_array_index (s + (zlen ds + 1)))) as [E|_].
  { apply get_array_index_inj in E; unfold zlen, GCC_BUFFER_SIZE in *; lia. }
  destruct (Ha 0%nat d eq_refl) as (tm & Htm & He). rewrite Z.add_0_r in He. rewrite He.
  pose proof (Forall_inv Hsz) as Hd. pose proof (Forall_inv_tail Hsz) as Hds. cbn beta in Hd.
  rewrite entry_for_data by lia. cbn [entry_for e_data_length snd default]. unfold id.
  replace (_ <=? L) with true by lia. cbn [negb]. rewrite slice_all by done.
  unfold MAX_GC_PACKET_SIZE in HL'. rewrite u16_small by lia. rewrite <- zlen_app, next_index_id.
  replace (s + (zlen ds + 1)) with (s + 1 + zlen ds) by lia.
  rewrite IH; [|..|by rewrite zlen_app; lia|done]; [|clear IH..]; try (done || lia).
  - rewrite <- app_assoc, zlen_app. do 3 f_equal. lia.
  - intros k d' Hk. destruct (Ha (S k) d' Hk) as (tm' & Htm' & He'). exists tm'. split; [done|].
    replace (s + 1 + Z.of_nat k) with (s + Z.of_nat (S k)) by lia. rewrite gentry_clear, decide_False; [done|].
    intros E. apply lookup_lt_Some in Hk. apply get_array_index_inj in E; unfold GCC_BUFFER_SIZE in *; lia.
Qed.

Lemma reassemble_ok alloc a s ds :
  holds_fragments a s ds → fragment_sizes ds → ds ≠ [] → Z.of_nat (length ds) < GCC_BUFFER_SIZE →
  zlen (concat ds) <= MAX_GC_PACKET_SIZE → 1 <= s → s + zlen ds < 2 ^ 64 →
  is_fragment_entry (gentry a (gcc_get_array_index (s - 1))) = false →
  reassemble_packet alloc a (s + zlen ds)
  = Some (if alloc then (zlen (concat ds), concat ds, clear_slots a s (length ds)) else (0, [], a)).
Proof.
  intros Ha Hsz Hne Hn HL Hs1 Hs2 Hs. unfold reassemble_packet. pose proof buffer_fuel_val as Hbf.
  assert (1 <= length ds)%nat as Hl by (destruct ds; [done|simpl; lia]).
  rewrite u64_small by (unfold zlen in *; lia).
  assert (0 < zlen (concat ds)) as Hpos.
  { destruct ds as [|d ds]; [done|]. cbn [concat]. rewrite zlen_app. pose proof (Forall_inv Hsz) as Hd.
    cbn beta in Hd. pose proof (zlen_nonneg (concat ds)). lia. }
  assert (search_loop (S buffer_fuel) a (gcc_get_array_index (s + zlen ds - 1)) (gcc_get_array_index (s + zlen ds - 1)) 0
    = SearchDone (gcc_get_array_index (s - 1)) (zlen (concat ds))) as ->.
  { assert (zlen (concat (drop (length ds) ds)) = 0) as E0 by (by rewrite drop_all).
    rewrite <- E0 at 1. apply search_loop_ok; (done || lia). }
  replace (zlen (concat ds) =? 0) with false by lia. destruct alloc; cbn [negb]; [|done].
  rewrite !next_index_id. replace (s - 1 + 1) with s by lia. replace (s + zlen ds - 1 + 1) with (s + zlen ds) by lia.
  pose proof (copy_loop_ok ds buffer_fuel a s (zlen (concat ds)) []) as Hc. change (zlen (@nil Z)) with 0 in Hc.
  cbn [app] in Hc. rewrite Z.add_0_l in Hc. rewrite Hc; (done || lia).
Qed.

(** ** The stream *)

Definition encode (msgs : list (Z * bytes)) : list (Z * bytes) := msgs ≫= packets_of.

(** A message the sender may send: a payload that fits with its type into
    [MAX_GC_PACKET_SIZE] bytes, and not of the type of the fragments. *)
Definition msg_ok (m : Z * bytes) : Prop := m.1 ≠ GP_FRAGMENT ∧ zlen m.2 < MAX_GC_PACKET_SIZE.

Lemma concat_chunks fuel : ∀ d, (length d <= fuel)%nat → concat (chunks fuel d) = d.
Proof.
  induction fuel as [|fuel IH]; intros d Hd; [by destruct d; [|simpl in Hd; lia]|].
  destruct d as [|b d]; [done|]. cbn [chunks concat]. rewrite IH; [apply take_drop|].
  rewrite length_drop, length_cons in *. lia.
Qed.

(** A message is one packet, or fragments that contain it and an empty one. *)
Lemma packets_of_cases m : msg_ok m →
  packets_of m = [m] ∨
  ∃ ds, packets_of m = (pair GP_FRAGMENT <$> ds) ++ [(GP_FRAGMENT, [])] ∧ concat ds = m.1 :: m.2 ∧
    fragment_sizes ds ∧ ds ≠ [] ∧ (length ds < 50)%nat.
Proof.
  intros [Ht Hl]. unfold MAX_GC_PACKET_SIZE in Hl.
  pose proof (length_packets_of m ltac:(lia)) as Hlen. unfold packets_of in *. unfold MAX_GC_PACKET_CHUNK_SIZE in *.
  destruct (zlen m.2 <=? 1372) eqn:E; [by left|right].
  exists ((m.1 :: take 1371 m.2) :: chunks (length m.2) (drop 1371 m.2)).
  unfold fragments in *. rewrite app_comm_cons, fmap_app in *. split_and!.
  - done.
  - cbn [concat]. rewrite concat_chunks by (rewrite length_drop; lia). rewrite <- app_comm_cons, take_drop. done.
  - constructor.
    + unfold zlen in *. rewrite length_cons, length_take. unfold MAX_GC_PACKET_CHUNK_SIZE. lia.
    + apply chunks_sizes.
  - done.
  - rewrite length_app, !length_fmap in Hlen. cbn [length fmap list_fmap] in Hlen |- *. lia.
Qed.

Lemma encode_app a b : encode (a ++ b) = encode a ++ encode b.
Proof. unfold encode. by rewrite bind_app. Qed.

Lemma encode_cons m b : encode (m :: b) = packets_of m ++ encode b.
Proof. done. Qed.

Lemma packets_of_nonempty m : packets_of m ≠ [].
Proof. unfold packets_of. by destruct (_ <=? _). Qed.

(** ** Acknowledgements and events *)

Section events.
Context {NaCl : Sodium}.

(** The receiving half is the same. *)
Definition same_recv (c c' : GC_Connection) : Prop :=
  recv_array c' = recv_array c ∧ received_message_id c' = received_message_id c ∧
  last_chunk_id c' = last_chunk_id c ∧ handshaked c' = handshaked c ∧ pending_delete c' = pending_delete c.

Lemma send_message_ack_ok env link c id type :
  ∃ ok c' ev, gc_send_message_ack env link c id type = Some (ok, c', ev) ∧ same_recv c c' ∧
    ∀ t d, Handled t d ∉ ev.
Proof.
  assert (∀ c, ∃ ok ev, send_ack env link c id type = Some (ok, c, ev) ∧ ∀ t d, Handled t d ∉ ev) as Hsend.
  { intros c0. unfold send_ack, send_lossy_group_packet.
    replace (9 <=? MAX_GC_PACKET_CHUNK_SIZE) with true by done. cbn [negb].
    destruct (_ || _); [cbn; do 2 eexists; split; [done|set_solver]|]. cbn [Z.eqb].
    rewrite wrapped_packet_size by (unfold MAX_GC_PACKET_CHUNK_SIZE; lia).
    destruct (alloc_packet link); cbn [negb]; [|cbn; do 2 eexists; split; [done|set_solver]].
    destruct (group_packet_wrap _ _ _ _ _ _ _ _ _ _ _ _); [cbn; do 2 eexists; split; [done|set_solver]|].
    destruct (gcc_send_packet _ _ _ _ _). cbn. do 2 eexists. split; [done|set_solver]. }
  unfold gc_send_message_ack.
  assert (∀ t d, Handled t d ∉ []) as Hnil by (intros; apply not_elem_of_nil).
  destruct (pending_delete c); [do 3 eexists; split; [done|]; by split|].
  destruct type; [destruct (Hsend c) as (ok & ev & -> & ?); do 3 eexists; split; [done|]; by split|].
  destruct (_ =? _); [do 3 eexists; split; [done|]; by split|].
  destruct (Hsend (c <| last_requested_packet_time := mono_time_get (gc_time env) |>)) as (ok & ev & -> & ?).
  do 3 eexists. split; [done|]. by split.
Qed.

(** What was handed on. *)
Definition handled (ev : list GC_Event) : list (Z * bytes) :=
  omap (λ e, match e with Handled t d => Some (t, d) | _ => None end) ev.

Lemma handled_none ev : (∀ t d, Handled t d ∉ ev) → handled ev = [].
Proof.
  induction ev as [|e ev IH]; [done|]. intros H. destruct e as [t d|? ? ?].
  - destruct (H t d). left.
  - cbn. apply IH. intros t d Hin. apply (H t d). by right.
Qed.

Lemma handled_app ev ev' : handled (ev ++ ev') = handled ev ++ handled ev'.
Proof. apply omap_app. Qed.
End events.

(** ** The relation between the receiver and the stream *)

Section receiver.
Context {NaCl : Sodium}.
Variable handler : GC_Handler.

(** The dispatch accepts every message and leaves the receiving half of the
    connection alone; sending, and everything else, is up to it. *)
Definition handler_accepts : Prop := ∀ c t d, ∃ c',
  handler c t d = (true, Some c') ∧ recv_array c' = recv_array c ∧
  received_message_id c' = received_message_id c ∧ last_chunk_id c' = last_chunk_id c ∧
  handshaked c' = handshaked c ∧ pending_delete c' = pending_delete c.

Hypothesis Hhandler : handler_accepts.

Variables (first : Z) (msgs : list (Z * bytes)).
Hypothesis Hfirst : 1 <= first.
Hypothesis Hmsgs : Forall msg_ok msgs.
Hypothesis Hids : first + zlen (encode msgs) + GCC_BUFFER_SIZE < 2 ^ 64.

(** The messages [done] were handed on, and [j] fragments of the next one are
    in the receive array. *)
Record rrel (c : GC_Connection) (done : list (Z * bytes)) (j : nat) : Prop := {
  rr_next : ∃ rest, msgs = done ++ rest ∧
    (j ≠ 0%nat → ∃ m rest', rest = m :: rest' ∧ (j < length (packets_of m))%nat);
  rr_recv : received_message_id c = first - 1 + zlen (encode done) + Z.of_nat j;
  rr_chunk : last_chunk_id c = if decide (j = 0%nat) then 0 else received_message_id c;
  rr_alive : handshaked c = true ∧ pending_delete c = false;
  rr_slot : ∀ i, is_index i → array_entry_is_empty (gentry (recv_array c) i) = false →
    ∃ k p tm, encode msgs !! k = Some p ∧ i = gcc_get_array_index (first + Z.of_nat k) ∧ tm ≠ 0 ∧
      gentry (recv_array c) i = entry_for tm (first + Z.of_nat k) p ∧
      ((p.1 ≠ GP_FRAGMENT ∧ zlen (encode done) + Z.of_nat j <= Z.of_nat k
          <= zlen (encode done) + Z.of_nat j + GCC_BUFFER_SIZE - 1)
       ∨ zlen (encode done) <= Z.of_nat k < zlen (encode done) + Z.of_nat j);
  rr_held : ∀ k p, zlen (encode done) <= Z.of_nat k < zlen (encode done) + Z.of_nat j →
    encode msgs !! k = Some p → ∃ tm, tm ≠ 0 ∧
      gentry (recv_array c) (gcc_get_array_index (first + Z.of_nat k)) = entry_for tm (first + Z.of_nat k) p
}.

Lemma rrel_same c c' done j : same_recv c c' → rrel c done j → rrel c' done j.
Proof. intros (E1 & E2 & E3 & E4 & E5) [? ? ? ? ? ?]. split; rewrite ?E1, ?E2, ?E3, ?E4, ?E5; done. Qed.

(** *** The next packet *)

Lemma rrel_locate c done j k p :
  rrel c done j → encode msgs !! k = Some p → Z.of_nat k = zlen (encode done) + Z.of_nat j →
  ∃ m rest, msgs = done ++ m :: rest ∧ packets_of m !! j = Some p ∧ msg_ok m.
Proof.
  intros HR Hp Hk. destruct (rr_next _ _ _ HR) as (rest & E & Hj).
  destruct rest as [|m rest].
  { rewrite E, app_nil_r in Hp. apply lookup_lt_Some in Hp. unfold zlen in Hk.
    destruct j; [lia|]. destruct Hj as (? & ? & [=] & _). done. }
  exists m, rest. split; [done|]. rewrite E, encode_app, encode_cons in Hp. unfold zlen in Hk.
  replace k with (length (encode done) + j)%nat in Hp by lia. rewrite lookup_app_r in Hp by lia.
  replace (length (encode done) + j - length (encode done))%nat with j in Hp by lia.
  split.
  - rewrite lookup_app_l in Hp; [done|]. destruct j.
    + destruct (packets_of m) eqn:Em; [by apply packets_of_nonempty in Em|simpl; lia].
    + by destruct Hj as (? & ? & [= <- <-] & ?).
  - rewrite E in Hmsgs. apply Forall_app in Hmsgs as [_ Hm]. by inversion Hm.
Qed.

Lemma encode_lookup done m rest k : msgs = done ++ m :: rest → (k < length (packets_of m))%nat →
  encode msgs !! (length (encode done) + k)%nat = packets_of m !! k.
Proof.
  intros -> Hk. rewrite encode_app, encode_cons, lookup_app_r by lia.
  rewrite lookup_app_l by lia. f_equal. lia.
Qed.

Lemma zlen_encode_snoc done m : zlen (encode (done ++ [m])) = zlen (encode done) + zlen (packets_of m).
Proof. rewrite encode_app, zlen_app, encode_cons. unfold encode. cbn. by rewrite app_nil_r. Qed.

(** The slot of the next packet may hold it already; it holds nothing else. *)
Lemma rrel_store c done j k p alloc mt b c' :
  rrel c done j → encode msgs !! k = Some p → p.1 ≠ GP_FRAGMENT → mono_time_get mt ≠ 0 →
  zlen (encode done) + Z.of_nat j < Z.of_nat k <= zlen (encode done) + Z.of_nat j + GCC_BUFFER_SIZE - 1 →
  store_in_recv_array alloc mt c (Some p.2) (zlen p.2) p.1 (first + Z.of_nat k) = (b, c') → rrel c' done j.
Proof.
  intros HR Hp Ht Htm Hk. unfold store_in_recv_array.
  destruct (array_entry_is_empty _) eqn:Ee; cbn [negb]; [|by intros [= <- <-]].
  destruct (create_array_entry _ _ _ _ _ _) as [e|] eqn:Ec; [|by intros [= <- <-]]. intros [= <- <-].
  apply create_array_entry_spec in Ec as ->; [|done]. rewrite <- surjective_pairing.
  destruct HR as [H1 H2 H3 H4 H5 H6]. split; try done; unfold_gset.
  - intros i Hi. rewrite gentry_insert. destruct (decide (_ = i)) as [<-|]; [|by apply H5].
    intros _. exists k, p, (mono_time_get mt). split_and!; [done..|]. left. split; [done|lia].
  - intros k' p' Hk' Hp'. destruct (H6 k' p' Hk' Hp') as (tm & Htm' & E). exists tm. split; [done|].
    rewrite gentry_insert, decide_False; [done|]. intros Ei. rewrite Ei, E in Ee.
    by rewrite entry_for_nonempty in Ee.
Qed.

(** A fragment in order joins the ones before it. *)
Lemma rrel_fragment c done j k d mt :
  rrel c done j → encode msgs !! k = Some (GP_FRAGMENT, d) → 0 < zlen d →
  Z.of_nat k = zlen (encode done) + Z.of_nat j → mono_time_get mt ≠ 0 →
  array_entry_is_empty (gentry (recv_array c) (gcc_get_array_index (first + Z.of_nat k))) = true →
  let c1 := c <| recv_array := <[gcc_get_array_index (first + Z.of_nat k) :=
                   entry_for (mono_time_get mt) (first + Z.of_nat k) (GP_FRAGMENT, d)]> (recv_array c) |> in
  rrel ((gcc_set_recv_message_id c1 (first + Z.of_nat k)) <| last_chunk_id := first + Z.of_nat k |>) done (S j).
Proof.
  intros HR Hp Hd Hk Htm Hempty c1. destruct (rrel_locate _ _ _ _ _ HR Hp Hk) as (m & rest & E & Hm & Hok).
  destruct HR as [H1 H2 H3 H4 H5 H6]. subst c1. split; unfold gcc_set_recv_message_id; unfold_gset.
  - exists (m :: rest). split; [done|]. intros _. exists m, rest. split; [done|].
    destruct (packets_of_cases m Hok) as [Em|(ds & Em & _)]; rewrite Em in Hm |- *.
    { destruct j; [|done]. injection Hm as ->. by destruct Hok. }
    rewrite length_app. cbn [length].
    apply lookup_app_Some in Hm as [Hm|[Hge Hm]].
    { apply lookup_lt_Some in Hm. lia. }
    apply list_lookup_singleton_Some in Hm as [_ [= <-]]. done.
  - lia.
  - rewrite decide_False by done. done.
  - done.
  - intros i Hi. rewrite gentry_insert. destruct (decide (_ = i)) as [<-|].
    { intros _. exists k, (GP_FRAGMENT, d), (mono_time_get mt). split_and!; [done..|]. right. lia. }
    intros He. destruct (H5 i Hi He) as (k' & p' & tm & Hk' & -> & Htm' & Ee & Hor). exists k', p', tm.
    split_and!; [done..|]. destruct Hor as [[Hnf Hr]|Hr]; [left|right; lia]. split; [done|].
    assert (k' ≠ k); [|lia]. intros ->. congruence.
  - intros k' p' Hk' Hp'. destruct (decide (k' = k)) as [->|Hne].
    { rewrite gentry_insert_eq. exists (mono_time_get mt). split; [done|]. congruence. }
    destruct (H6 k' p') as (tm & Htm' & Ee); [lia|done|]. exists tm. split; [done|].
    rewrite gentry_insert, decide_False; [done|]. intros Ei. rewrite Ei, Ee in Hempty.
    by rewrite entry_for_nonempty in Hempty.
Qed.

(** A message in order that is not a fragment. *)
Lemma rrel_direct c done j k p c' :
  rrel c done j → encode msgs !! k = Some p → p.1 ≠ GP_FRAGMENT →
  Z.of_nat k = zlen (encode done) + Z.of_nat j →
  (∀ i, i ≠ gcc_get_array_index (first + Z.of_nat k) → gentry (recv_array c') i = gentry (recv_array c) i) →
  array_entry_is_empty (gentry (recv_array c') (gcc_get_array_index (first + Z.of_nat k))) = true →
  received_message_id c' = first + Z.of_nat k → last_chunk_id c' = last_chunk_id c →
  handshaked c' = true → pending_delete c' = false →
  j = 0%nat ∧ zlen (packets_of p) = 1 ∧ rrel c' (done ++ [p]) 0.
Proof.
  intros HR Hp Ht Hk Ha Ha0 Hr Hc Hh Hd. destruct (rrel_locate _ _ _ _ _ HR Hp Hk) as (m & rest & E & Hm & Hok).
  destruct (packets_of_cases m Hok) as [Em|(ds & Em & _)].
  2: { rewrite Em in Hm. apply lookup_app_Some in Hm as [Hm|[_ Hm]].
       - rewrite list_lookup_fmap in Hm. destruct (ds !! j); cbn in Hm; [|done]. by simplify_eq.
       - apply list_lookup_singleton_Some in Hm as [_ <-]. done. }
  rewrite Em in Hm. apply list_lookup_singleton_Some in Hm as [-> <-]. split; [done|]. split; [by rewrite Em|].
  destruct HR as [H1 H2 H3 H4 H5 H6]. pose proof (zlen_encode_snoc done m) as Hz. rewrite Em in Hz.
  change (zlen [m]) with 1 in Hz. split.
  - exists rest. split; [by rewrite <- app_assoc|done].
  - rewrite Hz. lia.
  - by rewrite Hc, H3.
  - done.
  - intros i Hi He. destruct (decide (i = gcc_get_array_index (first + Z.of_nat k))) as [->|Hne]; [congruence|].
    rewrite Ha in He |- * by done.
    destruct (H5 i Hi He) as (k' & p' & tm & Hk' & -> & Htm' & Ee & Hor). exists k', p', tm.
    split_and!; [done..|]. left. destruct Hor as [[Hnf Hrk]|Hrk]; [|lia]. split; [done|].
    assert (k' ≠ k); [|lia]. by intros ->.
  - intros k' p' Hk'. lia.
Qed.

(** A message being received has fewer than 50 fragments, all held. *)
Lemma rrel_fragments c done j m rest ds :
  rrel c done j → msgs = done ++ m :: rest → packets_of m = (pair GP_FRAGMENT <$> ds) ++ [(GP_FRAGMENT, [])] →
  (j <= length ds)%nat → holds_fragments (recv_array c) (first + zlen (encode done)) (take j ds).
Proof.
  intros HR E Em Hj k d Hk. rewrite lookup_take_Some in Hk. destruct Hk as [Hk Hkj].
  destruct (rr_held _ _ _ HR (length (encode done) + k)%nat (GP_FRAGMENT, d)) as (tm & Htm & He).
  - unfold zlen. lia.
  - rewrite (encode_lookup done m rest) by (done || rewrite Em, length_app, length_fmap; apply lookup_lt_Some in Hk; lia).
    rewrite Em, lookup_app_l by (rewrite length_fmap; by eapply lookup_lt_Some).
    by rewrite list_lookup_fmap, Hk.
  - exists tm. split; [done|]. unfold zlen.
    by replace (first + Z.of_nat (length (encode done)) + Z.of_nat k)
      with (first + Z.of_nat (length (encode done) + k)) by lia.
Qed.

(** The slot in front of the fragments holds no fragment, and the slot of the
    next fragment is free. *)
Lemma rrel_boundaries c done j k m rest ds :
  rrel c done j → msgs = done ++ m :: rest → packets_of m = (pair GP_FRAGMENT <$> ds) ++ [(GP_FRAGMENT, [])] →
  (length ds < 50)%nat → (j <= length ds)%nat → Z.of_nat k = zlen (encode done) + Z.of_nat j →
  is_fragment_entry (gentry (recv_array c) (gcc_get_array_index (first + zlen (encode done) - 1))) = false ∧
  array_entry_is_empty (gentry (recv_array c) (gcc_get_array_index (first + Z.of_nat k))) = true.
Proof.
  intros HR E Em Hds Hj Hk. split.
  - unfold is_fragment_entry. destruct (array_entry_is_empty _) eqn:Ee; [done|]. cbn [negb andb].
    destruct (rr_slot _ _ _ HR _ (get_array_index_range _) Ee) as (k' & p & tm & Hp & Ei & _ & -> & [[Hnf _]|Hr]).
    + cbn. lia.
    + apply get_array_index_inj in Ei; unfold GCC_BUFFER_SIZE; lia.
  - destruct (array_entry_is_empty _) eqn:Ee; [done|]. exfalso.
    destruct (rr_slot _ _ _ HR _ (get_array_index_range _) Ee) as (k' & p & tm & Hp & Ei & _ & _ & [[Hnf Hr]|Hr]);
      apply get_array_index_inj in Ei; unfold GCC_BUFFER_SIZE in *; try lia.
    assert (k' = length (encode done) + j)%nat as -> by (unfold zlen in *; lia).
    rewrite (encode_lookup done m rest) in Hp by (done || rewrite Em, length_app, length_fmap; simpl; lia).
    rewrite Em in Hp. apply lookup_app_Some in Hp as [Hp|[_ Hp]].
    + rewrite list_lookup_fmap in Hp. destruct (ds !! j); by simplify_eq/=.
    + apply list_lookup_singleton_Some in Hp as [_ <-]. done.
Qed.

(** The message is complete: its fragments are taken out of the array. *)
Lemma rrel_complete c done m rest ds c' :
  rrel c done (length ds) → msgs = done ++ m :: rest →
  packets_of m = (pair GP_FRAGMENT <$> ds) ++ [(GP_FRAGMENT, [])] → (length ds < 50)%nat → ds ≠ [] →
  recv_array c' = clear_slots (recv_array c) (first + zlen (encode done)) (length ds) →
  received_message_id c' = received_message_id c + 1 → last_chunk_id c' = 0 →
  handshaked c' = true → pending_delete c' = false → rrel c' (done ++ [m]) 0.
Proof.
  intros HR E Em Hds Hne Ha Hr Hc Hh Hd.
  assert (length ds ≠ 0%nat) as Hl by (by destruct ds).
  pose proof (zlen_encode_snoc done m) as Hz. rewrite Em in Hz. rewrite zlen_app in Hz.
  unfold zlen in Hz at 3 4. rewrite length_fmap in Hz. cbn [length] in Hz.
  split.
  - exists rest. split; [by rewrite <- app_assoc|done].
  - rewrite Hr, Hz, (rr_recv _ _ _ HR). lia.
  - done.
  - done.
  - rewrite Ha. intros i Hi He.
    apply clear_slots_nonempty in He as Hcl. destruct Hcl as [Eq Hout]. rewrite Eq in He |- *.
    destruct (rr_slot _ _ _ HR i Hi He) as (k' & p' & tm & Hk' & -> & Htm' & Ee & Hor). exists k', p', tm.
    split_and!; [done..|]. left. destruct Hor as [[Hnf Hrk]|Hrk].
    + split; [done|]. assert (Z.of_nat k' ≠ zlen (encode done) + Z.of_nat (length ds)); [|lia]. intros Ek.
      assert (k' = length (encode done) + length ds)%nat as -> by (unfold zlen in *; lia).
      rewrite (encode_lookup done m rest) in Hk' by (done || rewrite Em, length_app, length_fmap; simpl; lia).
      rewrite Em, lookup_app_r in Hk' by (rewrite length_fmap; lia).
      apply list_lookup_singleton_Some in Hk' as [_ <-]. done.
    + destruct (Hout (Z.of_nat k' - zlen (encode done))); [lia|]. f_equal. lia.
  - intros k' p' Hk'. lia.
Qed.

(** How far the receiver is. *)
Abbreviation pos done j := (zlen (encode done) + Z.of_nat j).

(** From [c] the receiver gets to [c'] and hands on [ms]; it moves on exactly
    when [adv] holds. *)
Definition advances (done : list (Z * bytes)) (j : nat) (c' : GC_Connection) (ms : list (Z * bytes))
    (adv : bool) : Prop :=
  ∃ j', rrel c' (done ++ ms) j' ∧ pos (done ++ ms) j' = pos done j + if adv then 1 else 0.

Lemma advances_none c' done j : rrel c' done j → advances done j c' [] false.
Proof. intros HR. exists j. rewrite app_nil_r. split; [done|lia]. Qed.

Lemma advances_same done j c c' ms adv : same_recv c c' → advances done j c ms adv → advances done j c' ms adv.
Proof. intros Hs (j' & HR & Hp). exists j'. split; [by eapply rrel_same|done]. Qed.

Lemma rrel_pos c done j : rrel c done j → 0 <= pos done j <= zlen (encode msgs) ∧
  received_message_id c = first - 1 + pos done j ∧
  u64 (received_message_id c + 1) = first + pos done j.
Proof.
  intros HR. destruct (rr_next _ _ _ HR) as (rest & E & Hj). pose proof (zlen_nonneg (encode done)).
  assert (pos done j <= zlen (encode msgs)) as Hle.
  { rewrite E, encode_app, zlen_app. pose proof (zlen_nonneg (encode rest)). destruct j; [lia|].
    destruct Hj as (m & rest' & -> & Hm); [done|]. rewrite encode_cons, zlen_app.
    pose proof (zlen_nonneg (encode rest')). unfold zlen in *. lia. }
  rewrite (rr_recv _ _ _ HR). unfold GCC_BUFFER_SIZE in *. split_and!; try lia.
  rewrite u64_small; lia.
Qed.

(** The last fragment: the message is put together and handed on. *)
Lemma handle_end_ok c done m rest ds alloc mt :
  rrel c done (length ds) → msgs = done ++ m :: rest → msg_ok m →
  packets_of m = (pair GP_FRAGMENT <$> ds) ++ [(GP_FRAGMENT, [])] →
  concat ds = m.1 :: m.2 → fragment_sizes ds → ds ≠ [] → (length ds < 50)%nat →
  ∃ ret c' ev,
    gcc_handle_packet_fragment handler alloc mt c (Some []) 0 GP_FRAGMENT (first + pos done (length ds))
    = Some (ret, Some c', ev) ∧
    (ret = -1 ∧ alloc = false ∨ ret = 0 ∨ ret = 1) ∧ advances done (length ds) c' (handled ev) (negb (ret =? -1)).
Proof.
  intros HR E [Ht Hlen] Em Econ Hsz Hne H50. destruct (rrel_pos _ _ _ HR) as (Hpos & Hrecv & Hu).
  pose proof (rrel_fragments c done (length ds) m rest ds HR E Em ltac:(lia)) as Hh. rewrite take_ge in Hh by lia.
  destruct (rrel_boundaries c done (length ds) (length (encode done) + length ds) m rest ds)
    as [Hfront _]; try done; [unfold zlen; lia|].
  unfold gcc_handle_packet_fragment. cbn [Z.ltb Z.compare].
  assert (zlen (concat ds) = zlen m.2 + 1) as HL by (rewrite Econ; apply zlen_cons). pose proof (zlen_nonneg m.2).
  replace (first + pos done (length ds)) with (first + zlen (encode done) + zlen ds) by (unfold zlen; lia).
  rewrite reassemble_ok; try done; try (unfold GCC_BUFFER_SIZE, zlen in *; lia).
  destruct alloc; cbn [mbind option_bind].
  2: { do 3 eexists. split; [reflexivity|]. split; [by left|]. apply advances_none. apply (rrel_same c); [repeat split|done]. }
  replace (zlen (concat ds) =? 0) with false by lia. rewrite HL, Econ.
  replace (slice 1 (zlen m.2 + 1 - 1) (m.1 :: m.2)) with m.2.
  2: { unfold slice. replace (Z.to_nat (zlen m.2 + 1 - 1)) with (length m.2) by (unfold zlen; lia).
       change (drop (Z.to_nat 1) (m.1 :: m.2)) with m.2. by rewrite firstn_all. }
  change (aget 0 (m.1 :: m.2) 0) with m.1.
  destruct (Hhandler (c <| recv_array := clear_slots (recv_array c) (first + zlen (encode done)) (length ds) |>)
    m.1 m.2) as (c' & -> & Ha & Hr & Hc & Hhs & Hpd). cbn [negb]. unfold_gset.
  do 3 eexists. split; [reflexivity|]. split; [by right; left|].
  change (handled [Handled m.1 m.2]) with [(m.1, m.2)]. rewrite <- surjective_pairing. exists 0%nat.
  destruct (rr_alive _ _ _ HR) as [Hal1 Hal2]. split.
  - eapply (rrel_complete c done m rest ds); try done; unfold gcc_set_recv_message_id; unfold_gset; try congruence.
    rewrite Hr, Hu. lia.
  - rewrite zlen_encode_snoc, Em, zlen_app. unfold zlen. rewrite length_fmap. simpl. lia.
Qed.

Lemma handle_fragment_ok c done j k d alloc mt :
  rrel c done j → encode msgs !! k = Some (GP_FRAGMENT, d) → Z.of_nat k = pos done j → mono_time_get mt ≠ 0 →
  ∃ ret c' ev,
    gcc_handle_packet_fragment handler alloc mt c (Some d) (zlen d) GP_FRAGMENT (first + Z.of_nat k)
    = Some (ret, Some c', ev) ∧
    (ret = -1 ∧ alloc = false ∨ ret = 0 ∨ ret = 1) ∧ advances done j c' (handled ev) (negb (ret =? -1)).
Proof.
  intros HR Hp Hk Htm. destruct (rrel_locate _ _ _ _ _ HR Hp Hk) as (m & rest & E & Hm & Hok).
  destruct (packets_of_cases m Hok) as [Em|(ds & Em & Econ & Hsz & Hne & H50)].
  { rewrite Em in Hm. apply list_lookup_singleton_Some in Hm as [_ ->]. by destruct Hok. }
  assert (j <= length ds)%nat as Hj.
  { rewrite Em in Hm. apply lookup_lt_Some in Hm. rewrite length_app, length_fmap in Hm. simpl in Hm. lia. }
  destruct (0 <? zlen d) eqn:Ed.
  - destruct (rrel_boundaries c done j k m rest ds) as [_ Hfree]; try done.
    destruct (rrel_pos _ _ _ HR) as (Hpos & Hrecv & Hu).
    unfold gcc_handle_packet_fragment, store_in_recv_array. rewrite Ed, Hfree. cbn [negb].
    destruct (create_array_entry _ _ _ _ _ _) as [e|] eqn:Ec.
    + apply create_array_entry_spec in Ec as ->; [|done]. cbn [negb].
      unfold_gset. rewrite Hu, <- Hk.
      pose proof (rrel_fragment c done j k d mt HR Hp ltac:(lia) Hk Htm Hfree) as HR'. cbn zeta in HR'.
      do 3 eexists. split; [reflexivity|]. split; [by right; right|].
      exists (S j). rewrite app_nil_r. split; [exact HR'|]. cbn. lia.
    + do 3 eexists. split; [reflexivity|]. split; [|by apply advances_none].
      left. split; [done|]. unfold create_array_entry in Ec. rewrite Ed in Ec. by destruct alloc.
  - assert (d = []) as -> by (destruct d; [done|]; rewrite zlen_cons in Ed; pose proof (zlen_nonneg d); lia).
    assert (j = length ds) as ->.
    { rewrite Em in Hm. apply lookup_app_Some in Hm as [Hm|[Hge Hm]]; [|rewrite length_fmap in Hge; lia].
      rewrite list_lookup_fmap in Hm. destruct (ds !! j) as [d|] eqn:Edj; [|done]. cbn in Hm. simplify_eq.
      pose proof (proj1 (list.Forall_forall _ _) Hsz [] ltac:(by eapply list_elem_of_lookup_2)) as [Hz _]. done. }
    rewrite Hk. by eapply handle_end_ok.
Qed.

(** The receiver survives, and moves on when packet [k] is the next one and
    memory is available. *)
Definition recv_ok (done : list (Z * bytes)) (j k : nat) (alloc : bool)
    (r : option (bool * option GC_Connection * list GC_Event)) : Prop :=
  ∃ ok c' ev adv, r = Some (ok, Some c', ev) ∧ advances done j c' (handled ev) adv ∧
    (alloc = true → Z.of_nat k = pos done j → adv = true).

(** Only an acknowledgement or a request is sent. *)
Lemma recv_ok_ack c done j k alloc env link id type :
  rrel c done j → Z.of_nat k ≠ pos done j →
  recv_ok done j k alloc
    ('(ok, c', ev) ← gc_send_message_ack env link c id type; Some (ok, Some c', ev)).
Proof.
  intros HR Hk. destruct (send_message_ack_ok env link c id type) as (ok & c' & ev & -> & Hs & Hev).
  exists ok, c', ev, false. split; [done|]. split; [|done]. rewrite handled_none by done.
  apply advances_none. by eapply rrel_same.
Qed.

Lemma packet_fragment_ok c done j k d alloc env link :
  rrel c done j → encode msgs !! k = Some (GP_FRAGMENT, d) → pos done j <= Z.of_nat k →
  mono_time_get (gc_time env) ≠ 0 →
  recv_ok done j k alloc
    (handle_gc_packet_fragment handler env link alloc c (Some d) (zlen d) GP_FRAGMENT (first + Z.of_nat k)).
Proof.
  intros HR Hp Hk Htm. destruct (rrel_pos _ _ _ HR) as (Hpos & Hrecv & Hu). unfold handle_gc_packet_fragment.
  assert (u64 (last_chunk_id c + 1) = if decide (j = 0%nat) then 1 else first + pos done j) as Hlc.
  { rewrite (rr_chunk _ _ _ HR). by destruct (decide _). }
  assert ((last_chunk_id c =? 0) = bool_decide (j = 0%nat)) as Hl0.
  { rewrite (rr_chunk _ _ _ HR). destruct j; [done|]. rewrite decide_False, bool_decide_eq_false_2 by done.
    pose proof (zlen_nonneg (encode done)). lia. }
  destruct (decide (Z.of_nat k = pos done j)) as [Ek|Ek].
  2: { destruct (decide (j = 0%nat)) as [->|Hj]; rewrite Hl0.
       - rewrite bool_decide_eq_true_2 by done. cbn [negb andb]. rewrite Hu.
         replace (_ =? _) with false by lia. cbn [negb]. by apply recv_ok_ack.
       - rewrite bool_decide_eq_false_2 by done. cbn [negb andb]. rewrite Hlc.
         replace (first + Z.of_nat k =? first + pos done j) with false by lia. cbn [negb]. by apply recv_ok_ack. }
  assert (negb (last_chunk_id c =? 0) && negb (first + Z.of_nat k =? u64 (last_chunk_id c + 1)) = false) as ->.
  { rewrite Hl0, Hlc, Ek. destruct (decide (j = 0%nat)) as [->|Hj]; [by rewrite bool_decide_eq_true_2|].
    by rewrite Z.eqb_refl, andb_false_r. }
  rewrite Hu, Ek, Z.eqb_refl, andb_false_r. rewrite <- Ek.
  destruct (handle_fragment_ok c done j k d alloc (gc_time env) HR Hp Ek Htm) as (ret & c' & ev & -> & Hret & Hadv).
  cbn [mbind option_bind]. destruct (Z.eqb_spec ret (-1)) as [->|Hr].
  - exists false, c', ev, false. split; [done|]. split; [done|]. intros ->. destruct Hret as [[_ [=]]|[[=]|[=]]].
  - cbn [negb] in Hadv. destruct (ret =? 0).
    + destruct (send_message_ack_ok env link c' (first + Z.of_nat k) GR_ACK_RECV) as (ok & c2 & ev2 & -> & Hs & Hev).
      cbn [mbind option_bind]. do 4 eexists. split; [reflexivity|]. split; [|done].
      rewrite handled_app, (handled_none ev2), app_nil_r by done.
      apply (advances_same _ _ c2); [repeat split|]. by eapply advances_same.
    + cbn [mbind option_bind]. do 4 eexists. split; [reflexivity|]. split; [|done].
      rewrite app_nil_r. by apply (advances_same _ _ c').
Qed.

(** A packet of the stream arrives. *)
Definition arrive (env : GC_Env) (link : GC_Link) (alloc direct : bool) (c : GC_Connection) (k : nat) (p : Z * bytes) :=
  handle_unwrapped handler env link alloc c p.2 (zlen p.2) p.1 (first + Z.of_nat k) direct.

Lemma arrive_direct_ok c done j k p env link alloc :
  rrel c done j → encode msgs !! k = Some p → p.1 ≠ GP_FRAGMENT → Z.of_nat k = pos done j →
  array_entry_is_empty (gentry (recv_array c) (gcc_get_array_index (first + Z.of_nat k))) = true →
  recv_ok done j k alloc
    (let '(ret, gconn') := handler (gcc_set_recv_message_id c (first + Z.of_nat k)) p.1 (slice 0 (zlen p.2) p.2) in
     let ev := [Handled p.1 (slice 0 (zlen p.2) p.2)] in
     if negb ret then Some (false, gconn', ev)
     else
       match gconn' with
       | None => Some (true, None, ev)
       | Some gconn =>
           '(_, gconn, ev') ← gc_send_message_ack env link gconn (first + Z.of_nat k) GR_ACK_RECV;
           Some (true, Some gconn, ev ++ ev')
       end).
Proof.
  intros HR Hp Ht Hk Hempty. rewrite slice_all by done.
  destruct (Hhandler (gcc_set_recv_message_id c (first + Z.of_nat k)) p.1 p.2) as (c' & -> & Ha & Hr & Hc & Hhs & Hpd).
  cbn [negb]. destruct (send_message_ack_ok env link c' (first + Z.of_nat k) GR_ACK_RECV) as (ok & c2 & ev2 & -> & Hs & Hev).
  cbn [mbind option_bind]. do 4 eexists. split; [reflexivity|]. split; [|done].
  rewrite handled_app, (handled_none ev2), app_nil_r by done. change (handled [Handled p.1 p.2]) with [(p.1, p.2)].
  rewrite <- surjective_pairing. apply (advances_same _ _ c'); [done|].
  destruct (rr_alive _ _ _ HR) as [Hal1 Hal2].
  destruct (rrel_direct c done j k p c') as (-> & Hp1 & HR'); try done; try congruence.
  { intros i _. by rewrite Ha. }
  { by rewrite Ha. }
  { by rewrite Hhs. }
  { by rewrite Hpd. }
  exists 0%nat. split; [done|]. rewrite zlen_encode_snoc.
  lia.
Qed.

(** What [gcc_handle_received_message] decides. *)
Lemma received_message_cases c done j k p alloc mt direct ret c' :
  rrel c done j → encode msgs !! k = Some p → mono_time_get mt ≠ 0 →
  Z.of_nat k <= pos done j + GCC_BUFFER_SIZE - 1 →
  gcc_handle_received_message alloc mt c (Some p.2) (zlen p.2) p.1 (first + Z.of_nat k) direct = (ret, c') →
  (ret = 0 ∧ Z.of_nat k < pos done j ∧ rrel c' done j) ∨
  (ret = 3 ∧ pos done j <= Z.of_nat k ∧ p.1 = GP_FRAGMENT ∧ rrel c' done j) ∨
  ((ret = -1 ∨ ret = 1) ∧ pos done j < Z.of_nat k ∧ rrel c' done j) ∨
  (ret = 2 ∧ Z.of_nat k = pos done j ∧ p.1 ≠ GP_FRAGMENT ∧ ∃ c1, same_recv c c1 ∧
     c' = gcc_set_recv_message_id c1 (first + Z.of_nat k)).
Proof.
  intros HR Hp Htm Hk. unfold gcc_handle_received_message.
  set (c1 := if direct then c <| last_received_direct_time := mono_time_get mt |> else c).
  assert (same_recv c c1) as Hs by (subst c1; by destruct direct).
  assert (rrel c1 done j) as HR1 by (by eapply rrel_same).
  destruct (rrel_pos _ _ _ HR1) as (Hpos & Hrecv & Hu). rewrite Hu.
  destruct (first + Z.of_nat k <? first + pos done j) eqn:E1; [intros [= <- <-]; left; split_and!; (done || lia)|].
  destruct (Z.eqb_spec p.1 GP_FRAGMENT) as [Ef|Ef].
  { intros [= <- <-]. right; left. split_and!; (done || lia). }
  destruct (first + pos done j <? first + Z.of_nat k) eqn:E2.
  - destruct (store_in_recv_array _ _ _ _ _ _ _) as [b c2] eqn:Es.
    apply (rrel_store c1 done j k p) in Es; try done; [|lia].
    destruct b; intros [= <- <-]; right; right; left; (split_and!; [by auto|lia|done]).
  - intros [= <- <-]. right; right; right. split_and!; [done|lia|done|]. exists c1. split; [done|].
    f_equal. lia.
Qed.

(** Any packet of the stream, in any order and any number of times. *)
Lemma arrive_ok c done j k p env link alloc direct :
  rrel c done j → encode msgs !! k = Some p → mono_time_get (gc_time env) ≠ 0 →
  Z.of_nat k <= pos done j + GCC_BUFFER_SIZE - 1 →
  (Z.of_nat k = pos done j →
     array_entry_is_empty (gentry (recv_array c) (gcc_get_array_index (first + Z.of_nat k))) = true) →
  recv_ok done j k alloc (arrive env link alloc direct c k p).
Proof.
  intros HR Hp Htm Hk Hdrained. destruct (rrel_pos _ _ _ HR) as (Hpos & Hrecv & Hu).
  destruct (rr_alive _ _ _ HR) as [Hal1 Hal2]. unfold arrive, handle_unwrapped. rewrite Hal1. cbn [negb andb].
  destruct (_ && (received_message_id c <=? 1)) eqn:Einv.
  { exists false, c, [], false. split; [done|]. split; [by apply advances_none|].
    intros _ Ek. apply andb_prop in Einv as [E3 Er]. apply andb_prop in E3 as [E3 _]. lia. }
  destruct (gcc_handle_received_message _ _ _ _ _ _ _ _) as [ret c'] eqn:Er.
  destruct (received_message_cases _ _ _ _ _ _ _ _ _ _ HR Hp Htm Hk Er)
    as [(-> & Hlt & HR')|[(-> & Hge & Hf & HR')|[(Hret & Hgt & HR')|(-> & Ek & Hf & c1 & Hs & ->)]]].
  - rewrite (proj1 (rr_alive _ _ _ HR')), andb_false_r. cbn [Z.ltb Z.eqb Z.compare]. apply recv_ok_ack; [done|lia].
  - rewrite (proj1 (rr_alive _ _ _ HR')), andb_false_r. cbn [Z.ltb Z.eqb Z.compare Pos.eqb Pos.compare].
    destruct p as [t d]. cbn [fst snd] in *. subst t. by apply packet_fragment_ok.
  - rewrite (proj1 (rr_alive _ _ _ HR')), andb_false_r.
    destruct Hret as [-> | ->]; cbn [Z.ltb Z.eqb Z.compare Pos.eqb Pos.compare].
    + exists false, c', [], false. split; [done|]. split; [by apply advances_none|lia].
    + apply recv_ok_ack; [done|lia].
  - assert (rrel c1 done j) as HR1 by (by eapply rrel_same).
    change (handshaked (gcc_set_recv_message_id c1 _)) with (handshaked c1).
    rewrite (proj1 (rr_alive _ _ _ HR1)), andb_false_r. cbn [Z.ltb Z.eqb Z.compare Pos.eqb Pos.compare].
    apply arrive_direct_ok; try done. rewrite (proj1 Hs). by apply Hdrained.
Qed.

(** The periodic check hands on a stored packet when it is the next one. *)
Lemma check_ok c done j env link :
  rrel c done j →
  ∃ c' ev adv, gcc_check_recv_array handler env link c = Some (Some c', ev) ∧ advances done j c' (handled ev) adv.
Proof.
  intros HR. destruct (rrel_pos _ _ _ HR) as (Hpos & Hrecv & Hu). unfold gcc_check_recv_array.
  destruct (last_chunk_id c =? 0) eqn:Ec; cbn [negb]; [|by eauto 10 using advances_none].
  assert (j = 0%nat) as ->.
  { destruct j; [done|]. rewrite (rr_chunk _ _ _ HR), decide_False in Ec by done.
    pose proof (zlen_nonneg (encode done)). lia. }
  rewrite Hu. fold (gcc_get_array_index (first + pos done 0)).
  destruct (array_entry_is_empty _) eqn:Ee; cbn [negb]; [by eauto 10 using advances_none|].
  destruct (rr_slot _ _ _ HR _ (get_array_index_range _) Ee) as (k & p & tm & Hp & Ei & Htm & He & [[Hnf Hr]|Hr]); [|lia].
  assert (Z.of_nat k = pos done 0) as Ek.
  { apply get_array_index_inj in Ei; unfold GCC_BUFFER_SIZE in *; lia. }
  unfold process_recv_array_entry. rewrite He.
  change (slice 0 (e_data_length ?e) (default [] (e_data ?e))) with (entry_packet e).2.
  rewrite entry_packet_for. change (e_packet_type (entry_for tm _ p)) with p.1.
  destruct (Hhandler c p.1 p.2) as (c' & -> & Ha & Hrm & Hc & Hhs & Hpd). cbn [negb].
  set (c2 := c' <| recv_array := _ |>).
  destruct (send_message_ack_ok env link c2 (e_message_id (gentry (recv_array c2) (gcc_get_array_index (first + pos done 0))))
    GR_ACK_RECV) as (ok & c3 & ev3 & -> & Hs & Hev).
  cbn [mbind option_bind]. destruct (rr_alive _ _ _ HR) as [Hal1 Hal2].
  do 3 eexists. split; [reflexivity|].
  rewrite handled_app, (handled_none ev3), app_nil_r by done. change (handled [Handled p.1 p.2]) with [(p.1, p.2)].
  rewrite <- surjective_pairing. destruct Hs as (S1 & S2 & S3 & S4 & S5).
  set (c4 := gcc_set_recv_message_id c3 (u64 (received_message_id c3 + 1))).
  assert (recv_array c4 = clear_array_entry (recv_array c) (gcc_get_array_index (first + pos done 0))) as Ha4.
  { change (recv_array c4) with (recv_array c3). rewrite S1, <- Ha. done. }
  destruct (rrel_direct c done 0 k p c4) as (_ & Hp1 & HR'); try done; rewrite ?Ha4.
  - intros i Hi. by rewrite gentry_clear, decide_False by (rewrite <- Ek; done).
  - by rewrite gentry_clear, decide_True by (by rewrite Ek).
  - change (received_message_id c4) with (u64 (received_message_id c3 + 1)). rewrite S2.
    change (received_message_id c2) with (received_message_id c'). rewrite Hrm, Hu. lia.
  - change (last_chunk_id c4) with (last_chunk_id c3). rewrite S3. exact Hc.
  - change (handshaked c4) with (handshaked c3). rewrite S4. by rewrite <- Hal1.
  - change (pending_delete c4) with (pending_delete c3). rewrite S5. by rewrite <- Hal2.
  - exists 0%nat. split; [exact HR'|]. rewrite zlen_encode_snoc, Hp1. instantiate (1 := true). cbn. lia.
Qed.

(** The packets of the stream arrive in any order, any number of times, at
    most [GCC_BUFFER_SIZE] ids ahead of what was received; now and then the
    receive array is checked.  A packet that is next in order does not arrive
    while a copy of it is still stored. *)
Inductive rstep (c : GC_Connection) : list (Z * bytes) → GC_Connection → Prop :=
| rstep_arrive env link alloc direct k p ok c' ev :
    encode msgs !! k = Some p → mono_time_get (gc_time env) ≠ 0 →
    first + Z.of_nat k <= received_message_id c + GCC_BUFFER_SIZE →
    (first + Z.of_nat k = received_message_id c + 1 →
       array_entry_is_empty (gentry (recv_array c) (gcc_get_array_index (first + Z.of_nat k))) = true) →
    arrive env link alloc direct c k p = Some (ok, Some c', ev) →
    rstep c (handled ev) c'
| rstep_check env link c' ev :
    gcc_check_recv_array handler env link c = Some (Some c', ev) → rstep c (handled ev) c'.

Inductive rsteps (c : GC_Connection) : list (Z * bytes) → GC_Connection → Prop :=
| rsteps_nil : rsteps c [] c
| rsteps_snoc ms c1 ms' c2 : rsteps c ms c1 → rstep c1 ms' c2 → rsteps c (ms ++ ms') c2.

(** The same steps as a function. *)
Inductive Rcv :=
| RArrive (env : GC_Env) (link : GC_Link) (alloc direct : bool) (k : nat)
| RCheck (env : GC_Env) (link : GC_Link).

Definition rcv (c : GC_Connection) (e : Rcv) : option (list (Z * bytes) * GC_Connection) :=
  match e with
  | RArrive env link alloc direct k =>
      match encode msgs !! k with
      | None => None
      | Some p =>
          if bool_decide (mono_time_get (gc_time env) ≠ 0)
             && (first + Z.of_nat k <=? received_message_id c + GCC_BUFFER_SIZE)
             && (negb (first + Z.of_nat k =? received_message_id c + 1)
                 || array_entry_is_empty (gentry (recv_array c) (gcc_get_array_index (first + Z.of_nat k))))
          then
            match arrive env link alloc direct c k p with
            | Some (_, Some c', ev) => Some (handled ev, c')
            | _ => None
            end
          else None
      end
  | RCheck env link =>
      match gcc_check_recv_array handler env link c with
      | Some (Some c', ev) => Some (handled ev, c')
      | _ => None
      end
  end.

Fixpoint rrun (ms : list (Z * bytes)) (c : GC_Connection) (es : list Rcv) : option (list (Z * bytes) * GC_Connection) :=
  match es with
  | [] => Some (ms, c)
  | e :: es' => '(ms', c') ← rcv c e; rrun (ms ++ ms') c' es'
  end.

Lemma rcv_rstep c e ms c' : rcv c e = Some (ms, c') → rstep c ms c'.
Proof.
  destruct e as [env link alloc direct k|env link]; cbn [rcv].
  - destruct (encode msgs !! k) as [p|] eqn:Ep; [|done]. destruct (_ && _) eqn:Eb; [|done].
    destruct (arrive _ _ _ _ _ _ _) as [[[ok [c1|]] ev]|] eqn:Ea; [|done..]. intros [= <- <-].
    apply andb_prop in Eb as [Eb Es]. apply andb_prop in Eb as [Et Ew]. apply bool_decide_eq_true in Et.
    eapply rstep_arrive; try done; [lia|]. intros Ek. apply orb_prop in Es as [Es|Es]; [lia|done].
  - destruct (gcc_check_recv_array _ _ _ _) as [[[c1|] ev]|] eqn:Ec; [|done..]. intros [= <- <-].
    by eapply rstep_check.
Qed.

Lemma rrun_rsteps es : ∀ c0 ms0 c ms c', rsteps c0 ms0 c → rrun ms0 c es = Some (ms, c') → rsteps c0 ms c'.
Proof.
  induction es as [|e es IH]; intros c0 ms0 c ms c' Hs; cbn [rrun]; [by intros [= <- <-]|].
  destruct (rcv c e) as [[ms1 c1]|] eqn:Er; [|done]. cbn. apply IH. eapply rsteps_snoc; [done|].
  by eapply rcv_rstep.
Qed.

Definition fresh_receiver (c : GC_Connection) : Prop :=
  handshaked c = true ∧ pending_delete c = false ∧ recv_array c = ∅ ∧ last_chunk_id c = 0 ∧
  received_message_id c = first - 1.

Lemma fresh_rrel c : fresh_receiver c → rrel c [] 0.
Proof.
  intros (H1 & H2 & H3 & H4 & H5). split; try done.
  - by exists msgs.
  - rewrite H5. change (zlen (encode [])) with 0. lia.
  - intros i Hi. by rewrite H3, gentry_empty.
  - intros k p Hk. lia.
Qed.

Lemma rstep_rrel c ms c' done j : rrel c done j → rstep c ms c' → ∃ j', rrel c' (done ++ ms) j'.
Proof.
  intros HR Hs. destruct (rrel_pos _ _ _ HR) as (Hpos & Hrecv & Hu). inversion Hs; subst.
  - destruct (arrive_ok c done j k p env link alloc direct HR) as (ok' & c1 & ev' & adv & E & (j' & HR' & _) & _);
      try done; [lia|intros; auto with lia|]. 
    assert (ev' = ev ∧ c1 = c') as [-> ->] by (split; congruence). by exists j'.
  - destruct (check_ok c done j env link HR) as (c1 & ev' & adv & E & (j' & HR' & _)).
    assert (ev' = ev ∧ c1 = c') as [-> ->] by (split; congruence). by exists j'.
Qed.

Lemma rsteps_rrel c ms c' : fresh_receiver c → rsteps c ms c' → ∃ j, rrel c' ms j.
Proof.
  intros Hf. induction 1 as [|ms c1 ms' c2 _ [j HR] Hs]; [by exists 0%nat; apply fresh_rrel|].
  by eapply rstep_rrel.
Qed.

(** C5: Group messages arrive in order, once and whole.  A peer sends the
    messages [msgs], small and large, cut into packets numbered from [first],
    with ids below 2^64; the packets arrive in any order and any number of times,
    each at most [GCC_BUFFER_SIZE] ids ahead of what was received, and the next
    one in order not while a copy of it is stored (see
    [GroupFaults.stored_copy_redelivered]).  If the dispatch accepts every message
    and leaves the receiving half of the connection alone, then whatever the
    network, the allocator and the clock do, the messages handed to it are at
    every moment a prefix of [msgs], large ones put together from their
    fragments; when the last id was received they are all of [msgs]. *)
Theorem group_messages_in_order (c c' : GC_Connection) (ms : list (Z * bytes))
    (Hf : fresh_receiver c) (Hs : rsteps c ms c') :
  ms `prefix_of` msgs ∧
  (received_message_id c' = first - 1 + zlen (encode msgs) → ms = msgs).
Proof.
  destruct (rsteps_rrel c ms c' Hf Hs) as [j HR]. destruct (rr_next _ _ _ HR) as (rest & E & Hj).
  split; [by exists rest|]. intros Hr. destruct (rrel_pos _ _ _ HR) as (_ & Hrecv & _).
  destruct rest as [|m rest]; [by rewrite E, app_nil_r|]. exfalso.
  assert (j < length (packets_of m))%nat as Hjm.
  { destruct j; [|by destruct Hj as (? & ? & [= <- <-] & ?)].
    destruct (packets_of m) eqn:Em; [by apply packets_of_nonempty in Em|simpl; lia]. }
  rewrite E, encode_app, encode_cons, !zlen_app in Hr. pose proof (zlen_nonneg (encode rest)).
  unfold zlen in *. lia.
Qed.

(** C40: The receiver never stalls on the stream of an honest sender: in every
    state it can reach from the packets of the messages [msgs], with a dispatch
    that accepts every message, when the next packet of the stream arrives, no
    copy of it is stored and memory is available, no assertion fails and the
    received id moves on by one.  Each condition is needed: see
    [GroupFaults.rejected_fragments_wedge], [GroupFaults.oversized_fragment_aborts]
    and [GroupFaults.stored_copy_redelivered]. *)
Theorem group_receiver_progress (c c' : GC_Connection) (ms : list (Z * bytes)) (k : nat) (p : Z * bytes)
    (env : GC_Env) (link : GC_Link) (direct : bool)
    (Hf : fresh_receiver c) (Hs : rsteps c ms c')
    (Hp : encode msgs !! k = Some p) (Hk : first + Z.of_nat k = received_message_id c' + 1)
    (Htm : mono_time_get (gc_time env) ≠ 0)
    (Hslot : array_entry_is_empty (gentry (recv_array c') (gcc_get_array_index (first + Z.of_nat k))) = true) :
  ∃ ok c'' ev, arrive env link true direct c' k p = Some (ok, Some c'', ev) ∧
    received_message_id c'' = received_message_id c' + 1.
Proof.
  destruct (rsteps_rrel c ms c' Hf Hs) as [j HR]. destruct (rrel_pos _ _ _ HR) as (_ & Hrecv & _).
  destruct (arrive_ok c' ms j k p env link true direct HR) as (ok & c1 & ev & adv & E & (j' & HR' & Hpos') & Hadv);
    try done; [unfold GCC_BUFFER_SIZE; lia|].
  rewrite Hadv in Hpos' by (done || lia). exists ok, c1, ev. split; [done|].
  destruct (rrel_pos _ _ _ HR') as (_ & Hrecv' & _). lia.
Qed.
End receiver.

(** ** Witnesses *)

Definition plain_handler : GC_Handler := λ c t d, (true, Some c).

Lemma plain_handler_accepts : handler_accepts plain_handler.
Proof. intros c t d. exists c. repeat split. Qed.

Definition sample_msgs : list (Z * bytes) := [(243, [1; 2]); (242, replicate 2000 7); (243, [5])].
Definition sample_receiver : GC_Connection := sample_conn <| received_message_id := 2 |>.

(** The last message overtakes the others, a fragment comes early, a packet twice. *)
Definition sample_arrivals : list Rcv :=
  [RArrive sample_env sample_link true true 4; RArrive sample_env sample_link true true 0;
   RArrive sample_env sample_link true false 2; RArrive sample_env sample_link true true 1;
   RArrive sample_env sample_link true true 0; RArrive sample_env sample_link true true 2;
   RArrive sample_env sample_link true true 3; RCheck sample_env sample_link].

Definition sample_run : option (list (Z * bytes) * GC_Connection) :=
  @rrun toy_sodium plain_handler 3 sample_msgs [] sample_receiver sample_arrivals.
Definition sample_final : GC_Connection :=
  match sample_run with Some (_, c) => c | None => sample_receiver end.

Lemma sample_msgs_ok : Forall msg_ok sample_msgs.
Proof. repeat constructor; vm_compute; (discriminate || reflexivity). Qed.

(** The state before the last fragment arrives. *)
Definition sample_mid : GC_Connection :=
  match @rrun toy_sodium plain_handler 3 sample_msgs [] sample_receiver (take 6 sample_arrivals) with
  | Some (_, c) => c | None => sample_receiver end.

Lemma sample_mid_ok : @rsteps toy_sodium plain_handler 3 sample_msgs sample_receiver [(243, [1; 2])] sample_mid.
Proof.
  eapply (rrun_rsteps _ _ _ (take 6 sample_arrivals) _ [] sample_receiver); [constructor|]. vm_compute. reflexivity.
Qed.

Lemma group_messages_in_order_witness :
  [(243, [1; 2])] `prefix_of` sample_msgs ∧ ∃ ms, sample_run = Some (ms, sample_final) ∧ ms = sample_msgs.
Proof.
  split.
  - refine (proj1 (@group_messages_in_order toy_sodium plain_handler plain_handler_accepts 3 sample_msgs _ sample_msgs_ok _
      sample_receiver sample_mid [(243, [1; 2])] _ sample_mid_ok)); [lia|by vm_compute|by repeat split].
  - assert (∃ ms, sample_run = Some (ms, sample_final)) as [ms E] by (eexists; vm_compute; reflexivity).
    exists ms. split; [exact E|].
    refine (proj2 (@group_messages_in_order toy_sodium plain_handler plain_handler_accepts 3 sample_msgs _ sample_msgs_ok _
      sample_receiver sample_final ms _ _) _); [lia|by vm_compute|by repeat split| |vm_compute; reflexivity].
    eapply (rrun_rsteps _ _ _ sample_arrivals _ [] sample_receiver); [constructor|exact E].
Defined.

Lemma group_receiver_progress_witness :
  ∃ ok c'' ev, @arrive toy_sodium plain_handler 3 sample_env sample_link true true sample_mid 3 (239, []) = Some (ok, Some c'', ev) ∧
    received_message_id c'' = received_message_id sample_mid + 1.
Proof.
  refine (@group_receiver_progress toy_sodium plain_handler plain_handler_accepts 3 sample_msgs _ sample_msgs_ok _
    sample_receiver sample_mid [(243, [1; 2])] 3 (239, []) sample_env sample_link true _ sample_mid_ok _ _ _ _);
    [lia|by vm_compute|by repeat split|by vm_compute|by vm_compute|done|by vm_compute].
Defined.
