(* ===== verification/GroupFaults.v ===== *)
(** * GroupFaults: where a group connection loses, repeats or stops

    The theorems of [GroupReceive] have conditions: no copy of a packet is
    stored when it arrives in order, the dispatch accepts what it is given, and
    the sender cuts its packets as the code does.  The theorems here show that
    each of them is needed, by following the code in the case where it fails. *)
From S2P Require Import Prelude Util MonoTime CryptoCore Network GroupPacket GroupConnection GroupSend GroupReceive.

#[local] Opaque buffer_fuel.

(** ** Stored copies *)

Section stored.
Context {NaCl : Sodium}.
Variable handler : GC_Handler.
Hypothesis Hhandler : handler_accepts handler.

(** The packet under each id, none of them a fragment. *)
Variable f : Z → Z * bytes.
Hypothesis Hf : ∀ id, (f id).1 ≠ GP_FRAGMENT.

Variables (env : GC_Env) (link : GC_Link) (alloc direct : bool).

Definition receives (c : GC_Connection) (id : Z) : option (list (Z * bytes) * GC_Connection) :=
  match handle_unwrapped handler env link alloc c (f id).2 (zlen (f id).2) (f id).1 id direct with
  | Some (_, Some c', ev) => Some (handled ev, c')
  | _ => None
  end.

(** [k] packets arrive in order, the first one with number [id]. *)
Fixpoint receives_from (c : GC_Connection) (id : Z) (k : nat) : option (list (Z * bytes) * GC_Connection) :=
  match k with
  | O => Some ([], c)
  | S k' =>
      '(ms, c) ← receives c id;
      '(ms', c) ← receives_from c (id + 1) k';
      Some (ms ++ ms', c)
  end.

(** The receiver got everything up to [r] and is not inside a fragmented message. *)
Definition idle (c : GC_Connection) (r : Z) : Prop :=
  handshaked c = true ∧ pending_delete c = false ∧ last_chunk_id c = 0 ∧ received_message_id c = r.

Lemma receives_next c r : idle c r → 0 <= r < 2 ^ 64 - 1 →
  ∃ c', receives c (r + 1) = Some ([f (r + 1)], c') ∧ idle c' (r + 1) ∧ recv_array c' = recv_array c.
Proof.
  intros (H1 & H2 & H3 & H4) Hr. unfold receives, handle_unwrapped. rewrite H1, H4. cbn [negb andb].
  replace ((r + 1 =? 3) && _ && (r <=? 1)) with false by lia.
  unfold gcc_handle_received_message.
  set (c1 := if direct then c <| last_received_direct_time := mono_time_get (gc_time env) |> else c).
  assert (same_recv c c1) as (S1 & S2 & S3 & S4 & S5) by (subst c1; by destruct direct).
  rewrite S2, H4, u64_small by lia. rewrite Z.ltb_irrefl.
  replace ((f (r + 1)).1 =? GP_FRAGMENT) with false by (pose proof (Hf (r + 1)); lia).
  change (handshaked (gcc_set_recv_message_id c1 _)) with (handshaked c1). rewrite S4, H1. cbn [negb Z.ltb Z.eqb Z.compare Pos.eqb Pos.compare]. rewrite andb_false_r.
  rewrite slice_all by done.
  destruct (Hhandler (gcc_set_recv_message_id c1 (r + 1)) (f (r + 1)).1 (f (r + 1)).2)
    as (c2 & -> & A1 & A2 & A3 & A4 & A5). cbn [negb].
  destruct (send_message_ack_ok env link c2 (r + 1) GR_ACK_RECV) as (ok & c3 & ev & -> & (T1 & T2 & T3 & T4 & T5) & Hev).
  cbn [mbind option_bind]. exists c3. rewrite handled_app, (handled_none ev), app_nil_r by done.
  split; [cbn; by rewrite <- surjective_pairing|]. unfold gcc_set_recv_message_id in *. unfold_gset.
  unfold idle. rewrite T1, T2, T3, T4, T5, A1, A2, A3, A4, A5. split_and!; congruence.
Qed.

Lemma receives_from_ok k : ∀ c r, idle c r → 0 <= r → r + Z.of_nat k < 2 ^ 64 →
  ∃ c', receives_from c (r + 1) k = Some (f <$> seqZ (r + 1) (Z.of_nat k), c') ∧
    idle c' (r + Z.of_nat k) ∧ recv_array c' = recv_array c.
Proof.
  induction k as [|k IH]; intros c r Hi H0 Hb.
  { exists c. rewrite Z.add_0_r. done. }
  destruct (receives_next c r Hi) as (c1 & E1 & Hi1 & Ha1); [lia|].
  destruct (IH c1 (r + 1) Hi1) as (c2 & E2 & Hi2 & Ha2); [lia|lia|].
  exists c2. cbn [receives_from]. rewrite E1. cbn [mbind option_bind]. rewrite E2. cbn [mbind option_bind].
  rewrite (seqZ_cons (r + 1) (Z.of_nat (S k))) by lia.
  replace (Z.succ (r + 1)) with (r + 1 + 1) by lia. replace (Z.pred (Z.of_nat (S k))) with (Z.of_nat k) by lia.
  replace (r + Z.of_nat (S k)) with (r + 1 + Z.of_nat k) by lia. split; [done|]. split; [done|congruence].
Qed.

(** A packet that arrived too early is stored; when another copy of it
    arrives in order before the receive array is checked, it is handed on
    but its stored copy stays behind.  After the next 8,191 packets the code
    takes that copy for the packet with the same slot: the old message is
    handed on a second time, and the id of the new one counts as received
    although the new one was never handed on. *)
Theorem stored_copy_redelivered (c : GC_Connection) (n tm : Z)
    (Hc : idle c (n - 1)) (Hn : 1 <= n) (Hb : n + GCC_BUFFER_SIZE < 2 ^ 64) (Htm : tm ≠ 0)
    (Hstored : gentry (recv_array c) (gcc_get_array_index n) = entry_for tm n (f n)) :
  ∃ c1 c2 ev,
    receives_from c n (Z.to_nat GCC_BUFFER_SIZE) = Some (f <$> seqZ n GCC_BUFFER_SIZE, c1) ∧
    received_message_id c1 = n + GCC_BUFFER_SIZE - 1 ∧
    gcc_check_recv_array handler env link c1 = Some (Some c2, ev) ∧
    handled ev = [f n] ∧ received_message_id c2 = n + GCC_BUFFER_SIZE.
Proof.
  assert (0 < GCC_BUFFER_SIZE) as Hpos by done.
  destruct (receives_from_ok (Z.to_nat GCC_BUFFER_SIZE) c (n - 1) Hc) as (c1 & E1 & (I1 & I2 & I3 & I4) & Ha1);
    [lia|rewrite Z2Nat.id by done; lia|].
  rewrite Z2Nat.id in E1, I4 by done. replace (n - 1 + 1) with n in E1 by lia. exists c1.
  assert (u64 (received_message_id c1 + 1) = n + GCC_BUFFER_SIZE) as Hu by (rewrite I4, u64_small by lia; lia).
  assert (gcc_get_array_index (n + GCC_BUFFER_SIZE) = gcc_get_array_index n) as Hi
    by (rewrite !get_array_index_mod; unfold GCC_BUFFER_SIZE; wrap_lia).
  unfold gcc_check_recv_array. rewrite I3. cbn [Z.eqb negb]. rewrite Hu.
  fold (gcc_get_array_index (n + GCC_BUFFER_SIZE)). rewrite Hi, Ha1, Hstored, entry_for_nonempty by done. cbn [negb].
  unfold process_recv_array_entry. rewrite Ha1, Hstored.
  change (slice 0 (e_data_length ?e) (default [] (e_data ?e))) with (entry_packet e).2.
  rewrite entry_packet_for. change (e_packet_type (entry_for tm n (f n))) with (f n).1.
  destruct (Hhandler c1 (f n).1 (f n).2) as (c2 & -> & A1 & A2 & A3 & A4 & A5). cbn [negb].
  edestruct send_message_ack_ok as (ok & c3 & ev & Es & (T1 & T2 & T3 & T4 & T5) & Hev). rewrite Es.
  cbn [mbind option_bind]. do 2 eexists. split; [exact E1|]. split; [lia|]. split; [reflexivity|].
  rewrite handled_app, (handled_none ev), app_nil_r by done.
  split; [cbn; by rewrite <- surjective_pairing|].
  change (u64 (received_message_id c3 + 1) = n + GCC_BUFFER_SIZE). rewrite T2, <- Hu, <- A2. done.
Qed.
End stored.

(** ** Rejected messages *)

Section rejected.
Context {NaCl : Sodium}.
Variable handler : GC_Handler.

(** All fragments up to [r] were received, but none of them is stored. *)
Definition stuck (c : GC_Connection) (r : Z) : Prop :=
  handshaked c = true ∧ pending_delete c = false ∧ received_message_id c = r ∧ last_chunk_id c = r ∧
  is_fragment_entry (gentry (recv_array c) (gcc_get_array_index r)) = false.

Lemma stuck_same c c' r : same_recv c c' → stuck c r → stuck c' r.
Proof. intros (E1 & E2 & E3 & E4 & E5) H. unfold stuck. by rewrite E1, E2, E3, E4, E5. Qed.

Lemma stuck_store c r alloc mt d len t id b c' :
  stuck c r → t ≠ GP_FRAGMENT → store_in_recv_array alloc mt c d len t id = (b, c') → stuck c' r.
Proof.
  intros (H1 & H2 & H3 & H4 & H5) Ht. unfold store_in_recv_array.
  destruct (negb _); [by intros [= <- <-]|].
  destruct (create_array_entry _ _ _ _ _ _) as [e|] eqn:Ec; intros [= <- <-]; [|done].
  unfold stuck. unfold_gset. split_and!; [done..|]. rewrite gentry_insert.
  destruct (decide _); [|done]. unfold is_fragment_entry.
  replace (e_packet_type e =? GP_FRAGMENT) with false; [apply andb_false_r|].
  unfold create_array_entry in Ec. destruct (0 <? len); [destruct d, alloc; simplify_eq/=|simplify_eq/=]; lia.
Qed.

(** The end of the sequence comes again: there is nothing to put together. *)
Lemma stuck_end c r env link alloc :
  stuck c r → 0 < r < 2 ^ 64 - 1 →
  handle_gc_packet_fragment handler env link alloc c (Some []) 0 GP_FRAGMENT (r + 1)
  = Some (false, Some (c <| recv_array := recv_array c |>), []).
Proof.
  intros (H1 & H2 & H3 & H4 & H5) Hr. unfold handle_gc_packet_fragment. rewrite H3, H4, u64_small by lia.
  rewrite Z.eqb_refl, !andb_false_r. unfold gcc_handle_packet_fragment. cbn [Z.ltb Z.compare].
  unfold reassemble_packet. replace (r + 1 - 1) with r by lia. rewrite u64_small by lia. cbn [search_loop].
  unfold is_fragment_entry in H5. rewrite H5. done.
Qed.

(** Nothing an honest sender can send gets the receiver out of it: under the
    next id there is only the end of the sequence. *)
Lemma stuck_arrival c r env link alloc direct t d id :
  stuck c r → 0 < r < 2 ^ 64 - 1 → (id = r + 1 → t = GP_FRAGMENT ∧ d = []) →
  ∃ ok c' ev, handle_unwrapped handler env link alloc c d (zlen d) t id direct = Some (ok, Some c', ev) ∧
    handled ev = [] ∧ stuck c' r.
Proof.
  intros Hc Hr Hid. destruct Hc as (H1 & H2 & H3 & H4 & H5) eqn:EHc. clear EHc.
  unfold handle_unwrapped. rewrite H1. cbn [negb andb].
  destruct (_ && (received_message_id c <=? 1)); [by eauto 10|]. unfold gcc_handle_received_message.
  set (c1 := if direct then c <| last_received_direct_time := mono_time_get (gc_time env) |> else c).
  assert (same_recv c c1) as Hs by (subst c1; by destruct direct). pose proof (stuck_same _ _ _ Hs Hc) as Hc1.
  destruct Hs as (_ & S2 & _). rewrite S2, H3, u64_small by lia.
  assert (∀ c0 id' type, stuck c0 r → ∃ ok c' ev,
    ('(ok, gconn, ev) ← gc_send_message_ack env link c0 id' type; Some (ok, Some gconn, ev)) = Some (ok, Some c', ev) ∧
    handled ev = [] ∧ stuck c' r) as Hack.
  { intros c0 id' type H0. destruct (send_message_ack_ok env link c0 id' type) as (ok & c' & ev & -> & Hs' & Hev).
    exists ok, c', ev. split; [done|]. split; [by apply handled_none|by eapply stuck_same]. }
  destruct (id <? r + 1) eqn:E1.
  { rewrite (proj1 Hc1), andb_false_r. cbn [Z.ltb Z.eqb Z.compare]. by apply Hack. }
  destruct (Z.eqb_spec t GP_FRAGMENT) as [->|Ht].
  { rewrite (proj1 Hc1), andb_false_r. cbn [Z.ltb Z.eqb Z.compare Pos.eqb Pos.compare].
    destruct (decide (id = r + 1)) as [->|Hne].
    - destruct Hid as [_ ->]; [done|]. change (zlen []) with 0. rewrite stuck_end by done.
      do 3 eexists. split; [done|]. split; [done|]. by apply (stuck_same c1).
    - unfold handle_gc_packet_fragment. destruct Hc1 as (? & ? & Hr1 & Hl1 & ?).
      rewrite Hl1, u64_small by lia. replace (r =? 0) with false by lia.
      replace (id =? r + 1) with false by lia. cbn [negb andb]. apply Hack. by repeat split. }
  replace (r + 1 <? id) with true by (destruct (decide (id = r + 1)) as [E|]; [by apply Hid in E as []|lia]).
  destruct (store_in_recv_array _ _ _ _ _ _ _) as [b c2] eqn:Es.
  pose proof (stuck_store _ _ _ _ _ _ _ _ _ _ Hc1 Ht Es) as Hc2.
  destruct b; cbn [negb]; rewrite (proj1 Hc2), andb_false_r; cbn [Z.ltb Z.eqb Z.compare Pos.eqb Pos.compare];
    [by apply Hack|by eauto 10].
Qed.

(** A large message that the dispatch rejects wedges the connection.  Its
    fragments [ds] are all stored; when the empty fragment that ends the
    sequence arrives, the message is put together and its fragments are
    cleared, but after the rejection neither the received id nor the state of
    the sequence is changed.  From then on nothing that the sender transmits
    or retransmits, and no check of the receive array, hands on anything or
    moves the received id. *)
Theorem rejected_fragments_wedge (c : GC_Connection) (r : Z) (ds : list bytes)
    (env : GC_Env) (link : GC_Link) (direct : bool)
    (Hreject : ∀ c t d, handler c t d = (false, Some c))
    (Hc : handshaked c = true ∧ pending_delete c = false ∧ received_message_id c = r ∧ last_chunk_id c = r)
    (Hr : 2 < r < 2 ^ 64 - 1) (Hne : ds ≠ []) (Hlen : zlen ds < Z.min r GCC_BUFFER_SIZE)
    (Hds : holds_fragments (recv_array c) (r + 1 - zlen ds) ds) (Hsz : fragment_sizes ds)
    (Htotal : zlen (concat ds) <= MAX_GC_PACKET_SIZE)
    (Hfront : is_fragment_entry (gentry (recv_array c) (gcc_get_array_index (r - zlen ds))) = false) :
  ∃ c1 t d, handle_unwrapped handler env link true c [] 0 GP_FRAGMENT (r + 1) direct
            = Some (false, Some c1, [Handled t d]) ∧ stuck c1 r ∧
    (∀ c env link, stuck c r → gcc_check_recv_array handler env link c = Some (Some c, [])) ∧
    (∀ c env link alloc direct t d id, stuck c r → (id = r + 1 → t = GP_FRAGMENT ∧ d = []) →
      ∃ ok c' ev, handle_unwrapped handler env link alloc c d (zlen d) t id direct = Some (ok, Some c', ev) ∧
        handled ev = [] ∧ stuck c' r).
Proof.
  destruct Hc as (H1 & H2 & H3 & H4).
  set (c0 := if direct then c <| last_received_direct_time := mono_time_get (gc_time env) |> else c).
  assert (same_recv c c0) as (S1 & S2 & S3 & S4 & S5) by (subst c0; by destruct direct).
  assert (1 <= length ds)%nat as Hl by (destruct ds; [done|simpl; lia]).
  assert (reassemble_packet true (recv_array c) (r + 1)
    = Some (zlen (concat ds), concat ds, clear_slots (recv_array c) (r + 1 - zlen ds) (length ds))) as Hre.
  { replace (r + 1) with (r + 1 - zlen ds + zlen ds) at 1 by lia.
    apply (reassemble_ok true); try (done || (unfold zlen in *; lia)).
    by replace (r + 1 - zlen ds - 1) with (r - zlen ds) by lia. }
  assert (0 < zlen (concat ds)) as Hpos.
  { destruct ds as [|d ds]; [done|]. cbn [concat]. rewrite zlen_app. pose proof (Forall_inv Hsz) as Hd.
    cbn beta in Hd. pose proof (zlen_nonneg (concat ds)). lia. }
  exists (c0 <| recv_array := clear_slots (recv_array c) (r + 1 - zlen ds) (length ds) |>),
    (aget 0 (concat ds) 0), (slice 1 (zlen (concat ds) - 1) (concat ds)).
  split; [|split; [|split]].
  - unfold handle_unwrapped. rewrite H1, H3. cbn [negb andb].
    replace (_ && (r <=? 1)) with false by (replace (r <=? 1) with false by lia; by rewrite andb_false_r).
    unfold gcc_handle_received_message. fold c0. rewrite S2, H3, u64_small, Z.ltb_irrefl by lia.
    rewrite Z.eqb_refl, S4, H1. cbn [negb Z.ltb Z.eqb Z.compare Pos.eqb Pos.compare]. rewrite andb_false_r.
    unfold handle_gc_packet_fragment. rewrite S2, S3, H3, H4, u64_small, Z.eqb_refl, !andb_false_r by lia.
    unfold gcc_handle_packet_fragment. cbn [Z.ltb Z.compare]. rewrite S1, Hre. cbn [mbind option_bind].
    replace (zlen (concat ds) =? 0) with false by lia. by rewrite Hreject.
  - unfold stuck. unfold_gset. rewrite S2, S3, S4, S5. split_and!; [done..|].
    assert (gentry (clear_slots (recv_array c) (r + 1 - zlen ds) (length ds)) (gcc_get_array_index r) = empty_entry) as ->; [|done].
    replace r with (r + 1 - zlen ds + (zlen ds - 1)) at 2 by lia. apply gentry_clear_slots_in. unfold zlen. lia.
  - intros c' env' link' (_ & _ & _ & Hlc & _). unfold gcc_check_recv_array.
    by replace (last_chunk_id c' =? 0) with false by lia.
  - intros. apply stuck_arrival; (done || lia).
Qed.
End rejected.

(** ** Oversized fragments *)

Definition MIN_UDP_PACKET_SIZE : Z := 1 + ENC_PUBLIC_KEY_SIZE + CRYPTO_NONCE_SIZE + CRYPTO_MAC_SIZE.

(** The length checks of [handle_gc_udp_packet]. *)
Definition gc_udp_length_ok (length : Z) : bool :=
  negb (length <=? MIN_UDP_PACKET_SIZE)
  && negb (MAX_GC_PACKET_CHUNK_SIZE + MIN_UDP_PACKET_SIZE + ENC_PUBLIC_KEY_SIZE <? length).

Section oversized.
Context {NaCl : Sodium} {Laws : SodiumLaws NaCl}.
Variable handler : GC_Handler.

(** The body of a fragment without padding, of any length. *)
Definition fragment_body (id : Z) (d : bytes) : bytes := GP_FRAGMENT :: net_pack_u64 id ++ d.

Lemma zlen_fragment_body id d : zlen (fragment_body id d) = 9 + zlen d.
Proof. unfold fragment_body. rewrite zlen_cons, zlen_app. change (zlen (net_pack_u64 id)) with 8. lia. Qed.

Lemma unwrap_fragment key nonce id d x :
  zlen nonce = CRYPTO_NONCE_SIZE → is_u64 id →
  encrypt_data_symmetric true key nonce (fragment_body id d) (zlen (fragment_body id d))
    = (zlen (fragment_body id d) + 16, x) →
  zlen (nonce ++ x) = 49 + zlen d ∧
  group_packet_unwrap true true key true (nonce ++ x) (zlen (nonce ++ x)) = UnwrapData GP_FRAGMENT id d.
Proof.
  intros Hn Hid He. pose proof (zlen_nonneg d). pose proof (zlen_fragment_body id d) as Hb.
  destruct (encrypt_data_symmetric_ok key nonce (fragment_body id d) (zlen (fragment_body id d))) as (x' & He' & Hx & _); [lia|].
  assert (x' = x) as -> by congruence. assert (zlen (nonce ++ x) = 49 + zlen d) as Hz.
  { rewrite zlen_app, Hn, Hx. unfold CRYPTO_NONCE_SIZE. lia. }
  split; [done|]. unfold group_packet_unwrap. unfold CRYPTO_NONCE_SIZE in *. rewrite Hz.
  replace (49 + zlen d <=? 24) with false by lia. cbn [negb]. rewrite slice_app_l by done.
  rewrite drop_app_length' by (unfold zlen in Hn; lia).
  replace (49 + zlen d - 24) with (zlen (fragment_body id d) + 16) by lia.
  rewrite (decrypt_encrypt key nonce (fragment_body id d) (zlen (fragment_body id d)) x) by (done || lia).
  replace (zlen (fragment_body id d) <=? 0) with false by lia. rewrite slice_all by done.
  exact (unwrap_wrap_plain NET_PACKET_GC_LOSSLESS 0 GP_FRAGMENT id d ltac:(done) Hid).
Qed.

(** The first fragment is stored whatever its length. *)
Lemma fragment_stored env link direct c r d :
  idle c r → 0 <= r < 2 ^ 64 - 2 → 0 < zlen d →
  array_entry_is_empty (gentry (recv_array c) (gcc_get_array_index (r + 1))) = true →
  ∃ c', handle_unwrapped handler env link true c d (zlen d) GP_FRAGMENT (r + 1) direct = Some (true, Some c', []) ∧
    handshaked c' = true ∧ pending_delete c' = false ∧ session_shared_key c' = session_shared_key c ∧
    received_message_id c' = r + 1 ∧ last_chunk_id c' = r + 1 ∧
    gentry (recv_array c') (gcc_get_array_index (r + 1))
      = entry_for (mono_time_get (gc_time env)) (r + 1) (GP_FRAGMENT, d).
Proof.
  intros (H1 & H2 & H3 & H4) Hr Hd He. unfold handle_unwrapped. rewrite H1, H4. cbn [negb andb].
  replace ((r + 1 =? 3) && _ && (r <=? 1)) with false by lia.
  unfold gcc_handle_received_message.
  set (c1 := if direct then c <| last_received_direct_time := mono_time_get (gc_time env) |> else c).
  assert (same_recv c c1) as (S1 & S2 & S3 & S4 & S5) by (subst c1; by destruct direct).
  assert (session_shared_key c1 = session_shared_key c) as S6 by (subst c1; by destruct direct).
  rewrite S2, H4, u64_small, Z.ltb_irrefl, Z.eqb_refl by lia.
  rewrite S4, H1. cbn [negb Z.ltb Z.eqb Z.compare Pos.eqb Pos.compare]. rewrite andb_false_r.
  unfold handle_gc_packet_fragment. rewrite S2, S3, H3, H4, (u64_small (r + 1)) by lia.
  rewrite !Z.eqb_refl. cbn [negb andb]. unfold gcc_handle_packet_fragment, store_in_recv_array.
  replace (0 <? zlen d) with true by lia. rewrite S1, He. cbn [negb]. unfold create_array_entry.
  replace (0 <? zlen d) with true by lia. cbn [negb]. rewrite slice_all by done.
  eexists. split; [reflexivity|]. unfold gcc_set_recv_message_id. unfold_gset. rewrite S2, S4, S5, S6, H4.
  split_and!; [done..|rewrite u64_small by lia; lia|done|].
  rewrite gentry_insert_eq. unfold entry_for. cbn [snd fst]. by replace (0 <? zlen d) with true by lia.
Qed.

(** The end of the sequence reaches the assertion. *)
Lemma oversized_end env link direct c r d tm :
  handshaked c = true → received_message_id c = r → last_chunk_id c = r → 0 < r < 2 ^ 64 - 1 → tm ≠ 0 →
  1372 < zlen d →
  gentry (recv_array c) (gcc_get_array_index r) = entry_for tm r (GP_FRAGMENT, d) →
  handle_unwrapped handler env link true c [] 0 GP_FRAGMENT (r + 1) direct = None.
Proof.
  intros H1 H2 H3 Hr Htm Hd He. unfold handle_unwrapped. rewrite H1, H2. cbn [negb andb].
  replace (_ && (r <=? 1)) with false by lia.
  unfold gcc_handle_received_message.
  set (c1 := if direct then c <| last_received_direct_time := mono_time_get (gc_time env) |> else c).
  assert (same_recv c c1) as (S1 & S2 & S3 & S4 & S5) by (subst c1; by destruct direct).
  rewrite S2, H2, u64_small, Z.ltb_irrefl, Z.eqb_refl, S4, H1 by lia.
  cbn [negb Z.ltb Z.eqb Z.compare Pos.eqb Pos.compare]. rewrite andb_false_r.
  unfold handle_gc_packet_fragment. rewrite S2, S3, H2, H3, u64_small, Z.eqb_refl, !andb_false_r by lia.
  unfold gcc_handle_packet_fragment. cbn [Z.ltb Z.compare]. unfold reassemble_packet. rewrite S1.
  replace (r + 1 - 1) with r by lia. rewrite u64_small by lia. cbn [search_loop]. rewrite He.
  rewrite entry_for_nonempty, entry_for_data by (done || lia). cbn [negb entry_for e_packet_type e_data_length fst snd andb].
  rewrite Z.eqb_refl, bool_decide_eq_false_2 by done. unfold MAX_GC_PACKET_CHUNK_SIZE.
  by replace (zlen d <=? 1372) with false by lia.
Qed.

(** A member of a group can stop the others.  The receiver checks the
    length of a fragment only with an [assert] when it puts the fragments
    together: for every payload of 1,373 to 1,395 bytes, a fragment with this
    payload and the empty fragment after it, encrypted by a peer under its
    session key, pass the length checks of the network handler, the first is
    stored, and the second makes the assertion fail. *)
Theorem oversized_fragment_aborts (env : GC_Env) (link : GC_Link) (direct : bool) (c : GC_Connection) (r : Z)
    (d nonce1 nonce2 x1 x2 : bytes)
    (Hc : idle c r) (Hr : 0 <= r < 2 ^ 64 - 3) (Htm : mono_time_get (gc_time env) ≠ 0)
    (Hfree : array_entry_is_empty (gentry (recv_array c) (gcc_get_array_index (r + 1))) = true)
    (Hd : MAX_GC_PACKET_CHUNK_SIZE < zlen d <= 1395)
    (Hn1 : zlen nonce1 = CRYPTO_NONCE_SIZE) (Hn2 : zlen nonce2 = CRYPTO_NONCE_SIZE)
    (Hx1 : encrypt_data_symmetric true (session_shared_key c) nonce1 (fragment_body (r + 1) d)
             (zlen (fragment_body (r + 1) d)) = (zlen (fragment_body (r + 1) d) + 16, x1))
    (Hx2 : encrypt_data_symmetric true (session_shared_key c) nonce2 (fragment_body (r + 2) [])
             (zlen (fragment_body (r + 2) [])) = (zlen (fragment_body (r + 2) []) + 16, x2)) :
  gc_udp_length_ok (33 + zlen (nonce1 ++ x1)) = true ∧ gc_udp_length_ok (33 + zlen (nonce2 ++ x2)) = true ∧
  ∃ c', handle_gc_lossless_packet handler env link true (Some c) (nonce1 ++ x1) (zlen (nonce1 ++ x1)) direct
        = Some (true, Some c', []) ∧
    handle_gc_lossless_packet handler env link true (Some c') (nonce2 ++ x2) (zlen (nonce2 ++ x2)) direct = None.
Proof.
  destruct (unwrap_fragment _ _ (r + 1) _ _ Hn1 ltac:(unfold_cint; lia) Hx1) as [Hz1 Hu1].
  destruct (unwrap_fragment _ _ (r + 2) _ _ Hn2 ltac:(unfold_cint; lia) Hx2) as [Hz2 Hu2].
  change (zlen []) with 0 in Hz2. unfold MAX_GC_PACKET_CHUNK_SIZE in Hd.
  assert (∀ n, 73 < n <= 1477 → gc_udp_length_ok n = true) as Hok.
  { intros n Hn. unfold gc_udp_length_ok. change MIN_UDP_PACKET_SIZE with 73.
    change (MAX_GC_PACKET_CHUNK_SIZE + 73 + ENC_PUBLIC_KEY_SIZE) with 1477. lia. }
  split; [apply Hok; lia|]. split; [apply Hok; lia|].
  destruct (fragment_stored env link direct c r d Hc) as (c' & Es & A1 & A2 & A3 & A4 & A5 & A6); [lia|lia|done|].
  exists c'. unfold handle_gc_lossless_packet. rewrite Hu1, A3, Hu2, Hz1, Hz2.
  change GC_MIN_LOSSLESS_PAYLOAD_SIZE with 49. replace (49 + zlen d <? 49) with false by lia.
  change (49 + 0 <? 49) with false. destruct Hc as (_ & -> & _ & _). rewrite A2. cbn [negb].
  rewrite u16_small by lia. split; [done|]. change (u16 (zlen [])) with 0.
  replace (r + 2) with (r + 1 + 1) by lia.
  apply (oversized_end env link direct c' (r + 1) d (mono_time_get (gc_time env))); (done || lia).
Qed.
End oversized.

(** ** Acknowledging stored packets *)

Section acknowledged.
Context {NaCl : Sodium}.

(** A packet that was stored is never acknowledged under its own id:
    [process_recv_array_entry] clears the entry and then reads the id for the
    acknowledgement out of it, so that every acknowledgement and every request
    it sends names message 0. *)
Theorem stored_packet_acked_as_zero (handler : GC_Handler) (env : GC_Env) (link : GC_Link)
    (c : GC_Connection) (idx : Z) (ok : bool) (c' : option GC_Connection) (ev : list GC_Event)
    (type : Group_Message_Ack_Type) (id : Z) (packets : list GC_Sent)
    (Hp : process_recv_array_entry handler env link c idx = Some (ok, c', ev))
    (Hin : AckSent type id packets ∈ ev) : id = 0.
Proof.
  unfold process_recv_array_entry in Hp. destruct (handler _ _ _) as [ret [c1|]].
  2: { injection Hp as <- <- <-. set_solver. }
  unfold_gset. rewrite gentry_clear, decide_True in Hp by done. change (e_message_id empty_entry) with 0 in Hp.
  assert (∀ c2 ty ok' c3 ev', gc_send_message_ack env link c2 0 ty = Some (ok', c3, ev') →
    AckSent type id packets ∈ ev' → id = 0) as Hack.
  { intros c2 ty ok' c3 ev'. unfold gc_send_message_ack, send_ack.
    destruct (pending_delete c2); [intros [= <- <- <-]; set_solver|].
    destruct ty; [|destruct (_ =? _); [intros [= <- <- <-]; set_solver|]];
      (destruct (send_lossy_group_packet _ _ _ _ _ _) as [[? ?]|]; [|done]); cbn; intros [= <- <- <-];
      rewrite list_elem_of_singleton; congruence. }
  destruct ret; cbn [negb] in Hp;
    (destruct (gc_send_message_ack _ _ _ _ _) as [[[ok' c3] ev']|] eqn:Ea; [|done]); cbn in Hp;
    injection Hp as <- <- <-; apply elem_of_cons in Hin as [[=]|Hin]; by eapply Hack.
Qed.
End acknowledged.

(** ** Witnesses *)

(** Message 5 came early; messages up to 4 were received. *)
Definition numbered (id : Z) : Z * bytes := (243, [id mod 256]).
Definition stored_conn : GC_Connection :=
  sample_conn <| received_message_id := 4 |> <| recv_array := <[5 := entry_for 100 5 (numbered 5)]> ∅ |>.

Lemma stored_copy_redelivered_witness :
  ∃ c1 c2 ev,
    @receives_from toy_sodium plain_handler numbered sample_env sample_link true true stored_conn 5
      (Z.to_nat GCC_BUFFER_SIZE) = Some (numbered <$> seqZ 5 GCC_BUFFER_SIZE, c1) ∧
    received_message_id c1 = 5 + GCC_BUFFER_SIZE - 1 ∧
    @gcc_check_recv_array toy_sodium plain_handler sample_env sample_link c1 = Some (Some c2, ev) ∧
    handled ev = [numbered 5] ∧ received_message_id c2 = 5 + GCC_BUFFER_SIZE.
Proof.
  refine (@stored_copy_redelivered toy_sodium plain_handler plain_handler_accepts numbered _ sample_env sample_link
    true true stored_conn 5 100 _ _ _ _ _); [by intros id|by repeat split|done|by vm_compute|done|by vm_compute].
Defined.

(** Fragments 4 and 5 of a message are stored. *)
Definition fragment_conn : GC_Connection :=
  sample_conn <| received_message_id := 5 |> <| last_chunk_id := 5 |>
    <| recv_array := <[5 := entry_for 100 5 (GP_FRAGMENT, [8; 8])]> (<[4 := entry_for 100 4 (GP_FRAGMENT, [242; 7])]> ∅) |>.
Definition rejecting_handler : GC_Handler := λ c t d, (false, Some c).

Lemma rejected_fragments_wedge_witness :
  ∃ c1 t d, @handle_unwrapped toy_sodium rejecting_handler sample_env sample_link true fragment_conn [] 0 GP_FRAGMENT
              (5 + 1) true = Some (false, Some c1, [Handled t d]) ∧ stuck c1 5 ∧
    (∀ c env link, stuck c 5 → @gcc_check_recv_array toy_sodium rejecting_handler env link c = Some (Some c, [])) ∧
    (∀ c env link alloc direct t d id, stuck c 5 → (id = 5 + 1 → t = GP_FRAGMENT ∧ d = []) →
      ∃ ok c' ev, @handle_unwrapped toy_sodium rejecting_handler env link alloc c d (zlen d) t id direct
                  = Some (ok, Some c', ev) ∧ handled ev = [] ∧ stuck c' 5).
Proof.
  refine (@rejected_fragments_wedge toy_sodium rejecting_handler fragment_conn 5 [[242; 7]; [8; 8]] sample_env sample_link
    true _ _ _ _ _ _ _ _ _); [done|by repeat split|done|done|done|..|by vm_compute|done].
  - intros [|[|k]] d [= <-]; exists 100; (split; [done|by vm_compute]).
  - repeat constructor; by vm_compute.
Defined.

Definition big_fragment : bytes := replicate 1395 7.
Definition sample_cipher (nonce plain : bytes) : bytes :=
  (@encrypt_data_symmetric toy_sodium true (session_shared_key sample_conn) nonce plain (zlen plain)).2.

Lemma oversized_fragment_aborts_witness :
  let p1 := replicate 24 5 ++ sample_cipher (replicate 24 5) (fragment_body (2 + 1) big_fragment) in
  let p2 := replicate 24 6 ++ sample_cipher (replicate 24 6) (fragment_body (2 + 2) []) in
  gc_udp_length_ok (33 + zlen p1) = true ∧ gc_udp_length_ok (33 + zlen p2) = true ∧
  ∃ c', @handle_gc_lossless_packet toy_sodium plain_handler sample_env sample_link true (Some sample_receiver) p1 (zlen p1) true
        = Some (true, Some c', []) ∧
    @handle_gc_lossless_packet toy_sodium plain_handler sample_env sample_link true (Some c') p2 (zlen p2) true = None.
Proof.
  refine (@oversized_fragment_aborts toy_sodium toy_sodium_laws plain_handler sample_env sample_link true sample_receiver 2
    big_fragment (replicate 24 5) (replicate 24 6) _ _ _ _ _ _ _ _ _ _ _);
    [by repeat split|done|done|by vm_compute|by vm_compute|done|done|by vm_compute|by vm_compute].
Defined.

Definition stored_events : list GC_Event :=
  match @process_recv_array_entry toy_sodium plain_handler sample_env sample_link stored_conn 5 with
  | Some (_, _, ev) => ev | None => [] end.
Definition stored_after : option GC_Connection :=
  match @process_recv_array_entry toy_sodium plain_handler sample_env sample_link stored_conn 5 with
  | Some (_, c, _) => c | None => None end.
Definition stored_ack : Group_Message_Ack_Type * Z * list GC_Sent :=
  match stored_events with [_; AckSent type id packets] => (type, id, packets) | _ => (GR_ACK_REQ, 1, []) end.

Lemma stored_packet_acked_as_zero_witness : stored_ack.1.2 = 0.
Proof.
  refine (@stored_packet_acked_as_zero toy_sodium plain_handler sample_env sample_link stored_conn 5 true stored_after
    stored_events stored_ack.1.1 stored_ack.1.2 stored_ack.2 _ _); [by vm_compute|].
  assert (stored_events = [Handled 243 [5]; AckSent stored_ack.1.1 stored_ack.1.2 stored_ack.2]) as -> by (by vm_compute).
  right. left.
Defined.
