(* ===== verification/DhtDistance.v ===== *)
(** * DhtDistance: the distance between keys of [toxcore/DHT.c]

    The DHT orders nodes by the exclusive or of their keys.  [id_closest]
    compares two keys byte by byte and [bit_by_bit_cmp] finds the first bit in
    which two keys differ; both are shown to compute with the distance as one
    number of 256 bits. *)
From S2P Require Import Prelude CryptoCore.

(** ** Definitions *)

(** The keys have [CRYPTO_PUBLIC_KEY_SIZE] bytes each; the loop over the index
    is the recursion over their bytes. *)
Fixpoint id_closest (pk pk1 pk2 : bytes) : Z :=
  match pk, pk1, pk2 with
  | b :: pk', b1 :: pk1', b2 :: pk2' =>
      let distance1 := Z.lxor b b1 in
      let distance2 := Z.lxor b b2 in
      if distance1 <? distance2 then 1
      else if distance2 <? distance1 then 2
      else id_closest pk' pk1' pk2'
  | _, _, _ => 0
  end.

(** The inner loop of [bit_by_bit_cmp]: the value of [j] when it ends. *)
Fixpoint first_bit_loop (count : nat) (j b1 b2 : Z) : Z :=
  match count with
  | O => j
  | S count' =>
      let mask := u8 (Z.shiftl 1 (7 - j)) in
      if negb (Z.land b1 mask =? Z.land b2 mask) then j
      else first_bit_loop count' (j + 1) b1 b2
  end.

(** The outer loop, from the byte with index [i]. *)
Fixpoint bit_by_bit_loop (i : Z) (pk1 pk2 : bytes) : Z :=
  match pk1, pk2 with
  | b1 :: pk1', b2 :: pk2' =>
      if b1 =? b2 then bit_by_bit_loop (i + 1) pk1' pk2'
      else i * 8 + first_bit_loop 8 0 b1 b2
  | _, _ => i * 8 + 0
  end.

Definition bit_by_bit_cmp (pk1 pk2 : bytes) : Z := bit_by_bit_loop 0 pk1 pk2.

(** ** The distance as a number *)

(** The distance of two keys: the exclusive or of them as big-endian numbers. *)
Definition distance (a b : bytes) : Z := Z.lxor (be_val a) (be_val b).

Definition key_ok (k : bytes) : Prop := zlen k = 32 ∧ bytes_ok k.

Lemma be_val_cons b l : be_val (b :: l) = b * 2 ^ (8 * zlen l) + be_val l.
Proof.
  unfold be_val. cbn [rev]. rewrite le_val_app. cbn [le_val].
  unfold zlen at 1. rewrite length_rev. fold (zlen l).
  rewrite Z.pow_mul_r by (try apply zlen_nonneg; lia). change (2 ^ 8) with 256. lia.
Qed.

Lemma be_val_range l : bytes_ok l → 0 <= be_val l < 2 ^ (8 * zlen l).
Proof.
  intros Hl. unfold be_val. rewrite Z.pow_mul_r by (try apply zlen_nonneg; lia).
  change (2 ^ 8) with 256. replace (zlen l) with (zlen (rev l)) by (unfold zlen; by rewrite length_rev).
  by apply le_val_range, Forall_rev.
Qed.

(** A number below [2^n] has no bits from [n] on. *)
Lemma testbit_above n x i : 0 <= x < 2 ^ n → n <= i → Z.testbit x i = false.
Proof.
  intros Hx Hi. destruct (Z.eq_dec x 0) as [->|]; [apply Z.bits_0|].
  apply Z.bits_above_log2; [lia|]. apply Z.log2_lt_pow2; [lia|].
  apply Z.lt_le_trans with (2 ^ n); [lia|]. apply Z.pow_le_mono_r; lia.
Qed.

Lemma lxor_range n x y : 0 <= n → 0 <= x < 2 ^ n → 0 <= y < 2 ^ n → 0 <= Z.lxor x y < 2 ^ n.
Proof.
  intros Hn Hx Hy. assert (0 <= Z.lxor x y) by (apply Z.lxor_nonneg; lia). split; [done|].
  destruct (Z.eq_dec (Z.lxor x y) 0) as [->|Hne]; [lia|].
  apply Z.log2_lt_pow2; [lia|]. apply Z.nle_gt. intros Hle.
  assert (Z.testbit (Z.lxor x y) (Z.log2 (Z.lxor x y)) = true) as Ht by (apply Z.bit_log2; lia).
  rewrite Z.lxor_spec, !(testbit_above n) in Ht by lia. done.
Qed.

(** The exclusive or works on the high and the low part separately. *)
Lemma lxor_concat n x y p q : 0 <= n → 0 <= p < 2 ^ n → 0 <= q < 2 ^ n →
  Z.lxor (x * 2 ^ n + p) (y * 2 ^ n + q) = Z.lxor x y * 2 ^ n + Z.lxor p q.
Proof.
  intros Hn Hp Hq. rewrite <- !lor_shiftl_add by (try apply lxor_range; lia).
  apply Z.bits_inj'. intros i Hi. rewrite !Z.lxor_spec, !Z.lor_spec, !Z.lxor_spec.
  destruct (Z.lt_ge_cases i n).
  - by rewrite !Z.shiftl_spec_low by lia.
  - rewrite !Z.shiftl_spec, !Z.lxor_spec by lia. rewrite (testbit_above n p), (testbit_above n q) by lia.
    by rewrite !orb_false_r.
Qed.

Lemma distance_cons a b x y : bytes_ok a → bytes_ok b → length a = length b →
  distance (x :: a) (y :: b) = Z.lxor x y * 2 ^ (8 * zlen a) + distance a b.
Proof.
  intros Ha Hb Hl. unfold distance. rewrite !be_val_cons.
  assert (zlen b = zlen a) as Hz by (unfold zlen; lia).
  pose proof (be_val_range a Ha). pose proof (be_val_range b Hb) as Hr. rewrite Hz in *.
  apply lxor_concat; [pose proof (zlen_nonneg a); lia|lia|lia].
Qed.

Lemma distance_range a b : bytes_ok a → bytes_ok b → length a = length b →
  0 <= distance a b < 2 ^ (8 * zlen a).
Proof.
  intros Ha Hb Hl. pose proof (be_val_range a Ha). pose proof (be_val_range b Hb) as Hr.
  assert (zlen b = zlen a) as Hz by (unfold zlen; lia). rewrite Hz in *.
  apply lxor_range; [pose proof (zlen_nonneg a); lia|lia|lia].
Qed.

Lemma distance_inj k a b : bytes_ok a → bytes_ok b → length a = length b →
  distance k a = distance k b → a = b.
Proof.
  unfold distance. intros Ha Hb Hl E. apply (f_equal (Z.lxor (be_val k))) in E.
  rewrite <- !Z.lxor_assoc, Z.lxor_nilpotent, !Z.lxor_0_l in E. by apply be_val_inj.
Qed.

Lemma distance_zero a b : bytes_ok a → bytes_ok b → length a = length b → distance a b = 0 ↔ a = b.
Proof.
  intros Ha Hb Hl. unfold distance. rewrite Z.lxor_eq_0_iff. split; [|by intros ->].
  by apply be_val_inj.
Qed.

(** ** The comparisons compute with the distance *)

Lemma id_closest_spec pk : ∀ pk1 pk2,
  bytes_ok pk → bytes_ok pk1 → bytes_ok pk2 → length pk1 = length pk → length pk2 = length pk →
  id_closest pk pk1 pk2 =
    (if distance pk pk1 <? distance pk pk2 then 1 else if distance pk pk2 <? distance pk pk1 then 2 else 0).
Proof.
  induction pk as [|b pk IH]; intros [|b1 pk1] [|b2 pk2] H H1 H2 L1 L2; simpl in L1, L2; try done.
  inversion H; inversion H1; inversion H2; subst. cbn [id_closest].
  rewrite !distance_cons by (done || lia).
  pose proof (distance_range pk pk1) as R1. pose proof (distance_range pk pk2) as R2.
  specialize (R1 ltac:(done) ltac:(done) ltac:(lia)). specialize (R2 ltac:(done) ltac:(done) ltac:(lia)).
  specialize (IH pk1 pk2). rewrite IH by (done || lia).
  set (P := 2 ^ (8 * zlen pk)) in *. set (d1 := Z.lxor b b1). set (d2 := Z.lxor b b2).
  destruct (d1 <? d2) eqn:?; [replace (_ <? _) with true by nia; done|].
  destruct (d2 <? d1) eqn:?.
  { replace (d1 * P + _ <? _) with false by nia. by replace (d2 * P + _ <? _) with true by nia. }
  replace d2 with d1 by lia. cases; lia.
Qed.

Lemma id_closest_cases pk pk1 pk2 :
  key_ok pk → key_ok pk1 → key_ok pk2 →
  (id_closest pk pk1 pk2 = 1 ∧ distance pk pk1 < distance pk pk2) ∨
  (id_closest pk pk1 pk2 = 2 ∧ distance pk pk2 < distance pk pk1) ∨
  (id_closest pk pk1 pk2 = 0 ∧ pk1 = pk2 ∧ distance pk pk1 = distance pk pk2).
Proof.
  unfold key_ok, zlen. intros [] [] []. rewrite id_closest_spec by (done || lia).
  destruct (distance pk pk1 <? distance pk pk2) eqn:?; [left; lia|].
  destruct (distance pk pk2 <? distance pk pk1) eqn:?; [right; left; lia|].
  right; right. split_and!; [done|apply (distance_inj pk); (done || lia)|lia].
Qed.

(** The first bit in which two bytes differ, counted from the most significant. *)
Definition first_bit_ok (b1 b2 : Z) : bool :=
  (b1 =? b2) || (first_bit_loop 8 0 b1 b2 =? 7 - Z.log2 (Z.lxor b1 b2)).

Lemma first_bit_ok_all :
  forallb (λ b1, forallb (λ b2, first_bit_ok (Z.of_nat b1) (Z.of_nat b2)) (seq 0 256)) (seq 0 256) = true.
Proof. vm_compute. reflexivity. Qed.

Lemma first_bit_spec b1 b2 : is_u8 b1 → is_u8 b2 → b1 ≠ b2 →
  first_bit_loop 8 0 b1 b2 = 7 - Z.log2 (Z.lxor b1 b2).
Proof.
  intros H1 H2 Hne. pose proof first_bit_ok_all as H. rewrite forallb_forall in H.
  unfold is_u8 in *. specialize (H (Z.to_nat b1)). rewrite forallb_forall in H.
  specialize (H ltac:(apply in_seq; lia) (Z.to_nat b2) ltac:(apply in_seq; lia)).
  rewrite !Z2Nat.id in H by lia. unfold first_bit_ok in H.
  apply orb_true_iff in H as [H|H]; [lia|]. by apply Z.eqb_eq in H.
Qed.

Lemma log2_concat n x p : 0 <= n → 0 < x → 0 <= p < 2 ^ n → Z.log2 (x * 2 ^ n + p) = n + Z.log2 x.
Proof.
  intros Hn Hx Hp. apply Z.log2_unique; [pose proof (Z.log2_nonneg x); lia|].
  pose proof (Z.log2_spec x Hx) as [Hlo Hhi]. pose proof (Z.log2_nonneg x).
  replace (Z.succ (n + Z.log2 x)) with (n + Z.succ (Z.log2 x)) by lia.
  rewrite !Z.pow_add_r by lia. nia.
Qed.

Lemma bit_by_bit_loop_spec pk1 : ∀ pk2 i,
  bytes_ok pk1 → bytes_ok pk2 → length pk1 = length pk2 →
  bit_by_bit_loop i pk1 pk2 =
    if distance pk1 pk2 =? 0 then 8 * (i + zlen pk1)
    else 8 * (i + zlen pk1) - 1 - Z.log2 (distance pk1 pk2).
Proof.
  induction pk1 as [|b1 pk1 IH]; intros [|b2 pk2] i H1 H2 L; simpl in L; try done.
  { simpl. unfold zlen. simpl. lia. }
  inversion H1; inversion H2; subst. cbn [bit_by_bit_loop].
  rewrite distance_cons by (done || lia). rewrite zlen_cons.
  pose proof (distance_range pk1 pk2) as R. specialize (R ltac:(done) ltac:(done) ltac:(lia)).
  destruct (b1 =? b2) eqn:E.
  - replace b2 with b1 by lia. rewrite Z.lxor_nilpotent, Z.mul_0_l, Z.add_0_l.
    rewrite IH by (done || lia). cases; lia.
  - assert (0 < Z.lxor b1 b2) as Hpos.
    { pose proof (lxor_range 8 b1 b2) as Hr. unfold is_u8 in *.
      assert (Z.lxor b1 b2 ≠ 0) by (rewrite Z.lxor_eq_0_iff; lia). lia. }
    replace (_ =? 0) with false by nia.
    rewrite first_bit_spec by (done || lia). rewrite log2_concat; [lia| |done|done].
    pose proof (zlen_nonneg pk1). lia.
Qed.

Lemma bit_by_bit_cmp_spec pk1 pk2 :
  key_ok pk1 → key_ok pk2 →
  bit_by_bit_cmp pk1 pk2 = if bool_decide (pk1 = pk2) then 256 else 255 - Z.log2 (distance pk1 pk2).
Proof.
  intros [L1 H1] [L2 H2]. unfold bit_by_bit_cmp.
  assert (length pk1 = length pk2) by (unfold zlen in *; lia).
  rewrite bit_by_bit_loop_spec by done. rewrite L1.
  case_bool_decide as E; [|].
  - subst. unfold distance. by rewrite Z.lxor_nilpotent.
  - rewrite <- (distance_zero pk1 pk2) in E by done. replace (_ =? 0) with false by lia. lia.
Qed.

(** ** Closeness *)

Lemma distance_refl a : distance a a = 0.
Proof. apply Z.lxor_nilpotent. Qed.

(** A key that shares more leading bits is closer. *)
Lemma longer_prefix_closer pk pk1 pk2 :
  key_ok pk → key_ok pk1 → key_ok pk2 →
  bit_by_bit_cmp pk pk2 < bit_by_bit_cmp pk pk1 → id_closest pk pk1 pk2 = 1.
Proof.
  intros K K1 K2. rewrite !bit_by_bit_cmp_spec by done. intros Hlt.
  destruct (id_closest_cases pk pk1 pk2) as [[? _]|[[_ Hd]|(_ & -> & _)]]; [done..| |lia].
  exfalso. destruct K as [L H], K1 as [L1 H1], K2 as [L2 H2].
  assert (length pk1 = length pk ∧ length pk2 = length pk) as [] by (unfold zlen in *; lia).
  pose proof (distance_range pk pk2 H H2 ltac:(lia)).
  case_bool_decide; case_bool_decide; subst; rewrite ?distance_refl in *; try lia.
  - pose proof (Z.log2_nonneg (distance pk2 pk1)). lia.
  - assert (Z.log2 (distance pk pk2) <= Z.log2 (distance pk pk1)) by (apply Z.log2_le_mono; lia). lia.
Qed.

(** C38: [id_closest] and [bit_by_bit_cmp] compute with one metric, the exclusive
    or of two keys as a number of 256 bits.  [id_closest] returns 1 exactly when
    [pk1] is nearer to [pk], 2 when [pk2] is, and 0 only for equal keys;
    [bit_by_bit_cmp] is 255 less the binary logarithm of the distance, and 256
    for equal keys; and a key that shares more leading bits with [pk] is the
    nearer one. *)
Theorem closeness_is_xor_metric pk pk1 pk2 :
  key_ok pk → key_ok pk1 → key_ok pk2 →
  (id_closest pk pk1 pk2 = 1 ↔ distance pk pk1 < distance pk pk2) ∧
  (id_closest pk pk1 pk2 = 2 ↔ distance pk pk2 < distance pk pk1) ∧
  (id_closest pk pk1 pk2 = 0 ↔ pk1 = pk2) ∧
  bit_by_bit_cmp pk pk1 = (if bool_decide (pk = pk1) then 256 else 255 - Z.log2 (distance pk pk1)) ∧
  (bit_by_bit_cmp pk pk2 < bit_by_bit_cmp pk pk1 → id_closest pk pk1 pk2 = 1).
Proof.
  intros K K1 K2. split_and!.
  - destruct (id_closest_cases pk pk1 pk2 K K1 K2) as [[-> ?]|[[-> ?]|(-> & -> & ?)]]; lia.
  - destruct (id_closest_cases pk pk1 pk2 K K1 K2) as [[-> ?]|[[-> ?]|(-> & -> & ?)]]; lia.
  - destruct (id_closest_cases pk pk1 pk2 K K1 K2) as [[-> ?]|[[-> ?]|(-> & -> & ?)]]; try done;
      (split; [done|]); intros ->; lia.
  - by apply bit_by_bit_cmp_spec.
  - by apply longer_prefix_closer.
Qed.

Lemma closeness_is_xor_metric_witness :
  let a := replicate 32 7 in let b := 5 :: replicate 31 7 in let c := 15 :: replicate 31 0 in
  id_closest a b c = 1 ∧ bit_by_bit_cmp a c = 4.
Proof.
  assert (key_ok (replicate 32 7) ∧ key_ok (5 :: replicate 31 7) ∧ key_ok (15 :: replicate 31 0)) as (Ka & Kb & Kc).
  { split_and!; (split; [reflexivity|repeat constructor; unfold is_u8; lia]). }
  intros a b c. destruct (closeness_is_xor_metric a b c Ka Kb Kc) as ([_ H] & _ & _ & _ & _).
  split; [apply H; vm_compute; reflexivity|].
  destruct (closeness_is_xor_metric a c b Ka Kc Kb) as (_ & _ & _ & -> & _). vm_compute. reflexivity.
Defined.
