(* ===== verification/DhtPackets.v ===== *)
(** * DhtPackets: the wire formats of [toxcore/DHT.c]

    How addresses and nodes are packed into bytes and read back, the encrypted
    requests that the DHT routes for its users, and the encrypted packets it
    exchanges itself.  A function that writes into a buffer returns the bytes it
    wrote, whose number is the size the C function returns; [None] is its error
    return [-1].  The assertions of these functions restate sizes that the
    definitions fix. *)
From S2P Require Import Prelude CryptoCore Network.

(** ** Constants *)

Definition SIZE_IP4 : Z := 4.
Definition SIZE_IP6 : Z := 16.
Definition TOX_TCP_INET : Z := 130.
Definition TOX_TCP_INET6 : Z := 138.
Definition PACKED_NODE_SIZE_IP4 : Z := 1 + SIZE_IP4 + 2 + CRYPTO_PUBLIC_KEY_SIZE.
Definition PACKED_NODE_SIZE_IP6 : Z := 1 + SIZE_IP6 + 2 + CRYPTO_PUBLIC_KEY_SIZE.
Definition MAX_CRYPTO_REQUEST_SIZE : Z := 1024.
Definition CRYPTO_SIZE : Z := 1 + CRYPTO_PUBLIC_KEY_SIZE * 2 + CRYPTO_NONCE_SIZE.
Definition NET_PACKET_CRYPTO : Z := 32.

Record Node_format := mkNode {
  nf_public_key : bytes;
  nf_ip_port : IP_Port
}.

Definition empty_node_format : Node_format := mkNode (zeros CRYPTO_PUBLIC_KEY_SIZE) empty_ip_port.

(** ** Addresses and nodes *)

Definition packed_node_size (ip_family : Z) : Z :=
  if net_family_is_ipv4 ip_family || net_family_is_tcp_ipv4 ip_family then PACKED_NODE_SIZE_IP4
  else if net_family_is_ipv6 ip_family || net_family_is_tcp_ipv6 ip_family then PACKED_NODE_SIZE_IP6
  else -1.

(** The first chain of tests of [pack_ip_port]: [is_ipv4] and the family byte. *)
Definition packed_family (family : Z) : option (bool * Z) :=
  if net_family_is_ipv4 family then Some (true, TOX_AF_INET)
  else if net_family_is_tcp_ipv4 family then Some (true, TOX_TCP_INET)
  else if net_family_is_ipv6 family then Some (false, TOX_AF_INET6)
  else if net_family_is_tcp_ipv6 family then Some (false, TOX_TCP_INET6)
  else None.

(** [length] is the room in the buffer. *)
Definition pack_ip_port (length : Z) (ip_port : IP_Port) : option bytes :=
  match packed_family (ip_family (ipp_ip ip_port)) with
  | None => None
  | Some (is_ipv4, family) =>
      if is_ipv4 then
        let size := 1 + SIZE_IP4 + 2 in
        if length <? size then None
        else Some ([family] ++ slice 0 SIZE_IP4 (ip_addr (ipp_ip ip_port)) ++ le_bytes 2 (ipp_port ip_port))
      else
        let size := 1 + SIZE_IP6 + 2 in
        if length <? size then None
        else Some ([family] ++ slice 0 SIZE_IP6 (ip_addr (ipp_ip ip_port)) ++ le_bytes 2 (ipp_port ip_port))
  end.

(** The first chain of tests of [unpack_ip_port]: [is_ipv4] and the family. *)
Definition unpacked_family (b : Z) (tcp_enabled : bool) : option (bool * Z) :=
  if b =? TOX_AF_INET then Some (true, TOX_AF_INET)
  else if b =? TOX_TCP_INET then if negb tcp_enabled then None else Some (true, TCP_INET)
  else if b =? TOX_AF_INET6 then Some (false, TOX_AF_INET6)
  else if b =? TOX_TCP_INET6 then if negb tcp_enabled then None else Some (false, TCP_INET6)
  else None.

(** Returns the size that was read and the address. *)
Definition unpack_ip_port (data : bytes) (length : Z) (tcp_enabled : bool) : option (Z * IP_Port) :=
  match unpacked_family (aget 0 data 0) tcp_enabled with
  | None => None
  | Some (is_ipv4, host_family) =>
      if is_ipv4 then
        let size := 1 + SIZE_IP4 + 2 in
        if length <? size then None
        else Some (size, mkIPPort (mkIP host_family (slice 1 SIZE_IP4 data ++ zeros (SIZE_IP6 - SIZE_IP4)))
                           (le_val (slice (1 + SIZE_IP4) 2 data)))
      else
        let size := 1 + SIZE_IP6 + 2 in
        if length <? size then None
        else Some (size, mkIPPort (mkIP host_family (slice 1 SIZE_IP6 data))
                           (le_val (slice (1 + SIZE_IP6) 2 data)))
  end.

(** The loop of [pack_nodes]: [nodes] are the nodes from index [i] on, the
    result is what is written from [packed_length] on. *)
Fixpoint pack_nodes_loop (length packed_length : Z) (nodes : list Node_format) : option bytes :=
  match nodes with
  | [] => Some []
  | n :: nodes' =>
      if negb (packed_length <? length) then Some []
      else
        match pack_ip_port (u16 (length - packed_length)) (nf_ip_port n) with
        | None => None
        | Some ipp =>
            let packed_length := packed_length + zlen ipp in
            if length <? packed_length + CRYPTO_PUBLIC_KEY_SIZE then None
            else
              match pack_nodes_loop length (packed_length + CRYPTO_PUBLIC_KEY_SIZE) nodes' with
              | None => None
              | Some rest => Some (ipp ++ nf_public_key n ++ rest)
              end
        end
  end.

Definition pack_nodes (length : Z) (nodes : list Node_format) (number : Z) : option bytes :=
  pack_nodes_loop length 0 (take (Z.to_nat number) nodes).

(** The loop of [unpack_nodes] with [max_num_nodes] rounds left, reading from
    [len_processed] on: the nodes it adds and the final [len_processed]. *)
Fixpoint unpack_nodes_loop (rounds : nat) (len_processed : Z) (data : bytes) (length : Z) (tcp_enabled : bool) :
    option (list Node_format * Z) :=
  match rounds with
  | O => Some ([], len_processed)
  | S rounds' =>
      if negb (len_processed <? length) then Some ([], len_processed)
      else
        let data' := drop (Z.to_nat len_processed) data in
        match unpack_ip_port data' (u16 (length - len_processed)) tcp_enabled with
        | None => None
        | Some (ipp_size, ip_port) =>
            let len_processed := len_processed + ipp_size in
            if length <? len_processed + CRYPTO_PUBLIC_KEY_SIZE then None
            else
              let n := mkNode (slice len_processed CRYPTO_PUBLIC_KEY_SIZE data) ip_port in
              match unpack_nodes_loop rounds' (len_processed + CRYPTO_PUBLIC_KEY_SIZE) data length tcp_enabled with
              | None => None
              | Some (nodes, processed) => Some (n :: nodes, processed)
              end
        end
  end.

(** Returns the nodes and [processed_data_len]. *)
Definition unpack_nodes (max_num_nodes : Z) (data : bytes) (length : Z) (tcp_enabled : bool) :
    option (list Node_format * Z) :=
  unpack_nodes_loop (Z.to_nat max_num_nodes) 0 data length tcp_enabled.

(** ** Encrypted packets *)

Section packets.
Context {Sod : Sodium}.

(** The encryption functions check the key for the null pointer that the cache
    of shared keys returns on failure. *)
Definition encrypt_with (alloc : bool) (shared_key : option bytes) (nonce plain : bytes) (length : Z) : Z * bytes :=
  match shared_key with
  | None => (-1, [])
  | Some k => encrypt_data_symmetric alloc k nonce plain length
  end.

Definition decrypt_with (alloc : bool) (shared_key : option bytes) (nonce encrypted : bytes) (length : Z) : Z * bytes :=
  match shared_key with
  | None => (-1, [])
  | Some k => decrypt_data_symmetric alloc k nonce encrypted length
  end.

(** [alloc_enc] is the outcome of the [malloc], [nonce] the random nonce and
    [length] the room in the packet. *)
Definition dht_create_packet (alloc_enc alloc : bool) (nonce public_key : bytes) (shared_key : option bytes)
    (type : Z) (plain : bytes) (plain_length length : Z) : option bytes :=
  if negb alloc_enc then None
  else
    let '(encrypted_length, encrypted) := encrypt_with alloc shared_key nonce plain plain_length in
    if encrypted_length =? -1 then None
    else if length <? 1 + CRYPTO_PUBLIC_KEY_SIZE + CRYPTO_NONCE_SIZE + encrypted_length then None
    else Some ([type] ++ public_key ++ nonce ++ encrypted).

(** [stack] is what the key buffer of [encrypt_data] holds, [nonce] the random
    nonce. *)
Definition create_request (alloc : bool) (stack nonce send_public_key send_secret_key recv_public_key data : bytes)
    (data_length request_id : Z) : option bytes :=
  if MAX_CRYPTO_REQUEST_SIZE <? u32 (data_length + CRYPTO_SIZE + 1 + CRYPTO_MAC_SIZE) then None
  else
    let temp := [request_id] ++ slice 0 data_length data in
    let '(len, encrypted) :=
      encrypt_data alloc stack recv_public_key send_secret_key nonce temp (data_length + 1) in
    if len =? -1 then None
    else Some ([NET_PACKET_CRYPTO] ++ recv_public_key ++ send_public_key ++ nonce ++ encrypted).

(** Returns the sender's key, the id of the request and its data. *)
Definition handle_request (alloc : bool) (stack self_public_key self_secret_key packet : bytes) (packet_length : Z) :
    option (bytes * Z * bytes) :=
  if (packet_length <=? CRYPTO_SIZE + CRYPTO_MAC_SIZE) || (MAX_CRYPTO_REQUEST_SIZE <? packet_length) then None
  else if negb (pk_equal (slice 1 CRYPTO_PUBLIC_KEY_SIZE packet) self_public_key) then None
  else
    let public_key := slice (1 + CRYPTO_PUBLIC_KEY_SIZE) CRYPTO_PUBLIC_KEY_SIZE packet in
    let nonce := slice (1 + CRYPTO_PUBLIC_KEY_SIZE * 2) CRYPTO_NONCE_SIZE packet in
    let '(len1, temp) :=
      decrypt_data alloc stack public_key self_secret_key nonce (drop (Z.to_nat CRYPTO_SIZE) packet)
        (packet_length - CRYPTO_SIZE) in
    if (len1 =? -1) || (len1 =? 0) then None
    else Some (public_key, aget 0 temp 0, slice 1 (len1 - 1) temp).
End packets.

(** ** Lemmas on addresses and nodes *)

Definition ip_port_ok (p : IP_Port) : Prop := ip_ok (ipp_ip p) ∧ is_u16 (ipp_port p).

Definition node_ok (n : Node_format) : Prop :=
  zlen (nf_public_key n) = 32 ∧ bytes_ok (nf_public_key n) ∧ ip_port_ok (nf_ip_port n).

(** The families that can be packed, and read back where TCP is or is not
    expected. *)
Definition packable (tcp_enabled : bool) (family : Z) : bool :=
  (family =? TOX_AF_INET) || (family =? TOX_AF_INET6) ||
  (tcp_enabled && ((family =? TCP_INET) || (family =? TCP_INET6))).

Definition family_v4 (family : Z) : bool := net_family_is_ipv4 family || net_family_is_tcp_ipv4 family.

(** What is left of an address after packing: the unused bytes of the union are
    zero. *)
Definition wire_ip_port (p : IP_Port) : IP_Port :=
  if family_v4 (ip_family (ipp_ip p)) then
    mkIPPort (mkIP (ip_family (ipp_ip p)) (slice 0 4 (ip_addr (ipp_ip p)) ++ zeros 12)) (ipp_port p)
  else p.

Definition wire_node (n : Node_format) : Node_format := mkNode (nf_public_key n) (wire_ip_port (nf_ip_port n)).

Definition node_family (n : Node_format) : Z := ip_family (ipp_ip (nf_ip_port n)).

(** Room that nodes need. *)
Definition packed_size (nodes : list Node_format) : Z :=
  foldr (λ n s, packed_node_size (node_family n) + s) 0 nodes.

(** The two family tables are inverse to each other. *)
Lemma family_table tcp f : packable tcp f = true →
  ∃ b, packed_family f = Some (family_v4 f, b) ∧ unpacked_family b tcp = Some (family_v4 f, f) ∧
    packed_node_size f = (if family_v4 f then 39 else 51).
Proof.
  unfold packable. intros H.
  assert (f = TOX_AF_INET ∨ f = TOX_AF_INET6 ∨ tcp = true ∧ f = TCP_INET ∨ tcp = true ∧ f = TCP_INET6)
    as [->|[->|[[-> ->]|[-> ->]]]]; [destruct tcp; lia|by eexists..].
Qed.

Lemma family_table_inv tcp b v f : unpacked_family b tcp = Some (v, f) →
  packed_family f = Some (v, b) ∧ packable tcp f = true ∧ family_v4 f = v ∧
  packed_node_size f = (if v then 39 else 51).
Proof.
  unfold unpacked_family, TOX_TCP_INET, TOX_TCP_INET6, TOX_AF_INET, TOX_AF_INET6. intros H.
  destruct (b =? 2) eqn:?; [replace b with 2 by lia; by simplify_eq|].
  destruct (b =? 130) eqn:?; [replace b with 130 by lia; destruct tcp; by simplify_eq/=|].
  destruct (b =? 10) eqn:?; [replace b with 10 by lia; by simplify_eq|].
  destruct (b =? 138) eqn:?; [replace b with 138 by lia; destruct tcp; by simplify_eq/=|done].
Qed.

Lemma pack_ip_port_spec tcp len p : ip_port_ok p → packable tcp (ip_family (ipp_ip p)) = true →
  packed_node_size (ip_family (ipp_ip p)) - 32 <= len →
  ∃ d, pack_ip_port len p = Some d ∧ zlen d = packed_node_size (ip_family (ipp_ip p)) - 32 ∧
    ∀ rest n, zlen d <= n → unpack_ip_port (d ++ rest) n tcp = Some (zlen d, wire_ip_port p).
Proof.
  intros [[La Ba] Hp] Hf Hlen. unfold pack_ip_port, unpack_ip_port, wire_ip_port.
  destruct (family_table tcp _ Hf) as (b & -> & Eu & Es). rewrite Es in *.
  destruct p as [[f a] port]. cbn [ipp_ip ipp_port ip_family ip_addr] in *.
  unfold SIZE_IP4, SIZE_IP6.
  assert (∀ k, 0 <= k <= 16 → zlen (slice 0 k a) = k) as Hs by (intros; apply length_slice; lia).
  assert (le_val (le_bytes 2 port) = port) as Hport by (apply le_val_bytes; exact Hp).
  pose proof (Hs 4 ltac:(lia)) as H4.
  destruct (family_v4 f) eqn:Ev; cbn match.
  - replace (len <? _) with false by lia. eexists. split; [done|]. split; [zlens|].
    intros rest n Hn. cbn [app]. change (aget 0 (b :: _) 0) with b. rewrite Eu.
    autorewrite with cintrw in Hn. rewrite H4 in Hn. change (zlen (@nil Z)) with 0 in Hn.
    replace (n <? _) with false by lia. rewrite <- !app_assoc. do 3 f_equal; [zlens| |].
    + do 2 f_equal. change (b :: ?x) with ([b] ++ x). by slices.
    + transitivity (le_val (le_bytes 2 port)); [|done]. f_equal.
      change (b :: ?x) with ([b] ++ x). by slices.
  - pose proof (Hs 16 ltac:(lia)) as H16.
    replace (len <? _) with false by lia. eexists. split; [done|]. split; [zlens|].
    intros rest n Hn. cbn [app]. change (aget 0 (b :: _) 0) with b. rewrite Eu.
    autorewrite with cintrw in Hn. rewrite H16 in Hn. change (zlen (@nil Z)) with 0 in Hn.
    replace (n <? _) with false by lia. rewrite <- !app_assoc. do 3 f_equal; [zlens| |].
    + f_equal. transitivity (slice 0 16 a); [|by apply slice_all].
      change (b :: ?x) with ([b] ++ x). by slices.
    + transitivity (le_val (le_bytes 2 port)); [|done]. f_equal.
      change (b :: ?x) with ([b] ++ x). by slices.
Qed.

Lemma unpack_ip_port_spec tcp data n sz p :
  bytes_ok data → n <= zlen data → unpack_ip_port data n tcp = Some (sz, p) →
  sz = packed_node_size (ip_family (ipp_ip p)) - 32 ∧ 0 < sz <= n ∧
  packable tcp (ip_family (ipp_ip p)) = true ∧ ip_port_ok p ∧ wire_ip_port p = p ∧
  ∀ len, sz <= len → pack_ip_port len p = Some (slice 0 sz data).
Proof.
  intros Hb Hn. unfold unpack_ip_port, SIZE_IP4, SIZE_IP6.
  destruct (unpacked_family _ tcp) as [[v f]|] eqn:Eu; [|done].
  destruct (family_table_inv tcp _ v f Eu) as (Ep & Ef & Ev & Es).
  assert (∀ off k, 0 <= off → 0 <= k → off + k <= n →
    zlen (slice off k data) = k ∧ bytes_ok (slice off k data)) as Hs.
  { intros. split; [apply length_slice; lia|by apply slice_bytes_ok]. }
  unfold pack_ip_port, wire_ip_port, ip_port_ok, ip_ok, SIZE_IP4, SIZE_IP6.
  destruct v; (destruct (n <? _) eqn:E; [done|]); intros [= <- <-];
    cbn [ipp_ip ipp_port ip_family ip_addr]; rewrite Es, Ep, Ev, Ef.
  - destruct (Hs 1 4) as [L1 B1]; [lia..|]. destruct (Hs 5 2) as [L2 B2]; [lia..|].
    change (1 + 4) with 5 in *. pose proof (le_val_range _ B2) as R. rewrite L2 in R.
    split_and!; try lia; try done.
    + zlens.
    + apply Forall_app. split; [done|apply zeros_ok].
    + by rewrite slice_app_l.
    + intros len Hl. replace (len <? _) with false by lia.
      rewrite slice_app_l by done. rewrite le_bytes_of_val by done.
      change (5 + 2) with (1 + (4 + 2)). rewrite (slice_split 0 1), (slice_split _ 4) by lia.
      by rewrite slice_one by lia.
  - destruct (Hs 1 16) as [L1 B1]; [lia..|]. destruct (Hs 17 2) as [L2 B2]; [lia..|].
    change (1 + 16) with 17 in *. pose proof (le_val_range _ B2) as R. rewrite L2 in R.
    split_and!; try lia; try done.
    intros len Hl. replace (len <? _) with false by lia.
    rewrite (slice_all 16) by done. rewrite le_bytes_of_val by done.
    change (17 + 2) with (1 + (16 + 2)). rewrite (slice_split 0 1), (slice_split _ 16) by lia.
    by rewrite slice_one by lia.
Qed.

Lemma packed_size_cons n nodes : packed_size (n :: nodes) = packed_node_size (node_family n) + packed_size nodes.
Proof. done. Qed.

Lemma packable_size tcp f : packable tcp f = true → 39 <= packed_node_size f <= 51.
Proof. intros H. destruct (family_table tcp f H) as (b & _ & _ & ->). case_match; lia. Qed.

Lemma packed_size_nonneg tcp nodes : Forall (λ n, packable tcp (node_family n) = true) nodes → 0 <= packed_size nodes.
Proof.
  induction 1 as [|n nodes Hn _ IH]; [done|]. rewrite packed_size_cons.
  pose proof (packable_size _ _ Hn). lia.
Qed.

(** Packing succeeds when there is room, and reading gives the nodes back. *)
Lemma pack_nodes_loop_spec tcp len nodes : ∀ pl,
  Forall node_ok nodes → Forall (λ n, packable tcp (node_family n) = true) nodes →
  0 <= pl → pl + packed_size nodes <= len < 2 ^ 16 →
  ∃ d, pack_nodes_loop len pl nodes = Some d ∧ zlen d = packed_size nodes ∧
    ∀ pre rest rounds, zlen pre = pl → (length nodes <= rounds)%nat →
      unpack_nodes_loop rounds pl (pre ++ d ++ rest) (pl + zlen d) tcp = Some (wire_node <$> nodes, pl + zlen d).
Proof.
  induction nodes as [|n nodes IH]; intros pl Hok Hf Hpl Hlen.
  { exists []. split; [done|]. split; [done|]. intros pre rest [|rounds] Hpre _; cbn; [by rewrite Z.add_0_r|].
    change (zlen (@nil Z)) with 0. rewrite Z.add_0_r. by replace (pl <? pl) with false by lia. }
  inversion Hok as [|? ? (Hk & Hkb & Hp) Hok']; subst. inversion Hf as [|? ? Hfn Hf']; subst.
  rewrite packed_size_cons in Hlen |- *. pose proof (packable_size _ _ Hfn) as Hsz.
  pose proof (packed_size_nonneg _ _ Hf') as Hrest. unfold node_family in *.
  cbn [pack_nodes_loop]. replace (pl <? len) with true by lia. cbn [negb].
  rewrite u16_small by lia.
  destruct (pack_ip_port_spec tcp (len - pl) (nf_ip_port n)) as (d & -> & Hd & Hun); [done|done|lia|].
  cbn beta zeta. unfold CRYPTO_PUBLIC_KEY_SIZE. replace (len <? _) with false by lia.
  destruct (IH (pl + zlen d + 32)) as (r & -> & Hr & Hur); [done|done|lia|lia|].
  eexists. split; [done|]. split; [autorewrite with cintrw; lia|].
  intros pre rest [|rounds] Hpre Hrounds; [simpl in Hrounds; lia|].
  autorewrite with cintrw. cbn [unpack_nodes_loop].
  replace (_ <? _) with true by lia. cbn [negb]. rewrite u16_small by lia.
  rewrite (drop_app_length' pre) by (unfold zlen in Hpre; lia).
  rewrite <- !app_assoc, Hun by lia. cbn beta iota zeta. unfold CRYPTO_PUBLIC_KEY_SIZE.
  replace (_ <? _) with false by lia.
  specialize (Hur (pre ++ d ++ nf_public_key n) rest rounds). rewrite <- !app_assoc in Hur.
  replace (pl + zlen d + 32 + zlen r) with (pl + (zlen d + (zlen (nf_public_key n) + zlen r))) in Hur by lia.
  rewrite Hur; [|autorewrite with cintrw; lia|simpl in Hrounds; lia].
  do 3 f_equal. unfold wire_node. f_equal. subst pl. by slices.
Qed.

(** What is read is exactly what packing the result would write. *)
Lemma unpack_nodes_loop_spec tcp data len rounds : ∀ pl nodes processed,
  bytes_ok data → len <= zlen data → len < 2 ^ 16 → 0 <= pl <= len →
  unpack_nodes_loop rounds pl data len tcp = Some (nodes, processed) →
  Forall node_ok nodes ∧ Forall (λ n, packable tcp (node_family n) = true ∧ wire_node n = n) nodes ∧
  (length nodes <= rounds)%nat ∧ pl <= processed <= len ∧
  ((length nodes < rounds)%nat → processed = len) ∧
  ∀ room, processed <= room < 2 ^ 16 → pack_nodes_loop room pl nodes = Some (slice pl (processed - pl) data).
Proof.
  induction rounds as [|rounds IH]; intros pl nodes processed Hb Hl Hl16 Hpl; cbn [unpack_nodes_loop].
  { intros [= <- <-]. split_and!; try done; try lia. intros room _. cbn. by rewrite Z.sub_diag. }
  destruct (pl <? len) eqn:Elt; cbn [negb].
  2:{ intros [= <- <-]. split_and!; try done; try lia. { simpl. lia. }
      intros room _. cbn. by rewrite Z.sub_diag. }
  rewrite u16_small by lia.
  destruct unpack_ip_port as [[sz p]|] eqn:Eu; [|done]. cbn beta iota zeta.
  apply unpack_ip_port_spec in Eu as (Esz & Hsz & Hpk & Hok & Hw & Hpack);
    [|by apply Forall_drop|unfold zlen in *; rewrite length_drop; lia].
  unfold CRYPTO_PUBLIC_KEY_SIZE. destruct (len <? pl + sz + 32) eqn:Eroom; [done|].
  destruct unpack_nodes_loop as [[ns pr]|] eqn:Er; [|done]. intros [= <- <-].
  apply IH in Er as (Hns & Hnw & Hcount & Hpr & Hfull & Hpacks); [|done|done|done|lia].
  assert (zlen (slice (pl + sz) 32 data) = 32) as Hkey by (apply length_slice; lia).
  split_and!; try lia.
  - constructor; [|done]. split; [done|]. split; [by apply slice_bytes_ok|done].
  - constructor; [|done]. split; [done|]. unfold wire_node. cbn [nf_public_key nf_ip_port]. by rewrite Hw.
  - simpl. lia.
  - simpl. intros. apply Hfull. lia.
  - intros room Hroom. cbn [pack_nodes_loop nf_ip_port nf_public_key]. unfold CRYPTO_PUBLIC_KEY_SIZE.
    replace (pl <? room) with true by lia. cbn [negb]. rewrite u16_small by lia.
    rewrite Hpack by lia. assert (slice 0 sz (drop (Z.to_nat pl) data) = slice pl sz data) as Esl by done.
    cbn beta zeta. rewrite Esl. assert (zlen (slice pl sz data) = sz) as -> by (apply length_slice; lia).
    replace (room <? _) with false by lia. rewrite Hpacks by lia. f_equal.
    replace (pr - pl) with (sz + (32 + (pr - (pl + sz + 32)))) by lia.
    by rewrite (slice_split pl), (slice_split _ 32) by lia.
Qed.

(** ** Lemmas on encrypted packets *)

Section packet_laws.
Context {Sod : Sodium} {L : SodiumLaws Sod}.

(** A packet of [dht_create_packet]: its layout, and that the holder of the
    shared key reads the plain text back. *)
Lemma dht_create_packet_ok nonce pk k type plain len :
  zlen pk = 32 → zlen nonce = 24 → 0 < len → zlen plain = len →
  ∃ c, dht_create_packet true true nonce pk (Some k) type plain len (1 + 32 + 24 + len + 16)
      = Some ([type] ++ pk ++ nonce ++ c) ∧
    zlen c = len + 16 ∧ decrypt_with true (Some k) nonce c (len + 16) = (len, plain).
Proof using L.
  intros Hpk Hn Hl Hp.
  destruct (encrypt_data_symmetric_ok k nonce plain len) as (c & Ec & Hc & _); [lia|].
  exists c. unfold dht_create_packet, encrypt_with, CRYPTO_PUBLIC_KEY_SIZE, CRYPTO_NONCE_SIZE.
  cbn [negb]. rewrite Ec. replace (_ =? -1) with false by lia. replace (_ <? _) with false by lia.
  split; [done|]. split; [done|]. cbn [decrypt_with].
  rewrite (decrypt_encrypt k nonce plain len c) by (done || lia). by rewrite slice_all.
Qed.

(** The parts of such a packet that its receiver looks at. *)
Lemma packet_fields (type : Z) (pk nonce c : bytes) :
  zlen pk = 32 → zlen nonce = 24 →
  let p := [type] ++ pk ++ nonce ++ c in
  slice 1 32 p = pk ∧ slice 33 24 p = nonce ∧ drop 57 p = c ∧ zlen p = 57 + zlen c.
Proof.
  intros Hp Hn p. unfold p. split; [by slices|]. split; [by slices|]. split; [|zlens].
  rewrite !app_assoc, drop_app_length'; [done|].
  apply Nat2Z.inj. fold (zlen (([type] ++ pk) ++ nonce)). zlens.
Qed.

Lemma create_request_ok stack nonce spk ssk rpk data len id k :
  zlen spk = 32 → zlen rpk = 32 → zlen nonce = 24 → zlen data = len → len <= 918 →
  encrypt_precompute rpk ssk = Some k →
  ∃ c, create_request true stack nonce spk ssk rpk data len id
      = Some ([NET_PACKET_CRYPTO] ++ rpk ++ spk ++ nonce ++ c) ∧ zlen c = len + 17 ∧
    decrypt_data_symmetric true k nonce c (len + 17) = (len + 1, [id] ++ data).
Proof using L.
  intros Hs Hr Hn Hd Hl Hk. pose proof (zlen_nonneg data).
  assert (zlen ([id] ++ data) = len + 1) as Ht by zlens.
  destruct (encrypt_data_symmetric_ok k nonce ([id] ++ data) (len + 1)) as (c & Ec & Hc & _); [lia|].
  exists c. unfold create_request, MAX_CRYPTO_REQUEST_SIZE.
  change CRYPTO_SIZE with 89. change CRYPTO_MAC_SIZE with 16. rewrite u32_small by lia.
  replace (1024 <? _) with false by lia. rewrite slice_all by done. unfold encrypt_data. rewrite Hk.
  change (default stack (Some k)) with k. rewrite Ec.
  replace (_ =? -1) with false by lia. split; [done|]. split; [lia|].
  replace (len + 17) with (len + 1 + 16) by lia.
  rewrite (decrypt_encrypt k nonce ([id] ++ data) (len + 1) c) by (done || lia). by rewrite slice_all.
Qed.
End packet_laws.

(** ** Theorems *)

(** The node lists of DHT packets and save files are encoded and decoded
    inversely.  Nodes with the families the receiver expects are packed into
    exactly the room they need, and unpacking gives them back (an IPv4 address
    without the bytes it does not use); and whatever bytes unpacking accepts
    are, byte for byte, what packing the nodes it found would write, so no node
    list has two encodings. *)
Theorem nodes_roundtrip tcp nodes data len max :
  Forall node_ok nodes → Forall (λ n, packable tcp (node_family n) = true) nodes →
  packed_size nodes < 2 ^ 16 → zlen nodes <= max →
  bytes_ok data → len <= zlen data → 0 <= len < 2 ^ 16 →
  (∃ d, pack_nodes (packed_size nodes) nodes (zlen nodes) = Some d ∧ zlen d = packed_size nodes ∧
     unpack_nodes max d (zlen d) tcp = Some (wire_node <$> nodes, zlen d)) ∧
  (∀ nodes' processed, unpack_nodes max data len tcp = Some (nodes', processed) →
     zlen nodes' <= max ∧ processed <= len ∧ Forall node_ok nodes' ∧
     pack_nodes processed nodes' (zlen nodes') = Some (slice 0 processed data)).
Proof.
  intros Hok Hf Hsz Hmax Hb Hl Hlen. unfold pack_nodes, unpack_nodes.
  assert (∀ l : list Node_format, take (Z.to_nat (zlen l)) l = l) as Htake
    by (intros l; apply take_ge; unfold zlen; lia).
  split.
  - rewrite Htake. pose proof (packed_size_nonneg _ _ Hf).
    destruct (pack_nodes_loop_spec tcp (packed_size nodes) nodes 0) as (d & Ed & Hd & Hun); [done|done|lia|lia|].
    exists d. split; [done|]. split; [done|]. specialize (Hun [] [] (Z.to_nat max)). rewrite app_nil_r in Hun. apply Hun; [done|unfold zlen in Hmax; lia].
  - intros nodes' processed Hun. apply unpack_nodes_loop_spec in Hun as (H1 & H2 & H3 & H4 & H5 & H6); [|done|done|lia|lia].
    split_and!; [pose proof (zlen_nonneg nodes); unfold zlen in *; lia|lia|done|].
    rewrite Htake, H6 by lia. by rewrite Z.sub_0_r.
Qed.

(** A request that [create_request] makes for a receiver is opened by
    [handle_request] of that receiver and of nobody with another public key,
    and gives back the sender's key, the id and the data; what fits is up to
    918 bytes. *)
Theorem request_roundtrip {Sod : Sodium} (L : SodiumLaws Sod) stack nonce spk ssk rpk rsk data id k other osk :
  zlen spk = 32 → zlen rpk = 32 → zlen nonce = 24 → 0 <= zlen data <= 918 →
  encrypt_precompute rpk ssk = Some k → encrypt_precompute spk rsk = Some k → other ≠ rpk →
  ∃ packet, create_request true stack nonce spk ssk rpk data (zlen data) id = Some packet ∧
    zlen packet = zlen data + 106 ∧
    handle_request true stack rpk rsk packet (zlen packet) = Some (spk, id, data) ∧
    handle_request true stack other osk packet (zlen packet) = None.
Proof.
  intros Hs Hr Hn Hd Hk Hk' Ho.
  destruct (create_request_ok stack nonce spk ssk rpk data (zlen data) id k) as (c & Ec & Hc & Hdec); [done..|lia|done|].
  eexists. split; [exact Ec|].
  assert (zlen ([NET_PACKET_CRYPTO] ++ rpk ++ spk ++ nonce ++ c) = zlen data + 106) as Hlen by zlens.
  split; [done|]. rewrite Hlen. unfold handle_request, CRYPTO_PUBLIC_KEY_SIZE, CRYPTO_NONCE_SIZE.
  change CRYPTO_SIZE with 89. change CRYPTO_MAC_SIZE with 16. change MAX_CRYPTO_REQUEST_SIZE with 1024.
  replace (_ <=? 89 + 16) with false by lia. replace (1024 <? _) with false by lia. cbn [orb].
  replace (slice 1 32 _) with rpk by (by slices). unfold pk_equal, bytes_eqb.
  rewrite (bool_decide_false (rpk = other)) by done. split; [|done].
  rewrite bool_decide_true by done. cbn [negb].
  replace (slice (1 + 32) 32 _) with spk by (by slices).
  replace (slice (1 + 32 * 2) 24 _) with nonce by (by slices).
  replace (drop (Z.to_nat 89) _) with c.
  2:{ rewrite !app_assoc, drop_app_length'; [done|].
      apply Nat2Z.inj. fold (zlen ((([NET_PACKET_CRYPTO] ++ rpk) ++ spk) ++ nonce)). zlens. }
  unfold decrypt_data. rewrite Hk'. change (default stack (Some k)) with k.
  replace (zlen data + 106 - 89) with (zlen data + 17) by lia. rewrite Hdec.
  replace (_ =? -1) with false by lia. replace (_ =? 0) with false by lia. cbn [orb].
  do 2 f_equal. rewrite slice_app_r by (change (zlen [id]) with 1; lia).
  change (zlen [id]) with 1. apply slice_whole; lia.
Qed.

(** ** Witnesses *)

Definition sample_nodes : list Node_format :=
  [mkNode (replicate 32 1) (mkIPPort (mkIP TOX_AF_INET ([192; 0; 2; 1] ++ zeros 12)) 17);
   mkNode (replicate 32 2) (mkIPPort (mkIP TCP_INET6 (replicate 16 254)) 65535)].

Lemma nodes_roundtrip_witness :
  ∃ d, pack_nodes (packed_size sample_nodes) sample_nodes 2 = Some d ∧
    unpack_nodes 4 d (zlen d) true = Some (wire_node <$> sample_nodes, 90).
Proof.
  assert (zlen (replicate 90 2) = 90) as Hz by reflexivity.
  destruct (nodes_roundtrip true sample_nodes (replicate 90 2) 90 4) as [(d & Ed & Hd & Hu) _].
  - repeat constructor; cbn; unfold is_u8, is_u16; lia.
  - repeat constructor.
  - vm_compute. reflexivity.
  - vm_compute. discriminate.
  - repeat constructor; unfold is_u8; lia.
  - rewrite Hz. lia.
  - lia.
  - exists d. split; [exact Ed|]. rewrite Hu. rewrite Hd. reflexivity.
Defined.

Lemma request_roundtrip_witness :
  ∃ packet, @create_request toy_sodium true [] (replicate 24 9) (replicate 32 1) (replicate 32 2) (replicate 32 2)
      [10; 20] 2 254 = Some packet ∧
    @handle_request toy_sodium true [] (replicate 32 2) (replicate 32 3) packet 108
      = Some (replicate 32 1, 254, [10; 20]).
Proof.
  destruct (@request_roundtrip toy_sodium toy_sodium_laws [] (replicate 24 9) (replicate 32 1) (replicate 32 2)
    (replicate 32 2) (replicate 32 3) [10; 20] 254 (replicate 32 4) [] []) as (p & E1 & E2 & E3 & _);
    try reflexivity; try (cbn; lia); try done.
  exists p. split; [exact E1|]. change 108 with (zlen [10; 20] + 106). rewrite <- E2. exact E3.
Defined.
