(* ===== verification/DhtLists.v ===== *)
(** * DhtLists: the node lists of [toxcore/DHT.c]

    The DHT keeps the nodes it knows in lists of clients: the close list, whose
    eight entries per bucket share a prefix of a given length with our own key,
    and eight entries around the key of every friend.  This file models the
    operations on such lists: finding and updating a client, choosing whom to
    replace, and collecting the nodes closest to a key.  The clock readings are
    arguments: [cur_time] is the time cached in the DHT, [now] is
    [mono_time_get].  Arrays are lists of their full size. *)
From stdpp Require Import sorting.
From S2P Require Import Prelude CryptoCore Network LanDiscovery DhtDistance DhtPackets.

(** ** Data *)

Definition MAX_FRIEND_CLIENTS : Z := 8.
Definition LCLIENT_NODES : Z := MAX_FRIEND_CLIENTS.
Definition LCLIENT_LENGTH : Z := 128.
Definition LCLIENT_LIST : Z := LCLIENT_LENGTH * LCLIENT_NODES.
Definition MAX_CLOSE_TO_BOOTSTRAP_NODES : Z := 8.
Definition MAX_SENT_NODES : Z := 4.
Definition PING_TIMEOUT : Z := 5.
Definition PING_INTERVAL : Z := 60.
Definition PINGS_MISSED_NODE_GOES_BAD : Z := 1.
Definition PING_ROUNDTRIP : Z := 2.
Definition BAD_NODE_TIMEOUT : Z := PING_INTERVAL + PINGS_MISSED_NODE_GOES_BAD * (PING_INTERVAL + PING_ROUNDTRIP).
Definition KILL_NODE_TIMEOUT : Z := BAD_NODE_TIMEOUT + PING_INTERVAL.

Record IPPTsPng := mkAssoc {
  a_ip_port : IP_Port;
  a_timestamp : Z;
  a_last_pinged : Z;
  a_ret_ip_port : IP_Port;
  a_ret_timestamp : Z;
  a_ret_ip_self : bool
}.

#[export] Instance eta_IPPTsPng : Eta IPPTsPng := λ a,
  mkAssoc (a_ip_port a) (a_timestamp a) (a_last_pinged a) (a_ret_ip_port a) (a_ret_timestamp a) (a_ret_ip_self a).

Definition empty_ipptspng : IPPTsPng := mkAssoc empty_ip_port 0 0 empty_ip_port 0 false.

Record Client_data := mkClient {
  c_public_key : bytes;
  c_assoc4 : IPPTsPng;
  c_assoc6 : IPPTsPng;
  c_announce_node : bool
}.

#[export] Instance eta_Client_data : Eta Client_data := λ c,
  mkClient (c_public_key c) (c_assoc4 c) (c_assoc6 c) (c_announce_node c).

Definition empty_client : Client_data :=
  mkClient (zeros CRYPTO_PUBLIC_KEY_SIZE) empty_ipptspng empty_ipptspng false.

Definition ipp_family (p : IP_Port) : Z := ip_family (ipp_ip p).

(** ** Basic operations *)

Definition assoc_timeout (cur_time : Z) (assoc : IPPTsPng) : bool :=
  u64 (a_timestamp assoc + BAD_NODE_TIMEOUT) <=? cur_time.

(** Assigning [v4.uint32] changes the first four bytes of the union only. *)
Definition ip_port_normalize (ip_port : IP_Port) : IP_Port :=
  let ip := ipp_ip ip_port in
  if net_family_is_ipv6 (ip_family ip) && ipv6_ipv4_in_v6 ip then
    mkIPPort (mkIP TOX_AF_INET (slice 12 4 (ip_addr ip) ++ drop 4 (ip_addr ip))) (ipp_port ip_port)
  else ip_port.

(** The index of the first element that passes a test; [None] is [UINT32_MAX]. *)
Fixpoint index_of {A} (test : A → bool) (array : list A) : option nat :=
  match array with
  | [] => None
  | x :: array' => if test x then Some 0%nat else S <$> index_of test array'
  end.

Definition index_of_client_pk (array : list Client_data) (pk : bytes) : option nat :=
  index_of (λ c, pk_equal (c_public_key c) pk) array.

Definition index_of_node_pk (array : list Node_format) (pk : bytes) : option nat :=
  index_of (λ n, pk_equal (nf_public_key n) pk) array.

Definition index_of_client_ip_port (array : list Client_data) (ip_port : IP_Port) : option nat :=
  index_of (λ c,
    (net_family_is_ipv4 (ipp_family ip_port) && ipport_equal (a_ip_port (c_assoc4 c)) ip_port) ||
    (net_family_is_ipv6 (ipp_family ip_port) && ipport_equal (a_ip_port (c_assoc6 c)) ip_port)) array.

Definition client_at (lst : list Client_data) (i : nat) : Client_data := default empty_client (lst !! i).

(** Applies [f] to the association the C code points [assoc] at. *)
Definition on_assoc4 (f : IPPTsPng → IPPTsPng) (c : Client_data) : Client_data := c <| c_assoc4 := f (c_assoc4 c) |>.
Definition on_assoc6 (f : IPPTsPng → IPPTsPng) (c : Client_data) : Client_data := c <| c_assoc6 := f (c_assoc6 c) |>.

(** The end of [update_client], after [assoc] was chosen. *)
Definition update_assoc (now : Z) (ip_port : IP_Port) (assoc : IPPTsPng) : IPPTsPng :=
  if negb (ip_is_lan (ipp_ip (a_ip_port assoc))) && ip_is_lan (ipp_ip ip_port) then assoc
  else assoc <| a_ip_port := ip_port |> <| a_timestamp := now |>.

Definition update_client (now : Z) (client : Client_data) (ip_port : IP_Port) : Client_data :=
  if net_family_is_ipv4 (ipp_family ip_port) then on_assoc4 (update_assoc now ip_port) client
  else if net_family_is_ipv6 (ipp_family ip_port) then on_assoc6 (update_assoc now ip_port) client
  else client.

(** The association that got the time stamp is the one that is cleared. *)
Definition client_or_ip_port_in_list (now : Z) (lst : list Client_data) (public_key : bytes) (ip_port : IP_Port) :
    bool * list Client_data :=
  match index_of_client_pk lst public_key with
  | Some index => (true, <[index := update_client now (client_at lst index) ip_port]> lst)
  | None =>
      match index_of_client_ip_port lst ip_port with
      | None => (false, lst)
      | Some index =>
          let client := client_at lst index in
          let stamp assoc := assoc <| a_timestamp := now |> in
          let client :=
            if net_family_is_ipv4 (ipp_family ip_port) then on_assoc4 stamp client else on_assoc6 stamp client in
          let client := client <| c_public_key := public_key |> in
          let client :=
            if net_family_is_ipv4 (ipp_family ip_port) then on_assoc4 (λ _, empty_ipptspng) client
            else on_assoc6 (λ _, empty_ipptspng) client in
          (true, <[index := client]> lst)
      end
  end.

(** ** Lists of nodes by distance *)

(** [add_to_list] calls itself with the node it displaced; [depth] bounds the
    recursion, and the length of the list is enough of it
    ([add_to_list_displaces]). *)
Fixpoint add_to_list_rec (depth : nat) (nodes_list : list Node_format) (pk : bytes) (ip_port : IP_Port)
    (cmp_pk : bytes) : bool * list Node_format :=
  match index_of (λ n, id_closest cmp_pk (nf_public_key n) pk =? 2) nodes_list with
  | None => (false, nodes_list)
  | Some i =>
      let bak := default empty_node_format (nodes_list !! i) in
      let nodes_list' := <[i := mkNode pk ip_port]> nodes_list in
      if negb (i =? length nodes_list - 1)%nat then
        match depth with
        | O => (true, nodes_list')
        | S depth' => (true, (add_to_list_rec depth' nodes_list' (nf_public_key bak) (nf_ip_port bak) cmp_pk).2)
        end
      else (true, nodes_list')
  end.

Definition add_to_list (nodes_list : list Node_format) (pk : bytes) (ip_port : IP_Port) (cmp_pk : bytes) :
    bool * list Node_format :=
  add_to_list_rec (length nodes_list) nodes_list pk ip_port cmp_pk.

(** The association [get_close_nodes_inner] sends for a client. *)
Definition sent_assoc (sa_family : Z) (client : Client_data) : IPPTsPng :=
  if net_family_is_ipv4 sa_family then c_assoc4 client
  else if net_family_is_ipv6 sa_family then c_assoc6 client
  else if a_timestamp (c_assoc6 client) <=? a_timestamp (c_assoc4 client) then c_assoc4 client
  else c_assoc6 client.

(** The body of the loop of [get_close_nodes_inner]; the state is the array of
    nodes and [num_nodes]. *)
Definition close_nodes_step (cur_time : Z) (public_key : bytes) (sa_family : Z) (is_LAN want_announce : bool)
    (st : list Node_format * Z) (client : Client_data) : list Node_format * Z :=
  let '(nodes_list, num_nodes) := st in
  match index_of_node_pk nodes_list (c_public_key client) with
  | Some _ => st
  | None =>
      let ipptp := sent_assoc sa_family client in
      if assoc_timeout cur_time ipptp then st
      else if ip_is_lan (ipp_ip (a_ip_port ipptp)) && negb is_LAN then st
      else if want_announce && negb (c_announce_node client) then st
      else if num_nodes <? MAX_SENT_NODES then
        (aset nodes_list num_nodes (mkNode (c_public_key client) (a_ip_port ipptp)), num_nodes + 1)
      else ((add_to_list nodes_list (c_public_key client) (a_ip_port ipptp) public_key).2, num_nodes)
  end.

Definition get_close_nodes_inner (cur_time : Z) (public_key : bytes) (sa_family : Z) (is_LAN want_announce : bool)
    (client_list : list Client_data) (st : list Node_format * Z) : list Node_format * Z :=
  if negb (net_family_is_ipv4 sa_family) && negb (net_family_is_ipv6 sa_family) && negb (net_family_is_unspec sa_family)
  then st
  else foldl (close_nodes_step cur_time public_key sa_family is_LAN want_announce) st client_list.

(** [get_somewhat_close_nodes] over the close list and the client lists of the
    friends. *)
Definition get_somewhat_close_nodes (cur_time : Z) (close_clientlist : list Client_data)
    (friend_lists : list (list Client_data)) (public_key : bytes) (sa_family : Z) (is_LAN want_announce : bool)
    (nodes_list : list Node_format) : list Node_format * Z :=
  let inner l st := get_close_nodes_inner cur_time public_key sa_family is_LAN want_announce l st in
  foldl (λ st l, inner l st) (inner close_clientlist (nodes_list, 0)) friend_lists.

(** Returns the array of nodes and how many of them are set. *)
Definition get_close_nodes (cur_time : Z) (close_clientlist : list Client_data)
    (friend_lists : list (list Client_data)) (public_key : bytes) (sa_family : Z) (is_LAN want_announce : bool) :
    list Node_format * Z :=
  get_somewhat_close_nodes cur_time close_clientlist friend_lists public_key sa_family is_LAN want_announce
    (replicate (Z.to_nat MAX_SENT_NODES) empty_node_format).

(** ** Replacing clients *)

Definition client_dead (cur_time : Z) (c : Client_data) : bool :=
  assoc_timeout cur_time (c_assoc4 c) && assoc_timeout cur_time (c_assoc6 c).

(** The comparison for [qsort]: dead clients first, then the farthest. *)
Definition dht_cmp_entry (cur_time : Z) (cmp_public_key : bytes) (entry1 entry2 : Client_data) : Z :=
  let t1 := client_dead cur_time entry1 in
  let t2 := client_dead cur_time entry2 in
  if t1 && t2 then 0
  else if t1 then -1
  else if t2 then 1
  else
    let closest := id_closest cmp_public_key (c_public_key entry1) (c_public_key entry2) in
    if closest =? 1 then 1 else if closest =? 2 then -1 else 0.

Definition store_node_ok (client : Client_data) (cur_time : Z) (public_key comp_public_key : bytes) : bool :=
  client_dead cur_time client || (id_closest comp_public_key (c_public_key client) public_key =? 2).

Definition set_announce_node_in_list (lst : list Client_data) (public_key : bytes) : list Client_data :=
  match index_of_client_pk lst public_key with
  | Some index => <[index := (client_at lst index) <| c_announce_node := true |>]> lst
  | None => lst
  end.

(** What is written to the association of the new address, and to the other. *)
Definition reset_assoc (now : Z) (ip_port : IP_Port) (assoc : IPPTsPng) : IPPTsPng :=
  let assoc := assoc <| a_ip_port := ip_port |> <| a_timestamp := now |> in
  assoc <| a_ret_ip_port := mkIPPort (ip_reset (ipp_ip (a_ret_ip_port assoc))) 0 |>
    <| a_ret_timestamp := 0 |> <| a_ret_ip_self := false |>.

Definition update_client_with_reset (now : Z) (client : Client_data) (ip_port : IP_Port) : Client_data :=
  if net_family_is_ipv4 (ipp_family ip_port) then
    on_assoc6 (λ _, empty_ipptspng) (on_assoc4 (reset_assoc now ip_port) client)
  else on_assoc4 (λ _, empty_ipptspng) (on_assoc6 (reset_assoc now ip_port) client).

Definition is_pk_in_client_list (lst : list Client_data) (cur_time : Z) (public_key : bytes) (ip_port : IP_Port) : bool :=
  match index_of_client_pk lst public_key with
  | None => false
  | Some index =>
      let assoc := if net_family_is_ipv4 (ipp_family ip_port) then c_assoc4 (client_at lst index)
                   else c_assoc6 (client_at lst index) in
      negb (assoc_timeout cur_time assoc)
  end.

Definition update_client_data (now : Z) (array : list Client_data) (ip_port : IP_Port) (pk : bytes) (node_is_self : bool) :
    bool * list Client_data :=
  match index_of_client_pk array pk with
  | None => (false, array)
  | Some index =>
      let ret assoc := assoc <| a_ret_ip_port := ip_port |> <| a_ret_timestamp := now |>
                         <| a_ret_ip_self := node_is_self |> in
      if net_family_is_ipv4 (ipp_family ip_port) then
        (true, <[index := on_assoc4 ret (client_at array index)]> array)
      else if net_family_is_ipv6 (ipp_family ip_port) then
        (true, <[index := on_assoc6 ret (client_at array index)]> array)
      else (true, array)
  end.

(** [qsort] of the C library: which order it gives to elements that compare
    equal is not specified. *)
Class Qsort := qsort : ∀ {A : Type}, (A → A → Z) → list A → list A.

Class QsortLaws (Q : Qsort) := {
  qsort_perm : ∀ A (cmp : A → A → Z) l, qsort cmp l ≡ₚ l;
  qsort_sorted : ∀ A (cmp : A → A → Z) l,
    (∀ x y, x ∈ l → y ∈ l → 0 < cmp x y → cmp y x < 0) →
    (∀ x y z, x ∈ l → y ∈ l → z ∈ l → cmp x y <= 0 → cmp y z <= 0 → cmp x z <= 0) →
    StronglySorted (λ x y, cmp x y <= 0) (qsort cmp l)
}.

Section sorting.
Context {Q : Qsort}.

(** [alloc] is the outcome of the [calloc]. *)
Definition sort_client_list (alloc : bool) (lst : list Client_data) (cur_time : Z) (comp_public_key : bytes) :
    list Client_data :=
  if negb alloc then lst else qsort (dht_cmp_entry cur_time comp_public_key) lst.

Definition replace_all (alloc : bool) (cur_time now : Z) (lst : list Client_data) (public_key : bytes)
    (ip_port : IP_Port) (comp_public_key : bytes) : bool * list Client_data :=
  if negb (net_family_is_ipv4 (ipp_family ip_port)) && negb (net_family_is_ipv6 (ipp_family ip_port)) then (false, lst)
  else if negb (store_node_ok (client_at lst 1) cur_time public_key comp_public_key)
       && negb (store_node_ok (client_at lst 0) cur_time public_key comp_public_key) then (false, lst)
  else
    let lst := sort_client_list alloc lst cur_time comp_public_key in
    let client := (client_at lst 0) <| c_public_key := public_key |> in
    (true, <[0%nat := update_client_with_reset now client ip_port]> lst).
End sorting.

(** ** The closest nodes *)

Definition node_key_ok (n : Node_format) : Prop := key_ok (nf_public_key n).

(** One pass over a list that leaves the nearer of two nodes behind and carries
    the farther one on: the list after it, and the node that fell out. *)
Fixpoint displace (cmp_pk : bytes) (n : Node_format) (l : list Node_format) : list Node_format * Node_format :=
  match l with
  | [] => ([], n)
  | x :: l' =>
      if id_closest cmp_pk (nf_public_key x) (nf_public_key n) =? 2
      then let '(r, d) := displace cmp_pk x l' in (n :: r, d)
      else let '(r, d) := displace cmp_pk n l' in (x :: r, d)
  end.

Definition node_distance (pk : bytes) (n : Node_format) : Z := distance pk (nf_public_key n).

Lemma farther_spec pk a b : key_ok pk → node_key_ok a → node_key_ok b →
  (id_closest pk (nf_public_key a) (nf_public_key b) =? 2) = (node_distance pk b <? node_distance pk a).
Proof.
  intros K Ka Kb. unfold node_distance.
  destruct (id_closest_cases pk (nf_public_key a) (nf_public_key b) K Ka Kb) as [[-> ?]|[[-> ?]|(-> & _ & ?)]]; lia.
Qed.

(** The pass keeps the nodes and drops one that is farthest. *)
Lemma displace_spec pk l : ∀ n r d, key_ok pk → node_key_ok n → Forall node_key_ok l →
  displace pk n l = (r, d) →
  n :: l ≡ₚ d :: r ∧ length r = length l ∧ Forall (λ x, node_distance pk x <= node_distance pk d) r.
Proof.
  induction l as [|x l IH]; intros n r d K Kn Kl; simpl; [intros [= <- <-]; done|].
  inversion Kl; subst. rewrite farther_spec by done. destruct (_ <? _) eqn:E.
  - destruct (displace pk x l) as [r' d'] eqn:Ed. intros [= <- <-].
    apply IH in Ed as (Hp & Hl & Hf); [|done..]. split_and!; [|simpl; lia|].
    + rewrite (Permutation_swap n d'), <- Hp. done.
    + constructor; [|done]. assert (x ∈ d' :: r') as Hx by (rewrite <- Hp; left).
      apply elem_of_cons in Hx as [->|Hx]; [lia|]. rewrite list.Forall_forall in Hf. specialize (Hf x Hx). lia.
  - destruct (displace pk n l) as [r' d'] eqn:Ed. intros [= <- <-].
    apply IH in Ed as (Hp & Hl & Hf); [|done..]. split_and!; [|simpl; lia|].
    + rewrite (Permutation_swap x d'), <- Hp. apply Permutation_swap.
    + constructor; [|done]. assert (n ∈ d' :: r') as Hx by (rewrite <- Hp; left).
      apply elem_of_cons in Hx as [->|Hx]; [lia|]. rewrite list.Forall_forall in Hf. specialize (Hf n Hx). lia.
Qed.

(** Nodes at the front that are not farther are passed over. *)
Lemma displace_app pk n l1 l2 : Forall (λ x, (id_closest pk (nf_public_key x) (nf_public_key n) =? 2) = false) l1 →
  displace pk n (l1 ++ l2) = (l1 ++ (displace pk n l2).1, (displace pk n l2).2).
Proof.
  induction 1 as [|x l1 Hx _ IH]; simpl; [by destruct displace|]. by rewrite Hx, IH.
Qed.

Lemma index_of_None {A} (test : A → bool) l : index_of test l = None ↔ Forall (λ x, test x = false) l.
Proof.
  induction l as [|x l IH]; simpl; [done|]. rewrite list.Forall_cons. destruct (test x) eqn:E.
  - split; [done|]. intros [? _]. congruence.
  - rewrite fmap_None, IH. tauto.
Qed.

Lemma index_of_Some {A} (test : A → bool) l i : index_of test l = Some i →
  ∃ l1 x l2, l = l1 ++ x :: l2 ∧ length l1 = i ∧ test x = true ∧ Forall (λ x, test x = false) l1.
Proof.
  revert i. induction l as [|x l IH]; intros i; simpl; [done|]. destruct (test x) eqn:E.
  - intros [= <-]. by exists [], x, l.
  - intros (j & Hj & ->)%fmap_Some. apply IH in Hj as (l1 & y & l2 & -> & <- & Hy & Hf).
    exists (x :: l1), y, l2. split_and!; [done|done|done|by constructor].
Qed.

Lemma displace_none pk n l : Forall (λ x, (id_closest pk (nf_public_key x) (nf_public_key n) =? 2) = false) l →
  displace pk n l = (l, n).
Proof. intros H. rewrite <- (app_nil_r l) at 1. rewrite displace_app by done. simpl. by rewrite app_nil_r. Qed.

(** [a] is not farther from [pk] than [n]. *)
Abbreviation keeps pk n := (λ x, (id_closest pk (nf_public_key x) (nf_public_key n) =? 2) = false).

(** [add_to_list] is that pass: the recursion on the displaced node goes on
    behind it. *)
Lemma add_to_list_rec_spec pk depth : ∀ l1 l2 n, key_ok pk → node_key_ok n → Forall node_key_ok (l1 ++ l2) →
  Forall (keeps pk n) l1 → (length l2 <= depth)%nat →
  (add_to_list_rec depth (l1 ++ l2) (nf_public_key n) (nf_ip_port n) pk).2 = (displace pk n (l1 ++ l2)).1 ∧
  (add_to_list_rec depth (l1 ++ l2) (nf_public_key n) (nf_ip_port n) pk).1
    = negb (bool_decide (Forall (keeps pk n) (l1 ++ l2))).
Proof.
  induction depth as [|depth IH]; intros l1 l2 n K Kn Kl Hl1 Hlen.
  { destruct l2; [|simpl in Hlen; lia]. rewrite app_nil_r. simpl.
    rewrite (proj2 (index_of_None _ _)) by done. rewrite displace_none, bool_decide_true by done. done. }
  simpl. destruct (index_of _ (l1 ++ l2)) as [i|] eqn:Ei.
  2:{ apply index_of_None in Ei. rewrite displace_none, bool_decide_true by done. done. }
  apply index_of_Some in Ei as (m1 & x & m2 & E & <- & Hx & Hm1).
  assert (∃ m, m1 = l1 ++ m ∧ l2 = m ++ x :: m2) as (m & -> & ->).
  { apply app_eq_inv in E as [(m & -> & E)|(m & -> & ->)]; [|eauto].
    destruct m as [|y m]; [exists []; by rewrite !app_nil_r|].
    injection E as -> ->. rewrite Forall_app, list.Forall_cons in Hl1. destruct Hl1 as (_ & Hy & _). simpl in Hy. congruence. }
  rewrite E in Kl |- *. rewrite list_lookup_middle, insert_app_r_alt, Nat.sub_diag by done.
  cbn [from_option id]. change (<[0%nat := ?y]> (x :: m2)) with (y :: m2).
  replace (mkNode (nf_public_key n) (nf_ip_port n)) with n by (by destruct n).
  assert (node_key_ok x) as Kx by (rewrite !Forall_app, list.Forall_cons in Kl; tauto).
  rewrite (bool_decide_false (Forall _ ((l1 ++ m) ++ _))).
  2:{ rewrite Forall_app, list.Forall_cons. intros (_ & Hk & _). simpl in Hk. congruence. }
  rewrite (displace_app pk n (l1 ++ m)) by done. cbn [displace]. rewrite Hx.
  destruct (displace pk x m2) as [r d] eqn:Ed. cbn [fst snd].
  destruct (negb _) eqn:El.
  2:{ destruct m2 as [|z m2]; [simpl in Ed; by simplify_eq|].
      exfalso. rewrite !length_app in El. cbn [length] in El. lia. }
  split; [|done]. cbn [snd].
  assert (Forall (keeps pk x) ((l1 ++ m) ++ [n])) as Hk.
  { rewrite farther_spec in Hx by done.
    assert (Forall node_key_ok (l1 ++ m)) as Klm by (rewrite Forall_app in Kl; tauto).
    apply Forall_app; split; [|constructor; [rewrite farther_spec by done; lia|constructor]].
    rewrite list.Forall_forall in *. intros y Hy. specialize (Hm1 y Hy). specialize (Klm y Hy).
    rewrite farther_spec in Hm1 |- * by done. lia. }
  assert (Forall node_key_ok (((l1 ++ m) ++ [n]) ++ m2)) as Kl'.
  { apply Forall_app in Kl as [K1 [_ K2]%list.Forall_cons].
    apply Forall_app; split; [apply Forall_app; split; [done|by apply Forall_singleton]|done]. }
  destruct (IH ((l1 ++ m) ++ [n]) m2 x) as [E2 _]; [done..| |].
  { rewrite length_app in Hlen. simpl in Hlen. lia. }
  rewrite <- (app_assoc _ [n] m2) in E2. cbn [app] in E2. rewrite E2.
  rewrite (cons_middle n), app_assoc, displace_app by done. rewrite Ed. cbn [fst]. by rewrite <- app_assoc.
Qed.

Lemma add_to_list_spec pk l n : key_ok pk → node_key_ok n → Forall node_key_ok l →
  add_to_list l (nf_public_key n) (nf_ip_port n) pk
    = (negb (bool_decide (Forall (keeps pk n) l)), (displace pk n l).1).
Proof.
  intros K Kn Kl. unfold add_to_list.
  destruct (add_to_list_rec_spec pk (length l) [] l n) as [H2 H1]; [done..|].
  cbn [app] in *. rewrite <- H1, <- H2. by destruct add_to_list_rec.
Qed.

Lemma index_of_node_None nodes k : index_of_node_pk nodes k = None → k ∉ nf_public_key <$> nodes.
Proof.
  intros Hidx%index_of_None (n & -> & Hn)%list_elem_of_fmap. rewrite list.Forall_forall in Hidx.
  specialize (Hidx n Hn). unfold pk_equal, bytes_eqb in Hidx. by apply bool_decide_eq_false in Hidx.
Qed.

(** *** [get_close_nodes] *)

Section close_nodes.
Variables (cur_time : Z) (pk : bytes) (sa_family : Z) (is_LAN want_announce : bool).

(** Whether a client may be sent, and the node that is sent for it. *)
Definition sendable (c : Client_data) : bool :=
  negb (assoc_timeout cur_time (sent_assoc sa_family c)) &&
  negb (ip_is_lan (ipp_ip (a_ip_port (sent_assoc sa_family c))) && negb is_LAN) &&
  negb (want_announce && negb (c_announce_node c)).

Definition sent_node (c : Client_data) : Node_format :=
  mkNode (c_public_key c) (a_ip_port (sent_assoc sa_family c)).

(** The keys are well formed, and nobody answers under the all-zero key of an
    empty slot. *)
Definition client_key_ok (c : Client_data) : Prop :=
  key_ok (c_public_key c) ∧ (sendable c = true → c_public_key c ≠ zeros CRYPTO_PUBLIC_KEY_SIZE).

(** What the loop knows after the clients [seen]: the first [num] nodes are the
    closest of them. *)
Record closest_of (seen : list Client_data) (nodes : list Node_format) (num : Z) : Prop := {
  co_num : 0 <= num <= MAX_SENT_NODES;
  co_nodes : ∃ got, nodes = got ++ replicate (Z.to_nat (MAX_SENT_NODES - num)) empty_node_format ∧ zlen got = num ∧
    NoDup (nf_public_key <$> got) ∧ Forall node_key_ok got ∧
    Forall (λ n, ∃ c, c ∈ seen ∧ sendable c = true ∧ n = sent_node c) got ∧
    (∀ c, c ∈ seen → sendable c = true → c_public_key c ∈ nf_public_key <$> got ∨
       (num = MAX_SENT_NODES ∧ Forall (λ n, node_distance pk n < node_distance pk (sent_node c)) got))
}.

(** A client that is not sent, or is already there, changes nothing. *)
Lemma closest_of_skip seen nodes num c :
  closest_of seen nodes num →
  (sendable c = true → ∃ n, n ∈ take (Z.to_nat num) nodes ∧ nf_public_key n = c_public_key c) →
  closest_of (seen ++ [c]) nodes num.
Proof.
  intros [Hnum (got & -> & Hlen & Hnd & Hok & Hfrom & Hall)] Hc. split; [done|].
  exists got. split_and!; [done..| |].
  - eapply list.Forall_impl; [exact Hfrom|]. intros n (c' & Hc' & Hs & ->). exists c'.
    split_and!; [apply elem_of_app; by left|done|done].
  - intros c' Hc' Hs. apply elem_of_app in Hc' as [Hc'|Hc']; [by apply Hall|].
    apply list_elem_of_singleton in Hc' as ->. left. destruct (Hc Hs) as (n & Hn & <-).
    rewrite take_app_length' in Hn by (unfold zlen in Hlen; lia). by apply list_elem_of_fmap_2.
Qed.

Lemma closest_of_append seen nodes num c :
  closest_of seen nodes num → client_key_ok c → sendable c = true → num < MAX_SENT_NODES →
  index_of_node_pk nodes (c_public_key c) = None →
  closest_of (seen ++ [c]) (aset nodes num (sent_node c)) (num + 1).
Proof.
  unfold MAX_SENT_NODES. intros [Hnum (got & -> & Hlen & Hnd & Hok & Hfrom & Hall)] [Hk _] Hs Hlt Hidx.
  split; unfold MAX_SENT_NODES in *; [lia|]. exists (got ++ [sent_node c]).
  apply index_of_node_None in Hidx. rewrite fmap_app, elem_of_app in Hidx.
  split_and!.
  - unfold aset. rewrite insert_app_r_alt by (unfold zlen in Hlen; lia).
    replace (Z.to_nat num - length got)%nat with 0%nat by (unfold zlen in Hlen; lia).
    replace (Z.to_nat (4 - num)) with (S (Z.to_nat (4 - (num + 1)))) by lia.
    cbn [replicate]. change (<[0%nat := ?x]> (?y :: ?l)) with (x :: l). by rewrite <- app_assoc.
  - rewrite zlen_app, Hlen. done.
  - rewrite fmap_app. apply list.NoDup_app. split_and!; [done| |apply NoDup_singleton].
    intros k Hk1 Hk2. apply list_elem_of_singleton in Hk2 as ->. tauto.
  - apply Forall_app. split; [done|]. by apply Forall_singleton.
  - apply Forall_app. split.
    + eapply list.Forall_impl; [exact Hfrom|]. intros n (c' & Hc' & Hs' & ->). exists c'.
      split_and!; [apply elem_of_app; by left|done|done].
    + apply Forall_singleton. exists c. split_and!; [apply elem_of_app; right; by apply list_elem_of_singleton|done|done].
  - intros c' Hc' Hs'. rewrite fmap_app. apply elem_of_app in Hc' as [Hc'|Hc'].
    + destruct (Hall c' Hc' Hs') as [?|[? _]]; [left; apply elem_of_app; by left|lia].
    + apply list_elem_of_singleton in Hc' as ->. left. apply elem_of_app. right. by apply list_elem_of_singleton.
Qed.

(** Distances of distinct keys differ. *)
Lemma node_distance_inj a b : node_key_ok a → node_key_ok b →
  node_distance pk a = node_distance pk b → nf_public_key a = nf_public_key b.
Proof.
  intros [La Ha] [Lb Hb] E. apply (distance_inj pk); [done|done| |done]. unfold zlen in *. lia.
Qed.

(** With distinct keys the pass drops the one farthest node. *)
Lemma displace_strict n got r d :
  key_ok pk → node_key_ok n → Forall node_key_ok got → NoDup (nf_public_key <$> got) →
  nf_public_key n ∉ nf_public_key <$> got → displace pk n got = (r, d) →
  n :: got ≡ₚ d :: r ∧ length r = length got ∧ Forall node_key_ok r ∧ NoDup (nf_public_key <$> r) ∧
  nf_public_key d ∉ nf_public_key <$> r ∧ Forall (λ m, node_distance pk m < node_distance pk d) r.
Proof.
  intros K Kn Hok Hnd Hn Ed. apply displace_spec in Ed as (Hp & Hlr & Hf); [|done..].
  assert (Forall node_key_ok (d :: r)) as [Kd Kr]%list.Forall_cons by (rewrite <- Hp; by constructor).
  assert (NoDup (nf_public_key <$> d :: r)) as [Hd Hr]%list.NoDup_cons.
  { rewrite <- Hp. cbn [fmap list_fmap]. by apply list.NoDup_cons. }
  split_and!; try done. rewrite list.Forall_forall in *. intros m Hm. specialize (Hf m Hm).
  assert (node_distance pk m ≠ node_distance pk d); [|lia].
  intros E. apply Hd. apply node_distance_inj in E; [|by apply Kr|done]. rewrite <- E. by apply list_elem_of_fmap_2.
Qed.

Lemma closest_of_replace seen nodes c :
  key_ok pk → closest_of seen nodes MAX_SENT_NODES → client_key_ok c → sendable c = true →
  index_of_node_pk nodes (c_public_key c) = None →
  closest_of (seen ++ [c]) (add_to_list nodes (c_public_key c) (a_ip_port (sent_assoc sa_family c)) pk).2 MAX_SENT_NODES.
Proof.
  intros K [Hnum (got & -> & Hlen & Hnd & Hok & Hfrom & Hall)] [Hk _] Hs Hidx.
  rewrite Z.sub_diag in *. cbn [Z.to_nat replicate] in *. rewrite app_nil_r in *.
  change (c_public_key c) with (nf_public_key (sent_node c)).
  change (a_ip_port (sent_assoc sa_family c)) with (nf_ip_port (sent_node c)).
  assert (node_key_ok (sent_node c)) as Kn by done.
  rewrite add_to_list_spec by done. cbn [snd].
  destruct (displace pk (sent_node c) got) as [r d] eqn:Ed.
  apply displace_strict in Ed as (Hp & Hlr & Kr & Hr & Hd & Hlt); [|done..|by apply index_of_node_None]. cbn [fst].
  split; [done|]. exists r. rewrite Z.sub_diag. cbn [Z.to_nat replicate]. rewrite app_nil_r.
  split_and!; [done|unfold zlen in *; by rewrite Hlr|done|done| |].
  - rewrite list.Forall_forall in *. intros n Hn.
    assert (n ∈ sent_node c :: got) as [->|Hn']%elem_of_cons by (rewrite Hp; by right).
    + exists c. split_and!; [apply elem_of_app; right; by apply list_elem_of_singleton|done|done].
    + destruct (Hfrom n Hn') as (c' & ? & ? & ->). exists c'. split_and!; [apply elem_of_app; by left|done|done].
  - assert (∀ m, m ∈ sent_node c :: got → nf_public_key m ∈ nf_public_key <$> r ∨
      Forall (λ n, node_distance pk n < node_distance pk m) r) as Hin.
    { intros m Hm. rewrite Hp in Hm. apply elem_of_cons in Hm as [->|Hm]; [by right|].
      left. by apply list_elem_of_fmap_2. }
    intros c' Hc' Hs'. apply elem_of_app in Hc' as [Hc'|Hc'].
    2:{ apply list_elem_of_singleton in Hc' as ->. destruct (Hin (sent_node c)) as [?|?]; [left|by left|by right]. }
    destruct (Hall c' Hc' Hs') as [(m & Em & Hm)%list_elem_of_fmap|[_ Hfar]].
    + destruct (Hin m) as [Hm'|Hm']; [by right|rewrite Em; by left|]. right. split; [done|].
      eapply list.Forall_impl; [exact Hm'|]. intros n. unfold node_distance. cbn [sent_node nf_public_key].
      by rewrite Em.
    + right. split; [done|]. rewrite list.Forall_forall in *. intros n Hn.
      assert (n ∈ sent_node c :: got) as [->|Hn']%elem_of_cons by (rewrite Hp; by right); [|by apply Hfar].
      assert (d ∈ sent_node c :: got) as [->|Hd']%elem_of_cons by (rewrite Hp; by left).
      { exfalso. apply Hd. by apply list_elem_of_fmap_2. }
      specialize (Hfar d Hd'). specialize (Hlt _ Hn). lia.
Qed.

Lemma closest_of_step seen nodes num c :
  key_ok pk → closest_of seen nodes num → client_key_ok c →
  let '(nodes', num') := close_nodes_step cur_time pk sa_family is_LAN want_announce (nodes, num) c in
  closest_of (seen ++ [c]) nodes' num'.
Proof.
  intros K Hco Hc. unfold close_nodes_step.
  destruct (index_of_node_pk nodes (c_public_key c)) as [i|] eqn:Ei.
  { apply closest_of_skip; [done|]. intros Hs. apply index_of_Some in Ei as (l1 & n & l2 & E & _ & Hn & _).
    unfold pk_equal, bytes_eqb in Hn. apply bool_decide_eq_true in Hn. exists n. split; [|done].
    destruct Hco as [Hnum (got & Eg & Hlen & _)]. rewrite Eg, take_app_length' by (unfold zlen in Hlen; lia).
    assert (n ∈ nodes) as Hin by (rewrite E; apply elem_of_app; right; by left).
    rewrite Eg in Hin. apply elem_of_app in Hin as [?|Hin]; [done|].
    apply elem_of_replicate in Hin as [-> _]. destruct Hc as [_ Hz]. by destruct (Hz Hs). }
  cbv zeta. destruct (assoc_timeout _ _) eqn:E1.
  { apply closest_of_skip; [done|]. unfold sendable. by rewrite E1. }
  destruct (ip_is_lan _ && negb is_LAN) eqn:E2.
  { apply closest_of_skip; [done|]. unfold sendable. by rewrite E1, E2. }
  destruct (want_announce && _) eqn:E3.
  { apply closest_of_skip; [done|]. unfold sendable. by rewrite E1, E2, E3. }
  assert (sendable c = true) as Hs by (unfold sendable; by rewrite E1, E2, E3).
  destruct (num <? MAX_SENT_NODES) eqn:E4; [apply closest_of_append; (done || lia)|].
  replace num with MAX_SENT_NODES in * by (destruct Hco; lia). by apply closest_of_replace.
Qed.

Lemma closest_of_fold l : ∀ seen nodes num,
  key_ok pk → closest_of seen nodes num → Forall client_key_ok l →
  let '(nodes', num') := foldl (close_nodes_step cur_time pk sa_family is_LAN want_announce) (nodes, num) l in
  closest_of (seen ++ l) nodes' num'.
Proof.
  induction l as [|c l IH]; intros seen nodes num K Hco Hl; cbn [foldl]; [by rewrite app_nil_r|].
  inversion Hl; subst. pose proof (closest_of_step seen nodes num c K Hco) as Hs.
  destruct close_nodes_step as [nodes' num']. rewrite cons_middle, app_assoc. apply IH; auto.
Qed.

Definition family_supported : bool :=
  net_family_is_ipv4 sa_family || net_family_is_ipv6 sa_family || net_family_is_unspec sa_family.

Lemma closest_of_all close friends : ∀ seen nodes num,
  key_ok pk → family_supported = true → closest_of seen nodes num → Forall (Forall client_key_ok) (close :: friends) →
  let inner l st := get_close_nodes_inner cur_time pk sa_family is_LAN want_announce l st in
  let '(nodes', num') := foldl (λ st l, inner l st) (inner close (nodes, num)) friends in
  closest_of (seen ++ close ++ concat friends) nodes' num'.
Proof.
  intros seen nodes num K Hfam. cbv zeta. revert close seen nodes num.
  assert (∀ l st, get_close_nodes_inner cur_time pk sa_family is_LAN want_announce l st
    = foldl (close_nodes_step cur_time pk sa_family is_LAN want_announce) st l) as Ein.
  { intros l st. unfold get_close_nodes_inner, family_supported in *.
    by replace (_ && _ && _) with false by (destruct net_family_is_ipv4, net_family_is_ipv6, net_family_is_unspec; done). }
  induction friends as [|f friends IH]; intros close seen nodes num Hco Hok; cbn [foldl concat];
    apply list.Forall_cons in Hok as [Hclose Hfr];
    pose proof (closest_of_fold close seen nodes num K Hco Hclose) as H; rewrite (Ein close);
    destruct foldl as [nodes' num']; [by rewrite app_nil_r|].
  specialize (IH f (seen ++ close) nodes' num' H Hfr). rewrite <- app_assoc in IH. exact IH.
Qed.
End close_nodes.

(** C19: [get_close_nodes] finds the closest nodes.  Of all clients of the close
    list and of the friends' lists that may be sent (their address is alive, is
    not a LAN address unless LAN addresses are wanted, and they are announce
    nodes if those are wanted), it returns up to four with distinct keys, each
    with the address stored for it, and every client that is left out is
    farther from the key than all four that are returned. *)
Theorem get_close_nodes_closest cur_time close friends pk sa_family is_LAN want_announce nodes num :
  key_ok pk → family_supported sa_family = true →
  Forall (Forall (client_key_ok cur_time sa_family is_LAN want_announce)) (close :: friends) →
  get_close_nodes cur_time close friends pk sa_family is_LAN want_announce = (nodes, num) →
  let got := take (Z.to_nat num) nodes in
  let all := close ++ concat friends in
  let ok := sendable cur_time sa_family is_LAN want_announce in
  zlen got = num ∧ num <= MAX_SENT_NODES ∧ NoDup (nf_public_key <$> got) ∧
  (∀ n, n ∈ got → ∃ c, c ∈ all ∧ ok c = true ∧ n = sent_node sa_family c) ∧
  (∀ c, c ∈ all → ok c = true → c_public_key c ∈ nf_public_key <$> got ∨
     (num = MAX_SENT_NODES ∧ ∀ n, n ∈ got → distance pk (nf_public_key n) < distance pk (c_public_key c))).
Proof.
  intros K Hfam Hok E. cbv zeta.
  set (start := replicate (Z.to_nat MAX_SENT_NODES) empty_node_format).
  assert (closest_of cur_time pk sa_family is_LAN want_announce [] start 0) as Hb.
  { split; [done|]. exists []. split_and!; try done; [by apply list.NoDup_nil|]. intros c Hc. by apply elem_of_nil in Hc. }
  pose proof (closest_of_all cur_time pk sa_family is_LAN want_announce close friends [] start 0 K Hfam Hb Hok) as H.
  unfold get_close_nodes, get_somewhat_close_nodes in E. cbv beta zeta in H, E. fold start in E. rewrite E in H.
  destruct H as [Hnum (got & -> & Hlen & Hnd & _ & Hfrom & Hall)].
  rewrite take_app_length' by (unfold zlen in Hlen; lia). rewrite list.Forall_forall in Hfrom.
  split_and!; [done|lia|done|done|]. intros c Hc Hs. destruct (Hall c Hc Hs) as [?|[? Hf]]; [by left|right].
  split; [done|]. rewrite list.Forall_forall in Hf. exact Hf.
Qed.

(** ** Replacing the worst client *)

(** How bad a client is for the key [comp]: its distance, and more than any
    distance when it is dead. *)
Definition badness (cur_time : Z) (comp : bytes) (c : Client_data) : Z :=
  if client_dead cur_time c then 2 ^ 256 else distance comp (c_public_key c).

Definition client_pk_ok (c : Client_data) : Prop := key_ok (c_public_key c).

Lemma distance_256 a b : key_ok a → key_ok b → 0 <= distance a b < 2 ^ 256.
Proof.
  intros [La Ha] [Lb Hb]. pose proof (distance_range a b Ha Hb) as H. rewrite La in H.
  apply H. unfold zlen in *. lia.
Qed.

(** The comparison of [qsort] puts worse clients first. *)
Lemma dht_cmp_entry_spec cur_time comp e1 e2 : key_ok comp → client_pk_ok e1 → client_pk_ok e2 →
  dht_cmp_entry cur_time comp e1 e2 = Z.sgn (badness cur_time comp e2 - badness cur_time comp e1).
Proof.
  intros K K1 K2. unfold dht_cmp_entry, badness. pose proof (distance_256 _ _ K K1). pose proof (distance_256 _ _ K K2).
  destruct (client_dead cur_time e1), (client_dead cur_time e2); cbn [andb]; try lia.
  destruct (id_closest_cases comp (c_public_key e1) (c_public_key e2) K K1 K2) as [[-> ?]|[[-> ?]|(-> & _ & ?)]];
    cbn [Z.eqb Pos.eqb]; lia.
Qed.

Lemma store_node_ok_spec cur_time comp pk c : key_ok comp → key_ok pk → client_pk_ok c →
  store_node_ok c cur_time pk comp = (distance comp pk <? badness cur_time comp c).
Proof.
  intros K Kp Kc. unfold store_node_ok, badness. pose proof (distance_256 _ _ K Kp).
  destruct (client_dead cur_time c); cbn [orb]; [lia|].
  destruct (id_closest_cases comp (c_public_key c) pk K Kc Kp) as [[-> ?]|[[-> ?]|(-> & _ & ?)]]; lia.
Qed.

Abbreviation worse_first cur_time comp :=
  (λ a b, badness cur_time comp b <= badness cur_time comp a).

(** Sorting by a comparison that orders by [bad], the worst first. *)
Lemma qsort_by {Q : Qsort} {L : QsortLaws Q} {A} (cmp : A → A → Z) (bad : A → Z) l :
  (∀ x y, x ∈ l → y ∈ l → cmp x y = Z.sgn (bad y - bad x)) →
  qsort cmp l ≡ₚ l ∧ StronglySorted (λ x y, bad y <= bad x) (qsort cmp l).
Proof.
  intros Hc. assert (qsort cmp l ≡ₚ l) as Hp by apply qsort_perm. split; [done|].
  assert (StronglySorted (λ x y, cmp x y <= 0) (qsort cmp l)) as Hs.
  { apply qsort_sorted.
    - intros x y Hx Hy. rewrite !Hc by done. lia.
    - intros x y z Hx Hy Hz. rewrite !Hc by done. lia. }
  assert (Forall (λ x, x ∈ l) (qsort cmp l)) as Hin by (rewrite list.Forall_forall; intros x; by rewrite Hp).
  clear Hp. induction Hs as [|x s Hs IH Hx]; [constructor|]. inversion Hin; subst.
  constructor; [by apply IH|]. rewrite list.Forall_forall in *. intros y Hy.
  specialize (Hx y Hy). rewrite Hc in Hx by auto. lia.
Qed.

Lemma sort_client_list_spec {Q : Qsort} {L : QsortLaws Q} cur_time comp l :
  key_ok comp → Forall client_pk_ok l →
  sort_client_list true l cur_time comp ≡ₚ l ∧
  StronglySorted (worse_first cur_time comp) (sort_client_list true l cur_time comp).
Proof.
  intros K Kl. rewrite list.Forall_forall in Kl. apply (qsort_by _ (badness cur_time comp)).
  intros x y Hx Hy. apply dht_cmp_entry_spec; auto.
Qed.

(** [replace_all] keeps the best clients around a friend's key.  When it
    stores a node, it drops a client that is at least as bad as every other one
    (dead, or the farthest) and worse than the new node, keeps all others, and
    leaves them sorted behind the new one.  When it refuses a node whose
    address it could store, and the clients behind the first one are sorted,
    every client is alive and none is farther from the friend than the node. *)
Theorem replace_all_keeps_best {Q : Qsort} (L : QsortLaws Q) cur_time now l pk ip_port comp stored l' :
  key_ok comp → key_ok pk → Forall client_pk_ok l → (2 <= length l)%nat →
  (ipp_family ip_port = TOX_AF_INET ∨ ipp_family ip_port = TOX_AF_INET6) →
  replace_all true cur_time now l pk ip_port comp = (stored, l') →
  (stored = true → ∃ victim rest,
     l ≡ₚ victim :: rest ∧
     l' = update_client_with_reset now (victim <| c_public_key := pk |>) ip_port :: rest ∧
     Forall (λ c, badness cur_time comp c <= badness cur_time comp victim) rest ∧
     distance comp pk < badness cur_time comp victim ∧
     StronglySorted (worse_first cur_time comp) rest) ∧
  (stored = false → l' = l ∧
     (StronglySorted (worse_first cur_time comp) (tail l) →
      Forall (λ c, client_dead cur_time c = false ∧ distance comp (c_public_key c) <= distance comp pk) l)).
Proof.
  intros K Kp Kl Hlen Hfam. destruct l as [|c0 [|c1 l]]; [simpl in Hlen; lia..|].
  unfold replace_all. replace (_ && negb (net_family_is_ipv6 _)) with false by (destruct Hfam as [-> | ->]; done).
  unfold client_at at 1 2. cbn [lookup list_lookup from_option id].
  inversion Kl as [|? ? K0 Kl']; subst. inversion Kl' as [|? ? K1 Kl'']; subst.
  rewrite !store_node_ok_spec by done.
  destruct (negb _ && negb _) eqn:E; intros [= <- <-]; (split; [|done]) || (split; [done|]).
  - intros _. split; [done|]. cbn [tail]. intros Hs. inversion Hs as [|? ? _ Hf]; subst.
    pose proof (distance_256 _ _ K Kp).
    assert (∀ c, badness cur_time comp c <= distance comp pk →
      client_dead cur_time c = false ∧ distance comp (c_public_key c) <= distance comp pk) as Hb.
    { intros c. unfold badness. destruct client_dead; [lia|done]. }
    constructor; [apply Hb; lia|]. constructor; [apply Hb; lia|].
    eapply list.Forall_impl; [exact Hf|]. intros c Hc. apply Hb. cbn beta in Hc. lia.
  - intros _. destruct (sort_client_list_spec (Q := Q) cur_time comp (c0 :: c1 :: l) K Kl) as [Hp Hs].
    destruct (sort_client_list true _ _ _) as [|victim rest] eqn:Es; [by apply Permutation_nil_cons in Hp|].
    exists victim, rest. inversion Hs as [|? ? Hs' Hf]; subst. split_and!; [by rewrite Hp|done|done| |done].
    assert (∀ c, c ∈ c0 :: c1 :: l → badness cur_time comp c <= badness cur_time comp victim) as Hmax.
    { intros c Hc. rewrite <- Hp in Hc. apply elem_of_cons in Hc as [->|Hc]; [lia|].
      rewrite list.Forall_forall in Hf. by apply Hf. }
    pose proof (Hmax c0 ltac:(by left)). pose proof (Hmax c1 ltac:(right; by left)). lia.
Qed.

(** ** Witnesses *)

(** A stable insertion sort is a [qsort]. *)
Fixpoint insert_by {A} (cmp : A → A → Z) (x : A) (l : list A) : list A :=
  match l with
  | [] => [x]
  | y :: l' => if cmp x y <=? 0 then x :: y :: l' else y :: insert_by cmp x l'
  end.

#[export] Instance isort : Qsort | 10 := λ A cmp l, foldr (insert_by cmp) [] l.

Lemma insert_by_perm {A} (cmp : A → A → Z) x l : insert_by cmp x l ≡ₚ x :: l.
Proof.
  induction l as [|y l IH]; simpl; [done|]. cases; [done|]. rewrite IH. apply Permutation_swap.
Qed.

Lemma insert_by_sorted {A} (cmp : A → A → Z) x l :
  (∀ y z, y ∈ x :: l → z ∈ x :: l → 0 < cmp y z → cmp z y < 0) →
  (∀ y z w, y ∈ x :: l → z ∈ x :: l → w ∈ x :: l → cmp y z <= 0 → cmp z w <= 0 → cmp y w <= 0) →
  StronglySorted (λ y z, cmp y z <= 0) l → StronglySorted (λ y z, cmp y z <= 0) (insert_by cmp x l).
Proof.
  intros Hanti Htrans Hs. induction Hs as [|y l Hs IH Hy]; simpl; [by repeat constructor|].
  destruct (cmp x y <=? 0) eqn:E.
  - constructor; [by constructor|]. constructor; [lia|]. rewrite list.Forall_forall in *. intros z Hz.
    apply (Htrans x y z); [by left|right; by left|right; by right|lia|by apply Hy].
  - constructor.
    + apply IH.
      * intros a b Ha Hb. apply Hanti; rewrite elem_of_cons in *; set_solver.
      * intros a b c Ha Hb Hc. apply Htrans; rewrite elem_of_cons in *; set_solver.
    + rewrite insert_by_perm. constructor; [|done].
      assert (cmp y x < 0); [|lia]. apply Hanti; [by left|right; by left|lia].
Qed.

Lemma isort_laws : QsortLaws isort.
Proof.
  assert (∀ A (cmp : A → A → Z) l, foldr (insert_by cmp) [] l ≡ₚ l) as Hp.
  { intros A cmp l. induction l as [|x l IH]; simpl; [done|]. by rewrite insert_by_perm, IH. }
  split; unfold qsort, isort; [exact Hp|].
  intros A cmp l. induction l as [|x l IH]; intros Hanti Htrans; simpl; [constructor|].
  apply insert_by_sorted.
  - intros y z. rewrite Hp. apply Hanti.
  - intros y z w. rewrite Hp. apply Htrans.
  - apply IH.
    + intros y z Hy Hz. apply Hanti; by right.
    + intros y z w Hy Hz Hw. apply Htrans; by right.
Qed.

(** Five alive clients whose keys differ in the last byte. *)
Definition sample_client (b : Z) : Client_data :=
  mkClient (replicate 31 7 ++ [b])
    (empty_ipptspng <| a_ip_port := mkIPPort (mkIP TOX_AF_INET ([1; 2; 3; b] ++ zeros 12)) 4 |> <| a_timestamp := 1000 |>)
    empty_ipptspng false.

Lemma key_sample b : is_u8 b → key_ok (replicate 31 7 ++ [b]).
Proof.
  intros. split; [unfold zlen; rewrite length_app, length_replicate; done|].
  apply Forall_app. split; [apply Forall_replicate; unfold is_u8; lia|by apply Forall_singleton].
Qed.

Lemma get_close_nodes_closest_witness :
  let '(nodes, num) := get_close_nodes 1001 (sample_client <$> [9; 17; 33; 65; 129]) [] (replicate 32 7) 0 true false in
  num = 4 ∧ distance (replicate 32 7) (nf_public_key (aget empty_node_format nodes 0)) < distance (replicate 32 7) (replicate 31 7 ++ [129]).
Proof.
  destruct (get_close_nodes _ _ _ _ _ _ _) as [nodes num] eqn:E.
  assert (client_key_ok 1001 0 true false (sample_client 129)) as H129.
  { split; [apply key_sample; unfold is_u8; lia|vm_compute; done]. }
  destruct (get_close_nodes_closest 1001 (sample_client <$> [9; 17; 33; 65; 129]) [] (replicate 32 7) 0 true false nodes num)
    as (_ & _ & _ & _ & H).
  - apply (key_sample 7). unfold is_u8. lia.
  - reflexivity.
  - constructor; [|constructor]. repeat constructor; try (vm_compute; done);
      try (apply Forall_replicate; unfold is_u8; lia); unfold is_u8; lia.
  - exact E.
  - vm_compute in E. injection E as <- <-. split; [reflexivity|].
    destruct (H (sample_client 129)) as [Hin|[_ Hall]].
    + apply elem_of_app. left. cbn. set_solver.
    + reflexivity.
    + exfalso. revert Hin. apply (bool_decide_eq_false_1 _). vm_compute. reflexivity.
    + apply Hall. vm_compute. by left.
Defined.

Lemma replace_all_keeps_best_witness :
  let l := sample_client <$> [9; 17; 33] in
  let new := mkIPPort (mkIP TOX_AF_INET ([9; 9; 9; 9] ++ zeros 12)) 5 in
  (replace_all true 1001 1002 l (replicate 31 7 ++ [5]) new (replicate 32 7)).1 = true ∧
  ∃ victim rest, l ≡ₚ victim :: rest ∧ distance (replicate 32 7) (replicate 31 7 ++ [5]) < badness 1001 (replicate 32 7) victim.
Proof.
  intros l new. destruct (replace_all _ _ _ _ _ _ _) as [stored l'] eqn:E.
  assert (stored = true) as -> by (vm_compute in E; by injection E).
  split; [reflexivity|].
  destruct (replace_all_keeps_best isort_laws 1001 1002 l (replicate 31 7 ++ [5]) new (replicate 32 7) true l') as [H _].
  - apply (key_sample 7). unfold is_u8. lia.
  - apply key_sample. unfold is_u8. lia.
  - repeat constructor; unfold is_u8; lia.
  - cbn. lia.
  - by left.
  - exact E.
  - destruct (H eq_refl) as (victim & rest & Hp & _ & _ & Hd & _). by exists victim, rest.
Defined.
