(* ===== verification/World.v ===== *)
(** * World: the random numbers and the socket a component works with

    The random number generator is a supply of numbers that every draw moves on
    by one; the socket of [toxcore/network.c] is the list of the packets handed
    to it, with a system call that answers each of them.  What the generator
    supplies and what the system answers is arbitrary. *)
From S2P Require Import Prelude CryptoCore Network.

(** ** Stateful code *)

(** Code that reads and changes a state of type [S]. *)
Definition ST (S A : Type) : Type := S → A * S.

#[export] Instance M_ret {S} : MRet (ST S) := λ A x s, (x, s).
#[export] Instance M_bind {S} : MBind (ST S) := λ A B f m s, let '(x, s) := m s in f x s.

Definition act {S A} (f : S → A * S) : ST S A := f.
Definition get {S A} (f : S → A) : ST S A := λ s, (f s, s).
Definition modify {S} (f : S → S) : ST S unit := λ s, (tt, f s).

(** Runs [f] on every element in order. *)
Fixpoint for_each {S A} (l : list A) (f : A → ST S unit) : ST S unit :=
  match l with
  | [] => mret tt
  | x :: l' => f x;; for_each l' f
  end.

Lemma run_bind {S A B} (m : ST S A) (f : A → ST S B) d x d' : m d = (x, d') → (m ≫= f) d = f x d'.
Proof. unfold mbind, M_bind. by intros ->. Qed.

Lemma run_get {S A B} (g : S → A) (f : A → ST S B) d : (get g ≫= f) d = f (g d) d.
Proof. done. Qed.

Lemma run_modify {S B} (g : S → S) (f : unit → ST S B) d : (modify g ≫= f) d = f tt (g d).
Proof. done. Qed.

(** Runs the first action of the goal with an equation for it. *)
Ltac run E := rewrite (run_bind _ _ _ _ _ E); cbv beta.

(** [m] leaves what [f] reads of the state as it is. *)
Definition frame {S X A} (f : S → X) (m : ST S A) : Prop := ∀ d, f (m d).2 = f d.

Lemma frame_ret {S X A} (f : S → X) (x : A) : frame f (mret x).
Proof. done. Qed.
Lemma frame_bind {S X A B} (f : S → X) (m : ST S A) (g : A → ST S B) :
  frame f m → (∀ x, frame f (g x)) → frame f (m ≫= g).
Proof. intros Hm Hg d. unfold mbind, M_bind. rewrite <- (Hm d). destruct (m d). apply Hg. Qed.
Lemma frame_get {S X A} (f : S → X) (g : S → A) : frame f (get g).
Proof. done. Qed.
Lemma frame_for_each {S X A} (f : S → X) (l : list A) g : (∀ x, frame f (g x)) → frame f (for_each l g).
Proof. intros Hg. induction l as [|x l IH]; cbn [for_each]; [done|]. by apply frame_bind. Qed.

(** ** Random numbers *)

Record Random := mkRandom {
  rng_drawn : nat;                  (** the number of draws so far *)
  rng_bytes : nat → Z → bytes;      (** the bytes of a draw, by their number *)
  rng_uniform : nat → Z → Z;        (** a number below a bound *)
  rng_keypair : nat → bytes * bytes (** public and secret key *)
}.

#[export] Instance eta_Random : Eta Random := λ r,
  mkRandom (rng_drawn r) (rng_bytes r) (rng_uniform r) (rng_keypair r).

Definition rng_next (r : Random) : Random := r <| rng_drawn := S (rng_drawn r) |>.

(** [len] bytes, whatever the supply holds. *)
Definition random_bytes (r : Random) (len : Z) : bytes * Random :=
  (take (Z.to_nat len) (u8 <$> rng_bytes r (rng_drawn r) len ++ zeros len), rng_next r).

Definition random_nonce (r : Random) : bytes * Random := random_bytes r CRYPTO_NONCE_SIZE.

Definition random_u08 (r : Random) : Z * Random :=
  let '(b, r) := random_bytes r 1 in (le_val b, r).
Definition random_u16 (r : Random) : Z * Random :=
  let '(b, r) := random_bytes r 2 in (le_val b, r).
Definition random_u32 (r : Random) : Z * Random :=
  let '(b, r) := random_bytes r 4 in (le_val b, r).
Definition random_u64 (r : Random) : Z * Random :=
  let '(b, r) := random_bytes r 8 in (le_val b, r).

(** A number below [upper_bound], 0 when that is 0. *)
Definition random_range_u32 (r : Random) (upper_bound : Z) : Z * Random :=
  (if upper_bound =? 0 then 0 else rng_uniform r (rng_drawn r) upper_bound mod upper_bound, rng_next r).

Definition crypto_new_keypair (r : Random) : bytes * bytes * Random :=
  let '(pk, sk) := rng_keypair r (rng_drawn r) in
  (take 32 (u8 <$> pk ++ zeros 32), take 32 (u8 <$> sk ++ zeros 32), rng_next r).

Lemma random_bytes_ok r len b r' : 0 <= len → random_bytes r len = (b, r') → zlen b = len ∧ bytes_ok b.
Proof.
  unfold random_bytes. intros Hl [= <- _]. split.
  - unfold zlen. rewrite length_take, length_fmap, length_app, length_zeros. lia.
  - apply Forall_take, Forall_fmap, Forall_true. intros x. apply u8_range.
Qed.

Lemma random_nonce_ok r n r' : random_nonce r = (n, r') → zlen n = 24 ∧ bytes_ok n.
Proof. apply random_bytes_ok. done. Qed.

Lemma random_u64_ok r x r' : random_u64 r = (x, r') → is_u64 x.
Proof.
  unfold random_u64. destruct (random_bytes r 8) as [b r1] eqn:E. intros [= <- _].
  apply random_bytes_ok in E as [Hl Hb]; [|lia]. apply le_val_range in Hb. by rewrite Hl in Hb.
Qed.

(** ** The socket *)

Record Networking_Core := mkNet {
  net_family : Z;
  net_log : list (IP_Port * bytes);  (** the packets of the calls of [sendto], oldest first *)
  net_sendto : nat → Z               (** the result of each call *)
}.

#[export] Instance eta_Networking_Core : Eta Networking_Core := λ n,
  mkNet (net_family n) (net_log n) (net_sendto n).

(** An IPv4 address on an IPv6 socket. *)
Definition v4_in_v6 (p : IP_Port) : IP_Port :=
  mkIPPort (mkIP TOX_AF_INET6 (zeros 10 ++ [255; 255] ++ slice 0 4 (ip_addr (ipp_ip p)))) (ipp_port p).

Definition send_packet (net : Networking_Core) (ip_port : IP_Port) (data : bytes) : Z * Networking_Core :=
  let family := ip_family (ipp_ip ip_port) in
  if net_family_is_unspec family then (-1, net)
  else if net_family_is_unspec (net_family net) then (-1, net)
  else if net_family_is_ipv4 (net_family net) && negb (net_family_is_ipv4 family) then (-1, net)
  else
    let ipp_copy :=
      if net_family_is_ipv4 family && net_family_is_ipv6 (net_family net) then v4_in_v6 ip_port else ip_port in
    if net_family_is_ipv4 (ip_family (ipp_ip ipp_copy)) || net_family_is_ipv6 (ip_family (ipp_ip ipp_copy)) then
      (net_sendto net (length (net_log net)), net <| net_log := net_log net ++ [(ipp_copy, data)] |>)
    else (-1, net).

Definition sendpacket (net : Networking_Core) (ip_port : IP_Port) (data : bytes) : Z * Networking_Core :=
  send_packet net ip_port data.

(** Where a packet for an address goes on a socket for both families. *)
Definition wire_dest (p : IP_Port) : IP_Port := if net_family_is_ipv4 (ip_family (ipp_ip p)) then v4_in_v6 p else p.

Lemma send_dual net p data : net_family net = TOX_AF_INET6 →
  ip_family (ipp_ip p) = TOX_AF_INET ∨ ip_family (ipp_ip p) = TOX_AF_INET6 →
  sendpacket net p data =
    (net_sendto net (length (net_log net)), net <| net_log := net_log net ++ [(wire_dest p, data)] |>).
Proof.
  intros Hn Hf. unfold sendpacket, send_packet, wire_dest. rewrite Hn. destruct Hf as [E|E]; rewrite E; cbn; by rewrite ?E.
Qed.

(** A socket for both families that accepts every packet. *)
Definition sample_net : Networking_Core := mkNet TOX_AF_INET6 [] (λ _, 1).
Definition sample_rng : Random :=
  mkRandom 0 (λ n len, replicate (Z.to_nat len) (Z.of_nat n + 1)) (λ n b, Z.of_nat n)
    (λ n, (replicate 32 (Z.of_nat n + 100), replicate 32 (Z.of_nat n + 50))).
