(* ===== verification/Steps.v ===== *)
(** * Steps: assertions about code with a state

    An assertion that code keeps, and one that it leads to, with the rules to put
    them together along the code. *)
From S2P Require Import Prelude World.

(** ** Keeping an assertion *)

Definition keeps {S A} (P : S → Prop) (m : ST S A) : Prop := ∀ s, P s → P (m s).2.

Section keeps.
Context {S : Type} (P : S → Prop).

Lemma mk_ret {A} (x : A) : keeps P (mret x).
Proof. intros s Hs. exact Hs. Qed.
Lemma mk_bind {A B} (m : ST S A) (f : A → ST S B) : keeps P m → (∀ x, keeps P (f x)) → keeps P (m ≫= f).
Proof. intros Hm Hf s Hs. unfold mbind, M_bind. specialize (Hm s Hs). destruct (m s) as [x s']. by apply Hf. Qed.
Lemma mk_get {A} (g : S → A) : keeps P (get g).
Proof. intros s Hs. exact Hs. Qed.
(** The value read comes from a state with the assertion. *)
Lemma mk_read {A B} (g : S → A) (f : A → ST S B) : (∀ s0, P s0 → keeps P (f (g s0))) → keeps P (get g ≫= f).
Proof. intros H s Hs. exact (H s Hs s Hs). Qed.
Lemma mk_modify g : (∀ s, P s → P (g s)) → keeps P (modify g).
Proof. intros H s Hs. exact (H s Hs). Qed.
Lemma mk_each {A} (l : list A) (f : A → ST S unit) : (∀ x, x ∈ l → keeps P (f x)) → keeps P (for_each l f).
Proof.
  induction l as [|x l IH]; intros H; cbn [for_each]; [apply mk_ret|].
  apply mk_bind; [apply H; by left|]. intros _. apply IH. intros y Hy. apply H. by right.
Qed.

End keeps.

(** Walks through the code; [tac] deals with the calls. *)
Ltac steps_with tac :=
  repeat first
    [ progress (cbv zeta)
    | lazymatch goal with
      | |- keeps _ (mret _) => apply mk_ret
      | |- keeps _ (get _) => apply mk_get
      | |- keeps _ (get _ ≫= _) => apply mk_bind; [apply mk_get|intros ?]
      | |- keeps _ (_ ≫= _) => apply mk_bind; [|intros ?]
      | |- keeps _ (if ?b then _ else _) => destruct b eqn:?
      | |- keeps _ (let '(_, _) := ?p in _) => destruct p eqn:?
      end
    | tac ].

(** ** From one assertion to another *)

Definition leads {S A} (P : S → Prop) (m : ST S A) (Q : A → S → Prop) : Prop := ∀ s, P s → Q (m s).1 (m s).2.

Section leads.
Context {S : Type}.

Lemma ld_ret {A} (P : S → Prop) (x : A) Q : (∀ s, P s → Q x s) → leads P (mret x) Q.
Proof. intros H s Hs. exact (H s Hs). Qed.
Lemma ld_bind {A B} P (m : ST S A) (f : A → ST S B) (Q : S → Prop) R : leads P m (λ _, Q) → (∀ x, leads Q (f x) R) → leads P (m ≫= f) R.
Proof. intros Hm Hf s Hs. unfold mbind, M_bind. specialize (Hm s Hs). destruct (m s) as [x s']. by apply Hf. Qed.
Lemma ld_seq {A B} P (m : ST S A) (f : A → ST S B) Q R : leads P m Q → (∀ x, leads (Q x) (f x) R) → leads P (m ≫= f) R.
Proof. intros Hm Hf s Hs. unfold mbind, M_bind. specialize (Hm s Hs). destruct (m s) as [x s']. by apply Hf. Qed.
Lemma ld_read {A B} P (g : S → A) (f : A → ST S B) R : (∀ s0, P s0 → leads P (f (g s0)) R) → leads P (get g ≫= f) R.
Proof. intros H s Hs. exact (H s Hs s Hs). Qed.
Lemma ld_keeps {A} P (m : ST S A) (R : S → Prop) : keeps P m → (∀ s, P s → R s) → leads P m (λ _, R).
Proof. intros H HR s Hs. by apply HR, H. Qed.
Lemma ld_weaken {A} (P P' : S → Prop) (m : ST S A) (Q Q' : A → S → Prop) :
  leads P m Q → (∀ s, P' s → P s) → (∀ x s, Q x s → Q' x s) → leads P' m Q'.
Proof. intros H HP HQ s Hs. by apply HQ, H, HP. Qed.
Lemma ld_bind_ret {A B} P (x : A) (f : A → ST S B) R : leads P (f x) R → leads P (mret x ≫= f) R.
Proof. intros H. exact H. Qed.

End leads.
