(* ===== verification/Dht.v ===== *)
(** * Dht: the state and the packet handlers of [toxcore/DHT.c] and [toxcore/ping.c]

    The DHT node: its lists of clients, the friends it searches, the pings it
    sent, and what it does with every packet it receives and on every round of
    its main loop.  The functions run in a state monad over the [DHT] structure,
    which holds the random number generator, the socket and the clock the C
    structure points at.  [alloc] says whether the allocator has memory.  Calls
    of the callbacks of friends and of [get_nodes_response] are appended to
    [dht_events]. *)
From stdpp Require Import sorting.
From S2P Require Import Prelude MonoTime CryptoCore SharedKeyCache PingArray Network LanDiscovery.
From S2P Require Import World DhtDistance DhtPackets DhtLists.

(** ** Constants *)

Definition GET_NODE_INTERVAL : Z := 20.
Definition MAX_PUNCHING_PORTS : Z := 48.
Definition PUNCH_INTERVAL : Z := 3.
Definition PUNCH_RESET_TIME : Z := 40.
Definition MAX_NORMAL_PUNCHING_TRIES : Z := 5.
Definition NAT_PING_REQUEST : Z := 0.
Definition NAT_PING_RESPONSE : Z := 1.
Definition MAX_BOOTSTRAP_TIMES : Z := 5.
Definition DHT_FRIEND_MAX_LOCKS : Z := 32.
Definition DHT_FAKE_FRIEND_NUMBER : Z := 2.
Definition MAX_KEYS_PER_SLOT : Z := 4.
Definition KEYS_TIMEOUT : Z := 600.
Definition DHT_PING_ARRAY_SIZE : Z := 512.
Definition CRYPTO_PACKET_NAT_PING : Z := 254.
Definition NET_PACKET_PING_REQUEST : Z := 0.
Definition NET_PACKET_PING_RESPONSE : Z := 1.
Definition NET_PACKET_GET_NODES : Z := 2.
Definition NET_PACKET_SEND_NODES_IPV6 : Z := 4.
Definition NET_PACKET_DATA_SEARCH_REQUEST : Z := 147.
Definition CRYPTO_NODE_SIZE : Z := CRYPTO_PUBLIC_KEY_SIZE + 8.

(** [sizeof(IP_Port)] and [sizeof(Node_format)]: the family byte, the union
    aligned to eight bytes and the port, padded to eight bytes. *)
Definition SIZEOF_IP_PORT : Z := 32.
Definition SIZEOF_NODE_FORMAT : Z := CRYPTO_PUBLIC_KEY_SIZE + SIZEOF_IP_PORT.

Definition PING_NUM_MAX : Z := 512.
Definition MAX_TO_PING : Z := 32.
Definition TIME_TO_PING : Z := 2.
Definition PING_PLAIN_SIZE : Z := 1 + 8.
Definition DHT_PING_SIZE : Z := 1 + CRYPTO_PUBLIC_KEY_SIZE + CRYPTO_NONCE_SIZE + PING_PLAIN_SIZE + CRYPTO_MAC_SIZE.
Definition PING_DATA_SIZE : Z := CRYPTO_PUBLIC_KEY_SIZE + SIZEOF_IP_PORT.

(** ** State *)

Record NAT := mkNAT {
  hole_punching : bool;
  punching_index : Z;
  tries : Z;
  punching_index2 : Z;
  punching_timestamp : Z;
  recv_nat_ping_timestamp : Z;
  nat_ping_id : Z;
  nat_ping_timestamp : Z
}.

#[export] Instance eta_NAT : Eta NAT := λ n,
  mkNAT (hole_punching n) (punching_index n) (tries n) (punching_index2 n) (punching_timestamp n)
    (recv_nat_ping_timestamp n) (nat_ping_id n) (nat_ping_timestamp n).

(** A callback is known by a number; [None] is the null pointer. *)
Record DHT_Friend_Callback := mkCallback {
  cb_ip_callback : option Z;
  cb_data : Z;
  cb_number : Z
}.

Definition empty_callback : DHT_Friend_Callback := mkCallback None 0 0.

Record DHT_Friend := mkFriend {
  f_public_key : bytes;
  f_client_list : list Client_data;
  f_lastgetnode : Z;
  f_bootstrap_times : Z;
  f_nat : NAT;
  f_lock_flags : Z;
  f_callbacks : list DHT_Friend_Callback;
  f_to_bootstrap : list Node_format;
  f_num_to_bootstrap : Z
}.

#[export] Instance eta_DHT_Friend : Eta DHT_Friend := λ f,
  mkFriend (f_public_key f) (f_client_list f) (f_lastgetnode f) (f_bootstrap_times f) (f_nat f) (f_lock_flags f)
    (f_callbacks f) (f_to_bootstrap f) (f_num_to_bootstrap f).

Definition empty_nat : NAT := mkNAT false 0 0 0 0 0 0 0.

Definition empty_dht_friend : DHT_Friend :=
  mkFriend (zeros CRYPTO_PUBLIC_KEY_SIZE) (replicate (Z.to_nat MAX_FRIEND_CLIENTS) empty_client) 0 0 empty_nat 0
    (replicate (Z.to_nat DHT_FRIEND_MAX_LOCKS) empty_callback)
    (replicate (Z.to_nat MAX_SENT_NODES) empty_node_format) 0.

(** The structure of [ping.c]. *)
Record Ping := mkPing {
  p_ping_array : Ping_Array;
  p_to_ping : list Node_format;
  p_last_to_ping : Z
}.

#[export] Instance eta_Ping : Eta Ping := λ p, mkPing (p_ping_array p) (p_to_ping p) (p_last_to_ping p).

(** What the code calls back: the callback of a friend with its data and number
    and an address, or [get_nodes_response] with a node. *)
Inductive Event :=
| IpCallback (callback data number : Z) (ip_port : IP_Port)
| GetNodesResponse (node : Node_format).

(** [num_friends] is the length of [dht_friends_list]; its 16 bits hold it as long as
    there are fewer than 65536 friends. *)
Record DHT := mkDHT {
  dht_mono_time : Mono_Time;
  dht_rng : Random;
  dht_net : Networking_Core;
  dht_hole_punching_enabled : bool;
  dht_lan_discovery_enabled : bool;
  dht_close_clientlist : list Client_data;
  dht_close_lastgetnodes : Z;
  dht_close_bootstrap_times : Z;
  dht_self_public_key : bytes;
  dht_self_secret_key : bytes;
  dht_friends_list : list DHT_Friend;
  dht_loaded_nodes_list : option (list Node_format);  (** the first [loaded_num_nodes]; [None] is the null pointer *)
  dht_loaded_nodes_index : Z;
  dht_shared_keys_recv : Shared_Key_Cache;
  dht_shared_keys_sent : Shared_Key_Cache;
  dht_ping : Ping;
  dht_ping_array : Ping_Array;
  dht_cur_time : Z;
  dht_to_bootstrap : list Node_format;
  dht_num_to_bootstrap : Z;
  dht_get_nodes_response : bool;   (** whether a callback is registered *)
  dht_events : list Event
}.

#[export] Instance eta_DHT : Eta DHT := λ d,
  mkDHT (dht_mono_time d) (dht_rng d) (dht_net d) (dht_hole_punching_enabled d) (dht_lan_discovery_enabled d)
    (dht_close_clientlist d) (dht_close_lastgetnodes d) (dht_close_bootstrap_times d) (dht_self_public_key d)
    (dht_self_secret_key d) (dht_friends_list d) (dht_loaded_nodes_list d) (dht_loaded_nodes_index d)
    (dht_shared_keys_recv d) (dht_shared_keys_sent d) (dht_ping d) (dht_ping_array d) (dht_cur_time d)
    (dht_to_bootstrap d) (dht_num_to_bootstrap d) (dht_get_nodes_response d) (dht_events d).

(** ** The monad *)

Abbreviation M := (ST DHT).

(** Draws from the generator of the node. *)
Definition draw {A} (f : Random → A * Random) : M A := λ d,
  let '(x, r) := f (dht_rng d) in (x, d <| dht_rng := r |>).

Definition m_sendpacket (ip_port : IP_Port) (data : bytes) : M Z := λ d,
  let '(res, net) := sendpacket (dht_net d) ip_port data in (res, d <| dht_net := net |>).

Definition now : M Z := get (λ d, mono_time_get (dht_mono_time d)).

Definition friend_at (d : DHT) (i : nat) : DHT_Friend := default empty_dht_friend (dht_friends_list d !! i).
Definition set_friend (i : nat) (f : DHT_Friend → DHT_Friend) : M unit := modify (λ d,
  d <| dht_friends_list := alter f i (dht_friends_list d) |>).

(** The indices of the friends, [0] to [num_friends - 1]. *)
Definition friend_indices : M (list nat) := get (λ d, seq 0 (length (dht_friends_list d))).

Section dht.
Context {Sod : Sodium} {Q : Qsort} (alloc : bool).

(** ** Keys *)

(** The caches read the clock of the node. *)
Definition cache_at (time : Mono_Time) (c : Shared_Key_Cache) : Shared_Key_Cache :=
  mkCache (skc_keys c) (skc_self_secret_key c) (skc_timeout c) time (skc_keys_per_slot c).

Definition dht_get_shared_key_recv (public_key : bytes) : M (option bytes) := λ d,
  let '(k, c) := shared_key_cache_lookup (cache_at (dht_mono_time d) (dht_shared_keys_recv d)) public_key in
  (k, d <| dht_shared_keys_recv := c |>).

Definition dht_get_shared_key_sent (public_key : bytes) : M (option bytes) := λ d,
  let '(k, c) := shared_key_cache_lookup (cache_at (dht_mono_time d) (dht_shared_keys_sent d)) public_key in
  (k, d <| dht_shared_keys_sent := c |>).

(** [ping_array_add] and [ping_array_check] on the array of the DHT. *)
Definition m_ping_array_add (data : bytes) (length : Z) : M Z :=
  rnd ← if alloc then draw random_u64 else mret 0;
  act (λ d, let '(id, a) := ping_array_add (dht_ping_array d) (dht_mono_time d) rnd alloc data length in
            (id, d <| dht_ping_array := a |>)).

Definition m_ping_array_check (length ping_id : Z) : M (Z * bytes) := λ d,
  let '(len, data, a) := ping_array_check (dht_ping_array d) (dht_mono_time d) length ping_id in
  (len, data, d <| dht_ping_array := a |>).

(** The same on the array of [ping.c]. *)
Definition p_ping_array_add (data : bytes) (length : Z) : M Z :=
  rnd ← if alloc then draw random_u64 else mret 0;
  act (λ d, let '(id, a) := ping_array_add (p_ping_array (dht_ping d)) (dht_mono_time d) rnd alloc data length in
            (id, d <| dht_ping := (dht_ping d) <| p_ping_array := a |> |>)).

Definition p_ping_array_check (length ping_id : Z) : M (Z * bytes) := λ d,
  let '(len, data, a) := ping_array_check (p_ping_array (dht_ping d)) (dht_mono_time d) length ping_id in
  (len, data, d <| dht_ping := (dht_ping d) <| p_ping_array := a |> |>).
(** ** The close list *)

(** The bucket of a key in the close list. *)
Definition close_index (public_key self_public_key : bytes) : Z :=
  let index := bit_by_bit_cmp public_key self_public_key in
  if LCLIENT_LENGTH <=? index then LCLIENT_LENGTH - 1 else index.

Definition close_bucket (d : DHT) (public_key : bytes) : list Client_data :=
  let index := close_index public_key (dht_self_public_key d) in
  take (Z.to_nat LCLIENT_NODES) (drop (Z.to_nat (index * LCLIENT_NODES)) (dht_close_clientlist d)).

(** Writes the bucket back. *)
Definition set_close_bucket (d : DHT) (public_key : bytes) (bucket : list Client_data) : DHT :=
  let start := Z.to_nat (close_index public_key (dht_self_public_key d) * LCLIENT_NODES) in
  d <| dht_close_clientlist :=
    take start (dht_close_clientlist d) ++ bucket ++ drop (start + Z.to_nat LCLIENT_NODES) (dht_close_clientlist d) |>.

Definition set_announce_node (public_key : bytes) : M unit :=
  modify (λ d, set_close_bucket d public_key (set_announce_node_in_list (close_bucket d public_key) public_key));;
  ids ← friend_indices;
  for_each ids (λ i, set_friend i (λ f, f <| f_client_list := set_announce_node_in_list (f_client_list f) public_key |>)).

Definition send_announce_ping (public_key : bytes) (ip_port : IP_Port) : M bool :=
  '(search_key, _) ← draw (λ r, let '(pk, sk, r) := crypto_new_keypair r in (pk, sk, r));
  ping_id ← m_ping_array_add public_key CRYPTO_PUBLIC_KEY_SIZE;
  let plain := search_key ++ le_bytes 8 ping_id in
  shared_key ← dht_get_shared_key_sent public_key;
  nonce ← draw random_nonce;
  self ← get dht_self_public_key;
  let size := 1 + CRYPTO_PUBLIC_KEY_SIZE + CRYPTO_NONCE_SIZE + (CRYPTO_PUBLIC_KEY_SIZE + 8) + CRYPTO_MAC_SIZE in
  match dht_create_packet alloc alloc nonce self shared_key NET_PACKET_DATA_SEARCH_REQUEST plain
          (CRYPTO_PUBLIC_KEY_SIZE + 8) size with
  | None => mret false
  | Some request =>
      if negb (zlen request =? size) then mret false
      else res ← m_sendpacket ip_port request; mret (res =? size)
  end.

(** The loop of [add_to_close] over a bucket: the index of the first client
    without a living address. *)
Definition free_slot (cur_time : Z) (bucket : list Client_data) : option nat :=
  index_of (λ c, negb (negb (assoc_timeout cur_time (c_assoc4 c)) || negb (assoc_timeout cur_time (c_assoc6 c)))) bucket.

Definition add_to_close (public_key : bytes) (ip_port : IP_Port) (simulate : bool) : M bool :=
  bucket ← get (λ d, close_bucket d public_key);
  cur_time ← get dht_cur_time;
  match free_slot cur_time bucket with
  | None => mret false
  | Some i =>
      if simulate then mret true
      else
        t ← now;
        let client := (client_at bucket i) <| c_public_key := public_key |> in
        let client := (update_client_with_reset t client ip_port) <| c_announce_node := false |> in
        modify (λ d, set_close_bucket d public_key (<[i := client]> bucket));;
        send_announce_ping public_key ip_port;;
        mret true
  end.

Definition node_addable_to_close_list (public_key : bytes) (ip_port : IP_Port) : M bool :=
  add_to_close public_key ip_port true.

Definition is_pk_in_close_list (public_key : bytes) (ip_port : IP_Port) : M bool :=
  get (λ d, is_pk_in_client_list (close_bucket d public_key) (dht_cur_time d) public_key ip_port).

(** ** Friends and lists *)

Definition index_of_friend_pk (array : list DHT_Friend) (pk : bytes) : option nat :=
  index_of (λ f, pk_equal (f_public_key f) pk) array.

(** The lists [ping_node_from_getnodes_ok] adds a node to: appended while there
    is room, and displacing the farthest otherwise. *)
Definition add_to_bootstrap (nodes : list Node_format) (num max : Z) (public_key : bytes) (ip_port : IP_Port)
    (cmp_pk : bytes) : list Node_format * Z :=
  if num <? max then (aset nodes num (mkNode public_key ip_port), num + 1)
  else ((add_to_list nodes public_key ip_port cmp_pk).2, num).

(** The body of its loop over the friends: the friend after it, and whether the
    node was wanted. *)
Definition friend_wants_node (cur_time : Z) (public_key : bytes) (ip_port : IP_Port) (f : DHT_Friend) :
    bool * DHT_Friend :=
  let store_ok := store_node_ok (client_at (f_client_list f) 1) cur_time public_key (f_public_key f)
                  || store_node_ok (client_at (f_client_list f) 0) cur_time public_key (f_public_key f) in
  let index := index_of_node_pk (take (Z.to_nat (f_num_to_bootstrap f)) (f_to_bootstrap f)) public_key in
  let pk_in_list := is_pk_in_client_list (f_client_list f) cur_time public_key ip_port in
  match index with
  | None =>
      if store_ok && negb pk_in_list then
        let '(nodes, num) :=
          add_to_bootstrap (f_to_bootstrap f) (f_num_to_bootstrap f) MAX_SENT_NODES public_key ip_port (f_public_key f) in
        (true, f <| f_to_bootstrap := nodes |> <| f_num_to_bootstrap := num |>)
      else (false, f)
  | Some _ => (false, f)
  end.

Definition ping_node_from_getnodes_ok (public_key : bytes) (ip_port : IP_Port) : M bool :=
  ret ← add_to_close public_key ip_port true;
  in_close_list ← is_pk_in_close_list public_key ip_port;
  modify (λ d,
    match index_of_node_pk (take (Z.to_nat (dht_num_to_bootstrap d)) (dht_to_bootstrap d)) public_key with
    | None =>
        if ret && negb in_close_list then
          let '(nodes, num) :=
            add_to_bootstrap (dht_to_bootstrap d) (dht_num_to_bootstrap d) MAX_CLOSE_TO_BOOTSTRAP_NODES public_key
              ip_port (dht_self_public_key d) in
          d <| dht_to_bootstrap := nodes |> <| dht_num_to_bootstrap := num |>
        else d
    | Some _ => d
    end);;
  cur_time ← get dht_cur_time;
  friends ← get dht_friends_list;
  let res := friend_wants_node cur_time public_key ip_port <$> friends in
  modify (λ d, d <| dht_friends_list := res.*2 |>);;
  mret (ret || existsb id res.*1).

(** The body of the loop of [addto_lists] over the friends: whether the node is
    used, and the friend after it. *)
Definition addto_friend (cur_time t : Z) (ipp_copy : IP_Port) (public_key : bytes) (f : DHT_Friend) : bool * DHT_Friend :=
  let '(in_list, l) := client_or_ip_port_in_list t (f_client_list f) public_key ipp_copy in
  if in_list then (true, f <| f_client_list := l |>)
  else
    let '(stored, l) := replace_all alloc cur_time t l public_key ipp_copy (f_public_key f) in
    (stored, f <| f_client_list := l |>).

(** The callbacks of a friend whose address was found. *)
Definition friend_ip_callbacks (f : DHT_Friend) (ip_port : IP_Port) : list Event :=
  concat ((λ i,
    let cb := default empty_callback (f_callbacks f !! i) in
    let has_lock := 0 <? Z.land (f_lock_flags f) (Z.shiftl 1 (Z.of_nat i)) in
    match cb_ip_callback cb with
    | Some c => if has_lock then [IpCallback c (cb_data cb) (cb_number cb) ip_port] else []
    | None => []
    end) <$> seq 0 (Z.to_nat DHT_FRIEND_MAX_LOCKS)).

Definition addto_lists (ip_port : IP_Port) (public_key : bytes) : M Z :=
  let ipp_copy := ip_port_normalize ip_port in
  t ← now;
  in_close_list ← act (λ d,
    let '(found, l) := client_or_ip_port_in_list t (dht_close_clientlist d) public_key ipp_copy in
    (found, d <| dht_close_clientlist := l |>));
  used0 ← (if in_close_list : bool then mret 1
           else added ← add_to_close public_key ipp_copy false; mret (if negb added then 1 else 0));
  cur_time ← get dht_cur_time;
  friends ← get dht_friends_list;
  let res := addto_friend cur_time t ipp_copy public_key <$> friends in
  modify (λ d, d <| dht_friends_list := res.*2 |>);;
  let used := u32 (used0 + zlen (filter (λ p : bool * DHT_Friend, p.1 = true) res)) in
  match head (rev (filter (λ p : bool * DHT_Friend, p.1 = true ∧ pk_equal public_key (f_public_key p.2) = true) res)) with
  | None => mret used
  | Some (_, friend_foundip) =>
      modify (λ d, d <| dht_events := dht_events d ++ friend_ip_callbacks friend_foundip ipp_copy |>);;
      mret used
  end.

(** The loop of [returnedip_ports]: it ends with the first friend with that key
    that has the node as a client. *)
Fixpoint returned_to_friends (t : Z) (ipp_copy : IP_Port) (public_key nodepublic_key : bytes) (friends : list DHT_Friend) :
    list DHT_Friend :=
  match friends with
  | [] => []
  | f :: friends' =>
      if pk_equal public_key (f_public_key f) then
        let '(found, l) := update_client_data t (f_client_list f) ipp_copy nodepublic_key false in
        if found then (f <| f_client_list := l |>) :: friends'
        else f :: returned_to_friends t ipp_copy public_key nodepublic_key friends'
      else f :: returned_to_friends t ipp_copy public_key nodepublic_key friends'
  end.

Definition returnedip_ports (ip_port : IP_Port) (public_key nodepublic_key : bytes) : M unit :=
  let ipp_copy := ip_port_normalize ip_port in
  t ← now;
  modify (λ d,
    if pk_equal public_key (dht_self_public_key d) then
      d <| dht_close_clientlist := (update_client_data t (dht_close_clientlist d) ipp_copy nodepublic_key true).2 |>
    else d <| dht_friends_list := returned_to_friends t ipp_copy public_key nodepublic_key (dht_friends_list d) |>).

(** ** Node requests and responses *)

Definition dht_getnodes (ip_port : IP_Port) (public_key client_id : bytes) : M bool :=
  self ← get dht_self_public_key;
  if pk_equal public_key self then mret false
  else
    match pack_nodes (SIZEOF_NODE_FORMAT * 2) [mkNode public_key ip_port] 1 with
    | None => mret false
    | Some d =>
        let plain_message := d ++ zeros (SIZEOF_NODE_FORMAT * 2 - zlen d) in
        ping_id ← m_ping_array_add plain_message SIZEOF_NODE_FORMAT;
        if ping_id =? 0 then mret false
        else
          let plain := client_id ++ le_bytes 8 ping_id in
          let size := 1 + CRYPTO_PUBLIC_KEY_SIZE + CRYPTO_NONCE_SIZE + CRYPTO_NODE_SIZE + CRYPTO_MAC_SIZE in
          shared_key ← dht_get_shared_key_sent public_key;
          nonce ← draw random_nonce;
          match dht_create_packet alloc alloc nonce self shared_key NET_PACKET_GET_NODES plain CRYPTO_NODE_SIZE size with
          | None => mret false
          | Some data =>
              if negb (zlen data =? size) then mret false
              else res ← m_sendpacket ip_port data; mret (0 <? res)
          end
    end.

Definition m_get_close_nodes (public_key : bytes) (sa_family : Z) (is_LAN want_announce : bool) : M (list Node_format * Z) :=
  get (λ d, get_close_nodes (dht_cur_time d) (dht_close_clientlist d) (f_client_list <$> dht_friends_list d)
              public_key sa_family is_LAN want_announce).

Definition sendnodes_ipv6 (ip_port : IP_Port) (public_key client_id sendback_data : bytes) (length : Z)
    (shared_encryption_key : option bytes) : M Z :=
  self ← get dht_self_public_key;
  if pk_equal public_key self then mret (-1)
  else if negb (length =? 8) then mret (-1)
  else
    '(nodes_list, num_nodes) ← m_get_close_nodes client_id TOX_AF_UNSPEC (ip_is_lan (ipp_ip ip_port)) false;
    let packed := if 0 <? num_nodes then pack_nodes (SIZEOF_NODE_FORMAT * MAX_SENT_NODES) nodes_list num_nodes
                  else Some [] in
    match packed with
    | None => mret (-1)
    | Some nodes =>
        if (0 <? num_nodes) && (zlen nodes <=? 0) then mret (-1)
        else
          let plain := [num_nodes] ++ nodes ++ slice 0 length sendback_data in
          let crypto_size := 1 + CRYPTO_PUBLIC_KEY_SIZE + CRYPTO_NONCE_SIZE + CRYPTO_MAC_SIZE in
          let size := 1 + zlen nodes + length + crypto_size in
          nonce ← draw random_nonce;
          match dht_create_packet alloc alloc nonce self shared_encryption_key NET_PACKET_SEND_NODES_IPV6 plain
                  (1 + zlen nodes + length) size with
          | None => mret (-1)
          | Some data => if negb (zlen data =? size) then mret (-1) else m_sendpacket ip_port data
          end
    end.

(** ** Pings ([ping.c]) *)

(** The bytes of an [IP_Port] in memory and back; the padding is never read. *)
Definition ip_port_memory (p : IP_Port) : bytes :=
  [ip_family (ipp_ip p)] ++ zeros 7 ++ ip_addr (ipp_ip p) ++ le_bytes 2 (ipp_port p) ++ zeros 6.
Definition memory_ip_port (m : bytes) : IP_Port :=
  mkIPPort (mkIP (aget 0 m 0) (slice 8 16 m)) (le_val (slice 24 2 m)).

Definition ping_send_request (ipp : IP_Port) (public_key : bytes) : M unit :=
  self ← get dht_self_public_key;
  if pk_equal public_key self then mret tt
  else
    shared_key ← dht_get_shared_key_sent public_key;
    let data := public_key ++ ip_port_memory ipp in
    ping_id ← p_ping_array_add data PING_DATA_SIZE;
    if ping_id =? 0 then mret tt
    else
      let ping_plain := [NET_PACKET_PING_REQUEST] ++ le_bytes 8 ping_id in
      nonce ← draw random_nonce;
      let '(rc, enc) := encrypt_with alloc shared_key nonce ping_plain PING_PLAIN_SIZE in
      if negb (rc =? PING_PLAIN_SIZE + CRYPTO_MAC_SIZE) then mret tt
      else m_sendpacket ipp ([NET_PACKET_PING_REQUEST] ++ self ++ nonce ++ enc);; mret tt.

Definition ping_send_response (ipp : IP_Port) (public_key : bytes) (ping_id : Z) (shared_encryption_key : option bytes) :
    M Z :=
  self ← get dht_self_public_key;
  if pk_equal public_key self then mret 1
  else
    let ping_plain := [NET_PACKET_PING_RESPONSE] ++ le_bytes 8 ping_id in
    nonce ← draw random_nonce;
    let '(rc, enc) := encrypt_with alloc shared_encryption_key nonce ping_plain PING_PLAIN_SIZE in
    if negb (rc =? PING_PLAIN_SIZE + CRYPTO_MAC_SIZE) then mret 1
    else m_sendpacket ipp ([NET_PACKET_PING_RESPONSE] ++ self ++ nonce ++ enc).

(** [in_list] of [ping.c]. *)
Definition in_list (mono_time : Mono_Time) (lst : list Client_data) (public_key : bytes) (ip_port : IP_Port) : bool :=
  existsb (λ c,
    pk_equal (c_public_key c) public_key &&
    (let ipptp := if net_family_is_ipv4 (ipp_family ip_port) then c_assoc4 c else c_assoc6 c in
     negb (mono_time_is_timeout mono_time (a_timestamp ipptp) BAD_NODE_TIMEOUT) &&
     ipport_equal (a_ip_port ipptp) ip_port)) lst.

(** The result of [dht_getfriendip] and the address it writes. *)
Definition dht_getfriendip (d : DHT) (public_key : bytes) : Z * IP_Port :=
  match index_of_friend_pk (dht_friends_list d) public_key with
  | None => (-1, empty_ip_port)
  | Some friend_index =>
      let frnd := friend_at d friend_index in
      match index_of_client_pk (f_client_list frnd) public_key with
      | None => (0, empty_ip_port)
      | Some client_index =>
          let client := client_at (f_client_list frnd) client_index in
          if negb (assoc_timeout (dht_cur_time d) (c_assoc6 client)) then (1, a_ip_port (c_assoc6 client))
          else if negb (assoc_timeout (dht_cur_time d) (c_assoc4 client)) then (1, a_ip_port (c_assoc4 client))
          else (-1, empty_ip_port)
      end
  end.

(** The loop of [ping_add]: [Some l] when the node was put into the first free
    slot, [None] with [false] when the key is there before, with [true] when the
    list is full. *)
Fixpoint to_ping_loop (l : list Node_format) (public_key : bytes) (ip_port : IP_Port) : option (list Node_format) * bool :=
  match l with
  | [] => (None, true)
  | n :: l' =>
      if negb (ip_isset (ipp_ip (nf_ip_port n))) then (Some (mkNode public_key ip_port :: l'), false)
      else if pk_equal (nf_public_key n) public_key then (None, false)
      else let '(r, full) := to_ping_loop l' public_key ip_port in ((λ l, n :: l) <$> r, full)
  end.

Definition set_to_ping (l : list Node_format) : M unit :=
  modify (λ d, d <| dht_ping := (dht_ping d) <| p_to_ping := l |> |>).

Definition ping_add (public_key : bytes) (ip_port : IP_Port) : M Z :=
  if negb (ip_isset (ipp_ip ip_port)) then mret (-1)
  else
    addable ← node_addable_to_close_list public_key ip_port;
    if negb addable then mret (-1)
    else
      known ← get (λ d, in_list (dht_mono_time d) (dht_close_clientlist d) public_key ip_port);
      if known : bool then mret (-1)
      else
        found ← get (λ d, (dht_getfriendip d public_key).1);
        if found =? 0 then ping_send_request ip_port public_key;; mret (-1)
        else
          to_ping ← get (λ d, p_to_ping (dht_ping d));
          match to_ping_loop to_ping public_key ip_port with
          | (Some l, _) => set_to_ping l;; mret 0
          | (None, false) => mret (-1)
          | (None, true) =>
              self ← get dht_self_public_key;
              let '(added, l) := add_to_list to_ping public_key ip_port self in
              set_to_ping l;;
              mret (if added then 0 else -1)
          end.

Definition handle_ping_request (source : IP_Port) (packet : bytes) (length : Z) : M Z :=
  if negb (length =? DHT_PING_SIZE) then mret 1
  else
    let pk := slice 1 CRYPTO_PUBLIC_KEY_SIZE packet in
    self ← get dht_self_public_key;
    if pk_equal pk self then mret 1
    else
      shared_key ← dht_get_shared_key_recv pk;
      let '(rc, ping_plain) :=
        decrypt_with alloc shared_key (slice (1 + CRYPTO_PUBLIC_KEY_SIZE) CRYPTO_NONCE_SIZE packet)
          (drop (Z.to_nat (1 + CRYPTO_PUBLIC_KEY_SIZE + CRYPTO_NONCE_SIZE)) packet) (PING_PLAIN_SIZE + CRYPTO_MAC_SIZE) in
      if negb (rc =? PING_PLAIN_SIZE) then mret 1
      else if negb (aget 0 ping_plain 0 =? NET_PACKET_PING_REQUEST) then mret 1
      else
        let ping_id := le_val (slice 1 8 ping_plain) in
        ping_send_response source pk ping_id shared_key;;
        ping_add pk source;;
        mret 0.

Definition handle_ping_response (source : IP_Port) (packet : bytes) (length : Z) : M Z :=
  if negb (length =? DHT_PING_SIZE) then mret 1
  else
    let pk := slice 1 CRYPTO_PUBLIC_KEY_SIZE packet in
    self ← get dht_self_public_key;
    if pk_equal pk self then mret 1
    else
      shared_key ← dht_get_shared_key_sent pk;
      let '(rc, ping_plain) :=
        decrypt_with alloc shared_key (slice (1 + CRYPTO_PUBLIC_KEY_SIZE) CRYPTO_NONCE_SIZE packet)
          (drop (Z.to_nat (1 + CRYPTO_PUBLIC_KEY_SIZE + CRYPTO_NONCE_SIZE)) packet) (PING_PLAIN_SIZE + CRYPTO_MAC_SIZE) in
      if negb (rc =? PING_PLAIN_SIZE) then mret 1
      else if negb (aget 0 ping_plain 0 =? NET_PACKET_PING_RESPONSE) then mret 1
      else
        let ping_id := le_val (slice 1 8 ping_plain) in
        '(len, data) ← p_ping_array_check PING_DATA_SIZE ping_id;
        if negb (len =? PING_DATA_SIZE) then mret 1
        else if negb (pk_equal pk (slice 0 CRYPTO_PUBLIC_KEY_SIZE data)) then mret 1
        else
          let ipp := memory_ip_port (drop (Z.to_nat CRYPTO_PUBLIC_KEY_SIZE) data) in
          if negb (ipport_equal ipp source) then mret 1
          else addto_lists source pk;; mret 0.

(** The loop of [ping_iterate] from index [i] on: the index it ends with. *)
Fixpoint ping_iterate_loop (rounds : nat) (i : nat) : M nat :=
  match rounds with
  | O => mret i
  | S rounds' =>
      n ← get (λ d, default empty_node_format (p_to_ping (dht_ping d) !! i));
      if negb (ip_isset (ipp_ip (nf_ip_port n))) then mret i
      else
        addable ← node_addable_to_close_list (nf_public_key n) (nf_ip_port n);
        if negb addable then ping_iterate_loop rounds' (S i)
        else
          ping_send_request (nf_ip_port n) (nf_public_key n);;
          modify (λ d, d <| dht_ping := (dht_ping d) <| p_to_ping :=
            alter (λ n, mkNode (nf_public_key n) (mkIPPort (ip_reset (ipp_ip (nf_ip_port n))) (ipp_port (nf_ip_port n))))
              i (p_to_ping (dht_ping d)) |> |>);;
          ping_iterate_loop rounds' (S i)
  end.

Definition ping_iterate : M unit :=
  due ← get (λ d, mono_time_is_timeout (dht_mono_time d) (p_last_to_ping (dht_ping d)) TIME_TO_PING);
  if negb due then mret tt
  else
    first ← get (λ d, default empty_node_format (p_to_ping (dht_ping d) !! 0%nat));
    if negb (ip_isset (ipp_ip (nf_ip_port first))) then mret tt
    else
      i ← ping_iterate_loop (Z.to_nat MAX_TO_PING) 0;
      if (i =? 0)%nat then mret tt
      else t ← now; modify (λ d, d <| dht_ping := (dht_ping d) <| p_last_to_ping := t |> |>).

(** ** Handlers of node packets *)

Definition handle_getnodes (source : IP_Port) (packet : bytes) (length : Z) : M Z :=
  if negb (length =? CRYPTO_SIZE + CRYPTO_MAC_SIZE + 8) then mret 1
  else
    let pk := slice 1 CRYPTO_PUBLIC_KEY_SIZE packet in
    self ← get dht_self_public_key;
    if pk_equal pk self then mret 1
    else
      shared_key ← dht_get_shared_key_recv pk;
      let '(len, plain) :=
        decrypt_with alloc shared_key (slice (1 + CRYPTO_PUBLIC_KEY_SIZE) CRYPTO_NONCE_SIZE packet)
          (drop (Z.to_nat (1 + CRYPTO_PUBLIC_KEY_SIZE + CRYPTO_NONCE_SIZE)) packet) (CRYPTO_NODE_SIZE + CRYPTO_MAC_SIZE) in
      if negb (len =? CRYPTO_NODE_SIZE) then mret 1
      else
        sendnodes_ipv6 source pk (slice 0 CRYPTO_PUBLIC_KEY_SIZE plain)
          (drop (Z.to_nat CRYPTO_PUBLIC_KEY_SIZE) plain) 8 shared_key;;
        ping_add pk source;;
        mret 0.

(** [data] is a buffer of twice the size of a node of which the stored bytes
    fill the first half; the other half is not read. *)
Definition sent_getnode_to_node (public_key : bytes) (node_ip_port : IP_Port) (ping_id : Z) : M bool :=
  '(len, data) ← m_ping_array_check (SIZEOF_NODE_FORMAT * 2) ping_id;
  if negb (len =? SIZEOF_NODE_FORMAT) then mret false
  else
    match unpack_nodes 1 data (SIZEOF_NODE_FORMAT * 2) false with
    | Some ([test], _) => mret (ipport_equal (nf_ip_port test) node_ip_port && pk_equal (nf_public_key test) public_key)
    | _ => mret false
    end.

(** Returns the unpacked nodes. *)
Definition handle_sendnodes_core (source : IP_Port) (packet : bytes) (length size_plain_nodes : Z) :
    M (option (list Node_format)) :=
  let cid_size := 1 + CRYPTO_PUBLIC_KEY_SIZE + CRYPTO_NONCE_SIZE + 1 + 8 + CRYPTO_MAC_SIZE in
  if length <? cid_size then mret None
  else
    let data_size := length - cid_size in
    if data_size =? 0 then mret None
    else if SIZEOF_NODE_FORMAT * MAX_SENT_NODES <? data_size then mret None
    else
      let pk := slice 1 CRYPTO_PUBLIC_KEY_SIZE packet in
      shared_key ← dht_get_shared_key_sent pk;
      let '(len, plain) :=
        decrypt_with alloc shared_key (slice (1 + CRYPTO_PUBLIC_KEY_SIZE) CRYPTO_NONCE_SIZE packet)
          (drop (Z.to_nat (1 + CRYPTO_PUBLIC_KEY_SIZE + CRYPTO_NONCE_SIZE)) packet) (1 + data_size + 8 + CRYPTO_MAC_SIZE) in
      if negb (u32 len =? 1 + data_size + 8) then mret None
      else if size_plain_nodes <? aget 0 plain 0 then mret None
      else
        let ping_id := le_val (slice (1 + data_size) 8 plain) in
        sent ← sent_getnode_to_node pk source ping_id;
        if negb sent then mret None
        else
          match unpack_nodes (aget 0 plain 0) (drop 1 plain) data_size false with
          | None => mret None
          | Some (nodes, length_nodes) =>
              if negb (length_nodes =? data_size) then mret None
              else if negb (zlen nodes =? aget 0 plain 0) then mret None
              else addto_lists source pk;; mret (Some nodes)
          end.

Definition handle_sendnodes_ipv6 (source : IP_Port) (packet : bytes) (length : Z) : M Z :=
  res ← handle_sendnodes_core source packet length MAX_SENT_NODES;
  match res with
  | None => mret 1
  | Some nodes =>
      for_each nodes (λ n,
        if ipport_isset (nf_ip_port n) then
          ping_node_from_getnodes_ok (nf_public_key n) (nf_ip_port n);;
          returnedip_ports (nf_ip_port n) (nf_public_key n) (slice 1 CRYPTO_PUBLIC_KEY_SIZE packet);;
          modify (λ d, if dht_get_nodes_response d then d <| dht_events := dht_events d ++ [GetNodesResponse n] |> else d)
        else mret tt);;
      mret 0
  end.

Definition handle_data_search_response (source : IP_Port) (packet : bytes) (length : Z) : M Z :=
  let plain_len := length - (1 + CRYPTO_PUBLIC_KEY_SIZE + CRYPTO_NONCE_SIZE + CRYPTO_MAC_SIZE) in
  if plain_len <? CRYPTO_PUBLIC_KEY_SIZE + 8 then mret 1
  else
    let public_key := slice 1 CRYPTO_PUBLIC_KEY_SIZE packet in
    shared_key ← dht_get_shared_key_recv public_key;
    let '(len, plain) :=
      decrypt_with alloc shared_key (slice (1 + CRYPTO_PUBLIC_KEY_SIZE) CRYPTO_NONCE_SIZE packet)
        (drop (Z.to_nat (1 + CRYPTO_PUBLIC_KEY_SIZE + CRYPTO_NONCE_SIZE)) packet) (plain_len + CRYPTO_MAC_SIZE) in
    if negb (len =? plain_len) then mret 1
    else
      let ping_id := le_val (slice (plain_len - 8) 8 plain) in
      '(len, ping_data) ← m_ping_array_check CRYPTO_PUBLIC_KEY_SIZE ping_id;
      if negb (len =? CRYPTO_PUBLIC_KEY_SIZE) then mret 1
      else if negb (pk_equal ping_data public_key) then mret 1
      else set_announce_node public_key;; mret 0.

(** ** Friends *)

(** The loop of [dht_friend_lock]: the first bit that is not set. *)
Definition free_lock (lock_flags : Z) : option nat :=
  index_of (λ i, Z.land lock_flags (Z.shiftl 1 (Z.of_nat i)) =? 0) (seq 0 (Z.to_nat DHT_FRIEND_MAX_LOCKS)).

(** Returns the lock token, 0 when all locks are taken. *)
Definition dht_friend_lock (f : DHT_Friend) (ip_callback : option Z) (data number : Z) : Z * DHT_Friend :=
  match free_lock (f_lock_flags f) with
  | None => (0, f)
  | Some lock_num =>
      let lock_token := Z.shiftl 1 (Z.of_nat lock_num) in
      (lock_token,
       f <| f_lock_flags := Z.lor (f_lock_flags f) lock_token |>
         <| f_callbacks := <[lock_num := mkCallback ip_callback data number]> (f_callbacks f) |>)
  end.

(** [None] is the failed assertion that the lock is held. *)
Definition dht_friend_unlock (f : DHT_Friend) (lock_token : Z) : option DHT_Friend :=
  if negb (0 <? Z.land lock_token (f_lock_flags f)) then None
  else
    match index_of (λ i, 0 <? Z.land (Z.shiftl 1 (Z.of_nat i)) lock_token) (seq 0 (Z.to_nat DHT_FRIEND_MAX_LOCKS)) with
    | None => Some f
    | Some lock_num =>
        Some (f <| f_lock_flags := Z.land (f_lock_flags f) (u32 (Z.lnot lock_token)) |>
                <| f_callbacks := <[lock_num := empty_callback]> (f_callbacks f) |>)
    end.

(** Returns the result and what was written to [*lock_token], if anything was. *)
Definition dht_addfriend (public_key : bytes) (ip_callback : option Z) (data number : Z) : M (Z * option Z) :=
  friends ← get dht_friends_list;
  match index_of_friend_pk friends public_key with
  | Some friend_num =>
      let '(tmp_lock_token, f) := dht_friend_lock (default empty_dht_friend (friends !! friend_num)) ip_callback data number in
      set_friend friend_num (λ _, f);;
      if tmp_lock_token =? 0 then mret (-1, None) else mret (0, None)
  | None =>
      if negb alloc then mret (-1, None)
      else
        id ← draw random_u64;
        let f := empty_dht_friend <| f_public_key := public_key |> in
        let f := f <| f_nat := (f_nat f) <| nat_ping_id := id |> |> in
        let '(lock_token, f) := dht_friend_lock f ip_callback data number in
        modify (λ d, d <| dht_friends_list := dht_friends_list d ++ [f] |>);;
        '(nodes, num) ← m_get_close_nodes public_key TOX_AF_UNSPEC true false;
        set_friend (length friends) (λ f, f <| f_to_bootstrap := nodes |> <| f_num_to_bootstrap := num |>);;
        mret (0, Some lock_token)
  end.

(** [None] is a failed assertion; the last friend moves to the place of the
    deleted one. *)
Definition dht_delfriend (public_key : bytes) (lock_token : Z) : M (option Z) :=
  friends ← get dht_friends_list;
  match index_of_friend_pk friends public_key with
  | None => mret (Some (-1))
  | Some friend_num =>
      match dht_friend_unlock (default empty_dht_friend (friends !! friend_num)) lock_token with
      | None => mret None
      | Some f =>
          set_friend friend_num (λ _, f);;
          if 0 <? f_lock_flags f then mret (Some 0)
          else
            let last_num := (length friends - 1)%nat in
            modify (λ d,
              let l := dht_friends_list d in
              let l := if (last_num =? friend_num)%nat then l
                       else <[friend_num := default empty_dht_friend (l !! last_num)]> l in
              d <| dht_friends_list := take last_num l |>);;
            if (last_num =? 0)%nat then mret (Some 0)
            else if negb alloc then mret (Some (-1)) else mret (Some 0)
      end
  end.

(** ** The main loop *)

(** One association in the loop of [do_ping_and_sendnode_requests].  [j] is 0
    for the IPv6 and 1 for the IPv4 address of client [i]; the state is
    [not_kill], [sort], [sort_ok] and the good nodes found so far, by the
    position of the pointers to them. *)
Record Ping_Round := mkRound {
  pr_not_kill : Z;
  pr_sort : Z;
  pr_sort_ok : bool;
  pr_nodes : list (nat * bool)
}.

Definition assoc_of (is6 : bool) (c : Client_data) : IPPTsPng := if is6 then c_assoc6 c else c_assoc4 c.
Definition on_assoc (is6 : bool) : (IPPTsPng → IPPTsPng) → Client_data → Client_data :=
  if is6 then on_assoc6 else on_assoc4.

Definition ping_assoc (public_key : bytes) (i : nat) (is6 : bool) (st : list Client_data * Ping_Round) :
    M (list Client_data * Ping_Round) :=
  let '(lst, r) := st in
  let client := client_at lst i in
  let assoc := assoc_of is6 client in
  let j := if is6 then 0 else 1 in
  mt ← get dht_mono_time;
  cur_time ← get dht_cur_time;
  t ← now;
  if negb (mono_time_is_timeout mt (a_timestamp assoc) KILL_NODE_TIMEOUT) then
    lst ← (if mono_time_is_timeout mt (a_last_pinged assoc) PING_INTERVAL then
             dht_getnodes (a_ip_port assoc) (c_public_key client) public_key;;
             mret (<[i := on_assoc is6 (λ a, a <| a_last_pinged := t |>) client]> lst)
           else mret lst);
    mret (lst, mkRound (u8 (pr_not_kill r + 1)) 0 (pr_sort_ok r)
                 (if negb (assoc_timeout cur_time assoc) then pr_nodes r ++ [(i, is6)] else pr_nodes r))
  else
    let sort := u32 (pr_sort r + 1) in
    mret (lst, mkRound (pr_not_kill r) sort
                 (pr_sort_ok r || ((1 <? sort) && (sort <? (j + 1) * 2 - 1))) (pr_nodes r)).

Fixpoint ping_clients (public_key : bytes) (rounds : nat) (i : nat) (st : list Client_data * Ping_Round) :
    M (list Client_data * Ping_Round) :=
  match rounds with
  | O => mret st
  | S rounds' =>
      st ← ping_assoc public_key i true st;
      st ← ping_assoc public_key i false st;
      ping_clients public_key rounds' (S i) st
  end.

(** Works on a list of clients with its [lastgetnode] and [bootstrap_times];
    returns [not_kill], the list and these two. *)
Definition do_ping_and_sendnode_requests (lastgetnode : Z) (public_key : bytes) (lst : list Client_data)
    (bootstrap_times : Z) (sortable : bool) : M (Z * list Client_data * Z * Z) :=
  if negb alloc then mret (0, lst, lastgetnode, bootstrap_times)
  else
    t ← now;
    mt ← get dht_mono_time;
    cur_time ← get dht_cur_time;
    '(lst, r) ← ping_clients public_key (length lst) 0 (lst, mkRound 0 0 false []);
    let lst := if sortable && pr_sort_ok r then sort_client_list alloc lst cur_time public_key else lst in
    let num_nodes := zlen (pr_nodes r) in
    if (0 <? num_nodes) && (mono_time_is_timeout mt lastgetnode GET_NODE_INTERVAL || (bootstrap_times <? MAX_BOOTSTRAP_TIMES))
    then
      rand_node ← draw (λ r, random_range_u32 r num_nodes);
      rand_node ← (if negb (num_nodes - 1 =? rand_node) then
                     more ← draw (λ r, random_range_u32 r (num_nodes - (rand_node + 1))); mret (rand_node + more)
                   else mret rand_node);
      let '(i, is6) := aget (0%nat, false) (pr_nodes r) rand_node in
      dht_getnodes (a_ip_port (assoc_of is6 (client_at lst i))) (c_public_key (client_at lst i)) public_key;;
      mret (pr_not_kill r, lst, t, u32 (bootstrap_times + 1))
    else mret (pr_not_kill r, lst, lastgetnode, bootstrap_times).

Definition do_dht_friend (i : nat) : M unit :=
  f ← get (λ d, friend_at d i);
  for_each (take (Z.to_nat (f_num_to_bootstrap f)) (f_to_bootstrap f)) (λ n,
    dht_getnodes (nf_ip_port n) (nf_public_key n) (f_public_key f);; mret tt);;
  set_friend i (λ f, f <| f_num_to_bootstrap := 0 |>);;
  '(_, l, last, times) ← do_ping_and_sendnode_requests (f_lastgetnode f) (f_public_key f) (f_client_list f) (f_bootstrap_times f) true;
  set_friend i (λ f, f <| f_client_list := l |> <| f_lastgetnode := last |> <| f_bootstrap_times := times |>).

Definition do_dht_friends : M unit := ids ← friend_indices; for_each ids do_dht_friend.

(** Makes a client bad but not dead, as far as it was ever seen. *)
Definition reset_bad (badonly : Z) (a : IPPTsPng) : IPPTsPng :=
  if negb (a_timestamp a =? 0) then a <| a_timestamp := badonly |> else a.

Definition do_Close : M unit :=
  nodes ← get (λ d, take (Z.to_nat (dht_num_to_bootstrap d)) (dht_to_bootstrap d));
  self ← get dht_self_public_key;
  for_each nodes (λ n, dht_getnodes (nf_ip_port n) (nf_public_key n) self;; mret tt);;
  modify (λ d, d <| dht_num_to_bootstrap := 0 |>);;
  d ← get id;
  '(not_killed, l, last, times) ←
    do_ping_and_sendnode_requests (dht_close_lastgetnodes d) self (dht_close_clientlist d) (dht_close_bootstrap_times d) false;
  modify (λ d, d <| dht_close_clientlist := l |> <| dht_close_lastgetnodes := last |> <| dht_close_bootstrap_times := times |>);;
  if negb (not_killed =? 0) then mret tt
  else
    t ← now;
    let badonly := u64 (t - BAD_NODE_TIMEOUT) in
    modify (λ d, d <| dht_close_clientlist :=
      (λ c, on_assoc4 (reset_bad badonly) (on_assoc6 (reset_bad badonly) c)) <$> dht_close_clientlist d |>).

Definition dht_bootstrap (ip_port : IP_Port) (public_key : bytes) : M bool :=
  self ← get dht_self_public_key;
  if pk_equal public_key self then mret true
  else dht_getnodes ip_port public_key self.

Definition handle_LANdiscovery (source : IP_Port) (packet : bytes) (length : Z) : M Z :=
  enabled ← get dht_lan_discovery_enabled;
  if negb enabled then mret 1
  else if negb (ip_is_lan (ipp_ip source)) then mret 1
  else if negb (length =? CRYPTO_PUBLIC_KEY_SIZE + 1) then mret 1
  else dht_bootstrap source (slice 1 CRYPTO_PUBLIC_KEY_SIZE packet);; mret 0.
End dht.
