(* ===== verification/DhtLoop.v ===== *)
(** * DhtLoop: routing, hole punching, creation and the main loop of [toxcore/DHT.c]

    Continues [Dht]: how a node routes encrypted requests for others, how it
    punches holes into the NAT of a friend, how it is created and iterated, and
    how its nodes are saved and loaded. *)
From stdpp Require Import sorting.
From S2P Require Import Prelude MonoTime CryptoCore SharedKeyCache PingArray State Network LanDiscovery.
From S2P Require Import World DhtDistance DhtPackets DhtLists Dht.

Definition NET_PACKET_DATA_SEARCH_RESPONSE : Z := 148.
Definition DHT_STATE_COOKIE_GLOBAL : Z := 22609933.
Definition DHT_STATE_COOKIE_TYPE : Z := 4558.
Definition DHT_STATE_TYPE_NODES : Z := 4.
Definition MAX_SAVED_DHT_NODES : Z := (DHT_FAKE_FRIEND_NUMBER * MAX_FRIEND_CLIENTS + LCLIENT_LIST) * 2.
Definition SAVE_BOOTSTAP_FREQUENCY : Z := 8.

Section loop.
Context {Sod : Sodium} {Q : Qsort} (alloc : bool).

(** ** Routing *)

(** The address [route_packet] uses: of the first client with the key, and of
    no later one. *)
Definition route_address (d : DHT) (public_key : bytes) : option IP_Port :=
  match index_of (λ c, pk_equal public_key (c_public_key c)) (dht_close_clientlist d) with
  | None => None
  | Some i =>
      let client := client_at (dht_close_clientlist d) i in
      if ip_isset (ipp_ip (a_ip_port (c_assoc6 client))) then Some (a_ip_port (c_assoc6 client))
      else if ip_isset (ipp_ip (a_ip_port (c_assoc4 client))) then Some (a_ip_port (c_assoc4 client))
      else None
  end.

Definition route_packet (public_key packet : bytes) : M Z :=
  addr ← get (λ d, route_address d public_key);
  match addr with
  | None => mret (-1)
  | Some ip_port => m_sendpacket ip_port packet
  end.

(** The loop of [friend_iplist]: [None] when the friend is reachable directly. *)
Fixpoint iplist_loop (d : DHT) (friend_pk : bytes) (clients : list Client_data) : option (list IP_Port * list IP_Port) :=
  match clients with
  | [] => Some ([], [])
  | client :: clients' =>
      let good a := ip_isset (ipp_ip (a_ret_ip_port a))
                    && negb (mono_time_is_timeout (dht_mono_time d) (a_ret_timestamp a) BAD_NODE_TIMEOUT) in
      if pk_equal (c_public_key client) friend_pk
         && (negb (assoc_timeout (dht_cur_time d) (c_assoc6 client)) || negb (assoc_timeout (dht_cur_time d) (c_assoc4 client)))
      then None
      else
        match iplist_loop d friend_pk clients' with
        | None => None
        | Some (v4, v6) =>
            Some (if good (c_assoc4 client) then a_ret_ip_port (c_assoc4 client) :: v4 else v4,
                  if good (c_assoc6 client) then a_ret_ip_port (c_assoc6 client) :: v6 else v6)
        end
  end.

(** The result and [ip_portlist]. *)
Definition friend_iplist (d : DHT) (friend_num : nat) : Z * list IP_Port :=
  if (length (dht_friends_list d) <=? friend_num)%nat then (-1, [])
  else
    let f := friend_at d friend_num in
    match iplist_loop d (f_public_key f) (f_client_list f) with
    | None => (0, [])
    | Some (ipv4s, ipv6s) =>
        if zlen ipv4s <=? zlen ipv6s then (zlen ipv6s, ipv6s) else (zlen ipv4s, ipv4s)
    end.

(** The addresses [foreach_ip_port] offers for one client, in order: the test
    skips an address only when it is unset and its time stamp is recent. *)
Definition offered (d : DHT) (client : Client_data) : list IP_Port :=
  a_ip_port <$> filter (λ a,
    (negb (ip_isset (ipp_ip (a_ret_ip_port a)))
     && negb (mono_time_is_timeout (dht_mono_time d) (a_ret_timestamp a) BAD_NODE_TIMEOUT)) = false)
    [c_assoc4 client; c_assoc6 client].

(** [send_packet_to_friend] over the addresses of one client: the first success
    ends it. *)
Fixpoint send_to_first (packet : bytes) (addrs : list IP_Port) : M Z :=
  match addrs with
  | [] => mret 0
  | a :: addrs' =>
      retval ← m_sendpacket a packet;
      if u32 retval =? zlen packet then mret 1 else send_to_first packet addrs'
  end.

Fixpoint send_to_clients (packet : bytes) (clients : list Client_data) : M Z :=
  match clients with
  | [] => mret 0
  | c :: clients' =>
      addrs ← get (λ d, offered d c);
      n ← send_to_first packet addrs;
      m ← send_to_clients packet clients';
      mret (n + m)
  end.

Definition route_to_friend (friend_id packet : bytes) : M Z :=
  d ← get id;
  match index_of_friend_pk (dht_friends_list d) friend_id with
  | None => mret 0
  | Some num =>
      if (friend_iplist d num).1 <? MAX_FRIEND_CLIENTS / 4 then mret 0
      else send_to_clients packet (f_client_list (friend_at d num))
  end.

Definition routeone_to_friend (friend_id packet : bytes) : M Z :=
  d ← get id;
  match index_of_friend_pk (dht_friends_list d) friend_id with
  | None => mret 0
  | Some num =>
      let ip_list := concat (offered d <$> f_client_list (friend_at d num)) in
      let n := zlen ip_list in
      if n <? 1 then mret 0
      else
        rand_idx ← draw (λ r, random_range_u32 r n);
        retval ← m_sendpacket (aget empty_ip_port ip_list rand_idx) packet;
        mret (if u32 retval =? zlen packet then 1 else 0)
  end.

(** ** Hole punching *)

(** [stack] is what the key buffer of [encrypt_data] holds. *)
Definition send_NATping (stack public_key : bytes) (ping_id type : Z) : M Z :=
  d ← get id;
  nonce ← draw random_nonce;
  match create_request alloc stack nonce (dht_self_public_key d) (dht_self_secret_key d) public_key
          ([type] ++ le_bytes 8 ping_id) 9 CRYPTO_PACKET_NAT_PING with
  | None => mret (-1)
  | Some packet =>
      num ← (if type =? 0 then route_to_friend public_key packet
             else if type =? 1 then routeone_to_friend public_key packet else mret 0);
      mret (if num =? 0 then -1 else num)
  end.

Definition handle_NATping (stack : bytes) (source : IP_Port) (source_pubkey packet : bytes) (length : Z) : M Z :=
  if negb (length =? 9) then mret 1
  else
    let ping_id := le_val (slice 1 8 packet) in
    friends ← get dht_friends_list;
    match index_of_friend_pk friends source_pubkey with
    | None => mret 1
    | Some friendnumber =>
        if aget 0 packet 0 =? NAT_PING_REQUEST then
          send_NATping stack source_pubkey ping_id NAT_PING_RESPONSE;;
          t ← now;
          set_friend friendnumber (λ f, f <| f_nat := (f_nat f) <| recv_nat_ping_timestamp := t |> |>);;
          mret 0
        else if aget 0 packet 0 =? NAT_PING_RESPONSE then
          if nat_ping_id (f_nat (default empty_dht_friend (friends !! friendnumber))) =? ping_id then
            id ← draw random_u64;
            set_friend friendnumber (λ f, f <| f_nat := (f_nat f) <| nat_ping_id := id |> <| hole_punching := true |> |>);;
            mret 0
          else mret 1
        else mret 1
    end.

(** How often [ip_portlist[i].ip] occurs in the list. *)
Definition ip_occurrences (ip_portlist : list IP_Port) (ip : IP) : Z :=
  zlen (filter (λ p, ip_equal ip (ipp_ip p) = true) ip_portlist).

Definition nat_commonip (ip_portlist : list IP_Port) (min_num : Z) : IP :=
  if MAX_FRIEND_CLIENTS <? zlen ip_portlist then empty_ip
  else
    match index_of (λ p, min_num <=? ip_occurrences ip_portlist (ipp_ip p)) ip_portlist with
    | Some i => ipp_ip (default empty_ip_port (ip_portlist !! i))
    | None => empty_ip
    end.

Definition nat_getports (ip_portlist : list IP_Port) (ip : IP) : list Z :=
  (λ p, net_ntohs (ipp_port p)) <$> filter (λ p, ip_equal (ipp_ip p) ip = true) ip_portlist.

(** The port [punch_holes] guesses in round [i]. *)
Definition guessed_port (port_list : list Z) (punching_index i : Z) : Z :=
  let numports := zlen port_list in
  let it := u32 (i + punching_index) in
  let sign := if negb (it mod 2 =? 0) then -1 else 1 in
  let delta := u32 (sign * (it / (2 * numports))) in
  let index := (it / 2) mod numports in
  u16 (aget 0 port_list index + delta).

Definition z_range (n : Z) : list Z := Z.of_nat <$> seq 0 (Z.to_nat n).

Definition punch_holes (ip : IP) (port_list : list Z) (friend_num : nat) : M unit :=
  d ← get id;
  let numports := zlen port_list in
  if negb (dht_hole_punching_enabled d) then mret tt
  else if (MAX_FRIEND_CLIENTS <? numports) || (numports =? 0) then mret tt
  else
    let f := friend_at d friend_num in
    let first_port := aget 0 port_list 0 in
    let ping port := ping_send_request alloc (mkIPPort ip (net_htons port)) (f_public_key f) in
    (if forallb (λ p, first_port =? p) port_list then ping first_port
     else
       for_each (z_range MAX_PUNCHING_PORTS) (λ i, ping (guessed_port port_list (punching_index (f_nat f)) i));;
       set_friend friend_num (λ f, f <| f_nat := (f_nat f) <| punching_index := u32 (punching_index (f_nat f) + MAX_PUNCHING_PORTS) |> |>));;
    (if MAX_NORMAL_PUNCHING_TRIES <? tries (f_nat f) then
       for_each (z_range MAX_PUNCHING_PORTS) (λ i, ping (u16 (1024 + u32 (i + punching_index2 (f_nat f)))));;
       set_friend friend_num (λ f, f <| f_nat := (f_nat f) <| punching_index2 :=
         u32 (punching_index2 (f_nat f) + (MAX_PUNCHING_PORTS - MAX_PUNCHING_PORTS / 2)) |> |>)
     else mret tt);;
    set_friend friend_num (λ f, f <| f_nat := (f_nat f) <| tries := u32 (tries (f_nat f) + 1) |> |>).

Definition do_NAT_friend (stack : bytes) (i : nat) : M unit :=
  temp_time ← now;
  d ← get id;
  let '(num, ip_list) := friend_iplist d i in
  if num <? MAX_FRIEND_CLIENTS / 2 then mret tt
  else
    let f := friend_at d i in
    (if u64 (nat_ping_timestamp (f_nat f) + PUNCH_INTERVAL) <? temp_time then
       send_NATping stack (f_public_key f) (nat_ping_id (f_nat f)) NAT_PING_REQUEST;;
       set_friend i (λ f, f <| f_nat := (f_nat f) <| nat_ping_timestamp := temp_time |> |>)
     else mret tt);;
    if hole_punching (f_nat f) && (u64 (punching_timestamp (f_nat f) + PUNCH_INTERVAL) <? temp_time)
       && (temp_time <=? u64 (recv_nat_ping_timestamp (f_nat f) + PUNCH_INTERVAL * 2)) then
      let ip := nat_commonip ip_list (MAX_FRIEND_CLIENTS / 2) in
      if negb (ip_isset ip) then mret tt
      else
        (if u64 (punching_timestamp (f_nat f) + PUNCH_RESET_TIME) <? temp_time then
           set_friend i (λ f, f <| f_nat := (f_nat f) <| tries := 0 |> <| punching_index := 0 |> <| punching_index2 := 0 |> |>)
         else mret tt);;
        punch_holes ip (nat_getports ip_list ip) i;;
        set_friend i (λ f, f <| f_nat := (f_nat f) <| punching_timestamp := temp_time |> <| hole_punching := false |> |>)
    else mret tt.

Definition do_NAT (stack : bytes) : M unit := ids ← friend_indices; for_each ids (do_NAT_friend stack).

(** ** Nodes for the onion *)

(** The loop of [list_nodes], from the last client to the first; [room] is how
    many more nodes fit. *)
Fixpoint list_nodes_loop (cur_time : Z) (clients : list Client_data) (room : Z) : M (list Node_format) :=
  match clients with
  | [] => mret []
  | c :: clients' =>
      let t4 := assoc_timeout cur_time (c_assoc4 c) in
      let t6 := assoc_timeout cur_time (c_assoc6 c) in
      assoc ← (if negb t6 then
                 if t4 then mret (Some (c_assoc6 c))
                 else r ← draw random_u08; mret (Some (if negb (r mod 2 =? 0) then c_assoc6 c else c_assoc4 c))
               else mret (if negb t4 then Some (c_assoc4 c) else None));
      match assoc with
      | None => list_nodes_loop cur_time clients' room
      | Some a =>
          let n := mkNode (c_public_key c) (a_ip_port a) in
          if room - 1 <=? 0 then mret [n]
          else rest ← list_nodes_loop cur_time clients' (room - 1); mret (n :: rest)
      end
  end.

Definition list_nodes (lst : list Client_data) (cur_time max_num : Z) : M (list Node_format) :=
  if max_num =? 0 then mret [] else list_nodes_loop cur_time (rev lst) max_num.

Definition closelist_nodes (max_num : Z) : M (list Node_format) :=
  d ← get id; list_nodes (dht_close_clientlist d) (dht_cur_time d) max_num.

(** [None] is the failed assertion that the two fake friends exist. *)
Definition randfriends_nodes (max_num : Z) : M (option (list Node_format)) :=
  if max_num =? 0 then mret (Some [])
  else
    r ← draw random_u32;
    d ← get id;
    if zlen (dht_friends_list d) <? DHT_FAKE_FRIEND_NUMBER then mret None
    else
      let clients i := f_client_list (friend_at d (Z.to_nat (u32 (i + r) mod DHT_FAKE_FRIEND_NUMBER))) in
      n0 ← list_nodes (clients 0) (dht_cur_time d) max_num;
      if max_num <=? zlen n0 then mret (Some n0)
      else n1 ← list_nodes (clients 1) (dht_cur_time d) (max_num - zlen n0); mret (Some (n0 ++ n1)).

(** ** Encrypted requests *)

(** [handlers] are the functions registered with [cryptopacket_registerhandler]. *)
Definition cryptopacket_handle (handlers : Z → option (IP_Port → bytes → bytes → Z → M Z)) (stack : bytes)
    (source : IP_Port) (packet : bytes) (length : Z) : M Z :=
  if (length <=? CRYPTO_PUBLIC_KEY_SIZE * 2 + CRYPTO_NONCE_SIZE + 1 + CRYPTO_MAC_SIZE)
     || (MAX_CRYPTO_REQUEST_SIZE + CRYPTO_MAC_SIZE <? length) then mret 1
  else
    d ← get id;
    if pk_equal (slice 1 CRYPTO_PUBLIC_KEY_SIZE packet) (dht_self_public_key d) then
      match handle_request alloc stack (dht_self_public_key d) (dht_self_secret_key d) packet length with
      | None => mret 1
      | Some (public_key, number, data) =>
          if zlen data =? 0 then mret 1
          else
            match handlers number with
            | None => mret 1
            | Some function => function source public_key data (zlen data)
            end
      end
    else
      retval ← route_packet (slice 1 CRYPTO_PUBLIC_KEY_SIZE packet) packet;
      mret (if u32 retval =? length then 0 else 1).

(** ** Connectivity *)

Definition dht_isconnected (d : DHT) : bool :=
  existsb (λ c, negb (assoc_timeout (dht_cur_time d) (c_assoc4 c)) || negb (assoc_timeout (dht_cur_time d) (c_assoc6 c)))
    (dht_close_clientlist d).

Definition dht_non_lan_connected (d : DHT) : bool :=
  existsb (λ c,
    (negb (assoc_timeout (dht_cur_time d) (c_assoc4 c)) && negb (ip_is_lan (ipp_ip (a_ip_port (c_assoc4 c))))) ||
    (negb (assoc_timeout (dht_cur_time d) (c_assoc6 c)) && negb (ip_is_lan (ipp_ip (a_ip_port (c_assoc6 c))))))
    (dht_close_clientlist d).

(** The loop of [ipport_self_copy]: [dest] and [is_lan]. *)
Fixpoint self_copy_loop (assocs : list IPPTsPng) (dest : IP_Port) (is_lan : bool) : IP_Port * bool :=
  match assocs with
  | [] => (dest, is_lan)
  | a :: assocs' =>
      if a_ret_ip_self a && ipport_isset (a_ret_ip_port a) then
        let lan := ip_is_lan (ipp_ip (a_ret_ip_port a)) in
        if negb lan then (a_ret_ip_port a, lan) else self_copy_loop assocs' (a_ret_ip_port a) lan
      else self_copy_loop assocs' dest is_lan
  end.

Definition ipport_self_copy (d : DHT) : Z * IP_Port :=
  let '(dest, is_lan) :=
    self_copy_loop (concat ((λ c, [c_assoc4 c; c_assoc6 c]) <$> dht_close_clientlist d)) empty_ip_port false in
  (if negb (ipport_isset dest) then 0 else if is_lan then 2 else 1, dest).

(** ** Creation and iteration *)

(** The keys of the fake friends are drawn as [new_dht] does. *)
Fixpoint add_fake_friends (count : nat) : M bool :=
  match count with
  | O => mret true
  | S count' =>
      '(pk, _) ← draw (λ r, let '(pk, sk, r) := crypto_new_keypair r in (pk, sk, r));
      '(res, _) ← dht_addfriend alloc pk None 0 0;
      if negb (res =? 0) then mret false else add_fake_friends count'
  end.

Definition new_dht (mono_time : Mono_Time) (rng : Random) (net : Networking_Core)
    (hole_punching_enabled lan_discovery_enabled : bool) : option DHT :=
  if negb alloc then None
  else
    match ping_array_new alloc alloc PING_NUM_MAX PING_TIMEOUT with
    | None => None
    | Some pings =>
        let '(pk, sk, rng) := crypto_new_keypair rng in
        match shared_key_cache_new alloc alloc mono_time sk KEYS_TIMEOUT MAX_KEYS_PER_SLOT,
              shared_key_cache_new alloc alloc mono_time sk KEYS_TIMEOUT MAX_KEYS_PER_SLOT,
              ping_array_new alloc alloc DHT_PING_ARRAY_SIZE PING_TIMEOUT with
        | Some recv, Some sent, Some a =>
            let ping := mkPing pings (replicate (Z.to_nat MAX_TO_PING) empty_node_format) 0 in
            let d := mkDHT mono_time rng net hole_punching_enabled lan_discovery_enabled
                       (replicate (Z.to_nat LCLIENT_LIST) empty_client) 0 0 pk sk [] None 0 recv sent ping a
                       (mono_time_get mono_time)
                       (replicate (Z.to_nat MAX_CLOSE_TO_BOOTSTRAP_NODES) empty_node_format) 0 false [] in
            let '(ok, d) := add_fake_friends (Z.to_nat DHT_FAKE_FRIEND_NUMBER) d in
            if negb ok then None
            else if negb (zlen (dht_friends_list d) =? DHT_FAKE_FRIEND_NUMBER) then None
            else Some d
        | _, _, _ => None
        end
    end.

Definition loaded_nodes (d : DHT) : list Node_format := default [] (dht_loaded_nodes_list d).

(** The loop of [dht_connect_after_load]. *)
Fixpoint bootstrap_loaded (rounds : nat) : M unit :=
  match rounds with
  | O => mret tt
  | S rounds' =>
      n ← get (λ d, aget empty_node_format (loaded_nodes d) (dht_loaded_nodes_index d mod zlen (loaded_nodes d)));
      dht_bootstrap alloc (nf_ip_port n) (nf_public_key n);;
      modify (λ d, d <| dht_loaded_nodes_index := u32 (dht_loaded_nodes_index d + 1) |>);;
      bootstrap_loaded rounds'
  end.

Definition dht_connect_after_load : M Z :=
  d ← get id;
  match dht_loaded_nodes_list d with
  | None => mret (-1)
  | Some nodes =>
      if dht_non_lan_connected d then modify (λ d, d <| dht_loaded_nodes_list := None |>);; mret 0
      else bootstrap_loaded (Nat.min (length nodes) (Z.to_nat SAVE_BOOTSTAP_FREQUENCY));; mret 0
  end.

Definition do_dht (stack : bytes) : M unit :=
  cur_time ← now;
  d ← get id;
  if dht_cur_time d =? cur_time then mret tt
  else
    modify (λ d, d <| dht_cur_time := cur_time |>);;
    (if (0 <? length (loaded_nodes d))%nat then dht_connect_after_load;; mret tt else mret tt);;
    do_Close alloc;;
    do_dht_friends alloc;;
    do_NAT stack;;
    ping_iterate alloc.

(** ** Packets *)

(** What [new_dht] registers for encrypted requests. *)
Definition dht_cryptopackethandlers (stack : bytes) (request_id : Z) : option (IP_Port → bytes → bytes → Z → M Z) :=
  if request_id =? CRYPTO_PACKET_NAT_PING then Some (handle_NATping stack) else None.

(** What [new_dht] and [ping_new] register with the socket, by the first byte. *)
Definition dht_packethandlers (stack : bytes) (byte : Z) : option (IP_Port → bytes → Z → M Z) :=
  if byte =? NET_PACKET_PING_REQUEST then Some (handle_ping_request alloc)
  else if byte =? NET_PACKET_PING_RESPONSE then Some (handle_ping_response alloc)
  else if byte =? NET_PACKET_GET_NODES then Some (handle_getnodes alloc)
  else if byte =? NET_PACKET_SEND_NODES_IPV6 then Some (handle_sendnodes_ipv6 alloc)
  else if byte =? NET_PACKET_CRYPTO then Some (cryptopacket_handle (dht_cryptopackethandlers stack) stack)
  else if byte =? NET_PACKET_LAN_DISCOVERY then Some (handle_LANdiscovery alloc)
  else if byte =? NET_PACKET_DATA_SEARCH_RESPONSE then Some (handle_data_search_response alloc)
  else None.

(** One round of the loop of [networking_poll]. *)
Definition poll_packet (stack : bytes) (source : IP_Port) (data : bytes) (length : Z) : M unit :=
  if length <? 1 then mret tt
  else
    match dht_packethandlers stack (aget 0 data 0) with
    | None => mret tt
    | Some function => function source data length;; mret tt
    end.

(** ** Saving and loading *)

(** The nodes [dht_save] collects from a list of clients. *)
Definition saved_clients (lst : list Client_data) : list Node_format :=
  concat ((λ c,
    (if negb (a_timestamp (c_assoc4 c) =? 0) then [mkNode (c_public_key c) (a_ip_port (c_assoc4 c))] else []) ++
    (if negb (a_timestamp (c_assoc6 c) =? 0) then [mkNode (c_public_key c) (a_ip_port (c_assoc6 c))] else [])) <$> lst).

Definition saved_nodes (d : DHT) : list Node_format :=
  loaded_nodes d ++ saved_clients (dht_close_clientlist d) ++
  concat (saved_clients ∘ f_client_list <$> take (Z.to_nat DHT_FAKE_FRIEND_NUMBER) (dht_friends_list d)).

Definition dht_size (d : DHT) : Z :=
  let count test (nodes : list Node_format) := zlen (filter (λ n, test (ipp_family (nf_ip_port n)) = true) nodes) in
  let assocs := concat ((λ f, f_client_list f) <$> take (Z.to_nat DHT_FAKE_FRIEND_NUMBER) (dht_friends_list d)) in
  let stamped proj := zlen (filter (λ c, a_timestamp (proj c) ≠ 0) (dht_close_clientlist d ++ assocs)) in
  let numv4 := count net_family_is_ipv4 (loaded_nodes d) + stamped c_assoc4 in
  let numv6 := count net_family_is_ipv6 (loaded_nodes d) + stamped c_assoc6 in
  u32 (4 + 8 + packed_node_size TOX_AF_INET * numv4 + packed_node_size TOX_AF_INET6 * numv6).

(** The section header is written with the length [pack_nodes] returns, [-1]
    included, and in front of what it wrote; the room it is given is passed as
    [uint16_t]. *)
Definition dht_save (d : DHT) : bytes :=
  host_to_lendian_bytes32 DHT_STATE_COOKIE_GLOBAL ++
  (if negb alloc then state_write_section_header DHT_STATE_COOKIE_TYPE 0 0
   else
     let clients := saved_nodes d in
     match pack_nodes (u16 (SIZEOF_NODE_FORMAT * zlen clients)) clients (u16 (zlen clients)) with
     | Some data => state_write_section_header DHT_STATE_COOKIE_TYPE (zlen data) DHT_STATE_TYPE_NODES ++ data
     | None => state_write_section_header DHT_STATE_COOKIE_TYPE (u32 (-1)) DHT_STATE_TYPE_NODES
     end).

(** The length is passed to [unpack_nodes] as [uint16_t]. *)
Definition dht_load_state_callback (d : DHT) (data : bytes) (length type : Z) : State_Load_Status * DHT :=
  (STATE_LOAD_STATUS_CONTINUE,
   if type =? DHT_STATE_TYPE_NODES then
     if length =? 0 then d
     else if negb alloc then d <| dht_loaded_nodes_list := None |>
     else
       match unpack_nodes MAX_SAVED_DHT_NODES data (u16 length) false with
       | Some (nodes, _) => d <| dht_loaded_nodes_list := Some nodes |>
       | None => d <| dht_loaded_nodes_list := Some [] |>
       end
   else d).

Definition dht_load (d : DHT) (data : bytes) (length : Z) : Z * DHT :=
  let cookie_len := 4 in
  if cookie_len <? length then
    if lendian_bytes_to_host32 data =? DHT_STATE_COOKIE_GLOBAL then
      state_load dht_load_state_callback d (drop 4 data) (length - cookie_len) DHT_STATE_COOKIE_TYPE
    else (-1, d)
  else (-1, d).
End loop.
