(* ===== verification/DhtSound.v ===== *)
(** * DhtSound: the invariant of a DHT node

    Every array of the node has its size and every counter stays inside its
    array, keys and addresses are well formed, IPv4 associations hold IPv4
    addresses and IPv6 associations IPv6 addresses, the caches of shared keys
    are transparent and the ping arrays are well formed.  A small Hoare logic
    for the monad of [Dht] shows that every handler and every round of the main
    loop keeps the invariant, whatever packets arrive. *)
From stdpp Require Import sorting.
From S2P Require Import Prelude MonoTime CryptoCore SharedKeyCache PingArray State Network LanDiscovery.
From S2P Require Import World DhtDistance DhtPackets DhtLists Dht DhtLoop.

Create HintDb dht.

(** ** The invariant *)

(** The source of a packet: an address of UDP. *)
Definition src_ok (p : IP_Port) : Prop :=
  ip_port_ok p ∧ (ipp_family p = TOX_AF_INET ∨ ipp_family p = TOX_AF_INET6).

Record assoc_ok (fam : Z) (a : IPPTsPng) : Prop := {
  as_addr : ip_port_ok (a_ip_port a);
  as_ret : ip_port_ok (a_ret_ip_port a);
  as_time : is_u64 (a_timestamp a);
  as_fam : ipp_family (a_ip_port a) = TOX_AF_UNSPEC ∨ ipp_family (a_ip_port a) = fam;
  as_seen : a_timestamp a ≠ 0 → ipp_family (a_ip_port a) = fam
}.

Record client_ok (c : Client_data) : Prop := {
  cl_key : key_ok (c_public_key c);
  cl_4 : assoc_ok TOX_AF_INET (c_assoc4 c);
  cl_6 : assoc_ok TOX_AF_INET6 (c_assoc6 c)
}.

Definition clients_ok (n : Z) (l : list Client_data) : Prop := zlen l = n ∧ Forall client_ok l.
Definition nodes_ok (n : Z) (l : list Node_format) : Prop := zlen l = n ∧ Forall node_ok l.

(** A well-formed node with a UDP address. *)
Definition udp_node (n : Node_format) : Prop := node_ok n ∧ packable false (node_family n) = true.

Record friend_wf (f : DHT_Friend) : Prop := {
  fr_key : key_ok (f_public_key f);
  fr_clients : clients_ok MAX_FRIEND_CLIENTS (f_client_list f);
  fr_locks : is_u32 (f_lock_flags f);
  fr_callbacks : zlen (f_callbacks f) = DHT_FRIEND_MAX_LOCKS;
  fr_nodes : nodes_ok MAX_SENT_NODES (f_to_bootstrap f);
  fr_num : 0 <= f_num_to_bootstrap f <= MAX_SENT_NODES
}.

(** The clock has been running for a while and is not about to overflow. *)
Definition time_ok (t : Mono_Time) : Prop := 1000 <= mono_time_get t < 2 ^ 63.

Definition pings_ok (size : Z) (a : Ping_Array) : Prop :=
  PingArray.wf a ∧ pa_timeout a = PING_TIMEOUT ∧ pa_total_size a = size.

(** ** Lists *)

Lemma packed_size_bound nodes : Forall udp_node nodes → 0 <= packed_size nodes <= 51 * zlen nodes.
Proof.
  induction 1 as [|n nodes [_ Hn] _ IH]; [done|]. pose proof (packable_size _ _ Hn).
  rewrite packed_size_cons, zlen_cons. lia.
Qed.

Lemma empty_ip_port_ok : ip_port_ok empty_ip_port.
Proof. split; [|done]. split; [done|]. by apply Forall_replicate. Qed.

Lemma empty_assoc_ok fam : assoc_ok fam empty_ipptspng.
Proof. constructor; try apply empty_ip_port_ok; [by left|done]. Qed.

Lemma zeros_key_ok : key_ok (zeros CRYPTO_PUBLIC_KEY_SIZE).
Proof. split; [done|apply zeros_ok]. Qed.

Lemma empty_client_ok : client_ok empty_client.
Proof. constructor; [apply zeros_key_ok|apply empty_assoc_ok..]. Qed.

Lemma empty_node_ok : node_ok empty_node_format.
Proof. split; [done|]. split; [apply zeros_ok|apply empty_ip_port_ok]. Qed.

Lemma node_ok_intro pk ip : key_ok pk → ip_port_ok ip → node_ok (mkNode pk ip).
Proof. intros [] ?. by split_and!. Qed.

Lemma client_at_ok l i : Forall client_ok l → client_ok (client_at l i).
Proof.
  intros Hl. unfold client_at. destruct (l !! i) eqn:E; [|apply empty_client_ok].
  by apply (Forall_lookup_1 _ _ _ _ Hl E).
Qed.

Lemma clients_insert n l i c : clients_ok n l → client_ok c → clients_ok n (<[i := c]> l).
Proof. intros [Hn Hl] Hc. split; [unfold zlen in *; by rewrite length_insert|by apply Forall_insert]. Qed.

Lemma nodes_aset n l i x : nodes_ok n l → node_ok x → nodes_ok n (aset l i x).
Proof. intros [Hn Hl] Hx. split; [by rewrite zlen_aset|by apply Forall_insert]. Qed.

#[export] Hint Resolve empty_ip_port_ok empty_assoc_ok zeros_key_ok empty_client_ok empty_node_ok node_ok_intro
  client_at_ok clients_insert nodes_aset : dht.

Lemma clients_forall n l : clients_ok n l → Forall client_ok l.
Proof. by intros []. Qed.
#[export] Hint Resolve clients_forall : dht.

Lemma on_assoc4_ok f c : client_ok c → (assoc_ok TOX_AF_INET (c_assoc4 c) → assoc_ok TOX_AF_INET (f (c_assoc4 c))) →
  client_ok (on_assoc4 f c).
Proof. intros [] H. constructor; [done|by apply H|done]. Qed.

Lemma on_assoc6_ok f c : client_ok c → (assoc_ok TOX_AF_INET6 (c_assoc6 c) → assoc_ok TOX_AF_INET6 (f (c_assoc6 c))) →
  client_ok (on_assoc6 f c).
Proof. intros [] H. constructor; [done|done|by apply H]. Qed.

Lemma set_key_ok c pk : client_ok c → key_ok pk → client_ok (c <| c_public_key := pk |>).
Proof. intros [] ?. by constructor. Qed.

(** Storing an address of the family with a time stamp. *)
Lemma stored_assoc_ok fam a now ip :
  assoc_ok fam a → ip_port_ok ip → ipp_family ip = fam → is_u64 now →
  assoc_ok fam (a <| a_ip_port := ip |> <| a_timestamp := now |>).
Proof. intros [] ? ? ?. constructor; cbn; auto. Qed.

Lemma update_client_ok now c ip : client_ok c → ip_port_ok ip → is_u64 now → client_ok (update_client now c ip).
Proof.
  intros Hc Hip Hn. unfold update_client, net_family_is_ipv4, net_family_is_ipv6.
  destruct (_ =? _) eqn:E4; [|destruct (_ =? TOX_AF_INET6) eqn:E6; [|done]].
  - apply on_assoc4_ok; [done|]. intros Ha. unfold update_assoc. cases; [done|].
    apply stored_assoc_ok; (done || lia).
  - apply on_assoc6_ok; [done|]. intros Ha. unfold update_assoc. cases; [done|].
    apply stored_assoc_ok; (done || lia).
Qed.

Lemma client_or_ip_port_in_list_ok n now l pk ip :
  clients_ok n l → key_ok pk → ip_port_ok ip → is_u64 now → clients_ok n (client_or_ip_port_in_list now l pk ip).2.
Proof.
  intros Hl Hpk Hip Hn. unfold client_or_ip_port_in_list.
  destruct (index_of_client_pk l pk) as [i|]; [apply clients_insert; [done|]; apply update_client_ok; eauto with dht|].
  destruct (index_of_client_ip_port l ip) as [i|]; [|done]. apply clients_insert; [done|].
  assert (client_ok (client_at l i)) as [Hk H4 H6] by eauto with dht.
  destruct (net_family_is_ipv4 _); constructor; cbn; auto with dht.
Qed.

Lemma reset_assoc_ok fam a now ip :
  assoc_ok fam a → ip_port_ok ip → ipp_family ip = fam → is_u64 now → assoc_ok fam (reset_assoc now ip a).
Proof. intros [] ? ? ?. constructor; cbn; auto using empty_ip_port_ok. Qed.

Lemma update_client_with_reset_ok now c ip :
  client_ok c → src_ok ip → is_u64 now → client_ok (update_client_with_reset now c ip).
Proof.
  intros Hc [Hip Hfam] Hn. unfold update_client_with_reset, net_family_is_ipv4.
  destruct (_ =? _) eqn:E4.
  - apply on_assoc6_ok; [|auto with dht]. apply on_assoc4_ok; [done|]. intros Ha. apply reset_assoc_ok; (done || lia).
  - apply on_assoc4_ok; [|auto with dht]. apply on_assoc6_ok; [done|]. intros Ha.
    apply reset_assoc_ok; [done|done| |done]. destruct Hfam; [lia|done].
Qed.

Lemma update_client_data_ok n now l ip pk self :
  clients_ok n l → ip_port_ok ip → clients_ok n (update_client_data now l ip pk self).2.
Proof.
  intros Hl Hip. unfold update_client_data. destruct index_of_client_pk as [i|]; [|done].
  destruct (net_family_is_ipv4 _); [|destruct (net_family_is_ipv6 _); [|done]].
  - apply clients_insert; [done|]. apply on_assoc4_ok; [eauto with dht|]. intros []. by constructor.
  - apply clients_insert; [done|]. apply on_assoc6_ok; [eauto with dht|]. intros []. by constructor.
Qed.

Lemma set_announce_node_in_list_ok n l pk : clients_ok n l → clients_ok n (set_announce_node_in_list l pk).
Proof.
  intros Hl. unfold set_announce_node_in_list. destruct index_of_client_pk as [i|]; [|done].
  apply clients_insert; [done|]. assert (client_ok (client_at l i)) as [] by eauto with dht. by constructor.
Qed.

Lemma add_to_list_rec_ok n depth : ∀ l pk ip cmp, nodes_ok n l → key_ok pk → ip_port_ok ip →
  nodes_ok n (add_to_list_rec depth l pk ip cmp).2.
Proof.
  induction depth as [|depth IH]; intros l pk ip cmp Hl Hpk Hip; cbn [add_to_list_rec];
    (destruct index_of as [i|]; [|done]);
    (assert (nodes_ok n (<[i := mkNode pk ip]> l)) as Hi;
     [destruct Hl; split; [unfold zlen in *; by rewrite length_insert|apply Forall_insert; eauto with dht]|]);
    (destruct (negb _); [|done]); [done|].
  apply IH; [done|..]; (destruct (l !! i) as [x|] eqn:E; cbn [from_option id];
    [destruct Hl as [_ Hl]; apply (Forall_lookup_1 _ _ _ _ Hl) in E as (? & ? & ?); done|]);
    [apply zeros_key_ok|apply empty_ip_port_ok].
Qed.

Lemma add_to_list_ok n l pk ip cmp : nodes_ok n l → key_ok pk → ip_port_ok ip → nodes_ok n (add_to_list l pk ip cmp).2.
Proof. apply add_to_list_rec_ok. Qed.

Lemma add_to_bootstrap_ok n l num pk ip cmp l' num' :
  nodes_ok n l → 0 <= num <= n → key_ok pk → ip_port_ok ip → add_to_bootstrap l num n pk ip cmp = (l', num') →
  nodes_ok n l' ∧ 0 <= num' <= n.
Proof.
  intros Hl Hn Hpk Hip. unfold add_to_bootstrap. destruct (num <? n) eqn:E; intros [= <- <-].
  - split; [eauto with dht|lia].
  - split; [by apply add_to_list_ok|lia].
Qed.

(** [ip_port_normalize] gives an address of UDP again. *)
Lemma ip_port_normalize_ok p : src_ok p → src_ok (ip_port_normalize p).
Proof.
  intros [[[Hl Hb] Hp] Hf]. unfold ip_port_normalize. destruct (_ && _); [|done].
  split; [|by left]. split; [|done]. split; cbn.
  - rewrite zlen_app, length_slice by lia. unfold zlen in *. rewrite length_drop. lia.
  - apply Forall_app. split; [by apply slice_bytes_ok|by apply Forall_drop].
Qed.

#[export] Hint Resolve update_client_with_reset_ok client_or_ip_port_in_list_ok update_client_data_ok
  set_announce_node_in_list_ok add_to_list_ok ip_port_normalize_ok set_key_ok : dht.

Lemma src_ip_port p : src_ok p → ip_port_ok p.
Proof. by intros []. Qed.
#[export] Hint Resolve src_ip_port : dht.

Lemma sort_client_list_ok {Q : Qsort} {QL : QsortLaws Q} n alloc l t pk :
  clients_ok n l → clients_ok n (sort_client_list alloc l t pk).
Proof.
  intros [Hn Hl]. unfold sort_client_list. destruct (negb alloc); [done|].
  pose proof (qsort_perm _ (dht_cmp_entry t pk) l) as Hp. split; [unfold zlen in *; by rewrite Hp|by rewrite Hp].
Qed.

Lemma replace_all_ok {Q : Qsort} {QL : QsortLaws Q} n alloc t now l pk ip comp :
  clients_ok n l → key_ok pk → ip_port_ok ip → is_u64 now → clients_ok n (replace_all alloc t now l pk ip comp).2.
Proof.
  intros Hl Hpk Hip Hn. unfold replace_all, net_family_is_ipv4, net_family_is_ipv6.
  destruct (negb _ && negb _) eqn:E; [done|]. destruct (negb _ && negb (store_node_ok _ _ _ _)); [done|]. cbn [snd].
  assert (clients_ok n (sort_client_list alloc l t comp)) as Hs by (by apply sort_client_list_ok).
  apply clients_insert; [done|]. apply update_client_with_reset_ok; [eauto with dht| |done].
  split; [done|]. unfold TOX_AF_INET, TOX_AF_INET6 in *. lia.
Qed.

Section sound.
Context {Sod : Sodium} {Law : SodiumLaws Sod} {Q : Qsort} {QL : QsortLaws Q}.

Definition cache_ok (t : Mono_Time) (sk : bytes) (c : Shared_Key_Cache) : Prop :=
  SharedKeyCache.wf (cache_at t c) ∧ skc_timeout c = 0 ∧ skc_self_secret_key c = sk.

Record dht_wf (d : DHT) : Prop := {
  w_time : time_ok (dht_mono_time d);
  w_cur : 1000 <= dht_cur_time d < 2 ^ 63;
  w_self : key_ok (dht_self_public_key d);
  w_close : clients_ok LCLIENT_LIST (dht_close_clientlist d);
  w_friends : Forall friend_wf (dht_friends_list d);
  w_loaded : Forall udp_node (loaded_nodes d);
  w_recv : cache_ok (dht_mono_time d) (dht_self_secret_key d) (dht_shared_keys_recv d);
  w_sent : cache_ok (dht_mono_time d) (dht_self_secret_key d) (dht_shared_keys_sent d);
  w_ping : pings_ok PING_NUM_MAX (p_ping_array (dht_ping d));
  w_to_ping : nodes_ok MAX_TO_PING (p_to_ping (dht_ping d));
  w_ping_array : pings_ok DHT_PING_ARRAY_SIZE (dht_ping_array d);
  w_nodes : nodes_ok MAX_CLOSE_TO_BOOTSTRAP_NODES (dht_to_bootstrap d);
  w_num : 0 <= dht_num_to_bootstrap d <= MAX_CLOSE_TO_BOOTSTRAP_NODES
}.

(** ** Hoare logic *)

(** [m] keeps the invariant and its result satisfies [φ]. *)
Definition hoare {A} (m : M A) (φ : A → Prop) : Prop := ∀ d, dht_wf d → φ (m d).1 ∧ dht_wf (m d).2.
Abbreviation keeps m := (hoare m (λ _, True)).

Lemma hoare_ret {A} (x : A) (φ : A → Prop) : φ x → hoare (mret x) φ.
Proof. done. Qed.

Lemma hoare_bind {A B} (m : M A) (f : A → M B) φ ψ :
  hoare m φ → (∀ x, φ x → hoare (f x) ψ) → hoare (m ≫= f) ψ.
Proof.
  intros Hm Hf d Hd. unfold mbind, M_bind. destruct (Hm d Hd) as [Hx Hd']. destruct (m d) as [x d']. by apply Hf.
Qed.

Lemma hoare_weaken {A} (m : M A) (φ ψ : A → Prop) : hoare m φ → (∀ x, φ x → ψ x) → hoare m ψ.
Proof. intros Hm Hw d Hd. destruct (Hm d Hd). auto. Qed.

Lemma hoare_get {A} (f : DHT → A) (φ : A → Prop) : (∀ d, dht_wf d → φ (f d)) → hoare (get f) φ.
Proof. intros H d Hd. split; [by apply H|done]. Qed.

Lemma hoare_modify f : (∀ d, dht_wf d → dht_wf (f d)) → keeps (modify f).
Proof. intros H d Hd. split; [done|by apply H]. Qed.

Lemma hoare_for_each {A} (l : list A) f : (∀ x, x ∈ l → keeps (f x)) → keeps (for_each l f).
Proof.
  induction l as [|x l IH]; intros Hf; cbn [for_each]; [by apply hoare_ret|].
  eapply hoare_bind; [apply Hf; by left|]. intros ? _. apply IH. intros y Hy. apply Hf. by right.
Qed.

(** Fields the invariant does not mention, or only with their own condition. *)
Ltac wf_fields := intros; match goal with H : dht_wf _ |- _ => destruct H; constructor; done end.

Lemma hoare_draw {A} (f : Random → A * Random) (φ : A → Prop) : (∀ r, φ (f r).1) → hoare (draw f) φ.
Proof.
  intros H d Hd. unfold draw. specialize (H (dht_rng d)). destruct (f (dht_rng d)) as [x r]. split; [done|]. wf_fields.
Qed.

Lemma hoare_sendpacket ip data : keeps (m_sendpacket ip data).
Proof. intros d Hd. unfold m_sendpacket. destruct sendpacket. split; [done|]. wf_fields. Qed.

(** Follows the structure of a monadic function. *)
Ltac step :=
  match goal with
  | |- hoare (mret _) _ => apply hoare_ret
  | |- hoare (_ ≫= _) _ => eapply hoare_bind; [|intros ? ?]
  | |- hoare (if ?b then _ else _) _ => destruct b eqn:?
  | |- hoare (m_sendpacket _ _) _ => apply hoare_sendpacket
  | |- hoare (for_each _ _) _ => apply hoare_for_each; intros
  end.
Ltac steps := repeat (step; eauto with dht).

(** ** Keys and pings *)

Lemma lookup_keeps t sk c pk : cache_ok t sk c → time_ok t → bytes_ok pk →
  let '(k, c') := shared_key_cache_lookup (cache_at t c) pk in
  k = encrypt_precompute pk sk ∧ cache_ok t sk c'.
Proof using.
  intros (Hw & Ht & Hs) Htime Hb.
  pose proof (shared_key_cache_lookup_ok (cache_at t c) pk Hw (aget_byte pk 8 Hb)) as H.
  assert (skc_timeout (shared_key_cache_lookup (cache_at t c) pk).2 = 0 ∧
          cache_at t (shared_key_cache_lookup (cache_at t c) pk).2 = (shared_key_cache_lookup (cache_at t c) pk).2) as [E1 E2].
  { unfold shared_key_cache_lookup. destruct bucket_lookup as [f b]. cbn. split; [|done]. exact Ht. }
  destruct shared_key_cache_lookup as [k c']. cbn [snd] in *. destruct H as (-> & Hw' & Hs').
  cbn [cache_at skc_self_secret_key] in *. rewrite Hs in *. split; [done|]. unfold cache_ok. rewrite E2. done.
Qed.

Lemma hoare_key_recv pk : bytes_ok pk → keeps (dht_get_shared_key_recv pk).
Proof using.
  intros Hb d []. unfold dht_get_shared_key_recv.
  pose proof (lookup_keeps _ _ _ pk w_recv0 w_time0 Hb) as H.
  destruct shared_key_cache_lookup as [k c]. destruct H as [_ H]. split; [done|]. by constructor.
Qed.

Lemma hoare_key_sent pk : bytes_ok pk → keeps (dht_get_shared_key_sent pk).
Proof using.
  intros Hb d []. unfold dht_get_shared_key_sent.
  pose proof (lookup_keeps _ _ _ pk w_sent0 w_time0 Hb) as H.
  destruct shared_key_cache_lookup as [k c]. destruct H as [_ H]. split; [done|]. by constructor.
Qed.

Lemma pings_add size a t rnd alloc data len : pings_ok size a → time_ok t →
  pings_ok size (ping_array_add a t rnd alloc data len).2.
Proof using.
  intros (Hw & Ht & Hs) Htime.
  pose proof (ping_array_add_ok a t rnd alloc data len Hw) as H. cbn zeta in H.
  destruct ping_array_add as [id a']. destruct H as (Hw' & Hs' & Ht' & _).
  - unfold clock_ok, time_ok, PING_TIMEOUT in *. lia.
  - split_and!; cbn [snd]; [done|by rewrite Ht'|by rewrite Hs'].
Qed.

Lemma pings_check size a t len id : pings_ok size a → 0 <= id → pings_ok size (ping_array_check a t len id).2.
Proof using.
  intros (Hw & Ht & Hs) Hid. pose proof (ping_array_check_ok a t len id Hw Hid) as H.
  split; [done|]. unfold ping_array_check. cbn zeta. repeat case_match; done.
Qed.

Lemma hoare_ping_add alloc data len : keeps (m_ping_array_add alloc data len).
Proof using.
  unfold m_ping_array_add. eapply hoare_bind.
  { instantiate (1 := λ _, True). destruct alloc; [by apply hoare_draw|by apply hoare_ret]. }
  intros rnd _ d []. unfold act. pose proof (pings_add _ _ _ rnd alloc data len w_ping_array0 w_time0) as H.
  destruct ping_array_add as [id a]. split; [done|]. by constructor.
Qed.

Lemma hoare_p_ping_add alloc data len : keeps (p_ping_array_add alloc data len).
Proof using.
  unfold p_ping_array_add. eapply hoare_bind.
  { instantiate (1 := λ _, True). destruct alloc; [by apply hoare_draw|by apply hoare_ret]. }
  intros rnd _ d []. unfold act. pose proof (pings_add _ _ _ rnd alloc data len w_ping0 w_time0) as H.
  destruct ping_array_add as [id a]. split; [done|]. by constructor.
Qed.

Lemma hoare_ping_check len id : 0 <= id → keeps (m_ping_array_check len id).
Proof using.
  intros Hid d []. unfold m_ping_array_check. pose proof (pings_check _ _ (dht_mono_time d) len id w_ping_array0 Hid) as H.
  destruct ping_array_check as [[l b] a]. split; [done|]. by constructor.
Qed.

Lemma hoare_p_ping_check len id : 0 <= id → keeps (p_ping_array_check len id).
Proof using.
  intros Hid d []. unfold p_ping_array_check. pose proof (pings_check _ _ (dht_mono_time d) len id w_ping0 Hid) as H.
  destruct ping_array_check as [[l b] a]. split; [done|]. by constructor.
Qed.

#[local] Hint Resolve hoare_sendpacket hoare_key_recv hoare_key_sent hoare_ping_add hoare_p_ping_add hoare_ping_check
  hoare_p_ping_check : dht.

Lemma hoare_draw_any {A} (f : Random → A * Random) : keeps (draw f).
Proof using. by apply hoare_draw. Qed.

Lemma hoare_get_any {A} (f : DHT → A) : keeps (get f).
Proof using. by apply hoare_get. Qed.

Lemma hoare_now : hoare now is_u64.
Proof using. apply hoare_get. intros d []. unfold time_ok, is_u64 in *. lia. Qed.

Lemma hoare_now_range : hoare now (λ t, 1000 <= t < 2 ^ 63).
Proof using. apply hoare_get. by intros d []. Qed.

Lemma hoare_get_friends : hoare (get dht_friends_list) (Forall friend_wf).
Proof using. apply hoare_get. by intros d []. Qed.

Lemma hoare_get_to_ping : hoare (get (λ d, p_to_ping (dht_ping d))) (nodes_ok MAX_TO_PING).
Proof using. apply hoare_get. by intros d []. Qed.

#[local] Hint Resolve hoare_get_friends hoare_get_to_ping hoare_draw_any hoare_now | 1 : dht.
#[local] Hint Resolve hoare_get_any | 10 : dht.

Lemma set_friends_wf d l : dht_wf d → Forall friend_wf l → dht_wf (d <| dht_friends_list := l |>).
Proof using. intros [] ?. by constructor. Qed.

Lemma set_close_wf d l : dht_wf d → clients_ok LCLIENT_LIST l → dht_wf (d <| dht_close_clientlist := l |>).
Proof using. intros [] ?. by constructor. Qed.

Lemma hoare_set_friend i f : (∀ x, friend_wf x → friend_wf (f x)) → keeps (set_friend i f).
Proof using.
  intros Hf. apply hoare_modify. intros d Hd. apply set_friends_wf; [done|]. destruct Hd.
  apply Forall_alter; [done|]. intros x _. apply Hf.
Qed.

(** ** The close list *)

Lemma first_bit_loop_nonneg n : ∀ j a b, 0 <= j → 0 <= first_bit_loop n j a b.
Proof using. induction n as [|n IH]; intros j a b Hj; cbn [first_bit_loop]; [done|]. cases; [done|]. apply IH. lia. Qed.

Lemma bit_by_bit_loop_nonneg a : ∀ b i, 0 <= i → 0 <= bit_by_bit_loop i a b.
Proof using.
  induction a as [|x a IH]; intros [|y b] i Hi; cbn [bit_by_bit_loop]; try lia. cases; [apply IH; lia|].
  pose proof (first_bit_loop_nonneg 8 0 x y). lia.
Qed.

Lemma close_index_range a b : 0 <= close_index a b < LCLIENT_LENGTH.
Proof using.
  unfold close_index, bit_by_bit_cmp. pose proof (bit_by_bit_loop_nonneg a b 0).
  cbn zeta. cases; unfold LCLIENT_LENGTH in *; lia.
Qed.

Lemma close_bucket_ok d pk : dht_wf d → clients_ok LCLIENT_NODES (close_bucket d pk).
Proof using.
  intros []. destruct w_close0 as [Hn Hl]. unfold close_bucket.
  pose proof (close_index_range pk (dht_self_public_key d)).
  change LCLIENT_LIST with 1024 in *. unfold LCLIENT_LENGTH in *. change LCLIENT_NODES with 8 in *.
  split; [unfold zlen in *; rewrite length_take, length_drop; lia|by apply Forall_take, Forall_drop].
Qed.

Lemma set_close_bucket_wf d pk b : dht_wf d → clients_ok LCLIENT_NODES b → dht_wf (set_close_bucket d pk b).
Proof using.
  intros Hd [Hb Hbf]. apply set_close_wf; [done|]. destruct Hd. destruct w_close0 as [Hn Hl].
  pose proof (close_index_range pk (dht_self_public_key d)).
  change LCLIENT_LIST with 1024 in *. unfold LCLIENT_LENGTH in *. change LCLIENT_NODES with 8 in *. split.
  - unfold zlen in *. rewrite !length_app, length_take, length_drop. lia.
  - repeat (apply Forall_app; split); [by apply Forall_take|done|by apply Forall_drop].
Qed.

Lemma hoare_set_announce_node pk : keeps (set_announce_node pk).
Proof using.
  unfold set_announce_node. step.
  { apply hoare_modify. intros d Hd. apply set_close_bucket_wf; [done|].
    apply set_announce_node_in_list_ok. by apply close_bucket_ok. }
  step; [apply hoare_get_any|]. step. apply hoare_set_friend. intros f []. constructor; cbn; auto with dht.
Qed.

Context (alloc : bool).

Lemma hoare_send_announce_ping pk ip : bytes_ok pk → keeps (send_announce_ping alloc pk ip).
Proof using.
  intros Hb. unfold send_announce_ping. steps. destruct x. steps. destruct dht_create_packet; steps.
Qed.

Lemma hoare_add_to_close pk ip simulate : key_ok pk → src_ok ip → keeps (add_to_close alloc pk ip simulate).
Proof using.
  intros Hk Hip. unfold add_to_close. step.
  { apply hoare_get with (φ := clients_ok LCLIENT_NODES). intros d Hd. by apply close_bucket_ok. }
  steps. destruct free_slot as [i|]; [|steps]. steps.
  - apply hoare_modify. intros d Hd. apply set_close_bucket_wf; [done|]. apply clients_insert; [done|].
    assert (client_ok (update_client_with_reset x1 ((client_at x i) <| c_public_key := pk |>) ip)) as [].
    { apply update_client_with_reset_ok; eauto with dht. }
    by constructor.
  - apply hoare_send_announce_ping. by destruct Hk.
Qed.

#[local] Hint Resolve hoare_set_announce_node hoare_send_announce_ping hoare_add_to_close : dht.

Lemma key_bytes pk : key_ok pk → bytes_ok pk.
Proof using. by intros []. Qed.
#[local] Hint Resolve key_bytes : dht.

(** ** Lists of nodes to ask *)

Lemma friend_wants_node_ok t pk ip f : friend_wf f → key_ok pk → ip_port_ok ip → friend_wf (friend_wants_node t pk ip f).2.
Proof using.
  intros Hf Hk Hip. unfold friend_wants_node. destruct index_of_node_pk; [done|]. destruct (_ && _); [|done].
  destruct add_to_bootstrap as [l num] eqn:E. destruct Hf.
  apply add_to_bootstrap_ok in E as [Hl Hnum]; [|done..]. by constructor.
Qed.

Lemma hoare_ping_node pk ip : key_ok pk → src_ok ip → keeps (ping_node_from_getnodes_ok alloc pk ip).
Proof using.
  intros Hk Hip. unfold ping_node_from_getnodes_ok, is_pk_in_close_list. steps.
  - apply hoare_modify. intros d Hd. destruct index_of_node_pk; [done|]. destruct (_ && _); [|done].
    destruct add_to_bootstrap as [l num] eqn:E. destruct Hd.
    apply add_to_bootstrap_ok in E as [Hl Hnum]; [|eauto with dht..]. by constructor.
  - apply hoare_modify. intros d Hd. apply set_friends_wf; [done|]. rewrite !Forall_fmap.
    eapply list.Forall_impl; [exact H3|]. intros f Hf. apply friend_wants_node_ok; eauto with dht.
Qed.

Lemma addto_friend_ok t now ip pk f : friend_wf f → key_ok pk → ip_port_ok ip → is_u64 now →
  friend_wf (addto_friend alloc t now ip pk f).2.
Proof using QL.
  intros [] Hk Hip Hn. unfold addto_friend.
  pose proof (client_or_ip_port_in_list_ok _ now _ pk ip fr_clients0 Hk Hip Hn) as Hl.
  destruct client_or_ip_port_in_list as [[] l]; [by constructor|]. cbn [snd] in Hl.
  pose proof (replace_all_ok _ alloc t now l pk ip (f_public_key f) Hl Hk Hip Hn) as Hr.
  destruct replace_all as [s l']. by constructor.
Qed.

Lemma hoare_addto_lists ip pk : src_ok ip → key_ok pk → keeps (addto_lists alloc ip pk).
Proof using QL.
  intros Hip Hk. unfold addto_lists. cbv zeta. step; [apply hoare_now|].
  eapply hoare_bind with (φ := λ _, True); [|intros found _].
  { intros d Hd. unfold act. pose proof Hd as [].
    pose proof (client_or_ip_port_in_list_ok _ x _ pk (ip_port_normalize ip) w_close0 Hk) as Hl.
    destruct client_or_ip_port_in_list as [found l]. cbn [snd] in Hl. split; [done|].
    apply set_close_wf; [done|]. apply Hl; eauto with dht. }
  eapply hoare_bind with (φ := λ _, True); [destruct found; steps|intros used _]. steps.
  - apply hoare_modify. intros d Hd. apply set_friends_wf; [done|]. rewrite !Forall_fmap.
    eapply list.Forall_impl; [eassumption|]. intros f Hf. apply addto_friend_ok; eauto with dht.
  - destruct (head _) as [[]|]; steps. apply hoare_modify. intros d' Hd. wf_fields.
Qed.

Lemma returned_to_friends_ok t ip pk npk friends : Forall friend_wf friends → ip_port_ok ip →
  Forall friend_wf (returned_to_friends t ip pk npk friends).
Proof using.
  intros Hf Hip. induction Hf as [|f friends Hf Hfs IH]; cbn [returned_to_friends]; [constructor|].
  destruct pk_equal; [|by constructor]. pose proof Hf as [].
  pose proof (update_client_data_ok _ t _ ip npk false fr_clients0 Hip) as Hl.
  destruct update_client_data as [[] l]; constructor; try done; by constructor.
Qed.

Lemma hoare_returnedip_ports ip pk npk : src_ok ip → keeps (returnedip_ports ip pk npk).
Proof using.
  intros Hip. unfold returnedip_ports. cbv zeta. steps. apply hoare_modify. intros d Hd.
  destruct pk_equal; [apply set_close_wf|apply set_friends_wf]; try done; destruct Hd.
  - apply update_client_data_ok; eauto with dht.
  - apply returned_to_friends_ok; eauto with dht.
Qed.

#[local] Hint Resolve hoare_ping_node hoare_addto_lists hoare_returnedip_ports : dht.

(** ** Requests and responses *)

Lemma hoare_dht_getnodes ip pk client_id : bytes_ok pk → keeps (dht_getnodes alloc ip pk client_id).
Proof using.
  intros Hk. unfold dht_getnodes. steps. destruct pack_nodes; steps. destruct dht_create_packet; steps.
Qed.

Lemma hoare_sendnodes ip pk cid sb len k : keeps (sendnodes_ipv6 alloc ip pk cid sb len k).
Proof using.
  unfold sendnodes_ipv6. steps.
  destruct x0 as [nodes num]. destruct (if 0 <? num then _ else _); [|steps]. steps. destruct dht_create_packet; steps.
Qed.

Lemma hoare_ping_send_request ip pk : bytes_ok pk → keeps (ping_send_request alloc ip pk).
Proof using. intros Hk. unfold ping_send_request. steps. destruct encrypt_with. steps. Qed.

Lemma hoare_ping_send_response ip pk id k : keeps (ping_send_response alloc ip pk id k).
Proof using. unfold ping_send_response. steps. destruct encrypt_with. steps. Qed.

#[local] Hint Resolve hoare_dht_getnodes hoare_sendnodes hoare_ping_send_request hoare_ping_send_response : dht.

Lemma hoare_set_to_ping l : nodes_ok MAX_TO_PING l → keeps (set_to_ping l).
Proof using. intros Hl. apply hoare_modify. intros d []. by constructor. Qed.

Lemma to_ping_loop_ok pk ip : key_ok pk → ip_port_ok ip → ∀ l l' full,
  Forall node_ok l → to_ping_loop l pk ip = (Some l', full) → Forall node_ok l' ∧ length l' = length l.
Proof using.
  intros Hk Hip. induction l as [|n l IH]; intros l' full Hl; cbn [to_ping_loop]; [done|].
  inversion Hl; subst. destruct (negb _).
  { intros [= <- _]. split; [constructor; eauto with dht|done]. }
  destruct pk_equal; [done|]. destruct to_ping_loop as [[r|] full'] eqn:E; [|done].
  intros [= <- _]. destruct (IH r full') as [? ?]; [done|done|]. split; [by constructor|simpl; lia].
Qed.

Lemma hoare_ping_add_node pk ip : key_ok pk → src_ok ip → keeps (ping_add alloc pk ip).
Proof using.
  intros Hk Hip. unfold ping_add, node_addable_to_close_list. steps.
  - destruct to_ping_loop as [[l|] full] eqn:E.
    + destruct H2 as [Hn Hl]. apply to_ping_loop_ok in E as [Hl' Hlen]; [|eauto with dht..].
      steps. apply hoare_set_to_ping. split; [unfold zlen in *; lia|done].
    + destruct full; [|steps]. steps.
      pose proof (add_to_list_ok _ _ pk ip x3 H2 Hk (src_ip_port _ Hip)) as Ha.
      destruct add_to_list as [added l]. steps. by apply hoare_set_to_ping.
Qed.
#[local] Hint Resolve hoare_ping_add_node : dht.

(** ** Handlers *)

(** A packet from the network. *)
Definition packet_ok (p : bytes) (len : Z) : Prop := bytes_ok p ∧ zlen p = len ∧ len < 2 ^ 16.

Lemma packet_key p len off : packet_ok p len → 0 <= off → off + 32 <= len → key_ok (slice off 32 p).
Proof using. intros (Hb & Hl & _) ? ?. split; [apply length_slice; lia|by apply slice_bytes_ok]. Qed.

Lemma decrypt_with_ok al k nonce c len l m :
  bytes_ok c → decrypt_with al k nonce c len = (l, m) → bytes_ok m.
Proof using Law.
  intros Hc. unfold decrypt_with. destruct k as [k|]; [|intros [= <- <-]; constructor].
  destruct al; [by apply decrypt_ok|]. unfold decrypt_data_symmetric. cbn [negb]. cases; intros [= <- <-]; constructor.
Qed.

Lemma le_slice_nonneg off n p : bytes_ok p → 0 <= le_val (slice off n p).
Proof using. intros. apply le_val_range. by apply slice_bytes_ok. Qed.

(** A packet that decrypts has the length of its plain text. *)
Lemma decrypt_with_length al k nonce c len l m :
  zlen c = len → decrypt_with al k nonce c len = (l, m) → l ≠ -1 → l = len - 16 ∧ zlen m = l.
Proof using Law.
  intros Hc. unfold decrypt_with. destruct k as [k|]; [|intros [= <- <-]; done].
  destruct al; [intros E Hl; apply decrypt_genuine in E as (? & ? & _); done|].
  unfold decrypt_data_symmetric. cbn [negb]. cases; intros [= <- <-]; done.
Qed.

#[local] Hint Resolve le_slice_nonneg slice_bytes_ok : dht.

Ltac sizes := unfold DHT_PING_SIZE, PING_PLAIN_SIZE, CRYPTO_NODE_SIZE, CRYPTO_SIZE, CRYPTO_PUBLIC_KEY_SIZE,
  CRYPTO_NONCE_SIZE, CRYPTO_MAC_SIZE in *.

(** Opens the decryption in the middle of a handler. *)
Ltac open_packet :=
  match goal with
  | Hp : packet_ok ?p _ |- context [decrypt_with ?al ?k ?n (drop ?i ?p) ?len] =>
      let m := fresh "m" in let Em := fresh "Em" in let Hm := fresh "Hm" in
      destruct (decrypt_with al k n (drop i p) len) as [? m] eqn:Em;
      assert (bytes_ok m) as Hm by (eapply decrypt_with_ok; [|exact Em]; destruct Hp; by apply Forall_drop)
  end.

Lemma hoare_handle_ping_request src p len : src_ok src → packet_ok p len → keeps (handle_ping_request alloc src p len).
Proof using Law.
  intros Hs Hp. unfold handle_ping_request. sizes. step; [steps|].
  assert (key_ok (slice 1 32 p)) by (eapply packet_key; [done|lia|lia]).
  steps. open_packet. steps.
Qed.

Lemma hoare_handle_ping_response src p len : src_ok src → packet_ok p len → keeps (handle_ping_response alloc src p len).
Proof using Law QL.
  intros Hs Hp. unfold handle_ping_response. sizes. step; [steps|].
  assert (key_ok (slice 1 32 p)) by (eapply packet_key; [done|lia|lia]).
  steps. open_packet. steps. destruct x1. steps.
Qed.

Lemma hoare_handle_getnodes src p len : src_ok src → packet_ok p len → keeps (handle_getnodes alloc src p len).
Proof using Law.
  intros Hs Hp. unfold handle_getnodes. sizes. step; [steps|].
  assert (key_ok (slice 1 32 p)) by (eapply packet_key; [done|lia|lia]).
  steps. open_packet. steps.
Qed.

Lemma hoare_handle_data_search src p len : packet_ok p len → keeps (handle_data_search_response alloc src p len).
Proof using Law.
  intros Hp. unfold handle_data_search_response. sizes. step; [steps|].
  assert (key_ok (slice 1 32 p)) by (eapply packet_key; [done|lia|lia]).
  steps. open_packet. steps. destruct x0. steps.
Qed.

Lemma hoare_sent_getnode pk ip id : 0 <= id → keeps (sent_getnode_to_node pk ip id).
Proof using.
  intros Hid. unfold sent_getnode_to_node. steps. destruct x as [l data]. steps.
  destruct unpack_nodes as [[[|? []] ?]|]; steps.
Qed.
#[local] Hint Resolve hoare_sent_getnode : dht.

Lemma udp_node_src n : udp_node n → key_ok (nf_public_key n) ∧ src_ok (nf_ip_port n).
Proof using.
  intros [(Hk & Hb & Hip) Hf]. split; [done|]. split; [done|].
  unfold packable, node_family, ipp_family in *. cbn [andb] in Hf. lia.
Qed.

Lemma hoare_sendnodes_core src p len max : src_ok src → packet_ok p len →
  hoare (handle_sendnodes_core alloc src p len max) (λ r, match r with Some nodes => Forall udp_node nodes | None => True end).
Proof using Law QL.
  intros Hs Hp. unfold handle_sendnodes_core. sizes. cbv zeta. step; [steps|].
  assert (key_ok (slice 1 32 p)) by (eapply packet_key; [done|lia|lia]).
  steps. change (SIZEOF_NODE_FORMAT * MAX_SENT_NODES) with 256 in *. open_packet. step; [steps|].
  apply decrypt_with_length in Em as [Hl Hz]; [| |intros ->; change (u32 (-1)) with 4294967295 in *; lia].
  2:{ destruct Hp as (_ & Hl & _). unfold zlen in *. rewrite length_drop. lia. }
  steps. destruct unpack_nodes as [[nodes processed]|] eqn:Eu; [|steps].
  unfold unpack_nodes in Eu. apply unpack_nodes_loop_spec in Eu as (H3 & H4 & _);
    [|by apply Forall_drop|unfold zlen in *; rewrite length_drop; lia|lia|lia].
  steps. apply Forall_and; [done|]. eapply list.Forall_impl; [exact H4|]. by intros n [].
Qed.

Lemma hoare_handle_sendnodes src p len : src_ok src → packet_ok p len → keeps (handle_sendnodes_ipv6 alloc src p len).
Proof using Law QL.
  intros Hs Hp. unfold handle_sendnodes_ipv6. step; [by apply hoare_sendnodes_core|]. destruct x as [nodes|]; [|steps].
  rewrite list.Forall_forall in H. eapply hoare_bind with (φ := λ _, True); [|intros; steps].
  apply hoare_for_each. intros n Hn. destruct (udp_node_src n (H n Hn)). steps.
  apply hoare_modify. intros d Hd. destruct (dht_get_nodes_response d); [wf_fields|done].
Qed.

(** ** Friends *)

Lemma lor_u32 x y : is_u32 x → is_u32 y → is_u32 (Z.lor x y).
Proof using.
  unfold is_u32. intros Hx Hy. assert (0 <= Z.lor x y) by (apply Z.lor_nonneg; lia). split; [done|].
  destruct (Z.eq_dec (Z.lor x y) 0) as [->|]; [lia|]. apply Z.log2_lt_pow2; [lia|].
  rewrite Z.log2_lor by lia.
  assert (∀ z, 0 <= z < 2 ^ 32 → Z.log2 z < 32) as Hlog.
  { intros z Hz. destruct (Z.eq_dec z 0) as [->|]; [done|]. apply Z.log2_lt_pow2; lia. }
  pose proof (Hlog x Hx). pose proof (Hlog y Hy). lia.
Qed.

Lemma land_u32 x y : is_u32 x → 0 <= y → is_u32 (Z.land x y).
Proof using.
  unfold is_u32. intros Hx Hy. assert (0 <= Z.land x y) by (apply Z.land_nonneg; lia). split; [done|].
  destruct (Z.eq_dec (Z.land x y) 0) as [->|]; [lia|]. apply Z.log2_lt_pow2; [lia|].
  pose proof (Z.log2_land x y). destruct (Z.eq_dec x 0) as [->|]; [by rewrite Z.land_0_l in *|].
  assert (Z.log2 x < 32) by (apply Z.log2_lt_pow2; lia). lia.
Qed.

(** The search for a lock gives a bit number. *)
Lemma index_of_seq_lt (test : nat → bool) n i : index_of test (seq 0 n) = Some i → (i < n)%nat ∧ test i = true.
Proof using.
  intros (l1 & x & l2 & E & <- & Hx & _)%index_of_Some.
  assert (seq 0 n !! length l1 = Some x) as Hl by (rewrite E; by apply list_lookup_middle).
  apply lookup_seq in Hl as [-> Hl]. done.
Qed.

Lemma shiftl_1_u32 i : (i < 32)%nat → is_u32 (Z.shiftl 1 (Z.of_nat i)).
Proof using.
  intros Hi. rewrite Z.shiftl_1_l. unfold is_u32. split; [lia|]. apply Z.pow_lt_mono_r; lia.
Qed.

Lemma friend_lock_ok f cb data number : friend_wf f → friend_wf (dht_friend_lock f cb data number).2.
Proof using.
  intros []. unfold dht_friend_lock. destruct (free_lock _) as [i|] eqn:E; [|done].
  apply index_of_seq_lt in E as [Hi _]. constructor; cbn; try done.
  - apply lor_u32; [done|]. by apply shiftl_1_u32.
  - unfold zlen in *. by rewrite length_insert.
Qed.

Lemma friend_unlock_ok f token f' : friend_wf f → dht_friend_unlock f token = Some f' → friend_wf f'.
Proof using.
  intros []. unfold dht_friend_unlock. destruct (negb _); [done|].
  destruct index_of; intros [= <-]; constructor; cbn; try done.
  - apply land_u32; [done|]. apply u32_range.
  - unfold zlen in *. by rewrite length_insert.
Qed.

Lemma empty_friend_ok : friend_wf empty_dht_friend.
Proof using.
  constructor; cbn; try done; [apply zeros_key_ok| |].
  - split; [done|]. apply (Forall_replicate _ 8). apply empty_client_ok.
  - split; [done|]. apply (Forall_replicate _ 4). apply empty_node_ok.
Qed.

Lemma sent_assoc_ok fam c : client_ok c → ip_port_ok (a_ip_port (sent_assoc fam c)).
Proof using. intros [_ [] []]. unfold sent_assoc. by cases. Qed.

Lemma close_nodes_step_ok t pk fam lan ann nodes num c :
  nodes_ok MAX_SENT_NODES nodes ∧ 0 <= num <= MAX_SENT_NODES → client_ok c →
  let '(nodes', num') := close_nodes_step t pk fam lan ann (nodes, num) c in
  nodes_ok MAX_SENT_NODES nodes' ∧ 0 <= num' <= MAX_SENT_NODES.
Proof using.
  intros [Hn Hnum] Hc. unfold close_nodes_step. destruct index_of_node_pk; [done|]. cbv zeta.
  pose proof (sent_assoc_ok fam c Hc) as Ha. destruct Hc as [Hk _ _].
  destruct (assoc_timeout _ _); [done|]. destruct (_ && negb lan); [done|]. destruct (ann && _); [done|].
  destruct (num <? _) eqn:E; [split; [apply nodes_aset; eauto with dht|lia]|split; [by apply add_to_list_ok|lia]].
Qed.

Lemma get_close_nodes_inner_ok t pk fam lan ann l nodes num :
  nodes_ok MAX_SENT_NODES nodes ∧ 0 <= num <= MAX_SENT_NODES → Forall client_ok l →
  let '(nodes', num') := get_close_nodes_inner t pk fam lan ann l (nodes, num) in
  nodes_ok MAX_SENT_NODES nodes' ∧ 0 <= num' <= MAX_SENT_NODES.
Proof using.
  intros Hn Hl. unfold get_close_nodes_inner. destruct (_ && _ && _); [done|]. revert nodes num Hn.
  induction Hl as [|c l Hc _ IH]; intros nodes num Hn; cbn [foldl]; [done|].
  pose proof (close_nodes_step_ok t pk fam lan ann nodes num c Hn Hc) as H.
  destruct close_nodes_step. by apply IH.
Qed.

Lemma get_close_nodes_ok t close friends pk fam lan ann :
  Forall client_ok close → Forall (Forall client_ok) friends →
  let '(nodes, num) := get_close_nodes t close friends pk fam lan ann in
  nodes_ok MAX_SENT_NODES nodes ∧ 0 <= num <= MAX_SENT_NODES.
Proof using.
  intros Hc Hf. unfold get_close_nodes, get_somewhat_close_nodes. cbv zeta.
  pose proof (get_close_nodes_inner_ok t pk fam lan ann close
    (replicate (Z.to_nat MAX_SENT_NODES) empty_node_format) 0) as H.
  destruct get_close_nodes_inner as [nodes num].
  assert (nodes_ok MAX_SENT_NODES nodes ∧ 0 <= num <= MAX_SENT_NODES) as Hn.
  { apply H; [|done]. split; [|done]. split; [done|]. apply (Forall_replicate _ 4), empty_node_ok. }
  clear H. revert nodes num Hn. induction Hf as [|f friends Hl _ IH]; intros nodes num Hn; cbn [foldl]; [done|].
  pose proof (get_close_nodes_inner_ok t pk fam lan ann f nodes num Hn Hl) as H.
  destruct get_close_nodes_inner. by apply IH.
Qed.

Lemma hoare_get_close_nodes pk fam lan ann :
  hoare (m_get_close_nodes pk fam lan ann) (λ r, nodes_ok MAX_SENT_NODES r.1 ∧ 0 <= r.2 <= MAX_SENT_NODES).
Proof using.
  apply hoare_get. intros d [].
  pose proof (get_close_nodes_ok (dht_cur_time d) (dht_close_clientlist d) (f_client_list <$> dht_friends_list d) pk fam lan ann) as H.
  destruct get_close_nodes. apply H; [by destruct w_close0|]. apply Forall_fmap.
  eapply list.Forall_impl; [exact w_friends0|]. by intros f [_ [_ Hf] _ _ _ _].
Qed.

Lemma friend_lookup_ok friends i : Forall friend_wf friends → friend_wf (default empty_dht_friend (friends !! i)).
Proof using.
  intros Hf. destruct (friends !! i) eqn:E; [by apply (Forall_lookup_1 _ _ _ _ Hf E)|apply empty_friend_ok].
Qed.

Lemma hoare_addfriend pk cb data number : key_ok pk → keeps (dht_addfriend alloc pk cb data number).
Proof using.
  intros Hk. unfold dht_addfriend. steps. destruct index_of_friend_pk as [i|].
  - pose proof (friend_lock_ok _ cb data number (friend_lookup_ok x i H)) as Hf. destruct dht_friend_lock as [tok f]. steps.
    apply hoare_set_friend. intros _ _. exact Hf.
  - steps. set (f0 := (empty_dht_friend <| f_public_key := pk |>) <| f_nat := _ |>).
    assert (friend_wf f0) as Hf0 by (pose proof empty_friend_ok as []; by constructor).
    pose proof (friend_lock_ok f0 cb data number Hf0) as Hf. destruct dht_friend_lock as [tok f]. cbn [snd] in Hf.
    eapply hoare_bind with (φ := λ _, True).
    { apply hoare_modify. intros d Hd. apply set_friends_wf; [done|]. destruct Hd.
      apply Forall_app. split; [done|]. by apply Forall_singleton. }
    intros _ _. step; [apply hoare_get_close_nodes|]. destruct x1 as [nodes num]. steps.
    apply hoare_set_friend. intros f' []. cbn [fst snd] in H1. destruct H1. by constructor.
Qed.

Lemma hoare_delfriend pk token : keeps (dht_delfriend alloc pk token).
Proof using.
  unfold dht_delfriend. steps. destruct index_of_friend_pk as [i|]; [|steps].
  destruct dht_friend_unlock as [f|] eqn:E; [|steps]. apply friend_unlock_ok in E; [|by apply friend_lookup_ok].
  steps.
  - apply hoare_set_friend. intros _ _. exact E.
  - apply hoare_modify. intros d Hd. apply set_friends_wf; [done|]. destruct Hd. apply Forall_take.
    destruct (_ =? _)%nat; [done|]. apply Forall_insert; [done|]. by apply friend_lookup_ok.
Qed.

#[local] Hint Resolve hoare_addfriend hoare_delfriend hoare_get_close_nodes : dht.

(** ** The main loop *)

Lemma hoare_node_addable pk ip : keeps (node_addable_to_close_list alloc pk ip).
Proof using. unfold node_addable_to_close_list, add_to_close. steps. Qed.

Lemma hoare_ping_iterate_loop rounds : ∀ i, keeps (ping_iterate_loop alloc rounds i).
Proof using.
  induction rounds as [|rounds IH]; intros i; cbn [ping_iterate_loop]; [by apply hoare_ret|].
  step. { apply hoare_get with (φ := node_ok). intros d []. destruct w_to_ping0 as [_ H].
    destruct (_ !! i) eqn:E; [by apply (Forall_lookup_1 _ _ _ _ H E)|apply empty_node_ok]. }
  destruct H as (_ & Hk & _). step; [by apply hoare_ret|]. step; [apply hoare_node_addable|]. step; [apply IH|].
  step; [by apply hoare_ping_send_request|]. step; [|apply IH].
  apply hoare_modify. intros d []. destruct w_to_ping0 as [Hn Hl]. constructor; try done. split; cbn.
  - unfold zlen in *. by rewrite length_alter.
  - apply Forall_alter; [done|]. intros n _ (? & ? & [? ?]). split_and!; [done|done|]. split; [|done].
    apply empty_ip_port_ok.
Qed.

Lemma hoare_ping_iterate : keeps (ping_iterate alloc).
Proof using.
  unfold ping_iterate. steps; [apply hoare_ping_iterate_loop|]. apply hoare_modify. wf_fields.
Qed.

Lemma ping_assoc_keeps n pk i is6 st : clients_ok n st.1 →
  hoare (ping_assoc alloc pk i is6 st) (λ st', clients_ok n st'.1).
Proof using.
  destruct st as [l r]. cbn [fst]. intros Hl. unfold ping_assoc.
  assert (client_ok (client_at l i)) as Hc by eauto with dht.
  do 3 (step; [eauto with dht|]). step; [|by step].
  eapply hoare_bind with (φ := clients_ok n); [|intros l' Hl'; by step].
  step; [|by step]. step; [apply hoare_dht_getnodes; by destruct Hc as [[] _ _]|]. step.
  apply clients_insert; [done|]. destruct is6; [apply on_assoc6_ok|apply on_assoc4_ok]; try done; intros []; by constructor.
Qed.

Lemma ping_clients_keeps n pk rounds : ∀ i st, clients_ok n st.1 →
  hoare (ping_clients alloc pk rounds i st) (λ st', clients_ok n st'.1).
Proof using.
  induction rounds as [|rounds IH]; intros i st Hst; cbn [ping_clients]; [by apply hoare_ret|].
  step; [by apply (ping_assoc_keeps n)|]. step; [by apply (ping_assoc_keeps n)|]. by apply IH.
Qed.

Lemma requests_keep n last pk l times sortable : clients_ok n l →
  hoare (do_ping_and_sendnode_requests alloc last pk l times sortable) (λ '(_, l', _, _), clients_ok n l').
Proof using QL.
  intros Hl. unfold do_ping_and_sendnode_requests. step; [by step|].
  step; [apply hoare_now|]. step; [apply hoare_get_any|]. step; [apply hoare_get_any|].
  step; [by apply (ping_clients_keeps n)|]. destruct x2 as [l' r]. cbn [fst] in H2.
  set (l'' := if sortable && _ then _ else _).
  assert (clients_ok n l'') as Hl'' by (subst l''; destruct (_ && _); [by apply sort_client_list_ok|done]).
  cbv zeta. step; [|by step]. step; [apply hoare_draw_any|]. step; [instantiate (1 := λ _, True); steps|].
  destruct (aget _ _ _) as [i is6]. step; [|by step]. apply hoare_dht_getnodes.
  assert (client_ok (client_at l'' i)) as [] by eauto with dht. by destruct cl_key0.
Qed.

Lemma friend_at_ok d i : dht_wf d → friend_wf (friend_at d i).
Proof using. intros []. by apply friend_lookup_ok. Qed.

Lemma hoare_getnodes_list nodes client_id :
  Forall node_ok nodes → keeps (for_each nodes (λ n, dht_getnodes alloc (nf_ip_port n) (nf_public_key n) client_id;; mret tt)).
Proof using.
  intros Hn. apply hoare_for_each. intros n Hin. eapply list.Forall_forall in Hn as (_ & ? & _); [|exact Hin].
  steps.
Qed.

Lemma hoare_do_dht_friend i : keeps (do_dht_friend alloc i).
Proof using QL.
  unfold do_dht_friend. step.
  { apply hoare_get with (φ := friend_wf). intros d Hd. by apply friend_at_ok. }
  pose proof H as []. step; [apply hoare_getnodes_list, Forall_take; by destruct fr_nodes0|].
  step; [apply hoare_set_friend; intros f []; by constructor|]. step; [by apply requests_keep|].
  destruct x2 as [[[k l] last] times]. apply hoare_set_friend. intros f []. by constructor.
Qed.

Lemma hoare_do_dht_friends : keeps (do_dht_friends alloc).
Proof using QL. unfold do_dht_friends, friend_indices. steps. apply hoare_do_dht_friend. Qed.

Lemma reset_bad_ok fam t a : is_u64 t → assoc_ok fam a → assoc_ok fam (reset_bad t a).
Proof using. intros Ht []. unfold reset_bad. cases; constructor; cbn; try done. intros _. apply as_seen0. lia. Qed.

Lemma hoare_do_Close : keeps (do_Close alloc).
Proof using QL.
  unfold do_Close. step.
  { apply hoare_get with (φ := Forall node_ok). intros d []. apply Forall_take. by destruct w_nodes0. }
  step; [apply hoare_get_any|]. step; [by apply hoare_getnodes_list|].
  step; [apply hoare_modify; intros d []; by constructor|].
  step; [by apply hoare_get with (φ := dht_wf)|]. pose proof H3 as [].
  step; [by apply (requests_keep LCLIENT_LIST)|].
  destruct x4 as [[[k l] last] times]. step; [apply hoare_modify; intros d []; by constructor|].
  steps. apply hoare_modify. intros d Hd. apply set_close_wf; [done|]. destruct Hd as [_ _ _ [Hn Hl] _ _ _ _ _ _ _ _ _].
  split; [unfold zlen in *; by rewrite length_fmap|]. apply Forall_fmap. eapply list.Forall_impl; [exact Hl|].
  intros c []. constructor; cbn; [done|apply reset_bad_ok; [apply u64_range|done]..].
Qed.

Lemma hoare_dht_bootstrap ip pk : bytes_ok pk → keeps (dht_bootstrap alloc ip pk).
Proof using. intros Hb. unfold dht_bootstrap. steps. Qed.

#[local] Hint Resolve hoare_dht_bootstrap hoare_ping_iterate hoare_do_dht_friends hoare_do_Close : dht.

Lemma hoare_handle_LANdiscovery src p len : packet_ok p len → keeps (handle_LANdiscovery alloc src p len).
Proof using. intros [Hb _]. unfold handle_LANdiscovery. steps. Qed.

(** ** Routing and hole punching *)

Lemma hoare_get_wf : hoare (get id) dht_wf.
Proof using. by apply hoare_get. Qed.
#[local] Hint Resolve hoare_get_wf | 0 : dht.

Lemma hoare_route_packet pk p : keeps (route_packet pk p).
Proof using. unfold route_packet. steps. destruct x; steps. Qed.

Lemma hoare_send_to_first p addrs : keeps (send_to_first p addrs).
Proof using. induction addrs; cbn [send_to_first]; steps. Qed.

Lemma hoare_send_to_clients p clients : keeps (send_to_clients p clients).
Proof using. induction clients; cbn [send_to_clients]; steps. apply hoare_send_to_first. Qed.

Lemma hoare_route_to_friend pk p : keeps (route_to_friend pk p).
Proof using. unfold route_to_friend. steps. destruct index_of_friend_pk; steps. apply hoare_send_to_clients. Qed.

Lemma hoare_routeone_to_friend pk p : keeps (routeone_to_friend pk p).
Proof using. unfold routeone_to_friend. steps. destruct index_of_friend_pk; steps. Qed.

#[local] Hint Resolve hoare_route_packet hoare_route_to_friend hoare_routeone_to_friend : dht.

Lemma hoare_send_NATping stack pk id type : keeps (send_NATping alloc stack pk id type).
Proof using.
  unfold send_NATping. steps. destruct create_request; [|steps].
  eapply hoare_bind with (φ := λ _, True); [|intros; steps]. steps.
Qed.
#[local] Hint Resolve hoare_send_NATping : dht.

(** Changes to the NAT state of a friend keep the invariant. *)
Lemma hoare_set_nat i f : keeps (set_friend i (λ x, x <| f_nat := f x |>)).
Proof using. apply hoare_set_friend. intros x []. by constructor. Qed.
#[local] Hint Resolve hoare_set_nat : dht.

Lemma hoare_handle_NATping stack src pk p len : keeps (handle_NATping alloc stack src pk p len).
Proof using. unfold handle_NATping. steps. destruct index_of_friend_pk; steps. Qed.

Lemma hoare_punch_holes ip ports i : keeps (punch_holes alloc ip ports i).
Proof using.
  unfold punch_holes. cbv zeta. step; [apply hoare_get_wf|]. step; [by step|]. step; [by step|].
  assert (bytes_ok (f_public_key (friend_at x i))) as Hk by (pose proof (friend_at_ok x i H) as [[]]; done).
  eapply hoare_bind with (φ := λ _, True); [steps|]. intros _ _.
  eapply hoare_bind with (φ := λ _, True); [steps|]. intros _ _. apply hoare_set_nat.
Qed.

Lemma hoare_do_NAT stack : keeps (do_NAT alloc stack).
Proof using.
  unfold do_NAT, friend_indices. steps. unfold do_NAT_friend. steps.
  destruct friend_iplist as [num l]. step; [by step|].
  eapply hoare_bind with (φ := λ _, True); [steps|intros _ _]. step; [|by step]. step; [by step|].
  eapply hoare_bind with (φ := λ _, True); [steps|intros _ _]. step; [apply hoare_punch_holes|]. apply hoare_set_nat.
Qed.

#[local] Hint Resolve hoare_handle_NATping hoare_do_NAT : dht.

(** ** Packets and rounds *)

Lemma hoare_cryptopacket handlers stack src p len :
  (∀ id f src pk data n, handlers id = Some f → keeps (f src pk data n)) →
  keeps (cryptopacket_handle alloc handlers stack src p len).
Proof using.
  intros Hf. unfold cryptopacket_handle. step; [by step|]. step; [apply hoare_get_wf|]. step; [|steps].
  destruct handle_request as [[[pk id] data]|]; [|by step]. step; [by step|].
  destruct (handlers id) eqn:E; [by eapply Hf|by step].
Qed.

Lemma hoare_poll_packet stack src p len : src_ok src → packet_ok p len → keeps (poll_packet alloc stack src p len).
Proof using Law QL.
  intros Hs Hp. unfold poll_packet. step; [by step|]. destruct dht_packethandlers as [f|] eqn:E; [|by step].
  step; [|by step]. revert E. unfold dht_packethandlers. cases; intros [= <-].
  - by apply hoare_handle_ping_request.
  - by apply hoare_handle_ping_response.
  - by apply hoare_handle_getnodes.
  - by apply hoare_handle_sendnodes.
  - apply hoare_cryptopacket. intros id f' src' pk data n. unfold dht_cryptopackethandlers. cases; [|done].
    intros [= <-]. apply hoare_handle_NATping.
  - by apply hoare_handle_LANdiscovery.
  - by apply hoare_handle_data_search.
Qed.

Lemma hoare_bootstrap_loaded rounds : keeps (bootstrap_loaded alloc rounds).
Proof using.
  induction rounds as [|rounds IH]; cbn [bootstrap_loaded]; [by apply hoare_ret|].
  step.
  { apply hoare_get with (φ := node_ok). intros d []. unfold aget.
    destruct (_ !! _) eqn:E; [by apply (Forall_lookup_1 _ _ _ _ w_loaded0 E)|apply empty_node_ok]. }
  destruct H as (_ & Hb & _). step; [by apply hoare_dht_bootstrap|].
  step; [apply hoare_modify; wf_fields|]. apply IH.
Qed.

Lemma hoare_connect_after_load : keeps (dht_connect_after_load alloc).
Proof using.
  unfold dht_connect_after_load. step; [apply hoare_get_wf|]. destruct dht_loaded_nodes_list; [|by step].
  step; step; try (by step); [|apply hoare_bootstrap_loaded].
  apply hoare_modify. intros d []. by constructor; try apply list.Forall_nil.
Qed.

Lemma hoare_do_dht stack : keeps (do_dht alloc stack).
Proof using QL.
  unfold do_dht. step; [apply hoare_now_range|]. step; [apply hoare_get_wf|]. step; [by step|].
  step; [apply hoare_modify; intros d []; by constructor|].
  eapply hoare_bind with (φ := λ _, True); [step; steps; apply hoare_connect_after_load|intros _ _].
  step; [apply hoare_do_Close|]. step; [apply hoare_do_dht_friends|]. step; [apply hoare_do_NAT|].
  apply hoare_ping_iterate.
Qed.

(** ** Loading *)

Lemma set_loaded_wf d l : dht_wf d → Forall udp_node (default [] l) → dht_wf (d <| dht_loaded_nodes_list := l |>).
Proof using. intros [] H. by constructor. Qed.

Lemma load_callback_wf d data len type : dht_wf d → bytes_ok data → zlen data = len →
  dht_wf (dht_load_state_callback alloc d data len type).2.
Proof using.
  intros Hd Hb Hl. unfold dht_load_state_callback. cbn [snd]. cases; try done; [by apply set_loaded_wf, list.Forall_nil|].
  destruct unpack_nodes as [[nodes n]|] eqn:E; [|by apply set_loaded_wf, list.Forall_nil].
  unfold unpack_nodes in E. pose proof (u16_range len). pose proof (zlen_nonneg data).
  assert (u16 len <= len) by (subst; wrap_lia).
  apply unpack_nodes_loop_spec in E as (Hn & Hf & _); [|done|lia|unfold is_u16 in *; lia|unfold is_u16 in *; lia].
  apply set_loaded_wf; [done|]. apply Forall_and; [done|]. eapply list.Forall_impl; [exact Hf|]. by intros n' [].
Qed.

(** [state_load] keeps what its callback keeps. *)
Lemma state_load_loop_keeps {O} (P : O → Prop) callback cookie fuel :
  (∀ o data len type, P o → bytes_ok data → zlen data = len → P (callback o data len type).2) →
  ∀ o data len, P o → bytes_ok data → zlen data = len → P (state_load_loop callback fuel o data len cookie).2.
Proof using.
  intros Hcb. induction fuel as [|fuel IH]; intros o data len Ho Hb Hl; cbn [state_load_loop]; [done|].
  destruct (8 <=? len) eqn:E8; [|by cases]. cbv zeta. cases; try done.
  set (sub := lendian_bytes_to_host32 data) in *.
  assert (0 <= sub) by (apply le_slice_nonneg; done).
  assert (zlen (drop 8 data) = len - 8) by (unfold zlen in *; rewrite length_drop; lia).
  assert (bytes_ok (drop 8 data)) by (by apply Forall_drop).
  match goal with |- context [callback o ?b sub ?t] =>
    pose proof (Hcb o b sub t Ho (slice_bytes_ok 0 sub (drop 8 data) ltac:(done)) ltac:(apply length_slice; lia)) as Ho';
    destruct (callback o b sub t) as [status o'] end.
  cbn [snd] in Ho'. destruct status; [|done..]. apply IH; [done|by apply Forall_drop|].
  unfold zlen in *. rewrite !length_drop in *. lia.
Qed.

Lemma dht_load_wf d data : dht_wf d → bytes_ok data → dht_wf (dht_load alloc d data (zlen data)).2.
Proof using.
  intros Hd Hb. unfold dht_load. cases; try done. unfold state_load.
  apply state_load_loop_keeps; [intros; by apply load_callback_wf|done|by apply Forall_drop|].
  unfold zlen in *. rewrite length_drop. lia.
Qed.

Lemma tick_wf d t : dht_wf d → time_ok t → dht_wf (d <| dht_mono_time := t |>).
Proof using.
  intros [] Ht. constructor; cbn; try done.
  - destruct w_recv0 as ([] & E & Hs). split; [|done]. constructor; cbn in *; try done; rewrite ?E in *;
      unfold time_ok in *; lia.
  - destruct w_sent0 as ([] & E & Hs). split; [|done]. constructor; cbn in *; try done; rewrite ?E in *;
      unfold time_ok in *; lia.
Qed.

(** ** Creation *)

Lemma hoare_add_fake_friends n : keeps (add_fake_friends alloc n).
Proof using.
  induction n as [|n IH]; cbn [add_fake_friends]; [by apply hoare_ret|].
  eapply hoare_bind with (φ := λ x, key_ok x.1).
  { apply hoare_draw. intros r. unfold crypto_new_keypair. destruct rng_keypair as [pk sk]. cbn.
    split; [|apply Forall_take, Forall_fmap, Forall_true; intros; apply u8_range].
    unfold zlen. rewrite length_take, length_fmap, length_app, length_zeros. lia. }
  intros [pk sk] Hk. step; [by apply hoare_addfriend|]. destruct x as [res tok]. steps.
Qed.

Lemma fresh_cache_ok t sk k : time_ok t → 0 < k < 2 ^ 8 →
  cache_ok t sk (mkCache (replicate (Z.to_nat (256 * k)) zero_key) sk 0 t k).
Proof using.
  intros Ht Hk. unfold time_ok in *. split; [|done]. apply (fresh_wf t sk k); lia.
Qed.

Lemma new_cache_ok t sk timeout c : time_ok t →
  shared_key_cache_new alloc alloc t sk timeout MAX_KEYS_PER_SLOT = Some c → cache_ok t sk c.
Proof using.
  intros Ht. unfold shared_key_cache_new. cases; try done. intros E.
  assert (Some c = Some (mkCache (replicate (Z.to_nat (256 * MAX_KEYS_PER_SLOT)) zero_key) sk 0 t MAX_KEYS_PER_SLOT)) as Ec by done.
  apply (inj Some) in Ec as ->. by apply (fresh_cache_ok t sk MAX_KEYS_PER_SLOT).
Qed.

Lemma new_pings_ok k a : 0 <= k <= 30 → ping_array_new alloc alloc (2 ^ k) PING_TIMEOUT = Some a → pings_ok (2 ^ k) a.
Proof using.
  intros Hk E. assert (alloc = true) as ->.
  { revert E. unfold ping_array_new. cbn zeta. destruct alloc; [done|]. cases; done. }
  pose proof E as E'. apply ping_array_new_wf in E'; [|done|done]. split; [done|].
  revert E. unfold ping_array_new. cbn zeta. cases; intros [= <-]; done.
Qed.

Lemma new_dht_wf t rng net hp lan d : time_ok t → new_dht alloc t rng net hp lan = Some d → dht_wf d.
Proof using.
  intros Ht. unfold new_dht. destruct (negb alloc) eqn:Ea; [done|].
  destruct ping_array_new as [pings|] eqn:Ep; [|done]. destruct crypto_new_keypair as [[pk sk] rng'] eqn:Ek.
  destruct shared_key_cache_new as [c|] eqn:Ec; [|done].
  apply (new_cache_ok _ _ _ _ Ht) in Ec.
  pose proof (new_pings_ok 9 pings ltac:(lia) Ep) as Hp.
  set (d0 := mkDHT _ _ _ _ _ _ _ _ _ _ _ _ _ _ _ _ _ _ _ _ _ _).
  assert (dht_wf d0) as Hd.
  { revert Ek. unfold crypto_new_keypair. destruct rng_keypair as [pk0 sk0]. intros [= <- <- <-].
    subst d0. constructor; cbn; try done.
    - split; [|apply Forall_take, Forall_fmap, Forall_true; intros; apply u8_range].
      unfold zlen. rewrite length_take, length_fmap, length_app, length_zeros. lia.
    - split; [done|]. apply (Forall_replicate _ 1024), empty_client_ok.
    - split; [done|]. apply (Forall_replicate _ 32), empty_node_ok.
    - split; [done|]. apply (Forall_replicate _ 8), empty_node_ok. }
  destruct (hoare_add_fake_friends (Z.to_nat DHT_FAKE_FRIEND_NUMBER) d0 Hd) as [_ H].
  destruct add_fake_friends as [ok d1]. cases; intros [= <-]. done.
Qed.
End sound.

(** ** Reachable nodes *)

(** What can happen to a node: a packet, a round of the main loop, the clock and
    the calls of its users, each with its own outcome of the allocations. *)
Inductive dht_step {Sod : Sodium} {Q : Qsort} : DHT → DHT → Prop :=
  | step_packet alloc stack source data d :
      src_ok source → packet_ok data (zlen data) →
      dht_step d (poll_packet alloc stack source data (zlen data) d).2
  | step_round alloc stack d : dht_step d (do_dht alloc stack d).2
  | step_tick t d : time_ok t → dht_step d (d <| dht_mono_time := t |>)
  | step_addfriend alloc pk cb data number d : key_ok pk → dht_step d (dht_addfriend alloc pk cb data number d).2
  | step_delfriend alloc pk token d : dht_step d (dht_delfriend alloc pk token d).2
  | step_bootstrap alloc ip pk d : key_ok pk → dht_step d (dht_bootstrap alloc ip pk d).2
  | step_load alloc data d : bytes_ok data → dht_step d (dht_load alloc d data (zlen data)).2.

Definition dht_reachable {Sod : Sodium} {Q : Qsort} (d : DHT) : Prop :=
  ∃ alloc t rng net hp lan d0, time_ok t ∧ new_dht alloc t rng net hp lan = Some d0 ∧ rtc dht_step d0 d.

Lemma dht_step_wf {Sod : Sodium} {Law : SodiumLaws Sod} {Q : Qsort} {QL : QsortLaws Q} d d' :
  dht_step d d' → dht_wf d → dht_wf d'.
Proof.
  intros [] Hd; [by apply hoare_poll_packet|by apply hoare_do_dht|by apply tick_wf|by apply hoare_addfriend
    |by apply hoare_delfriend|apply hoare_dht_bootstrap; [by destruct H|done]|by apply dht_load_wf].
Qed.

(** C17: whatever packets arrive, however the clock runs, whichever allocations
    fail and whatever its user asks for, a DHT node created by [new_dht] stays
    well formed: every list has its size and every counter stays inside its
    list, IPv4 addresses are only stored in IPv4 associations and IPv6 addresses
    in IPv6 ones, the key caches hold only keys that belong to their public key
    and the ping arrays stay consistent.  The user has fewer than 65536 friends. *)
Theorem reachable_dht_wf {Sod : Sodium} {Law : SodiumLaws Sod} {Q : Qsort} {QL : QsortLaws Q} d :
  dht_reachable d → dht_wf d.
Proof.
  intros (alloc & t & rng & net & hp & lan & d0 & Ht & E & Hs). apply new_dht_wf in E; [|done].
  clear -Hs E Law QL. induction Hs as [|d0 d1 d Hs _ IH]; [done|]. apply IH. by eapply dht_step_wf.
Qed.

(** A new node. *)
Definition demo_dht : DHT :=
  default (mkDHT (mkMonoTime 0 0) sample_rng sample_net false false [] 0 0 [] [] [] None 0
             (mkCache [] [] 0 (mkMonoTime 0 0) 0) (mkCache [] [] 0 (mkMonoTime 0 0) 0)
             (mkPing (mkPingArray [] 0 0 0 0) [] 0) (mkPingArray [] 0 0 0 0) 0 [] 0 false [])
    (new_dht true (mkMonoTime 1000 0) sample_rng sample_net true true).

Definition demo_addr : IP_Port := mkIPPort (mkIP TOX_AF_INET ([10; 0; 0; 1] ++ zeros 12)) 33445.

(** It bootstraps, its clock moves and it does a round of its main loop. *)
Definition demo_run : DHT :=
  (do_dht (Sod := toy_sodium) true []
     ((dht_bootstrap (Sod := toy_sodium) true demo_addr (replicate 32 7) demo_dht).2
        <| dht_mono_time := mkMonoTime 1010 0 |>)).2.

Lemma reachable_dht_wf_witness : dht_wf (Sod := toy_sodium) demo_run ∧ zlen (net_log (dht_net demo_run)) = 1.
Proof.
  split; [|vm_compute; reflexivity].
  apply (@reachable_dht_wf toy_sodium toy_sodium_laws isort isort_laws).
  exists true, (mkMonoTime 1000 0), sample_rng, sample_net, true, true, demo_dht.
  split; [by unfold time_ok|]. split; [vm_compute; reflexivity|].
  eapply rtc_l; [|eapply rtc_l; [|eapply rtc_l; [|apply rtc_refl]]].
  - apply (step_bootstrap true demo_addr (replicate 32 7)). split; [done|]. by apply (Forall_replicate _ 32).
  - apply (step_tick (mkMonoTime 1010 0)). by unfold time_ok.
  - apply (step_round true []).
Defined.
