(* ===== verification/DhtProtocol.v ===== *)
(** * DhtProtocol: node requests between two DHT nodes

    Runs the handlers of two nodes against each other.  A node request that
    reaches its destination brings back the nodes the other node knows closest to
    the key asked for, and a response nobody asked for changes no list. *)
From stdpp Require Import sorting.
From S2P Require Import Prelude MonoTime CryptoCore SharedKeyCache PingArray State Network LanDiscovery.
From S2P Require Import World DhtDistance DhtPackets DhtLists Dht DhtLoop DhtSound.

(** ** Running the monad *)

Lemma pk_equal_ne a b : a ≠ b → pk_equal a b = false.
Proof. intros H. unfold pk_equal, bytes_eqb. by apply bool_decide_eq_false. Qed.
Lemma pk_equal_refl a : pk_equal a a = true.
Proof. unfold pk_equal, bytes_eqb. by apply bool_decide_eq_true. Qed.

Lemma draw_same {X A} (f : DHT → X) (g : Random → A * Random) :
  (∀ d r, f (d <| dht_rng := r |>) = f d) → frame f (draw g).
Proof. intros Hf d. unfold draw. destruct (g _). apply Hf. Qed.

Ltac framed := repeat first
  [ apply frame_bind; [|intros ?] | by apply draw_same | apply frame_for_each; intros ? | done
  | intros ?; cbv [act modify get m_sendpacket]; repeat case_match; done | progress case_match ].

(** ** The parts of an exchange *)

Definition dual_stack (d : DHT) : Prop := net_family (dht_net d) = TOX_AF_INET6.

(** The log of a node after one more packet. *)
Definition logged (d d' : DHT) (p : IP_Port) (data : bytes) : Prop :=
  net_log (dht_net d') = net_log (dht_net d) ++ [(wire_dest p, data)].

Lemma sendpacket_run d p data : dual_stack d → src_ok p →
  ∃ res net, m_sendpacket p data d = (res, d <| dht_net := net |>) ∧ net_family net = TOX_AF_INET6 ∧
    net_log net = net_log (dht_net d) ++ [(wire_dest p, data)].
Proof.
  intros Hn [_ Hf]. unfold m_sendpacket. rewrite (send_dual _ _ _ Hn Hf). eexists _, _. split; [done|]. by split.
Qed.

Section exchange.
Context {Sod : Sodium} {Law : SodiumLaws Sod} {Q : Qsort} {QL : QsortLaws Q}.

Lemma key_sent_run d pk : dht_wf d → bytes_ok pk →
  ∃ c, dht_get_shared_key_sent pk d = (encrypt_precompute pk (dht_self_secret_key d), d <| dht_shared_keys_sent := c |>).
Proof using.
  intros Hd Hb. unfold dht_get_shared_key_sent. pose proof (lookup_keeps _ _ _ pk (w_sent _ Hd) (w_time _ Hd) Hb) as H.
  destruct shared_key_cache_lookup as [k c]. destruct H as [-> _]. eauto.
Qed.

Lemma key_recv_run d pk : dht_wf d → bytes_ok pk →
  ∃ c, dht_get_shared_key_recv pk d = (encrypt_precompute pk (dht_self_secret_key d), d <| dht_shared_keys_recv := c |>).
Proof using.
  intros Hd Hb. unfold dht_get_shared_key_recv. pose proof (lookup_keeps _ _ _ pk (w_recv _ Hd) (w_time _ Hd) Hb) as H.
  destruct shared_key_cache_lookup as [k c]. destruct H as [-> _]. eauto.
Qed.

(** The entry of a ping array for an id. *)
Definition has_ping (a : Ping_Array) (t : Mono_Time) (id : Z) (data : bytes) : Prop :=
  0 < id < 2 ^ 64 ∧
  pa_entry a (id mod pa_total_size a) = mkEntry (Some data) (zlen data) (mono_time_get t) id.

Lemma ping_array_add_run d data len : dht_wf d → 0 <= len <= zlen data → len < 2 ^ 31 →
  ∃ id rng a, m_ping_array_add true data len d = (id, d <| dht_rng := rng |> <| dht_ping_array := a |>) ∧
    has_ping a (dht_mono_time d) id (slice 0 len data).
Proof using.
  intros Hd Hl Hlen. pose proof (w_time _ Hd) as Htime. unfold m_ping_array_add.
  destruct (random_u64 (dht_rng d)) as [rnd rng] eqn:Er.
  assert (draw random_u64 d = (rnd, d <| dht_rng := rng |>)) as E by (unfold draw; by rewrite Er).
  run E. unfold act. apply random_u64_ok in Er.
  destruct (w_ping_array _ Hd) as (Hw & Ht & Hs).
  assert (clock_ok (dht_ping_array d) (dht_mono_time d)) as Hc by (unfold clock_ok, time_ok, PING_TIMEOUT in *; lia).
  pose proof (ping_array_add_ok _ _ rnd true data len Hw Hc) as H. cbn zeta in H.
  change (dht_ping_array (d <| dht_rng := rng |>)) with (dht_ping_array d).
  change (dht_mono_time (d <| dht_rng := rng |>)) with (dht_mono_time d).
  destruct ping_array_add as [id a]. destruct H as (_ & Hsz & _ & -> & _ & He & _).
  destruct (new_ping_id_ok _ rnd _ Hw Er (slot_range _ (pa_last_added (dht_ping_array d)) Hw)) as [Hid Hm].
  exists (new_ping_id (pa_total_size (dht_ping_array d)) rnd (pa_last_added (dht_ping_array d) mod pa_total_size (dht_ping_array d))), rng, a.
  split; [done|]. split; [done|]. rewrite Hsz, Hm, He by done. f_equal. symmetry. apply length_slice; lia.
Qed.

Lemma ping_array_check_run a t id data len : has_ping a t id data → PingArray.wf a → time_ok t →
  zlen data <= len → zlen data < 2 ^ 31 →
  ping_array_check a t len id = (zlen data, data, clear_entry a (id mod pa_total_size a)).
Proof using.
  intros [Hid He] Hw Ht Hl Hlen. pose proof (zlen_nonneg data). unfold ping_array_check. rewrite He.
  replace (id =? 0) with false by lia. cbn [pe_ping_id pe_ping_time pe_length pe_data]. rewrite Z.eqb_refl. cbn [negb].
  destruct Hw. unfold time_ok in *.
  replace (mono_time_is_timeout _ _ _) with false by (symmetry; apply is_timeout_false; lia).
  replace (len <? zlen data) with false by lia. rewrite s32_small by lia. by rewrite slice_all.
Qed.

(** ** The nodes a node sends *)

Lemma add_to_list_rec_Forall (P : Node_format → Prop) depth : ∀ l pk ip cmp, Forall P l → P (mkNode pk ip) →
  Forall P (add_to_list_rec depth l pk ip cmp).2.
Proof using.
  induction depth as [|depth IH]; intros l pk ip cmp Hl Hn; cbn [add_to_list_rec];
    (destruct index_of as [i|] eqn:Ei; [|done]);
    (assert (Forall P (<[i := mkNode pk ip]> l)) by (by apply Forall_insert));
    (destruct (negb _); [|done]); [done|].
  apply IH; [done|]. apply index_of_Some in Ei as (l1 & x & l2 & -> & <- & _).
  rewrite list_lookup_middle by done. cbn. apply Forall_app in Hl as [_ [Hx _]%list.Forall_cons]. by destruct x.
Qed.

Lemma assoc_live_seen t a : 1000 <= t → assoc_timeout t a = false → a_timestamp a ≠ 0.
Proof using.
  intros Ht Ha E. unfold assoc_timeout in Ha. rewrite E in Ha.
  assert (u64 (0 + BAD_NODE_TIMEOUT) < 1000) by (by vm_compute). lia.
Qed.

Lemma sent_assoc_udp t fam c : client_ok c → 1000 <= t → assoc_timeout t (sent_assoc fam c) = false →
  udp_node (mkNode (c_public_key c) (a_ip_port (sent_assoc fam c))).
Proof using.
  intros Hc Ht Ha%assoc_live_seen; [|done]. pose proof (sent_assoc_ok fam c Hc) as Hip.
  destruct Hc as [[Hk Hb] [_ _ _ _ S4] [_ _ _ _ S6]]. split; [by split_and!|].
  revert Ha. unfold sent_assoc, node_family, packable, ipp_family in *. cbn [nf_ip_port].
  rewrite !orb_true_iff, !Z.eqb_eq. intros Ha. left. revert Ha. cases; auto.
Qed.

(** The first [num] nodes have UDP addresses. *)
Definition sendable_nodes (st : list Node_format * Z) : Prop :=
  nodes_ok MAX_SENT_NODES st.1 ∧ 0 <= st.2 <= MAX_SENT_NODES ∧ Forall udp_node (take (Z.to_nat st.2) st.1).

Lemma close_nodes_step_udp t pk fam lan ann st c : 1000 <= t → client_ok c → sendable_nodes st →
  sendable_nodes (close_nodes_step t pk fam lan ann st c).
Proof using.
  destruct st as [nodes num]. intros Ht Hc (Hn & Hnum & Hu). cbn [fst snd] in *.
  pose proof (close_nodes_step_ok t pk fam lan ann nodes num c (conj Hn Hnum) Hc) as Hok. revert Hok.
  unfold close_nodes_step. destruct index_of_node_pk; [done|]. cbv zeta.
  destruct (assoc_timeout _ _) eqn:Ea; [done|]. destruct (_ && negb lan); [done|]. destruct (ann && _); [done|].
  pose proof (sent_assoc_udp t fam c Hc Ht Ea) as Hnew. destruct Hn as [Hz _].
  change MAX_SENT_NODES with 4 in *. unfold zlen in Hz. destruct (num <? 4) eqn:E; intros [? ?]; (split; [done|]); (split; [done|]); cbn [fst snd].
  - unfold aset. replace (Z.to_nat (num + 1)) with (S (Z.to_nat num)) by lia.
    rewrite (take_S_r _ _ (mkNode (c_public_key c) (a_ip_port (sent_assoc fam c)))) by (apply list_lookup_insert_eq; lia).
    rewrite take_insert_ge by lia. apply Forall_app. split; [done|by apply Forall_singleton].
  - replace num with 4 in * by lia. rewrite take_ge in Hu by lia.
    apply Forall_take. unfold add_to_list. by apply add_to_list_rec_Forall.
Qed.

Lemma get_close_nodes_udp d pk fam lan ann : dht_wf d →
  sendable_nodes (get_close_nodes (dht_cur_time d) (dht_close_clientlist d) (f_client_list <$> dht_friends_list d) pk fam lan ann).
Proof using.
  intros Hd. destruct (w_cur _ Hd) as [Ht _]. set (t := dht_cur_time d) in *.
  assert (∀ l st, Forall client_ok l → sendable_nodes st → sendable_nodes (get_close_nodes_inner t pk fam lan ann l st)) as Hin.
  { intros l st Hl. unfold get_close_nodes_inner. destruct (_ && _ && _); [done|]. revert st.
    induction Hl as [|c l Hc _ IH]; intros st Hst; cbn [foldl]; [done|]. apply IH. by apply close_nodes_step_udp. }
  unfold get_close_nodes, get_somewhat_close_nodes. cbv zeta.
  assert (Forall (Forall client_ok) (f_client_list <$> dht_friends_list d)) as Hf.
  { apply Forall_fmap. eapply list.Forall_impl; [exact (w_friends _ Hd)|]. by intros f [_ [_ Hc] _ _ _ _]. }
  assert (sendable_nodes (get_close_nodes_inner t pk fam lan ann (dht_close_clientlist d)
    (replicate (Z.to_nat MAX_SENT_NODES) empty_node_format, 0))) as Hst.
  { apply Hin; [by destruct (w_close _ Hd)|]. split; [|split; [done|constructor]].
    split; [done|]. apply (Forall_replicate _ 4), empty_node_ok. }
  revert Hst. generalize (get_close_nodes_inner t pk fam lan ann (dht_close_clientlist d)
    (replicate (Z.to_nat MAX_SENT_NODES) empty_node_format, 0)).
  induction Hf as [|l friends Hl _ IH]; intros st Hst; cbn [foldl]; [done|]. apply IH. by apply Hin.
Qed.

(** ** Request *)

Lemma run_draw {A} (f : Random → A * Random) d : ∃ x rng, f (dht_rng d) = (x, rng) ∧ draw f d = (x, d <| dht_rng := rng |>).
Proof using. unfold draw. destruct (f (dht_rng d)) as [x r]. eauto. Qed.

Lemma pack_node_run pk ip : key_ok pk → src_ok ip →
  ∃ p, pack_nodes (SIZEOF_NODE_FORMAT * 2) [mkNode pk ip] 1 = Some p ∧ zlen p <= 51 ∧
    ∀ rest n, zlen p <= n → n < 2 ^ 16 → unpack_nodes 1 (p ++ rest) n false = Some ([wire_node (mkNode pk ip)], zlen p).
Proof using.
  intros [Hk _] [Hip Hf]. unfold pack_nodes, unpack_nodes. change (SIZEOF_NODE_FORMAT * 2) with 128.
  assert (packable false (ip_family (ipp_ip ip)) = true) as Hp by (unfold packable, ipp_family in *; lia).
  pose proof (packable_size _ _ Hp) as Hsz.
  destruct (pack_ip_port_spec false 128 ip) as (b & Eb & Hb & Hun); [done|done|lia|].
  change (take (Z.to_nat 1) [mkNode pk ip]) with [mkNode pk ip].
  cbn [pack_nodes_loop nf_ip_port nf_public_key]. change (negb (0 <? 128)) with false. cbv iota.
  change (u16 (128 - 0)) with 128. rewrite Eb. cbn beta iota zeta.
  unfold CRYPTO_PUBLIC_KEY_SIZE.
  replace (128 <? _) with false by lia. eexists. split; [done|]. rewrite app_nil_r.
  split; [zlens|]. intros rest n Hn Hlt. change (Z.to_nat 1) with 1%nat. cbn [unpack_nodes_loop].
  rewrite zlen_app in Hn. replace (0 <? n) with true by lia. cbn [negb]. rewrite drop_0, Z.sub_0_r, u16_small by lia.
  rewrite <- app_assoc, Hun by lia. cbn beta iota zeta. rewrite Z.add_0_l. unfold CRYPTO_PUBLIC_KEY_SIZE in *.
  replace (n <? _) with false by lia. cbn [app]. unfold wire_node. cbn [nf_public_key nf_ip_port]. rewrite zlen_app.
  do 4 f_equal; [|lia]. by slices.
Qed.

Lemma getnodes_run d ip pk target : dht_wf d → dual_stack d → src_ok ip → key_ok pk → key_ok target →
  pk ≠ dht_self_public_key d →
  ∀ k, encrypt_precompute pk (dht_self_secret_key d) = Some k →
  ∃ res d' id nonce c p,
    dht_getnodes true ip pk target d = (res, d') ∧ dht_wf d' ∧
    dht_self_public_key d' = dht_self_public_key d ∧ dht_self_secret_key d' = dht_self_secret_key d ∧
    has_ping (dht_ping_array d') (dht_mono_time d') id p ∧ zlen p = SIZEOF_NODE_FORMAT ∧
    (∃ n, unpack_nodes 1 p (SIZEOF_NODE_FORMAT * 2) false = Some ([wire_node (mkNode pk ip)], n)) ∧
    zlen nonce = 24 ∧ zlen c = 56 ∧ logged d d' ip ([NET_PACKET_GET_NODES] ++ dht_self_public_key d ++ nonce ++ c) ∧
    decrypt_with true (Some k) nonce c 56 = (40, target ++ le_bytes 8 id).
Proof using Law.
  intros Hd Hn Hip Hk Ht Hne k Ek.
  pose proof (proj2 (hoare_dht_getnodes true ip pk target (key_bytes _ Hk) d Hd)) as Hwf. revert Hwf.
  destruct (pack_node_run pk ip Hk Hip) as (p & Ep & Hp & Hun).
  unfold dht_getnodes. rewrite !run_get, pk_equal_ne, Ep by done. cbv zeta.
  change SIZEOF_NODE_FORMAT with 64 in *. pose proof (zlen_nonneg p). change (64 * 2) with 128 in *.
  set (data := p ++ zeros (128 - zlen p)). assert (zlen data = 128) as Hdata by (subst data; zlens).
  destruct (ping_array_add_run d data 64 Hd) as (id & rng & a & Ea & Ha); [lia|lia|]. run Ea.
  assert (dht_wf (d <| dht_rng := rng |> <| dht_ping_array := a |>)) as Hd1.
  { pose proof (hoare_ping_add true data 64 d Hd) as [_ H1]. by rewrite Ea in H1. }
  set (d1 := d <| dht_rng := rng |> <| dht_ping_array := a |>) in *.
  destruct Ha as [Hid He]. replace (id =? 0) with false by lia.
  destruct (key_sent_run d1 pk Hd1 (key_bytes _ Hk)) as (c1 & Ec). run Ec.
  change (dht_self_secret_key d1) with (dht_self_secret_key d). rewrite Ek.
  destruct (run_draw random_nonce (d1 <| dht_shared_keys_sent := c1 |>)) as (nonce & rng2 & En & Er). run Er.
  apply random_nonce_ok in En as [Hnl Hnb]. destruct Ht as [Htl Htb].
  assert (zlen (target ++ le_bytes 8 id) = 40) as Hpl by (rewrite zlen_app, zlen_le_bytes; unfold CRYPTO_PUBLIC_KEY_SIZE in *; lia).
  destruct (dht_create_packet_ok nonce (dht_self_public_key d) k NET_PACKET_GET_NODES (target ++ le_bytes 8 id) 40)
    as (c & Epk & Hc & Hdec); [by destruct (w_self _ Hd)|done|lia|done|].
  change (dht_create_packet true true _ _ _ _ _ CRYPTO_NODE_SIZE _) with
    (dht_create_packet true true nonce (dht_self_public_key d) (Some k) NET_PACKET_GET_NODES (target ++ le_bytes 8 id) 40
      (1 + 32 + 24 + 40 + 16)).
  rewrite Epk. destruct (w_self _ Hd) as [Hsl _].
  destruct (packet_fields NET_PACKET_GET_NODES (dht_self_public_key d) nonce c Hsl Hnl) as (_ & _ & _ & Hz).
  rewrite Hz, Hc. change (negb (57 + (40 + 16) =? _)) with false. cbv iota.
  match goal with |- context [(m_sendpacket ip ?pkt ≫= _) ?d] => set (d2 := d); set (packet := pkt) end.
  destruct (sendpacket_run d2 ip packet Hn Hip) as (r & net & Es & Hnf & Hlog).
  run Es. intros Hwf. exists (0 <? r), (d2 <| dht_net := net |>), id, nonce, c, (slice 0 64 data).
  split_and!; try done; [by apply length_slice; lia|].
  exists (zlen p). assert (slice 0 64 data = p ++ zeros (64 - zlen p)) as ->.
  { unfold slice, data. rewrite drop_0, take_app_ge by (unfold zlen in *; lia). f_equal.
    unfold zeros. rewrite take_replicate. f_equal. unfold zlen in *. lia. }
  apply Hun; lia.
Qed.

(** ** Response *)

(** The nodes a node sends for a key. *)
Definition answer (d : DHT) (target : bytes) (lan : bool) : list Node_format :=
  let '(nodes, num) := get_close_nodes (dht_cur_time d) (dht_close_clientlist d) (f_client_list <$> dht_friends_list d)
                         target TOX_AF_UNSPEC lan false in
  take (Z.to_nat num) nodes.

Lemma answer_ok d target lan : dht_wf d → Forall udp_node (answer d target lan) ∧ zlen (answer d target lan) <= 4.
Proof using.
  intros Hd. pose proof (get_close_nodes_udp d target TOX_AF_UNSPEC lan false Hd) as (_ & Hn & Hu).
  unfold answer. destruct get_close_nodes as [nodes num]. cbn [fst snd] in *. split; [done|].
  unfold zlen, MAX_SENT_NODES in *. rewrite length_take. lia.
Qed.

(** The response to a request with a key, an id and somebody to send it to. *)
Lemma sendnodes_run d ip pk target id k : dht_wf d → dual_stack d → src_ok ip → pk ≠ dht_self_public_key d →
  0 <= id < 2 ^ 64 → answer d target (ip_is_lan (ipp_ip ip)) ≠ [] →
  ∃ res d' nonce c data,
    sendnodes_ipv6 true ip pk target (le_bytes 8 id) 8 (Some k) d = (res, d') ∧ dht_wf d' ∧
    zlen nonce = 24 ∧ zlen c = 1 + zlen data + 8 + 16 ∧
    logged d d' ip ([NET_PACKET_SEND_NODES_IPV6] ++ dht_self_public_key d ++ nonce ++ c) ∧
    decrypt_with true (Some k) nonce c (1 + zlen data + 8 + 16) =
      (1 + zlen data + 8, [zlen (answer d target (ip_is_lan (ipp_ip ip)))] ++ data ++ le_bytes 8 id) ∧
    0 < zlen data <= 256 ∧
    ∀ rest, unpack_nodes (zlen (answer d target (ip_is_lan (ipp_ip ip)))) (data ++ rest) (zlen data) false
      = Some (wire_node <$> answer d target (ip_is_lan (ipp_ip ip)), zlen data).
Proof using Law.
  intros Hd Hn Hip Hne Hid Hans.
  pose proof (proj2 (hoare_sendnodes true ip pk target (le_bytes 8 id) 8 (Some k) d Hd)) as Hwf. revert Hwf.
  destruct (answer_ok d target (ip_is_lan (ipp_ip ip)) Hd) as [Hu Hz]. revert Hans Hu Hz. unfold answer.
  unfold sendnodes_ipv6. rewrite run_get, pk_equal_ne by done. change (negb (8 =? 8)) with false. cbv iota.
  unfold m_get_close_nodes. rewrite run_get.
  pose proof (get_close_nodes_udp d target TOX_AF_UNSPEC (ip_is_lan (ipp_ip ip)) false Hd) as ([Hno _] & Hnum & _).
  destruct get_close_nodes as [nodes num]. cbn [fst snd] in Hnum, Hno.
  set (sent := take (Z.to_nat num) nodes). intros Hans Hu Hz.
  assert (0 < zlen sent) as Hpos by (destruct sent; [done|unfold zlen; simpl; lia]).
  assert (0 < num) as Hn0 by (unfold sent, zlen in Hpos; rewrite length_take in Hpos; lia).
  pose proof (packed_size_bound sent Hu) as Hps. unfold pack_nodes. fold sent.
  change (SIZEOF_NODE_FORMAT * MAX_SENT_NODES) with 256. change 8 with (Z.of_nat 8) in Hid |- *.
  destruct (pack_nodes_loop_spec false 256 sent 0) as (data & Ed & Hdl & Hun);
    [eapply list.Forall_impl; [exact Hu|by intros ? []]..|lia|lia|].
  replace (0 <? num) with true by lia. rewrite Ed. cbn [andb].
  assert (0 < packed_size sent) as Hps0.
  { destruct sent as [|n sent']; [done|]. apply list.Forall_cons in Hu as [[_ Hn'] Hu'].
    pose proof (packable_size _ _ Hn'). pose proof (packed_size_bound _ Hu'). rewrite packed_size_cons. lia. }
  replace (zlen data <=? 0) with false by lia. cbv zeta.
  change (Z.of_nat 8) with 8 in *. rewrite (slice_all 8) by (by rewrite zlen_le_bytes).
  destruct (run_draw random_nonce d) as (nonce & rng & En & Er). run Er. apply random_nonce_ok in En as [Hnl _].
  assert (zlen ([num] ++ data ++ le_bytes 8 id) = 1 + zlen data + 8) as Hpl by (rewrite !zlen_app, zlen_le_bytes; unfold zlen; simpl; lia).
  destruct (w_self _ Hd) as [Hsl _].
  destruct (dht_create_packet_ok nonce (dht_self_public_key d) k NET_PACKET_SEND_NODES_IPV6 ([num] ++ data ++ le_bytes 8 id)
    (1 + zlen data + 8)) as (c & Epk & Hc & Hdec); [done|done|lia|done|].
  replace (1 + zlen data + 8 + (1 + CRYPTO_PUBLIC_KEY_SIZE + CRYPTO_NONCE_SIZE + CRYPTO_MAC_SIZE))
    with (1 + 32 + 24 + (1 + zlen data + 8) + 16) by (change CRYPTO_PUBLIC_KEY_SIZE with 32; change CRYPTO_NONCE_SIZE with 24; change CRYPTO_MAC_SIZE with 16; lia).
  rewrite Epk. destruct (packet_fields NET_PACKET_SEND_NODES_IPV6 (dht_self_public_key d) nonce c Hsl Hnl) as (_ & _ & _ & Hpz).
  rewrite Hpz, Hc. replace (negb _) with false by lia.
  match goal with |- context [m_sendpacket ip ?pkt ?d] => set (d2 := d); set (packet := pkt) end.
  destruct (sendpacket_run d2 ip packet Hn Hip) as (r & net & Es & Hnf & Hlog). rewrite Es. intros Hwf.
  assert (zlen sent = num) as Hsn.
  { unfold sent, zlen, MAX_SENT_NODES in *. rewrite length_take in *. lia. }
  rewrite Hsn. exists r, (d2 <| dht_net := net |>), nonce, c, data. split_and!; try done; try lia.
  intros rest. unfold unpack_nodes. apply (Hun [] rest); [done|]. unfold zlen in Hsn. lia.
Qed.

(** The log of the socket only grows. *)
Definition log_grows {A} (m : M A) : Prop := ∀ d, ∃ more, net_log (dht_net (m d).2) = net_log (dht_net d) ++ more.

Lemma grows_bind {A B} (m : M A) (f : A → M B) : log_grows m → (∀ x, log_grows (f x)) → log_grows (m ≫= f).
Proof using.
  intros Hm Hf d. unfold mbind, M_bind. destruct (Hm d) as [l1 E1]. destruct (m d) as [x d']. destruct (Hf x d') as [l2 E2].
  exists (l1 ++ l2). rewrite E2, app_assoc. by f_equal.
Qed.

Lemma grows_same {A} (m : M A) : frame (λ d, net_log (dht_net d)) m → log_grows m.
Proof using. intros Hf d. exists []. rewrite app_nil_r. apply Hf. Qed.

Lemma grows_send ip data : log_grows (m_sendpacket ip data).
Proof using.
  intros d. unfold m_sendpacket, sendpacket, send_packet. cases; cbn; try (by exists []; rewrite app_nil_r); eauto.
Qed.

Ltac same_log := apply grows_same; intros ?; cbv [act modify get]; repeat case_match; done.
Ltac grows := repeat first
  [ solve [auto with dht] | apply grows_bind; [|intros ?] | apply grows_send | by apply grows_same, draw_same | by apply grows_same
  | same_log | progress case_match ].

Lemma ping_send_request_grows ip pk : log_grows (ping_send_request true ip pk).
Proof using.
  unfold ping_send_request, p_ping_array_add, dht_get_shared_key_sent. grows.
Qed.
#[local] Hint Resolve ping_send_request_grows : dht.

Lemma ping_add_log d pk ip : ∃ more, net_log (dht_net (ping_add true pk ip d).2) = net_log (dht_net d) ++ more.
Proof using.
  revert d. fold (log_grows (ping_add true pk ip)). unfold ping_add, node_addable_to_close_list, add_to_close. grows.
Qed.

Lemma wire_ipport_equal p : src_ok p → ipp_port p ≠ 0 → ipport_equal (wire_ip_port p) p = true.
Proof using.
  intros [[[Hl _] _] Hf] Hp. unfold ipport_equal, ipp_family in *. destruct Hf as [E|E].
  - assert (wire_ip_port p = mkIPPort (mkIP TOX_AF_INET (slice 0 4 (ip_addr (ipp_ip p)) ++ zeros 12)) (ipp_port p)) as ->
      by (unfold wire_ip_port, family_v4; by rewrite E).
    cbn [ipp_port ipp_ip]. replace (ipp_port p =? 0) with false by lia. rewrite Z.eqb_refl. cbn [orb negb].
    unfold ip_equal, v4_uint32. cbn [ip_family ip_addr]. rewrite E. change (TOX_AF_INET =? TOX_AF_INET) with true.
    change (net_family_is_ipv4 TOX_AF_INET || net_family_is_tcp_ipv4 TOX_AF_INET) with true. cbv iota.
    rewrite slice_app_l by (rewrite length_slice; lia). apply Z.eqb_refl.
  - assert (wire_ip_port p = p) as -> by (unfold wire_ip_port, family_v4; by rewrite E).
    replace (ipp_port p =? 0) with false by lia. rewrite Z.eqb_refl. cbn [orb negb]. unfold ip_equal.
    rewrite Z.eqb_refl, E. change (net_family_is_ipv4 TOX_AF_INET6 || net_family_is_tcp_ipv4 TOX_AF_INET6) with false.
    change (net_family_is_ipv6 TOX_AF_INET6 || net_family_is_tcp_ipv6 TOX_AF_INET6) with true. cbv iota. by rewrite !Z.eqb_refl.
Qed.

(** What a node does with a request. *)
Lemma handle_getnodes_run b addr pk nonce c target id k : dht_wf b → dual_stack b → src_ok addr → key_ok pk →
  pk ≠ dht_self_public_key b → encrypt_precompute pk (dht_self_secret_key b) = Some k →
  zlen nonce = 24 → zlen c = 56 → zlen target = 32 → 0 <= id < 2 ^ 64 →
  decrypt_with true (Some k) nonce c 56 = (40, target ++ le_bytes 8 id) →
  answer b target (ip_is_lan (ipp_ip addr)) ≠ [] →
  let packet := [NET_PACKET_GET_NODES] ++ pk ++ nonce ++ c in
  ∃ b1 b2 nodes,
    nodes = answer b target (ip_is_lan (ipp_ip addr)) ∧
    dht_wf b1 ∧ net_log (dht_net b1) = net_log (dht_net b) ∧ dht_self_public_key b1 = dht_self_public_key b ∧
    handle_getnodes true addr packet (zlen packet) b = (0, (ping_add true pk addr b2).2) ∧
    ∃ res nonce' c' data,
    sendnodes_ipv6 true addr pk target (le_bytes 8 id) 8 (Some k) b1 = (res, b2) ∧
    zlen nonce' = 24 ∧ zlen c' = 1 + zlen data + 8 + 16 ∧
    logged b1 b2 addr ([NET_PACKET_SEND_NODES_IPV6] ++ dht_self_public_key b ++ nonce' ++ c') ∧
    decrypt_with true (Some k) nonce' c' (1 + zlen data + 8 + 16) = (1 + zlen data + 8, [zlen nodes] ++ data ++ le_bytes 8 id) ∧
    0 < zlen data <= 256 ∧
    ∀ rest, unpack_nodes (zlen nodes) (data ++ rest) (zlen data) false = Some (wire_node <$> nodes, zlen data).
Proof using Law.
  intros Hb Hn Haddr Hk Hne Ek Hnl Hcl Htl Hid Hdec Hans packet. destruct Hk as [Hkl Hkb].
  destruct (packet_fields NET_PACKET_GET_NODES pk nonce c Hkl Hnl) as (Epk & Enonce & Ec & Hz). fold packet in Epk, Enonce, Ec, Hz.
  unfold handle_getnodes. rewrite Hz, Hcl. change (negb (57 + 56 =? _)) with false. cbv iota zeta.
  unfold CRYPTO_PUBLIC_KEY_SIZE, CRYPTO_NONCE_SIZE. change (1 + 32) with 33. change (Z.to_nat (33 + 24)) with 57%nat.
  rewrite Epk, Enonce, Ec, run_get, pk_equal_ne by done.
  destruct (key_recv_run b pk Hb Hkb) as (cache & Er). run Er. rewrite Ek.
  pose proof (proj2 (hoare_key_recv pk Hkb b Hb)) as Hb1. rewrite Er in Hb1. cbn [snd] in Hb1.
  change (CRYPTO_NODE_SIZE + CRYPTO_MAC_SIZE) with 56. rewrite Hdec. change (negb (40 =? _)) with false. cbv iota.
  assert (slice 0 32 (target ++ le_bytes 8 id) = target) as ->
    by (unfold slice; rewrite drop_0; apply take_app_length'; unfold zlen in Htl; lia).
  change (Z.to_nat 32) with 32%nat. rewrite (drop_app_length' target) by (unfold zlen in Htl; lia).
  destruct (sendnodes_run _ addr pk target id k Hb1 Hn Haddr Hne Hid Hans)
    as (res & b2 & nonce' & c' & data & Es & Hwf2 & H1 & H2 & H3 & H4 & H5 & H6).
  run Es. exists (b <| dht_shared_keys_recv := cache |>), b2, (answer b target (ip_is_lan (ipp_ip addr))).
  split_and!; try done.
  - unfold mbind, M_bind. by destruct (ping_add true pk addr b2).
  - exists res, nonce', c', data. exact (conj Es (conj H1 (conj H2 (conj H3 (conj H4 (conj H5 H6)))))).
Qed.

(** What a node does with the response to one of its requests. *)
Lemma sendnodes_core_run a addr pk nonce c data id p n nodes k : dht_wf a → src_ok addr → ipp_port addr ≠ 0 → key_ok pk →
  encrypt_precompute pk (dht_self_secret_key a) = Some k →
  has_ping (dht_ping_array a) (dht_mono_time a) id p → zlen p = SIZEOF_NODE_FORMAT →
  unpack_nodes 1 p (SIZEOF_NODE_FORMAT * 2) false = Some ([wire_node (mkNode pk addr)], n) →
  zlen nonce = 24 → zlen c = 1 + zlen data + 8 + 16 → 0 < zlen data <= 256 → zlen nodes <= 4 →
  decrypt_with true (Some k) nonce c (1 + zlen data + 8 + 16) = (1 + zlen data + 8, [zlen nodes] ++ data ++ le_bytes 8 id) →
  (∀ rest, unpack_nodes (zlen nodes) (data ++ rest) (zlen data) false = Some (nodes, zlen data)) →
  let packet := [NET_PACKET_SEND_NODES_IPV6] ++ pk ++ nonce ++ c in
  ∃ a', handle_sendnodes_core true addr packet (zlen packet) MAX_SENT_NODES a = (Some nodes, a').
Proof using Law.
  intros Ha Haddr Hport [Hkl Hkb] Ek Hping Hpl Hun Hnl Hcl Hdl Hnz Hdec Hunp packet.
  destruct (packet_fields NET_PACKET_SEND_NODES_IPV6 pk nonce c Hkl Hnl) as (Epk & Enonce & Ec & Hz). fold packet in Epk, Enonce, Ec, Hz.
  unfold handle_sendnodes_core. cbv zeta. unfold CRYPTO_PUBLIC_KEY_SIZE, CRYPTO_NONCE_SIZE, CRYPTO_MAC_SIZE.
  change (1 + 32 + 24 + 1 + 8 + 16) with 82. change (SIZEOF_NODE_FORMAT * MAX_SENT_NODES) with 256.
  change (1 + 32) with 33. change (Z.to_nat (33 + 24)) with 57%nat.
  rewrite Hz, Hcl. replace (57 + (1 + zlen data + 8 + 16) - 82) with (zlen data) by lia.
  replace (_ <? 82) with false by lia. replace (zlen data =? 0) with false by lia. replace (256 <? zlen data) with false by lia.
  rewrite Epk, Enonce, Ec. destruct (key_sent_run a pk Ha Hkb) as (cache & Er). run Er. rewrite Ek, Hdec.
  rewrite u32_small by lia. rewrite Z.eqb_refl. cbn [negb].
  change (aget 0 ([zlen nodes] ++ data ++ le_bytes 8 id) 0) with (zlen nodes).
  unfold MAX_SENT_NODES. replace (4 <? zlen nodes) with false by lia.
  pose proof (zlen_nonneg data). destruct Hping as [Hid He].
  assert (slice (1 + zlen data) 8 ([zlen nodes] ++ data ++ le_bytes 8 id) = le_bytes 8 id) as ->
    by (pose proof (zlen_le_bytes 8 id); by slices).
  rewrite le_val_bytes by (split; lia).
  set (a1 := a <| dht_shared_keys_sent := cache |>).
  destruct (w_ping_array _ Ha) as (Hw & _). change SIZEOF_NODE_FORMAT with 64 in *. change (64 * 2) with 128 in *.
  pose proof (ping_array_check_run _ _ id p 128 (conj Hid He) Hw (w_time _ Ha) ltac:(lia) ltac:(lia)) as Ecp. rewrite Hpl in Ecp.
  assert (∃ a2, sent_getnode_to_node pk addr id a1 = (true, a2)) as [a2 Esent].
  { unfold sent_getnode_to_node, m_ping_array_check. change SIZEOF_NODE_FORMAT with 64. change (64 * 2) with 128.
    unfold mbind, M_bind. change (dht_ping_array a1) with (dht_ping_array a). change (dht_mono_time a1) with (dht_mono_time a).
    rewrite Ecp. change (negb (64 =? 64)) with false. cbv iota. rewrite Hun.
    unfold wire_node. cbn [nf_ip_port nf_public_key]. rewrite wire_ipport_equal, pk_equal_refl by done. eexists. reflexivity. }
  run Esent. cbn [negb]. change (drop 1 ([zlen nodes] ++ data ++ le_bytes 8 id)) with (data ++ le_bytes 8 id).
  rewrite Hunp, !Z.eqb_refl. cbn [negb]. unfold mbind, M_bind. destruct (addto_lists true addr pk a2) as [used a3].
  eexists. reflexivity.
Qed.

(** C18: A node request finds its answer.  When the request of a node [a]
    reaches the node [b] it was sent to, and the answer reaches [a] again, then
    [a] accepts it and gets exactly the nodes that [b] knows closest to the key
    asked for (with the addresses as they are on the wire). *)
Theorem getnodes_exchange a b addr_a addr_b target k :
  dht_wf a → dht_wf b → dual_stack a → dual_stack b → src_ok addr_a → src_ok addr_b → ipp_port addr_b ≠ 0 →
  key_ok target → dht_self_public_key a ≠ dht_self_public_key b →
  encrypt_precompute (dht_self_public_key b) (dht_self_secret_key a) = Some k →
  encrypt_precompute (dht_self_public_key a) (dht_self_secret_key b) = Some k →
  answer b target (ip_is_lan (ipp_ip addr_a)) ≠ [] →
  ∃ request response more,
    let a' := (dht_getnodes true addr_b (dht_self_public_key b) target a).2 in
    let '(rb, b') := handle_getnodes true addr_a request (zlen request) b in
    logged a a' addr_b request ∧ rb = 0 ∧
    net_log (dht_net b') = net_log (dht_net b) ++ (wire_dest addr_a, response) :: more ∧
    (handle_sendnodes_core true addr_b response (zlen response) MAX_SENT_NODES a').1
      = Some (wire_node <$> answer b target (ip_is_lan (ipp_ip addr_a))) ∧
    (handle_sendnodes_ipv6 true addr_b response (zlen response) a').1 = 0.
Proof using Law QL.
  intros Ha Hb Hna Hnb Hsa Hsb Hport Ht Hne Eka Ekb Hans.
  destruct (getnodes_run a addr_b (dht_self_public_key b) target Ha Hna Hsb (w_self _ Hb) Ht ltac:(done) k Eka)
    as (res & a' & id & nonce & c & p & Eg & Hwa & Epk & Esk & Hping & Hpl & (n & Hun) & Hnl & Hcl & Hlog & Hdec).
  destruct (handle_getnodes_run b addr_a (dht_self_public_key a) nonce c target id k Hb Hnb Hsa (w_self _ Ha) Hne Ekb
    Hnl Hcl ltac:(by destruct Ht) ltac:(destruct Hping; lia) Hdec Hans)
    as (b1 & b2 & nodes & -> & Hwb1 & El1 & Epk1 & Eh & res' & nonce' & c' & data & Es & Hnl' & Hcl' & Hlog' & Hdec' & Hdl & Hunp).
  destruct (ping_add_log b2 (dht_self_public_key a) addr_a) as [more Hmore].
  destruct (answer_ok b target (ip_is_lan (ipp_ip addr_a)) Hb) as [_ Hz].
  rewrite <- Esk in Eka. pose proof (fun E1 E2 => sendnodes_core_run a' addr_b (dht_self_public_key b) nonce' c' data id p n
    (wire_node <$> answer b target (ip_is_lan (ipp_ip addr_a))) k Hwa Hsb Hport (w_self _ Hb) Eka Hping Hpl Hun Hnl' Hcl' Hdl E1 E2) as Hcore.
  assert (∀ l : list Node_format, zlen (wire_node <$> l) = zlen l) as Hwz by (intros l; unfold zlen; by rewrite length_fmap).
  rewrite Hwz in Hcore. destruct (Hcore Hz Hdec' Hunp) as [a3 Ea3].
  eexists ([NET_PACKET_GET_NODES] ++ dht_self_public_key a ++ nonce ++ c),
    ([NET_PACKET_SEND_NODES_IPV6] ++ dht_self_public_key b ++ nonce' ++ c'), more.
  rewrite Eg, Eh. cbv zeta. cbn [snd]. split_and!; [done|done| |by rewrite Ea3|].
  - rewrite Hmore, Hlog', El1. by rewrite <- app_assoc.
  - unfold handle_sendnodes_ipv6. run Ea3. unfold mbind, M_bind. by destruct (for_each _ _ _).
Qed.

(** ** Responses nobody asked for *)

(** What a ping response is checked against. *)
Definition ping_state (d : DHT) : Mono_Time * bytes * bytes * Ping_Array :=
  (dht_mono_time d, dht_self_public_key d, dht_self_secret_key d, p_ping_array (dht_ping d)).

(** The lists of known nodes. *)
Definition known (d : DHT) : list Client_data * list DHT_Friend * list Node_format * list Node_format :=
  (dht_close_clientlist d, dht_friends_list d, dht_to_bootstrap d, p_to_ping (dht_ping d)).

Lemma addto_lists_frame ip pk : frame ping_state (addto_lists true ip pk).
Proof using.
  unfold addto_lists, add_to_close, send_announce_ping, m_ping_array_add, dht_get_shared_key_sent. framed.
Qed.

(** A ping to that node at that address is on its way. *)
Definition pinged (d : DHT) (id : Z) (pk : bytes) (ip : IP_Port) : Prop :=
  let a := p_ping_array (dht_ping d) in
  let e := pa_entry a (id mod pa_total_size a) in
  id ≠ 0 ∧ pe_ping_id e = id ∧ mono_time_is_timeout (dht_mono_time d) (pe_ping_time e) PING_TIMEOUT = false ∧
  ∃ data, pe_data e = Some data ∧ slice 0 32 (slice 0 (pe_length e) data) = pk ∧
    ipport_equal (memory_ip_port (drop 32 (slice 0 (pe_length e) data))) ip = true.

(** The id in a ping response, when the packet is for this node and genuine. *)
Definition response_id (self sk packet : bytes) (len : Z) : option Z :=
  let '(rc, plain) := decrypt_with true (encrypt_precompute (slice 1 32 packet) sk) (slice 33 24 packet) (drop 57 packet) 25 in
  if (len =? 82) && negb (pk_equal (slice 1 32 packet) self) && (rc =? 9) && (aget 0 plain 0 =? 1)
  then Some (le_val (slice 1 8 plain)) else None.

Lemma response_id_nonneg self sk packet len id :
  bytes_ok packet → response_id self sk packet len = Some id → 0 <= id.
Proof using Law.
  intros Hb. unfold response_id. destruct decrypt_with as [rc plain] eqn:E. apply decrypt_with_ok in E; [|by apply Forall_drop].
  cases; intros [= <-]. by apply le_slice_nonneg.
Qed.

(** What [handle_ping_response] does after that. *)
Definition response_tail (source : IP_Port) (pk : bytes) (ping_id : Z) : M Z :=
  '(len, data) ← p_ping_array_check PING_DATA_SIZE ping_id;
  if negb (len =? PING_DATA_SIZE) then mret 1
  else if negb (pk_equal pk (slice 0 CRYPTO_PUBLIC_KEY_SIZE data)) then mret 1
  else
    let ipp := memory_ip_port (drop (Z.to_nat CRYPTO_PUBLIC_KEY_SIZE) data) in
    if negb (ipport_equal ipp source) then mret 1
    else addto_lists true source pk;; mret 0.

Lemma ping_response_split d source packet len : dht_wf d → packet_ok packet len →
  ∃ d2, ping_state d2 = ping_state d ∧ known d2 = known d ∧ dht_wf d2 ∧
    handle_ping_response true source packet len d =
      match response_id (dht_self_public_key d) (dht_self_secret_key d) packet len with
      | None => (1, d2)
      | Some id => response_tail source (slice 1 32 packet) id d2
      end.
Proof using.
  intros Hd (Hb & Hl & _). unfold handle_ping_response, response_id. change DHT_PING_SIZE with 82.
  change (PING_PLAIN_SIZE + CRYPTO_MAC_SIZE) with 25. change PING_PLAIN_SIZE with 9.
  change (slice (1 + CRYPTO_PUBLIC_KEY_SIZE) CRYPTO_NONCE_SIZE packet) with (slice 33 24 packet).
  change (Z.to_nat (1 + CRYPTO_PUBLIC_KEY_SIZE + CRYPTO_NONCE_SIZE)) with 57%nat.
  change (slice 1 CRYPTO_PUBLIC_KEY_SIZE packet) with (slice 1 32 packet). change NET_PACKET_PING_RESPONSE with 1.
  assert (bytes_ok (slice 1 32 packet)) as Hk by (by apply slice_bytes_ok). cbv zeta.
  destruct (len =? 82); cbn [negb andb]; [|exists d; split_and!; [done..|]; by destruct decrypt_with].
  rewrite run_get. destruct (pk_equal _ _); cbn [negb andb]; [exists d; split_and!; [done..|]; by destruct decrypt_with|].
  destruct (key_sent_run d _ Hd Hk) as (cache & Er). run Er.
  pose proof (proj2 (hoare_key_sent _ Hk d Hd)) as Hd1. rewrite Er in Hd1. cbn [snd] in Hd1.
  exists (d <| dht_shared_keys_sent := cache |>). split_and!; [done..|].
  destruct decrypt_with as [rc plain]. destruct (rc =? 9); cbn [negb andb]; [|done]. by destruct (aget 0 plain 0 =? 1).
Qed.

Lemma check_accepted a t len id l data a' : ping_array_check a t len id = (l, data, a') → l ≠ -1 →
  let e := pa_entry a (id mod pa_total_size a) in
  id ≠ 0 ∧ pe_ping_id e = id ∧ mono_time_is_timeout t (pe_ping_time e) (pa_timeout a) = false ∧
  ∃ d, pe_data e = Some d ∧ data = slice 0 (pe_length e) d ∧ a' = clear_entry a (id mod pa_total_size a).
Proof using.
  unfold ping_array_check. cbv zeta. intros E Hl. revert E. cases; try (intros; simplify_eq; lia).
  destruct (pe_data _) as [d|] eqn:Ed; [|intros; simplify_eq; lia]. intros [= <- <- <-].
  split_and!; [lia|lia|done|]. by exists d.
Qed.

Lemma check_cleared a t len id : PingArray.wf a → id ≠ 0 →
  let a' := clear_entry a (id mod pa_total_size a) in ping_array_check a' t len id = (-1, [], a').
Proof using.
  intros Hw Hid. cbv zeta. unfold ping_array_check. replace (id =? 0) with false by lia.
  pose proof (slot_range a id Hw). change (pa_total_size (clear_entry a _)) with (pa_total_size a).
  rewrite pa_entry_clear by (done || lia). rewrite Z.eqb_refl. cbn [pe_ping_id empty_entry].
  by replace (0 =? id) with false by lia.
Qed.

(** A ping that is answered is forgotten. *)
Lemma response_tail_spec d source pk id : dht_wf d → 0 <= id →
  let '(r, d1) := response_tail source pk id d in
  (r = 1 ∧ known d1 = known d) ∨
  (r = 0 ∧ pinged d id pk source ∧ dht_self_public_key d1 = dht_self_public_key d ∧ dht_self_secret_key d1 = dht_self_secret_key d ∧
   ∀ d2, ping_state d2 = ping_state d1 → (response_tail source pk id d2).1 = 1).
Proof using.
  intros Hd Hid. destruct (w_ping _ Hd) as (Hw & Ht & Hs). unfold response_tail, p_ping_array_check. cbv zeta.
  unfold mbind, M_bind. cbv beta.
  destruct (ping_array_check (p_ping_array (dht_ping d)) (dht_mono_time d) PING_DATA_SIZE id) as [[l data] a] eqn:E.
  destruct (l =? PING_DATA_SIZE) eqn:El; cbn [negb]; [|by left].
  destruct (pk_equal pk _) eqn:Ek; cbn [negb]; [|by left]. destruct (ipport_equal _ source) eqn:Ei; cbn [negb]; [|by left].
  set (d' := d <| dht_ping := _ |>). pose proof (addto_lists_frame source pk d') as Hf.
  destruct (addto_lists true source pk d') as [used d1]. cbn [snd] in Hf. right. injection Hf as F1 F2 F3 F4.
  apply check_accepted in E as (Hid0 & Eid & Etime & dd & Edd & -> & ->); [|intros ->; done].
  split_and!; [done| |done|done|].
  - unfold pinged. cbv zeta. rewrite <- Ht. split_and!; try done. exists dd. split_and!; [done| |done].
    unfold pk_equal, bytes_eqb in Ek. symmetry. by apply bool_decide_eq_true in Ek.
  - intros d2 [= G1 G2 G3 G4]. rewrite G4, F4.
    change (p_ping_array (dht_ping d')) with (clear_entry (p_ping_array (dht_ping d)) (id mod pa_total_size (p_ping_array (dht_ping d)))).
    by rewrite check_cleared.
Qed.

(** A ping response counts only once and only if it was asked for.  Unless
    the node has a ping under way to exactly that key and address, with the id of
    the response and not yet expired, the response is refused and changes no
    list; when it is accepted, the same packet is refused the next time. *)
Theorem ping_response_only_if_asked d source packet len :
  dht_wf d → src_ok source → packet_ok packet len →
  let '(r, d1) := handle_ping_response true source packet len d in
  (r = 1 ∧ known d1 = known d) ∨
  (r = 0 ∧ (∃ id, pinged d id (slice 1 32 packet) source) ∧ (handle_ping_response true source packet len d1).1 = 1).
Proof using Law QL.
  intros Hd Hs Hp. destruct (ping_response_split d source packet len Hd Hp) as (d2 & Hps & Hkn & Hd2 & E).
  pose proof (proj2 (hoare_handle_ping_response true source packet len Hs Hp d Hd)) as Hwf. revert Hwf. rewrite E.
  injection Hps as E1 E2 E3 E4.
  destruct (response_id _ _ packet len) as [id|] eqn:Eid; [|by left].
  assert (0 <= id) as Hid by (eapply response_id_nonneg; [by destruct Hp|exact Eid]).
  pose proof (response_tail_spec d2 source (slice 1 32 packet) id Hd2 Hid) as Ht.
  destruct (response_tail source (slice 1 32 packet) id d2) as [r d1]. cbn [snd]. intros Hd1.
  destruct Ht as [[-> Hk]|(-> & Hpin & F2 & F3 & Hagain)]; [left; by rewrite Hk|right]. split; [done|]. split.
  - exists id. revert Hpin. unfold pinged. by rewrite E1, E4.
  - destruct (ping_response_split d1 source packet len Hd1 Hp) as (d3 & Hps3 & _ & _ & ->).
    rewrite F2, F3, E2, E3, Eid. by apply Hagain.
Qed.
End exchange.

(** ** Concrete runs *)

(** Two nodes; the second one knows a third. *)
Definition demo_rng (n : nat) : Random := sample_rng <| rng_drawn := n |>.
Definition demo_node (n : nat) : DHT := default demo_dht (new_dht true (mkMonoTime 1000 0) (demo_rng n) sample_net true true).
Definition demo_b : DHT := (add_to_close (Sod := toy_sodium) true (replicate 32 9) demo_addr false (demo_node 7)).2.

Lemma demo_node_wf n d : new_dht true (mkMonoTime 1000 0) (demo_rng n) sample_net true true = Some d →
  dht_wf (Sod := toy_sodium) d.
Proof. apply new_dht_wf. by unfold time_ok. Qed.

Lemma demo_addr_ok : src_ok demo_addr.
Proof. split; [|by left]. split; [|done]. split; [done|]. by apply (bool_decide_unpack _); vm_compute. Qed.

Lemma demo_b_wf : dht_wf (Sod := toy_sodium) demo_b.
Proof.
  apply (hoare_add_to_close true (replicate 32 9) demo_addr false); [|apply demo_addr_ok|].
  - split; [done|]. by apply (Forall_replicate _ 32).
  - apply (demo_node_wf 7). vm_compute. reflexivity.
Qed.

Lemma getnodes_exchange_witness :
  let a := demo_node 0 in let b := demo_b in
  answer b (replicate 32 9) true = [mkNode (replicate 32 9) demo_addr] ∧
  ∃ request response more,
    let a' := (dht_getnodes (Sod := toy_sodium) true demo_addr (dht_self_public_key b) (replicate 32 9) a).2 in
    let '(rb, b') := handle_getnodes (Sod := toy_sodium) true demo_addr request (zlen request) b in
    logged a a' demo_addr request ∧ rb = 0 ∧
    net_log (dht_net b') = net_log (dht_net b) ++ (wire_dest demo_addr, response) :: more ∧
    (handle_sendnodes_core (Sod := toy_sodium) true demo_addr response (zlen response) MAX_SENT_NODES a').1
      = Some [mkNode (replicate 32 9) demo_addr] ∧
    (handle_sendnodes_ipv6 (Sod := toy_sodium) true demo_addr response (zlen response) a').1 = 0.
Proof.
  split; [vm_compute; reflexivity|].
  refine (@getnodes_exchange toy_sodium toy_sodium_laws isort isort_laws (demo_node 0) demo_b demo_addr demo_addr
    (replicate 32 9) (replicate 32 157) _ _ _ _ _ _ _ _ _ _ _ _).
  - apply (demo_node_wf 0). vm_compute. reflexivity.
  - apply demo_b_wf.
  - vm_compute. reflexivity.
  - vm_compute. reflexivity.
  - apply demo_addr_ok.
  - apply demo_addr_ok.
  - done.
  - split; [done|]. by apply (Forall_replicate _ 32).
  - vm_compute. done.
  - vm_compute. reflexivity.
  - vm_compute. reflexivity.
  - vm_compute. done.
Defined.

(** The first node pings the second one and gets its answer. *)
Definition demo_pinging : DHT :=
  (ping_send_request (Sod := toy_sodium) true demo_addr (dht_self_public_key demo_b) (demo_node 0)).2.
Definition demo_request : bytes := match net_log (dht_net demo_pinging) with [(_, p)] => p | _ => [] end.
Definition demo_response : bytes :=
  match net_log (dht_net (handle_ping_request (Sod := toy_sodium) true demo_addr demo_request 82 demo_b).2) with
  | [_; (_, p)] => p
  | _ => []
  end.

Lemma ping_response_only_if_asked_witness :
  let '(r, d1) := handle_ping_response (Sod := toy_sodium) true demo_addr demo_response 82 demo_pinging in
  r = 0 ∧ (∃ id, pinged demo_pinging id (dht_self_public_key demo_b) demo_addr) ∧
  (handle_ping_response (Sod := toy_sodium) true demo_addr demo_response 82 d1).1 = 1.
Proof.
  assert (dht_wf (Sod := toy_sodium) demo_pinging) as Hd.
  { apply hoare_ping_send_request; [apply (bool_decide_unpack _); vm_compute; done|].
    apply (demo_node_wf 0). vm_compute. reflexivity. }
  assert (packet_ok demo_response 82) as Hp.
  { split; [apply (bool_decide_unpack _); vm_compute; done|]. split; [vm_compute; reflexivity|done]. }
  pose proof (@ping_response_only_if_asked toy_sodium toy_sodium_laws isort isort_laws demo_pinging demo_addr demo_response 82
    Hd demo_addr_ok Hp) as H.
  assert ((handle_ping_response (Sod := toy_sodium) true demo_addr demo_response 82 demo_pinging).1 = 0) as E by (vm_compute; reflexivity).
  destruct (handle_ping_response true demo_addr demo_response 82 demo_pinging) as [r d1]. cbn [fst] in E. subst r.
  destruct H as [[H _]|(_ & [id Hid] & H)]; [discriminate H|]. split; [reflexivity|]. split; [|exact H].
  exists id. replace (dht_self_public_key demo_b) with (slice 1 32 demo_response) by (vm_compute; reflexivity). exact Hid.
Defined.
