(* ===== verification/DhtSave.v ===== *)
(** * DhtSave: saving and loading the nodes of the DHT

    What [dht_save] writes, [dht_load] reads back, as long as there are fewer
    than 1024 nodes to save: the room for the packed nodes is computed in
    [uint16_t], and with 1024 nodes it is zero. *)
From stdpp Require Import sorting.
From S2P Require Import Prelude MonoTime CryptoCore SharedKeyCache PingArray State Network LanDiscovery.
From S2P Require Import World DhtDistance DhtPackets DhtLists Dht DhtLoop DhtSound DhtProtocol.

Lemma saved_clients_ok l : Forall client_ok l → Forall udp_node (saved_clients l).
Proof.
  induction 1 as [|c l [[Hk Hb] [A4 _ _ _ S4] [A6 _ _ _ S6]] _ IH]; [done|]. unfold saved_clients. cbn [fmap list_fmap concat].
  repeat (apply Forall_app; split); [| |exact IH].
  - case_match eqn:E; [|done]. apply Forall_singleton. split; [by split_and!|].
    unfold packable, node_family, ipp_family in *. cbn [nf_ip_port]. rewrite S4 by lia. done.
  - case_match eqn:E; [|done]. apply Forall_singleton. split; [by split_and!|].
    unfold packable, node_family, ipp_family in *. cbn [nf_ip_port]. rewrite S6 by lia. done.
Qed.

Lemma concat_Forall {A} (P : A → Prop) (ls : list (list A)) : Forall (Forall P) ls → Forall P (concat ls).
Proof. induction 1; cbn; [done|]. by apply Forall_app. Qed.

Lemma saved_nodes_ok {Sod : Sodium} d : dht_wf d → Forall udp_node (saved_nodes d).
Proof.
  intros Hd. unfold saved_nodes. apply Forall_app. split; [apply (w_loaded _ Hd)|]. apply Forall_app. split.
  - apply saved_clients_ok. by destruct (w_close _ Hd).
  - apply concat_Forall, Forall_fmap, Forall_take. eapply list.Forall_impl; [exact (w_friends _ Hd)|].
    intros f [_ [_ Hc] _ _ _ _]. by apply saved_clients_ok.
Qed.

(** Loading a file with one section of nodes. *)
Lemma load_nodes_section d data : zlen data < 2 ^ 16 →
  let file := host_to_lendian_bytes32 DHT_STATE_COOKIE_GLOBAL ++
              (state_write_section_header DHT_STATE_COOKIE_TYPE (zlen data) DHT_STATE_TYPE_NODES ++ data) in
  dht_load true d file (zlen file)
    = (0, (dht_load_state_callback true d data (zlen data) DHT_STATE_TYPE_NODES).2).
Proof.
  intros Hl. cbv zeta. pose proof (zlen_nonneg data).
  change (state_write_section_header DHT_STATE_COOKIE_TYPE (zlen data) DHT_STATE_TYPE_NODES ++ data)
    with (write_section DHT_STATE_COOKIE_TYPE (DHT_STATE_TYPE_NODES, data)).
  unfold dht_load. rewrite zlen_app, zlen_write_section. cbn [snd]. 
  change (zlen (host_to_lendian_bytes32 DHT_STATE_COOKIE_GLOBAL)) with 4.
  replace (4 <? _) with true by lia. rewrite le32_roundtrip by done. rewrite Z.eqb_refl.
  rewrite drop_app_length' by (unfold host_to_lendian_bytes32; by rewrite length_le_bytes).
  unfold state_load. replace (4 + (8 + zlen data) - 4) with (8 + zlen data + 0) by lia.
  set (fuel := Z.to_nat _). assert (fuel ≠ 0%nat) as Hf.
  { subst fuel. pose proof (Z.div_le_mono 8 (8 + zlen data + 0) 8 ltac:(lia) ltac:(lia)) as Hdiv.
    change (8 / 8) with 1 in Hdiv. lia. }
  pose proof (load_round (dht_load_state_callback true) fuel d DHT_STATE_COOKIE_TYPE (DHT_STATE_TYPE_NODES, data) []) as H1.
  cbn [fst snd] in H1. change (zlen (@nil Z)) with 0 in H1. rewrite app_nil_r in H1.
  rewrite H1; [|done|split; cbn; [done|lia]]. unfold dht_load_state_callback at 1. destruct fuel; [done|]. done.
Qed.

(** Saving and loading are inverse to each other: the nodes a well-formed
    node saves, as long as they are fewer than 1024, are exactly the nodes that
    loading the file puts into the list of loaded nodes of any node, in the same
    order; a file without nodes leaves that list as it is. *)
Theorem dht_save_load_roundtrip {Sod : Sodium} d d0 :
  dht_wf d → zlen (saved_nodes d) < 1024 →
  let file := dht_save true d in
  dht_load true d0 file (zlen file) =
    (0, if zlen (saved_nodes d) =? 0 then d0 else d0 <| dht_loaded_nodes_list := Some (wire_node <$> saved_nodes d) |>).
Proof.
  intros Hd Hn. cbv zeta. pose proof (saved_nodes_ok d Hd) as Hu. unfold dht_save. cbn [negb].
  set (nodes := saved_nodes d) in *. pose proof (zlen_nonneg nodes).
  pose proof (packed_size_bound nodes Hu) as Hps. change SIZEOF_NODE_FORMAT with 64. rewrite !u16_small by lia.
  unfold pack_nodes. rewrite take_ge by (unfold zlen; lia).
  destruct (pack_nodes_loop_spec false (64 * zlen nodes) nodes 0) as (data & -> & Hdl & Hun);
    [eapply list.Forall_impl; [exact Hu|by intros ? []]..|lia|lia|].
  rewrite load_nodes_section by lia. f_equal. unfold dht_load_state_callback. cbn [snd].
  change (DHT_STATE_TYPE_NODES =? DHT_STATE_TYPE_NODES) with true. cbv iota. rewrite u16_small by lia.
  destruct nodes as [|n nodes']; [by replace (zlen data =? 0) with true by (symmetry; apply Z.eqb_eq; exact Hdl)|].
  apply list.Forall_cons in Hu as [[_ Hf] Hu']. pose proof (packable_size _ _ Hf). pose proof (packed_size_bound _ Hu').
  rewrite packed_size_cons in Hdl. rewrite zlen_cons in *. pose proof (zlen_nonneg nodes').
  replace (zlen data =? 0) with false by lia. replace (zlen nodes' + 1 =? 0) with false by lia. cbn [negb].
  unfold unpack_nodes. specialize (Hun [] [] (Z.to_nat MAX_SAVED_DHT_NODES)). rewrite app_nil_r in Hun.
  change ([] ++ data) with data in Hun. rewrite Z.add_0_l in Hun. rewrite Hun; [done|done|].
  change (Z.to_nat MAX_SAVED_DHT_NODES) with 2080%nat. unfold zlen in *. simpl. lia.
Qed.

(** With exactly 1024 nodes the room for them is computed as zero: nothing is
    saved, and loading the file brings no node back. *)
Theorem dht_save_loses_nodes d d0 :
  zlen (saved_nodes d) = 1024 →
  let file := dht_save true d in dht_load true d0 file (zlen file) = (0, d0).
Proof.
  intros Hn. cbv zeta. unfold dht_save. cbn [negb]. rewrite Hn. change (u16 (SIZEOF_NODE_FORMAT * 1024)) with 0.
  assert (pack_nodes 0 (saved_nodes d) (u16 1024) = Some []) as ->.
  { unfold pack_nodes. by destruct (take _ _). }
  rewrite load_nodes_section by done. done.
Qed.

Lemma dht_save_load_roundtrip_witness :
  dht_load true demo_dht (dht_save true demo_b) 51
    = (0, demo_dht <| dht_loaded_nodes_list := Some [mkNode (replicate 32 9) demo_addr] |>).
Proof.
  pose proof (@dht_save_load_roundtrip toy_sodium demo_b demo_dht demo_b_wf ltac:(vm_compute; reflexivity)) as H.
  cbv zeta in H. replace (zlen (dht_save true demo_b)) with 51 in H by (vm_compute; reflexivity). rewrite H.
  replace (saved_nodes demo_b) with [mkNode (replicate 32 9) demo_addr] by (vm_compute; reflexivity). reflexivity.
Defined.

(** A node whose close list is full. *)
Definition demo_full : DHT :=
  demo_dht <| dht_close_clientlist := replicate 1024 (on_assoc4 (λ a, a <| a_ip_port := demo_addr |> <| a_timestamp := 1000 |>) empty_client) |>.

Lemma dht_save_loses_nodes_witness :
  zlen (saved_nodes demo_full) = 1024 ∧
  dht_load true demo_dht (dht_save true demo_full) (zlen (dht_save true demo_full)) = (0, demo_dht).
Proof.
  assert (zlen (saved_nodes demo_full) = 1024) as H by (vm_compute; reflexivity).
  split; [exact H|]. exact (dht_save_loses_nodes demo_full demo_dht H).
Defined.
