(* ===== verification/DhtFaults.v ===== *)
(** * DhtFaults: where the lists of the DHT do not do what they are meant to

    Each theorem follows one behaviour of [toxcore/DHT.c] that contradicts the
    comments beside it to its consequence. *)
From stdpp Require Import sorting.
From S2P Require Import Prelude MonoTime CryptoCore SharedKeyCache PingArray State Network LanDiscovery.
From S2P Require Import World DhtDistance DhtPackets DhtLists Dht DhtLoop DhtSound DhtProtocol.

(** ** A node that changes its key *)

Lemma index_client_pk_None l pk : index_of_client_pk l pk = None ↔ Forall (λ c, c_public_key c ≠ pk) l.
Proof.
  unfold index_of_client_pk. split.
  - intros H%index_of_None. eapply list.Forall_impl; [exact H|]. intros c Hc. cbn in Hc.
    unfold pk_equal, bytes_eqb in Hc. by apply bool_decide_eq_false in Hc.
  - intros H. destruct (index_of _ l) as [i|] eqn:E; [|done]. apply index_of_Some in E as (l1 & x & l2 & -> & _ & Hx & _).
    apply Forall_app in H as [_ [Hne _]%list.Forall_cons]. unfold pk_equal, bytes_eqb in Hx. by apply bool_decide_eq_true in Hx.
Qed.

(** A node that answers from a known address under a new key is taken for
    known, but the address it answered from is erased: the association that was
    just stamped is the one that is cleared, and not the other one.  The node is
    then in the list under its new key without that address and is neither asked
    nor sent to others through it. *)
Theorem new_key_loses_address now l pk ip i :
  index_of_client_pk l pk = None → index_of_client_ip_port l ip = Some i →
  let '(found, l') := client_or_ip_port_in_list now l pk ip in
  found = true ∧ length l' = length l ∧
  ∃ c, l' !! i = Some c ∧ c_public_key c = pk ∧
    (if net_family_is_ipv4 (ipp_family ip) then c_assoc4 c else c_assoc6 c) = empty_ipptspng ∧
    (if net_family_is_ipv4 (ipp_family ip) then c_assoc6 c = c_assoc6 (client_at l i) else c_assoc4 c = c_assoc4 (client_at l i)).
Proof.
  intros E1 E2. unfold client_or_ip_port_in_list. rewrite E1, E2.
  assert (i < length l)%nat as Hi.
  { unfold index_of_client_ip_port in E2. apply index_of_Some in E2 as (l1 & x & l2 & -> & <- & _). rewrite length_app. simpl. lia. }
  split; [done|]. split; [by rewrite length_insert|]. eexists. split; [by apply list_lookup_insert_eq|].
  by destruct (net_family_is_ipv4 _).
Qed.

(** ** A friend with two users *)

Lemma index_of_friend_last l f pk :
  index_of_friend_pk l pk = None → f_public_key f = pk → index_of_friend_pk (l ++ [f]) pk = Some (length l).
Proof.
  unfold index_of_friend_pk. intros H <-. induction l as [|x l IH]; cbn [app index_of length] in *; [by rewrite pk_equal_refl|].
  destruct (pk_equal _ _); [done|]. destruct (index_of _ l); [done|]. by rewrite IH.
Qed.

Lemma alter_last {A} (g : A → A) l x : alter g (length l) (l ++ [x]) = l ++ [g x].
Proof. rewrite <- (Nat.add_0_r (length l)). by rewrite alter_app_r. Qed.

Lemma friend_last d l f : dht_friends_list d = l ++ [f] → friend_at d (length l) = f.
Proof. intros E. unfold friend_at. rewrite E. by rewrite list_lookup_middle. Qed.

(** The first free lock. *)
Lemma lock_taken f cb data number i : f_lock_flags f = 2 ^ i - 1 → 0 <= i < 2 →
  ∃ f', dht_friend_lock f cb data number = (2 ^ i, f') ∧ f_lock_flags f' = Z.lor (f_lock_flags f) (2 ^ i) ∧
    f_public_key f' = f_public_key f.
Proof.
  intros E Hi. assert (i = 0 ∨ i = 1) as [-> | ->] by lia; unfold dht_friend_lock; rewrite E;
    eexists; (split; [vm_compute; reflexivity|done]).
Qed.

Lemma unlock_first f : f_lock_flags f = 3 →
  ∃ f', dht_friend_unlock f 1 = Some f' ∧ f_lock_flags f' = 2 ∧ f_public_key f' = f_public_key f.
Proof. intros E. unfold dht_friend_unlock. rewrite E. eexists. split; [vm_compute; reflexivity|done]. Qed.

(** A friend that is added twice is never removed.  The second call of
    [dht_addfriend] takes a lock but hands out no token for it, so deleting the
    friend with the only token there is leaves it in the list, locked. *)
Theorem second_lock_never_released d pk cb1 data1 n1 cb2 data2 n2 :
  index_of_friend_pk (dht_friends_list d) pk = None →
  ∃ token d1 d2 d3,
    dht_addfriend true pk cb1 data1 n1 d = ((0, Some token), d1) ∧
    dht_addfriend true pk cb2 data2 n2 d1 = ((0, None), d2) ∧
    dht_delfriend true pk token d2 = (Some 0, d3) ∧
    index_of_friend_pk (dht_friends_list d3) pk = Some (length (dht_friends_list d)) ∧
    f_lock_flags (friend_at d3 (length (dht_friends_list d))) = 2.
Proof.
  intros E. set (l := dht_friends_list d) in *.
  assert (∃ d1 f1, dht_addfriend true pk cb1 data1 n1 d = ((0, Some 1), d1) ∧ dht_friends_list d1 = l ++ [f1] ∧
    f_public_key f1 = pk ∧ f_lock_flags f1 = 1) as (d1 & f1 & E1 & Hl1 & Hk1 & Hf1).
  { unfold dht_addfriend. rewrite run_get. fold l. rewrite E. cbn [negb].
    destruct (run_draw random_u64 d) as (id & rng & _ & Er). run Er. cbv zeta.
    set (f0 := (empty_dht_friend <| f_public_key := pk |>) <| f_nat := _ |>).
    destruct (lock_taken f0 cb1 data1 n1 0) as (f & -> & Hf & Hfk); [done|done|]. cbv iota beta.
    rewrite run_modify. unfold m_get_close_nodes. rewrite run_get.
    match goal with |- context [get_close_nodes ?a ?b ?c ?e ?g ?h ?i] => destruct (get_close_nodes a b c e g h i) as [nodes num] end.
    unfold set_friend. rewrite run_modify. eexists _, _. split; [reflexivity|].
    split; [apply (alter_last (λ f, f <| f_to_bootstrap := nodes |> <| f_num_to_bootstrap := num |>))|]. done. }
  assert (∃ d2 f2, dht_addfriend true pk cb2 data2 n2 d1 = ((0, None), d2) ∧ dht_friends_list d2 = l ++ [f2] ∧
    f_public_key f2 = pk ∧ f_lock_flags f2 = 3) as (d2 & f2 & E2 & Hl2 & Hk2 & Hf2).
  { unfold dht_addfriend. rewrite run_get, Hl1, (index_of_friend_last _ _ _ E Hk1).
    rewrite list_lookup_middle by done. cbn [default from_option id].
    destruct (lock_taken f1 cb2 data2 n2 1) as (f & -> & Hf & Hfk); [by rewrite Hf1|lia|].
    unfold set_friend. rewrite run_modify. eexists _, _. split; [reflexivity|].
    split; [cbn -[alter]; rewrite Hl1; apply alter_last|]. rewrite Hf1 in Hf. by rewrite Hfk. }
  exists 1, d1, d2. 
  unfold dht_delfriend. rewrite run_get, Hl2, (index_of_friend_last _ _ _ E Hk2).
  rewrite list_lookup_middle by done. cbn [default from_option id].
  destruct (unlock_first f2 Hf2) as (f3 & -> & Hf3 & Hk3). unfold set_friend. rewrite run_modify, Hf3.
  change (0 <? 2) with true. cbv iota. eexists. split_and!; [done|done|reflexivity|..]; cbn -[alter].
  - rewrite Hl2, alter_last. apply index_of_friend_last; [done|by rewrite Hk3].
  - erewrite friend_last; [exact Hf3|]. cbn -[alter]. rewrite Hl2. apply (alter_last (λ _, f3)).
Qed.

(** ** A full house *)

(** The clock and the close list, which asking for nodes does not touch. *)
Definition clock_and_list (d : DHT) : Mono_Time * list Client_data := (dht_mono_time d, dht_close_clientlist d).

Section house.
Context {Sod : Sodium} {Q : Qsort}.

Lemma getnodes_frame ip pk target : frame clock_and_list (dht_getnodes true ip pk target).
Proof using.
  unfold dht_getnodes, m_ping_array_add, dht_get_shared_key_sent. framed.
Qed.

(** How many of the two addresses of each client are alive. *)
Definition stamps (l : list Client_data) : list (Z * Z) := (λ c, (a_timestamp (c_assoc6 c), a_timestamp (c_assoc4 c))) <$> l.
Definition alive (t : Mono_Time) (stamp : Z) : Z := if mono_time_is_timeout t stamp KILL_NODE_TIMEOUT then 0 else 1.
Definition alive_count (t : Mono_Time) (l : list (Z * Z)) : Z := foldr (λ s n, alive t s.1 + alive t s.2 + n) 0 l.

Lemma client_at_stamps l i : (a_timestamp (c_assoc6 (client_at l i)), a_timestamp (c_assoc4 (client_at l i)))
  = default (0, 0) (stamps l !! i).
Proof using. unfold stamps, client_at. rewrite list_lookup_fmap. by destruct (l !! i). Qed.

Lemma stamps_insert l i c : stamps [c] = stamps [client_at l i] → stamps (<[i := c]> l) = stamps l.
Proof using.
  unfold stamps, client_at. intros E. rewrite list_fmap_insert. destruct (l !! i) as [x|] eqn:Ei.
  - apply list_insert_id. rewrite list_lookup_fmap, Ei. cbn in *. by injection E as -> ->.
  - apply list_insert_ge. rewrite length_fmap. by apply lookup_ge_None.
Qed.

Lemma ping_assoc_count pk i is6 l r d : is_u8 (pr_not_kill r) →
  let '(l', r', d') := ping_assoc true pk i is6 (l, r) d in
  stamps l' = stamps l ∧ clock_and_list d' = clock_and_list d ∧ is_u8 (pr_not_kill r') ∧
  pr_not_kill r' = u8 (pr_not_kill r + alive (dht_mono_time d) (a_timestamp (assoc_of is6 (client_at l i)))).
Proof using.
  intros Hr. unfold ping_assoc, now. rewrite !run_get. unfold alive. set (stamp := a_timestamp _).
  destruct (mono_time_is_timeout _ stamp KILL_NODE_TIMEOUT); cbn [negb].
  { split_and!; [done..|]. cbn [pr_not_kill]. by rewrite Z.add_0_r, u8_small. }
  destruct (mono_time_is_timeout _ _ PING_INTERVAL); [|split_and!; [done..|apply u8_range|done]].
  unfold mbind, M_bind. pose proof (getnodes_frame (a_ip_port (assoc_of is6 (client_at l i))) (c_public_key (client_at l i)) pk d) as Hf.
  destruct (dht_getnodes true _ _ pk d) as [b d']. cbn [snd] in Hf. cbn. split_and!; [|done|apply u8_range|done].
  apply stamps_insert. by destruct is6.
Qed.

Lemma ping_clients_count pk rounds : ∀ i l r d, is_u8 (pr_not_kill r) → (i + rounds = length l)%nat →
  let '(l', r', d') := ping_clients true pk rounds i (l, r) d in
  stamps l' = stamps l ∧ clock_and_list d' = clock_and_list d ∧
  pr_not_kill r' = u8 (pr_not_kill r + alive_count (dht_mono_time d) (drop i (stamps l))).
Proof using.
  induction rounds as [|rounds IH]; intros i l r d Hr Hi; cbn [ping_clients].
  { rewrite drop_ge by (unfold stamps; rewrite length_fmap; lia). cbn. by rewrite Z.add_0_r, u8_small. }
  unfold mbind, M_bind. pose proof (ping_assoc_count pk i true l r d Hr) as H1.
  destruct (ping_assoc true pk i true (l, r) d) as [[l1 r1] d1]. destruct H1 as (Hs1 & Hc1 & Hr1 & Hk1).
  pose proof (ping_assoc_count pk i false l1 r1 d1 Hr1) as H2.
  destruct (ping_assoc true pk i false (l1, r1) d1) as [[l2 r2] d2]. destruct H2 as (Hs2 & Hc2 & Hr2 & Hk2).
  assert (∀ l l' : list Client_data, stamps l = stamps l' → length l = length l') as Hlen.
  { intros ? ? E%(f_equal length). unfold stamps in E. by rewrite !length_fmap in E. }
  specialize (IH (S i) l2 r2 d2 Hr2). pose proof (Hlen _ _ Hs1). pose proof (Hlen _ _ Hs2).
  destruct (ping_clients true pk rounds (S i) (l2, r2) d2) as [[l3 r3] d3]. destruct IH as (Hs3 & Hc3 & Hk3); [lia|].
  injection Hc1 as T1 L1. injection Hc2 as T2 L2.
  split; [by rewrite Hs3, Hs2, Hs1|]. split; [rewrite Hc3; unfold clock_and_list; by rewrite T2, L2, T1, L1|].
  destruct (lookup_lt_is_Some_2 (stamps l) i) as [[s6 s4] Es]; [unfold stamps; rewrite length_fmap; lia|].
  pose proof (client_at_stamps l i) as E6. rewrite Es in E6. injection E6 as E6 _.
  pose proof (client_at_stamps l1 i) as E4. rewrite Hs1, Es in E4. injection E4 as _ E4. cbn [assoc_of] in *.
  rewrite Hk3, Hk2, Hk1, Hs2, Hs1, T2, T1, E6, E4, (drop_S _ _ _ Es). cbn [alive_count foldr fst snd].
  fold (alive_count (dht_mono_time d) (drop (S i) (stamps l))). wrap_lia.
Qed.

Lemma requests_count last pk l times sortable d :
  let '(k, _, _, _, d') := do_ping_and_sendnode_requests true last pk l times sortable d in
  k = u8 (alive_count (dht_mono_time d) (stamps l)) ∧ dht_mono_time d' = dht_mono_time d.
Proof using.
  unfold do_ping_and_sendnode_requests, now. cbn [negb]. rewrite !run_get. unfold mbind at 1, M_bind at 1.
  pose proof (ping_clients_count pk (length l) 0 l (mkRound 0 0 false []) d ltac:(done) ltac:(lia)) as H.
  destruct (ping_clients true pk (length l) 0 (l, mkRound 0 0 false []) d) as [[l1 r] d1]. destruct H as (_ & Hc & Hk).
  cbn [pr_not_kill] in Hk. rewrite drop_0, Z.add_0_l in Hk. injection Hc as Ht _. cbv zeta.
  destruct (_ && _); [|done].
  destruct (run_draw (λ r0, random_range_u32 r0 (zlen (pr_nodes r))) d1) as (x & rng & _ & Ex). run Ex.
  match goal with |- context [((if ?b then ?m1 else ?m2) ≫= _) ?d2] =>
    assert (frame dht_mono_time (if b then m1 else m2)) as Hf by framed; specialize (Hf d2);
    unfold mbind at 1, M_bind at 1; destruct ((if b then m1 else m2) d2) as [y d3] end.
  destruct (aget _ _ y) as [i is6]. unfold mbind, M_bind.
  match goal with |- context [dht_getnodes true ?ip ?k pk d3] => pose proof (getnodes_frame ip k pk d3) as Hg;
    destruct (dht_getnodes true ip k pk d3) as [b d4] end.
  cbn in Hf, Hg |- *. injection Hg as Hg _. split; [done|]. by rewrite Hg, Hf.
Qed.

Lemma getnodes_list_frame nodes target :
  frame clock_and_list (for_each nodes (λ n, dht_getnodes true (nf_ip_port n) (nf_public_key n) target;; mret tt)).
Proof using. apply frame_for_each. intros n. apply frame_bind; [apply getnodes_frame|done]. Qed.

(** [do_ping_and_sendnode_requests] counts the living addresses in eight
    bits.  When their number is a multiple of 256, [do_Close] takes the node for
    disconnected and resets the time stamp of every address in its close list to
    the edge of being bad, however recently the node answered. *)
Theorem full_house_is_reset d :
  alive_count (dht_mono_time d) (stamps (dht_close_clientlist d)) mod 256 = 0 →
  Forall (λ s : Z * Z, let bad := u64 (mono_time_get (dht_mono_time d) - BAD_NODE_TIMEOUT) in
            (s.1 = 0 ∨ s.1 = bad) ∧ (s.2 = 0 ∨ s.2 = bad)) (stamps (dht_close_clientlist (do_Close true d).2)).
Proof using.
  intros Hc. unfold do_Close. rewrite !run_get. unfold mbind at 1, M_bind at 1.
  pose proof (getnodes_list_frame (take (Z.to_nat (dht_num_to_bootstrap d)) (dht_to_bootstrap d)) (dht_self_public_key d) d) as Hf.
  destruct (for_each _ _ d) as [u d1]. injection Hf as Ht Hl. cbn [snd] in Ht, Hl. rewrite run_modify, run_get.
  set (d2 := d1 <| dht_num_to_bootstrap := 0 |>). unfold id. unfold mbind at 1, M_bind at 1.
  pose proof (requests_count (dht_close_lastgetnodes d2) (dht_self_public_key d) (dht_close_clientlist d2)
    (dht_close_bootstrap_times d2) false d2) as Hq.
  destruct (do_ping_and_sendnode_requests true _ _ _ _ _ d2) as [[[[k l] last] times] d3]. destruct Hq as [Hk Ht3].
  change (dht_mono_time d2) with (dht_mono_time d1) in *. change (dht_close_clientlist d2) with (dht_close_clientlist d1) in *.
  rewrite Ht, Hl in Hk. assert (k = 0) as -> by (rewrite Hk; unfold u8; exact Hc).
  rewrite run_modify. change (negb (0 =? 0)) with false. cbv iota. unfold now. rewrite run_get. cbv zeta.
  cbn [modify snd]. unfold stamps. cbn -[u64 Z.sub mono_time_get]. rewrite <- list_fmap_compose. apply Forall_fmap, Forall_true.
  intros c. cbn -[u64 Z.sub mono_time_get]. rewrite Ht3, Ht. unfold reset_bad. split; cases; cbn; auto; left; lia.
Qed.
End house.

Lemma second_lock_never_released_witness :
  index_of_friend_pk (dht_friends_list demo_dht) (replicate 32 9) = None ∧
  ∃ token d1 d2 d3,
    dht_addfriend true (replicate 32 9) None 0 0 demo_dht = ((0, Some token), d1) ∧
    dht_addfriend true (replicate 32 9) None 0 1 d1 = ((0, None), d2) ∧
    dht_delfriend true (replicate 32 9) token d2 = (Some 0, d3) ∧
    index_of_friend_pk (dht_friends_list d3) (replicate 32 9) = Some (length (dht_friends_list demo_dht)) ∧
    f_lock_flags (friend_at d3 (length (dht_friends_list demo_dht))) = 2.
Proof.
  assert (index_of_friend_pk (dht_friends_list demo_dht) (replicate 32 9) = None) as H by (vm_compute; reflexivity).
  split; [exact H|]. exact (@second_lock_never_released demo_dht (replicate 32 9) None 0 0 None 0 1 H).
Defined.

Lemma new_key_loses_address_witness :
  let l := dht_close_clientlist demo_b in
  ∃ i, index_of_client_ip_port l demo_addr = Some i ∧
  let '(found, l') := client_or_ip_port_in_list 2000 l (replicate 32 8) demo_addr in
  found = true ∧ (c_assoc4 <$> l' !! i) = Some empty_ipptspng.
Proof.
  set (l := dht_close_clientlist demo_b). cbv zeta.
  assert (index_of_client_pk l (replicate 32 8) = None) as E1 by (vm_compute; reflexivity).
  assert (∃ i, index_of_client_ip_port l demo_addr = Some i) as [i E2] by (eexists; vm_compute; reflexivity).
  exists i. split; [exact E2|]. pose proof (new_key_loses_address 2000 l (replicate 32 8) demo_addr i E1 E2) as H.
  destruct (client_or_ip_port_in_list 2000 l (replicate 32 8) demo_addr) as [found l'].
  destruct H as (-> & _ & c & Hc & _ & H & _). split; [reflexivity|]. rewrite Hc. cbn [fmap option_fmap option_map].
  f_equal. exact H.
Defined.

(** A node that heard from 256 nodes just now. *)
Definition demo_house : DHT :=
  demo_dht <| dht_close_clientlist :=
    replicate 256 (on_assoc4 (λ a, a <| a_ip_port := demo_addr |> <| a_timestamp := 1000 |>) empty_client) ++
    replicate 768 empty_client |>.

Lemma full_house_is_reset_witness :
  alive_count (dht_mono_time demo_house) (stamps (dht_close_clientlist demo_house)) = 256 ∧
  Forall (λ s : Z * Z, s.2 ≠ 1000) (stamps (dht_close_clientlist (do_Close (Sod := toy_sodium) true demo_house).2)).
Proof.
  assert (alive_count (dht_mono_time demo_house) (stamps (dht_close_clientlist demo_house)) = 256) as E
    by (vm_compute; reflexivity).
  split; [exact E|]. eapply list.Forall_impl.
  - apply (@full_house_is_reset toy_sodium isort demo_house). rewrite E. reflexivity.
  - intros s [_ [H|H]]; rewrite H; vm_compute; discriminate.
Defined.
