(* ===== verification/Onion.v ===== *)
(** * Onion: three-hop routing of [toxcore/onion.c]

    A sender wraps a packet for three relays; each relay opens one layer with
    the key it shares with the sender's key for that hop, and appends its own
    address of origin, encrypted with a key only it knows.  Whoever receives the
    packet can answer through the same relays without learning who sent it. *)
From S2P Require Import Prelude MonoTime CryptoCore SharedKeyCache Network World DhtPackets.

(** ** Sizes *)

Definition SIZE_IP : Z := 1 + SIZE_IP6.
Definition SIZE_PORT : Z := 2.
Definition SIZE_IPPORT : Z := SIZE_IP + SIZE_PORT.
Definition KEY_REFRESH_INTERVAL : Z := 2 * 60 * 60.
Definition ONION_KEYS_PER_SLOT : Z := 4.
Definition ONION_KEYS_TIMEOUT : Z := 600.
Definition ONION_MAX_PACKET_SIZE : Z := 1400.
Definition ONION_RETURN_1 : Z := CRYPTO_NONCE_SIZE + SIZE_IPPORT + CRYPTO_MAC_SIZE.
Definition ONION_RETURN_2 : Z := CRYPTO_NONCE_SIZE + SIZE_IPPORT + CRYPTO_MAC_SIZE + ONION_RETURN_1.
Definition ONION_RETURN_3 : Z := CRYPTO_NONCE_SIZE + SIZE_IPPORT + CRYPTO_MAC_SIZE + ONION_RETURN_2.
Definition ONION_SEND_BASE : Z := CRYPTO_PUBLIC_KEY_SIZE + SIZE_IPPORT + CRYPTO_MAC_SIZE.
Definition ONION_SEND_3 : Z := CRYPTO_NONCE_SIZE + ONION_SEND_BASE + ONION_RETURN_2.
Definition ONION_SEND_2 : Z := CRYPTO_NONCE_SIZE + ONION_SEND_BASE * 2 + ONION_RETURN_1.
Definition ONION_SEND_1 : Z := CRYPTO_NONCE_SIZE + ONION_SEND_BASE * 3.
Definition ONION_MAX_DATA_SIZE : Z := ONION_MAX_PACKET_SIZE - (ONION_SEND_1 + 1).
Definition ONION_RESPONSE_MAX_DATA_SIZE : Z := ONION_MAX_PACKET_SIZE - (1 + ONION_RETURN_3).
Definition ONION_PATH_LENGTH : Z := 3.

Definition NET_PACKET_ONION_SEND_INITIAL : Z := 128.
Definition NET_PACKET_ONION_SEND_1 : Z := 129.
Definition NET_PACKET_ONION_SEND_2 : Z := 130.
Definition NET_PACKET_ANNOUNCE_REQUEST_OLD : Z := 131.
Definition NET_PACKET_ANNOUNCE_RESPONSE_OLD : Z := 132.
Definition NET_PACKET_ONION_DATA_REQUEST : Z := 133.
Definition NET_PACKET_ONION_DATA_RESPONSE : Z := 134.
Definition NET_PACKET_ANNOUNCE_REQUEST : Z := 135.
Definition NET_PACKET_ANNOUNCE_RESPONSE : Z := 136.
Definition NET_PACKET_ONION_RECV_3 : Z := 140.
Definition NET_PACKET_ONION_RECV_2 : Z := 141.
Definition NET_PACKET_ONION_RECV_1 : Z := 142.

(** ** Data *)

(** A relay.  [o_net] is the socket of the DHT node, [o_recv_1] the callback set
    with [set_callback_handle_recv_1], as what it returns; its calls are logged
    in [o_calls]. *)
Record Onion := mkOnion {
  o_mono_time : Mono_Time;
  o_rng : Random;
  o_net : Networking_Core;
  o_secret_symmetric_key : bytes;
  o_timestamp : Z;
  o_shared_keys_1 : Shared_Key_Cache;
  o_shared_keys_2 : Shared_Key_Cache;
  o_shared_keys_3 : Shared_Key_Cache;
  o_recv_1 : option (IP_Port → bytes → Z);
  o_calls : list (IP_Port * bytes)
}.

#[export] Instance eta_Onion : Eta Onion := λ o,
  mkOnion (o_mono_time o) (o_rng o) (o_net o) (o_secret_symmetric_key o) (o_timestamp o) (o_shared_keys_1 o)
    (o_shared_keys_2 o) (o_shared_keys_3 o) (o_recv_1 o) (o_calls o).

Record Onion_Path := mkPath {
  shared_key1 : bytes;
  shared_key2 : bytes;
  shared_key3 : bytes;
  public_key1 : bytes;
  public_key2 : bytes;
  public_key3 : bytes;
  ip_port1 : IP_Port;
  node_public_key1 : bytes;
  ip_port2 : IP_Port;
  node_public_key2 : bytes;
  ip_port3 : IP_Port;
  node_public_key3 : bytes;
  path_num : Z
}.

Abbreviation O := (ST Onion).

Definition o_draw {A} (f : Random → A * Random) : O A := λ o,
  let '(x, r) := f (o_rng o) in (x, o <| o_rng := r |>).
Definition o_sendpacket (ip_port : IP_Port) (data : bytes) : O Z := λ o,
  let '(res, net) := sendpacket (o_net o) ip_port data in (res, o <| o_net := net |>).

(** [new_symmetric_key]. *)
Definition new_symmetric_key (r : Random) : bytes * Random := random_bytes r CRYPTO_SYMMETRIC_KEY_SIZE.

Definition change_symmetric_key : O unit :=
  due ← get (λ o, mono_time_is_timeout (o_mono_time o) (o_timestamp o) KEY_REFRESH_INTERVAL);
  if due : bool then
    k ← o_draw new_symmetric_key;
    modify (λ o, o <| o_secret_symmetric_key := k |> <| o_timestamp := mono_time_get (o_mono_time o) |>)
  else mret tt.

(** ** Addresses *)

Definition net_family_is_tox_tcp_ipv4 (family : Z) : bool := family =? TOX_TCP_INET.

Definition ip_pack (source : IP) : bytes :=
  [ip_family source] ++
  (if net_family_is_ipv4 (ip_family source) || net_family_is_tox_tcp_ipv4 (ip_family source)
   then slice 0 4 (ip_addr source) ++ zeros 12
   else slice 0 16 (ip_addr source)).

(** The bytes of the union that are not written for an IPv4 address are zero
    here; nothing reads them. *)
Definition ip_unpack (data : bytes) (data_size : Z) (disable_family_check : bool) : option IP :=
  if data_size <? 1 + SIZE_IP6 then None
  else
    let family := aget 0 data 0 in
    let addr := if net_family_is_ipv4 family || net_family_is_tox_tcp_ipv4 family
                then slice 1 4 data ++ zeros 12 else slice 1 16 data in
    if disable_family_check || net_family_is_ipv4 family || net_family_is_ipv6 family
    then Some (mkIP family addr) else None.

Definition ipport_pack (source : IP_Port) : bytes := ip_pack (ipp_ip source) ++ le_bytes 2 (ipp_port source).

Definition ipport_unpack (data : bytes) (data_size : Z) (disable_family_check : bool) : option IP_Port :=
  if data_size <? SIZE_IP + SIZE_PORT then None
  else
    match ip_unpack data data_size disable_family_check with
    | None => None
    | Some ip => Some (mkIPPort ip (le_val (slice SIZE_IP 2 data)))
    end.

Section onion.
Context {Sod : Sodium} (alloc : bool).

(** ** The sender *)

(** A key agreement that fails leaves the key in [new_path] as it was. *)
Definition create_onion_path (rng : Random) (self_public_key self_secret_key : bytes) (new_path : Onion_Path)
    (nodes : list Node_format) : Onion_Path * Random :=
  let node i := default empty_node_format (nodes !! i) in
  let key i sk old := default old (encrypt_precompute (nf_public_key (node i)) sk) in
  let '(pk2, sk2, rng) := crypto_new_keypair rng in
  let '(pk3, sk3, rng) := crypto_new_keypair rng in
  (mkPath (key 0%nat self_secret_key (shared_key1 new_path)) (key 1%nat sk2 (shared_key2 new_path))
     (key 2%nat sk3 (shared_key3 new_path)) self_public_key pk2 pk3
     (nf_ip_port (node 0%nat)) (nf_public_key (node 0%nat))
     (nf_ip_port (node 1%nat)) (nf_public_key (node 1%nat))
     (nf_ip_port (node 2%nat)) (nf_public_key (node 2%nat)) (path_num new_path), rng).

Definition onion_path_to_nodes (num_nodes : Z) (path : Onion_Path) : option (list Node_format) :=
  if num_nodes <? ONION_PATH_LENGTH then None
  else Some [mkNode (node_public_key1 path) (ip_port1 path); mkNode (node_public_key2 path) (ip_port2 path);
             mkNode (node_public_key3 path) (ip_port3 path)].

(** The two inner layers, which both kinds of packet share: what is encrypted for
    the second relay, with the address of the second relay in front. *)
Definition onion_layers (nonce : bytes) (path : Onion_Path) (dest : IP_Port) (data : bytes) (length : Z) : option bytes :=
  let step1 := ipport_pack dest ++ slice 0 length data in
  let '(len, enc) := encrypt_data_symmetric alloc (shared_key3 path) nonce step1 (SIZE_IPPORT + length) in
  if negb (len =? SIZE_IPPORT + length + CRYPTO_MAC_SIZE) then None
  else
    let step2 := ipport_pack (ip_port3 path) ++ public_key3 path ++ enc in
    let '(len, enc) := encrypt_data_symmetric alloc (shared_key2 path) nonce step2 (SIZE_IPPORT + ONION_SEND_BASE + length) in
    if negb (len =? SIZE_IPPORT + ONION_SEND_BASE + length + CRYPTO_MAC_SIZE) then None
    else Some (ipport_pack (ip_port2 path) ++ public_key2 path ++ enc).

Definition create_onion_packet (rng : Random) (max_packet_length : Z) (path : Onion_Path) (dest : IP_Port)
    (data : bytes) (length : Z) : option bytes * Random :=
  if (max_packet_length <? 1 + length + ONION_SEND_1) || (length =? 0) then (None, rng)
  else
    let '(nonce, rng) := random_nonce rng in
    (match onion_layers nonce path dest data length with
     | None => None
     | Some step3 =>
         let '(len, enc) :=
           encrypt_data_symmetric alloc (shared_key1 path) nonce step3 (SIZE_IPPORT + ONION_SEND_BASE * 2 + length) in
         if negb (len =? SIZE_IPPORT + ONION_SEND_BASE * 2 + length + CRYPTO_MAC_SIZE) then None
         else Some ([NET_PACKET_ONION_SEND_INITIAL] ++ nonce ++ public_key1 path ++ enc)
     end, rng).

Definition create_onion_packet_tcp (rng : Random) (max_packet_length : Z) (path : Onion_Path) (dest : IP_Port)
    (data : bytes) (length : Z) : option bytes * Random :=
  if (max_packet_length <? CRYPTO_NONCE_SIZE + SIZE_IPPORT + ONION_SEND_BASE * 2 + length) || (length =? 0) then (None, rng)
  else
    let '(nonce, rng) := random_nonce rng in
    (match onion_layers nonce path dest data length with
     | None => None
     | Some step3 => Some (nonce ++ step3)
     end, rng).

Definition send_onion_response (net : Networking_Core) (dest : IP_Port) (data : bytes) (length : Z) (ret : bytes) :
    Z * Networking_Core :=
  if (ONION_RESPONSE_MAX_DATA_SIZE <? length) || (length =? 0) then (-1, net)
  else
    let packet := [NET_PACKET_ONION_RECV_3] ++ slice 0 ONION_RETURN_3 ret ++ slice 0 length data in
    let '(res, net) := sendpacket net dest packet in
    (if negb (u32 res =? zlen packet) then -1 else 0, net).

(** ** The relays *)

Definition cache_now (o : Onion) (c : Shared_Key_Cache) : Shared_Key_Cache :=
  mkCache (skc_keys c) (skc_self_secret_key c) (skc_timeout c) (o_mono_time o) (skc_keys_per_slot c).

Definition o_lookup_1 (pk : bytes) : O (option bytes) := λ o,
  let '(k, c) := shared_key_cache_lookup (cache_now o (o_shared_keys_1 o)) pk in (k, o <| o_shared_keys_1 := c |>).
Definition o_lookup_2 (pk : bytes) : O (option bytes) := λ o,
  let '(k, c) := shared_key_cache_lookup (cache_now o (o_shared_keys_2 o)) pk in (k, o <| o_shared_keys_2 := c |>).
Definition o_lookup_3 (pk : bytes) : O (option bytes) := λ o,
  let '(k, c) := shared_key_cache_lookup (cache_now o (o_shared_keys_3 o)) pk in (k, o <| o_shared_keys_3 := c |>).

(** Sends [head] with the return data [ret_data] of [ret_len] bytes encrypted
    under a fresh nonce behind it. *)
Definition send_with_return (send_to : IP_Port) (head ret_data : bytes) (ret_len : Z) : O Z :=
  ret_nonce ← o_draw random_nonce;
  key ← get o_secret_symmetric_key;
  let '(len, enc) := encrypt_data_symmetric alloc key ret_nonce ret_data ret_len in
  if negb (len =? ret_len + CRYPTO_MAC_SIZE) then mret 1
  else
    let data := head ++ ret_nonce ++ enc in
    res ← o_sendpacket send_to data;
    mret (if negb (u32 res =? zlen data) then 1 else 0).

Definition onion_send_1 (plain : bytes) (len : Z) (source : IP_Port) (nonce : bytes) : O Z :=
  if ONION_MAX_PACKET_SIZE + SIZE_IPPORT - (1 + CRYPTO_NONCE_SIZE + ONION_RETURN_1) <? len then mret 1
  else if len <=? SIZE_IPPORT + ONION_SEND_BASE * 2 then mret 1
  else
    match ipport_unpack plain len false with
    | None => mret 1
    | Some send_to =>
        send_with_return send_to
          ([NET_PACKET_ONION_SEND_1] ++ slice 0 CRYPTO_NONCE_SIZE nonce ++ slice SIZE_IPPORT (len - SIZE_IPPORT) plain)
          (ipport_pack source) SIZE_IPPORT
    end.

Definition handle_send_initial (source : IP_Port) (packet : bytes) (length : Z) : O Z :=
  if ONION_MAX_PACKET_SIZE <? length then mret 1
  else if length <=? 1 + ONION_SEND_1 then mret 1
  else
    change_symmetric_key;;
    shared_key ← o_lookup_1 (slice (1 + CRYPTO_NONCE_SIZE) CRYPTO_PUBLIC_KEY_SIZE packet);
    match shared_key with
    | None => mret 1
    | Some k =>
        let '(len, plain) :=
          decrypt_data_symmetric alloc k (slice 1 CRYPTO_NONCE_SIZE packet)
            (drop (Z.to_nat (1 + CRYPTO_NONCE_SIZE + CRYPTO_PUBLIC_KEY_SIZE)) packet)
            (length - (1 + CRYPTO_NONCE_SIZE + CRYPTO_PUBLIC_KEY_SIZE)) in
        if negb (len =? length - (1 + CRYPTO_NONCE_SIZE + CRYPTO_PUBLIC_KEY_SIZE + CRYPTO_MAC_SIZE)) then mret 1
        else onion_send_1 plain len source (slice 1 CRYPTO_NONCE_SIZE packet)
    end.

Definition handle_send_1 (source : IP_Port) (packet : bytes) (length : Z) : O Z :=
  if ONION_MAX_PACKET_SIZE <? length then mret 1
  else if length <=? 1 + ONION_SEND_2 then mret 1
  else
    change_symmetric_key;;
    shared_key ← o_lookup_2 (slice (1 + CRYPTO_NONCE_SIZE) CRYPTO_PUBLIC_KEY_SIZE packet);
    match shared_key with
    | None => mret 1
    | Some k =>
        let '(len, plain) :=
          decrypt_data_symmetric alloc k (slice 1 CRYPTO_NONCE_SIZE packet)
            (drop (Z.to_nat (1 + CRYPTO_NONCE_SIZE + CRYPTO_PUBLIC_KEY_SIZE)) packet)
            (length - (1 + CRYPTO_NONCE_SIZE + CRYPTO_PUBLIC_KEY_SIZE + ONION_RETURN_1)) in
        if negb (len =? length - (1 + CRYPTO_NONCE_SIZE + CRYPTO_PUBLIC_KEY_SIZE + ONION_RETURN_1 + CRYPTO_MAC_SIZE)) then mret 1
        else
          match ipport_unpack plain len false with
          | None => mret 1
          | Some send_to =>
              send_with_return send_to
                ([NET_PACKET_ONION_SEND_2] ++ slice 1 CRYPTO_NONCE_SIZE packet ++ slice SIZE_IPPORT (len - SIZE_IPPORT) plain)
                (ipport_pack source ++ slice (length - ONION_RETURN_1) ONION_RETURN_1 packet) (ONION_RETURN_1 + SIZE_IPPORT)
          end
    end.

(** [None] is the failed assertion that the plain text is longer than an address. *)
Definition handle_send_2 (source : IP_Port) (packet : bytes) (length : Z) : O (option Z) :=
  if ONION_MAX_PACKET_SIZE <? length then mret (Some 1)
  else if length <=? 1 + ONION_SEND_3 then mret (Some 1)
  else
    change_symmetric_key;;
    shared_key ← o_lookup_3 (slice (1 + CRYPTO_NONCE_SIZE) CRYPTO_PUBLIC_KEY_SIZE packet);
    match shared_key with
    | None => mret (Some 1)
    | Some k =>
        let '(len, plain) :=
          decrypt_data_symmetric alloc k (slice 1 CRYPTO_NONCE_SIZE packet)
            (drop (Z.to_nat (1 + CRYPTO_NONCE_SIZE + CRYPTO_PUBLIC_KEY_SIZE)) packet)
            (length - (1 + CRYPTO_NONCE_SIZE + CRYPTO_PUBLIC_KEY_SIZE + ONION_RETURN_2)) in
        if negb (len =? length - (1 + CRYPTO_NONCE_SIZE + CRYPTO_PUBLIC_KEY_SIZE + ONION_RETURN_2 + CRYPTO_MAC_SIZE))
        then mret (Some 1)
        else if negb (SIZE_IPPORT <? len) then mret None
        else
          let packet_id := aget 0 plain SIZE_IPPORT in
          if negb (packet_id =? NET_PACKET_ANNOUNCE_REQUEST) && negb (packet_id =? NET_PACKET_ANNOUNCE_REQUEST_OLD)
             && negb (packet_id =? NET_PACKET_ONION_DATA_REQUEST) then mret (Some 1)
          else
            match ipport_unpack plain len false with
            | None => mret (Some 1)
            | Some send_to =>
                res ← send_with_return send_to (slice SIZE_IPPORT (len - SIZE_IPPORT) plain)
                        (ipport_pack source ++ slice (length - ONION_RETURN_2) ONION_RETURN_2 packet)
                        (ONION_RETURN_2 + SIZE_IPPORT);
                mret (Some res)
            end
    end.

(** The test of the packet id in the three handlers of responses. *)
Definition response_id_ok (packet_id : Z) : bool :=
  (packet_id =? NET_PACKET_ANNOUNCE_RESPONSE) || (packet_id =? NET_PACKET_ANNOUNCE_RESPONSE_OLD)
  || (packet_id =? NET_PACKET_ONION_DATA_RESPONSE).

Definition handle_recv_3 (source : IP_Port) (packet : bytes) (length : Z) : O Z :=
  if ONION_MAX_PACKET_SIZE <? length then mret 1
  else if length <=? 1 + ONION_RETURN_3 then mret 1
  else if negb (response_id_ok (aget 0 packet (1 + ONION_RETURN_3))) then mret 1
  else
    change_symmetric_key;;
    key ← get o_secret_symmetric_key;
    let '(len, plain) :=
      decrypt_data_symmetric alloc key (slice 1 CRYPTO_NONCE_SIZE packet) (drop (Z.to_nat (1 + CRYPTO_NONCE_SIZE)) packet)
        (SIZE_IPPORT + ONION_RETURN_2 + CRYPTO_MAC_SIZE) in
    if negb (u32 len =? SIZE_IPPORT + ONION_RETURN_2) then mret 1
    else
      match ipport_unpack plain len false with
      | None => mret 1
      | Some send_to =>
          let data := [NET_PACKET_ONION_RECV_2] ++ slice SIZE_IPPORT ONION_RETURN_2 plain ++
                      slice (1 + ONION_RETURN_3) (length - (1 + ONION_RETURN_3)) packet in
          res ← o_sendpacket send_to data;
          mret (if negb (u32 res =? zlen data) then 1 else 0)
      end.

Definition handle_recv_2 (source : IP_Port) (packet : bytes) (length : Z) : O Z :=
  if ONION_MAX_PACKET_SIZE <? length then mret 1
  else if length <=? 1 + ONION_RETURN_2 then mret 1
  else if negb (response_id_ok (aget 0 packet (1 + ONION_RETURN_2))) then mret 1
  else
    change_symmetric_key;;
    key ← get o_secret_symmetric_key;
    let '(len, plain) :=
      decrypt_data_symmetric alloc key (slice 1 CRYPTO_NONCE_SIZE packet) (drop (Z.to_nat (1 + CRYPTO_NONCE_SIZE)) packet)
        (SIZE_IPPORT + ONION_RETURN_1 + CRYPTO_MAC_SIZE) in
    if negb (u32 len =? SIZE_IPPORT + ONION_RETURN_1) then mret 1
    else
      match ipport_unpack plain len false with
      | None => mret 1
      | Some send_to =>
          let data := [NET_PACKET_ONION_RECV_1] ++ slice SIZE_IPPORT ONION_RETURN_1 plain ++
                      slice (1 + ONION_RETURN_2) (length - (1 + ONION_RETURN_2)) packet in
          res ← o_sendpacket send_to data;
          mret (if negb (u32 res =? zlen data) then 1 else 0)
      end.

Definition handle_recv_1 (source : IP_Port) (packet : bytes) (length : Z) : O Z :=
  if ONION_MAX_PACKET_SIZE <? length then mret 1
  else if length <=? 1 + ONION_RETURN_1 then mret 1
  else if negb (response_id_ok (aget 0 packet (1 + ONION_RETURN_1))) then mret 1
  else
    change_symmetric_key;;
    key ← get o_secret_symmetric_key;
    let '(len, plain) :=
      decrypt_data_symmetric alloc key (slice 1 CRYPTO_NONCE_SIZE packet) (drop (Z.to_nat (1 + CRYPTO_NONCE_SIZE)) packet)
        (SIZE_IPPORT + CRYPTO_MAC_SIZE) in
    if negb (u32 len =? SIZE_IPPORT) then mret 1
    else
      match ipport_unpack plain len true with
      | None => mret 1
      | Some send_to =>
          let data := slice (1 + ONION_RETURN_1) (length - (1 + ONION_RETURN_1)) packet in
          callback ← get o_recv_1;
          match callback with
          | Some f =>
              if negb (net_family_is_ipv4 (ip_family (ipp_ip send_to))) && negb (net_family_is_ipv6 (ip_family (ipp_ip send_to)))
              then modify (λ o, o <| o_calls := o_calls o ++ [(send_to, data)] |>);; mret (f send_to data)
              else res ← o_sendpacket send_to data; mret (if negb (u32 res =? zlen data) then 1 else 0)
          | None => res ← o_sendpacket send_to data; mret (if negb (u32 res =? zlen data) then 1 else 0)
          end
      end.
End onion.

Definition set_callback_handle_recv_1 (function : option (IP_Port → bytes → Z)) : O unit :=
  modify (λ o, o <| o_recv_1 := function |>).

(** [alloc] is the outcome of the [calloc]s. *)
Definition new_onion (alloc : bool) (mono_time : Mono_Time) (rng : Random) (net : Networking_Core) (secret_key : bytes) :
    option Onion :=
  if negb alloc then None
  else
    let '(key, rng) := new_symmetric_key rng in
    match shared_key_cache_new alloc alloc mono_time secret_key ONION_KEYS_TIMEOUT ONION_KEYS_PER_SLOT with
    | None => None
    | Some c => Some (mkOnion mono_time rng net key (mono_time_get mono_time) c c c None [])
    end.
