(* ===== verification/OnionRoute.v ===== *)
(** * OnionRoute: what the onion relays do for the packets they forward

    No relay ever sends more than its buffers hold, and a packet that travels
    over three relays arrives as it was, as does the answer to it. *)
From S2P Require Import Prelude MonoTime CryptoCore SharedKeyCache Network World DhtPackets Onion.

(** Unfolds the sizes of onion packets for [lia]. *)
Ltac onion_sizes := unfold ONION_MAX_DATA_SIZE, ONION_RESPONSE_MAX_DATA_SIZE, ONION_SEND_1, ONION_SEND_2, ONION_SEND_3,
  ONION_SEND_BASE, ONION_RETURN_3, ONION_RETURN_2, ONION_RETURN_1, ONION_MAX_PACKET_SIZE, SIZE_IPPORT, SIZE_IP, SIZE_PORT,
  SIZE_IP6, CRYPTO_NONCE_SIZE, CRYPTO_PUBLIC_KEY_SIZE, CRYPTO_MAC_SIZE in *.

(** ** Bounds *)

(** [m] sends at most one packet, and none of more than [ONION_MAX_PACKET_SIZE]
    bytes. *)
Definition sends_within {A} (m : O A) : Prop := ∀ o, ∃ sent,
  net_log (o_net (m o).2) = net_log (o_net o) ++ sent ∧ (length sent <= 1)%nat ∧
  Forall (λ p : IP_Port * bytes, zlen p.2 <= ONION_MAX_PACKET_SIZE) sent.

Lemma zlen_slice_max off n (p : bytes) : 0 <= n → zlen (slice off n p) <= n.
Proof. intros Hn. unfold slice, zlen. rewrite length_take. lia. Qed.

Lemma within_quiet {A} (m : O A) : frame (λ o, net_log (o_net o)) m → sends_within m.
Proof. intros Hf o. exists []. rewrite app_nil_r. split; [apply Hf|]. split; [simpl; lia|constructor]. Qed.

Lemma within_bind {A B} (m : O A) (f : A → O B) :
  frame (λ o, net_log (o_net o)) m → (∀ x, sends_within (f x)) → sends_within (m ≫= f).
Proof.
  intros Hm Hf o. unfold mbind, M_bind. specialize (Hm o). destruct (m o) as [x o']. cbn [snd] in Hm.
  rewrite <- Hm. apply Hf.
Qed.

Lemma within_then {A B} (m : O A) (f : A → B) : sends_within m → sends_within (x ← m; mret (f x)).
Proof. intros Hm o. unfold mbind, M_bind. destruct (Hm o) as (sent & H). destruct (m o) as [x o']. by exists sent. Qed.

Lemma within_send ip data : zlen data <= ONION_MAX_PACKET_SIZE → sends_within (o_sendpacket ip data).
Proof.
  intros Hl o. unfold o_sendpacket, sendpacket, send_packet.
  cases; cbn; try (exists []; rewrite app_nil_r; split; [done|split; [simpl; lia|constructor]]);
    (eexists [_]; split; [done|]; split; [simpl; lia|by apply Forall_singleton]).
Qed.

Ltac quiet_step := intros ?; cbv [get modify act o_draw]; repeat case_match; done.

Lemma change_key_quiet : frame (λ o, net_log (o_net o)) change_symmetric_key.
Proof. unfold change_symmetric_key. repeat (apply frame_bind; [quiet_step|intros ?]). case_match; [|done]. apply frame_bind; [quiet_step|done]. Qed.

Section bounds.
Context {Sod : Sodium} (alloc : bool).

Lemma lookup_1_quiet pk : frame (λ o, net_log (o_net o)) (o_lookup_1 pk).
Proof using. intros o. unfold o_lookup_1. by destruct shared_key_cache_lookup. Qed.
Lemma lookup_2_quiet pk : frame (λ o, net_log (o_net o)) (o_lookup_2 pk).
Proof using. intros o. unfold o_lookup_2. by destruct shared_key_cache_lookup. Qed.
Lemma lookup_3_quiet pk : frame (λ o, net_log (o_net o)) (o_lookup_3 pk).
Proof using. intros o. unfold o_lookup_3. by destruct shared_key_cache_lookup. Qed.

Lemma encrypt_max k nonce plain len l c : 0 <= len →
  encrypt_data_symmetric alloc k nonce plain len = (l, c) → zlen c <= len + 16.
Proof using.
  intros Hl. unfold encrypt_data_symmetric, crypto_box_MACBYTES. cases; try (intros [= <- <-]; unfold zlen; simpl; lia).
  case_match; intros [= <- <-]; [apply zlen_slice_max; lia|unfold zlen; simpl; lia].
Qed.

Lemma send_with_return_within ip head ret len :
  0 <= len → zlen head + 24 + len + 16 <= ONION_MAX_PACKET_SIZE → sends_within (send_with_return alloc ip head ret len).
Proof using.
  intros Hl Hh o. unfold send_with_return.
  destruct (random_nonce (o_rng o)) as [nonce rng] eqn:En.
  assert (o_draw random_nonce o = (nonce, o <| o_rng := rng |>)) as Ed by (unfold o_draw; by rewrite En).
  run Ed. rewrite run_get. apply random_nonce_ok in En as [Hn _].
  destruct encrypt_data_symmetric as [l c] eqn:E. apply encrypt_max in E; [|done].
  case_match; [exists []; rewrite app_nil_r; split; [done|split; [simpl; lia|constructor]]|].
  refine (within_then (o_sendpacket ip (head ++ nonce ++ c)) (λ res, if negb (u32 res =? _) then 1 else 0) _ (o <| o_rng := rng |>)).
  apply within_send. rewrite !zlen_app. lia.
Qed.

Lemma onion_send_1_within plain len source nonce : sends_within (onion_send_1 alloc plain len source nonce).
Proof using.
  unfold onion_send_1. case_match; [by apply within_quiet|]. case_match; [by apply within_quiet|].
  destruct ipport_unpack as [ip|]; [|by apply within_quiet]. apply send_with_return_within; onion_sizes; [lia|].
  rewrite !zlen_app. pose proof (zlen_slice_max 0 24 nonce). pose proof (zlen_slice_max 19 (len - 19) plain).
  change (zlen [NET_PACKET_ONION_SEND_1]) with 1. change (1 + 16 + 2) with 19 in *. lia.
Qed.

Ltac within_guard := case_match; [by apply within_quiet|].

Lemma handle_send_initial_within source packet len : sends_within (handle_send_initial alloc source packet len).
Proof using.
  unfold handle_send_initial. do 2 within_guard. apply within_bind; [apply change_key_quiet|intros _].
  apply within_bind; [apply lookup_1_quiet|intros k]. destruct k as [k|]; [|by apply within_quiet].
  destruct decrypt_data_symmetric. within_guard. apply onion_send_1_within.
Qed.

Lemma handle_send_1_within source packet len : sends_within (handle_send_1 alloc source packet len).
Proof using.
  unfold handle_send_1. do 2 within_guard. apply within_bind; [apply change_key_quiet|intros _].
  apply within_bind; [apply lookup_2_quiet|intros k]. destruct k as [k|]; [|by apply within_quiet].
  destruct decrypt_data_symmetric as [l plain]. within_guard. destruct ipport_unpack; [|by apply within_quiet].
  apply send_with_return_within; onion_sizes; [lia|]. rewrite !zlen_app.
  pose proof (zlen_slice_max 1 24 packet). pose proof (zlen_slice_max 19 (l - 19) plain).
  change (zlen [NET_PACKET_ONION_SEND_2]) with 1. change (1 + 16 + 2) with 19 in *. lia.
Qed.

Lemma handle_send_2_within source packet len : sends_within (handle_send_2 alloc source packet len).
Proof using.
  unfold handle_send_2. do 2 within_guard. apply within_bind; [apply change_key_quiet|intros _].
  apply within_bind; [apply lookup_3_quiet|intros k]. destruct k as [k|]; [|by apply within_quiet].
  destruct decrypt_data_symmetric as [l plain]. do 3 within_guard. destruct ipport_unpack; [|by apply within_quiet].
  apply within_then, send_with_return_within; onion_sizes; [lia|].
  pose proof (zlen_slice_max 19 (l - 19) plain). change (1 + 16 + 2) with 19 in *. lia.
Qed.

(** The part of a response handler after the guards. *)
Lemma recv_within {A} (f : bytes → O A) : (∀ key, sends_within (f key)) →
  sends_within (change_symmetric_key;; key ← get o_secret_symmetric_key; f key).
Proof using.
  intros Hf. apply within_bind; [apply change_key_quiet|intros _]. by apply within_bind; [done|].
Qed.

Ltac recv_bound packet plain :=
  match goal with |- zlen ([?t] ++ slice ?a ?n plain ++ slice ?b ?m packet) <= _ =>
    pose proof (zlen_slice_max a n plain); pose proof (zlen_slice_max b m packet) end;
  rewrite !zlen_app; onion_sizes; unfold zlen in *; simpl length; lia.

Lemma handle_recv_3_within source packet len : sends_within (handle_recv_3 alloc source packet len).
Proof using.
  unfold handle_recv_3. do 3 within_guard. apply recv_within. intros key.
  destruct decrypt_data_symmetric as [l plain]. within_guard. destruct ipport_unpack; [|by apply within_quiet].
  apply within_then, within_send. recv_bound packet plain.
Qed.

Lemma handle_recv_2_within source packet len : sends_within (handle_recv_2 alloc source packet len).
Proof using.
  unfold handle_recv_2. do 3 within_guard. apply recv_within. intros key.
  destruct decrypt_data_symmetric as [l plain]. within_guard. destruct ipport_unpack; [|by apply within_quiet].
  apply within_then, within_send. recv_bound packet plain.
Qed.

Lemma handle_recv_1_within source packet len : sends_within (handle_recv_1 alloc source packet len).
Proof using.
  unfold handle_recv_1. do 3 within_guard. apply recv_within. intros key.
  destruct decrypt_data_symmetric as [l plain]. within_guard. destruct ipport_unpack as [ip|]; [|by apply within_quiet].
  assert (zlen (slice (1 + ONION_RETURN_1) (len - (1 + ONION_RETURN_1)) packet) <= ONION_MAX_PACKET_SIZE).
  { etrans; [apply zlen_slice_max|]; onion_sizes; lia. }
  apply within_bind; [done|]. intros [f|]; [case_match|]; [|by apply within_then, within_send..].
  apply within_bind; [done|]. intros _. by apply within_quiet.
Qed.

Lemma handle_send_2_no_abort source packet len o : (handle_send_2 alloc source packet len o).1 ≠ None.
Proof using.
  unfold handle_send_2. do 2 (case_match; [done|]). unfold mbind, M_bind.
  destruct (change_symmetric_key o) as [[] o1]. destruct (o_lookup_3 _ o1) as [[k|] o2]; [|done].
  destruct decrypt_data_symmetric as [l plain]. case_match; [done|].
  replace (SIZE_IPPORT <? l) with true by (onion_sizes; lia). cbn [negb]. case_match; [done|].
  destruct ipport_unpack; [|done]. by destruct (send_with_return _ _ _ _ _ o2).
Qed.

(** The handlers [new_onion] registers; [None] is a failed assertion. *)
Definition onion_packethandlers (byte : Z) : option (IP_Port → bytes → Z → O (option Z)) :=
  let plain (h : IP_Port → bytes → Z → O Z) source packet length := r ← h source packet length; mret (Some r) in
  if byte =? NET_PACKET_ONION_SEND_INITIAL then Some (plain (handle_send_initial alloc))
  else if byte =? NET_PACKET_ONION_SEND_1 then Some (plain (handle_send_1 alloc))
  else if byte =? NET_PACKET_ONION_SEND_2 then Some (handle_send_2 alloc)
  else if byte =? NET_PACKET_ONION_RECV_3 then Some (plain (handle_recv_3 alloc))
  else if byte =? NET_PACKET_ONION_RECV_2 then Some (plain (handle_recv_2 alloc))
  else if byte =? NET_PACKET_ONION_RECV_1 then Some (plain (handle_recv_1 alloc))
  else None.

(** C21: Whatever arrives at an onion relay, it sends at most one packet on, of no
    more than the 1400 bytes its buffer holds, and its assertion never fails. *)
Theorem onion_relay_in_bounds byte h source packet len o :
  onion_packethandlers byte = Some h →
  (h source packet len o).1 ≠ None ∧
  ∃ sent, net_log (o_net (h source packet len o).2) = net_log (o_net o) ++ sent ∧ (length sent <= 1)%nat ∧
    Forall (λ p : IP_Port * bytes, zlen p.2 <= ONION_MAX_PACKET_SIZE) sent.
Proof using.
  assert (∀ (m : O Z), sends_within m → (((r ← m; mret (Some r)) : O (option Z)) o).1 ≠ None ∧
    ∃ sent, net_log (o_net (((r ← m; mret (Some r)) : O (option Z)) o).2) = net_log (o_net o) ++ sent ∧ (length sent <= 1)%nat ∧
      Forall (λ p : IP_Port * bytes, zlen p.2 <= ONION_MAX_PACKET_SIZE) sent) as Hp.
  { intros m Hm. split; [unfold mbind, M_bind; by destruct (m o)|]. by apply (within_then m Some). }
  unfold onion_packethandlers. cases; intros [= <-]; try (apply Hp).
  - apply handle_send_initial_within.
  - apply handle_send_1_within.
  - split; [apply handle_send_2_no_abort|apply handle_send_2_within].
  - apply handle_recv_3_within.
  - apply handle_recv_2_within.
  - apply handle_recv_1_within.
Qed.
End bounds.

(** ** The way there and back *)

Definition udp (p : IP_Port) : Prop :=
  ip_port_ok p ∧ (ip_family (ipp_ip p) = TOX_AF_INET ∨ ip_family (ipp_ip p) = TOX_AF_INET6).

Lemma zlen_ipport_pack p : ip_port_ok p → zlen (ipport_pack p) = 19.
Proof.
  intros [[Hl _] _]. unfold ipport_pack, ip_pack. rewrite !zlen_app, zlen_le_bytes. change (zlen [_]) with 1.
  case_match; [rewrite zlen_app, length_slice by lia; change (zlen (zeros 12)) with 12; lia|rewrite length_slice by lia; lia].
Qed.

Lemma wire_v4 p : ip_family (ipp_ip p) = TOX_AF_INET →
  wire_ip_port p = mkIPPort (mkIP TOX_AF_INET (slice 0 4 (ip_addr (ipp_ip p)) ++ zeros 12)) (ipp_port p).
Proof. intros E. unfold wire_ip_port, family_v4. by rewrite E. Qed.
Lemma wire_v6 p : ip_family (ipp_ip p) = TOX_AF_INET6 → wire_ip_port p = p.
Proof. intros E. unfold wire_ip_port, family_v4. by rewrite E. Qed.

Lemma wire_dest_wire p : udp p → wire_dest (wire_ip_port p) = wire_dest p.
Proof.
  intros [[[Hl _] _] [E|E]]; [|by rewrite wire_v6]. rewrite wire_v4 by done. unfold wire_dest. cbn [ipp_ip ip_family]. rewrite E.
  change (net_family_is_ipv4 TOX_AF_INET) with true. cbv iota. unfold v4_in_v6. cbn [ipp_ip ip_addr ipp_port].
  by rewrite slice_app_l by (apply length_slice; lia).
Qed.

Lemma wire_udp p : udp p → udp (wire_ip_port p).
Proof.
  intros [[[Hl Hb] Hp] [E|E]]; [|by rewrite wire_v6; [split; [|right]|]]. rewrite wire_v4 by done. split; [|by left].
  split; [|done]. split; cbn.
  - rewrite zlen_app, length_slice by lia. done.
  - apply Forall_app. split; [by apply slice_bytes_ok|apply zeros_ok].
Qed.

(** An address that was packed is read back without its unused bytes. *)
Lemma ipport_pack_unpack p rest n check : udp p → 19 <= n → ipport_unpack (ipport_pack p ++ rest) n check = Some (wire_ip_port p).
Proof.
  intros [[[Hl Hb] Hp] Hf] Hn. unfold ipport_unpack, ip_unpack, ipport_pack, ip_pack, SIZE_IP, SIZE_PORT, SIZE_IP6.
  replace (n <? 1 + 16 + 2) with false by lia. replace (n <? 1 + 16) with false by lia. rewrite <- !app_assoc.
  change (aget 0 ([ip_family (ipp_ip p)] ++ _) 0) with (ip_family (ipp_ip p)).
  pose proof (zlen_le_bytes 2 (ipp_port p)) as Hpl. change (Z.of_nat 2) with 2 in Hpl.
  assert (∀ body, zlen body = 16 → slice (1 + 16) 2 ([ip_family (ipp_ip p)] ++ body ++ le_bytes 2 (ipp_port p) ++ rest) = le_bytes 2 (ipp_port p)) as Hport.
  { intros body Hbody. by slices. }
  assert (zlen (slice 0 4 (ip_addr (ipp_ip p))) = 4) as H4 by (apply length_slice; lia).
  destruct Hf as [E|E]; rewrite E.
  - change (net_family_is_ipv4 TOX_AF_INET) with true. cbn [orb andb]. rewrite orb_true_r. cbn [orb]. rewrite <- E, Hport.
    2:{ rewrite zlen_app, H4. done. }
    rewrite le_val_bytes by (unfold is_u16 in *; lia). rewrite wire_v4 by done. do 2 f_equal. rewrite E. f_equal.
    rewrite <- app_assoc. by slices.
  - change (net_family_is_ipv4 TOX_AF_INET6 || net_family_is_tox_tcp_ipv4 TOX_AF_INET6) with false.
    change (net_family_is_ipv6 TOX_AF_INET6) with true. rewrite !orb_true_r. cbv iota.
    rewrite (slice_all 16) by done. rewrite <- E, Hport by done. rewrite le_val_bytes by (unfold is_u16 in *; lia).
    rewrite wire_v6 by done.
    assert (slice 1 16 ([ip_family (ipp_ip p)] ++ ip_addr (ipp_ip p) ++ le_bytes 2 (ipp_port p) ++ rest) = ip_addr (ipp_ip p)) as ->
      by (by slices). by destruct p as [[] ?].
Qed.

Section route.
Context {Sod : Sodium} {Law : SodiumLaws Sod}.

(** A relay with the secret key [sk] that is not about to change its symmetric
    key. *)
Record relay_ok (sk : bytes) (o : Onion) : Prop := {
  ro_net : net_family (o_net o) = TOX_AF_INET6;
  ro_steady : mono_time_is_timeout (o_mono_time o) (o_timestamp o) KEY_REFRESH_INTERVAL = false;
  ro_keys_1 : SharedKeyCache.wf (cache_now o (o_shared_keys_1 o)) ∧ skc_self_secret_key (o_shared_keys_1 o) = sk;
  ro_keys_2 : SharedKeyCache.wf (cache_now o (o_shared_keys_2 o)) ∧ skc_self_secret_key (o_shared_keys_2 o) = sk;
  ro_keys_3 : SharedKeyCache.wf (cache_now o (o_shared_keys_3 o)) ∧ skc_self_secret_key (o_shared_keys_3 o) = sk
}.

(** What a relay needs to open its return data later. *)
Definition same_relay (o o' : Onion) : Prop :=
  net_family (o_net o') = net_family (o_net o) ∧ o_mono_time o' = o_mono_time o ∧ o_timestamp o' = o_timestamp o ∧
  o_secret_symmetric_key o' = o_secret_symmetric_key o ∧ o_recv_1 o' = o_recv_1 o.

Lemma change_key_steady o : mono_time_is_timeout (o_mono_time o) (o_timestamp o) KEY_REFRESH_INTERVAL = false →
  change_symmetric_key o = (tt, o).
Proof using. intros E. unfold change_symmetric_key. rewrite run_get. by rewrite E. Qed.

Lemma lookup_1_run o sk pk : relay_ok sk o → bytes_ok pk →
  ∃ c, o_lookup_1 pk o = (encrypt_precompute pk sk, o <| o_shared_keys_1 := c |>).
Proof using.
  intros [_ _ [Hw Hs] _ _] Hb. unfold o_lookup_1. pose proof (shared_key_cache_lookup_ok _ pk Hw (aget_byte pk 8 Hb)) as H.
  destruct shared_key_cache_lookup as [k c]. destruct H as (-> & _ & _). cbn [cache_now skc_self_secret_key]. rewrite Hs. eauto.
Qed.
Lemma lookup_2_run o sk pk : relay_ok sk o → bytes_ok pk →
  ∃ c, o_lookup_2 pk o = (encrypt_precompute pk sk, o <| o_shared_keys_2 := c |>).
Proof using.
  intros [_ _ _ [Hw Hs] _] Hb. unfold o_lookup_2. pose proof (shared_key_cache_lookup_ok _ pk Hw (aget_byte pk 8 Hb)) as H.
  destruct shared_key_cache_lookup as [k c]. destruct H as (-> & _ & _). cbn [cache_now skc_self_secret_key]. rewrite Hs. eauto.
Qed.
Lemma lookup_3_run o sk pk : relay_ok sk o → bytes_ok pk →
  ∃ c, o_lookup_3 pk o = (encrypt_precompute pk sk, o <| o_shared_keys_3 := c |>).
Proof using.
  intros [_ _ _ _ [Hw Hs]] Hb. unfold o_lookup_3. pose proof (shared_key_cache_lookup_ok _ pk Hw (aget_byte pk 8 Hb)) as H.
  destruct shared_key_cache_lookup as [k c]. destruct H as (-> & _ & _). cbn [cache_now skc_self_secret_key]. rewrite Hs. eauto.
Qed.

(** What a relay appends, and that it can read it again. *)
Lemma send_with_return_run o ip head ret len :
  net_family (o_net o) = TOX_AF_INET6 → udp ip → zlen ret = len → 0 < len →
  ∃ res o' back, send_with_return true ip head ret len o = (res, o') ∧ same_relay o o' ∧
    net_log (o_net o') = net_log (o_net o) ++ [(wire_dest ip, head ++ back)] ∧ zlen back = 24 + (len + 16) ∧
    decrypt_data_symmetric true (o_secret_symmetric_key o) (slice 0 24 back) (drop 24 back) (len + 16) = (len, ret).
Proof using Law.
  intros Hn [_ Hf] Hr Hl. unfold send_with_return.
  destruct (random_nonce (o_rng o)) as [nonce rng] eqn:En.
  assert (o_draw random_nonce o = (nonce, o <| o_rng := rng |>)) as Ed by (unfold o_draw; by rewrite En).
  run Ed. rewrite run_get. apply random_nonce_ok in En as [Hnl _].
  destruct (encrypt_ok (o_secret_symmetric_key o) nonce ret len Hr Hl) as (c & Ec & Hc & Hd).
  change (o_secret_symmetric_key (o <| o_rng := rng |>)) with (o_secret_symmetric_key o). rewrite Ec.
  change CRYPTO_MAC_SIZE with 16. rewrite Z.eqb_refl. cbn [negb].
  unfold mbind, M_bind, o_sendpacket. change (o_net (o <| o_rng := rng |>)) with (o_net o). rewrite (send_dual _ _ _ Hn Hf).
  eexists _, _, (nonce ++ c). split; [reflexivity|]. split; [by split_and!|]. split; [done|].
  split; [rewrite zlen_app; lia|].
  assert (slice 0 24 (nonce ++ c) = nonce) as -> by (by rewrite slice_app_l).
  by rewrite drop_app_length' by (unfold zlen in Hnl; lia).
Qed.

(** A packet of a hop: nonce, key and what is encrypted behind them. *)
Lemma hop_fields (type : Z) (nonce pk rest : bytes) : zlen nonce = 24 → zlen pk = 32 →
  let p := [type] ++ nonce ++ pk ++ rest in
  slice 1 24 p = nonce ∧ slice 25 32 p = pk ∧ drop 57 p = rest ∧ zlen p = 57 + zlen rest.
Proof using.
  intros Hn Hp p. unfold p. split; [by slices|]. split; [by slices|]. split; [|zlens].
  rewrite !app_assoc, drop_app_length'; [done|].
  apply Nat2Z.inj. fold (zlen (([type] ++ nonce) ++ pk)). zlens.
Qed.

(** One layer: opening what was sealed with the key of the hop. *)
Lemma open_layer k nonce plain len c back :
  zlen c = len + 16 → decrypt_data_symmetric true k nonce c (len + 16) = (len, plain) → 
  decrypt_data_symmetric true k nonce (c ++ back) (len + 16) = (len, plain).
Proof using.
  intros Hc. unfold decrypt_data_symmetric. rewrite slice_all by done.
  assert (slice 0 (len + 16) (c ++ back) = c) as -> by (by rewrite slice_app_l). done.
Qed.

Lemma handle_send_initial_run o sk addr nonce pk k c inner n send_to :
  relay_ok sk o → udp addr → udp send_to → zlen nonce = 24 → zlen pk = 32 → bytes_ok pk → encrypt_precompute pk sk = Some k →
  zlen inner = n → 134 < n <= 1308 → zlen c = 19 + n + 16 →
  decrypt_data_symmetric true k nonce c (19 + n + 16) = (19 + n, ipport_pack send_to ++ inner) →
  let packet := [NET_PACKET_ONION_SEND_INITIAL] ++ nonce ++ pk ++ c in
  ∃ res o' back, handle_send_initial true addr packet (zlen packet) o = (res, o') ∧ same_relay o o' ∧
    net_log (o_net o') = net_log (o_net o) ++ [(wire_dest send_to, [NET_PACKET_ONION_SEND_1] ++ nonce ++ inner ++ back)] ∧
    zlen back = 59 ∧
    decrypt_data_symmetric true (o_secret_symmetric_key o) (slice 0 24 back) (drop 24 back) 35 = (19, ipport_pack addr).
Proof using Law.
  intros Ho Haddr Hto Hnl Hpl Hpb Ek Hi Hn Hc Hdec packet.
  destruct (hop_fields NET_PACKET_ONION_SEND_INITIAL nonce pk c Hnl Hpl) as (E1 & E2 & E3 & E4). fold packet in E1, E2, E3, E4.
  unfold handle_send_initial. rewrite E4, Hc. change (1 + ONION_SEND_1) with 226. change ONION_MAX_PACKET_SIZE with 1400.
  replace (1400 <? _) with false by lia. replace (_ <=? 226) with false by lia.
  rewrite (run_bind _ _ _ _ _ (change_key_steady o (ro_steady _ _ Ho))).
  change (1 + CRYPTO_NONCE_SIZE + CRYPTO_PUBLIC_KEY_SIZE) with 57. change (1 + CRYPTO_NONCE_SIZE) with 25.
  change CRYPTO_PUBLIC_KEY_SIZE with 32. change CRYPTO_NONCE_SIZE with 24. change (Z.to_nat 57) with 57%nat. change CRYPTO_MAC_SIZE with 16.
  rewrite E1, E2, E3. destruct (lookup_1_run o sk pk Ho Hpb) as (cache & El). run El. rewrite Ek.
  replace (57 + (19 + n + 16) - 57) with (19 + n + 16) by lia. rewrite Hdec.
  replace (19 + n =? _) with true by lia. cbn [negb]. unfold onion_send_1.
  change (ONION_MAX_PACKET_SIZE + SIZE_IPPORT - (1 + CRYPTO_NONCE_SIZE + ONION_RETURN_1)) with 1335.
  change (SIZE_IPPORT + ONION_SEND_BASE * 2) with 153. change SIZE_IPPORT with 19. change CRYPTO_NONCE_SIZE with 24.
  replace (1335 <? 19 + n) with false by lia. replace (19 + n <=? 153) with false by lia.
  rewrite ipport_pack_unpack by (done || lia). rewrite (slice_all 24) by done.
  assert (slice 19 (19 + n - 19) (ipport_pack send_to ++ inner) = inner) as ->.
  { pose proof (zlen_ipport_pack send_to (proj1 Hto)). replace (19 + n - 19) with n by lia. by slices. }
  set (o1 := o <| o_shared_keys_1 := cache |>). destruct (send_with_return_run o1 (wire_ip_port send_to)
    ([NET_PACKET_ONION_SEND_1] ++ nonce ++ inner) (ipport_pack addr) 19 (ro_net _ _ Ho) (wire_udp _ Hto)
    (zlen_ipport_pack _ (proj1 Haddr)) ltac:(lia)) as (res & o' & back & Es & Hsame & Hlog & Hbl & Hbd).
  exists res, o', back. split; [exact Es|]. split; [exact Hsame|]. split; [|by split].
  rewrite Hlog, wire_dest_wire by done. by rewrite <- !app_assoc.
Qed.

(** The sizes of the forward handlers as numbers. *)
Ltac hop_sizes :=
  change (1 + CRYPTO_NONCE_SIZE + CRYPTO_PUBLIC_KEY_SIZE) with 57; change (1 + CRYPTO_NONCE_SIZE) with 25;
  change CRYPTO_PUBLIC_KEY_SIZE with 32; change CRYPTO_NONCE_SIZE with 24; change (Z.to_nat 57) with 57%nat;
  change CRYPTO_MAC_SIZE with 16; change ONION_RETURN_1 with 59; change ONION_RETURN_2 with 118; change SIZE_IPPORT with 19.

(** The end of a hop packet: what the relay before appended. *)
Lemma hop_back (packet head back : bytes) n : packet = head ++ back → zlen back = n → slice (zlen packet - n) n packet = back.
Proof using.
  intros -> Hb. pose proof (zlen_nonneg head). rewrite zlen_app. replace (zlen head + zlen back - n) with (zlen head) by lia.
  rewrite slice_app_r by lia. rewrite Z.sub_diag. by apply slice_all.
Qed.

Lemma handle_send_1_run o sk addr nonce pk k c inner n send_to back0 :
  relay_ok sk o → udp addr → udp send_to → zlen nonce = 24 → zlen pk = 32 → bytes_ok pk → encrypt_precompute pk sk = Some k →
  zlen inner = n → 67 < n <= 1241 → zlen c = 19 + n + 16 → zlen back0 = 59 →
  decrypt_data_symmetric true k nonce c (19 + n + 16) = (19 + n, ipport_pack send_to ++ inner) →
  let packet := [NET_PACKET_ONION_SEND_1] ++ nonce ++ pk ++ c ++ back0 in
  ∃ res o' back, handle_send_1 true addr packet (zlen packet) o = (res, o') ∧ same_relay o o' ∧
    net_log (o_net o') = net_log (o_net o) ++ [(wire_dest send_to, [NET_PACKET_ONION_SEND_2] ++ nonce ++ inner ++ back)] ∧
    zlen back = 118 ∧
    decrypt_data_symmetric true (o_secret_symmetric_key o) (slice 0 24 back) (drop 24 back) 94 = (78, ipport_pack addr ++ back0).
Proof using Law.
  intros Ho Haddr Hto Hnl Hpl Hpb Ek Hi Hn Hc Hb0 Hdec packet.
  destruct (hop_fields NET_PACKET_ONION_SEND_1 nonce pk (c ++ back0) Hnl Hpl) as (E1 & E2 & E3 & E4). fold packet in E1, E2, E3, E4.
  assert (slice (zlen packet - 59) 59 packet = back0) as E5
    by (apply (hop_back packet ([NET_PACKET_ONION_SEND_1] ++ nonce ++ pk ++ c)); [unfold packet; by rewrite <- !app_assoc|done]).
  rewrite zlen_app in E4. unfold handle_send_1.
  change (1 + ONION_SEND_2) with 218. change ONION_MAX_PACKET_SIZE with 1400.
  replace (1400 <? _) with false by lia. replace (_ <=? 218) with false by lia.
  rewrite (run_bind _ _ _ _ _ (change_key_steady o (ro_steady _ _ Ho))). hop_sizes.
  rewrite E1, E2, E3, E5. destruct (lookup_2_run o sk pk Ho Hpb) as (cache & El). run El. rewrite Ek.
  replace (zlen packet - (57 + 59)) with (19 + n + 16) by lia. rewrite (open_layer k nonce _ (19 + n) c back0 Hc Hdec).
  replace (19 + n =? _) with true by lia. cbn [negb].
  rewrite ipport_pack_unpack by (done || lia).
  assert (slice 19 (19 + n - 19) (ipport_pack send_to ++ inner) = inner) as ->.
  { pose proof (zlen_ipport_pack send_to (proj1 Hto)). replace (19 + n - 19) with n by lia. by slices. }
  change (59 + 19) with 78. pose proof (zlen_ipport_pack addr (proj1 Haddr)).
  set (o1 := o <| o_shared_keys_2 := cache |>). destruct (send_with_return_run o1 (wire_ip_port send_to)
    ([NET_PACKET_ONION_SEND_2] ++ nonce ++ inner) (ipport_pack addr ++ back0) 78 (ro_net _ _ Ho) (wire_udp _ Hto)
    ltac:(rewrite zlen_app; lia) ltac:(lia)) as (res & o' & back & Es & Hsame & Hlog & Hbl & Hbd).
  exists res, o', back. split; [exact Es|]. split; [exact Hsame|]. split; [|by split].
  rewrite Hlog, wire_dest_wire by done. by rewrite <- !app_assoc.
Qed.

(** A packet the third relay passes on. *)
Definition request_byte (b : Z) : Prop :=
  b = NET_PACKET_ANNOUNCE_REQUEST ∨ b = NET_PACKET_ANNOUNCE_REQUEST_OLD ∨ b = NET_PACKET_ONION_DATA_REQUEST.
Definition response_byte (b : Z) : Prop :=
  b = NET_PACKET_ANNOUNCE_RESPONSE ∨ b = NET_PACKET_ANNOUNCE_RESPONSE_OLD ∨ b = NET_PACKET_ONION_DATA_RESPONSE.

Lemma handle_send_2_run o sk addr nonce pk k c data n dest back0 :
  relay_ok sk o → udp addr → udp dest → zlen nonce = 24 → zlen pk = 32 → bytes_ok pk → encrypt_precompute pk sk = Some k →
  zlen data = n → 0 < n <= 1174 → request_byte (aget 0 data 0) → zlen c = 19 + n + 16 → zlen back0 = 118 →
  decrypt_data_symmetric true k nonce c (19 + n + 16) = (19 + n, ipport_pack dest ++ data) →
  let packet := [NET_PACKET_ONION_SEND_2] ++ nonce ++ pk ++ c ++ back0 in
  ∃ res o' back, handle_send_2 true addr packet (zlen packet) o = (Some res, o') ∧ same_relay o o' ∧
    net_log (o_net o') = net_log (o_net o) ++ [(wire_dest dest, data ++ back)] ∧
    zlen back = 177 ∧
    decrypt_data_symmetric true (o_secret_symmetric_key o) (slice 0 24 back) (drop 24 back) 153 = (137, ipport_pack addr ++ back0).
Proof using Law.
  intros Ho Haddr Hto Hnl Hpl Hpb Ek Hi Hn Hid Hc Hb0 Hdec packet.
  destruct (hop_fields NET_PACKET_ONION_SEND_2 nonce pk (c ++ back0) Hnl Hpl) as (E1 & E2 & E3 & E4). fold packet in E1, E2, E3, E4.
  assert (slice (zlen packet - 118) 118 packet = back0) as E5
    by (apply (hop_back packet ([NET_PACKET_ONION_SEND_2] ++ nonce ++ pk ++ c)); [unfold packet; by rewrite <- !app_assoc|done]).
  rewrite zlen_app in E4. unfold handle_send_2.
  change (1 + ONION_SEND_3) with 210. change ONION_MAX_PACKET_SIZE with 1400.
  replace (1400 <? _) with false by lia. replace (_ <=? 210) with false by lia.
  rewrite (run_bind _ _ _ _ _ (change_key_steady o (ro_steady _ _ Ho))). hop_sizes.
  rewrite E1, E2, E3, E5. destruct (lookup_3_run o sk pk Ho Hpb) as (cache & El). run El. rewrite Ek.
  replace (zlen packet - (57 + 118)) with (19 + n + 16) by lia. rewrite (open_layer k nonce _ (19 + n) c back0 Hc Hdec).
  replace (19 + n =? _) with true by lia. cbn [negb]. replace (19 <? 19 + n) with true by lia. cbn [negb].
  pose proof (zlen_ipport_pack dest (proj1 Hto)) as Hpd. pose proof (zlen_ipport_pack addr (proj1 Haddr)).
  assert (aget 0 (ipport_pack dest ++ data) 19 = aget 0 data 0) as ->.
  { unfold aget. rewrite lookup_app_r by (unfold zlen in *; lia). f_equal. f_equal. unfold zlen in *. lia. }
  replace (negb _ && negb _ && negb _) with false by (unfold request_byte in Hid; destruct Hid as [->|[->| ->]]; reflexivity).
  rewrite ipport_pack_unpack by (done || lia).
  assert (slice 19 (19 + n - 19) (ipport_pack dest ++ data) = data) as ->.
  { replace (19 + n - 19) with n by lia. by slices. }
  change (118 + 19) with 137.
  set (o1 := o <| o_shared_keys_3 := cache |>). destruct (send_with_return_run o1 (wire_ip_port dest)
    data (ipport_pack addr ++ back0) 137 (ro_net _ _ Ho) (wire_udp _ Hto)
    ltac:(rewrite zlen_app; lia) ltac:(lia)) as (res & o' & back & Es & Hsame & Hlog & Hbl & Hbd).
  exists res, o', back. split; [unfold mbind, M_bind; change (_ o1) with (send_with_return true (wire_ip_port dest) data (ipport_pack addr ++ back0) 137 o1); by rewrite Es|].
  split; [exact Hsame|]. split; [|by split]. by rewrite Hlog, wire_dest_wire by done.
Qed.

Lemma o_send_run o ip data : net_family (o_net o) = TOX_AF_INET6 → udp ip →
  ∃ res o', (o_sendpacket ip data ≫= λ r, mret (if negb (u32 r =? zlen data) then 1 else 0)) o = (res, o') ∧ same_relay o o' ∧
    net_log (o_net o') = net_log (o_net o) ++ [(wire_dest ip, data)].
Proof using.
  intros Hn [_ Hf]. unfold mbind, M_bind, o_sendpacket. rewrite (send_dual _ _ _ Hn Hf). eexists _, _. split; [reflexivity|].
  by split; [split_and!|].
Qed.

(** The fields of a response on its way back. *)
Lemma back_fields (type : Z) (back rest : bytes) n : zlen back = 24 + n → 0 <= n →
  let p := [type] ++ back ++ rest in
  slice 1 24 p = slice 0 24 back ∧ drop 25 p = drop 24 back ++ rest ∧ zlen p = 25 + n + zlen rest ∧
  slice (25 + n) (zlen p - (25 + n)) p = rest ∧ aget 0 p (25 + n) = aget 0 rest 0.
Proof using.
  intros Hb Hn p. assert (zlen p = 25 + n + zlen rest) as Hz by (unfold p; rewrite !zlen_app; change (zlen [type]) with 1; lia).
  pose proof (zlen_nonneg rest). split_and!.
  - unfold p, slice. change (Z.to_nat 1) with 1%nat. cbn [app drop]. rewrite !drop_0, take_app_le by (unfold zlen in *; lia). done.
  - unfold p. cbn [app drop]. rewrite drop_app_le by (unfold zlen in *; lia). done.
  - exact Hz.
  - rewrite Hz. replace (25 + n + zlen rest - (25 + n)) with (zlen rest) by lia. unfold p. rewrite app_assoc.
    assert (zlen ([type] ++ back) = 25 + n) by (rewrite zlen_app; change (zlen [type]) with 1; lia).
    rewrite slice_app_r by lia. replace (25 + n - zlen ([type] ++ back)) with 0 by lia. by apply slice_all.
  - unfold p, aget. rewrite app_assoc, lookup_app_r by (rewrite length_app; unfold zlen in *; simpl; lia).
    f_equal. f_equal. rewrite length_app. unfold zlen in *. simpl. lia.
Qed.

Lemma response_byte_ok b : response_byte b → response_id_ok b = true.
Proof using. by intros [->|[->| ->]]. Qed.

(** The sealed return data with the rest of the packet behind it. *)
Lemma open_return k back plain len rest :
  zlen back = 24 + (len + 16) → 0 <= len → decrypt_data_symmetric true k (slice 0 24 back) (drop 24 back) (len + 16) = (len, plain) →
  decrypt_data_symmetric true k (slice 0 24 back) (drop 24 back ++ rest) (len + 16) = (len, plain).
Proof using. intros Hb Hl. apply open_layer. unfold zlen in *. rewrite length_drop. lia. Qed.

Definition steady (o : Onion) : Prop :=
  net_family (o_net o) = TOX_AF_INET6 ∧ mono_time_is_timeout (o_mono_time o) (o_timestamp o) KEY_REFRESH_INTERVAL = false.

Ltac back_sizes :=
  change ONION_MAX_PACKET_SIZE with 1400; change (1 + CRYPTO_NONCE_SIZE) with 25; change CRYPTO_NONCE_SIZE with 24;
  change (Z.to_nat 25) with 25%nat; change CRYPTO_MAC_SIZE with 16.

Lemma handle_recv_3_run o src addr back back2 rdata :
  steady o → udp addr → zlen back = 177 → zlen back2 = 118 →
  decrypt_data_symmetric true (o_secret_symmetric_key o) (slice 0 24 back) (drop 24 back) 153 = (137, ipport_pack addr ++ back2) →
  0 < zlen rdata <= 1222 → response_byte (aget 0 rdata 0) →
  let packet := [NET_PACKET_ONION_RECV_3] ++ back ++ rdata in
  ∃ res o', handle_recv_3 true src packet (zlen packet) o = (res, o') ∧ same_relay o o' ∧
    net_log (o_net o') = net_log (o_net o) ++ [(wire_dest addr, [NET_PACKET_ONION_RECV_2] ++ back2 ++ rdata)].
Proof using.
  intros [Hn Hs] Ha Hb Hb2 Hdec Hr Hid packet.
  destruct (back_fields NET_PACKET_ONION_RECV_3 back rdata 153 Hb ltac:(lia)) as (E1 & E2 & E3 & E4 & E5).
  fold packet in E1, E2, E3, E4, E5. change (25 + 153) with 178 in *.
  unfold handle_recv_3. change (1 + ONION_RETURN_3) with 178. back_sizes.
  replace (1400 <? zlen packet) with false by lia. replace (zlen packet <=? 178) with false by lia.
  rewrite E5, (response_byte_ok _ Hid). cbn [negb]. rewrite (run_bind _ _ _ _ _ (change_key_steady o Hs)), run_get.
  rewrite E1, E2, E4. change (SIZE_IPPORT + ONION_RETURN_2 + 16) with (137 + 16).
  rewrite (open_return _ back _ 137 rdata Hb ltac:(lia) Hdec). change (u32 137 =? _) with true. cbn [negb].
  rewrite ipport_pack_unpack by (done || lia). pose proof (zlen_ipport_pack addr (proj1 Ha)).
  assert (slice SIZE_IPPORT ONION_RETURN_2 (ipport_pack addr ++ back2) = back2) as ->
    by (change SIZE_IPPORT with 19; change ONION_RETURN_2 with 118; by slices).
  rewrite <- (wire_dest_wire addr) by done. cbv zeta. apply o_send_run; [done|by apply wire_udp].
Qed.

Lemma handle_recv_2_run o src addr back back1 rdata :
  steady o → udp addr → zlen back = 118 → zlen back1 = 59 →
  decrypt_data_symmetric true (o_secret_symmetric_key o) (slice 0 24 back) (drop 24 back) 94 = (78, ipport_pack addr ++ back1) →
  0 < zlen rdata <= 1222 → response_byte (aget 0 rdata 0) →
  let packet := [NET_PACKET_ONION_RECV_2] ++ back ++ rdata in
  ∃ res o', handle_recv_2 true src packet (zlen packet) o = (res, o') ∧ same_relay o o' ∧
    net_log (o_net o') = net_log (o_net o) ++ [(wire_dest addr, [NET_PACKET_ONION_RECV_1] ++ back1 ++ rdata)].
Proof using.
  intros [Hn Hs] Ha Hb Hb2 Hdec Hr Hid packet.
  destruct (back_fields NET_PACKET_ONION_RECV_2 back rdata 94 Hb ltac:(lia)) as (E1 & E2 & E3 & E4 & E5).
  fold packet in E1, E2, E3, E4, E5. change (25 + 94) with 119 in *.
  unfold handle_recv_2. change (1 + ONION_RETURN_2) with 119. back_sizes.
  replace (1400 <? zlen packet) with false by lia. replace (zlen packet <=? 119) with false by lia.
  rewrite E5, (response_byte_ok _ Hid). cbn [negb]. rewrite (run_bind _ _ _ _ _ (change_key_steady o Hs)), run_get.
  rewrite E1, E2, E4. change (SIZE_IPPORT + ONION_RETURN_1 + 16) with (78 + 16).
  rewrite (open_return _ back _ 78 rdata Hb ltac:(lia) Hdec). change (u32 78 =? _) with true. cbn [negb].
  rewrite ipport_pack_unpack by (done || lia). pose proof (zlen_ipport_pack addr (proj1 Ha)).
  assert (slice SIZE_IPPORT ONION_RETURN_1 (ipport_pack addr ++ back1) = back1) as ->
    by (change SIZE_IPPORT with 19; change ONION_RETURN_1 with 59; by slices).
  rewrite <- (wire_dest_wire addr) by done. cbv zeta. apply o_send_run; [done|by apply wire_udp].
Qed.

Lemma handle_recv_1_run o src addr back rdata :
  steady o → udp addr → zlen back = 59 →
  decrypt_data_symmetric true (o_secret_symmetric_key o) (slice 0 24 back) (drop 24 back) 35 = (19, ipport_pack addr) →
  0 < zlen rdata <= 1222 → response_byte (aget 0 rdata 0) →
  let packet := [NET_PACKET_ONION_RECV_1] ++ back ++ rdata in
  ∃ res o', handle_recv_1 true src packet (zlen packet) o = (res, o') ∧ same_relay o o' ∧
    net_log (o_net o') = net_log (o_net o) ++ [(wire_dest addr, rdata)].
Proof using.
  intros [Hn Hs] Ha Hb Hdec Hr Hid packet.
  destruct (back_fields NET_PACKET_ONION_RECV_1 back rdata 35 Hb ltac:(lia)) as (E1 & E2 & E3 & E4 & E5).
  fold packet in E1, E2, E3, E4, E5. change (25 + 35) with 60 in *.
  unfold handle_recv_1. change (1 + ONION_RETURN_1) with 60. back_sizes.
  replace (1400 <? zlen packet) with false by lia. replace (zlen packet <=? 60) with false by lia.
  rewrite E5, (response_byte_ok _ Hid). cbn [negb]. rewrite (run_bind _ _ _ _ _ (change_key_steady o Hs)), run_get.
  rewrite E1, E2, E4. change (SIZE_IPPORT + 16) with (19 + 16).
  rewrite (open_return _ back _ 19 rdata Hb ltac:(lia) Hdec). change (u32 19 =? _) with true. cbn [negb].
  pose proof (ipport_pack_unpack addr [] 19 true Ha ltac:(lia)) as Eu. rewrite app_nil_r in Eu. rewrite Eu.
  rewrite <- (wire_dest_wire addr) by done. cbv zeta. rewrite run_get.
  destruct (o_send_run o (wire_ip_port addr) rdata Hn (wire_udp _ Ha)) as (res & o' & Es & H).
  exists res, o'. split; [|exact H]. destruct (wire_udp _ Ha) as [_ Hf].
  destruct (o_recv_1 o) as [f|]; [|exact Es]. replace (negb _ && negb _) with false; [exact Es|].
  destruct Hf as [-> | ->]; reflexivity.
Qed.

(** A path whose keys the three relays derive as well. *)
Record path_ok (path : Onion_Path) (sk1 sk2 sk3 : bytes) : Prop := {
  po_pk1 : zlen (public_key1 path) = 32 ∧ bytes_ok (public_key1 path);
  po_pk2 : zlen (public_key2 path) = 32 ∧ bytes_ok (public_key2 path);
  po_pk3 : zlen (public_key3 path) = 32 ∧ bytes_ok (public_key3 path);
  po_key1 : encrypt_precompute (public_key1 path) sk1 = Some (shared_key1 path);
  po_key2 : encrypt_precompute (public_key2 path) sk2 = Some (shared_key2 path);
  po_key3 : encrypt_precompute (public_key3 path) sk3 = Some (shared_key3 path);
  po_ip2 : udp (ip_port2 path);
  po_ip3 : udp (ip_port3 path)
}.

Lemma create_onion_packet_run rng path sk1 sk2 sk3 dest data n :
  path_ok path sk1 sk2 sk3 → udp dest → zlen data = n → 0 < n <= ONION_MAX_DATA_SIZE →
  ∃ nonce rng' c1 c2 c3,
    create_onion_packet true rng ONION_MAX_PACKET_SIZE path dest data n
      = (Some ([NET_PACKET_ONION_SEND_INITIAL] ++ nonce ++ public_key1 path ++ c1), rng') ∧ zlen nonce = 24 ∧
    zlen c1 = 19 + (n + 134) + 16 ∧ zlen c2 = 19 + (n + 67) + 16 ∧ zlen c3 = 19 + n + 16 ∧
    decrypt_data_symmetric true (shared_key1 path) nonce c1 (19 + (n + 134) + 16)
      = (19 + (n + 134), ipport_pack (ip_port2 path) ++ public_key2 path ++ c2) ∧
    decrypt_data_symmetric true (shared_key2 path) nonce c2 (19 + (n + 67) + 16)
      = (19 + (n + 67), ipport_pack (ip_port3 path) ++ public_key3 path ++ c3) ∧
    decrypt_data_symmetric true (shared_key3 path) nonce c3 (19 + n + 16) = (19 + n, ipport_pack dest ++ data).
Proof using Law.
  intros [[L1 _] [L2 _] [L3 _] _ _ _ U2 U3] Hd Hz Hn. change ONION_MAX_DATA_SIZE with 1174 in Hn.
  unfold create_onion_packet. change ONION_MAX_PACKET_SIZE with 1400. change ONION_SEND_1 with 225.
  replace (1400 <? _) with false by lia. replace (n =? 0) with false by lia. cbn [orb].
  destruct (random_nonce rng) as [nonce rng'] eqn:En. apply random_nonce_ok in En as [Hnl _].
  unfold onion_layers. change ONION_SEND_BASE with 67. change SIZE_IPPORT with 19. change CRYPTO_MAC_SIZE with 16.
  rewrite (slice_all n) by done.
  pose proof (zlen_ipport_pack dest (proj1 Hd)). pose proof (zlen_ipport_pack _ (proj1 U2)). pose proof (zlen_ipport_pack _ (proj1 U3)).
  destruct (encrypt_ok (shared_key3 path) nonce (ipport_pack dest ++ data) (19 + n)) as (c3 & E3 & Y3 & D3); [rewrite zlen_app; lia|lia|].
  rewrite E3, Z.eqb_refl. cbn [negb].
  destruct (encrypt_ok (shared_key2 path) nonce (ipport_pack (ip_port3 path) ++ public_key3 path ++ c3) (19 + (n + 67)))
    as (c2 & E2 & Y2 & D2); [rewrite !zlen_app; lia|lia|].
  replace (19 + 67 + n) with (19 + (n + 67)) by lia. rewrite E2, Z.eqb_refl. cbn [negb].
  destruct (encrypt_ok (shared_key1 path) nonce (ipport_pack (ip_port2 path) ++ public_key2 path ++ c2) (19 + (n + 134)))
    as (c1 & E1 & Y1 & D1); [rewrite !zlen_app; lia|lia|].
  replace (19 + 67 * 2 + n) with (19 + (n + 134)) by lia. rewrite E1, Z.eqb_refl. cbn [negb].
  exists nonce, rng', c1, c2, c3. by split_and!.
Qed.

Lemma same_steady sk o o' : relay_ok sk o → same_relay o o' → steady o'.
Proof using. intros [Hn Hs _ _ _] (E1 & E2 & E3 & _). split; [by rewrite E1|by rewrite E2, E3]. Qed.

(** C20: The onion delivers.  A packet made for a path of three relays is opened
    by each of them in turn and arrives at its destination exactly as it was,
    followed by the return data; and a response sent with that return data
    travels the three relays back and arrives at the sender's address exactly as
    the destination wrote it.  The relays keep their keys in between. *)
Theorem onion_delivers_and_returns rng path sk1 sk2 sk3 r1 r2 r3 addr_a addr_1 addr_2 addr_3 dest data n src1 src2 src3 net_d rdata :
  path_ok path sk1 sk2 sk3 → relay_ok sk1 r1 → relay_ok sk2 r2 → relay_ok sk3 r3 →
  udp addr_a → udp addr_1 → udp addr_2 → udp addr_3 → udp dest → net_family net_d = TOX_AF_INET6 →
  zlen data = n → 0 < n <= ONION_MAX_DATA_SIZE → request_byte (aget 0 data 0) →
  0 < zlen rdata <= ONION_RESPONSE_MAX_DATA_SIZE → response_byte (aget 0 rdata 0) →
  ∃ p0 p1 p2 ret q1 q2 q3 r1' r2' r3',
    (create_onion_packet true rng ONION_MAX_PACKET_SIZE path dest data n).1 = Some p0 ∧
    (* the way there *)
    r1' = (handle_send_initial true addr_a p0 (zlen p0) r1).2 ∧
    net_log (o_net r1') = net_log (o_net r1) ++ [(wire_dest (ip_port2 path), p1)] ∧
    r2' = (handle_send_1 true addr_1 p1 (zlen p1) r2).2 ∧
    net_log (o_net r2') = net_log (o_net r2) ++ [(wire_dest (ip_port3 path), p2)] ∧
    r3' = (handle_send_2 true addr_2 p2 (zlen p2) r3).2 ∧
    net_log (o_net r3') = net_log (o_net r3) ++ [(wire_dest dest, data ++ ret)] ∧
    (* the way back *)
    net_log (send_onion_response net_d addr_3 rdata (zlen rdata) ret).2 = net_log net_d ++ [(wire_dest addr_3, q3)] ∧
    net_log (o_net (handle_recv_3 true src3 q3 (zlen q3) r3').2) = net_log (o_net r3') ++ [(wire_dest addr_2, q2)] ∧
    net_log (o_net (handle_recv_2 true src2 q2 (zlen q2) r2').2) = net_log (o_net r2') ++ [(wire_dest addr_1, q1)] ∧
    net_log (o_net (handle_recv_1 true src1 q1 (zlen q1) r1').2) = net_log (o_net r1') ++ [(wire_dest addr_a, rdata)].
Proof using Law.
  intros Hpath H1 H2 H3 Ha A1 A2 A3 Hd Hnd Hz Hn Hreq Hrn Hresp.
  destruct (create_onion_packet_run rng path sk1 sk2 sk3 dest data n Hpath Hd Hz Hn)
    as (nonce & rng' & c1 & c2 & c3 & Ecr & Hnl & Z1 & Z2 & Z3 & D1 & D2 & D3).
  destruct Hpath as [[L1 B1] [L2 B2] [L3 B3] K1 K2 K3 U2 U3]. change ONION_MAX_DATA_SIZE with 1174 in Hn.
  change ONION_RESPONSE_MAX_DATA_SIZE with 1222 in Hrn.
  destruct (handle_send_initial_run r1 sk1 addr_a nonce (public_key1 path) _ c1 (public_key2 path ++ c2) (n + 134) (ip_port2 path)
    H1 Ha U2 Hnl L1 B1 K1 ltac:(rewrite zlen_app; lia) ltac:(lia) Z1 D1) as (s1 & r1' & b1 & E1 & S1 & G1 & Y1 & F1).
  destruct (handle_send_1_run r2 sk2 addr_1 nonce (public_key2 path) _ c2 (public_key3 path ++ c3) (n + 67) (ip_port3 path) b1
    H2 A1 U3 Hnl L2 B2 K2 ltac:(rewrite zlen_app; lia) ltac:(lia) Z2 Y1 D2) as (s2 & r2' & b2 & E2 & S2 & G2 & Y2 & F2).
  destruct (handle_send_2_run r3 sk3 addr_2 nonce (public_key3 path) _ c3 data n dest b2
    H3 A2 Hd Hnl L3 B3 K3 Hz ltac:(lia) Hreq Z3 Y2 D3) as (s3 & r3' & b3 & E3 & S3 & G3 & Y3 & F3).
  pose proof (same_steady _ _ _ H1 S1) as T1. pose proof (same_steady _ _ _ H2 S2) as T2. pose proof (same_steady _ _ _ H3 S3) as T3.
  destruct S1 as (_ & _ & _ & X1 & _). destruct S2 as (_ & _ & _ & X2 & _). destruct S3 as (_ & _ & _ & X3 & _).
  rewrite <- X1 in F1. rewrite <- X2 in F2. rewrite <- X3 in F3.
  destruct (handle_recv_3_run r3' src3 addr_2 b3 b2 rdata T3 A2 Y3 Y2 F3 Hrn Hresp) as (t3 & r3'' & Q3 & _ & W3).
  destruct (handle_recv_2_run r2' src2 addr_1 b2 b1 rdata T2 A1 Y2 Y1 F2 Hrn Hresp) as (t2 & r2'' & Q2 & _ & W2).
  destruct (handle_recv_1_run r1' src1 addr_a b1 rdata T1 Ha Y1 F1 Hrn Hresp) as (t1 & r1'' & Q1 & _ & W1).
  eexists _, _, _, b3, _, _, ([NET_PACKET_ONION_RECV_3] ++ b3 ++ rdata), r1', r2', r3'.
  rewrite Ecr. cbn [fst]. split; [reflexivity|]. rewrite E1. split; [reflexivity|]. rewrite <- app_assoc in G1. split; [exact G1|].
  rewrite E2. split; [reflexivity|]. rewrite <- app_assoc in G2. split; [exact G2|]. rewrite E3. split; [reflexivity|]. split; [exact G3|].
  rewrite Q3. split; [|split; [exact W3|]; rewrite Q2; split; [exact W2|]; rewrite Q1; exact W1].
  unfold send_onion_response. change ONION_RESPONSE_MAX_DATA_SIZE with 1222. change ONION_RETURN_3 with 177.
  replace (1222 <? zlen rdata) with false by lia. replace (zlen rdata =? 0) with false by lia. cbn [orb].
  rewrite (slice_all 177), (slice_all (zlen rdata)) by done. destruct A3 as [_ Hf]. by rewrite (send_dual _ _ _ Hnd Hf).
Qed.
End route.

(** ** A concrete route *)

Definition route_addr (i : Z) : IP_Port := mkIPPort (mkIP TOX_AF_INET ([10; 0; 0; i] ++ zeros 12)) (33445 + i).

Lemma route_addr_ok i : 0 <= i < 256 → udp (route_addr i).
Proof.
  intros Hi. split; [|by left]. split; [|unfold is_u16, route_addr; cbn; lia]. split; [done|].
  unfold route_addr. cbn. repeat (apply list.Forall_cons; split; [unfold is_u8; lia|]). apply list.Forall_nil. done.
Qed.

(** Relay [i] has the secret key of bytes [60 + i]. *)
Definition route_relay (i : Z) : Onion :=
  default (mkOnion (mkMonoTime 0 0) sample_rng sample_net [] 0 (mkCache [] [] 0 (mkMonoTime 0 0) 0)
             (mkCache [] [] 0 (mkMonoTime 0 0) 0) (mkCache [] [] 0 (mkMonoTime 0 0) 0) None [])
    (new_onion true (mkMonoTime 1000 0) sample_rng sample_net (replicate 32 (60 + i))).

Lemma route_relay_ok i : relay_ok (Sod := toy_sodium) (replicate 32 (60 + i)) (route_relay i).
Proof.
  pose proof (fresh_wf (Sod := toy_sodium) (mkMonoTime 1000 0) (replicate 32 (60 + i)) 4 ltac:(done) ltac:(done)) as Hw.
  constructor; [done|done|split; [exact Hw|done]..].
Qed.

Definition route_path : Onion_Path :=
  (create_onion_path (Sod := toy_sodium) sample_rng (replicate 32 90) (replicate 32 40)
     (mkPath [] [] [] [] [] [] empty_ip_port [] empty_ip_port [] empty_ip_port [] 0)
     [mkNode (replicate 32 111) (route_addr 1); mkNode (replicate 32 112) (route_addr 2); mkNode (replicate 32 113) (route_addr 3)]).1.

Lemma onion_delivers_and_returns_witness :
  let data := [NET_PACKET_ANNOUNCE_REQUEST; 1; 2; 3] in
  let rdata := [NET_PACKET_ANNOUNCE_RESPONSE; 4; 5] in
  ∃ p0 p1 p2 ret q1 q2 q3 r1' r2' r3',
    (create_onion_packet (Sod := toy_sodium) true sample_rng ONION_MAX_PACKET_SIZE route_path (route_addr 9) data 4).1 = Some p0 ∧
    r1' = (handle_send_initial (Sod := toy_sodium) true (route_addr 7) p0 (zlen p0) (route_relay 1)).2 ∧
    net_log (o_net r1') = net_log (o_net (route_relay 1)) ++ [(wire_dest (ip_port2 route_path), p1)] ∧
    r2' = (handle_send_1 (Sod := toy_sodium) true (route_addr 1) p1 (zlen p1) (route_relay 2)).2 ∧
    net_log (o_net r2') = net_log (o_net (route_relay 2)) ++ [(wire_dest (ip_port3 route_path), p2)] ∧
    r3' = (handle_send_2 (Sod := toy_sodium) true (route_addr 2) p2 (zlen p2) (route_relay 3)).2 ∧
    net_log (o_net r3') = net_log (o_net (route_relay 3)) ++ [(wire_dest (route_addr 9), data ++ ret)] ∧
    net_log (send_onion_response sample_net (route_addr 3) rdata (zlen rdata) ret).2 =
      net_log sample_net ++ [(wire_dest (route_addr 3), q3)] ∧
    net_log (o_net (handle_recv_3 (Sod := toy_sodium) true (route_addr 9) q3 (zlen q3) r3').2) =
      net_log (o_net r3') ++ [(wire_dest (route_addr 2), q2)] ∧
    net_log (o_net (handle_recv_2 (Sod := toy_sodium) true (route_addr 3) q2 (zlen q2) r2').2) =
      net_log (o_net r2') ++ [(wire_dest (route_addr 1), q1)] ∧
    net_log (o_net (handle_recv_1 (Sod := toy_sodium) true (route_addr 2) q1 (zlen q1) r1').2) =
      net_log (o_net r1') ++ [(wire_dest (route_addr 7), rdata)].
Proof.
  cbv zeta.
  refine (@onion_delivers_and_returns toy_sodium toy_sodium_laws sample_rng route_path (replicate 32 61) (replicate 32 62)
    (replicate 32 63) (route_relay 1) (route_relay 2) (route_relay 3) (route_addr 7) (route_addr 1) (route_addr 2) (route_addr 3)
    (route_addr 9) _ 4 (route_addr 2) (route_addr 3) (route_addr 9) sample_net _ _ (route_relay_ok 1) (route_relay_ok 2)
    (route_relay_ok 3) _ _ _ _ _ _ _ _ _ _ _); try (apply route_addr_ok; lia); try reflexivity.
  - constructor; try reflexivity; try (apply route_addr_ok; lia); (split; [reflexivity|]); apply (bool_decide_unpack _); vm_compute; done.
  - split; vm_compute; [reflexivity|discriminate].
  - left. reflexivity.
  - split; vm_compute; [reflexivity|discriminate].
  - left. reflexivity.
Defined.

Lemma onion_relay_in_bounds_witness :
  let h := handle_recv_3 (Sod := toy_sodium) true in
  onion_packethandlers (Sod := toy_sodium) true NET_PACKET_ONION_RECV_3 = Some (λ s p l, r ← h s p l; mret (Some r)) ∧
  ∃ sent, net_log (o_net (h (route_addr 1) [140; 1; 2] 3 (route_relay 1)).2) = sent ∧ (length sent <= 1)%nat.
Proof.
  cbv zeta. split; [reflexivity|].
  destruct (@onion_relay_in_bounds toy_sodium true NET_PACKET_ONION_RECV_3 _ (route_addr 1) [140; 1; 2] 3 (route_relay 1) eq_refl)
    as (_ & sent & E & Hl & _).
  exists sent. split; [exact E|exact Hl].
Defined.
