(* ===== verification/GroupAnnounce.v ===== *)
(** * GroupAnnounce: announcements of group members, [toxcore/group_announce.c]

    A node keeps, for every group it heard of, the last announcements of its
    members, in a doubly linked list of groups.  The cells of the list are
    objects in a heap, so that an access to a cell that was freed is visible:
    every operation returns [None] when it follows a pointer to no object. *)
From S2P Require Import Prelude MonoTime CryptoCore Network DhtPackets GroupPacket.

(** ** Data *)

Definition CHAT_ID_SIZE : Z := 32.
Definition GCA_MAX_SAVED_ANNOUNCES_PER_GC : Z := 16.
Definition GCA_MAX_ANNOUNCED_TCP_RELAYS : Z := 1.
Definition GCA_MAX_SENT_ANNOUNCES : Z := 4.
Definition GCA_ANNOUNCE_MAX_SIZE : Z := ENC_PUBLIC_KEY_SIZE + 1 + 1 + PACKED_NODE_SIZE_IP6 * 2.
Definition GCA_ANNOUNCE_SAVE_TIMEOUT : Z := 30.
Definition GCA_DO_GCA_TIMEOUT : Z := 1.

Record GC_Announce := mkAnnounce {
  ann_tcp_relays : list Node_format;
  ann_tcp_relays_count : Z;
  ann_ip_port_is_set : bool;
  ann_ip_port : IP_Port;
  ann_peer_public_key : bytes
}.

Record GC_Peer_Announce := mkPeerAnnounce { base_announce : GC_Announce; pa_timestamp : Z }.

Record GC_Public_Announce := mkPublicAnnounce { pub_base_announce : GC_Announce; chat_public_key : bytes }.

Abbreviation addr := positive.

Record GC_Announces := mkAnnounces {
  as_chat_id : bytes;
  as_index : Z;
  as_last_announce_received_timestamp : Z;
  as_peer_announces : list GC_Peer_Announce;
  next_announce : option addr;
  prev_announce : option addr
}.

#[export] Instance eta_GC_Announces : Eta GC_Announces := λ a,
  mkAnnounces (as_chat_id a) (as_index a) (as_last_announce_received_timestamp a) (as_peer_announces a)
    (next_announce a) (prev_announce a).

(** [gca_heap] holds the cells that are allocated. *)
Record GC_Announces_List := mkAnnouncesList {
  gca_heap : gmap addr GC_Announces;
  root_announces : option addr;
  last_timeout_check : Z
}.

#[export] Instance eta_GC_Announces_List : Eta GC_Announces_List := λ g,
  mkAnnouncesList (gca_heap g) (root_announces g) (last_timeout_check g).

Definition empty_announce : GC_Announce :=
  mkAnnounce (replicate (Z.to_nat GCA_MAX_ANNOUNCED_TCP_RELAYS) empty_node_format) 0 false empty_ip_port (zeros 32).

(** A cell as [calloc] returns it. *)
Definition zero_announces : GC_Announces :=
  mkAnnounces (zeros CHAT_ID_SIZE) 0 0
    (replicate (Z.to_nat GCA_MAX_SAVED_ANNOUNCES_PER_GC) (mkPeerAnnounce empty_announce 0)) None None.

(** ** The list of groups *)

Definition set_cell (g : GC_Announces_List) (p : addr) (n : GC_Announces) : GC_Announces_List :=
  g <| gca_heap := <[p := n]> (gca_heap g) |>.

Definition remove_announces (g : GC_Announces_List) (announces : addr) : option GC_Announces_List :=
  n ← gca_heap g !! announces;
  g ← match prev_announce n with
      | Some p => q ← gca_heap g !! p; Some (set_cell g p (q <| next_announce := next_announce n |>))
      | None => Some (g <| root_announces := next_announce n |>)
      end;
  g ← match next_announce n with
      | Some p => q ← gca_heap g !! p; Some (set_cell g p (q <| prev_announce := prev_announce n |>))
      | None => Some g
      end;
  Some (g <| gca_heap := delete announces (gca_heap g) |>).

(** The loop of [get_announces_by_chat_id] from the pointer [p] on.  The fuel
    bounds the number of cells that can be visited without visiting one twice. *)
Fixpoint find_announces (fuel : nat) (h : gmap addr GC_Announces) (p : option addr) (chat_id : bytes) :
    option (option addr) :=
  match p, fuel with
  | None, _ => Some None
  | Some _, O => None
  | Some a, S fuel' =>
      n ← h !! a;
      if memcmp (as_chat_id n) chat_id =? 0 then Some (Some a) else find_announces fuel' h (next_announce n) chat_id
  end.

Definition get_announces_by_chat_id (g : GC_Announces_List) (chat_id : bytes) : option (option addr) :=
  find_announces (size (gca_heap g)) (gca_heap g) (root_announces g) chat_id.

(** The loop of [gca_get_announces] over the announcements that are set. *)
Fixpoint get_announces_loop (l : list GC_Peer_Announce) (max_nodes : Z) (except_public_key : bytes)
    (gc_announces : list GC_Announce) : list GC_Announce :=
  match l with
  | [] => gc_announces
  | a :: l' =>
      if negb (zlen gc_announces <? max_nodes) then gc_announces
      else if memcmp except_public_key (ann_peer_public_key (base_announce a)) =? 0
      then get_announces_loop l' max_nodes except_public_key gc_announces
      else if existsb (λ x, memcmp (ann_peer_public_key x) (ann_peer_public_key (base_announce a)) =? 0) gc_announces
      then get_announces_loop l' max_nodes except_public_key gc_announces
      else get_announces_loop l' max_nodes except_public_key (gc_announces ++ [base_announce a])
  end.

(** The inner option is the result: [None] for -1. *)
Definition gca_get_announces (g : GC_Announces_List) (max_nodes : Z) (chat_id except_public_key : bytes) :
    option (option (list GC_Announce)) :=
  if max_nodes =? 0 then Some None
  else
    p ← get_announces_by_chat_id g chat_id;
    match p with
    | None => Some (Some [])
    | Some a =>
        n ← gca_heap g !! a;
        let set := Z.min (as_index n) GCA_MAX_SAVED_ANNOUNCES_PER_GC in
        Some (Some (get_announces_loop (take (Z.to_nat set) (as_peer_announces n)) max_nodes except_public_key []))
    end.

(** [malloc] is what [calloc] returns.  The result is the cell and the index of
    the announcement in it. *)
Definition gca_add_announce (malloc : option addr) (mono_time : Mono_Time) (g : GC_Announces_List)
    (public_announce : GC_Public_Announce) : option (GC_Announces_List * option (addr * Z)) :=
  p ← get_announces_by_chat_id g (chat_public_key public_announce);
  r ← match p with
      | Some a => Some (Some (g, a))
      | None =>
          match malloc with
          | None => Some None
          | Some a =>
              g1 ← match root_announces g with
                   | Some r => q ← gca_heap g !! r; Some (set_cell g r (q <| prev_announce := Some a |>))
                   | None => Some g
                   end;
              let n := zero_announces <| next_announce := root_announces g |> <| as_chat_id := chat_public_key public_announce |> in
              Some (Some ((set_cell g1 a n) <| root_announces := Some a |>, a))
          end
      end;
  match r with
  | None => Some (g, None)
  | Some (g, a) =>
      n ← gca_heap g !! a;
      let cur_time := mono_time_get mono_time in
      let index := as_index n mod GCA_MAX_SAVED_ANNOUNCES_PER_GC in
      let n := n <| as_last_announce_received_timestamp := cur_time |>
                 <| as_peer_announces :=
                      aset (as_peer_announces n) index (mkPeerAnnounce (pub_base_announce public_announce) cur_time) |>
                 <| as_index := u64 (as_index n + 1) |> in
      Some (set_cell g a n, Some (a, index))
  end.

Definition gca_is_valid_announce (announce : GC_Announce) : bool :=
  (0 <? ann_tcp_relays_count announce) || ann_ip_port_is_set announce.

Definition new_gca_list : GC_Announces_List := mkAnnouncesList ∅ None 0.

(** The loop of [kill_gca]: the heap after it. *)
Fixpoint kill_gca_loop (fuel : nat) (h : gmap addr GC_Announces) (root : option addr) : option (gmap addr GC_Announces) :=
  match root, fuel with
  | None, _ => Some h
  | Some _, O => None
  | Some a, S fuel' => n ← h !! a; kill_gca_loop fuel' (delete a h) (next_announce n)
  end.

Definition kill_gca (g : GC_Announces_List) : option (gmap addr GC_Announces) :=
  kill_gca_loop (size (gca_heap g)) (gca_heap g) (root_announces g).

(** The loop of [do_gca] from the pointer [p] on. *)
Fixpoint do_gca_loop (fuel : nat) (mono_time : Mono_Time) (g : GC_Announces_List) (p : option addr) :
    option GC_Announces_List :=
  match p, fuel with
  | None, _ => Some g
  | Some _, O => None
  | Some a, S fuel' =>
      n ← gca_heap g !! a;
      if mono_time_is_timeout mono_time (as_last_announce_received_timestamp n) GCA_ANNOUNCE_SAVE_TIMEOUT
      then g' ← remove_announces g a; do_gca_loop fuel' mono_time g' (next_announce n)
      else do_gca_loop fuel' mono_time g (next_announce n)
  end.

Definition do_gca (mono_time : Mono_Time) (g : GC_Announces_List) : option GC_Announces_List :=
  if negb (mono_time_is_timeout mono_time (last_timeout_check g) GCA_DO_GCA_TIMEOUT) then Some g
  else
    let g := g <| last_timeout_check := mono_time_get mono_time |> in
    do_gca_loop (size (gca_heap g)) mono_time g (root_announces g).

Definition cleanup_gca (g : GC_Announces_List) (chat_id : bytes) : option GC_Announces_List :=
  p ← get_announces_by_chat_id g chat_id;
  match p with
  | Some a => remove_announces g a
  | None => Some g
  end.

(** ** The wire format *)

Definition gca_pack_announces_list_size (count : Z) : Z := u16 (count * GCA_ANNOUNCE_MAX_SIZE).

Definition gca_pack_announce (length : Z) (announce : GC_Announce) : option bytes :=
  if length <? GCA_ANNOUNCE_MAX_SIZE then None
  else if negb (ann_ip_port_is_set announce) && (ann_tcp_relays_count announce =? 0) then None
  else
    let head := ann_peer_public_key announce ++ [if ann_ip_port_is_set announce then 1 else 0]
                ++ [ann_tcp_relays_count announce] in
    ip ← if ann_ip_port_is_set announce then pack_ip_port (u16 (length - (ENC_PUBLIC_KEY_SIZE + 2))) (ann_ip_port announce)
         else Some [];
    nodes ← pack_nodes (u16 (length - (ENC_PUBLIC_KEY_SIZE + 2 + zlen ip))) (ann_tcp_relays announce)
              (ann_tcp_relays_count announce);
    Some (head ++ ip ++ nodes).

(** [old] is what the structure held before; fields that are not announced keep
    it.  Returns the size that was read and the announcement. *)
Definition gca_unpack_announce (data : bytes) (length : Z) (old : GC_Announce) : option (Z * GC_Announce) :=
  if length <? ENC_PUBLIC_KEY_SIZE + 2 then None
  else
    let ip_port_is_set := net_unpack_bool (drop (Z.to_nat ENC_PUBLIC_KEY_SIZE) data) in
    let count := aget 0 data (ENC_PUBLIC_KEY_SIZE + 1) in
    let offset := ENC_PUBLIC_KEY_SIZE + 2 in
    if GCA_MAX_ANNOUNCED_TCP_RELAYS <? count then None
    else
      '(ip_port_length, ip_port) ←
        (if ip_port_is_set : bool then
           if length - offset =? 0 then None
           else unpack_ip_port (drop (Z.to_nat offset) data) (u16 (length - offset)) false
         else Some (0, ann_ip_port old));
      let offset := offset + ip_port_length in
      '(nodes, nodes_length) ← unpack_nodes count (drop (Z.to_nat offset) data) (u16 (length - offset)) true;
      if negb (zlen nodes =? count) then None
      else
        Some (offset + nodes_length,
              mkAnnounce (nodes ++ drop (List.length nodes) (ann_tcp_relays old)) count ip_port_is_set ip_port
                (slice 0 ENC_PUBLIC_KEY_SIZE data)).

Definition gca_pack_public_announce (length : Z) (public_announce : GC_Public_Announce) : option bytes :=
  if length <? CHAT_ID_SIZE then None
  else
    packed ← gca_pack_announce (u16 (length - CHAT_ID_SIZE)) (pub_base_announce public_announce);
    Some (chat_public_key public_announce ++ packed).

Definition gca_unpack_public_announce (data : bytes) (length : Z) (old : GC_Announce) :
    option (Z * GC_Public_Announce) :=
  if length <? CHAT_ID_SIZE then None
  else
    '(size, base) ← gca_unpack_announce (drop (Z.to_nat ENC_PUBLIC_KEY_SIZE) data) (u16 (length - ENC_PUBLIC_KEY_SIZE)) old;
    Some (size + CHAT_ID_SIZE, mkPublicAnnounce base (slice 0 CHAT_ID_SIZE data)).

(** What the loop of [gca_pack_announces_list] writes from [offset] on. *)
Fixpoint pack_announces_loop (length offset : Z) (announces : list GC_Announce) : option bytes :=
  match announces with
  | [] => Some []
  | a :: announces' =>
      packed ← gca_pack_announce (u16 (length - offset)) a;
      rest ← pack_announces_loop length (u16 (offset + zlen packed)) announces';
      Some (packed ++ rest)
  end.

Definition gca_pack_announces_list (length : Z) (announces : list GC_Announce) : option bytes :=
  pack_announces_loop length 0 announces.

(** The loop of [gca_unpack_announces_list]; [old] is what is left of the array
    it writes. *)
Fixpoint unpack_announces_loop (rounds : nat) (data : bytes) (length offset : Z) (old : list GC_Announce) :
    option (list GC_Announce) :=
  match rounds with
  | O => Some []
  | S rounds' =>
      if negb (offset <? length) then Some []
      else
        '(unpacked_length, a) ← gca_unpack_announce (drop (Z.to_nat offset) data) (u16 (length - offset))
                                  (default empty_announce (head old));
        rest ← unpack_announces_loop rounds' data length (u16 (offset + unpacked_length)) (tail old);
        Some (a :: rest)
  end.

Definition gca_unpack_announces_list (data : bytes) (length : Z) (old : list GC_Announce) (max_count : Z) :
    option (list GC_Announce) :=
  unpack_announces_loop (Z.to_nat max_count) data length 0 old.

(** ** The list in the heap

    What a cell holds apart from its links, and the cells of a list with the
    links that belong there: [prev] and [nxt] are the pointers at its ends. *)
Record Cell := mkCell { cl_chat_id : bytes; cl_index : Z; cl_last : Z; cl_peers : list GC_Peer_Announce }.

Definition cell_at (c : Cell) (prev nxt : option addr) : GC_Announces :=
  mkAnnounces (cl_chat_id c) (cl_index c) (cl_last c) (cl_peers c) nxt prev.

Definition first_addr (gs : list (addr * Cell)) (nxt : option addr) : option addr :=
  match gs with [] => nxt | (a, _) :: _ => Some a end.

Fixpoint last_addr (prev : option addr) (gs : list (addr * Cell)) : option addr :=
  match gs with [] => prev | (a, _) :: gs' => last_addr (Some a) gs' end.

Fixpoint links (prev nxt : option addr) (gs : list (addr * Cell)) : list (addr * GC_Announces) :=
  match gs with
  | [] => []
  | (a, c) :: gs' => (a, cell_at c prev (first_addr gs' nxt)) :: links (Some a) nxt gs'
  end.

(** [g] is the list [gs]: its heap holds the cells of [gs] and nothing else. *)
Record represents (g : GC_Announces_List) (gs : list (addr * Cell)) : Prop := {
  rep_nodup : NoDup gs.*1;
  rep_root : root_announces g = first_addr gs None;
  rep_heap : gca_heap g = list_to_map (links None None gs)
}.

Lemma links_addrs prev nxt gs : (links prev nxt gs).*1 = gs.*1.
Proof. revert prev. induction gs as [|[a c] gs IH]; intros prev; simpl; [done|]. by rewrite IH. Qed.

Lemma links_app prev nxt gs1 gs2 :
  links prev nxt (gs1 ++ gs2) = links prev (first_addr gs2 nxt) gs1 ++ links (last_addr prev gs1) nxt gs2.
Proof.
  revert prev. induction gs1 as [|[a c] gs1 IH]; intros prev; simpl; [done|]. rewrite IH. do 3 f_equal.
  by destruct gs1 as [|[]].
Qed.

Lemma last_addr_snoc prev gs a c : last_addr prev (gs ++ [(a, c)]) = Some a.
Proof. revert prev. induction gs as [|[]]; intros prev; simpl; auto. Qed.

Lemma list_to_map_mid {A} (l1 l2 : list (addr * A)) a x :
  a ∉ l1.*1 → (list_to_map (l1 ++ (a, x) :: l2) : gmap addr A) !! a = Some x.
Proof.
  intros H. rewrite list_to_map_app. rewrite lookup_union_r; [by rewrite list_to_map_cons, lookup_insert_eq|].
  by apply not_elem_of_list_to_map.
Qed.

Lemma list_to_map_insert_mid {A} (l1 l2 : list (addr * A)) a x y :
  a ∉ l1.*1 → <[a := y]> (list_to_map (l1 ++ (a, x) :: l2) : gmap addr A) = list_to_map (l1 ++ (a, y) :: l2).
Proof.
  intros H. rewrite !list_to_map_app, !list_to_map_cons.
  rewrite insert_union_r by (by apply not_elem_of_list_to_map). by rewrite insert_insert_eq.
Qed.

Lemma list_to_map_delete_mid {A} (l1 l2 : list (addr * A)) a x :
  a ∉ l1.*1 → a ∉ l2.*1 → delete a (list_to_map (l1 ++ (a, x) :: l2) : gmap addr A) = list_to_map (l1 ++ l2).
Proof.
  intros H1 H2. rewrite !list_to_map_app, list_to_map_cons, delete_union.
  rewrite delete_insert_id by (by apply not_elem_of_list_to_map).
  by rewrite delete_id by (by apply not_elem_of_list_to_map).
Qed.

Lemma rep_split g gs1 a c gs2 : represents g (gs1 ++ (a, c) :: gs2) →
  a ∉ gs1.*1 ∧ a ∉ gs2.*1 ∧
  gca_heap g = list_to_map (links None (Some a) gs1 ++ (a, cell_at c (last_addr None gs1) (first_addr gs2 None))
                              :: links (Some a) None gs2).
Proof.
  intros [Hn _ Hh]. rewrite fmap_app in Hn. simpl in Hn. apply list.NoDup_app in Hn as (Hn1 & Hn2 & Hn3).
  apply list.NoDup_cons in Hn3 as [Hn3 _].
  split; [intros H; apply (Hn2 a H); left|]. split; [done|]. rewrite Hh, links_app. done.
Qed.

(** Reading a cell of the list. *)
Lemma rep_lookup g gs1 a c gs2 : represents g (gs1 ++ (a, c) :: gs2) →
  gca_heap g !! a = Some (cell_at c (last_addr None gs1) (first_addr gs2 None)).
Proof.
  intros H. destruct (rep_split _ _ _ _ _ H) as (H1 & H2 & ->). apply list_to_map_mid. by rewrite links_addrs.
Qed.

(** Writing to a cell without touching its links. *)
Lemma rep_update g gs1 a c c' gs2 : represents g (gs1 ++ (a, c) :: gs2) →
  represents (set_cell g a (cell_at c' (last_addr None gs1) (first_addr gs2 None))) (gs1 ++ (a, c') :: gs2).
Proof.
  intros H. destruct (rep_split _ _ _ _ _ H) as (H1 & H2 & Hh). destruct H as [Hn Hr _]. split.
  - rewrite fmap_app in *. done.
  - cbn. rewrite Hr. by destruct gs1 as [|[]].
  - cbn. rewrite Hh, list_to_map_insert_mid by (by rewrite links_addrs). by rewrite links_app.
Qed.

Lemma rep_size g gs : represents g gs → size (gca_heap g) = length gs.
Proof.
  intros [Hn _ ->]. rewrite map_size_list_to_map by (by rewrite links_addrs).
  rewrite <- (length_fmap fst), links_addrs. apply length_fmap.
Qed.

(** Pointing the neighbours of a cell past it and freeing it. *)
Lemma relink_prev g gs1 a c gs2 : represents g (gs1 ++ (a, c) :: gs2) →
  ∃ g', match last_addr None gs1 with
        | Some p => q ← gca_heap g !! p; Some (set_cell g p (q <| next_announce := first_addr gs2 None |>))
        | None => Some (g <| root_announces := first_addr gs2 None |>)
        end = Some g' ∧
    root_announces g' = first_addr (gs1 ++ gs2) None ∧ last_timeout_check g' = last_timeout_check g ∧
    gca_heap g' = list_to_map (links None (first_addr gs2 None) gs1
                     ++ (a, cell_at c (last_addr None gs1) (first_addr gs2 None)) :: links (Some a) None gs2).
Proof.
  intros H. destruct (rep_split _ _ _ _ _ H) as (H1 & H2 & Hh). destruct H as [Hn Hr _].
  destruct gs1 as [|[p d] gs1 _] using rev_ind.
  { cbn in *. eexists. split; [done|]. cbn. by rewrite Hh. }
  rewrite last_addr_snoc. rewrite links_app in Hh. cbn in Hh. rewrite <- app_assoc in Hh.
  assert (p ∉ (links None (Some p) gs1).*1) as Hp.
  { rewrite links_addrs. rewrite !fmap_app in Hn. cbn in Hn. rewrite <- app_assoc in Hn.
    apply list.NoDup_app in Hn as (_ & Hn & _). intros X. apply (Hn p X). left. }
  rewrite last_addr_snoc in Hh. cbn in Hh. rewrite Hh, list_to_map_mid by done. cbn.
  eexists. split; [done|]. cbn. split; [|split; [done|]].
  - rewrite Hr. by destruct gs1 as [|[]].
  - rewrite Hh, list_to_map_insert_mid by done. rewrite links_app, <- app_assoc. cbn. done.
Qed.

Lemma remove_announces_rep g gs1 a c gs2 : represents g (gs1 ++ (a, c) :: gs2) →
  ∃ g', remove_announces g a = Some g' ∧ represents g' (gs1 ++ gs2) ∧ last_timeout_check g' = last_timeout_check g.
Proof.
  intros H. unfold remove_announces. rewrite (rep_lookup _ _ _ _ _ H). cbn [mbind option_bind cell_at prev_announce next_announce].
  destruct (relink_prev _ _ _ _ _ H) as (g1 & -> & Hr & Ht & Hh). cbn [mbind option_bind].
  destruct (rep_split _ _ _ _ _ H) as (H1 & H2 & _). destruct H as [Hn _ _].
  assert (NoDup (gs1 ++ gs2).*1) as Hn'.
  { rewrite fmap_app in Hn |- *. cbn in Hn. apply list.NoDup_app in Hn as (N1 & N2 & N3).
    apply list.NoDup_app. split; [done|]. split; [|by apply list.NoDup_cons in N3 as []].
    intros x Hx X. apply (N2 x Hx). by right. }
  destruct gs2 as [|[q d] gs2]; cbn [first_addr] in *.
  { eexists. split; [done|]. split; [|done]. split; [done|done|]. cbn. rewrite Hh.
    rewrite list_to_map_delete_mid; [|by rewrite links_addrs|cbn; set_solver]. rewrite links_app. done. }
  cbn [links] in Hh. set (L := links None (Some q) gs1) in *.
  assert (q ∉ (L ++ [(a, cell_at c (last_addr None gs1) (Some q))]).*1) as Hq.
  { rewrite fmap_app. unfold L. rewrite links_addrs. cbn. rewrite fmap_app in Hn'. cbn in Hn', H2.
    apply list.NoDup_app in Hn' as (_ & N2 & _). intros [X|X]%elem_of_app.
    - apply (N2 q X). left.
    - apply list_elem_of_singleton in X. subst. apply H2. left. }
  replace (L ++ (a, cell_at c (last_addr None gs1) (Some q)) :: (q, cell_at d (Some a) (first_addr gs2 None)) :: links (Some q) None gs2)
    with ((L ++ [(a, cell_at c (last_addr None gs1) (Some q))]) ++ (q, cell_at d (Some a) (first_addr gs2 None)) :: links (Some q) None gs2)
    in Hh by by rewrite <- app_assoc.
  rewrite Hh, list_to_map_mid by done. cbn. eexists. split; [done|]. split; [|done]. split; [done|done|]. cbn.
  rewrite Hh, list_to_map_insert_mid by done. rewrite <- app_assoc. cbn.
  rewrite list_to_map_delete_mid; [rewrite links_app; done|unfold L; by rewrite links_addrs|].
  cbn. rewrite links_addrs. done.
Qed.

(** ** What the list promises

    A group keeps every announcement it received, oldest first; the code may
    forget all but the last sixteen. *)
Record Group := mkGroup { gr_chat_id : bytes; gr_log : list GC_Peer_Announce; gr_last : Z }.

Record Groups := mkGroups { ab_groups : list Group; ab_check : Z }.

Definition recent (log : list GC_Peer_Announce) : list GC_Peer_Announce := drop (length log - 16) log.

Fixpoint find_group (id : bytes) (l : list Group) : option Group :=
  match l with
  | [] => None
  | gr :: l' => if decide (gr_chat_id gr = id) then Some gr else find_group id l'
  end.

Fixpoint update_group (id : bytes) (f : Group → Group) (l : list Group) : list Group :=
  match l with
  | [] => []
  | gr :: l' => if decide (gr_chat_id gr = id) then f gr :: l' else gr :: update_group id f l'
  end.

Fixpoint remove_group (id : bytes) (l : list Group) : list Group :=
  match l with
  | [] => []
  | gr :: l' => if decide (gr_chat_id gr = id) then l' else gr :: remove_group id l'
  end.

(** The answers that are allowed for a query: recent announcements of distinct
    members without the one excepted, and fewer than asked for only when there
    are no others. *)
Record answers (max_nodes : Z) (except_pk : bytes) (log : list GC_Peer_Announce) (r : list GC_Announce) : Prop := {
  ans_recent : ∀ x, x ∈ r → ∃ a, a ∈ recent log ∧ base_announce a = x;
  ans_nodup : NoDup (ann_peer_public_key <$> r);
  ans_except : except_pk ∉ ann_peer_public_key <$> r;
  ans_max : zlen r <= max_nodes;
  ans_all : zlen r < max_nodes → ∀ a, a ∈ recent log → ann_peer_public_key (base_announce a) ≠ except_pk →
    ann_peer_public_key (base_announce a) ∈ ann_peer_public_key <$> r
}.

(** The operations and their results. *)
Inductive Gca_Op :=
| Gca_Add (fails : bool) (mono_time : Mono_Time) (ann : GC_Public_Announce)
| Gca_Get (max_nodes : Z) (chat_id except_pk : bytes)
| Gca_Do (mono_time : Mono_Time)
| Gca_Cleanup (chat_id : bytes).

Inductive Gca_Res := Gca_Added (ok : bool) | Gca_Announces (r : option (list GC_Announce)) | Gca_None.

Definition record_announce (t : Mono_Time) (ann : GC_Public_Announce) (gr : Group) : Group :=
  mkGroup (gr_chat_id gr) (gr_log gr ++ [mkPeerAnnounce (pub_base_announce ann) (mono_time_get t)]) (mono_time_get t).

Inductive gca_step (A : Groups) : Gca_Op → Groups → Gca_Res → Prop :=
| step_add fails t ann gr : find_group (chat_public_key ann) (ab_groups A) = Some gr →
    gca_step A (Gca_Add fails t ann)
      (mkGroups (update_group (chat_public_key ann) (record_announce t ann) (ab_groups A)) (ab_check A)) (Gca_Added true)
| step_add_new t ann : find_group (chat_public_key ann) (ab_groups A) = None →
    gca_step A (Gca_Add false t ann)
      (mkGroups (record_announce t ann (mkGroup (chat_public_key ann) [] 0) :: ab_groups A) (ab_check A)) (Gca_Added true)
| step_add_fail t ann : find_group (chat_public_key ann) (ab_groups A) = None →
    gca_step A (Gca_Add true t ann) A (Gca_Added false)
| step_get_zero id pk : gca_step A (Gca_Get 0 id pk) A (Gca_Announces None)
| step_get_none n id pk : n ≠ 0 → find_group id (ab_groups A) = None →
    gca_step A (Gca_Get n id pk) A (Gca_Announces (Some []))
| step_get n id pk gr r : n ≠ 0 → find_group id (ab_groups A) = Some gr → answers n pk (gr_log gr) r →
    gca_step A (Gca_Get n id pk) A (Gca_Announces (Some r))
| step_do_early t : mono_time_is_timeout t (ab_check A) GCA_DO_GCA_TIMEOUT = false → gca_step A (Gca_Do t) A Gca_None
| step_do t : mono_time_is_timeout t (ab_check A) GCA_DO_GCA_TIMEOUT = true →
    gca_step A (Gca_Do t)
      (mkGroups (filter (λ gr, mono_time_is_timeout t (gr_last gr) GCA_ANNOUNCE_SAVE_TIMEOUT = false) (ab_groups A))
         (mono_time_get t)) Gca_None
| step_cleanup id : gca_step A (Gca_Cleanup id) (mkGroups (remove_group id (ab_groups A)) (ab_check A)) Gca_None.

Inductive gca_steps : Groups → list Gca_Op → Groups → list Gca_Res → Prop :=
| steps_nil A : gca_steps A [] A []
| steps_cons A op A' r ops A'' rs :
    gca_step A op A' r → gca_steps A' ops A'' rs → gca_steps A (op :: ops) A'' (r :: rs).

(** Running the operations of the code; [malloc] is the allocator. *)
Definition run_gca_op (malloc : gmap addr GC_Announces → addr) (g : GC_Announces_List) (op : Gca_Op) :
    option (GC_Announces_List * Gca_Res) :=
  match op with
  | Gca_Add fails t ann =>
      '(g', r) ← gca_add_announce (if fails then None else Some (malloc (gca_heap g))) t g ann;
      Some (g', Gca_Added (bool_decide (is_Some r)))
  | Gca_Get n id pk => r ← gca_get_announces g n id pk; Some (g, Gca_Announces r)
  | Gca_Do t => g' ← do_gca t g; Some (g', Gca_None)
  | Gca_Cleanup id => g' ← cleanup_gca g id; Some (g', Gca_None)
  end.

Fixpoint run_gca_ops (malloc : gmap addr GC_Announces → addr) (g : GC_Announces_List) (ops : list Gca_Op) :
    option (GC_Announces_List * list Gca_Res) :=
  match ops with
  | [] => Some (g, [])
  | op :: ops' =>
      '(g, r) ← run_gca_op malloc g op;
      '(g, rs) ← run_gca_ops malloc g ops';
      Some (g, r :: rs)
  end.

(** Identifiers and keys are arrays of their size. *)
Definition gca_op_ok (op : Gca_Op) : Prop :=
  match op with
  | Gca_Add _ _ ann => zlen (chat_public_key ann) = 32 ∧ zlen (ann_peer_public_key (pub_base_announce ann)) = 32
  | Gca_Get n id pk => is_u8 n ∧ zlen id = 32 ∧ zlen pk = 32
  | Gca_Do _ => True
  | Gca_Cleanup id => zlen id = 32
  end.

(** ** The ring of announcements *)

(** The sixteen slots hold the last announcements of the log. *)
Record holds (c : Cell) (gr : Group) : Prop := {
  h_id : cl_chat_id c = gr_chat_id gr;
  h_id_len : zlen (gr_chat_id gr) = 32;
  h_index : cl_index c = zlen (gr_log gr);
  h_last : cl_last c = gr_last gr;
  h_slots : zlen (cl_peers c) = 16;
  h_ring : ∀ k a, zlen (gr_log gr) - 16 <= Z.of_nat k → gr_log gr !! k = Some a →
             cl_peers c !! Z.to_nat (Z.of_nat k mod 16) = Some a;
  h_keys : Forall (λ a, zlen (ann_peer_public_key (base_announce a)) = 32) (gr_log gr)
}.

Lemma elem_of_recent log a :
  a ∈ recent log ↔ ∃ k, log !! k = Some a ∧ zlen log - 16 <= Z.of_nat k.
Proof.
  unfold recent, zlen. rewrite list_elem_of_lookup. split.
  - intros [i Hi]. rewrite lookup_drop in Hi. exists (length log - 16 + i)%nat. split; [done|]. lia.
  - intros [k [Hk Hl]]. exists (k - (length log - 16))%nat. rewrite lookup_drop, <- Hk. f_equal. lia.
Qed.

(** The slots that are set hold exactly the recent announcements. *)
Lemma ring_elem c gr a : holds c gr →
  a ∈ take (Z.to_nat (Z.min (cl_index c) 16)) (cl_peers c) ↔ a ∈ recent (gr_log gr).
Proof.
  intros H. rewrite elem_of_recent, list_elem_of_lookup. rewrite (h_index _ _ H).
  pose proof (zlen_nonneg (gr_log gr)) as Hl. set (n := zlen (gr_log gr)) in *. split.
  - intros [i Hi]. apply lookup_take_Some in Hi as [Hi Hm].
    (* the newest position that falls into slot [i] *)
    set (k := if n <=? 16 then Z.of_nat i else n - 16 + (Z.of_nat i - n) mod 16).
    assert (0 <= k < n ∧ n - 16 <= k ∧ k mod 16 = Z.of_nat i) as (Hk & Hk' & Hkm).
    { unfold k. destruct (n <=? 16) eqn:?; [split; [lia|]; split; [lia|]; apply Z.mod_small; lia|].
      pose proof (Z.mod_pos_bound (Z.of_nat i - n) 16 ltac:(lia)). split; [lia|]. split; [lia|].
      rewrite Z.add_mod_idemp_r by lia. replace (n - 16 + (Z.of_nat i - n)) with (Z.of_nat i + (-1) * 16) by lia.
      rewrite Z.mod_add by lia. apply Z.mod_small. lia. }
    destruct (lookup_lt_is_Some_2 (gr_log gr) (Z.to_nat k)) as [b Hb]; [unfold n, zlen in Hk; lia|].
    exists (Z.to_nat k). split; [|lia]. rewrite Hb.
    pose proof (h_ring _ _ H (Z.to_nat k) b ltac:(fold n; lia) Hb) as Hr.
    rewrite Z2Nat.id, Hkm, Nat2Z.id in Hr by lia. congruence.
  - intros [k [Hk Hn]]. pose proof (lookup_lt_Some _ _ _ Hk) as Hlt.
    exists (Z.to_nat (Z.of_nat k mod 16)). apply lookup_take_Some. split; [by apply (h_ring _ _ H)|].
    pose proof (Z.mod_pos_bound (Z.of_nat k) 16 ltac:(lia)). unfold n, zlen in *.
    destruct (Z.le_gt_cases 16 (Z.of_nat (length (gr_log gr)))); [lia|].
    rewrite Z.mod_small by lia. lia.
Qed.

(** Keys are compared as arrays of 32 bytes. *)
Lemma memcmp_key a b : zlen a = 32 → zlen b = 32 → (memcmp a b =? 0) = bool_decide (a = b).
Proof.
  unfold zlen. intros Ha Hb. pose proof (memcmp_eq_iff a b ltac:(lia)) as H.
  case_bool_decide as E; [rewrite Z.eqb_eq; by apply H|]. rewrite Z.eqb_neq. by rewrite H.
Qed.

Definition keyed (x : GC_Announce) : Prop := zlen (ann_peer_public_key x) = 32.

Lemma existsb_key (r : list GC_Announce) k : Forall keyed r → zlen k = 32 →
  existsb (λ x, memcmp (ann_peer_public_key x) k =? 0) r = bool_decide (k ∈ ann_peer_public_key <$> r).
Proof.
  intros Hr Hk. induction Hr as [|x r Hx _ IH]; [done|]. cbn. rewrite IH, memcmp_key by done.
  destruct (decide (ann_peer_public_key x = k)) as [<-|Hne];
    [rewrite (bool_decide_true (_ = _)) by done; cbn; symmetry; apply bool_decide_true; left|].
  rewrite (bool_decide_false (ann_peer_public_key x = k)) by done. cbn [orb]. apply bool_decide_ext.
  rewrite elem_of_cons. naive_solver.
Qed.

Lemma get_announces_loop_spec pk max_nodes l : ∀ r,
  zlen pk = 32 → Forall (λ a, keyed (base_announce a)) l → Forall keyed r →
  NoDup (ann_peer_public_key <$> r) → pk ∉ ann_peer_public_key <$> r → zlen r <= max_nodes →
  let r' := get_announces_loop l max_nodes pk r in
  (∀ x, x ∈ r' → x ∈ r ∨ ∃ a, a ∈ l ∧ base_announce a = x) ∧
  NoDup (ann_peer_public_key <$> r') ∧ pk ∉ ann_peer_public_key <$> r' ∧ zlen r' <= max_nodes ∧
  (zlen r' < max_nodes → (∀ a, a ∈ l → ann_peer_public_key (base_announce a) ≠ pk →
     ann_peer_public_key (base_announce a) ∈ ann_peer_public_key <$> r') ∧
     ∀ k, k ∈ ann_peer_public_key <$> r → k ∈ ann_peer_public_key <$> r').
Proof.
  induction l as [|a l IH]; intros r Hpk Hl Hr Hn Hx Hm; cbn [get_announces_loop].
  { repeat split; auto. set_solver. }
  apply list.Forall_cons in Hl as [Ha Hl].
  destruct (zlen r <? max_nodes) eqn:Em; cbn [negb]; [|repeat split; auto; lia].
  rewrite memcmp_key, existsb_key by done.
  case_bool_decide as E1; [|case_bool_decide as E2].
  - destruct (IH r) as (I1 & I2 & I3 & I4 & I5); auto. cbv zeta. repeat split; auto.
    + intros x [?|(b & ? & ?)]%I1; [auto|]. right. exists b. split; [by right|done].
    + intros b [->|Hb]%elem_of_cons Hne; [congruence|]. apply (proj1 (I5 H)); done.
    + apply I5. done.
  - destruct (IH r) as (I1 & I2 & I3 & I4 & I5); auto. cbv zeta. repeat split; auto.
    + intros x [?|(b & ? & ?)]%I1; [auto|]. right. exists b. split; [by right|done].
    + intros b [->|Hb]%elem_of_cons Hne; [by apply (proj2 (I5 H))|by apply (proj1 (I5 H))].
    + apply I5. done.
  - destruct (IH (r ++ [base_announce a])) as (I1 & I2 & I3 & I4 & I5); auto.
    + apply Forall_app. split; [done|]. by constructor.
    + rewrite fmap_app. cbn. apply list.NoDup_app. split; [done|]. split; [|by apply list.NoDup_singleton].
      intros k Hk Hs%list_elem_of_singleton. by subst.
    + rewrite fmap_app. cbn. intros [?|?%list_elem_of_singleton]%elem_of_app; [done|]. congruence.
    + rewrite zlen_app. change (zlen [base_announce a]) with 1. lia.
    + cbv zeta. repeat split; auto.
      * intros x [[?|Hs%list_elem_of_singleton]%elem_of_app|(b & ? & ?)]%I1; [auto| |].
        -- right. exists a. split; [left|by symmetry].
        -- right. exists b. split; [by right|done].
      * intros b [->|Hb]%elem_of_cons Hne; [|by apply (proj1 (I5 H))]. apply I5; [done|].
        rewrite fmap_app. apply elem_of_app. right. apply list_elem_of_singleton. done.
      * intros k Hk. apply I5; [done|]. rewrite fmap_app. apply elem_of_app. auto.
Qed.

(** A query is answered as promised. *)
Lemma get_answers c gr n pk : holds c gr → zlen pk = 32 → 0 < n →
  answers n pk (gr_log gr) (get_announces_loop (take (Z.to_nat (Z.min (cl_index c) 16)) (cl_peers c)) n pk []).
Proof.
  intros H Hpk Hn.
  destruct (get_announces_loop_spec pk n (take (Z.to_nat (Z.min (cl_index c) 16)) (cl_peers c)) [])
    as (I1 & I2 & I3 & I4 & I5); auto.
  - apply list.Forall_forall. intros a Ha. apply (ring_elem _ _ _ H) in Ha.
    apply elem_of_recent in Ha as (k & Hk & _). apply (Forall_lookup_1 _ _ _ _ (h_keys _ _ H) Hk).
  - constructor.
  - set_solver.
  - change (zlen (@nil GC_Announce)) with 0. lia.
  - split; auto.
    + intros x [?%elem_of_nil|(a & Ha & <-)]%I1; [done|]. exists a. split; [by apply (ring_elem _ _ _ H)|done].
    + intros Hlt a Ha. apply I5; [done|]. by apply (ring_elem _ _ _ H).
Qed.

(** ** The operations on the list *)

(** The list in the heap holds the groups. *)
Definition gca_rel (g : GC_Announces_List) (A : Groups) : Prop :=
  ∃ gs, represents g gs ∧ Forall2 (λ x gr, holds x.2 gr) gs (ab_groups A) ∧ last_timeout_check g = ab_check A.

(** Where a group is, or that there is none. *)
Lemma find_announces_spec h id gs : ∀ gs1 grs g fuel,
  represents g (gs1 ++ gs) → h = gca_heap g → Forall2 (λ x gr, holds x.2 gr) gs grs → zlen id = 32 →
  (length gs <= fuel)%nat →
  (find_group id grs = None ∧ find_announces fuel h (first_addr gs None) id = Some None) ∨
  (∃ l a c r grs1 gr grs2, gs = l ++ (a, c) :: r ∧ grs = grs1 ++ gr :: grs2 ∧
     Forall2 (λ x gr, holds x.2 gr) l grs1 ∧ holds c gr ∧ Forall2 (λ x gr, holds x.2 gr) r grs2 ∧
     find_group id grs = Some gr ∧ Forall (λ gr, gr_chat_id gr ≠ id) grs1 ∧ gr_chat_id gr = id ∧
     find_announces fuel h (first_addr gs None) id = Some (Some a)).
Proof.
  intros gs1 grs g fuel Hrep Hh HF Hid. revert gs1 fuel Hrep.
  induction HF as [|[a c] gr gs grs Hc HF IH]; intros gs1 fuel Hrep Hfuel; [left; split; [done|by destruct fuel]|].
  cbn in Hc. destruct fuel as [|fuel]; [simpl in Hfuel; lia|]. cbn [first_addr find_announces find_group].
  subst h. rewrite (rep_lookup _ _ _ _ _ Hrep). cbn [mbind option_bind cell_at as_chat_id next_announce].
  rewrite memcmp_key by (rewrite ?(h_id _ _ Hc), ?(h_id_len _ _ Hc); done). rewrite (h_id _ _ Hc).
  destruct (decide (gr_chat_id gr = id)) as [E|E].
  - right. exists [], a, c, gs, [], gr, grs. rewrite bool_decide_true by done. split_and!; auto.
  - rewrite bool_decide_false by done.
    destruct (IH (gs1 ++ [(a, c)]) fuel) as [[I1 I2]|(l & a' & c' & r & grs1 & gr' & grs2 & I)].
    + by rewrite <- app_assoc.
    + simpl in Hfuel. lia.
    + left. done.
    + right. destruct I as (-> & -> & I3 & I4 & I5 & I6 & I7 & I8 & I9).
      exists ((a, c) :: l), a', c', r, (gr :: grs1), gr', grs2. split_and!; auto.
Qed.

Lemma update_group_app id f grs1 gr grs2 : Forall (λ gr, gr_chat_id gr ≠ id) grs1 → gr_chat_id gr = id →
  update_group id f (grs1 ++ gr :: grs2) = grs1 ++ f gr :: grs2.
Proof.
  intros H E. induction H as [|x grs1 Hx _ IH]; cbn; [by rewrite decide_True|]. by rewrite decide_False, IH.
Qed.

Lemma remove_group_app id grs1 gr grs2 : Forall (λ gr, gr_chat_id gr ≠ id) grs1 → gr_chat_id gr = id →
  remove_group id (grs1 ++ gr :: grs2) = grs1 ++ grs2.
Proof.
  intros H E. induction H as [|x grs1 Hx _ IH]; cbn; [by rewrite decide_True|]. by rewrite decide_False, IH.
Qed.

Lemma remove_group_none id grs : find_group id grs = None → remove_group id grs = grs.
Proof. induction grs as [|gr grs IH]; cbn; [done|]. destruct (decide _); [done|]. intros ?. by rewrite IH. Qed.

Lemma get_by_chat_id g gs grs id :
  represents g gs → Forall2 (λ x gr, holds x.2 gr) gs grs → zlen id = 32 →
  (find_group id grs = None ∧ get_announces_by_chat_id g id = Some None) ∨
  (∃ l a c r grs1 gr grs2, gs = l ++ (a, c) :: r ∧ grs = grs1 ++ gr :: grs2 ∧
     Forall2 (λ x gr, holds x.2 gr) l grs1 ∧ holds c gr ∧ Forall2 (λ x gr, holds x.2 gr) r grs2 ∧
     find_group id grs = Some gr ∧ Forall (λ gr, gr_chat_id gr ≠ id) grs1 ∧ gr_chat_id gr = id ∧
     get_announces_by_chat_id g id = Some (Some a)).
Proof.
  intros Hrep HF Hid. unfold get_announces_by_chat_id. rewrite (rep_root _ _ Hrep).
  apply (find_announces_spec _ _ _ []  _ g); auto. by rewrite (rep_size _ _ Hrep).
Qed.

(** One more announcement in the ring. *)
Lemma holds_record c gr t ann :
  holds c gr → zlen (gr_log gr) + 1 < 2 ^ 64 → zlen (ann_peer_public_key (pub_base_announce ann)) = 32 →
  holds (mkCell (cl_chat_id c) (u64 (cl_index c + 1)) (mono_time_get t)
           (aset (cl_peers c) (cl_index c mod 16) (mkPeerAnnounce (pub_base_announce ann) (mono_time_get t))))
    (record_announce t ann gr).
Proof.
  intros H Hlt Hk. pose proof (zlen_nonneg (gr_log gr)). split; cbn; try apply H.
  - rewrite (h_index _ _ H), u64_small by lia. by rewrite zlen_app.
  - done.
  - rewrite zlen_aset. apply H.
  - intros k a Hge Hka. rewrite zlen_app in Hge. change (zlen [_]) with 1 in Hge. rewrite (h_index _ _ H).
    apply lookup_snoc_Some in Hka as [[Hlt' Hka]|[-> <-]]; unfold aset.
    + rewrite list_lookup_insert_ne; [apply (h_ring _ _ H); [lia|done]|].
      unfold zlen in *. intros E. apply Z2Nat.inj in E; [|apply Z.mod_pos_bound; lia..].
      Z.to_euclidean_division_equations; lia.
    + unfold zlen at 1. apply list_lookup_insert_eq.
      pose proof (h_slots _ _ H) as Hs. pose proof (Z.mod_pos_bound (Z.of_nat (length (gr_log gr))) 16 ltac:(lia)).
      unfold zlen in *. lia.
  - apply Forall_app. split; [apply H|]. by constructor.
Qed.

Definition gca_bound (n : Z) (A : Groups) : Prop := Forall (λ gr, zlen (gr_log gr) <= n) (ab_groups A).

Lemma bound_mono n m (l : list Group) :
  n <= m → Forall (λ gr, zlen (gr_log gr) <= n) l → Forall (λ gr, zlen (gr_log gr) <= m) l.
Proof. intros Hm H. eapply list.Forall_impl; [done|]. cbn. intros. lia. Qed.

(** The first cell of the list gets a neighbour in front of it. *)
Lemma rep_push g gs a c : represents g gs → a ∉ gs.*1 →
  ∃ g1, match root_announces g with
        | Some r => q ← gca_heap g !! r; Some (set_cell g r (q <| prev_announce := Some a |>))
        | None => Some g
        end = Some g1 ∧ last_timeout_check g1 = last_timeout_check g ∧
    represents ((set_cell g1 a (cell_at c None (root_announces g))) <| root_announces := Some a |>) ((a, c) :: gs).
Proof.
  intros Hrep Ha. destruct gs as [|[r d] gs].
  - destruct Hrep as [Hn Hr Hh]. cbn in Hr. rewrite Hr. eexists. split; [done|]. split; [done|].
    split; [by apply list.NoDup_singleton|done|]. cbn. by rewrite Hh.
  - rewrite (rep_root _ _ Hrep). cbn [first_addr].
    rewrite (rep_lookup g [] r d gs Hrep). cbn [mbind option_bind]. eexists. split; [done|]. split; [done|].
    destruct Hrep as [Hn _ Hh]. split; [by apply list.NoDup_cons|done|]. cbn. rewrite Hh. cbn.
    rewrite insert_insert_eq. done.
Qed.

Lemma holds_new id : zlen id = 32 →
  holds (mkCell id 0 0 (as_peer_announces zero_announces)) (mkGroup id [] 0).
Proof. intros H. by split. Qed.

Lemma gca_add_step n malloc g A t ann fails :
  (∀ h : gmap addr GC_Announces, h !! malloc h = None) → gca_rel g A → gca_bound n A → n + 1 < 2 ^ 64 → 0 <= n →
  gca_op_ok (Gca_Add fails t ann) →
  ∃ g' res A', run_gca_op malloc g (Gca_Add fails t ann) = Some (g', res) ∧
    gca_step A (Gca_Add fails t ann) A' res ∧ gca_rel g' A' ∧ gca_bound (n + 1) A'.
Proof.
  intros Hmal (gs & Hrep & HF & Ht) Hb Hn Hn0 [Hid Hkey]. unfold run_gca_op, gca_add_announce.
  destruct (get_by_chat_id _ _ _ (chat_public_key ann) Hrep HF Hid)
    as [[Hf ->]|(l & a & c & r & grs1 & gr & grs2 & -> & EA & H1 & Hc & H2 & Hf & Hne & Eid & ->)]; cbn [mbind option_bind].
  - destruct fails.
    { eexists _, _, A. split; [done|]. cbn. split; [by apply step_add_fail|]. split; [by exists gs|].
      by apply (bound_mono n); [lia|]. }
    set (a := malloc (gca_heap g)) in *.
    assert (a ∉ gs.*1) as Ha.
    { intros Hin. pose proof (Hmal (gca_heap g)) as Hm. fold a in Hm. rewrite (rep_heap _ _ Hrep) in Hm.
      apply not_elem_of_list_to_map in Hm. by rewrite links_addrs in Hm. }
    destruct (rep_push g gs a (mkCell (chat_public_key ann) 0 0 (as_peer_announces zero_announces)) Hrep Ha)
      as (g1 & -> & Ht1 & Hrep1). cbn [mbind option_bind].
    match type of Hrep1 with represents ?x _ => set (g2 := x) in * end.
    change (((set_cell g1 a _) <| root_announces := Some a |>)) with g2.
    rewrite (rep_lookup g2 [] a _ gs Hrep1). cbn [mbind option_bind].
    eexists _, _, _. split; [done|]. split; [by apply step_add_new|].
    split; [|constructor; [cbn; unfold zlen; simpl; lia|by apply (bound_mono n); [lia|]]].
    eexists. split; [|split].
    + apply (rep_update g2 [] a _ (mkCell (chat_public_key ann) (u64 (0 + 1)) (mono_time_get t)
               (aset (as_peer_announces zero_announces) (0 mod 16) (mkPeerAnnounce (pub_base_announce ann) (mono_time_get t)))) gs Hrep1).
    + constructor; [|done]. apply (holds_record _ _ t ann (holds_new _ Hid)); [unfold zlen; cbn; lia|done].
    + cbn. by rewrite Ht1.
  - rewrite (rep_lookup _ _ _ _ _ Hrep). cbn [mbind option_bind].
    eexists _, _, _. split; [done|]. split; [by eapply step_add|]. unfold gca_bound in *.
    cbn [ab_groups]. rewrite EA in Hb |- *. rewrite update_group_app by done.
    apply Forall_app in Hb as [Hb1 Hb2]. apply list.Forall_cons in Hb2 as [Hb2 Hb3]. split.
    + eexists. split; [by apply (rep_update _ _ _ _ (mkCell (cl_chat_id c) (u64 (cl_index c + 1)) (mono_time_get t)
        (aset (cl_peers c) (cl_index c mod 16) (mkPeerAnnounce (pub_base_announce ann) (mono_time_get t)))) _ Hrep)|].
      split; [|done]. cbn [ab_groups].
      apply Forall2_app; [done|]. constructor; [|done]. apply holds_record; [done| |done]. lia.
    + apply Forall_app. split; [by apply (bound_mono n); [lia|]|].
      constructor; [cbn; rewrite zlen_app; change (zlen [_]) with 1; lia|by apply (bound_mono n); [lia|]].
Qed.

Lemma do_gca_loop_rep t gs : ∀ gs1 grs g fuel,
  represents g (gs1 ++ gs) → Forall2 (λ x gr, holds x.2 gr) gs grs → (length gs <= fuel)%nat →
  ∃ g' gs', do_gca_loop fuel t g (first_addr gs None) = Some g' ∧ represents g' (gs1 ++ gs') ∧
    last_timeout_check g' = last_timeout_check g ∧
    Forall2 (λ x gr, holds x.2 gr) gs'
      (filter (λ gr, mono_time_is_timeout t (gr_last gr) GCA_ANNOUNCE_SAVE_TIMEOUT = false) grs).
Proof.
  intros gs1 grs g fuel Hrep HF. revert gs1 g fuel Hrep.
  induction HF as [|[a c] gr gs grs Hc HF IH]; intros gs1 g fuel Hrep Hfuel.
  { exists g, []. split; [by destruct fuel|]. split; [done|]. split; [done|]. constructor. }
  destruct fuel as [|fuel]; [simpl in Hfuel; lia|]. cbn [first_addr do_gca_loop].
  rewrite (rep_lookup _ _ _ _ _ Hrep). cbn [mbind option_bind cell_at as_last_announce_received_timestamp next_announce].
  cbn in Hc. rewrite (h_last _ _ Hc). rewrite filter_cons.
  destruct (mono_time_is_timeout t (gr_last gr) GCA_ANNOUNCE_SAVE_TIMEOUT) eqn:E.
  - rewrite decide_False by done. destruct (remove_announces_rep _ _ _ _ _ Hrep) as (g1 & -> & Hrep1 & Ht1).
    cbn [mbind option_bind]. destruct (IH gs1 g1 fuel Hrep1) as (g' & gs' & I1 & I2 & I3 & I4); [simpl in Hfuel; lia|].
    exists g', gs'. split; [done|]. split; [done|]. split; [congruence|done].
  - rewrite decide_True by done.
    destruct (IH (gs1 ++ [(a, c)]) g fuel) as (g' & gs' & I1 & I2 & I3 & I4);
      [by rewrite <- app_assoc|simpl in Hfuel; lia|].
    exists g', ((a, c) :: gs'). rewrite <- app_assoc in I2. split; [done|]. split; [done|]. split; [done|]. by constructor.
Qed.

(** Every operation is a step of the specification. *)
Lemma gca_op_step n malloc g A op :
  (∀ h : gmap addr GC_Announces, h !! malloc h = None) → gca_rel g A → gca_bound n A → n + 1 < 2 ^ 64 → 0 <= n →
  gca_op_ok op →
  ∃ g' res A', run_gca_op malloc g op = Some (g', res) ∧ gca_step A op A' res ∧ gca_rel g' A' ∧ gca_bound (n + 1) A'.
Proof.
  intros Hmal Hrel Hb Hn Hn0 Hok. destruct op as [fails t ann|k id pk|t|id]; [by eapply gca_add_step| | |];
    destruct Hrel as (gs & Hrep & HF & Ht).
  - destruct Hok as (Hk & Hid & Hpk). cbn [run_gca_op]. unfold gca_get_announces.
    assert (gca_rel g A) as Hrel by by exists gs. apply (bound_mono _ (n + 1)) in Hb; [|lia].
    destruct (k =? 0) eqn:Ek; cbn [mbind option_bind].
    { assert (k = 0) as -> by lia. eexists _, _, A. split; [done|]. split; [apply step_get_zero|done]. }
    destruct (get_by_chat_id _ _ _ id Hrep HF Hid)
      as [[Hf ->]|(l & a & c & r & grs1 & gr & grs2 & -> & EA & H1 & Hc & H2 & Hf & Hne & Eid & ->)]; cbn [mbind option_bind].
    + eexists _, _, A. split; [done|]. split; [apply step_get_none; [lia|done]|done].
    + rewrite (rep_lookup _ _ _ _ _ Hrep). cbn [mbind option_bind]. eexists _, _, A. split; [done|].
      split; [|done]. eapply step_get; [lia|done|]. apply get_answers; [done|done|]. unfold is_u8 in Hk. lia.
  - cbn [run_gca_op]. unfold do_gca. rewrite Ht.
    destruct (mono_time_is_timeout t (ab_check A) GCA_DO_GCA_TIMEOUT) eqn:E; cbn [negb mbind option_bind].
    + set (g0 := g <| last_timeout_check := mono_time_get t |>).
      assert (represents g0 gs) as Hrep0 by (destruct Hrep; by split).
      rewrite (rep_root _ _ Hrep0). rewrite (rep_size _ _ Hrep0).
      destruct (do_gca_loop_rep t gs [] _ g0 (length gs) Hrep0 HF) as (g' & gs' & -> & I2 & I3 & I4); [done|].
      eexists _, _, _. split; [done|]. split; [by apply step_do|]. split; [exists gs'; done|].
      apply list.Forall_forall. intros gr Hgr%list_elem_of_filter. destruct Hgr as [_ Hgr].
      apply (bound_mono _ (n + 1)) in Hb; [|lia]. by apply (proj1 (list.Forall_forall _ _) Hb).
    + eexists _, _, A. split; [done|]. split; [by apply step_do_early|]. split; [by exists gs|].
      by apply (bound_mono n); [lia|].
  - cbn [run_gca_op]. unfold cleanup_gca. cbn in Hok. apply (bound_mono _ (n + 1)) in Hb; [|lia].
    destruct (get_by_chat_id _ _ _ id Hrep HF Hok)
      as [[Hf ->]|(l & a & c & r & grs1 & gr & grs2 & -> & EA & H1 & Hc & H2 & Hf & Hne & Eid & ->)]; cbn [mbind option_bind].
    + eexists _, _, _. split; [done|]. split; [apply step_cleanup|]. rewrite remove_group_none by done.
      destruct A. split; [by exists gs|done].
    + destruct (remove_announces_rep _ _ _ _ _ Hrep) as (g1 & -> & Hrep1 & Ht1). cbn [mbind option_bind].
      eexists _, _, _. split; [done|]. split; [apply step_cleanup|]. unfold gca_bound in *. cbn [ab_groups].
      rewrite EA in Hb |- *. rewrite remove_group_app by done. split.
      * eexists. split; [done|]. split; [by apply Forall2_app|]. cbn. congruence.
      * apply Forall_app in Hb as [? [? ?]%list.Forall_cons]. by apply Forall_app.
Qed.

Lemma run_gca_steps malloc ops : ∀ n g A,
  (∀ h : gmap addr GC_Announces, h !! malloc h = None) → gca_rel g A → gca_bound n A → 0 <= n →
  n + zlen ops < 2 ^ 64 → Forall gca_op_ok ops →
  ∃ g' rs A', run_gca_ops malloc g ops = Some (g', rs) ∧ gca_steps A ops A' rs ∧ gca_rel g' A'.
Proof.
  induction ops as [|op ops IH]; intros n g A Hm Hr Hb Hn Hl Hok.
  { eexists _, _, _. split; [done|]. split; [constructor|done]. }
  rewrite zlen_cons in Hl. pose proof (zlen_nonneg ops). apply list.Forall_cons in Hok as [Hop Hok].
  destruct (gca_op_step n malloc g A op) as (g1 & r & A1 & E1 & S1 & R1 & B1); auto; [lia|].
  destruct (IH (n + 1) g1 A1) as (g2 & rs & A2 & E2 & S2 & R2); auto; [lia..|].
  exists g2, (r :: rs), A2. cbn [run_gca_ops]. rewrite E1. cbn [mbind option_bind]. rewrite E2. cbn.
  split; [done|]. split; [by econstructor|done].
Qed.

Lemma kill_gca_rep prev gs : ∀ fuel, NoDup gs.*1 → (length gs <= fuel)%nat →
  kill_gca_loop fuel (list_to_map (links prev None gs)) (first_addr gs None) = Some ∅.
Proof.
  revert prev. induction gs as [|[a c] gs IH]; intros prev fuel Hn Hf; [by destruct fuel|].
  destruct fuel as [|fuel]; [simpl in Hf; lia|]. cbn. apply list.NoDup_cons in Hn as [Ha Hn].
  rewrite lookup_insert_eq. cbn. rewrite delete_insert_id.
  - apply IH; [done|]. simpl in Hf. lia.
  - apply not_elem_of_list_to_map. by rewrite links_addrs.
Qed.

(** ** Theorems *)

(** C34: The list of group announcements does what it promises and never touches
    freed memory.  Whatever sequence of additions, queries, expirations and
    removals runs on a new list, with any allocator that returns unused memory
    or fails, no operation follows a dangling pointer; the results are those of
    a plain list of groups that remember their announcements: a query returns
    recent announcements of distinct members, never the one excepted, and all
    there are if fewer than asked for.  Freeing the list at the end leaves
    nothing allocated. *)
Theorem gca_list_refines malloc ops :
  (∀ h : gmap addr GC_Announces, h !! malloc h = None) → Forall gca_op_ok ops → zlen ops < 2 ^ 64 →
  ∃ g rs A, run_gca_ops malloc new_gca_list ops = Some (g, rs) ∧
    gca_steps (mkGroups [] 0) ops A rs ∧ kill_gca g = Some ∅.
Proof.
  intros Hm Hok Hl.
  destruct (run_gca_steps malloc ops 0 new_gca_list (mkGroups [] 0)) as (g & rs & A & E & S & (gs & Hrep & _ & _)); auto; try lia.
  - exists []. split; [by split; [constructor| |]|]. split; [constructor|done].
  - constructor.
  - exists g, rs, A. split; [done|]. split; [done|]. unfold kill_gca.
    rewrite (rep_size _ _ Hrep), (rep_root _ _ Hrep), (rep_heap _ _ Hrep). apply kill_gca_rep; [apply Hrep|done].
Qed.

(** A small run: two members announce themselves, one of them asks. *)
Definition demo_announce (k : Z) : GC_Announce :=
  mkAnnounce [mkNode (replicate 32 (k + 100)) (mkIPPort (mkIP TCP_INET6 (replicate 16 k)) 33445)] 1 true
    (mkIPPort (mkIP TOX_AF_INET6 (replicate 16 k)) 33445) (replicate 32 k).

Definition demo_public (k : Z) : GC_Public_Announce := mkPublicAnnounce (demo_announce k) (replicate 32 7).

Definition demo_ops : list Gca_Op :=
  [Gca_Add false (mkMonoTime 1000 0) (demo_public 1); Gca_Add false (mkMonoTime 1001 0) (demo_public 2);
   Gca_Get 4 (replicate 32 7) (replicate 32 2); Gca_Do (mkMonoTime 1040 0); Gca_Cleanup (replicate 32 7)].

Lemma gca_list_refines_witness : ∃ g rs A,
  run_gca_ops (λ h, fresh (dom h)) new_gca_list demo_ops = Some (g, rs) ∧
  gca_steps (mkGroups [] 0) demo_ops A rs ∧ kill_gca g = Some ∅.
Proof.
  apply (gca_list_refines (λ h, fresh (dom h)) demo_ops).
  - intros h. apply not_elem_of_dom. apply is_fresh.
  - unfold demo_ops. repeat apply list.Forall_cons_2; cbn; unfold is_u8; try apply list.Forall_nil_2; split_and?; done || lia.
  - reflexivity.
Defined.

(** ** The wire format *)

Definition announce_ok (a : GC_Announce) : Prop :=
  keyed a ∧ zlen (ann_tcp_relays a) = 1 ∧ (ann_tcp_relays_count a = 0 ∨ ann_tcp_relays_count a = 1) ∧
  gca_is_valid_announce a = true ∧
  (ann_ip_port_is_set a = true → ip_port_ok (ann_ip_port a) ∧ packable false (ip_family (ipp_ip (ann_ip_port a))) = true) ∧
  (ann_tcp_relays_count a = 1 → Forall (λ n, node_ok n ∧ packable true (node_family n) = true) (ann_tcp_relays a)).

(** What arrives: fields that are not announced are what they were before. *)
Definition wire_announce (old a : GC_Announce) : GC_Announce :=
  mkAnnounce (if ann_tcp_relays_count a =? 1 then wire_node <$> ann_tcp_relays a else ann_tcp_relays old)
    (ann_tcp_relays_count a) (ann_ip_port_is_set a)
    (if ann_ip_port_is_set a then wire_ip_port (ann_ip_port a) else ann_ip_port old) (ann_peer_public_key a).

Fixpoint wire_announces (old l : list GC_Announce) : list GC_Announce :=
  match l with
  | [] => []
  | a :: l' => wire_announce (default empty_announce (head old)) a :: wire_announces (tail old) l'
  end.

(** The relays of an announcement, in front of other data. *)
Lemma relay_roundtrip n : node_ok n → packable true (node_family n) = true →
  ∀ room, 51 <= room < 2 ^ 16 →
  ∃ d, pack_nodes room [n] 1 = Some d ∧ 0 < zlen d <= 51 ∧
    ∀ rest len, zlen d <= len < 2 ^ 16 → unpack_nodes 1 (d ++ rest) len true = Some ([wire_node n], zlen d).
Proof.
  intros (Hk & Hb & Hip) Hf room Hroom. pose proof (packable_size _ _ Hf) as Hsz.
  destruct (pack_ip_port_spec true room (nf_ip_port n) Hip Hf) as (d & Ed & Hd & Hu); [unfold node_family in *; lia|].
  exists (d ++ nf_public_key n). unfold pack_nodes, unpack_nodes. change (Z.to_nat 1) with 1%nat.
  cbn [take pack_nodes_loop unpack_nodes_loop]. unfold node_family in *.
  rewrite !Z.sub_0_r, u16_small by lia. rewrite Ed. replace (0 <? room) with true by lia. cbn [negb].
  change CRYPTO_PUBLIC_KEY_SIZE with 32. replace (room <? 0 + zlen d + 32) with false by lia. rewrite app_nil_r.
  split; [done|]. rewrite zlen_app, Hk. split; [lia|]. intros rest len Hlen.
  replace (0 <? len) with true by lia. cbn [negb]. rewrite Z.sub_0_r, u16_small by lia.
  change (Z.to_nat 0) with 0%nat. rewrite drop_0, <- app_assoc, Hu by lia.
  replace (len <? 0 + zlen d + 32) with false by lia. do 3 f_equal.
  unfold wire_node. f_equal. by slices.
Qed.

(** The address of an announcement, in front of other data. *)
Lemma announced_ip a : announce_ok a → ∀ room, 19 <= room →
  ∃ d, (if ann_ip_port_is_set a then pack_ip_port room (ann_ip_port a) else Some []) = Some d ∧
    0 <= zlen d <= 19 ∧ (ann_ip_port_is_set a = true → 0 < zlen d) ∧
    ∀ rest len old, zlen d <= len →
      (if ann_ip_port_is_set a then if len =? 0 then None else unpack_ip_port (d ++ rest) len false
       else Some (0, ann_ip_port old)) =
      Some (zlen d, if ann_ip_port_is_set a then wire_ip_port (ann_ip_port a) else ann_ip_port old).
Proof.
  intros (_ & _ & _ & _ & Hip & _) room Hr. destruct (ann_ip_port_is_set a).
  - destruct (Hip eq_refl) as [Hok Hf]. pose proof (packable_size _ _ Hf).
    destruct (pack_ip_port_spec false room (ann_ip_port a) Hok Hf) as (d & Ed & Hd & Hu); [lia|].
    exists d. split; [done|]. split; [lia|]. split; [lia|]. intros rest len old Hl.
    replace (len =? 0) with false by lia. by apply Hu.
  - exists []. split; [done|]. split; [done|]. split; [done|]. done.
Qed.

Lemma announced_relays a : announce_ok a → ∀ room, 51 <= room < 2 ^ 16 →
  ∃ d, pack_nodes room (ann_tcp_relays a) (ann_tcp_relays_count a) = Some d ∧ 0 <= zlen d <= 51 ∧
    (ann_tcp_relays_count a = 1 → 0 < zlen d) ∧ ∀ rest len, zlen d <= len < 2 ^ 16 →
      unpack_nodes (ann_tcp_relays_count a) (d ++ rest) len true
      = Some (if ann_tcp_relays_count a =? 1 then wire_node <$> ann_tcp_relays a else [], zlen d).
Proof.
  intros (_ & Hlen & Hc & _ & _ & Hr) room Hroom. destruct Hc as [E|E]; rewrite E in *.
  - exists []. split; [done|]. split; [done|]. by split.
  - specialize (Hr eq_refl). destruct (ann_tcp_relays a) as [|n [|]]; try (unfold zlen in Hlen; simpl in Hlen; lia).
    apply list.Forall_cons in Hr as [[Hn Hf] _].
    destruct (relay_roundtrip n Hn Hf room Hroom) as (d & Ed & Hd & Hu). exists d. split; [done|].
    split; [lia|]. split; [lia|]. intros rest len Hl. by apply Hu.
Qed.

Lemma announce_roundtrip a : announce_ok a → ∀ room, 136 <= room < 2 ^ 16 →
  ∃ d, gca_pack_announce room a = Some d ∧ 34 < zlen d <= 104 ∧
    ∀ rest len old, zlen (ann_tcp_relays old) = 1 → zlen d <= len < 2 ^ 16 →
      gca_unpack_announce (d ++ rest) len old = Some (zlen d, wire_announce old a).
Proof.
  intros Hok room Hroom. pose proof Hok as (Hkey & Hrl & Hcount & Hv & _). unfold keyed in Hkey.
  unfold gca_pack_announce. change GCA_ANNOUNCE_MAX_SIZE with 136. change (ENC_PUBLIC_KEY_SIZE + 2) with 34.
  replace (room <? 136) with false by lia.
  replace (negb (ann_ip_port_is_set a) && (ann_tcp_relays_count a =? 0)) with false
    by (unfold gca_is_valid_announce in Hv; destruct (ann_ip_port_is_set a); cbn; lia).
  rewrite (u16_small (room - 34)) by lia.
  destruct (announced_ip a Hok (room - 34)) as (di & -> & Hdi & Hpos & Hui); [lia|]. cbn [mbind option_bind].
  rewrite u16_small by lia.
  destruct (announced_relays a Hok (room - (34 + zlen di))) as (dn & -> & Hdn & Hpos' & Hun); [lia|]. cbn [mbind option_bind].
  eexists. split; [done|]. set (b := if ann_ip_port_is_set a then 1 else 0).
  set (d := (ann_peer_public_key a ++ [b] ++ [ann_tcp_relays_count a]) ++ di ++ dn).
  assert (zlen d = 34 + zlen di + zlen dn) as Hd.
  { unfold d. rewrite !zlen_app, Hkey. change (zlen [_]) with 1. change (zlen [_]) with 1. lia. }
  split.
  { split; [|lia]. unfold gca_is_valid_announce in Hv. destruct (ann_ip_port_is_set a); [specialize (Hpos eq_refl); lia|].
    specialize (Hpos' ltac:(lia)). lia. }
  intros rest len old Hold Hlen. unfold gca_unpack_announce, net_unpack_bool.
  change ENC_PUBLIC_KEY_SIZE with 32. change (32 + 2) with 34. change GCA_MAX_ANNOUNCED_TCP_RELAYS with 1.
  replace (len <? 34) with false by lia.
  assert (slice 0 32 (d ++ rest) = ann_peer_public_key a) as ->
    by (unfold d; rewrite <- !app_assoc; by slices).
  assert (drop (Z.to_nat 32) (d ++ rest) = b :: ann_tcp_relays_count a :: di ++ dn ++ rest) as Hb.
  { unfold d. rewrite <- !app_assoc. rewrite drop_app_length'; [done|]. unfold zlen in Hkey. lia. }
  assert (drop (Z.to_nat 34) (d ++ rest) = di ++ dn ++ rest) as Hi.
  { change (Z.to_nat 34) with (2 + Z.to_nat 32)%nat. rewrite Nat.add_comm, <- drop_drop, Hb. done. }
  assert (drop (Z.to_nat (34 + zlen di)) (d ++ rest) = dn ++ rest) as Hn.
  { rewrite Z2Nat.inj_add, <- drop_drop, Hi by lia. rewrite drop_app_length'; [done|]. unfold zlen. lia. }
  assert (aget 0 (d ++ rest) (32 + 1) = ann_tcp_relays_count a) as ->.
  { unfold aget. change (Z.to_nat (32 + 1)) with (Z.to_nat 32 + 1)%nat. rewrite <- lookup_drop, Hb. done. }
  rewrite Hb. change (aget 0 (b :: ann_tcp_relays_count a :: di ++ dn ++ rest) 0) with b.
  replace (negb (b =? 0)) with (ann_ip_port_is_set a) by (unfold b; by destruct (ann_ip_port_is_set a)).
  replace (1 <? ann_tcp_relays_count a) with false by lia.
  rewrite Hi. pose proof (Hui (dn ++ rest) (len - 34) old ltac:(lia)) as Hu1.
  rewrite (u16_small (len - 34)) by lia. rewrite Hu1. cbn [mbind option_bind].
  rewrite Hn, (u16_small (len - (34 + zlen di))) by lia. rewrite Hun by lia. cbn [mbind option_bind].
  assert (zlen (if ann_tcp_relays_count a =? 1 then wire_node <$> ann_tcp_relays a else []) = ann_tcp_relays_count a) as Hz.
  { destruct Hcount as [->| ->]; [done|]. cbn. unfold zlen in *. by rewrite length_fmap. }
  rewrite Hz, Z.eqb_refl. cbn [negb]. f_equal. unfold wire_announce. f_equal; [lia|]. f_equal.
  unfold zlen in *. destruct Hcount as [->| ->]; cbn [Z.eqb Pos.eqb]; [done|].
  rewrite drop_ge, app_nil_r; [done|]. rewrite length_fmap. lia.
Qed.

Lemma announces_loop_roundtrip l : Forall announce_ok l → ∀ room off,
  0 <= off → off + 104 * zlen l + 32 <= room < 2 ^ 16 →
  ∃ d, pack_announces_loop room off l = Some d ∧ zlen d <= 104 * zlen l ∧
    ∀ pre rounds old, zlen pre = off → (length l <= rounds)%nat → Forall (λ o, zlen (ann_tcp_relays o) = 1) old →
      unpack_announces_loop rounds (pre ++ d) (off + zlen d) off old = Some (wire_announces old l).
Proof.
  induction 1 as [|a l Ha Hl IH]; intros room off Hoff Hroom.
  { exists []. split; [done|]. split; [done|]. intros pre rounds old _ _ _. destruct rounds; [done|].
    cbn [unpack_announces_loop]. change (zlen (@nil Z)) with 0. by replace (off <? off + 0) with false by lia. }
  rewrite zlen_cons in Hroom. pose proof (zlen_nonneg l). cbn [pack_announces_loop].
  rewrite u16_small by lia. destruct (announce_roundtrip a Ha (room - off)) as (da & -> & Hda & Hua); [lia|].
  cbn [mbind option_bind]. rewrite u16_small by lia.
  destruct (IH room (off + zlen da)) as (d & -> & Hd & Hu); [lia..|]. cbn [mbind option_bind].
  eexists. split; [done|]. rewrite zlen_app, zlen_cons. split; [lia|]. pose proof (zlen_nonneg d).
  intros pre rounds old Hpre Hr Ho. destruct rounds as [|rounds]; [simpl in Hr; lia|]. cbn [unpack_announces_loop].
  replace (off <? off + (zlen da + zlen d)) with true by lia. cbn [negb].
  assert (drop (Z.to_nat off) (pre ++ da ++ d) = da ++ d) as ->.
  { rewrite drop_app_length'; [done|]. unfold zlen in Hpre. lia. }
  rewrite u16_small by lia. rewrite Hua; [|by destruct Ho|lia]. cbn [mbind option_bind]. rewrite u16_small by lia.
  replace (off + (zlen da + zlen d)) with (off + zlen da + zlen d) by lia. rewrite app_assoc, Hu; [done| | |].
  - rewrite zlen_app. lia.
  - simpl in Hr. lia.
  - by destruct Ho.
Qed.

(** A list of valid announcements fits into the room that
    [gca_pack_announces_list_size] asks for, and unpacking it gives the same
    announcements back, with their addresses as they are on the wire. *)
Theorem announces_list_roundtrip l old max_count :
  Forall announce_ok l → Forall (λ o, zlen (ann_tcp_relays o) = 1) old → 0 < zlen l <= max_count → max_count < 2 ^ 8 →
  ∃ d, gca_pack_announces_list (gca_pack_announces_list_size (zlen l)) l = Some d ∧
    zlen d <= gca_pack_announces_list_size (zlen l) ∧
    gca_unpack_announces_list d (zlen d) old max_count = Some (wire_announces old l).
Proof.
  intros Hl Ho Hn Hm. unfold gca_pack_announces_list_size. change GCA_ANNOUNCE_MAX_SIZE with 136.
  rewrite u16_small by lia.
  destruct (announces_loop_roundtrip l Hl (zlen l * 136) 0) as (d & Ed & Hd & Hu); [lia..|].
  exists d. split; [done|]. split; [lia|]. apply (Hu [] _ old); [done| |done]. unfold zlen in Hn. lia.
Qed.

Lemma announces_list_roundtrip_witness : ∃ d,
  gca_pack_announces_list (gca_pack_announces_list_size 2) [demo_announce 1; demo_announce 2] = Some d ∧
  gca_unpack_announces_list d (zlen d) (replicate 4 empty_announce) 4
  = Some (wire_announces (replicate 4 empty_announce) [demo_announce 1; demo_announce 2]).
Proof.
  destruct (announces_list_roundtrip [demo_announce 1; demo_announce 2] (replicate 4 empty_announce) 4)
    as (d & E1 & _ & E2).
  - repeat apply list.Forall_cons_2; try apply list.Forall_nil_2; (split; [done|]; split; [done|]; split; [by right|];
      split; [done|]; split; [intros _; repeat split; cbn; repeat constructor; unfold is_u8, is_u16; lia|]; intros _;
      repeat constructor; cbn; unfold is_u8, is_u16; lia).
  - repeat constructor.
  - done.
  - done.
  - by exists d.
Defined.
