(* ===== verification/OnionAnnounce.v ===== *)
(** * OnionAnnounce: announcements through the onion

    [toxcore/onion_announce.c] and [toxcore/group_onion_announce.c].  A node
    stores where its announced friends can be reached: the return path of the
    onion packet that announced them.  An announcement is accepted only with a
    ping id that the node itself handed out, to the same key and address, not
    long before; who knows the key of an announced friend can then send data
    along the stored path.  Group members announce themselves in the same
    packets, as extra data. *)
From S2P Require Import Prelude MonoTime CryptoCore SharedKeyCache TimedAuth Network LanDiscovery World DhtDistance DhtPackets.
From S2P Require Import DhtLists Dht Onion GroupAnnounce.

(** ** Sizes *)

Definition CRYPTO_HMAC_KEY_SIZE : Z := 32.
Definition TIMED_AUTH_SIZE : Z := 32.
Definition ONION_ANNOUNCE_MAX_ENTRIES : Z := 160.
Definition ONION_ANNOUNCE_TIMEOUT : Z := 300.
Definition PING_ID_TIMEOUT : Z := ONION_ANNOUNCE_TIMEOUT.
Definition ONION_PING_ID_SIZE : Z := TIMED_AUTH_SIZE.
Definition ONION_MAX_EXTRA_DATA_SIZE : Z := 136.
Definition ONION_ANNOUNCE_SENDBACK_DATA_LENGTH : Z := 8.
Definition ONION_ANNOUNCE_REQUEST_MIN_SIZE : Z :=
  1 + CRYPTO_NONCE_SIZE + CRYPTO_PUBLIC_KEY_SIZE + ONION_PING_ID_SIZE + CRYPTO_PUBLIC_KEY_SIZE + CRYPTO_PUBLIC_KEY_SIZE
  + ONION_ANNOUNCE_SENDBACK_DATA_LENGTH + CRYPTO_MAC_SIZE.
Definition ONION_ANNOUNCE_REQUEST_MAX_SIZE : Z := ONION_ANNOUNCE_REQUEST_MIN_SIZE + ONION_MAX_EXTRA_DATA_SIZE.
Definition ONION_ANNOUNCE_RESPONSE_MIN_SIZE : Z :=
  2 + ONION_ANNOUNCE_SENDBACK_DATA_LENGTH + CRYPTO_NONCE_SIZE + ONION_PING_ID_SIZE + CRYPTO_MAC_SIZE.
Definition ONION_ANNOUNCE_RESPONSE_MAX_SIZE : Z :=
  ONION_ANNOUNCE_RESPONSE_MIN_SIZE + ONION_MAX_EXTRA_DATA_SIZE * MAX_SENT_NODES.
Definition ONION_ANNOUNCE_REQUEST_SIZE : Z :=
  1 + CRYPTO_NONCE_SIZE + CRYPTO_PUBLIC_KEY_SIZE + ONION_PING_ID_SIZE + CRYPTO_PUBLIC_KEY_SIZE + CRYPTO_PUBLIC_KEY_SIZE
  + ONION_ANNOUNCE_SENDBACK_DATA_LENGTH + CRYPTO_MAC_SIZE.
Definition ONION_DATA_REQUEST_MIN_SIZE : Z :=
  1 + CRYPTO_PUBLIC_KEY_SIZE + CRYPTO_NONCE_SIZE + CRYPTO_PUBLIC_KEY_SIZE + CRYPTO_MAC_SIZE.
Definition DATA_REQUEST_MIN_SIZE : Z := ONION_DATA_REQUEST_MIN_SIZE.
Definition DATA_REQUEST_MIN_SIZE_RECV : Z := DATA_REQUEST_MIN_SIZE + ONION_RETURN_3.
Definition ANNOUNCE_REQUEST_MIN_SIZE_RECV : Z := ONION_ANNOUNCE_REQUEST_MIN_SIZE + ONION_RETURN_3.
Definition ANNOUNCE_REQUEST_MAX_SIZE_RECV : Z := ONION_ANNOUNCE_REQUEST_MAX_SIZE + ONION_RETURN_3.
Definition ANNOUNCE_REQUEST_SIZE_RECV : Z := ONION_ANNOUNCE_REQUEST_SIZE + ONION_RETURN_3.
Definition ONION_MINIMAL_SIZE : Z :=
  ONION_PING_ID_SIZE + CRYPTO_PUBLIC_KEY_SIZE * 2 + ONION_ANNOUNCE_SENDBACK_DATA_LENGTH.

(** [sizeof (GC_Announce)] on the 64-bit platforms the model covers: a node, two
    bytes with padding, an address and a key. *)
Definition SIZEOF_GC_ANNOUNCE : Z := SIZEOF_NODE_FORMAT + 8 + SIZEOF_IP_PORT + 32.

(** ** Data *)

Record Onion_Announce_Entry := mkEntry {
  oe_public_key : bytes;
  oe_ret_ip_port : IP_Port;
  oe_ret : bytes;
  oe_data_public_key : bytes;
  oe_announce_time : Z
}.

#[export] Instance eta_Onion_Announce_Entry : Eta Onion_Announce_Entry := λ e,
  mkEntry (oe_public_key e) (oe_ret_ip_port e) (oe_ret e) (oe_data_public_key e) (oe_announce_time e).

Definition empty_onion_entry : Onion_Announce_Entry :=
  mkEntry (zeros 32) empty_ip_port (zeros ONION_RETURN_3) (zeros 32) 0.

(** [pack_extra_data_cb]: from the clock, [num_nodes], [plain] with its size,
    [response_size], [offset] and the object, what it writes at [offset] (or
    [None] for -1) and the object after it; [None] where it fails outright. *)
Definition pack_extra_data_cb : Type :=
  Mono_Time → Z → bytes → Z → Z → Z → GC_Announces_List → option (option bytes * GC_Announces_List).

(** The clock, the random numbers and the socket are those of the DHT node. *)
Record Onion_Announce := mkOnionAnnounce {
  oa_dht : DHT;
  oa_entries : list Onion_Announce_Entry;
  oa_hmac_key : bytes;
  oa_shared_keys_recv : Shared_Key_Cache;
  oa_extra_data_max_size : Z;
  oa_extra_data_callback : option pack_extra_data_cb;
  oa_extra_data_object : GC_Announces_List
}.

#[export] Instance eta_Onion_Announce : Eta Onion_Announce := λ o,
  mkOnionAnnounce (oa_dht o) (oa_entries o) (oa_hmac_key o) (oa_shared_keys_recv o) (oa_extra_data_max_size o)
    (oa_extra_data_callback o) (oa_extra_data_object o).

Abbreviation OA := (ST Onion_Announce).

(** How a handler ends: with a value, or by writing a response of [size] bytes
    into an array that is smaller, by a failed assertion, or inside the callback
    for extra data. *)
Inductive Announce_Result := Returned (r : Z) | Overflow (size : Z) | Asserted | CallbackFault.

(** The outcomes of the allocations made while a request is handled: the buffer
    of its plain text, the memory of the decryption, the copy of the table that
    is sorted, the buffer of the response, the memory of the encryption. *)
Record Announce_Alloc := mkAnnounceAlloc {
  al_plain : bool;
  al_decrypt : bool;
  al_sort : bool;
  al_response : bool;
  al_encrypt : bool
}.

Definition all_memory : Announce_Alloc := mkAnnounceAlloc true true true true true.

Definition oa_mono_time (o : Onion_Announce) : Mono_Time := dht_mono_time (oa_dht o).

Definition on_dht {A} (m : M A) : OA A := λ o, let '(x, d) := m (oa_dht o) in (x, o <| oa_dht := d |>).

Definition oa_lookup {Sod : Sodium} (pk : bytes) : OA (option bytes) := λ o,
  let '(k, c) := shared_key_cache_lookup (cache_at (oa_mono_time o) (oa_shared_keys_recv o)) pk in
  (k, o <| oa_shared_keys_recv := c |>).

Definition onion_announce_extra_data_callback (extra_data_max_size : Z) (cb : pack_extra_data_cb)
    (object : GC_Announces_List) : OA unit :=
  modify (λ o, o <| oa_extra_data_max_size := u16 extra_data_max_size |> <| oa_extra_data_callback := Some cb |>
                 <| oa_extra_data_object := object |>).

Definition onion_announce_entry_set_time (entry announce_time : Z) : OA unit :=
  modify (λ o, o <| oa_entries :=
    alter (λ e, e <| oe_announce_time := announce_time |>) (Z.to_nat entry) (oa_entries o) |>).

(** [alloc] is the outcome of an allocation where a function makes one or stops
    at the first that fails, [mem] those of the handlers, [malloc] the memory for
    a new group; [stack] and [stack_ann] are what local variables hold before
    they are written. *)
Section announce.
Context {Sod : Sodium} {Q : Qsort} (alloc : bool) (mem : Announce_Alloc) (malloc : option addr) (stack : bytes)
  (stack_ann : GC_Announce).

(** ** Requests *)

Definition create_announce_request (rng : Random) (max_packet_length : Z)
    (dest_client_id public_key secret_key ping_id client_id data_public_key : bytes) (sendback_data : Z) :
    option bytes * Random :=
  if max_packet_length <? ONION_ANNOUNCE_REQUEST_MIN_SIZE then (None, rng)
  else
    let plain := ping_id ++ client_id ++ data_public_key ++ le_bytes 8 sendback_data in
    let '(nonce, rng) := random_nonce rng in
    let '(len, enc) := encrypt_data alloc stack dest_client_id secret_key nonce plain ONION_MINIMAL_SIZE in
    if negb (u32 (u32 len + 1 + CRYPTO_NONCE_SIZE + CRYPTO_PUBLIC_KEY_SIZE) =? ONION_ANNOUNCE_REQUEST_MIN_SIZE)
    then (None, rng)
    else (Some ([NET_PACKET_ANNOUNCE_REQUEST_OLD] ++ nonce ++ public_key ++ enc), rng).

Definition create_data_request (rng : Random) (max_packet_length : Z)
    (public_key encrypt_public_key nonce data : bytes) (length : Z) : option bytes * Random :=
  if max_packet_length <? DATA_REQUEST_MIN_SIZE + length then (None, rng)
  else if ONION_MAX_DATA_SIZE <? DATA_REQUEST_MIN_SIZE + length then (None, rng)
  else
    let '(random_public_key, random_secret_key, rng) := crypto_new_keypair rng in
    let '(len, enc) := encrypt_data alloc stack encrypt_public_key random_secret_key nonce data length in
    if negb (1 + CRYPTO_PUBLIC_KEY_SIZE + CRYPTO_NONCE_SIZE + CRYPTO_PUBLIC_KEY_SIZE + len =? DATA_REQUEST_MIN_SIZE + length)
    then (None, rng)
    else (Some ([NET_PACKET_ONION_DATA_REQUEST] ++ public_key ++ nonce ++ random_public_key ++ enc), rng).

(** Sending a packet along a path, the common end of the two functions below. *)
Definition send_along (net : Networking_Core) (rng : Random) (path : Onion_Path) (dest : IP_Port) (request : bytes) :
    Z * Networking_Core * Random :=
  let '(packet, rng) := create_onion_packet alloc rng ONION_MAX_PACKET_SIZE path dest request (zlen request) in
  match packet with
  | None => (-1, net, rng)
  | Some packet =>
      let '(res, net) := sendpacket net (ip_port1 path) packet in
      (if negb (res =? zlen packet) then -1 else 0, net, rng)
  end.

Definition send_announce_request (net : Networking_Core) (rng : Random) (path : Onion_Path) (dest : Node_format)
    (public_key secret_key ping_id client_id data_public_key : bytes) (sendback_data : Z) :
    Z * Networking_Core * Random :=
  let '(request, rng) := create_announce_request rng ONION_ANNOUNCE_REQUEST_MIN_SIZE (nf_public_key dest) public_key
                           secret_key ping_id client_id data_public_key sendback_data in
  match request with
  | None => (-1, net, rng)
  | Some request => send_along net rng path (nf_ip_port dest) request
  end.

Definition send_data_request (net : Networking_Core) (rng : Random) (path : Onion_Path) (dest : IP_Port)
    (public_key encrypt_public_key nonce data : bytes) (length : Z) : Z * Networking_Core * Random :=
  let '(request, rng) := create_data_request rng ONION_MAX_DATA_SIZE public_key encrypt_public_key nonce data length in
  match request with
  | None => (-1, net, rng)
  | Some request => send_along net rng path dest request
  end.

(** ** Stored announcements *)

Definition entry_timed_out (mono_time : Mono_Time) (e : Onion_Announce_Entry) : bool :=
  mono_time_is_timeout mono_time (oe_announce_time e) ONION_ANNOUNCE_TIMEOUT.

Definition in_entries (o : Onion_Announce) (public_key : bytes) : option nat :=
  index_of (λ e, negb (entry_timed_out (oa_mono_time o) e) && pk_equal (oe_public_key e) public_key) (oa_entries o).

Definition cmp_entry (mono_time : Mono_Time) (cmp_public_key : bytes) (entry1 entry2 : Onion_Announce_Entry) : Z :=
  let t1 := entry_timed_out mono_time entry1 in
  let t2 := entry_timed_out mono_time entry2 in
  if t1 && t2 then 0
  else if t1 then -1
  else if t2 then 1
  else
    let closest := id_closest cmp_public_key (oe_public_key entry1) (oe_public_key entry2) in
    if closest =? 1 then 1 else if closest =? 2 then -1 else 0.

Definition sort_onion_announce_list (alloc : bool) (lst : list Onion_Announce_Entry) (mono_time : Mono_Time)
    (comp_public_key : bytes) : list Onion_Announce_Entry :=
  if negb alloc then lst else qsort (cmp_entry mono_time comp_public_key) lst.

(** The loop of [add_to_entries]: the last entry that timed out. *)
Fixpoint last_timed_out (mono_time : Mono_Time) (i : nat) (lst : list Onion_Announce_Entry) (pos : option nat) : option nat :=
  match lst with
  | [] => pos
  | e :: lst' => last_timed_out mono_time (S i) lst' (if entry_timed_out mono_time e then Some i else pos)
  end.

(** Where [add_to_entries] stores an announcement. *)
Definition entry_position (o : Onion_Announce) (public_key : bytes) : option nat :=
  match in_entries o public_key with
  | Some pos => Some pos
  | None =>
      match last_timed_out (oa_mono_time o) 0 (oa_entries o) None with
      | Some pos => Some pos
      | None =>
          let first := default empty_onion_entry (oa_entries o !! 0%nat) in
          if id_closest (dht_self_public_key (oa_dht o)) public_key (oe_public_key first) =? 1 then Some 0%nat else None
      end
  end.

Definition add_to_entries (alloc : bool) (ret_ip_port : IP_Port) (public_key data_public_key ret : bytes) : OA (option nat) := λ o,
  match entry_position o public_key with
  | None => (None, o)
  | Some pos =>
      let e := mkEntry public_key ret_ip_port (slice 0 ONION_RETURN_3 ret) data_public_key
                 (mono_time_get (oa_mono_time o)) in
      let o := o <| oa_entries := sort_onion_announce_list alloc (<[pos := e]> (oa_entries o)) (oa_mono_time o)
                                    (dht_self_public_key (oa_dht o)) |> in
      (in_entries o public_key, o)
  end.

Definition make_announce_payload_helper (o : Onion_Announce) (ping_id : bytes) (index : option nat)
    (packet_public_key data_public_key : bytes) : bytes :=
  match index with
  | None => [0] ++ ping_id
  | Some i =>
      let e := default empty_onion_entry (oa_entries o !! i) in
      if pk_equal (oe_public_key e) packet_public_key then
        if negb (pk_equal (oe_data_public_key e) data_public_key) then [0] ++ ping_id else [2] ++ ping_id
      else [1] ++ oe_data_public_key e
  end.

(** ** Handlers *)

(** What [handle_announce_request_common] sends once it has decided on the
    contents of the response, with the [offset] bytes of [response] encrypted.
    A successful encryption writes its result behind the first 33 bytes of the
    array [data], which has room for [ONION_ANNOUNCE_RESPONSE_MAX_SIZE]. *)
Definition send_announce_response (source : IP_Port) (response_packet_id : Z) (key nonce sendback response : bytes)
    (offset : Z) (ret : bytes) : OA Announce_Result :=
  let '(len, enc) := encrypt_data_symmetric (al_encrypt mem) key nonce response offset in
  if negb (len =? offset + CRYPTO_MAC_SIZE) then mret (Returned 1)
  else
    let size := 1 + ONION_ANNOUNCE_SENDBACK_DATA_LENGTH + CRYPTO_NONCE_SIZE + len in
    if ONION_ANNOUNCE_RESPONSE_MAX_SIZE <? size then mret (Overflow size)
    else
      let data := [response_packet_id] ++ sendback ++ nonce ++ enc in
      res ← on_dht (λ d, let '(res, net) := send_onion_response (dht_net d) source data size ret in
                         (res, d <| dht_net := net |>));
      mret (Returned (if res =? -1 then 1 else 0)).

(** The call of the callback: its result, with [None] when it failed outright. *)
Definition call_extra (cb : option pack_extra_data_cb) (num_nodes : Z) (plain : bytes) (plain_size response_size offset : Z) :
    OA (option (option bytes)) := λ o,
  match cb with
  | None => (Some (Some []), o)
  | Some f =>
      match f (oa_mono_time o) num_nodes plain plain_size response_size offset (oa_extra_data_object o) with
      | None => (None, o)
      | Some (r, object) => (Some r, o <| oa_extra_data_object := object |>)
      end
  end.

(** From the decision on: what the response holds. *)
Definition answer_announce (source : IP_Port) (packet : bytes) (length response_packet_id : Z) (want_node_count : bool)
    (max_extra_size : Z) (cb : option pack_extra_data_cb) (key plain ping_id_data : bytes) (index : option nat) :
    OA Announce_Result :=
  '(nodes_list, num_nodes) ← on_dht (m_get_close_nodes (slice ONION_PING_ID_SIZE CRYPTO_PUBLIC_KEY_SIZE plain) TOX_AF_UNSPEC
                                       (ip_is_lan (ipp_ip source)) false);
  if negb (num_nodes <=? 255) then mret Asserted
  else
    nonce ← on_dht (draw random_nonce);
    o ← get (λ o, o);
    let nodes_offset := 1 + ONION_PING_ID_SIZE + (if want_node_count then 1 else 0) in
    let response_size := u16 (nodes_offset + MAX_SENT_NODES * PACKED_NODE_SIZE_IP6 + max_extra_size) in
    if negb (al_response mem) then mret (Returned 1)
    else
      let ping_id := generate_timed_auth [] (oa_mono_time o) PING_ID_TIMEOUT (oa_hmac_key o) (Some ping_id_data)
                       (CRYPTO_PUBLIC_KEY_SIZE + SIZEOF_IP_PORT) in
      let payload := make_announce_payload_helper o ping_id index (slice (1 + CRYPTO_NONCE_SIZE) CRYPTO_PUBLIC_KEY_SIZE packet)
                       (slice (ONION_PING_ID_SIZE + CRYPTO_PUBLIC_KEY_SIZE) CRYPTO_PUBLIC_KEY_SIZE plain) in
      let packed := if negb (num_nodes =? 0) then pack_nodes (SIZEOF_NODE_FORMAT * MAX_SENT_NODES) nodes_list num_nodes
                    else Some [] in
      match packed with
      | None => mret (Returned 1)
      | Some nodes =>
          if negb (num_nodes =? 0) && (zlen nodes <=? 0) then mret (Returned 1)
          else
            let offset := u16 (nodes_offset + zlen nodes) in
            extra ← call_extra cb num_nodes (drop (Z.to_nat ONION_MINIMAL_SIZE) plain)
                      (length - ANNOUNCE_REQUEST_MIN_SIZE_RECV) response_size offset;
            match extra with
            | None => mret CallbackFault
            | Some None => mret (Returned 1)
            | Some (Some d) =>
                send_announce_response source response_packet_id key nonce
                  (slice (ONION_PING_ID_SIZE + CRYPTO_PUBLIC_KEY_SIZE + CRYPTO_PUBLIC_KEY_SIZE)
                     ONION_ANNOUNCE_SENDBACK_DATA_LENGTH plain)
                  (payload ++ (if want_node_count then [u8 num_nodes] else []) ++ nodes ++ d)
                  (u16 (offset + zlen d)) (slice (length - ONION_RETURN_3) ONION_RETURN_3 packet)
            end
      end.

Definition handle_announce_request_common (source : IP_Port) (packet : bytes) (length response_packet_id plain_size : Z)
    (want_node_count : bool) (max_extra_size : Z) (cb : option pack_extra_data_cb) : OA Announce_Result :=
  let packet_public_key := slice (1 + CRYPTO_NONCE_SIZE) CRYPTO_PUBLIC_KEY_SIZE packet in
  shared_key ← oa_lookup packet_public_key;
  match shared_key with
  | None => mret (Returned 1)
  | Some key =>
      if negb (al_plain mem) then mret (Returned 1)
      else
        let '(decrypted_len, plain) :=
          decrypt_data_symmetric (al_decrypt mem) key (slice 1 CRYPTO_NONCE_SIZE packet)
            (drop (Z.to_nat (1 + CRYPTO_NONCE_SIZE + CRYPTO_PUBLIC_KEY_SIZE)) packet) (plain_size + CRYPTO_MAC_SIZE) in
        if negb (u32 decrypted_len =? plain_size) then mret (Returned 1)
        else
          let ping_id_data := packet_public_key ++ ip_port_memory source in
          let data_public_key := slice (ONION_PING_ID_SIZE + CRYPTO_PUBLIC_KEY_SIZE) CRYPTO_PUBLIC_KEY_SIZE plain in
          o ← get (λ o, o);
          index ← (if check_timed_auth [] (oa_mono_time o) PING_ID_TIMEOUT (oa_hmac_key o) (Some ping_id_data)
                        (CRYPTO_PUBLIC_KEY_SIZE + SIZEOF_IP_PORT) (slice 0 ONION_PING_ID_SIZE plain)
                   then add_to_entries (al_sort mem) source packet_public_key data_public_key
                          (slice (length - ONION_RETURN_3) ONION_RETURN_3 packet)
                   else get (λ o, in_entries o (slice ONION_PING_ID_SIZE CRYPTO_PUBLIC_KEY_SIZE plain)));
          answer_announce source packet length response_packet_id want_node_count max_extra_size cb key plain ping_id_data index
  end.

Definition handle_gca_announce_request (source : IP_Port) (packet : bytes) (length : Z) : OA Announce_Result :=
  if (ANNOUNCE_REQUEST_MAX_SIZE_RECV <? length) || (length <=? ANNOUNCE_REQUEST_MIN_SIZE_RECV) then mret (Returned 1)
  else
    cb ← get oa_extra_data_callback;
    max_size ← get oa_extra_data_max_size;
    match cb with
    | None => mret (Returned 1)
    | Some _ =>
        handle_announce_request_common source packet length NET_PACKET_ANNOUNCE_RESPONSE
          (ONION_MINIMAL_SIZE + length - ANNOUNCE_REQUEST_MIN_SIZE_RECV) true max_size cb
    end.

Definition handle_announce_request (source : IP_Port) (packet : bytes) (length : Z) : OA Announce_Result :=
  if negb (length =? ANNOUNCE_REQUEST_MIN_SIZE_RECV) then handle_gca_announce_request source packet length
  else
    handle_announce_request_common source packet length NET_PACKET_ANNOUNCE_RESPONSE
      (ONION_PING_ID_SIZE + CRYPTO_PUBLIC_KEY_SIZE * 2 + ONION_ANNOUNCE_SENDBACK_DATA_LENGTH) true 0 None.

Definition handle_announce_request_old (source : IP_Port) (packet : bytes) (length : Z) : OA Announce_Result :=
  if negb (length =? ANNOUNCE_REQUEST_SIZE_RECV) then mret (Returned 1)
  else
    handle_announce_request_common source packet length NET_PACKET_ANNOUNCE_RESPONSE_OLD
      (ONION_PING_ID_SIZE + CRYPTO_PUBLIC_KEY_SIZE * 2 + ONION_ANNOUNCE_SENDBACK_DATA_LENGTH) false 0 None.

Definition handle_data_request (source : IP_Port) (packet : bytes) (length : Z) : OA Z :=
  if length <=? DATA_REQUEST_MIN_SIZE_RECV then mret 1
  else if ONION_MAX_PACKET_SIZE <? length then mret 1
  else
    o ← get (λ o, o);
    match in_entries o (slice 1 CRYPTO_PUBLIC_KEY_SIZE packet) with
    | None => mret 1
    | Some index =>
        let e := default empty_onion_entry (oa_entries o !! index) in
        let data := [NET_PACKET_ONION_DATA_RESPONSE] ++
                    slice (1 + CRYPTO_PUBLIC_KEY_SIZE) (length - (1 + CRYPTO_PUBLIC_KEY_SIZE + ONION_RETURN_3)) packet in
        res ← on_dht (λ d, let '(res, net) := send_onion_response (dht_net d) (oe_ret_ip_port e) data
                             (length - (CRYPTO_PUBLIC_KEY_SIZE + ONION_RETURN_3)) (oe_ret e) in
                           (res, d <| dht_net := net |>));
        mret (if res =? -1 then 1 else 0)
    end.

(** ** Group announcements as extra data *)

Definition pack_group_announces : pack_extra_data_cb := λ mono_time num_nodes plain plain_size response_size offset g,
  match gca_unpack_public_announce plain plain_size stack_ann with
  | None => Some (None, g)
  | Some (_, public_announce) =>
      '(g, new_announce) ← gca_add_announce malloc mono_time g public_announce;
      match new_announce with
      | None => Some (None, g)
      | Some (a, index) =>
          n ← gca_heap g !! a;
          let peer := aget (mkPeerAnnounce empty_announce 0) (as_peer_announces n) index in
          anns ← gca_get_announces g GCA_MAX_SENT_ANNOUNCES (chat_public_key public_announce)
                   (ann_peer_public_key (base_announce peer));
          match anns with
          | None => Some (None, g)
          | Some l => Some (gca_pack_announces_list (u16 (response_size - offset)) l, g)
          end
      end
  end.

Definition gca_onion_init (group_announce : GC_Announces_List) : OA unit :=
  onion_announce_extra_data_callback (GCA_MAX_SENT_ANNOUNCES * SIZEOF_GC_ANNOUNCE) pack_group_announces group_announce.

(** The outer option is the write outside the array [plain]. *)
Definition create_gca_announce_request (rng : Random) (max_packet_length : Z)
    (dest_client_id public_key secret_key ping_id client_id data_public_key : bytes) (sendback_data : Z)
    (gc_data : bytes) (gc_data_length : Z) : option (option bytes) * Random :=
  if (max_packet_length <? ONION_ANNOUNCE_REQUEST_MAX_SIZE) || (gc_data_length =? 0) then (Some None, rng)
  else if GCA_ANNOUNCE_MAX_SIZE <? gc_data_length then (None, rng)
  else
    let plain := ping_id ++ client_id ++ data_public_key ++ le_bytes 8 sendback_data ++ slice 0 gc_data_length gc_data in
    let '(nonce, rng) := random_nonce rng in
    let '(len, enc) := encrypt_data alloc stack dest_client_id secret_key nonce plain (ONION_MINIMAL_SIZE + gc_data_length) in
    let full_length := u32 (u32 len + 1 + CRYPTO_NONCE_SIZE + CRYPTO_PUBLIC_KEY_SIZE) in
    if negb (full_length =? ONION_ANNOUNCE_REQUEST_MIN_SIZE + gc_data_length) then (Some None, rng)
    else (Some (Some ([NET_PACKET_ANNOUNCE_REQUEST] ++ nonce ++ public_key ++ enc)), rng).

(** ** Creation *)

Definition new_hmac_key (r : Random) : bytes * Random := random_bytes r CRYPTO_HMAC_KEY_SIZE.

Definition new_onion_announce (d : DHT) : option Onion_Announce :=
  if negb alloc then None
  else
    let '(key, rng) := new_hmac_key (dht_rng d) in
    let d := d <| dht_rng := rng |> in
    match shared_key_cache_new alloc alloc (dht_mono_time d) (dht_self_secret_key d) KEYS_TIMEOUT MAX_KEYS_PER_SLOT with
    | None => None
    | Some c => Some (mkOnionAnnounce d (replicate (Z.to_nat ONION_ANNOUNCE_MAX_ENTRIES) empty_onion_entry) key c 0 None
                        new_gca_list)
    end.
End announce.
