(* ===== verification/OnionTable.v ===== *)
(** * OnionTable: which announcements a node keeps

    The table of [toxcore/onion_announce.c] keeps the announcements nearest to
    the node's own key: it is sorted after every change, and what is in it
    cannot get out of order by the passing of time. *)
From stdpp Require Import sorting.
From S2P Require Import Prelude MonoTime CryptoCore SharedKeyCache TimedAuth Network LanDiscovery World DhtDistance DhtPackets.
From S2P Require Import DhtLists Dht DhtSound DhtProtocol Onion GroupAnnounce OnionAnnounce.

(** ** Sorted lists *)

Lemma strongly_sorted_lookup {A} (R : A → A → Prop) l i j x y :
  StronglySorted R l → (i < j)%nat → l !! i = Some x → l !! j = Some y → R x y.
Proof.
  intros Hs. revert i j. induction Hs as [|a l Hs IH Ha]; intros i j Hij Hx Hy; [by rewrite lookup_nil in Hx|].
  destruct j as [|j]; [lia|]. cbn in Hy. destruct i as [|i]; cbn in Hx.
  - simplify_eq. rewrite list.Forall_forall in Ha. apply Ha. by eapply list_elem_of_lookup_2.
  - apply (IH i j); [lia|done|done].
Qed.

Lemma nodup_fmap_inj {A B} (f : A → B) l x y : NoDup (f <$> l) → x ∈ l → y ∈ l → f x = f y → x = y.
Proof.
  induction l as [|a l IH]; [by intros _ ?%elem_of_nil|]. cbn. intros [Ha Hn]%list.NoDup_cons.
  intros [->|Hx]%elem_of_cons [->|Hy]%elem_of_cons E; [done| | |by apply IH]; exfalso; apply Ha.
  - rewrite E. by apply list_elem_of_fmap_2.
  - rewrite <- E. by apply list_elem_of_fmap_2.
Qed.

(** ** The table *)

Abbreviation live t e := (entry_timed_out t e = false).
Abbreviation clock t := (mono_time_get t).

Definition live_keys (t : Mono_Time) (l : list Onion_Announce_Entry) : list bytes :=
  oe_public_key <$> filter (λ e, live t e) l.

(** The order of [cmp_entry]: dead entries first, then the farthest. *)
Definition entry_badness (t : Mono_Time) (self : bytes) (e : Onion_Announce_Entry) : Z :=
  if entry_timed_out t e then 2 ^ 256 else distance self (oe_public_key e).

Record table_ok (t : Mono_Time) (self : bytes) (l : list Onion_Announce_Entry) : Prop := {
  tb_len : zlen l = ONION_ANNOUNCE_MAX_ENTRIES;
  tb_keys : Forall (λ e, key_ok (oe_public_key e)) l;
  tb_times : Forall (λ e, 0 <= oe_announce_time e <= clock t) l;
  tb_nodup : NoDup (live_keys t l);
  tb_sorted : ∀ i j e f, (i < j)%nat → l !! i = Some e → l !! j = Some f → live t e → live t f →
    distance self (oe_public_key f) <= distance self (oe_public_key e)
}.

Record oa_ok (o : Onion_Announce) : Prop := {
  oa_self : key_ok (dht_self_public_key (oa_dht o));
  oa_clock : ONION_ANNOUNCE_TIMEOUT <= clock (oa_mono_time o) < 2 ^ 63;
  oa_table : table_ok (oa_mono_time o) (dht_self_public_key (oa_dht o)) (oa_entries o)
}.

Lemma cmp_entry_spec t self e f : key_ok self → key_ok (oe_public_key e) → key_ok (oe_public_key f) →
  cmp_entry t self e f = Z.sgn (entry_badness t self f - entry_badness t self e).
Proof.
  intros K Ke Kf. unfold cmp_entry, entry_badness. pose proof (distance_256 _ _ K Ke). pose proof (distance_256 _ _ K Kf).
  destruct (entry_timed_out t e), (entry_timed_out t f); cbn [andb]; try lia.
  destruct (id_closest_cases self (oe_public_key e) (oe_public_key f) K Ke Kf) as [[-> ?]|[[-> ?]|(-> & _ & ?)]];
    cbn [Z.eqb Pos.eqb]; lia.
Qed.

Lemma live_now t e : oe_announce_time e = clock t → 0 <= clock t < 2 ^ 63 → live t e.
Proof.
  intros E H. unfold entry_timed_out. apply is_timeout_false; unfold ONION_ANNOUNCE_TIMEOUT in *; lia.
Qed.

(** As time passes entries only die. *)
Lemma live_before t t' e : 0 <= oe_announce_time e <= clock t → clock t <= clock t' < 2 ^ 63 → live t' e → live t e.
Proof.
  intros He Ht. unfold entry_timed_out, ONION_ANNOUNCE_TIMEOUT. rewrite !is_timeout_false by lia. lia.
Qed.

Lemma live_keys_perm t l k : l ≡ₚ k → live_keys t l ≡ₚ live_keys t k.
Proof. intros H. unfold live_keys. by rewrite H. Qed.

Lemma live_keys_elem t l k : k ∈ live_keys t l ↔ ∃ e, e ∈ l ∧ live t e ∧ oe_public_key e = k.
Proof.
  unfold live_keys. rewrite list_elem_of_fmap. split.
  - intros (e & -> & [? ?]%list_elem_of_filter). by exists e.
  - intros (e & ? & ? & <-). exists e. split; [done|]. by apply list_elem_of_filter.
Qed.

Lemma table_ok_later t t' self l :
  table_ok t self l → clock t <= clock t' < 2 ^ 63 → table_ok t' self l.
Proof.
  intros [Hl Hk Ht Hn Hs] Hc. pose proof Ht as Ht0. rewrite list.Forall_forall in Ht0. split; [done|done| | |].
  - eapply list.Forall_impl; [done|]. cbn. intros. lia.
  - clear Hl Hk Hs. unfold live_keys in *. induction l as [|e l IH]; [constructor|]. rewrite filter_cons in *.
    apply list.Forall_cons in Ht as [He Ht].
    assert (NoDup (oe_public_key <$> filter (λ e, live t' e) l)) as Hl.
    { apply IH; [done| |by intros; apply Ht0; right]. destruct (decide (live t e)); [|done]. by apply list.NoDup_cons in Hn as []. }
    destruct (decide (live t' e)) as [Hle|]; [|done]. pose proof (live_before _ _ _ He Hc Hle) as Hlt.
    rewrite decide_True in Hn by done. cbn in *. apply list.NoDup_cons in Hn as [Hn1 Hn2].
    apply list.NoDup_cons. split; [|done]. intros (f & E & [Hf1 Hf2]%list_elem_of_filter)%list_elem_of_fmap. apply Hn1.
    rewrite E. apply list_elem_of_fmap_2, list_elem_of_filter. split; [|done].
    apply (live_before t t'); [|done|done]. apply Ht0. by right.
  - intros i j e f Hij He Hf Le Lf. apply (Hs i j e f); auto.
    + apply (live_before t t'); [|done|done]. apply Ht0. by eapply list_elem_of_lookup_2.
    + apply (live_before t t'); [|done|done]. apply Ht0. by eapply list_elem_of_lookup_2.
Qed.

(** ** Where an announcement is stored *)

Lemma last_timed_out_Some t l : ∀ i pos p, last_timed_out t i l pos = Some p →
  pos = Some p ∨ ∃ l1 v l2, l = l1 ++ v :: l2 ∧ (i + length l1)%nat = p ∧ entry_timed_out t v = true.
Proof.
  induction l as [|e l IH]; intros i pos p; cbn; [auto|]. intros [H|(l1 & v & l2 & -> & <- & Hv)]%IH.
  - destruct (entry_timed_out t e) eqn:E; [|auto]. simplify_eq. right. exists [], e, l.
    split; [done|]. split; [cbn; lia|done].
  - right. exists (e :: l1), v, l2. split; [done|]. split; [cbn; lia|done].
Qed.

Lemma last_timed_out_None t l : ∀ i pos, last_timed_out t i l pos = None → pos = None ∧ Forall (λ e, live t e) l.
Proof.
  induction l as [|e l IH]; intros i pos; cbn; [auto|]. intros [H Hl]%IH.
  destruct (entry_timed_out t e) eqn:E; [done|]. split; [done|]. by constructor.
Qed.

Lemma pk_equal_spec a b : pk_equal a b = true ↔ a = b.
Proof. unfold pk_equal, bytes_eqb. by rewrite bool_decide_eq_true. Qed.

Lemma in_entries_Some o pk i : in_entries o pk = Some i →
  ∃ l1 v l2, oa_entries o = l1 ++ v :: l2 ∧ length l1 = i ∧ live (oa_mono_time o) v ∧ oe_public_key v = pk.
Proof.
  intros (l1 & v & l2 & E & Hi & Hv & _)%index_of_Some. exists l1, v, l2. split; [done|]. split; [done|].
  apply andb_true_iff in Hv as [H1 H2]. apply negb_true_iff in H1. by apply pk_equal_spec in H2.
Qed.

Lemma in_entries_None o pk : in_entries o pk = None ↔ pk ∉ live_keys (oa_mono_time o) (oa_entries o).
Proof.
  unfold in_entries. rewrite index_of_None, list.Forall_forall, live_keys_elem. split.
  - intros H (e & He & Hl & E). specialize (H e He). rewrite Hl in H. apply pk_equal_spec in E. by rewrite E in H.
  - intros H e He. destruct (entry_timed_out _ e) eqn:Hl; [done|]. cbn. destruct (pk_equal _ _) eqn:E; [|done].
    apply pk_equal_spec in E. exfalso. apply H. by exists e.
Qed.

(** The entry that an announcement under [pk] may replace. *)
Definition replaceable (o : Onion_Announce) (pk : bytes) (victim : Onion_Announce_Entry) : Prop :=
  let t := oa_mono_time o in
  let self := dht_self_public_key (oa_dht o) in
  oe_public_key victim = pk ∧ live t victim ∨
  pk ∉ live_keys t (oa_entries o) ∧
  (entry_timed_out t victim = true ∨
   Forall (λ e, live t e ∧ distance self (oe_public_key e) <= distance self (oe_public_key victim)) (oa_entries o) ∧
   distance self pk < distance self (oe_public_key victim)).

Lemma first_is_farthest t self e l :
  table_ok t self (e :: l) → Forall (λ e, live t e) (e :: l) →
  Forall (λ f, distance self (oe_public_key f) <= distance self (oe_public_key e)) (e :: l).
Proof.
  intros H Hl. rewrite list.Forall_forall in Hl. rewrite list.Forall_forall. intros f [->|Hf]%elem_of_cons; [lia|].
  apply list_elem_of_lookup in Hf as [j Hj]. apply (tb_sorted _ _ _ H 0%nat (S j)); [lia|done|done|apply Hl; left|].
  apply Hl. right. by eapply list_elem_of_lookup_2.
Qed.

Lemma table_nonempty o : oa_ok o → ∃ e l, oa_entries o = e :: l.
Proof.
  intros H. pose proof (tb_len _ _ _ (oa_table _ H)) as Hl. destruct (oa_entries o) as [|e l]; [done|]. eauto.
Qed.

Lemma entry_position_Some o pk pos : oa_ok o → key_ok pk → entry_position o pk = Some pos →
  ∃ l1 victim l2, oa_entries o = l1 ++ victim :: l2 ∧ length l1 = pos ∧ replaceable o pk victim.
Proof.
  intros Ho Kpk. unfold entry_position, replaceable.
  destruct (in_entries o pk) as [i|] eqn:Ei.
  { intros [= <-]. apply in_entries_Some in Ei as (l1 & v & l2 & -> & Hi & Hv & E). exists l1, v, l2. auto. }
  apply in_entries_None in Ei.
  destruct (last_timed_out _ 0 _ None) as [i|] eqn:El.
  { intros [= <-]. apply last_timed_out_Some in El as [|(l1 & v & l2 & E & Hi & Hv)]; [done|]. exists l1, v, l2. split; [done|]. split; [done|]. auto. }
  apply last_timed_out_None in El as [_ Hlive]. destruct (table_nonempty o Ho) as (e & l & E). rewrite E in *. change (default empty_onion_entry ((e :: l) !! 0%nat)) with e.
  pose proof (oa_table _ Ho) as Ht. rewrite E in Ht. pose proof (first_is_farthest _ _ _ _ Ht Hlive) as Hfar.
  pose proof (tb_keys _ _ _ Ht) as [Ke _]%list.Forall_cons.
  destruct (id_closest_cases (dht_self_public_key (oa_dht o)) pk (oe_public_key e) (oa_self _ Ho) Kpk Ke)
    as [[-> Hd]|[[-> Hd]|(-> & _ & Hd)]]; cbn [Z.eqb Pos.eqb]; try done.
  intros [= <-]. exists [], e, l. split; [done|]. split; [done|]. right. split; [done|]. right. split; [|done].
  rewrite list.Forall_forall in *. intros f Hf. split; [by apply Hlive|by apply Hfar].
Qed.

Lemma entry_position_None o pk : oa_ok o → key_ok pk → entry_position o pk = None →
  pk ∉ live_keys (oa_mono_time o) (oa_entries o) ∧
  Forall (λ e, live (oa_mono_time o) e ∧
    distance (dht_self_public_key (oa_dht o)) (oe_public_key e) <= distance (dht_self_public_key (oa_dht o)) pk) (oa_entries o).
Proof.
  intros Ho Kpk. unfold entry_position. destruct (in_entries o pk) as [i|] eqn:Ei; [done|].
  apply in_entries_None in Ei. destruct (last_timed_out _ 0 _ None) as [i|] eqn:El; [done|].
  apply last_timed_out_None in El as [_ Hlive]. destruct (table_nonempty o Ho) as (e & l & E). rewrite E in *. change (default empty_onion_entry ((e :: l) !! 0%nat)) with e.
  pose proof (oa_table _ Ho) as Ht. rewrite E in Ht. pose proof (first_is_farthest _ _ _ _ Ht Hlive) as Hfar.
  pose proof (tb_keys _ _ _ Ht) as [Ke _]%list.Forall_cons.
  destruct (id_closest_cases (dht_self_public_key (oa_dht o)) pk (oe_public_key e) (oa_self _ Ho) Kpk Ke)
    as [[-> Hd]|[[-> Hd]|(-> & _ & Hd)]]; cbn [Z.eqb Pos.eqb]; try done; intros _; (split; [done|]);
    rewrite list.Forall_forall in *; intros f Hf; (split; [by apply Hlive|]; specialize (Hfar f Hf); cbn in Hfar; lia).
Qed.

(** ** Storing an announcement *)

Section table.
Context {Sod : Sodium} {Q : Qsort} {QL : QsortLaws Q}.

(** The table after the entry [e], made now, took the place of [victim]. *)
Lemma table_ok_sorted t self e victim rest l s :
  key_ok self → 0 <= clock t < 2 ^ 63 → table_ok t self l → l ≡ₚ victim :: rest →
  key_ok (oe_public_key e) → oe_announce_time e = clock t → oe_public_key e ∉ live_keys t rest →
  s ≡ₚ e :: rest → StronglySorted (λ x y, entry_badness t self y <= entry_badness t self x) s → table_ok t self s.
Proof using.
  intros K Hc [Hl Hk Ht Hn Hs] Hp Ke He Hnew Hps Hss. rewrite Hp in Hk, Ht.
  apply list.Forall_cons in Hk as [_ Hk], Ht as [_ Ht]. split.
  - unfold zlen in *. rewrite Hps. rewrite Hp in Hl. done.
  - rewrite Hps. by constructor.
  - rewrite Hps. constructor; [lia|done].
  - rewrite (live_keys_perm _ _ _ Hps). unfold live_keys in *. rewrite Hp in Hn. rewrite !filter_cons in *.
    rewrite decide_True by (apply live_now; [done|lia]). cbn. apply list.NoDup_cons. split; [done|].
    destruct (decide (live t victim)); [|done]. by apply list.NoDup_cons in Hn as [].
  - intros i j x y Hij Hx Hy Lx Ly. pose proof (strongly_sorted_lookup _ _ _ _ _ _ Hss Hij Hx Hy) as H.
    unfold entry_badness in H. by rewrite Lx, Ly in H.
Qed.

Lemma insert_perm {A} (l1 l2 : list A) v e : <[length l1 := e]> (l1 ++ v :: l2) ≡ₚ e :: l1 ++ l2.
Proof using. rewrite insert_app_r_alt, Nat.sub_diag by lia. cbn. symmetry. apply Permutation_middle. Qed.

Lemma add_to_entries_ok o ip pk dpk ret : oa_ok o → key_ok pk →
  let new := mkEntry pk ip (slice 0 ONION_RETURN_3 ret) dpk (clock (oa_mono_time o)) in
  match add_to_entries true ip pk dpk ret o with
  | (Some i, o') => o' = o <| oa_entries := oa_entries o' |> ∧ oa_ok o' ∧ oa_entries o' !! i = Some new ∧
      ∃ victim rest, oa_entries o ≡ₚ victim :: rest ∧ oa_entries o' ≡ₚ new :: rest ∧ replaceable o pk victim
  | (None, o') => o' = o ∧ entry_position o pk = None ∧ pk ∉ live_keys (oa_mono_time o) (oa_entries o) ∧
      Forall (λ e, live (oa_mono_time o) e ∧
        distance (dht_self_public_key (oa_dht o)) (oe_public_key e) <= distance (dht_self_public_key (oa_dht o)) pk) (oa_entries o)
  end.
Proof using QL.
  intros Ho Kpk new. unfold add_to_entries. destruct (entry_position o pk) as [pos|] eqn:Ep.
  2: { split; [done|]. split; [done|]. by apply entry_position_None. }
  destruct (entry_position_Some _ _ _ Ho Kpk Ep) as (l1 & v & l2 & El & <- & Hv).
  fold new. set (t := oa_mono_time o) in *. set (self := dht_self_public_key (oa_dht o)) in *.
  set (s := sort_onion_announce_list true (<[length l1 := new]> (oa_entries o)) t self).
  pose proof (oa_table _ Ho) as Ht. fold t self in Ht. pose proof (oa_clock _ Ho) as Hc. fold t in Hc.
  assert (0 <= clock t < 2 ^ 63) as Hc' by (unfold ONION_ANNOUNCE_TIMEOUT in Hc; lia).
  assert (oa_entries o ≡ₚ v :: l1 ++ l2) as Hp by (rewrite El; symmetry; apply Permutation_middle).
  assert (<[length l1 := new]> (oa_entries o) ≡ₚ new :: l1 ++ l2) as Hi by (rewrite El; apply insert_perm).
  assert (s ≡ₚ new :: l1 ++ l2 ∧ StronglySorted (λ x y, entry_badness t self y <= entry_badness t self x) s) as [Hps Hss].
  { rewrite <- Hi. unfold s, sort_onion_announce_list. cbn [negb]. apply qsort_by. intros x y. rewrite Hi.
    pose proof (tb_keys _ _ _ Ht) as Hk. rewrite Hp in Hk. apply list.Forall_cons in Hk as [_ Hk].
    assert (Forall (λ e, key_ok (oe_public_key e)) (new :: l1 ++ l2)) as Hk' by by constructor.
    rewrite list.Forall_forall in Hk'. intros Hx Hy. by apply cmp_entry_spec; [apply Ho|apply Hk'|apply Hk']. }
  assert (pk ∉ live_keys t (l1 ++ l2)) as Hnew.
  { destruct Hv as [[Hvk Hvl]|[Hn _]].
    - pose proof (tb_nodup _ _ _ Ht) as Hnd. rewrite (live_keys_perm _ _ _ Hp) in Hnd. unfold live_keys in *.
      rewrite filter_cons, decide_True in Hnd by done. cbn in Hnd. apply list.NoDup_cons in Hnd as [Hnd _].
      by rewrite Hvk in Hnd.
    - fold t in Hn. rewrite (live_keys_perm _ _ _ Hp) in Hn. rewrite live_keys_elem in *. intros (e & He & HH). apply Hn.
      exists e. split; [by right|done]. }
  assert (table_ok t self s) as Hts.
  { eapply (table_ok_sorted t self new v (l1 ++ l2)); try done. apply Ho. }
  set (o' := o <| oa_entries := s |>).
  assert (live t new) as Hlnew by (apply live_now; [done|lia]).
  destruct (in_entries o' pk) as [i|] eqn:Ei.
  - split; [done|]. split; [by split; [apply Ho|apply Ho|]|]. split; [|by exists v, (l1 ++ l2)].
    apply in_entries_Some in Ei as (k1 & x & k2 & Ek & <- & Hx & Exk). change (oa_entries o') with s in *.
    change (oa_mono_time o') with t in Hx. rewrite Ek.
    assert (x = new) as ->; [|by apply list_lookup_middle].
    apply (nodup_fmap_inj oe_public_key (filter (λ e, live t e) s)).
    + apply Hts.
    + apply list_elem_of_filter. split; [done|]. rewrite Ek. apply elem_of_app. right. left.
    + apply list_elem_of_filter. split; [done|]. rewrite Hps. left.
    + done.
  - exfalso. apply in_entries_None in Ei. apply Ei. change (oa_entries o') with s. change (oa_mono_time o') with t.
    apply live_keys_elem. exists new. split; [rewrite Hps; left|done].
Qed.
End table.

(** ** What the handlers change *)

(** Drawing random numbers, sending packets and storing group announcements. *)
Definition quiet (o o' : Onion_Announce) : Prop := ∃ rng net object,
  o' = o <| oa_dht := (oa_dht o) <| dht_rng := rng |> <| dht_net := net |> |> <| oa_extra_data_object := object |>.

Definition quiet_m {A} (m : OA A) : Prop := ∀ o, quiet o (m o).2.

Lemma quiet_refl o : quiet o o.
Proof. exists (dht_rng (oa_dht o)), (dht_net (oa_dht o)), (oa_extra_data_object o). by destruct o as [[]]. Qed.

Lemma quiet_trans o1 o2 o3 : quiet o1 o2 → quiet o2 o3 → quiet o1 o3.
Proof. intros (r & n & c & ->) (r' & n' & c' & ->). by exists r', n', c'. Qed.

Lemma quiet_ret {A} (x : A) : quiet_m (mret x).
Proof. intros o. apply quiet_refl. Qed.

Lemma quiet_bind {A B} (m : OA A) (f : A → OA B) : quiet_m m → (∀ x, quiet_m (f x)) → quiet_m (m ≫= f).
Proof.
  intros Hm Hf o. unfold mbind, M_bind. specialize (Hm o). destruct (m o) as [x o1].
  eapply quiet_trans; [exact Hm|]. apply Hf.
Qed.

Lemma quiet_after {A B} (m : OA A) (f : A → OA B) o : (∀ x, quiet_m (f x)) → quiet (m o).2 ((m ≫= f) o).2.
Proof. intros Hf. unfold mbind, M_bind. destruct (m o) as [x o1]. apply Hf. Qed.

Lemma quiet_get {A} (f : Onion_Announce → A) : quiet_m (get f).
Proof. intros o. apply quiet_refl. Qed.

Lemma quiet_draw {A} (f : Random → A * Random) : quiet_m (on_dht (draw f)).
Proof.
  intros o. unfold on_dht, draw. destruct (f (dht_rng (oa_dht o))) as [x r].
  exists r, (dht_net (oa_dht o)), (oa_extra_data_object o). by destruct o as [[]].
Qed.

Lemma quiet_close pk f lan a : quiet_m (on_dht (m_get_close_nodes pk f lan a)).
Proof. intros o. unfold on_dht, m_get_close_nodes, get.
  exists (dht_rng (oa_dht o)), (dht_net (oa_dht o)), (oa_extra_data_object o). by destruct o as [[]]. Qed.

Lemma quiet_response source data len ret :
  quiet_m (on_dht (λ d, let '(res, net) := send_onion_response (dht_net d) source data len ret in (res, d <| dht_net := net |>))).
Proof.
  intros o. unfold on_dht. destruct send_onion_response as [r n].
  exists (dht_rng (oa_dht o)), n, (oa_extra_data_object o). by destruct o as [[]].
Qed.

Lemma quiet_extra cb n plain size rs off : quiet_m (call_extra cb n plain size rs off).
Proof.
  intros o. unfold call_extra. destruct cb as [f|]; [|apply quiet_refl]. destruct f as [[r g]|]; [|apply quiet_refl].
  exists (dht_rng (oa_dht o)), (dht_net (oa_dht o)), g. by destruct o as [[]].
Qed.

Ltac quiet_tac :=
  repeat first
    [ apply quiet_ret | apply quiet_get | apply quiet_draw | apply quiet_close | apply quiet_response | apply quiet_extra
    | apply quiet_bind; [|intros ?]
    | match goal with
      | |- quiet_m (if ?b then _ else _) => destruct b
      | |- quiet_m (match ?x with _ => _ end) => destruct x
      end ].

Section handlers.
Context {Sod : Sodium} {Law : SodiumLaws Sod} {Q : Qsort} {QL : QsortLaws Q}.

Lemma quiet_answer mem source packet len id want extra cb key plain pid index :
  quiet_m (answer_announce mem source packet len id want extra cb key plain pid index).
Proof using.
  unfold answer_announce, send_announce_response. quiet_tac.
Qed.

Lemma quiet_data source packet len : quiet_m (handle_data_request source packet len).
Proof using. unfold handle_data_request. quiet_tac. Qed.

Lemma decrypt_length alloc key nonce c len l m :
  decrypt_data_symmetric alloc key nonce c len = (l, m) → l = -1 ∨ alloc = true ∧ l = len - 16.
Proof using. destruct alloc; unfold decrypt_data_symmetric; repeat case_match; intros [= <- <-]; auto. Qed.

(** ** Who can announce *)

(** A request that carries a ping id this node makes for that key and address:
    the plain text it was opened to, and the announcement in it. *)
Definition authorised (o : Onion_Announce) (source : IP_Port) (packet : bytes) (key plain : bytes) (plain_size : Z) : Prop :=
  encrypt_precompute (slice 25 32 packet) (skc_self_secret_key (oa_shared_keys_recv o)) = Some key ∧
  decrypt_data_symmetric true key (slice 1 24 packet) (drop 57 packet) (plain_size + 16) = (plain_size, plain) ∧
  ∃ previous, slice 0 32 plain =
    crypto_hmac (oa_hmac_key o)
      (create_timed_auth_to_hash (oa_mono_time o) 300 previous (Some (slice 25 32 packet ++ ip_port_memory source)) 64 []).

Definition announced (sort : bool) (o : Onion_Announce) (source : IP_Port) (packet : bytes) (len : Z) (plain : bytes) : Onion_Announce :=
  (add_to_entries sort source (slice 25 32 packet) (slice 64 32 plain) (slice (len - ONION_RETURN_3) ONION_RETURN_3 packet) o).2.

Lemma common_effect mem o source packet len id plain_size want extra cb :
  cache_ok (oa_mono_time o) (dht_self_secret_key (oa_dht o)) (oa_shared_keys_recv o) → time_ok (oa_mono_time o) →
  bytes_ok packet → 0 <= plain_size < 2 ^ 16 →
  let o' := (handle_announce_request_common mem source packet len id plain_size want extra cb o).2 in
  ∃ c, cache_ok (oa_mono_time o) (dht_self_secret_key (oa_dht o)) c ∧
    (quiet (o <| oa_shared_keys_recv := c |>) o' ∨
     ∃ key plain, authorised o source packet key plain plain_size ∧
       quiet (announced (al_sort mem) (o <| oa_shared_keys_recv := c |>) source packet len plain) o').
Proof using Law.
  intros Hc Ht Hb Hps o'. pose proof (eq_refl o') as Eo. unfold o' at 2 in Eo. clearbody o'.
  unfold handle_announce_request_common in Eo. change (1 + CRYPTO_NONCE_SIZE) with 25 in Eo.
  change CRYPTO_PUBLIC_KEY_SIZE with 32 in Eo. set (pk := slice 25 32 packet) in *.
  pose proof (lookup_keeps _ _ _ pk Hc Ht (slice_bytes_ok _ _ _ Hb)) as Hl.
  unfold oa_lookup at 1 in Eo. unfold mbind at 1, M_bind at 1 in Eo.
  destruct (shared_key_cache_lookup _ pk) as [k c]. destruct Hl as [-> Hc']. exists c. split; [done|].
  set (o1 := o <| oa_shared_keys_recv := c |>) in *.
  destruct (encrypt_precompute pk (dht_self_secret_key (oa_dht o))) as [key|] eqn:Ek; [|left; subst o'; apply quiet_refl].
  destruct (al_plain mem); cbn [negb] in Eo; [|left; subst o'; apply quiet_refl]. change (Z.to_nat (25 + 32)) with 57%nat in Eo. change CRYPTO_NONCE_SIZE with 24 in Eo.
  change CRYPTO_MAC_SIZE with 16 in Eo.
  destruct (decrypt_data_symmetric _ _ _ _ _) as [l plain] eqn:Ed.
  destruct (u32 l =? plain_size) eqn:El; cbn [negb] in Eo; [|left; subst o'; apply quiet_refl].
  rewrite run_get in Eo. destruct (check_timed_auth _ _ _ _ _ _ _) eqn:Ec.
  - right. exists key, plain. split.
    + unfold authorised. destruct Hc as (_ & _ & ->). split; [done|]. split.
      * destruct (decrypt_length _ _ _ _ _ _ _ Ed) as [->|[Em ->]]; [change (u32 (-1)) with 4294967295 in El; lia|].
        rewrite Em in Ed. fold pk. rewrite Ed. f_equal. lia.
      * by apply check_timed_auth_iff in Ec.
    + subst o'. unfold announced. fold pk. change (ONION_PING_ID_SIZE + 32) with 64. apply quiet_after. intros i. apply quiet_answer.
  - left. subst o'. rewrite run_get. apply quiet_answer.
Qed.
End handlers.

(** ** Every state a node can get into *)

(** The handlers [new_onion_announce] registers. *)
Definition announce_packethandlers {Sod : Sodium} {Q : Qsort} (mem : Announce_Alloc) (id : Z) :
    option (IP_Port → bytes → Z → OA Announce_Result) :=
  if id =? NET_PACKET_ANNOUNCE_REQUEST then Some (handle_announce_request mem)
  else if id =? NET_PACKET_ANNOUNCE_REQUEST_OLD then Some (handle_announce_request_old mem)
  else if id =? NET_PACKET_ONION_DATA_REQUEST then
    Some (λ source packet length, res ← handle_data_request source packet length; mret (Returned res))
  else None.

(** What can happen to it: packets, the registration of a callback, and whatever
    the DHT node it belongs to does in the meantime.  The table is sorted in
    memory that is allocated for it, and this allocation succeeds; the others may
    fail. *)
Inductive announce_step {Sod : Sodium} {Q : Qsort} (o : Onion_Announce) : Onion_Announce → Prop :=
| announce_packet mem id handler source packet :
    al_sort mem = true → announce_packethandlers mem id = Some handler → packet_ok packet (zlen packet) →
    announce_step o (handler source packet (zlen packet) o).2
| announce_callback max_size cb object :
    announce_step o (onion_announce_extra_data_callback max_size cb object o).2
| announce_dht d : dht_wf d → dht_self_public_key d = dht_self_public_key (oa_dht o) →
    dht_self_secret_key d = dht_self_secret_key (oa_dht o) → clock (oa_mono_time o) <= clock (dht_mono_time d) →
    announce_step o (o <| oa_dht := d |>).

Definition announce_reachable {Sod : Sodium} {Q : Qsort} (o : Onion_Announce) : Prop :=
  ∃ d o0, dht_wf d ∧ new_onion_announce true d = Some o0 ∧ rtc announce_step o0 o.

Section reachable.
Context {Sod : Sodium} {Law : SodiumLaws Sod} {Q : Qsort} {QL : QsortLaws Q}.

Record node_inv (o : Onion_Announce) : Prop := {
  ni_dht : dht_wf (oa_dht o);
  ni_oa : oa_ok o;
  ni_cache : cache_ok (oa_mono_time o) (dht_self_secret_key (oa_dht o)) (oa_shared_keys_recv o)
}.

Lemma quiet_inv o o' : quiet o o' → node_inv o → node_inv o'.
Proof using.
  intros (rng & net & g & ->) [Hd Ho Hc]. split.
  - cbn. destruct Hd. by constructor.
  - destruct Ho. by split.
  - done.
Qed.

Lemma cache_inv o c : node_inv o → cache_ok (oa_mono_time o) (dht_self_secret_key (oa_dht o)) c →
  node_inv (o <| oa_shared_keys_recv := c |>).
Proof using. intros [Hd Ho _] Hc. split; [done| |done]. destruct Ho. by split. Qed.

Lemma announced_inv o source packet len plain : node_inv o → key_ok (slice 25 32 packet) →
  node_inv (announced true o source packet len plain).
Proof using QL.
  intros [Hd Ho Hc] Hk. unfold announced.
  pose proof (add_to_entries_ok o source _ (slice 64 32 plain) (slice (len - ONION_RETURN_3) ONION_RETURN_3 packet) Ho Hk) as H.
  destruct add_to_entries as [[i|] o']; cbn [snd].
  - destruct H as (E & Ho' & _). rewrite E. rewrite E in Ho'. by split.
  - destruct H as [-> _]. by split.
Qed.

(** A handler that is one call of [handle_announce_request_common]. *)
Lemma common_inv mem o source packet len id plain_size want extra cb :
  al_sort mem = true → node_inv o → packet_ok packet len → 57 <= len → 0 <= plain_size < 2 ^ 16 →
  node_inv (handle_announce_request_common mem source packet len id plain_size want extra cb o).2.
Proof using Law QL.
  intros Hm Ho Hp Hl Hs. pose proof Ho as [Hd _ Hc].
  destruct (common_effect mem o source packet len id plain_size want extra cb Hc (w_time _ Hd)) as (c & Hc' & [H|(key & plain & _ & H)]);
    [by destruct Hp|done|..]; eapply quiet_inv; try exact H.
  - by apply cache_inv.
  - rewrite Hm. apply announced_inv; [by apply cache_inv|]. eapply packet_key; [done|lia|lia].
Qed.

Lemma handler_inv mem o id handler source packet :
  al_sort mem = true → announce_packethandlers mem id = Some handler → packet_ok packet (zlen packet) → node_inv o →
  node_inv (handler source packet (zlen packet) o).2.
Proof using Law QL.
  intros Hm Hh Hp Ho. pose proof Hp as (_ & _ & Hlt). unfold announce_packethandlers in Hh. repeat case_match; simplify_eq.
  - unfold handle_announce_request, handle_gca_announce_request.
    change ANNOUNCE_REQUEST_MIN_SIZE_RECV with 354. change ONION_MINIMAL_SIZE with 104.
    destruct (negb _) eqn:E; [|apply common_inv; auto; try done; lia].
    destruct (_ || _) eqn:E2; [done|]. rewrite !run_get. destruct (oa_extra_data_callback o); [|done].
    apply common_inv; auto; lia.
  - unfold handle_announce_request_old. change ANNOUNCE_REQUEST_SIZE_RECV with 354.
    destruct (negb _) eqn:E; [done|]. apply common_inv; auto; try done; lia.
  - unfold mbind, M_bind. pose proof (quiet_data source packet (zlen packet) o) as Hq.
    destruct (handle_data_request _ _ _ o) as [r o']. by apply (quiet_inv _ _ Hq).
Qed.

Lemma fresh_table t self : time_ok t →
  table_ok t self (replicate (Z.to_nat ONION_ANNOUNCE_MAX_ENTRIES) empty_onion_entry).
Proof using.
  intros Ht. unfold time_ok in Ht. assert (entry_timed_out t empty_onion_entry = true) as Hdead.
  { unfold entry_timed_out. apply is_timeout_spec; unfold ONION_ANNOUNCE_TIMEOUT; cbn; lia. }
  generalize (eq_refl (zlen (replicate (Z.to_nat ONION_ANNOUNCE_MAX_ENTRIES) empty_onion_entry))).
  unfold zlen at 2. rewrite length_replicate. generalize (Z.to_nat ONION_ANNOUNCE_MAX_ENTRIES) at 1 3. intros n Hn. split.
  - rewrite Hn. reflexivity.
  - apply Forall_replicate. split; [done|]. by apply (Forall_replicate _ 32).
  - apply Forall_replicate. cbn. lia.
  - unfold live_keys. replace (filter _ _) with (@nil Onion_Announce_Entry); [constructor|]. clear Hn.
    induction n as [|n IH]; [done|]. cbn [replicate]. rewrite filter_cons, decide_False by congruence. done.
  - intros i j e f _ [-> _]%lookup_replicate_1. congruence.
Qed.

Lemma fresh_inv d o : dht_wf d → new_onion_announce true d = Some o → node_inv o.
Proof using.
  intros Hd. unfold new_onion_announce. cbn [negb]. destruct (new_hmac_key (dht_rng d)) as [key rng].
  destruct (shared_key_cache_new _ _ _ _ _ _) as [c|] eqn:Ec; [|done]. intros [= <-]. pose proof (w_time _ Hd) as Ht.
  split.
  - destruct Hd. by constructor.
  - split; [apply (w_self _ Hd)| |by apply (fresh_table (dht_mono_time d))].
    unfold ONION_ANNOUNCE_TIMEOUT, time_ok, oa_mono_time in *. cbn [oa_dht dht_mono_time set_field]. lia.
  - by apply (new_cache_ok true) in Ec.
Qed.

Lemma step_inv o o' : announce_step o o' → node_inv o → node_inv o'.
Proof using Law QL.
  intros [mem id h source packet Hm Hh Hp|max cb g|d Hd Hpk Hsk Hc] Ho; [by eapply handler_inv| |].
  - destruct Ho as [? [] ?]. by split; [|split|].
  - destruct Ho as [Hd0 Ho Hca]. pose proof (w_time _ Hd) as Ht. unfold time_ok in Ht. split; cbn; [done| |].
    + destruct Ho as [H1 H2 H3]. split; unfold oa_mono_time in *; cbn.
      * apply Hd.
      * unfold ONION_ANNOUNCE_TIMEOUT in *. lia.
      * rewrite Hpk. eapply table_ok_later; [exact H3|lia].
    + rewrite Hsk. unfold oa_mono_time in *. cbn. destruct Hca as ([W1 W2 W3 W4 W5] & Hto & Hs). split; [|done].
      cbn in *. rewrite Hto in *. split; cbn; try done; lia.
Qed.

Lemma reachable_inv o : announce_reachable o → node_inv o.
Proof using Law QL.
  intros (d & o0 & Hd & E & Hs). apply fresh_inv in E; [|done]. induction Hs as [|o0 o1 o Hs _ IH]; [done|].
  apply IH. by eapply step_inv.
Qed.

Lemma zlen_ip_port_memory p : ip_port_ok p → zlen (ip_port_memory p) = 32.
Proof using.
  intros [[Ha _] _]. unfold ip_port_memory. rewrite !zlen_app, Ha, zlen_le_bytes. reflexivity.
Qed.

Lemma common_authorised mem o source packet len id size want extra cb :
  node_inv o → packet_ok packet (zlen packet) → 57 <= zlen packet → ip_port_ok source → 0 <= size < 2 ^ 16 →
  oa_entries (handle_announce_request_common mem source packet len id size want extra cb o).2 ≠ oa_entries o →
  ∃ key plain size previous,
    encrypt_precompute (slice 25 32 packet) (dht_self_secret_key (oa_dht o)) = Some key ∧
    decrypt_data_symmetric true key (slice 1 24 packet) (drop 57 packet) (size + 16) = (size, plain) ∧
    slice 0 32 plain =
      crypto_hmac (oa_hmac_key o)
        (le_bytes 8 (u64 (clock (oa_mono_time o) / 300 - (if previous : bool then 1 else 0)))
           ++ slice 25 32 packet ++ ip_port_memory source).
Proof using Law.
  intros [Hd _ Hc] Hp Hl Hsrc Hs Hne.
  destruct (common_effect mem o source packet len id size want extra cb Hc (w_time _ Hd))
    as (c & _ & [(r & n & g & H)|(key & plain & (H1 & H2 & previous & H3) & _)]);
    [by destruct Hp|done|by rewrite H in Hne|].
  destruct Hc as (_ & _ & Hsk). rewrite Hsk in H1. exists key, plain, size, previous. split; [done|]. split; [done|].
  rewrite H3. unfold create_timed_auth_to_hash. do 2 f_equal. apply slice_all.
  rewrite zlen_app, length_slice, zlen_ip_port_memory by (done || lia). done.
Qed.

(** ** Theorems *)

(** C23: The table keeps the announcements nearest to the node's own key.  In
    every state a node can get into, a new announcement is stored with the time
    and the return path it came with, and at most one other one makes room for
    it: an older one of the same key, one that has expired, or, when all are
    alive and of other keys, the farthest of all, which is then farther away
    than the new one.  It is refused only when all stored ones are alive and
    none is farther away.  No key is stored twice. *)
Theorem announce_table_keeps_closest o ip pk dpk ret :
  announce_reachable o → key_ok pk →
  let t := oa_mono_time o in
  let self := dht_self_public_key (oa_dht o) in
  let new := mkEntry pk ip (slice 0 ONION_RETURN_3 ret) dpk (clock t) in
  match add_to_entries true ip pk dpk ret o with
  | (Some i, o') => oa_entries o' !! i = Some new ∧ NoDup (live_keys t (oa_entries o')) ∧
      ∃ victim rest, oa_entries o ≡ₚ victim :: rest ∧ oa_entries o' ≡ₚ new :: rest ∧
        (oe_public_key victim = pk ∧ live t victim ∨
         pk ∉ live_keys t (oa_entries o) ∧
         (entry_timed_out t victim = true ∨
          Forall (λ e, live t e ∧ distance self (oe_public_key e) <= distance self (oe_public_key victim)) (oa_entries o) ∧
          distance self pk < distance self (oe_public_key victim)))
  | (None, o') => o' = o ∧ pk ∉ live_keys t (oa_entries o) ∧
      Forall (λ e, live t e ∧ distance self (oe_public_key e) <= distance self pk) (oa_entries o)
  end.
Proof using Law QL.
  intros Hr Hk. cbv zeta. apply reachable_inv in Hr as [_ Ho _]. pose proof (add_to_entries_ok o ip pk dpk ret Ho Hk) as H.
  cbv zeta in H. destruct add_to_entries as [[i|] o']; [|by destruct H as (? & _ & ?)]. destruct H as (E & Ho' & Hi & Hv). split; [done|]. split; [|done].
  pose proof (tb_nodup _ _ _ (oa_table _ Ho')) as Hn. by rewrite E in Hn |- *.
Qed.

(** C24: Nobody is announced who did not ask before.  A packet changes the
    table only if it was encrypted for this node by the holder of the key it
    announces, and carries the ping id that this node gives, in this period of
    300 seconds or the one before, to exactly that key at exactly that address. *)
Theorem announce_needs_ping_id mem o id handler source packet :
  announce_reachable o → announce_packethandlers mem id = Some handler → packet_ok packet (zlen packet) →
  ip_port_ok source →
  let o' := (handler source packet (zlen packet) o).2 in
  oa_entries o' ≠ oa_entries o →
  ∃ key plain size previous,
    encrypt_precompute (slice 25 32 packet) (dht_self_secret_key (oa_dht o)) = Some key ∧
    decrypt_data_symmetric true key (slice 1 24 packet) (drop 57 packet) (size + 16) = (size, plain) ∧
    slice 0 32 plain =
      crypto_hmac (oa_hmac_key o)
        (le_bytes 8 (u64 (clock (oa_mono_time o) / 300 - (if previous : bool then 1 else 0)))
           ++ slice 25 32 packet ++ ip_port_memory source).
Proof using Law QL.
  intros Hr Hh Hp Hsrc. cbv zeta. apply reachable_inv in Hr. intros Hne. pose proof Hp as (_ & _ & Hlt).
  unfold announce_packethandlers in Hh. repeat case_match; simplify_eq.
  - unfold handle_announce_request, handle_gca_announce_request in Hne.
    change ANNOUNCE_REQUEST_MIN_SIZE_RECV with 354 in Hne. change ONION_MINIMAL_SIZE with 104 in Hne.
    destruct (negb _) eqn:E; [|eapply common_authorised; try exact Hne; auto; try done; lia].
    destruct (_ || _) eqn:E2; [done|]. rewrite !run_get in Hne. destruct (oa_extra_data_callback o); [|done].
    eapply common_authorised; try exact Hne; auto; lia.
  - unfold handle_announce_request_old in Hne. change ANNOUNCE_REQUEST_SIZE_RECV with 354 in Hne.
    destruct (negb _) eqn:E; [done|]. eapply common_authorised; try exact Hne; auto; try done; lia.
  - unfold mbind, M_bind in Hne. pose proof (quiet_data source packet (zlen packet) o) as (r & n & g & Hq).
    destruct (handle_data_request _ _ _ o) as [x o']. cbn in Hq, Hne. by rewrite Hq in Hne.
Qed.
End reachable.

(** ** Concrete runs *)

(** A node that stores announcements, and a friend that announces itself with a
    ping id of the node. *)
Definition demo_oa : Onion_Announce :=
  default (mkOnionAnnounce demo_b [] [] (dht_shared_keys_recv demo_b) 0 None new_gca_list) (new_onion_announce true demo_b).

Definition demo_friend_request (now : Mono_Time) : bytes :=
  let pk := replicate 32 51 in
  let pid := generate_timed_auth (Sod := toy_sodium) [] now 300 (oa_hmac_key demo_oa) (Some (pk ++ ip_port_memory demo_addr)) 64 in
  default [] (create_announce_request (Sod := toy_sodium) true [] sample_rng ONION_ANNOUNCE_REQUEST_MIN_SIZE
                (dht_self_public_key demo_b) pk (replicate 32 1) pid pk (replicate 32 4) 77).1 ++ replicate 177 6.

Lemma demo_oa_reachable : announce_reachable (Sod := toy_sodium) (Q := isort) demo_oa.
Proof.
  exists demo_b, demo_oa. split; [apply demo_b_wf|]. split; [vm_compute; reflexivity|apply rtc_refl].
Qed.

Lemma announce_table_keeps_closest_witness :
  let '(r, o') := add_to_entries (Q := isort) true demo_addr (replicate 32 51) (replicate 32 4) (replicate 177 6) demo_oa in
  ∃ i, r = Some i ∧
    oa_entries o' !! i = Some (mkEntry (replicate 32 51) demo_addr (replicate 177 6) (replicate 32 4) 1000).
Proof.
  pose proof (@announce_table_keeps_closest toy_sodium toy_sodium_laws isort isort_laws demo_oa demo_addr (replicate 32 51)
    (replicate 32 4) (replicate 177 6) demo_oa_reachable) as H. cbv zeta in H.
  destruct (add_to_entries true _ _ _ _ demo_oa) as [[i|] o'].
  - exists i. split; [done|]. apply H. split; [done|]. by apply (Forall_replicate _ 32).
  - exfalso. destruct H as (_ & _ & H); [split; [done|]; by apply (Forall_replicate _ 32)|].
    assert (oa_entries demo_oa !! 0%nat = Some empty_onion_entry) as E by (vm_compute; reflexivity).
    apply list_elem_of_lookup_2 in E. rewrite list.Forall_forall in H. destruct (H _ E) as [Hl _].
    assert (entry_timed_out (oa_mono_time demo_oa) empty_onion_entry = true) as Hd by (vm_compute; reflexivity). congruence.
Defined.

Lemma demo_friend_request_ok :
  packet_ok (demo_friend_request (mkMonoTime 1000 0)) (zlen (demo_friend_request (mkMonoTime 1000 0))).
Proof. split; [by apply (bool_decide_unpack _); vm_compute|]. split; [done|by vm_compute]. Qed.

Lemma announce_needs_ping_id_witness :
  let packet := demo_friend_request (mkMonoTime 1000 0) in
  let o' := (handle_announce_request_old (Sod := toy_sodium) (Q := isort) all_memory demo_addr packet 354 demo_oa).2 in
  oa_entries o' ≠ oa_entries demo_oa ∧
  ∃ key plain size, encrypt_precompute (S := toy_sodium) (slice 25 32 packet) (dht_self_secret_key (oa_dht demo_oa)) = Some key ∧
    decrypt_data_symmetric (S := toy_sodium) true key (slice 1 24 packet) (drop 57 packet) (size + 16) = (size, plain).
Proof.
  cbv zeta. set (packet := demo_friend_request (mkMonoTime 1000 0)).
  assert (oa_entries (handle_announce_request_old (Sod := toy_sodium) (Q := isort) all_memory demo_addr packet 354 demo_oa).2 ≠ oa_entries demo_oa) as Hne.
  { intros E. apply (f_equal (existsb (λ e, oe_announce_time e =? 1000))) in E. vm_compute in E. done. }
  split; [done|].
  destruct (@announce_needs_ping_id toy_sodium toy_sodium_laws isort isort_laws all_memory demo_oa NET_PACKET_ANNOUNCE_REQUEST_OLD
    (handle_announce_request_old (Sod := toy_sodium) (Q := isort) all_memory) demo_addr packet) as (key & plain & size & prev & H1 & H2 & _).
  - apply demo_oa_reachable.
  - reflexivity.
  - apply demo_friend_request_ok.
  - apply demo_addr_ok.
  - replace (zlen packet) with 354 by (vm_compute; reflexivity). exact Hne.
  - exists key, plain, size. split; [exact H1|exact H2].
Defined.
