(* ===== verification/OnionExchange.v ===== *)
(** * OnionExchange: announcing oneself and being reached

    The way of a friend through [toxcore/onion_announce.c]: it asks a node for a
    ping id, announces itself with it, and from then on receives what others
    send to its key through that node. *)
From S2P Require Import Prelude MonoTime CryptoCore SharedKeyCache TimedAuth Network LanDiscovery World DhtDistance DhtPackets.
From S2P Require Import DhtLists Dht DhtSound DhtProtocol Onion GroupAnnounce OnionAnnounce OnionTable.

Section exchange.
Context {Sod : Sodium} {Law : SodiumLaws Sod} {Q : Qsort} {QL : QsortLaws Q}.

(** ** The friend's request *)

Lemma create_announce_request_ok stack rng dest pk sk pid cid dpk sb k :
  encrypt_precompute dest sk = Some k → zlen pid = 32 → zlen cid = 32 → zlen dpk = 32 → zlen pk = 32 →
  ∃ nonce c rng', create_announce_request true stack rng ONION_ANNOUNCE_REQUEST_MIN_SIZE dest pk sk pid cid dpk sb
      = (Some ([NET_PACKET_ANNOUNCE_REQUEST_OLD] ++ nonce ++ pk ++ c), rng') ∧
    zlen nonce = 24 ∧ zlen c = 120 ∧ bytes_ok nonce ∧
    decrypt_data_symmetric true k nonce c 120 = (104, pid ++ cid ++ dpk ++ le_bytes 8 sb).
Proof using Law.
  intros Hk Hp Hc Hd Hpk. unfold create_announce_request. rewrite Z.ltb_irrefl.
  destruct (random_nonce rng) as [nonce rng'] eqn:En. apply random_nonce_ok in En as [Hn Hnb].
  unfold encrypt_data. rewrite Hk. change (default stack (Some k)) with k. change ONION_MINIMAL_SIZE with 104.
  destruct (encrypt_ok k nonce (pid ++ cid ++ dpk ++ le_bytes 8 sb) 104) as (c & -> & Hcl & Hdec);
    [rewrite !zlen_app, zlen_le_bytes; lia|lia|].
  change (negb _) with false. cbv iota. exists nonce, c, rng'. done.
Qed.

(** ** The node's response *)

Definition announce_response (source : IP_Port) (ret : bytes) (id : Z) (sendback nonce c : bytes) : IP_Port * bytes :=
  (wire_dest source, [NET_PACKET_ONION_RECV_3] ++ ret ++ [id] ++ sendback ++ nonce ++ c).

(** What changes when a response is sent. *)
Definition responded (o o' : Onion_Announce) (p : IP_Port * bytes) : Prop :=
  ∃ rng net, o' = o <| oa_dht := (oa_dht o) <| dht_rng := rng |> <| dht_net := net |> |> ∧
    net_family net = TOX_AF_INET6 ∧ net_log net = net_log (dht_net (oa_dht o)) ++ [p].

(** A response through the onion reaches the socket. *)
Lemma onion_response_run net dest data len ret :
  net_family net = TOX_AF_INET6 → src_ok dest → zlen data = len → 0 < len <= 1222 → zlen ret = ONION_RETURN_3 →
  ∃ res net', send_onion_response net dest data len ret = (res, net') ∧ net_family net' = TOX_AF_INET6 ∧
    net_log net' = net_log net ++ [(wire_dest dest, [NET_PACKET_ONION_RECV_3] ++ ret ++ data)].
Proof using.
  intros Hn [_ Hf] Hd Hl Hr. unfold send_onion_response. change ONION_RESPONSE_MAX_DATA_SIZE with 1222.
  replace (1222 <? len) with false by lia. replace (len =? 0) with false by lia. cbn [orb].
  rewrite !slice_all by done. rewrite (send_dual _ _ _ Hn Hf). eexists _, _. split; [done|]. done.
Qed.

(** The nodes in the response. *)
Lemma packed_answer d target lan : dht_wf d →
  let '(nodes, num) := get_close_nodes (dht_cur_time d) (dht_close_clientlist d) (f_client_list <$> dht_friends_list d)
                         target TOX_AF_UNSPEC lan false in
  0 <= num <= 4 ∧
  ∃ data, (if negb (num =? 0) then pack_nodes (SIZEOF_NODE_FORMAT * MAX_SENT_NODES) nodes num else Some []) = Some data ∧
    (num ≠ 0 → 0 < zlen data) ∧ zlen data <= 204 ∧ zlen data = packed_size (answer d target lan) ∧
    unpack_nodes 4 data (zlen data) false = Some (wire_node <$> answer d target lan, zlen data).
Proof using.
  intros Hd. destruct (answer_ok d target lan Hd) as [Hu Hz]. revert Hu Hz. unfold answer.
  pose proof (get_close_nodes_udp d target TOX_AF_UNSPEC lan false Hd) as ([Hno _] & Hnum & _).
  destruct get_close_nodes as [nodes num]. cbn [fst snd] in Hnum, Hno. unfold MAX_SENT_NODES in Hnum.
  set (sent := take (Z.to_nat num) nodes). intros Hu Hz. split; [lia|].
  pose proof (packed_size_bound sent Hu) as Hps.
  destruct (pack_nodes_loop_spec false 256 sent 0) as (data & Ed & Hdl & Hun);
    [eapply list.Forall_impl; [exact Hu|by intros ? []]..|lia|lia|].
  assert (zlen sent = num) as Hsn.
  { unfold sent, zlen, MAX_SENT_NODES in *. rewrite length_take in *. lia. }
  assert (num ≠ 0 → 0 < packed_size sent) as Hps0.
  { intros Hn0. destruct sent as [|n sent']; [unfold zlen in Hsn; simpl in Hsn; lia|]. apply list.Forall_cons in Hu as [[_ Hn'] Hu'].
    pose proof (packable_size _ _ Hn'). pose proof (packed_size_bound _ Hu'). rewrite packed_size_cons. lia. }
  exists data. split; [|split; [intros; rewrite Hdl; auto|split; [lia|split; [done|]]]].
  - destruct (num =? 0) eqn:E0; cbn [negb]; [|done]. assert (num = 0) as -> by lia. destruct sent; [|done].
    cbn in Ed. congruence.
  - specialize (Hun [] [] 4%nat eq_refl). rewrite app_nil_r in Hun. apply Hun. unfold zlen in Hz. lia.
Qed.

Lemma close_run o pk f lan a : on_dht (m_get_close_nodes pk f lan a) o =
  (get_close_nodes (dht_cur_time (oa_dht o)) (dht_close_clientlist (oa_dht o)) (f_client_list <$> dht_friends_list (oa_dht o)) pk f lan a, o).
Proof using. unfold on_dht, m_get_close_nodes, get. by destruct o. Qed.

Lemma oa_draw_run {A} o (f : Random → A * Random) : ∃ x rng, f (dht_rng (oa_dht o)) = (x, rng) ∧
  on_dht (draw f) o = (x, o <| oa_dht := (oa_dht o) <| dht_rng := rng |> |>).
Proof using. unfold on_dht, draw. destruct (f (dht_rng (oa_dht o))) as [x r]. eauto. Qed.

Lemma announce_response_run o source id key nonce sendback response ret :
  dual_stack (oa_dht o) → src_ok source → zlen sendback = 8 → zlen nonce = 24 → 0 < zlen response <= 577 →
  zlen ret = ONION_RETURN_3 →
  ∃ res o' c, send_announce_response all_memory source id key nonce sendback response (zlen response) ret o = (Returned res, o') ∧
    responded o o' (announce_response source ret id sendback nonce c) ∧ zlen nonce = 24 ∧
    decrypt_data_symmetric true key nonce c (zlen c) = (zlen c - 16, response).
Proof using Law.
  intros Hn Hs Hsb Hnl Hr Hret. unfold send_announce_response.
  change (1 + ONION_ANNOUNCE_SENDBACK_DATA_LENGTH + CRYPTO_NONCE_SIZE) with 33.
  change CRYPTO_MAC_SIZE with 16. change ONION_ANNOUNCE_RESPONSE_MAX_SIZE with 626.
  destruct (encrypt_ok key nonce response (zlen response)) as (c & E & Hc & Hdec); [done|lia|]. change (al_encrypt all_memory) with true.
  rewrite E, Z.eqb_refl. cbn [negb].
  replace (626 <? 33 + (zlen response + 16)) with false by lia.
  destruct (onion_response_run (dht_net (oa_dht o)) source ([id] ++ sendback ++ nonce ++ c) (33 + (zlen response + 16)) ret)
    as (res & net & Es & Hnf & Hlog); [done|done|rewrite !zlen_app, Hsb, Hnl, Hc; change (zlen [id]) with 1; lia|lia|done|].
  unfold mbind, M_bind, on_dht. rewrite Es. eexists _, _, c. split; [done|]. split; [|split; [done|]].
  - exists (dht_rng (oa_dht o)), net. split; [by destruct o as [[]]|]. split; [done|]. rewrite Hlog. done.
  - rewrite Hc, Hdec. f_equal. lia.
Qed.

(** A response without extra data, of either kind. *)
Lemma answer_announce_run o source packet len id want key plain pid index :
  dht_wf (oa_dht o) → dual_stack (oa_dht o) → src_ok source → zlen plain = 104 → ONION_RETURN_3 <= len <= zlen packet →
  let payload := make_announce_payload_helper o
      (generate_timed_auth [] (oa_mono_time o) 300 (oa_hmac_key o) (Some pid) 64) index (slice 25 32 packet) (slice 64 32 plain) in
  zlen payload = 33 →
  ∃ res o' nonce c num data, answer_announce all_memory source packet len id want 0 None key plain pid index o = (Returned res, o') ∧
    responded o o' (announce_response source (slice (len - ONION_RETURN_3) ONION_RETURN_3 packet) id (slice 96 8 plain) nonce c) ∧
    zlen nonce = 24 ∧ decrypt_data_symmetric true key nonce c (zlen c)
      = (zlen c - 16, payload ++ (if want : bool then [num] else []) ++ data) ∧
    unpack_nodes 4 data (zlen data) false = Some (wire_node <$> answer (oa_dht o) (slice 32 32 plain) (ip_is_lan (ipp_ip source)), zlen data).
Proof using Law.
  intros Hd Hn Hs Hpl Hlen. cbv zeta. intros Hpay. unfold answer_announce. run (close_run o (slice 32 32 plain) TOX_AF_UNSPEC (ip_is_lan (ipp_ip source)) false).
  pose proof (packed_answer (oa_dht o) (slice 32 32 plain) (ip_is_lan (ipp_ip source)) Hd) as Ha.
  destruct get_close_nodes as [nodes num]. destruct Ha as (Hnum & data & Hpk & Hpos & Hdl & _ & Hun).
  replace (num <=? 255) with true by lia. cbn [negb].
  destruct (oa_draw_run o random_nonce) as (nonce & rng & En & Er). run Er. rewrite run_get.
  apply random_nonce_ok in En as [Hnl _]. rewrite Hpk.
  replace (negb (num =? 0) && (zlen data <=? 0)) with false by (destruct (num =? 0) eqn:?; cbn; lia).
  change (al_response all_memory) with true. cbn [negb].
  set (o1 := o <| oa_dht := _ |>). unfold call_extra at 1. unfold mbind at 1, M_bind at 1.
  change (make_announce_payload_helper o1 _ index _ _) with
    (make_announce_payload_helper o (generate_timed_auth [] (oa_mono_time o) 300 (oa_hmac_key o) (Some pid) 64) index (slice 25 32 packet) (slice 64 32 plain)).
  set (payload := make_announce_payload_helper o _ _ _ _) in *.
  change (slice (ONION_PING_ID_SIZE + _ + _) _ plain) with (slice 96 8 plain). rewrite app_nil_r.
  change (1 + ONION_PING_ID_SIZE) with 33. change (zlen (@nil Z)) with 0. rewrite Z.add_0_r.
  pose proof (zlen_nonneg data). rewrite !u16_small by (destruct want; rewrite ?u16_small by lia; lia).
  assert (zlen (payload ++ (if want then [u8 num] else []) ++ data) = 33 + (if want then 1 else 0) + zlen data) as Hz
    by (rewrite !zlen_app, Hpay; destruct want; [change (zlen [u8 num]) with 1|change (zlen (@nil Z)) with 0]; lia).
  destruct (announce_response_run o1 source id key nonce (slice 96 8 plain) (payload ++ (if want then [u8 num] else []) ++ data)
    (slice (len - ONION_RETURN_3) ONION_RETURN_3 packet)) as (res & o' & c & Er2 & Hrsp & Hdec);
    [done|done|apply length_slice; lia|done|destruct want; lia|apply length_slice; change ONION_RETURN_3 with 177 in *; lia|].
  rewrite Hz in Er2. exists res, o', nonce, c, (u8 num), data. split; [done|]. split; [|by destruct Hdec].
  destruct Hrsp as (rng' & net & -> & Hf & Hl). exists rng', net. done.
Qed.

(** ** One request of a friend for its own key *)

(** The ping id the node gives to a key at an address now. *)
Definition ping_id_of (o : Onion_Announce) (source : IP_Port) (pk : bytes) : bytes :=
  generate_timed_auth [] (oa_mono_time o) 300 (oa_hmac_key o) (Some (pk ++ ip_port_memory source)) 64.

Lemma zlen_ping_id o source pk : zlen (ping_id_of o source pk) = 32.
Proof using Law. unfold ping_id_of, generate_timed_auth, crypto_hmac, zlen. by rewrite auth_length. Qed.

Lemma own_payload o source pk dpk index :
  (∀ i, index = Some i → ∃ e, oa_entries o !! i = Some e ∧ oe_public_key e = pk) →
  ∃ b, make_announce_payload_helper o (ping_id_of o source pk) index pk dpk = [b] ++ ping_id_of o source pk ∧
    ∀ i e, index = Some i → oa_entries o !! i = Some e → oe_data_public_key e = dpk → b = 2.
Proof using.
  intros Hi. unfold make_announce_payload_helper. destruct index as [i|]; [|by exists 0].
  destruct (Hi i eq_refl) as (e & He & Ek). rewrite He. change (default empty_onion_entry (Some e)) with e.
  rewrite Ek, pk_equal_refl. destruct (pk_equal (oe_data_public_key e) dpk) eqn:Ed; cbn [negb].
  - exists 2. done.
  - exists 0. split; [done|]. intros i' e' [= <-] He' Ed'. rewrite He in He'. simplify_eq.
    by rewrite pk_equal_refl in Ed.
Qed.

Definition own_request (nonce pk c ret : bytes) : bytes := ([NET_PACKET_ANNOUNCE_REQUEST_OLD] ++ nonce ++ pk ++ c) ++ ret.

(** The node that received a request of [pk] at [source] for its own key. *)
Record own_response (o o' : Onion_Announce) (source : IP_Port) (pk dpk ret k : bytes) (sb : Z) (c : bytes * bytes) (b : Z)
    (data : bytes) : Prop := {
  or_inv : node_inv o';
  or_net : dual_stack (oa_dht o');
  or_time : oa_mono_time o' = oa_mono_time o;
  or_hmac : oa_hmac_key o' = oa_hmac_key o;
  or_self : dht_self_public_key (oa_dht o') = dht_self_public_key (oa_dht o);
  or_secret : dht_self_secret_key (oa_dht o') = dht_self_secret_key (oa_dht o);
  or_log : net_log (dht_net (oa_dht o')) = net_log (dht_net (oa_dht o)) ++
    [announce_response source ret NET_PACKET_ANNOUNCE_RESPONSE_OLD (le_bytes 8 sb) c.1 c.2];
  or_nonce : zlen c.1 = 24;
  or_plain : decrypt_data_symmetric true k c.1 c.2 (zlen c.2) = (zlen c.2 - 16, [b] ++ ping_id_of o source pk ++ data);
  or_nodes : unpack_nodes 4 data (zlen data) false =
    Some (wire_node <$> answer (oa_dht o) pk (ip_is_lan (ipp_ip source)), zlen data)
}.

Lemma own_request_fields nonce pk c ret : zlen nonce = 24 → zlen pk = 32 → zlen c = 120 → zlen ret = 177 →
  let packet := own_request nonce pk c ret in
  slice 1 24 packet = nonce ∧ slice 25 32 packet = pk ∧ slice 0 120 (drop 57 packet) = c ∧
  slice (354 - ONION_RETURN_3) ONION_RETURN_3 packet = ret ∧ zlen packet = 354.
Proof using.
  intros Hn Hp Hc Hr. cbv zeta. unfold own_request. rewrite <- !app_assoc. change ONION_RETURN_3 with 177. change (354 - 177) with 177.
  split; [by slices|]. split; [by slices|]. split; [|split; [by slices|zlens]].
  assert (drop 57 ([NET_PACKET_ANNOUNCE_REQUEST_OLD] ++ nonce ++ pk ++ c ++ ret) = c ++ ret) as ->.
  { rewrite !app_assoc, <- (app_assoc _ c ret), drop_app_length'; [done|]. unfold zlen in *. rewrite !length_app. simpl. lia. }
  by slices.
Qed.

Lemma responded_inv o o' p : responded o o' p → node_inv o → node_inv o'.
Proof using.
  intros (rng & net & -> & _). apply quiet_inv. exists rng, net, (oa_extra_data_object o). by destruct o.
Qed.

Lemma decrypt_slice key nonce e len :
  decrypt_data_symmetric true key nonce e len = decrypt_data_symmetric true key nonce (slice 0 len e) len.
Proof using.
  unfold decrypt_data_symmetric. assert (slice 0 len (slice 0 len e) = slice 0 len e) as ->; [|done].
  unfold slice. rewrite !drop_0, take_take. by rewrite Nat.min_id.
Qed.

(** The response, once the table [o2] of the node was looked at or changed. *)
Lemma own_answer o o2 source pk dpk pid sb k packet ret index :
  node_inv o2 → oa_dht o2 = oa_dht o → oa_hmac_key o2 = oa_hmac_key o → dual_stack (oa_dht o) → src_ok source →
  zlen pid = 32 → zlen pk = 32 → zlen dpk = 32 → slice 25 32 packet = pk → zlen packet = 354 →
  slice (354 - ONION_RETURN_3) ONION_RETURN_3 packet = ret →
  (∀ i, index = Some i → ∃ e, oa_entries o2 !! i = Some e ∧ oe_public_key e = pk) →
  ∃ res o' c' b data,
    answer_announce all_memory source packet 354 NET_PACKET_ANNOUNCE_RESPONSE_OLD false 0 None k (pid ++ pk ++ dpk ++ le_bytes 8 sb)
      (pk ++ ip_port_memory source) index o2 = (Returned res, o') ∧
    own_response o o' source pk dpk ret k sb c' b data ∧ oa_entries o' = oa_entries o2 ∧
    (∀ i e, index = Some i → oa_entries o2 !! i = Some e → oe_data_public_key e = dpk → b = 2).
Proof using Law.
  intros Ho2 Ed Eh Hn Hs Hpid Hpk Hdpk F2 F5 F4 Hi. set (plain := pid ++ pk ++ dpk ++ le_bytes 8 sb).
  assert (slice 32 32 plain = pk ∧ slice 64 32 plain = dpk ∧ slice 96 8 plain = le_bytes 8 sb ∧ zlen plain = 104) as (P1 & P2 & P3 & P4).
  { unfold plain. split_and!; [by slices|by slices|by slices|zlens]. }
  destruct (own_payload o2 source pk dpk index Hi) as (b & Eb & Hb).
  destruct (answer_announce_run o2 source packet 354 NET_PACKET_ANNOUNCE_RESPONSE_OLD false k plain (pk ++ ip_port_memory source) index)
    as (res & o' & nonce & c & num & data & Er & Hrsp & Hnl & Hdec & Hun).
  { apply Ho2. } { by rewrite Ed. } { done. } { done. } { rewrite F5. change ONION_RETURN_3 with 177. lia. }
  { rewrite F2, P2. fold (ping_id_of o2 source pk). rewrite Eb, zlen_app, zlen_ping_id. done. }
  exists res, o', (nonce, c), b, data. rewrite F4 in Hrsp. rewrite P3 in Hrsp. rewrite F2, P2 in Hdec.
  fold (ping_id_of o2 source pk) in Hdec. rewrite Eb in Hdec. rewrite P1 in Hun.
  assert (ping_id_of o2 source pk = ping_id_of o source pk) as Ep by (unfold ping_id_of, oa_mono_time; by rewrite Ed, Eh).
  pose proof (responded_inv _ _ _ Hrsp Ho2) as Ho'. destruct Hrsp as (rng & net & -> & Hnf & Hlog).
  split; [done|]. split; [|split; [done|done]]. split; try done.
  - unfold oa_mono_time. cbn. by rewrite Ed.
  - cbn. by rewrite Ed.
  - cbn. by rewrite Ed.
  - cbn. by rewrite Hlog, Ed.
  - cbn [fst snd]. rewrite Hdec, Ep. done.
  - rewrite Hun, Ed. done.
Qed.

Lemma announce_run o source pk dpk pid sb k nonce c ret :
  node_inv o → dual_stack (oa_dht o) → src_ok source → key_ok pk → zlen dpk = 32 → zlen pid = 32 → zlen ret = 177 →
  zlen nonce = 24 → zlen c = 120 → encrypt_precompute pk (dht_self_secret_key (oa_dht o)) = Some k →
  decrypt_data_symmetric true k nonce c 120 = (104, pid ++ pk ++ dpk ++ le_bytes 8 sb) →
  ∃ res o' c' b data, handle_announce_request_old all_memory source (own_request nonce pk c ret) 354 o = (Returned res, o') ∧
    own_response o o' source pk dpk ret k sb c' b data ∧
    (check_timed_auth [] (oa_mono_time o) 300 (oa_hmac_key o) (Some (pk ++ ip_port_memory source)) 64 pid = true →
     entry_position o pk ≠ None → b = 2 ∧ mkEntry pk source ret dpk (clock (oa_mono_time o)) ∈ oa_entries o').
Proof using Law QL.
  intros Ho Hn Hs Hpk Hd Hpid Hr Hnl Hcl Hk Hdec. unfold handle_announce_request_old.
  change ANNOUNCE_REQUEST_SIZE_RECV with 354. rewrite Z.eqb_refl. cbn [negb]. unfold handle_announce_request_common.
  destruct (own_request_fields nonce pk c ret Hnl (proj1 Hpk) Hcl Hr) as (F1 & F2 & F3 & F4 & F5).
  set (packet := own_request nonce pk c ret) in *.
  change (1 + CRYPTO_NONCE_SIZE) with 25. change CRYPTO_PUBLIC_KEY_SIZE with 32. rewrite F2.
  pose proof (lookup_keeps _ _ _ pk (ni_cache _ Ho) (w_time _ (ni_dht _ Ho)) (key_bytes _ Hpk)) as Hl.
  unfold oa_lookup at 1. unfold mbind at 1, M_bind at 1.
  destruct (shared_key_cache_lookup _ pk) as [k' ca]. destruct Hl as [-> Hca]. rewrite Hk.
  change (al_plain all_memory) with true. change (al_decrypt all_memory) with true. change (al_sort all_memory) with true. cbn [negb].
  set (o1 := o <| oa_shared_keys_recv := ca |>). pose proof (cache_inv _ _ Ho Hca : node_inv o1) as Ho1.
  rewrite decrypt_slice. change (Z.to_nat (25 + 32)) with 57%nat. change CRYPTO_NONCE_SIZE with 24. rewrite F1.
  change (ONION_PING_ID_SIZE + 32 * 2 + ONION_ANNOUNCE_SENDBACK_DATA_LENGTH + CRYPTO_MAC_SIZE) with 120. rewrite F3, Hdec.
  change (negb _) with false. cbv iota. rewrite run_get.
  set (plain := pid ++ pk ++ dpk ++ le_bytes 8 sb). change ONION_PING_ID_SIZE with 32. change (32 + 32) with 64.
  assert (slice 0 32 plain = pid ∧ slice 32 32 plain = pk ∧ slice 64 32 plain = dpk) as (P0 & P1 & P2)
    by (unfold plain; destruct Hpk; split_and!; by slices).
  rewrite P0, P1, P2, F4. change (check_timed_auth [] (oa_mono_time o1) PING_ID_TIMEOUT (oa_hmac_key o1) _ _ pid)
    with (check_timed_auth [] (oa_mono_time o) 300 (oa_hmac_key o) (Some (pk ++ ip_port_memory source)) 64 pid).
  destruct (check_timed_auth _ _ _ _ _ _ _) eqn:Ec.
  - pose proof (add_to_entries_ok o1 source pk dpk ret (ni_oa _ Ho1) Hpk) as Hadd. cbv zeta in Hadd.
    rewrite slice_all in Hadd by done. unfold mbind, M_bind. assert (entry_position o1 pk = entry_position o pk) as Ep by done.
    destruct (add_to_entries true source pk dpk ret o1) as [[i|] o2] eqn:Ea.
    + destruct Hadd as (E2 & Ho2 & Hi & victim & rest & _ & Hp & _).
      assert (node_inv o2) as Hi2 by (rewrite E2 in Ho2 |- *; destruct Ho1; by split).
      destruct (own_answer o o2 source pk dpk pid sb k packet ret (Some i)) as (res & o' & c' & b & data & Er & Hor & He & Hb); try done.
      * by rewrite E2.
      * by rewrite E2.
      * apply Hpk.
      * intros ? [= <-]. by exists (mkEntry pk source ret dpk (clock (oa_mono_time o1))).
      * exists res, o', c', b, data. split; [done|]. split; [done|]. intros _ _. split; [by eapply Hb|].
        rewrite He, Hp. left.
    + destruct Hadd as (-> & Hnone & _).
      destruct (own_answer o o1 source pk dpk pid sb k packet ret None) as (res & o' & c' & b & data & Er & Hor & He & Hb); try done.
      { apply Hpk. } exists res, o', c', b, data. split; [done|]. split; [done|]. intros _ Hpos. by rewrite <- Ep in Hpos.
  - rewrite run_get. destruct (own_answer o o1 source pk dpk pid sb k packet ret (in_entries o1 pk))
      as (res & o' & c' & b & data & Er & Hor & He & Hb); try done.
    { apply Hpk. } { intros i Hi. apply in_entries_Some in Hi as (l1 & v & l2 & E & <- & _ & Ev). exists v. split; [|done].
      rewrite E. by apply list_lookup_middle. }
    exists res, o', c', b, data. split; [done|]. by split.
Qed.

(** ** In between *)

(** What never changes, and the clock, which does not go back. *)
Record later (o o' : Onion_Announce) : Prop := {
  lt_hmac : oa_hmac_key o' = oa_hmac_key o;
  lt_self : dht_self_public_key (oa_dht o') = dht_self_public_key (oa_dht o);
  lt_secret : dht_self_secret_key (oa_dht o') = dht_self_secret_key (oa_dht o);
  lt_clock : clock (oa_mono_time o) <= clock (oa_mono_time o')
}.

#[export] Instance later_preorder : PreOrder later.
Proof using. split; [by split|]. intros ??? [] []. split; congruence || lia. Qed.

Lemma quiet_later o o' : quiet o o' → later o o'.
Proof using. intros (rng & net & g & ->). by split. Qed.

Lemma cache_later o c : later o (o <| oa_shared_keys_recv := c |>).
Proof using. by split. Qed.

Lemma announced_later sort o source packet len plain : later o (announced sort o source packet len plain).
Proof using. unfold announced, add_to_entries. destruct entry_position; by split. Qed.

Lemma common_later mem o source packet len id plain_size want extra cb : node_inv o → bytes_ok packet → 0 <= plain_size < 2 ^ 16 →
  later o (handle_announce_request_common mem source packet len id plain_size want extra cb o).2.
Proof using Law.
  intros Ho Hp Hs.
  destruct (common_effect mem o source packet len id plain_size want extra cb (ni_cache _ Ho) (w_time _ (ni_dht _ Ho)) Hp Hs)
    as (c & _ & [H|(key & plain & _ & H)]); apply quiet_later in H; (etrans; [apply (cache_later o c)|]); [exact H|].
  etrans; [apply announced_later|exact H].
Qed.

Lemma step_later o o' : announce_step o o' → node_inv o → later o o'.
Proof using Law.
  intros [mem id h source packet Hm Hh Hp|max cb g|d Hd Hpk Hsk Hc] Ho; [|by split..].
  destruct Hp as (Hb & _ & Hlt). unfold announce_packethandlers in Hh. repeat case_match; simplify_eq.
  - unfold handle_announce_request, handle_gca_announce_request.
    change ANNOUNCE_REQUEST_MIN_SIZE_RECV with 354. change ONION_MINIMAL_SIZE with 104.
    destruct (negb _) eqn:E; [|by apply common_later]. destruct (_ || _) eqn:E2; [by split|]. rewrite !run_get.
    destruct (oa_extra_data_callback o); [|by split]. apply common_later; [done..|lia].
  - unfold handle_announce_request_old. destruct (negb _); [by split|]. by apply common_later.
  - unfold mbind, M_bind. pose proof (quiet_data source packet (zlen packet) o) as Hq.
    destruct (handle_data_request _ _ _ o) as [r o2]. by apply quiet_later.
Qed.

Lemma steps_later o o' : rtc announce_step o o' → node_inv o → node_inv o' ∧ later o o'.
Proof using Law QL.
  induction 1 as [o|o o1 o' Hs _ IH]; intros Ho; [by split|]. destruct (IH (step_inv _ _ Hs Ho)) as [? Hl].
  split; [done|]. etrans; [by apply step_later|done].
Qed.

(** A friend that is stored and alive is found. *)
Lemma stored_is_found o e : node_inv o → e ∈ oa_entries o → live (oa_mono_time o) e →
  ∃ i, in_entries o (oe_public_key e) = Some i ∧ oa_entries o !! i = Some e.
Proof using.
  intros Ho He Hl. pose proof (tb_nodup _ _ _ (oa_table _ (ni_oa _ Ho))) as Hn.
  destruct (in_entries o (oe_public_key e)) as [i|] eqn:Ei.
  - apply in_entries_Some in Ei as (l1 & v & l2 & E & <- & Hv & Ek). exists (length l1). split; [done|].
    rewrite E. rewrite (list_lookup_middle l1 l2 v) by done. f_equal.
    apply (nodup_fmap_inj oe_public_key _ _ _ Hn); [| |done]; apply list_elem_of_filter; (split; [done|]); [|done].
    rewrite E. apply elem_of_app. right. left.
  - apply in_entries_None in Ei. exfalso. apply Ei. apply live_keys_elem. by exists e.
Qed.

Lemma data_request_run o e from payload tail : node_inv o → dual_stack (oa_dht o) → e ∈ oa_entries o →
  live (oa_mono_time o) e → src_ok (oe_ret_ip_port e) → zlen (oe_ret e) = 177 → zlen (oe_public_key e) = 32 →
  72 < zlen payload <= 1190 → zlen tail = 177 →
  net_log (dht_net (oa_dht (handle_data_request from
      ([NET_PACKET_ONION_DATA_REQUEST] ++ oe_public_key e ++ payload ++ tail) (33 + zlen payload + 177) o).2)) =
  net_log (dht_net (oa_dht o)) ++
    [(wire_dest (oe_ret_ip_port e), [NET_PACKET_ONION_RECV_3] ++ oe_ret e ++ [NET_PACKET_ONION_DATA_RESPONSE] ++ payload)].
Proof using.
  intros Ho Hn He Hl Hs Hr Hk Hp Ht. unfold handle_data_request. change DATA_REQUEST_MIN_SIZE_RECV with 282.
  change ONION_MAX_PACKET_SIZE with 1400. replace (_ <=? 282) with false by lia. replace (1400 <? _) with false by lia.
  rewrite run_get. change CRYPTO_PUBLIC_KEY_SIZE with 32.
  assert (slice 1 32 ([NET_PACKET_ONION_DATA_REQUEST] ++ oe_public_key e ++ payload ++ tail) = oe_public_key e) as -> by by slices.
  destruct (stored_is_found o e Ho He Hl) as (i & -> & Ei). rewrite Ei. change (default empty_onion_entry (Some e)) with e.
  change ONION_RETURN_3 with 177.
  replace (33 + zlen payload + 177 - (1 + 32 + 177)) with (zlen payload) by lia.
  assert (slice (1 + 32) (zlen payload) ([NET_PACKET_ONION_DATA_REQUEST] ++ oe_public_key e ++ payload ++ tail) = payload) as -> by by slices.
  destruct (onion_response_run (dht_net (oa_dht o)) (oe_ret_ip_port e) ([NET_PACKET_ONION_DATA_RESPONSE] ++ payload)
    (33 + zlen payload + 177 - (32 + 177)) (oe_ret e)) as (res & net & Es & _ & Hlog);
    [done|done|rewrite zlen_app; change (zlen [_]) with 1; lia|lia|done|].
  unfold mbind, M_bind, on_dht. rewrite Es. cbn. exact Hlog.
Qed.

(** ** Theorem *)

(** C22: Who announces itself is reached.  A friend asks a node for a ping id;
    the response, which only the friend can read, holds one, and the nodes the
    node knows closest to the friend's key.  With the ping id, at most 300
    seconds later and from the same address, whatever the node did in between,
    it announces itself; if the table has a place for it, it is stored and the
    node confirms (a 2 in the response).  From then on, for 300 seconds and as
    long as no nearer announcement took its place in the table, whatever anybody
    sends to the friend's key through this node goes out, unchanged, along the
    return path the friend announced.  The node uses IPv6, which reaches both
    kinds of addresses, and has memory for the requests of the friend. *)
Theorem announced_friend_is_reached o source pk sk dpk k ret stack rng1 sb1 rng2 sb2 :
  announce_reachable o → dual_stack (oa_dht o) → src_ok source → key_ok pk → zlen dpk = 32 → zlen ret = ONION_RETURN_3 →
  encrypt_precompute (dht_self_public_key (oa_dht o)) sk = Some k →
  encrypt_precompute pk (dht_self_secret_key (oa_dht o)) = Some k →
  let request rng pid sb := create_announce_request true stack rng ONION_ANNOUNCE_REQUEST_MIN_SIZE
                              (dht_self_public_key (oa_dht o)) pk sk pid pk dpk sb in
  let handle r o := handle_announce_request_old all_memory source (r ++ ret) ANNOUNCE_REQUEST_SIZE_RECV o in
  ∃ r1 res1 o1 c1 b1 data1,
    (request rng1 (zeros 32) sb1).1 = Some r1 ∧ handle r1 o = (Returned res1, o1) ∧
    own_response o o1 source pk dpk ret k sb1 c1 b1 data1 ∧
    ∀ o2, rtc announce_step o1 o2 → dual_stack (oa_dht o2) → clock (oa_mono_time o2) <= clock (oa_mono_time o) + 300 →
      entry_position o2 pk ≠ None →
      let e := mkEntry pk source ret dpk (clock (oa_mono_time o2)) in
      ∃ r2 res2 o3 c2 data2,
        (request rng2 (ping_id_of o source pk) sb2).1 = Some r2 ∧ handle r2 o2 = (Returned res2, o3) ∧
        own_response o2 o3 source pk dpk ret k sb2 c2 2 data2 ∧ e ∈ oa_entries o3 ∧
        ∀ o4 from payload tail, rtc announce_step o3 o4 → dual_stack (oa_dht o4) →
          clock (oa_mono_time o4) < clock (oa_mono_time o2) + 300 → e ∈ oa_entries o4 →
          72 < zlen payload <= 1190 → zlen tail = 177 →
          let packet := [NET_PACKET_ONION_DATA_REQUEST] ++ pk ++ payload ++ tail in
          net_log (dht_net (oa_dht (handle_data_request from packet (zlen packet) o4).2)) = net_log (dht_net (oa_dht o4)) ++
            [(wire_dest source, [NET_PACKET_ONION_RECV_3] ++ ret ++ [NET_PACKET_ONION_DATA_RESPONSE] ++ payload)].
Proof using Law QL.
  intros Hr Hn Hs Hpk Hd Hret Hk1 Hk2. cbv zeta. apply reachable_inv in Hr as Ho.
  change ANNOUNCE_REQUEST_SIZE_RECV with 354. change ONION_RETURN_3 with 177 in Hret.
  destruct (create_announce_request_ok stack rng1 _ pk sk (zeros 32) pk dpk sb1 k Hk1) as (n1 & x1 & rng1' & -> & Hn1 & Hx1 & _ & Hd1);
    [done|apply Hpk|done|apply Hpk|].
  destruct (announce_run o source pk dpk (zeros 32) sb1 k n1 x1 ret) as (res1 & o1 & c1 & b1 & data1 & E1 & R1 & _); try done.
  eexists _, res1, o1, c1, b1, data1. split; [done|]. split; [exact E1|]. split; [done|].
  intros o2 Hsteps Hn2 Ht2 Hpos. destruct (steps_later _ _ Hsteps (or_inv _ _ _ _ _ _ _ _ _ _ _ R1)) as [Ho2 L2].
  destruct L2 as [Hh2 _ Hsk2 Hc2]. rewrite (or_hmac _ _ _ _ _ _ _ _ _ _ _ R1) in Hh2.
  rewrite (or_secret _ _ _ _ _ _ _ _ _ _ _ R1) in Hsk2. rewrite (or_time _ _ _ _ _ _ _ _ _ _ _ R1) in Hc2.
  assert (zlen (ping_id_of o source pk) = 32) as Hpid by apply zlen_ping_id.
  destruct (create_announce_request_ok stack rng2 _ pk sk (ping_id_of o source pk) pk dpk sb2 k Hk1)
    as (n2 & x2 & rng2' & -> & Hx2n & Hx2 & _ & Hd2); [done|apply Hpk|done|apply Hpk|].
  destruct (announce_run o2 source pk dpk (ping_id_of o source pk) sb2 k n2 x2 ret)
    as (res2 & o3 & c2 & b2 & data2 & E2 & R2 & Hstored); try done; [by rewrite Hsk2|].
  pose proof (w_time _ (ni_dht _ Ho)) as Htm. pose proof (w_time _ (ni_dht _ Ho2)) as Htm2. unfold time_ok in Htm, Htm2.
  destruct Hstored as [-> He]; [|done|].
  { destruct (timed_auth_window [] [] (oa_mono_time o) (oa_mono_time o2) 300 (oa_hmac_key o) (pk ++ ip_port_memory source) 64) as [Hw _];
      [lia|unfold oa_mono_time in *; lia..|]. rewrite Hh2. apply Hw. lia. }
  eexists _, res2, o3, c2, data2. split; [done|]. split; [exact E2|]. split; [done|]. split; [done|].
  intros o4 from payload tail Hsteps4 Hn4 Ht4 He4 Hp Htl.
  destruct (steps_later _ _ Hsteps4 (or_inv _ _ _ _ _ _ _ _ _ _ _ R2)) as [Ho4 [_ _ _ Hc4]].
  rewrite (or_time _ _ _ _ _ _ _ _ _ _ _ R2) in Hc4. pose proof (w_time _ (ni_dht _ Ho4)) as Htm4. unfold time_ok in Htm4.
  set (e := mkEntry pk source ret dpk (clock (oa_mono_time o2))) in *.
  replace (zlen ([NET_PACKET_ONION_DATA_REQUEST] ++ pk ++ payload ++ tail)) with (33 + zlen payload + 177)
    by (destruct Hpk; rewrite !zlen_app; change (zlen [_]) with 1; lia).
  apply (data_request_run o4 e); try done.
  - unfold entry_timed_out. change (mono_time_is_timeout (oa_mono_time o4) (clock (oa_mono_time o2)) 300 = false).
    apply is_timeout_false; unfold oa_mono_time in *; lia.
  - apply Hpk.
Qed.
End exchange.

(** A node, 100 seconds later, and 100 seconds after that. *)
Definition at_time (o : Onion_Announce) (t : Mono_Time) : Onion_Announce :=
  o <| oa_dht := (oa_dht o) <| dht_mono_time := t |> |>.

Lemma at_time_clock o t : oa_mono_time (at_time o t) = t.
Proof. done. Qed.

Lemma at_time_entries o t : oa_entries (at_time o t) = oa_entries o.
Proof. done. Qed.

Lemma at_time_step {Sod : Sodium} {Q : Qsort} o t : dht_wf (oa_dht o) → clock (oa_mono_time o) <= clock t < 2 ^ 63 →
  announce_step o (at_time o t).
Proof.
  intros Ho Ht. pose proof (w_time _ Ho) as Ht0. unfold time_ok, oa_mono_time in *.
  apply announce_dht; [|done|done|exact (proj1 Ht)]. apply tick_wf; [done|unfold time_ok; lia].
Qed.

Definition demo_own_request (pid : bytes) (sb : Z) : bytes :=
  default [] (create_announce_request (Sod := toy_sodium) true [] sample_rng ONION_ANNOUNCE_REQUEST_MIN_SIZE
    (dht_self_public_key (oa_dht demo_oa)) (replicate 32 51) (replicate 32 1) pid (replicate 32 51) (replicate 32 4) sb).1.

Definition demo_handle (request : bytes) (o : Onion_Announce) : Announce_Result * Onion_Announce :=
  handle_announce_request_old (Sod := toy_sodium) (Q := isort) all_memory demo_addr (request ++ replicate 177 6)
    ANNOUNCE_REQUEST_SIZE_RECV o.

Definition demo_asked : Onion_Announce := (demo_handle (demo_own_request (zeros 32) 5) demo_oa).2.

Definition demo_announced : Onion_Announce :=
  (demo_handle (demo_own_request (ping_id_of (Sod := toy_sodium) demo_oa demo_addr (replicate 32 51)) 6)
     (at_time demo_asked (mkMonoTime 1100 0))).2.

Lemma announced_friend_is_reached_witness :
  let o := at_time demo_announced (mkMonoTime 1300 0) in
  net_log (dht_net (oa_dht (handle_data_request demo_addr
      ([NET_PACKET_ONION_DATA_REQUEST] ++ replicate 32 51 ++ replicate 100 8 ++ replicate 177 7) 310 o).2)) =
  net_log (dht_net (oa_dht o)) ++
    [(wire_dest demo_addr, [NET_PACKET_ONION_RECV_3] ++ replicate 177 6 ++ [NET_PACKET_ONION_DATA_RESPONSE] ++ replicate 100 8)].
Proof.
  cbv zeta.
  destruct (@announced_friend_is_reached toy_sodium toy_sodium_laws isort isort_laws demo_oa demo_addr (replicate 32 51) (replicate 32 1)
    (replicate 32 4) (replicate 32 108) (replicate 177 6) [] sample_rng 5 sample_rng 6)
    as (r1 & res1 & o1 & c1 & b1 & data1 & H1 & H2 & H3 & H4).
  - apply demo_oa_reachable.
  - vm_compute. reflexivity.
  - apply demo_addr_ok.
  - split; [done|]. by apply (Forall_replicate _ 32).
  - done.
  - done.
  - vm_compute. reflexivity.
  - vm_compute. reflexivity.
  - assert (r1 = demo_own_request (zeros 32) 5) as -> by (unfold demo_own_request; by rewrite H1).
    assert (o1 = demo_asked) as -> by (unfold demo_asked, demo_handle; by rewrite H2).
    assert (clock (oa_mono_time demo_asked) = 1000) as Hc1 by (vm_compute; reflexivity).
    destruct (H4 (at_time demo_asked (mkMonoTime 1100 0))) as (r2 & res2 & o3 & c2 & data2 & K1 & K2 & K3 & Ke & K4).
    + apply rtc_once, at_time_step; [apply H3|rewrite Hc1; cbn; lia].
    + vm_compute. reflexivity.
    + assert (clock (oa_mono_time demo_oa) = 1000) as -> by (vm_compute; reflexivity). cbn. lia.
    + assert (entry_position (at_time demo_asked (mkMonoTime 1100 0)) (replicate 32 51) = Some 159%nat) as -> by (vm_compute; reflexivity).
      done.
    + assert (r2 = demo_own_request (ping_id_of (Sod := toy_sodium) demo_oa demo_addr (replicate 32 51)) 6) as ->
        by (unfold demo_own_request; by rewrite K1).
      assert (o3 = demo_announced) as E3 by (unfold demo_announced, demo_handle; by rewrite K2).
      assert (oa_mono_time o3 = mkMonoTime 1100 0) as Hc3 by (rewrite (or_time _ _ _ _ _ _ _ _ _ _ _ K3); apply at_time_clock).
      specialize (K4 (at_time o3 (mkMonoTime 1300 0)) demo_addr (replicate 100 8) (replicate 177 7)).
      rewrite at_time_entries, !at_time_clock in K4. rewrite <- E3. apply K4.
      * apply rtc_once, at_time_step; [exact (ni_dht _ (or_inv _ _ _ _ _ _ _ _ _ _ _ K3))|rewrite Hc3; split; done].
      * exact (or_net _ _ _ _ _ _ _ _ _ _ _ K3).
      * done.
      * exact Ke.
      * split; vm_compute; [reflexivity|discriminate].
      * reflexivity.
Defined.
