(* ===== verification/OnionOverflow.v ===== *)
(** * OnionOverflow: the size of a response to a group announcement

    The response of [handle_announce_request_common] is encrypted into an array
    of [ONION_ANNOUNCE_RESPONSE_MAX_SIZE] bytes.  Without group announcements it
    always fits.  The size leaves room for four group announcements of 136 bytes
    but not for the four nodes in front of them, so that four announcements of
    104 bytes, which members of a group can place, do not fit. *)
From S2P Require Import Prelude MonoTime CryptoCore SharedKeyCache TimedAuth Network LanDiscovery World DhtDistance DhtPackets.
From S2P Require Import DhtLists Dht DhtSound DhtProtocol Onion GroupPacket GroupAnnounce OnionAnnounce OnionTable OnionExchange.

(** ** Announcements of the largest size *)

(** An announcement with an IPv6 address and a relay with an IPv6 address. *)
Definition full_announce (a : GC_Announce) : Prop :=
  announce_ok a ∧ ann_ip_port_is_set a = true ∧ ann_tcp_relays_count a = 1 ∧
  ip_family (ipp_ip (ann_ip_port a)) = TOX_AF_INET6 ∧ Forall (λ n, family_v4 (node_family n) = false) (ann_tcp_relays a).

Lemma pack_full a room : full_announce a → 136 <= room < 2 ^ 16 →
  ∃ d, gca_pack_announce room a = Some d ∧ zlen d = 104.
Proof.
  intros ((Hkey & Hrl & _ & Hv & Hip & Hr) & Hset & Hcount & Hf & H6) Hroom. unfold keyed in Hkey.
  unfold gca_pack_announce. rewrite Hset, Hcount. change GCA_ANNOUNCE_MAX_SIZE with 136. change (ENC_PUBLIC_KEY_SIZE + 2) with 34.
  replace (room <? 136) with false by lia. cbn [negb andb]. rewrite (u16_small (room - 34)) by lia.
  destruct (Hip Hset) as [Hok Hpk].
  destruct (pack_ip_port_spec false (room - 34) (ann_ip_port a) Hok Hpk) as (di & -> & Hdi & _); [rewrite Hf; change (packed_node_size TOX_AF_INET6) with 51; lia|].
  rewrite Hf in Hdi. change (packed_node_size TOX_AF_INET6 - 32) with 19 in Hdi. cbn [mbind option_bind]. rewrite Hdi.
  rewrite u16_small by lia. specialize (Hr Hcount).
  destruct (ann_tcp_relays a) as [|n [|]]; try (unfold zlen in Hrl; simpl in Hrl; lia).
  apply list.Forall_cons in Hr as [[(Hnk & Hnb & Hni) Hnf] _], H6 as [H6 _].
  destruct (family_table true _ Hnf) as (b & _ & _ & Hsz). rewrite H6 in Hsz. unfold node_family in *.
  unfold pack_nodes. change (Z.to_nat 1) with 1%nat. cbn [take pack_nodes_loop].
  replace (0 <? room - (34 + 19)) with true by lia. cbn [negb]. rewrite Z.sub_0_r, u16_small by lia.
  destruct (pack_ip_port_spec true (room - (34 + 19)) (nf_ip_port n) Hni Hnf) as (dn & -> & Hdn & _); [lia|].
  change CRYPTO_PUBLIC_KEY_SIZE with 32. replace (room - (34 + 19) <? 0 + zlen dn + 32) with false by lia.
  cbn [mbind option_bind]. eexists. split; [done|]. rewrite !zlen_app, Hkey, Hdi, Hnk, Hdn, Hsz.
  change (zlen [_]) with 1. change (zlen [_]) with 1. change (zlen (@nil Z)) with 0. lia.
Qed.

Lemma pack_full_list l : Forall full_announce l → ∀ room off, 0 <= off → off + 104 * zlen l + 32 <= room < 2 ^ 16 →
  ∃ d, pack_announces_loop room off l = Some d ∧ zlen d = 104 * zlen l.
Proof.
  induction 1 as [|a l Ha _ IH]; intros room off Hoff Hroom; [by exists []|].
  rewrite zlen_cons in *. pose proof (zlen_nonneg l). cbn [pack_announces_loop]. rewrite u16_small by lia.
  destruct (pack_full a (room - off) Ha) as (da & -> & Hda); [lia|]. cbn [mbind option_bind].
  rewrite Hda, u16_small by lia. destruct (IH room (off + 104)) as (d & -> & Hd); [lia..|]. cbn [mbind option_bind].
  eexists. split; [done|]. rewrite zlen_app. lia.
Qed.

(** ** A group with four other members *)

(** The members a query finds. *)
Lemma answers_four pk log r ks : answers 4 pk log r → NoDup ks → zlen ks = 4 → pk ∉ ks →
  (∀ k, k ∈ ks → ∃ a, a ∈ recent log ∧ ann_peer_public_key (base_announce a) = k) → zlen r = 4.
Proof.
  intros [_ _ _ Hmax Hall] Hn Hl Hpk Hks. destruct (Z.lt_ge_cases (zlen r) 4) as [Hlt|]; [|lia].
  exfalso. assert (ks ⊆+ (ann_peer_public_key <$> r)) as Hsub.
  { apply NoDup_submseteq; [done|]. intros k Hk. destruct (Hks k Hk) as (a & Ha & <-). apply Hall; [done|done|congruence]. }
  apply submseteq_length in Hsub. rewrite length_fmap in Hsub. unfold zlen in *. lia.
Qed.

Lemma recent_snoc log x a : a ∈ drop (length log - 15) log → a ∈ recent (log ++ [x]).
Proof.
  intros Ha. unfold recent. rewrite length_app. cbn [length]. replace (length log + 1 - 16)%nat with (length log - 15)%nat by lia.
  rewrite drop_app. apply elem_of_app. by left.
Qed.

Lemma find_update id f l gr : find_group id l = Some gr → (∀ x, gr_chat_id (f x) = gr_chat_id x) →
  find_group id (update_group id f l) = Some (f gr).
Proof.
  intros H Hf. induction l as [|x l IH]; [done|]. cbn in *. destruct (decide (gr_chat_id x = id)) as [E|E]; cbn.
  - rewrite decide_True by (by rewrite Hf). congruence.
  - rewrite decide_False by done. auto.
Qed.

(** Announcing oneself in a group that is known. *)
Lemma gca_add_found g A t pub gr : gca_rel g A → zlen (chat_public_key pub) = 32 →
  find_group (chat_public_key pub) (ab_groups A) = Some gr →
  ∃ g' a index n, (∀ malloc, gca_add_announce malloc t g pub = Some (g', Some (a, index))) ∧ gca_heap g' !! a = Some n ∧
    aget (mkPeerAnnounce empty_announce 0) (as_peer_announces n) index = mkPeerAnnounce (pub_base_announce pub) (mono_time_get t).
Proof.
  intros (gs & Hrep & HF & _) Hid Hf. unfold gca_add_announce.
  destruct (get_by_chat_id _ _ _ (chat_public_key pub) Hrep HF Hid)
    as [[Hf' _]|(l & a & c & r & grs1 & gr' & grs2 & -> & _ & _ & Hc & _ & _ & _ & _ & ->)]; [congruence|].
  cbn [mbind option_bind]. rewrite (rep_lookup _ _ _ _ _ Hrep). cbn [mbind option_bind].
  eexists _, a, _, _. split; [done|]. split; [apply lookup_insert_eq|]. cbn. apply aget_aset_eq. rewrite (h_slots _ _ Hc).
  apply Z.mod_pos_bound. done.
Qed.

(** The callback writes four announcements. *)
Lemma pack_group_four malloc stack_ann t num plain size g A gr pub ksz ks :
  gca_rel g A → gca_bound (2 ^ 63) A → gca_unpack_public_announce plain size stack_ann = Some (ksz, pub) →
  gca_op_ok (Gca_Add true t pub) → find_group (chat_public_key pub) (ab_groups A) = Some gr →
  Forall (λ a, full_announce (base_announce a)) (gr_log gr) → full_announce (pub_base_announce pub) →
  NoDup ks → zlen ks = 4 → ann_peer_public_key (pub_base_announce pub) ∉ ks →
  (∀ k, k ∈ ks → ∃ a, a ∈ drop (length (gr_log gr) - 15) (gr_log gr) ∧ ann_peer_public_key (base_announce a) = k) →
  ∃ d g', pack_group_announces malloc stack_ann t num plain size 782 238 g = Some (Some d, g') ∧ zlen d = 416.
Proof.
  intros Hrel Hb Hun Hop Hf Hfull Hnew Hn Hl Hpk Hks. unfold pack_group_announces. rewrite Hun. destruct Hop as [Hid Hkl].
  destruct (gca_add_found g A t pub gr Hrel Hid Hf) as (g1 & a & index & n & Eadd & Ha & Hslot).
  rewrite Eadd. cbn [mbind option_bind]. rewrite Ha. cbn [mbind option_bind]. rewrite Hslot. cbn [base_announce].
  assert (∀ h : gmap addr GC_Announces, h !! fresh (dom h) = None) as Hfresh
    by (intros h; apply not_elem_of_dom; apply is_fresh).
  destruct (gca_add_step (2 ^ 63) (λ h, fresh (dom h)) g A t pub true) as (g1' & res & A1 & E1 & S1 & R1 & B1); try done.
  cbn [run_gca_op] in E1. rewrite Eadd in E1. cbn [mbind option_bind] in E1. injection E1 as <- <-.
  inversion S1; subst; clear S1.
  destruct (gca_op_step (2 ^ 63 + 1) (λ h, fresh (dom h)) g1 _ (Gca_Get 4 (chat_public_key pub) (ann_peer_public_key (pub_base_announce pub)))
    Hfresh R1 B1) as (g2 & res & A2 & E2 & S2 & _); [done|done|done|].
  cbn [run_gca_op] in E2. change GCA_MAX_SENT_ANNOUNCES with 4.
  destruct (gca_get_announces g1 4 _ _) as [r|]; [|done]. cbn [mbind option_bind] in E2 |- *. injection E2 as <- <-.
  pose proof (find_update _ (record_announce t pub) _ _ Hf ltac:(done)) as Hfu.
  inversion S2; subst; [cbn in *; congruence|]. cbn [ab_groups] in *. rewrite Hfu in *. simplify_eq.
  match goal with H : answers 4 _ _ r0 |- _ => rename H into Hans end.
  assert (zlen r0 = 4) as Hr.
  { eapply answers_four; try done. intros k Hk. destruct (Hks k Hk) as (x & Hx & Ex). exists x. split; [|done].
    by apply recent_snoc. }
  assert (Forall full_announce r0) as Hfr.
  { apply list.Forall_forall. intros x Hx. destruct (ans_recent _ _ _ _ Hans x Hx) as (y & Hy & <-).
    apply elem_of_recent in Hy as (i & Hi & _). cbn in Hi. apply list_elem_of_lookup_2 in Hi.
    apply elem_of_app in Hi as [Hi|Hi%list_elem_of_singleton]; [by apply (proj1 (list.Forall_forall _ _) Hfull)|by subst]. }
  change (u16 (782 - 238)) with 544. destruct (pack_full_list r0 Hfr 544 0) as (d & Ed & Hd); [lia..|].
  unfold gca_pack_announces_list. rewrite Ed. exists d, g1. split; [done|]. lia.
Qed.

Section sizes.
Context {Sod : Sodium} {Law : SodiumLaws Sod} {Q : Qsort} {QL : QsortLaws Q}.

(** ** Responses without group announcements *)

Definition returned (r : Announce_Result) : Prop := ∃ x, r = Returned x.

Lemma response_fits mem o source id key nonce sb response offset ret : offset <= 577 →
  returned (send_announce_response mem source id key nonce sb response offset ret o).1.
Proof using.
  intros Ho. unfold send_announce_response, returned.
  change (1 + ONION_ANNOUNCE_SENDBACK_DATA_LENGTH + CRYPTO_NONCE_SIZE) with 33. change CRYPTO_MAC_SIZE with 16.
  change ONION_ANNOUNCE_RESPONSE_MAX_SIZE with 626.
  destruct encrypt_data_symmetric as [len enc]. destruct (negb _) eqn:E; [by eexists|].
  replace (626 <? 33 + len) with false by lia. unfold mbind, M_bind. destruct (on_dht _ o). by eexists.
Qed.

Lemma answer_fits mem o source packet len id want extra key plain pid index : dht_wf (oa_dht o) →
  returned (answer_announce mem source packet len id want extra None key plain pid index o).1.
Proof using.
  intros Hd. unfold answer_announce. run (close_run o (slice 32 32 plain) TOX_AF_UNSPEC (ip_is_lan (ipp_ip source)) false).
  pose proof (packed_answer (oa_dht o) (slice 32 32 plain) (ip_is_lan (ipp_ip source)) Hd) as Ha.
  destruct get_close_nodes as [nodes num]. destruct Ha as (Hnum & data & Hpk & Hpos & Hdl & _ & Hun).
  replace (num <=? 255) with true by lia. cbn [negb].
  destruct (oa_draw_run o random_nonce) as (nonce & rng & En & Er). run Er. rewrite run_get.
  destruct (negb (al_response mem)); [by eexists|]. rewrite Hpk.
  destruct (_ && _); [by eexists|]. unfold call_extra at 1. unfold mbind at 1, M_bind at 1. apply response_fits.
  change (1 + ONION_PING_ID_SIZE) with 33. change (zlen (@nil Z)) with 0. pose proof (zlen_nonneg data).
  rewrite Z.add_0_r. rewrite !u16_small by (destruct want; rewrite ?u16_small by lia; lia). destruct want; lia.
Qed.

Lemma common_fits mem o source packet len id size want extra : node_inv o → bytes_ok packet →
  returned (handle_announce_request_common mem source packet len id size want extra None o).1.
Proof using QL.
  intros Ho Hb. unfold handle_announce_request_common. unfold oa_lookup at 1. unfold mbind at 1, M_bind at 1.
  destruct (shared_key_cache_lookup _ _) as [[k|] c]; [|by eexists]. destruct (negb (al_plain mem)); [by eexists|].
  destruct decrypt_data_symmetric as [l plain].
  destruct (negb _); [by eexists|]. rewrite run_get. set (o1 := o <| oa_shared_keys_recv := c |>).
  destruct (check_timed_auth _ _ _ _ _ _ _).
  - unfold mbind, M_bind. match goal with |- context [add_to_entries ?s ?a ?b ?c ?d o1] => set (r := add_to_entries s a b c d o1) end.
    assert (oa_dht r.2 = oa_dht o) as Er by (unfold r, add_to_entries; destruct entry_position; done).
    destruct r as [i o2]. cbn [snd] in Er. apply answer_fits. rewrite Er. apply Ho.
  - rewrite run_get. apply answer_fits, Ho.
Qed.

(** ** Responses with group announcements *)

Lemma packed_size_v6 nodes : Forall (λ n, packable false (node_family n) = true) nodes →
  Forall (λ n, family_v4 (node_family n) = false) nodes → packed_size nodes = 51 * zlen nodes.
Proof using.
  induction 1 as [|n nodes Hn _ IH]; intros H6; [done|]. apply list.Forall_cons in H6 as [Hf H6].
  rewrite packed_size_cons, zlen_cons, IH by done. destruct (family_table _ _ Hn) as (b & _ & _ & ->). rewrite Hf. lia.
Qed.

Lemma encrypt_size key nonce plain len : len ≠ 0 → (encrypt_data_symmetric true key nonce plain len).1 = len + 16.
Proof using Law.
  intros Hl. unfold encrypt_data_symmetric. replace (len =? 0) with false by lia. cbn [negb].
  destruct (afternm_total (zeros 32 ++ slice 0 len plain) nonce key) as (c & Hc & _); [by rewrite take_app_length'|].
  change crypto_box_ZEROBYTES with 32. rewrite Hc. done.
Qed.

(** A response with four IPv6 nodes and 416 bytes of announcements. *)
Lemma answer_overflows o source packet len id f key plain pid index d g : dht_wf (oa_dht o) →
  zlen (answer (oa_dht o) (slice 32 32 plain) (ip_is_lan (ipp_ip source))) = 4 →
  Forall (λ n, family_v4 (node_family n) = false) (answer (oa_dht o) (slice 32 32 plain) (ip_is_lan (ipp_ip source))) →
  f (oa_mono_time o) 4 (drop 104 plain) (len - 354) 782 238 (oa_extra_data_object o) = Some (Some d, g) → zlen d = 416 →
  (answer_announce all_memory source packet len id true 544 (Some f) key plain pid index o).1 = Overflow 703.
Proof using Law.
  intros Hd H4 H6 Hf Hdl. unfold answer_announce. run (close_run o (slice 32 32 plain) TOX_AF_UNSPEC (ip_is_lan (ipp_ip source)) false).
  pose proof (packed_answer (oa_dht o) (slice 32 32 plain) (ip_is_lan (ipp_ip source)) Hd) as Ha.
  destruct (answer_ok (oa_dht o) (slice 32 32 plain) (ip_is_lan (ipp_ip source)) Hd) as [Hu _].
  assert (packed_size (answer (oa_dht o) (slice 32 32 plain) (ip_is_lan (ipp_ip source))) = 204) as Hps.
  { rewrite packed_size_v6; [lia| |done]. eapply list.Forall_impl; [exact Hu|]. by intros ? []. }
  revert Ha H4. unfold answer in *. destruct get_close_nodes as [nodes num]. intros (Hnum & data & Hpk & _ & _ & Hsz & _) H4.
  rewrite Hps in Hsz. assert (num = 4) as -> by (unfold zlen in H4; rewrite length_take in H4; lia).
  cbn [Z.leb Z.compare Pos.compare Pos.compare_cont negb].
  destruct (oa_draw_run o random_nonce) as (nonce & rng & En & Er). run Er. rewrite run_get. change (al_response all_memory) with true.
  cbn [negb]. rewrite Hpk, Hsz.
  change (negb (4 =? 0) && (204 <=? 0)) with false. cbv iota.
  change (u16 (1 + ONION_PING_ID_SIZE + 1 + 204)) with 238.
  change (u16 (1 + ONION_PING_ID_SIZE + 1 + MAX_SENT_NODES * PACKED_NODE_SIZE_IP6 + 544)) with 782.
  set (o1 := o <| oa_dht := _ |>). unfold call_extra at 1. unfold mbind at 1, M_bind at 1.
  change (oa_mono_time o1) with (oa_mono_time o). change (oa_extra_data_object o1) with (oa_extra_data_object o).
  change (Z.to_nat ONION_MINIMAL_SIZE) with 104%nat. change ANNOUNCE_REQUEST_MIN_SIZE_RECV with 354. rewrite Hf, Hdl.
  change (u16 (238 + 416)) with 654. unfold send_announce_response. change (al_encrypt all_memory) with true.
  match goal with |- context [encrypt_data_symmetric true key nonce ?p 654] => pose proof (encrypt_size key nonce p 654) as Hs end.
  destruct encrypt_data_symmetric as [l e]. cbn [fst] in Hs. rewrite Hs by done. done.
Qed.

(** ** Theorems *)

(** As long as no callback for extra data is registered, no packet makes a
    node write outside the array it builds its response in, and no assertion
    fails, whatever allocation fails. *)
Theorem announce_response_fits mem o id handler source packet :
  announce_reachable o → oa_extra_data_callback o = None → announce_packethandlers mem id = Some handler →
  packet_ok packet (zlen packet) → returned (handler source packet (zlen packet) o).1.
Proof using Law QL.
  intros Hr Hcb Hh [Hp _]. apply reachable_inv in Hr. unfold announce_packethandlers in Hh. repeat case_match; simplify_eq.
  - unfold handle_announce_request, handle_gca_announce_request. destruct (negb _); [|by apply common_fits].
    destruct (_ || _); [by eexists|]. rewrite !run_get, Hcb. by eexists.
  - unfold handle_announce_request_old. destruct (negb _); [by eexists|]. by apply common_fits.
  - unfold mbind, M_bind. destruct handle_data_request. by eexists.
Qed.

(** C35: Members of a group can make a node write outside its stack buffer.  A
    node that stores group announcements (as [gca_onion_init] sets it up), that
    knows four nodes with IPv6 addresses near the key asked for, and that has
    announcements of four members of a group, each with an IPv6 address and one
    TCP relay with an IPv6 address, answers the announcement of a fifth such
    member with 703 bytes, which it writes into an array of 626 bytes. *)
Theorem group_announce_overflows malloc stack_ann o source packet key plain ksz pub A gr ks :
  announce_reachable o → packet_ok packet (zlen packet) → 354 < zlen packet <= 490 →
  oa_extra_data_callback o = Some (pack_group_announces malloc stack_ann) → oa_extra_data_max_size o = 544 →
  encrypt_precompute (slice 25 32 packet) (dht_self_secret_key (oa_dht o)) = Some key →
  decrypt_data_symmetric true key (slice 1 24 packet) (drop 57 packet) (zlen packet - 234) = (zlen packet - 250, plain) →
  zlen (answer (oa_dht o) (slice 32 32 plain) (ip_is_lan (ipp_ip source))) = 4 →
  Forall (λ n, family_v4 (node_family n) = false) (answer (oa_dht o) (slice 32 32 plain) (ip_is_lan (ipp_ip source))) →
  gca_rel (oa_extra_data_object o) A → gca_bound (2 ^ 63) A →
  gca_unpack_public_announce (drop 104 plain) (zlen packet - 354) stack_ann = Some (ksz, pub) →
  gca_op_ok (Gca_Add true (oa_mono_time o) pub) → find_group (chat_public_key pub) (ab_groups A) = Some gr →
  Forall (λ a, full_announce (base_announce a)) (gr_log gr) → full_announce (pub_base_announce pub) →
  NoDup ks → zlen ks = 4 → ann_peer_public_key (pub_base_announce pub) ∉ ks →
  (∀ k, k ∈ ks → ∃ a, a ∈ drop (length (gr_log gr) - 15) (gr_log gr) ∧ ann_peer_public_key (base_announce a) = k) →
  (handle_announce_request all_memory source packet (zlen packet) o).1 = Overflow 703 ∧ ONION_ANNOUNCE_RESPONSE_MAX_SIZE = 626.
Proof using Law QL.
  intros Hr Hp Hlen Hcb Hmax Hk Hdec H4 H6 Hrel Hb Hun Hop Hf Hfull Hnew Hn Hl Hpk Hks. apply reachable_inv in Hr as Ho.
  split; [|done].
  unfold handle_announce_request, handle_gca_announce_request. change ANNOUNCE_REQUEST_MIN_SIZE_RECV with 354.
  change ANNOUNCE_REQUEST_MAX_SIZE_RECV with 490. replace (zlen packet =? 354) with false by lia. cbn [negb].
  replace (490 <? zlen packet) with false by lia. replace (zlen packet <=? 354) with false by lia. cbn [orb].
  rewrite !run_get, Hcb, Hmax. unfold handle_announce_request_common.
  change (1 + CRYPTO_NONCE_SIZE) with 25. change CRYPTO_PUBLIC_KEY_SIZE with 32. change CRYPTO_NONCE_SIZE with 24.
  assert (bytes_ok (slice 25 32 packet)) as Hpkb by (destruct Hp; by apply slice_bytes_ok).
  pose proof (lookup_keeps _ _ _ _ (ni_cache _ Ho) (w_time _ (ni_dht _ Ho)) Hpkb) as Hlk.
  unfold oa_lookup at 1. unfold mbind at 1, M_bind at 1.
  destruct (shared_key_cache_lookup _ _) as [k c]. destruct Hlk as [-> Hca]. rewrite Hk.
  change (al_plain all_memory) with true. change (al_decrypt all_memory) with true. change (al_sort all_memory) with true. cbn [negb].
  change ONION_MINIMAL_SIZE with 104. change CRYPTO_MAC_SIZE with 16. change (Z.to_nat (25 + 32)) with 57%nat.
  replace (104 + zlen packet - 354 + 16) with (zlen packet - 234) by lia. rewrite Hdec.
  rewrite u32_small by lia. replace (zlen packet - 250 =? 104 + zlen packet - 354) with true by lia. cbn [negb]. rewrite run_get.
  destruct (pack_group_four malloc stack_ann (oa_mono_time o) 4 _ _ _ A gr pub ksz ks Hrel Hb Hun Hop Hf Hfull Hnew Hn Hl Hpk Hks)
    as (d & g & Ecb & Hd).
  set (o1 := o <| oa_shared_keys_recv := c |>). destruct (check_timed_auth _ _ _ _ _ _ _).
  - unfold mbind, M_bind. match goal with |- context [add_to_entries true ?a ?b ?c ?d o1] => set (r := add_to_entries true a b c d o1) end.
    assert (oa_dht r.2 = oa_dht o ∧ oa_extra_data_object r.2 = oa_extra_data_object o) as [E1 E2]
      by (unfold r, add_to_entries; destruct entry_position; done).
    destruct r as [i o2]. cbn [snd] in E1, E2. unfold oa_mono_time in Ecb.
    eapply answer_overflows; unfold oa_mono_time; rewrite ?E1, ?E2; try done. apply Ho.
  - rewrite run_get. eapply (answer_overflows o1); try done. apply Ho.
Qed.
End sizes.

(** ** Concrete runs *)

Lemma announce_response_fits_witness :
  returned (handle_announce_request_old (Sod := toy_sodium) (Q := isort) all_memory demo_addr
    (demo_friend_request (mkMonoTime 1000 0)) (zlen (demo_friend_request (mkMonoTime 1000 0))) demo_oa).1.
Proof.
  apply (@announce_response_fits toy_sodium toy_sodium_laws isort isort_laws all_memory demo_oa NET_PACKET_ANNOUNCE_REQUEST_OLD).
  - apply demo_oa_reachable.
  - vm_compute. reflexivity.
  - reflexivity.
  - apply demo_friend_request_ok.
Defined.

(** A node that knows four IPv6 nodes and four members of a group. *)
Definition addr6 (k : Z) : IP_Port := mkIPPort (mkIP TOX_AF_INET6 ([32; 1] ++ replicate 14 k)) 33445.

Lemma addr6_ok k : is_u8 k → src_ok (addr6 k).
Proof.
  intros Hk. split; [|by right]. split; [|done]. split; [done|]. apply Forall_app. split; [by repeat constructor|].
  by apply (Forall_replicate _ 14).
Qed.

Definition demo_close (k : Z) (d : DHT) : DHT := (add_to_close (Sod := toy_sodium) true (replicate 32 k) (addr6 k) false d).2.

Definition demo_v6 : DHT := demo_close 12 (demo_close 11 (demo_close 10 (demo_close 9 (demo_node 7)))).

Lemma demo_close_wf k d : is_u8 k → dht_wf (Sod := toy_sodium) d → dht_wf (Sod := toy_sodium) (demo_close k d).
Proof.
  intros Hk Hd. apply (hoare_add_to_close true (replicate 32 k) (addr6 k) false); [|by apply addr6_ok|done].
  split; [done|]. by apply (Forall_replicate _ 32).
Qed.

Lemma demo_v6_wf : dht_wf (Sod := toy_sodium) demo_v6.
Proof. do 4 (apply demo_close_wf; [done|]). apply (demo_node_wf 7). vm_compute. reflexivity. Qed.

Definition demo_member (k : Z) (g : GC_Announces_List) : GC_Announces_List :=
  match gca_add_announce (Some 1%positive) (mkMonoTime 1000 0) g (demo_public k) with Some (g', _) => g' | None => g end.

Definition demo_group : GC_Announces_List := demo_member 4 (demo_member 3 (demo_member 2 (demo_member 1 new_gca_list))).

Definition demo_v6_oa : Onion_Announce :=
  (gca_onion_init (Some 1%positive) empty_announce demo_group
     (default demo_oa (new_onion_announce true demo_v6))).2.

Definition demo_member_request : bytes :=
  default [] (default None (create_gca_announce_request (Sod := toy_sodium) true [] sample_rng ONION_ANNOUNCE_REQUEST_MAX_SIZE
                (dht_self_public_key demo_v6) (replicate 32 51) (replicate 32 1) (zeros 32) (replicate 32 9) (replicate 32 4) 77
                (default [] (gca_pack_public_announce 500 (demo_public 5))) 136).1) ++ replicate 177 6.

Definition demo_log : list GC_Peer_Announce := (λ k, mkPeerAnnounce (demo_announce k) 1000) <$> [1; 2; 3; 4].

Lemma demo_group_rel : gca_rel demo_group (mkGroups [mkGroup (replicate 32 7) demo_log 1000] 0).
Proof.
  exists [(1%positive, mkCell (replicate 32 7) 4 1000 (demo_log ++ replicate 12 (mkPeerAnnounce empty_announce 0)))].
  split; [|split; [|reflexivity]].
  - split; [by apply list.NoDup_singleton|reflexivity|vm_compute; reflexivity].
  - constructor; [|constructor]. split; try done.
    + intros k a _. destruct k as [|[|[|[|k]]]]; cbn; intros [=]; by subst.
    + by repeat constructor.
Qed.

Lemma demo_announce_full k : is_u8 k → is_u8 (k + 100) → full_announce (demo_announce k).
Proof.
  intros Hk Hk'. split; [|done || (split; [done|]; split; [done|]; split; [done|]; by repeat constructor)].
  split; [done|]. split; [done|]. split; [by right|]. split; [done|]. split.
  - intros _. split; [|done]. split; [|done]. split; [done|]. by apply (Forall_replicate _ 16).
  - intros _. constructor; [|constructor]. split; [|done]. split; [done|]. split; [by apply (Forall_replicate _ 32)|].
    split; [|done]. split; [done|]. by apply (Forall_replicate _ 16).
Qed.

Lemma demo_log_full : Forall (λ a, full_announce (base_announce a)) demo_log.
Proof.
  unfold demo_log. apply Forall_fmap.
  repeat apply list.Forall_cons_2; try apply list.Forall_nil_2; apply demo_announce_full; unfold is_u8; lia.
Qed.

Lemma demo_log_elem k : 1 <= k <= 4 → mkPeerAnnounce (demo_announce k) 1000 ∈ drop (length demo_log - 15) demo_log.
Proof.
  intros Hk. change (drop _ demo_log) with demo_log. unfold demo_log. apply (list_elem_of_fmap_2 (λ k, mkPeerAnnounce (demo_announce k) 1000)).
  rewrite !elem_of_cons. lia.
Qed.

Lemma demo_keys k : k ∈ [replicate 32 1; replicate 32 2; replicate 32 3; replicate 32 4] →
  ∃ a, a ∈ drop (length demo_log - 15) demo_log ∧ ann_peer_public_key (base_announce a) = k.
Proof.
  intros Hk. assert (∃ j, 1 <= j <= 4 ∧ k = replicate 32 j) as (j & Hj & ->).
  { rewrite !elem_of_cons in Hk. destruct Hk as [->|[->|[->|[->|Hk]]]]; [by exists 1|by exists 2|by exists 3|by exists 4|].
    by apply elem_of_nil in Hk. }
  exists (mkPeerAnnounce (demo_announce j) 1000). split; [by apply demo_log_elem|reflexivity].
Qed.

Lemma demo_v6_oa_reachable : announce_reachable (Sod := toy_sodium) (Q := isort) demo_v6_oa.
Proof.
  exists demo_v6, (default demo_oa (new_onion_announce true demo_v6)). split; [apply demo_v6_wf|].
  split; [vm_compute; reflexivity|]. apply rtc_once, announce_callback.
Qed.

Lemma demo_member_request_ok : packet_ok demo_member_request (zlen demo_member_request) ∧ zlen demo_member_request = 490.
Proof. split; [|vm_compute; reflexivity]. split; [by apply (bool_decide_unpack _); vm_compute|]. split; [done|by vm_compute]. Qed.

Lemma group_announce_overflows_witness :
  (handle_announce_request (Sod := toy_sodium) (Q := isort) all_memory demo_addr demo_member_request (zlen demo_member_request) demo_v6_oa).1
    = Overflow 703 ∧ ONION_ANNOUNCE_RESPONSE_MAX_SIZE = 626.
Proof.
  destruct demo_member_request_ok as [Hok Hlen].
  apply (@group_announce_overflows toy_sodium toy_sodium_laws isort isort_laws (Some 1%positive) empty_announce demo_v6_oa demo_addr
    demo_member_request (replicate 32 108)
    (zeros 32 ++ replicate 32 9 ++ replicate 32 4 ++ le_bytes 8 77 ++ default [] (gca_pack_public_announce 500 (demo_public 5)))
    136 (demo_public 5) (mkGroups [mkGroup (replicate 32 7) demo_log 1000] 0) (mkGroup (replicate 32 7) demo_log 1000)
    [replicate 32 1; replicate 32 2; replicate 32 3; replicate 32 4]).
  - apply demo_v6_oa_reachable.
  - exact Hok.
  - rewrite Hlen. lia.
  - reflexivity.
  - reflexivity.
  - vm_compute. reflexivity.
  - rewrite Hlen. vm_compute. reflexivity.
  - vm_compute. reflexivity.
  - apply (bool_decide_unpack _). vm_compute. done.
  - apply demo_group_rel.
  - by repeat constructor.
  - rewrite Hlen. vm_compute. reflexivity.
  - split; reflexivity.
  - reflexivity.
  - apply demo_log_full.
  - apply demo_announce_full; unfold is_u8; lia.
  - apply (bool_decide_unpack _). vm_compute. done.
  - done.
  - apply (bool_decide_unpack _). vm_compute. done.
  - exact demo_keys.
Defined.
