(* ===== verification/CryptoSign.v ===== *)
(** * CryptoSign: signatures, SHA-256 and extended keys of [toxcore/crypto_core.c]

    The class [SodiumSign] lists the signature functions of libsodium and its
    SHA-256, [SodiumSignLaws] what their documentation promises; [toy_sign] is an
    instance that satisfies the laws and runs.  An extended key is an encryption
    key followed by a signature key. *)
From S2P Require Import Prelude CryptoCore GroupPacket GroupAnnounce.

Definition CRYPTO_SIGNATURE_SIZE : Z := 64.
Definition CRYPTO_SIGN_PUBLIC_KEY_SIZE : Z := 32.
Definition CRYPTO_SIGN_SECRET_KEY_SIZE : Z := 64.
Definition CRYPTO_SHA256_SIZE : Z := 32.
Definition SIGNATURE_SIZE : Z := CRYPTO_SIGNATURE_SIZE.
Definition SIG_PUBLIC_KEY_SIZE : Z := CRYPTO_SIGN_PUBLIC_KEY_SIZE.
Definition SIG_SECRET_KEY_SIZE : Z := CRYPTO_SIGN_SECRET_KEY_SIZE.
Definition ENC_SECRET_KEY_SIZE : Z := 32.
Definition EXT_PUBLIC_KEY_SIZE : Z := ENC_PUBLIC_KEY_SIZE + SIG_PUBLIC_KEY_SIZE.
Definition EXT_SECRET_KEY_SIZE : Z := ENC_SECRET_KEY_SIZE + SIG_SECRET_KEY_SIZE.

(** [crypto_sign_keypair] draws a seed and derives the pair of keys from it. *)
Class SodiumSign := {
  crypto_sign_keypair : bytes → bytes * bytes;                    (** seed; public key, secret key *)
  crypto_sign_detached : bytes → bytes → option bytes;            (** message, secret key *)
  crypto_sign_verify_detached : bytes → bytes → bytes → bool;     (** signature, message, public key *)
  crypto_sign_ed25519_pk_to_curve25519 : bytes → option bytes;
  crypto_sign_ed25519_sk_to_curve25519 : bytes → option bytes;
  crypto_hash_sha256 : bytes → bytes
}.

(** Documented behaviour: the keys have their sizes, signing succeeds, a
    signature verifies under the public key that belongs to the secret key, the
    keys of a pair convert to encryption keys, a hash has 32 bytes. *)
Class SodiumSignLaws (G : SodiumSign) := {
  keypair_ok : ∀ seed, zlen (crypto_sign_keypair seed).1 = 32 ∧ bytes_ok (crypto_sign_keypair seed).1
    ∧ zlen (crypto_sign_keypair seed).2 = 64;
  sign_total : ∀ m sk, zlen sk = 64 → ∃ s, crypto_sign_detached m sk = Some s ∧ zlen s = 64 ∧ bytes_ok s;
  verify_sign : ∀ seed m s, crypto_sign_detached m (crypto_sign_keypair seed).2 = Some s →
    crypto_sign_verify_detached s m (crypto_sign_keypair seed).1 = true;
  pk_converts : ∀ seed, ∃ k, crypto_sign_ed25519_pk_to_curve25519 (crypto_sign_keypair seed).1 = Some k ∧ zlen k = 32;
  sk_converts : ∀ seed, ∃ k, crypto_sign_ed25519_sk_to_curve25519 (crypto_sign_keypair seed).2 = Some k ∧ zlen k = 32;
  sha256_ok : ∀ d, zlen (crypto_hash_sha256 d) = 32 ∧ bytes_ok (crypto_hash_sha256 d)
}.

(** ** Extended keys *)

Definition get_enc_key (key : bytes) : bytes := slice 0 ENC_PUBLIC_KEY_SIZE key.
Definition get_sig_pk (key : bytes) : bytes := slice ENC_PUBLIC_KEY_SIZE SIG_PUBLIC_KEY_SIZE key.
Definition set_sig_pk (key sig_pk : bytes) : bytes := slice 0 ENC_PUBLIC_KEY_SIZE key ++ slice 0 SIG_PUBLIC_KEY_SIZE sig_pk.
Definition get_sig_sk (key : bytes) : bytes := slice ENC_SECRET_KEY_SIZE SIG_SECRET_KEY_SIZE key.
Definition get_chat_id (key : bytes) : bytes := slice ENC_PUBLIC_KEY_SIZE CHAT_ID_SIZE key.

Section sign.
Context {G : SodiumSign}.

(** [seed] is what [crypto_sign_keypair] draws; [pk0], [sk0] are the encryption
    keys the buffers hold where a conversion fails. *)
Definition create_extended_keypair (seed pk0 sk0 : bytes) : bool * bytes * bytes :=
  let '(pk, sk) := crypto_sign_keypair seed in
  let res1 := crypto_sign_ed25519_pk_to_curve25519 pk in
  let res2 := crypto_sign_ed25519_sk_to_curve25519 sk in
  (bool_decide (is_Some res1) && bool_decide (is_Some res2), default pk0 res1 ++ pk, default sk0 res2 ++ sk).

Definition crypto_signature_create (message secret_key : bytes) : option bytes := crypto_sign_detached message secret_key.
Definition crypto_signature_verify (signature message public_key : bytes) : bool :=
  crypto_sign_verify_detached signature message public_key.
Definition crypto_sha256 (data : bytes) : bytes := crypto_hash_sha256 data.

Context {L : SodiumSignLaws G}.

(** An extended key pair: what [create_extended_keypair] gives. *)
Definition ext_keypair (pk sk : bytes) : Prop :=
  ∃ seed pk0 sk0, create_extended_keypair seed pk0 sk0 = (true, pk, sk).

Lemma ext_keypair_sizes pk sk : ext_keypair pk sk → zlen pk = 64 ∧ zlen sk = 96.
Proof using L.
  intros (seed & pk0 & sk0 & E). unfold create_extended_keypair in E.
  pose proof (keypair_ok seed) as (H1 & _ & H2).
  destruct (pk_converts seed) as (k1 & E1 & L1). destruct (sk_converts seed) as (k2 & E2 & L2).
  destruct (crypto_sign_keypair seed) as [p s]. cbn [fst snd] in *. rewrite E1, E2 in E.
  cbn [default] in E. injection E as <- <-. split; zlens.
Qed.

Lemma ext_keypair_sig pk sk : ext_keypair pk sk →
  ∃ seed, crypto_sign_keypair seed = (get_sig_pk pk, get_sig_sk sk).
Proof using L.
  intros (seed & pk0 & sk0 & E). exists seed. unfold create_extended_keypair in E.
  pose proof (keypair_ok seed) as (H1 & _ & H2).
  destruct (pk_converts seed) as (k1 & E1 & L1). destruct (sk_converts seed) as (k2 & E2 & L2).
  destruct (crypto_sign_keypair seed) as [p s]. cbn [fst snd] in *. rewrite E1, E2 in E.
  cbn [default] in E. injection E as <- <-.
  unfold get_sig_pk, get_sig_sk, ENC_PUBLIC_KEY_SIZE, SIG_PUBLIC_KEY_SIZE, CRYPTO_SIGN_PUBLIC_KEY_SIZE,
    ENC_SECRET_KEY_SIZE, SIG_SECRET_KEY_SIZE, CRYPTO_SIGN_SECRET_KEY_SIZE, CRYPTO_PUBLIC_KEY_SIZE.
  f_equal; symmetry; slices; done.
Qed.

(** What the owner of an extended key signs verifies under its public part. *)
Lemma ext_sign_verifies pk sk m : ext_keypair pk sk →
  ∃ s, crypto_sign_detached m (get_sig_sk sk) = Some s ∧ zlen s = 64 ∧ bytes_ok s
    ∧ crypto_sign_verify_detached s m (get_sig_pk pk) = true.
Proof using L.
  intros H. destruct (ext_keypair_sig pk sk H) as [seed E].
  pose proof (keypair_ok seed) as (_ & _ & Hs). rewrite E in Hs. cbn [snd] in Hs.
  destruct (sign_total m (get_sig_sk sk) Hs) as (s & Es & Hl & Hb). exists s. split_and!; try done.
  pose proof (verify_sign seed m s) as V. rewrite E in V. by apply V.
Qed.
End sign.

(** ** A concrete library

    The secret key is the public key twice; a signature is the hash of the
    message in front of the public key. *)
Definition toy_hash (d : bytes) : bytes := take 32 (map u8 (rev d ++ [zlen d] ++ zeros 32)).

Definition toy_sign : SodiumSign := {|
  crypto_sign_keypair seed := (take 32 (map u8 seed ++ zeros 32),
                               take 32 (map u8 seed ++ zeros 32) ++ take 32 (map u8 seed ++ zeros 32));
  crypto_sign_detached m sk := Some (toy_hash m ++ take 32 (map u8 sk ++ zeros 32));
  crypto_sign_verify_detached s m pk := bytes_eqb s (toy_hash m ++ take 32 (map u8 pk ++ zeros 32));
  crypto_sign_ed25519_pk_to_curve25519 pk := Some (take 32 (pk ++ zeros 32));
  crypto_sign_ed25519_sk_to_curve25519 sk := Some (take 32 (sk ++ zeros 32));
  crypto_hash_sha256 := toy_hash
|}.

Lemma map_u8_ok l : bytes_ok (map u8 l).
Proof. induction l; constructor; auto with cint. Qed.

Lemma map_u8_id l : bytes_ok l → map u8 l = l.
Proof. induction 1 as [|b l Hb _ IH]; simpl; [done|]. rewrite IH, u8_small by done. done. Qed.

Lemma zlen_pad32 l : zlen (take 32 (l ++ zeros 32)) = 32.
Proof. unfold zlen. rewrite length_take, length_app, length_zeros. lia. Qed.

Lemma pad32_ok l : bytes_ok l → bytes_ok (take 32 (l ++ zeros 32)).
Proof. intros. apply Forall_take, Forall_app. split; [done|apply zeros_ok]. Qed.

Lemma pad32_idem l r : bytes_ok l →
  take 32 (map u8 (take 32 (l ++ zeros 32) ++ r) ++ zeros 32) = take 32 (l ++ zeros 32).
Proof.
  intros Hl. rewrite map_app, map_u8_id by (by apply pad32_ok). rewrite <- app_assoc.
  apply take_app_length'. pose proof (zlen_pad32 l). unfold zlen in *. lia.
Qed.

Lemma toy_hash_ok d : zlen (toy_hash d) = 32 ∧ bytes_ok (toy_hash d).
Proof.
  unfold toy_hash. split; [|apply Forall_take, map_u8_ok].
  unfold zlen. rewrite length_take, length_map, !length_app, length_zeros. lia.
Qed.

Lemma toy_sign_laws : SodiumSignLaws toy_sign.
Proof.
  split; cbn [crypto_sign_keypair crypto_sign_detached crypto_sign_verify_detached crypto_hash_sha256
    crypto_sign_ed25519_pk_to_curve25519 crypto_sign_ed25519_sk_to_curve25519 toy_sign fst snd].
  - intros seed. rewrite zlen_app, !zlen_pad32. split_and!; [done|apply pad32_ok, map_u8_ok|done].
  - intros m sk _. eexists. split; [done|]. destruct (toy_hash_ok m) as [Hl Hb].
    rewrite zlen_app, Hl, zlen_pad32. split; [done|]. apply Forall_app. split; [done|apply pad32_ok, map_u8_ok].
  - intros seed m s E%(inj Some). subst s. unfold bytes_eqb. rewrite bool_decide_eq_true. f_equal.
    rewrite pad32_idem by apply map_u8_ok.
    pose proof (pad32_idem (map u8 seed) [] (map_u8_ok _)) as E. by rewrite app_nil_r in E.
  - intros seed. eexists. split; [done|apply zlen_pad32].
  - intros seed. eexists. split; [done|apply zlen_pad32].
  - intros d. apply toy_hash_ok.
Qed.
