(* ===== verification/GroupModeration.v ===== *)
(** * GroupModeration: moderators and sanctions, [toxcore/group_moderation.c]

    The founder of a group names moderators; moderators and the founder turn
    peers into observers by signed sanctions.  The list of sanctions carries
    credentials: a version and a hash of the whole list, signed by whoever
    changed it last.  This file models the two lists, their wire formats and the
    checks; an array with the number of its elements is a list.  What the list
    of sanctions keeps true is proved in [SanctionsSync].

    Allocations succeed or fail as [alloc] says, by the place that asks. *)
From S2P Require Import Prelude Util CryptoCore Network GroupPacket GroupAnnounce CryptoSign.

Definition MOD_MODERATION_HASH_SIZE : Z := CRYPTO_SHA256_SIZE.
Definition MOD_LIST_ENTRY_SIZE : Z := SIG_PUBLIC_KEY_SIZE.
Definition MOD_SANCTION_HASH_SIZE : Z := CRYPTO_SHA256_SIZE.
Definition TIME_STAMP_SIZE : Z := 8.
Definition MOD_SANCTIONS_CREDS_SIZE : Z := 4 + MOD_SANCTION_HASH_SIZE + 2 + SIG_PUBLIC_KEY_SIZE + SIGNATURE_SIZE.
Definition MOD_SANCTION_PACKED_SIZE : Z :=
  SIG_PUBLIC_KEY_SIZE + TIME_STAMP_SIZE + 1 + ENC_PUBLIC_KEY_SIZE + SIGNATURE_SIZE.
Definition MAX_PACKET_SIZE_NO_HEADERS : Z := 49900.
Definition MOD_MAX_NUM_MODERATORS_LIMIT : Z := MAX_PACKET_SIZE_NO_HEADERS / MOD_LIST_ENTRY_SIZE.
Definition MOD_MAX_NUM_MODERATORS : Z := MOD_MAX_NUM_MODERATORS_LIMIT / 16 + 3.
Definition MOD_MAX_NUM_SANCTIONS_LIMIT : Z :=
  (MAX_PACKET_SIZE_NO_HEADERS - MOD_SANCTIONS_CREDS_SIZE) / MOD_SANCTION_PACKED_SIZE.
Definition MOD_MAX_NUM_SANCTIONS : Z := MOD_MAX_NUM_SANCTIONS_LIMIT / 12.
Definition SA_OBSERVER : Z := 0.
Definition SA_INVALID : Z := 1.

Record Mod_Sanction_Creds := mkCreds {
  sc_version : Z;
  sc_hash : bytes;
  sc_checksum : Z;
  sc_sig_pk : bytes;
  sc_sig : bytes
}.

Record Mod_Sanction := mkSanction {
  ms_setter_public_sig_key : bytes;
  ms_time_set : Z;
  ms_type : Z;
  ms_target_public_enc_key : bytes;
  ms_signature : bytes
}.

(** [sanctions] stands for [sanctions] and [num_sanctions], [mod_list] for
    [mod_list] and [num_mods]. *)
Record Moderation := mkModeration {
  sanctions : list Mod_Sanction;
  sanctions_creds : Mod_Sanction_Creds;
  mod_list : list bytes;
  mo_founder_public_sig_key : bytes;
  mo_self_public_sig_key : bytes;
  mo_self_secret_sig_key : bytes;
  mo_shared_state_version : Z
}.

#[export] Instance eta_creds : Eta Mod_Sanction_Creds := λ c,
  mkCreds (sc_version c) (sc_hash c) (sc_checksum c) (sc_sig_pk c) (sc_sig c).
#[export] Instance eta_sanction : Eta Mod_Sanction := λ s,
  mkSanction (ms_setter_public_sig_key s) (ms_time_set s) (ms_type s) (ms_target_public_enc_key s) (ms_signature s).
#[export] Instance eta_moderation : Eta Moderation := λ m,
  mkModeration (sanctions m) (sanctions_creds m) (mod_list m) (mo_founder_public_sig_key m)
    (mo_self_public_sig_key m) (mo_self_secret_sig_key m) (mo_shared_state_version m).

#[export] Instance creds_eq_dec : EqDecision Mod_Sanction_Creds.
Proof. solve_decision. Defined.
#[export] Instance sanction_eq_dec : EqDecision Mod_Sanction.
Proof. solve_decision. Defined.

Definition num_sanctions (m : Moderation) : Z := zlen (sanctions m).
Definition num_mods (m : Moderation) : Z := zlen (mod_list m).

(** The places that allocate. *)
Inductive alloc_site :=
  | ModListArray
  | ModListEntry (i : nat)
  | ModListHash
  | SanctionsHash
  | SanctionsCopy
  | SanctionsNew.

Section moderation.
Context {G : SodiumSign}.
Variable alloc : alloc_site → bool.

(** ** The list of moderators *)

Definition mod_list_packed_size (m : Moderation) : Z := u16 (num_mods m * MOD_LIST_ENTRY_SIZE).

Definition mod_list_cleanup (m : Moderation) : Moderation := m <| mod_list := [] |>.

(** The loop of [mod_list_unpack] over the entries [i], [i + 1], ...; [None]
    where an entry cannot be allocated. *)
Fixpoint mod_list_unpack_loop (n i : nat) (data : bytes) : option (list bytes) :=
  match n with
  | O => Some []
  | S n' =>
      if negb (alloc (ModListEntry i)) then None
      else
        rest ← mod_list_unpack_loop n' (S i) data;
        Some (slice (Z.of_nat i * MOD_LIST_ENTRY_SIZE) MOD_LIST_ENTRY_SIZE data :: rest)
  end.

Definition mod_list_unpack (m : Moderation) (data : bytes) (length num : Z) : Z * Moderation :=
  if length <? num * MOD_LIST_ENTRY_SIZE then (-1, m)
  else
    let m := mod_list_cleanup m in
    if num =? 0 then (0, m)
    else if negb (alloc ModListArray) then (-1, m)
    else
      match mod_list_unpack_loop (Z.to_nat num) 0 data with
      | None => (-1, m)
      | Some tmp_list => (u16 (num * MOD_LIST_ENTRY_SIZE), m <| mod_list := tmp_list |>)
      end.

Definition mod_list_pack (m : Moderation) : bytes := concat (map (slice 0 MOD_LIST_ENTRY_SIZE) (mod_list m)).

Definition mod_list_get_data_hash (packed_mod_list : bytes) : bytes := crypto_sha256 packed_mod_list.

Definition mod_list_make_hash (m : Moderation) : option bytes :=
  if num_mods m =? 0 then Some (zeros MOD_MODERATION_HASH_SIZE)
  else if negb (alloc ModListHash) then None
  else Some (mod_list_get_data_hash (slice 0 (mod_list_packed_size m) (mod_list_pack m))).

(** The loop of [mod_list_index_of_sig_pk]. *)
Fixpoint mod_list_index (l : list bytes) (i : Z) (public_sig_key : bytes) : Z :=
  match l with
  | [] => -1
  | k :: l' => if bytes_eqb k public_sig_key then i else mod_list_index l' (i + 1) public_sig_key
  end.

Definition mod_list_index_of_sig_pk (m : Moderation) (public_sig_key : bytes) : Z :=
  mod_list_index (mod_list m) 0 public_sig_key.

Definition mod_list_verify_sig_pk (m : Moderation) (sig_pk : bytes) : bool :=
  bytes_eqb (mo_founder_public_sig_key m) sig_pk || existsb (λ k, bytes_eqb k sig_pk) (mod_list m).

(** The last entry takes the place of the removed one; when the array cannot be
    shrunk the entry is gone all the same. *)
Definition mod_list_remove_index (m : Moderation) (index : Z) : bool * Moderation :=
  if num_mods m <=? index then (false, m)
  else if num_mods m - 1 =? 0 then (true, mod_list_cleanup m)
  else
    let last := num_mods m - 1 in
    let l := if negb (index =? last) then aset (mod_list m) index (aget [] (mod_list m) last) else mod_list m in
    (alloc ModListArray, m <| mod_list := take (Z.to_nat last) l |>).

Definition mod_list_remove_entry (m : Moderation) (public_sig_key : bytes) : bool * Moderation :=
  if num_mods m =? 0 then (false, m)
  else
    let idx := mod_list_index_of_sig_pk m public_sig_key in
    if idx =? -1 then (false, m) else mod_list_remove_index m (u16 idx).

Definition mod_list_add_entry (m : Moderation) (mod_data : bytes) : bool * Moderation :=
  if MOD_MAX_NUM_MODERATORS <=? num_mods m then (false, m)
  else if negb (alloc ModListArray) then (false, m)
  else if negb (alloc (ModListEntry (length (mod_list m)))) then (false, m)
  else (true, m <| mod_list := mod_list m ++ [slice 0 MOD_LIST_ENTRY_SIZE mod_data] |>).

(** ** Wire format of the sanctions *)

Definition sanctions_creds_pack (creds : Mod_Sanction_Creds) : bytes :=
  net_pack_u32 (sc_version creds) ++ sc_hash creds ++ net_pack_u16 (sc_checksum creds) ++
  sc_sig_pk creds ++ sc_sig creds.

Definition sanctions_list_packed_size (num : Z) : Z := u16 (MOD_SANCTION_PACKED_SIZE * num).

(** The loop of [sanctions_list_pack]: [data] is what was written so far, its
    length is [packed_len]. *)
Fixpoint sanctions_pack_loop (length : Z) (l : list Mod_Sanction) (data : bytes) : option bytes :=
  match l with
  | [] => Some data
  | s :: l' =>
      if length <? zlen data + 1 + SIG_PUBLIC_KEY_SIZE + TIME_STAMP_SIZE then None
      else
        let data := data ++ [ms_type s] ++ ms_setter_public_sig_key s ++ net_pack_u64 (ms_time_set s) in
        if negb (ms_type s =? SA_OBSERVER) then None
        else if length <? zlen data + ENC_PUBLIC_KEY_SIZE then None
        else
          let data := data ++ ms_target_public_enc_key s in
          if length <? zlen data + SIGNATURE_SIZE then None
          else sanctions_pack_loop length l' (data ++ ms_signature s)
  end.

(** What was packed, [None] for -1. *)
Definition sanctions_list_pack (length : Z) (l : list Mod_Sanction) (creds : option Mod_Sanction_Creds) : option bytes :=
  data ← sanctions_pack_loop length l [];
  match creds with
  | None => Some data
  | Some c =>
      if (length <? zlen data) || (length - zlen data <? MOD_SANCTIONS_CREDS_SIZE) then None
      else
        let packed := sanctions_creds_pack c in
        if negb (zlen packed =? MOD_SANCTIONS_CREDS_SIZE) then None else Some (data ++ packed)
  end.

(** The credentials at the start of [data] and the number of bytes read. *)
Definition sanctions_creds_unpack (data : bytes) : Mod_Sanction_Creds * Z :=
  (mkCreds (net_unpack_u32 data)
     (slice 4 MOD_SANCTION_HASH_SIZE data)
     (net_unpack_u16 (drop (Z.to_nat (4 + MOD_SANCTION_HASH_SIZE)) data))
     (slice (4 + MOD_SANCTION_HASH_SIZE + 2) SIG_PUBLIC_KEY_SIZE data)
     (slice (4 + MOD_SANCTION_HASH_SIZE + 2 + SIG_PUBLIC_KEY_SIZE) SIGNATURE_SIZE data),
   4 + MOD_SANCTION_HASH_SIZE + 2 + SIG_PUBLIC_KEY_SIZE + SIGNATURE_SIZE).

(** The loop of [sanctions_list_unpack]; [n] is how many more sanctions it may
    read. The result is the sanctions and [len_processed]. *)
Fixpoint sanctions_unpack_loop (n : nat) (data : bytes) (length len : Z) (acc : list Mod_Sanction) :
    option (list Mod_Sanction * Z) :=
  match n with
  | O => Some (acc, len)
  | S n' =>
      if negb (len <? length) then Some (acc, len)
      else if length <? len + 1 + SIG_PUBLIC_KEY_SIZE + TIME_STAMP_SIZE then None
      else
        let type := aget 0 data len in
        let setter := slice (len + 1) SIG_PUBLIC_KEY_SIZE data in
        let time := net_unpack_u64 (drop (Z.to_nat (len + 1 + SIG_PUBLIC_KEY_SIZE)) data) in
        let len := u16 (len + 1 + SIG_PUBLIC_KEY_SIZE + TIME_STAMP_SIZE) in
        if negb (type =? SA_OBSERVER) then None
        else if length <? len + ENC_PUBLIC_KEY_SIZE then None
        else
          let target := slice len ENC_PUBLIC_KEY_SIZE data in
          let len := u16 (len + ENC_PUBLIC_KEY_SIZE) in
          if length <? len + SIGNATURE_SIZE then None
          else sanctions_unpack_loop n' data length (u16 (len + SIGNATURE_SIZE))
                 (acc ++ [mkSanction setter time type target (slice len SIGNATURE_SIZE data)])
  end.

(** The sanctions, the credentials and [*processed_data_len]; [None] for -1.
    When the data ends after the sanctions, the credentials the caller passed
    are left as they are. *)
Definition sanctions_list_unpack (creds : Mod_Sanction_Creds) (max_sanctions : Z) (data : bytes) (length : Z) :
    option (list Mod_Sanction * Mod_Sanction_Creds * Z) :=
  '(l, len) ← sanctions_unpack_loop (Z.to_nat (Z.min max_sanctions MOD_MAX_NUM_SANCTIONS)) data length 0 [];
  if (length <=? len) || (length - len <? MOD_SANCTIONS_CREDS_SIZE) then
    if negb (length =? len) then None else Some (l, creds, len)
  else
    let '(creds, creds_len) := sanctions_creds_unpack (drop (Z.to_nat len) data) in
    if negb (creds_len =? MOD_SANCTIONS_CREDS_SIZE) then None else Some (l, creds, u16 (len + creds_len)).

(** ** Checks *)

Definition sanctions_list_make_hash (l : list Mod_Sanction) (new_version : Z) : option bytes :=
  if zlen l =? 0 then Some (zeros MOD_SANCTION_HASH_SIZE)
  else
    let data_buf_size := zlen l * SIGNATURE_SIZE + 4 in
    if data_buf_size <? zlen l then None
    else if negb (alloc SanctionsHash) then None
    else Some (crypto_sha256 (concat (map (λ s, slice 0 SIGNATURE_SIZE (ms_signature s)) l) ++ le_bytes 4 new_version)).

(** What is signed: the packed sanction without its signature. *)
Definition sanction_signed_data (s : Mod_Sanction) : option bytes :=
  packed_data ← sanctions_list_pack MOD_SANCTION_PACKED_SIZE [s] None;
  if zlen packed_data <=? SIGNATURE_SIZE then None
  else Some (slice 0 (zlen packed_data - SIGNATURE_SIZE) packed_data).

Definition sanctions_list_validate_entry (m : Moderation) (s : Mod_Sanction) : bool :=
  if negb (mod_list_verify_sig_pk m (ms_setter_public_sig_key s)) then false
  else if SA_INVALID <=? ms_type s then false
  else if ms_time_set s =? 0 then false
  else
    match sanction_signed_data s with
    | None => false
    | Some data => crypto_signature_verify (ms_signature s) data (ms_setter_public_sig_key s)
    end.

Definition sanctions_creds_get_checksum (creds : Mod_Sanction_Creds) : Z := data_checksum (sc_hash creds).

Definition sanctions_creds_set_checksum (creds : Mod_Sanction_Creds) : Mod_Sanction_Creds :=
  creds <| sc_checksum := sanctions_creds_get_checksum creds |>.

Definition sanctions_list_make_creds (m : Moderation) : bool * Moderation :=
  let c := sanctions_creds m in
  let c := c <| sc_version := u32 (sc_version c + 1) |> in
  let c := c <| sc_sig_pk := mo_self_public_sig_key m |> in
  match sanctions_list_make_hash (sanctions m) (sc_version c) with
  | None => (false, m)
  | Some hash =>
      let c := sanctions_creds_set_checksum (c <| sc_hash := hash |>) in
      match crypto_signature_create (sc_hash c) (mo_self_secret_sig_key m) with
      | None => (false, m)
      | Some sig => (true, m <| sanctions_creds := c <| sc_sig := sig |> |>)
      end
  end.

Definition sanctions_creds_validate (m : Moderation) (l : list Mod_Sanction) (creds : Mod_Sanction_Creds) : bool :=
  if negb (mod_list_verify_sig_pk m (sc_sig_pk creds)) then false
  else
    match sanctions_list_make_hash l (sc_version creds) with
    | None => false
    | Some hash =>
        if negb (bytes_eqb hash (sc_hash creds)) then false
        else if negb (sc_checksum creds =? sanctions_creds_get_checksum creds) then false
        else if (0 <? mo_shared_state_version m) &&
                ((sc_version creds <? sc_version (sanctions_creds m)) &&
                 negb ((sc_version creds =? 0) && (sc_version (sanctions_creds m) =? UINT32_MAX))) then false
        else crypto_signature_verify (sc_sig creds) hash (sc_sig_pk creds)
    end.

Definition sanctions_list_check_integrity (m : Moderation) (creds : Mod_Sanction_Creds) (l : list Mod_Sanction) : bool :=
  if negb (forallb (sanctions_list_validate_entry m) l) then false else sanctions_creds_validate m l creds.

(** ** Changing the list *)

Definition sanctions_list_cleanup (m : Moderation) : Moderation := m <| sanctions := [] |>.

Definition sanctions_apply_new (m : Moderation) (new_sanctions : list Mod_Sanction) (new_creds : option Mod_Sanction_Creds) :
    bool * Moderation :=
  match new_creds with
  | None => (true, (sanctions_list_cleanup m) <| sanctions := new_sanctions |>)
  | Some c =>
      if negb (sanctions_creds_validate m new_sanctions c) then (false, m)
      else
        let m := m <| sanctions_creds := c |> in
        (true, (sanctions_list_cleanup m) <| sanctions := new_sanctions |>)
  end.

Definition sanctions_list_copy (l : list Mod_Sanction) : option (list Mod_Sanction) :=
  if alloc SanctionsCopy then Some l else None.

Definition empty_sanction : Mod_Sanction := mkSanction (zeros 32) 0 0 (zeros 32) (zeros 64).

Definition sanctions_list_remove_index (m : Moderation) (index : Z) (creds : option Mod_Sanction_Creds) : bool * Moderation :=
  if num_sanctions m <=? index then (false, m)
  else
    let new_num := num_sanctions m - 1 in
    if new_num =? 0 then
      match creds with
      | Some c =>
          if negb (sanctions_creds_validate m [] c) then (false, m)
          else (true, sanctions_list_cleanup (m <| sanctions_creds := c |>))
      | None => (true, sanctions_list_cleanup m)
      end
    else
      match sanctions_list_copy (sanctions m) with
      | None => (false, m)
      | Some copy =>
          let copy := if negb (index =? new_num) then aset copy index (aget empty_sanction copy new_num) else copy in
          if negb (alloc SanctionsNew) then (false, m)
          else sanctions_apply_new m (take (Z.to_nat new_num) copy) creds
      end.

(** The loops that look for the sanction of a peer: its index. *)
Fixpoint find_observer (l : list Mod_Sanction) (i : Z) (public_key : bytes) : option Z :=
  match l with
  | [] => None
  | s :: l' =>
      if negb (ms_type s =? SA_OBSERVER) then find_observer l' (i + 1) public_key
      else if bytes_eqb (slice 0 ENC_PUBLIC_KEY_SIZE public_key) (ms_target_public_enc_key s) then Some i
      else find_observer l' (i + 1) public_key
  end.

Definition sanctions_list_remove_observer (m : Moderation) (public_key : bytes) (creds : option Mod_Sanction_Creds) :
    bool * Moderation :=
  match find_observer (sanctions m) 0 public_key with
  | None => (false, m)
  | Some i =>
      let '(ok, m) := sanctions_list_remove_index m i creds in
      if negb ok then (false, m)
      else match creds with None => sanctions_list_make_creds m | Some _ => (true, m) end
  end.

Definition sanctions_list_is_observer (m : Moderation) (public_key : bytes) : bool :=
  match find_observer (sanctions m) 0 public_key with Some _ => true | None => false end.

Definition sanctions_list_entry_exists (m : Moderation) (s : Mod_Sanction) : bool :=
  if ms_type s =? SA_OBSERVER then sanctions_list_is_observer m (ms_target_public_enc_key s) else false.

Definition sanctions_list_add_entry (m : Moderation) (s : Mod_Sanction) (creds : option Mod_Sanction_Creds) :
    bool * Moderation :=
  if MOD_MAX_NUM_SANCTIONS <=? num_sanctions m then (false, m)
  else if negb (sanctions_list_validate_entry m s) then (false, m)
  else if sanctions_list_entry_exists m s then (false, m)
  else
    match (if 0 <? num_sanctions m then sanctions_list_copy (sanctions m) else Some []) with
    | None => (false, m)
    | Some copy => if negb (alloc SanctionsNew) then (false, m) else sanctions_apply_new m (copy ++ [s]) creds
    end.

(** The sanction with its new signature, or as it was. *)
Definition sanctions_list_sign_entry (m : Moderation) (s : Mod_Sanction) : bool * Mod_Sanction :=
  match sanction_signed_data s with
  | None => (false, s)
  | Some data =>
      match crypto_signature_create data (mo_self_secret_sig_key m) with
      | None => (false, s)
      | Some sig => (true, s <| ms_signature := sig |>)
      end
  end.

(** [now] is what [time] returns. The result is the sanction [*sanction]. *)
Definition sanctions_list_make_entry (now : Z) (m : Moderation) (public_key : bytes) (type : Z) :
    bool * Mod_Sanction * Moderation :=
  if negb (type =? SA_OBSERVER) then (false, empty_sanction, m)
  else
    let s := empty_sanction <| ms_target_public_enc_key := slice 0 ENC_PUBLIC_KEY_SIZE public_key |> in
    let s := s <| ms_setter_public_sig_key := mo_self_public_sig_key m |> in
    let s := s <| ms_time_set := u64 now |> in
    let s := s <| ms_type := type |> in
    let '(ok, s) := sanctions_list_sign_entry m s in
    if negb ok then (false, s, m)
    else
      let '(ok, m) := sanctions_list_add_entry m s None in
      if negb ok then (false, s, m)
      else let '(ok, m) := sanctions_list_make_creds m in (ok, s, m).

(** The loop of [sanctions_list_replace_sig]: the new list and [count]. *)
Fixpoint replace_sig_loop (m : Moderation) (public_sig_key : bytes) (l : list Mod_Sanction) : list Mod_Sanction * Z :=
  match l with
  | [] => ([], 0)
  | s :: l' =>
      let '(rest, count) := replace_sig_loop m public_sig_key l' in
      if negb (bytes_eqb (ms_setter_public_sig_key s) public_sig_key) then (s :: rest, count)
      else
        let s := s <| ms_setter_public_sig_key := mo_self_public_sig_key m |> in
        let '(ok, s) := sanctions_list_sign_entry m s in
        (s :: rest, if ok then count + 1 else count)
  end.

Definition sanctions_list_replace_sig (m : Moderation) (public_sig_key : bytes) : Z * Moderation :=
  let '(l, count) := replace_sig_loop m public_sig_key (sanctions m) in
  let m := m <| sanctions := l |> in
  if 0 <? count then
    let '(ok, m) := sanctions_list_make_creds m in (if ok then count else 0, m)
  else (count, m).
End moderation.
