(* ===== verification/GroupState.v ===== *)
(** * GroupState: the state the members of a group share, [toxcore/group_chats.c]

    A group has a shared state that its founder signs with the key of the chat
    (limits, password, the hash of the list of moderators), the lists of
    [GroupModeration], and a topic.  This file models that state, its wire
    formats, the peers of a group with the roles that follow from the state, and
    the packets that announce a change.  The operations that change the state
    are in [GroupControl].

    A lossless packet that is handed to the connection of a peer is an entry of
    [gn_log]; that such packets arrive in order is the subject of [GroupReceive].
    A call of a callback is an entry of [ch_events]: a callback that is not
    registered is one that does nothing. *)
From S2P Require Import Prelude Util MonoTime CryptoCore Network World DhtLists GroupPacket GroupConnection GroupAnnounce.
From S2P Require Import CryptoSign GroupModeration.

Definition MAX_GC_NICK_SIZE : Z := 128.
Definition MAX_GC_TOPIC_SIZE : Z := 512.
Definition MAX_GC_GROUP_NAME_SIZE : Z := 48.
Definition MAX_GC_PASSWORD_SIZE : Z := 32.
Definition MAX_GC_PEERS_DEFAULT : Z := 100.
Definition GC_PACKED_SHARED_STATE_SIZE : Z :=
  EXT_PUBLIC_KEY_SIZE + 2 + MAX_GC_GROUP_NAME_SIZE + 2 + 1 + 2 + MAX_GC_PASSWORD_SIZE +
  MOD_MODERATION_HASH_SIZE + 4 + 4 + 1.
Definition GC_MIN_PACKED_TOPIC_INFO_SIZE : Z := 2 + SIG_PUBLIC_KEY_SIZE + 4 + 2.
Definition GC_SHARED_STATE_ENC_PACKET_SIZE : Z := SIGNATURE_SIZE + GC_PACKED_SHARED_STATE_SIZE.
Definition GC_BROADCAST_ENC_HEADER_SIZE : Z := 1.
Definition GC_SYNC_REQUEST_LIMIT : Z := GC_PING_TIMEOUT + 1.
Definition GC_TOPIC_LOCK_ENABLED : Z := 0.
Definition PACKED_GC_PEER_SIZE : Z := 2 + MAX_GC_NICK_SIZE + 1.

Definition GR_FOUNDER : Z := 0.
Definition GR_MODERATOR : Z := 1.
Definition GR_USER : Z := 2.
Definition GR_OBSERVER : Z := 3.
Definition GV_ALL : Z := 0.
Definition GV_MODS : Z := 1.
Definition GV_FOUNDER : Z := 2.
Definition GI_PUBLIC : Z := 0.
Definition GI_PRIVATE : Z := 1.
Definition CS_NONE : Z := 0.
Definition CS_DISCONNECTED : Z := 1.
Definition CS_CONNECTING : Z := 2.
Definition CS_CONNECTED : Z := 3.
Definition HJ_PUBLIC : Z := 0.
Definition HJ_PRIVATE : Z := 1.
Definition TL_ENABLED : Z := 0.
Definition TL_DISABLED : Z := 1.
Definition MV_OBSERVER : Z := 1.
Definition MV_USER : Z := 2.
Definition MV_MOD : Z := 3.
Definition GM_SET_MOD : Z := 7.
Definition GM_SET_OBSERVER : Z := 8.
Definition GP_BROADCAST : Z := 243.
Definition GP_SYNC_REQUEST : Z := 248.
Definition GP_TOPIC : Z := 250.
Definition GP_SHARED_STATE : Z := 251.
Definition GP_MOD_LIST : Z := 252.
Definition GP_SANCTIONS_LIST : Z := 253.
Definition GF_PEERS : Z := 1.
Definition GF_TOPIC : Z := 2.
Definition GF_STATE : Z := 4.

(** ** Data *)

Record GC_SharedState := mkSharedState {
  ss_version : Z;
  ss_founder_public_key : bytes;
  ss_maxpeers : Z;
  ss_group_name_len : Z;
  ss_group_name : bytes;
  ss_privacy_state : Z;
  ss_password_length : Z;
  ss_password : bytes;
  ss_mod_list_hash : bytes;
  ss_topic_lock : Z;
  ss_voice_state : Z
}.

Record GC_TopicInfo := mkTopic {
  ti_version : Z;
  ti_length : Z;
  ti_checksum : Z;
  ti_topic : bytes;
  ti_public_sig_key : bytes
}.

(** A peer with the part of its connection that [GroupConnection] models and the
    fields of the connection that only the shared state uses. *)
Record GC_Peer := mkPeer {
  pr_nick : bytes;
  pr_nick_length : Z;
  pr_status : Z;
  pr_role : Z;
  pr_peer_id : Z;
  pr_ignore : bool;
  pr_gconn : GC_Connection;
  pr_confirmed : bool;
  pr_last_sync_response : Z;
  pr_public_key_hash : Z
}.

(** The lossless packets handed to connections (peer number, type, data), and
    what the connections answer. *)
Record GC_Net := mkGCNet {
  gn_log : list (nat * Z * bytes);
  gn_result : nat → bool
}.

Inductive GC_Callback :=
  | EvModeration (source target mod_event : Z)
  | EvTopicChange (peer_id : Z) (topic : bytes)
  | EvTopicLock (lock : Z)
  | EvVoiceState (state : Z)
  | EvPeerLimit (limit : Z)
  | EvPrivacyState (state : Z)
  | EvPassword (password : bytes)
  | EvCreateGroupConnection      (** [m_create_group_connection] was called *)
  | EvKillGroupConnection        (** [kill_group_friend_connection] was called *)
  | EvCleanupGca (chat_id : bytes).

Record GC_Chat := mkChat {
  ch_mono_time : Mono_Time;
  ch_rng : Random;
  ch_net : GC_Net;
  ch_events : list GC_Callback;
  ch_join_type : Z;
  ch_group : list GC_Peer;
  ch_moderation : Moderation;
  ch_connection_state : Z;
  ch_shared_state : GC_SharedState;
  ch_shared_state_sig : bytes;
  ch_topic_info : GC_TopicInfo;
  ch_topic_sig : bytes;
  ch_topic_prev_checksum : Z;
  ch_topic_time_set : Z;
  ch_peers_checksum : Z;
  ch_roles_checksum : Z;
  ch_chat_public_key : bytes;
  ch_chat_secret_key : bytes;
  ch_self_public_key : bytes;
  ch_self_secret_key : bytes;
  ch_time_connected : Z;
  ch_last_sync_request : Z;
  ch_update_self_announces : bool
}.

#[export] Instance eta_GC_SharedState : Eta GC_SharedState := λ s,
  mkSharedState (ss_version s) (ss_founder_public_key s) (ss_maxpeers s) (ss_group_name_len s) (ss_group_name s)
    (ss_privacy_state s) (ss_password_length s) (ss_password s) (ss_mod_list_hash s) (ss_topic_lock s) (ss_voice_state s).
#[export] Instance eta_GC_TopicInfo : Eta GC_TopicInfo := λ t,
  mkTopic (ti_version t) (ti_length t) (ti_checksum t) (ti_topic t) (ti_public_sig_key t).
#[export] Instance eta_GC_Peer : Eta GC_Peer := λ p,
  mkPeer (pr_nick p) (pr_nick_length p) (pr_status p) (pr_role p) (pr_peer_id p) (pr_ignore p) (pr_gconn p)
    (pr_confirmed p) (pr_last_sync_response p) (pr_public_key_hash p).
#[export] Instance eta_GC_Net : Eta GC_Net := λ n, mkGCNet (gn_log n) (gn_result n).
#[export] Instance eta_GC_Chat : Eta GC_Chat := λ c,
  mkChat (ch_mono_time c) (ch_rng c) (ch_net c) (ch_events c) (ch_join_type c) (ch_group c) (ch_moderation c)
    (ch_connection_state c) (ch_shared_state c) (ch_shared_state_sig c) (ch_topic_info c) (ch_topic_sig c)
    (ch_topic_prev_checksum c) (ch_topic_time_set c) (ch_peers_checksum c) (ch_roles_checksum c)
    (ch_chat_public_key c) (ch_chat_secret_key c) (ch_self_public_key c) (ch_self_secret_key c)
    (ch_time_connected c) (ch_last_sync_request c) (ch_update_self_announces c).

Abbreviation GC := (ST GC_Chat).

Definition numpeers (c : GC_Chat) : Z := zlen (ch_group c).

Definition empty_peer : GC_Peer := mkPeer (zeros MAX_GC_NICK_SIZE) 0 0 0 0 false empty_gc_connection false 0 0.

Definition pr_public_key (p : GC_Peer) : bytes := addr_public_key (pr_gconn p).

(** ** Looking peers up *)

Definition peer_number_is_self (peer_number : Z) : bool := peer_number =? 0.

Definition gc_peer_number_is_valid (c : GC_Chat) (peer_number : Z) : bool :=
  (0 <=? peer_number) && (peer_number <? numpeers c).

Definition get_gc_peer (c : GC_Chat) (peer_number : Z) : option GC_Peer :=
  if gc_peer_number_is_valid c peer_number then ch_group c !! Z.to_nat peer_number else None.

(** A peer number or -1. *)
Definition peer_number_of (f : GC_Peer → bool) (c : GC_Chat) : Z :=
  match index_of f (ch_group c) with Some i => Z.of_nat i | None => -1 end.

Definition get_peer_number_of_enc_pk (c : GC_Chat) (public_enc_key : bytes) (confirmed : bool) : Z :=
  peer_number_of (λ p,
    if pending_delete (pr_gconn p) then false
    else if confirmed && negb (pr_confirmed p) then false
    else bytes_eqb (get_enc_key (pr_public_key p)) (slice 0 ENC_PUBLIC_KEY_SIZE public_enc_key)) c.

Definition get_peer_number_of_sig_pk (c : GC_Chat) (public_sig_key : bytes) : Z :=
  peer_number_of (λ p, bytes_eqb (get_sig_pk (pr_public_key p)) public_sig_key) c.

Definition gc_get_enc_pk_from_sig_pk (c : GC_Chat) (public_sig_key : bytes) : option bytes :=
  (λ p, get_enc_key (pr_public_key p)) <$>
  (i ← index_of (λ p, bytes_eqb public_sig_key (get_sig_pk (pr_public_key p))) (ch_group c); ch_group c !! i).

Definition get_peer_number_of_peer_id (c : GC_Chat) (peer_id : Z) : Z :=
  peer_number_of (λ p, pr_peer_id p =? peer_id) c.

Definition get_gc_confirmed_numpeers (c : GC_Chat) : Z := u16 (zlen (filter (λ p, pr_confirmed p = true) (ch_group c))).

Definition gc_get_self_role (c : GC_Chat) : Z := pr_role (aget empty_peer (ch_group c) 0).
Definition self_gc_is_founder (c : GC_Chat) : bool := gc_get_self_role c =? GR_FOUNDER.

(** The first peer from [1 + base] on, round the list of the [n] other peers,
    that can be asked. *)
Fixpoint random_peer_loop (c : GC_Chat) (k : nat) (base i n : Z) : option nat :=
  match k with
  | O => None
  | S k' =>
      let index := 1 + (base + i) mod n in
      match get_gc_peer c index with
      | None => None
      | Some p =>
          if negb (pending_delete (pr_gconn p)) && pr_confirmed p then Some (Z.to_nat index)
          else random_peer_loop c k' base (i + 1) n
      end
  end.

Definition random_gc_connection : GC (option nat) := λ c,
  if numpeers c <=? 1 then (None, c)
  else
    let '(base, rng) := random_range_u32 (ch_rng c) (numpeers c - 1) in
    let c := c <| ch_rng := rng |> in
    (random_peer_loop c (Z.to_nat (numpeers c - 1)) base 0 (numpeers c - 1), c).

(** ** Properties of the group *)

Definition is_public_chat (c : GC_Chat) : bool := ss_privacy_state (ch_shared_state c) =? GI_PUBLIC.
Definition chat_is_password_protected (c : GC_Chat) : bool := 0 <? ss_password_length (ch_shared_state c).

Definition validate_password (c : GC_Chat) (password : bytes) (length : Z) : bool :=
  if MAX_GC_PASSWORD_SIZE <? length then false
  else if negb (length =? ss_password_length (ch_shared_state c)) then false
  else bytes_eqb (slice 0 length (ss_password (ch_shared_state c))) (slice 0 length password).

Definition group_topic_lock_enabled (c : GC_Chat) : bool := ss_topic_lock (ch_shared_state c) =? GC_TOPIC_LOCK_ENABLED.
Definition gc_get_topic_lock_state (c : GC_Chat) : Z := if group_topic_lock_enabled c then TL_ENABLED else TL_DISABLED.

Definition get_gc_topic_checksum (t : GC_TopicInfo) : Z := data_checksum (slice 0 (ti_length t) (ti_topic t)).

Definition peer_has_voice (p : GC_Peer) (voice_state : Z) : bool :=
  if voice_state =? GV_ALL then pr_role p <=? GR_USER
  else if voice_state =? GV_MODS then pr_role p <=? GR_MODERATOR
  else if voice_state =? GV_FOUNDER then pr_role p =? GR_FOUNDER
  else false.

Definition set_gc_shared_state_version (version : Z) (c : GC_Chat) : GC_Chat :=
  c <| ch_shared_state := (ch_shared_state c) <| ss_version := version |> |>
    <| ch_moderation := (ch_moderation c) <| mo_shared_state_version := version |> |>.

(** [memcpy] into the buffer of the password leaves what is behind the new one. *)
Definition set_gc_password_local (passwd : option bytes) (length : Z) (s : GC_SharedState) : option GC_SharedState :=
  if MAX_GC_PASSWORD_SIZE <? length then None
  else
    match passwd with
    | Some p =>
        if length =? 0 then Some (s <| ss_password_length := 0 |> <| ss_password := zeros MAX_GC_PASSWORD_SIZE |>)
        else Some (s <| ss_password_length := length |>
                     <| ss_password := slice 0 length p ++ drop (Z.to_nat length) (ss_password s) |>)
    | None => Some (s <| ss_password_length := 0 |> <| ss_password := zeros MAX_GC_PASSWORD_SIZE |>)
    end.

(** ** Wire formats *)

Definition pack_gc_peer (length : Z) (p : GC_Peer) : option bytes :=
  if length <? PACKED_GC_PEER_SIZE then None
  else Some (net_pack_u16 (pr_nick_length p) ++ slice 0 MAX_GC_NICK_SIZE (pr_nick p) ++ [pr_status p]).

Definition unpack_gc_peer (p : GC_Peer) (data : bytes) (length : Z) : option GC_Peer :=
  if length <? PACKED_GC_PEER_SIZE then None
  else Some (p <| pr_nick_length := Z.min MAX_GC_NICK_SIZE (net_unpack_u16 data) |>
               <| pr_nick := slice 2 MAX_GC_NICK_SIZE data |>
               <| pr_status := aget 0 data (2 + MAX_GC_NICK_SIZE) |>).

(** What is packed; [None] when the buffer is too small (the code returns 0). *)
Definition pack_gc_shared_state (length : Z) (s : GC_SharedState) : option bytes :=
  if length <? GC_PACKED_SHARED_STATE_SIZE then None
  else Some (net_pack_u32 (ss_version s) ++ ss_founder_public_key s ++ net_pack_u16 (ss_maxpeers s) ++
             net_pack_u16 (ss_group_name_len s) ++ ss_group_name s ++ [u8 (ss_privacy_state s)] ++
             net_pack_u16 (ss_password_length s) ++ ss_password s ++ ss_mod_list_hash s ++
             net_pack_u32 (ss_topic_lock s) ++ [u8 (ss_voice_state s)]).

Definition unpack_gc_shared_state (data : bytes) (length : Z) : option GC_SharedState :=
  if length <? GC_PACKED_SHARED_STATE_SIZE then None
  else Some (mkSharedState
    (net_unpack_u32 data)
    (slice 4 EXT_PUBLIC_KEY_SIZE data)
    (net_unpack_u16 (drop 68 data))
    (Z.min (net_unpack_u16 (drop 70 data)) MAX_GC_GROUP_NAME_SIZE)
    (slice 72 MAX_GC_GROUP_NAME_SIZE data)
    (aget 0 data 120)
    (net_unpack_u16 (drop 121 data))
    (slice 123 MAX_GC_PASSWORD_SIZE data)
    (slice 155 MOD_MODERATION_HASH_SIZE data)
    (net_unpack_u32 (drop 187 data))
    (aget 0 data 191)).

Definition pack_gc_topic_info (length : Z) (t : GC_TopicInfo) : option bytes :=
  if length <? ti_length t + GC_MIN_PACKED_TOPIC_INFO_SIZE then None
  else Some (net_pack_u32 (ti_version t) ++ net_pack_u16 (ti_checksum t) ++ net_pack_u16 (ti_length t) ++
             slice 0 (ti_length t) (ti_topic t) ++ ti_public_sig_key t).

(** [stack] is what the buffer of the topic held before. *)
Definition unpack_gc_topic_info (stack : bytes) (data : bytes) (length : Z) : option GC_TopicInfo :=
  if length <? 2 + 2 + 4 then None
  else
    let version := net_unpack_u32 data in
    let checksum := net_unpack_u16 (drop 4 data) in
    let len := net_unpack_u16 (drop 6 data) in
    let len := if MAX_GC_TOPIC_SIZE <? len then MAX_GC_TOPIC_SIZE else len in
    if length - 8 <? len + SIG_PUBLIC_KEY_SIZE then None
    else
      let topic := if 0 <? len then slice 8 len data ++ drop (Z.to_nat len) stack else stack in
      Some (mkTopic version len checksum topic (slice (8 + len) SIG_PUBLIC_KEY_SIZE data)).

(** ** Roles *)

Definition peer_is_observer (c : GC_Chat) (p : GC_Peer) : bool :=
  sanctions_list_is_observer (ch_moderation c) (get_enc_key (pr_public_key p)).

Definition peer_is_founder (c : GC_Chat) (p : GC_Peer) : bool :=
  bytes_eqb (slice 0 ENC_PUBLIC_KEY_SIZE (ss_founder_public_key (ch_shared_state c))) (get_enc_key (pr_public_key p)).

Definition peer_is_moderator (c : GC_Chat) (p : GC_Peer) : bool :=
  if peer_is_founder c p then false else mod_list_verify_sig_pk (ch_moderation c) (get_sig_pk (pr_public_key p)).

(** The role [update_gc_peer_roles] gives to a confirmed peer. *)
Definition role_of (c : GC_Chat) (p : GC_Peer) : Z :=
  if peer_is_founder c p then GR_FOUNDER
  else
    let is_observer := peer_is_observer c p in
    let is_moderator := peer_is_moderator c p in
    if negb (is_moderator || is_observer) then GR_USER
    else if is_moderator then GR_MODERATOR
    else GR_OBSERVER.

Definition role_conflict (c : GC_Chat) (p : GC_Peer) : bool :=
  negb (peer_is_founder c p) && (peer_is_observer c p && peer_is_moderator c p).

Definition update_gc_peer_roles (c : GC_Chat) : GC_Chat :=
  let confirmed := filter (λ p, pr_confirmed p = true) (ch_group c) in
  let checksum := fold_left (λ sum p, u16 (sum + (role_of c p + aget 0 (pr_public_key p) 0))) confirmed 0 in
  let conflicts := existsb (role_conflict c) confirmed in
  let c' := c <| ch_group := map (λ p, if pr_confirmed p then p <| pr_role := role_of c p |> else p) (ch_group c) |>
              <| ch_roles_checksum := checksum |> in
  if conflicts && negb (self_gc_is_founder c') then set_gc_shared_state_version 0 c' else c'.

(** ** Sending *)

(** Runs the second action when the first one succeeds. *)
Definition and_then (m1 m2 : GC bool) : GC bool := ok ← m1; if ok : bool then m2 else mret false.

(** [send_lossless_group_packet], whose work is modelled in [GroupConnection]. *)
Definition send_lossless (peer_number : nat) (data : bytes) (type : Z) : GC bool := λ c,
  match ch_group c !! peer_number with
  | None => (false, c)
  | Some p =>
      if negb (handshaked (pr_gconn p)) || pending_delete (pr_gconn p) then (false, c)
      else (gn_result (ch_net c) (length (gn_log (ch_net c))),
            c <| ch_net := (ch_net c) <| gn_log := gn_log (ch_net c) ++ [(peer_number, type, data)] |> |>)
  end.

Definition send_gc_lossless_packet_all_peers (data : bytes) (type : Z) : GC unit :=
  c ← get (λ c, c);
  for_each (seq 1 (length (ch_group c) - 1)) (λ i,
    if pr_confirmed (default empty_peer (ch_group c !! i)) then send_lossless i data type;; mret tt else mret tt).

Definition make_gc_broadcast_header (data : bytes) (bc_type : Z) : bytes := bc_type :: data.

Definition add_event (e : GC_Callback) : GC unit := modify (λ c, c <| ch_events := ch_events c ++ [e] |>).

(** The result of a packet that was made, to everyone or to one peer. *)
Definition broadcast_packet (packet : option bytes) (type : Z) : GC bool :=
  match packet with
  | None => mret false
  | Some packet => send_gc_lossless_packet_all_peers packet type;; mret true
  end.

Definition send_peer_packet (peer_number : nat) (packet : option bytes) (type : Z) : GC bool :=
  match packet with
  | None => mret false
  | Some packet => send_lossless peer_number packet type
  end.

Section state.
Context {G : SodiumSign}.
Variable alloc : alloc_site → bool.
Variable malloc : bool.   (** whether the buffer of a packet can be allocated *)

Definition send_gc_broadcast_message (data : bytes) (bc_type : Z) : GC bool :=
  if MAX_GC_PACKET_SIZE <? zlen data + GC_BROADCAST_ENC_HEADER_SIZE then mret false
  else if negb malloc then mret false
  else
    send_gc_lossless_packet_all_peers (make_gc_broadcast_header data bc_type) GP_BROADCAST;;
    mret true.

(** [None] stands for -1. *)
Definition make_gc_shared_state_packet (c : GC_Chat) (length : Z) : option bytes :=
  if length <? GC_SHARED_STATE_ENC_PACKET_SIZE then None
  else
    packed ← pack_gc_shared_state (length - SIGNATURE_SIZE) (ch_shared_state c);
    if negb (zlen packed =? GC_PACKED_SHARED_STATE_SIZE) then None else Some (ch_shared_state_sig c ++ packed).

(** A packet that must have exactly this length. *)
Definition exact_length (length : Z) (packet : option bytes) : option bytes :=
  p ← packet; if zlen p =? length then Some p else None.

Definition shared_state_packet (c : GC_Chat) : option bytes :=
  exact_length GC_SHARED_STATE_ENC_PACKET_SIZE (make_gc_shared_state_packet c GC_SHARED_STATE_ENC_PACKET_SIZE).

Definition send_peer_shared_state (peer_number : nat) : GC bool :=
  c ← get (λ c, c);
  if ss_version (ch_shared_state c) =? 0 then mret false
  else send_peer_packet peer_number (shared_state_packet c) GP_SHARED_STATE.

Definition broadcast_gc_shared_state : GC bool :=
  c ← get (λ c, c); broadcast_packet (shared_state_packet c) GP_SHARED_STATE.

Definition make_gc_mod_list_packet (c : GC_Chat) (maxlen mod_list_size : Z) : option bytes :=
  if maxlen <? 2 + mod_list_size then None
  else
    let header := net_pack_u16 (num_mods (ch_moderation c)) in
    if 0 <? mod_list_size then
      if negb malloc then None
      else Some (header ++ slice 0 mod_list_size (mod_list_pack (ch_moderation c)))
    else Some header.

(** The packet of [send_peer_mod_list] and [broadcast_gc_mod_list]. *)
Definition mod_list_packet (c : GC_Chat) : option bytes :=
  let mod_list_size := u16 (num_mods (ch_moderation c) * MOD_LIST_ENTRY_SIZE) in
  let length := u16 (2 + mod_list_size) in
  if negb malloc then None else exact_length length (make_gc_mod_list_packet c length mod_list_size).

Definition send_peer_mod_list (peer_number : nat) : GC bool :=
  c ← get (λ c, c); send_peer_packet peer_number (mod_list_packet c) GP_MOD_LIST.

Definition broadcast_gc_mod_list : GC bool :=
  c ← get (λ c, c); broadcast_packet (mod_list_packet c) GP_MOD_LIST.

Definition make_gc_sanctions_list_packet (c : GC_Chat) (maxlen : Z) : option bytes :=
  if maxlen <? 2 then None
  else
    packed ← sanctions_list_pack (maxlen - 2) (sanctions (ch_moderation c)) (Some (sanctions_creds (ch_moderation c)));
    Some (net_pack_u16 (num_sanctions (ch_moderation c)) ++ packed).

(** The packet of [send_peer_sanctions_list] and [broadcast_gc_sanctions_list]. *)
Definition sanctions_list_packet (c : GC_Chat) : option bytes :=
  let packet_size := u16 (MOD_SANCTION_PACKED_SIZE * num_sanctions (ch_moderation c) + 2 + MOD_SANCTIONS_CREDS_SIZE) in
  if negb malloc then None else make_gc_sanctions_list_packet c packet_size.

Definition send_peer_sanctions_list (peer_number : nat) : GC bool :=
  c ← get (λ c, c);
  if sc_version (sanctions_creds (ch_moderation c)) =? 0 then mret true
  else send_peer_packet peer_number (sanctions_list_packet c) GP_SANCTIONS_LIST.

Definition broadcast_gc_sanctions_list : GC bool :=
  c ← get (λ c, c); broadcast_packet (sanctions_list_packet c) GP_SANCTIONS_LIST.

Definition make_gc_topic_packet (c : GC_Chat) (length : Z) : option bytes :=
  if length <? SIGNATURE_SIZE + ti_length (ch_topic_info c) + GC_MIN_PACKED_TOPIC_INFO_SIZE then None
  else
    packed ← pack_gc_topic_info (length - SIGNATURE_SIZE) (ch_topic_info c);
    if negb (zlen packed =? ti_length (ch_topic_info c) + GC_MIN_PACKED_TOPIC_INFO_SIZE) then None
    else Some (ch_topic_sig c ++ packed).

(** The packet of [send_peer_topic] and [broadcast_gc_topic]. *)
Definition topic_packet (c : GC_Chat) : option bytes :=
  let packet_buf_size := u16 (SIGNATURE_SIZE + ti_length (ch_topic_info c) + GC_MIN_PACKED_TOPIC_INFO_SIZE) in
  if negb malloc then None else exact_length packet_buf_size (make_gc_topic_packet c packet_buf_size).

Definition send_peer_topic (peer_number : nat) : GC bool :=
  c ← get (λ c, c); send_peer_packet peer_number (topic_packet c) GP_TOPIC.

Definition broadcast_gc_topic : GC bool :=
  c ← get (λ c, c); broadcast_packet (topic_packet c) GP_TOPIC.

(** ** Signing the shared state *)

(** Only for the founder; increments the version. *)
Definition sign_gc_shared_state : GC bool := λ c,
  if negb (self_gc_is_founder c) then (false, c)
  else
    let c := if negb (ss_version (ch_shared_state c) =? UINT32_MAX)
             then set_gc_shared_state_version (u32 (ss_version (ch_shared_state c) + 1)) c else c in
    let undo := set_gc_shared_state_version (u32 (ss_version (ch_shared_state c) - 1)) c in
    match exact_length GC_PACKED_SHARED_STATE_SIZE (pack_gc_shared_state GC_PACKED_SHARED_STATE_SIZE (ch_shared_state c)) with
    | None => (false, undo)
    | Some packed =>
        match crypto_sign_detached packed (get_sig_sk (ch_chat_secret_key c)) with
        | None => (false, undo)
        | Some sig => (true, c <| ch_shared_state_sig := sig |>)
        end
    end.
End state.
