(* ===== verification/GroupControl.v ===== *)
(** * GroupControl: what changes the shared state of a group, [toxcore/group_chats.c]

    The packets that carry the shared state, the lists of [GroupModeration] and
    the topic, the broadcasts that change a role, and the operations by which
    the founder and the moderators change them.  [GroupSync] proves that members
    reach the same state. *)
From S2P Require Import Prelude Util MonoTime CryptoCore Network World DhtLists GroupPacket GroupConnection GroupAnnounce.
From S2P Require Import CryptoSign GroupModeration GroupState.

Section control.
Context {G : SodiumSign}.
Variable alloc : alloc_site → bool.
Variable malloc : bool.
(** What [m_create_group_connection] returns, and what [time] returns. *)
Variable create_connection : bool.
Variable now : Z.
(** What local variables hold before they are written. *)
Variable stack_creds : Mod_Sanction_Creds.
Variable stack_topic : bytes.

Abbreviation get_chat := (get (λ c : GC_Chat, c)).

Definition put_moderation (m : Moderation) : GC unit := modify (λ c, c <| ch_moderation := m |>).
Definition on_moderation {A} (f : Moderation → A * Moderation) : GC A := λ c,
  let '(x, m) := f (ch_moderation c) in (x, c <| ch_moderation := m |>).
Definition update_roles : GC unit := modify update_gc_peer_roles.

(** ** Requests for a new state *)

Definition send_gc_sync_request (peer_number : nat) (sync_flags : Z) : GC bool :=
  c ← get_chat;
  if negb (mono_time_is_timeout (ch_mono_time c) (ch_last_sync_request c) GC_SYNC_REQUEST_LIMIT) then mret true
  else
    modify (λ c, c <| ch_last_sync_request := mono_time_get (ch_mono_time c) |>);;
    let s := ch_shared_state c in
    let data := net_pack_u16 sync_flags ++
      (if chat_is_password_protected c then net_pack_u16 (ss_password_length s) ++ ss_password s else []) in
    send_lossless peer_number data GP_SYNC_REQUEST.

Definition send_gc_random_sync_request (sync_flags : Z) : GC bool :=
  rand_gconn ← random_gc_connection;
  match rand_gconn with
  | None => mret false
  | Some i => send_gc_sync_request i sync_flags
  end.

(** ** The shared state *)

Definition do_privacy_state_change : GC unit :=
  c ← get_chat;
  (if is_public_chat c then
     add_event EvCreateGroupConnection;;
     if create_connection then modify (λ c, c <| ch_update_self_announces := true |> <| ch_join_type := HJ_PUBLIC |>)
     else mret tt
   else
     add_event EvKillGroupConnection;;
     add_event (EvCleanupGca (get_chat_id (ch_chat_public_key c)));;
     modify (λ c, c <| ch_join_type := HJ_PRIVATE |>));;
  add_event (EvPrivacyState (ss_privacy_state (ch_shared_state c))).

Definition when (b : bool) (m : GC unit) : GC unit := if b then m else mret tt.

Definition do_gc_shared_state_changes (old : GC_SharedState) : GC unit :=
  c ← get_chat;
  let s := ch_shared_state c in
  when (negb (ss_maxpeers s =? ss_maxpeers old)) (add_event (EvPeerLimit (ss_maxpeers s)));;
  when (negb (ss_privacy_state s =? ss_privacy_state old)) do_privacy_state_change;;
  when (negb (ss_password_length s =? ss_password_length old)
        || negb (bytes_eqb (slice 0 (ss_password_length old) (ss_password s))
                           (slice 0 (ss_password_length old) (ss_password old))))
    (add_event (EvPassword (slice 0 (ss_password_length s) (ss_password s))));;
  when (negb (ss_topic_lock s =? ss_topic_lock old)) (add_event (EvTopicLock (gc_get_topic_lock_state c)));;
  when (negb (ss_voice_state s =? ss_voice_state old)) (add_event (EvVoiceState (ss_voice_state s))).

Definition validate_gc_shared_state (s : GC_SharedState) : bool :=
  (0 <? ss_maxpeers s) && (ss_password_length s <=? MAX_GC_PASSWORD_SIZE) && (0 <? ss_group_name_len s) &&
  (ss_group_name_len s <=? MAX_GC_GROUP_NAME_SIZE) && (ss_privacy_state s <=? GI_PRIVATE) && (ss_voice_state s <=? GV_FOUNDER).

Definition mark_for_deletion (peer_number : nat) (type : Group_Exit_Type) (c : GC_Chat) : GC_Chat :=
  c <| ch_group := alter (λ p, p <| pr_gconn := gcc_mark_for_deletion (pr_gconn p) type None 0 |>) peer_number (ch_group c) |>.

Definition handle_gc_shared_state_error (peer_number : nat) : GC Z :=
  modify (mark_for_deletion peer_number GC_EXIT_TYPE_SYNC_ERR);;
  c ← get_chat;
  if ss_version (ch_shared_state c) =? 0 then modify (λ c, c <| ch_connection_state := CS_CONNECTING |>);; mret 0
  else if numpeers c <=? 1 then mret 0
  else ok ← send_gc_random_sync_request GF_STATE; mret (if ok : bool then 0 else -1).

Definition handle_gc_shared_state (peer_number : nat) (data : bytes) (length : Z) : GC Z :=
  if length <? GC_SHARED_STATE_ENC_PACKET_SIZE then handle_gc_shared_state_error peer_number
  else
    let signature := slice 0 SIGNATURE_SIZE data in
    let ss_data := drop (Z.to_nat SIGNATURE_SIZE) data in
    let ss_length := length - SIGNATURE_SIZE in
    c ← get_chat;
    if negb (crypto_sign_verify_detached signature (slice 0 GC_PACKED_SHARED_STATE_SIZE ss_data)
               (get_sig_pk (ch_chat_public_key c)))
    then handle_gc_shared_state_error peer_number
    else
      let version := net_unpack_u32 ss_data in
      if (version =? 0) || (version <? ss_version (ch_shared_state c)) then mret 0
      else
        match unpack_gc_shared_state ss_data ss_length with
        | None => mret 0
        | Some new_shared_state =>
            if negb (validate_gc_shared_state new_shared_state) then mret 0
            else
              when (ss_version (ch_shared_state c) =? 0) (modify (λ c, c <| ch_moderation :=
                (ch_moderation c) <| mo_founder_public_sig_key := get_sig_pk (ss_founder_public_key new_shared_state) |> |>));;
              modify (λ c, c <| ch_shared_state := new_shared_state |> <| ch_shared_state_sig := signature |>);;
              modify (λ c, set_gc_shared_state_version (ss_version (ch_shared_state c)) c);;
              do_gc_shared_state_changes (ch_shared_state c);;
              mret 0
        end.

(** ** The list of moderators *)

Definition validate_unpack_mod_list (data : bytes) (length num_mods : Z) : GC Z :=
  if MOD_MAX_NUM_MODERATORS <? num_mods then mret (-1)
  else
    let hash := if 0 <? length then mod_list_get_data_hash (slice 0 length data) else zeros MOD_MODERATION_HASH_SIZE in
    c ← get_chat;
    if (0 <? ss_version (ch_shared_state c)) && negb (bytes_eqb hash (ss_mod_list_hash (ch_shared_state c))) then mret 1
    else
      ret ← on_moderation (λ m, mod_list_unpack alloc m data length num_mods);
      mret (if ret =? -1 then -1 else 0).

Definition handle_gc_mod_list (data : bytes) (length : Z) : GC Z :=
  if length <? 2 then mret (-1)
  else
    c ← get_chat;
    if self_gc_is_founder c then mret 0
    else
      let num_mods := net_unpack_u16 data in
      unpack_ret ← validate_unpack_mod_list (drop 2 data) (length - 2) num_mods;
      if unpack_ret =? 0 then
        update_roles;;
        c ← get_chat;
        when (ch_connection_state c =? CS_CONNECTED) (add_event (EvModeration UINT32_MAX UINT32_MAX MV_MOD));;
        mret 0
      else if unpack_ret =? 1 then mret 0
      else
        c ← get_chat;
        if ss_version (ch_shared_state c) =? 0 then modify (λ c, c <| ch_connection_state := CS_CONNECTING |>);; mret (-2)
        else if numpeers c <=? 1 then mret 0
        else send_gc_random_sync_request GF_STATE;; mret 0.

(** ** The list of sanctions *)

Definition handle_gc_sanctions_list_error : GC Z :=
  c ← get_chat;
  if 0 <? sc_version (sanctions_creds (ch_moderation c)) then mret 0
  else if ss_version (ch_shared_state c) =? 0 then modify (λ c, c <| ch_connection_state := CS_CONNECTING |>);; mret 0
  else if numpeers c <=? 1 then mret 0
  else ok ← send_gc_random_sync_request GF_STATE; mret (if ok : bool then 0 else -1).

Definition handle_gc_sanctions_list (data : bytes) (length : Z) : GC Z :=
  if length <? 2 then mret (-2)
  else
    let num := net_unpack_u16 data in
    if MOD_MAX_NUM_SANCTIONS <? num then handle_gc_sanctions_list_error
    else if negb malloc then mret (-1)
    else
      match sanctions_list_unpack stack_creds num (drop 2 data) (length - 2) with
      | None => handle_gc_sanctions_list_error
      | Some (l, creds, _) =>
          if negb (zlen l =? num) then handle_gc_sanctions_list_error
          else
            c ← get_chat;
            let m := ch_moderation c in
            if negb (sanctions_list_check_integrity alloc m creds l) then handle_gc_sanctions_list_error
            else if sc_version creds <? sc_version (sanctions_creds m) then mret 0
            else if (sc_version creds =? sc_version (sanctions_creds m)) &&
                    (sc_checksum creds <=? sc_checksum (sanctions_creds m)) then mret 0
            else
              modify (λ c, c <| ch_moderation :=
                (sanctions_list_cleanup (ch_moderation c)) <| sanctions_creds := creds |> <| sanctions := l |> |>);;
              update_roles;;
              c ← get_chat;
              when (ch_connection_state c =? CS_CONNECTED) (add_event (EvModeration UINT32_MAX UINT32_MAX MV_OBSERVER));;
              mret 0
      end.

Definition update_gc_sanctions_list (public_sig_key : bytes) : GC bool :=
  num_replaced ← on_moderation (λ m, sanctions_list_replace_sig alloc m public_sig_key);
  if num_replaced =? 0 then mret true else broadcast_gc_sanctions_list malloc.

(** ** The topic *)

(** The topic in a buffer of [MAX_GC_TOPIC_SIZE] bytes. *)
Definition store_topic (length : Z) (topic old : bytes) : bytes :=
  if 0 <? length then slice 0 length topic ++ drop (Z.to_nat length) old else zeros MAX_GC_TOPIC_SIZE.

Definition gc_set_topic (topic : bytes) (length : Z) : GC Z :=
  if MAX_GC_TOPIC_SIZE <? length then mret (-1)
  else
    c ← get_chat;
    let topic_lock_enabled := group_topic_lock_enabled c in
    if topic_lock_enabled && (GR_MODERATOR <? gc_get_self_role c) then mret (-2)
    else if GR_USER <? gc_get_self_role c then mret (-2)
    else
      let old := ch_topic_info c in
      let old_sig := ch_topic_sig c in
      if ti_version old =? UINT32_MAX then mret (-3)
      else
        let t := mkTopic (if topic_lock_enabled then ti_version old + 1 else ti_version old) length (ti_checksum old)
                   (store_topic length topic (ti_topic old)) (get_sig_pk (ch_self_public_key c)) in
        let t := t <| ti_checksum := get_gc_topic_checksum t |> in
        modify (λ c, c <| ch_topic_info := t |>);;
        if negb malloc then mret (-3)
        else
          let undo := modify (λ c, c <| ch_topic_info := old |> <| ch_topic_sig := old_sig |>) in
          let packet_buf_size := u16 (length + GC_MIN_PACKED_TOPIC_INFO_SIZE) in
          match exact_length packet_buf_size (pack_gc_topic_info packet_buf_size t) with
          | None => undo;; mret (-3)
          | Some packed_topic =>
              match crypto_sign_detached packed_topic (get_sig_sk (ch_self_secret_key c)) with
              | None => undo;; mret (-3)
              | Some sig =>
                  modify (λ c, c <| ch_topic_sig := sig |>);;
                  ok ← broadcast_gc_topic malloc;
                  if negb ok then undo;; mret (-4)
                  else
                    modify (λ c, c <| ch_topic_prev_checksum := ti_checksum old |>
                                   <| ch_topic_time_set := mono_time_get (ch_mono_time c) |>);;
                    mret 0
              end
          end.

(** Sets the topic again to what it is, under our own signature. *)
Definition resign_topic : GC bool :=
  c ← get_chat;
  ret ← gc_set_topic (ti_topic (ch_topic_info c)) (ti_length (ch_topic_info c));
  mret (ret =? 0).

Definition update_gc_topic (public_sig_key : bytes) : GC bool :=
  c ← get_chat;
  if negb (bytes_eqb public_sig_key (ti_public_sig_key (ch_topic_info c))) then mret true else resign_topic.

Definition handle_gc_topic_validate (c : GC_Chat) (p : GC_Peer) (t : GC_TopicInfo) (topic_lock_enabled : bool) : bool :=
  if negb (ti_checksum t =? get_gc_topic_checksum t) then false
  else if topic_lock_enabled then
    if negb (mod_list_verify_sig_pk (ch_moderation c) (ti_public_sig_key t)) then false
    else negb (ti_version t <? ti_version (ch_topic_info c))
  else if match gc_get_enc_pk_from_sig_pk c (ti_public_sig_key t) with
          | Some k => sanctions_list_is_observer (ch_moderation c) k
          | None => false
          end then false
  else if ti_version t =? ss_topic_lock (ch_shared_state c) then
    if negb (mono_time_is_timeout (ch_mono_time c) (ch_time_connected c) GC_PING_TIMEOUT) then true
    else negb ((ch_topic_prev_checksum c =? ti_checksum t) &&
               negb (mono_time_is_timeout (ch_mono_time c) (ch_topic_time_set c) GC_CONFIRMED_PEER_TIMEOUT))
  else (pr_role p =? GR_FOUNDER) && (ti_version t =? u32 (ss_topic_lock (ch_shared_state c) + 1)).

Definition handle_gc_topic (p : GC_Peer) (data : bytes) (length : Z) : GC Z :=
  if length <? SIGNATURE_SIZE + GC_MIN_PACKED_TOPIC_INFO_SIZE then mret (-1)
  else
    c ← get_chat;
    let old_checksum := ti_checksum (ch_topic_info c) in
    let body := drop (Z.to_nat SIGNATURE_SIZE) data in
    match unpack_gc_topic_info stack_topic body (length - SIGNATURE_SIZE) with
    | None => mret 0
    | Some t =>
        let signature := slice 0 SIGNATURE_SIZE data in
        if negb (crypto_sign_verify_detached signature (slice 0 (length - SIGNATURE_SIZE) body) (ti_public_sig_key t)) then mret 0
        else if negb (handle_gc_topic_validate c p t (group_topic_lock_enabled c)) then mret 0
        else
          let skip_callback := (ti_length (ch_topic_info c) =? ti_length t) &&
            bytes_eqb (slice 0 (ti_length t) (ti_topic (ch_topic_info c))) (slice 0 (ti_length t) (ti_topic t)) in
          modify (λ c, c <| ch_topic_prev_checksum := old_checksum |>
                         <| ch_topic_time_set := mono_time_get (ch_mono_time c) |>
                         <| ch_topic_info := t |> <| ch_topic_sig := signature |>);;
          let setter := get_peer_number_of_sig_pk c (ti_public_sig_key t) in
          let peer_id := if 0 <=? setter then pr_peer_id (aget empty_peer (ch_group c) setter) else 0 in
          when (negb skip_callback && (ch_connection_state c =? CS_CONNECTED))
            (add_event (EvTopicChange peer_id (slice 0 (ti_length t) (ti_topic t))));;
          mret 0
    end.

(** ** Moderators *)

Definition put_mod_list_hash : GC bool := λ c,
  match mod_list_make_hash alloc (ch_moderation c) with
  | None => (false, c)
  | Some hash => (true, c <| ch_shared_state := (ch_shared_state c) <| ss_mod_list_hash := hash |> |>)
  end.

(** The loop of [prune_gc_mod_list] from index [i] on: the key of the moderator
    it removed. *)
Fixpoint prune_mod_loop (fuel : nat) (i : Z) : GC (option bytes) :=
  match fuel with
  | O => mret None
  | S fuel' =>
      c ← get_chat;
      if num_mods (ch_moderation c) <=? i then mret None
      else
        let key := aget [] (mod_list (ch_moderation c)) i in
        if get_peer_number_of_sig_pk c key =? -1 then
          ok ← on_moderation (λ m, mod_list_remove_index alloc m i);
          if ok : bool then mret (Some key) else prune_mod_loop fuel' (i + 1)
        else prune_mod_loop fuel' (i + 1)
  end.

Definition prune_gc_mod_list : GC bool :=
  c ← get_chat;
  if num_mods (ch_moderation c) =? 0 then mret true
  else
    pruned ← prune_mod_loop (length (mod_list (ch_moderation c))) 0;
    match pruned with
    | None => mret false
    | Some public_sig_key =>
        and_then put_mod_list_hash (and_then sign_gc_shared_state (and_then broadcast_gc_shared_state
          (and_then (broadcast_gc_mod_list malloc)
            (and_then (update_gc_sanctions_list public_sig_key) (update_gc_topic public_sig_key)))))
    end.

Definition validate_unpack_gc_set_mod (data : bytes) (length : Z) (add_mod : bool) : GC Z :=
  c ← get_chat;
  let mod_data := slice 1 MOD_LIST_ENTRY_SIZE data in
  if add_mod && (length <? 1 + MOD_LIST_ENTRY_SIZE) then mret (-1)
  else
    let target := get_peer_number_of_sig_pk c mod_data in
    if negb (gc_peer_number_is_valid c target) then mret (-2)
    else
      let target_role := pr_role (aget empty_peer (ch_group c) target) in
      if negb (target_role =? if add_mod then GR_USER else GR_MODERATOR) then mret (-3)
      else
        ok ← on_moderation (λ m, if add_mod then mod_list_add_entry alloc m mod_data else mod_list_remove_entry alloc m mod_data);
        if negb ok then mret (-4) else update_roles;; mret target.

Definition handle_gc_set_mod (peer_number : Z) (data : bytes) (length : Z) : GC Z :=
  if length <? 1 + SIG_PUBLIC_KEY_SIZE then mret (-1)
  else
    c ← get_chat;
    match get_gc_peer c peer_number with
    | None => mret (-3)
    | Some setter_peer =>
        if negb (pr_role setter_peer =? GR_FOUNDER) then mret 0
        else
          let add_mod := net_unpack_bool data in
          target ← validate_unpack_gc_set_mod data length add_mod;
          if target =? -1 then mret (-2)
          else
            c ← get_chat;
            match get_gc_peer c target with
            | None => mret 0
            | Some target_peer =>
                add_event (EvModeration (pr_peer_id setter_peer) (pr_peer_id target_peer) (if add_mod then MV_MOD else MV_USER));;
                mret 0
            end
    end.

Definition send_gc_set_mod (public_key : bytes) (add_mod : bool) : GC bool :=
  if negb malloc then mret false
  else send_gc_broadcast_message malloc ((if add_mod then 1 else 0) :: get_sig_pk public_key) GM_SET_MOD.

(** [public_key] is the extended key of the peer. *)
Definition founder_gc_set_moderator (public_key : bytes) (add_mod : bool) : GC bool :=
  c ← get_chat;
  if negb (self_gc_is_founder c) then mret false
  else
    let key := get_sig_pk public_key in
    and_then
      (if add_mod then
         and_then (if MOD_MAX_NUM_MODERATORS <=? num_mods (ch_moderation c) then prune_gc_mod_list else mret true)
           (on_moderation (λ m, mod_list_add_entry alloc m key))
       else
         and_then (on_moderation (λ m, mod_list_remove_entry alloc m key))
           (and_then (update_gc_sanctions_list key) (update_gc_topic key)))
      (c ← get_chat;
       let old_hash := ss_mod_list_hash (ch_shared_state c) in
       and_then put_mod_list_hash
         (ok ← and_then sign_gc_shared_state broadcast_gc_shared_state;
          if negb ok then
            modify (λ c, c <| ch_shared_state := (ch_shared_state c) <| ss_mod_list_hash := old_hash |> |>);; mret false
          else send_gc_set_mod public_key add_mod)).

(** ** Observers *)

Definition validate_unpack_observer_entry (data : bytes) (length : Z) (public_key : bytes) (add_obs : bool) : GC Z :=
  c ← get_chat;
  let stale (creds : Mod_Sanction_Creds) :=
    (sc_version creds =? sc_version (sanctions_creds (ch_moderation c))) &&
    (sc_checksum creds <=? sc_checksum (sanctions_creds (ch_moderation c))) in
  if add_obs then
    match sanctions_list_unpack stack_creds 1 data length with
    | Some ([s], creds, _) =>
        if stale creds then mret 1
        else if sanctions_list_entry_exists (ch_moderation c) s then mret (-1)
        else ok ← on_moderation (λ m, sanctions_list_add_entry alloc m s (Some creds)); mret (if ok : bool then 0 else -1)
    | _ => mret (-1)
    end
  else if length <? MOD_SANCTIONS_CREDS_SIZE then mret (-1)
  else
    let '(creds, creds_len) := sanctions_creds_unpack data in
    if negb (creds_len =? MOD_SANCTIONS_CREDS_SIZE) then mret (-1)
    else if stale creds then mret 1
    else if negb (sanctions_list_is_observer (ch_moderation c) public_key) then mret 1
    else ok ← on_moderation (λ m, sanctions_list_remove_observer alloc m public_key (Some creds)); mret (if ok : bool then 0 else 1).

Definition handle_gc_set_observer (peer_number : Z) (data : bytes) (length : Z) : GC Z :=
  if length <=? 1 + EXT_PUBLIC_KEY_SIZE then mret (-1)
  else
    c ← get_chat;
    match get_gc_peer c peer_number with
    | None => mret (-3)
    | Some setter_peer =>
        if GR_MODERATOR <? pr_role setter_peer then mret 0
        else
          let add_obs := net_unpack_bool data in
          let public_key := drop 1 data in
          let target := get_peer_number_of_enc_pk c public_key false in
          if (0 <=? target) && (target =? peer_number) then mret (-2)
          else
            let target_peer := get_gc_peer c target in
            let wrong_role := match target_peer with
              | Some p => (add_obs && negb (pr_role p =? GR_USER)) || (negb add_obs && negb (pr_role p =? GR_OBSERVER))
              | None => false
              end in
            if wrong_role then mret 0
            else
              ret ← validate_unpack_observer_entry (drop (Z.to_nat (1 + EXT_PUBLIC_KEY_SIZE)) data)
                      (length - 1 - EXT_PUBLIC_KEY_SIZE) public_key add_obs;
              if ret =? -1 then mret (-2)
              else if ret =? 1 then mret 0
              else
                update_roles;;
                match target_peer with
                | Some p => add_event (EvModeration (pr_peer_id setter_peer) (pr_peer_id p) (if add_obs then MV_OBSERVER else MV_USER));; mret 0
                | None => mret 0
                end
    end.

Definition send_gc_set_observer (target_ext_pk sanction_data : bytes) (add_obs : bool) : GC bool :=
  if negb malloc then mret false
  else send_gc_broadcast_message malloc
         ((if add_obs then 1 else 0) :: slice 0 EXT_PUBLIC_KEY_SIZE target_ext_pk ++ sanction_data) GM_SET_OBSERVER.

Definition prune_gc_sanctions_list : GC bool :=
  c ← get_chat;
  if num_sanctions (ch_moderation c) =? 0 then mret true
  else
    match find (λ s, get_peer_number_of_enc_pk c (ms_target_public_enc_key s) true =? -1) (sanctions (ch_moderation c)) with
    | None => mret false
    | Some s =>
        let target_ext_pk := ms_target_public_enc_key s ++ ms_setter_public_sig_key s in
        ok ← on_moderation (λ m, sanctions_list_remove_observer alloc m (ms_target_public_enc_key s) None);
        if negb ok then mret false
        else
          c ← get_chat;
          let data := sanctions_creds_pack (sanctions_creds (ch_moderation c)) in
          if negb (zlen data =? MOD_SANCTIONS_CREDS_SIZE) then mret false
          else send_gc_set_observer target_ext_pk data false
    end.

Definition mod_gc_set_observer (peer_number : Z) (add_obs : bool) : GC bool :=
  c ← get_chat;
  match get_gc_peer c peer_number with
  | None => mret false
  | Some p =>
      let public_key := pr_public_key p in
      if GR_USER <=? gc_get_self_role c then mret false
      else
        sanction_data ←
          (if add_obs then
             ok ← and_then (if MOD_MAX_NUM_SANCTIONS <=? num_sanctions (ch_moderation c) then prune_gc_sanctions_list else mret true)
                    (c ← get_chat;
                     let setter := get_peer_number_of_sig_pk c (ti_public_sig_key (ch_topic_info c)) in
                     if (0 <=? setter) && (setter =? peer_number) then resign_topic else mret true);
             if negb ok then mret None
             else
               entry ← on_moderation (λ m, sanctions_list_make_entry alloc now m public_key SA_OBSERVER);
               if negb entry.1 then mret None
               else
                 c ← get_chat;
                 mret (sanctions_list_pack (MOD_SANCTION_PACKED_SIZE + MOD_SANCTIONS_CREDS_SIZE) [entry.2]
                         (Some (sanctions_creds (ch_moderation c))))
           else
             ok ← on_moderation (λ m, sanctions_list_remove_observer alloc m public_key None);
             if negb ok then mret None
             else
               c ← get_chat;
               let packed := sanctions_creds_pack (sanctions_creds (ch_moderation c)) in
               mret (if negb (zlen packed =? MOD_SANCTIONS_CREDS_SIZE) then None else Some packed));
        match sanction_data with
        | None => mret false
        | Some sanction_data =>
            if MOD_SANCTION_PACKED_SIZE + MOD_SANCTIONS_CREDS_SIZE <? zlen sanction_data then mret false
            else update_roles;; send_gc_set_observer public_key sanction_data add_obs
        end
  end.

(** ** Changing roles *)

Definition apply_new_gc_role (peer_number current_role new_role : Z) : GC bool :=
  c ← get_chat;
  match get_gc_peer c peer_number with
  | None => mret false
  | Some p =>
      let public_key := pr_public_key p in
      if current_role =? GR_MODERATOR then
        and_then (founder_gc_set_moderator public_key false)
          (update_roles;;
           if new_role =? GR_OBSERVER then mod_gc_set_observer peer_number true else mret true)
      else if current_role =? GR_OBSERVER then
        and_then (mod_gc_set_observer peer_number false)
          (update_roles;;
           if new_role =? GR_MODERATOR then founder_gc_set_moderator public_key true else mret true)
      else if current_role =? GR_USER then
        if new_role =? GR_MODERATOR then founder_gc_set_moderator public_key true
        else if new_role =? GR_OBSERVER then mod_gc_set_observer peer_number true
        else mret true
      else mret false
  end.

(** From the point on where the group was found. *)
Definition gc_set_peer_role (peer_id new_role : Z) : GC Z :=
  c ← get_chat;
  let peer_number := get_peer_number_of_peer_id c peer_id in
  match get_gc_peer c peer_number with
  | None => mret (-2)
  | Some p =>
      if negb (pr_confirmed p) then mret (-2)
      else
        let current_role := pr_role p in
        if (new_role =? GR_FOUNDER) || (pr_role p =? new_role) then mret (-4)
        else if peer_number_is_self peer_number then mret (-6)
        else if (current_role =? GR_FOUNDER) || (GR_USER <=? gc_get_self_role c) then mret (-3)
        else if negb (self_gc_is_founder c) && ((new_role =? GR_MODERATOR) || (current_role =? GR_MODERATOR)) then mret (-3)
        else
          ok ← apply_new_gc_role peer_number current_role new_role;
          if negb ok then mret (-5) else update_roles;; mret 0
  end.

(** ** What only the founder changes *)

Definition set_shared (f : GC_SharedState → GC_SharedState) : GC unit :=
  modify (λ c, c <| ch_shared_state := f (ch_shared_state c) |>).

Definition gc_founder_set_password (password : option bytes) (length : Z) : GC Z :=
  c ← get_chat;
  if negb (self_gc_is_founder c) then mret (-1)
  else
    let oldlen := ss_password_length (ch_shared_state c) in
    let oldpasswd := if 0 <? oldlen then Some (slice 0 oldlen (ss_password (ch_shared_state c))) else None in
    if (0 <? oldlen) && negb malloc then mret (-4)
    else
      match set_gc_password_local password length (ch_shared_state c) with
      | None => mret (-2)
      | Some s =>
          set_shared (λ _, s);;
          ok ← sign_gc_shared_state;
          if negb ok then
            set_shared (λ s, default s (set_gc_password_local oldpasswd oldlen s));; mret (-2)
          else ok ← broadcast_gc_shared_state; mret (if ok : bool then 0 else -3)
      end.

(** The operations below start where the group was found. *)
Definition gc_founder_set_topic_lock (new_lock_state : Z) : GC Z :=
  c ← get_chat;
  if TL_DISABLED <? new_lock_state then mret (-2)
  else if negb (self_gc_is_founder c) then mret (-3)
  else if ch_connection_state c <=? CS_DISCONNECTED then mret (-4)
  else if new_lock_state =? gc_get_topic_lock_state c then mret 0
  else
    let old_topic_lock := ss_topic_lock (ch_shared_state c) in
    let undo := set_shared (λ s, s <| ss_topic_lock := old_topic_lock |>) in
    ok ← (if new_lock_state =? TL_ENABLED then
            set_shared (λ s, s <| ss_topic_lock := GC_TOPIC_LOCK_ENABLED |>);;
            resign_topic
          else set_shared (λ s, s <| ss_topic_lock := ti_version (ch_topic_info c) |>);; mret true);
    if negb ok then undo;; mret (-6)
    else
      ok ← sign_gc_shared_state;
      if negb ok then undo;; mret (-5)
      else ok ← broadcast_gc_shared_state; mret (if ok : bool then 0 else -6).

Definition gc_founder_set_voice_state (new_voice_state : Z) : GC Z :=
  c ← get_chat;
  if negb (self_gc_is_founder c) then mret (-2)
  else if (ch_connection_state c =? CS_DISCONNECTED) || (ch_connection_state c =? CS_NONE) then mret (-3)
  else
    let old := ss_voice_state (ch_shared_state c) in
    if new_voice_state =? old then mret 0
    else
      set_shared (λ s, s <| ss_voice_state := new_voice_state |>);;
      ok ← sign_gc_shared_state;
      if negb ok then set_shared (λ s, s <| ss_voice_state := old |>);; mret (-4)
      else ok ← broadcast_gc_shared_state; mret (if ok : bool then 0 else -5).

Definition gc_founder_set_privacy_state (new_privacy_state : Z) : GC Z :=
  c ← get_chat;
  if negb (self_gc_is_founder c) then mret (-2)
  else if (ch_connection_state c =? CS_DISCONNECTED) || (ch_connection_state c =? CS_NONE) then mret (-3)
  else
    let old := ss_privacy_state (ch_shared_state c) in
    if new_privacy_state =? old then mret 0
    else
      set_shared (λ s, s <| ss_privacy_state := new_privacy_state |>);;
      ok ← sign_gc_shared_state;
      if negb ok then set_shared (λ s, s <| ss_privacy_state := old |>);; mret (-4)
      else
        (if new_privacy_state =? GI_PRIVATE then
           add_event (EvCleanupGca (get_chat_id (ch_chat_public_key c)));;
           add_event EvKillGroupConnection;;
           modify (λ c, c <| ch_join_type := HJ_PRIVATE |>)
         else
           add_event EvCreateGroupConnection;;
           when create_connection (modify (λ c, c <| ch_update_self_announces := true |> <| ch_join_type := HJ_PUBLIC |>)));;
        ok ← broadcast_gc_shared_state; mret (if ok : bool then 0 else -5).

Definition gc_founder_set_max_peers (max_peers : Z) : GC Z :=
  c ← get_chat;
  if negb (self_gc_is_founder c) then mret (-1)
  else
    let old := ss_maxpeers (ch_shared_state c) in
    if max_peers =? old then mret 0
    else
      set_shared (λ s, s <| ss_maxpeers := max_peers |>);;
      ok ← sign_gc_shared_state;
      if negb ok then set_shared (λ s, s <| ss_maxpeers := old |>);; mret (-2)
      else ok ← broadcast_gc_shared_state; mret (if ok : bool then 0 else -3).

(** ** Founding a group *)

Definition init_gc_shared_state (privacy_state : Z) (c : GC_Chat) : GC_Chat :=
  c <| ch_shared_state := (ch_shared_state c) <| ss_maxpeers := MAX_GC_PEERS_DEFAULT |> <| ss_privacy_state := privacy_state |>
         <| ss_topic_lock := GC_TOPIC_LOCK_ENABLED |> <| ss_voice_state := GV_ALL |> |>.

Definition init_gc_shared_state_founder (privacy_state : Z) (group_name : bytes) (name_length : Z) : GC bool :=
  modify (λ c, c <| ch_shared_state := (ch_shared_state c)
    <| ss_founder_public_key := ch_self_public_key c |>
    <| ss_group_name := slice 0 name_length group_name ++ drop (Z.to_nat name_length) (ss_group_name (ch_shared_state c)) |>
    <| ss_group_name_len := name_length |> <| ss_privacy_state := privacy_state |> |>);;
  sign_gc_shared_state.

Definition init_gc_moderation (c : GC_Chat) : GC_Chat :=
  c <| ch_moderation := (ch_moderation c)
    <| mo_founder_public_sig_key := get_sig_pk (ss_founder_public_key (ch_shared_state c)) |>
    <| mo_self_public_sig_key := get_sig_pk (ch_self_public_key c) |>
    <| mo_self_secret_sig_key := slice ENC_PUBLIC_KEY_SIZE SIG_SECRET_KEY_SIZE (ch_self_secret_key c) |>
    <| mo_shared_state_version := ss_version (ch_shared_state c) |> |>.

Definition init_gc_sanctions_creds : GC bool := on_moderation (sanctions_list_make_creds alloc).

(** [gc_group_add] from the point on where the chat has its keys; the friend
    connection of a public group is left out. *)
Definition gc_group_add (privacy_state : Z) (group_name : bytes) (group_name_length : Z) : GC Z :=
  if MAX_GC_GROUP_NAME_SIZE <? group_name_length then mret (-1)
  else if group_name_length =? 0 then mret (-2)
  else
    ok ← init_gc_shared_state_founder privacy_state group_name group_name_length;
    if negb ok then mret (-4)
    else
      modify init_gc_moderation;;
      ok ← init_gc_sanctions_creds;
      if negb ok then mret (-4)
      else
        ret ← gc_set_topic [] 0;
        if negb (ret =? 0) then mret (-4)
        else
          modify (λ c, c <| ch_join_type := HJ_PRIVATE |> <| ch_connection_state := CS_CONNECTED |>
                         <| ch_time_connected := mono_time_get (ch_mono_time c) |>);;
          mret 0.
End control.
