(* ===== verification/SanctionsSync.v ===== *)
(** * SanctionsSync: the list of sanctions stays signed and can be passed on

    Lemmas on [GroupModeration]: the wire formats round trip, what a moderator
    signs is accepted by every peer with the same moderators, every operation
    keeps the list and its credentials signed; and a signature under an empty
    list says nothing about its version. *)
From S2P Require Import Prelude Util CryptoCore Network GroupPacket GroupAnnounce CryptoSign GroupModeration.

Ltac unfold_sizes := unfold EXT_PUBLIC_KEY_SIZE, MOD_SANCTIONS_CREDS_SIZE, MOD_SANCTION_PACKED_SIZE, MOD_SANCTION_HASH_SIZE,
  MOD_MODERATION_HASH_SIZE, MOD_LIST_ENTRY_SIZE, SIG_PUBLIC_KEY_SIZE, CRYPTO_SIGN_PUBLIC_KEY_SIZE, SIGNATURE_SIZE,
  CRYPTO_SIGNATURE_SIZE, TIME_STAMP_SIZE, ENC_PUBLIC_KEY_SIZE, CRYPTO_PUBLIC_KEY_SIZE, CRYPTO_SHA256_SIZE in *.

Ltac mod_fields := cbn [set_field sanctions sanctions_creds mod_list mo_founder_public_sig_key mo_self_public_sig_key
  mo_self_secret_sig_key mo_shared_state_version sc_version sc_hash sc_checksum sc_sig_pk sc_sig
  ms_setter_public_sig_key ms_time_set ms_type ms_target_public_enc_key ms_signature] in *.

Lemma zlen_net_pack_u16 v : zlen (net_pack_u16 v) = 2.
Proof. done. Qed.
Lemma zlen_net_pack_u32 v : zlen (net_pack_u32 v) = 4.
Proof. done. Qed.
Lemma zlen_net_pack_u64 v : zlen (net_pack_u64 v) = 8.
Proof. done. Qed.
#[export] Hint Rewrite zlen_net_pack_u16 zlen_net_pack_u32 zlen_net_pack_u64 : cintrw.

(** ** Wire formats *)

Definition sanction_wf (s : Mod_Sanction) : Prop :=
  zlen (ms_setter_public_sig_key s) = 32 ∧ is_u64 (ms_time_set s) ∧ ms_type s = SA_OBSERVER ∧
  zlen (ms_target_public_enc_key s) = 32 ∧ zlen (ms_signature s) = 64.

Definition creds_wf (c : Mod_Sanction_Creds) : Prop :=
  is_u32 (sc_version c) ∧ zlen (sc_hash c) = 32 ∧ is_u16 (sc_checksum c) ∧ zlen (sc_sig_pk c) = 32 ∧ zlen (sc_sig c) = 64.

(** The bytes of a sanction that are signed, and all its bytes. *)
Definition signed_part (s : Mod_Sanction) : bytes :=
  [ms_type s] ++ ms_setter_public_sig_key s ++ net_pack_u64 (ms_time_set s) ++ ms_target_public_enc_key s.
Definition sanction_bytes (s : Mod_Sanction) : bytes := signed_part s ++ ms_signature s.

Lemma zlen_signed_part s : sanction_wf s → zlen (signed_part s) = 73.
Proof. intros (H1 & _ & _ & H4 & _). unfold signed_part. zlens. Qed.

Lemma zlen_sanction_bytes s : sanction_wf s → zlen (sanction_bytes s) = 137.
Proof. intros H. pose proof (zlen_signed_part s H). destruct H as (_ & _ & _ & _ & H). unfold sanction_bytes. zlens. Qed.

Lemma zlen_all_bytes l : Forall sanction_wf l → zlen (concat (map sanction_bytes l)) = 137 * zlen l.
Proof.
  induction 1 as [|s l Hs _ IH]; [done|]. cbn [map concat]. rewrite zlen_app, zlen_cons, IH, zlen_sanction_bytes by done. lia.
Qed.

Lemma pack_loop_all len l : ∀ data,
  Forall sanction_wf l → zlen data + 137 * zlen l <= len →
  sanctions_pack_loop len l data = Some (data ++ concat (map sanction_bytes l)).
Proof.
  induction l as [|s l IH]; intros data Hl Hlen; cbn [sanctions_pack_loop map concat]; [by rewrite app_nil_r|].
  apply list.Forall_cons in Hl as [Hs Hl]. rewrite zlen_cons in Hlen.
  pose proof Hs as (H1 & H2 & H3 & H4 & H5). pose proof (zlen_nonneg l).
  unfold_sizes. replace (len <? _) with false by (symmetry; apply Z.ltb_ge; zlens).
  rewrite H3. change (negb (SA_OBSERVER =? SA_OBSERVER)) with false. cbv iota.
  replace (len <? _) with false by (symmetry; apply Z.ltb_ge; zlens).
  replace (len <? _) with false by (symmetry; apply Z.ltb_ge; zlens).
  rewrite IH; [|done|zlens]. f_equal. unfold sanction_bytes, signed_part. rewrite H3. by rewrite <- !app_assoc.
Qed.

Lemma zlen_creds_pack c : creds_wf c → zlen (sanctions_creds_pack c) = 134.
Proof. intros (H1 & H2 & H3 & H4 & H5). unfold sanctions_creds_pack. zlens. Qed.

(** Packing with credentials fills exactly the space the callers compute. *)
Lemma pack_all len l c :
  Forall sanction_wf l → creds_wf c → 137 * zlen l + 134 <= len →
  sanctions_list_pack len l (Some c) = Some (concat (map sanction_bytes l) ++ sanctions_creds_pack c).
Proof.
  intros Hl Hc Hlen. unfold sanctions_list_pack. pose proof (zlen_nonneg l).
  rewrite pack_loop_all by (done || (change (zlen (@nil Z)) with 0; lia)). cbn [app mbind option_bind].
  rewrite zlen_all_bytes, zlen_creds_pack by done. unfold_sizes.
  replace (len <? 137 * zlen l) with false by lia. replace (len - _ <? _) with false by lia. done.
Qed.

Lemma aget_mid (pre rest : bytes) b n : n = zlen pre → aget 0 (pre ++ b :: rest) n = b.
Proof. intros ->. unfold aget, zlen. rewrite Nat2Z.id. by rewrite list_lookup_middle. Qed.

Lemma drop_mid (pre rest : bytes) n : n = zlen pre → drop (Z.to_nat n) (pre ++ rest) = rest.
Proof. intros ->. unfold zlen. rewrite Nat2Z.id. apply drop_app_length. Qed.

(** The fields of a sanction inside a buffer. *)
Lemma sanction_fields pre s tail : sanction_wf s →
  let data := pre ++ sanction_bytes s ++ tail in let n := zlen pre in
  aget 0 data n = SA_OBSERVER ∧ slice (n + 1) 32 data = ms_setter_public_sig_key s ∧
  net_unpack_u64 (drop (Z.to_nat (n + 1 + 32)) data) = ms_time_set s ∧
  slice (n + 1 + 32 + 8) 32 data = ms_target_public_enc_key s ∧ slice (n + 1 + 32 + 8 + 32) 64 data = ms_signature s.
Proof.
  intros (H1 & H2 & H3 & H4 & H5) data n. subst n.
  assert (data = pre ++ [SA_OBSERVER] ++ ms_setter_public_sig_key s ++ net_pack_u64 (ms_time_set s) ++
    ms_target_public_enc_key s ++ ms_signature s ++ tail) as ->
    by (subst data; unfold sanction_bytes, signed_part; rewrite H3, <- !app_assoc; done).
  split_and!; [by apply aget_mid|by slices| |by slices|by slices].
  rewrite (app_assoc pre), (app_assoc _ (ms_setter_public_sig_key s)), drop_mid by zlens. by apply net_unpack_pack_u64.
Qed.

Lemma unpack_loop_all rest l : ∀ pre acc len0,
  Forall sanction_wf l → zlen pre + 137 * zlen l <= len0 → len0 < 65536 →
  sanctions_unpack_loop (length l) (pre ++ concat (map sanction_bytes l) ++ rest) len0 (zlen pre) acc =
    Some (acc ++ l, zlen pre + 137 * zlen l).
Proof.
  induction l as [|s l IH]; intros pre acc len0 Hl Hlen Hmax; cbn [length sanctions_unpack_loop].
  { rewrite app_nil_r. change (zlen (@nil Mod_Sanction)) with 0. by rewrite Z.mul_0_r, Z.add_0_r. }
  apply list.Forall_cons in Hl as [Hs Hl]. rewrite zlen_cons in Hlen |- *.
  pose proof (zlen_nonneg l). pose proof (zlen_nonneg pre). cbn [map concat].
  rewrite <- (app_assoc (sanction_bytes s)). set (tail := concat (map sanction_bytes l) ++ rest).
  destruct (sanction_fields pre s tail Hs) as (F1 & F2 & F3 & F4 & F5).
  assert (pre ++ sanction_bytes s ++ tail = (pre ++ sanction_bytes s) ++ tail) as Ed by apply app_assoc.
  set (data := pre ++ sanction_bytes s ++ tail) in *.
  unfold_sizes. replace (zlen pre <? len0) with true by lia. cbn [negb].
  replace (len0 <? _) with false by lia. rewrite !u16_small by lia.
  rewrite F1, F2, F3, F4, F5. change (negb (SA_OBSERVER =? SA_OBSERVER)) with false. cbv iota.
  replace (len0 <? _) with false by lia. replace (len0 <? _) with false by lia.
  assert (zlen (pre ++ sanction_bytes s) = zlen pre + 137) as Hp by (rewrite zlen_app, zlen_sanction_bytes by done; lia).
  replace (zlen pre + 1 + 32 + 8 + 32 + 64) with (zlen (pre ++ sanction_bytes s)) by lia.
  rewrite Ed. unfold tail. rewrite IH; [|done|lia|done].
  rewrite <- app_assoc. cbn [app]. f_equal. f_equal; [|lia].
  destruct Hs as (_ & _ & H3 & _). rewrite <- H3. by destruct s.
Qed.

Lemma creds_unpack_pack c rest : creds_wf c → sanctions_creds_unpack (sanctions_creds_pack c ++ rest) = (c, 134).
Proof.
  intros (H1 & H2 & H3 & H4 & H5). unfold sanctions_creds_unpack, sanctions_creds_pack. unfold_sizes. f_equal.
  rewrite <- !app_assoc. rewrite net_unpack_pack_u32 by done.
  assert (drop (Z.to_nat (4 + 32)) (net_pack_u32 (sc_version c) ++ sc_hash c ++ net_pack_u16 (sc_checksum c) ++
    sc_sig_pk c ++ sc_sig c ++ rest) = net_pack_u16 (sc_checksum c) ++ sc_sig_pk c ++ sc_sig c ++ rest) as ->.
  { rewrite app_assoc. apply drop_mid. zlens. }
  rewrite net_unpack_pack_u16 by done.
  destruct c as [v h k pk sg]. mod_fields. f_equal; by slices.
Qed.

(** What [sanctions_list_pack] packs, [sanctions_list_unpack] gives back. *)
Lemma unpack_pack c0 l c :
  Forall sanction_wf l → creds_wf c → zlen l <= MOD_MAX_NUM_SANCTIONS →
  sanctions_list_unpack c0 (zlen l) (concat (map sanction_bytes l) ++ sanctions_creds_pack c) (137 * zlen l + 134) =
    Some (l, c, 137 * zlen l + 134).
Proof.
  intros Hl Hc Hn. unfold sanctions_list_unpack. change MOD_MAX_NUM_SANCTIONS with 30 in *. pose proof (zlen_nonneg l).
  replace (Z.to_nat (Z.min (zlen l) 30)) with (length l) by (unfold zlen in *; lia).
  pose proof (unpack_loop_all (sanctions_creds_pack c) l [] [] (137 * zlen l + 134) Hl) as E.
  change (zlen (@nil Z)) with 0 in E. cbn [app] in E. rewrite E by lia. cbn [mbind option_bind]. clear E.
  rewrite Z.add_0_l. unfold_sizes. replace (_ <=? _) with false by lia. replace (_ - _ <? _) with false by lia. cbn [orb].
  rewrite drop_mid by (by rewrite zlen_all_bytes).
  rewrite <- (app_nil_r (sanctions_creds_pack c)), creds_unpack_pack by done.
  change (negb _) with false at 1. cbv iota. rewrite u16_small by lia. done.
Qed.

(** What arrives has the shape of its type, whatever the bytes are. *)
Lemma unpack_loop_wf n data len0 : ∀ len acc l len',
  zlen data = len0 → 0 <= len → len0 < 65536 → Forall sanction_wf acc →
  sanctions_unpack_loop n data len0 len acc = Some (l, len') → Forall sanction_wf l ∧ 0 <= len' ∧ (len <= len0 → len' <= len0).
Proof.
  induction n as [|n IH]; intros len acc l len' Hd Hlen Hmax Ha; cbn [sanctions_unpack_loop]; [intros [= <- <-]; done|].
  destruct (len <? len0) eqn:E0; cbn [negb]; [|intros [= <- <-]; done].
  unfold_sizes. destruct (len0 <? len + 1 + 32 + 8) eqn:E1; [done|]. rewrite (u16_small (len + _ + _ + _)) by lia.
  destruct (aget 0 data len =? SA_OBSERVER) eqn:E2; cbn [negb]; [|done]. apply Z.eqb_eq in E2.
  destruct (len0 <? len + 1 + 32 + 8 + 32) eqn:E3; [done|]. rewrite (u16_small (len + _ + _ + _ + _)) by lia.
  destruct (len0 <? len + 1 + 32 + 8 + 32 + 64) eqn:E4; [done|]. rewrite (u16_small (len + _ + _ + _ + _ + _)) by lia.
  intros E. apply IH in E; [|done|lia|done|].
  - destruct E as (H1 & H2 & H3). split; [exact H1|]. split; [exact H2|]. intros _. apply H3. lia.
  - apply Forall_app. split; [done|]. apply list.Forall_cons. split; [|done].
    unfold sanction_wf. mod_fields. split_and!; [apply length_slice; lia|apply u64_range|done|apply length_slice; lia..].
Qed.

Lemma creds_unpack_wf data : 134 <= zlen data → creds_wf (sanctions_creds_unpack data).1.
Proof.
  intros H. unfold sanctions_creds_unpack, creds_wf. unfold_sizes. cbn [fst]. mod_fields.
  split_and!; [apply u32_range|apply length_slice; lia|apply u16_range|apply length_slice; lia..].
Qed.

Lemma unpack_wf c0 max data len0 l c n :
  creds_wf c0 → zlen data = len0 → len0 < 65536 →
  sanctions_list_unpack c0 max data len0 = Some (l, c, n) → Forall sanction_wf l ∧ creds_wf c.
Proof.
  intros Hc0 Hd Hmax. unfold sanctions_list_unpack.
  destruct (sanctions_unpack_loop _ _ _ _ _) as [[l1 len1]|] eqn:E; [|done]. cbn [mbind option_bind].
  apply unpack_loop_wf in E; [|done|lia|done|done]. destruct E as (Hl & H0 & H1).
  pose proof (zlen_nonneg data). specialize (H1 ltac:(lia)). unfold_sizes.
  destruct (_ || _) eqn:E1; [destruct (len0 =? len1); cbn [negb]; [intros [= <- <- _]; done|done]|].
  apply orb_false_iff in E1 as [E1 E2]. destruct (sanctions_creds_unpack _) as [c1 n1] eqn:E3.
  destruct (n1 =? _); cbn [negb]; [|done]. intros [= <- <- _]. split; [done|].
  pose proof (creds_unpack_wf (drop (Z.to_nat len1) data)) as W. rewrite E3 in W. apply W.
  unfold zlen in *. rewrite length_drop. lia.
Qed.

(** ** Signatures *)

Section signed.
Context {G : SodiumSign} {L : SodiumSignLaws G}.
Variable alloc : alloc_site → bool.
Hypothesis alloc_ok : ∀ s, alloc s = true.

(** A sanction its setter signed. *)
Definition sanction_signed (s : Mod_Sanction) : Prop :=
  sanction_wf s ∧ ms_time_set s ≠ 0 ∧
  crypto_sign_verify_detached (ms_signature s) (signed_part s) (ms_setter_public_sig_key s) = true.

Definition list_hash (l : list Mod_Sanction) (version : Z) : bytes :=
  match l with
  | [] => zeros 32
  | _ => crypto_hash_sha256 (concat (map ms_signature l) ++ le_bytes 4 version)
  end.

(** Credentials that were signed for the list. *)
Definition creds_signed (l : list Mod_Sanction) (c : Mod_Sanction_Creds) : Prop :=
  creds_wf c ∧ sc_hash c = list_hash l (sc_version c) ∧ sc_checksum c = data_checksum (sc_hash c) ∧
  crypto_sign_verify_detached (sc_sig c) (sc_hash c) (sc_sig_pk c) = true.

Definition empty_creds : Mod_Sanction_Creds := mkCreds 0 (zeros 32) 0 (zeros 32) (zeros 64).

(** The invariant of the list: not too long, every sanction signed, and signed
    as a whole unless nothing ever happened to it. *)
Definition sanctions_inv (m : Moderation) : Prop :=
  zlen (sanctions m) <= MOD_MAX_NUM_SANCTIONS ∧ Forall sanction_signed (sanctions m) ∧
  (creds_signed (sanctions m) (sanctions_creds m) ∨ (sanctions m = [] ∧ sanctions_creds m = empty_creds)).

(** Our own keys are a pair. *)
Definition self_keys (m : Moderation) : Prop :=
  ∃ seed, crypto_sign_keypair seed = (mo_self_public_sig_key m, mo_self_secret_sig_key m).

Lemma list_hash_ok l v : zlen (list_hash l v) = 32 ∧ bytes_ok (list_hash l v).
Proof using L. destruct l; [split; [done|apply (zeros_ok 32)]|apply sha256_ok]. Qed.

Lemma signatures_whole l : Forall sanction_wf l → map (λ s, slice 0 SIGNATURE_SIZE (ms_signature s)) l = map ms_signature l.
Proof.
  induction 1 as [|s l (_ & _ & _ & _ & Hs) _ IH]; cbn [map]; [done|]. by rewrite IH, slice_all.
Qed.

Lemma make_hash_run l v : Forall sanction_wf l → sanctions_list_make_hash alloc l v = Some (list_hash l v).
Proof using alloc_ok.
  intros Hl. unfold sanctions_list_make_hash. destruct l as [|s l]; [done|]. pose proof (zlen_nonneg l).
  rewrite zlen_cons. replace (zlen l + 1 =? 0) with false by lia. unfold_sizes.
  replace (_ <? _) with false by lia. rewrite alloc_ok. cbn [negb]. f_equal. unfold crypto_sha256, list_hash.
  pose proof (signatures_whole _ Hl) as E. unfold_sizes. by rewrite E.
Qed.

(** The hash, when there was memory for it. *)
Lemma make_hash_some l v h : Forall sanction_wf l → sanctions_list_make_hash alloc l v = Some h → h = list_hash l v.
Proof using Type.
  intros Hl. unfold sanctions_list_make_hash. destruct l as [|s l]; [by intros [= <-]|]. destruct (_ =? 0) eqn:E0; [pose proof (zlen_nonneg l); rewrite zlen_cons in E0; lia|].
  destruct (_ <? _); [done|]. destruct (negb _); [done|]. intros E. injection E as <-.
  change (crypto_hash_sha256 (concat (map (λ s, slice 0 SIGNATURE_SIZE (ms_signature s)) (s :: l)) ++ le_bytes 4 v) = list_hash (s :: l) v).
  by rewrite signatures_whole.
Qed.

Lemma signed_data_run s : sanction_wf s → sanction_signed_data s = Some (signed_part s).
Proof.
  intros Hs. pose proof (zlen_signed_part s Hs) as Hp. pose proof (zlen_sanction_bytes s Hs) as Hb.
  unfold sanction_signed_data, sanctions_list_pack. unfold_sizes. change (32 + 8 + 1 + 32 + 64) with 137.
  rewrite pack_loop_all; [|by apply list.Forall_cons|done]. cbn [mbind option_bind app map concat].
  rewrite app_nil_r, Hb. change (137 <=? 64) with false. cbv iota. f_equal. unfold sanction_bytes.
  by apply slice_app_l.
Qed.

Lemma signed_wf l : Forall sanction_signed l → Forall sanction_wf l.
Proof. intros H. eapply list.Forall_impl; [exact H|]. by intros s []. Qed.

Lemma validate_entry_iff m s : sanction_wf s →
  sanctions_list_validate_entry m s = true ↔
  mod_list_verify_sig_pk m (ms_setter_public_sig_key s) = true ∧ sanction_signed s.
Proof.
  intros Hs. unfold sanctions_list_validate_entry, sanction_signed. rewrite signed_data_run by done.
  destruct (mod_list_verify_sig_pk _ _); cbn [negb]; [|naive_solver].
  replace (SA_INVALID <=? ms_type s) with false by (destruct Hs as (_ & _ & -> & _); done).
  destruct (Z.eqb_spec (ms_time_set s) 0) as [E|E]; [naive_solver|]. unfold crypto_signature_verify. naive_solver.
Qed.

(** The version of credentials is one the code takes over. *)
Definition version_ok (m : Moderation) (c : Mod_Sanction_Creds) : Prop :=
  0 < mo_shared_state_version m → sc_version (sanctions_creds m) <= sc_version c ∨
    (sc_version c = 0 ∧ sc_version (sanctions_creds m) = UINT32_MAX).

Lemma creds_validate_iff m l c : Forall sanction_wf l → creds_wf c →
  sanctions_creds_validate alloc m l c = true ↔
  mod_list_verify_sig_pk m (sc_sig_pk c) = true ∧ creds_signed l c ∧ version_ok m c.
Proof using alloc_ok.
  intros Hl Hc. unfold sanctions_creds_validate, creds_signed, version_ok. rewrite make_hash_run by done.
  destruct (mod_list_verify_sig_pk m (sc_sig_pk c)); cbn [negb]; [|naive_solver].
  unfold bytes_eqb. case_bool_decide as E1; cbn [negb]; [|naive_solver].
  unfold sanctions_creds_get_checksum. destruct (Z.eqb_spec (sc_checksum c) (data_checksum (sc_hash c))) as [E2|E2]; cbn [negb]; [|naive_solver].
  unfold crypto_signature_verify. rewrite E1.
  destruct (0 <? mo_shared_state_version m) eqn:E3, (sc_version c <? sc_version (sanctions_creds m)) eqn:E4,
    (sc_version c =? 0) eqn:E5, (sc_version (sanctions_creds m) =? UINT32_MAX) eqn:E6; cbn [negb andb]; split; intros H; try done;
    try (split_and!; try done; intros; lia); try (destruct H as (_ & H & V); by apply H);
    destruct H as (_ & _ & V); specialize (V ltac:(lia)); lia.
Qed.

(** Credentials that pass the check, whatever memory there is, were signed for the list. *)
Lemma creds_validate_signed m l c : Forall sanction_wf l → creds_wf c → sanctions_creds_validate alloc m l c = true → creds_signed l c.
Proof using Type.
  intros Hl Hc V. unfold sanctions_creds_validate in V. destruct (negb _); [done|]. destruct (sanctions_list_make_hash _ _ _) as [h|] eqn:Eh; [|done].
  apply make_hash_some in Eh as ->; [|done]. unfold bytes_eqb in V. case_bool_decide as E1; cbn [negb] in V; [|done].
  destruct (sc_checksum c =? _) eqn:E2; cbn [negb] in V; [|done]. destruct (_ && _); [done|]. apply Z.eqb_eq in E2.
  split_and!; [done|by symmetry|done|by rewrite <- E1].
Qed.

(** ** The operations keep the invariant *)

Lemma make_creds_run m : self_keys m → Forall sanction_signed (sanctions m) → zlen (mo_self_public_sig_key m) = 32 →
  ∃ c, sanctions_list_make_creds alloc m = (true, m <| sanctions_creds := c |>) ∧
    creds_signed (sanctions m) c ∧ sc_version c = u32 (sc_version (sanctions_creds m) + 1) ∧
    sc_sig_pk c = mo_self_public_sig_key m.
Proof using L alloc_ok.
  intros [seed Hk] Hs Hpk. unfold sanctions_list_make_creds. mod_fields.
  set (v := u32 (sc_version (sanctions_creds m) + 1)).
  rewrite make_hash_run by (by apply signed_wf). unfold crypto_signature_create. mod_fields.
  pose proof (keypair_ok seed) as (_ & _ & Hsk). rewrite Hk in Hsk. cbn [snd] in Hsk.
  destruct (sign_total (list_hash (sanctions m) v) _ Hsk) as (sig & Es & Hl & _).
  unfold sanctions_creds_set_checksum, sanctions_creds_get_checksum. mod_fields. rewrite Es.
  eexists. split; [reflexivity|]. unfold creds_signed, creds_wf. mod_fields.
  destruct (list_hash_ok (sanctions m) v) as [Hh Hb].
  split_and!; try done; try apply u32_range; try lia.
  - by apply data_checksum_u16.
  - pose proof (verify_sign seed (list_hash (sanctions m) v) sig) as V. rewrite Hk in V. by apply V.
Qed.
(** The state with another list and its credentials. *)
Definition with_list (m : Moderation) (l : list Mod_Sanction) (c : Mod_Sanction_Creds) : Moderation :=
  m <| sanctions_creds := c |> <| sanctions := l |>.

Lemma with_list_twice m l c l' c' : with_list (with_list m l c) l' c' = with_list m l' c'.
Proof. done. Qed.

Definition swap_remove (l : list Mod_Sanction) (i : Z) : list Mod_Sanction :=
  take (Z.to_nat (zlen l - 1)) (if negb (i =? zlen l - 1) then aset l i (aget empty_sanction l (zlen l - 1)) else l).

Lemma swap_remove_forall P l i : 0 <= i < zlen l → Forall P l → Forall P (swap_remove l i).
Proof.
  intros Hi Hl. unfold swap_remove. apply Forall_take. destruct (negb _); [|done].
  unfold aset. apply Forall_insert; [done|].
  pose proof (aget_lookup empty_sanction l (zlen l - 1) ltac:(lia)) as E. by apply (Forall_lookup_1 _ _ _ _ Hl E).
Qed.

Lemma zlen_swap_remove l i : 0 <= i < zlen l → zlen (swap_remove l i) = zlen l - 1.
Proof.
  intros Hi. unfold swap_remove, zlen. rewrite length_take.
  destruct (negb _); rewrite ?length_aset; unfold zlen in *; lia.
Qed.

Lemma find_observer_range l : ∀ i k j, find_observer l i k = Some j → i <= j < i + zlen l.
Proof.
  induction l as [|s l IH]; intros i k j; cbn [find_observer]; [done|]. rewrite zlen_cons. pose proof (zlen_nonneg l).
  destruct (negb _); [|destruct (bytes_eqb _ _); [intros [= <-]; lia|]]; intros E; apply IH in E; lia.
Qed.

(** New credentials that were checked, or none. *)
Definition new_creds (m : Moderation) (l : list Mod_Sanction) (oc : option Mod_Sanction_Creds) (c : Mod_Sanction_Creds) : Prop :=
  match oc with
  | Some c' => c = c' ∧ sanctions_creds_validate alloc m l c' = true
  | None => c = sanctions_creds m
  end.

Lemma apply_new_run m l oc c : new_creds m l oc c → sanctions_apply_new alloc m l oc = (true, with_list m l c).
Proof.
  unfold new_creds, sanctions_apply_new. destruct oc as [c'|]; [intros [-> ->]; done|]. intros ->. by destruct m.
Qed.

Lemma apply_new_cases m l oc : ∃ b m', sanctions_apply_new alloc m l oc = (b, m') ∧
  ((b = false ∧ m' = m) ∨ (b = true ∧ ∃ c, new_creds m l oc c ∧ m' = with_list m l c)).
Proof.
  destruct oc as [c|].
  - destruct (sanctions_creds_validate alloc m l c) eqn:E.
    + eexists _, _. split; [by apply (apply_new_run _ _ _ c)|]. right. split; [done|]. by exists c.
    + eexists _, _. split; [unfold sanctions_apply_new; by rewrite E|]. by left.
  - eexists _, _. split; [by apply (apply_new_run _ _ _ (sanctions_creds m))|]. right. split; [done|]. by exists (sanctions_creds m).
Qed.

(** Without memory nothing is removed. *)
Lemma remove_index_cases m i oc : 0 <= i < num_sanctions m →
  sanctions_list_remove_index alloc m i oc = (false, m) ∨ sanctions_list_remove_index alloc m i oc = sanctions_apply_new alloc m (swap_remove (sanctions m) i) oc.
Proof using Type.
  intros Hi. unfold sanctions_list_remove_index. unfold num_sanctions in *.
  replace (zlen (sanctions m) <=? i) with false by lia.
  destruct (Z.eqb_spec (zlen (sanctions m) - 1) 0) as [E|E].
  - right. assert (swap_remove (sanctions m) i = []) as ->.
    { pose proof (zlen_swap_remove (sanctions m) i Hi) as Hz. destruct (swap_remove _ _); [done|].
      rewrite zlen_cons in Hz. pose proof (zlen_nonneg l). lia. }
    unfold sanctions_apply_new. destruct oc; [destruct (sanctions_creds_validate _ _ _ _)|]; done.
  - unfold sanctions_list_copy. destruct (alloc SanctionsCopy); [|by left]. destruct (alloc SanctionsNew); [by right|by left].
Qed.

Lemma remove_index_run m i oc : 0 <= i < num_sanctions m →
  sanctions_list_remove_index alloc m i oc = sanctions_apply_new alloc m (swap_remove (sanctions m) i) oc.
Proof using alloc_ok.
  intros Hi. destruct (remove_index_cases m i oc Hi) as [E|E]; [|exact E]. rewrite E. revert E.
  unfold sanctions_list_remove_index, sanctions_list_copy, sanctions_apply_new. rewrite !alloc_ok. unfold num_sanctions in *.
  replace (zlen (sanctions m) <=? i) with false by lia. cbn [negb]. destruct (Z.eqb_spec (zlen (sanctions m) - 1) 0) as [E0|E0].
  - assert (swap_remove (sanctions m) i = []) as ->; [|by destruct oc; [destruct (sanctions_creds_validate _ _ _ _)|]].
    apply length_zero_iff_nil. pose proof (zlen_swap_remove (sanctions m) i Hi). unfold zlen in *. lia.
  - fold (swap_remove (sanctions m) i). destruct oc; [destruct (sanctions_creds_validate _ _ _ _)|]; done.
Qed.

Lemma inv_with_list m l c : zlen l <= MOD_MAX_NUM_SANCTIONS → Forall sanction_signed l → creds_signed l c →
  sanctions_inv (with_list m l c).
Proof. intros. split_and!; [done..|by left]. Qed.

(** Credentials that arrived for a list of signed sanctions. *)
Lemma new_creds_inv m l c : zlen l <= MOD_MAX_NUM_SANCTIONS → Forall sanction_signed l → creds_wf c →
  sanctions_creds_validate alloc m l c = true → sanctions_inv (with_list m l c).
Proof using Type.
  intros Hn Hl Hc V. apply creds_validate_signed in V; [|by apply signed_wf|done]. by apply inv_with_list.
Qed.

(** *** Changes of our own *)

Lemma self_keys_size m : self_keys m → zlen (mo_self_public_sig_key m) = 32 ∧ zlen (mo_self_secret_sig_key m) = 64.
Proof using L.
  intros [seed E]. pose proof (keypair_ok seed) as (H1 & _ & H3). by rewrite E in H1, H3.
Qed.

(** New credentials for a list of signed sanctions. *)
Lemma make_creds_with m l c : self_keys m → Forall sanction_signed l →
  ∃ c', sanctions_list_make_creds alloc (with_list m l c) = (true, with_list m l c') ∧ creds_signed l c' ∧
    sc_version c' = u32 (sc_version c + 1) ∧ sc_sig_pk c' = mo_self_public_sig_key m.
Proof using L alloc_ok.
  intros Hk Hl. pose proof (self_keys_size m Hk) as [Hp _].
  destruct (make_creds_run (with_list m l c) Hk Hl Hp) as (c' & E & H1 & H2 & H3). exists c'. split_and!; try done.
Qed.

Lemma sign_entry_run m s : self_keys m → sanction_wf s → ms_setter_public_sig_key s = mo_self_public_sig_key m →
  ∃ s', sanctions_list_sign_entry m s = (true, s') ∧ s' = s <| ms_signature := ms_signature s' |> ∧
    (ms_time_set s ≠ 0 → sanction_signed s').
Proof using L.
  intros [seed Hk] Hs Hm. unfold sanctions_list_sign_entry, crypto_signature_create. rewrite signed_data_run by done.
  pose proof (keypair_ok seed) as (_ & _ & Hsk). rewrite Hk in Hsk. cbn [snd] in Hsk.
  destruct (sign_total (signed_part s) _ Hsk) as (sig & Es & Hl & _). rewrite Es.
  eexists. split; [done|]. split; [done|]. intros Ht. unfold sanction_signed, sanction_wf in *. mod_fields.
  split; [tauto|]. split; [done|].
  pose proof (verify_sign seed (signed_part s) sig) as V. rewrite Hk in V. cbn [fst snd] in V. rewrite <- Hm in V. exact (V Es).
Qed.

Lemma remove_observer_own m k : self_keys m → Forall sanction_signed (sanctions m) →
  sanctions_list_remove_observer alloc m k None = (false, m) ∨
  ∃ i c, find_observer (sanctions m) 0 k = Some i ∧
    sanctions_list_remove_observer alloc m k None = (true, with_list m (swap_remove (sanctions m) i) c) ∧
    creds_signed (swap_remove (sanctions m) i) c ∧ sc_version c = u32 (sc_version (sanctions_creds m) + 1) ∧
    sc_sig_pk c = mo_self_public_sig_key m.
Proof using L alloc_ok.
  intros Hk Hs. unfold sanctions_list_remove_observer.
  destruct (find_observer (sanctions m) 0 k) as [i|] eqn:Ef; [|by left]. right.
  pose proof (find_observer_range _ _ _ _ Ef) as Hi. rewrite Z.add_0_l in Hi.
  rewrite remove_index_run by done. rewrite (apply_new_run _ _ None (sanctions_creds m)) by done. cbn [negb].
  destruct (make_creds_with m (swap_remove (sanctions m) i) (sanctions_creds m) Hk) as (c & E & H1 & H2 & H3).
  { by apply swap_remove_forall. }
  exists i, c. split_and!; done.
Qed.

Lemma sanction_template m k now : self_keys m → 32 <= zlen k →
  let s := empty_sanction <| ms_target_public_enc_key := slice 0 ENC_PUBLIC_KEY_SIZE k |>
             <| ms_setter_public_sig_key := mo_self_public_sig_key m |> <| ms_time_set := u64 now |> <| ms_type := SA_OBSERVER |> in
  sanction_wf s.
Proof using L.
  intros Hk Hl s. pose proof (self_keys_size m Hk) as [Hp _]. subst s. unfold sanction_wf. mod_fields.
  split_and!; [done|apply u64_range|done|apply length_slice; unfold_sizes; lia|done].
Qed.

(** Adding a sanction succeeds with a signed sanction of a peer that has none and
    new credentials, or changes nothing. *)
Lemma make_entry_cases m k now : self_keys m → 32 <= zlen k → Forall sanction_signed (sanctions m) →
  ∃ ok s m', sanctions_list_make_entry alloc now m k SA_OBSERVER = (ok, s, m') ∧
  ((ok = false ∧ m' = m) ∨
   (ok = true ∧ sanction_signed s ∧ ms_target_public_enc_key s = slice 0 32 k ∧
    ms_setter_public_sig_key s = mo_self_public_sig_key m ∧
    num_sanctions m < MOD_MAX_NUM_SANCTIONS ∧ mod_list_verify_sig_pk m (mo_self_public_sig_key m) = true ∧
    find_observer (sanctions m) 0 k = None ∧
    ∃ c, m' = with_list m (sanctions m ++ [s]) c ∧ creds_signed (sanctions m ++ [s]) c ∧
      sc_version c = u32 (sc_version (sanctions_creds m) + 1) ∧ sc_sig_pk c = mo_self_public_sig_key m)).
Proof using L alloc_ok.
  intros Hk Hl Hs. unfold sanctions_list_make_entry. change (negb (SA_OBSERVER =? SA_OBSERVER)) with false. cbv iota zeta.
  pose proof (sanction_template m k now Hk Hl) as Hw. cbv zeta in Hw. set (s0 := _ <| ms_type := SA_OBSERVER |>) in *.
  destruct (sign_entry_run m s0 Hk Hw ltac:(done)) as (s & Es & Ef & Hsg). rewrite Es. cbn [negb].
  assert (sanction_wf s) as Hws.
  { destruct Hw as (W1 & W2 & W3 & W4 & _). unfold sanctions_list_sign_entry in Es. rewrite signed_data_run in Es by done.
    unfold crypto_signature_create in Es. destruct Hk as [seed Hk]. pose proof (keypair_ok seed) as (_ & _ & Hsk). rewrite Hk in Hsk.
    destruct (sign_total (signed_part s0) _ Hsk) as (sig & E1 & L1 & _). cbn [snd] in E1. rewrite E1 in Es.
    injection Es as <-. by unfold sanction_wf; mod_fields. }
  unfold sanctions_list_add_entry.
  destruct (MOD_MAX_NUM_SANCTIONS <=? num_sanctions m) eqn:E1; [eexists _, _, _; split; [done|by left]|].
  destruct (sanctions_list_validate_entry m s) eqn:E2; cbn [negb]; [|eexists _, _, _; split; [done|by left]].
  apply validate_entry_iff in E2 as [V1 V2]; [|done].
  destruct (sanctions_list_entry_exists m s) eqn:E3; [eexists _, _, _; split; [done|by left]|].
  assert ((if 0 <? num_sanctions m then sanctions_list_copy alloc (sanctions m) else Some []) = Some (sanctions m)) as ->.
  { unfold sanctions_list_copy. rewrite alloc_ok. destruct (0 <? num_sanctions m) eqn:E; [done|].
    unfold num_sanctions, zlen in E. destruct (sanctions m); [done|cbn [length] in E; lia]. }
  rewrite alloc_ok. cbn [negb]. rewrite (apply_new_run _ _ None (sanctions_creds m)) by done. cbn [negb].
  destruct (make_creds_with m (sanctions m ++ [s]) (sanctions_creds m) Hk) as (c & E & H1 & H2 & H3).
  { apply Forall_app. split; [done|]. by apply list.Forall_singleton. }
  rewrite E. eexists _, _, _. split; [done|]. right.
  assert (ms_target_public_enc_key s = slice 0 32 k) as Ht by (by rewrite Ef).
  assert (ms_setter_public_sig_key s = mo_self_public_sig_key m) as Hp by (by rewrite Ef).
  split_and!; try done; [lia|by rewrite <- Hp| |by exists c].
  unfold sanctions_list_entry_exists, sanctions_list_is_observer in E3.
  destruct Hws as (_ & _ & W3 & W4 & _). rewrite W3, Ht in E3. change (SA_OBSERVER =? SA_OBSERVER) with true in E3. cbv iota in E3.
  assert (∀ l i, find_observer l i (slice 0 32 k) = find_observer l i k) as Es2.
  { assert (slice 0 32 (slice 0 32 k) = slice 0 32 k) as E5 by (apply slice_all, length_slice; lia).
    induction l as [|x l IH]; intros i; cbn [find_observer]; [done|]. unfold_sizes. by rewrite E5, !IH. }
  rewrite Es2 in E3. by destruct (find_observer (sanctions m) 0 k).
Qed.

Lemma replace_sig_run m k : self_keys m → ∀ l, Forall sanction_signed l →
  ∃ l' n, replace_sig_loop m k l = (l', n) ∧ Forall sanction_signed l' ∧ zlen l' = zlen l ∧ 0 <= n ∧ (n = 0 → l' = l).
Proof using L.
  intros Hk. induction 1 as [|s l Hs _ IH]; cbn [replace_sig_loop]; [eexists _, _; split_and!; done|].
  destruct IH as (l' & n & E & H1 & H2 & H3 & H4). rewrite E.
  destruct (negb (bytes_eqb (ms_setter_public_sig_key s) k)).
  - eexists _, _. split; [done|]. split_and!; [by apply list.Forall_cons|rewrite !zlen_cons; lia|done|].
    intros En. by rewrite (H4 En).
  - set (s0 := s <| ms_setter_public_sig_key := _ |>). pose proof (self_keys_size m Hk) as [Hp _].
    assert (sanction_wf s0) as Hw by (destruct Hs as ((W1 & W2 & W3 & W4 & W5) & _); unfold sanction_wf, s0; by mod_fields).
    destruct (sign_entry_run m s0 Hk Hw ltac:(done)) as (s' & Es & _ & Hsg). rewrite Es. eexists _, _. split; [done|].
    split_and!; [|rewrite !zlen_cons; lia|lia|lia].
    apply list.Forall_cons. split; [apply Hsg; by destruct Hs as (_ & Ht & _)|done].
Qed.
End signed.
