(* ===== verification/GroupSigned.v ===== *)
(** * GroupSigned: what a member holds was signed by who may decide it

    A Hoare logic for the code of [GroupControl], the round trips of the formats
    of [GroupState], and the invariant of all runs of a member: its shared state
    carries a signature under the key of the chat, its sanctions and their
    credentials are signed, and its topic is signed by its setter. *)
From S2P Require Import Prelude Util MonoTime CryptoCore Network World DhtLists GroupPacket GroupConnection GroupAnnounce.
From S2P Require Import CryptoSign GroupModeration GroupState GroupControl SanctionsSync.

Ltac chat_fields := cbn [set_field ch_mono_time ch_rng ch_net ch_events ch_join_type ch_group ch_moderation
  ch_connection_state ch_shared_state ch_shared_state_sig ch_topic_info ch_topic_sig ch_topic_prev_checksum
  ch_topic_time_set ch_peers_checksum ch_roles_checksum ch_chat_public_key ch_chat_secret_key ch_self_public_key
  ch_self_secret_key ch_time_connected ch_last_sync_request ch_update_self_announces
  ss_version ss_founder_public_key ss_maxpeers ss_group_name_len ss_group_name ss_privacy_state ss_password_length
  ss_password ss_mod_list_hash ss_topic_lock ss_voice_state ti_version ti_length ti_checksum ti_topic ti_public_sig_key
  pr_nick pr_nick_length pr_status pr_role pr_peer_id pr_ignore pr_gconn pr_confirmed pr_last_sync_response pr_public_key_hash] in *.

(** ** Reasoning about stateful code *)

Definition hoare {A} (P : GC_Chat → Prop) (m : GC A) (Q : A → GC_Chat → Prop) : Prop :=
  ∀ c, P c → Q (m c).1 (m c).2.

Lemma gc_hoare_ret {A} (P : GC_Chat → Prop) (x : A) (Q : A → GC_Chat → Prop) : (∀ c, P c → Q x c) → hoare P (mret x) Q.
Proof. intros H c. apply H. Qed.

Lemma gc_hoare_bind {A B} P (m : GC A) R (f : A → GC B) Q :
  hoare P m R → (∀ x, hoare (R x) (f x) Q) → hoare P (m ≫= f) Q.
Proof.
  intros Hm Hf c Hc. unfold mbind, M_bind. specialize (Hm c Hc). destruct (m c) as [x c']. by apply Hf.
Qed.

(** The value read is the state the assertion speaks about. *)
Lemma gc_hoare_get {A} P (f : GC_Chat → GC A) Q : (∀ c0, P c0 → hoare (λ c, c = c0) (f c0) Q) → hoare P (get (λ c, c) ≫= f) Q.
Proof. intros H c Hc. exact (H c Hc c eq_refl). Qed.

Lemma gc_hoare_modify {B} P (g : GC_Chat → GC_Chat) (f : unit → GC B) R Q :
  (∀ c, P c → R (g c)) → hoare R (f tt) Q → hoare P (modify g ≫= f) Q.
Proof. intros Hg Hf c Hc. exact (Hf _ (Hg c Hc)). Qed.

Lemma hoare_conseq {A} (P P' : GC_Chat → Prop) (m : GC A) (Q Q' : A → GC_Chat → Prop) :
  hoare P' m Q' → (∀ c, P c → P' c) → (∀ x c, Q' x c → Q x c) → hoare P m Q.
Proof. intros H HP HQ c Hc. by apply HQ, H, HP. Qed.

Lemma hoare_pre {A} (P P' : GC_Chat → Prop) (m : GC A) Q : hoare P' m Q → (∀ c, P c → P' c) → hoare P m Q.
Proof. intros H HP c Hc. by apply H, HP. Qed.

Lemma hoare_exact {A} (P : GC_Chat → Prop) c0 (m : GC A) Q : hoare P m Q → P c0 → hoare (λ c, c = c0) m Q.
Proof. intros H Hc c ->. by apply H. Qed.

Lemma hoare_and_then P m1 m2 (R : GC_Chat → Prop) (Q : bool → GC_Chat → Prop) :
  hoare P m1 (λ (ok : bool) c, if ok then R c else Q false c) → hoare R m2 Q → hoare P (and_then m1 m2) Q.
Proof.
  intros H1 H2. eapply gc_hoare_bind; [exact H1|]. intros [|]; [exact H2|]. by apply gc_hoare_ret.
Qed.

(** Case analysis on the test in front of the code. *)
Ltac hif := lazymatch goal with |- hoare _ (if ?b then _ else _) _ => destruct b end.

Abbreviation keeps P m := (hoare P m (λ _, P)).

(** Code that touches nothing but the packets sent, the callbacks called, the
    random numbers and the state of the connection. *)
Definition strip (c : GC_Chat) : GC_Chat :=
  c <| ch_net := mkGCNet [] (λ _, true) |> <| ch_rng := mkRandom 0 (λ _ _, []) (λ _ _, 0) (λ _, ([], [])) |> <| ch_events := [] |>
    <| ch_join_type := 0 |> <| ch_connection_state := 0 |> <| ch_last_sync_request := 0 |> <| ch_update_self_announces := false |>.

Abbreviation quiet := (frame strip).

(** An assertion that does not depend on what quiet code touches. *)
Definition stripped (P : GC_Chat → Prop) : Prop := ∀ c c', strip c = strip c' → P c → P c'.

Lemma keeps_quiet {A} P (m : GC A) : stripped P → quiet m → keeps P m.
Proof. intros Hp Hq c Hc. apply (Hp c); [|done]. symmetry. apply Hq. Qed.

Lemma quiet_modify g : (∀ c, strip (g c) = strip c) → quiet (modify g).
Proof. intros H c. apply H. Qed.

Lemma quiet_add_event e : quiet (add_event e).
Proof. by apply quiet_modify. Qed.

Lemma quiet_when b m : quiet m → quiet (when b m).
Proof. destruct b; [done|]. intros _. apply frame_ret. Qed.

Lemma quiet_send i data type : quiet (send_lossless i data type).
Proof.
  intros c. unfold send_lossless. destruct (ch_group c !! i) as [p|]; [|done]. by destruct (_ || _).
Qed.

Lemma quiet_send_all data type : quiet (send_gc_lossless_packet_all_peers data type).
Proof.
  apply frame_bind; [apply frame_get|]. intros c. apply frame_for_each. intros i.
  destruct (pr_confirmed _); [|apply frame_ret]. apply frame_bind; [apply quiet_send|]. intros _. apply frame_ret.
Qed.

Lemma quiet_broadcast_packet p type : quiet (broadcast_packet p type).
Proof.
  destruct p as [p|]; [|apply frame_ret]. apply frame_bind; [apply quiet_send_all|]. intros _. apply frame_ret.
Qed.

Lemma quiet_random : quiet random_gc_connection.
Proof.
  intros c. unfold random_gc_connection. destruct (numpeers c <=? 1); [done|]. by destruct (random_range_u32 _ _).
Qed.

#[export] Hint Resolve quiet_add_event quiet_when quiet_send quiet_send_all quiet_broadcast_packet quiet_random : quiet.

(** Splits a goal [quiet m] along the structure of [m]. *)
Ltac quiet_step :=
  lazymatch goal with
  | |- frame _ (mret _) => apply frame_ret
  | |- frame _ (get _) => apply frame_get
  | |- frame _ (_ ≫= _) => apply frame_bind; [|intros ?]
  | |- frame _ (modify _) => apply quiet_modify; by intros
  | |- frame _ (when _ _) => apply quiet_when
  | |- frame _ (if ?b then _ else _) => destruct b
  | |- frame _ (match ?x with _ => _ end) => destruct x
  | |- _ => progress (cbv zeta) || solve [eauto with quiet]
  end.
Ltac quiets := repeat quiet_step.

Section quiet.
Context {G : SodiumSign}.
Variables (malloc create_connection : bool).

Lemma quiet_sync_request i flags : quiet (send_gc_sync_request i flags).
Proof. unfold send_gc_sync_request. quiets. Qed.
Hint Resolve quiet_sync_request : quiet.

Lemma quiet_random_sync flags : quiet (send_gc_random_sync_request flags).
Proof. unfold send_gc_random_sync_request. quiets. Qed.

Lemma quiet_privacy : quiet (do_privacy_state_change create_connection).
Proof. unfold do_privacy_state_change. quiets. Qed.
Hint Resolve quiet_privacy : quiet.

Lemma quiet_changes old : quiet (do_gc_shared_state_changes create_connection old).
Proof. unfold do_gc_shared_state_changes. quiets. Qed.

Lemma quiet_broadcast_message data type : quiet (send_gc_broadcast_message malloc data type).
Proof. unfold send_gc_broadcast_message. quiets. Qed.
Hint Resolve quiet_broadcast_message : quiet.

Lemma quiet_set_mod k b : quiet (send_gc_set_mod malloc k b).
Proof. unfold send_gc_set_mod. quiets. Qed.

Lemma quiet_set_observer k d b : quiet (send_gc_set_observer malloc k d b).
Proof. unfold send_gc_set_observer. quiets. Qed.

Lemma quiet_broadcast_state : quiet broadcast_gc_shared_state.
Proof. unfold broadcast_gc_shared_state. quiets. Qed.
Lemma quiet_broadcast_mods : quiet (broadcast_gc_mod_list malloc).
Proof. unfold broadcast_gc_mod_list. quiets. Qed.
Lemma quiet_broadcast_sanctions : quiet (broadcast_gc_sanctions_list malloc).
Proof. unfold broadcast_gc_sanctions_list. quiets. Qed.
Lemma quiet_broadcast_topic : quiet (broadcast_gc_topic malloc).
Proof. unfold broadcast_gc_topic. quiets. Qed.
End quiet.
#[export] Hint Resolve quiet_sync_request quiet_random_sync quiet_privacy quiet_changes quiet_broadcast_message quiet_set_mod
  quiet_set_observer quiet_broadcast_state quiet_broadcast_mods quiet_broadcast_sanctions quiet_broadcast_topic : quiet.

(** ** Wire formats *)

Ltac unfold_gsizes := unfold GC_SHARED_STATE_ENC_PACKET_SIZE, GC_PACKED_SHARED_STATE_SIZE, GC_MIN_PACKED_TOPIC_INFO_SIZE,
  MAX_GC_GROUP_NAME_SIZE, MAX_GC_PASSWORD_SIZE, MAX_GC_TOPIC_SIZE in *; unfold_sizes.

Lemma aget_app_l (a b : bytes) i : 0 <= i < zlen a → aget 0 (a ++ b) i = aget 0 a i.
Proof. unfold aget, zlen. intros. rewrite lookup_app_l by lia. done. Qed.

Lemma slice_in_l off n (a b : bytes) : 0 <= off → 0 <= n → off + n <= zlen a → slice off n (a ++ b) = slice off n a.
Proof.
  unfold slice, zlen. intros. rewrite drop_app_le by lia. rewrite take_app_le; [done|]. rewrite length_drop. lia.
Qed.

Lemma unpack_u16_app (a b : bytes) : 2 <= zlen a → net_unpack_u16 (a ++ b) = net_unpack_u16 a.
Proof. intros. unfold net_unpack_u16. by rewrite !aget_app_l by lia. Qed.

Lemma unpack_u32_app (a b : bytes) : 4 <= zlen a → net_unpack_u32 (a ++ b) = net_unpack_u32 a.
Proof.
  intros H. unfold net_unpack_u32. rewrite unpack_u16_app by lia. unfold zlen in H. rewrite drop_app_le by lia.
  rewrite unpack_u16_app; [done|]. unfold zlen. rewrite length_drop. lia.
Qed.

Definition shared_wf (s : GC_SharedState) : Prop :=
  is_u32 (ss_version s) ∧ zlen (ss_founder_public_key s) = 64 ∧ is_u16 (ss_maxpeers s) ∧
  0 <= ss_group_name_len s <= 48 ∧ zlen (ss_group_name s) = 48 ∧ is_u8 (ss_privacy_state s) ∧
  is_u16 (ss_password_length s) ∧ zlen (ss_password s) = 32 ∧ zlen (ss_mod_list_hash s) = 32 ∧
  is_u32 (ss_topic_lock s) ∧ is_u8 (ss_voice_state s).

Definition shared_bytes (s : GC_SharedState) : bytes :=
  net_pack_u32 (ss_version s) ++ ss_founder_public_key s ++ net_pack_u16 (ss_maxpeers s) ++
  net_pack_u16 (ss_group_name_len s) ++ ss_group_name s ++ [ss_privacy_state s] ++
  net_pack_u16 (ss_password_length s) ++ ss_password s ++ ss_mod_list_hash s ++
  net_pack_u32 (ss_topic_lock s) ++ [ss_voice_state s].

Lemma zlen_shared_bytes s : shared_wf s → zlen (shared_bytes s) = 192.
Proof. intros (H1 & H2 & H3 & H4 & H5 & H6 & H7 & H8 & H9 & _). unfold shared_bytes. zlens. Qed.

Lemma pack_shared_run s len : shared_wf s → 192 <= len → pack_gc_shared_state len s = Some (shared_bytes s).
Proof.
  intros (_ & _ & _ & _ & _ & H6 & _ & _ & _ & _ & H11) Hl. unfold pack_gc_shared_state. unfold_gsizes.
  replace (len <? _) with false by lia. rewrite !u8_small by done. done.
Qed.

(** The part of a buffer behind its first [n] bytes. *)
Lemma drop_parts (pre rest : bytes) (n : nat) : zlen pre = Z.of_nat n → drop n (pre ++ rest) = rest.
Proof. intros E. unfold zlen in E. apply drop_app_length'. lia. Qed.

Lemma unpack_shared_bytes s rest len : shared_wf s → 192 <= len → unpack_gc_shared_state (shared_bytes s ++ rest) len = Some s.
Proof.
  intros (H1 & H2 & H3 & H4 & H5 & H6 & H7 & H8 & H9 & H10 & H11) Hl. unfold unpack_gc_shared_state. unfold_gsizes.
  replace (len <? _) with false by lia. f_equal. destruct s as [v f m nl nm pv pl pw h tl vs]. chat_fields.
  unfold shared_bytes. chat_fields. rewrite <- !app_assoc. f_equal.
  - by apply net_unpack_pack_u32.
  - by slices.
  - rewrite (app_assoc (net_pack_u32 v)), drop_parts by zlens. by apply net_unpack_pack_u16.
  - rewrite (app_assoc (net_pack_u32 v)), (app_assoc _ (net_pack_u16 m)), drop_parts by zlens.
    rewrite net_unpack_pack_u16 by (unfold is_u16; lia). lia.
  - by slices.
  - rewrite (app_assoc (net_pack_u32 v)), (app_assoc _ (net_pack_u16 m)), (app_assoc _ (net_pack_u16 nl)), (app_assoc _ nm).
    apply aget_mid. zlens.
  - rewrite (app_assoc (net_pack_u32 v)), (app_assoc _ (net_pack_u16 m)), (app_assoc _ (net_pack_u16 nl)), (app_assoc _ nm),
      (app_assoc _ [pv]), drop_parts by zlens. by apply net_unpack_pack_u16.
  - by slices.
  - by slices.
  - rewrite (app_assoc (net_pack_u32 v)), (app_assoc _ (net_pack_u16 m)), (app_assoc _ (net_pack_u16 nl)), (app_assoc _ nm),
      (app_assoc _ [pv]), (app_assoc _ (net_pack_u16 pl)), (app_assoc _ pw), (app_assoc _ h), drop_parts by zlens.
    by apply net_unpack_pack_u32.
  - rewrite (app_assoc (net_pack_u32 v)), (app_assoc _ (net_pack_u16 m)), (app_assoc _ (net_pack_u16 nl)), (app_assoc _ nm),
      (app_assoc _ [pv]), (app_assoc _ (net_pack_u16 pl)), (app_assoc _ pw), (app_assoc _ h), (app_assoc _ (net_pack_u32 tl)).
    apply (aget_mid _ _ vs). zlens.
Qed.

Lemma drop_app_l (n : nat) (a b : bytes) : Z.of_nat n <= zlen a → drop n (a ++ b) = drop n a ++ b.
Proof. unfold zlen. intros. apply drop_app_le. lia. Qed.

Lemma zlen_drop (n : nat) (a : bytes) : Z.of_nat n <= zlen a → zlen (drop n a) = zlen a - Z.of_nat n.
Proof. unfold zlen. intros. rewrite length_drop. lia. Qed.

(** Only the first 192 bytes count. *)
Lemma unpack_shared_prefix a rest len : zlen a = 192 → 192 <= len →
  unpack_gc_shared_state (a ++ rest) len = unpack_gc_shared_state a 192.
Proof.
  intros Ha Hl. unfold unpack_gc_shared_state. unfold_gsizes. replace (len <? _) with false by lia.
  change (192 <? _) with false. cbv iota. f_equal.
  rewrite !drop_app_l by lia. rewrite !aget_app_l, !slice_in_l by lia.
  by rewrite ?unpack_u16_app, ?unpack_u32_app by (rewrite ?zlen_drop by lia; lia).
Qed.

Lemma unpack_shared_wf a s : zlen a = 192 → bytes_ok a → unpack_gc_shared_state a 192 = Some s → shared_wf s.
Proof.
  unfold unpack_gc_shared_state. intros Ha Hb. unfold_gsizes. change (192 <? _) with false. cbv iota. intros [= <-].
  unfold shared_wf. chat_fields.
  split_and!; try (by apply length_slice; lia); try apply u32_range; try apply u16_range; try (by apply aget_byte); try lia.
  pose proof (u16_range (Z.lor (Z.shiftl (aget 0 (drop 70 a) 0) 8) (aget 0 (drop 70 a) 1))) as H.
  unfold net_unpack_u16, is_u16 in *. lia.
Qed.

Definition topic_wf (t : GC_TopicInfo) : Prop :=
  is_u32 (ti_version t) ∧ 0 <= ti_length t <= 512 ∧ is_u16 (ti_checksum t) ∧ zlen (ti_topic t) = 512 ∧
  zlen (ti_public_sig_key t) = 32 ∧ bytes_ok (ti_topic t).

Definition topic_bytes (t : GC_TopicInfo) : bytes :=
  net_pack_u32 (ti_version t) ++ net_pack_u16 (ti_checksum t) ++ net_pack_u16 (ti_length t) ++
  slice 0 (ti_length t) (ti_topic t) ++ ti_public_sig_key t.

(** Topics that say the same: what is behind the end of the text does not count. *)
Definition same_topic (t t' : GC_TopicInfo) : Prop :=
  ti_version t = ti_version t' ∧ ti_length t = ti_length t' ∧ ti_checksum t = ti_checksum t' ∧
  slice 0 (ti_length t) (ti_topic t) = slice 0 (ti_length t) (ti_topic t') ∧ ti_public_sig_key t = ti_public_sig_key t'.

Lemma zlen_topic_bytes t : topic_wf t → zlen (topic_bytes t) = ti_length t + 40.
Proof.
  intros (H1 & H2 & H3 & H4 & H5 & _). unfold topic_bytes.
  assert (zlen (slice 0 (ti_length t) (ti_topic t)) = ti_length t) by (apply length_slice; lia). zlens.
Qed.

Lemma unpack_topic_bytes stack t : topic_wf t → zlen stack = 512 →
  ∃ t', unpack_gc_topic_info stack (topic_bytes t) (ti_length t + 40) = Some t' ∧ same_topic t t'.
Proof.
  intros (H1 & H2 & H3 & H4 & H5 & _) Hs. unfold unpack_gc_topic_info.
  assert (zlen (slice 0 (ti_length t) (ti_topic t)) = ti_length t) as Ht by (apply length_slice; lia).
  replace (ti_length t + 40 <? 2 + 2 + 4) with false by lia. unfold topic_bytes.
  set (txt := slice 0 (ti_length t) (ti_topic t)) in *.
  rewrite net_unpack_pack_u32 by done. rewrite (drop_parts (net_pack_u32 (ti_version t)) _ 4) by done. rewrite net_unpack_pack_u16 by done.
  rewrite (app_assoc (net_pack_u32 _)), (drop_parts _ _ 6) by done. rewrite net_unpack_pack_u16 by (unfold is_u16; lia).
  unfold_gsizes. replace (512 <? ti_length t) with false by lia. replace (_ <? _) with false by lia.
  rewrite <- app_assoc.
  assert (slice (8 + ti_length t) 32 (net_pack_u32 (ti_version t) ++ net_pack_u16 (ti_checksum t) ++ net_pack_u16 (ti_length t) ++
    txt ++ ti_public_sig_key t) = ti_public_sig_key t) as -> by (by slices).
  assert (slice 8 (ti_length t) (net_pack_u32 (ti_version t) ++ net_pack_u16 (ti_checksum t) ++ net_pack_u16 (ti_length t) ++
    txt ++ ti_public_sig_key t) = txt) as -> by (by slices).
  eexists. split; [done|]. unfold same_topic. chat_fields. destruct (0 <? ti_length t) eqn:E.
  - by rewrite slice_app_l by done.
  - assert (ti_length t = 0) as E0 by lia. by rewrite E0 in *.
Qed.

Lemma unpack_topic_wf stack data len t : zlen stack = 512 → bytes_ok stack → bytes_ok data → zlen data = len →
  unpack_gc_topic_info stack data len = Some t → topic_wf t.
Proof.
  unfold unpack_gc_topic_info. intros Hs Hsb Hdb Hd. destruct (len <? 2 + 2 + 4) eqn:E0; [done|]. cbv zeta. unfold_gsizes.
  pose proof (u16_range (Z.lor (Z.shiftl (aget 0 (drop 6 data) 0) 8) (aget 0 (drop 6 data) 1))) as Hr.
  fold (net_unpack_u16 (drop 6 data)) in Hr. set (n := net_unpack_u16 (drop 6 data)) in *. unfold is_u16 in Hr.
  set (k := if 512 <? n then 512 else n). assert (0 <= k <= 512) by (unfold k; destruct (512 <? n) eqn:?; lia).
  destruct (len - 8 <? k + 32) eqn:E1; [done|]. intros [= <-]. unfold topic_wf. chat_fields.
  split_and!; try lia; try apply u32_range; try apply u16_range; [|apply length_slice; lia|].
  - destruct (0 <? k) eqn:E2; [|done]. rewrite zlen_app, length_slice, zlen_drop by lia. lia.
  - destruct (0 <? k); [|done]. apply Forall_app. split; [by apply slice_ok|by apply Forall_drop].
Qed.

(** ** The invariant *)

Definition empty_topic : GC_TopicInfo := mkTopic 0 0 0 (zeros 512) (zeros 32).

Section invariant.
Context {G : SodiumSign} {L : SodiumSignLaws G}.
Variable alloc : alloc_site → bool.
Hypothesis alloc_ok : ∀ s, alloc s = true.
Variables (create_connection : bool) (now : Z) (stack_creds : Mod_Sanction_Creds) (stack_topic : bytes).
Hypothesis stack_creds_wf : creds_wf stack_creds.
Hypothesis stack_topic_wf : zlen stack_topic = 512 ∧ bytes_ok stack_topic.

(** The shared state is what bytes say that were signed with the key of the chat. *)
Definition shared_signed (c : GC_Chat) : Prop :=
  ss_version (ch_shared_state c) = 0 ∨
  ∃ packed, zlen packed = 192 ∧ unpack_gc_shared_state packed 192 = Some (ch_shared_state c) ∧
    crypto_sign_verify_detached (ch_shared_state_sig c) packed (get_sig_pk (ch_chat_public_key c)) = true.

(** The topic is what bytes say that its setter signed. *)
Definition topic_signed (c : GC_Chat) : Prop :=
  ch_topic_info c = empty_topic ∨
  ∃ stack data t, zlen stack = 512 ∧ unpack_gc_topic_info stack data (zlen data) = Some t ∧ same_topic (ch_topic_info c) t ∧
    crypto_sign_verify_detached (ch_topic_sig c) data (ti_public_sig_key t) = true.

(** Our own keys, and the copies of them. *)
Definition own_keys (c : GC_Chat) : Prop :=
  ext_keypair (ch_self_public_key c) (ch_self_secret_key c) ∧
  mo_self_public_sig_key (ch_moderation c) = get_sig_pk (ch_self_public_key c) ∧
  mo_self_secret_sig_key (ch_moderation c) = get_sig_sk (ch_self_secret_key c).

(** Everything but the signature of the shared state. *)
Record rest_inv (c : GC_Chat) : Prop := {
  gi_keys : own_keys c;
  gi_peers : Forall (λ p, zlen (pr_public_key p) = 64) (ch_group c);
  gi_mod : sanctions_inv (ch_moderation c);
  gi_wf : shared_wf (ch_shared_state c) ∧ zlen (ch_shared_state_sig c) = 64;
  gi_topic_wf : topic_wf (ch_topic_info c);
  gi_topic : topic_signed c
}.

Definition group_inv (c : GC_Chat) : Prop := rest_inv c ∧ shared_signed c.

(** The invariant with a property of what the operations below leave alone. *)
Variable R : list GC_Peer → bytes → bytes → Prop.
Definition fixed (c : GC_Chat) : Prop := R (ch_group c) (ch_chat_public_key c) (ch_chat_secret_key c).
Definition GRI (c : GC_Chat) : Prop := rest_inv c ∧ fixed c.
Definition GI (c : GC_Chat) : Prop := group_inv c ∧ fixed c.

Lemma strip_fields c c' : strip c = strip c' →
  ch_group c = ch_group c' ∧ ch_moderation c = ch_moderation c' ∧ ch_shared_state c = ch_shared_state c' ∧
  ch_shared_state_sig c = ch_shared_state_sig c' ∧ ch_topic_info c = ch_topic_info c' ∧ ch_topic_sig c = ch_topic_sig c' ∧
  ch_chat_public_key c = ch_chat_public_key c' ∧ ch_chat_secret_key c = ch_chat_secret_key c' ∧
  ch_self_public_key c = ch_self_public_key c' ∧ ch_self_secret_key c = ch_self_secret_key c'.
Proof. intros E. split_and!; [exact (f_equal ch_group E)|exact (f_equal ch_moderation E)|exact (f_equal ch_shared_state E)|
  exact (f_equal ch_shared_state_sig E)|exact (f_equal ch_topic_info E)|exact (f_equal ch_topic_sig E)|
  exact (f_equal ch_chat_public_key E)|exact (f_equal ch_chat_secret_key E)|exact (f_equal ch_self_public_key E)|
  exact (f_equal ch_self_secret_key E)]. Qed.

(** The invariant looks at these fields only. *)
Lemma rest_same c c' :
  ch_group c = ch_group c' → ch_moderation c = ch_moderation c' → ch_shared_state c = ch_shared_state c' →
  ch_shared_state_sig c = ch_shared_state_sig c' → ch_topic_info c = ch_topic_info c' → ch_topic_sig c = ch_topic_sig c' →
  ch_self_public_key c = ch_self_public_key c' → ch_self_secret_key c = ch_self_secret_key c' → rest_inv c → rest_inv c'.
Proof.
  intros E1 E2 E3 E0 E4 E5 E6 E7 [H1 H2 H3 H4 H5 H6]. unfold own_keys, topic_signed in *.
  rewrite E1, E2, E3, E0, E4, E5, E6, E7 in *. by split.
Qed.

Lemma stripped_GRI : stripped GRI.
Proof.
  intros c c' E [H F]. apply strip_fields in E as (E1 & E2 & E3 & E4 & E5 & E6 & E7 & E8 & E9 & E10).
  split; [by apply (rest_same c)|]. unfold fixed in *. by rewrite <- E1, <- E7, <- E8.
Qed.

Lemma stripped_GI : stripped GI.
Proof.
  intros c c' E [[H S] F]. destruct (stripped_GRI c c' E (conj H F)) as [H' F'].
  apply strip_fields in E as (_ & _ & E3 & E4 & _ & _ & E7 & _). split; [|done]. split; [done|].
  unfold shared_signed in *. by rewrite <- E3, <- E4, <- E7.
Qed.

Lemma quiet_GI {A} (m : GC A) : quiet m → keeps GI m.
Proof. apply keeps_quiet, stripped_GI. Qed.
Lemma quiet_GRI {A} (m : GC A) : quiet m → keeps GRI m.
Proof. apply keeps_quiet, stripped_GRI. Qed.

Lemma rest_self_keys c : rest_inv c → self_keys (ch_moderation c).
Proof using L.
  intros [(H1 & H2 & H3) _ _ _ _ _]. destruct (ext_keypair_sig _ _ H1) as [seed E]. exists seed. by rewrite E, H2, H3.
Qed.

(** Another state of the moderation with the same keys. *)
Lemma GI_moderation c m : GI c → sanctions_inv m → mo_self_public_sig_key m = mo_self_public_sig_key (ch_moderation c) →
  mo_self_secret_sig_key m = mo_self_secret_sig_key (ch_moderation c) → GI (c <| ch_moderation := m |>).
Proof.
  intros [[[(K1 & K2 & K3) H2 _ H4 H5 H6] S] F] Hm E1 E2. split; [|done]. split; [|done]. split; chat_fields; try done.
  split_and!; chat_fields; [done|by rewrite E1|by rewrite E2].
Qed.

Lemma hoare_on_moderation {A} P (f : Moderation → A * Moderation) (Q : A → GC_Chat → Prop) :
  (∀ c, P c → Q (f (ch_moderation c)).1 (c <| ch_moderation := (f (ch_moderation c)).2 |>)) → hoare P (on_moderation f) Q.
Proof. intros H c Hc. unfold on_moderation. specialize (H c Hc). by destruct (f (ch_moderation c)). Qed.

Lemma GI_mod c : GI c → sanctions_inv (ch_moderation c).
Proof. by intros [[[] _] _]. Qed.
Lemma GI_self_keys c : GI c → self_keys (ch_moderation c).
Proof using L. intros [[H _] _]. by apply rest_self_keys. Qed.

(** Reading the state into an assertion that speaks about it. *)
Lemma keeps_get {A} (P : GC_Chat → Prop) (f : GC_Chat → GC A) Q : (∀ c0, P c0 → hoare P (f c0) Q) → hoare P (get (λ c, c) ≫= f) Q.
Proof. intros H. apply gc_hoare_get. intros c0 Hc0. eapply hoare_exact; [by apply H|done]. Qed.

Lemma keeps_bind {A B} (P : GC_Chat → Prop) (m : GC A) (f : A → GC B) Q :
  keeps P m → (∀ x, hoare P (f x) Q) → hoare P (m ≫= f) Q.
Proof. apply gc_hoare_bind. Qed.

Lemma keeps_and_then (P : GC_Chat → Prop) m1 m2 : keeps P m1 → keeps P m2 → keeps P (and_then m1 m2).
Proof. intros H1 H2. apply (hoare_and_then P m1 m2 P); [|done]. eapply hoare_conseq; [exact H1|done|]. by intros [] c. Qed.

(** *** The topic *)

Lemma topic_of_our_own c t sig : GRI c → topic_wf t → ti_public_sig_key t = get_sig_pk (ch_self_public_key c) →
  crypto_sign_detached (topic_bytes t) (get_sig_sk (ch_self_secret_key c)) = Some sig →
  GRI (c <| ch_topic_info := t |> <| ch_topic_sig := sig |>).
Proof using L stack_topic_wf.
  intros [[H1 H2 H3 H4 _ _] F] Ht Ek Es. split; [|done]. split; chat_fields; try done. right.
  destruct stack_topic_wf as [Hst _]. destruct (unpack_topic_bytes stack_topic t Ht Hst) as (t' & E & Hs).
  exists stack_topic, (topic_bytes t), t'. chat_fields. rewrite zlen_topic_bytes by done. split_and!; try done.
  destruct H1 as (K & _ & _). destruct (ext_sign_verifies _ _ (topic_bytes t) K) as (sig' & Es' & _ & _ & V).
  rewrite Es in Es'. injection Es' as <-. destruct Hs as (_ & _ & _ & _ & <-). by rewrite Ek.
Qed.

Lemma store_topic_size n topic old : 0 <= n <= 512 → zlen old = 512 → n <= zlen topic → zlen (store_topic n topic old) = 512.
Proof.
  intros Hn Ho Ht. unfold store_topic. destruct (0 <? n) eqn:E; [|done]. rewrite zlen_app, length_slice, zlen_drop by lia. lia.
Qed.

Lemma topic_checksum_u16 t : bytes_ok (ti_topic t) → is_u16 (get_gc_topic_checksum t).
Proof. intros. by apply data_checksum_u16, slice_ok. Qed.

Lemma pack_topic_run t : topic_wf t → pack_gc_topic_info (ti_length t + 40) t = Some (topic_bytes t).
Proof.
  intros (_ & H & _). unfold pack_gc_topic_info. unfold_gsizes. replace (_ <? _) with false by lia. done.
Qed.

Lemma store_topic_ok n topic old : bytes_ok topic → bytes_ok old → bytes_ok (store_topic n topic old).
Proof.
  intros. unfold store_topic. destruct (0 <? n); [|apply zeros_ok]. apply Forall_app. split; [by apply slice_ok|by apply Forall_drop].
Qed.

Lemma set_topic_rest topic n : 0 <= n <= zlen topic → bytes_ok topic → keeps GRI (gc_set_topic true topic n).
Proof using L stack_topic_wf.
  intros Hn Hb. unfold gc_set_topic. unfold_gsizes. destruct (512 <? n) eqn:E0; [by apply gc_hoare_ret|].
  apply gc_hoare_get. intros c0 H0. hif; [by apply gc_hoare_ret; intros c ->|].
  destruct (GR_USER <? _); [by apply gc_hoare_ret; intros c ->|].
  destruct (Z.eqb_spec (ti_version (ch_topic_info c0)) UINT32_MAX) as [E1|E1]; [by apply gc_hoare_ret; intros c ->|]. cbv zeta.
  set (t0 := mkTopic _ _ _ _ _). set (t := t0 <| ti_checksum := _ |>).
  assert (topic_wf t) as Ht.
  { destruct H0 as [[K _ _ _ (T1 & T2 & T3 & T4 & T5 & T6) _] _]. subst t t0. unfold topic_wf. chat_fields.
    unfold is_u32, UINT32_MAX in *. split_and!; try lia.
    - destruct (group_topic_lock_enabled c0); lia.
    - destruct (group_topic_lock_enabled c0); lia.
    - apply topic_checksum_u16. chat_fields. by apply store_topic_ok.
    - apply store_topic_size; [lia|done|lia].
    - destruct K as (K & _). apply ext_keypair_sizes in K as [K _]. unfold get_sig_pk. unfold_gsizes. apply length_slice; lia.
    - by apply store_topic_ok. }
  apply (gc_hoare_modify _ _ _ (λ c, c = c0 <| ch_topic_info := t |>)); [by intros c ->|]. cbn [negb]. rewrite (u16_small (n + _)) by lia. change n with (ti_length t).
  change (ti_length t + (2 + 32 + 4 + 2)) with (ti_length t + 40). unfold exact_length. rewrite pack_topic_run by done.
  cbn [mbind option_bind]. rewrite zlen_topic_bytes, Z.eqb_refl by done.
  destruct H0 as [HR HF]. pose proof (gi_keys _ HR) as (K & _ & _).
  destruct (ext_sign_verifies _ _ (topic_bytes t) K) as (sig & Es & _). rewrite Es.
  assert (GRI (c0 <| ch_topic_info := t |> <| ch_topic_sig := sig |>)) as HG.
  { by apply topic_of_our_own. }
  set (old := ch_topic_info c0). set (oldsig := ch_topic_sig c0).
  set (P := λ c, GRI c ∧ GRI (c <| ch_topic_info := old |> <| ch_topic_sig := oldsig |>)).
  assert (stripped P) as HP.
  { intros c c' E [H1 H2]. split; [by apply (stripped_GRI c)|]. eapply stripped_GRI; [|exact H2].
    exact (f_equal (λ c, c <| ch_topic_info := old |> <| ch_topic_sig := oldsig |>) E). }
  apply (gc_hoare_modify _ _ _ P).
  { intros c ->. split; [exact HG|]. destruct c0. by split. }
  apply (keeps_bind P); [apply keeps_quiet; [done|apply quiet_broadcast_topic]|]. intros [|]; cbn [negb].
  - apply (gc_hoare_modify _ _ _ GRI); [|by apply gc_hoare_ret]. intros c [[H1 H3] _].
    split; [by apply (rest_same c)|done].
  - apply (gc_hoare_modify _ _ _ GRI); [|by apply gc_hoare_ret]. by intros c [_ H].
Qed.

(** Setting the topic leaves the shared state alone. *)
Definition shared_part (c : GC_Chat) := (ch_shared_state c, ch_shared_state_sig c, ch_chat_public_key c).

Lemma quiet_shared {A} (m : GC A) : quiet m → frame shared_part m.
Proof.
  intros Hq c. specialize (Hq c). apply strip_fields in Hq as (_ & _ & E3 & E4 & _ & _ & E7 & _). unfold shared_part. by rewrite E3, E4, E7.
Qed.

Lemma frame_set_topic malloc topic n : frame shared_part (gc_set_topic malloc topic n).
Proof.
  unfold gc_set_topic. repeat (cbv zeta; lazymatch goal with
    | |- frame _ (mret _) => apply frame_ret
    | |- frame _ (get _) => apply frame_get
    | |- frame _ (broadcast_gc_topic _) => apply quiet_shared, quiet_broadcast_topic
    | |- frame _ (_ ≫= _) => apply frame_bind; [|intros ?]
    | |- frame _ (modify _) => by intros ?
    | |- frame _ (if ?b then _ else _) => destruct b
    | |- frame _ (match ?x with _ => _ end) => destruct x
    end).
Qed.

Lemma keeps_frame {A} (X : GC_SharedState * bytes * bytes → Prop) (m : GC A) : frame shared_part m → keeps (λ c, X (shared_part c)) m.
Proof. intros H c Hc. by rewrite (H c). Qed.

Lemma keeps_conj {A} (P Q : GC_Chat → Prop) (m : GC A) : keeps P m → keeps Q m → keeps (λ c, P c ∧ Q c) m.
Proof. intros H1 H2 c [? ?]. split; [by apply H1|by apply H2]. Qed.

(** [shared_signed] as a property of that part. *)
Definition part_signed (x : GC_SharedState * bytes * bytes) : Prop :=
  let '(s, sig, pk) := x in
  ss_version s = 0 ∨ ∃ packed, zlen packed = 192 ∧ unpack_gc_shared_state packed 192 = Some s ∧
    crypto_sign_verify_detached sig packed (get_sig_pk pk) = true.

Lemma GI_parts c : GI c ↔ GRI c ∧ part_signed (shared_part c).
Proof. unfold GI, GRI, group_inv. change (part_signed (shared_part c)) with (shared_signed c). tauto. Qed.

Lemma keeps_both {A} (m : GC A) : keeps GRI m → frame shared_part m → keeps GI m.
Proof.
  intros H1 H2. eapply hoare_conseq; [apply (keeps_conj _ _ _ H1 (keeps_frame part_signed _ H2))|intros c; apply GI_parts|intros x c; apply GI_parts].
Qed.

Lemma keeps_set_topic topic n : 0 <= n <= zlen topic → bytes_ok topic → keeps GI (gc_set_topic true topic n).
Proof using L stack_topic_wf. intros. apply keeps_both; [by apply set_topic_rest|apply frame_set_topic]. Qed.

Lemma frame_resign malloc : frame shared_part (resign_topic malloc).
Proof. apply frame_bind; [apply frame_get|]. intros c. apply frame_bind; [apply frame_set_topic|]. intros x. apply frame_ret. Qed.

Lemma resign_rest : keeps GRI (resign_topic true).
Proof using L stack_topic_wf.
  apply gc_hoare_get. intros c0 H0. pose proof H0 as [[_ _ _ _ (T1 & T2 & T3 & T4 & T5 & T6) _] _]. eapply hoare_exact; [|exact H0].
  eapply gc_hoare_bind; [apply set_topic_rest; [lia|done]|]. intros x. by apply gc_hoare_ret.
Qed.

Lemma keeps_resign : keeps GI (resign_topic true).
Proof using L stack_topic_wf. apply keeps_both; [apply resign_rest|apply frame_resign]. Qed.

Lemma keeps_update_topic k : keeps GI (update_gc_topic true k).
Proof using L stack_topic_wf.
  apply keeps_get. intros c0 _. hif; [by apply gc_hoare_ret|apply keeps_resign].
Qed.

(** *** The lists *)

Lemma GI_with_list c l cr : GI c → sanctions_inv (with_list (ch_moderation c) l cr) →
  GI (c <| ch_moderation := with_list (ch_moderation c) l cr |>).
Proof. intros H Hl. by apply GI_moderation. Qed.

Lemma keeps_update_sanctions k : keeps GI (update_gc_sanctions_list alloc true k).
Proof using L alloc_ok.
  unfold update_gc_sanctions_list. apply (keeps_bind GI).
  - apply hoare_on_moderation. intros c Hc. pose proof (GI_mod c Hc) as (Hn & Hs & Hcr). pose proof (GI_self_keys c Hc) as Hk.
    unfold sanctions_list_replace_sig.
    destruct (replace_sig_run (ch_moderation c) k Hk _ Hs) as (l' & n & -> & Hl & Hz & Hn0 & Hsame).
    destruct (0 <? n) eqn:E.
    + destruct (make_creds_with alloc alloc_ok (ch_moderation c) l' (sanctions_creds (ch_moderation c)) Hk Hl) as (cr & Ec & Hcs & _).
      change ((ch_moderation c) <| sanctions := l' |>) with (with_list (ch_moderation c) l' (sanctions_creds (ch_moderation c))).
      rewrite Ec. cbn [fst snd]. apply GI_with_list; [done|]. apply inv_with_list; [by rewrite Hz|done..].
    + cbn [fst snd]. rewrite (Hsame ltac:(lia)). apply GI_moderation; [done| |done|done]. by destruct (ch_moderation c).
  - intros n. destruct (n =? 0); [by apply gc_hoare_ret|]. apply quiet_GI, quiet_broadcast_sanctions.
Qed.

Lemma keeps_remove_own k : keeps GI (on_moderation (λ m, sanctions_list_remove_observer alloc m k None)).
Proof using L alloc_ok.
  apply hoare_on_moderation. intros c Hc. pose proof (GI_mod c Hc) as (Hn & Hs & Hcr). pose proof (GI_self_keys c Hc) as Hk.
  destruct (remove_observer_own alloc alloc_ok (ch_moderation c) k Hk Hs) as [E|(i & cr & Ei & E & Hcs & _)]; rewrite E; cbn [fst snd].
  - by destruct c.
  - pose proof (find_observer_range _ _ _ _ Ei) as Hi. rewrite Z.add_0_l in Hi.
    apply GI_with_list; [done|]. apply inv_with_list; [|by apply swap_remove_forall|done].
    rewrite zlen_swap_remove by done. unfold num_sanctions in *. lia.
Qed.

Lemma keeps_prune_sanctions : keeps GI (prune_gc_sanctions_list alloc true).
Proof using L alloc_ok.
  apply keeps_get. intros c0 _. hif; [by apply gc_hoare_ret|]. destruct (find _ _) as [s|]; [|by apply gc_hoare_ret].
  apply (keeps_bind GI); [apply keeps_remove_own|]. intros [|]; cbn [negb]; [|by apply gc_hoare_ret].
  apply keeps_get. intros c1 _. hif; [by apply gc_hoare_ret|]. apply quiet_GI. auto with quiet.
Qed.

Lemma keeps_make_entry k : 32 <= zlen k → keeps GI (on_moderation (λ m, sanctions_list_make_entry alloc now m k SA_OBSERVER)).
Proof using L alloc_ok.
  intros Hl. apply hoare_on_moderation. intros c Hc. pose proof (GI_mod c Hc) as (Hn & Hs & Hcr). pose proof (GI_self_keys c Hc) as Hk.
  destruct (make_entry_cases alloc alloc_ok (ch_moderation c) k now Hk Hl Hs)
    as (ok & s & m' & E & [[-> ->]|(-> & Hsg & _ & _ & Hlt & _ & _ & cr & -> & Hcs & _)]); rewrite E; cbn [fst snd].
  - by destruct c.
  - apply GI_with_list; [done|]. apply inv_with_list; [|apply Forall_app; split; [done|by apply list.Forall_singleton]|done].
    rewrite zlen_app. unfold num_sanctions in Hlt. change (zlen [s]) with 1. lia.
Qed.

(** Changes of the list of moderators. *)
Lemma keeps_mod_list {A} (f : Moderation → A * Moderation) : (∀ m, ∃ l, (f m).2 = m <| mod_list := l |>) → keeps GI (on_moderation f).
Proof.
  intros Hf. apply hoare_on_moderation. intros c Hc. destruct (Hf (ch_moderation c)) as [l ->].
  apply GI_moderation; [done| |done|done]. exact (GI_mod c Hc).
Qed.

Lemma mod_list_same m : m = m <| mod_list := mod_list m |>.
Proof. by destruct m. Qed.

Lemma remove_index_frame m i : ∃ l, (mod_list_remove_index alloc m i).2 = m <| mod_list := l |>.
Proof.
  unfold mod_list_remove_index, mod_list_cleanup.
  destruct (_ <=? _); [eexists; apply mod_list_same|]. destruct (_ =? 0); by eexists.
Qed.

Lemma remove_entry_frame m k : ∃ l, (mod_list_remove_entry alloc m k).2 = m <| mod_list := l |>.
Proof.
  unfold mod_list_remove_entry. destruct (_ =? 0); [eexists; apply mod_list_same|].
  destruct (_ =? -1); [eexists; apply mod_list_same|apply remove_index_frame].
Qed.

Lemma add_entry_frame m k : ∃ l, (mod_list_add_entry alloc m k).2 = m <| mod_list := l |>.
Proof.
  unfold mod_list_add_entry. destruct (_ <=? _); [eexists; apply mod_list_same|].
  destruct (negb (alloc ModListArray)); [eexists; apply mod_list_same|].
  destruct (negb _); [eexists; apply mod_list_same|by eexists].
Qed.

Lemma mod_unpack_frame m data n num : ∃ l, (mod_list_unpack alloc m data n num).2 = m <| mod_list := l |>.
Proof.
  unfold mod_list_unpack, mod_list_cleanup. destruct (_ <? _); [eexists; apply mod_list_same|].
  destruct (num =? 0); [by eexists|]. destruct (negb _); [by eexists|]. destruct (mod_list_unpack_loop _ _ _ _); by eexists.
Qed.

(** *** Roles *)

Definition group_free : Prop := ∀ g g' pk sk, R g pk sk → R g' pk sk.

Lemma roles_peers c g : Forall (λ p, zlen (pr_public_key p) = 64) g →
  Forall (λ p, zlen (pr_public_key p) = 64) (map (λ p, if pr_confirmed p then p <| pr_role := role_of c p |> else p) g).
Proof. induction 1 as [|p g Hp _ IH]; cbn [map]; constructor; [|done]. by destruct (pr_confirmed p). Qed.

Lemma GI_update_roles c : group_free → GI c → GI (update_gc_peer_roles c).
Proof.
  intros Hf [[[K H2 H3 H4 H5 H6] S] F]. unfold update_gc_peer_roles. cbv zeta.
  set (c' := c <| ch_group := _ |> <| ch_roles_checksum := _ |>).
  assert (rest_inv c') as HR by (split; chat_fields; try done; by apply roles_peers).
  assert (fixed c') as HF by exact (Hf _ _ _ _ F).
  destruct (_ && _); [|by split; [split|]]. split; [|exact HF]. split; [|by left].
  destruct HR as [HR1 HR2 HR3 HR4 HR5 HR6]. split; chat_fields; try done. split; [|apply HR4]. destruct HR4 as [HR4 _].
  unfold shared_wf in *. unfold set_gc_shared_state_version. chat_fields. split; [done|tauto].
Qed.

Lemma keeps_update_roles : group_free → keeps GI update_roles.
Proof. intros Hf c Hc. by apply GI_update_roles. Qed.

(** *** Signing *)

(** The peer is the founder and has the key of the chat. *)
Definition is_founder_of : Prop := ∀ g pk sk, R g pk sk → pr_role (aget empty_peer g 0) = GR_FOUNDER ∧ ext_keypair pk sk.

Lemma sign_shared : is_founder_of → hoare GRI sign_gc_shared_state (λ ok c, ok = true ∧ GI c).
Proof using L stack_topic_wf.
  intros HR c [H F]. destruct (HR _ _ _ F) as [Hf Hk]. unfold sign_gc_shared_state.
  assert (self_gc_is_founder c = true) as -> by (unfold self_gc_is_founder, gc_get_self_role; by rewrite Hf). cbn [negb].
  set (c1 := if negb _ then _ else c). destruct H as [K H2 H3 H4 H5 H6].
  assert (rest_inv c1 ∧ fixed c1 ∧ ch_chat_public_key c1 = ch_chat_public_key c ∧ ch_chat_secret_key c1 = ch_chat_secret_key c) as (HR1 & HF & E1 & E2).
  { subst c1. destruct (negb _); [|split_and!; try done]. split_and!; try done. split; chat_fields; try done.
    split; [|apply H4]. destruct H4 as [H4 _].
    unfold shared_wf in *. unfold set_gc_shared_state_version. chat_fields. split; [apply u32_range|tauto]. }
  pose proof (gi_wf _ HR1) as [Hw _]. unfold_gsizes. change (32 + 32 + 2 + 48 + 2 + 1 + 2 + 32 + 32 + 4 + 4 + 1) with 192.
  unfold exact_length. rewrite pack_shared_run by (done || lia). cbn [mbind option_bind].
  rewrite zlen_shared_bytes by done. change (192 =? 192) with true. cbv iota.
  destruct (ext_sign_verifies _ _ (shared_bytes (ch_shared_state c1)) Hk) as (sig & Es & Hsl & _ & V).
  rewrite E2, Es. cbn [fst snd]. split; [done|]. split; [|done].
  split; [destruct HR1 as [A1 A2 A3 [A4 _] A5 A6]; by split; chat_fields|]. right.
  exists (shared_bytes (ch_shared_state c1)). chat_fields. split_and!; [by apply zlen_shared_bytes| |by rewrite E1].
  rewrite <- (app_nil_r (shared_bytes _)). by apply unpack_shared_bytes.
Qed.

Lemma set_shared_rest f : (∀ s, shared_wf s → shared_wf (f s)) → hoare GI (set_shared f) (λ _, GRI).
Proof.
  intros Hf c [[[K H2 H3 [H4 H4'] H5 H6] _] F]. split; [|done]. split; chat_fields; try done. split; [by apply Hf|done].
Qed.

Lemma broadcast_state_ok : hoare GI broadcast_gc_shared_state (λ ok c, ok = true ∧ GI c).
Proof.
  intros c Hc. pose proof Hc as [[[_ _ _ [Hw Hsig] _ _] _] _]. split; [|by apply quiet_GI; [auto with quiet|]].
  unfold broadcast_gc_shared_state, shared_state_packet, make_gc_shared_state_packet, exact_length. unfold mbind, M_bind, get.
  change (GC_SHARED_STATE_ENC_PACKET_SIZE <? GC_SHARED_STATE_ENC_PACKET_SIZE) with false. cbv iota.
  rewrite pack_shared_run by (done || (change (192 <= 192); lia)). cbn [option_bind]. rewrite zlen_shared_bytes by done.
  change (negb (192 =? _)) with false. cbv iota. cbn [option_bind]. rewrite zlen_app, Hsig, zlen_shared_bytes by done.
  change (64 + 192 =? _) with true.
  cbv iota. unfold broadcast_packet, mbind, M_bind. by destruct (send_gc_lossless_packet_all_peers _ _ c).
Qed.

Lemma keeps_sign : is_founder_of → keeps GI sign_gc_shared_state.
Proof using L stack_topic_wf.
  intros HR. eapply hoare_conseq; [by apply sign_shared|by intros c [[H _] F]|by intros x c [_ H]].
Qed.

Lemma mod_hash_wf m : ∃ h, mod_list_make_hash alloc m = Some h ∧ zlen h = 32.
Proof using L alloc_ok stack_topic_wf.
  unfold mod_list_make_hash. destruct (_ =? 0); [by eexists|]. rewrite alloc_ok. cbn [negb]. eexists. split; [done|]. apply sha256_ok.
Qed.

Lemma put_hash : hoare GI (put_mod_list_hash alloc) (λ ok c, ok = true ∧ GRI c).
Proof using L alloc_ok stack_topic_wf.
  intros c [[[K H2 H3 [H4 H4'] H5 H6] _] F]. unfold put_mod_list_hash. destruct (mod_hash_wf (ch_moderation c)) as (h & -> & Hh).
  cbn [fst snd]. split; [done|]. split; [|done]. split; chat_fields; try done. split; [|done]. unfold shared_wf in *. chat_fields. tauto.
Qed.

Lemma hash_and_sign (m : GC bool) : is_founder_of → keeps GI m →
  keeps GI (and_then (put_mod_list_hash alloc) (and_then sign_gc_shared_state m)).
Proof using L alloc_ok stack_topic_wf.
  intros HR Hm. apply (hoare_and_then _ _ _ GRI).
  - eapply hoare_conseq; [apply put_hash|done|]. by intros x c [-> H].
  - apply (hoare_and_then _ _ _ GI); [|done]. eapply hoare_conseq; [by apply sign_shared|done|]. by intros x c [-> H].
Qed.

Lemma keeps_prune_loop fuel : ∀ i, keeps GI (prune_mod_loop alloc fuel i).
Proof.
  induction fuel as [|fuel IH]; intros i; cbn [prune_mod_loop]; [by apply gc_hoare_ret|].
  apply keeps_get. intros c0 _. hif; [by apply gc_hoare_ret|]. destruct (_ =? -1); [|apply IH].
  apply (keeps_bind GI); [apply keeps_mod_list; intros m; apply remove_index_frame|].
  intros [|]; [by apply gc_hoare_ret|apply IH].
Qed.

Lemma keeps_prune_mods : is_founder_of → keeps GI (prune_gc_mod_list alloc true).
Proof using L alloc_ok stack_topic_wf.
  intros HR. apply keeps_get. intros c0 _. hif; [by apply gc_hoare_ret|].
  apply (keeps_bind GI); [apply keeps_prune_loop|]. intros [k|]; [|by apply gc_hoare_ret].
  apply hash_and_sign; [done|]. repeat apply keeps_and_then;
    [apply quiet_GI; auto with quiet..|apply keeps_update_sanctions|apply keeps_update_topic].
Qed.

Lemma keeps_set_moderator k b : is_founder_of → keeps GI (founder_gc_set_moderator alloc true k b).
Proof using L alloc_ok stack_topic_wf.
  intros HR. apply keeps_get. intros c0 _. hif; [by apply gc_hoare_ret|]. cbv zeta.
  apply keeps_and_then.
  - destruct b; repeat apply keeps_and_then.
    + hif; [by apply keeps_prune_mods|by apply gc_hoare_ret].
    + apply keeps_mod_list. intros m. apply add_entry_frame.
    + apply keeps_mod_list. intros m. apply remove_entry_frame.
    + apply keeps_update_sanctions.
    + apply keeps_update_topic.
  - apply keeps_get. intros c1 _. cbv zeta. apply (hoare_and_then _ _ _ GRI).
    { eapply hoare_conseq; [apply put_hash|done|]. by intros x c [-> H]. }
    apply (gc_hoare_bind _ _ (λ ok c, ok = true ∧ GI c)).
    + apply (hoare_and_then _ _ _ GI); [eapply hoare_conseq; [by apply sign_shared|done|]; by intros x c [-> H]|].
      apply broadcast_state_ok.
    + intros ok. destruct ok; cbn [negb]; [|by intros c [? _]].
      eapply hoare_pre; [apply quiet_GI; auto with quiet|]. by intros c [_ H].
Qed.

(** *** Packets *)

Lemma mark_peers i t g : Forall (λ p, zlen (pr_public_key p) = 64) g →
  Forall (λ p, zlen (pr_public_key p) = 64) (alter (λ p, p <| pr_gconn := gcc_mark_for_deletion (pr_gconn p) t None 0 |>) i g).
Proof.
  intros H. apply Forall_alter; [done|]. intros p _ Hp. unfold pr_public_key in *. chat_fields. unfold gcc_mark_for_deletion.
  destruct (pending_delete (pr_gconn p)); [done|]. by unfold_gset.
Qed.

Lemma keeps_state_error i : group_free → keeps GI (handle_gc_shared_state_error i).
Proof using L stack_topic_wf.
  intros Hf. unfold handle_gc_shared_state_error. apply (gc_hoare_modify _ _ _ GI).
  { intros c [[[K H2 H3 H4 H5 H6] S] F]. split; [|exact (Hf _ _ _ _ F)]. split; [|done]. split; chat_fields; try done. by apply mark_peers. }
  apply quiet_GI. quiets.
Qed.

Lemma founder_same c :
  c = c <| ch_moderation := (ch_moderation c) <| mo_founder_public_sig_key := mo_founder_public_sig_key (ch_moderation c) |> |>.
Proof. destruct c as [? ? ? ? ? ? []]. reflexivity. Qed.

Lemma keeps_shared_state i data n : group_free → zlen data = n → bytes_ok data →
  keeps GI (handle_gc_shared_state create_connection i data n).
Proof using L stack_topic_wf.
  intros Hf Hn Hb. unfold handle_gc_shared_state. destruct (n <? _) eqn:E0; [by apply keeps_state_error|].
  change GC_SHARED_STATE_ENC_PACKET_SIZE with 256 in E0. change SIGNATURE_SIZE with 64. change (Z.to_nat 64) with 64%nat.
  apply gc_hoare_get. intros c0 H0. change GC_PACKED_SHARED_STATE_SIZE with 192.
  destruct (crypto_sign_verify_detached _ _ _) eqn:V; cbn [negb]; [|eapply hoare_exact; [by apply keeps_state_error|done]].
  hif; [by apply gc_hoare_ret; intros c ->|].
  assert (zlen (drop 64 data) = n - 64) as Hd by (rewrite zlen_drop by lia; lia).
  assert (drop 64 data = slice 0 192 (drop 64 data) ++ drop 192 (drop 64 data)) as Ed.
  { unfold slice. change (Z.to_nat 192) with 192%nat. change (Z.to_nat 0) with 0%nat. rewrite drop_0. by rewrite take_drop. }
  set (packed := slice 0 192 (drop 64 data)) in *.
  assert (zlen packed = 192) as Hp by (apply length_slice; lia).
  rewrite Ed. rewrite unpack_shared_prefix by (done || lia).
  destruct (unpack_gc_shared_state packed 192) as [s'|] eqn:Eu; [|by apply gc_hoare_ret; intros c ->].
  destruct (validate_gc_shared_state s'); cbn [negb]; [|by apply gc_hoare_ret; intros c ->].
  assert (shared_wf s') as Hw by (eapply unpack_shared_wf; [exact Hp|by apply slice_ok, Forall_drop|done]).
  set (A1 := λ c, ∃ k, c = c0 <| ch_moderation := (ch_moderation c0) <| mo_founder_public_sig_key := k |> |>).
  apply (gc_hoare_bind _ _ (λ _, A1)).
  { destruct (ss_version (ch_shared_state c0) =? 0); intros c ->; [by eexists|]. exists (mo_founder_public_sig_key (ch_moderation c0)).
    exact (founder_same c0). }
  intros _. apply (gc_hoare_modify _ _ _ (λ c, ∃ k, c = c0 <| ch_moderation := (ch_moderation c0) <| mo_founder_public_sig_key := k |> |>
    <| ch_shared_state := s' |> <| ch_shared_state_sig := slice 0 64 data |>)).
  { intros c [k ->]. by exists k. }
  apply (gc_hoare_modify _ _ _ GI); [|apply (keeps_bind GI); [apply quiet_GI; auto with quiet|intros _; by apply gc_hoare_ret]].
  intros c [k ->]. destruct H0 as [[[K H2 H3 H4 H5 H6] _] F]. split; [|exact F]. split.
  - split; chat_fields; try done. split; [|apply length_slice; lia]. by destruct s'.
  - right. exists packed. chat_fields. split_and!; [done| |done]. rewrite Eu. by destruct s'.
Qed.

Lemma keeps_handle_mods data n : group_free → keeps GI (handle_gc_mod_list alloc data n).
Proof using L stack_topic_wf.
  intros Hf. unfold handle_gc_mod_list. destruct (n <? 2); [by apply gc_hoare_ret|].
  apply keeps_get. intros c0 _. destruct (self_gc_is_founder c0); [by apply gc_hoare_ret|]. cbv zeta.
  apply (keeps_bind GI).
  { unfold validate_unpack_mod_list. hif; [by apply gc_hoare_ret|]. cbv zeta. apply keeps_get. intros c1 _.
    hif; [by apply gc_hoare_ret|]. apply (keeps_bind GI); [|intros x; by apply gc_hoare_ret].
    apply keeps_mod_list. intros m. apply mod_unpack_frame. }
  intros r. destruct (r =? 0).
  - apply (keeps_bind GI); [by apply keeps_update_roles|]. intros _. apply quiet_GI. quiets.
  - hif; [by apply gc_hoare_ret|]. apply quiet_GI. quiets.
Qed.

Lemma quiet_sanctions_error : quiet handle_gc_sanctions_list_error.
Proof. unfold handle_gc_sanctions_list_error. quiets. Qed.

Lemma keeps_handle_sanctions malloc data n : group_free → zlen data = n → n < 65536 →
  keeps GI (handle_gc_sanctions_list alloc malloc stack_creds data n).
Proof using L stack_topic_wf stack_creds_wf.
  intros Hf Hn Hmax. unfold handle_gc_sanctions_list. destruct (n <? 2) eqn:E0; [by apply gc_hoare_ret|]. cbv zeta.
  pose proof quiet_sanctions_error as Hq. apply quiet_GI in Hq.
  destruct (MOD_MAX_NUM_SANCTIONS <? _) eqn:E1; [done|]. destruct malloc; cbn [negb]; [|by apply gc_hoare_ret].
  destruct (sanctions_list_unpack _ _ _ _) as [[[l cr] k]|] eqn:Eu; [|done].
  apply unpack_wf in Eu as [Hl Hc]; [|done|rewrite zlen_drop; lia|lia].
  destruct (zlen l =? _) eqn:E2; cbn [negb]; [|done].
  apply keeps_get. intros c0 _. destruct (sanctions_list_check_integrity _ _ _ _) eqn:Ei; cbn [negb]; [|done].
  hif; [by apply gc_hoare_ret|]. hif; [by apply gc_hoare_ret|].
  apply (gc_hoare_modify _ _ _ GI).
  - intros c Hc'. change (GI (c <| ch_moderation := with_list (ch_moderation c) l cr |>)). apply GI_with_list; [done|].
    unfold sanctions_list_check_integrity in Ei. destruct (forallb _ _) eqn:Ev; cbn [negb] in Ei; [|done].
    apply creds_validate_signed in Ei; [|done..]. apply inv_with_list; [lia| |done].
    rewrite forallb_forall in Ev. apply list.Forall_forall. intros s Hs.
    rewrite list.Forall_forall in Hl. specialize (Ev s ltac:(by apply list_elem_of_In)).
    apply validate_entry_iff in Ev; [tauto|by apply Hl].
  - apply (keeps_bind GI); [by apply keeps_update_roles|]. intros _. apply quiet_GI. quiets.
Qed.

Lemma keeps_handle_topic p data n : zlen data = n → bytes_ok data → keeps GI (handle_gc_topic stack_topic p data n).
Proof using L stack_topic_wf.
  intros Hn Hb. unfold handle_gc_topic. destruct (n <? _) eqn:E0; [by apply gc_hoare_ret|].
  change (SIGNATURE_SIZE + GC_MIN_PACKED_TOPIC_INFO_SIZE) with 104 in E0. change SIGNATURE_SIZE with 64.
  change (Z.to_nat 64) with 64%nat. apply keeps_get. intros c0 _. cbv zeta.
  assert (zlen (drop 64 data) = n - 64) as Hd by (rewrite zlen_drop by lia; lia).
  destruct (unpack_gc_topic_info _ _ _) as [t|] eqn:Eu; [|by apply gc_hoare_ret].
  rewrite (slice_all (n - 64)) by done.
  destruct (crypto_sign_verify_detached _ _ _) eqn:V; cbn [negb]; [|by apply gc_hoare_ret].
  hif; [by apply gc_hoare_ret|].
  destruct stack_topic_wf as [Hst Hstb].
  pose proof (unpack_topic_wf _ _ _ _ Hst Hstb (Forall_drop _ 64 _ Hb) Hd Eu) as Hw.
  apply (gc_hoare_modify _ _ _ GI); [|apply quiet_GI; quiets].
  intros c [[[K H2 H3 H4 H5 H6] S] F]. split; [|done]. split; [|done]. split; chat_fields; try done. right.
  exists stack_topic, (drop 64 data), t. chat_fields. rewrite Hd. split_and!; done.
Qed.

Lemma keeps_handle_set_mod i data n : group_free → keeps GI (handle_gc_set_mod alloc i data n).
Proof using L stack_topic_wf.
  intros Hf. unfold handle_gc_set_mod. destruct (n <? _); [by apply gc_hoare_ret|].
  apply keeps_get. intros c0 _. destruct (get_gc_peer c0 i) as [p|]; [|by apply gc_hoare_ret].
  hif; [by apply gc_hoare_ret|]. cbv zeta. apply (keeps_bind GI).
  { unfold validate_unpack_gc_set_mod. apply keeps_get. intros c1 _. cbv zeta. hif; [by apply gc_hoare_ret|].
    hif; [by apply gc_hoare_ret|]. hif; [by apply gc_hoare_ret|].
    apply (keeps_bind GI).
    - apply keeps_mod_list. intros m. destruct (net_unpack_bool data); [apply add_entry_frame|apply remove_entry_frame].
    - intros [|]; cbn [negb]; [|by apply gc_hoare_ret]. apply (keeps_bind GI); [by apply keeps_update_roles|]. intros _. by apply gc_hoare_ret. }
  intros r. apply quiet_GI. quiets.
Qed.

(** A sanction or its removal that arrived with new credentials. *)
Lemma keeps_add_received s cr : sanction_wf s → creds_wf cr →
  keeps GI (on_moderation (λ m, sanctions_list_add_entry alloc m s (Some cr))).
Proof using L stack_topic_wf.
  intros Hs Hc. apply hoare_on_moderation. intros c HG. pose proof (GI_mod c HG) as (Hn & Hl & _).
  unfold sanctions_list_add_entry. assert (GI (c <| ch_moderation := ch_moderation c |>)) as Hsame by (by destruct c).
  destruct (_ <=? _) eqn:E1; [done|]. destruct (sanctions_list_validate_entry _ _) eqn:E2; cbn [negb]; [|done].
  destruct (sanctions_list_entry_exists _ _); [done|].
  destruct (if 0 <? num_sanctions (ch_moderation c) then _ else _) as [copy|] eqn:Ec; [|done].
  assert (copy = sanctions (ch_moderation c)) as ->.
  { unfold sanctions_list_copy in Ec. destruct (0 <? _) eqn:E; [destruct (alloc _); congruence|].
    unfold num_sanctions, zlen in E. destruct (sanctions (ch_moderation c)); [congruence|cbn [length] in E; lia]. }
  destruct (negb _); [done|].
  destruct (apply_new_cases alloc (ch_moderation c) (sanctions (ch_moderation c) ++ [s]) (Some cr))
    as (b & m' & E & [[-> ->]|(-> & cr' & [-> V] & ->)]); rewrite E; cbn [fst snd]; [done|].
  apply GI_with_list; [done|]. apply (new_creds_inv alloc); [| |done|done].
  - rewrite zlen_app. unfold num_sanctions in E1. change (zlen [s]) with 1. lia.
  - apply Forall_app. split; [done|]. apply list.Forall_singleton. apply validate_entry_iff in E2; tauto.
Qed.

Lemma keeps_remove_received k cr : creds_wf cr →
  keeps GI (on_moderation (λ m, sanctions_list_remove_observer alloc m k (Some cr))).
Proof using L stack_topic_wf.
  intros Hc. apply hoare_on_moderation. intros c HG. pose proof (GI_mod c HG) as (Hn & Hl & _).
  unfold sanctions_list_remove_observer. assert (GI (c <| ch_moderation := ch_moderation c |>)) as Hsame by (by destruct c).
  destruct (find_observer _ _ _) as [i|] eqn:Ef; [|done].
  pose proof (find_observer_range _ _ _ _ Ef) as Hi. rewrite Z.add_0_l in Hi.
  destruct (remove_index_cases alloc (ch_moderation c) i (Some cr) Hi) as [-> | ->]; [exact Hsame|].
  destruct (apply_new_cases alloc (ch_moderation c) (swap_remove (sanctions (ch_moderation c)) i) (Some cr))
    as (b & m' & E & [[-> ->]|(-> & cr' & [-> V] & ->)]); rewrite E; cbn [negb fst snd]; [done|].
  apply GI_with_list; [done|]. apply (new_creds_inv alloc); [|by apply swap_remove_forall|done|done].
  rewrite zlen_swap_remove by done. lia.
Qed.

Lemma keeps_handle_set_observer i data n : group_free → zlen data = n → n < 65536 →
  keeps GI (handle_gc_set_observer alloc stack_creds i data n).
Proof using L stack_topic_wf stack_creds_wf.
  intros Hf Hn Hmax. unfold handle_gc_set_observer. change (1 + EXT_PUBLIC_KEY_SIZE) with 65. destruct (n <=? 65) eqn:E0; [by apply gc_hoare_ret|].
  apply keeps_get. intros c0 _. destruct (get_gc_peer c0 i) as [p|]; [|by apply gc_hoare_ret].
  hif; [by apply gc_hoare_ret|]. cbv zeta. hif; [by apply gc_hoare_ret|].
  destruct (match _ with Some _ => _ | None => false end); [by apply gc_hoare_ret|].
  change (n - 1 - EXT_PUBLIC_KEY_SIZE) with (n - 1 - 64). change (Z.to_nat 65) with 65%nat.
  assert (zlen (drop 65 data) = n - 1 - 64) as Hd by (rewrite zlen_drop by lia; lia).
  apply (keeps_bind GI).
  { unfold validate_unpack_observer_entry. apply keeps_get. intros c1 _. cbv zeta. destruct (net_unpack_bool data).
    - destruct (sanctions_list_unpack _ _ _ _) as [[[[|s [|]] cr] k]|] eqn:Eu; try (by apply gc_hoare_ret).
      apply unpack_wf in Eu as [Hl Hc]; [|done|done|lia]. apply list.Forall_cons_1 in Hl as [Hl _].
      hif; [by apply gc_hoare_ret|]. destruct (sanctions_list_entry_exists _ _); [by apply gc_hoare_ret|].
      apply (keeps_bind GI); [by apply keeps_add_received|]. intros x. by apply gc_hoare_ret.
    - change MOD_SANCTIONS_CREDS_SIZE with 134. destruct (_ <? 134) eqn:E1; [by apply gc_hoare_ret|].
      destruct (sanctions_creds_unpack _) as [cr k] eqn:Ec.
      pose proof (creds_unpack_wf (drop 65 data) ltac:(lia)) as Hc. rewrite Ec in Hc. cbn [fst] in Hc.
      hif; [by apply gc_hoare_ret|]. hif; [by apply gc_hoare_ret|]. hif; [by apply gc_hoare_ret|].
      apply (keeps_bind GI); [by apply keeps_remove_received|]. intros x. by apply gc_hoare_ret. }
  intros r. hif; [by apply gc_hoare_ret|]. hif; [by apply gc_hoare_ret|].
  apply (keeps_bind GI); [by apply keeps_update_roles|]. intros _. apply quiet_GI. quiets.
Qed.

Lemma keeps_mod_set_observer i b : group_free → keeps GI (mod_gc_set_observer alloc true now i b).
Proof using L alloc_ok stack_topic_wf.
  intros Hf. unfold mod_gc_set_observer. apply keeps_get. intros c0 H0.
  destruct (get_gc_peer c0 i) as [p|] eqn:Ep; [|by apply gc_hoare_ret]. cbv zeta. hif; [by apply gc_hoare_ret|].
  assert (zlen (pr_public_key p) = 64) as Hp.
  { unfold get_gc_peer in Ep. destruct (gc_peer_number_is_valid c0 i); [|done]. destruct H0 as [[[_ Hps _ _ _ _] _] _].
    exact (Forall_lookup_1 _ _ _ _ Hps Ep). }
  apply (keeps_bind GI).
  - destruct b.
    + apply (keeps_bind GI).
      * apply keeps_and_then; [hif; [by apply keeps_prune_sanctions|by apply gc_hoare_ret]|].
        apply keeps_get. intros c1 _. cbv zeta. hif; [apply keeps_resign|by apply gc_hoare_ret].
      * intros [|]; cbn [negb]; [|by apply gc_hoare_ret]. apply (keeps_bind GI); [apply keeps_make_entry; lia|].
        intros e. hif; [by apply gc_hoare_ret|]. apply keeps_get. intros c1 _. by apply gc_hoare_ret.
    + apply (keeps_bind GI); [apply keeps_remove_own|]. intros [|]; cbn [negb]; [|by apply gc_hoare_ret].
      apply keeps_get. intros c1 _. by apply gc_hoare_ret.
  - intros [d|]; [|by apply gc_hoare_ret]. hif; [by apply gc_hoare_ret|].
    apply (keeps_bind GI); [by apply keeps_update_roles|]. intros _. apply quiet_GI. auto with quiet.
Qed.

(** *** What the founder sets *)

(** The end of the setters: sign what was changed, and send it. *)
Lemma set_and_sign f (undo k : GC Z) : is_founder_of → (∀ s, shared_wf s → shared_wf (f s)) → keeps GI k →
  keeps GI (set_shared f;; ok ← sign_gc_shared_state; if negb ok then undo else k).
Proof using L stack_topic_wf.
  intros HR Hf Hk. eapply gc_hoare_bind; [by apply set_shared_rest|]. intros u.
  eapply gc_hoare_bind; [by apply sign_shared|]. intros [|] c [E Hc]; [by apply Hk|done].
Qed.

Lemma keeps_send_result x : keeps GI (ok ← broadcast_gc_shared_state; mret (if ok : bool then 0 else x)).
Proof. apply (keeps_bind GI); [apply quiet_GI; auto with quiet|]. intros ok. by apply gc_hoare_ret. Qed.
End invariant.
