(* ===== verification/GroupRuns.v ===== *)
(** * GroupRuns: every run of a member keeps what it holds signed

    The operations of [GroupControl] as steps of a member that receives any
    packets from any peers, in any order, while peers come and go; the invariant
    of [GroupSigned] holds after all of them. *)
From S2P Require Import Prelude Util MonoTime CryptoCore Network World DhtLists GroupPacket GroupConnection GroupAnnounce.
From S2P Require Import CryptoSign GroupModeration GroupState GroupControl SanctionsSync GroupSigned.

(** ** Steps *)

(** What an operation meets: whether a group connection can be created, whether
    there is memory for the packets it builds and for the lists of moderators and
    sanctions, the time, what the stack holds. *)
Record Group_Env := mkGroupEnv {
  ge_create : bool;
  ge_malloc : bool;
  ge_alloc : alloc_site → bool;
  ge_now : Z;
  ge_creds : Mod_Sanction_Creds;
  ge_topic : bytes
}.

Definition env_wf (e : Group_Env) : Prop := creds_wf (ge_creds e) ∧ zlen (ge_topic e) = 512 ∧ bytes_ok (ge_topic e).

(** Packets with the number of the peer they come from, and calls of the API. *)
Inductive Group_Op :=
  | RecvSharedState (peer : nat) (data : bytes)
  | RecvModList (data : bytes)
  | RecvSanctionsList (data : bytes)
  | RecvTopic (peer : GC_Peer) (data : bytes)
  | RecvSetMod (peer : Z) (data : bytes)
  | RecvSetObserver (peer : Z) (data : bytes)
  | CallSetTopic (topic : bytes)
  | CallSetRole (peer_id role : Z)
  | CallSetPassword (password : option bytes) (length : Z)
  | CallSetTopicLock (lock : Z)
  | CallSetVoiceState (state : Z)
  | CallSetPrivacyState (state : Z)
  | CallSetMaxPeers (max : Z)
  | CallGroupAdd (privacy : Z) (name : bytes).

(** A packet fits into 16 bits of length; the arguments of a call have their types. *)
Definition packet_ok (data : bytes) : Prop := bytes_ok data ∧ zlen data < 65536.

Definition op_wf (op : Group_Op) : Prop :=
  match op with
  | RecvSharedState _ d | RecvModList d | RecvSanctionsList d | RecvTopic _ d | RecvSetMod _ d | RecvSetObserver _ d => packet_ok d
  | CallSetTopic t => bytes_ok t
  | CallSetRole _ _ => True
  | CallSetPassword p n => is_u16 n ∧ ∀ p', p = Some p' → zlen p' = n
  | CallSetTopicLock _ => True
  | CallSetVoiceState v | CallSetPrivacyState v => is_u8 v
  | CallSetMaxPeers m => is_u16 m
  | CallGroupAdd p n => is_u8 p
  end.

Section runs.
Context {G : SodiumSign} {L : SodiumSignLaws G}.

Definition run_group_op (e : Group_Env) (op : Group_Op) : GC Z :=
  match op with
  | RecvSharedState i d => handle_gc_shared_state (ge_create e) i d (zlen d)
  | RecvModList d => handle_gc_mod_list (ge_alloc e) d (zlen d)
  | RecvSanctionsList d => handle_gc_sanctions_list (ge_alloc e) (ge_malloc e) (ge_creds e) d (zlen d)
  | RecvTopic p d => handle_gc_topic (ge_topic e) p d (zlen d)
  | RecvSetMod i d => handle_gc_set_mod (ge_alloc e) i d (zlen d)
  | RecvSetObserver i d => handle_gc_set_observer (ge_alloc e) (ge_creds e) i d (zlen d)
  | CallSetTopic t => gc_set_topic (ge_malloc e) t (zlen t)
  | CallSetRole i r => gc_set_peer_role (ge_alloc e) (ge_malloc e) (ge_now e) i r
  | CallSetPassword p n => gc_founder_set_password (ge_malloc e) p n
  | CallSetTopicLock l => gc_founder_set_topic_lock (ge_malloc e) l
  | CallSetVoiceState v => gc_founder_set_voice_state v
  | CallSetPrivacyState p => gc_founder_set_privacy_state (ge_create e) p
  | CallSetMaxPeers m => gc_founder_set_max_peers m
  | CallGroupAdd p n => gc_group_add (ge_alloc e) (ge_malloc e) p n (zlen n)
  end.

(** Who acts as the founder has the key of the chat. *)
Definition owner (c : GC_Chat) : Prop :=
  self_gc_is_founder c = true → ext_keypair (ch_chat_public_key c) (ch_chat_secret_key c).

(** There is memory for all that a call allocates. *)
Definition memory (e : Group_Env) : Prop := ge_malloc e = true ∧ ∀ s, ge_alloc e s = true.

(** Packets are handled in any state, with or without memory.  The member calls the functions that send
    only with memory for their packets: without it [gc_set_topic] leaves a new
    topic with the signature of the old one.  It calls the functions of a founder
    as long as acting as one means to have the key of the chat, and only a founder
    founds the group. *)
Definition op_allowed (e : Group_Env) (c : GC_Chat) (op : Group_Op) : Prop :=
  match op with
  | CallSetTopic _ => memory e
  | CallSetRole _ _ | CallSetPassword _ _ | CallSetTopicLock _ => owner c ∧ memory e
  | CallSetVoiceState _ | CallSetPrivacyState _ | CallSetMaxPeers _ => owner c
  | CallGroupAdd _ _ => owner c ∧ self_gc_is_founder c = true ∧ memory e
  | _ => True
  end.

(** The parts that only the operations change. *)
Definition same_state (c c' : GC_Chat) : Prop :=
  ch_moderation c = ch_moderation c' ∧ ch_shared_state c = ch_shared_state c' ∧
  ch_shared_state_sig c = ch_shared_state_sig c' ∧ ch_topic_info c = ch_topic_info c' ∧ ch_topic_sig c = ch_topic_sig c' ∧
  ch_chat_public_key c = ch_chat_public_key c' ∧ ch_chat_secret_key c = ch_chat_secret_key c' ∧
  ch_self_public_key c = ch_self_public_key c' ∧ ch_self_secret_key c = ch_self_secret_key c'.

(** An operation, or anything else: the clock moves on, peers join and leave. *)
Inductive group_step (c : GC_Chat) : GC_Chat → Prop :=
  | step_op e op : env_wf e → op_wf op → op_allowed e c op → group_step c (run_group_op e op c).2
  | step_env c' : same_state c c' → Forall (λ p, zlen (pr_public_key p) = 64) (ch_group c') → group_step c c'.

Inductive group_run (c : GC_Chat) : GC_Chat → Prop :=
  | run_here : group_run c c
  | run_more c1 c2 : group_run c c1 → group_step c1 c2 → group_run c c2.

(** ** Which parts an operation may rely on *)

Definition Rany (g : list GC_Peer) (pk sk : bytes) : Prop := True.
Definition Rkeys (g : list GC_Peer) (pk sk : bytes) : Prop := ext_keypair pk sk.
Definition Rfounder (g : list GC_Peer) (pk sk : bytes) : Prop :=
  pr_role (aget empty_peer g 0) = GR_FOUNDER ∧ ext_keypair pk sk.

Lemma GI_any c : group_inv c ↔ GI Rany c.
Proof. unfold GI, fixed, Rany. tauto. Qed.

Lemma free_any : group_free Rany.
Proof. by intros g g' pk sk. Qed.
Lemma free_keys : group_free Rkeys.
Proof. by intros g g' pk sk. Qed.
Lemma founder_founder : is_founder_of Rfounder.
Proof. by intros g pk sk. Qed.

Lemma GI_founder c : GI Rkeys c → self_gc_is_founder c = true → GI Rfounder c.
Proof. intros [H K] E. split; [done|]. split; [|exact K]. unfold self_gc_is_founder in E. by apply Z.eqb_eq. Qed.

Lemma GI_weaken (R R' : list GC_Peer → bytes → bytes → Prop) c : (∀ g pk sk, R g pk sk → R' g pk sk) → GI R c → GI R' c.
Proof. intros HR [H F]. split; [done|]. by apply HR. Qed.

(** Code that does nothing unless we are the founder. *)
Lemma founder_gate {A} (f : GC_Chat → GC A) x :
  (∀ c0, keeps (GI Rfounder) (f c0)) →
  keeps (GI Rkeys) (c ← get (λ c, c); if negb (self_gc_is_founder c) then mret x else f c).
Proof.
  intros Hf. apply gc_hoare_get. intros c0 H0. destruct (self_gc_is_founder c0) eqn:E; cbn [negb]; [|by apply gc_hoare_ret; intros c ->].
  eapply hoare_exact; [|by apply (GI_founder c0)]. eapply hoare_conseq; [apply Hf|done|].
  intros y c. apply GI_weaken. by intros g pk sk [].
Qed.

Lemma stk : zlen (zeros 512) = 512 ∧ bytes_ok (zeros 512).
Proof. split; [done|apply zeros_ok]. Qed.

Lemma roles_keep R : group_free R → keeps (GI R) update_roles.
Proof. exact (keeps_update_roles _ stk R). Qed.

(** The calls are made with memory for the lists. *)
Section calls.
Variable alloc : alloc_site → bool.
Hypothesis alloc_ok : ∀ s, alloc s = true.

(** ** Changing roles *)

Lemma set_moderator_keys k b : keeps (GI Rkeys) (founder_gc_set_moderator alloc true k b).
Proof using L alloc_ok.
  apply gc_hoare_get. intros c0 H0. destruct (self_gc_is_founder c0) eqn:E; cbn [negb]; [|by apply gc_hoare_ret; intros c ->].
  pose proof (keeps_set_moderator alloc alloc_ok _ stk Rfounder k b founder_founder c0 (GI_founder _ H0 E)) as H.
  unfold founder_gc_set_moderator in H. rewrite run_get, E in H. cbn [negb] in H.
  intros c ->. eapply GI_weaken; [|exact H]. by intros g pk sk [].
Qed.

Lemma apply_role_founder now i cur new : keeps (GI Rkeys) (apply_new_gc_role alloc true now i cur new).
Proof using L alloc_ok.
  apply keeps_get. intros c0 _. destruct (get_gc_peer c0 i) as [p|]; [|by apply gc_hoare_ret]. cbv zeta.
  pose proof (keeps_mod_set_observer alloc alloc_ok now _ stk Rkeys) as Ho.
  repeat hif; repeat apply keeps_and_then; try apply set_moderator_keys; try (by apply Ho, free_keys); try (by apply gc_hoare_ret);
    (apply (keeps_bind (GI Rkeys)); [apply roles_keep, free_keys|intros _]);
    hif; try apply set_moderator_keys; try (by apply Ho, free_keys); by apply gc_hoare_ret.
Qed.

(** A moderator only turns users into observers and back. *)
Lemma apply_role_moderator now i cur new : cur ≠ GR_MODERATOR → new ≠ GR_MODERATOR →
  keeps (GI Rany) (apply_new_gc_role alloc true now i cur new).
Proof using L alloc_ok.
  intros Hc Hn. apply keeps_get. intros c0 _. destruct (get_gc_peer c0 i) as [p|]; [|by apply gc_hoare_ret]. cbv zeta.
  pose proof (keeps_mod_set_observer alloc alloc_ok now _ stk Rany) as Ho.
  replace (cur =? GR_MODERATOR) with false by lia. replace (new =? GR_MODERATOR) with false by lia.
  repeat hif; try (by apply Ho, free_any); try (by apply gc_hoare_ret).
  apply keeps_and_then; [by apply Ho, free_any|].
  apply (keeps_bind (GI Rany)); [apply roles_keep, free_any|intros _]. by apply gc_hoare_ret.
Qed.

Lemma set_role_step now i r c : group_inv c → owner c → group_inv (gc_set_peer_role alloc true now i r c).2.
Proof using L alloc_ok.
  intros Hc Ho. unfold gc_set_peer_role. rewrite run_get. cbv zeta.
  destruct (get_gc_peer c _) as [p|]; [|done]. destruct (negb (pr_confirmed p)); [done|].
  destruct (_ || _); [done|]. destruct (peer_number_is_self _); [done|]. destruct (_ || _); [done|].
  destruct (self_gc_is_founder c) eqn:Ef; cbn [negb andb].
  - assert (GI Rkeys c) as HK by (split; [exact Hc|exact (Ho Ef)]). apply GI_any, (GI_weaken Rkeys Rany); [done|].
    refine ((_ : keeps (GI Rkeys) _) c HK).
    apply (keeps_bind (GI Rkeys)); [apply apply_role_founder|]. intros [|]; cbn [negb]; [|by apply gc_hoare_ret].
    apply (keeps_bind (GI Rkeys)); [apply roles_keep, free_keys|intros _]. by apply gc_hoare_ret.
  - destruct ((r =? GR_MODERATOR) || _) eqn:Em; [done|]. apply orb_false_iff in Em as [E1 E2].
    apply GI_any. refine ((_ : keeps (GI Rany) _) c _); [|by apply GI_any].
    apply (keeps_bind (GI Rany)); [apply apply_role_moderator; lia|]. intros [|]; cbn [negb]; [|by apply gc_hoare_ret].
    apply (keeps_bind (GI Rany)); [apply roles_keep, free_any|intros _]. by apply gc_hoare_ret.
Qed.

(** ** The founder's settings *)

(** A call that does nothing unless we are the founder keeps the invariant. *)
Lemma founder_step (op : GC Z) : (∀ c, self_gc_is_founder c = false → (op c).2 = c) → keeps (GI Rfounder) op →
  ∀ c, group_inv c → owner c → group_inv (op c).2.
Proof.
  intros Hno Hop c Hc Ho. destruct (self_gc_is_founder c) eqn:E; [|by rewrite Hno].
  apply GI_any. eapply (GI_weaken Rfounder); [done|]. apply Hop. apply GI_founder; [|done]. split; [exact Hc|exact (Ho E)].
Qed.

Ltac wf_fields := intros s Hs; unfold shared_wf in *; chat_fields; tauto.

Lemma max_peers_step m c : is_u16 m → group_inv c → owner c → group_inv (gc_founder_set_max_peers m c).2.
Proof using L.
  intros Hm. apply founder_step.
  { intros c0 E. unfold gc_founder_set_max_peers. by rewrite run_get, E. }
  apply keeps_get. intros c0 _. hif; [by apply gc_hoare_ret|]. cbv zeta. hif; [by apply gc_hoare_ret|].
  apply (set_and_sign _ stk); [apply founder_founder|wf_fields|apply keeps_send_result].
Qed.

Lemma voice_step v c : is_u8 v → group_inv c → owner c → group_inv (gc_founder_set_voice_state v c).2.
Proof using L.
  intros Hm. apply founder_step.
  { intros c0 E. unfold gc_founder_set_voice_state. by rewrite run_get, E. }
  apply keeps_get. intros c0 _. hif; [by apply gc_hoare_ret|]. hif; [by apply gc_hoare_ret|]. cbv zeta. hif; [by apply gc_hoare_ret|].
  apply (set_and_sign _ stk); [apply founder_founder|wf_fields|apply keeps_send_result].
Qed.

Lemma privacy_step b v c : is_u8 v → group_inv c → owner c → group_inv (gc_founder_set_privacy_state b v c).2.
Proof using L.
  intros Hm. apply founder_step.
  { intros c0 E. unfold gc_founder_set_privacy_state. by rewrite run_get, E. }
  apply keeps_get. intros c0 _. hif; [by apply gc_hoare_ret|]. hif; [by apply gc_hoare_ret|]. cbv zeta. hif; [by apply gc_hoare_ret|].
  apply (set_and_sign _ stk); [apply founder_founder|wf_fields|].
  apply quiet_GI. quiets.
Qed.

Lemma password_wf p n s s' : is_u16 n → (∀ p', p = Some p' → zlen p' = n) →
  set_gc_password_local p n s = Some s' → shared_wf s → shared_wf s'.
Proof.
  intros Hn Hp E Hs. unfold set_gc_password_local in E. change MAX_GC_PASSWORD_SIZE with 32 in E.
  assert (shared_wf (s <| ss_password_length := 0 |> <| ss_password := zeros 32 |>)) as H0.
  { unfold shared_wf in *. chat_fields. split_and!; tauto || done || lia. }
  destruct (32 <? n) eqn:E1; [done|]. destruct p as [p'|]; [|by injection E as <-].
  destruct (n =? 0); [by injection E as <-|]. injection E as <-. specialize (Hp p' eq_refl). unfold is_u16 in Hn.
  assert (zlen (slice 0 n p' ++ drop (Z.to_nat n) (ss_password s)) = 32) as Hl.
  { destruct Hs as (_ & _ & _ & _ & _ & _ & _ & Hw & _). rewrite zlen_app, length_slice, zlen_drop by lia. lia. }
  unfold shared_wf in *. chat_fields. split_and!; tauto || done || lia.
Qed.

Lemma password_step p n c : is_u16 n → (∀ p', p = Some p' → zlen p' = n) → group_inv c → owner c →
  group_inv (gc_founder_set_password true p n c).2.
Proof using L.
  intros Hn Hp. apply founder_step.
  { intros c0 E. unfold gc_founder_set_password. by rewrite run_get, E. }
  apply keeps_get. intros c0 H0. hif; [by apply gc_hoare_ret|]. cbv zeta. hif; [by apply gc_hoare_ret|].
  destruct (set_gc_password_local _ _ _) as [s'|] eqn:Es; [|by apply gc_hoare_ret].
  assert (shared_wf s') as Hw.
  { eapply password_wf; [exact Hn|exact Hp|exact Es|]. by destruct H0 as [[[_ _ _ [Hw _] _ _] _] _]. }
  apply (set_and_sign _ stk); [apply founder_founder|done|apply keeps_send_result].
Qed.

Lemma lock_step l : ∀ c, group_inv c → owner c → group_inv (gc_founder_set_topic_lock true l c).2.
Proof using L.
  apply founder_step.
  { intros c0 E. unfold gc_founder_set_topic_lock. rewrite run_get, E. by destruct (_ <? _). }
  apply gc_hoare_get. intros c0 H0. do 4 (hif; [by apply gc_hoare_ret; intros c ->|]). cbv zeta.
  set (old := ss_topic_lock (ch_shared_state c0)).
  set (X := λ x : GC_SharedState * bytes * bytes, part_signed (x.1.1 <| ss_topic_lock := old |>, x.1.2, x.2)).
  set (P := λ c, GRI Rfounder c ∧ X (shared_part c)).
  assert (∀ v, is_u32 v → P (c0 <| ch_shared_state := (ch_shared_state c0) <| ss_topic_lock := v |> |>)) as HP.
  { intros v Hv. pose proof H0 as [[[K H2 H3 [H4 H4'] H5 H6] S] F]. split.
    - split; [|exact F]. split; chat_fields; try done. split; [|done]. unfold shared_wf in *. chat_fields. tauto.
    - unfold X, shared_part. cbn [fst snd]. chat_fields. subst old. destruct c0 as [? ? ? ? ? ? ? ? []]. exact S. }
  apply (gc_hoare_bind _ _ (λ _, P)).
  - hif.
    + apply (gc_hoare_modify _ _ _ P); [intros c ->; by apply HP|].
      apply keeps_conj; [apply (resign_rest _ stk)|]. apply (keeps_frame X), frame_resign.
    + apply (gc_hoare_modify _ _ _ P); [|by apply gc_hoare_ret]. intros c ->. apply HP.
      destruct H0 as [[[_ _ _ _ (T & _) _] _] _]. exact T.
  - intros [|]; cbn [negb].
    + apply (gc_hoare_bind _ _ (λ ok c, ok = true ∧ GI Rfounder c)).
      * eapply hoare_pre; [apply (sign_shared _ stk), founder_founder|]. by intros c [H _].
      * intros [|]; cbn [negb]; [|by intros c [? _]]. eapply hoare_pre; [apply keeps_send_result|]. by intros c [_ H].
    + apply (gc_hoare_modify _ _ _ (GI Rfounder)); [|by apply gc_hoare_ret]. intros c [[[K H2 H3 [H4 H4'] H5 H6] F] HX].
      apply (proj2 (GI_parts _ stk _ _)). split; [|exact HX]. split; [|exact F]. split; chat_fields; try done. split; [|done].
      destruct H0 as [[[_ _ _ [(_ & _ & _ & _ & _ & _ & _ & _ & _ & W & _) _] _ _] _] _]. unfold shared_wf in *. chat_fields. tauto.
Qed.

Lemma group_add_step pv name c : is_u8 pv → self_gc_is_founder c = true → owner c → group_inv c →
  group_inv (gc_group_add alloc true pv name (zlen name) c).2.
Proof using L alloc_ok.
  intros Hp Hf Ho Hc. apply GI_any, (GI_weaken Rfounder); [done|].
  assert (GI Rfounder c) as HG by (apply GI_founder; [split; [exact Hc|exact (Ho Hf)]|done]).
  revert c HG Hf Ho Hc. cut (keeps (GI Rfounder) (gc_group_add alloc true pv name (zlen name))); [by intros H c HG _ _ _; apply H|].
  unfold gc_group_add. pose proof (zlen_nonneg name). change MAX_GC_GROUP_NAME_SIZE with 48.
  destruct (48 <? zlen name) eqn:E1; [by apply gc_hoare_ret|]. destruct (zlen name =? 0) eqn:E2; [by apply gc_hoare_ret|].
  apply (gc_hoare_bind _ _ (λ ok c, ok = true ∧ GI Rfounder c)).
  - apply (gc_hoare_modify _ _ _ (GRI Rfounder)); [|apply (sign_shared _ stk), founder_founder].
    intros c [[[K H2 H3 [H4 H4'] H5 H6] S] F]. split; [|exact F]. split; chat_fields; try done. split; [|done].
    pose proof K as (K1 & _ & _). apply ext_keypair_sizes in K1 as [K1 _].
    assert (zlen (slice 0 (zlen name) name ++ drop (Z.to_nat (zlen name)) (ss_group_name (ch_shared_state c))) = 48) as Hl.
    { destruct H4 as (_ & _ & _ & _ & W & _). rewrite zlen_app, length_slice, zlen_drop by lia. lia. }
    unfold shared_wf in *. chat_fields. split_and!; tauto || lia.
  - intros [|]; cbn [negb]; [|by intros c [? _]].
    apply (gc_hoare_modify _ _ _ (GI Rfounder)).
    { intros c [_ [[[(K & _) H2 H3 H4 H5 H6] S] F]]. split; [|exact F]. split; [|exact S]. split; chat_fields; done. }
    apply (keeps_bind (GI Rfounder)).
    + apply hoare_on_moderation. intros c HG. pose proof (GI_mod _ c HG) as (Hn & Hs & _).
      destruct (make_creds_with alloc alloc_ok (ch_moderation c) (sanctions (ch_moderation c)) (sanctions_creds (ch_moderation c))
        (GI_self_keys _ c HG) Hs) as (cr & E & Hcs & _).
      replace (with_list (ch_moderation c) _ _) with (ch_moderation c) in E at 1 by (by destruct (ch_moderation c)).
      rewrite E. cbn [fst snd]. apply GI_with_list; [done|]. by apply inv_with_list.
    + intros [|]; cbn [negb]; [|by apply gc_hoare_ret].
      apply (keeps_bind (GI Rfounder)); [apply (keeps_set_topic _ stk); [done|constructor]|].
      intros r. destruct (negb _); [by apply gc_hoare_ret|]. apply (gc_hoare_modify _ _ _ (GI Rfounder)); [|by apply gc_hoare_ret].
      intros c [[H1 H2] H3]. split; [|exact H3]. split; [by apply (rest_same c)|exact H2].
Qed.

End calls.

Lemma packet_step e op c : env_wf e → op_wf op → group_inv c →
  match op with
  | RecvSharedState _ _ | RecvModList _ | RecvSanctionsList _ | RecvTopic _ _ | RecvSetMod _ _ | RecvSetObserver _ _ =>
      group_inv (run_group_op e op c).2
  | _ => True
  end.
Proof using L.
  intros (He1 & He2) Hw Hc. pose proof (proj1 (GI_any c) Hc) as HG. destruct op; cbn [run_group_op op_wf] in *; try done; apply GI_any.
  - apply (keeps_shared_state _ _ stk Rany); [apply free_any|done|apply Hw|done].
  - apply (keeps_handle_mods (ge_alloc e) _ stk Rany); [apply free_any|done].
  - apply (keeps_handle_sanctions (ge_alloc e) _ _ He1 stk Rany); [apply free_any|done|apply Hw|done].
  - apply (keeps_handle_topic _ He2 Rany); [done|apply Hw|done].
  - apply (keeps_handle_set_mod (ge_alloc e) _ stk Rany); [apply free_any|done].
  - apply (keeps_handle_set_observer (ge_alloc e) _ _ He1 stk Rany); [apply free_any|done|apply Hw|done].
Qed.

Lemma op_step e op c : env_wf e → op_wf op → op_allowed e c op → group_inv c → group_inv (run_group_op e op c).2.
Proof using L.
  intros He Hw Ha Hc. pose proof (packet_step e op c He Hw Hc) as Hp.
  destruct op; cbn [run_group_op op_wf op_allowed] in *; try exact Hp; clear Hp.
  - rewrite (proj1 Ha). apply GI_any, (keeps_set_topic _ stk Rany); [pose proof (zlen_nonneg topic); lia|done|by apply GI_any].
  - destruct Ha as (Ho & -> & Hm). by apply set_role_step.
  - destruct Ha as (Ho & -> & Hm), Hw. by apply password_step.
  - destruct Ha as (Ho & -> & Hm). by apply lock_step.
  - by apply voice_step.
  - by apply privacy_step.
  - by apply max_peers_step.
  - destruct Ha as (Ho & Hf & -> & Hm). by apply group_add_step.
Qed.

(** A member before anything happened: it has its keys, and nothing else. *)
Definition fresh_chat (c : GC_Chat) : Prop :=
  own_keys c ∧ Forall (λ p, zlen (pr_public_key p) = 64) (ch_group c) ∧
  sanctions (ch_moderation c) = [] ∧ sanctions_creds (ch_moderation c) = empty_creds ∧
  shared_wf (ch_shared_state c) ∧ ss_version (ch_shared_state c) = 0 ∧ zlen (ch_shared_state_sig c) = 64 ∧
  ch_topic_info c = empty_topic.

Lemma fresh_chat_inv c : fresh_chat c → group_inv c.
Proof.
  intros (H1 & H2 & H3 & H4 & H5 & H6 & H7 & H8). split; [|by left]. split; try done.
  - split_and!; rewrite H3; [done|constructor|by right].
  - rewrite H8. unfold topic_wf. cbn. split_and!; try done. apply zeros_ok.
  - by left.
Qed.

(** C25: Everything a member of a group holds was signed by who may decide it, in
    every run: whatever packets arrive from whomever, with or without memory to
    handle them, whatever the member does itself, and however peers come and go, its
    shared state is one that was signed with the key of the chat (or it has none),
    every sanction is signed by its setter, the list of sanctions is covered by
    signed credentials (or nothing ever happened to it), there are at most as many
    sanctions as fit, and the topic is one its setter signed (or it was never set).
    When the member acts as the founder it holds the key of the chat (a holder of
    that key can name anybody the founder), and there is memory when it sets the
    topic, its lock, a role or the password, or founds the group. *)
Theorem group_state_always_signed (c c' : GC_Chat) :
  fresh_chat c → group_run c c' →
  shared_signed c' ∧ topic_signed c' ∧ Forall sanction_signed (sanctions (ch_moderation c')) ∧
  zlen (sanctions (ch_moderation c')) <= MOD_MAX_NUM_SANCTIONS ∧
  (creds_signed (sanctions (ch_moderation c')) (sanctions_creds (ch_moderation c')) ∨
   (sanctions (ch_moderation c') = [] ∧ sanctions_creds (ch_moderation c') = empty_creds)).
Proof using L.
  intros Hf Hr. assert (group_inv c') as [[_ _ (H1 & H2 & H3) _ _ H6] H7]; [|by split_and!].
  induction Hr as [|c1 c2 _ IH Hs]; [by apply fresh_chat_inv|]. destruct Hs as [e op He Hw Ha|c2 Hsame Hp].
  - by apply op_step.
  - destruct IH as [[K H2 H3 H4 H5 H6] S]. destruct Hsame as (E1 & E2 & E3 & E4 & E5 & E6 & E7 & E8 & E9).
    unfold shared_signed in S. rewrite E2, E3, E6 in S. split; [|exact S].
    unfold own_keys, topic_signed in *. rewrite E1, E2, E3, E4, E5, E8, E9 in *. by split.
Qed.
End runs.

(** ** A concrete group *)

Definition demo_keys (seed : Z) : bytes * bytes :=
  let '(_, pk, sk) := create_extended_keypair (G := toy_sign) [seed; seed + 1] [] [] in (pk, sk).

Definition demo_peer (role id seed : Z) : GC_Peer :=
  empty_peer <| pr_role := role |> <| pr_peer_id := id |> <| pr_confirmed := true |>
    <| pr_gconn := empty_gc_connection <| addr_public_key := (demo_keys seed).1 |> <| handshaked := true |> |>.

Definition demo_shared_state : GC_SharedState :=
  mkSharedState 0 (zeros 64) MAX_GC_PEERS_DEFAULT 0 (zeros 48) GI_PRIVATE 0 (zeros 32) (zeros 32) GC_TOPIC_LOCK_ENABLED GV_ALL.

(** A member that has just been created: [seed] gives its keys, [chat] the keys of
    the chat as far as it has them. *)
Definition demo_chat (seed : Z) (chat : bytes * bytes) (group : list GC_Peer) : GC_Chat :=
  mkChat (mkMonoTime 1000 0) sample_rng (mkGCNet [] (λ _, true)) [] HJ_PRIVATE group
    (mkModeration [] empty_creds [] (zeros 32) (get_sig_pk (demo_keys seed).1) (get_sig_sk (demo_keys seed).2) 0)
    CS_CONNECTING demo_shared_state (zeros 64) empty_topic (zeros 64) 0 0 0 0 chat.1 chat.2
    (demo_keys seed).1 (demo_keys seed).2 0 0 false.

Definition demo_founder : GC_Chat :=
  demo_chat 10 (demo_keys 1) [demo_peer GR_FOUNDER 0 10; demo_peer GR_USER 1 20; demo_peer GR_USER 2 30].

Definition demo_env : Group_Env := mkGroupEnv true true (λ _, true) 1700000000 empty_creds (zeros 512).

Lemma demo_keys_pair seed : ext_keypair (G := toy_sign) (demo_keys seed).1 (demo_keys seed).2.
Proof. exists [seed; seed + 1], [], []. reflexivity. Qed.

Lemma zlen_demo_keys seed : zlen (demo_keys seed).1 = 64.
Proof. exact (proj1 (@ext_keypair_sizes toy_sign toy_sign_laws _ _ (demo_keys_pair seed))). Qed.

Lemma demo_chat_fresh seed chat group : Forall (λ p, zlen (pr_public_key p) = 64) group → fresh_chat (G := toy_sign) (demo_chat seed chat group).
Proof.
  intros Hg. split; [split; [apply demo_keys_pair|done]|]. split; [exact Hg|]. split_and!; done.
Qed.

Lemma demo_env_wf : env_wf demo_env.
Proof. split_and!; try done. apply zeros_ok. Qed.

(** The founder founds the group and makes an observer of the first user. *)
Definition demo_founded : GC_Chat :=
  (run_group_op (G := toy_sign) demo_env (CallGroupAdd GI_PRIVATE [103; 114]) demo_founder).2.
Definition demo_sanctioned : GC_Chat :=
  (run_group_op (G := toy_sign) demo_env (CallSetRole 1 GR_OBSERVER) demo_founded).2.

Lemma demo_founded_keys : (ch_chat_public_key demo_founded, ch_chat_secret_key demo_founded) = demo_keys 1.
Proof. vm_compute. reflexivity. Qed.

Lemma demo_founded_step : group_step (G := toy_sign) demo_founder demo_founded.
Proof.
  refine (step_op demo_founder demo_env (CallGroupAdd GI_PRIVATE [103; 114]) demo_env_wf _ (conj (λ _, demo_keys_pair 1) (conj _ (conj eq_refl (λ _, eq_refl))))).
  - unfold op_wf, is_u8, GI_PRIVATE. lia.
  - vm_compute. reflexivity.
Qed.

Lemma demo_sanctioned_step : group_step (G := toy_sign) demo_founded demo_sanctioned.
Proof.
  refine (step_op demo_founded demo_env (CallSetRole 1 GR_OBSERVER) demo_env_wf Logic.I (conj (λ _, _) (conj eq_refl (λ _, eq_refl)))).
  pose proof demo_founded_keys as E. pose proof (demo_keys_pair 1) as K. rewrite <- E in K. exact K.
Qed.

Lemma demo_group_run : group_run (G := toy_sign) demo_founder demo_sanctioned.
Proof.
  exact (run_more _ _ _ (run_more _ _ _ (run_here _) demo_founded_step) demo_sanctioned_step).
Qed.

Lemma group_state_always_signed_witness :
  zlen (sanctions (ch_moderation demo_sanctioned)) = 1 ∧ ss_version (ch_shared_state demo_sanctioned) = 1 ∧
  shared_signed (G := toy_sign) demo_sanctioned ∧ topic_signed (G := toy_sign) demo_sanctioned ∧
  Forall (sanction_signed (G := toy_sign)) (sanctions (ch_moderation demo_sanctioned)).
Proof.
  split; [vm_compute; reflexivity|]. split; [vm_compute; reflexivity|].
  destruct (@group_state_always_signed toy_sign toy_sign_laws demo_founder demo_sanctioned) as (H1 & H2 & H3 & _).
  - apply demo_chat_fresh. repeat constructor; apply zlen_demo_keys.
  - apply demo_group_run.
  - split; [exact H1|]. split; [exact H2|exact H3].
Defined.
