(* ===== verification/GroupSync.v ===== *)
(** * GroupSync: members reach the same state

    A member that joins takes over the shared state, the moderators and the
    sanctions another member sends it, and gives every peer the role the other
    one gives it. *)
From S2P Require Import Prelude Util MonoTime CryptoCore Network World DhtLists GroupPacket GroupConnection GroupAnnounce.
From S2P Require Import CryptoSign GroupModeration GroupState GroupControl SanctionsSync GroupSigned GroupRuns.

(** ** Roles *)

(** What the role of a peer depends on. *)
Definition role_state (c : GC_Chat) :=
  (mod_list (ch_moderation c), sanctions (ch_moderation c), mo_founder_public_sig_key (ch_moderation c),
   ss_founder_public_key (ch_shared_state c)).

Lemma role_of_same c c' p : role_state c = role_state c' → role_of c p = role_of c' p.
Proof.
  unfold role_state. intros [= E1 E2 E3 E4].
  unfold role_of, peer_is_observer, peer_is_moderator, peer_is_founder, sanctions_list_is_observer, mod_list_verify_sig_pk.
  by rewrite E1, E2, E3, E4.
Qed.

Lemma role_conflict_same c c' p : role_state c = role_state c' → role_conflict c p = role_conflict c' p.
Proof.
  unfold role_state. intros [= E1 E2 E3 E4].
  unfold role_conflict, peer_is_observer, peer_is_moderator, peer_is_founder, sanctions_list_is_observer, mod_list_verify_sig_pk.
  by rewrite E1, E2, E3, E4.
Qed.

(** The role depends on the key of a peer only. *)
Lemma role_of_key c p q : pr_public_key p = pr_public_key q → role_of c p = role_of c q.
Proof. intros E. unfold role_of, peer_is_observer, peer_is_moderator, peer_is_founder. by rewrite E. Qed.
Lemma role_conflict_key c p q : pr_public_key p = pr_public_key q → role_conflict c p = role_conflict c q.
Proof. intros E. unfold role_conflict, peer_is_observer, peer_is_moderator, peer_is_founder. by rewrite E. Qed.

Definition no_conflict (c : GC_Chat) (g : list GC_Peer) : Prop := Forall (λ p, role_conflict c p = false) g.

Definition with_roles (c : GC_Chat) (g : list GC_Peer) : list GC_Peer :=
  map (λ p, if pr_confirmed p then p <| pr_role := role_of c p |> else p) g.

(** Nobody is moderator and observer at once: the roles are updated and nothing
    else happens. *)
Lemma update_roles_run c : no_conflict c (ch_group c) →
  ∃ sum, update_gc_peer_roles c = c <| ch_group := with_roles c (ch_group c) |> <| ch_roles_checksum := sum |>.
Proof.
  intros H. unfold update_gc_peer_roles. cbv zeta.
  replace (existsb (role_conflict c) _) with false; [cbn [andb]; by eexists|].
  symmetry. apply not_true_is_false. rewrite existsb_exists. intros (p & Hp & E).
  apply list_elem_of_In, list_elem_of_filter in Hp as [_ Hp]. unfold no_conflict in H. rewrite list.Forall_forall in H.
  specialize (H p Hp). congruence.
Qed.

Lemma with_roles_keys c g : map pr_public_key (with_roles c g) = map pr_public_key g.
Proof. induction g as [|p g IH]; cbn; [done|]. rewrite <- IH. f_equal. by destruct (pr_confirmed p). Qed.

Lemma with_roles_confirmed c g : map pr_confirmed (with_roles c g) = map pr_confirmed g.
Proof.
  induction g as [|p g IH]; [done|]. unfold with_roles in *. cbn [map]. rewrite IH. f_equal. by destruct (pr_confirmed p) eqn:E.
Qed.

Lemma with_roles_conflict c c' g : no_conflict c g → no_conflict c (with_roles c' g).
Proof.
  induction 1 as [|p g Hp _ IH]; [constructor|]. unfold with_roles in *. cbn [map]. constructor; [|done].
  rewrite <- Hp. apply role_conflict_key. by destruct (pr_confirmed p).
Qed.

(** Every confirmed peer has the role the state [c] gives it. *)
Definition roles_of (c : GC_Chat) (g : list GC_Peer) : Prop := Forall (λ p, pr_confirmed p = true → pr_role p = role_of c p) g.

Lemma roles_with_roles c c' g : role_state c = role_state c' → roles_of c (with_roles c' g).
Proof.
  intros E. unfold roles_of, with_roles. apply list.Forall_forall. intros p Hp. apply list_elem_of_fmap in Hp as (q & -> & _).
  destruct (pr_confirmed q) eqn:Eq; [|congruence]. intros _. chat_fields. rewrite (role_of_same c c' _ E). by apply role_of_key.
Qed.

(** ** The list of moderators on the wire *)

Definition mods_ok (m : Moderation) : Prop := num_mods m <= MOD_MAX_NUM_MODERATORS ∧ Forall (λ k, zlen k = 32) (mod_list m).

Lemma mod_pack_concat l : Forall (λ k, zlen k = 32) l → map (slice 0 MOD_LIST_ENTRY_SIZE) l = l.
Proof. induction 1 as [|k l Hk _ IH]; cbn [map]; [done|]. rewrite IH. f_equal. unfold_gsizes. by apply slice_all. Qed.

Lemma zlen_mods l : Forall (λ k : bytes, zlen k = 32) l → zlen (concat l) = 32 * zlen l.
Proof. induction 1 as [|k l Hk _ IH]; cbn [concat]; [done|]. rewrite zlen_app, zlen_cons, IH, Hk. lia. Qed.

Section sync.
Context {G : SodiumSign} {L : SodiumSignLaws G}.
Variable alloc : alloc_site → bool.
Hypothesis alloc_ok : ∀ s, alloc s = true.

Lemma mod_unpack_loop_all l : ∀ (i : nat) pre, Forall (λ k, zlen k = 32) l → zlen pre = 32 * Z.of_nat i →
  mod_list_unpack_loop alloc (length l) i (pre ++ concat l) = Some l.
Proof using alloc_ok.
  induction l as [|k l IH]; intros i pre Hl Hp; cbn [length mod_list_unpack_loop concat]; [done|].
  apply list.Forall_cons in Hl as [Hk Hl]. rewrite alloc_ok. cbn [negb].
  rewrite app_assoc, IH; [|done|rewrite zlen_app; lia]. cbn [mbind option_bind]. f_equal. f_equal. unfold_gsizes.
  rewrite <- app_assoc. by slices.
Qed.

Lemma mod_unpack_run m l : Forall (λ k, zlen k = 32) l → zlen l <= MOD_MAX_NUM_MODERATORS →
  ∃ r, mod_list_unpack alloc m (concat l) (32 * zlen l) (zlen l) = (r, m <| mod_list := l |>) ∧ r ≠ -1.
Proof using alloc_ok.
  intros Hl Hn. change MOD_MAX_NUM_MODERATORS with 100 in Hn. unfold mod_list_unpack. unfold_gsizes. pose proof (zlen_nonneg l).
  replace (_ <? _) with false by lia. destruct (zlen l =? 0) eqn:E.
  - exists 0. split; [|lia]. unfold zlen in E. destruct l; [done|cbn [length] in E; lia].
  - rewrite alloc_ok. cbn [negb]. pose proof (mod_unpack_loop_all l 0 [] Hl ltac:(done)) as Hu. cbn [app] in Hu.
    replace (Z.to_nat (zlen l)) with (length l) by (unfold zlen; lia). rewrite Hu.
    eexists. split; [done|]. rewrite u16_small by lia. lia.
Qed.

Lemma mod_hash_run m : mods_ok m → mod_list_make_hash alloc m =
  Some (if 0 <? 32 * num_mods m then mod_list_get_data_hash (concat (mod_list m)) else zeros 32).
Proof using alloc_ok.
  intros [Hn Hl]. unfold mod_list_make_hash, mod_list_packed_size, mod_list_pack. unfold num_mods in *.
  change MOD_MAX_NUM_MODERATORS with 100 in Hn. pose proof (zlen_nonneg (mod_list m)). rewrite mod_pack_concat by done. unfold_gsizes.
  destruct (zlen (mod_list m) =? 0) eqn:E.
  - by replace (0 <? _) with false by lia.
  - rewrite alloc_ok. cbn [negb]. replace (0 <? _) with true by lia. rewrite u16_small by lia. rewrite slice_all; [done|].
    rewrite zlen_mods by done. lia.
Qed.

Lemma mod_packet_run c : mods_ok (ch_moderation c) →
  mod_list_packet true c = Some (net_pack_u16 (num_mods (ch_moderation c)) ++ concat (mod_list (ch_moderation c))).
Proof.
  intros [Hn Hl]. unfold mod_list_packet, make_gc_mod_list_packet, mod_list_pack, exact_length. unfold num_mods in *.
  change MOD_MAX_NUM_MODERATORS with 100 in Hn. pose proof (zlen_nonneg (mod_list (ch_moderation c))). cbn [negb].
  rewrite mod_pack_concat by done. unfold_gsizes. rewrite !u16_small by (rewrite ?u16_small; lia).
  replace (_ <? _) with false by lia. pose proof (zlen_mods _ Hl) as Hz.
  destruct (0 <? _) eqn:E; cbn [mbind option_bind].
  - rewrite slice_all by lia. rewrite zlen_app, zlen_net_pack_u16, Hz. by replace (_ =? _) with true by lia.
  - assert (zlen (mod_list (ch_moderation c)) = 0) as E0 by lia. rewrite E0.
    replace (concat (mod_list (ch_moderation c))) with (@nil Z); [done|].
    unfold zlen in E0. destruct (mod_list (ch_moderation c)); [done|cbn [length] in E0; lia].
Qed.

(** ** Handling what another member sends *)

(** Quiet code at the end of a handler. *)
Lemma quiet_tail {A B} (m : GC A) (x : B) c : quiet m → ∃ c', (m ≫= λ _, mret x) c = (x, c') ∧ strip c' = strip c.
Proof. intros Hq. unfold mbind, M_bind. specialize (Hq c). destruct (m c) as [y c']. by exists c'. Qed.

Lemma run_when_modify {A} b g (f : unit → GC A) c : (when b (modify g) ≫= f) c = f tt (if b then g c else c).
Proof. by destruct b. Qed.

Definition taken_state (s : GC_SharedState) (sig : bytes) (c : GC_Chat) : GC_Chat :=
  let m := ch_moderation c in
  let m := if ss_version (ch_shared_state c) =? 0 then m <| mo_founder_public_sig_key := get_sig_pk (ss_founder_public_key s) |> else m in
  c <| ch_moderation := m <| mo_shared_state_version := ss_version s |> |> <| ch_shared_state := s |> <| ch_shared_state_sig := sig |>.

Lemma shared_state_run create i s sig c :
  shared_wf s → validate_gc_shared_state s = true → 0 < ss_version s → ss_version (ch_shared_state c) <= ss_version s → zlen sig = 64 →
  crypto_sign_verify_detached sig (shared_bytes s) (get_sig_pk (ch_chat_public_key c)) = true →
  ∃ c', handle_gc_shared_state create i (sig ++ shared_bytes s) 256 c = (0, c') ∧ strip c' = strip (taken_state s sig c).
Proof.
  intros Hw Hv Hpos Hle Hs V. pose proof (zlen_shared_bytes s Hw) as Hb. unfold handle_gc_shared_state.
  change (256 <? GC_SHARED_STATE_ENC_PACKET_SIZE) with false. cbv iota. rewrite run_get.
  change SIGNATURE_SIZE with 64. change GC_PACKED_SHARED_STATE_SIZE with 192. rewrite slice_app_l by done.
  rewrite drop_mid by done. rewrite (slice_all 192) by done. rewrite V. cbn [negb].
  assert (net_unpack_u32 (shared_bytes s) = ss_version s) as -> by (unfold shared_bytes; rewrite net_unpack_pack_u32; [done|apply Hw]).
  replace (ss_version s =? 0) with false by lia. replace (_ <? _) with false by lia. cbn [orb].
  rewrite <- (app_nil_r (shared_bytes s)), unpack_shared_bytes by (done || lia). rewrite Hv. cbn [negb].
  rewrite run_when_modify, !run_modify.
  destruct (quiet_tail (do_gc_shared_state_changes create (ch_shared_state c)) 0 (set_gc_shared_state_version (ss_version s)
    ((if ss_version (ch_shared_state c) =? 0
      then c <| ch_moderation := (ch_moderation c) <| mo_founder_public_sig_key := get_sig_pk (ss_founder_public_key s) |> |> else c)
     <| ch_shared_state := s |> <| ch_shared_state_sig := sig |>)) (quiet_changes _ _)) as (c' & E & Es).
  exists c'. split; [exact E|]. rewrite Es. unfold taken_state. destruct (_ =? 0), s; reflexivity.
Qed.

Lemma mod_list_run l c :
  Forall (λ k, zlen k = 32) l → zlen l <= MOD_MAX_NUM_MODERATORS → self_gc_is_founder c = false →
  ss_mod_list_hash (ch_shared_state c) = (if 0 <? 32 * zlen l then mod_list_get_data_hash (concat l) else zeros 32) →
  ∃ c', handle_gc_mod_list alloc (net_pack_u16 (zlen l) ++ concat l) (2 + 32 * zlen l) c = (0, c') ∧
    strip c' = strip (update_gc_peer_roles (c <| ch_moderation := (ch_moderation c) <| mod_list := l |> |>)).
Proof using alloc_ok.
  intros Hl Hn Hf Hh. unfold handle_gc_mod_list. pose proof (zlen_nonneg l). replace (_ <? 2) with false by lia. rewrite run_get, Hf.
  rewrite net_unpack_pack_u16 by (unfold is_u16; change MOD_MAX_NUM_MODERATORS with 100 in Hn; lia).
  change (drop 2 (net_pack_u16 _ ++ ?x)) with x. replace (2 + 32 * zlen l - 2) with (32 * zlen l) by lia.
  destruct (mod_unpack_run (ch_moderation c) l Hl Hn) as (r & Eu & Hr).
  assert (validate_unpack_mod_list alloc (concat l) (32 * zlen l) (zlen l) c =
    (0, c <| ch_moderation := (ch_moderation c) <| mod_list := l |> |>)) as Ev.
  { unfold validate_unpack_mod_list. replace (_ <? zlen l) with false by lia. rewrite (slice_all (32 * zlen l)) by (by apply zlen_mods).
    rewrite run_get. rewrite Hh. unfold bytes_eqb. rewrite bool_decide_true by done. rewrite andb_false_r.
    unfold mbind, M_bind, on_moderation. rewrite Eu. by replace (r =? -1) with false by lia. }
  run Ev. change (0 =? 0) with true. cbv iota. unfold update_roles. rewrite run_modify, run_get.
  set (c1 := update_gc_peer_roles _).
  destruct (quiet_tail (when (ch_connection_state c1 =? CS_CONNECTED) (add_event (EvModeration UINT32_MAX UINT32_MAX MV_MOD))) 0 c1)
    as (c' & E & Es); [auto with quiet|]. by exists c'.
Qed.

Lemma sanctions_list_run c0 l cr c :
  Forall sanction_wf l → creds_wf cr → zlen l <= MOD_MAX_NUM_SANCTIONS →
  sanctions_list_check_integrity alloc (ch_moderation c) cr l = true →
  sc_version (sanctions_creds (ch_moderation c)) < sc_version cr →
  ∃ c', handle_gc_sanctions_list alloc true c0 (net_pack_u16 (zlen l) ++ concat (map sanction_bytes l) ++ sanctions_creds_pack cr)
          (2 + 137 * zlen l + 134) c = (0, c') ∧
    strip c' = strip (update_gc_peer_roles (c <| ch_moderation := with_list (ch_moderation c) l cr |>)).
Proof.
  intros Hl Hc Hn Hi Hv. unfold handle_gc_sanctions_list. pose proof (zlen_nonneg l). replace (_ <? 2) with false by lia.
  rewrite net_unpack_pack_u16 by (unfold is_u16; change MOD_MAX_NUM_SANCTIONS with 30 in Hn; lia).
  replace (MOD_MAX_NUM_SANCTIONS <? zlen l) with false by lia. cbn [negb].
  change (drop 2 (net_pack_u16 _ ++ ?x)) with x. replace (2 + 137 * zlen l + 134 - 2) with (137 * zlen l + 134) by lia.
  rewrite unpack_pack by done. rewrite Z.eqb_refl. cbn [negb]. rewrite run_get. cbv zeta. rewrite Hi. cbn [negb].
  replace (sc_version cr <? _) with false by lia. replace (sc_version cr =? _) with false by lia. cbn [andb].
  rewrite run_modify. unfold update_roles. rewrite run_modify, run_get.
  change ((sanctions_list_cleanup (ch_moderation c)) <| sanctions_creds := cr |> <| sanctions := l |>) with (with_list (ch_moderation c) l cr).
  set (c1 := update_gc_peer_roles _).
  destruct (quiet_tail (when (ch_connection_state c1 =? CS_CONNECTED) (add_event (EvModeration UINT32_MAX UINT32_MAX MV_OBSERVER))) 0 c1)
    as (c' & E & Es); [auto with quiet|]. by exists c'.
Qed.

(** ** A member that can answer a request for the state *)

Record synced (c : GC_Chat) : Prop := {
  sy_shared : shared_wf (ch_shared_state c) ∧ zlen (ch_shared_state_sig c) = 64;
  sy_valid : validate_gc_shared_state (ch_shared_state c) = true;
  sy_version : 0 < ss_version (ch_shared_state c);
  sy_signed : crypto_sign_verify_detached (ch_shared_state_sig c) (shared_bytes (ch_shared_state c))
                (get_sig_pk (ch_chat_public_key c)) = true;
  sy_mods : mods_ok (ch_moderation c);
  sy_hash : mod_list_make_hash alloc (ch_moderation c) = Some (ss_mod_list_hash (ch_shared_state c));
  sy_founder : mo_founder_public_sig_key (ch_moderation c) = get_sig_pk (ss_founder_public_key (ch_shared_state c));
  sy_sanctions : sanctions_inv (ch_moderation c);
  sy_setters : Forall (λ s, mod_list_verify_sig_pk (ch_moderation c) (ms_setter_public_sig_key s) = true) (sanctions (ch_moderation c));
  sy_creds : 0 < sc_version (sanctions_creds (ch_moderation c)) ∧
             mod_list_verify_sig_pk (ch_moderation c) (sc_sig_pk (sanctions_creds (ch_moderation c))) = true
}.

Lemma synced_creds c : synced c → creds_signed (sanctions (ch_moderation c)) (sanctions_creds (ch_moderation c)).
Proof. intros H. destruct (sy_sanctions c H) as (_ & _ & [Hc|[_ Hc]]); [done|]. destruct (sy_creds c H) as [Hv _]. by rewrite Hc in Hv. Qed.

Lemma shared_packet_run c : shared_wf (ch_shared_state c) → zlen (ch_shared_state_sig c) = 64 →
  shared_state_packet c = Some (ch_shared_state_sig c ++ shared_bytes (ch_shared_state c)).
Proof.
  intros Hw Hs. unfold shared_state_packet, make_gc_shared_state_packet, exact_length.
  change (GC_SHARED_STATE_ENC_PACKET_SIZE <? GC_SHARED_STATE_ENC_PACKET_SIZE) with false. cbv iota.
  rewrite pack_shared_run by (done || (change (192 <= 192); lia)). cbn [mbind option_bind]. rewrite zlen_shared_bytes by done.
  change (negb (192 =? _)) with false. cbv iota. cbn [mbind option_bind]. rewrite zlen_app, Hs, zlen_shared_bytes by done. done.
Qed.

Lemma sanctions_packet_run c : Forall sanction_wf (sanctions (ch_moderation c)) → creds_wf (sanctions_creds (ch_moderation c)) →
  num_sanctions (ch_moderation c) <= MOD_MAX_NUM_SANCTIONS →
  sanctions_list_packet true c = Some (net_pack_u16 (zlen (sanctions (ch_moderation c))) ++
    concat (map sanction_bytes (sanctions (ch_moderation c))) ++ sanctions_creds_pack (sanctions_creds (ch_moderation c))).
Proof.
  intros Hl Hc Hn. unfold sanctions_list_packet, make_gc_sanctions_list_packet. cbn [negb]. unfold num_sanctions in *.
  change MOD_MAX_NUM_SANCTIONS with 30 in Hn. pose proof (zlen_nonneg (sanctions (ch_moderation c))). unfold_gsizes.
  rewrite u16_small by lia. replace (_ <? 2) with false by lia. rewrite pack_all by (done || lia). done.
Qed.

(** The checks look at the moderators only. *)
Lemma verify_same m m' k : mod_list m = mod_list m' → mo_founder_public_sig_key m = mo_founder_public_sig_key m' →
  mod_list_verify_sig_pk m k = mod_list_verify_sig_pk m' k.
Proof. intros E1 E2. unfold mod_list_verify_sig_pk. by rewrite E1, E2. Qed.

Lemma integrity_run m l cr : Forall sanction_signed l → creds_signed l cr →
  Forall (λ s, mod_list_verify_sig_pk m (ms_setter_public_sig_key s) = true) l → mod_list_verify_sig_pk m (sc_sig_pk cr) = true →
  sc_version (sanctions_creds m) <= sc_version cr → sanctions_list_check_integrity alloc m cr l = true.
Proof using alloc_ok.
  intros Hl Hc Hs Hk Hv. unfold sanctions_list_check_integrity.
  assert (forallb (sanctions_list_validate_entry m) l = true) as ->.
  { apply forallb_forall. intros s Hin%list_elem_of_In. rewrite list.Forall_forall in Hl, Hs.
    pose proof (Hl s Hin) as H. apply validate_entry_iff; [apply H|]. split; [by apply Hs|done]. }
  cbn [negb]. apply creds_validate_iff; [done|by apply signed_wf|apply Hc|]. split_and!; [done|done|]. by left.
Qed.

(** C26: A member that joins catches up: it takes over the shared state, the
    moderators, the sanctions and their credentials from the three packets a
    member that is up to date answers a request with, and gives every confirmed
    peer the role that member gives it.  The joining member has no state of its own
    yet and is not the founder, what it recorded of its peers does not conflict with
    the state it gets, and allocations succeed. *)
Theorem joining_member_catches_up (a b : GC_Chat) (create : bool) (i : nat) (c0 : Mod_Sanction_Creds) :
  synced a → ch_chat_public_key b = ch_chat_public_key a →
  ss_version (ch_shared_state b) = 0 → sanctions (ch_moderation b) = [] → sc_version (sanctions_creds (ch_moderation b)) = 0 →
  self_gc_is_founder b = false → no_conflict a (ch_group b) →
  ∃ p1 p2 p3, shared_state_packet a = Some p1 ∧ mod_list_packet true a = Some p2 ∧ sanctions_list_packet true a = Some p3 ∧
    let b1 := (handle_gc_shared_state create i p1 (zlen p1) b).2 in
    let b2 := (handle_gc_mod_list alloc p2 (zlen p2) b1).2 in
    let b3 := (handle_gc_sanctions_list alloc true c0 p3 (zlen p3) b2).2 in
    ch_shared_state b3 = ch_shared_state a ∧ ch_shared_state_sig b3 = ch_shared_state_sig a ∧
    mod_list (ch_moderation b3) = mod_list (ch_moderation a) ∧ sanctions (ch_moderation b3) = sanctions (ch_moderation a) ∧
    sanctions_creds (ch_moderation b3) = sanctions_creds (ch_moderation a) ∧ roles_of a (ch_group b3).
Proof using L alloc_ok.
  intros H Ek Ev Es Ec Ef Hno. pose proof (synced_creds a H) as Hcs. destruct H as [[Hw Hsig] Hval Hver V Hm Hh Hfk (Hn & Hl & _) Hst [Hcv Hck]].
  set (ma := ch_moderation a) in *. set (sa := ch_shared_state a) in *. pose proof (signed_wf _ Hl) as Hlw. pose proof Hcs as (Hcw & _).
  eexists _, _, _. split; [by apply shared_packet_run|]. split; [by apply mod_packet_run|]. split; [by apply sanctions_packet_run|].
  fold ma sa. cbv zeta. rewrite !zlen_app, !zlen_net_pack_u16, zlen_all_bytes, zlen_creds_pack, zlen_shared_bytes, Hsig by done.
  destruct Hm as [Hmn Hmk]. rewrite (zlen_mods _ Hmk). change (64 + 192) with 256. unfold num_mods in *.
  destruct (shared_state_run create i sa (ch_shared_state_sig a) b) as (b1 & E1 & S1); try done; [lia|by rewrite Ek|].
  rewrite E1. cbn [snd]. apply strip_fields in S1 as (G1 & M1 & SS1 & SG1 & _). unfold taken_state in *. rewrite Ev in M1. chat_fields.
  change (0 =? 0) with true in M1. cbv iota in M1. mod_fields.
  destruct (mod_list_run (mod_list ma) b1) as (b2 & E2 & S2); [done|done| | |].
  { unfold self_gc_is_founder, gc_get_self_role. rewrite G1. exact Ef. }
  { rewrite SS1. rewrite mod_hash_run in Hh by done. injection Hh as <-. done. }
  rewrite E2. cbn [snd]. set (t2 := b1 <| ch_moderation := _ |>) in S2.
  assert (no_conflict t2 (ch_group t2)) as N2.
  { apply list.Forall_forall. intros p _. unfold role_conflict, peer_is_observer, sanctions_list_is_observer, t2. chat_fields.
    rewrite M1. mod_fields. rewrite Es. cbn. by rewrite andb_false_r. }
  destruct (update_roles_run t2 N2) as (sum2 & U2). rewrite U2 in S2. apply strip_fields in S2 as (G2 & M2 & SS2 & SG2 & _).
  unfold t2 in M2, SS2, SG2. chat_fields. rewrite M1 in M2. rewrite SS1 in SS2. mod_fields.
  assert (∀ k, mod_list_verify_sig_pk (ch_moderation b2) k = mod_list_verify_sig_pk ma k) as Hvk.
  { intros k. apply verify_same; rewrite M2; mod_fields; [done|by rewrite <- Hfk]. }
  destruct (sanctions_list_run c0 (sanctions ma) (sanctions_creds ma) b2) as (b3 & E3 & S3); try done.
  { apply integrity_run; try done.
    - eapply list.Forall_impl; [exact Hst|]. intros s Hs. by rewrite Hvk.
    - by rewrite Hvk.
    - rewrite M2. mod_fields. lia. }
  { rewrite M2. mod_fields. lia. }
  replace (2 + (137 * zlen (sanctions ma) + 134)) with (2 + 137 * zlen (sanctions ma) + 134) by lia. rewrite E3. cbn [snd].
  set (t3 := b2 <| ch_moderation := _ |>) in S3.
  assert (role_state a = role_state t3) as R3.
  { unfold role_state, t3, with_list. chat_fields. rewrite M2, SS2. mod_fields. rewrite <- Hfk. done. }
  assert (no_conflict t3 (ch_group t3)) as N3.
  { assert (no_conflict a (ch_group t3)) as Na.
    { unfold t3. chat_fields. rewrite G2. apply with_roles_conflict. unfold t2. chat_fields. by rewrite G1. }
    eapply list.Forall_impl; [exact Na|]. intros p Hp. by rewrite <- (role_conflict_same a t3). }
  destruct (update_roles_run t3 N3) as (sum3 & U3). rewrite U3 in S3. apply strip_fields in S3 as (G3 & M3 & SS3 & SG3 & _).
  unfold t3 in M3, SS3, SG3. chat_fields. rewrite M3, SS3, SG3, SS2, SG2, SG1. unfold with_list. mod_fields.
  split_and!; try done; [by rewrite M2|]. rewrite G3. by apply roles_with_roles.
Qed.
End sync.

(** ** A concrete group *)

(** A user that joins the group of [demo_founder]. *)
Definition demo_newcomer : GC_Chat :=
  demo_chat 30 ((demo_keys 1).1, zeros 96) [demo_peer GR_USER 0 30; demo_peer GR_USER 1 10; demo_peer GR_USER 2 20].

(** Which takes over what [a] answers it. *)
Definition demo_catch_up (a : GC_Chat) : GC_Chat :=
  let p1 := default [] (shared_state_packet a) in
  let p2 := default [] (mod_list_packet true a) in
  let p3 := default [] (sanctions_list_packet true a) in
  let b1 := (handle_gc_shared_state (G := toy_sign) true 1 p1 (zlen p1) demo_newcomer).2 in
  let b2 := (handle_gc_mod_list (G := toy_sign) (λ _, true) p2 (zlen p2) b1).2 in
  (handle_gc_sanctions_list (G := toy_sign) (λ _, true) true empty_creds p3 (zlen p3) b2).2.

Definition demo_member : GC_Chat := demo_catch_up demo_founded.

Lemma demo_founder_inv : group_inv (G := toy_sign) demo_founder.
Proof. apply fresh_chat_inv, demo_chat_fresh. repeat constructor; apply zlen_demo_keys. Qed.

Lemma demo_founded_inv : group_inv (G := toy_sign) demo_founded.
Proof.
  refine (@op_step toy_sign toy_sign_laws demo_env (CallGroupAdd GI_PRIVATE [103; 114]) demo_founder demo_env_wf _ (conj (λ _, demo_keys_pair 1) (conj _ (conj eq_refl (λ _, eq_refl)))) demo_founder_inv).
  - unfold op_wf, is_u8, GI_PRIVATE. lia.
  - vm_compute. reflexivity.
Qed.

Lemma demo_sanctioned_inv : group_inv (G := toy_sign) demo_sanctioned.
Proof.
  refine (@op_step toy_sign toy_sign_laws demo_env (CallSetRole 1 GR_OBSERVER) demo_founded demo_env_wf Logic.I (conj (λ _, _) (conj eq_refl (λ _, eq_refl))) demo_founded_inv).
  pose proof demo_founded_keys as E. pose proof (demo_keys_pair 1) as K. rewrite <- E in K. exact K.
Qed.

Lemma demo_sanctioned_synced : synced (G := toy_sign) (λ _, true) demo_sanctioned.
Proof.
  destruct demo_sanctioned_inv as [[_ _ Hs [Hw Hz] _ _] _]. split.
  - split; [exact Hw|exact Hz].
  - vm_compute. reflexivity.
  - vm_compute. reflexivity.
  - vm_compute. reflexivity.
  - split; [vm_compute; discriminate|]. vm_compute. constructor.
  - vm_compute. reflexivity.
  - vm_compute. reflexivity.
  - exact Hs.
  - assert (forallb (λ s, mod_list_verify_sig_pk (ch_moderation demo_sanctioned) (ms_setter_public_sig_key s))
      (sanctions (ch_moderation demo_sanctioned)) = true) as E by (vm_compute; reflexivity).
    rewrite forallb_forall in E. apply list.Forall_forall. intros s Hs'. apply E. by apply list_elem_of_In.
  - vm_compute. split; reflexivity.
Qed.

Lemma joining_member_catches_up_witness :
  zlen (sanctions (ch_moderation demo_sanctioned)) = 1 ∧
  ∃ p1 p2 p3, shared_state_packet demo_sanctioned = Some p1 ∧ mod_list_packet true demo_sanctioned = Some p2 ∧
    sanctions_list_packet true demo_sanctioned = Some p3.
Proof.
  split; [vm_compute; reflexivity|].
  destruct (@joining_member_catches_up toy_sign toy_sign_laws (λ _, true) (λ _, eq_refl) demo_sanctioned demo_newcomer true 1%nat empty_creds)
    as (p1 & p2 & p3 & H1 & H2 & H3 & _).
  - exact demo_sanctioned_synced.
  - vm_compute. reflexivity.
  - vm_compute. reflexivity.
  - vm_compute. reflexivity.
  - vm_compute. reflexivity.
  - vm_compute. reflexivity.
  - unfold no_conflict. repeat constructor.
  - exists p1, p2, p3. split; [exact H1|]. split; [exact H2|exact H3].
Defined.
