(* ===== verification/GroupSanction.v ===== *)
(** * GroupSanction: a sanction reaches the members, and how it can be undone

    The packet with which a moderator imposes a sanction brings every member that
    had the same sanctions to the same list, the same credentials and the same
    roles.  The last part shows what the signature under an empty list of
    sanctions allows. *)
From S2P Require Import Prelude Util MonoTime CryptoCore Network World DhtLists GroupPacket GroupConnection GroupAnnounce.
From S2P Require Import CryptoSign GroupModeration GroupState GroupControl SanctionsSync GroupSigned GroupRuns GroupSync.

(** ** Broadcasts *)

Definition log_of (c : GC_Chat) : list (nat * Z * bytes) := gn_log (ch_net c).

(** A peer a lossless packet is queued for. *)
Definition reachable_peer (p : GC_Peer) : Prop :=
  pr_confirmed p = true ∧ handshaked (pr_gconn p) = true ∧ pending_delete (pr_gconn p) = false.

Lemma send_log i data type c x : x ∈ log_of c → x ∈ log_of (send_lossless i data type c).2.
Proof.
  intros H. unfold send_lossless. destruct (ch_group c !! i) as [p|]; [|done]. destruct (_ || _); [done|].
  unfold log_of. cbn. apply elem_of_app. by left.
Qed.

Lemma send_logged i data type c p : ch_group c !! i = Some p → reachable_peer p →
  (i, type, data) ∈ log_of (send_lossless i data type c).2.
Proof.
  intros E (_ & Hh & Hd). unfold send_lossless. rewrite E, Hh, Hd. cbn [negb orb]. unfold log_of. cbn.
  apply elem_of_app. right. by apply list_elem_of_singleton.
Qed.

Lemma send_group i data type c : ch_group (send_lossless i data type c).2 = ch_group c.
Proof. exact (f_equal ch_group (quiet_send i data type c)). Qed.

Lemma all_peers_loop g data type : ∀ l c, ch_group c = g →
  let c' := (for_each l (λ i, if pr_confirmed (default empty_peer (g !! i)) then send_lossless i data type;; mret tt else mret tt) c).2 in
  (∀ x, x ∈ log_of c → x ∈ log_of c') ∧
  (∀ i p, i ∈ l → g !! i = Some p → reachable_peer p → (i, type, data) ∈ log_of c').
Proof.
  induction l as [|j l IH]; intros c Hg; cbv zeta; cbn [for_each]; [split; [done|]; intros i p Hi; by apply elem_of_nil in Hi|].
  set (c1 := if pr_confirmed (default empty_peer (g !! j)) then (send_lossless j data type c).2 else c).
  match goal with |- context [(?m ≫= ?f) c] => assert ((m ≫= f) c = f tt c1) as -> end.
  { subst c1. destruct (pr_confirmed _); [|done]. unfold mbind, M_bind. by destruct (send_lossless j data type c). }
  assert (ch_group c1 = g) as Hg1 by (subst c1; destruct (pr_confirmed _); [by rewrite send_group|done]).
  assert (∀ x, x ∈ log_of c → x ∈ log_of c1) as Hm by (intros x Hx; subst c1; destruct (pr_confirmed _); [by apply send_log|done]).
  destruct (IH c1 Hg1) as [H1 H2]. split; [intros x Hx; by apply H1, Hm|].
  intros i p Hi Ei Hp. apply elem_of_cons in Hi as [->|Hi]; [|by eapply H2].
  apply H1. subst c1. destruct Hp as (Hc & Hp). rewrite Ei. change (default empty_peer (Some p)) with p. rewrite Hc.
  apply (send_logged _ _ _ _ p); [by rewrite Hg|done].
Qed.

Lemma all_peers_log data type c i p : ch_group c !! i = Some p → (0 < i)%nat → reachable_peer p →
  (i, type, data) ∈ log_of (send_gc_lossless_packet_all_peers data type c).2.
Proof.
  intros E Hi Hp. unfold send_gc_lossless_packet_all_peers. rewrite run_get.
  eapply (proj2 (all_peers_loop (ch_group c) data type _ c eq_refl)); [|exact E|exact Hp].
  apply elem_of_seq. apply lookup_lt_Some in E. lia.
Qed.

Lemma run_assoc {S A B C} (m : ST S A) (f : A → ST S B) (g : B → ST S C) d : ((m ≫= f) ≫= g) d = (m ≫= λ x, f x ≫= g) d.
Proof. unfold mbind, M_bind. by destruct (m d). Qed.

Lemma run_ret {S A B} (x : A) (f : A → ST S B) d : (mret x ≫= f) d = f x d.
Proof. done. Qed.
Lemma run_on_moderation {A B} (op : Moderation → A * Moderation) (f : A → GC B) c x m' : op (ch_moderation c) = (x, m') →
  (on_moderation op ≫= f) c = f x (c <| ch_moderation := m' |>).
Proof. intros E. unfold mbind, M_bind, on_moderation. by rewrite E. Qed.

(** ** Keys *)

Lemma find_observer_prefix l : ∀ i k k', slice 0 32 k = slice 0 32 k' → find_observer l i k = find_observer l i k'.
Proof.
  induction l as [|s l IH]; intros i k k' E; cbn [find_observer]; [done|]. unfold_gsizes. rewrite E.
  destruct (negb _); [by apply IH|]. destruct (bytes_eqb _ _); [done|by apply IH].
Qed.

Lemma observer_prefix m k k' : slice 0 32 k = slice 0 32 k' → sanctions_list_is_observer m k = sanctions_list_is_observer m k'.
Proof. intros E. unfold sanctions_list_is_observer. by rewrite (find_observer_prefix _ _ k k'). Qed.

Lemma peer_number_prefix c k k' b : slice 0 32 k = slice 0 32 k' → get_peer_number_of_enc_pk c k b = get_peer_number_of_enc_pk c k' b.
Proof. intros E. unfold get_peer_number_of_enc_pk. unfold_gsizes. by rewrite E. Qed.

Lemma slice_prefix (k x : bytes) : 32 <= zlen k → slice 0 32 (k ++ x) = slice 0 32 k.
Proof. intros H. unfold slice. change (Z.to_nat 0) with 0%nat. rewrite !drop_0, take_app_le; [done|]. unfold zlen in H. lia. Qed.

Lemma found_after l s : ms_type s = SA_OBSERVER → ∀ i k, ms_target_public_enc_key s = slice 0 32 k →
  ∃ j, find_observer (l ++ [s]) i k = Some j.
Proof.
  intros Ht. induction l as [|s' l IH]; intros i k Hk; cbn [app find_observer]; unfold_gsizes.
  - rewrite Ht, Hk. change (negb (SA_OBSERVER =? SA_OBSERVER)) with false. cbv iota. unfold bytes_eqb. rewrite bool_decide_true by done. by eexists.
  - destruct (negb _); [by apply IH|]. destruct (bytes_eqb _ _); [by eexists|by apply IH].
Qed.

(** Giving the peers their roles leaves the sanctions alone. *)
Lemma update_roles_fields c :
  role_state (update_gc_peer_roles c) = role_state c ∧
  sanctions_creds (ch_moderation (update_gc_peer_roles c)) = sanctions_creds (ch_moderation c) ∧
  ch_group (update_gc_peer_roles c) = with_roles c (ch_group c).
Proof. unfold update_gc_peer_roles, role_state. cbv zeta. destruct (existsb _ _ && _); split_and!; reflexivity. Qed.

(** Two members that agree on who decides and what was decided. *)
Definition agreed (a b : GC_Chat) : Prop :=
  mod_list (ch_moderation a) = mod_list (ch_moderation b) ∧
  mo_founder_public_sig_key (ch_moderation a) = mo_founder_public_sig_key (ch_moderation b) ∧
  sanctions (ch_moderation a) = sanctions (ch_moderation b) ∧
  sanctions_creds (ch_moderation a) = sanctions_creds (ch_moderation b).

Section sanction.
Context {G : SodiumSign} {L : SodiumSignLaws G}.
Variable alloc : alloc_site → bool.
Hypothesis alloc_ok : ∀ s, alloc s = true.

Definition observer_packet (k : bytes) (s : Mod_Sanction) (cr : Mod_Sanction_Creds) : bytes :=
  1 :: k ++ sanction_bytes s ++ sanctions_creds_pack cr.

(** What the moderator does when there is room for the sanction and the topic is
    not the target's. *)
Lemma set_observer_run now a j p a' :
  self_keys (ch_moderation a) → Forall sanction_signed (sanctions (ch_moderation a)) →
  get_gc_peer a j = Some p → zlen (pr_public_key p) = 64 →
  num_sanctions (ch_moderation a) < MOD_MAX_NUM_SANCTIONS →
  get_peer_number_of_sig_pk a (ti_public_sig_key (ch_topic_info a)) ≠ j →
  mod_gc_set_observer alloc true now j true a = (true, a') →
  ∃ s cr a1, sanction_signed s ∧ ms_target_public_enc_key s = slice 0 32 (pr_public_key p) ∧
    ms_setter_public_sig_key s = mo_self_public_sig_key (ch_moderation a) ∧
    mod_list_verify_sig_pk (ch_moderation a) (mo_self_public_sig_key (ch_moderation a)) = true ∧
    find_observer (sanctions (ch_moderation a)) 0 (pr_public_key p) = None ∧
    creds_signed (sanctions (ch_moderation a) ++ [s]) cr ∧ sc_version cr = u32 (sc_version (sanctions_creds (ch_moderation a)) + 1) ∧
    sc_sig_pk cr = mo_self_public_sig_key (ch_moderation a) ∧
    a1 = update_gc_peer_roles (a <| ch_moderation := with_list (ch_moderation a) (sanctions (ch_moderation a) ++ [s]) cr |>) ∧
    a' = (send_gc_lossless_packet_all_peers (GM_SET_OBSERVER :: observer_packet (pr_public_key p) s cr) GP_BROADCAST a1).2.
Proof using L alloc_ok.
  intros Hk Hs Ep Hlen Hn Ht. unfold mod_gc_set_observer. rewrite run_get, Ep. cbv zeta.
  destruct (GR_USER <=? gc_get_self_role a); [done|]. replace (MOD_MAX_NUM_SANCTIONS <=? _) with false by lia.
  match goal with |- context [and_then (mret true) ?m] => change (and_then (mret true) m) with m end.
  rewrite !run_assoc, run_get. replace (_ =? j) with false by lia. rewrite andb_false_r.
  rewrite run_ret. cbn [negb]. rewrite !run_assoc.
  destruct (make_entry_cases alloc alloc_ok (ch_moderation a) (pr_public_key p) now Hk ltac:(lia) Hs)
    as (ok & s & m' & Em & [[-> ->]|(-> & Hsg & Hst & Hse & _ & Hv & Hf & cr & -> & Hcs & Hcv & Hcp)]);
    rewrite (run_on_moderation _ _ _ _ _ Em); cbn [fst snd negb]; [by rewrite run_ret|].
  rewrite run_assoc, run_get, run_ret. chat_fields.
  pose proof Hsg as (Hsw & _). pose proof Hcs as (Hcw & _). change (sanctions_creds (with_list _ _ cr)) with cr.
  rewrite pack_all; [|by apply list.Forall_singleton|done|done]. cbn [map concat]. rewrite app_nil_r.
  rewrite zlen_app, zlen_sanction_bytes, zlen_creds_pack by done. change (_ <? 137 + 134) with false. cbv iota.
  unfold update_roles. rewrite run_modify. unfold send_gc_set_observer, send_gc_broadcast_message. cbn [negb].
  change EXT_PUBLIC_KEY_SIZE with 64. rewrite (slice_all 64) by done.
  rewrite zlen_cons, !zlen_app, zlen_sanction_bytes, zlen_creds_pack, Hlen by done. change (_ <? 64 + (137 + 134) + 1 + _) with false.
  cbv iota. set (a1 := update_gc_peer_roles _). intros E. exists s, cr, a1. split_and!; try done.
  unfold mbind, M_bind in E. by destruct (send_gc_lossless_packet_all_peers _ _ _) as [[] a2]; injection E as <-.
Qed.

Lemma observer_entry_run m k s cr :
  num_sanctions m < MOD_MAX_NUM_SANCTIONS → Forall sanction_signed (sanctions m) → sanction_signed s →
  mod_list_verify_sig_pk m (ms_setter_public_sig_key s) = true → mod_list_verify_sig_pk m (sc_sig_pk cr) = true →
  ms_target_public_enc_key s = slice 0 32 k → find_observer (sanctions m) 0 k = None →
  creds_signed (sanctions m ++ [s]) cr → sc_version (sanctions_creds m) <= sc_version cr →
  sanctions_list_entry_exists m s = false ∧
  sanctions_list_add_entry alloc m s (Some cr) = (true, with_list m (sanctions m ++ [s]) cr).
Proof using L alloc_ok.
  intros Hn Hl Hs Hv Hp Ht Hf Hc Hcv.
  assert (sanctions_list_entry_exists m s = false) as Hex.
  { unfold sanctions_list_entry_exists, sanctions_list_is_observer. rewrite Ht, (find_observer_prefix _ _ _ k), Hf; [by destruct (_ =? _)|].
    destruct Hs as ((_ & _ & _ & W & _) & _). rewrite Ht in W. apply slice_all. exact W. }
  split; [exact Hex|]. unfold sanctions_list_add_entry. replace (_ <=? num_sanctions m) with false by lia. rewrite Hex.
  replace (sanctions_list_validate_entry m s) with true by (symmetry; apply validate_entry_iff; [apply Hs|done]). cbn [negb].
  replace (if 0 <? num_sanctions m then sanctions_list_copy alloc (sanctions m) else Some []) with (Some (sanctions m)).
  2:{ unfold sanctions_list_copy. rewrite alloc_ok. destruct (0 <? num_sanctions m) eqn:E; [done|]. unfold num_sanctions, zlen in E.
      destruct (sanctions m); [done|]. cbn [length] in E. lia. }
  rewrite alloc_ok. cbn [negb]. apply apply_new_run. split; [done|]. apply creds_validate_iff; try done.
  - apply Forall_app. split; [by apply signed_wf|]. apply list.Forall_singleton. apply Hs.
  - apply Hc.
  - split; [exact Hp|]. split; [exact Hc|]. intros _. by left.
Qed.

Lemma handle_observer_run c0 b i q k s cr :
  get_gc_peer b i = Some q → pr_role q <= GR_MODERATOR → zlen k = 64 →
  get_peer_number_of_enc_pk b k false ≠ i →
  (∀ t, get_gc_peer b (get_peer_number_of_enc_pk b k false) = Some t → pr_role t = GR_USER) →
  num_sanctions (ch_moderation b) < MOD_MAX_NUM_SANCTIONS → Forall sanction_signed (sanctions (ch_moderation b)) → sanction_signed s →
  mod_list_verify_sig_pk (ch_moderation b) (ms_setter_public_sig_key s) = true →
  mod_list_verify_sig_pk (ch_moderation b) (sc_sig_pk cr) = true →
  ms_target_public_enc_key s = slice 0 32 k → find_observer (sanctions (ch_moderation b)) 0 k = None →
  creds_signed (sanctions (ch_moderation b) ++ [s]) cr → sc_version (sanctions_creds (ch_moderation b)) < sc_version cr →
  ∃ b', handle_gc_set_observer alloc c0 i (observer_packet k s cr) (zlen (observer_packet k s cr)) b = (0, b') ∧
    strip b' = strip (update_gc_peer_roles (b <| ch_moderation := with_list (ch_moderation b) (sanctions (ch_moderation b) ++ [s]) cr |>)).
Proof using L alloc_ok.
  intros Eq Hr Hk Hni Ht Hn Hl Hs Hv Hp Hts Hf Hc Hcv. pose proof Hs as (Hsw & _). pose proof Hc as (Hcw & _).
  assert (zlen (observer_packet k s cr) = 336) as Hz.
  { unfold observer_packet. rewrite zlen_cons, !zlen_app, zlen_sanction_bytes, zlen_creds_pack, Hk by done. done. }
  rewrite Hz. unfold handle_gc_set_observer, observer_packet. change (336 <=? _) with false. cbv iota.
  rewrite run_get, Eq. replace (GR_MODERATOR <? pr_role q) with false by lia. cbv zeta.
  change (net_unpack_bool (1 :: _)) with true. change (drop 1 (1 :: ?x)) with x.
  rewrite (peer_number_prefix b (k ++ _) k) by (apply slice_prefix; lia).
  set (t := get_peer_number_of_enc_pk b k false) in *. replace (t =? i) with false by lia. rewrite andb_false_r.
  replace (match get_gc_peer b t with Some p => _ | None => false end) with false.
  2:{ destruct (get_gc_peer b t) as [t'|]; [|done]. by rewrite (Ht t' eq_refl). }
  change (Z.to_nat (1 + EXT_PUBLIC_KEY_SIZE)) with (S 64). cbn [drop].
  rewrite drop_app_length' by (unfold zlen in Hk; lia). change (336 - 1 - EXT_PUBLIC_KEY_SIZE) with 271.
  assert (validate_unpack_observer_entry alloc c0 (sanction_bytes s ++ sanctions_creds_pack cr) 271
    (k ++ sanction_bytes s ++ sanctions_creds_pack cr) true b =
    (0, b <| ch_moderation := with_list (ch_moderation b) (sanctions (ch_moderation b) ++ [s]) cr |>)) as Ev.
  { unfold validate_unpack_observer_entry. rewrite run_get. cbv zeta.
    pose proof (unpack_pack c0 [s] cr ltac:(by apply list.Forall_singleton) Hcw ltac:(done)) as Hu.
    cbn [map concat] in Hu. rewrite app_nil_r in Hu. change (137 * zlen [s] + 134) with 271 in Hu. change (zlen [s]) with 1 in Hu.
    rewrite Hu. replace (sc_version cr =? _) with false by lia. cbn [andb].
    destruct (observer_entry_run (ch_moderation b) k s cr) as [Hex Ha]; try done; [lia|]. rewrite Hex.
    by rewrite (run_on_moderation _ _ _ _ _ Ha). }
  run Ev. change (0 =? -1) with false. change (0 =? 1) with false. cbv iota. unfold update_roles. rewrite run_modify.
  destruct (get_gc_peer b t) as [t'|]; [|by eexists]. by eexists.
Qed.

(** C27: A sanction reaches the members: when a moderator makes an observer of a
    peer (there is room for the sanction and the topic is not that peer's), one
    packet goes to every confirmed peer it has a connection with; a member that
    held the same moderators, sanctions and credentials, takes the sender for a
    moderator and the target (if it knows it) for a user, then holds the same
    sanctions and credentials as the moderator, the target is an observer, and
    every peer has the role that follows from the new list. *)
Theorem sanction_reaches_members (a a' b : GC_Chat) (now j i : Z) (p q : GC_Peer) (c0 : Mod_Sanction_Creds) :
  self_keys (ch_moderation a) → Forall sanction_signed (sanctions (ch_moderation a)) →
  get_gc_peer a j = Some p → zlen (pr_public_key p) = 64 →
  num_sanctions (ch_moderation a) < MOD_MAX_NUM_SANCTIONS → 0 <= sc_version (sanctions_creds (ch_moderation a)) < UINT32_MAX →
  get_peer_number_of_sig_pk a (ti_public_sig_key (ch_topic_info a)) ≠ j →
  mod_gc_set_observer alloc true now j true a = (true, a') →
  agreed a b → get_gc_peer b i = Some q → pr_role q <= GR_MODERATOR →
  get_peer_number_of_enc_pk b (pr_public_key p) false ≠ i →
  (∀ t, get_gc_peer b (get_peer_number_of_enc_pk b (pr_public_key p) false) = Some t → pr_role t = GR_USER) →
  ∃ packet, (∀ n peer, ch_group a !! n = Some peer → (0 < n)%nat → reachable_peer peer →
               (n, GP_BROADCAST, GM_SET_OBSERVER :: packet) ∈ log_of a') ∧
    let '(r, b') := handle_gc_set_observer alloc c0 i packet (zlen packet) b in
    r = 0 ∧ agreed a' b' ∧ zlen (sanctions (ch_moderation b')) = zlen (sanctions (ch_moderation b)) + 1 ∧
    sanctions_list_is_observer (ch_moderation b') (pr_public_key p) = true ∧ roles_of b' (ch_group b').
Proof using L alloc_ok.
  intros Hk Hl Ep Hlen Hn Hv Ht Ea (A1 & A2 & A3 & A4) Eq Hq Hni Htr.
  destruct (set_observer_run now a j p a' Hk Hl Ep Hlen Hn Ht Ea) as (s & cr & a1 & Hs & Hst & Hse & Hm & Hf & Hc & Hcv & Hcp & -> & ->).
  set (a1 := update_gc_peer_roles _). exists (observer_packet (pr_public_key p) s cr).
  pose proof (quiet_send_all (GM_SET_OBSERVER :: observer_packet (pr_public_key p) s cr) GP_BROADCAST a1) as Hquiet.
  split.
  { intros n peer En Hpos Hr. apply (all_peers_log _ _ _ _ (if pr_confirmed peer then peer <| pr_role := role_of
        (a <| ch_moderation := with_list (ch_moderation a) (sanctions (ch_moderation a) ++ [s]) cr |>) peer |> else peer)); [|done|].
    - destruct (update_roles_fields (a <| ch_moderation := with_list (ch_moderation a) (sanctions (ch_moderation a) ++ [s]) cr |>))
        as (_ & _ & Hg). fold a1 in Hg. rewrite Hg. unfold with_roles. rewrite list_lookup_fmap. chat_fields. by rewrite En.
    - by destruct (pr_confirmed peer). }
  rewrite u32_small in Hcv by (change UINT32_MAX with 4294967295 in Hv; lia).
  destruct (handle_observer_run c0 b i q (pr_public_key p) s cr) as (b' & Eb & Sb); try done; try (by rewrite <- A3).
  { unfold num_sanctions. by rewrite <- A3. }
  { rewrite Hse. by rewrite <- (verify_same _ _ _ A1 A2). }
  { rewrite Hcp. by rewrite <- (verify_same _ _ _ A1 A2). }
  { rewrite <- A4. lia. }
  rewrite Eb. set (b0 := b <| ch_moderation := _ |>) in Sb. set (a0 := a <| ch_moderation := _ |>) in a1.
  destruct (update_roles_fields b0) as (Rb & Cb & Gb). destruct (update_roles_fields a0) as (Ra & Ca & _). fold a1 in Ra, Ca.
  apply strip_fields in Sb as (G1 & M1 & S1 & _). apply strip_fields in Hquiet as (G2 & M2 & S2 & _).
  assert (role_state b' = role_state b0) as Rb' by (unfold role_state in *; rewrite M1, S1; exact Rb).
  assert (sanctions (ch_moderation b') = sanctions (ch_moderation b) ++ [s]) as Hsb by (by injection Rb').
  split; [done|]. split; [|split; [by rewrite Hsb, zlen_app|split]].
  - unfold agreed. rewrite M2. unfold role_state in Rb', Ra. injection Rb' as B1 B2 B3 B4. injection Ra as R1 R2 R3 R4.
    rewrite R1, R2, R3, B1, B2, B3, Ca, M1, Cb. unfold b0, a0, with_list. chat_fields. mod_fields. by rewrite A1, A2, A3.
  - unfold sanctions_list_is_observer. rewrite Hsb.
    destruct (found_after (sanctions (ch_moderation b)) s) with (i := 0) (k := pr_public_key p) as [x ->]; [apply Hs|done|done].
  - rewrite G1, Gb. by apply roles_with_roles.
Qed.

(** ** The signature under an empty list *)

Lemma creds_any_version cr v : is_u32 v → creds_signed [] cr → creds_signed [] (cr <| sc_version := v |>).
Proof. intros Hv ((W1 & W2) & H). split; [|exact H]. split; [exact Hv|exact W2]. Qed.

(** The credentials of an empty list of sanctions are good for every version:
    whoever has seen some that the founder or a moderator signed (the founder
    signs such when the group is created) can change the version in them, and any
    member that gets the packet, from any peer, drops all its sanctions and takes
    nobody for an observer any more. *)
Theorem empty_sanctions_replay (c : GC_Chat) (cr c0 : Mod_Sanction_Creds) (v : Z) :
  creds_signed [] cr → mod_list_verify_sig_pk (ch_moderation c) (sc_sig_pk cr) = true →
  sc_version (sanctions_creds (ch_moderation c)) < v → is_u32 v →
  let packet := net_pack_u16 0 ++ sanctions_creds_pack (cr <| sc_version := v |>) in
  let '(r, c') := handle_gc_sanctions_list alloc true c0 packet (zlen packet) c in
  r = 0 ∧ sanctions (ch_moderation c') = [] ∧ sanctions_creds (ch_moderation c') = cr <| sc_version := v |> ∧
  Forall (λ p, pr_confirmed p = true → pr_role p ≠ GR_OBSERVER) (ch_group c').
Proof using L alloc_ok.
  intros Hc Hk Hv Hu packet. pose proof (creds_any_version cr v Hu Hc) as Hc'. pose proof Hc' as (Hw & _).
  destruct (sanctions_list_run alloc c0 [] (cr <| sc_version := v |>) c) as (c' & E & S); try done.
  { apply integrity_run; try done. mod_fields. lia. }
  assert (zlen packet = 136) as -> by (unfold packet; rewrite zlen_app, zlen_net_pack_u16, zlen_creds_pack by done; done).
  change (zlen []) with 0 in E. cbn [map concat app] in E. change (2 + 137 * 0 + 134) with 136 in E. unfold packet. rewrite E.
  set (c1 := c <| ch_moderation := _ |>) in S. destruct (update_roles_fields c1) as (R & C & Hg).
  apply strip_fields in S as (G1 & M1 & _). split; [done|]. rewrite M1. split; [by injection R|]. split; [by rewrite C|].
  rewrite G1, Hg. apply list.Forall_forall. intros p Hp. unfold with_roles in Hp. apply list_elem_of_fmap in Hp as (p0 & -> & _).
  destruct (pr_confirmed p0) eqn:Ep; [|congruence]. intros _. chat_fields. unfold role_of.
  destruct (peer_is_founder c1 p0); [done|].
  change (peer_is_observer c1 p0) with false. rewrite orb_false_r. by destruct (peer_is_moderator c1 p0).
Qed.
End sanction.

(** ** The concrete group of [GroupSync] *)

Lemma empty_sanctions_replay_witness :
  (** what the founder signed when it founded the group undoes the sanction it imposed later *)
  let cr := sanctions_creds (ch_moderation demo_founded) in
  let packet := net_pack_u16 0 ++ sanctions_creds_pack (cr <| sc_version := 1000 |>) in
  zlen (sanctions (ch_moderation demo_sanctioned)) = 1 ∧
  let '(r, c') := handle_gc_sanctions_list (G := toy_sign) (λ _, true) true empty_creds packet (zlen packet) demo_sanctioned in
  r = 0 ∧ sanctions (ch_moderation c') = [] ∧ sanctions_creds (ch_moderation c') = cr <| sc_version := 1000 |> ∧
  Forall (λ p, pr_confirmed p = true → pr_role p ≠ GR_OBSERVER) (ch_group c').
Proof.
  cbv zeta. split; [vm_compute; reflexivity|].
  apply (@empty_sanctions_replay toy_sign toy_sign_laws (λ _, true) (λ _, eq_refl) demo_sanctioned
    (sanctions_creds (ch_moderation demo_founded)) empty_creds 1000).
  - destruct demo_founded_inv as [[_ _ (_ & _ & [H|[_ H]]) _ _ _] _].
    + assert (sanctions (ch_moderation demo_founded) = []) as E by (vm_compute; reflexivity). rewrite E in H. exact H.
    + assert (sc_version (sanctions_creds (ch_moderation demo_founded)) = 1) as E by (vm_compute; reflexivity). by rewrite H in E.
  - vm_compute. reflexivity.
  - vm_compute. reflexivity.
  - unfold is_u32. lia.
Defined.

Lemma pair_fst {A B} (x : A * B) a : x.1 = a → x = (a, x.2).
Proof. intros <-. by destruct x. Qed.

Definition demo_observed : GC_Chat := (mod_gc_set_observer (G := toy_sign) (λ _, true) true 1700000000 1 true demo_founded).2.

Lemma demo_observed_run : mod_gc_set_observer (G := toy_sign) (λ _, true) true 1700000000 1 true demo_founded = (true, demo_observed).
Proof.
  assert ((mod_gc_set_observer (G := toy_sign) (λ _, true) true 1700000000 1 true demo_founded).1 = true) as E by (vm_compute; reflexivity).
  exact (pair_fst _ _ E).
Qed.

Lemma sanction_reaches_members_witness :
  mod_gc_set_observer (G := toy_sign) (λ _, true) true 1700000000 1 true demo_founded = (true, demo_observed) ∧
  ∃ packet, let '(r, b') := handle_gc_set_observer (G := toy_sign) (λ _, true) empty_creds 1 packet (zlen packet) demo_member in
    r = 0 ∧ sanctions_list_is_observer (ch_moderation b') (demo_keys 20).1 = true ∧ roles_of b' (ch_group b').
Proof.
  split; [exact demo_observed_run|].
  destruct (@sanction_reaches_members toy_sign toy_sign_laws (λ _, true) (λ _, eq_refl) demo_founded demo_observed demo_member 1700000000 1 1
    (default empty_peer (ch_group demo_founded !! 1%nat)) (default empty_peer (ch_group demo_member !! 1%nat)) empty_creds) as (packet & _ & H).
  - destruct demo_founded_inv as [K _]. exact (@rest_self_keys toy_sign toy_sign_laws _ K).
  - destruct demo_founded_inv as [[_ _ (_ & Hs & _) _ _ _] _]. exact Hs.
  - vm_compute. reflexivity.
  - vm_compute. reflexivity.
  - vm_compute. reflexivity.
  - vm_compute. split; [discriminate|reflexivity].
  - vm_compute. discriminate.
  - exact demo_observed_run.
  - vm_compute. split_and!; reflexivity.
  - vm_compute. reflexivity.
  - vm_compute. discriminate.
  - vm_compute. discriminate.
  - vm_compute. intros t [= <-]. reflexivity.
  - exists packet. destruct (handle_gc_set_observer _ _ _ _ _ _) as [r b']. destruct H as (H1 & _ & _ & H2 & H3).
    split; [exact H1|]. split; [exact H2|exact H3].
Defined.
