(* ===== verification/TcpCommon.v ===== *)
(** * TcpCommon: packets on a TCP stream, [toxcore/TCP_common.c]

    Clients and relays talk in packets over a TCP connection.  A packet is sent
    as a frame: two bytes of length, then the packet encrypted under the next
    nonce.  The socket may take a part of a frame only; the rest waits in
    [last_packet], or in a queue when the packet has priority. *)
From S2P Require Import Prelude Util CryptoCore Network.

Definition MAX_PACKET_SIZE : Z := 2048.

(** ** Sockets *)

(** A connected TCP socket with the bytes it took, the bytes that have arrived
    and were not read, and its answers to calls of [send]. *)
Record Tcp_Socket := mkTcpSocket {
  so_sent : bytes;
  so_recv : bytes;
  so_calls : nat;
  so_answer : nat → Z
}.

#[export] Instance eta_Tcp_Socket : Eta Tcp_Socket := λ s, mkTcpSocket (so_sent s) (so_recv s) (so_calls s) (so_answer s).

(** [send] takes as many bytes as it says, and never more than it was given. *)
Definition net_send (s : Tcp_Socket) (data : bytes) : Z * Tcp_Socket :=
  let res := Z.min (so_answer s (so_calls s)) (zlen data) in
  (res, s <| so_calls := S (so_calls s) |> <| so_sent := so_sent s ++ take (Z.to_nat res) data |>).

Definition net_socket_data_recv_buffer (s : Tcp_Socket) : Z := max_s32 0 (min_s32 (zlen (so_recv s)) UINT16_MAX).

(** [recv] on bytes that have arrived. *)
Definition net_recv (s : Tcp_Socket) (len : Z) : Z * bytes * Tcp_Socket :=
  let data := slice 0 len (so_recv s) in
  (zlen data, data, s <| so_recv := drop (length data) (so_recv s) |>).

(** ** Connections *)

Record TCP_Priority_List := mkPriority {
  pl_size : Z;
  pl_sent : Z;
  pl_data : bytes
}.

(** [tc_ns] says whether the pointers [ns] and [rng], which are set together, are
    set (they are null in a slot that was zeroed); [tc_priority_queue] is the list
    from [priority_queue_start] to [priority_queue_end].  [ip_port] is only used
    in log messages. *)
Record TCP_Connection := mkTCPConnection {
  tc_ns : bool;
  tc_sock : Tcp_Socket;
  tc_sent_nonce : bytes;
  tc_shared_key : bytes;
  tc_last_packet : bytes;
  tc_last_packet_length : Z;
  tc_last_packet_sent : Z;
  tc_priority_queue : list TCP_Priority_List
}.

#[export] Instance eta_TCP_Priority_List : Eta TCP_Priority_List := λ p, mkPriority (pl_size p) (pl_sent p) (pl_data p).
#[export] Instance eta_TCP_Connection : Eta TCP_Connection := λ c,
  mkTCPConnection (tc_ns c) (tc_sock c) (tc_sent_nonce c) (tc_shared_key c) (tc_last_packet c) (tc_last_packet_length c)
    (tc_last_packet_sent c) (tc_priority_queue c).

Ltac tcp_fields := cbn [set_field so_sent so_recv so_calls so_answer pl_size pl_sent pl_data tc_ns tc_sock tc_sent_nonce tc_shared_key
  tc_last_packet tc_last_packet_length tc_last_packet_sent tc_priority_queue fst snd] in *.

Definition send_pending_data_nonpriority (con : TCP_Connection) : Z * TCP_Connection :=
  if tc_last_packet_length con =? 0 then (0, con)
  else
    let left := u16 (tc_last_packet_length con - tc_last_packet_sent con) in
    let '(len, sock) := net_send (tc_sock con) (slice (tc_last_packet_sent con) left (tc_last_packet con)) in
    let con := con <| tc_sock := sock |> in
    if len <=? 0 then (-1, con)
    else if len =? left then (0, con <| tc_last_packet_length := 0 |> <| tc_last_packet_sent := 0 |>)
    else (-1, con <| tc_last_packet_sent := u16 (tc_last_packet_sent con + len) |>).

(** The loop over the queue: what is left of it. *)
Fixpoint send_queue (queue : list TCP_Priority_List) (sock : Tcp_Socket) : list TCP_Priority_List * Tcp_Socket :=
  match queue with
  | [] => ([], sock)
  | p :: rest =>
      let left := u16 (pl_size p - pl_sent p) in
      let '(len, sock) := net_send sock (slice (pl_sent p) left (pl_data p)) in
      if negb (len =? left) then
        ((if 0 <? len then p <| pl_sent := u16 (pl_sent p + len) |> else p) :: rest, sock)
      else send_queue rest sock
  end.

Definition send_pending_data (con : TCP_Connection) : Z * TCP_Connection :=
  let '(ret, con) := send_pending_data_nonpriority con in
  if ret =? -1 then (-1, con)
  else
    let '(queue, sock) := send_queue (tc_priority_queue con) (tc_sock con) in
    let con := con <| tc_sock := sock |> <| tc_priority_queue := queue |> in
    (match queue with [] => 0 | _ => -1 end, con).

Definition add_priority (alloc : bool) (con : TCP_Connection) (packet : bytes) (size sent : Z) : bool * TCP_Connection :=
  if negb alloc then (false, con)
  else (true, con <| tc_priority_queue := tc_priority_queue con ++ [mkPriority size sent (slice 0 size packet)] |>).

(** [memcpy] into the array [last_packet]. *)
Definition copy_last_packet (packet : bytes) (con : TCP_Connection) : bytes :=
  packet ++ drop (length packet) (tc_last_packet con).

(** The end of [write_packet_TCP_secure_connection] for a packet with priority;
    [alloc] is whether the memory for an entry of the queue is there. *)
Definition write_priority (alloc : bool) (con : TCP_Connection) (packet : bytes) (size : Z) (sendpriority : bool) : Z * TCP_Connection :=
  let '(len, sock) := if sendpriority then net_send (tc_sock con) packet else (0, tc_sock con) in
  let len := if len <=? 0 then 0 else len in
  let con := con <| tc_sock := sock |> <| tc_sent_nonce := increment_nonce (tc_sent_nonce con) |> in
  if len =? size then (1, con)
  else
    let '(ok, con) := add_priority alloc con packet size len in
    (if ok then 1 else 0, con).

(** And for a packet without. *)
Definition write_nonpriority (con : TCP_Connection) (packet : bytes) (size : Z) : Z * TCP_Connection :=
  let '(len, sock) := net_send (tc_sock con) packet in
  let con := con <| tc_sock := sock |> in
  if len <=? 0 then (0, con)
  else
    let con := con <| tc_sent_nonce := increment_nonce (tc_sent_nonce con) |> in
    if len =? size then (1, con)
    else
      (1, con <| tc_last_packet := copy_last_packet packet con |> <| tc_last_packet_length := size |>
              <| tc_last_packet_sent := len |>).

Section tcp.
Context {S : Sodium}.

(** [alloc_enc] is the memory [encrypt_data_symmetric] uses. *)
Definition write_packet_TCP_secure_connection (alloc alloc_enc : bool) (con : TCP_Connection) (data : bytes) (length : Z)
    (priority : bool) : Z * TCP_Connection :=
  if MAX_PACKET_SIZE <? length + CRYPTO_MAC_SIZE then (-1, con)
  else
    let '(pending, con) := send_pending_data con in
    if (pending =? -1) && negb priority then (0, con)
    else
      let sendpriority := negb (pending =? -1) in
      let '(len, encrypted) := encrypt_data_symmetric alloc_enc (tc_shared_key con) (tc_sent_nonce con) data length in
      let packet := net_pack_u16 (length + CRYPTO_MAC_SIZE) ++ encrypted in
      let size := 2 + length + CRYPTO_MAC_SIZE in
      if negb (len =? size - 2) then (-1, con)
      else if priority then write_priority alloc con packet size sendpriority
      else write_nonpriority con packet size.

(** ** Reading *)

(** [None] stands for -1. *)
Definition read_TCP_packet (sock : Tcp_Socket) (length : Z) : option bytes * Tcp_Socket :=
  let count := net_socket_data_recv_buffer sock in
  if count <? length then (None, sock)
  else
    let '(len, data, sock) := net_recv sock length in
    if negb (len =? length) then (None, sock) else (Some data, sock).

Definition read_TCP_length (sock : Tcp_Socket) : Z * Tcp_Socket :=
  let count := net_socket_data_recv_buffer sock in
  if 2 <=? count then
    let '(len, length_buf, sock) := net_recv sock 2 in
    if negb (len =? 2) then (0, sock)
    else
      let length := net_unpack_u16 length_buf in
      if MAX_PACKET_SIZE <? length then (u16 (-1), sock) else (length, sock)
  else (0, sock).

(** What a reader of the stream keeps: its socket, [next_packet_length] and
    [recv_nonce]. *)
Record Tcp_Reader := mkReader {
  rd_sock : Tcp_Socket;
  rd_next_packet_length : Z;
  rd_recv_nonce : bytes
}.

#[export] Instance eta_Tcp_Reader : Eta Tcp_Reader := λ r, mkReader (rd_sock r) (rd_next_packet_length r) (rd_recv_nonce r).

(** From the point on where the length is known. *)
Definition read_frame (alloc_dec : bool) (shared_key : bytes) (max_len : Z) (r : Tcp_Reader) : Z * bytes * Tcp_Reader :=
  if max_len + CRYPTO_MAC_SIZE <? rd_next_packet_length r then (-1, [], r)
  else
    let '(read, sock) := read_TCP_packet (rd_sock r) (rd_next_packet_length r) in
    let r := r <| rd_sock := sock |> in
    match read with
    | None => (0, [], r)
    | Some data_encrypted =>
        let len_packet := rd_next_packet_length r in
        let r := r <| rd_next_packet_length := 0 |> in
        let '(len, data) := decrypt_data_symmetric alloc_dec shared_key (rd_recv_nonce r) data_encrypted len_packet in
        if negb (len + CRYPTO_MAC_SIZE =? len_packet) then (-1, [], r)
        else (len, data, r <| rd_recv_nonce := increment_nonce (rd_recv_nonce r) |>)
    end.

Definition read_packet_TCP_secure_connection (alloc_dec : bool) (shared_key : bytes) (max_len : Z) (r : Tcp_Reader) :
    Z * bytes * Tcp_Reader :=
  if rd_next_packet_length r =? 0 then
    let '(len, sock) := read_TCP_length (rd_sock r) in
    let r := r <| rd_sock := sock |> in
    if len =? u16 (-1) then (-1, [], r)
    else if len =? 0 then (0, [], r)
    else read_frame alloc_dec shared_key max_len (r <| rd_next_packet_length := len |>)
  else read_frame alloc_dec shared_key max_len r.
End tcp.
