(* ===== verification/TcpStream.v ===== *)
(** * TcpStream: a TCP connection delivers packets in order

    A writer and a reader of [TcpCommon] at the two ends of a byte stream.  The
    socket takes as much as it likes of every frame, and the bytes arrive in
    pieces of any size. *)
From S2P Require Import Prelude Util CryptoCore Network TcpCommon.

(** ** What is on the way *)

Definition pl_rest (p : TCP_Priority_List) : bytes := drop (Z.to_nat (pl_sent p)) (pl_data p).

(** The bytes the socket has not taken yet, in their order. *)
Definition pending (con : TCP_Connection) : bytes :=
  (if tc_last_packet_length con =? 0 then []
   else slice (tc_last_packet_sent con) (tc_last_packet_length con - tc_last_packet_sent con) (tc_last_packet con)) ++
  concat (map pl_rest (tc_priority_queue con)).

Definition stream (con : TCP_Connection) : bytes := so_sent (tc_sock con) ++ pending con.

Definition entry_wf (p : TCP_Priority_List) : Prop := pl_size p = zlen (pl_data p) ∧ 0 <= pl_sent p < pl_size p ∧ pl_size p < 65536.

Definition writer_wf (con : TCP_Connection) : Prop :=
  zlen (tc_last_packet con) = 2050 ∧
  (tc_last_packet_length con = 0 ∨ 0 <= tc_last_packet_sent con < tc_last_packet_length con ∧ tc_last_packet_length con <= 2050) ∧
  Forall entry_wf (tc_priority_queue con).

(** The same keys, the same stream. *)
Definition same_stream (con con' : TCP_Connection) : Prop :=
  tc_sent_nonce con' = tc_sent_nonce con ∧ tc_shared_key con' = tc_shared_key con ∧ stream con' = stream con.

Lemma net_send_run s data : ∃ len s', net_send s data = (len, s') ∧ len <= zlen data ∧ so_sent s' = so_sent s ++ take (Z.to_nat len) data.
Proof. eexists _, _. split; [reflexivity|]. tcp_fields. split; [lia|done]. Qed.

Lemma slice_take_drop off n k (p : bytes) : 0 <= off → 0 <= k <= n →
  take (Z.to_nat k) (slice off n p) ++ slice (off + k) (n - k) p = slice off n p.
Proof.
  intros H1 H2. assert (take (Z.to_nat k) (slice off n p) = slice off k p) as ->.
  { unfold slice. rewrite take_take. f_equal. lia. }
  rewrite <- slice_split by lia. f_equal. lia.
Qed.

Lemma nonpriority_spec con r con' : writer_wf con → send_pending_data_nonpriority con = (r, con') →
  writer_wf con' ∧ same_stream con con' ∧ tc_priority_queue con' = tc_priority_queue con ∧
  (r = 0 ∧ tc_last_packet_length con' = 0 ∨ r = -1).
Proof.
  intros (Hz & Hl & Hq). unfold send_pending_data_nonpriority, same_stream, stream, pending.
  destruct (tc_last_packet_length con =? 0) eqn:E0.
  { intros [= <- <-]. rewrite E0. split_and!; try done. left. split; [done|lia]. }
  destruct Hl as [Hl|[Hs Hl]]; [lia|]. rewrite u16_small by lia.
  set (left := tc_last_packet_length con - tc_last_packet_sent con).
  destruct (net_send_run (tc_sock con) (slice (tc_last_packet_sent con) left (tc_last_packet con))) as (len & s' & -> & Hlen & Hsent).
  assert (zlen (slice (tc_last_packet_sent con) left (tc_last_packet con)) = left) as Hzl by (apply length_slice; lia).
  destruct (len <=? 0) eqn:E1; [|destruct (len =? left) eqn:E2]; intros [= <- <-]; unfold writer_wf; tcp_fields; rewrite Hsent.
  - rewrite E0. replace (Z.to_nat len) with 0%nat by lia. rewrite take_0, app_nil_r. split_and!; try done; [by right|by right].
  - rewrite take_ge by (unfold zlen in *; lia). rewrite <- app_assoc. split_and!; try done; by left.
  - rewrite E0, u16_small by lia. rewrite <- app_assoc. split_and!; try done; [right; lia| |by right].
    f_equal. rewrite app_assoc. f_equal.
    replace (tc_last_packet_length con - (tc_last_packet_sent con + len)) with (left - len) by lia. apply slice_take_drop; lia.
Qed.

Lemma queue_spec q : ∀ s q' s', Forall entry_wf q → send_queue q s = (q', s') →
  Forall entry_wf q' ∧ so_sent s' ++ concat (map pl_rest q') = so_sent s ++ concat (map pl_rest q).
Proof.
  induction q as [|p q IH]; intros s q' s' Hq; cbn [send_queue]; [by intros [= <- <-]|].
  apply list.Forall_cons in Hq as [(Hsz & Hs & Hb) Hq]. rewrite u16_small by lia. set (left := pl_size p - pl_sent p).
  assert (slice (pl_sent p) left (pl_data p) = pl_rest p) as Er.
  { unfold slice, pl_rest. apply take_ge. rewrite length_drop. unfold zlen in *. lia. }
  rewrite Er. assert (zlen (pl_rest p) = left) as Hzl by (unfold pl_rest, zlen in *; rewrite length_drop; lia).
  destruct (net_send_run s (pl_rest p)) as (len & s1 & -> & Hlen & Hsent).
  destruct (len =? left) eqn:E; cbn [negb].
  - intros E'. apply IH in E' as [H1 H2]; [|done]. split; [done|]. rewrite H2, Hsent. cbn [map concat].
    rewrite take_ge by (unfold zlen in *; lia). by rewrite app_assoc.
  - intros [= <- <-]. destruct (0 <? len) eqn:E0; cbn [map concat]; rewrite Hsent.
    + split.
      * apply list.Forall_cons. split; [|done]. unfold entry_wf. tcp_fields. rewrite u16_small; lia.
      * rewrite <- app_assoc. f_equal. rewrite app_assoc. f_equal. unfold pl_rest. tcp_fields. rewrite u16_small by lia.
        replace (Z.to_nat (pl_sent p + len)) with (Z.to_nat (pl_sent p) + Z.to_nat len)%nat by lia.
        rewrite <- drop_drop. apply take_drop.
    + replace (Z.to_nat len) with 0%nat by lia. rewrite take_0, app_nil_r. split; [|done]. by apply list.Forall_cons.
Qed.

Lemma pending_spec con r con' : writer_wf con → send_pending_data con = (r, con') →
  writer_wf con' ∧ same_stream con con' ∧ (r = 0 ∧ pending con' = [] ∧ tc_last_packet_length con' = 0 ∧ tc_priority_queue con' = [] ∨ r = -1).
Proof.
  intros Hw. unfold send_pending_data. destruct (send_pending_data_nonpriority con) as [r1 c1] eqn:E1.
  apply nonpriority_spec in E1 as ((Hz & Hl & Hq) & (Hn & Hk & Hs) & Eq & Hr); [|done].
  destruct (r1 =? -1) eqn:Er1; [intros [= <- <-]; split_and!; try done; by right|].
  destruct Hr as [[-> Hl0]|]; [|lia]. destruct (send_queue _ _) as [q' s'] eqn:E2. apply queue_spec in E2 as [H1 H2]; [|done].
  intros [= <- <-]. split; [|split].
  - split_and!; tcp_fields; done.
  - unfold same_stream in *. tcp_fields. split_and!; try done. rewrite <- Hs. unfold stream, pending. tcp_fields. rewrite Hl0. exact H2.
  - destruct q'; [left|by right]. unfold pending. tcp_fields. by rewrite Hl0.
Qed.

(** ** Frames *)

Section stream.
Context {S : Sodium} {L : SodiumLaws S}.

Definition frame_of (k n d : bytes) : bytes := net_pack_u16 (zlen d + 16) ++ (encrypt_data_symmetric true k n d (zlen d)).2.

Fixpoint frames (k n : bytes) (ds : list bytes) : bytes :=
  match ds with
  | [] => []
  | d :: ds' => frame_of k n d ++ frames k (increment_nonce n) ds'
  end.

Definition nonce_after (n : bytes) (m : nat) : bytes := Nat.iter m increment_nonce n.

Lemma nonce_after_S n m : nonce_after (increment_nonce n) m = nonce_after n (1 + m).
Proof.
  induction m as [|m IH]; [done|]. change (increment_nonce (nonce_after (increment_nonce n) m) = increment_nonce (nonce_after n (1 + m))).
  by rewrite IH.
Qed.

Lemma frames_app k ds es : ∀ n, frames k n (ds ++ es) = frames k n ds ++ frames k (nonce_after n (length ds)) es.
Proof.
  induction ds as [|d ds IH]; intros n; cbn [frames app length]; [done|]. rewrite IH, nonce_after_S. by rewrite app_assoc.
Qed.

(** A packet that can be written. *)
Definition packet_good (d : bytes) : Prop := 0 < zlen d <= 2032.

Lemma zlen_frame k n d : packet_good d → zlen (frame_of k n d) = zlen d + 18.
Proof using L.
  intros Hd. unfold frame_of, packet_good in *. destruct (encrypt_ok k n d (zlen d)) as (c & E & Hc & _); [done|lia|]. rewrite E. cbn [snd].
  rewrite zlen_app, Hc. change (zlen (net_pack_u16 _)) with 2. lia.
Qed.

End stream.

(** ** Writing *)

Definition writes (con con' : TCP_Connection) (packet : bytes) (r : Z) : Prop :=
  writer_wf con' ∧ tc_shared_key con' = tc_shared_key con ∧
  (r = 1 ∧ tc_sent_nonce con' = increment_nonce (tc_sent_nonce con) ∧ stream con' = stream con ++ packet ∨
   r ≠ 1 ∧ tc_sent_nonce con' = tc_sent_nonce con ∧ stream con' = stream con).

Ltac same_pending c := match goal with |- context [pending ?x] => change (pending x) with (pending c) end.

Lemma write_priority_spec con packet now r con' : writer_wf con → 0 < zlen packet < 65536 → now = false ∨ pending con = [] →
  write_priority true con packet (zlen packet) now = (r, con') → r = 1 ∧ writes con con' packet r.
Proof.
  intros (W1 & W2 & W3) Hz Hp. unfold write_priority. destruct (if now then _ else _) as [len sock] eqn:E5.
  assert (∃ n : Z, (if len <=? 0 then 0 else len) = n ∧ 0 <= n <= zlen packet ∧ so_sent sock = so_sent (tc_sock con) ++ take (Z.to_nat n) packet ∧
    (n = 0 ∨ pending con = [])) as (n & -> & Hn & Hsock & Hpe).
  { destruct now.
    - destruct Hp as [|Hp]; [done|]. destruct (net_send_run (tc_sock con) packet) as (l & s' & E6 & Hl & Hs).
      rewrite E5 in E6. injection E6 as -> ->. eexists. split; [done|]. split; [destruct (l <=? 0) eqn:?; lia|].
      split; [|by right]. rewrite Hs. do 2 f_equal. destruct (l <=? 0) eqn:?; lia.
    - injection E5 as <- <-. exists 0. split; [done|]. split; [lia|]. split; [by rewrite app_nil_r|by left]. }
  destruct (n =? zlen packet) eqn:E6.
  - intros [= <- <-]. split; [done|]. split; [by split_and!|]. split; [done|]. left. split; [done|]. split; [done|].
    destruct Hpe as [->|Hpe]; [lia|]. unfold stream. tcp_fields. same_pending con. rewrite Hpe, !app_nil_r, Hsock.
    rewrite take_ge by (unfold zlen in *; lia). done.
  - unfold add_priority. cbn [negb]. intros [= <- <-]. rewrite (slice_all _ packet) by lia. split; [done|]. split.
    { split_and!; tcp_fields; try done. apply Forall_app. split; [done|]. apply list.Forall_singleton. unfold entry_wf. tcp_fields. lia. }
    split; [done|]. left. split; [done|]. split; [done|]. unfold stream, pending. tcp_fields. rewrite Hsock.
    rewrite map_app, concat_app. cbn [map concat]. rewrite app_nil_r. unfold pl_rest at 2. tcp_fields.
    destruct Hpe as [->|Hpe].
    + change (Z.to_nat 0) with 0%nat. by rewrite take_0, drop_0, app_nil_r, <- !app_assoc.
    + unfold pending in Hpe. apply app_eq_nil in Hpe as [Hp1 Hp2]. rewrite Hp1, Hp2. cbn [app]. rewrite app_nil_r, <- app_assoc. by rewrite take_drop.
Qed.

Lemma write_nonpriority_spec con packet r con' : writer_wf con → 0 < zlen packet <= 2050 →
  tc_last_packet_length con = 0 → tc_priority_queue con = [] →
  write_nonpriority con packet (zlen packet) = (r, con') → writes con con' packet r.
Proof.
  intros (W1 & W2 & W3) Hz Hl0 Hq0. unfold write_nonpriority.
  assert (pending con = []) as Hp by (unfold pending; by rewrite Hl0, Hq0).
  destruct (net_send_run (tc_sock con) packet) as (l & s' & -> & Hl & Hs).
  destruct (l <=? 0) eqn:E6; [|destruct (l =? zlen packet) eqn:E7]; intros [= <- <-].
  - split; [by split_and!|]. split; [done|]. right. split; [done|]. split; [done|]. unfold stream.
    tcp_fields. same_pending con. rewrite Hs. replace (Z.to_nat l) with 0%nat by lia. by rewrite take_0, app_nil_r.
  - split; [by split_and!|]. split; [done|]. left. split; [done|]. split; [done|]. unfold stream.
    tcp_fields. same_pending con. rewrite Hp, !app_nil_r, Hs. rewrite take_ge by (unfold zlen in *; lia). done.
  - assert (zlen (copy_last_packet packet (con <| tc_sock := s' |> <| tc_sent_nonce := increment_nonce (tc_sent_nonce con) |>)) = 2050) as Hcl.
    { unfold copy_last_packet. tcp_fields. rewrite zlen_app. unfold zlen in *. rewrite length_drop. lia. }
    split. { split_and!; tcp_fields; [exact Hcl| |done]. right. lia. }
    split; [done|]. left. split; [done|]. split; [done|].
    change (stream con) with (so_sent (tc_sock con) ++ pending con). rewrite Hp, app_nil_r. unfold stream, pending. tcp_fields.
    replace (zlen packet =? 0) with false by lia. rewrite Hq0. cbn [map concat]. rewrite app_nil_r, Hs, <- app_assoc. f_equal.
    unfold copy_last_packet. tcp_fields. unfold slice. rewrite drop_app_le by (unfold zlen in *; lia).
    rewrite take_app_le by (rewrite length_drop; unfold zlen in *; lia). rewrite (take_ge (drop _ _)) by (rewrite length_drop; unfold zlen in *; lia).
    apply take_drop.
Qed.

Section write.
Context {S : Sodium} {L : SodiumLaws S}.

(** Writing a packet appends its frame to the stream, or nothing. *)
Lemma write_spec enc con d prio r con' : writer_wf con →
  write_packet_TCP_secure_connection true enc con d (zlen d) prio = (r, con') →
  writes con con' (frame_of (tc_shared_key con) (tc_sent_nonce con) d) r ∧ (r = 1 → packet_good d).
Proof using L.
  intros Hw. unfold write_packet_TCP_secure_connection. change CRYPTO_MAC_SIZE with 16. change MAX_PACKET_SIZE with 2048.
  pose proof (zlen_nonneg d) as Hd0.
  destruct (2048 <? zlen d + 16) eqn:E0; [intros [= <- <-]; split; [|done]; split_and!; try done; by right|].
  destruct (send_pending_data con) as [p c1] eqn:E1. apply pending_spec in E1 as (Hw1 & (Hn1 & Hk1 & Hs1) & Hp); [|done].
  unfold writes. rewrite <- Hk1, <- Hn1, <- Hs1.
  destruct ((p =? -1) && negb prio) eqn:E2; [intros [= <- <-]; split; [|done]; split_and!; try done; by right|].
  destruct (encrypt_data_symmetric enc _ _ _ _) as [len c] eqn:E3.
  destruct (negb (len =? _)) eqn:E4; [intros [= <- <-]; split; [|done]; split_and!; try done; right; split_and!; done|].
  apply negb_false_iff, Z.eqb_eq in E4.
  assert (0 < zlen d ∧ enc = true) as [Hd ->].
  { unfold encrypt_data_symmetric in E3. destruct (zlen d =? 0) eqn:Ez; [injection E3 as <- _; lia|]. destruct enc; [split; [lia|done]|]. injection E3 as <- _. lia. }
  pose proof (zlen_frame (tc_shared_key c1) (tc_sent_nonce c1) d) as Hz. unfold packet_good in *. specialize (Hz ltac:(lia)).
  assert (net_pack_u16 (zlen d + 16) ++ c = frame_of (tc_shared_key c1) (tc_sent_nonce c1) d) as -> by (unfold frame_of; by rewrite E3).
  replace (2 + zlen d + 16) with (zlen (frame_of (tc_shared_key c1) (tc_sent_nonce c1) d)) by lia. intros E. split; [|lia].
  destruct prio.
  - apply write_priority_spec in E as [_ H]; [exact H|done|lia|]. destruct (p =? -1) eqn:Ep; [by left|]. right. destruct Hp as [(_ & Hp & _)|]; [done|lia].
  - destruct Hp as [(-> & _ & Hl0 & Hq0)|Hp]; [|by rewrite Hp in E2]. apply write_nonpriority_spec in E; [exact E|done|lia|done|done].
Qed.
End write.

(** ** Reading *)

Ltac rd_fields := cbn [set_field rd_sock rd_next_packet_length rd_recv_nonce] in *; tcp_fields.

(** The bytes of the current frame that have been read, and those that arrived. *)
Definition unread (r : Tcp_Reader) : bytes :=
  (if rd_next_packet_length r =? 0 then [] else net_pack_u16 (rd_next_packet_length r)) ++ so_recv (rd_sock r).

Lemma recv_run s n : 0 <= n <= 2048 →
  (n <= zlen (so_recv s) ∧ read_TCP_packet s n = (Some (slice 0 n (so_recv s)), s <| so_recv := drop (Z.to_nat n) (so_recv s) |>)) ∨
  (zlen (so_recv s) < n ∧ read_TCP_packet s n = (None, s)).
Proof.
  intros Hn. unfold read_TCP_packet, net_socket_data_recv_buffer, net_recv, max_s32, min_s32. change UINT16_MAX with 65535.
  pose proof (zlen_nonneg (so_recv s)). destruct (Z.lt_ge_cases (zlen (so_recv s)) n); [right|left]; (split; [done|]).
  - replace (_ <? n) with true; [done|]. destruct (_ <? 65535) eqn:?; destruct (_ <? 0) eqn:?; lia.
  - replace (_ <? n) with false by (destruct (_ <? 65535) eqn:?; destruct (_ <? 0) eqn:?; lia).
    pose proof (length_slice 0 n (so_recv s) ltac:(lia) ltac:(lia) ltac:(lia)) as Hl. rewrite Hl, Z.eqb_refl. cbn [negb].
    do 2 f_equal. f_equal. unfold zlen in Hl. lia.
Qed.

Lemma length_run s (n : Z) rest : 0 < n <= 2048 → so_recv s = net_pack_u16 n ++ rest →
  read_TCP_length s = (n, s <| so_recv := rest |>).
Proof.
  intros Hn E. unfold read_TCP_length, net_socket_data_recv_buffer, net_recv, max_s32, min_s32. change UINT16_MAX with 65535. rewrite E.
  pose proof (zlen_nonneg rest). rewrite zlen_app. change (zlen (net_pack_u16 n)) with 2.
  replace (2 <=? _) with true by (destruct (_ <? 65535) eqn:?; destruct (_ <? 0) eqn:?; lia).
  rewrite slice_app_l by done. change (zlen (net_pack_u16 n)) with 2. cbn [negb Z.eqb Pos.eqb].
  assert (net_unpack_u16 (net_pack_u16 n) = n) as -> by (rewrite <- (app_nil_r (net_pack_u16 n)); apply net_unpack_pack_u16; unfold is_u16; lia).
  change MAX_PACKET_SIZE with 2048. by replace (2048 <? n) with false by lia.
Qed.

Lemma length_short s : zlen (so_recv s) < 2 → read_TCP_length s = (0, s).
Proof.
  intros H. pose proof (zlen_nonneg (so_recv s)). unfold read_TCP_length, net_socket_data_recv_buffer, max_s32, min_s32. change UINT16_MAX with 65535.
  replace (2 <=? _) with false; [done|]. destruct (_ <? 65535) eqn:?; destruct (_ <? 0) eqn:?; lia.
Qed.

Section read.
Context {S : Sodium} {L : SodiumLaws S}.

Definition read_waits (r r' : Tcp_Reader) : Prop := unread r' = unread r ∧ rd_recv_nonce r' = rd_recv_nonce r.

Lemma read_frame_spec k d r future rest : packet_good d → rd_next_packet_length r = zlen d + 16 →
  so_recv (rd_sock r) ++ future = (encrypt_data_symmetric true k (rd_recv_nonce r) d (zlen d)).2 ++ rest →
  (zlen (so_recv (rd_sock r)) < zlen d + 16 ∧ read_frame true k 2048 r = (0, [], r)) ∨
  (zlen d + 16 <= zlen (so_recv (rd_sock r)) ∧ ∃ r', read_frame true k 2048 r = (zlen d, d, r') ∧ rd_next_packet_length r' = 0 ∧
    rd_recv_nonce r' = increment_nonce (rd_recv_nonce r) ∧ so_recv (rd_sock r') ++ future = rest).
Proof using L.
  intros Hd Hn E. unfold packet_good in Hd. unfold read_frame. rewrite Hn. change CRYPTO_MAC_SIZE with 16.
  replace (_ <? _) with false by lia.
  destruct (encrypt_ok k (rd_recv_nonce r) d (zlen d)) as (c & Ec & Hc & Edec); [done|lia|]. rewrite Ec in E. cbn [snd] in E.
  destruct (recv_run (rd_sock r) (zlen d + 16) ltac:(lia)) as [[Hlen ->]|[Hlen ->]]; [right|left]; (split; [done|]); [|by destruct r].
  assert (slice 0 (zlen d + 16) (so_recv (rd_sock r)) = c) as ->.
  { rewrite <- (slice_app_l (zlen d + 16) c rest), <- E by done. unfold slice. change (Z.to_nat 0) with 0%nat. rewrite !drop_0.
    rewrite take_app_le; [done|]. unfold zlen in *. lia. }
  rd_fields. rewrite ?Hn, Edec. replace (zlen d + 16 =? zlen d + 16) with true by lia. cbn [negb].
  eexists. split; [reflexivity|]. rd_fields. split_and!; try done.
  rewrite <- (drop_app_le _ future) by (unfold zlen in *; lia). rewrite E. apply drop_app_length'. unfold zlen in *. lia.
Qed.

(** A reader whose bytes are the beginning of a stream of frames takes the next
    packet when all of its frame is there, and waits otherwise. *)
Lemma read_spec k ds r future : Forall packet_good ds → 0 <= rd_next_packet_length r <= 2048 →
  unread r ++ future = frames k (rd_recv_nonce r) ds →
  (∃ r', read_packet_TCP_secure_connection true k 2048 r = (0, [], r') ∧ read_waits r r' ∧ 0 <= rd_next_packet_length r' <= 2048 ∧
    match ds with [] => True | d :: _ => zlen (unread r) < zlen d + 18 end) ∨
  (∃ d ds' r', ds = d :: ds' ∧ read_packet_TCP_secure_connection true k 2048 r = (zlen d, d, r') ∧ rd_next_packet_length r' = 0 ∧
    rd_recv_nonce r' = increment_nonce (rd_recv_nonce r) ∧ unread r' ++ future = frames k (rd_recv_nonce r') ds').
Proof using L.
  intros Hds H0 E. unfold read_packet_TCP_secure_connection.
  destruct ds as [|d ds].
  { left. cbn [frames] in E. apply app_eq_nil in E as [E _]. unfold unread in *. apply app_eq_nil in E as [E1 E2].
    destruct (rd_next_packet_length r =? 0) eqn:En; [|done]. rewrite length_short by (by rewrite E2).
    eexists. split; [reflexivity|]. unfold read_waits, unread. rd_fields. rewrite En, E2. done. }
  apply list.Forall_cons in Hds as [Hd Hds]. cbn [frames] in E. unfold frame_of in E. rewrite <- !app_assoc in E. unfold unread in E.
  destruct (rd_next_packet_length r =? 0) eqn:En.
  - cbn [app] in E. destruct (Z.lt_ge_cases (zlen (so_recv (rd_sock r))) 2) as [Hs|Hs].
    { left. rewrite length_short by done. eexists. split; [reflexivity|]. unfold read_waits, unread. rd_fields. rewrite En. cbn [app].
      unfold packet_good in Hd. split; [done|]. lia. }
    assert (so_recv (rd_sock r) = net_pack_u16 (zlen d + 16) ++ drop 2 (so_recv (rd_sock r))) as Er.
    { rewrite <- (take_drop 2 (so_recv (rd_sock r))) at 1. f_equal. rewrite <- (take_app_le _ future) by (unfold zlen in *; lia). by rewrite E. }
    rewrite (length_run _ (zlen d + 16) _ ltac:(unfold packet_good in Hd; lia) Er). rd_fields.
    change (u16 (-1)) with 65535. unfold packet_good in Hd.
    replace (_ =? 65535) with false by lia. replace (_ =? 0) with false by lia.
    set (r1 := mkReader _ _ _). destruct (read_frame_spec k d r1 future (frames k (increment_nonce (rd_recv_nonce r)) ds)) as [[Hl Ef]|[Hl (r' & Ef & H1 & H2 & H3)]].
    + done. + done.
    + subst r1. rd_fields. rewrite Er, <- app_assoc in E. by apply app_inv_head in E.
    + left. rewrite Ef. exists r1. subst r1. unfold read_waits, unread. rd_fields. rewrite En. cbn [app]. replace (_ =? 0) with false by lia.
      split; [done|]. rewrite <- Er. split; [done|]. split; [lia|]. rewrite Er, zlen_app. change (zlen (net_pack_u16 _)) with 2. lia.
    + right. exists d, ds, r'. split; [done|]. split; [done|]. split; [done|]. split; [done|]. unfold unread. rewrite H1, H2. exact H3.
  - unfold packet_good in Hd. assert (rd_next_packet_length r = zlen d + 16 ∧ so_recv (rd_sock r) ++ future =
      (encrypt_data_symmetric true k (rd_recv_nonce r) d (zlen d)).2 ++ frames k (increment_nonce (rd_recv_nonce r)) ds) as [Hn Er].
    { rewrite <- app_assoc in E. apply app_inj_1 in E as [E1 E2]; [|done]. split; [|done].
      apply (f_equal net_unpack_u16) in E1. rewrite <- (app_nil_r (net_pack_u16 (rd_next_packet_length r))) in E1.
      rewrite <- (app_nil_r (net_pack_u16 (zlen d + 16))) in E1. rewrite !net_unpack_pack_u16 in E1 by (unfold is_u16; lia). exact E1. }
    destruct (read_frame_spec k d r future (frames k (increment_nonce (rd_recv_nonce r)) ds)) as [[Hl Ef]|[Hl (r' & Ef & H1 & H2 & H3)]]; try done.
    + left. exists r. split; [done|]. split; [done|]. split; [done|]. unfold unread. rewrite En, zlen_app. change (zlen (net_pack_u16 _)) with 2. lia.
    + right. exists d, ds, r'. split; [done|]. split; [done|]. split; [done|]. split; [done|]. unfold unread. rewrite H1, H2. exact H3.
Qed.
End read.

(** ** Both ends of a connection *)

(** [lk_moved] bytes of what the writer's socket took have arrived; [lk_written]
    are the packets whose writing returned 1, [lk_read] those that were read, and
    [lk_failed] says that reading returned -1. *)
Record Link := mkLink {
  lk_writer : TCP_Connection;
  lk_reader : Tcp_Reader;
  lk_moved : nat;
  lk_written : list bytes;
  lk_read : list bytes;
  lk_failed : bool
}.

#[export] Instance eta_Link : Eta Link := λ l,
  mkLink (lk_writer l) (lk_reader l) (lk_moved l) (lk_written l) (lk_read l) (lk_failed l).

Inductive Link_Op :=
  | LWrite (entry enc : bool) (data : bytes) (priority : bool) (** a call of the writer *)
  | LFlush                                                     (** [send_pending_data] *)
  | LMove (n : nat)                                            (** up to [n] more bytes arrive *)
  | LRead (dec : bool).                                        (** a call of the reader *)

(** [entry], [enc] and [dec] are the outcomes of the allocations for an entry of
    the priority queue, for the encryption and for the decryption.  What is
    written with priority finds memory for its entry, and what is read memory to
    be decrypted in; the encryption may fail. *)
Definition memory_for (op : Link_Op) : bool :=
  match op with
  | LWrite entry _ _ priority => entry || negb priority
  | LRead dec => dec
  | _ => true
  end.

Section link.
Context {S : Sodium} {L : SodiumLaws S}.
Variable key : bytes.

Definition link_step (l : Link) (op : Link_Op) : Link :=
  match op with
  | LWrite entry enc d prio =>
      let '(r, con) := write_packet_TCP_secure_connection entry enc (lk_writer l) d (zlen d) prio in
      let l := l <| lk_writer := con |> in
      if r =? 1 then l <| lk_written := lk_written l ++ [d] |> else l
  | LFlush => l <| lk_writer := (send_pending_data (lk_writer l)).2 |>
  | LMove n =>
      let arriving := take n (drop (lk_moved l) (so_sent (tc_sock (lk_writer l)))) in
      let sock := rd_sock (lk_reader l) in
      l <| lk_moved := (lk_moved l + length arriving)%nat |>
        <| lk_reader := (lk_reader l) <| rd_sock := sock <| so_recv := so_recv sock ++ arriving |> |> |>
  | LRead dec =>
      let '(len, d, r) := read_packet_TCP_secure_connection dec key MAX_PACKET_SIZE (lk_reader l) in
      let l := l <| lk_reader := r |> in
      if len =? -1 then l <| lk_failed := true |>
      else if len =? 0 then l
      else l <| lk_read := lk_read l ++ [d] |>
  end.

Definition link_run (l : Link) (ops : list Link_Op) : Link := fold_left link_step ops l.

(** A connection after the handshake: the nonce of the writer is the one the
    reader expects. *)
Definition fresh_link (l : Link) (n : bytes) : Prop :=
  writer_wf (lk_writer l) ∧ tc_shared_key (lk_writer l) = key ∧ tc_sent_nonce (lk_writer l) = n ∧ rd_recv_nonce (lk_reader l) = n ∧
  stream (lk_writer l) = [] ∧ so_recv (rd_sock (lk_reader l)) = [] ∧ rd_next_packet_length (lk_reader l) = 0 ∧
  lk_moved l = 0%nat ∧ lk_written l = [] ∧ lk_read l = [] ∧ lk_failed l = false.

Definition link_inv (n : bytes) (l : Link) : Prop :=
  writer_wf (lk_writer l) ∧ tc_shared_key (lk_writer l) = key ∧ Forall packet_good (lk_written l) ∧
  tc_sent_nonce (lk_writer l) = nonce_after n (length (lk_written l)) ∧
  stream (lk_writer l) = frames key n (lk_written l) ∧
  rd_recv_nonce (lk_reader l) = nonce_after n (length (lk_read l)) ∧ 0 <= rd_next_packet_length (lk_reader l) <= 2048 ∧
  (lk_moved l <= length (so_sent (tc_sock (lk_writer l))))%nat ∧
  frames key n (lk_read l) ++ unread (lk_reader l) = take (lk_moved l) (so_sent (tc_sock (lk_writer l))) ∧
  (∃ rest, lk_written l = lk_read l ++ rest) ∧ lk_failed l = false.

Lemma fresh_link_inv n l : fresh_link l n → link_inv n l.
Proof.
  intros (H1 & H2 & H3 & H4 & H5 & H6 & H7 & H8 & H9 & H10 & H11). unfold link_inv, unread.
  rewrite H2, H3, H4, H5, H6, H7, H8, H9, H10. split_and!; try done; try lia. by exists [].
Qed.

(** What the socket took is the beginning of the stream. *)
Lemma moved_stream con m : (m <= length (so_sent (tc_sock con)))%nat → ∃ rest, stream con = take m (so_sent (tc_sock con)) ++ rest.
Proof.
  intros H. exists (drop m (so_sent (tc_sock con)) ++ pending con). unfold stream. by rewrite app_assoc, take_drop.
Qed.

(** The socket of the writer keeps what it took. *)
Lemma sent_grows_send s data : so_sent s `prefix_of` so_sent (net_send s data).2.
Proof. unfold net_send. tcp_fields. by eexists. Qed.

Lemma sent_grows_queue q : ∀ s, so_sent s `prefix_of` so_sent (send_queue q s).2.
Proof.
  induction q as [|p q IH]; intros s; cbn [send_queue]; [done|]. pose proof (sent_grows_send s (slice (pl_sent p) (u16 (pl_size p - pl_sent p)) (pl_data p))) as H.
  destruct (net_send s _) as [len s1]. cbn [snd] in H. destruct (negb _); [done|]. etrans; [exact H|apply IH].
Qed.

Definition sent_of (c : TCP_Connection) : bytes := so_sent (tc_sock c).

Lemma sent_grows_pending c : sent_of c `prefix_of` sent_of (send_pending_data c).2.
Proof.
  unfold send_pending_data, sent_of. assert (so_sent (tc_sock c) `prefix_of` so_sent (tc_sock (send_pending_data_nonpriority c).2)) as H.
  { unfold send_pending_data_nonpriority. destruct (_ =? 0); [done|].
    pose proof (sent_grows_send (tc_sock c) (slice (tc_last_packet_sent c) (u16 (tc_last_packet_length c - tc_last_packet_sent c)) (tc_last_packet c))) as H.
    destruct (net_send _ _) as [len s]. destruct (_ <=? 0); [done|]. destruct (_ =? _); done. }
  destruct (send_pending_data_nonpriority c) as [r c1]. destruct (r =? -1); [done|].
  pose proof (sent_grows_queue (tc_priority_queue c1) (tc_sock c1)) as H1. destruct (send_queue _ _) as [q s]. tcp_fields. by etrans.
Qed.

Lemma sent_grows_write alloc enc c d n prio :
  sent_of c `prefix_of` sent_of (write_packet_TCP_secure_connection alloc enc c d n prio).2.
Proof.
  unfold write_packet_TCP_secure_connection. destruct (_ <? _); [done|]. pose proof (sent_grows_pending c) as H.
  destruct (send_pending_data c) as [p c1]. cbn [snd] in H. destruct (_ && _); [done|].
  destruct (encrypt_data_symmetric _ _ _ _ _) as [len e]. destruct (negb _); [done|].
  set (packet := net_pack_u16 _ ++ e). pose proof (sent_grows_send (tc_sock c1) packet) as H1. unfold sent_of in *. destruct prio.
  - unfold write_priority. destruct (negb _).
    + destruct (net_send _ _) as [l s]. unfold add_priority. destruct (_ =? _), alloc; tcp_fields; by etrans.
    + unfold add_priority. destruct (_ =? _), alloc; tcp_fields; done.
  - unfold write_nonpriority. destruct (net_send _ _) as [l s]. destruct (_ <=? 0); [|destruct (_ =? _)]; tcp_fields; by etrans.
Qed.

Lemma take_prefix (m : nat) (a b : bytes) : a `prefix_of` b → (m <= length a)%nat → take m b = take m a.
Proof. intros [x ->] H. by rewrite take_app_le. Qed.

(** What the writer does leaves the reader and what arrived alone. *)
Lemma writer_step n l con written : link_inv n l → writer_wf con → tc_shared_key con = key → Forall packet_good written →
  tc_sent_nonce con = nonce_after n (length written) → stream con = frames key n written →
  sent_of (lk_writer l) `prefix_of` sent_of con → (∃ more, written = lk_written l ++ more) →
  link_inv n (l <| lk_writer := con |> <| lk_written := written |>).
Proof.
  intros (H1 & H2 & H3 & H4 & H5 & H6 & H7 & H8 & H9 & [rest H10] & H11) W1 W2 W3 W4 W5 W6 [more ->].
  unfold link_inv. cbn [set_field lk_writer lk_reader lk_moved lk_written lk_read lk_failed].
  pose proof (prefix_length _ _ W6) as Hl. unfold sent_of in *. rewrite (take_prefix _ _ _ W6 H8).
  split_and!; try done; try lia. exists (rest ++ more). by rewrite H10, app_assoc.
Qed.

(** Only a packet with priority needs an entry in the queue. *)
Lemma write_entry entry enc c d n :
  write_packet_TCP_secure_connection entry enc c d n false = write_packet_TCP_secure_connection true enc c d n false.
Proof using. done. Qed.

Lemma step_write n l entry enc d prio : memory_for (LWrite entry enc d prio) = true → link_inv n l →
  link_inv n (link_step l (LWrite entry enc d prio)).
Proof using L.
  intros Hm H. cbn [link_step]. assert (write_packet_TCP_secure_connection entry enc (lk_writer l) d (zlen d) prio =
    write_packet_TCP_secure_connection true enc (lk_writer l) d (zlen d) prio) as ->.
  { destruct entry; [done|]. destruct prio; [done|]. apply write_entry. }
  pose proof (sent_grows_write true enc (lk_writer l) d (zlen d) prio) as Hg.
  destruct (write_packet_TCP_secure_connection _ _ _ _ _ _) as [r con] eqn:E. cbn [snd] in Hg.
  pose proof H as (H1 & H2 & H3 & H4 & H5 & _). apply write_spec in E as [(W1 & W2 & W3) W4]; [|done].
  destruct W3 as [(-> & Wn & Ws)|(Hr & Wn & Ws)].
  - change (1 =? 1) with true. cbv iota. apply (writer_step n l con (lk_written l ++ [d])); try done.
    + by rewrite W2.
    + apply Forall_app. split; [done|]. apply list.Forall_singleton. by apply W4.
    + rewrite Wn, H4, length_app, Nat.add_comm. done.
    + rewrite Ws, H5, H4, H2, frames_app. cbn [frames]. by rewrite app_nil_r.
    + by eexists.
  - replace (r =? 1) with false by lia. replace (l <| lk_writer := con |>) with (l <| lk_writer := con |> <| lk_written := lk_written l |>) by (by destruct l).
    apply writer_step; try done; [by rewrite W2|by rewrite Wn|by rewrite Ws|]. exists []. by rewrite app_nil_r.
Qed.

Lemma step_flush n l : link_inv n l → link_inv n (link_step l LFlush).
Proof.
  intros H. cbn [link_step]. pose proof (sent_grows_pending (lk_writer l)) as Hg. pose proof H as (H1 & H2 & H3 & H4 & H5 & _).
  destruct (send_pending_data (lk_writer l)) as [r con] eqn:E. cbn [snd] in *. apply pending_spec in E as (W1 & (W2 & W3 & W4) & _); [|done].
  replace (l <| lk_writer := con |>) with (l <| lk_writer := con |> <| lk_written := lk_written l |>) by (by destruct l).
  apply writer_step; try done; [by rewrite W3|by rewrite W2|by rewrite W4|]. exists []. by rewrite app_nil_r.
Qed.

Lemma step_move n l k : link_inv n l → link_inv n (link_step l (LMove k)).
Proof.
  intros (H1 & H2 & H3 & H4 & H5 & H6 & H7 & H8 & H9 & H10 & H11). cbn [link_step]. set (arriving := take k _).
  assert (length arriving <= length (so_sent (tc_sock (lk_writer l))) - lk_moved l)%nat as Ha.
  { unfold arriving. rewrite length_take, length_drop. lia. }
  unfold link_inv. cbn [set_field lk_writer lk_reader lk_moved lk_written lk_read lk_failed]. rd_fields. split_and!; try done; try lia.
  assert (take (lk_moved l + length arriving) (so_sent (tc_sock (lk_writer l))) =
    take (lk_moved l) (so_sent (tc_sock (lk_writer l))) ++ arriving) as ->.
  { rewrite <- (take_drop (lk_moved l) (so_sent (tc_sock (lk_writer l)))) at 1. rewrite take_app_ge by (rewrite length_take; lia). f_equal.
    rewrite length_take. replace (_ - _)%nat with (length arriving) by lia. unfold arriving. rewrite length_take.
    destruct (Nat.le_gt_cases k (length (drop (lk_moved l) (so_sent (tc_sock (lk_writer l)))))).
    - f_equal. lia.
    - rewrite !take_ge; [done|lia|lia]. }
  rewrite <- H9. unfold unread. rd_fields. by rewrite <- !app_assoc.
Qed.

(** What the reader finds, when the packets [rest] are left. *)
Lemma unread_stream n l rest : link_inv n l → lk_written l = lk_read l ++ rest →
  ∃ future, unread (lk_reader l) ++ future = frames key (rd_recv_nonce (lk_reader l)) rest.
Proof.
  intros (H1 & H2 & H3 & H4 & H5 & H6 & H7 & H8 & H9 & H10 & H11) E. destruct (moved_stream (lk_writer l) _ H8) as [x Hx].
  rewrite H5, E, frames_app, <- H9, <- app_assoc in Hx. apply app_inv_head in Hx. exists x. by rewrite H6.
Qed.

Lemma step_read n l : link_inv n l → link_inv n (link_step l (LRead true)) ∧
  (∀ d rest, lk_written l = lk_read l ++ d :: rest → zlen d + 18 <= zlen (unread (lk_reader l)) → lk_read (link_step l (LRead true)) = lk_read l ++ [d]).
Proof using L.
  intros H. pose proof H as (H1 & H2 & H3 & H4 & H5 & H6 & H7 & H8 & H9 & [rest H10] & H11).
  destruct (unread_stream n l rest H H10) as [future Hf]. cbn [link_step]. change MAX_PACKET_SIZE with 2048.
  assert (Forall packet_good rest) as Hg by (rewrite H10 in H3; by apply Forall_app in H3 as [_ ?]).
  destruct (read_spec key rest (lk_reader l) future Hg H7 Hf) as [(r' & -> & [Hu Hn] & H0 & Hs)|(d & rest' & r' & -> & -> & H0 & Hn & Hu)].
  - cbn [Z.eqb]. split.
    + unfold link_inv. cbn [set_field lk_writer lk_reader lk_moved lk_written lk_read lk_failed]. rewrite Hu, Hn.
      do 6 (split; [done|]). split; [exact H0|]. do 2 (split; [done|]). split; [by exists rest|done].
    + intros d rest' E. rewrite H10 in E. apply app_inv_head in E as ->. lia.
  - apply list.Forall_cons in Hg as [Hd Hg]. unfold packet_good in Hd. replace (zlen d =? -1) with false by lia. replace (zlen d =? 0) with false by lia. split.
    + unfold link_inv. cbn [set_field lk_writer lk_reader lk_moved lk_written lk_read lk_failed].
      do 5 (split; [done|]). split; [rewrite Hn, H6, length_app, Nat.add_comm; done|]. split; [lia|]. split; [done|].
      split; [|split; [exists rest'; by rewrite <- app_assoc|done]].
      rewrite <- H9, frames_app, <- H6, <- app_assoc. f_equal. cbn [frames]. rewrite app_nil_r.
      cbn [frames] in Hf. rewrite <- Hn, <- Hu, app_assoc in Hf. by apply app_inv_tail in Hf.
    + intros d' rest'' E _. rewrite H10 in E. apply app_inv_head in E as [= <- <-]. done.
Qed.

Lemma link_step_inv n l op : memory_for op = true → link_inv n l → link_inv n (link_step l op).
Proof using L.
  destruct op as [entry enc d prio| |k|dec]; [apply step_write|intros _; apply step_flush|intros _; apply step_move|].
  intros [= ->] H. by apply step_read.
Qed.

Lemma run_inv n ops : Forall (λ op, memory_for op = true) ops → ∀ l, link_inv n l → link_inv n (link_run l ops).
Proof using L. induction 1 as [|op ops Hop _ IH]; intros l H; cbn [link_run fold_left]; [done|]. by apply IH, link_step_inv. Qed.

(** When everything has arrived, reading gives all that was written. *)
Lemma read_all n rest : ∀ l, link_inv n l → lk_written l = lk_read l ++ rest → pending (lk_writer l) = [] →
  lk_moved l = length (so_sent (tc_sock (lk_writer l))) → lk_read (link_run l (replicate (length rest) (LRead true))) = lk_written l.
Proof using L.
  induction rest as [|d rest IH]; intros l H E Hp Hm; cbn [length replicate link_run fold_left].
  { by rewrite E, app_nil_r. }
  pose proof H as (H1 & H2 & H3 & H4 & H5 & H6 & H7 & H8 & H9 & _).
  destruct (step_read n l H) as [Hi Hr]. specialize (Hr d rest E).
  assert (zlen d + 18 <= zlen (unread (lk_reader l))) as Hlen.
  { rewrite Hm, firstn_all in H9. unfold stream in H5. rewrite Hp, app_nil_r, E, frames_app in H5. rewrite H5 in H9. apply app_inv_head in H9.
    rewrite H9. cbn [frames]. rewrite zlen_app, zlen_frame; [pose proof (zlen_nonneg (frames key (increment_nonce (nonce_after n (length (lk_read l)))) rest)); lia|].
    rewrite E in H3. apply Forall_app in H3 as [_ H3]. by apply list.Forall_cons in H3 as [? _]. }
  specialize (Hr Hlen). assert (lk_writer (link_step l (LRead true)) = lk_writer l ∧ lk_written (link_step l (LRead true)) = lk_written l ∧ lk_moved (link_step l (LRead true)) = lk_moved l) as (F1 & F2 & F3).
  { cbn [link_step]. destruct (read_packet_TCP_secure_connection _ _ _ _) as [[x y] z]. destruct (_ =? -1); [done|]. by destruct (_ =? 0). }
  rewrite <- F2. apply IH; [done| |by rewrite F1|by rewrite F1, F3]. by rewrite F2, Hr, <- app_assoc.
Qed.

(** C28: A TCP connection delivers packets in order: whatever is written with and
    without priority, however much of a frame the socket takes at a time and in
    whatever pieces the bytes arrive, no read fails, the packets read are a
    prefix of the packets whose writing succeeded, and once the socket has taken
    everything and it has arrived, reading gives all of them.  Memory for the
    entries of the priority queue and for the decryption is available (see
    [lost_priority_packet_desyncs]); the encryption may fail. *)
Theorem tcp_stream_in_order (l : Link) (n : bytes) (ops : list Link_Op) :
  fresh_link l n → Forall (λ op, memory_for op = true) ops →
  let l' := link_run l ops in
  lk_failed l' = false ∧ lk_read l' `prefix_of` lk_written l' ∧
  (pending (lk_writer l') = [] → lk_moved l' = length (so_sent (tc_sock (lk_writer l'))) →
   lk_read (link_run l' (replicate (length (lk_written l') - length (lk_read l')) (LRead true))) = lk_written l').
Proof using L.
  intros H Hops l'. pose proof (run_inv n ops Hops l (fresh_link_inv n l H)) as Hi. fold l' in Hi.
  pose proof Hi as (_ & _ & _ & _ & _ & _ & _ & _ & _ & [rest E] & Hf). split; [done|]. split; [by exists rest|].
  intros Hp Hm. replace (length (lk_written l') - length (lk_read l'))%nat with (length rest) by (rewrite E, length_app; lia). by apply (read_all n).
Qed.
End link.

(** ** When the queue has no memory *)

Section tear.
Context {S : Sodium} {L : SodiumLaws S}.

(** When the entry of a packet with priority cannot be allocated, the writer
    reports 0, as if the packet had merely not been sent, but it has moved its
    nonce on and may have sent the beginning of the frame: the next packet is
    appended behind a frame that is missing or torn, under a nonce the reader
    does not expect. *)
Theorem lost_priority_packet_desyncs (con : TCP_Connection) (d : bytes) :
  writer_wf con → pending con = [] → packet_good d →
  let frame := frame_of (tc_shared_key con) (tc_sent_nonce con) d in
  let taken := so_answer (tc_sock con) (so_calls (tc_sock con)) in
  tc_last_packet_length con = 0 → taken < zlen frame →
  let '(r, con') := write_packet_TCP_secure_connection false true con d (zlen d) true in
  r = 0 ∧ tc_sent_nonce con' = increment_nonce (tc_sent_nonce con) ∧ pending con' = [] ∧
  so_sent (tc_sock con') = so_sent (tc_sock con) ++ take (Z.to_nat taken) frame.
Proof using L.
  intros Hw Hp Hd frame taken Hl0 Ht. pose proof (zlen_frame (tc_shared_key con) (tc_sent_nonce con) d Hd) as Hz. fold frame in Hz.
  assert (tc_priority_queue con = []) as Hq.
  { unfold pending in Hp. rewrite Hl0 in Hp. cbn [Z.eqb app] in Hp. destruct Hw as (_ & _ & Hw).
    destruct (tc_priority_queue con) as [|p q]; [done|]. cbn [map concat] in Hp. apply app_eq_nil in Hp as [Hp _].
    apply list.Forall_cons in Hw as [(H1 & H2 & _) _]. apply (f_equal zlen) in Hp. unfold pl_rest, zlen in *. rewrite length_drop in Hp. cbn [length] in Hp. lia. }
  assert (send_pending_data con = (0, con)) as Es.
  { unfold send_pending_data, send_pending_data_nonpriority. rewrite Hl0. cbn [Z.eqb]. rewrite Hq. cbn [send_queue]. destruct con; cbn in *. by rewrite Hq. }
  unfold packet_good in Hd. destruct (encrypt_ok (tc_shared_key con) (tc_sent_nonce con) d (zlen d)) as (c & Ec & Hc & _); [done|lia|].
  unfold write_packet_TCP_secure_connection. change MAX_PACKET_SIZE with 2048. change CRYPTO_MAC_SIZE with 16.
  replace (2048 <? _) with false by lia. rewrite Es. cbn [Z.eqb andb negb]. rewrite Ec.
  replace (zlen d + 16 =? 2 + zlen d + 16 - 2) with true by lia. cbn [negb].
  assert (net_pack_u16 (zlen d + 16) ++ c = frame) as -> by (unfold frame, frame_of; by rewrite Ec).
  unfold write_priority, net_send. fold taken. rewrite Z.min_l by lia. unfold add_priority. cbn [negb].
  replace (_ =? _) with false by (destruct (taken <=? 0) eqn:?; lia). split; [done|]. split; [done|]. split; [exact Hp|done].
Qed.
End tear.

(** ** A concrete connection *)

(** A socket that takes seven bytes at a time. *)
Definition slow_socket : Tcp_Socket := mkTcpSocket [] [] 0 (λ _, 7).
Definition demo_writer : TCP_Connection := mkTCPConnection true slow_socket (zeros 24) (zeros 32) (zeros 2050) 0 0 [].
Definition demo_link : Link := mkLink demo_writer (mkReader slow_socket 0 (zeros 24)) 0 [] [] false.
Definition demo_link_ops : list Link_Op :=
  [LWrite false true [1; 2; 3] false; LWrite true true [4; 5] true; LWrite false true [6] false; LMove 100; LRead true; LFlush; LFlush; LFlush; LFlush; LFlush;
   LFlush; LFlush; LFlush; LMove 100].

Lemma tcp_stream_in_order_witness :
  lk_written (link_run (S := toy_sodium) (zeros 32) demo_link demo_link_ops) = [[1; 2; 3]; [4; 5]] ∧
  lk_read (link_run (S := toy_sodium) (zeros 32) demo_link demo_link_ops) = [[1; 2; 3]] ∧
  lk_read (link_run (S := toy_sodium) (zeros 32) (link_run (S := toy_sodium) (zeros 32) demo_link demo_link_ops) (replicate 1 (LRead true))) =
    [[1; 2; 3]; [4; 5]].
Proof.
  split; [vm_compute; reflexivity|]. split; [vm_compute; reflexivity|].
  destruct (@tcp_stream_in_order toy_sodium toy_sodium_laws (zeros 32) demo_link (zeros 24) demo_link_ops) as (_ & _ & H).
  { unfold fresh_link. split; [split_and!; [reflexivity|by left|constructor]|]. split_and!; reflexivity. }
  { by repeat constructor. }
  assert (lk_written (link_run (S := toy_sodium) (zeros 32) demo_link demo_link_ops) = [[1; 2; 3]; [4; 5]]) as E by (vm_compute; reflexivity).
  assert (lk_read (link_run (S := toy_sodium) (zeros 32) demo_link demo_link_ops) = [[1; 2; 3]]) as E' by (vm_compute; reflexivity).
  rewrite E, E' in H. apply H; vm_compute; reflexivity.
Defined.

Lemma lost_priority_packet_desyncs_witness :
  let '(r, con') := write_packet_TCP_secure_connection (S := toy_sodium) false true demo_writer [1; 2; 3] 3 true in
  r = 0 ∧ zlen (so_sent (tc_sock con')) = 7.
Proof.
  pose proof (@lost_priority_packet_desyncs toy_sodium toy_sodium_laws demo_writer [1; 2; 3]) as H. cbv zeta in H.
  change (zlen [1; 2; 3]) with 3 in H. destruct (write_packet_TCP_secure_connection _ _ _ _ _ _) as [r con'].
  destruct H as (H1 & _ & _ & H2).
  - split_and!; [reflexivity|by left|constructor].
  - reflexivity.
  - done.
  - reflexivity.
  - vm_compute. reflexivity.
  - split; [exact H1|]. rewrite H2. vm_compute. reflexivity.
Defined.
