(* ===== verification/TcpServer.v ===== *)
(** * TcpServer: the relay, [toxcore/TCP_server.c]

    A relay connects clients that cannot reach each other.  A client asks for a
    route to the key of another one and gets the number of a slot of its
    connection; when the other one asks for a route back, the two slots are
    linked, and what one client sends into its slot the relay sends to the
    other.

    The state monad [TS] has an outcome for undefined behaviour, [None]: an
    access outside an array or outside the table of keys, or a call of the
    network through the null pointer of a connection.  A call of the onion or the
    forwarding component and a closed socket are entries of [ts_events].  The
    host is little-endian. *)
From S2P Require Import Prelude Util MonoTime CryptoCore Network BsList World DhtPackets Onion TcpCommon.

Definition NUM_RESERVED_PORTS : Z := 16.
Definition NUM_CLIENT_CONNECTIONS : Z := 256 - NUM_RESERVED_PORTS.
Definition TCP_PACKET_ROUTING_REQUEST : Z := 0.
Definition TCP_PACKET_ROUTING_RESPONSE : Z := 1.
Definition TCP_PACKET_CONNECTION_NOTIFICATION : Z := 2.
Definition TCP_PACKET_DISCONNECT_NOTIFICATION : Z := 3.
Definition TCP_PACKET_PING : Z := 4.
Definition TCP_PACKET_PONG : Z := 5.
Definition TCP_PACKET_OOB_SEND : Z := 6.
Definition TCP_PACKET_OOB_RECV : Z := 7.
Definition TCP_PACKET_ONION_REQUEST : Z := 8.
Definition TCP_PACKET_ONION_RESPONSE : Z := 9.
Definition TCP_PACKET_FORWARD_REQUEST : Z := 10.
Definition TCP_PACKET_FORWARDING : Z := 11.
Definition TCP_HANDSHAKE_PLAIN_SIZE : Z := CRYPTO_PUBLIC_KEY_SIZE + CRYPTO_NONCE_SIZE.
Definition TCP_SERVER_HANDSHAKE_SIZE : Z := CRYPTO_NONCE_SIZE + TCP_HANDSHAKE_PLAIN_SIZE + CRYPTO_MAC_SIZE.
Definition TCP_CLIENT_HANDSHAKE_SIZE : Z := CRYPTO_PUBLIC_KEY_SIZE + TCP_SERVER_HANDSHAKE_SIZE.
Definition TCP_MAX_OOB_DATA_LENGTH : Z := 1024.
Definition TCP_PING_FREQUENCY : Z := 30.
Definition TCP_PING_TIMEOUT : Z := 10.
Definition MAX_INCOMING_CONNECTIONS : Z := 256.
Definition SENDBACK_TCP : Z := 2.
Definition MAX_UDP_PACKET_SIZE : Z := 2048.
Definition MAX_SENDBACK_SIZE : Z := 255 - 1.
Definition MAX_FORWARD_DATA_SIZE : Z := MAX_UDP_PACKET_SIZE - (1 + 1 + MAX_SENDBACK_SIZE).

Definition TCP_STATUS_NO_STATUS : Z := 0.
Definition TCP_STATUS_CONNECTED : Z := 1.
Definition TCP_STATUS_UNCONFIRMED : Z := 2.
Definition TCP_STATUS_CONFIRMED : Z := 3.

(** ** State *)

Record TCP_Secure_Conn := mkSecureConn {
  cl_public_key : bytes;
  cl_index : Z;
  cl_status : Z;     (** 0 if not used, 1 if other is offline, 2 if other is online *)
  cl_other_id : Z
}.

Record TCP_Secure_Connection := mkSecureConnection {
  sn_con : TCP_Connection;
  sn_public_key : bytes;
  sn_recv_nonce : bytes;
  sn_next_packet_length : Z;
  sn_connections : list TCP_Secure_Conn;
  sn_status : Z;
  sn_identifier : Z;
  sn_last_pinged : Z;
  sn_ping_id : Z
}.

Inductive Tcp_Event :=
  | EvOnionSend (plain : bytes) (len : Z) (source : IP_Port) (nonce : bytes)         (** [onion_send_1] *)
  | EvForward (dest : IP_Port) (sendback_data : bytes) (data : bytes)                 (** [send_forwarding] *)
  | EvKillSock (sock : Tcp_Socket).                                                   (** [kill_sock] *)

(** What memory is asked for: the smaller arrays of the table of keys when a key
    is removed from it, or anything else. *)
Inductive Tcp_Alloc := AllocShrink | AllocOther.

(** [ts_accepted] is [accepted_connection_array], its length the field
    [size_accepted_connections].  [ts_mem] answers the calls of the allocator: the
    outcomes of the two requests of one operation. *)
Record TCP_Server := mkTCPServer {
  ts_rng : Random;
  ts_mem : Tcp_Alloc → nat → bool * bool;
  ts_mem_calls : nat;
  ts_events : list Tcp_Event;
  ts_onion : bool;
  ts_forwarding : bool;
  ts_secret_key : bytes;
  ts_incoming : list TCP_Secure_Connection;
  ts_incoming_index : Z;
  ts_unconfirmed : list TCP_Secure_Connection;
  ts_unconfirmed_index : Z;
  ts_accepted : list TCP_Secure_Connection;
  ts_num_accepted : Z;
  ts_counter : Z;
  ts_key_list : BS_List
}.

#[export] Instance eta_TCP_Secure_Conn : Eta TCP_Secure_Conn := λ l,
  mkSecureConn (cl_public_key l) (cl_index l) (cl_status l) (cl_other_id l).
#[export] Instance eta_TCP_Secure_Connection : Eta TCP_Secure_Connection := λ c,
  mkSecureConnection (sn_con c) (sn_public_key c) (sn_recv_nonce c) (sn_next_packet_length c) (sn_connections c) (sn_status c)
    (sn_identifier c) (sn_last_pinged c) (sn_ping_id c).
#[export] Instance eta_TCP_Server : Eta TCP_Server := λ s,
  mkTCPServer (ts_rng s) (ts_mem s) (ts_mem_calls s) (ts_events s) (ts_onion s) (ts_forwarding s) (ts_secret_key s)
    (ts_incoming s) (ts_incoming_index s) (ts_unconfirmed s) (ts_unconfirmed_index s) (ts_accepted s) (ts_num_accepted s)
    (ts_counter s) (ts_key_list s).

(** What [calloc] and [crypto_memzero] leave. *)
Definition no_socket : Tcp_Socket := mkTcpSocket [] [] 0 (λ _, 0).
Definition zero_conn : TCP_Secure_Conn := mkSecureConn (zeros 32) 0 0 0.
Definition zero_connection : TCP_Secure_Connection :=
  mkSecureConnection (mkTCPConnection false no_socket (zeros 24) (zeros 32) (zeros 2050) 0 0 []) (zeros 32) (zeros 24) 0
    (replicate 240 zero_conn) 0 0 0 0.

(** ** The monad *)

Definition TS (A : Type) : Type := TCP_Server → option (A * TCP_Server).

#[export] Instance TS_ret : MRet TS := λ A x s, Some (x, s).
#[export] Instance TS_bind : MBind TS := λ A B f m s, '(x, s) ← m s; f x s.

Definition server : TS TCP_Server := λ s, Some (s, s).
Definition update (f : TCP_Server → TCP_Server) : TS unit := λ s, Some (tt, f s).
Definition undefined {A} : TS A := λ _, None.

Definition size_accepted (s : TCP_Server) : Z := zlen (ts_accepted s).

(** The element of an array, and a store to it. *)
Definition at_index {A} (l : list A) (i : Z) : TS A := λ s, x ← (if i <? 0 then None else l !! Z.to_nat i); Some (x, s).
Definition accepted (i : Z) : TS TCP_Secure_Connection := s ← server; at_index (ts_accepted s) i.
Definition put_accepted (i : Z) (c : TCP_Secure_Connection) : TS unit :=
  accepted i;; update (λ s, s <| ts_accepted := aset (ts_accepted s) i c |>).
Definition put_incoming (i : Z) (c : TCP_Secure_Connection) : TS unit :=
  update (λ s, s <| ts_incoming := aset (ts_incoming s) i c |>).
Definition put_unconfirmed (i : Z) (c : TCP_Secure_Connection) : TS unit :=
  update (λ s, s <| ts_unconfirmed := aset (ts_unconfirmed s) i c |>).

(** [connections[c]] of the accepted connection [i], and a store to it. *)
Definition conn_slot (i c : Z) : TS TCP_Secure_Conn := con ← accepted i; at_index (sn_connections con) c.
Definition put_slot (i c : Z) (l : TCP_Secure_Conn) : TS unit :=
  con ← accepted i; at_index (sn_connections con) c;; put_accepted i (con <| sn_connections := aset (sn_connections con) c l |>).

Definition event (e : Tcp_Event) : TS unit := update (λ s, s <| ts_events := ts_events s ++ [e] |>).
Definition kill_sock (sock : Tcp_Socket) : TS unit := event (EvKillSock sock).

Definition allocate (what : Tcp_Alloc) : TS (bool * bool) := λ s,
  Some (ts_mem s what (ts_mem_calls s), s <| ts_mem_calls := S (ts_mem_calls s) |>).

(** The network is called through the pointer of the connection: [used] says
    whether it is called. *)
Definition through_ns (used : bool) (con : TCP_Connection) : TS unit :=
  if used && negb (tc_ns con) then undefined else mret tt.

(** Whether [send] was called on the way from [con] to [c]. *)
Definition send_called (con c : TCP_Connection) : bool := negb (Nat.eqb (so_calls (tc_sock c)) (so_calls (tc_sock con))).

(** ** Single connections *)

Definition wipe_secure_connection (con : TCP_Secure_Connection) : TCP_Secure_Connection :=
  if negb (sn_status con =? 0) then zero_connection else con.

(** The socket of a connection that is going to be overwritten. *)
Definition kill_TCP_secure_connection (con : TCP_Secure_Connection) : TS TCP_Secure_Connection :=
  through_ns true (sn_con con);; kill_sock (tc_sock (sn_con con));; mret (wipe_secure_connection con).

Section server.
Context {S : Sodium}.

(** What [send_pending_data] and the writing of a packet do to accepted connection [i]. *)
Definition write_to (i : Z) (data : bytes) (priority : bool) : TS Z :=
  con ← accepted i;
  mem ← allocate AllocOther;
  let '(ret, c) := write_packet_TCP_secure_connection mem.1 mem.2 (sn_con con) data (zlen data) priority in
  through_ns (send_called (sn_con con) c) (sn_con con);;
  put_accepted i (con <| sn_con := c |>);;
  mret ret.

Definition send_pending (i : Z) : TS Z :=
  con ← accepted i;
  let '(ret, c) := send_pending_data (sn_con con) in
  through_ns (send_called (sn_con con) c) (sn_con con);;
  put_accepted i (con <| sn_con := c |>);;
  mret ret.

(** [read_packet_TCP_secure_connection] with the fields of a connection, and
    whether it looks at the socket. *)
Definition reads_socket (con : TCP_Secure_Connection) : bool :=
  negb (MAX_PACKET_SIZE + CRYPTO_MAC_SIZE <? sn_next_packet_length con).

Definition read_from (dec : bool) (con : TCP_Secure_Connection) : Z * bytes * TCP_Secure_Connection :=
  let '(len, data, r) := read_packet_TCP_secure_connection dec (tc_shared_key (sn_con con)) MAX_PACKET_SIZE
                           (mkReader (tc_sock (sn_con con)) (sn_next_packet_length con) (sn_recv_nonce con)) in
  (len, data, con <| sn_con := (sn_con con) <| tc_sock := rd_sock r |> |> <| sn_next_packet_length := rd_next_packet_length r |>
                  <| sn_recv_nonce := rd_recv_nonce r |>).

(** [stack] is what the local key buffer holds before the call, whose result is
    not checked. *)
Definition handle_TCP_handshake (stack : bytes) (rng : Random) (mem : bool * bool) (con : TCP_Secure_Connection) (data : bytes)
    (length : Z) (self_secret_key : bytes) : Z * TCP_Secure_Connection * Random :=
  if negb (length =? TCP_CLIENT_HANDSHAKE_SIZE) then (-1, con, rng)
  else if negb (sn_status con =? TCP_STATUS_CONNECTED) then (-1, con, rng)
  else
    let shared_key := default stack (encrypt_precompute (slice 0 CRYPTO_PUBLIC_KEY_SIZE data) self_secret_key) in
    let '(len, plain) := decrypt_data_symmetric mem.1 shared_key (slice CRYPTO_PUBLIC_KEY_SIZE CRYPTO_NONCE_SIZE data)
                           (drop (Z.to_nat (CRYPTO_PUBLIC_KEY_SIZE + CRYPTO_NONCE_SIZE)) data) (TCP_HANDSHAKE_PLAIN_SIZE + CRYPTO_MAC_SIZE) in
    if negb (len =? TCP_HANDSHAKE_PLAIN_SIZE) then (-1, con, rng)
    else
      let con := con <| sn_public_key := slice 0 CRYPTO_PUBLIC_KEY_SIZE data |> in
      let '(temp_public_key, temp_secret_key, rng) := crypto_new_keypair rng in
      let '(sent_nonce, rng) := random_nonce rng in
      let con := con <| sn_con := (sn_con con) <| tc_sent_nonce := sent_nonce |> |> in
      let resp_plain := temp_public_key ++ sent_nonce in
      let con := con <| sn_recv_nonce := slice CRYPTO_PUBLIC_KEY_SIZE CRYPTO_NONCE_SIZE plain |> in
      let '(response_nonce, rng) := random_nonce rng in
      let '(len, encrypted) := encrypt_data_symmetric mem.2 shared_key response_nonce resp_plain TCP_HANDSHAKE_PLAIN_SIZE in
      if negb (len =? TCP_HANDSHAKE_PLAIN_SIZE + CRYPTO_MAC_SIZE) then (-1, con, rng)
      else
        let '(sent, sock) := net_send (tc_sock (sn_con con)) (response_nonce ++ encrypted) in
        let con := con <| sn_con := (sn_con con) <| tc_sock := sock |> |> in
        if negb (sent =? TCP_SERVER_HANDSHAKE_SIZE) then (-1, con, rng)
        else
          let key := default (tc_shared_key (sn_con con)) (encrypt_precompute (slice 0 CRYPTO_PUBLIC_KEY_SIZE plain) temp_secret_key) in
          (1, con <| sn_con := (sn_con con) <| tc_shared_key := key |> |> <| sn_status := TCP_STATUS_UNCONFIRMED |>, rng).

Definition read_connection_handshake (stack : bytes) (rng : Random) (mem : bool * bool) (con : TCP_Secure_Connection)
    (self_secret_key : bytes) : Z * TCP_Secure_Connection * Random :=
  let '(read, sock) := read_TCP_packet (tc_sock (sn_con con)) TCP_CLIENT_HANDSHAKE_SIZE in
  let con := con <| sn_con := (sn_con con) <| tc_sock := sock |> |> in
  match read with
  | None => (0, con, rng)
  | Some data => handle_TCP_handshake stack rng mem con data (zlen data) self_secret_key
  end.

(** ** The accepted connections *)

Definition alloc_new_connections (num : Z) : TS Z :=
  s ← server;
  let new_size := u32 (size_accepted s + num) in
  if new_size <? size_accepted s then mret (-1)
  else
    mem ← allocate AllocOther;
    if negb mem.1 then mret (-1)
    else update (λ s, s <| ts_accepted := ts_accepted s ++ replicate (Z.to_nat num) zero_connection |>);; mret 0.

Definition free_accepted_connection_array (s : TCP_Server) : TCP_Server := s <| ts_accepted := [] |>.

Definition get_TCP_connection_index (public_key : bytes) : TS Z := λ s, id ← bs_list_find (ts_key_list s) public_key; Some (id, s).

Definition key_list_add (public_key : bytes) (id : Z) : TS bool :=
  mem ← allocate AllocOther;
  s ← server;
  match bs_list_add mem.1 mem.2 (ts_key_list s) public_key id with
  | None => undefined
  | Some (b, l) => update (λ s, s <| ts_key_list := l |>);; mret b
  end.

Definition key_list_remove (public_key : bytes) (id : Z) : TS bool :=
  mem ← allocate AllocShrink;
  s ← server;
  match bs_list_remove mem.1 mem.2 (ts_key_list s) public_key id with
  | None => undefined
  | Some (b, l) => update (λ s, s <| ts_key_list := l |>);; mret b
  end.

Definition send_routing_response (i rpid : Z) (public_key : bytes) : TS Z :=
  write_to i ([TCP_PACKET_ROUTING_RESPONSE; u8 rpid] ++ public_key) true.

Definition send_connect_notification (i id : Z) : TS Z :=
  write_to i [TCP_PACKET_CONNECTION_NOTIFICATION; u8 (id + NUM_RESERVED_PORTS)] true.

Definition send_disconnect_notification (i id : Z) : TS Z :=
  write_to i [TCP_PACKET_DISCONNECT_NOTIFICATION; u8 (id + NUM_RESERVED_PORTS)] true.

(** [con] is the accepted connection [i]. *)
Definition rm_connection_index (i con_number : Z) : TS Z :=
  if NUM_CLIENT_CONNECTIONS <=? con_number then mret (-1)
  else
    l ← conn_slot i con_number;
    if negb (cl_status l =? 0) then
      let clear := l ← conn_slot i con_number; put_slot i con_number (l <| cl_index := 0 |> <| cl_other_id := 0 |> <| cl_status := 0 |>);; mret 0 in
      if cl_status l =? 2 then
        let index := cl_index l in
        let other_id := cl_other_id l in
        s ← server;
        if size_accepted s <=? index then mret (-1)
        else
          other ← conn_slot index other_id;
          put_slot index other_id (other <| cl_other_id := 0 |> <| cl_index := 0 |> <| cl_status := 1 |>);;
          send_disconnect_notification index other_id;;
          clear
      else clear
    else mret (-1).

Definition del_accepted (index : Z) : TS Z :=
  s ← server;
  if size_accepted s <=? index then mret (-1)
  else
    con ← accepted index;
    if sn_status con =? TCP_STATUS_NO_STATUS then mret (-1)
    else
      ok ← key_list_remove (sn_public_key con) index;
      if negb ok then mret (-1)
      else
        put_accepted index (wipe_secure_connection con);;
        update (λ s, s <| ts_num_accepted := ts_num_accepted s - 1 |>);;
        update (λ s, if ts_num_accepted s =? 0 then free_accepted_connection_array s else s);;
        mret 0.

(** The loop of [kill_accepted] over the slots from [i] on. *)
Fixpoint rm_all (n : nat) (index i : Z) : TS unit :=
  match n with
  | 0%nat => mret tt
  | Datatypes.S n' => rm_connection_index index i;; rm_all n' index (i + 1)
  end.

Definition kill_accepted (index : Z) : TS Z :=
  s ← server;
  if size_accepted s <=? index then mret (-1)
  else
    rm_all (Z.to_nat NUM_CLIENT_CONNECTIONS) index 0;;
    con ← accepted index;
    let sock := tc_sock (sn_con con) in
    ret ← del_accepted index;
    if negb (ret =? 0) then mret (-1) else kill_sock sock;; mret 0.

(** The last slot without a connection. *)
Fixpoint last_free (l : list TCP_Secure_Connection) (i : Z) : Z :=
  match l with
  | [] => -1
  | c :: l' =>
      let r := last_free l' (i + 1) in
      if r =? -1 then (if sn_status c =? TCP_STATUS_NO_STATUS then i else -1) else r
  end.

(** [con] is the unconfirmed connection [u]. *)
Definition add_accepted (mono_time : Mono_Time) (u : Z) : TS Z :=
  s ← server;
  con ← at_index (ts_unconfirmed s) u;
  old ← get_TCP_connection_index (sn_public_key con);
  (if negb (old =? -1) then kill_accepted old;; mret tt else mret tt);;
  s ← server;
  index ← (if size_accepted s =? ts_num_accepted s then
             ret ← alloc_new_connections 4;
             mret (if ret =? -1 then -1 else ts_num_accepted s)
           else mret (last_free (ts_accepted s) 0));
  if index =? -1 then mret (-1)
  else
    ok ← key_list_add (sn_public_key con) index;
    if negb ok then mret (-1)
    else
      put_accepted index con;;
      put_unconfirmed u zero_connection;;
      update (λ s, s <| ts_num_accepted := ts_num_accepted s + 1 |> <| ts_counter := u64 (ts_counter s + 1) |>);;
      s ← server;
      con ← accepted index;
      put_accepted index (con <| sn_status := TCP_STATUS_CONFIRMED |> <| sn_identifier := ts_counter s |>
                              <| sn_last_pinged := mono_time_get mono_time |> <| sn_ping_id := 0 |>);;
      mret index.

(** ** Packets of clients *)

(** The first loop of [handle_TCP_routing_req]: the slot with this key, or the
    first free slot ([UINT32_MAX] when there is none). *)
Fixpoint find_route (l : list TCP_Secure_Conn) (i : Z) (public_key : bytes) (index : Z) : Z + Z :=
  match l with
  | [] => inr index
  | c :: l' =>
      if negb (cl_status c =? 0) then
        if pk_equal public_key (cl_public_key c) then inl i else find_route l' (i + 1) public_key index
      else find_route l' (i + 1) public_key (if index =? UINT32_MAX then i else index)
  end.

(** The second loop: the slot in which the other client waits for this one. *)
Fixpoint find_waiting (l : list TCP_Secure_Conn) (i : Z) (public_key : bytes) : Z :=
  match l with
  | [] => UINT32_MAX
  | c :: l' =>
      if (cl_status c =? 1) && pk_equal (cl_public_key c) public_key then i else find_waiting l' (i + 1) public_key
  end.

Definition handle_TCP_routing_req (con_id : Z) (public_key : bytes) : TS Z :=
  con ← accepted con_id;
  let respond rpid := ret ← send_routing_response con_id rpid public_key; mret (if ret =? -1 then -1 else 0) in
  if pk_equal (sn_public_key con) public_key then respond 0
  else
    match find_route (sn_connections con) 0 public_key UINT32_MAX with
    | inl i => respond (i + NUM_RESERVED_PORTS)
    | inr index =>
        if index =? UINT32_MAX then respond 0
        else
          ret ← send_routing_response con_id (index + NUM_RESERVED_PORTS) public_key;
          if ret =? 0 then mret 0
          else if ret =? -1 then mret (-1)
          else
            l ← conn_slot con_id index;
            put_slot con_id index (l <| cl_status := 1 |> <| cl_public_key := public_key |>);;
            other_index ← get_TCP_connection_index public_key;
            if other_index =? -1 then mret 0
            else
              other_conn ← accepted other_index;
              let other_id := find_waiting (sn_connections other_conn) 0 (sn_public_key con) in
              if other_id =? UINT32_MAX then mret 0
              else
                l ← conn_slot con_id index;
                put_slot con_id index (l <| cl_status := 2 |> <| cl_index := u32 other_index |> <| cl_other_id := u8 other_id |>);;
                l ← conn_slot other_index other_id;
                put_slot other_index other_id (l <| cl_status := 2 |> <| cl_index := con_id |> <| cl_other_id := u8 index |>);;
                send_connect_notification con_id index;;
                send_connect_notification other_index other_id;;
                mret 0
    end.

Definition handle_TCP_oob_send (con_id : Z) (public_key data : bytes) (length : Z) : TS Z :=
  if (length =? 0) || (TCP_MAX_OOB_DATA_LENGTH <? length) then mret (-1)
  else
    con ← accepted con_id;
    other_index ← get_TCP_connection_index public_key;
    if other_index =? -1 then mret 0
    else write_to other_index ([TCP_PACKET_OOB_RECV] ++ sn_public_key con ++ slice 0 length data) false;; mret 0.

Definition con_id_to_ip_port (con_id identifier : Z) : IP_Port :=
  mkIPPort (mkIP TCP_CLIENT_FAMILY (le_bytes 4 con_id ++ zeros 4 ++ le_bytes 8 identifier)) 0.

Definition ip_port_to_con_id (s : TCP_Server) (ip_port : IP_Port) : option Z :=
  let con_id := le_val (slice 0 4 (ip_addr (ipp_ip ip_port))) in
  if net_family_is_tcp_client (ip_family (ipp_ip ip_port)) && (con_id <? size_accepted s) &&
     (sn_identifier (aget zero_connection (ts_accepted s) con_id) =? le_val (slice 8 8 (ip_addr (ipp_ip ip_port))))
  then Some con_id else None.

Definition handle_onion_recv_1 (dest : IP_Port) (data : bytes) (length : Z) : TS Z :=
  s ← server;
  match ip_port_to_con_id s dest with
  | None => mret 1
  | Some index =>
      ret ← write_to index ([TCP_PACKET_ONION_RESPONSE] ++ slice 0 length data) false;
      mret (if negb (ret =? 1) then 1 else 0)
  end.

Definition handle_forward_reply_tcp (sendback_data : bytes) (sendback_data_len : Z) (data : bytes) (length : Z) : TS bool :=
  if negb (sendback_data_len =? 1 + 4 + 8) then mret false
  else if negb (aget 0 sendback_data 0 =? SENDBACK_TCP) then mret false
  else
    let con_id := net_unpack_u32 (drop 1 sendback_data) in
    let identifier := net_unpack_u64 (drop 5 sendback_data) in
    s ← server;
    if size_accepted s <=? con_id then mret false
    else
      con ← accepted con_id;
      if negb (sn_identifier con =? identifier) then mret false
      else
        ret ← write_to con_id ([TCP_PACKET_FORWARDING] ++ slice 0 length data) false;
        mret (ret =? 1).

(** The last case of the switch in [handle_TCP_packet]: data for a linked slot. *)
Definition handle_data (con_id : Z) (data : bytes) (length : Z) : TS Z :=
  let data0 := aget 0 data 0 in
  if data0 <? NUM_RESERVED_PORTS then mret (-1)
  else
    let c_id := u8 (data0 - NUM_RESERVED_PORTS) in
    if NUM_CLIENT_CONNECTIONS <=? c_id then mret (-1)
    else
      l ← conn_slot con_id c_id;
      if cl_status l =? 0 then mret (-1)
      else if negb (cl_status l =? 2) then mret 0
      else
        let other_c_id := u8 (cl_other_id l + NUM_RESERVED_PORTS) in
        ret ← write_to (cl_index l) (other_c_id :: slice 1 (length - 1) data) false;
        mret (if ret =? -1 then -1 else 0).

Definition handle_forward_request (con_id : Z) (data : bytes) (length : Z) : TS Z :=
  s ← server;
  if negb (ts_forwarding s) then mret (-1)
  else
    con ← accepted con_id;
    let sendback_data := [SENDBACK_TCP] ++ net_pack_u32 con_id ++ net_pack_u64 (sn_identifier con) in
    match unpack_ip_port (drop 1 data) (length - 1) false with
    | None => mret (-1)
    | Some (ipport_length, dest) =>
        let forward_data_len := u16 (length - (1 + ipport_length)) in
        if MAX_FORWARD_DATA_SIZE <? forward_data_len then mret (-1)
        else event (EvForward dest sendback_data (slice (1 + ipport_length) forward_data_len data));; mret 0
    end.

Definition handle_TCP_packet (con_id : Z) (data : bytes) (length : Z) : TS Z :=
  if length =? 0 then mret (-1)
  else
    con ← accepted con_id;
    let type := aget 0 data 0 in
    if type =? TCP_PACKET_ROUTING_REQUEST then
      if negb (length =? 1 + CRYPTO_PUBLIC_KEY_SIZE) then mret (-1)
      else handle_TCP_routing_req con_id (slice 1 CRYPTO_PUBLIC_KEY_SIZE data)
    else if type =? TCP_PACKET_CONNECTION_NOTIFICATION then mret (if negb (length =? 2) then -1 else 0)
    else if type =? TCP_PACKET_DISCONNECT_NOTIFICATION then
      if negb (length =? 2) then mret (-1)
      else rm_connection_index con_id (u8 (aget 0 data 1 - NUM_RESERVED_PORTS))
    else if type =? TCP_PACKET_PING then
      if negb (length =? 1 + 8) then mret (-1)
      else write_to con_id (TCP_PACKET_PONG :: slice 1 8 data) true;; mret 0
    else if type =? TCP_PACKET_PONG then
      if negb (length =? 1 + 8) then mret (-1)
      else
        let ping_id := le_val (slice 1 8 data) in
        if negb (ping_id =? 0) then
          (if ping_id =? sn_ping_id con then put_accepted con_id (con <| sn_ping_id := 0 |>) else mret tt);; mret 0
        else mret (-1)
    else if type =? TCP_PACKET_OOB_SEND then
      if length <=? 1 + CRYPTO_PUBLIC_KEY_SIZE then mret (-1)
      else handle_TCP_oob_send con_id (slice 1 CRYPTO_PUBLIC_KEY_SIZE data) (drop (Z.to_nat (1 + CRYPTO_PUBLIC_KEY_SIZE)) data)
             (length - (1 + CRYPTO_PUBLIC_KEY_SIZE))
    else if type =? TCP_PACKET_ONION_REQUEST then
      s ← server;
      if negb (ts_onion s) then mret 0
      else if length <=? 1 + CRYPTO_NONCE_SIZE + ONION_SEND_BASE * 2 then mret (-1)
      else
        event (EvOnionSend (slice (1 + CRYPTO_NONCE_SIZE) (length - (1 + CRYPTO_NONCE_SIZE)) data) (length - (1 + CRYPTO_NONCE_SIZE))
                 (con_id_to_ip_port con_id (sn_identifier con)) (slice 1 CRYPTO_NONCE_SIZE data));; mret 0
    else if type =? TCP_PACKET_ONION_RESPONSE then mret (-1)
    else if type =? TCP_PACKET_FORWARD_REQUEST then handle_forward_request con_id data length
    else if type =? TCP_PACKET_FORWARDING then mret (-1)
    else handle_data con_id data length.

(** [con] is the unconfirmed connection [u]. *)
Definition confirm_TCP_connection (mono_time : Mono_Time) (u : Z) (data : bytes) (length : Z) : TS Z :=
  index ← add_accepted mono_time u;
  s ← server;
  con ← at_index (ts_unconfirmed s) u;
  if index =? -1 then c ← kill_TCP_secure_connection con; put_unconfirmed u c;; mret (-1)
  else
    put_unconfirmed u (wipe_secure_connection con);;
    ret ← handle_TCP_packet index data length;
    if ret =? -1 then kill_accepted index;; mret (-1) else mret index.

(** ** New connections *)

(** [ok] says whether the socket could be made non-blocking and so on. *)
Definition accept_connection (sock : option Tcp_Socket) (ok : bool) : TS Z :=
  match sock with
  | None => mret (-1)
  | Some sock =>
      if negb ok then kill_sock sock;; mret (-1)
      else
        s ← server;
        let index := ts_incoming_index s mod MAX_INCOMING_CONNECTIONS in
        conn ← at_index (ts_incoming s) index;
        conn ← (if negb (sn_status conn =? TCP_STATUS_NO_STATUS) then kill_TCP_secure_connection conn else mret conn);
        put_incoming index (conn <| sn_status := TCP_STATUS_CONNECTED |> <| sn_con := (sn_con conn) <| tc_ns := true |> <| tc_sock := sock |> |>
                                 <| sn_next_packet_length := 0 |>);;
        update (λ s, s <| ts_incoming_index := u16 (ts_incoming_index s + 1) |>);;
        mret index
  end.

Definition do_incoming (stack : bytes) (i : Z) : TS Z :=
  s ← server;
  conn ← at_index (ts_incoming s) i;
  if negb (sn_status conn =? TCP_STATUS_CONNECTED) then mret (-1)
  else
    mem ← allocate AllocOther;
    through_ns true (sn_con conn);;
    let '(ret, conn, rng) := read_connection_handshake stack (ts_rng s) mem conn (ts_secret_key s) in
    update (λ s, s <| ts_rng := rng |>);;
    put_incoming i conn;;
    if ret =? -1 then c ← kill_TCP_secure_connection conn; put_incoming i c;; mret (-1)
    else if negb (ret =? 1) then mret (-1)
    else
      s ← server;
      let index_new := ts_unconfirmed_index s mod MAX_INCOMING_CONNECTIONS in
      conn_new ← at_index (ts_unconfirmed s) index_new;
      (if negb (sn_status conn_new =? TCP_STATUS_NO_STATUS) then kill_TCP_secure_connection conn_new;; mret tt else mret tt);;
      put_unconfirmed index_new conn;;
      put_incoming i zero_connection;;
      update (λ s, s <| ts_unconfirmed_index := u16 (ts_unconfirmed_index s + 1) |>);;
      mret index_new.

Definition do_unconfirmed (mono_time : Mono_Time) (i : Z) : TS Z :=
  s ← server;
  conn ← at_index (ts_unconfirmed s) i;
  if negb (sn_status conn =? TCP_STATUS_UNCONFIRMED) then mret (-1)
  else
    mem ← allocate AllocOther;
    through_ns (reads_socket conn) (sn_con conn);;
    let '(len, packet, conn) := read_from mem.1 conn in
    put_unconfirmed i conn;;
    if len =? 0 then mret (-1)
    else if len =? -1 then c ← kill_TCP_secure_connection conn; put_unconfirmed i c;; mret (-1)
    else confirm_TCP_connection mono_time i packet len.

(** ** Confirmed connections *)

Definition tcp_process_secure_packet (i : Z) : TS bool :=
  conn ← accepted i;
  mem ← allocate AllocOther;
  through_ns (reads_socket conn) (sn_con conn);;
  let '(len, packet, conn) := read_from mem.1 conn in
  put_accepted i conn;;
  if len =? 0 then mret false
  else if len =? -1 then kill_accepted i;; mret false
  else
    ret ← handle_TCP_packet i packet len;
    if ret =? -1 then kill_accepted i;; mret false else mret true.

(** The loop of [do_confirmed_recv]. *)
Fixpoint recv_loop (fuel : nat) (i : Z) : TS bool :=
  match fuel with
  | 0%nat => mret false
  | Datatypes.S fuel' => more ← tcp_process_secure_packet i; if more : bool then recv_loop fuel' i else mret true
  end.

(** Every packet that is read takes bytes from the socket: the loop ends within
    the fuel ([TRUE] is its result then). *)
Definition do_confirmed_recv (i : Z) : TS bool :=
  con ← accepted i; recv_loop (Datatypes.S (length (so_recv (tc_sock (sn_con con))))) i.

(** One turn of the loop of [do_TCP_confirmed] (without [epoll]). *)
Definition do_confirmed (mono_time : Mono_Time) (i : Z) : TS unit :=
  conn ← accepted i;
  if negb (sn_status conn =? TCP_STATUS_CONFIRMED) then mret tt
  else
    let finish :=
      conn ← accepted i;
      if negb (sn_ping_id conn =? 0) && mono_time_is_timeout mono_time (sn_last_pinged conn) TCP_PING_TIMEOUT
      then kill_accepted i;; mret tt
      else send_pending i;; do_confirmed_recv i;; mret tt in
    if mono_time_is_timeout mono_time (sn_last_pinged conn) TCP_PING_FREQUENCY then
      s ← server;
      let '(r, rng) := random_u64 (ts_rng s) in
      update (λ s, s <| ts_rng := rng |>);;
      let ping_id := if r =? 0 then 1 else r in
      ret ← write_to i (TCP_PACKET_PING :: le_bytes 8 ping_id) true;
      if ret =? 1 then
        conn ← accepted i;
        put_accepted i (conn <| sn_last_pinged := mono_time_get mono_time |> <| sn_ping_id := ping_id |>);;
        finish
      else if mono_time_is_timeout mono_time (sn_last_pinged conn) (TCP_PING_FREQUENCY + TCP_PING_TIMEOUT)
      then kill_accepted i;; mret tt
      else finish
    else finish.

Fixpoint confirmed_loop (n : nat) (mono_time : Mono_Time) (i : Z) : TS unit :=
  match n with
  | 0%nat => mret tt
  | Datatypes.S n' =>
      s ← server;
      if i <? size_accepted s then do_confirmed mono_time i;; confirmed_loop n' mono_time (i + 1) else mret tt
  end.

(** The array does not grow during the loop: its size at the start is enough. *)
Definition do_TCP_confirmed (mono_time : Mono_Time) : TS unit :=
  s ← server; confirmed_loop (length (ts_accepted s)) mono_time 0.

Fixpoint do_each {A} (n : nat) (f : Z → TS A) (i : Z) : TS unit :=
  match n with
  | 0%nat => mret tt
  | Datatypes.S n' => f i;; do_each n' f (i + 1)
  end.

Definition do_TCP_incoming (stack : bytes) : TS unit := do_each (Z.to_nat MAX_INCOMING_CONNECTIONS) (do_incoming stack) 0.
Definition do_TCP_unconfirmed (mono_time : Mono_Time) : TS unit :=
  do_each (Z.to_nat MAX_INCOMING_CONNECTIONS) (do_unconfirmed mono_time) 0.

(** The connections [arriving] at one listening socket, with whether they could
    be set up. *)
Fixpoint accept_loop (n : nat) (arriving : list (Tcp_Socket * bool)) : TS unit :=
  match n, arriving with
  | 0%nat, _ => mret tt
  | Datatypes.S _, [] => accept_connection None true;; mret tt
  | Datatypes.S n', (sock, ok) :: rest => ret ← accept_connection (Some sock) ok; if ret =? -1 then mret tt else accept_loop n' rest
  end.

Fixpoint do_TCP_accept_new (listening : list (list (Tcp_Socket * bool))) : TS unit :=
  match listening with
  | [] => mret tt
  | arriving :: rest => accept_loop (Z.to_nat MAX_INCOMING_CONNECTIONS) arriving;; do_TCP_accept_new rest
  end.

Definition do_TCP_server (stack : bytes) (listening : list (list (Tcp_Socket * bool))) (mono_time : Mono_Time) : TS unit :=
  do_TCP_accept_new listening;;
  do_TCP_incoming stack;;
  do_TCP_unconfirmed mono_time;;
  do_TCP_confirmed mono_time.

(** The server that [new_TCP_server] builds once it listens; the result of
    [bs_list_init] is not checked. *)
Definition new_TCP_server (rng : Random) (mem : Tcp_Alloc → nat → bool * bool) (secret_key : bytes) (onion forwarding : bool) : TCP_Server :=
  mkTCPServer rng mem 1 [] onion forwarding secret_key (replicate 256 zero_connection) 0 (replicate 256 zero_connection) 0 [] 0 0
    (bs_list_init (mem AllocOther 0%nat).1 (mem AllocOther 0%nat).2 CRYPTO_PUBLIC_KEY_SIZE 8).2.
End server.
