(* ===== verification/TcpRelay.v ===== *)
(** * TcpRelay: what holds in every state of a relay

    The links between the slots of clients are mutual, the table of keys lists
    exactly the accepted clients, and nothing is accessed outside its array,
    whatever clients send and whatever fails. *)
From S2P Require Import Prelude Util MonoTime CryptoCore Network BsList World DhtPackets Onion TcpCommon TcpStream TcpServer.

(** ** Links *)

(** The part of a connection that routing is about. *)
Record Core := mkCore {
  co_status : Z;
  co_key : bytes;
  co_slots : list TCP_Secure_Conn;
  co_wired : bool;            (** the pointer to the network is set *)
  co_identifier : Z
}.

Definition core_of (c : TCP_Secure_Connection) : Core :=
  mkCore (sn_status c) (sn_public_key c) (sn_connections c) (tc_ns (sn_con c)) (sn_identifier c).
Definition zero_core : Core := core_of zero_connection.

Definition slot (A : list Core) (i c : nat) : option TCP_Secure_Conn := k ← A !! i; co_slots k !! c.

Definition put_slots (A : list Core) (i c : nat) (l : TCP_Secure_Conn) : list Core :=
  alter (λ k, mkCore (co_status k) (co_key k) (<[c := l]> (co_slots k)) (co_wired k) (co_identifier k)) i A.

Definition unlinked (slots : list TCP_Secure_Conn) : Prop := Forall (λ l, cl_status l = 0) slots.

(** [l] in slot [c] of client [i] and [l'] in slot [d] of client [j] point at each
    other. *)
Definition linked (A : list Core) (i c : nat) (l : TCP_Secure_Conn) (j d : nat) (l' : TCP_Secure_Conn) : Prop :=
  slot A i c = Some l ∧ slot A j d = Some l' ∧ cl_status l = 2 ∧ cl_status l' = 2 ∧
  cl_index l = Z.of_nat j ∧ cl_other_id l = Z.of_nat d ∧ cl_index l' = Z.of_nat i ∧ cl_other_id l' = Z.of_nat c ∧ i ≠ j ∧
  co_key <$> A !! j = Some (cl_public_key l).

Definition links_ok (A : list Core) : Prop :=
  ∀ i c l, slot A i c = Some l → cl_status l = 2 → ∃ j d l', linked A i c l j d l'.

Lemma slot_put A i c l j d : is_Some (slot A i c) →
  slot (put_slots A i c l) j d = if decide (i = j ∧ c = d) then Some l else slot A j d.
Proof.
  intros [l0 Hs]. unfold slot, put_slots in *. destruct (A !! i) as [k|] eqn:Ek; [|done]. cbn [mbind option_bind] in Hs.
  pose proof (lookup_lt_Some _ _ _ Hs) as Hc.
  destruct (decide (i = j)) as [<-|Hne].
  - rewrite list_lookup_alter_eq, Ek. cbn [fmap option_fmap option_map mbind option_bind co_slots].
    destruct (decide (c = d)) as [<-|Hne]; [rewrite decide_True by done; by rewrite list_lookup_insert_eq|].
    rewrite decide_False by tauto. by rewrite list_lookup_insert_ne.
  - rewrite decide_False by tauto. by rewrite list_lookup_alter_ne.
Qed.

Lemma key_put A i c l j : co_key <$> put_slots A i c l !! j = co_key <$> A !! j.
Proof.
  unfold put_slots. destruct (decide (i = j)) as [<-|Hne]; [|by rewrite list_lookup_alter_ne].
  rewrite list_lookup_alter_eq. by destruct (A !! i).
Qed.

(** Both ends of a link determine each other. *)
Lemma linked_sym A i c l j d l' : links_ok A → linked A i c l j d l' → linked A j d l' i c l.
Proof.
  intros HA (H1 & H2 & H3 & H4 & H5 & H6 & H7 & H8 & H9 & H10).
  destruct (HA j d l' H2 H4) as (i' & c' & l'' & (G1 & G2 & G3 & G4 & G5 & G6 & G7 & G8 & G9 & G10)).
  assert (i' = i) as -> by lia. assert (c' = c) as -> by lia. rewrite H1 in G2. injection G2 as ->. by split_and!.
Qed.

(** A slot that is not linked gets another content that is not linked. *)
Lemma links_put A i c l0 l : links_ok A → slot A i c = Some l0 → cl_status l0 ≠ 2 → cl_status l ≠ 2 → links_ok (put_slots A i c l).
Proof.
  intros HA H0 N0 N1 i' c' l' Hs H2. rewrite slot_put in Hs by done. destruct (decide _) as [[<- <-]|Hn]; [congruence|].
  destruct (HA i' c' l' Hs H2) as (j & d & l'' & (G1 & G2 & G3 & G4 & G5 & G6 & G7 & G8 & G9 & G10)).
  exists j, d, l''. unfold linked. rewrite !slot_put, key_put by done.
  rewrite (decide_False (P := i = i' ∧ c = c')) by done. rewrite decide_False; [done|]. intros [-> ->]. congruence.
Qed.

(** Two slots that are not linked are linked with each other. *)
Lemma links_join A i c l0 l j d m0 m : links_ok A → slot A i c = Some l0 → cl_status l0 ≠ 2 → slot A j d = Some m0 → cl_status m0 ≠ 2 →
  i ≠ j → cl_status l = 2 → cl_index l = Z.of_nat j → cl_other_id l = Z.of_nat d → cl_status m = 2 → cl_index m = Z.of_nat i →
  cl_other_id m = Z.of_nat c → co_key <$> A !! j = Some (cl_public_key l) → co_key <$> A !! i = Some (cl_public_key m) →
  links_ok (put_slots (put_slots A i c l) j d m).
Proof.
  intros HA S1 N1 S2 N2 Hij L1 L2 L3 M1 M2 M3 K1 K2.
  assert (∀ i' c', slot (put_slots (put_slots A i c l) j d m) i' c' =
    if decide (j = i' ∧ d = c') then Some m else if decide (i = i' ∧ c = c') then Some l else slot A i' c') as E.
  { intros i' c'. rewrite slot_put; [by rewrite slot_put|]. rewrite slot_put by done. rewrite decide_False; [done|]. intros [-> _]. done. }
  intros i' c' l' Hs H2. rewrite E in Hs. unfold linked. destruct (decide _) as [[<- <-]|Hn1]; [|destruct (decide _) as [[<- <-]|Hn2]].
  - injection Hs as <-. exists i, c, l. rewrite !E, !key_put. rewrite !decide_True by done. rewrite decide_False by (intros [-> _]; done).
    rewrite ?decide_True by done. split_and!; try done.
  - injection Hs as <-. exists j, d, m. rewrite !E, !key_put. rewrite decide_False by (intros [-> _]; done). rewrite !decide_True by done. split_and!; try done.
  - destruct (HA i' c' l' Hs H2) as (j' & d' & l'' & (G1 & G2 & G3 & G4 & G5 & G6 & G7 & G8 & G9 & G10)).
    exists j', d', l''. rewrite !E, !key_put. rewrite (decide_False (P := j = i' ∧ d = c')), (decide_False (P := i = i' ∧ c = c')) by done.
    rewrite !decide_False; [done|intros [-> ->]; congruence|intros [-> ->]; congruence].
Qed.

(** The two ends of a link are separated. *)
Lemma links_cut A i c l j d l' x y : links_ok A → linked A i c l j d l' → cl_status x ≠ 2 → cl_status y ≠ 2 →
  links_ok (put_slots (put_slots A j d x) i c y).
Proof.
  intros HA HL Nx Ny. pose proof HL as (S1 & S2 & L1 & L2 & L3 & L4 & L5 & L6 & Hij & K).
  assert (∀ i' c', slot (put_slots (put_slots A j d x) i c y) i' c' =
    if decide (i = i' ∧ c = c') then Some y else if decide (j = i' ∧ d = c') then Some x else slot A i' c') as E.
  { intros i' c'. rewrite slot_put; [by rewrite slot_put|]. rewrite slot_put by done. rewrite decide_False; [done|]. intros [-> _]. done. }
  intros i' c' m Hs H2. rewrite E in Hs. destruct (decide _) as [[<- <-]|Hn1]; [congruence|]. destruct (decide _) as [[<- <-]|Hn2]; [congruence|].
  destruct (HA i' c' m Hs H2) as (j' & d' & m' & HM). pose proof HM as (G1 & G2 & G3 & G4 & G5 & G6 & G7 & G8 & G9 & G10).
  exists j', d', m'. unfold linked. rewrite !E, !key_put. rewrite (decide_False (P := i = i' ∧ c = c')), (decide_False (P := j = i' ∧ d = c')) by done.
  rewrite !decide_False; [done| |].
  - intros [-> ->]. assert (m' = l') as -> by congruence. apply Hn1. lia.
  - intros [-> ->]. assert (m' = l) as -> by congruence. apply Hn2. lia.
Qed.

(** Nobody is linked with a client all of whose slots are unlinked: it can be
    replaced by another such client. *)
Lemma links_replace A i k k' : links_ok A → A !! i = Some k → unlinked (co_slots k) → unlinked (co_slots k') → links_ok (<[i := k']> A).
Proof.
  intros HA Hk U U' i' c' l' Hs H2. pose proof (lookup_lt_Some _ _ _ Hk) as Hi.
  assert (∀ c l, slot A i c = Some l → cl_status l = 0) as U1.
  { intros c l E. unfold slot in E. rewrite Hk in E. cbn in E. by apply (proj1 (list.Forall_lookup _ _) U c). }
  destruct (decide (i = i')) as [<-|Hne].
  - unfold slot in Hs. rewrite list_lookup_insert_eq in Hs by done. cbn in Hs. pose proof (proj1 (list.Forall_lookup _ _) U' c' _ Hs). cbv beta in *. lia.
  - assert (∀ j d, j ≠ i → slot (<[i:=k']> A) j d = slot A j d) as Es by (intros j d Hj; unfold slot; by rewrite list_lookup_insert_ne).
    rewrite Es in Hs by done. destruct (HA i' c' l' Hs H2) as (j & d & l'' & HM). pose proof HM as (G1 & G2 & G3 & G4 & G5 & G6 & G7 & G8 & G9 & G10).
    assert (j ≠ i) as Hj. { intros ->. apply U1 in G2. lia. }
    exists j, d, l''. unfold linked. rewrite !Es, list_lookup_insert_ne by done. done.
Qed.

Lemma relay_links_app A B : links_ok A → Forall (λ k, unlinked (co_slots k)) B → links_ok (A ++ B).
Proof.
  intros HA HB i c l Hs H2. assert (∀ j d x, slot (A ++ B) j d = Some x → slot A j d = Some x ∨ cl_status x = 0) as E.
  { intros j d x E. unfold slot in *. rewrite lookup_app in E. destruct (A !! j) as [k|]; [by left|]. right.
    destruct (B !! (j - length A)%nat) as [k|] eqn:Eb; [|done]. cbn in E.
    pose proof (proj1 (list.Forall_lookup _ _) HB _ _ Eb) as Hu. by apply (proj1 (list.Forall_lookup _ _) Hu d). }
  destruct (E i c l Hs) as [Hs'|]; [|lia]. destruct (HA i c l Hs' H2) as (j & d & l' & (G1 & G2 & G3 & G4 & G5 & G6 & G7 & G8 & G9 & G10)).
  exists j, d, l'. unfold linked, slot in *. destruct (A !! i) as [ki|] eqn:Ei; [|done]. destruct (A !! j) as [kj|] eqn:Ej; [|done].
  rewrite !lookup_app, Ei, Ej. done.
Qed.

(** ** The invariant *)

Definition conn_ok (c : TCP_Secure_Connection) : Prop :=
  length (sn_connections c) = 240%nat ∧ unlinked (sn_connections c) ∧ zlen (sn_public_key c) = 32 ∧
  (sn_status c ≠ 0 → tc_ns (sn_con c) = true).

Definition queue_ok (q : list TCP_Secure_Connection) : Prop := length q = 256%nat ∧ Forall conn_ok q.

(** A free slot has no identifier, a client has a connection to the network. *)
Definition core_live (k : Core) : Prop := (co_status k = 0 → co_identifier k = 0) ∧ (co_status k ≠ 0 → co_wired k = true).

Definition core_ok (k : Core) : Prop :=
  length (co_slots k) = 240%nat ∧ zlen (co_key k) = 32 ∧ (co_status k = 0 → unlinked (co_slots k)) ∧ core_live k.

Definition active (k : Core) : Z := if co_status k =? 0 then 0 else 1.

(** The number of clients. *)
Fixpoint nconf (A : list Core) : Z :=
  match A with
  | [] => 0
  | k :: A' => active k + nconf A'
  end.

Definition keys_ok (A : list Core) (m : gmap bytes Z) : Prop :=
  ∀ k j, m !! k = Some j ↔ ∃ i c, j = Z.of_nat i ∧ A !! i = Some c ∧ co_status c ≠ 0 ∧ co_key c = k.

(** What of the state of the server matters for routing. *)
Record View := mkView {
  v_cores : list Core;
  v_num : Z;
  v_keys : BS_List;
  v_incoming : list TCP_Secure_Connection;
  v_unconfirmed : list TCP_Secure_Connection;
  v_incoming_index : Z;
  v_unconfirmed_index : Z;
  v_mem : Tcp_Alloc → nat → bool * bool;
  v_inbox : list bytes       (** what arrived from the clients and was not read *)
}.

#[export] Instance eta_View : Eta View := λ v,
  mkView (v_cores v) (v_num v) (v_keys v) (v_incoming v) (v_unconfirmed v) (v_incoming_index v) (v_unconfirmed_index v) (v_mem v) (v_inbox v).

Definition inbox_of (c : TCP_Secure_Connection) : bytes := so_recv (tc_sock (sn_con c)).

Definition view (s : TCP_Server) : View :=
  mkView (map core_of (ts_accepted s)) (ts_num_accepted s) (ts_key_list s) (ts_incoming s) (ts_unconfirmed s)
    (ts_incoming_index s) (ts_unconfirmed_index s) (ts_mem s) (map inbox_of (ts_accepted s)).

Record routes_ok (v : View) : Prop := {
  ro_cores : Forall core_ok (v_cores v);
  ro_links : links_ok (v_cores v);
  ro_keys : keys_ok (v_cores v) (to_map (v_keys v));
  ro_table : wf (v_keys v) ∧ bl_element_size (v_keys v) = 32 ∧ bl_n (v_keys v) = v_num v;
  ro_num : v_num v = nconf (v_cores v);
  ro_size : zlen (v_cores v) < 2 ^ 32;
  ro_mem : ∀ n, (v_mem v AllocShrink n).1 = false ∨ (v_mem v AllocShrink n).2 = true
}.

Record view_ok (v : View) : Prop := {
  vo_routes : routes_ok v;
  vo_queues : queue_ok (v_incoming v) ∧ queue_ok (v_unconfirmed v);
  vo_indices : 0 <= v_incoming_index v ∧ 0 <= v_unconfirmed_index v
}.

Ltac view_fields := cbn [set_field v_cores v_num v_keys v_incoming v_unconfirmed v_incoming_index v_unconfirmed_index v_mem v_inbox
  co_status co_key co_slots co_wired co_identifier] in *.

Lemma map_store {A B} (f : A → B) (l : list A) i x x0 : l !! i = Some x0 → f x = f x0 → map f (<[i := x]> l) = map f l.
Proof.
  intros E Ef. change (map f) with (fmap (M := list) f). rewrite list_fmap_insert, Ef. apply list_insert_id. by rewrite list_lookup_fmap, E.
Qed.

(** ** Running code of the server *)

(** [m] does not run into undefined behaviour and ends in [Q]. *)
Definition runs {A} (m : TS A) (s : TCP_Server) (Q : A → TCP_Server → Prop) : Prop := ∃ x s', m s = Some (x, s') ∧ Q x s'.

Lemma runs_bind {A B} (m : TS A) (f : A → TS B) s Q : runs m s (λ x s', runs (f x) s' Q) → runs (m ≫= f) s Q.
Proof. intros (x & s' & E & y & s'' & E' & H). exists y, s''. split; [|done]. unfold mbind, TS_bind. rewrite E. cbn. exact E'. Qed.

Lemma runs_ret {A} (x : A) s (Q : A → TCP_Server → Prop) : Q x s → runs (mret x) s Q.
Proof. intros H. by exists x, s. Qed.

Lemma runs_server {B} (f : TCP_Server → TS B) s Q : runs (f s) s Q → runs (server ≫= f) s Q.
Proof. intros (x & s' & E & H). by exists x, s'. Qed.

Lemma runs_update {B} g (f : unit → TS B) s Q : runs (f tt) (g s) Q → runs (update g ≫= f) s Q.
Proof. intros (x & s' & E & H). by exists x, s'. Qed.

Lemma runs_conseq {A} (m : TS A) s (Q Q' : A → TCP_Server → Prop) : runs m s Q → (∀ x s', Q x s' → Q' x s') → runs m s Q'.
Proof. intros (x & s' & E & H) HQ. exists x, s'. split; [done|by apply HQ]. Qed.

Lemma runs_allocate {B} what (f : bool * bool → TS B) s Q :
  runs (f (ts_mem s what (ts_mem_calls s))) (s <| ts_mem_calls := S (ts_mem_calls s) |>) Q → runs (allocate what ≫= f) s Q.
Proof. intros (x & s' & E & H). by exists x, s'. Qed.

Lemma runs_ns {B} used con (f : unit → TS B) s Q : tc_ns con = true → runs (f tt) s Q → runs (through_ns used con ≫= f) s Q.
Proof. intros E (x & s' & E' & H). exists x, s'. split; [|done]. unfold through_ns. rewrite E, andb_false_r. exact E'. Qed.

Lemma runs_at {A B} (l : list A) (i : nat) x (f : A → TS B) s Q : l !! i = Some x → runs (f x) s Q → runs (at_index l (Z.of_nat i) ≫= f) s Q.
Proof.
  intros E (y & s' & E' & H). exists y, s'. split; [|done]. unfold mbind, TS_bind, at_index. replace (_ <? 0) with false by lia.
  rewrite Nat2Z.id, E. cbn. exact E'.
Qed.

Lemma runs_accepted {B} i c (f : TCP_Secure_Connection → TS B) s Q : ts_accepted s !! i = Some c → runs (f c) s Q →
  runs (accepted (Z.of_nat i) ≫= f) s Q.
Proof.
  intros E H. destruct (runs_at (ts_accepted s) i c f s Q E H) as (y & s' & E' & H'). exists y, s'. split; [|done].
  unfold mbind, TS_bind, accepted in *. cbn in *. exact E'.
Qed.

Lemma runs_put {B} i c c0 (f : unit → TS B) s Q : ts_accepted s !! i = Some c0 →
  runs (f tt) (s <| ts_accepted := <[i := c]> (ts_accepted s) |>) Q → runs (put_accepted (Z.of_nat i) c ≫= f) s Q.
Proof.
  intros E H. destruct (runs_accepted i c0 (λ _, update (λ s, s <| ts_accepted := aset (ts_accepted s) (Z.of_nat i) c |>)) s
    (λ x s', s' = s <| ts_accepted := <[i := c]> (ts_accepted s) |>) E) as ([] & s1 & E1 & ->).
  { exists tt. eexists. split; [reflexivity|]. unfold aset. by rewrite Nat2Z.id. }
  apply runs_bind. exists tt. eexists. split; [exact E1|exact H].
Qed.

(** A change of a connection that routing does not see. *)
Lemma view_put s i c c0 : ts_accepted s !! i = Some c0 → core_of c = core_of c0 → inbox_of c = inbox_of c0 →
  view (s <| ts_accepted := <[i := c]> (ts_accepted s) |>) = view s.
Proof.
  intros E Ec Ei. unfold view. cbn [set_field ts_accepted ts_num_accepted ts_key_list ts_incoming ts_unconfirmed ts_incoming_index ts_unconfirmed_index ts_mem].
  by rewrite (map_store core_of _ i c c0 E Ec), (map_store inbox_of _ i c c0 E Ei).
Qed.

Lemma cores_lookup s i k : v_cores (view s) !! i = Some k → ∃ c, ts_accepted s !! i = Some c ∧ core_of c = k.
Proof. unfold view. view_fields. change (map core_of) with (fmap (M := list) core_of). rewrite list_lookup_fmap. destruct (ts_accepted s !! i) as [c|]; [|done]. intros [= <-]. by exists c. Qed.

Lemma lookup_cores s i c : ts_accepted s !! i = Some c → v_cores (view s) !! i = Some (core_of c).
Proof. intros E. unfold view. view_fields. change (map core_of) with (fmap (M := list) core_of). by rewrite list_lookup_fmap, E. Qed.

Lemma size_cores s : size_accepted s = zlen (v_cores (view s)).
Proof. unfold size_accepted, view, zlen. view_fields. by rewrite length_map. Qed.

(** Sending leaves what arrived alone. *)
Lemma queue_recv q : ∀ s, so_recv (send_queue q s).2 = so_recv s.
Proof.
  induction q as [|p q IH]; intros s; cbn [send_queue]; [done|]. unfold net_send. destruct (negb _); [done|]. rewrite IH. done.
Qed.

Lemma pending_recv c : so_recv (tc_sock (send_pending_data c).2) = so_recv (tc_sock c).
Proof.
  unfold send_pending_data. assert (so_recv (tc_sock (send_pending_data_nonpriority c).2) = so_recv (tc_sock c)) as H.
  { unfold send_pending_data_nonpriority, net_send. destruct (_ =? 0); [done|]. destruct (_ <=? 0); [done|]. by destruct (_ =? _). }
  destruct (send_pending_data_nonpriority c) as [r c1]. cbn [snd] in H. destruct (r =? -1); [done|].
  pose proof (queue_recv (tc_priority_queue c1) (tc_sock c1)) as H1. destruct (send_queue _ _) as [q s]. cbn in *. by rewrite H1.
Qed.

Lemma pending_ns c : tc_ns (send_pending_data c).2 = tc_ns c.
Proof.
  unfold send_pending_data. assert (tc_ns (send_pending_data_nonpriority c).2 = tc_ns c) as H.
  { unfold send_pending_data_nonpriority, net_send. destruct (_ =? 0); [done|]. destruct (_ <=? 0); [done|]. by destruct (_ =? _). }
  destruct (send_pending_data_nonpriority c) as [r c1]. cbn [snd] in H. destruct (r =? -1); [done|]. by destruct (send_queue _ _) as [q s].
Qed.

Section relay.
Context {S : Sodium}.

Lemma write_ns alloc enc con d n p : tc_ns (write_packet_TCP_secure_connection alloc enc con d n p).2 = tc_ns con.
Proof.
  unfold write_packet_TCP_secure_connection. destruct (_ <? _); [done|]. pose proof (pending_ns con) as H. destruct (send_pending_data con) as [q c1].
  cbn [snd] in H. destruct (_ && _); [done|]. destruct (encrypt_data_symmetric _ _ _ _ _) as [len e]. destruct (negb _); [done|]. destruct p.
  - unfold write_priority, net_send. destruct (negb (q =? -1)); cbv beta iota zeta; destruct (Z.eqb _ _), alloc; done.
  - unfold write_nonpriority, net_send. cbv beta iota zeta. destruct (_ <=? 0); [done|]. by destruct (Z.eqb _ _).
Qed.

(** What writing leaves of a connection. *)
Lemma core_con c x : tc_ns x = tc_ns (sn_con c) → core_of (c <| sn_con := x |>) = core_of c.
Proof. intros E. unfold core_of. cbn. by rewrite E. Qed.

Lemma write_recv alloc enc con d n p : so_recv (tc_sock (write_packet_TCP_secure_connection alloc enc con d n p).2) = so_recv (tc_sock con).
Proof.
  unfold write_packet_TCP_secure_connection. destruct (_ <? _); [done|]. pose proof (pending_recv con) as H. destruct (send_pending_data con) as [q c1].
  cbn [snd] in H. destruct (_ && _); [done|]. destruct (encrypt_data_symmetric _ _ _ _ _) as [len e]. destruct (negb _); [done|]. destruct p.
  - unfold write_priority, net_send. destruct (negb (q =? -1)); cbv beta iota zeta; destruct (Z.eqb _ _), alloc; done.
  - unfold write_nonpriority, net_send. cbv beta iota zeta. destruct (_ <=? 0); [done|]. by destruct (Z.eqb _ _).
Qed.

Lemma write_runs i d p s c : ts_accepted s !! i = Some c → tc_ns (sn_con c) = true →
  runs (write_to (Z.of_nat i) d p) s (λ _ s', view s' = view s).
Proof.
  intros E Hns. unfold write_to. apply (runs_accepted i c); [done|]. apply runs_allocate. set (mem := ts_mem s AllocOther (ts_mem_calls s)).
  pose proof (write_recv mem.1 mem.2 (sn_con c) d (zlen d) p) as Hx. pose proof (write_ns mem.1 mem.2 (sn_con c) d (zlen d) p) as Hn.
  destruct (write_packet_TCP_secure_connection _ _ _ _ _ _) as [ret x]. apply runs_ns; [done|].
  apply (runs_put i _ c); [done|]. apply runs_ret.
  exact (view_put (s <| ts_mem_calls := Datatypes.S (ts_mem_calls s) |>) i (c <| sn_con := x |>) c E (core_con c x Hn) Hx).
Qed.

(** A client has its connection to the network. *)
Lemma client_wired A i k : Forall core_ok A → A !! i = Some k → co_status k ≠ 0 → co_wired k = true.
Proof. intros HA Hk Hs. pose proof (proj1 (list.Forall_lookup _ _) HA i k Hk) as (_ & _ & _ & _ & H). by apply H. Qed.

Lemma write_core i d p s k : v_cores (view s) !! i = Some k → co_wired k = true →
  runs (write_to (Z.of_nat i) d p) s (λ _ s', view s' = view s).
Proof. intros E Hw. apply cores_lookup in E as (c & E & <-). by apply (write_runs i d p s c). Qed.

(** Reading and writing a slot. *)
Lemma runs_slot {B} i c l (f : TCP_Secure_Conn → TS B) s Q : slot (v_cores (view s)) i c = Some l → runs (f l) s Q →
  runs (conn_slot (Z.of_nat i) (Z.of_nat c) ≫= f) s Q.
Proof.
  intros E H. unfold slot in E. destruct (v_cores (view s) !! i) as [k|] eqn:Ek; [|done]. cbn in E.
  apply cores_lookup in Ek as (con & Ec & <-). unfold conn_slot. apply runs_bind. apply (runs_accepted i con); [done|].
  unfold at_index. replace (_ <? 0) with false by lia. rewrite Nat2Z.id. eexists _, _. cbn in E. rewrite E. split; [reflexivity|exact H].
Qed.

Lemma runs_put_slot {B} i c l l0 (f : unit → TS B) s Q : slot (v_cores (view s)) i c = Some l0 →
  (∀ s', view s' = (view s) <| v_cores := put_slots (v_cores (view s)) i c l |> → runs (f tt) s' Q) →
  runs (put_slot (Z.of_nat i) (Z.of_nat c) l ≫= f) s Q.
Proof.
  intros E H. pose proof E as E0. unfold slot in E. destruct (v_cores (view s) !! i) as [k|] eqn:Ek; [|done]. cbn in E.
  apply cores_lookup in Ek as (con & Ec & <-). unfold put_slot. apply runs_bind. apply (runs_accepted i con); [done|].
  apply (runs_at (sn_connections con) c l0); [done|].
  pose proof (runs_put i (con <| sn_connections := aset (sn_connections con) (Z.of_nat c) l |>) con (λ _, mret tt) s
    (λ _ s', s' = s <| ts_accepted := <[i := con <| sn_connections := aset (sn_connections con) (Z.of_nat c) l |> ]> (ts_accepted s) |>) Ec) as (x & s' & E1 & ->).
  { apply runs_ret. done. }
  unfold mbind, TS_bind in E1. destruct (put_accepted _ _ s) as [[y s1]|] eqn:E2; [|done]. cbn in E1. injection E1 as <- ->.
  eexists _, _. split; [exact E2|]. destruct y. apply H. unfold view.
  cbn [set_field ts_accepted ts_num_accepted ts_key_list ts_incoming ts_unconfirmed ts_incoming_index ts_unconfirmed_index ts_mem]. view_fields.
  rewrite (map_store inbox_of _ i _ con Ec) by done.
  f_equal. change (map core_of) with (fmap (M := list) core_of). rewrite list_fmap_insert. unfold put_slots, aset. rewrite Nat2Z.id.
  apply list_eq. intros j. destruct (decide (i = j)) as [<-|Hne].
  - rewrite list_lookup_insert_eq by (rewrite length_fmap; by eapply lookup_lt_Some). rewrite list_lookup_alter_eq, list_lookup_fmap, Ec. done.
  - by rewrite list_lookup_insert_ne, list_lookup_alter_ne.
Qed.

(** ** Cutting links *)

Definition heads (A : list Core) : list (Z * bytes) := (λ k, (co_status k, co_key k)) <$> A.

Lemma heads_put A i c l : heads (put_slots A i c l) = heads A.
Proof.
  apply list_eq. intros j. unfold heads, put_slots. rewrite !list_lookup_fmap.
  destruct (decide (i = j)) as [<-|Hne]; [rewrite list_lookup_alter_eq; by destruct (A !! i)|by rewrite list_lookup_alter_ne].
Qed.

Lemma keys_heads A A' m : heads A = heads A' → keys_ok A m → keys_ok A' m.
Proof.
  intros E H k j. rewrite (H k j). split; intros (i & c & -> & Hi & Hs & <-); apply (f_equal (lookup i)) in E; unfold heads in E;
    rewrite !list_lookup_fmap, Hi in E; cbn in E; [destruct (A' !! i) as [c'|] eqn:Ei|destruct (A !! i) as [c'|] eqn:Ei]; try done;
    cbn in E; injection E as E1 E2; exists i, c'; (split; [done|]); (split; [done|]); split; congruence.
Qed.

Lemma nconf_heads A A' : heads A = heads A' → nconf A = nconf A'.
Proof.
  revert A'. induction A as [|k A IH]; intros [|k' A'] E; try done. cbn [heads fmap list_fmap] in E. injection E as E1 _ E2.
  cbn [nconf]. unfold active. rewrite E1, (IH A' E2). done.
Qed.

Lemma cores_put A i c l l0 : Forall core_ok A → slot A i c = Some l0 →
  (∀ k, A !! i = Some k → co_status k = 0 → cl_status l = 0) → Forall core_ok (put_slots A i c l).
Proof.
  intros HA Hs Hz. apply list.Forall_lookup. intros j k Hk. unfold put_slots in Hk. destruct (decide (i = j)) as [<-|Hne].
  - rewrite list_lookup_alter_eq in Hk. destruct (A !! i) as [k0|] eqn:Ek; [|done]. cbn in Hk. injection Hk as <-.
    pose proof (proj1 (list.Forall_lookup _ _) HA i k0 Ek) as (H1 & H2 & H3 & H4). split_and!; view_fields; [by rewrite length_insert|done| |exact H4].
    intros E0. apply list.Forall_insert; [by apply H3|by apply (Hz k0)].
  - rewrite list_lookup_alter_ne in Hk by done. by apply (proj1 (list.Forall_lookup _ _) HA j k).
Qed.

(** A slot that is in use belongs to a client that is there. *)
Lemma used_active A i c l k : Forall core_ok A → slot A i c = Some l → cl_status l ≠ 0 → A !! i = Some k → co_status k ≠ 0.
Proof.
  intros HA Hs Hn Hk Hz. pose proof (proj1 (list.Forall_lookup _ _) HA i k Hk) as (_ & _ & Hu & _). unfold slot in Hs. rewrite Hk in Hs. cbn in Hs.
  pose proof (proj1 (list.Forall_lookup _ _) (Hu Hz) c l Hs). done.
Qed.

Lemma routes_cores v A : routes_ok v → heads A = heads (v_cores v) → Forall core_ok A → links_ok A → routes_ok (v <| v_cores := A |>).
Proof.
  intros [H1 H2 H3 H4 H5 HZ H6] Eh Hc Hl. split; view_fields; try done; [by apply (keys_heads (v_cores v))|by rewrite (nconf_heads A (v_cores v))|].
  apply (f_equal zlen) in Eh. unfold heads, zlen in *. rewrite !length_fmap in Eh. lia.
Qed.

Lemma routes_inbox v q : routes_ok v → routes_ok (v <| v_inbox := q |>).
Proof. intros [H1 H2 H3 H4 H5 HZ H6]. by split. Qed.

(** The invariant of the routes does not see what is not in these fields. *)
Lemma routes_same v v' : routes_ok v → v_cores v' = v_cores v ∧ v_num v' = v_num v ∧ v_keys v' = v_keys v ∧ v_mem v' = v_mem v → routes_ok v'.
Proof. intros [H1 H2 H3 H4 H5 HZ H6] (E1 & E2 & E3 & E4). by split; rewrite ?E1, ?E2, ?E3, ?E4. Qed.

Definition freed (l : TCP_Secure_Conn) : TCP_Secure_Conn := l <| cl_index := 0 |> <| cl_other_id := 0 |> <| cl_status := 0 |>.

(** What [rm_connection_index] leaves of the slots. *)
Definition cuts (A A' : list Core) (i c : nat) : Prop :=
  heads A' = heads A ∧ (∀ l, slot A' i c = Some l → cl_status l = 0) ∧
  (∀ c' l, slot A' i c' = Some l → slot A i c' = Some l ∨ cl_status l = 0).

(** The end of [rm_connection_index], when the other side has been told. *)
Lemma clear_runs v s' A1 i c l : routes_ok v → view s' = v <| v_cores := A1 |> → slot A1 i c = Some l → heads A1 = heads (v_cores v) →
  Forall core_ok (put_slots A1 i c (freed l)) → links_ok (put_slots A1 i c (freed l)) →
  (∀ c' l', slot A1 i c' = Some l' → slot (v_cores v) i c' = Some l' ∨ cl_status l' = 0) →
  runs (l ← conn_slot (Z.of_nat i) (Z.of_nat c); put_slot (Z.of_nat i) (Z.of_nat c) (freed l);; mret 0) s' (λ r s'', ∃ A', view s'' = v <| v_cores := A' |> ∧
    routes_ok (v <| v_cores := A' |>) ∧ cuts (v_cores v) A' i c).
Proof.
  intros H V1 S1 Hh C1 L1 O1. apply (runs_slot i c l); [by rewrite V1|]. apply (runs_put_slot i c _ l); [by rewrite V1|].
  intros s'' V2. apply runs_ret. rewrite V1 in V2. view_fields. exists (put_slots A1 i c (freed l)). split; [exact V2|].
  assert (heads (put_slots A1 i c (freed l)) = heads (v_cores v)) as Hh' by (by rewrite heads_put).
  split; [by apply (routes_cores v)|]. split; [done|]. split.
  - intros l' Hl'. rewrite slot_put in Hl' by done. rewrite decide_True in Hl' by done. by injection Hl' as <-.
  - intros c' l' Hl'. rewrite slot_put in Hl' by done. destruct (decide _); [right; by injection Hl' as <-|]. by apply O1.
Qed.

Lemma rm_runs s i c : routes_ok (view s) → is_Some (v_cores (view s) !! i) → (c < 240)%nat →
  runs (rm_connection_index (Z.of_nat i) (Z.of_nat c)) s (λ r s', ∃ A', view s' = (view s) <| v_cores := A' |> ∧
    routes_ok ((view s) <| v_cores := A' |>) ∧ cuts (v_cores (view s)) A' i c).
Proof.
  intros H [k Hk] Hc. pose proof H as [Hco Hli _ _ _ _ _]. set (A := v_cores (view s)) in *.
  pose proof (proj1 (list.Forall_lookup _ _) Hco i k Hk) as (Hlen & _ & _).
  destruct (lookup_lt_is_Some_2 (co_slots k) c ltac:(lia)) as [l El]. assert (slot A i c = Some l) as Hs by (unfold slot; by rewrite Hk).
  unfold rm_connection_index. change NUM_CLIENT_CONNECTIONS with 240. replace (240 <=? _) with false by lia. apply (runs_slot i c l); [exact Hs|].
  destruct (cl_status l =? 0) eqn:E0; cbn [negb].
  { apply runs_ret. exists A. split; [by destruct (view s)|]. split; [by destruct (view s)|]. split; [done|]. split; [|by left].
    intros l' Hl'. assert (l' = l) as -> by congruence. lia. }
  destruct (cl_status l =? 2) eqn:E2.
  - apply Z.eqb_eq in E2. destruct (Hli i c l Hs E2) as (j & d & l' & HL). pose proof HL as (_ & S2 & _ & L2 & I1 & I2 & _ & _ & Hij & _).
    apply runs_server. rewrite size_cores, I1, I2. fold A. unfold slot in S2. destruct (A !! j) as [kj|] eqn:Ekj; [|done]. cbn in S2.
    pose proof (lookup_lt_Some _ _ _ Ekj) as Hlt. replace (zlen A <=? _) with false by (unfold zlen; lia).
    assert (slot A j d = Some l') as Sj by (unfold slot; by rewrite Ekj).
    apply (runs_slot j d l'); [exact Sj|]. apply (runs_put_slot j d _ l'); [exact Sj|]. intros s1 V1. fold A in V1.
    set (m' := l' <| cl_other_id := 0 |> <| cl_index := 0 |> <| cl_status := 1 |>) in *.
    set (A1 := put_slots A j d m') in *.
    assert (slot A1 i c = Some l) as Hs1 by (unfold A1; rewrite slot_put by done; rewrite decide_False; [done|intros [-> _]; done]).
    assert (co_status kj ≠ 0) as Hkj by (apply (used_active A j d l' kj Hco Sj); [lia|done]).
    assert (Forall core_ok A1) as HC1 by (apply (cores_put A j d _ l'); [done|done|intros k' Hk' Hz; congruence]).
    assert (A1 !! j = Some (mkCore (co_status kj) (co_key kj) (<[d := m']> (co_slots kj)) (co_wired kj) (co_identifier kj))) as Hj1
      by (unfold A1, put_slots; by rewrite list_lookup_alter_eq, Ekj).
    apply runs_bind. eapply runs_conseq; [eapply (write_core j); [rewrite V1; exact Hj1|by apply (client_wired A1 j _ HC1 Hj1)]|].
    intros r s2 V2. rewrite V1 in V2. apply (clear_runs (view s) s2 A1 i c l); try done.
    + unfold A1. apply heads_put.
    + by apply (cores_put A1 i c _ l).
    + apply (links_cut A i c l j d l'); done.
    + intros c' x Hx. unfold A1 in Hx. rewrite slot_put in Hx by done. rewrite decide_False in Hx; [by left|]. intros [-> _]. done.
  - apply (clear_runs (view s) s A i c l); try done; [by apply (cores_put A i c _ l)| |by left].
    apply (links_put A i c l); try done. lia.
Qed.

Lemma rm_all_runs n : ∀ s i c, routes_ok (view s) → is_Some (v_cores (view s) !! i) → (c + n = 240)%nat →
  (∀ c' l, (c' < c)%nat → slot (v_cores (view s)) i c' = Some l → cl_status l = 0) →
  runs (rm_all n (Z.of_nat i) (Z.of_nat c)) s (λ _ s', ∃ A', view s' = (view s) <| v_cores := A' |> ∧ routes_ok ((view s) <| v_cores := A' |>) ∧
    heads A' = heads (v_cores (view s)) ∧ ∀ k, A' !! i = Some k → unlinked (co_slots k)).
Proof.
  induction n as [|n IH]; intros s i c H Hi Hn Hz; cbn [rm_all].
  - apply runs_ret. exists (v_cores (view s)). split; [done|]. split; [by destruct (view s)|]. split; [done|]. intros k Hk. apply list.Forall_lookup.
    intros c' l Hl. pose proof (ro_cores _ H) as Hc. pose proof (proj1 (list.Forall_lookup _ _) Hc i k Hk) as (Hlen & _). apply lookup_lt_Some in Hl as Hlt.
    apply (Hz c' l); [lia|]. unfold slot. by rewrite Hk.
  - apply runs_bind. eapply runs_conseq; [apply (rm_runs s i c H Hi); lia|]. intros _ s1 (A1 & V1 & R1 & Hh & Z1 & O1).
    replace (Z.of_nat c + 1) with (Z.of_nat (Datatypes.S c)) by lia.
    eapply runs_conseq; [apply (IH s1 i (Datatypes.S c)); [by rewrite V1| |lia|]|].
    + rewrite V1. view_fields. apply lookup_lt_is_Some_2. apply (f_equal length) in Hh. unfold heads in Hh. rewrite !length_fmap in Hh.
      rewrite Hh. by apply lookup_lt_is_Some_1.
    + rewrite V1. view_fields. intros c' l Hlt Hl. destruct (decide (c' = c)) as [->|Hne]; [by apply Z1|].
      destruct (O1 c' l Hl) as [Ho|Ho]; [|done]. apply (Hz c' l); [lia|done].
    + intros _ s2 (A2 & V2 & R2 & Hh2 & U). rewrite V1 in V2, R2, Hh2. view_fields. exists A2. split_and!; try done. by rewrite Hh2.
Qed.

(** ** Removing a client *)

Lemma nconf_insert A i k k' : A !! i = Some k → nconf (<[i := k']> A) = nconf A - active k + active k'.
Proof.
  revert i. induction A as [|x A IH]; intros [|i] E; try done.
  - injection E as ->. change (active k' + nconf A = active k + nconf A - active k + active k'). lia.
  - change (active x + nconf (<[i := k']> A) = active x + nconf A - active k + active k'). rewrite (IH i E). lia.
Qed.

Lemma nconf_nonneg A : 0 <= nconf A.
Proof. induction A as [|k A IH]; cbn [nconf]; [done|]. unfold active. destruct (_ =? 0); lia. Qed.

Lemma nconf_zero A : nconf A = 0 → ∀ i k, A !! i = Some k → co_status k = 0.
Proof.
  induction A as [|x A IH]; intros H [|i] k E; try done; cbn [nconf] in H; pose proof (nconf_nonneg A); unfold active in H.
  - injection E as ->. destruct (co_status k =? 0) eqn:Ek; lia.
  - apply (IH ltac:(destruct (co_status x =? 0); lia) i k E).
Qed.

Definition same_queues (v v' : View) : Prop :=
  v_incoming v' = v_incoming v ∧ v_unconfirmed v' = v_unconfirmed v ∧ v_incoming_index v' = v_incoming_index v ∧
  v_unconfirmed_index v' = v_unconfirmed_index v ∧ v_mem v' = v_mem v.

Lemma zero_core_ok : core_ok zero_core.
Proof. split_and!; try done. intros _. by apply list.Forall_replicate. Qed.

Lemma zero_conn_ok : conn_ok zero_connection.
Proof. split_and!; try done. by apply list.Forall_replicate. Qed.

(** The client in slot [i] leaves the lists. *)
Lemma routes_remove v i k l : routes_ok v → v_cores v !! i = Some k → co_status k ≠ 0 → unlinked (co_slots k) →
  wf l → bl_element_size l = 32 → bl_n l = bl_n (v_keys v) - 1 → to_map l = delete (co_key k) (to_map (v_keys v)) →
  let A := <[i := zero_core]> (v_cores v) in
  routes_ok (v <| v_cores := if v_num v - 1 =? 0 then [] else A |> <| v_num := v_num v - 1 |> <| v_keys := l |>).
Proof.
  intros [H1 H2 H3 (T1 & T2 & T3) H5 HZ H6] Hk Hs Hu W1 W2 W3 W4 A. pose proof (lookup_lt_Some _ _ _ Hk) as Hi.
  assert (nconf A = v_num v - 1) as Hn.
  { unfold A. rewrite (nconf_insert _ _ k) by done. unfold active. replace (co_status k =? 0) with false by lia. change (co_status zero_core =? 0) with true. cbv iota. lia. }
  assert (keys_ok A (to_map l)) as HK.
  { intros k' j. rewrite W4, lookup_delete_Some, (H3 k' j). split.
    - intros [Hne (i' & c & -> & Hi' & Hc & <-)]. exists i', c. split_and!; try done. unfold A. rewrite list_lookup_insert_ne; [done|].
      intros ->. congruence.
    - intros (i' & c & -> & Hi' & Hc & <-). unfold A in Hi'. destruct (decide (i = i')) as [<-|Hne].
      { rewrite list_lookup_insert_eq in Hi' by done. injection Hi' as <-. done. }
      rewrite list_lookup_insert_ne in Hi' by done. split; [|by exists i', c]. intros E.
      assert (to_map (v_keys v) !! co_key k = Some (Z.of_nat i)) as F1 by (apply H3; by exists i, k).
      assert (to_map (v_keys v) !! co_key k = Some (Z.of_nat i')) as F2 by (apply H3; exists i', c; by rewrite E).
      rewrite F1 in F2. injection F2. lia. }
  assert (Forall core_ok A) as HC.
  { apply list.Forall_insert; [done|apply zero_core_ok]. }
  assert (links_ok A) as HL by (apply (links_replace _ i k); [done|done|done|by apply list.Forall_replicate]).
  destruct (v_num v - 1 =? 0) eqn:E; split; view_fields; try done; try (split_and!; try done; lia); try lia.
  - intros k' j. split; [|intros (i' & c & _ & Hc & _); done]. intros Hm. apply HK in Hm as (i' & c & _ & Hc & Hz & _). exfalso. apply Hz.
    apply (nconf_zero A ltac:(lia) i' c Hc).
  - cbn. lia.
  - unfold A, zlen in *. rewrite length_insert. lia.
Qed.

Lemma del_runs s i k : routes_ok (view s) → v_cores (view s) !! i = Some k → co_status k ≠ 0 → unlinked (co_slots k) →
  runs (del_accepted (Z.of_nat i)) s (λ r s', r = 0 ∧ routes_ok (view s') ∧ same_queues (view s) (view s') ∧
    v_num (view s') = v_num (view s) - 1 ∧ to_map (v_keys (view s')) = delete (co_key k) (to_map (v_keys (view s))) ∧
    zlen (v_cores (view s')) <= zlen (v_cores (view s))).
Proof.
  intros H Hk Hs Hu. pose proof (lookup_lt_Some _ _ _ Hk) as Hi. unfold del_accepted. apply runs_server. rewrite size_cores.
  replace (_ <=? _) with false by (unfold zlen; lia). pose proof Hk as Hk0. apply cores_lookup in Hk0 as (con & Ec & Ek).
  apply (runs_accepted i con); [done|]. assert (sn_status con = co_status k) as Es by (by rewrite <- Ek).
  assert (sn_public_key con = co_key k) as Ep by (by rewrite <- Ek).
  change TCP_STATUS_NO_STATUS with 0. rewrite Es. replace (co_status k =? 0) with false by lia. rewrite Ep.
  pose proof H as [H1 _ H3 (T1 & T2 & T3) H5 _ H6].
  pose proof (proj1 (list.Forall_lookup _ _) H1 i k Hk) as (_ & Hkl & _).
  assert (to_map (v_keys (view s)) !! co_key k = Some (Z.of_nat i)) as Hm by (apply H3; by exists i, k).
  specialize (H6 (ts_mem_calls s)). destruct (v_mem (view s) AllocShrink (ts_mem_calls s)) as [ok1 ok2] eqn:Emem.
  destruct (bs_list_remove_run (v_keys (view s)) ok1 ok2 (co_key k) (Z.of_nat i) T1 ltac:(by rewrite T2) H6) as (b & l & El & W & Eb & Em & Ee & En).
  rewrite bool_decide_true in Eb by done. subst b.
  apply runs_bind. unfold key_list_remove. apply runs_allocate. change (ts_mem s AllocShrink (ts_mem_calls s)) with (v_mem (view s) AllocShrink (ts_mem_calls s)). rewrite Emem.
  apply runs_server. cbn [fst snd]. change (ts_key_list (s <| ts_mem_calls := _ |>)) with (v_keys (view s)). rewrite El. apply runs_update, runs_ret. cbn [negb].
  unfold wipe_secure_connection. rewrite Es. replace (co_status k =? 0) with false by lia. cbn [negb].
  apply (runs_put i _ con); [done|]. apply runs_update, runs_update, runs_ret. split; [done|].
  pose proof (routes_remove (view s) i k l H Hk Hs Hu W ltac:(by rewrite Ee) En Em) as HR. cbv zeta in HR.
  match goal with |- context [view ?x] => assert (view x = (view s) <| v_cores := if v_num (view s) - 1 =? 0 then [] else <[i := zero_core]> (v_cores (view s)) |>
    <| v_num := v_num (view s) - 1 |> <| v_keys := l |> <| v_inbox := v_inbox (view x) |>) as -> end.
  { cbn [set_field ts_num_accepted]. change (ts_num_accepted s) with (v_num (view s)). destruct (v_num (view s) - 1 =? 0); [done|].
    unfold view. cbn [set_field ts_accepted ts_num_accepted ts_key_list ts_incoming ts_unconfirmed ts_incoming_index ts_unconfirmed_index ts_mem].
    view_fields. f_equal. change (map core_of) with (fmap (M := list) core_of). by rewrite list_fmap_insert. }
  split; [apply routes_inbox, HR|]. split; [by split_and!|]. split; [done|]. split; [exact Em|]. view_fields.
  destruct (_ =? 0); unfold zlen; rewrite ?length_insert; cbn; lia.
Qed.

Lemma kill_runs s i k : routes_ok (view s) → v_cores (view s) !! i = Some k →
  runs (kill_accepted (Z.of_nat i)) s (λ _ s', routes_ok (view s') ∧ same_queues (view s) (view s') ∧ v_num (view s') <= v_num (view s) ∧
    (co_status k ≠ 0 → to_map (v_keys (view s')) = delete (co_key k) (to_map (v_keys (view s)))) ∧
    zlen (v_cores (view s')) <= zlen (v_cores (view s))).
Proof.
  intros H Hk. pose proof (lookup_lt_Some _ _ _ Hk) as Hi. unfold kill_accepted. apply runs_server. rewrite size_cores.
  replace (_ <=? _) with false by (unfold zlen; lia). apply runs_bind. change (Z.to_nat NUM_CLIENT_CONNECTIONS) with 240%nat.
  eapply runs_conseq; [apply (rm_all_runs 240 s i 0 H); [done|lia|intros c' l Hc; lia]|].
  intros _ s1 (A1 & V1 & R1 & Hh & U1).
  assert (zlen A1 = zlen (v_cores (view s))) as Z1.
  { apply (f_equal length) in Hh. unfold heads in Hh. rewrite !length_fmap in Hh. unfold zlen. by rewrite Hh. }
  assert (∃ k1, A1 !! i = Some k1 ∧ co_status k1 = co_status k ∧ co_key k1 = co_key k) as (k1 & Hk1 & E1 & E2).
  { apply (f_equal (lookup i)) in Hh. unfold heads in Hh. rewrite !list_lookup_fmap, Hk in Hh. destruct (A1 !! i) as [k1|]; [|done].
    cbn in Hh. injection Hh as Hh1 Hh2. by exists k1. }
  assert (v_cores (view s1) !! i = Some k1) as Hk1' by (by rewrite V1). pose proof Hk1' as Hc. apply cores_lookup in Hc as (con & Ec & Ek).
  apply (runs_accepted i con); [done|]. destruct (decide (co_status k = 0)) as [Hz|Hz].
  - unfold del_accepted. apply runs_bind. apply runs_server. rewrite size_cores. pose proof (lookup_lt_Some _ _ _ Hk1').
    replace (_ <=? _) with false by (unfold zlen; lia). apply (runs_accepted i con); [done|].
    replace (sn_status con =? TCP_STATUS_NO_STATUS) with true by (change (sn_status con) with (co_status (core_of con)); rewrite Ek, E1, Hz; done).
    apply runs_ret. change (negb (-1 =? 0)) with true. cbv iota. apply runs_ret. rewrite V1. split; [done|]. split; [by split_and!|]. split; [view_fields; lia|]. split; [done|]. view_fields. lia.
  - apply runs_bind. eapply runs_conseq; [apply (del_runs s1 i k1); [by rewrite V1|done|by rewrite E1|by apply U1]|].
    intros r s2 (-> & R2 & (Q1 & Q2 & Q3 & Q4 & Q5) & N2 & K2 & Z2). change (negb (0 =? 0)) with false. cbv iota. apply runs_update, runs_ret.
    change (view (s2 <| ts_events := _ |>)) with (view s2). rewrite V1 in *. view_fields. split; [done|]. split; [by split_and!|]. split; [lia|].
    split; [intros _; by rewrite K2, E2|]. lia.
Qed.

Lemma find_runs {B} s k (f : Z → TS B) Q : routes_ok (view s) → zlen k = 32 →
  runs (f (default (-1) (to_map (v_keys (view s)) !! k))) s Q → runs (get_TCP_connection_index k ≫= f) s Q.
Proof.
  intros H Hk (x & s' & E & HQ). destruct (ro_table _ H) as (T1 & T2 & _). exists x, s'. split; [|done].
  unfold mbind, TS_bind, get_TCP_connection_index. change (ts_key_list s) with (v_keys (view s)). rewrite bs_list_find_run by (done || by rewrite T2).
  cbn. exact E.
Qed.

(** A key that is in the table belongs to a client. *)
Lemma found_client v k j : routes_ok v → default (-1) (to_map (v_keys v) !! k) = j → j ≠ -1 →
  ∃ i c, j = Z.of_nat i ∧ v_cores v !! i = Some c ∧ co_status c ≠ 0 ∧ co_key c = k.
Proof.
  intros H E Hn. destruct (to_map (v_keys v) !! k) as [x|] eqn:Em; [|done]. cbn in E. subst x. by apply (ro_keys v H).
Qed.

(** ** Accepting a client *)

Lemma last_free_spec l : ∀ i, 0 <= i → last_free l i = -1 ∨ ∃ n c, last_free l i = i + Z.of_nat n ∧ l !! n = Some c ∧ sn_status c = 0.
Proof.
  induction l as [|c l IH]; intros i Hi; cbn [last_free]; [by left|]. change TCP_STATUS_NO_STATUS with 0. destruct (IH (i + 1) ltac:(lia)) as [->|(n & c' & -> & Hl & Hs)].
  - cbn [Z.eqb Pos.eqb]. destruct (sn_status c =? 0) eqn:E; [|by left]. right. exists 0%nat, c. split; [lia|]. split; [done|lia].
  - replace (_ =? -1) with false by lia. right. exists (Datatypes.S n), c'. split; [lia|done].
Qed.

Lemma nconf_app A B : nconf (A ++ B) = nconf A + nconf B.
Proof. induction A as [|k A IH]; cbn [nconf app]; [done|]. lia. Qed.

Lemma routes_grow v : routes_ok v → zlen (v_cores v) + 4 < 2 ^ 32 → routes_ok (v <| v_cores := v_cores v ++ replicate 4 zero_core |>).
Proof.
  intros [H1 H2 H3 H4 H5 _ H6] HZ. split; view_fields; try done.
  - apply Forall_app. split; [done|]. apply list.Forall_replicate, zero_core_ok.
  - apply relay_links_app; [done|]. apply list.Forall_replicate. by apply list.Forall_replicate.
  - intros k j. rewrite (H3 k j). split; intros (i & c & -> & Hi & Hs & <-); exists i, c; (split; [done|]); (split; [|done]).
    + apply lookup_lt_Some in Hi as Hlt. by rewrite lookup_app_l.
    + rewrite lookup_app in Hi. destruct (v_cores v !! i) as [c'|] eqn:E; [done|]. apply lookup_replicate_1 in Hi as [-> _]. done.
  - rewrite nconf_app. change (nconf (replicate 4 zero_core)) with 0. lia.
  - rewrite zlen_app. exact HZ.
Qed.

(** A new client takes a free slot. *)
Lemma routes_add v i k k0 l : routes_ok v → v_cores v !! i = Some k0 → co_status k0 = 0 → co_status k ≠ 0 → core_ok k → unlinked (co_slots k) →
  to_map (v_keys v) !! co_key k = None → wf l → bl_element_size l = 32 → bl_n l = bl_n (v_keys v) + 1 →
  to_map l = <[co_key k := Z.of_nat i]> (to_map (v_keys v)) →
  routes_ok (v <| v_cores := <[i := k]> (v_cores v) |> <| v_num := v_num v + 1 |> <| v_keys := l |>).
Proof.
  intros [H1 H2 H3 (T1 & T2 & T3) H5 HZ H6] Hk0 Hz0 Hs Hok Hu Hm W1 W2 W3 W4. pose proof (lookup_lt_Some _ _ _ Hk0) as Hi.
  pose proof (proj1 (list.Forall_lookup _ _) H1 i k0 Hk0) as (_ & _ & Hu0 & _).
  split; view_fields; try done.
  - by apply list.Forall_insert.
  - apply (links_replace _ i k0); try done. by apply Hu0.
  - intros k' j. rewrite W4, lookup_insert_Some, (H3 k' j). split.
    + intros [[<- <-]|[Hne (i' & c & -> & Hi' & Hc & <-)]].
      * exists i, k. split; [done|]. split; [by rewrite list_lookup_insert_eq|done].
      * exists i', c. split; [done|]. split; [|done]. rewrite list_lookup_insert_ne; [done|]. intros ->. congruence.
    + intros (i' & c & -> & Hi' & Hc & <-). destruct (decide (i = i')) as [<-|Hne].
      * rewrite list_lookup_insert_eq in Hi' by done. injection Hi' as <-. by left.
      * rewrite list_lookup_insert_ne in Hi' by done. right. split; [|by exists i', c]. intros E.
        assert (to_map (v_keys v) !! co_key c = Some (Z.of_nat i')) as F by (apply H3; by exists i', c). rewrite <- E in F. congruence.
  - split_and!; try done. lia.
  - rewrite (nconf_insert _ _ k0) by done. unfold active. rewrite Hz0. change (0 =? 0) with true. replace (co_status k =? 0) with false by lia. lia.
  - unfold zlen in *. by rewrite length_insert.
Qed.

Definition is_client (v : View) (r : Z) : Prop := ∃ i k, r = Z.of_nat i ∧ v_cores v !! i = Some k ∧ co_status k ≠ 0.

(** The part of [add_accepted] that looks for a slot. *)
Lemma free_slot_runs {B} s (f : Z → TS B) Q : routes_ok (view s) →
  (∀ s', v_cores (view s') = v_cores (view s) ∧ view s' = view s → runs (f (-1)) s' Q) →
  (∀ s' i k0, routes_ok (view s') → same_queues (view s) (view s') → v_num (view s') = v_num (view s) → v_keys (view s') = v_keys (view s) →
     v_cores (view s') !! i = Some k0 → co_status k0 = 0 → runs (f (Z.of_nat i)) s' Q) →
  runs ((if size_accepted s =? ts_num_accepted s then
           ret ← alloc_new_connections 4; mret (if ret =? -1 then -1 else ts_num_accepted s)
         else mret (last_free (ts_accepted s) 0)) ≫= f) s Q.
Proof.
  intros H Hno Hyes. destruct (size_accepted s =? ts_num_accepted s) eqn:E.
  - apply runs_bind, runs_bind. unfold alloc_new_connections. apply runs_server. destruct (_ <? size_accepted s) eqn:Eo.
    { apply runs_ret, runs_ret. by apply Hno. }
    apply runs_allocate. destruct (ts_mem s AllocOther (ts_mem_calls s)).1; cbn [negb]; [|apply runs_ret, runs_ret; by apply Hno].
    apply runs_update, runs_ret, runs_ret. change (0 =? -1) with false. cbv iota. set (s1 := _ <| ts_accepted := _ |>).
    assert (view s1 = (view s) <| v_cores := v_cores (view s) ++ replicate 4 zero_core |> <| v_inbox := v_inbox (view s) ++ replicate 4 [] |>) as V1.
    { unfold view, s1. cbn [set_field ts_accepted ts_num_accepted ts_key_list ts_incoming ts_unconfirmed ts_incoming_index ts_unconfirmed_index ts_mem]. view_fields.
      by rewrite !map_app. }
    assert (routes_ok (view s1)) as R1.
    { rewrite V1. apply routes_inbox, routes_grow; [done|]. pose proof (ro_size _ H) as HZ. rewrite size_cores in Eo. pose proof (zlen_nonneg (v_cores (view s))).
      unfold u32 in Eo. destruct (Z.lt_ge_cases (zlen (v_cores (view s)) + 4) (2 ^ 32)); [done|].
      rewrite (Z.mod_eq _ (2 ^ 32)) in Eo by lia. replace ((_ + 4) / 2 ^ 32) with 1 in Eo; [lia|]. apply (Z.div_unique _ _ _ (zlen (v_cores (view s)) + 4 - 2 ^ 32)); lia. }
    apply Z.eqb_eq in E. rewrite <- E, size_cores. unfold zlen. apply (Hyes s1 _ zero_core); [exact R1|..]; rewrite ?V1; view_fields; try done.
    rewrite lookup_app_r, Nat.sub_diag by lia. done.
  - apply runs_bind, runs_ret. destruct (last_free_spec (ts_accepted s) 0 ltac:(lia)) as [->|(n & c & -> & Hc & Hs)]; [by apply Hno|].
    rewrite Z.add_0_l. apply (Hyes s n (core_of c)); try done. by apply lookup_cores.
Qed.

(** Adding a key that is not in the table. *)
Lemma key_add_runs {B} s k id (f : bool → TS B) Q : routes_ok (view s) → zlen k = 32 → to_map (v_keys (view s)) !! k = None → v_num (view s) < 2 ^ 25 →
  (∀ s', view s' = (view s) <| v_keys := v_keys (view s') |> → ts_accepted s' = ts_accepted s → routes_ok (view s') → runs (f false) s' Q) →
  (∀ s' l, view s' = (view s) <| v_keys := l |> → ts_accepted s' = ts_accepted s → wf l → bl_element_size l = 32 → bl_n l = bl_n (v_keys (view s)) + 1 →
     to_map l = <[k := id]> (to_map (v_keys (view s))) → runs (f true) s' Q) →
  runs (key_list_add k id ≫= f) s Q.
Proof.
  intros H Hk Hm Hn Hno Hyes. pose proof H as [H1 H2 H3 (T1 & T2 & T3) H5 HZ H6]. pose proof (nconf_nonneg (v_cores (view s))).
  unfold key_list_add. apply runs_bind, runs_allocate, runs_server. change (ts_key_list (s <| ts_mem_calls := _ |>)) with (v_keys (view s)).
  assert (bl_n (v_keys (view s)) / 2 <= bl_n (v_keys (view s))) as Hd by (apply Z.div_le_upper_bound; lia).
  destruct (bs_list_add_run (v_keys (view s)) (ts_mem s AllocOther (ts_mem_calls s)).1 (ts_mem s AllocOther (ts_mem_calls s)).2 k id T1) as (b & l & -> & W & _ & Em & Ee & En);
    [by rewrite T2|lia|rewrite T2; lia|].
  apply runs_update, runs_ret. destruct b; cbv iota in *.
  - apply (Hyes _ l); try done. by rewrite Ee.
  - apply Hno; [done|done|]. change (routes_ok ((view s) <| v_keys := l |>)). split; view_fields; try done; [by rewrite Em|]. split_and!; [done|by rewrite Ee|lia].
Qed.

Lemma queue_put q i c : queue_ok q → conn_ok c → queue_ok (aset q i c).
Proof. intros [H1 H2] Hc. split; [by rewrite length_aset|]. unfold aset. by apply list.Forall_insert. Qed.

Lemma queue_at q i : queue_ok q → (i < 256)%nat → ∃ c, q !! i = Some c ∧ conn_ok c.
Proof.
  intros [H1 H2] Hi. destruct (lookup_lt_is_Some_2 q i ltac:(lia)) as [c E]. exists c. split; [done|]. by apply (proj1 (list.Forall_lookup _ _) H2 i).
Qed.

Lemma runs_store {B} i c c0 (f : unit → TS B) s Q : ts_accepted s !! i = Some c0 →
  (∀ s', view s' = (view s) <| v_cores := <[i := core_of c]> (v_cores (view s)) |> <| v_inbox := <[i := inbox_of c]> (v_inbox (view s)) |> → ts_accepted s' !! i = Some c → runs (f tt) s' Q) →
  runs (put_accepted (Z.of_nat i) c ≫= f) s Q.
Proof.
  intros E H. apply (runs_put i _ c0); [done|]. apply H.
  - unfold view. cbn [set_field ts_accepted ts_num_accepted ts_key_list ts_incoming ts_unconfirmed ts_incoming_index ts_unconfirmed_index ts_mem]. view_fields.
    change (map core_of) with (fmap (M := list) core_of). change (map inbox_of) with (fmap (M := list) inbox_of). by rewrite !list_fmap_insert.
  - cbn [set_field ts_accepted]. apply list_lookup_insert_eq. by eapply lookup_lt_Some.
Qed.

(** The store of the new client and its bookkeeping. *)
Lemma install_runs s l i k0 con u mt v : view s = v <| v_keys := l |> → routes_ok v → v_cores v !! i = Some k0 → co_status k0 = 0 → conn_ok con → sn_status con ≠ 0 →
  to_map (v_keys v) !! sn_public_key con = None → wf l → bl_element_size l = 32 → bl_n l = bl_n (v_keys v) + 1 →
  to_map l = <[sn_public_key con := Z.of_nat i]> (to_map (v_keys v)) →
  runs (put_accepted (Z.of_nat i) con;; put_unconfirmed u zero_connection;;
        update (λ s, s <| ts_num_accepted := ts_num_accepted s + 1 |> <| ts_counter := u64 (ts_counter s + 1) |>);;
        s ← server; con ← accepted (Z.of_nat i);
        put_accepted (Z.of_nat i) (con <| sn_status := TCP_STATUS_CONFIRMED |> <| sn_identifier := ts_counter s |>
          <| sn_last_pinged := mono_time_get mt |> <| sn_ping_id := 0 |>);; mret (Z.of_nat i)) s
    (λ r s', r = Z.of_nat i ∧ routes_ok (view s') ∧ is_client (view s') r ∧ v_num (view s') = v_num v + 1 ∧
       v_incoming (view s') = v_incoming v ∧ v_unconfirmed (view s') = aset (v_unconfirmed v) u zero_connection ∧
       v_incoming_index (view s') = v_incoming_index v ∧ v_unconfirmed_index (view s') = v_unconfirmed_index v).
Proof.
  intros V H Hi0 Hz (C1 & C2 & C3 & C4) Hcs Hm W1 W2 W3 W4. specialize (C4 Hcs).
  assert (v_cores (view s) !! i = Some k0) as Hi by (by rewrite V). pose proof Hi as Hc. apply cores_lookup in Hc as (c0 & Ec & _).
  apply (runs_store i _ c0); [done|]. intros s1 V1 L1. apply runs_update, runs_update, runs_server.
  apply (runs_accepted i con); [exact L1|]. apply (runs_store i _ con); [exact L1|]. intros s2 V2 _. apply runs_ret. split; [done|].
  match type of V2 with context [core_of ?c] => set (k := core_of c) in * end.
  assert (view s2 = v <| v_cores := <[i := k]> (v_cores v) |> <| v_num := v_num v + 1 |> <| v_keys := l |>
    <| v_unconfirmed := aset (v_unconfirmed v) u zero_connection |> <| v_inbox := v_inbox (view s2) |>) as ->.
  { rewrite V2. match goal with |- context [view ?x] => change (view x) with ((view s1) <| v_unconfirmed := aset (v_unconfirmed (view s1)) u zero_connection |>
      <| v_num := v_num (view s1) + 1 |>) end. rewrite V1, V. view_fields. by rewrite list_insert_insert_eq. }
  assert (co_status k ≠ 0) as Hks by done.
  assert (core_ok k) as Hok by (split; [exact C1|]; split; [exact C3|]; split; [done|]; split; [done|intros _; exact C4]).
  pose proof (routes_add v i k k0 l H Hi0 Hz Hks Hok C2 Hm W1 W2 W3 W4) as HR. split.
  - destruct HR. split; done.
  - split; [|done]. exists i, k. split; [done|]. view_fields. split; [|done]. rewrite list_lookup_insert_eq; [done|]. by eapply lookup_lt_Some.
Qed.

Definition sized (B : Z) (s : TCP_Server) : Prop := view_ok (view s) ∧ v_num (view s) <= B.

Lemma sized_queues B s s' : sized B s → routes_ok (view s') → same_queues (view s) (view s') → v_num (view s') <= B → sized B s'.
Proof.
  intros [[H1 H2 H3] H4] HR (Q1 & Q2 & Q3 & Q4 & Q5) HN. split; [|done]. split; [done|by rewrite Q1, Q2|by rewrite Q3, Q4].
Qed.

Lemma add_runs B s u mt con : sized B s → B < 2 ^ 25 → (u < 256)%nat → ts_unconfirmed s !! u = Some con → sn_status con ≠ 0 →
  runs (add_accepted mt (Z.of_nat u)) s (λ r s', sized (B + 1) s' ∧
    (r = -1 ∧ ts_unconfirmed s' = ts_unconfirmed s ∨ is_client (view s') r)).
Proof.
  intros Hs HB Hu Econ Hcs. pose proof Hs as [[H1 [Hq1 Hq2] H3] HN]. unfold add_accepted. apply runs_server.
  pose proof (proj1 (list.Forall_lookup _ _) (proj2 Hq2) u con Econ) as Hcon. pose proof Hcon as (_ & _ & Hkey & _).
  apply (runs_at _ u con); [exact Econ|]. apply find_runs; [done|done|].
  set (old := default (-1) _).
  assert (runs (if negb (old =? -1) then kill_accepted old;; mret tt else mret tt) s (λ _ s1, routes_ok (view s1) ∧ same_queues (view s) (view s1) ∧
    v_num (view s1) <= v_num (view s) ∧ to_map (v_keys (view s1)) !! sn_public_key con = None)) as Hkill.
  { destruct (old =? -1) eqn:E; cbn [negb].
    - apply runs_ret. split; [done|]. split; [by split_and!|]. split; [lia|]. destruct (to_map (v_keys (view s)) !! sn_public_key con) as [x|] eqn:Ex; [|done].
      exfalso. apply (ro_keys _ H1) in Ex as (i & c & -> & _). unfold old in E. cbn in E. lia.
    - destruct (found_client (view s) (sn_public_key con) old H1 eq_refl) as (i & c & Ei & Hi & Hc & Hk); [lia|]. rewrite Ei.
      apply runs_bind. eapply runs_conseq; [apply (kill_runs s i c H1 Hi)|]. intros _ s1 (R1 & Q1 & N1 & K1 & _). apply runs_ret.
      split; [done|]. split; [done|]. split; [done|]. rewrite K1, Hk by done. by rewrite lookup_delete_eq. }
  apply runs_bind. eapply runs_conseq; [exact Hkill|]. intros _ s1 (R1 & Q1 & N1 & M1). apply runs_server.
  assert (sized B s1) as Hs1 by (apply (sized_queues B s); try done; lia).
  apply free_slot_runs; [done| |].
  - intros s2 [_ V2]. change (-1 =? -1) with true. cbv iota. apply runs_ret.
    split; [unfold sized in *; rewrite V2; split; [tauto|lia]|]. left. split; [done|]. change (v_unconfirmed (view s2) = ts_unconfirmed s). rewrite V2. apply Q1.
  - intros s2 i k0 R2 Q2 N2 K2 Hi Hz. replace (Z.of_nat i =? -1) with false by lia.
    assert (sized B s2) as Hs2 by (apply (sized_queues B s1); try done; lia).
    apply key_add_runs; [done|done|by rewrite K2|lia| |].
    + intros s3 V3 _ R3. cbn [negb]. apply runs_ret.
      split; [|left; split; [done|]; change (v_unconfirmed (view s3) = ts_unconfirmed s); rewrite V3; destruct Q1 as (_ & E1 & _), Q2 as (_ & E2 & _); view_fields; by rewrite E2, E1].
      apply (sized_queues (B + 1) s2); [destruct Hs2; split; [done|lia]|done| |].
      * rewrite V3. by split_and!.
      * rewrite V3. view_fields. lia.
    + intros s3 l V3 _ W1 W2 W3 W4. cbn [negb]. eapply runs_conseq; [apply (install_runs s3 l i k0 con (Z.of_nat u) mt (view s2)); try done; by rewrite K2|].
      intros r s4 (-> & R4 & C4 & N4 & I4 & U4 & X4 & Y4). split; [|by right]. destruct Hs2 as [[_ [A1 A2] A3] A4]. split; [|lia].
      split; [done|rewrite I4, U4; split; [done|]; apply queue_put; [done|apply zero_conn_ok]|by rewrite X4, Y4].
Qed.
End relay.
