(* ===== verification/TcpRouting.v ===== *)
(** * TcpRouting: clients reach exactly whom they asked for

    Every handler of the relay keeps the invariant of [TcpRelay]; from it follows
    between whom data is passed on. *)
From S2P Require Import Prelude Util MonoTime CryptoCore Network BsList World DhtPackets Onion TcpCommon TcpStream TcpServer TcpRelay.

(** ** The two searches *)

Lemma find_route_spec k l : ∀ i index,
  (∃ n c, find_route l i k index = inl (i + Z.of_nat n) ∧ l !! n = Some c ∧ cl_status c ≠ 0 ∧ cl_public_key c = k) ∨
  find_route l i k index = inr index ∨
  (∃ n c, find_route l i k index = inr (i + Z.of_nat n) ∧ l !! n = Some c ∧ cl_status c = 0 ∧ index = UINT32_MAX).
Proof.
  induction l as [|c l IH]; intros i index; cbn [find_route]; [right; by left|].
  destruct (cl_status c =? 0) eqn:E; cbn [negb].
  - destruct (IH (i + 1) (if index =? UINT32_MAX then i else index)) as [(n & c' & -> & Hl & Hs)|[->|(n & c' & -> & Hl & Hs & Hi)]].
    + left. exists (S n), c'. split; [f_equal; lia|done].
    + destruct (index =? UINT32_MAX) eqn:Ei; [|right; by left]. right. right. exists 0%nat, c. split; [f_equal; lia|]. split; [done|lia].
    + destruct (index =? UINT32_MAX) eqn:Ei; [|lia]. right. right. exists (S n), c'. split; [f_equal; lia|]. split; [done|]. split; [done|lia].
  - unfold pk_equal, bytes_eqb. case_bool_decide as Ek.
    + left. exists 0%nat, c. split; [f_equal; lia|]. split; [done|]. split; [lia|done].
    + destruct (IH (i + 1) index) as [(n & c' & -> & Hl & Hs)|[->|(n & c' & -> & Hl & Hs & Hi)]].
      * left. exists (S n), c'. split; [f_equal; lia|done].
      * right. by left.
      * right. right. exists (S n), c'. split; [f_equal; lia|done].
Qed.

Lemma find_waiting_spec k l : ∀ i, find_waiting l i k = UINT32_MAX ∨
  ∃ n c, find_waiting l i k = i + Z.of_nat n ∧ l !! n = Some c ∧ cl_status c = 1 ∧ cl_public_key c = k.
Proof.
  induction l as [|c l IH]; intros i; cbn [find_waiting]; [by left|].
  destruct ((cl_status c =? 1) && _) eqn:E.
  - apply andb_true_iff in E as [E1 E2]. unfold pk_equal, bytes_eqb in E2. apply bool_decide_eq_true in E2. right. exists 0%nat, c.
    split; [lia|]. split; [done|]. split; [lia|done].
  - destruct (IH (i + 1)) as [->|(n & c' & -> & Hl & Hs)]; [by left|]. right. exists (S n), c'. split; [lia|done].
Qed.

Section routing.
Context {S : Sodium}.

(** What handling a packet leaves: the invariant and the clients. *)
Definition handled (B : Z) (s s' : TCP_Server) : Prop :=
  sized B s' ∧ heads (v_cores (view s')) = heads (v_cores (view s)) ∧ v_inbox (view s') = v_inbox (view s).

Lemma handled_view B s s' : sized B s → view s' = view s → handled B s s'.
Proof. intros H E. unfold handled, sized. by rewrite E. Qed.

Lemma handled_trans B s1 s2 s3 : handled B s1 s2 → handled B s2 s3 → handled B s1 s3.
Proof. intros (_ & H1 & H1') (H2 & H3 & H3'). split; [done|]. by rewrite H3, H3'. Qed.

Lemma handled_cores B s s' A : sized B s → view s' = (view s) <| v_cores := A |> → heads A = heads (v_cores (view s)) →
  Forall core_ok A → links_ok A → handled B s s'.
Proof.
  intros [[H1 H2 H3] H4] E Hh HC HL. split; [|by rewrite E]. split; [|rewrite E; done]. rewrite E. split; [|done..].
  by apply routes_cores.
Qed.

Lemma heads_lookup A A' i k : heads A' = heads A → A !! i = Some k → ∃ k', A' !! i = Some k' ∧ co_status k' = co_status k ∧ co_key k' = co_key k.
Proof.
  intros E Hk. apply (f_equal (lookup i)) in E. unfold heads in E. rewrite !list_lookup_fmap, Hk in E. destruct (A' !! i) as [k'|]; [|done].
  cbn in E. injection E as E1 E2. by exists k'.
Qed.

Lemma heads_length A A' : heads A' = heads A → length A' = length A.
Proof. intros E. apply (f_equal length) in E. unfold heads in E. by rewrite !length_fmap in E. Qed.

Lemma sized_wired B s i k : sized B s → v_cores (view s) !! i = Some k → co_status k ≠ 0 → co_wired k = true.
Proof. intros [[HR _ _] _]. apply client_wired, HR. Qed.

Lemma write_handled B s i d p k : sized B s → v_cores (view s) !! i = Some k → co_status k ≠ 0 →
  runs (write_to (Z.of_nat i) d p) s (λ _ s', handled B s s').
Proof.
  intros H Hk Hst. eapply runs_conseq; [by apply (write_core i d p s k), (sized_wired B s i)|]. intros ? s' E. by apply handled_view.
Qed.

(** Writing and returning something. *)
Lemma write_then {A} B s i d p k (f : Z → A) : sized B s → v_cores (view s) !! i = Some k → co_status k ≠ 0 →
  runs (r ← write_to (Z.of_nat i) d p; mret (f r)) s (λ _ s', handled B s s').
Proof. intros H Hk Hst. apply runs_bind. eapply runs_conseq; [by apply (write_handled B s i d p k)|]. intros r s' H'. by apply runs_ret. Qed.

(** ** Joining two slots *)

Lemma join_runs B s s0 i c l j d m : handled B s0 s → slot (v_cores (view s)) i c = Some l → cl_status l = 1 →
  slot (v_cores (view s)) j d = Some m → cl_status m = 1 → i ≠ j → (c < 240)%nat → (d < 240)%nat →
  co_key <$> v_cores (view s) !! j = Some (cl_public_key l) → co_key <$> v_cores (view s) !! i = Some (cl_public_key m) →
  runs (l ← conn_slot (Z.of_nat i) (Z.of_nat c);
        put_slot (Z.of_nat i) (Z.of_nat c) (l <| cl_status := 2 |> <| cl_index := u32 (Z.of_nat j) |> <| cl_other_id := u8 (Z.of_nat d) |>);;
        l ← conn_slot (Z.of_nat j) (Z.of_nat d);
        put_slot (Z.of_nat j) (Z.of_nat d) (l <| cl_status := 2 |> <| cl_index := Z.of_nat i |> <| cl_other_id := u8 (Z.of_nat c) |>);;
        send_connect_notification (Z.of_nat i) (Z.of_nat c);; send_connect_notification (Z.of_nat j) (Z.of_nat d);; mret 0) s
    (λ r s', r = 0 ∧ handled B s0 s' ∧ ∃ l' m', linked (v_cores (view s')) i c l' j d m').
Proof.
  intros Hs Sl El Sm Em Hij Hc Hd K1 K2. pose proof Hs as (Hs' & Hh & _). pose proof Hs' as [[HR HQ HX] HN]. pose proof (ro_size _ HR) as HZ.
  set (A := v_cores (view s)) in *. assert (Z.of_nat j < zlen A) as Hj.
  { unfold slot in Sm. destruct (A !! j) as [kj|] eqn:Ej; [|done]. apply lookup_lt_Some in Ej. unfold zlen. lia. }
  rewrite u32_small, !u8_small by lia. apply (runs_slot i c l); [exact Sl|]. apply (runs_put_slot i c _ l); [exact Sl|]. intros s1 V1. fold A in V1.
  set (l2 := l <| cl_status := 2 |> <| cl_index := Z.of_nat j |> <| cl_other_id := Z.of_nat d |>) in *.
  assert (slot (put_slots A i c l2) j d = Some m) as Sm1 by (rewrite slot_put by done; rewrite decide_False; [done|intros [-> _]; done]).
  apply (runs_slot j d m); [rewrite V1; exact Sm1|]. apply (runs_put_slot j d _ m); [rewrite V1; exact Sm1|]. intros s2 V2. rewrite V1 in V2.
  set (m2 := m <| cl_status := 2 |> <| cl_index := Z.of_nat i |> <| cl_other_id := Z.of_nat c |>) in *.
  change (view s2 = (view s) <| v_cores := put_slots (put_slots A i c l2) j d m2 |>) in V2. set (A2 := put_slots (put_slots A i c l2) j d m2) in *.
  assert (links_ok A2) as HL by (apply (links_join A i c l l2 j d m m2); try done; [apply HR|lia|lia]).
  assert (heads A2 = heads A) as Hh2 by (unfold A2; by rewrite !heads_put).
  assert (Forall core_ok A2) as HC.
  { pose proof (ro_cores _ HR) as HC. apply (cores_put _ j d _ m); [apply (cores_put A i c _ l); [done|done|]|done|].
    - intros k Hk Hz. exfalso. apply (used_active A i c l k HC Sl); [lia|done|done].
    - intros k Hk Hz. exfalso. unfold put_slots in Hk. rewrite list_lookup_alter_ne in Hk by done. apply (used_active A j d m k HC Sm); [lia|done|done]. }
  assert (handled B s s2) as H2 by (by apply (handled_cores B s s2 A2)).
  assert (∀ i c l, slot A i c = Some l → cl_status l = 1 → ∃ k, A2 !! i = Some k ∧ co_wired k = true) as Hwired.
  { intros i' c' x Sx Ex. pose proof Sx as Sx0. unfold slot in Sx0. destruct (A !! i') as [k1|] eqn:E1; [|done].
    assert (co_status k1 ≠ 0) as Hk1 by (apply (used_active A i' c' x k1 (ro_cores _ HR) Sx); [lia|done]).
    destruct (heads_lookup A A2 i' k1 Hh2 E1) as (y & Hy & Ey & _). exists y. split; [done|]. apply (client_wired A2 i'); [done|done|congruence]. }
  destruct (Hwired i c l Sl El) as (ki & Hki & Wi). destruct (Hwired j d m Sm Em) as (kj & Hkj & Wj).
  apply runs_bind. eapply runs_conseq; [apply (write_core i _ _ _ ki); [by rewrite V2|exact Wi]|]. intros ? s3 V3.
  apply runs_bind. eapply runs_conseq; [apply (write_core j _ _ _ kj); [by rewrite V3, V2|exact Wj]|]. intros ? s4 V4.
  apply runs_ret. split; [done|]. assert (view s4 = view s2) as V5 by (by rewrite V4, V3).
  split; [apply (handled_trans B s0 s s4 Hs), (handled_trans B s s2 s4 H2), handled_view; [apply H2|done]|].
  exists l2, m2. rewrite V5, V2. view_fields.
  assert (slot A2 i c = Some l2) as F1.
  { unfold A2. rewrite slot_put by done. rewrite decide_False by (intros [-> _]; done). rewrite slot_put by done. by rewrite decide_True. }
  assert (slot A2 j d = Some m2) as F2 by (unfold A2; rewrite slot_put by done; by rewrite decide_True).
  unfold linked. split_and!; try done. unfold A2. rewrite !key_put. exact K1.
Qed.

Lemma slot_of A i c k l : A !! i = Some k → co_slots k !! c = Some l → slot A i c = Some l.
Proof. intros E1 E2. unfold slot. by rewrite E1. Qed.

(** From the point on where the client has its slot. *)
Lemma route_runs B s i k c l pk con : sized B s → v_cores (view s) !! i = Some k → co_status k ≠ 0 → co_key k ≠ pk → zlen pk = 32 →
  sn_public_key con = co_key k → slot (v_cores (view s)) i c = Some l → cl_status l = 0 → (c < 240)%nat →
  runs (l ← conn_slot (Z.of_nat i) (Z.of_nat c); put_slot (Z.of_nat i) (Z.of_nat c) (l <| cl_status := 1 |> <| cl_public_key := pk |>);;
        other_index ← get_TCP_connection_index pk;
        if other_index =? -1 then mret 0
        else
          other_conn ← accepted other_index;
          let other_id := find_waiting (sn_connections other_conn) 0 (sn_public_key con) in
          if other_id =? UINT32_MAX then mret 0
          else
            l ← conn_slot (Z.of_nat i) (Z.of_nat c);
            put_slot (Z.of_nat i) (Z.of_nat c) (l <| cl_status := 2 |> <| cl_index := u32 other_index |> <| cl_other_id := u8 other_id |>);;
            l ← conn_slot other_index other_id;
            put_slot other_index other_id (l <| cl_status := 2 |> <| cl_index := Z.of_nat i |> <| cl_other_id := u8 (Z.of_nat c) |>);;
            send_connect_notification (Z.of_nat i) (Z.of_nat c);; send_connect_notification other_index other_id;; mret 0) s
    (λ r s', r = 0 ∧ handled B s s').
Proof.
  intros Hs Hk Hst Hne Hpk Econ Sl El Hc. pose proof Hs as [[HR HQ HX] HN]. set (A := v_cores (view s)) in *.
  apply (runs_slot i c l); [exact Sl|]. apply (runs_put_slot i c _ l); [exact Sl|]. intros s1 V1. fold A in V1.
  set (l1 := l <| cl_status := 1 |> <| cl_public_key := pk |>) in *. set (A1 := put_slots A i c l1) in *.
  assert (heads A1 = heads A) as Hh1 by (unfold A1; apply heads_put).
  assert (handled B s s1) as H1.
  { apply (handled_cores B s s1 A1); try done.
    - apply (cores_put A i c _ l); [apply HR|done|]. intros k' Hk' Hz. congruence.
    - apply (links_put A i c l); [apply HR|done|lia|done]. }
  pose proof H1 as [Hs1 _]. apply find_runs; [apply Hs1|done|]. set (other := default (-1) _).
  destruct (other =? -1) eqn:Eo; [by apply runs_ret|].
  destruct (found_client (view s1) pk other) as (j & kj & Ej & Hj & Hjs & Hjk); [apply Hs1|done|lia|]. rewrite Ej.
  assert (v_cores (view s1) = A1) as EA by (by rewrite V1).
  pose proof Hj as Hcon. apply cores_lookup in Hcon as (cj & Ecj & Ekj). apply (runs_accepted j cj); [done|]. cbv zeta.
  assert (sn_connections cj = co_slots kj) as Esl by (by rewrite <- Ekj). rewrite Esl, Econ.
  destruct (find_waiting_spec (co_key k) (co_slots kj) 0) as [->|(d & m & -> & Hm & Em & Emk)]; [change (UINT32_MAX =? UINT32_MAX) with true; by apply runs_ret|].
  rewrite Z.add_0_l. pose proof (proj1 (list.Forall_lookup _ _) (ro_cores _ (vo_routes _ (proj1 Hs1))) j kj Hj) as (Hlen & _).
  pose proof (lookup_lt_Some _ _ _ Hm) as Hd. replace (Z.of_nat d =? UINT32_MAX) with false by (unfold UINT32_MAX; lia).
  assert (i ≠ j) as Hij.
  { intros <-. destruct (heads_lookup A A1 i k Hh1 Hk) as (k' & Hk' & _ & E2). rewrite EA, Hk' in Hj. injection Hj as ->. congruence. }
  eapply runs_conseq; [apply (join_runs B s1 s i c l1 j d m H1)|].
  - rewrite EA. unfold A1. rewrite slot_put by done. by rewrite decide_True.
  - done.
  - by apply (slot_of _ j d kj).
  - done.
  - done.
  - done.
  - lia.
  - rewrite Hj. cbn. by rewrite Hjk.
  - rewrite EA. destruct (heads_lookup A A1 i k Hh1 Hk) as (k' & -> & _ & E2). cbn. by rewrite E2, Emk.
  - by intros r s' (-> & H' & _).
Qed.

Lemma routing_req_runs B s i k pk : sized B s → v_cores (view s) !! i = Some k → co_status k ≠ 0 → zlen pk = 32 →
  runs (handle_TCP_routing_req (Z.of_nat i) pk) s (λ _ s', handled B s s').
Proof.
  intros Hs Hk Hst Hpk. pose proof Hk as Hc. apply cores_lookup in Hc as (con & Ec & Ek). unfold handle_TCP_routing_req.
  apply (runs_accepted i con); [done|]. cbv zeta. unfold send_routing_response. unfold pk_equal, bytes_eqb. case_bool_decide as Ep; [by apply (write_then B s i _ _ k)|].
  assert (sn_connections con = co_slots k) as Es by (by rewrite <- Ek). assert (sn_public_key con = co_key k) as Ekey by (by rewrite <- Ek). rewrite Es.
  destruct (find_route_spec pk (co_slots k) 0 UINT32_MAX) as [(n & l & -> & _)|[->|(n & l & -> & Hl & Hz & _)]].
  - by apply (write_then B s i _ _ k).
  - change (UINT32_MAX =? UINT32_MAX) with true. by apply (write_then B s i _ _ k).
  - rewrite Z.add_0_l. pose proof (proj1 (list.Forall_lookup _ _) (ro_cores _ (vo_routes _ (proj1 Hs))) i k Hk) as (Hlen & _).
    pose proof (lookup_lt_Some _ _ _ Hl) as Hn. replace (Z.of_nat n =? UINT32_MAX) with false by (unfold UINT32_MAX; lia).
    apply runs_bind. eapply runs_conseq; [by apply (write_core i _ _ _ k), (sized_wired B s i)|]. intros ret s1 V1.
    pose proof (handled_view B s s1 Hs V1) as H1. destruct (ret =? 0); [by apply runs_ret|]. destruct (ret =? -1); [by apply runs_ret|].
    eapply runs_conseq; [apply (route_runs B s1 i k n l pk con)|].
    + apply H1.
    + by rewrite V1.
    + done.
    + congruence.
    + done.
    + done.
    + rewrite V1. by apply (slot_of _ i n k).
    + done.
    + lia.
    + intros r s' [_ H']. by apply (handled_trans B s s1).
Qed.

Lemma rm_handled B s i k c : sized B s → v_cores (view s) !! i = Some k → 0 <= c →
  runs (rm_connection_index (Z.of_nat i) c) s (λ _ s', handled B s s').
Proof.
  intros Hs Hk Hc. destruct (Z.le_gt_cases 240 c) as [Hge|Hlt].
  { unfold rm_connection_index. change NUM_CLIENT_CONNECTIONS with 240. replace (240 <=? c) with true by lia. apply runs_ret. by apply handled_view. }
  rewrite <- (Z2Nat.id c) by lia. pose proof Hs as [[HR HQ HX] HN]. eapply runs_conseq; [apply (rm_runs s i (Z.to_nat c)); [done|by exists k|lia]|].
  intros r s' (A' & V & HR' & Hh & _). split; [|rewrite V; done]. split; [|rewrite V; done]. rewrite V. by split.
Qed.

Lemma data_runs B s i k d : sized B s → v_cores (view s) !! i = Some k →
  runs (handle_data (Z.of_nat i) d (zlen d)) s (λ _ s', handled B s s').
Proof.
  intros Hs Hk. pose proof Hs as [[HR HQ HX] HN]. unfold handle_data. cbv zeta. change NUM_RESERVED_PORTS with 16. change NUM_CLIENT_CONNECTIONS with 240.
  destruct (aget 0 d 0 <? 16) eqn:E1; [apply runs_ret; by apply handled_view|]. set (c := u8 _). pose proof (u8_range (aget 0 d 0 - 16)) as Hb. fold c in Hb. unfold is_u8 in Hb.
  destruct (240 <=? c) eqn:E2; [apply runs_ret; by apply handled_view|].
  pose proof (proj1 (list.Forall_lookup _ _) (ro_cores _ HR) i k Hk) as (Hlen & _).
  destruct (lookup_lt_is_Some_2 (co_slots k) (Z.to_nat c) ltac:(lia)) as [l Hl].
  rewrite <- (Z2Nat.id c) by lia. apply (runs_slot i _ l); [by apply (slot_of _ i _ k)|].
  destruct (cl_status l =? 0); [apply runs_ret; by apply handled_view|]. destruct (cl_status l =? 2) eqn:E3; cbn [negb]; [|apply runs_ret; by apply handled_view].
  destruct (ro_links _ HR i _ l (slot_of _ _ _ _ _ Hk Hl)) as (j & dd & l' & (_ & S2 & _ & T2 & I1 & _)); [lia|]. rewrite I1.
  pose proof S2 as S2'. unfold slot in S2. destruct (v_cores (view s) !! j) as [kj|] eqn:Ej; [|done]. apply (write_then B s j _ _ kj); [done|done|].
  apply (used_active _ j dd l' kj (ro_cores _ HR) S2'); [lia|done].
Qed.

(** ** A packet of a client *)

Lemma oob_runs B s i k pk d n : sized B s → v_cores (view s) !! i = Some k → zlen pk = 32 →
  runs (handle_TCP_oob_send (Z.of_nat i) pk d n) s (λ _ s', handled B s s').
Proof.
  intros Hs Hk Hpk. unfold handle_TCP_oob_send. destruct (_ || _); [apply runs_ret; by apply handled_view|].
  pose proof Hk as Hc. apply cores_lookup in Hc as (con & Ec & _). apply (runs_accepted i con); [done|]. apply find_runs; [apply Hs|done|].
  set (j := default (-1) _). destruct (j =? -1) eqn:E; [apply runs_ret; by apply handled_view|].
  destruct (found_client (view s) pk j) as (n' & kj & -> & Hj & Hjs & _); [apply Hs|done|lia|]. by apply (write_then B s n' _ _ kj (λ _, 0)).
Qed.

Lemma forward_runs B s i k d n : sized B s → v_cores (view s) !! i = Some k →
  runs (handle_forward_request (Z.of_nat i) d n) s (λ _ s', handled B s s').
Proof.
  intros Hs Hk. unfold handle_forward_request. apply runs_server. destruct (negb _); [apply runs_ret; by apply handled_view|].
  pose proof Hk as Hc. apply cores_lookup in Hc as (con & Ec & _). apply (runs_accepted i con); [done|]. cbv zeta.
  destruct (unpack_ip_port _ _ _) as [[m dest]|]; [|apply runs_ret; by apply handled_view].
  destruct (_ <? _); [apply runs_ret; by apply handled_view|]. apply runs_update, runs_ret. by apply handled_view.
Qed.

Lemma packet_runs B s i k d : sized B s → v_cores (view s) !! i = Some k → co_status k ≠ 0 →
  runs (handle_TCP_packet (Z.of_nat i) d (zlen d)) s (λ _ s', handled B s s').
Proof.
  intros Hs Hk Hst. unfold handle_TCP_packet. change CRYPTO_PUBLIC_KEY_SIZE with 32. change CRYPTO_NONCE_SIZE with 24.
  assert (∀ r : Z, runs (mret r) s (λ _ s', handled B s s')) as Hret by (intros r; apply runs_ret; by apply handled_view).
  destruct (zlen d =? 0); [done|]. pose proof Hk as Hc. apply cores_lookup in Hc as (con & Ec & _).
  apply (runs_accepted i con); [done|]. cbv zeta.
  destruct (_ =? TCP_PACKET_ROUTING_REQUEST).
  { destruct (negb (zlen d =? 1 + 32)) eqn:E; [done|]. apply (routing_req_runs B s i k); try done. apply length_slice; lia. }
  destruct (_ =? TCP_PACKET_CONNECTION_NOTIFICATION); [done|].
  destruct (_ =? TCP_PACKET_DISCONNECT_NOTIFICATION).
  { destruct (negb _); [done|]. apply (rm_handled B s i k); try done. pose proof (u8_range (aget 0 d 1 - NUM_RESERVED_PORTS)) as H. unfold is_u8 in H. lia. }
  destruct (_ =? TCP_PACKET_PING); [destruct (negb _); [done|]; by apply (write_then B s i _ _ k (λ _, 0))|].
  destruct (_ =? TCP_PACKET_PONG).
  { destruct (negb _); [done|]. destruct (negb _); [|done]. destruct (_ =? sn_ping_id con); [|apply runs_bind; by apply runs_ret].
    apply (runs_put i _ con); [done|]. apply runs_ret. apply handled_view; [done|]. by apply (view_put s i _ con). }
  destruct (_ =? TCP_PACKET_OOB_SEND).
  { destruct (zlen d <=? 1 + 32) eqn:E; [done|]. apply (oob_runs B s i k); try done. apply length_slice; lia. }
  destruct (_ =? TCP_PACKET_ONION_REQUEST).
  { apply runs_server. destruct (negb _); [done|]. destruct (_ <=? _); [done|]. apply runs_update, runs_ret. by apply handled_view. }
  destruct (_ =? TCP_PACKET_ONION_RESPONSE); [done|].
  destruct (_ =? TCP_PACKET_FORWARD_REQUEST); [by apply (forward_runs B s i k)|].
  destruct (_ =? TCP_PACKET_FORWARDING); [done|]. by apply (data_runs B s i k).
Qed.

(** ** What the onion and the forwarding answer *)

(** The slot with an identifier is a client's. *)
Lemma identified_client B s i con : sized B s → ts_accepted s !! i = Some con → sn_identifier con ≠ 0 → sn_status con ≠ 0.
Proof.
  intros [[HR _ _] _] Ec Hid Hz. pose proof (proj1 (list.Forall_lookup _ _) (ro_cores _ HR) i _ (lookup_cores s i con Ec)) as (_ & _ & _ & H & _).
  by apply Hid, H.
Qed.

Lemma onion_recv_runs B s dest d n : sized B s → bytes_ok (ip_addr (ipp_ip dest)) → le_val (slice 8 8 (ip_addr (ipp_ip dest))) ≠ 0 →
  runs (handle_onion_recv_1 dest d n) s (λ _ s', handled B s s').
Proof.
  intros Hs Hb Hid. unfold handle_onion_recv_1. apply runs_server. unfold ip_port_to_con_id. set (c := le_val _).
  pose proof (le_val_range (slice 0 4 (ip_addr (ipp_ip dest))) (slice_bytes_ok 0 4 _ Hb)) as Hc. fold c in Hc.
  destruct (_ && _) eqn:E; [|apply runs_ret; by apply handled_view]. apply andb_true_iff in E as [E Ei]. apply andb_true_iff in E as [_ E].
  rewrite size_cores in E. destruct (lookup_lt_is_Some_2 (v_cores (view s)) (Z.to_nat c)) as [k Hk]; [unfold zlen in E; lia|].
  pose proof Hk as Hc0. apply cores_lookup in Hc0 as (con & Ec & Ek). apply Z.eqb_eq in Ei. unfold aget in Ei. rewrite Ec in Ei. cbn in Ei.
  rewrite <- (Z2Nat.id c) by lia. apply (write_then B s (Z.to_nat c) _ _ k); [done|done|]. rewrite <- Ek. apply (identified_client B s _ con Hs Ec). congruence.
Qed.

Lemma forward_reply_runs B s sb sbn d n : sized B s → net_unpack_u64 (drop 5 sb) ≠ 0 →
  runs (handle_forward_reply_tcp sb sbn d n) s (λ _ s', handled B s s').
Proof.
  intros Hs Hid. unfold handle_forward_reply_tcp. assert (runs (mret false) s (λ _ s', handled B s s')) as Hret by (apply runs_ret; by apply handled_view).
  destruct (negb _); [done|]. destruct (negb _); [done|]. cbv zeta. apply runs_server. set (c := net_unpack_u32 _).
  assert (0 <= c) as Hc by (unfold c, net_unpack_u32, u32; apply Z.mod_pos_bound; lia).
  destruct (size_accepted s <=? c) eqn:E; [done|]. rewrite size_cores in E. rewrite <- (Z2Nat.id c) by lia.
  destruct (lookup_lt_is_Some_2 (v_cores (view s)) (Z.to_nat c)) as [k Hk]; [unfold zlen in E; lia|].
  pose proof Hk as Hk0. apply cores_lookup in Hk0 as (con & Ec & Ek). apply (runs_accepted _ con); [done|].
  destruct (sn_identifier con =? _) eqn:Ei; cbn [negb]; [|done]. apply (write_then B s (Z.to_nat c) _ _ k); [done|done|].
  rewrite <- Ek. apply (identified_client B s _ con Hs Ec). lia.
Qed.

(** ** Reading a packet *)

Lemma recv_read sock n d sock' : read_TCP_packet sock n = (Some d, sock') → zlen d = n ∧ (length d + length (so_recv sock') = length (so_recv sock))%nat.
Proof.
  unfold read_TCP_packet, net_recv. destruct (_ <? n); [done|]. destruct (zlen _ =? n) eqn:E; [|done]. intros [= <- <-]. split; [lia|].
  cbn [set_field so_recv]. unfold slice. rewrite length_drop, length_take, length_drop. lia.
Qed.

Lemma recv_read_le sock n : (length (so_recv (read_TCP_packet sock n).2) <= length (so_recv sock))%nat.
Proof.
  unfold read_TCP_packet, net_recv. destruct (_ <? n); [done|]. destruct (negb _); cbn; rewrite length_drop; lia.
Qed.

Lemma recv_length_le sock : (length (so_recv (read_TCP_length sock).2) <= length (so_recv sock))%nat.
Proof.
  unfold read_TCP_length, net_recv. destruct (2 <=? _); [|done]. destruct (negb _); cbn [snd set_field so_recv]; [rewrite length_drop; lia|].
  destruct (_ <? _); cbn [snd set_field so_recv]; rewrite length_drop; lia.
Qed.

Definition unread (r : Tcp_Reader) : nat := length (so_recv (rd_sock r)).

Context {SL : SodiumLaws S}.

Lemma decrypted_size dec k n c len l m : decrypt_data_symmetric dec k n c len = (l, m) → zlen c = len → l ≠ -1 → 16 < len ∧ zlen m = l.
Proof.
  intros E Hc Hl. destruct dec.
  - destruct (decrypt_genuine k n c len l m Hc E Hl) as (H1 & H2 & _). split; [|done]. unfold decrypt_data_symmetric, crypto_box_BOXZEROBYTES in E.
    destruct (len <=? 16) eqn:El; [|lia]. congruence.
  - unfold decrypt_data_symmetric in E. destruct (_ <=? _); cbn in E; congruence.
Qed.

(** A packet is only read together with bytes of the stream. *)
Lemma frame_unread dec key r : let '(len, d, r') := read_frame dec key MAX_PACKET_SIZE r in
  (unread r' <= unread r)%nat ∧ (len ≠ 0 → len ≠ -1 → zlen d = len ∧ (unread r' < unread r)%nat).
Proof.
  unfold read_frame. destruct (_ <? _); [by split|]. pose proof (recv_read_le (rd_sock r) (rd_next_packet_length r)) as Hle.
  destruct (read_TCP_packet _ _) as [[d|] sock] eqn:E; [|by split]. apply recv_read in E as [Hd Hu]. cbv zeta.
  cbn [set_field rd_next_packet_length rd_recv_nonce rd_sock].
  destruct (decrypt_data_symmetric _ _ _ _ _) as [l m] eqn:Ed. destruct (negb _); [by split|]. split; [exact Hle|]. intros _ Hl.
  destruct (decrypted_size _ _ _ _ _ _ _ Ed Hd Hl) as [H1 H2]. split; [done|]. unfold unread. cbn [set_field rd_sock].
  unfold zlen in Hd. lia.
Qed.

Lemma read_unread dec key r : let '(len, d, r') := read_packet_TCP_secure_connection dec key MAX_PACKET_SIZE r in
  (unread r' <= unread r)%nat ∧ (len ≠ 0 → len ≠ -1 → zlen d = len ∧ (unread r' < unread r)%nat).
Proof.
  unfold read_packet_TCP_secure_connection. destruct (_ =? 0); [|apply frame_unread]. pose proof (recv_length_le (rd_sock r)) as Hle.
  destruct (read_TCP_length _) as [len sock]. cbn [snd] in Hle. cbv zeta. destruct (len =? u16 (-1)); [by split|]. destruct (len =? 0); [by split|].
  pose proof (frame_unread dec key ((r <| rd_sock := sock |>) <| rd_next_packet_length := len |>)) as H.
  destruct (read_frame _ _ _ _) as [[l d] r']. destruct H as [H1 H2]. unfold unread in *. cbn [set_field rd_sock] in *. split; [lia|].
  intros Hl1 Hl2. destruct (H2 Hl1 Hl2). split; [done|lia].
Qed.

Lemma read_from_spec dec con : let '(len, d, con') := read_from dec con in
  core_of con' = core_of con ∧ (length (inbox_of con') <= length (inbox_of con))%nat ∧
  (len ≠ 0 → len ≠ -1 → zlen d = len ∧ (length (inbox_of con') < length (inbox_of con))%nat).
Proof.
  unfold read_from. pose proof (read_unread dec (tc_shared_key (sn_con con)) (mkReader (tc_sock (sn_con con)) (sn_next_packet_length con) (sn_recv_nonce con))) as H.
  destruct (read_packet_TCP_secure_connection _ _ _ _) as [[l d] r]. by split.
Qed.

(** ** The clients *)

Definition inbox_size (s : TCP_Server) (i : nat) : nat := length (default [] (v_inbox (view s) !! i)).

Lemma sized_inbox B s s' q : sized B s → view s' = (view s) <| v_inbox := q |> → sized B s'.
Proof. intros [[HR HQ HX] HN] E. unfold sized. rewrite E. split; [|done]. split; [by apply routes_inbox|done..]. Qed.

(** Between two packets of a client: it is still there, or the connection was closed. *)
Lemma process_runs B s i k : sized B s → v_cores (view s) !! i = Some k → co_status k ≠ 0 →
  runs (tcp_process_secure_packet (Z.of_nat i)) s (λ more s', sized B s' ∧ zlen (v_cores (view s')) <= zlen (v_cores (view s)) ∧
    (more = true → heads (v_cores (view s')) = heads (v_cores (view s)) ∧ (inbox_size s' i < inbox_size s i)%nat)).
Proof.
  intros Hs Hk Hst. unfold tcp_process_secure_packet. pose proof Hk as Hc. apply cores_lookup in Hc as (con & Ec & Ek).
  assert (tc_ns (sn_con con) = true) as Hns by (pose proof (sized_wired B s i k Hs Hk Hst) as H; by rewrite <- Ek in H).
  apply (runs_accepted i con); [done|]. apply runs_allocate, runs_ns; [done|].
  pose proof (read_from_spec (ts_mem s AllocOther (ts_mem_calls s)).1 con) as Hr.
  destruct (read_from _ con) as [[len d] con']. destruct Hr as (Hcore & _ & Hlen).
  apply (runs_store i con' con); [exact Ec|]. intros s1 V1 L1.
  change (view (s <| ts_mem_calls := _ |>)) with (view s) in V1.
  assert (view s1 = (view s) <| v_inbox := <[i := inbox_of con']> (v_inbox (view s)) |>) as V2.
  { rewrite V1, Hcore, Ek. replace (<[i := k]> (v_cores (view s))) with (v_cores (view s)) by (by rewrite list_insert_id). done. }
  assert (v_cores (view s1) = v_cores (view s)) as C1 by (by rewrite V2).
  assert (sized B s1) as Hs1 by (by apply (sized_inbox B s _ _ Hs V2)).
  assert (∀ s0, sized B s0 → heads (v_cores (view s0)) = heads (v_cores (view s)) → runs (kill_accepted (Z.of_nat i);; mret false) s0 (λ more s', sized B s' ∧ zlen (v_cores (view s')) <= zlen (v_cores (view s)) ∧
    (more = true → heads (v_cores (view s')) = heads (v_cores (view s)) ∧ (inbox_size s' i < inbox_size s i)%nat))) as Hkill.
  { intros s0 H0 Hh0. destruct (heads_lookup _ _ i k Hh0 Hk) as (k0 & Hk0 & _). apply runs_bind.
    eapply runs_conseq; [apply (kill_runs s0 i k0); [apply H0|done]|]. intros _ s2 (R2 & Q2 & N2 & _ & Z2). apply runs_ret. apply heads_length in Hh0. split; [|split; [unfold zlen in *; lia|done]].
    apply (sized_queues B s0); try done. destruct H0. lia. }
  destruct (len =? 0) eqn:E0; [apply runs_ret; rewrite C1; done|]. destruct (len =? -1) eqn:E1; [apply Hkill; [done|by rewrite C1]|].
  destruct (Hlen ltac:(lia) ltac:(lia)) as [<- Hless]. apply runs_bind.
  eapply runs_conseq; [apply (packet_runs B s1 i k d Hs1); [by rewrite C1|done]|]. intros r s2 (H2 & Hh2 & I2).
  rewrite C1 in Hh2. destruct (r =? -1); [by apply Hkill|]. apply runs_ret. split; [done|].
  split; [apply heads_length in Hh2; unfold zlen; lia|]. intros _. split; [done|]. unfold inbox_size. rewrite I2, V1. view_fields. pose proof (lookup_lt_Some _ _ _ Ec) as Hi.
  unfold view. view_fields. change (map inbox_of) with (fmap (M := list) inbox_of). rewrite list_lookup_insert_eq by (by rewrite length_fmap).
  by rewrite list_lookup_fmap, Ec.
Qed.

(** The loop reads until nothing is left or the connection was closed. *)
Lemma recv_runs B i fuel : ∀ s k, sized B s → v_cores (view s) !! i = Some k → co_status k ≠ 0 → (inbox_size s i < fuel)%nat →
  runs (recv_loop fuel (Z.of_nat i)) s (λ r s', r = true ∧ sized B s' ∧ zlen (v_cores (view s')) <= zlen (v_cores (view s))).
Proof.
  induction fuel as [|fuel IH]; intros s k Hs Hk Hst Hf; cbn [recv_loop]; [lia|]. apply runs_bind.
  eapply runs_conseq; [by apply (process_runs B s i k)|]. intros [] s1 (Hs1 & Z1 & H1); [|by apply runs_ret].
  destruct (H1 eq_refl) as [Hh Hless]. destruct (heads_lookup _ _ i k Hh Hk) as (k1 & Hk1 & E1 & _). eapply runs_conseq; [apply (IH s1 k1); try done; [congruence|lia]|].
  intros r s2 (-> & H2 & Z2). split; [done|]. split; [done|lia].
Qed.

Lemma confirmed_recv_runs B s i k : sized B s → v_cores (view s) !! i = Some k → co_status k ≠ 0 →
  runs (do_confirmed_recv (Z.of_nat i)) s (λ r s', r = true ∧ sized B s' ∧ zlen (v_cores (view s')) <= zlen (v_cores (view s))).
Proof.
  intros Hs Hk Hst. unfold do_confirmed_recv. pose proof Hk as Hc. apply cores_lookup in Hc as (con & Ec & Ek).
  apply (runs_accepted i con); [done|]. apply (recv_runs B i _ s k); try done. unfold inbox_size, view. view_fields.
  change (map inbox_of) with (fmap (M := list) inbox_of). rewrite list_lookup_fmap, Ec. cbn. unfold inbox_of. lia.
Qed.
End routing.
