(* ===== verification/TcpRounds.v ===== *)
(** * TcpRounds: a relay at work

    Rounds of [do_TCP_server] with everything that happens in between: bytes that
    arrive, answers of the onion and of the forwarding. *)
From S2P Require Import Prelude Util MonoTime CryptoCore Network BsList World DhtPackets Onion TcpCommon TcpStream TcpServer TcpRelay TcpRouting.

Section rounds.
Context {S : Sodium} {SL : SodiumLaws S}.

(** ** Confirmed connections *)

Definition keeps (B : Z) (s s' : TCP_Server) : Prop := sized B s' ∧ zlen (v_cores (view s')) <= zlen (v_cores (view s)).

Lemma keeps_view B s s' : sized B s → view s' = view s → keeps B s s'.
Proof. intros H E. unfold keeps, sized. rewrite E. split; [done|lia]. Qed.

Lemma keeps_trans B s1 s2 s3 : keeps B s1 s2 → keeps B s2 s3 → keeps B s1 s3.
Proof. intros [_ H1] [H2 H3]. split; [done|lia]. Qed.

Lemma kill_keeps {A} B s i k (x : A) : sized B s → v_cores (view s) !! i = Some k → runs (kill_accepted (Z.of_nat i);; mret x) s (λ _ s', keeps B s s').
Proof.
  intros Hs Hk. apply runs_bind. eapply runs_conseq; [apply (kill_runs s i k); [apply Hs|done]|]. intros _ s1 (R1 & Q1 & N1 & _ & Z1). apply runs_ret.
  split; [|done]. apply (sized_queues B s); try done. destruct Hs. lia.
Qed.

Lemma pending_runs i s k : v_cores (view s) !! i = Some k → co_wired k = true → runs (send_pending (Z.of_nat i)) s (λ _ s', view s' = view s).
Proof.
  intros Hk Hw. apply cores_lookup in Hk as (c & Ec & <-). unfold send_pending. apply (runs_accepted i c); [done|].
  pose proof (pending_recv (sn_con c)) as Hr. pose proof (pending_ns (sn_con c)) as Hn.
  destruct (send_pending_data (sn_con c)) as [r x]. apply runs_ns; [exact Hw|]. apply (runs_put i _ c); [done|]. apply runs_ret.
  exact (view_put s i (c <| sn_con := x |>) c Ec (core_con c x Hn) Hr).
Qed.

(** The end of a turn: the client is dropped, or its packets are handled. *)
Lemma finish_runs B s0 s i k mt : keeps B s0 s → v_cores (view s) !! i = Some k → co_status k ≠ 0 →
  runs (conn ← accepted (Z.of_nat i);
        if negb (sn_ping_id conn =? 0) && mono_time_is_timeout mt (sn_last_pinged conn) TCP_PING_TIMEOUT
        then kill_accepted (Z.of_nat i);; mret tt
        else send_pending (Z.of_nat i);; do_confirmed_recv (Z.of_nat i);; mret tt) s (λ _ s', keeps B s0 s').
Proof.
  intros Hs Hk Hst. pose proof Hs as [Hs1 _]. pose proof Hk as Hc. apply cores_lookup in Hc as (c & Ec & _). apply (runs_accepted i c); [done|]. destruct (_ && _).
  - eapply runs_conseq; [by apply (kill_keeps B s i k)|]. intros ? s1 H1. by apply (keeps_trans B s0 s).
  - apply runs_bind. eapply runs_conseq; [by apply (pending_runs i s k), (sized_wired B s i)|]. intros ? s1 V1.
    assert (keeps B s0 s1) as K1 by (apply (keeps_trans B s0 s); [done|by apply keeps_view]).
    apply runs_bind. eapply runs_conseq; [apply (confirmed_recv_runs B s1 i k); [apply K1|by rewrite V1|done]|].
    intros r s2 (_ & H2 & Z2). apply runs_ret. apply (keeps_trans B s0 s1); [exact K1|by split].
Qed.

Lemma confirmed_runs B s i k mt : sized B s → v_cores (view s) !! i = Some k → runs (do_confirmed mt (Z.of_nat i)) s (λ _ s', keeps B s s').
Proof.
  intros Hs Hk. pose proof Hk as Hc. apply cores_lookup in Hc as (c & Ec & Ek). unfold do_confirmed. apply (runs_accepted i c); [done|].
  change TCP_STATUS_CONFIRMED with 3. destruct (sn_status c =? 3) eqn:Est; cbn [negb]; [|apply runs_ret; by apply keeps_view]. cbv zeta.
  assert (co_status k ≠ 0) as Hst by (rewrite <- Ek; cbn; lia).
  destruct (mono_time_is_timeout _ _ TCP_PING_FREQUENCY); [|apply (finish_runs B s s i k); [by apply keeps_view|done..]].
  apply runs_server. destruct (random_u64 (ts_rng s)) as [r rng]. apply runs_update. set (s0 := s <| ts_rng := rng |>).
  change (v_cores (view s)) with (v_cores (view s0)) in Hk. apply runs_bind. eapply runs_conseq; [by apply (write_core i _ _ _ k), (sized_wired B s0 i)|]. intros ret s1 V1.
  assert (keeps B s s1) as K1 by (apply keeps_view; [done|by rewrite V1]). rewrite <- V1 in Hk.
  destruct (ret =? 1).
  - pose proof Hk as Hc. apply cores_lookup in Hc as (c1 & Ec1 & _). apply (runs_accepted i c1); [done|]. apply (runs_put i _ c1); [done|].
    apply (finish_runs B s _ i k); [|by rewrite (view_put s1 i _ c1)|done]. apply (keeps_trans B s s1); [done|].
    apply keeps_view; [apply K1|by apply (view_put s1 i _ c1)].
  - destruct (mono_time_is_timeout _ _ _).
    + eapply runs_conseq; [apply (kill_keeps B s1 i k); [apply K1|done]|]. intros ? s2 H2. by apply (keeps_trans B s s1).
    + by apply (finish_runs B s s1 i k).
Qed.

Lemma confirmed_loop_runs B mt n : ∀ s (i : nat), sized B s → runs (confirmed_loop n mt (Z.of_nat i)) s (λ _ s', keeps B s s').
Proof.
  induction n as [|n IH]; intros s i Hs; cbn [confirmed_loop]; [apply runs_ret; by apply keeps_view|]. apply runs_server.
  destruct (_ <? size_accepted s) eqn:E; [|apply runs_ret; by apply keeps_view]. rewrite size_cores in E.
  destruct (lookup_lt_is_Some_2 (v_cores (view s)) i) as [k Hk]; [unfold zlen in E; lia|]. apply runs_bind.
  eapply runs_conseq; [by apply (confirmed_runs B s i k)|]. intros ? s1 K1. replace (Z.of_nat i + 1) with (Z.of_nat (Datatypes.S i)) by lia.
  eapply runs_conseq; [apply IH, K1|]. intros ? s2 K2. by apply (keeps_trans B s s1).
Qed.

(** The loop has seen all clients when its fuel is used up. *)
Lemma confirmed_loop_all B mt m n : ∀ s (i : nat), sized B s → size_accepted s <= Z.of_nat (i + n) →
  confirmed_loop (n + m) mt (Z.of_nat i) s = confirmed_loop n mt (Z.of_nat i) s.
Proof.
  induction n as [|n IH]; intros s i Hs Hz.
  - cbn [confirmed_loop Nat.add]. destruct m as [|m]; [done|]. cbn [confirmed_loop]. unfold mbind, TS_bind. cbn.
    replace (_ <? size_accepted s) with false by lia. done.
  - cbn [confirmed_loop Nat.add]. unfold mbind at 1 3, TS_bind at 1 3. cbn [server mbind option_bind].
    destruct (_ <? size_accepted s) eqn:E; [|done]. rewrite size_cores in E, Hz.
    destruct (lookup_lt_is_Some_2 (v_cores (view s)) i) as [k Hk]; [unfold zlen in E; lia|].
    destruct (confirmed_runs B s i k mt Hs Hk) as ([] & s1 & E1 & [K1 Z1]). unfold mbind, TS_bind. rewrite E1. cbn [option_bind].
    replace (Z.of_nat i + 1) with (Z.of_nat (Datatypes.S i)) by lia. apply IH; [done|]. rewrite size_cores. lia.
Qed.

(** ** New connections *)

Lemma sized_incoming B s i c : sized B s → conn_ok c → sized B (s <| ts_incoming := aset (ts_incoming s) i c |>).
Proof. intros [[HR [H1 H2] HX] HN] Hc. split; [|done]. split; [by apply (routes_same (view s))|split; [by apply queue_put|done]|done]. Qed.

Lemma sized_unconfirmed B s i c : sized B s → conn_ok c → sized B (s <| ts_unconfirmed := aset (ts_unconfirmed s) i c |>).
Proof. intros [[HR [H1 H2] HX] HN] Hc. split; [|done]. split; [by apply (routes_same (view s))|split; [done|by apply queue_put]|done]. Qed.

Lemma sized_next_incoming B s n : sized B s → sized B (s <| ts_incoming_index := u16 n |>).
Proof. intros [[HR HQ [X1 X2]] HN]. split; [|done]. split; [by apply (routes_same (view s))|done|]. split; [apply Z.mod_pos_bound; lia|done]. Qed.

Lemma sized_next_unconfirmed B s n : sized B s → sized B (s <| ts_unconfirmed_index := u16 n |>).
Proof. intros [[HR HQ [X1 X2]] HN]. split; [|done]. split; [by apply (routes_same (view s))|done|]. split; [done|apply Z.mod_pos_bound; lia]. Qed.

Lemma queue_runs {A} q i (f : TCP_Secure_Connection → TS A) s Q : queue_ok q → 0 <= i < 256 → (∀ c, conn_ok c → q !! Z.to_nat i = Some c → runs (f c) s Q) →
  runs (at_index q i ≫= f) s Q.
Proof.
  intros Hq Hi H. destruct (queue_at q (Z.to_nat i) Hq) as (c & Ec & Hc); [lia|]. rewrite <- (Z2Nat.id i) by lia. apply (runs_at q _ c); [done|]. by apply H.
Qed.

Lemma wipe_ok c : conn_ok c → conn_ok (wipe_secure_connection c).
Proof. intros H. unfold wipe_secure_connection. destruct (negb _); [apply zero_conn_ok|done]. Qed.

(** Closing a connection of the queues. *)
Lemma kill_conn_runs c s Q : conn_ok c → sn_status c ≠ 0 → Q (wipe_secure_connection c) (s <| ts_events := ts_events s ++ [EvKillSock (tc_sock (sn_con c))] |>) →
  runs (kill_TCP_secure_connection c) s Q.
Proof. intros (_ & _ & _ & Hn) Hst HQ. unfold kill_TCP_secure_connection. apply runs_ns; [by apply Hn|]. apply runs_update, runs_ret. exact HQ. Qed.

Lemma accept_runs B s sock ok : sized B s → runs (accept_connection sock ok) s (λ _ s', sized B s').
Proof.
  intros Hs. pose proof Hs as [[HR [H1 H2] [X1 X2]] HN]. unfold accept_connection. destruct sock as [sock|]; [|by apply runs_ret].
  destruct (negb ok); [apply runs_update; by apply runs_ret|]. apply runs_server. cbv zeta. change MAX_INCOMING_CONNECTIONS with 256.
  apply queue_runs; [exact H1|apply Z.mod_pos_bound; lia|]. intros c Hc _.
  assert (∀ c', conn_ok c' → ∀ s', sized B s' →
    runs (put_incoming (ts_incoming_index s mod 256) (c' <| sn_status := TCP_STATUS_CONNECTED |> <| sn_con := (sn_con c') <| tc_ns := true |> <| tc_sock := sock |> |>
            <| sn_next_packet_length := 0 |>);; update (λ s, s <| ts_incoming_index := u16 (ts_incoming_index s + 1) |>);;
            mret (ts_incoming_index s mod 256)) s' (λ _ s'', sized B s'')) as Hput.
  { intros c' (C1 & C2 & C3 & _) s' Hs'. apply runs_update, runs_update, runs_ret. by apply sized_next_incoming, sized_incoming. }
  destruct (sn_status c =? TCP_STATUS_NO_STATUS) eqn:E; cbn [negb].
  2: { apply runs_bind. apply (kill_conn_runs c); [done|change TCP_STATUS_NO_STATUS with 0 in E; lia|]. apply Hput; [by apply wipe_ok|done]. }
  - apply runs_bind, runs_ret. by apply Hput.
Qed.

Lemma handshake_ok stack rng mem con sk : conn_ok con → conn_ok (read_connection_handshake stack rng mem con sk).1.2.
Proof.
  intros (H1 & H2 & H3 & H4). unfold read_connection_handshake. destruct (read_TCP_packet _ _) as [[d|] sock] eqn:E; [|by split_and!].
  apply recv_read in E as [Hd _]. cbv zeta. unfold handle_TCP_handshake. change TCP_CLIENT_HANDSHAKE_SIZE with 128 in *. destruct (negb (_ =? 128)); [by split_and!|].
  destruct (sn_status _ =? TCP_STATUS_CONNECTED) eqn:Est; cbn [negb]; [|by split_and!].
  assert (tc_ns (sn_con con) = true) as Hns by (apply H4; apply Z.eqb_eq in Est; cbn in Est; unfold TCP_STATUS_CONNECTED in Est; lia).
  destruct (decrypt_data_symmetric _ _ _ _ _) as [len plain]. destruct (negb _); [by split_and!|]. cbv zeta.
  assert (zlen (slice 0 CRYPTO_PUBLIC_KEY_SIZE d) = 32) as Hpk by (apply length_slice; unfold CRYPTO_PUBLIC_KEY_SIZE; lia).
  destruct (crypto_new_keypair rng) as [[tpk tsk] rng1]. destruct (random_nonce rng1) as [sn rng2]. destruct (random_nonce rng2) as [rn rng3].
  destruct (encrypt_data_symmetric _ _ _ _ _) as [l e]. destruct (negb _); [by split_and!|]. destruct (net_send _ _) as [sent so]. by destruct (negb _); split_and!.
Qed.

Lemma handshake_status stack rng mem con sk : sn_status con ≠ 0 → sn_status (read_connection_handshake stack rng mem con sk).1.2 ≠ 0.
Proof.
  intros H. unfold read_connection_handshake. destruct (read_TCP_packet _ _) as [[d|] sock]; [|done]. cbv zeta. unfold handle_TCP_handshake.
  destruct (negb _); [done|]. destruct (negb _); [done|]. destruct (decrypt_data_symmetric _ _ _ _ _) as [len plain]. destruct (negb _); [done|]. cbv zeta.
  destruct (crypto_new_keypair rng) as [[tpk tsk] rng1]. destruct (random_nonce rng1) as [sn rng2]. destruct (random_nonce rng2) as [rn rng3].
  destruct (encrypt_data_symmetric _ _ _ _ _) as [l e]. destruct (negb _); [done|]. destruct (net_send _ _) as [sent so]. by destruct (negb _).
Qed.

Lemma incoming_runs B stack s i : sized B s → 0 <= i < 256 → runs (do_incoming stack i) s (λ _ s', sized B s').
Proof.
  intros Hs Hi. pose proof Hs as [[HR [H1 H2] [X1 X2]] HN]. unfold do_incoming. apply runs_server. apply queue_runs; [exact H1|done|]. intros c Hc _.
  destruct (sn_status c =? TCP_STATUS_CONNECTED) eqn:Est; cbn [negb]; [|by apply runs_ret].
  assert (sn_status c ≠ 0) as Hst by (unfold TCP_STATUS_CONNECTED in Est; lia).
  apply runs_allocate, runs_ns; [by apply Hc|]. set (mem := ts_mem s AllocOther (ts_mem_calls s)).
  pose proof (handshake_ok stack (ts_rng s) mem c (ts_secret_key s) Hc) as Hc'.
  pose proof (handshake_status stack (ts_rng s) mem c (ts_secret_key s) Hst) as Hst'.
  destruct (read_connection_handshake _ _ _ _ _) as [[ret c'] rng]. cbn [fst snd] in Hc', Hst'. apply runs_update, runs_update.
  match goal with |- runs _ ?x _ => assert (sized B x) as Hs1 by (by apply (sized_incoming B (s <| ts_mem_calls := Datatypes.S (ts_mem_calls s) |> <| ts_rng := rng |>))) end.
  destruct (ret =? -1).
  { apply runs_bind, kill_conn_runs; [done|done|]. apply runs_update, runs_ret. apply sized_incoming; [exact Hs1|by apply wipe_ok]. }
  destruct (negb _); [by apply runs_ret|]. revert Hs1. match goal with |- sized B ?x → _ => generalize x end. intros s1 Hs1.
  pose proof Hs1 as [[_ [_ Q2] [_ Y2]] _]. apply runs_server. cbv zeta. change MAX_INCOMING_CONNECTIONS with 256.
  apply queue_runs; [exact Q2|apply Z.mod_pos_bound; lia|]. intros c1 Hc1 _.
  assert (∀ s2, sized B s2 → runs (put_unconfirmed (ts_unconfirmed_index s1 mod 256) c';; put_incoming i zero_connection;;
    update (λ s, s <| ts_unconfirmed_index := u16 (ts_unconfirmed_index s + 1) |>);; mret (ts_unconfirmed_index s1 mod 256)) s2 (λ _ s', sized B s')) as Hput.
  { intros s2 Hs2. apply runs_update, runs_update, runs_update, runs_ret.
    apply sized_next_unconfirmed, sized_incoming; [by apply sized_unconfirmed|apply zero_conn_ok]. }
  destruct (sn_status c1 =? TCP_STATUS_NO_STATUS) eqn:E1; cbn [negb].
  2: { apply runs_bind, runs_bind, kill_conn_runs; [done|change TCP_STATUS_NO_STATUS with 0 in E1; lia|]. apply runs_ret. by apply Hput. }
  - apply runs_bind, runs_ret. by apply Hput.
Qed.

Lemma confirm_runs B mt s (u : nat) d con : sized B s → B < 2 ^ 25 → (u < 256)%nat → ts_unconfirmed s !! u = Some con → sn_status con ≠ 0 →
  runs (confirm_TCP_connection mt (Z.of_nat u) d (zlen d)) s (λ _ s', sized (B + 1) s').
Proof.
  intros Hs HB Hu Econ Hcs. unfold confirm_TCP_connection. apply runs_bind. eapply runs_conseq; [by apply (add_runs B s u mt con)|].
  intros r s1 [Hs1 Hr]. apply runs_server. pose proof Hs1 as [[_ [_ Q2] _] _]. apply queue_runs; [exact Q2|lia|]. intros c Hc Ec.
  destruct (r =? -1) eqn:E.
  { destruct Hr as [[_ Eu]|(i & k & -> & _)]; [|lia]. rewrite Eu, Nat2Z.id, Econ in Ec. injection Ec as ->.
    apply runs_bind, kill_conn_runs; [done|done|]. apply runs_update, runs_ret. by apply sized_unconfirmed, wipe_ok. }
  destruct Hr as [[]|(i & k & -> & Hk & Hst)]; [lia|]. apply runs_update. apply runs_bind.
  eapply runs_conseq; [apply (packet_runs (B + 1) _ i k); [by apply sized_unconfirmed, wipe_ok|exact Hk|done]|].
  intros ret s2 (Hs2 & Hh & _). destruct (ret =? -1); [|by apply runs_ret].
  destruct (heads_lookup _ _ i k Hh Hk) as (k2 & Hk2 & _). eapply runs_conseq; [by apply (kill_keeps (B + 1) s2 i k2)|]. by intros ? s3 [? _].
Qed.

Lemma unconfirmed_runs B mt s i : sized B s → B < 2 ^ 25 → 0 <= i < 256 → runs (do_unconfirmed mt i) s (λ _ s', sized (B + 1) s').
Proof.
  intros Hs HB Hi. assert (∀ s', sized B s' → sized (B + 1) s') as Hmono by (intros s' [? ?]; split; [done|lia]).
  pose proof Hs as [[_ [_ H2] _] _]. unfold do_unconfirmed. apply runs_server. apply queue_runs; [exact H2|done|].
  intros c Hc Ec. destruct (sn_status c =? TCP_STATUS_UNCONFIRMED) eqn:Est; cbn [negb]; [|apply runs_ret; by apply Hmono].
  assert (sn_status c ≠ 0) as Hst by (unfold TCP_STATUS_UNCONFIRMED in Est; lia).
  apply runs_allocate, runs_ns; [by apply Hc|]. pose proof (read_from_spec (ts_mem s AllocOther (ts_mem_calls s)).1 c) as Hr.
  destruct (read_from _ c) as [[len d] c']. destruct Hr as (Hcore & _ & Hlen). apply runs_update.
  assert (conn_ok c') as Hc'.
  { destruct Hc as (C1 & C2 & C3 & C4). unfold core_of in Hcore. injection Hcore as E1 E2 E3 E4 E5. unfold conn_ok. rewrite E1, E2, E3, E4. by split_and!. }
  assert (sn_status c' ≠ 0) as Hst' by (unfold core_of in Hcore; congruence).
  match goal with |- runs _ ?x _ => assert (sized B x) as Hs1 by (by apply (sized_unconfirmed B (s <| ts_mem_calls := Datatypes.S (ts_mem_calls s) |>))) end.
  destruct (len =? 0) eqn:E0; [apply runs_ret; by apply Hmono|]. destruct (len =? -1) eqn:E1.
  { apply runs_bind, kill_conn_runs; [done|done|]. apply runs_update, runs_ret. apply Hmono. apply sized_unconfirmed; [exact Hs1|by apply wipe_ok]. }
  destruct (Hlen ltac:(lia) ltac:(lia)) as [<- _]. rewrite <- (Z2Nat.id i) by lia.
  apply (confirm_runs B mt _ (Z.to_nat i) d c'); [rewrite Z2Nat.id by lia; exact Hs1|done|lia| |done].
  cbn [set_field ts_unconfirmed]. unfold aset. rewrite Nat2Z.id. apply list_lookup_insert_eq. destruct H2 as [H2 _]. change (length (ts_unconfirmed s) = 256%nat) in H2. lia.
Qed.

Lemma each_runs {A} (P : nat → TCP_Server → Prop) (f : Z → TS A) n : ∀ s (i : nat), P i s →
  (∀ s j, (i <= j < i + n)%nat → P j s → runs (f (Z.of_nat j)) s (λ _ s', P (Datatypes.S j) s')) →
  runs (do_each n f (Z.of_nat i)) s (λ _ s', P (i + n)%nat s').
Proof.
  induction n as [|n IH]; intros s i HP Hf; cbn [do_each]; [apply runs_ret; by rewrite Nat.add_0_r|]. apply runs_bind.
  eapply runs_conseq; [apply Hf; [lia|done]|]. intros ? s1 H1. replace (Z.of_nat i + 1) with (Z.of_nat (Datatypes.S i)) by lia.
  replace (i + Datatypes.S n)%nat with (Datatypes.S i + n)%nat by lia. apply IH; [done|]. intros s2 j Hj. apply Hf. lia.
Qed.

Lemma incoming_all B stack s : sized B s → runs (do_TCP_incoming stack) s (λ _ s', sized B s').
Proof.
  intros Hs. unfold do_TCP_incoming. change (Z.to_nat MAX_INCOMING_CONNECTIONS) with 256%nat. rewrite <- Nat2Z.inj_0. apply (each_runs (λ _, sized B)); [done|].
  intros s' j Hj Hs'. apply incoming_runs; [done|lia].
Qed.

Lemma unconfirmed_all B mt s : sized B s → B + 256 <= 2 ^ 25 → runs (do_TCP_unconfirmed mt) s (λ _ s', sized (B + 256) s').
Proof.
  intros Hs HB. unfold do_TCP_unconfirmed. change (Z.to_nat MAX_INCOMING_CONNECTIONS) with 256%nat. rewrite <- Nat2Z.inj_0.
  apply (each_runs (λ n, sized (B + Z.of_nat n))); [by rewrite Z.add_0_r|]. intros s' j Hj Hs'.
  replace (B + Z.of_nat (Datatypes.S j)) with (B + Z.of_nat j + 1) by lia. apply unconfirmed_runs; [done|lia|lia].
Qed.

Lemma accept_loop_runs B n : ∀ s arriving, sized B s → runs (accept_loop n arriving) s (λ _ s', sized B s').
Proof.
  induction n as [|n IH]; intros s arriving Hs; cbn [accept_loop]; [by destruct arriving; apply runs_ret|]. destruct arriving as [|[sock ok] rest].
  - apply runs_bind. eapply runs_conseq; [by apply (accept_runs B)|]. intros ? s1 H1. by apply runs_ret.
  - apply runs_bind. eapply runs_conseq; [by apply (accept_runs B)|]. intros r s1 H1. destruct (r =? -1); [by apply runs_ret|by apply IH].
Qed.

Lemma accept_new_runs B listening : ∀ s, sized B s → runs (do_TCP_accept_new listening) s (λ _ s', sized B s').
Proof.
  induction listening as [|a rest IH]; intros s Hs; cbn [do_TCP_accept_new]; [by apply runs_ret|]. apply runs_bind.
  eapply runs_conseq; [by apply (accept_loop_runs B)|]. intros ? s1 H1. by apply IH.
Qed.

(** In a round at most as many clients come as wait to be confirmed. *)
Lemma server_runs B stack listening mt s : sized B s → B + 256 <= 2 ^ 25 → runs (do_TCP_server stack listening mt) s (λ _ s', sized (B + 256) s').
Proof.
  intros Hs HB. unfold do_TCP_server. apply runs_bind. eapply runs_conseq; [by apply (accept_new_runs B)|]. intros ? s1 H1.
  apply runs_bind. eapply runs_conseq; [by apply (incoming_all B)|]. intros ? s2 H2.
  apply runs_bind. eapply runs_conseq; [by apply (unconfirmed_all B)|]. intros ? s3 H3. unfold do_TCP_confirmed. apply runs_server. rewrite <- Nat2Z.inj_0.
  eapply runs_conseq; [apply (confirmed_loop_runs (B + 256) mt _ s3 0 H3)|]. by intros ? s4 [H4 _].
Qed.

(** ** What happens to a relay *)

(** Bytes that arrive at a connection. *)
Definition receive (d : bytes) (c : TCP_Secure_Connection) : TCP_Secure_Connection :=
  c <| sn_con := (sn_con c) <| tc_sock := (tc_sock (sn_con c)) <| so_recv := so_recv (tc_sock (sn_con c)) ++ d |> |> |>.

Inductive Relay_Event :=
  | RRound (stack : bytes) (listening : list (list (Tcp_Socket * bool))) (mono_time : Mono_Time)   (** a call of [do_TCP_server] *)
  | RIncoming (i : nat) (d : bytes)                                    (** bytes for a connection before its handshake, *)
  | RUnconfirmed (i : nat) (d : bytes)                                 (** after it, *)
  | RAccepted (i : nat) (d : bytes)                                    (** and for a client *)
  | ROnion (dest : IP_Port) (d : bytes) (length : Z)                   (** an answer from the onion *)
  | RForward (sendback : bytes) (sendback_len : Z) (d : bytes) (length : Z).   (** and from the forwarding *)

Definition relay_step (e : Relay_Event) : TS unit :=
  match e with
  | RRound stack listening mono_time => do_TCP_server stack listening mono_time
  | RIncoming i d => update (λ s, s <| ts_incoming := alter (receive d) i (ts_incoming s) |>)
  | RUnconfirmed i d => update (λ s, s <| ts_unconfirmed := alter (receive d) i (ts_unconfirmed s) |>)
  | RAccepted i d => update (λ s, s <| ts_accepted := alter (receive d) i (ts_accepted s) |>)
  | ROnion dest d length => handle_onion_recv_1 dest d length;; mret tt
  | RForward sendback sendback_len d length => handle_forward_reply_tcp sendback sendback_len d length;; mret tt
  end.

(** The onion and the forwarding answer with what the relay gave them: the
    identifier of a connection, which is a number from 1 on.  (They encrypt or
    authenticate it, so that nobody else can make it up.) *)
Definition event_ok (e : Relay_Event) : Prop :=
  match e with
  | ROnion dest _ _ => bytes_ok (ip_addr (ipp_ip dest)) ∧ le_val (slice 8 8 (ip_addr (ipp_ip dest))) ≠ 0
  | RForward sendback _ _ _ => net_unpack_u64 (drop 5 sendback) ≠ 0
  | _ => True
  end.

(** The states of a relay that never has more than [2 ^ 24] clients, and that does
    not get the first but not the second of the smaller arrays when it removes a
    key from the table; every other allocation may fail. *)
Inductive relay_reachable : TCP_Server → Prop :=
  | relay_new rng mem secret_key onion forwarding :
      (∀ n, (mem AllocShrink n).1 = false ∨ (mem AllocShrink n).2 = true) →
      relay_reachable (new_TCP_server rng mem secret_key onion forwarding)
  | relay_next s e s' : relay_reachable s → event_ok e → ts_num_accepted s <= 2 ^ 24 → relay_step e s = Some (tt, s') → relay_reachable s'.

Lemma queue_receive q i d : queue_ok q → queue_ok (alter (receive d) i q).
Proof. intros [H1 H2]. split; [by rewrite length_alter|]. apply list.Forall_alter; [done|]. intros c _ Hc. exact Hc. Qed.

Lemma step_runs s e : view_ok (view s) → event_ok e → ts_num_accepted s <= 2 ^ 24 → runs (relay_step e) s (λ _ s', view_ok (view s')).
Proof.
  intros Hv He Hn. assert (sized (2 ^ 24) s) as Hs by (split; [done|exact Hn]). pose proof Hv as [HR [Q1 Q2] HX].
  destruct e as [stack listening mt|i d|i d|i d|dest d n|sb sbn d n]; cbn [relay_step].
  - eapply runs_conseq; [by apply (server_runs (2 ^ 24))|]. by intros ? s' [? _].
  - eexists _, _. split; [reflexivity|]. split; [by apply (routes_same (view s))|split; [by apply queue_receive|done]|done].
  - eexists _, _. split; [reflexivity|]. split; [by apply (routes_same (view s))|split; [done|by apply queue_receive]|done].
  - eexists _, _. split; [reflexivity|]. split; [|done..]. apply (routes_same (view s)); [done|]. split_and!; try done. unfold view. view_fields.
    cbn [set_field ts_accepted]. apply list_eq. intros j. change (map core_of) with (fmap (M := list) core_of). rewrite !list_lookup_fmap.
    destruct (decide (i = j)) as [<-|Hne]; [rewrite list_lookup_alter_eq; by destruct (ts_accepted s !! i)|by rewrite list_lookup_alter_ne].
  - apply runs_bind. eapply runs_conseq; [by apply (onion_recv_runs (2 ^ 24) _ _ _ _ Hs (proj1 He) (proj2 He))|]. intros ? s' [[? _] _]. by apply runs_ret.
  - apply runs_bind. eapply runs_conseq; [by apply (forward_reply_runs (2 ^ 24))|]. intros ? s' [[? _] _]. by apply runs_ret.
Qed.

Lemma init_table ok1 ok2 : let l := (bs_list_init ok1 ok2 CRYPTO_PUBLIC_KEY_SIZE 8).2 in wf l ∧ to_map l = ∅ ∧ bl_element_size l = 32 ∧ bl_n l = 0.
Proof. destruct ok1, ok2; (split; [|done]); constructor; cbn; try done; try nia; by intros ?????. Qed.

Lemma new_view rng mem sk onion fwd : (∀ n, (mem AllocShrink n).1 = false ∨ (mem AllocShrink n).2 = true) → view_ok (view (new_TCP_server rng mem sk onion fwd)).
Proof.
  intros Hm. destruct (init_table (mem AllocOther 0%nat).1 (mem AllocOther 0%nat).2) as (W & E1 & E2 & E3). split; [|split|done].
  - split; unfold view, new_TCP_server; view_fields; cbn [ts_accepted ts_num_accepted ts_key_list ts_mem map]; try done.
    + intros k j. rewrite E1. split; [done|]. by intros (i & c & _ & Hi & _).
  - split; [done|]. apply list.Forall_replicate, zero_conn_ok.
  - split; [done|]. apply list.Forall_replicate, zero_conn_ok.
Qed.

Lemma reachable_view s : relay_reachable s → view_ok (view s).
Proof.
  induction 1 as [|s e s' _ IH He Hn E]; [by apply new_view|]. destruct (step_runs s e IH He Hn) as (x & s1 & E1 & H1). rewrite E in E1. by injection E1 as <- <-.
Qed.

(** ** Requests that meet *)

(** When memory lasts, a packet with priority is always taken. *)
Lemma priority_taken con d : 0 < zlen d <= 1024 → (write_packet_TCP_secure_connection true true con d (zlen d) true).1 = 1.
Proof.
  intros Hd. unfold write_packet_TCP_secure_connection. change MAX_PACKET_SIZE with 2048. change CRYPTO_MAC_SIZE with 16. replace (2048 <? _) with false by lia.
  destruct (send_pending_data con) as [p c1]. rewrite andb_false_r. destruct (encrypt_ok (tc_shared_key c1) (tc_sent_nonce c1) d (zlen d) eq_refl) as (e & -> & _); [lia|].
  cbv zeta. replace (zlen d + 16 =? _) with true by lia. cbn [negb]. unfold write_priority. destruct (if negb (p =? -1) then _ else _) as [n so]. cbv zeta.
  by destruct (Z.eqb _ _).
Qed.

Lemma write_taken i d s k : (∀ what n, v_mem (view s) what n = (true, true)) → v_cores (view s) !! i = Some k → co_wired k = true → 0 < zlen d <= 1024 →
  runs (write_to (Z.of_nat i) d true) s (λ r s', r = 1 ∧ view s' = view s).
Proof.
  intros Hm Hk Hw Hd. apply cores_lookup in Hk as (c & Ec & <-). unfold write_to. apply (runs_accepted i c); [done|]. apply runs_allocate.
  change (ts_mem s) with (v_mem (view s)). rewrite Hm. cbn [fst snd]. pose proof (priority_taken (sn_con c) d Hd) as H1.
  pose proof (write_recv true true (sn_con c) d (zlen d) true) as H2. pose proof (write_ns true true (sn_con c) d (zlen d) true) as H3.
  destruct (write_packet_TCP_secure_connection _ _ _ _ _ _) as [ret x]. cbn [fst snd] in *.
  apply runs_ns; [exact Hw|]. apply (runs_put i _ c); [done|]. apply runs_ret. split; [done|].
  exact (view_put (s <| ts_mem_calls := Datatypes.S (ts_mem_calls s) |>) i (c <| sn_con := x |>) c Ec (core_con c x H3) H2).
Qed.

Lemma find_waiting_total k l n c : l !! n = Some c → cl_status c = 1 → cl_public_key c = k → ∀ i, 0 <= i → i + zlen l <= UINT32_MAX → find_waiting l i k ≠ UINT32_MAX.
Proof.
  revert n. induction l as [|x l IH]; intros n Hn Hs Hk i Hi Hl; [done|]. cbn [find_waiting]. rewrite zlen_cons in Hl. pose proof (zlen_nonneg l).
  destruct (_ && _) eqn:E; [lia|]. destruct n as [|n]; [|by apply (IH n); [done..|lia|lia]]. injection Hn as ->. exfalso.
  rewrite Hs, Hk in E. unfold pk_equal, bytes_eqb in E. by rewrite bool_decide_true in E.
Qed.

Lemma find_route_free k l : Forall (λ c, cl_status c = 0 ∨ cl_public_key c ≠ k) l → Exists (λ c, cl_status c = 0) l → ∀ i, 0 <= i → i + zlen l <= UINT32_MAX →
  ∃ n c, find_route l i k UINT32_MAX = inr (i + Z.of_nat n) ∧ l !! n = Some c ∧ cl_status c = 0.
Proof.
  intros Hf He i Hi Hl. destruct (find_route_spec k l i UINT32_MAX) as [(n & c & _ & Hn & Hs & Hk)|[E|(n & c & E & Hn & Hs & _)]]; [| |by exists n, c].
  { destruct (proj1 (list.Forall_lookup _ _) Hf n c Hn); done. }
  exfalso. revert i Hi Hl E. induction l as [|x l IH]; intros i Hi Hl E; [by inversion He|]. rewrite zlen_cons in Hl. pose proof (zlen_nonneg l).
  inversion Hf as [|? ? Hx Hf']. subst. cbn [find_route] in E. destruct (cl_status x =? 0) eqn:Ex; cbn [negb] in E.
  - change (UINT32_MAX =? UINT32_MAX) with true in E. cbv iota in E. destruct (find_route_spec k l (i + 1) i) as [(n & c & E' & _)|[E'|(n & c & _ & _ & _ & E')]];
      [rewrite E' in E; done|rewrite E' in E; injection E; lia|lia].
  - unfold pk_equal, bytes_eqb in E. case_bool_decide; [done|]. apply (IH Hf') with (i + 1); [|lia|lia|done]. inversion He; subst; [lia|done].
Qed.

(** The start of [handle_TCP_routing_req] for a new route. *)
Lemma request_runs Q s i k pk : v_cores (view s) !! i = Some k → core_ok k → co_status k ≠ 0 → (∀ what n, v_mem (view s) what n = (true, true)) → co_key k ≠ pk → zlen pk = 32 →
  Forall (λ c, cl_status c = 0 ∨ cl_public_key c ≠ pk) (co_slots k) → Exists (λ c, cl_status c = 0) (co_slots k) →
  (∀ s' c l con, view s' = view s → slot (v_cores (view s)) i c = Some l → cl_status l = 0 → (c < 240)%nat → sn_public_key con = co_key k →
     runs (l ← conn_slot (Z.of_nat i) (Z.of_nat c); put_slot (Z.of_nat i) (Z.of_nat c) (l <| cl_status := 1 |> <| cl_public_key := pk |>);;
        other_index ← get_TCP_connection_index pk;
        if other_index =? -1 then mret 0
        else
          other_conn ← accepted other_index;
          let other_id := find_waiting (sn_connections other_conn) 0 (sn_public_key con) in
          if other_id =? UINT32_MAX then mret 0
          else
            l ← conn_slot (Z.of_nat i) (Z.of_nat c);
            put_slot (Z.of_nat i) (Z.of_nat c) (l <| cl_status := 2 |> <| cl_index := u32 other_index |> <| cl_other_id := u8 other_id |>);;
            l ← conn_slot other_index other_id;
            put_slot other_index other_id (l <| cl_status := 2 |> <| cl_index := Z.of_nat i |> <| cl_other_id := u8 (Z.of_nat c) |>);;
            send_connect_notification (Z.of_nat i) (Z.of_nat c);; send_connect_notification other_index other_id;; mret 0) s' Q) →
  runs (handle_TCP_routing_req (Z.of_nat i) pk) s Q.
Proof.
  intros Hk (Hlen & _ & _ & _ & Hw) Hst Hm Hne Hpk Hf He H. pose proof Hk as Hc. apply cores_lookup in Hc as (con & Ec & Ek). unfold handle_TCP_routing_req.
  apply (runs_accepted i con); [done|]. cbv zeta. unfold send_routing_response, pk_equal, bytes_eqb.
  assert (sn_connections con = co_slots k) as Es by (by rewrite <- Ek). assert (sn_public_key con = co_key k) as Ekey by (by rewrite <- Ek).
  rewrite bool_decide_false by congruence. rewrite Es. destruct (find_route_free pk _ Hf He 0) as (n & l & -> & Hl & Hz); [lia|unfold zlen, UINT32_MAX; lia|].
  rewrite Z.add_0_l. pose proof (lookup_lt_Some _ _ _ Hl) as Hn. replace (Z.of_nat n =? UINT32_MAX) with false by (unfold UINT32_MAX; lia).
  apply runs_bind. eapply runs_conseq; [apply (write_taken i _ s k Hm Hk (Hw Hst))|].
  { unfold zlen in *. rewrite length_app. cbn. lia. }
  intros r s1 [-> V1]. change (1 =? 0) with false. change (1 =? -1) with false. cbv iota. apply (H s1 n l con); try done; [by apply (slot_of _ i n k)|lia].
Qed.

(** The first of two clients asks for the other: its slot waits. *)
Lemma first_request_runs B s i k pk : sized B s → v_cores (view s) !! i = Some k → co_status k ≠ 0 → (∀ what n, v_mem (view s) what n = (true, true)) →
  co_key k ≠ pk → zlen pk = 32 → Forall (λ c, cl_status c = 0 ∨ cl_public_key c ≠ pk) (co_slots k) → Exists (λ c, cl_status c = 0) (co_slots k) →
  (∀ j kj, v_cores (view s) !! j = Some kj → co_status kj ≠ 0 → co_key kj = pk → Forall (λ c, cl_status c = 0 ∨ cl_public_key c ≠ co_key k) (co_slots kj)) →
  runs (handle_TCP_routing_req (Z.of_nat i) pk) s (λ r s', r = 0 ∧ handled B s s' ∧ v_mem (view s') = v_mem (view s) ∧ ∃ c l,
    slot (v_cores (view s')) i c = Some l ∧ cl_status l = 1 ∧ cl_public_key l = pk ∧ v_cores (view s') = put_slots (v_cores (view s)) i c l).
Proof.
  intros Hs Hk Hst Hm Hne Hpk Hf He Hno. pose proof Hs as [[HR HQ HX] HN].
  apply (request_runs _ s i k pk); try done; [by apply (proj1 (list.Forall_lookup _ _) (ro_cores _ HR) i)|].
  intros s0 c l con V0 Sl El Hc Ekey. set (A := v_cores (view s)) in *.
  apply (runs_slot i c l); [by rewrite V0|]. apply (runs_put_slot i c _ l); [by rewrite V0|]. intros s1 V1. rewrite V0 in V1. fold A in V1.
  set (l1 := l <| cl_status := 1 |> <| cl_public_key := pk |>) in *. set (A1 := put_slots A i c l1) in *.
  assert (heads A1 = heads A) as Hh1 by (unfold A1; apply heads_put).
  assert (handled B s s1) as H1.
  { apply (handled_cores B s s1 A1); try done.
    - apply (cores_put A i c _ l); [apply HR|done|]. intros k' Hk' Hz. congruence.
    - apply (links_put A i c l); [apply HR|done|lia|done]. }
  assert (v_cores (view s1) = A1) as EA by (by rewrite V1).
  assert (slot A1 i c = Some l1) as S1 by (unfold A1; rewrite slot_put by done; by rewrite decide_True).
  assert (0 = 0 ∧ handled B s s1 ∧ v_mem (view s1) = v_mem (view s) ∧ ∃ c l, slot (v_cores (view s1)) i c = Some l ∧ cl_status l = 1 ∧ cl_public_key l = pk ∧
    v_cores (view s1) = put_slots A i c l) as Hend.
  { split; [done|]. split; [done|]. split; [by rewrite V1|]. exists c, l1. by rewrite EA. }
  apply find_runs; [apply H1|done|]. set (other := default (-1) _). destruct (other =? -1) eqn:Eo; [by apply runs_ret|].
  destruct (found_client (view s1) pk other) as (j & kj & Ej & Hj & Hjs & Hjk); [apply H1|done|lia|]. rewrite Ej.
  pose proof Hj as Hcon. apply cores_lookup in Hcon as (cj & Ecj & Ekj). apply (runs_accepted j cj); [done|]. cbv zeta.
  assert (sn_connections cj = co_slots kj) as Esl by (by rewrite <- Ekj). rewrite Esl, Ekey.
  assert (i ≠ j) as Hij.
  { intros <-. destruct (heads_lookup A A1 i k Hh1 Hk) as (k' & Hk' & _ & E2). rewrite EA, Hk' in Hj. injection Hj as ->. congruence. }
  rewrite EA in Hj. unfold A1, put_slots in Hj. rewrite list_lookup_alter_ne in Hj by done.
  destruct (find_waiting_spec (co_key k) (co_slots kj) 0) as [->|(d & m & _ & Hd & Em & Emk)]; [change (UINT32_MAX =? UINT32_MAX) with true; by apply runs_ret|].
  exfalso. destruct (proj1 (list.Forall_lookup _ _) (Hno j kj Hj Hjs Hjk) d m Hd); [lia|done].
Qed.

(** The second asks for the first, which waits for it: they are linked. *)
Lemma second_request_runs B s j kj i ki e le : sized B s → v_cores (view s) !! j = Some kj → co_status kj ≠ 0 → (∀ what n, v_mem (view s) what n = (true, true)) →
  v_cores (view s) !! i = Some ki → co_status ki ≠ 0 → i ≠ j → co_key kj ≠ co_key ki →
  Forall (λ c, cl_status c = 0 ∨ cl_public_key c ≠ co_key ki) (co_slots kj) → Exists (λ c, cl_status c = 0) (co_slots kj) →
  co_slots ki !! e = Some le → cl_status le = 1 → cl_public_key le = co_key kj →
  runs (handle_TCP_routing_req (Z.of_nat j) (co_key ki)) s (λ r s', r = 0 ∧ handled B s s' ∧ ∃ c d l l', linked (v_cores (view s')) j c l i d l').
Proof.
  intros Hs Hj Hjs Hm Hi His Hij Hkk Hf He Hw Ew Kw. pose proof Hs as [[HR HQ HX] HN].
  pose proof (proj1 (list.Forall_lookup _ _) (ro_cores _ HR)) as Hcores. pose proof (Hcores i ki Hi) as (Hleni & Hkey & _).
  apply (request_runs _ s j kj (co_key ki)); try done; [by apply (Hcores j)|].
  intros s0 c l con V0 Sl El Hc Ekey. set (A := v_cores (view s)) in *.
  apply (runs_slot j c l); [by rewrite V0|]. apply (runs_put_slot j c _ l); [by rewrite V0|]. intros s1 V1. rewrite V0 in V1. fold A in V1.
  set (l1 := l <| cl_status := 1 |> <| cl_public_key := co_key ki |>) in *. set (A1 := put_slots A j c l1) in *.
  assert (heads A1 = heads A) as Hh1 by (unfold A1; apply heads_put).
  assert (handled B s s1) as H1.
  { apply (handled_cores B s s1 A1); try done.
    - apply (cores_put A j c _ l); [apply HR|done|]. intros k' Hk' Hz. congruence.
    - apply (links_put A j c l); [apply HR|done|lia|done]. }
  assert (v_cores (view s1) = A1) as EA by (by rewrite V1).
  assert (A1 !! i = Some ki) as Hi1 by (unfold A1, put_slots; by rewrite list_lookup_alter_ne).
  apply find_runs; [apply H1|done|]. replace (default (-1) _) with (Z.of_nat i).
  2: { assert (to_map (v_keys (view s1)) !! co_key ki = Some (Z.of_nat i)) as ->; [|done].
       apply (ro_keys _ (vo_routes _ (proj1 (proj1 H1)))). exists i, ki. by rewrite EA. }
  replace (Z.of_nat i =? -1) with false by lia. assert (v_cores (view s1) !! i = Some ki) as Hi2 by (by rewrite EA).
  pose proof Hi2 as Hcon. apply cores_lookup in Hcon as (ci & Eci & Eki). apply (runs_accepted i ci); [done|]. cbv zeta.
  assert (sn_connections ci = co_slots ki) as Esl by (by rewrite <- Eki). rewrite Esl, Ekey.
  destruct (find_waiting_spec (co_key kj) (co_slots ki) 0) as [E|(d & m & E & Hd & Em & Emk)].
  { exfalso. apply (find_waiting_total (co_key kj) (co_slots ki) e le Hw Ew Kw 0); [lia|unfold zlen, UINT32_MAX; lia|done]. }
  rewrite E, Z.add_0_l. pose proof (lookup_lt_Some _ _ _ Hd) as Hdl. replace (Z.of_nat d =? UINT32_MAX) with false by (unfold UINT32_MAX; lia).
  eapply runs_conseq; [apply (join_runs B s1 s j c l1 i d m H1)|].
  - rewrite EA. unfold A1. rewrite slot_put by done. by rewrite decide_True.
  - done.
  - by apply (slot_of _ i d ki).
  - done.
  - done.
  - done.
  - lia.
  - by rewrite Hi2.
  - rewrite EA. destruct (heads_lookup A A1 j kj Hh1 Hj) as (k' & -> & _ & E2). cbn. by rewrite E2, Emk.
  - intros r s' (-> & H' & l' & m' & HL). split; [done|]. split; [done|]. by exists c, d, l', m'.
Qed.

Lemma reachable_sized s : relay_reachable s → sized (ts_num_accepted s) s.
Proof. intros H. split; [by apply reachable_view|]. change (ts_num_accepted s) with (v_num (view s)). lia. Qed.

Lemma accepted_eq {A} i con (f : TCP_Secure_Connection → TS A) s : ts_accepted s !! i = Some con → (accepted (Z.of_nat i) ≫= f) s = f con s.
Proof.
  intros E. unfold accepted, at_index, mbind, TS_bind. cbn. replace (Z.of_nat i <? 0) with false by lia. by rewrite Nat2Z.id, E.
Qed.

Lemma slot_eq {A} i c con l (f : TCP_Secure_Conn → TS A) s : ts_accepted s !! i = Some con → sn_connections con !! c = Some l →
  (conn_slot (Z.of_nat i) (Z.of_nat c) ≫= f) s = f l s.
Proof.
  intros E El. unfold conn_slot. unfold mbind at 1, TS_bind at 1. rewrite (accepted_eq i con) by done. unfold at_index.
  replace (Z.of_nat c <? 0) with false by lia. by rewrite Nat2Z.id, El.
Qed.

Lemma data_packet s i con c l rest : ts_accepted s !! i = Some con → sn_connections con !! c = Some l → (c < 240)%nat →
  let d := (16 + Z.of_nat c) :: rest in
  handle_TCP_packet (Z.of_nat i) d (zlen d) s = (if cl_status l =? 0 then mret (-1) else if negb (cl_status l =? 2) then mret 0
    else ret ← write_to (cl_index l) (u8 (cl_other_id l + NUM_RESERVED_PORTS) :: rest) false; mret (if ret =? -1 then -1 else 0)) s.
Proof.
  intros Hi Hl Hc d. assert (aget 0 d 0 = 16 + Z.of_nat c) as E0 by done. pose proof (zlen_nonneg rest) as Hr.
  assert (zlen d = zlen rest + 1) as Ed by (unfold d; rewrite zlen_cons; lia).
  assert (slice 1 (zlen d - 1) d = rest) as Er.
  { unfold slice, d. change (Z.to_nat 1) with 1%nat. cbn [drop]. apply take_ge. rewrite zlen_cons. unfold zlen. lia. }
  unfold handle_TCP_packet. replace (zlen d =? 0) with false by lia. rewrite (accepted_eq i con) by done. cbv zeta. rewrite E0.
  unfold TCP_PACKET_ROUTING_REQUEST, TCP_PACKET_CONNECTION_NOTIFICATION, TCP_PACKET_DISCONNECT_NOTIFICATION, TCP_PACKET_PING, TCP_PACKET_PONG,
    TCP_PACKET_OOB_SEND, TCP_PACKET_ONION_REQUEST, TCP_PACKET_ONION_RESPONSE, TCP_PACKET_FORWARD_REQUEST, TCP_PACKET_FORWARDING.
  repeat match goal with |- context [16 + Z.of_nat c =? ?x] => replace (16 + Z.of_nat c =? x) with false by (symmetry; apply Z.eqb_neq; lia) end.
  cbv iota. unfold handle_data. change NUM_RESERVED_PORTS with 16. change NUM_CLIENT_CONNECTIONS with 240. cbv zeta. rewrite E0, Er.
  replace (_ <? 16) with false by lia. replace (16 + Z.of_nat c - 16) with (Z.of_nat c) by lia. rewrite u8_small by lia. replace (240 <=? _) with false by lia.
  by rewrite (slot_eq i c con l).
Qed.

(** C29: In every state a relay reaches, whatever its clients send, whatever the
    onion and the forwarding answer to its requests and whatever allocation fails,
    the table of keys lists exactly the clients, the counter counts them, the
    links between their slots are mutual; and the next event is handled without
    an access outside an array or the table and without a call through a null
    pointer.  There are at most [2 ^ 24] clients at any time, and when a key is
    removed from the table the second of its two arrays is not the only one that
    cannot be shrunk (see [BsList.bs_list_remove_shrink_hazard]). *)
Theorem relay_keeps_its_books s e : relay_reachable s → event_ok e → ts_num_accepted s <= 2 ^ 24 →
  let clients := map core_of (ts_accepted s) in
  links_ok clients ∧ keys_ok clients (to_map (ts_key_list s)) ∧ ts_num_accepted s = nconf clients ∧ ∃ s', relay_step e s = Some (tt, s').
Proof.
  intros H He Hn A. pose proof (reachable_view s H) as Hv. pose proof Hv as [[_ H2 H3 _ H5 _ _] _ _]. split_and!; [exact H2|exact H3|exact H5|].
  destruct (step_runs s e Hv He Hn) as ([] & s' & E & _). by exists s'.
Qed.

(** C30: What a client sends to one of its slots goes to the client whose key it
    asked for, who asked for its key: the slots are linked, and one packet is
    written to the other client, with the number of its own slot.  Nobody else
    gets anything; before the other client asked too, the data is dropped, and
    for a slot not in use the packet is an error, after which the client is
    dropped. *)
Theorem data_goes_to_the_partner s i con c l rest : relay_reachable s → ts_accepted s !! i = Some con → sn_connections con !! c = Some l →
  let d := (16 + Z.of_nat c) :: rest in
  (cl_status l = 2 → ∃ j con' c' l', ts_accepted s !! j = Some con' ∧ sn_connections con' !! c' = Some l' ∧ i ≠ j ∧ sn_status con' ≠ 0 ∧
     cl_public_key l = sn_public_key con' ∧ cl_public_key l' = sn_public_key con ∧
     handle_TCP_packet (Z.of_nat i) d (zlen d) s =
       (ret ← write_to (Z.of_nat j) ((16 + Z.of_nat c') :: rest) false; mret (if ret =? -1 then -1 else 0)) s) ∧
  (cl_status l ≠ 2 → cl_status l ≠ 0 → handle_TCP_packet (Z.of_nat i) d (zlen d) s = Some (0, s)) ∧
  (cl_status l = 0 → handle_TCP_packet (Z.of_nat i) d (zlen d) s = Some (-1, s)).
Proof.
  intros H Hi Hl d. destruct (reachable_view s H) as [HR _ _]. pose proof (lookup_cores s i con Hi) as Hk.
  pose proof (proj1 (list.Forall_lookup _ _) (ro_cores _ HR) i _ Hk) as (Hlen & _). pose proof (lookup_lt_Some _ _ _ Hl) as Hc. cbn in Hlen. rewrite Hlen in Hc.
  pose proof (slot_of _ i c (core_of con) l Hk Hl) as Hs.
  assert (handle_TCP_packet (Z.of_nat i) d (zlen d) s = (if cl_status l =? 0 then mret (-1) else if negb (cl_status l =? 2) then mret 0
    else ret ← write_to (cl_index l) (u8 (cl_other_id l + NUM_RESERVED_PORTS) :: rest) false; mret (if ret =? -1 then -1 else 0)) s) as ->.
  { by apply (data_packet s i con). }
  split_and!.
  - intros E. rewrite E. cbn [Z.eqb Pos.eqb negb]. destruct (ro_links _ HR i c l Hs E) as (j & c' & l' & HL). pose proof (linked_sym _ _ _ _ _ _ _ (ro_links _ HR) HL) as HL'.
    destruct HL as (_ & S2 & _ & L2 & I1 & I2 & _ & _ & Hij & K1). destruct HL' as (_ & _ & _ & _ & _ & _ & _ & _ & _ & K2).
    unfold slot in S2. destruct (v_cores (view s) !! j) as [kj|] eqn:Ej; [|done]. cbn in S2. pose proof Ej as Hj. apply cores_lookup in Hj as (con' & Ec & <-).
    pose proof (proj1 (list.Forall_lookup _ _) (ro_cores _ HR) j _ Ej) as (Hlen' & _). pose proof (lookup_lt_Some _ _ _ S2) as Hc'. rewrite Hlen' in Hc'.
    exists j, con', c', l'. rewrite Hk in K2. cbn in K1, K2. injection K1 as K1. injection K2 as K2. split_and!; try done.
    + apply (used_active (v_cores (view s)) j c' l' (core_of con')); [apply HR|by apply (slot_of _ j c' (core_of con'))|lia|done].
    + rewrite I1, I2. change NUM_RESERVED_PORTS with 16. rewrite u8_small by lia. by rewrite (Z.add_comm (Z.of_nat c') 16).
  - intros E1 E2. replace (cl_status l =? 0) with false by lia. by replace (cl_status l =? 2) with false by lia.
  - intros ->. done.
Qed.

(** C12: Two clients that ask for a route to each other are linked when the second
    request has been handled: if they are different clients of the relay, each has
    a free slot and no slot for the other yet, and memory lasts, then both
    requests succeed, and afterwards a slot of the one and a slot of the other
    point to each other. *)
Theorem mutual_requests_are_linked s i ci j cj : relay_reachable s → (∀ what n, ts_mem s what n = (true, true)) → i ≠ j →
  ts_accepted s !! i = Some ci → sn_status ci ≠ 0 → ts_accepted s !! j = Some cj → sn_status cj ≠ 0 →
  Forall (λ l, cl_status l = 0 ∨ cl_public_key l ≠ sn_public_key cj) (sn_connections ci) → Exists (λ l, cl_status l = 0) (sn_connections ci) →
  Forall (λ l, cl_status l = 0 ∨ cl_public_key l ≠ sn_public_key ci) (sn_connections cj) → Exists (λ l, cl_status l = 0) (sn_connections cj) →
  ∃ s', (handle_TCP_routing_req (Z.of_nat i) (sn_public_key cj);; handle_TCP_routing_req (Z.of_nat j) (sn_public_key ci)) s = Some (0, s') ∧
    ∃ c d l l', linked (map core_of (ts_accepted s')) j c l i d l'.
Proof.
  intros H Hm Hij Hi Hsi Hj Hsj Fi Ei Fj Ej. pose proof (reachable_sized s H) as Hs. pose proof Hs as [[HR _ _] _].
  pose proof (lookup_cores s i ci Hi) as Ki. pose proof (lookup_cores s j cj Hj) as Kj. pose proof (ro_keys _ HR) as HK.
  assert (sn_public_key ci ≠ sn_public_key cj) as Hne.
  { intros E. assert (to_map (v_keys (view s)) !! sn_public_key ci = Some (Z.of_nat i)) as F1 by (apply HK; by exists i, (core_of ci)).
    assert (to_map (v_keys (view s)) !! sn_public_key ci = Some (Z.of_nat j)) as F2 by (apply HK; by exists j, (core_of cj)). rewrite F1 in F2. injection F2. lia. }
  pose proof (proj1 (list.Forall_lookup _ _) (ro_cores _ HR) j _ Kj) as (_ & Hlj & _).
  assert (runs (handle_TCP_routing_req (Z.of_nat i) (sn_public_key cj);; handle_TCP_routing_req (Z.of_nat j) (sn_public_key ci)) s
    (λ r s', r = 0 ∧ ∃ c d l l', linked (v_cores (view s')) j c l i d l')) as (r & s' & E & -> & HL); [|by exists s'].
  apply runs_bind. eapply runs_conseq; [apply (first_request_runs _ s i (core_of ci) (sn_public_key cj) Hs); try done|].
  { intros j' kj' Hj' Hs' Hk'. assert (to_map (v_keys (view s)) !! sn_public_key cj = Some (Z.of_nat j)) as F1 by (apply HK; by exists j, (core_of cj)).
    assert (to_map (v_keys (view s)) !! sn_public_key cj = Some (Z.of_nat j')) as F2 by (apply HK; by exists j', kj'). rewrite F1 in F2.
    assert (j' = j) as -> by (injection F2; lia). rewrite Kj in Hj'. by injection Hj' as <-. }
  intros r s1 (_ & (Hs1 & Hh & _) & M1 & c & l & S1 & L1 & P1 & A1).
  destruct (heads_lookup _ _ i (core_of ci) Hh Ki) as (ki1 & Ki1 & E1 & E2).
  assert (v_cores (view s1) !! j = Some (core_of cj)) as Kj1 by (rewrite A1; unfold put_slots; by rewrite list_lookup_alter_ne).
  unfold slot in S1. rewrite Ki1 in S1. cbn in S1. cbn in E1, E2. rewrite <- E2 in *.
  eapply runs_conseq; [apply (second_request_runs _ s1 j (core_of cj) i ki1 c l Hs1); try done|]; [by rewrite M1|by rewrite E1|]. by intros r' s2 (-> & _ & HL).
Qed.

(** C31: The loops of a round end by themselves: reading the packets of a client
    stops because nothing is left to read or the client was dropped, and the
    loop over the clients has seen them all when its count is used up, however
    many were dropped on the way. *)
Theorem relay_loops_end s i con mono_time more : relay_reachable s → ts_accepted s !! i = Some con → sn_status con ≠ 0 →
  (∃ s', do_confirmed_recv (Z.of_nat i) s = Some (true, s')) ∧
  confirmed_loop (length (ts_accepted s) + more) mono_time 0 s = do_TCP_confirmed mono_time s.
Proof.
  intros H Hi Hst. pose proof (reachable_sized s H) as Hs. split.
  - destruct (confirmed_recv_runs _ s i (core_of con) Hs (lookup_cores s i con Hi) Hst) as (r & s' & E & -> & _). by exists s'.
  - apply (confirmed_loop_all _ mono_time more (length (ts_accepted s)) s 0 Hs). unfold size_accepted, zlen. lia.
Qed.
End rounds.

(** ** Two clients *)

Definition demo_server_key : bytes := replicate 32 7.
Definition demo_client_key (x : Z) : bytes := replicate 32 x.

(** The handshake a client with this key sends, and one packet of it under the keys
    of the connection. *)
Definition demo_handshake (x : Z) : bytes :=
  let k := default [] (encrypt_precompute (S := toy_sodium) (demo_client_key x) demo_server_key) in
  demo_client_key x ++ zeros 24 ++ (encrypt_data_symmetric (S := toy_sodium) true k (zeros 24) (replicate 32 (x + 1) ++ zeros 24) 56).2.

Definition demo_frame (con : TCP_Secure_Connection) (d : bytes) : bytes :=
  net_pack_u16 (zlen d + 16) ++ (encrypt_data_symmetric (S := toy_sodium) true (tc_shared_key (sn_con con)) (sn_recv_nonce con) d (zlen d)).2.

Definition demo_sock (x : Z) : Tcp_Socket := mkTcpSocket [] (demo_handshake x) 0 (λ _, 5000).
Definition demo_round (arriving : list (list (Tcp_Socket * bool))) : Relay_Event := RRound [] arriving (mkMonoTime 1000 0).

Definition demo_next (s : TCP_Server) (e : Relay_Event) : TCP_Server :=
  match relay_step (S := toy_sodium) e s with Some (_, s') => s' | None => s end.

(** Two clients connect and send a ping. *)
Definition relay0 : TCP_Server := new_TCP_server sample_rng (λ _ _, (true, true)) demo_server_key true true.
Definition relay1 : TCP_Server := demo_next relay0 (demo_round [[(demo_sock 1, true); (demo_sock 2, true)]]).
Definition demo_ping (s : TCP_Server) (u : nat) : Relay_Event :=
  RUnconfirmed u (demo_frame (default zero_connection (ts_unconfirmed s !! u)) (4 :: replicate 8 1)).
Definition relay2 : TCP_Server := demo_next relay1 (demo_ping relay1 0).
Definition relay3 : TCP_Server := demo_next relay2 (demo_ping relay2 1).
Definition relay4 : TCP_Server := demo_next relay3 (demo_round []).

Lemma demo_step s e : relay_reachable (S := toy_sodium) s → event_ok e → (ts_num_accepted s <=? 2 ^ 24) && (if relay_step (S := toy_sodium) e s then true else false) = true →
  relay_reachable (S := toy_sodium) (demo_next s e).
Proof.
  intros H He E. apply andb_true_iff in E as [E1 E2]. unfold demo_next. destruct (relay_step e s) as [[[] s']|] eqn:Es; [|done].
  apply (relay_next s e); try done. lia.
Qed.

(** Then they ask for each other. *)
Definition demo_request (s : TCP_Server) (i : nat) (x : Z) : Relay_Event :=
  RAccepted i (demo_frame (default zero_connection (ts_accepted s !! i)) (0 :: demo_client_key x)).
Definition relay5 : TCP_Server := demo_next relay4 (demo_request relay4 0 2).
Definition relay6 : TCP_Server := demo_next relay5 (demo_request relay5 3 1).
Definition relay7 : TCP_Server := demo_next relay6 (demo_round []).

Lemma relay4_reachable : relay_reachable (S := toy_sodium) relay4.
Proof.
  do 4 (apply demo_step; [|done|vm_compute; reflexivity]). apply relay_new. intros n. by right.
Qed.

Lemma relay7_reachable : relay_reachable (S := toy_sodium) relay7.
Proof. do 3 (apply demo_step; [|done|vm_compute; reflexivity]). apply relay4_reachable. Qed.

(** The slots of the clients of [relay7]: in slot 0 each is linked with the other. *)
Definition demo_client (s : TCP_Server) (i : nat) : TCP_Secure_Connection := default zero_connection (ts_accepted s !! i).
Definition demo_slot (s : TCP_Server) (i c : nat) : TCP_Secure_Conn := default zero_conn (sn_connections (demo_client s i) !! c).

Lemma demo_client_at s i : is_Some (ts_accepted s !! i) → ts_accepted s !! i = Some (demo_client s i).
Proof. intros [c E]. unfold demo_client. by rewrite E. Qed.

Lemma demo_slot_at s i c : is_Some (sn_connections (demo_client s i) !! c) → sn_connections (demo_client s i) !! c = Some (demo_slot s i c).
Proof. intros [l E]. unfold demo_slot. by rewrite E. Qed.

Lemma relay_keeps_its_books_witness :
  links_ok (map core_of (ts_accepted relay7)) ∧ keys_ok (map core_of (ts_accepted relay7)) (to_map (ts_key_list relay7)) ∧ ts_num_accepted relay7 = 2.
Proof.
  destruct (@relay_keeps_its_books toy_sodium toy_sodium_laws relay7 (demo_round []) relay7_reachable I) as (H1 & H2 & _); [vm_compute; discriminate|].
  split; [exact H1|]. split; [exact H2|]. vm_compute. reflexivity.
Defined.

Lemma data_goes_to_the_partner_witness : cl_status (demo_slot relay7 0 0) = 2 ∧ ∃ j con' c', ts_accepted relay7 !! j = Some con' ∧
  sn_public_key con' = demo_client_key 2 ∧
  handle_TCP_packet (S := toy_sodium) 0 [16; 1; 2; 3] 4 relay7 =
    (ret ← write_to (S := toy_sodium) (Z.of_nat j) [16 + Z.of_nat c'; 1; 2; 3] false; mret (if ret =? -1 then -1 else 0)) relay7.
Proof.
  assert (cl_status (demo_slot relay7 0 0) = 2) as E by (vm_compute; reflexivity). split; [exact E|].
  assert (cl_public_key (demo_slot relay7 0 0) = demo_client_key 2) as K by (vm_compute; reflexivity).
  destruct (@data_goes_to_the_partner toy_sodium toy_sodium_laws relay7 0 (demo_client relay7 0) 0 (demo_slot relay7 0 0) [1; 2; 3] relay7_reachable) as (H & _ & _).
  - apply demo_client_at. vm_compute. eexists. reflexivity.
  - apply demo_slot_at. vm_compute. eexists. reflexivity.
  - destruct (H E) as (j & con' & c' & l' & Hj & _ & _ & _ & K1 & _ & Eq). exists j, con', c'. split; [exact Hj|]. split; [by rewrite <- K1|exact Eq].
Defined.

Lemma mutual_requests_are_linked_witness : ∃ s', (handle_TCP_routing_req (S := toy_sodium) 0 (demo_client_key 2);;
    handle_TCP_routing_req (S := toy_sodium) 3 (demo_client_key 1)) relay4 = Some (0, s') ∧
  ∃ c d l l', linked (map core_of (ts_accepted s')) 3 c l 0 d l'.
Proof.
  assert (sn_public_key (demo_client relay4 0) = demo_client_key 1) as E1 by (vm_compute; reflexivity).
  assert (sn_public_key (demo_client relay4 3) = demo_client_key 2) as E2 by (vm_compute; reflexivity). rewrite <- E1, <- E2.
  assert (sn_connections (demo_client relay4 0) = replicate 240 zero_conn) as S1 by (vm_compute; reflexivity).
  assert (sn_connections (demo_client relay4 3) = replicate 240 zero_conn) as S2 by (vm_compute; reflexivity).
  apply (@mutual_requests_are_linked toy_sodium toy_sodium_laws relay4 0 (demo_client relay4 0) 3 (demo_client relay4 3) relay4_reachable).
  - intros [] n; vm_compute; reflexivity.
  - lia.
  - apply demo_client_at. vm_compute. eexists. reflexivity.
  - vm_compute. discriminate.
  - apply demo_client_at. vm_compute. eexists. reflexivity.
  - vm_compute. discriminate.
  - rewrite S1. apply list.Forall_replicate. by left.
  - rewrite S1. by apply Exists_cons_hd.
  - rewrite S2. apply list.Forall_replicate. by left.
  - rewrite S2. by apply Exists_cons_hd.
Defined.

Lemma relay_loops_end_witness : ∃ s', do_confirmed_recv (S := toy_sodium) 0 relay6 = Some (true, s').
Proof.
  assert (relay_reachable (S := toy_sodium) relay6) as H by (do 2 (apply demo_step; [|done|vm_compute; reflexivity]); apply relay4_reachable).
  apply (@relay_loops_end toy_sodium toy_sodium_laws relay6 0 (demo_client relay6 0) (mkMonoTime 1000 0) 0 H).
  - apply demo_client_at. vm_compute. eexists. reflexivity.
  - vm_compute. discriminate.
Defined.
