(* ===== verification/FriendConnection.v ===== *)
(** * FriendConnection: connections to friends, [toxcore/friend_connection.c]

    The table of connections with its reference counts, the callbacks of the
    layers above, the keys and addresses a friend is known by, pings and relays.
    A call of a layer below is an entry of a log, and its answer is whatever that
    layer says; a call of a callback runs whatever the layer above does, which
    may use the connections again. *)
From S2P Require Import Prelude Util MonoTime CryptoCore Network World LanDiscovery FriendRequests DhtPackets DhtLists.

(** ** Definitions *)

Definition MAX_FRIEND_CONNECTION_CALLBACKS : Z := 2.
Definition MESSENGER_CALLBACK_INDEX : Z := 0.
Definition PACKET_ID_ALIVE : Z := 16.
Definition PACKET_ID_SHARE_RELAYS : Z := 17.
Definition PACKET_ID_FRIEND_REQUESTS : Z := 18.
Definition CRYPTO_PACKET_FRIEND_REQ : Z := 32.
Definition FRIEND_PING_INTERVAL : Z := 8.
Definition FRIEND_CONNECTION_TIMEOUT : Z := FRIEND_PING_INTERVAL * 4.
Definition FRIEND_DHT_TIMEOUT : Z := BAD_NODE_TIMEOUT.
(** [MAX_FRIEND_TCP_CONNECTIONS] *)
Definition FRIEND_TCP_CONNECTIONS : Z := 6.
Definition FRIEND_MAX_STORED_TCP_RELAYS : Z := FRIEND_TCP_CONNECTIONS * 4.
(** [RECOMMENDED_FRIEND_TCP_CONNECTIONS] *)
Definition MAX_SHARED_RELAYS : Z := FRIEND_TCP_CONNECTIONS / 2.
Definition SHARE_RELAYS_INTERVAL : Z := 60 * 2.
Definition LAN_DISCOVERY_INTERVAL : Z := 10.
Definition PORTS_PER_DISCOVERY : Z := 10.
Definition TOX_PORTRANGE_FROM : Z := 33445.
Definition TOX_PORTRANGE_TO : Z := 33545.
Definition TOX_PORT_DEFAULT : Z := TOX_PORTRANGE_FROM.

Definition FRIENDCONN_STATUS_NONE : Z := 0.
Definition FRIENDCONN_STATUS_CONNECTING : Z := 1.
Definition FRIENDCONN_STATUS_CONNECTED : Z := 2.

(** Whether each of the callbacks is set; the layer they belong to is known by the
    index. *)
Record Friend_Conn_Callbacks := mkCallbacks {
  cb_status : bool;
  cb_data : bool;
  cb_lossy_data : bool;
  cb_object : bool;
  cb_id : Z
}.

Record Friend_Conn := mkFriendConn {
  fc_status : Z;
  fc_real_public_key : bytes;
  fc_dht_temp_pk : bytes;
  fc_dht_lock_token : Z;
  fc_dht_ip_port : IP_Port;
  fc_dht_pk_lastrecv : Z;
  fc_dht_ip_port_lastrecv : Z;
  fc_onion_friendnum : Z;
  fc_crypt_connection_id : Z;
  fc_ping_lastrecv : Z;
  fc_ping_lastsent : Z;
  fc_share_relays_lastsent : Z;
  fc_callbacks : list Friend_Conn_Callbacks;
  fc_lock_count : Z;
  fc_tcp_relays : list Node_format;
  fc_tcp_relay_counter : Z;
  fc_tcp_relay_share_index : Z;
  fc_hosting_tcp_relay : bool
}.

(** [New_Connection], as far as it is read. *)
Record New_Connection := mkNewConnection { n_public_key : bytes; n_dht_public_key : bytes; n_source : IP_Port }.

(** What is asked of [net_crypto], the DHT and the onion client. *)
Inductive Conn_Call :=
  | KAlloc                                                                 (** [realloc] *)
  | KAddRelayPeer (crypt_connection_id : Z) (ip_port : IP_Port) (public_key : bytes)   (** [add_tcp_relay_peer] *)
  | KAddRelay (ip_port : IP_Port) (public_key : bytes)                     (** [add_tcp_relay] *)
  | KCopyRelays (index : Z)                                                (** [copy_connected_tcp_relays_index] *)
  | KWrite (crypt_connection_id : Z) (packet : bytes)                      (** [write_cryptpacket] *)
  | KDirect (crypt_connection_id : Z) (ip_port : IP_Port) (connected : bool)           (** [set_direct_ip_port] *)
  | KDhtDel (public_key : bytes) (lock_token : Z)                          (** [dht_delfriend] *)
  | KDhtAdd (public_key : bytes) (number : Z)                              (** [dht_addfriend]: the lock token it stores, 0 for none *)
  | KOnionOnline (onion_friendnum : Z) (status : bool)                     (** [onion_set_friend_online] *)
  | KOnionDhtKey (onion_friendnum : Z) (public_key : bytes)                (** [onion_set_friend_DHT_pubkey] *)
  | KCryptoKill (crypt_connection_id : Z)                                  (** [crypto_kill] *)
  | KAccept (n_c : New_Connection)                                         (** [accept_crypto_connection] *)
  | KNewCrypto (real_public_key dht_public_key : bytes)                    (** [new_crypto_connection] *)
  | KHandlers (crypt_connection_id number : Z)                             (** the handlers for status, data and lossy data *)
  | KKeyHandler (crypt_connection_id number : Z)                           (** [nc_dht_pk_callback] *)
  | KOnionAdd (public_key : bytes)                                         (** [onion_addfriend] *)
  | KOnionHandlers (onion_friendnum number : Z)                            (** [recv_tcp_relay_handler] and [onion_dht_pk_callback] *)
  | KOnionDel (onion_friendnum : Z)                                        (** [onion_delfriend] *)
  | KOnionData (onion_friendnum : Z) (packet : bytes)                      (** [send_onion_data] *)
  | KOnionRegister (id : Z)                                                (** [oniondata_registerhandler] *)
  | KLan (port : Z).                                                       (** [lan_discovery_send], the port in the order of the network *)

(** The callbacks. *)
Inductive Upper_Call :=
  | UStatus (index callback_id : Z) (status : bool)
  | UData (index callback_id : Z) (packet : bytes)
  | ULossy (index callback_id : Z) (packet : bytes)
  | UGlobalStatus (number : Z) (status : bool)
  | UFriendRequest (real_pk packet : bytes).

(** The calls of the functions by which the layers above use the connections. *)
Inductive Served :=
  | SNew (real_public_key : bytes)                                          (** [new_friend_connection] *)
  | SLock (friendcon_id : Z)                                               (** [friend_connection_lock] *)
  | SKill (friendcon_id : Z)                                               (** [kill_friend_connection] *)
  | SCallbacks (friendcon_id index : Z) (callbacks : Friend_Conn_Callbacks).  (** [friend_connection_callbacks] *)

(** [fs_memory] counts the reallocations of [conns]; a pointer into it is good until
    the next one, and [fs_dangling] says that one was used after it.  [fs_udp_only]
    is [global_force_udp_only_mode]; [fs_relays] answers [KCopyRelays].  [fs_served]
    records the calls served and their results. *)
Record Friend_Connections := mkFriendConnections {
  fs_conns : list Friend_Conn;
  fs_mono_time : Mono_Time;
  fs_fr_request_callback : bool;
  fs_global_status_callback : bool;
  fs_last_lan_discovery : Z;
  fs_next_lan_port : Z;
  fs_local_discovery_enabled : bool;
  fs_udp_only : bool;
  fs_memory : nat;
  fs_dangling : bool;
  fs_calls : list (Conn_Call * Z);
  fs_answer : nat → Z;
  fs_relays : nat → list Node_format;
  fs_events : list Upper_Call;
  fs_served : list (Served * Z)
}.

#[export] Instance eta_Friend_Conn : Eta Friend_Conn := λ c,
  mkFriendConn (fc_status c) (fc_real_public_key c) (fc_dht_temp_pk c) (fc_dht_lock_token c) (fc_dht_ip_port c) (fc_dht_pk_lastrecv c)
    (fc_dht_ip_port_lastrecv c) (fc_onion_friendnum c) (fc_crypt_connection_id c) (fc_ping_lastrecv c) (fc_ping_lastsent c) (fc_share_relays_lastsent c)
    (fc_callbacks c) (fc_lock_count c) (fc_tcp_relays c) (fc_tcp_relay_counter c) (fc_tcp_relay_share_index c) (fc_hosting_tcp_relay c).
#[export] Instance eta_Friend_Connections : Eta Friend_Connections := λ s,
  mkFriendConnections (fs_conns s) (fs_mono_time s) (fs_fr_request_callback s) (fs_global_status_callback s) (fs_last_lan_discovery s) (fs_next_lan_port s) (fs_local_discovery_enabled s) (fs_udp_only s)
    (fs_memory s) (fs_dangling s) (fs_calls s) (fs_answer s) (fs_relays s) (fs_events s) (fs_served s).

Definition no_callbacks : Friend_Conn_Callbacks := mkCallbacks false false false false 0.
Definition empty_friend_conn : Friend_Conn :=
  mkFriendConn 0 (zeros 32) (zeros 32) 0 empty_ip_port 0 0 0 0 0 0 0 [no_callbacks; no_callbacks] 0 (replicate 24 empty_node_format) 0 0 false.

Definition FC : Type → Type := ST Friend_Connections.

Definition kask (c : Conn_Call) : FC Z := λ s,
  let a := fs_answer s (length (fs_calls s)) in (a, s <| fs_calls := fs_calls s ++ [(c, a)] |>).
Definition kask_relays (index : Z) : FC (list Node_format) := λ s,
  (take (Z.to_nat MAX_SHARED_RELAYS) (fs_relays s (length (fs_calls s))), s <| fs_calls := fs_calls s ++ [(KCopyRelays index, 0)] |>).

(** A call that was served. *)
Definition serve (c : Served) (m : FC Z) : FC Z := a ← m; modify (λ s, s <| fs_served := fs_served s ++ [(c, a)] |>);; mret a.

Definition num_cons (s : Friend_Connections) : Z := zlen (fs_conns s).
Definition conn_at (s : Friend_Connections) (i : Z) : Friend_Conn := aget empty_friend_conn (fs_conns s) i.
Definition the_conn (i : Z) : FC Friend_Conn := get (λ s, conn_at s i).
Definition on_conn (i : Z) (g : Friend_Conn → Friend_Conn) : FC unit := modify (λ s, s <| fs_conns := aset (fs_conns s) i (g (conn_at s i)) |>).
Definition fc_time : FC Z := get (λ s, mono_time_get (fs_mono_time s)).

(** The use of a pointer into [conns] that was good when [memory] was the count. *)
Definition use_pointer (memory : nat) : FC unit :=
  modify (λ s, if (fs_memory s =? memory)%nat then s else s <| fs_dangling := true |>).
Definition the_memory : FC nat := get fs_memory.

Definition friendconn_id_valid (s : Friend_Connections) (friendcon_id : Z) : bool :=
  (u32 friendcon_id <? num_cons s) && negb (fc_status (conn_at s friendcon_id) =? FRIENDCONN_STATUS_NONE).

(** [get_conn] answers the null pointer unless the id is valid. *)
Definition get_conn (s : Friend_Connections) (friendcon_id : Z) : option Friend_Conn :=
  if friendconn_id_valid s friendcon_id then Some (conn_at s friendcon_id) else None.

(** [realloc_friendconns] for a table that is not empty. *)
Definition realloc_friendconns : FC bool :=
  ok ← kask KAlloc;
  if ok =? 0 then mret false else modify (λ s, s <| fs_memory := Datatypes.S (fs_memory s) |>);; mret true.

Fixpoint first_none (l : list Friend_Conn) (i : Z) : option Z :=
  match l with
  | [] => None
  | c :: l' => if fc_status c =? FRIENDCONN_STATUS_NONE then Some i else first_none l' (i + 1)
  end.

Definition create_friend_conn : FC Z :=
  s ← get (λ s, s);
  match first_none (fs_conns s) 0 with
  | Some i => mret i
  | None =>
      ok ← realloc_friendconns;
      if negb ok then mret (-1)
      else modify (λ s, s <| fs_conns := fs_conns s ++ [empty_friend_conn] |>);; mret (num_cons s)
  end.

(** The table without the free entries at its end. *)
Fixpoint trim_conns (l : list Friend_Conn) : list Friend_Conn :=
  match l with
  | [] => []
  | c :: l' => match trim_conns l' with
               | [] => if fc_status c =? FRIENDCONN_STATUS_NONE then [] else [c]
               | r => c :: r
               end
  end.

(** A table that becomes empty is freed; the answer of [realloc] for a smaller one
    is not looked at. *)
Definition wipe_friend_conn (friendcon_id : Z) : FC Z :=
  s ← get (λ s, s);
  if negb (friendconn_id_valid s friendcon_id) then mret (-1)
  else
    on_conn friendcon_id (λ _, empty_friend_conn);;
    s ← get (λ s, s);
    let l := trim_conns (fs_conns s) in
    (if negb (zlen l =? num_cons s) then
       modify (λ s, s <| fs_conns := l |>);;
       if zlen l =? 0 then modify (λ s, s <| fs_memory := Datatypes.S (fs_memory s) |>) else realloc_friendconns;; mret tt
     else mret tt);;
    mret 0.

Fixpoint find_conn (l : list Friend_Conn) (i : Z) (real_pk : bytes) : Z :=
  match l with
  | [] => -1
  | c :: l' => if negb (fc_status c =? FRIENDCONN_STATUS_NONE) && pk_equal (fc_real_public_key c) real_pk then i else find_conn l' (i + 1) real_pk
  end.
Definition getfriend_conn_id_pk (s : Friend_Connections) (real_pk : bytes) : Z := find_conn (fs_conns s) 0 real_pk.

(** *** Relays *)

Definition on_relays (g : list Node_format → list Node_format) (c : Friend_Conn) : Friend_Conn := c <| fc_tcp_relays := g (fc_tcp_relays c) |>.

Definition friend_add_tcp_relay (friendcon_id : Z) (ip_port : IP_Port) (public_key : bytes) : FC Z :=
  s ← get (λ s, s);
  if fs_udp_only s then mret (-1)
  else
    match get_conn s friendcon_id with
    | None => mret (-1)
    | Some friend_con =>
        (* Local ip and same pk means that they are hosting a TCP relay. *)
        let hosted := ip_is_local (ipp_ip ip_port) && pk_equal (fc_dht_temp_pk friend_con) public_key in
        let known := negb (net_family_is_unspec (ip_family (ipp_ip (fc_dht_ip_port friend_con)))) in
        let ipp_copy := if hosted && known then mkIPPort (ipp_ip (fc_dht_ip_port friend_con)) (ipp_port ip_port) else ip_port in
        (if hosted && negb known then on_conn friendcon_id (λ c, c <| fc_hosting_tcp_relay := false |>) else mret tt);;
        let index := fc_tcp_relay_counter friend_con mod FRIEND_MAX_STORED_TCP_RELAYS in
        let forget r := if negb (net_family_is_unspec (ip_family (ipp_ip (nf_ip_port r)))) && pk_equal (nf_public_key r) public_key
                        then empty_node_format else r in
        on_conn friendcon_id (λ c, on_relays (λ l, aset (map forget l) index (mkNode public_key ipp_copy)) c);;
        on_conn friendcon_id (λ c, c <| fc_tcp_relay_counter := u16 (fc_tcp_relay_counter c + 1) |>);;
        kask (KAddRelayPeer (fc_crypt_connection_id friend_con) ipp_copy public_key)
    end.

(** The loop of [connect_to_saved_tcp_relays] with [rounds] left; the difference is
    one of 32 bits. *)
Fixpoint connect_relays_loop (rounds : nat) (friend_con : Friend_Conn) (i number : Z) : FC unit :=
  match rounds with
  | O => mret tt
  | Datatypes.S rounds' =>
      if number =? 0 then mret tt
      else
        let index := u16 (u32 (fc_tcp_relay_counter friend_con - (i + 1)) mod FRIEND_MAX_STORED_TCP_RELAYS) in
        let r := aget empty_node_format (fc_tcp_relays friend_con) index in
        if net_family_is_unspec (ip_family (ipp_ip (nf_ip_port r))) then connect_relays_loop rounds' friend_con (i + 1) number
        else
          a ← kask (KAddRelayPeer (fc_crypt_connection_id friend_con) (nf_ip_port r) (nf_public_key r));
          connect_relays_loop rounds' friend_con (i + 1) (if a =? 0 then number - 1 else number)
  end.

Definition connect_to_saved_tcp_relays (friendcon_id number : Z) : FC unit :=
  s ← get (λ s, s);
  match get_conn s friendcon_id with
  | None => mret tt
  | Some friend_con => connect_relays_loop (Z.to_nat FRIEND_MAX_STORED_TCP_RELAYS) friend_con 0 number
  end.

Definition send_relays (friendcon_id : Z) : FC Z :=
  s ← get (λ s, s);
  if fs_udp_only s then mret 1
  else
    match get_conn s friendcon_id with
    | None => mret 0
    | Some friend_con =>
        nodes ← kask_relays (fc_tcp_relay_share_index friend_con);
        on_conn friendcon_id (λ c, c <| fc_tcp_relay_share_index := u32 (fc_tcp_relay_share_index c + MAX_SHARED_RELAYS) |>);;
        for_each nodes (λ n, friend_add_tcp_relay friendcon_id (nf_ip_port n) (nf_public_key n);; mret tt);;
        match pack_nodes (1024 - 1) nodes (zlen nodes) with
        | None | Some [] => mret 0
        | Some data =>
            r ← kask (KWrite (fc_crypt_connection_id friend_con) (PACKET_ID_SHARE_RELAYS :: data));
            if r =? -1 then mret 0
            else now ← fc_time; on_conn friendcon_id (λ c, c <| fc_share_relays_lastsent := now |>);; mret 1
        end
    end.

Definition tcp_relay_node_callback (number : Z) (ip_port : IP_Port) (public_key : bytes) : FC Z :=
  s ← get (λ s, s);
  if fs_udp_only s then mret (-1)
  else
    match get_conn s number with
    | None => mret (-1)
    | Some friend_con =>
        if negb (fc_crypt_connection_id friend_con =? -1) then friend_add_tcp_relay number ip_port public_key
        else kask (KAddRelay ip_port public_key)
    end.

(** *** The connection and the keys of a friend *)

Definition friend_new_connection (friendcon_id : Z) : FC Z :=
  s ← get (λ s, s);
  match get_conn s friendcon_id with
  | None => mret (-1)
  | Some friend_con =>
      if negb (fc_crypt_connection_id friend_con =? -1) then mret (-1)
      else if fc_dht_lock_token friend_con =? 0 then mret (-1)
      else
        id ← kask (KNewCrypto (fc_real_public_key friend_con) (fc_dht_temp_pk friend_con));
        if id =? -1 then mret (-1)
        else
          on_conn friendcon_id (λ c, c <| fc_crypt_connection_id := id |>);;
          kask (KHandlers id friendcon_id);;
          kask (KKeyHandler id friendcon_id);;
          mret 0
  end.

Definition dht_ip_callback (number : Z) (ip_port : IP_Port) : FC unit :=
  s ← get (λ s, s);
  match get_conn s number with
  | None => mret tt
  | Some friend_con =>
      (if fc_crypt_connection_id friend_con =? -1 then friend_new_connection number;; mret tt else mret tt);;
      c ← the_conn number;
      kask (KDirect (fc_crypt_connection_id c) ip_port true);;
      now ← fc_time;
      on_conn number (λ c, c <| fc_dht_ip_port := ip_port |> <| fc_dht_ip_port_lastrecv := now |>);;
      c ← the_conn number;
      if fc_hosting_tcp_relay c then
        friend_add_tcp_relay number ip_port (fc_dht_temp_pk c);;
        on_conn number (λ c, c <| fc_hosting_tcp_relay := false |>)
      else mret tt
  end.

Definition change_dht_pk (friendcon_id : Z) (dht_public_key : bytes) : FC unit :=
  s ← get (λ s, s);
  match get_conn s friendcon_id with
  | None => mret tt
  | Some friend_con =>
      now ← fc_time;
      on_conn friendcon_id (λ c, c <| fc_dht_pk_lastrecv := now |>);;
      ok ← (if 0 <? fc_dht_lock_token friend_con then
              r ← kask (KDhtDel (fc_dht_temp_pk friend_con) (fc_dht_lock_token friend_con));
              if r =? 0 then on_conn friendcon_id (λ c, c <| fc_dht_lock_token := 0 |>);; mret true else mret false
            else mret true);
      if negb ok then mret tt
      else
        token ← kask (KDhtAdd dht_public_key friendcon_id);
        (if token =? 0 then mret tt else on_conn friendcon_id (λ c, c <| fc_dht_lock_token := u32 token |>));;
        on_conn friendcon_id (λ c, c <| fc_dht_temp_pk := dht_public_key |>)
  end.

(** *** The layers above *)

Section upper.
(** What the layers above do when they are called; it may use the connections. *)
Context (upper : Upper_Call → FC unit).

Definition call_upper (u : Upper_Call) : FC unit := modify (λ s, s <| fs_events := fs_events s ++ [u] |>);; upper u.

Definition callbacks_at (c : Friend_Conn) (index : Z) : Friend_Conn_Callbacks := aget no_callbacks (fc_callbacks c) index.
Definition callback_indices : list Z := seqZ 0 MAX_FRIEND_CONNECTION_CALLBACKS.

(** The first half of [handle_status]: what changes for the connection, and
    whether anybody is told. *)
Definition status_change (friend_con : Friend_Conn) (number : Z) (status : bool) : FC bool :=
  now ← fc_time;
  if status then
    on_conn number (λ c, c <| fc_status := FRIENDCONN_STATUS_CONNECTED |> <| fc_ping_lastrecv := now |> <| fc_share_relays_lastsent := 0 |>);;
    kask (KOnionOnline (fc_onion_friendnum friend_con) status);;
    mret true
  else
    let status_changed := negb (fc_status friend_con =? FRIENDCONN_STATUS_CONNECTING) in
    (if status_changed then
       on_conn number (λ c, c <| fc_dht_pk_lastrecv := now |>);;
       kask (KOnionOnline (fc_onion_friendnum friend_con) status);; mret tt
     else mret tt);;
    on_conn number (λ c, c <| fc_status := FRIENDCONN_STATUS_CONNECTING |> <| fc_crypt_connection_id := -1 |> <| fc_hosting_tcp_relay := false |>);;
    mret status_changed.

(** The loop over the callbacks: [friend_con] is read again after every one of
    them, although it may not be where it was. *)
Definition tell_status (memory : nat) (number : Z) (status : bool) : FC unit :=
  for_each callback_indices (λ i,
    use_pointer memory;;
    c ← the_conn number;
    if cb_status (callbacks_at c i) then call_upper (UStatus i (cb_id (callbacks_at c i)) status) else mret tt).

Definition handle_status (number : Z) (status : bool) : FC Z :=
  s ← get (λ s, s);
  match get_conn s number with
  | None => mret (-1)
  | Some friend_con =>
      memory ← the_memory;
      status_changed ← status_change friend_con number status;
      (if (status_changed : bool) then
         (if fs_global_status_callback s then call_upper (UGlobalStatus number status) else mret tt);;
         tell_status memory number status
       else mret tt);;
      mret 0
  end.

Definition dht_pk_callback (number : Z) (dht_public_key : bytes) : FC unit :=
  s ← get (λ s, s);
  match get_conn s number with
  | None => mret tt
  | Some friend_con =>
      if pk_equal (fc_dht_temp_pk friend_con) dht_public_key then mret tt
      else
        memory ← the_memory;
        change_dht_pk number dht_public_key;;
        (* if pk changed, create a new connection. *)
        c ← the_conn number;
        (if negb (fc_crypt_connection_id c =? -1) then
           kask (KCryptoKill (fc_crypt_connection_id c));;
           on_conn number (λ c, c <| fc_crypt_connection_id := -1 |>);;
           handle_status number false;; mret tt
         else mret tt);;
        friend_new_connection number;;
        use_pointer memory;;
        c ← the_conn number;
        kask (KOnionDhtKey (fc_onion_friendnum c) dht_public_key);;
        mret tt
  end.

(** The loop over the callbacks for data; the connection is looked up again after
    each, and the result is -1 when it is gone. *)
Fixpoint data_loop (lossy : bool) (indices : list Z) (number : Z) (data : bytes) (friend_con : Friend_Conn) : FC Z :=
  match indices with
  | [] => mret 0
  | i :: rest =>
      let cb := callbacks_at friend_con i in
      (if (if lossy then cb_lossy_data cb else cb_data cb)
       then call_upper (if lossy then ULossy i (cb_id cb) data else UData i (cb_id cb) data) else mret tt);;
      s ← get (λ s, s);
      match get_conn s number with
      | None => mret (-1)
      | Some friend_con => data_loop lossy rest number data friend_con
      end
  end.

Definition handle_packet (number : Z) (data : bytes) : FC Z :=
  if zlen data =? 0 then mret (-1)
  else
    s ← get (λ s, s);
    match get_conn s number with
    | None => mret (-1)
    | Some friend_con =>
        let id := aget 0 data 0 in
        if id =? PACKET_ID_FRIEND_REQUESTS then
          (if fs_fr_request_callback s then call_upper (UFriendRequest (fc_real_public_key friend_con) data) else mret tt);; mret 0
        else if id =? PACKET_ID_ALIVE then
          now ← fc_time; on_conn number (λ c, c <| fc_ping_lastrecv := now |>);; mret 0
        else if id =? PACKET_ID_SHARE_RELAYS then
          match unpack_nodes MAX_SHARED_RELAYS (drop 1 data) (u16 (zlen data - 1)) true with
          | None => mret (-1)
          | Some (nodes, _) => for_each nodes (λ n, friend_add_tcp_relay number (nf_ip_port n) (nf_public_key n);; mret tt);; mret 0
          end
        else data_loop false callback_indices number data friend_con
    end.

Definition handle_lossy_packet (number : Z) (data : bytes) : FC Z :=
  if zlen data =? 0 then mret (-1)
  else
    s ← get (λ s, s);
    match get_conn s number with
    | None => mret (-1)
    | Some friend_con => data_loop true callback_indices number data friend_con
    end.

Definition set_dht_temp_pk (friendcon_id : Z) (dht_temp_pk : bytes) : FC unit := dht_pk_callback friendcon_id dht_temp_pk.

End upper.

Definition handle_new_connections (n_c : New_Connection) : FC Z :=
  s ← get (λ s, s);
  let friendcon_id := getfriend_conn_id_pk s (n_public_key n_c) in
  match get_conn s friendcon_id with
  | None => mret (-1)
  | Some friend_con =>
      if negb (fc_crypt_connection_id friend_con =? -1) then mret (-1)
      else
        id ← kask (KAccept n_c);
        if id =? -1 then mret (-1)
        else
          kask (KHandlers id friendcon_id);;
          on_conn friendcon_id (λ c, c <| fc_crypt_connection_id := id |>);;
          let family := ip_family (ipp_ip (n_source n_c)) in
          (if negb (net_family_is_ipv4 family) && negb (net_family_is_ipv6 family)
           then kask (KDirect id (fc_dht_ip_port friend_con) false);; mret tt
           else
             now ← fc_time;
             on_conn friendcon_id (λ c, c <| fc_dht_ip_port := n_source n_c |> <| fc_dht_ip_port_lastrecv := now |>));;
          (if negb (pk_equal (fc_dht_temp_pk friend_con) (n_dht_public_key n_c)) then change_dht_pk friendcon_id (n_dht_public_key n_c) else mret tt);;
          kask (KKeyHandler id friendcon_id);;
          mret 0
  end.

Definition send_ping (friendcon_id : Z) : FC Z :=
  s ← get (λ s, s);
  match get_conn s friendcon_id with
  | None => mret (-1)
  | Some friend_con =>
      r ← kask (KWrite (fc_crypt_connection_id friend_con) [PACKET_ID_ALIVE]);
      if r =? -1 then mret (-1)
      else now ← fc_time; on_conn friendcon_id (λ c, c <| fc_ping_lastsent := now |>);; mret 0
  end.

Definition friend_connection_lock (friendcon_id : Z) : FC Z :=
  serve (SLock friendcon_id) (
    s ← get (λ s, s);
    match get_conn s friendcon_id with
    | None => mret (-1)
    | Some _ => on_conn friendcon_id (λ c, c <| fc_lock_count := u16 (fc_lock_count c + 1) |>);; mret 0
    end).

Definition friend_con_connected (s : Friend_Connections) (friendcon_id : Z) : Z :=
  match get_conn s friendcon_id with None => 0 | Some friend_con => fc_status friend_con end.

(** The real key and the temporary key of the DHT. *)
Definition get_friendcon_public_keys (s : Friend_Connections) (friendcon_id : Z) : option (bytes * bytes) :=
  match get_conn s friendcon_id with None => None | Some friend_con => Some (fc_real_public_key friend_con, fc_dht_temp_pk friend_con) end.

Definition friend_connection_callbacks (friendcon_id index : Z) (callbacks : Friend_Conn_Callbacks) : FC Z :=
  serve (SCallbacks friendcon_id index callbacks) (
    s ← get (λ s, s);
    match get_conn s friendcon_id with
    | None => mret (-1)
    | Some _ =>
        if MAX_FRIEND_CONNECTION_CALLBACKS <=? u32 index then mret (-1)
        else if cb_object callbacks && negb (cb_status callbacks && cb_data callbacks && cb_lossy_data callbacks) then mret (-1)
        else on_conn friendcon_id (λ c, c <| fc_callbacks := aset (fc_callbacks c) index callbacks |>);; mret 0
    end).

Definition set_global_status_callback (callback : bool) : FC unit := modify (λ s, s <| fs_global_status_callback := callback |>).

Definition friend_connection_crypt_connection_id (s : Friend_Connections) (friendcon_id : Z) : Z :=
  match get_conn s friendcon_id with None => -1 | Some friend_con => fc_crypt_connection_id friend_con end.

Definition new_friend_connection (real_public_key : bytes) : FC Z :=
  serve (SNew real_public_key) (
    s ← get (λ s, s);
    let friendcon_id := getfriend_conn_id_pk s real_public_key in
    if negb (friendcon_id =? -1) then
      on_conn friendcon_id (λ c, c <| fc_lock_count := u16 (fc_lock_count c + 1) |>);; mret friendcon_id
    else
      friendcon_id ← create_friend_conn;
      if friendcon_id =? -1 then mret (-1)
      else
        onion_friendnum ← kask (KOnionAdd real_public_key);
        if onion_friendnum =? -1 then mret (-1)
        else
          on_conn friendcon_id (λ c, c <| fc_crypt_connection_id := -1 |> <| fc_status := FRIENDCONN_STATUS_CONNECTING |>
                                       <| fc_real_public_key := real_public_key |> <| fc_onion_friendnum := onion_friendnum |>);;
          kask (KOnionHandlers onion_friendnum friendcon_id);;
          mret friendcon_id).

Definition kill_friend_connection (friendcon_id : Z) : FC Z :=
  serve (SKill friendcon_id) (
    s ← get (λ s, s);
    match get_conn s friendcon_id with
    | None => mret (-1)
    | Some friend_con =>
        if 0 <? fc_lock_count friend_con then
          on_conn friendcon_id (λ c, c <| fc_lock_count := u16 (fc_lock_count c - 1) |>);; mret 0
        else
          kask (KOnionDel (fc_onion_friendnum friend_con));;
          kask (KCryptoKill (fc_crypt_connection_id friend_con));;
          (if 0 <? fc_dht_lock_token friend_con then
             kask (KDhtDel (fc_dht_temp_pk friend_con) (fc_dht_lock_token friend_con));;
             on_conn friendcon_id (λ c, c <| fc_dht_lock_token := 0 |>)
           else mret tt);;
          wipe_friend_conn friendcon_id
    end).

Definition set_friend_request_callback (callback : bool) : FC unit :=
  modify (λ s, s <| fs_fr_request_callback := callback |>);; kask (KOnionRegister CRYPTO_PACKET_FRIEND_REQ);; mret tt.

(** The number is copied as it is in memory. *)
Definition send_friend_request_packet (friendcon_id nospam_num : Z) (data : bytes) (length : Z) : FC Z :=
  if (ONION_CLIENT_MAX_DATA_SIZE <? 1 + 4 + length) || (length =? 0) then mret (-1)
  else
    s ← get (λ s, s);
    match get_conn s friendcon_id with
    | None => mret (-1)
    | Some friend_con =>
        let packet := le_bytes 4 nospam_num ++ slice 0 length data in
        if fc_status friend_con =? FRIENDCONN_STATUS_CONNECTED then
          r ← kask (KWrite (fc_crypt_connection_id friend_con) (PACKET_ID_FRIEND_REQUESTS :: packet));
          mret (if r =? -1 then 0 else 1)
        else
          num ← kask (KOnionData (fc_onion_friendnum friend_con) (CRYPTO_PACKET_FRIEND_REQ :: packet));
          mret (if num <=? 0 then -1 else num)
    end.

(** When the memory is there. *)
Definition new_friend_connections (mono_time : Mono_Time) (local_discovery_enabled udp_only : bool) (answer : nat → Z) (relays : nat → list Node_format) :
    Friend_Connections :=
  mkFriendConnections [] mono_time false false 0 (TOX_PORTRANGE_FROM + 1) local_discovery_enabled udp_only 0 false [] answer relays [] [].

(** [lan_discovery], the loop over the ports included. *)
Definition lan_discovery : FC unit :=
  s ← get (λ s, s);
  if u64 (fs_last_lan_discovery s + LAN_DISCOVERY_INTERVAL) <? mono_time_get (fs_mono_time s) then
    let first := fs_next_lan_port s in
    let last := u16 (first + PORTS_PER_DISCOVERY) in
    let last := if TOX_PORTRANGE_TO <? last then TOX_PORTRANGE_TO else last in
    kask (KLan (net_htons TOX_PORT_DEFAULT));;
    for_each (seqZ first (last - first)) (λ port, kask (KLan (net_htons port));; mret tt);;
    modify (λ s, s <| fs_next_lan_port := if last =? TOX_PORTRANGE_TO then TOX_PORTRANGE_FROM + 1 else last |>
                   <| fs_last_lan_discovery := mono_time_get (fs_mono_time s) |>)
  else mret tt.

Section iterate.
Context (upper : Upper_Call → FC unit).

(** The body of the loop of [do_friend_connections]. *)
Definition do_friend_connection (i temp_time : Z) : FC unit :=
  s ← get (λ s, s);
  match get_conn s i with
  | None => mret tt
  | Some friend_con =>
      if fc_status friend_con =? FRIENDCONN_STATUS_CONNECTING then
        (if (u64 (fc_dht_pk_lastrecv friend_con + FRIEND_DHT_TIMEOUT) <? temp_time) && (0 <? fc_dht_lock_token friend_con) then
           kask (KDhtDel (fc_dht_temp_pk friend_con) (fc_dht_lock_token friend_con));;
           on_conn i (λ c, c <| fc_dht_lock_token := 0 |> <| fc_dht_temp_pk := zeros CRYPTO_PUBLIC_KEY_SIZE |>)
         else mret tt);;
        (if u64 (fc_dht_ip_port_lastrecv friend_con + FRIEND_DHT_TIMEOUT) <? temp_time then
           on_conn i (λ c, c <| fc_dht_ip_port := mkIPPort (mkIP TOX_AF_UNSPEC (ip_addr (ipp_ip (fc_dht_ip_port c)))) (ipp_port (fc_dht_ip_port c)) |>)
         else mret tt);;
        c ← the_conn i;
        if 0 <? fc_dht_lock_token c then
          r ← friend_new_connection i;
          if r =? 0 then
            c ← the_conn i;
            kask (KDirect (fc_crypt_connection_id c) (fc_dht_ip_port c) false);;
            connect_to_saved_tcp_relays i (FRIEND_TCP_CONNECTIONS / 2) (* Only fill it half up. *)
          else mret tt
        else mret tt
      else if fc_status friend_con =? FRIENDCONN_STATUS_CONNECTED then
        (if u64 (fc_ping_lastsent friend_con + FRIEND_PING_INTERVAL) <? temp_time then send_ping i;; mret tt else mret tt);;
        (if u64 (fc_share_relays_lastsent friend_con + SHARE_RELAYS_INTERVAL) <? temp_time then send_relays i;; mret tt else mret tt);;
        if u64 (fc_ping_lastrecv friend_con + FRIEND_CONNECTION_TIMEOUT) <? temp_time then
          (* If we stopped receiving ping packets, kill it. *)
          kask (KCryptoKill (fc_crypt_connection_id friend_con));;
          on_conn i (λ c, c <| fc_crypt_connection_id := -1 |>);;
          handle_status upper i false;; mret tt (* Going offline. *)
        else mret tt
      else mret tt
  end.

(** The loop from [i] on, at most [rounds] rounds; whether it came to its end. *)
Fixpoint do_conns_loop (rounds : nat) (i temp_time : Z) : FC bool :=
  s ← get (λ s, s);
  if num_cons s <=? i then mret true
  else
    match rounds with
    | O => mret false
    | Datatypes.S rounds' => do_friend_connection i temp_time;; do_conns_loop rounds' (i + 1) temp_time
    end.

(** The layers above may add connections while the loop runs, so that the number
    of rounds is not known in advance. *)
Definition do_friend_connections (rounds : nat) : FC bool :=
  temp_time ← fc_time;
  finished ← do_conns_loop rounds 0 temp_time;
  if (finished : bool) then
    s ← get (λ s, s);
    (if fs_local_discovery_enabled s then lan_discovery else mret tt);; mret true
  else mret false.

End iterate.

(** [kill_friend_connections], the loop over the connections. *)
Definition kill_friend_connections : FC unit :=
  s ← get (λ s, s);
  for_each (seqZ 0 (num_cons s)) (λ i,
    s ← get (λ s, s);
    if i <? num_cons s then kill_friend_connection i;; mret tt else mret tt).
