(* ===== verification/ConnSpec.v ===== *)
(** * ConnSpec: what the friend connections promise

    The layers above see the connections as a map from ids to keys with a number
    of references and the callbacks.  The calls served and their results determine
    it.  When several of them use the connections, each may reckon with its own
    calls alone. *)
From S2P Require Import Prelude FriendConnection.

(** ** The map *)

Record Conn := mkConn { k_key : bytes; k_refs : Z; k_callbacks : list Friend_Conn_Callbacks }.

Definition new_conn (key : bytes) : Conn := mkConn key 1 [no_callbacks; no_callbacks].
Definition add_refs (n : Z) (k : Conn) : Conn := mkConn (k_key k) (k_refs k + n) (k_callbacks k).
Definition put_callbacks (index : Z) (cb : Friend_Conn_Callbacks) (k : Conn) : Conn :=
  mkConn (k_key k) (k_refs k) (aset (k_callbacks k) index cb).

(** What a call with its result does to the map. *)
Definition step (σ : gmap Z Conn) (c : Served) (a : Z) : gmap Z Conn :=
  match c with
  | SNew key => if a =? -1 then σ else <[a := match σ !! a with Some k => add_refs 1 k | None => new_conn key end]> σ
  | SLock id => if a =? 0 then alter (add_refs 1) id σ else σ
  | SKill id =>
      if a =? 0 then
        match σ !! id with
        | Some k => if k_refs k =? 1 then delete id σ else <[id := add_refs (-1) k]> σ
        | None => σ
        end
      else σ
  | SCallbacks id index cb => if a =? 0 then alter (put_callbacks index cb) id σ else σ
  end.

Fixpoint replay (σ : gmap Z Conn) (t : list (Served * Z)) : gmap Z Conn :=
  match t with
  | [] => σ
  | (c, a) :: t' => replay (step σ c a) t'
  end.

Definition good_callbacks (index : Z) (cb : Friend_Conn_Callbacks) : bool :=
  (0 <=? index) && (index <? MAX_FRIEND_CONNECTION_CALLBACKS)
  && (negb (cb_object cb) || (cb_status cb && cb_data cb && cb_lossy_data cb)).

(** The results of a call: a key has one connection, and it is the one it has if it
    has one. *)
Definition allows (σ : gmap Z Conn) (c : Served) (a : Z) : Prop :=
  match c with
  | SNew key =>
      (∃ k, σ !! a = Some k ∧ k_key k = key) ∨ ((∀ id k, σ !! id = Some k → k_key k ≠ key) ∧ (a = -1 ∨ 0 <= a ∧ σ !! a = None))
  | SLock id | SKill id => a = if decide (is_Some (σ !! id)) then 0 else -1
  | SCallbacks id index cb => a = if decide (is_Some (σ !! id)) then if good_callbacks index cb then 0 else -1 else -1
  end.

(** [Q] holds of every call of a trace. *)
Fixpoint traced (Q : gmap Z Conn → Served → Z → Prop) (σ : gmap Z Conn) (t : list (Served * Z)) : Prop :=
  match t with
  | [] => True
  | (c, a) :: t' => Q σ c a ∧ traced Q (step σ c a) t'
  end.

Definition honest (t : list (Served * Z)) : Prop := traced allows ∅ t.

Lemma replay_app σ t1 t2 : replay σ (t1 ++ t2) = replay (replay σ t1) t2.
Proof. revert σ. induction t1 as [|[c a] t1 IH]; intros σ; [done|]. apply IH. Qed.
Lemma replay_snoc t c a : replay ∅ (t ++ [(c, a)]) = step (replay ∅ t) c a.
Proof. by rewrite replay_app. Qed.

Lemma traced_app Q σ t1 t2 : traced Q σ (t1 ++ t2) ↔ traced Q σ t1 ∧ traced Q (replay σ t1) t2.
Proof. revert σ. induction t1 as [|[c a] t1 IH]; intros σ; cbn [app traced replay]; [tauto|]. rewrite IH. tauto. Qed.
Lemma traced_snoc Q t c a : traced Q ∅ (t ++ [(c, a)]) ↔ traced Q ∅ t ∧ Q (replay ∅ t) c a.
Proof. rewrite traced_app. cbn [traced]. tauto. Qed.

Lemma alter_found {A} (f : A → A) i (σ : gmap Z A) x : σ !! i = Some x → alter f i σ = <[i := f x]> σ.
Proof.
  intros H. apply map_eq. intros j. destruct (decide (i = j)) as [<-|Hne].
  - by rewrite lookup_alter_eq, lookup_insert_eq, H.
  - by rewrite lookup_alter_ne, lookup_insert_ne.
Qed.

Lemma alter_missing {A} (f : A → A) i (σ : gmap Z A) : σ !! i = None → alter f i σ = σ.
Proof. intros H. apply map_eq. intros j. destruct (decide (i = j)) as [<-|Hne]; [by rewrite lookup_alter_eq, H|by rewrite lookup_alter_ne]. Qed.

(** ** Bounds *)

(** The references of a connection are counted in 16 bits. *)
Definition bounded (σ : gmap Z Conn) : Prop := (∀ id k, σ !! id = Some k → k_refs k <= 65536) ∧ Z.of_nat (size σ) <= 65535.
Definition small (t : list (Served * Z)) : Prop := ∀ t', t' `prefix_of` t → bounded (replay ∅ t').

Lemma small_app t t' : small (t ++ t') → small t.
Proof. intros H t0 [r ->]. apply H. exists (r ++ t'). by rewrite app_assoc. Qed.
Lemma small_bounded t : small t → bounded (replay ∅ t).
Proof. intros H. by apply H. Qed.

(** The bounds, executable. *)
Definition boundedb (σ : gmap Z Conn) : bool :=
  bool_decide (map_Forall (λ _ k, k_refs k <= 65536) σ) && (Z.of_nat (size σ) <=? 65535).
Fixpoint smallb (σ : gmap Z Conn) (t : list (Served * Z)) : bool :=
  boundedb σ && match t with [] => true | (c, a) :: t' => smallb (step σ c a) t' end.

Lemma boundedb_ok σ : boundedb σ = true → bounded σ.
Proof. unfold boundedb. intros H. apply andb_true_iff in H as [H1 H2]. apply bool_decide_eq_true in H1. apply Z.leb_le in H2. by split. Qed.

Lemma smallb_ok t : smallb ∅ t = true → small t.
Proof.
  unfold small. generalize (∅ : gmap Z Conn). induction t as [|[c a] t IH]; intros σ H t' Hp; cbn [smallb] in H; apply andb_true_iff in H as [H1 H2].
  - apply prefix_nil_inv in Hp as ->. by apply boundedb_ok.
  - destruct Hp as [r Hr]. destruct t' as [|[c' a'] t']; [by apply boundedb_ok|]. injection Hr as <- <- Hr. apply (IH _ H2). by exists r.
Qed.

(** ** One of several clients *)

(** What a client may reckon with, [σ] being the map of its own calls. *)
Definition trusts (σ : gmap Z Conn) (c : Served) (a : Z) : Prop :=
  match c with
  | SNew key => a = -1 ∨ (∀ k, σ !! a = Some k → k_key k = key) ∧ ∀ id k, σ !! id = Some k → k_key k = key → id = a
  | SLock id | SKill id => is_Some (σ !! id) → a = 0
  | SCallbacks id index cb => is_Some (σ !! id) → good_callbacks index cb = true → a = 0
  end.
Definition trusted (t : list (Served * Z)) : Prop := traced trusts ∅ t.

(** What the client with the callbacks of index 0 has to do: it takes connections
    with [new_friend_connection] only, gives back what it has taken, and takes its
    callbacks back before. *)
Definition guards (σ : gmap Z Conn) (c : Served) : Prop :=
  match c with
  | SNew _ => True
  | SLock _ => False
  | SKill id => ∃ k, σ !! id = Some k ∧ k_callbacks k !! 0%nat = Some no_callbacks
  | SCallbacks id index cb => is_Some (σ !! id) ∧ index = MESSENGER_CALLBACK_INDEX ∧ good_callbacks index cb = true
  end.

(** It does so as long as the results are what it may reckon with. *)
Fixpoint careful (σ : gmap Z Conn) (t : list (Served * Z)) : Prop :=
  match t with
  | [] => True
  | (c, a) :: t' => guards σ c ∧ (trusts σ c a → careful (step σ c a) t')
  end.

Lemma careful_app σ t1 t2 : careful σ (t1 ++ t2) ↔ careful σ t1 ∧ (traced trusts σ t1 → careful (replay σ t1) t2).
Proof. revert σ. induction t1 as [|[c a] t1 IH]; intros σ; cbn [app careful traced replay]; [tauto|]. rewrite IH. tauto. Qed.
Lemma careful_snoc t c a : careful ∅ (t ++ [(c, a)]) ↔ careful ∅ t ∧ (trusted t → guards (replay ∅ t) c).
Proof. rewrite careful_app. cbn [careful]. unfold trusted. tauto. Qed.

(** The references other clients hold. *)
Definition held_by (e : Served * Z) (id : Z) : Z :=
  match e with
  | (SNew _, a) => if decide (a ≠ -1 ∧ a = id) then 1 else 0
  | (SLock id', a) => if decide (a = 0 ∧ id' = id) then 1 else 0
  | (SKill id', a) => if decide (a = 0 ∧ id' = id) then -1 else 0
  | (SCallbacks _ _ _, _) => 0
  end.
Fixpoint held (t : list (Served * Z)) (id : Z) : Z :=
  match t with
  | [] => 0
  | e :: t' => held_by e id + held t' id
  end.

(** They give back no more than they hold, and leave the callbacks of index 0
    alone. *)
Definition civil (t : list (Served * Z)) : Prop :=
  (∀ t', t' `prefix_of` t → ∀ id, 0 <= held t' id) ∧
  Forall (λ e : Served * Z, match e.1 with SCallbacks _ index _ => index ≠ MESSENGER_CALLBACK_INDEX | _ => True end) t.

Lemma held_snoc t e id : held (t ++ [e]) id = held t id + held_by e id.
Proof. induction t as [|e' t IH]; cbn [app held]; [lia|]. rewrite IH. lia. Qed.

Lemma civil_snoc t e : civil (t ++ [e]) → civil t ∧ (∀ id, 0 <= held t id + held_by e id) ∧
  match e.1 with SCallbacks _ index _ => index ≠ MESSENGER_CALLBACK_INDEX | _ => True end.
Proof.
  intros [H1 H2]. apply Forall_app in H2 as [H2 H3]. apply list.Forall_cons in H3 as [H3 _]. split; [|split; [|exact H3]].
  - split; [|done]. intros t' Ht'. apply H1. by apply prefix_app_r.
  - intros id. rewrite <- held_snoc. by apply H1.
Qed.

(** [t] has the calls of [m] and those of [o], in some order. *)
Inductive merges : list (Served * Z) → list (Served * Z) → list (Served * Z) → Prop :=
  | merges_nil : merges [] [] []
  | merges_left m o t e : merges m o t → merges (m ++ [e]) o (t ++ [e])
  | merges_right m o t e : merges m o t → merges m (o ++ [e]) (t ++ [e]).
