(* ===== verification/ConnShare.v ===== *)
(** * ConnShare: clients of the friend connections do not disturb each other

    When the connections keep their promises, the others are civil and a client is
    careful, the client's own calls tell it what is true of its connections. *)
From S2P Require Import Prelude FriendConnection ConnSpec.

(** ** The map of all calls *)

Record map_ok (σ : gmap Z Conn) : Prop := {
  mo_conn : ∀ id k, σ !! id = Some k → 1 <= k_refs k ∧ length (k_callbacks k) = 2%nat;
  mo_unique : ∀ id id' k k', σ !! id = Some k → σ !! id' = Some k' → k_key k = k_key k' → id = id';
  mo_none : σ !! (-1) = None
}.

Definition refs_at (σ : gmap Z Conn) (id : Z) : Z := match σ !! id with Some k => k_refs k | None => 0 end.

(** Changing a connection without its key. *)
Lemma map_ok_change σ id k k' : map_ok σ → σ !! id = Some k → k_key k' = k_key k → 1 <= k_refs k' → length (k_callbacks k') = 2%nat →
  map_ok (<[id := k']> σ).
Proof.
  intros [A1 A2 A3] Hk E1 E2 E3. split.
  - intros i x. rewrite lookup_insert_Some. intros [[_ <-]|[_ Hx]]; [done|by apply (A1 i)].
  - intros i i' x x'. rewrite !lookup_insert_Some. intros [[<- <-]|[N1 Hx]] [[<- <-]|[N2 Hx']] E; [done|..].
    + apply (A2 id i' k x'); try done. congruence.
    + apply (A2 i id x k); try done. congruence.
    + by apply (A2 i i' x x').
  - rewrite lookup_insert_ne by (by intros ->; rewrite A3 in Hk). done.
Qed.

Lemma map_ok_delete σ id : map_ok σ → map_ok (delete id σ).
Proof.
  intros [A1 A2 A3]. split.
  - intros i x. rewrite lookup_delete_Some. intros [_ Hx]. by apply (A1 i).
  - intros i i' x x'. rewrite !lookup_delete_Some. intros [_ Hx] [_ Hx']. by apply A2.
  - apply lookup_delete_None. by right.
Qed.

Lemma length_put index cb k : length (k_callbacks (put_callbacks index cb k)) = length (k_callbacks k).
Proof. apply length_aset. Qed.

Lemma map_ok_step σ c a : map_ok σ → allows σ c a → map_ok (step σ c a).
Proof.
  intros H Ha. pose proof H as [A1 A2 A3]. destruct c as [key|id|id|id index cb]; cbn [step allows] in *.
  - destruct (Z.eqb_spec a (-1)) as [|Hne]; [done|]. destruct Ha as [(k & Hk & Ek)|[Hno [?|[Hpos Hnone]]]]; [|done|].
    + rewrite Hk. destruct (A1 a k Hk). apply (map_ok_change σ a k); try done. cbn. lia.
    + rewrite Hnone. split.
      * intros i x. rewrite lookup_insert_Some. intros [[_ <-]|[_ Hx]]; [done|by apply (A1 i)].
      * intros i i' x x'. rewrite !lookup_insert_Some. intros [[<- <-]|[N1 Hx]] [[<- <-]|[N2 Hx']] E; [done|..].
        -- by destruct (Hno i' x').
        -- by destruct (Hno i x).
        -- by apply (A2 i i' x x').
      * by rewrite lookup_insert_ne.
  - destruct (a =? 0); [|done]. destruct (σ !! id) as [k|] eqn:E; [|by rewrite alter_missing].
    destruct (A1 id k E). rewrite (alter_found _ _ _ k E). apply (map_ok_change σ id k); try done. cbn. lia.
  - destruct (a =? 0); [|done]. destruct (σ !! id) as [k|] eqn:E; [|done]. destruct (Z.eqb_spec (k_refs k) 1); [by apply map_ok_delete|].
    destruct (A1 id k E). apply (map_ok_change σ id k); try done. cbn. lia.
  - destruct (a =? 0); [|done]. destruct (σ !! id) as [k|] eqn:E; [|by rewrite alter_missing].
    destruct (A1 id k E). rewrite (alter_found _ _ _ k E). apply (map_ok_change σ id k); try done. by rewrite length_put.
Qed.

Lemma honest_ok t : honest t → map_ok (replay ∅ t).
Proof.
  induction t as [|[c a] t IH] using rev_ind; intros H; [by split|]. apply traced_snoc in H as [H Ha]. rewrite replay_snoc. apply map_ok_step; [|done]. by apply IH.
Qed.

(** ** The map of one client *)

(** [σ] is the client's map, [τ] that of all calls, and [h] are the references the
    others hold. *)
Record shares (σ τ : gmap Z Conn) (h : Z → Z) : Prop := {
  sh_known : ∀ id k, σ !! id = Some k → ∃ k', τ !! id = Some k' ∧ k_key k' = k_key k ∧ k_callbacks k' !! 0%nat = k_callbacks k !! 0%nat;
  sh_refs : ∀ id, refs_at τ id = refs_at σ id + h id;
  sh_other : ∀ id k', τ !! id = Some k' → σ !! id = None → k_callbacks k' !! 0%nat = Some no_callbacks;
  sh_conn : ∀ id k, σ !! id = Some k → 1 <= k_refs k ∧ length (k_callbacks k) = 2%nat
}.

Lemma refs_insert σ id k i : refs_at (<[id := k]> σ) i = if decide (i = id) then k_refs k else refs_at σ i.
Proof. unfold refs_at. destruct (decide (i = id)) as [->|Hne]; [by rewrite lookup_insert_eq|by rewrite lookup_insert_ne]. Qed.
Lemma refs_delete σ id i : refs_at (delete id σ) i = if decide (i = id) then 0 else refs_at σ i.
Proof. unfold refs_at. destruct (decide (i = id)) as [->|Hne]; [by rewrite lookup_delete_eq|by rewrite lookup_delete_ne]. Qed.

(** Both maps get a connection [id] with the same key and callback, and the
    references differ by what the others hold. *)
Lemma shares_both σ τ h id k k' : shares σ τ h → k_key k' = k_key k → k_callbacks k' !! 0%nat = k_callbacks k !! 0%nat →
  1 <= k_refs k → length (k_callbacks k) = 2%nat → k_refs k' = k_refs k + h id → shares (<[id := k]> σ) (<[id := k']> τ) h.
Proof.
  intros [A1 A2 A3 A4] E1 E2 E3 E4 E5. split.
  - intros i x. rewrite lookup_insert_Some. intros [[<- <-]|[Hne Hx]]; [exists k'; by rewrite lookup_insert_eq|]. rewrite lookup_insert_ne by done. by apply A1.
  - intros i. rewrite !refs_insert. destruct (decide (i = id)) as [->|_]; [done|apply A2].
  - intros i x. rewrite lookup_insert_Some, lookup_insert_None. intros [[<- <-]|[Hne Hx]] [Hn Hn']; [done|by apply (A3 i)].
  - intros i x. rewrite lookup_insert_Some. intros [[<- <-]|[Hne Hx]]; [done|by apply (A4 i)].
Qed.

(** Only the others' part of a connection changes. *)
Lemma shares_right σ τ h h' id k' : shares σ τ h → (∀ i, i ≠ id → h' i = h i) → k_refs k' = refs_at σ id + h' id →
  (∀ k, σ !! id = Some k → k_key k' = k_key k ∧ k_callbacks k' !! 0%nat = k_callbacks k !! 0%nat) →
  (σ !! id = None → k_callbacks k' !! 0%nat = Some no_callbacks) → shares σ (<[id := k']> τ) h'.
Proof.
  intros [A1 A2 A3 A4] Hh E1 E2 E3. split; [..|done].
  - intros i x Hx. destruct (decide (i = id)) as [->|Hne]; [exists k'; rewrite lookup_insert_eq; by destruct (E2 _ Hx)|]. rewrite lookup_insert_ne by done. by apply A1.
  - intros i. rewrite refs_insert. destruct (decide (i = id)) as [->|Hne]; [done|]. rewrite Hh by done. apply A2.
  - intros i x. rewrite lookup_insert_Some. intros [[<- <-]|[Hne Hx]] Hn; [by apply E3|by apply (A3 i)].
Qed.

Lemma shares_same σ τ h h' : shares σ τ h → (∀ id, h' id = h id) → shares σ τ h'.
Proof. intros [A1 A2 A3 A4] H. split; try done. intros id. by rewrite H, A2. Qed.

(** ** Calls of the client *)

Section client.
Context (σ τ : gmap Z Conn) (h : Z → Z).
Hypotheses (Hτ : map_ok τ) (Hsh : shares σ τ h) (Hh : ∀ id, 0 <= h id).

Lemma refs_known id k k' : σ !! id = Some k → τ !! id = Some k' → k_refs k' = k_refs k + h id.
Proof using Hsh. intros E E'. pose proof (sh_refs _ _ _ Hsh id) as H. unfold refs_at in H. by rewrite E, E' in H. Qed.
Lemma refs_other id k' : σ !! id = None → τ !! id = Some k' → k_refs k' = h id.
Proof using Hsh. intros E E'. pose proof (sh_refs _ _ _ Hsh id) as H. unfold refs_at in H. rewrite E, E' in H. lia. Qed.
Lemma refs_none id : τ !! id = None → σ !! id = None ∧ h id = 0.
Proof using Hsh.
  intros E'. destruct (σ !! id) as [k|] eqn:E.
  - destruct (sh_known _ _ _ Hsh _ _ E) as (k' & E2 & _). congruence.
  - pose proof (sh_refs _ _ _ Hsh id) as H. unfold refs_at in H. rewrite E, E' in H. split; [done|lia].
Qed.

Lemma share_new key a : allows τ (SNew key) a → trusts σ (SNew key) a ∧ shares (step σ (SNew key) a) (step τ (SNew key) a) h.
Proof using Hτ Hsh Hh.
  cbn [allows trusts step]. intros Ha. destruct (Z.eqb_spec a (-1)) as [|Hne]; [by split; [left|]|].
  destruct Ha as [(k' & Hk' & Ek')|[Hno [?|[Hpos Hnone]]]]; [|done|].
  - split.
    { right. split.
      - intros k Hk. destruct (sh_known _ _ _ Hsh _ _ Hk) as (k1 & E1 & E2 & _). congruence.
      - intros id k Hk Ek. destruct (sh_known _ _ _ Hsh _ _ Hk) as (k1 & E1 & E2 & _). apply (mo_unique τ Hτ id a k1 k'); congruence. }
    rewrite Hk'. destruct (σ !! a) as [k|] eqn:Hk.
    + pose proof (refs_known _ _ _ Hk Hk'). destruct (sh_conn _ _ _ Hsh _ _ Hk). destruct (sh_known _ _ _ Hsh _ _ Hk) as (k1 & E1 & E2 & E3).
      assert (k1 = k') as -> by congruence. apply shares_both; cbn; try done; lia.
    + pose proof (refs_other _ _ Hk Hk'). pose proof (sh_other _ _ _ Hsh _ _ Hk' Hk). apply shares_both; cbn; try done; lia.
  - destruct (refs_none _ Hnone) as [Hk Hz]. split.
    { right. split; [intros k Hk'; congruence|]. intros id k Hk' Ek. destruct (sh_known _ _ _ Hsh _ _ Hk') as (k1 & E1 & E2 & _).
      destruct (Hno id k1 E1). congruence. }
    rewrite Hk, Hnone. apply shares_both; cbn; try done. lia.
Qed.

Lemma share_kill id a k : σ !! id = Some k → k_callbacks k !! 0%nat = Some no_callbacks → allows τ (SKill id) a →
  trusts σ (SKill id) a ∧ shares (step σ (SKill id) a) (step τ (SKill id) a) h.
Proof using Hτ Hsh Hh.
  intros Hk Hcb. destruct (sh_known _ _ _ Hsh _ _ Hk) as (k' & Hk' & E2 & E3). pose proof (refs_known _ _ _ Hk Hk') as Hr.
  destruct (sh_conn _ _ _ Hsh _ _ Hk) as [Hr1 Hl]. specialize (Hh id).
  cbn [allows trusts]. rewrite decide_True by (by rewrite Hk'). intros ->. split; [done|]. cbn [step Z.eqb]. rewrite Hk, Hk'.
  destruct (Z.eqb_spec (k_refs k) 1) as [Er|Er].
  - destruct Hsh as [A1 A2 A3 A4]. split.
    + intros i x. rewrite lookup_delete_Some. intros [Hne Hx]. destruct (A1 i x Hx) as (x' & Hx' & ?). exists x'. split; [|done].
      destruct (k_refs k' =? 1); [by rewrite lookup_delete_ne|by rewrite lookup_insert_ne].
    + intros i. specialize (A2 i). rewrite refs_delete. destruct (Z.eqb_spec (k_refs k') 1) as [E|E]; rewrite ?refs_delete, ?refs_insert;
        (destruct (decide (i = id)) as [->|Hne]; [cbn [add_refs k_refs]; lia|done]).
    + intros i x Hx. rewrite lookup_delete_None. intros [->|Hn].
      * destruct (k_refs k' =? 1); [by rewrite lookup_delete_eq in Hx|]. rewrite lookup_insert_eq in Hx. injection Hx as <-. cbn. congruence.
      * apply (A3 i); [|done]. destruct (decide (i = id)) as [->|Hne]; [congruence|].
        destruct (k_refs k' =? 1); [by rewrite lookup_delete_ne in Hx|by rewrite lookup_insert_ne in Hx].
    + intros i x. rewrite lookup_delete_Some. intros [_ Hx]. by apply (A4 i).
  - destruct (Z.eqb_spec (k_refs k') 1); [lia|]. apply shares_both; cbn; try done; lia.
Qed.

Lemma share_callbacks id cb a : is_Some (σ !! id) → good_callbacks 0 cb = true → allows τ (SCallbacks id 0 cb) a →
  trusts σ (SCallbacks id 0 cb) a ∧ shares (step σ (SCallbacks id 0 cb) a) (step τ (SCallbacks id 0 cb) a) h.
Proof using Hτ Hsh Hh.
  intros [k Hk] Hg. destruct (sh_known _ _ _ Hsh _ _ Hk) as (k' & Hk' & E2 & E3). pose proof (refs_known _ _ _ Hk Hk') as Hr.
  destruct (sh_conn _ _ _ Hsh _ _ Hk) as [Hr1 Hl]. destruct (mo_conn τ Hτ _ _ Hk') as [_ Hl'].
  cbn [allows trusts]. rewrite decide_True by (by rewrite Hk'). rewrite Hg. intros ->. split; [done|]. cbn [step Z.eqb].
  rewrite (alter_found _ _ _ _ Hk), (alter_found _ _ _ _ Hk'). apply shares_both; try done; [|by rewrite length_put].
  cbn. unfold aset. by rewrite !list_lookup_insert_eq by lia.
Qed.

Lemma share_client c a : allows τ c a → guards σ c → trusts σ c a ∧ shares (step σ c a) (step τ c a) h.
Proof using Hτ Hsh Hh.
  destruct c as [key|id|id|id index cb]; cbn [guards]; intros Ha Hg.
  - by apply share_new.
  - done.
  - destruct Hg as (k & ? & ?). by apply (share_kill id a k).
  - destruct Hg as (? & -> & ?). by apply share_callbacks.
Qed.

(** ** Calls of the others *)

Lemma same_refs id k' : τ !! id = Some k' → k_refs k' = refs_at σ id + h id.
Proof using Hsh. intros E. pose proof (sh_refs _ _ _ Hsh id) as H. unfold refs_at in H at 1. by rewrite E in H. Qed.

(** A connection in which the others change nothing but the references, or
    callbacks that are not the client's. *)
Lemma share_right id k1 k' (h' : Z → Z) : τ !! id = Some k1 → k_key k' = k_key k1 → k_callbacks k' !! 0%nat = k_callbacks k1 !! 0%nat →
  (∀ i, i ≠ id → h' i = h i) → k_refs k' = k_refs k1 + (h' id - h id) → shares σ (<[id := k']> τ) h'.
Proof using Hsh.
  intros E1 E2 E3 Hi Hr. apply (shares_right σ τ h); try done.
  - rewrite Hr, (same_refs _ _ E1). lia.
  - intros k Hk. destruct (sh_known _ _ _ Hsh _ _ Hk) as (k2 & F1 & F2 & F3). assert (k2 = k1) as -> by congruence. split; congruence.
  - intros Hk. rewrite E3. by apply (sh_other _ _ _ Hsh id).
Qed.

Lemma share_other_new key a : allows τ (SNew key) a → shares σ (step τ (SNew key) a) (λ id, h id + held_by (SNew key, a) id).
Proof using Hsh.
  cbn [step allows]. intros Ha. destruct (Z.eqb_spec a (-1)) as [Ea|Hne].
  { apply (shares_same _ _ _ _ Hsh). intros id. cbn [held_by]. rewrite decide_False by tauto. lia. }
  assert (∀ id, id ≠ a → h id + held_by (SNew key, a) id = h id) as Hsame by (intros id Hid; cbn [held_by]; rewrite decide_False by naive_solver; lia).
  assert (held_by (SNew key, a) a = 1) as Ea by (cbn [held_by]; by rewrite decide_True).
  destruct Ha as [(k' & Hk' & Ek')|[Hno [?|[Hpos Hnone]]]]; [|done|].
  - rewrite Hk'. apply (share_right a k'); try done. rewrite Ea. cbn. lia.
  - rewrite Hnone. destruct (refs_none _ Hnone) as [Hk Hz]. apply (shares_right σ τ h); try done.
    + rewrite Ea, Hz. unfold refs_at. by rewrite Hk.
    + intros k ?. congruence.
Qed.

Lemma share_other_lock id a : allows τ (SLock id) a → shares σ (step τ (SLock id) a) (λ i, h i + held_by (SLock id, a) i).
Proof using Hsh.
  cbn [step allows]. intros ->. destruct (τ !! id) as [k'|] eqn:E.
  - rewrite decide_True by done. cbn [Z.eqb]. rewrite (alter_found _ _ _ _ E). apply (share_right id k'); try done.
    + intros i Hi. cbn [held_by]. rewrite decide_False by naive_solver. lia.
    + cbn [held_by]. rewrite decide_True by done. cbn. lia.
  - rewrite decide_False by (by intros []). apply (shares_same _ _ _ _ Hsh). intros i. cbn [held_by]. rewrite decide_False by naive_solver. lia.
Qed.

Lemma share_other_kill id a : allows τ (SKill id) a → (∀ i, 0 <= h i + held_by (SKill id, a) i) →
  shares σ (step τ (SKill id) a) (λ i, h i + held_by (SKill id, a) i).
Proof using Hsh.
  cbn [step allows]. intros ->. destruct (τ !! id) as [k'|] eqn:E.
  - rewrite decide_True by done. cbn [Z.eqb]. intros Hc.
    assert (∀ i, i ≠ id → h i + held_by (SKill id, 0) i = h i) as Hsame by (intros i Hi; cbn [held_by]; rewrite decide_False by naive_solver; lia).
    assert (held_by (SKill id, 0) id = -1) as Em by (cbn [held_by]; by rewrite decide_True).
    destruct (Z.eqb_spec (k_refs k') 1) as [Er|Er]; [|apply (share_right id k'); try done; rewrite Em; cbn; lia].
    pose proof (same_refs _ _ E) as Hr. specialize (Hc id). rewrite Em in Hc.
    assert (σ !! id = None) as Hn.
    { destruct (σ !! id) as [k|] eqn:Hk; [|done]. destruct (sh_conn _ _ _ Hsh _ _ Hk). unfold refs_at in Hr. rewrite Hk in Hr. lia. }
    assert (h id = 1) as Hone by (unfold refs_at in Hr; rewrite Hn in Hr; lia).
    destruct Hsh as [A1 A2 A3 A4]. split; [..|done].
    + intros i x Hx. rewrite lookup_delete_ne by congruence. by apply A1.
    + intros i. rewrite refs_delete. destruct (decide (i = id)) as [->|Hne]; [unfold refs_at; rewrite Hn, Em; lia|]. rewrite Hsame by done. apply A2.
    + intros i x. rewrite lookup_delete_Some. intros [_ Hx]. by apply (A3 i).
  - rewrite decide_False by (by intros []). intros _. apply (shares_same _ _ _ _ Hsh). intros i. cbn [held_by]. rewrite decide_False by naive_solver. lia.
Qed.

Lemma share_other_callbacks id index cb a : allows τ (SCallbacks id index cb) a → index ≠ MESSENGER_CALLBACK_INDEX →
  shares σ (step τ (SCallbacks id index cb) a) (λ i, h i + held_by (SCallbacks id index cb, a) i).
Proof using Hsh.
  cbn [step allows]. intros -> Hi. destruct (decide (is_Some (τ !! id))) as [[k' E]|_].
  2: { apply (shares_same _ _ _ _ Hsh). intros i. cbn. lia. }
  destruct (good_callbacks index cb) eqn:Hg; [|apply (shares_same _ _ _ _ Hsh); intros i; cbn; lia].
  cbn [Z.eqb]. rewrite (alter_found _ _ _ _ E). apply (share_right id k'); try done; cbn [held_by]; [|intros; lia|cbn; lia].
  cbn. unfold aset. rewrite list_lookup_insert_ne; [done|]. unfold good_callbacks in Hg. unfold MESSENGER_CALLBACK_INDEX in Hi. lia.
Qed.

Lemma share_other c a : allows τ c a → (∀ id, 0 <= h id + held_by (c, a) id) →
  match c with SCallbacks _ index _ => index ≠ MESSENGER_CALLBACK_INDEX | _ => True end → shares σ (step τ c a) (λ id, h id + held_by (c, a) id).
Proof using Hsh.
  destruct c; intros; auto using share_other_new, share_other_lock, share_other_kill, share_other_callbacks.
Qed.
End client.

(** ** Traces *)

Lemma merged_share m o t : merges m o t → honest t → civil o → careful ∅ m → trusted m ∧ shares (replay ∅ m) (replay ∅ t) (held o).
Proof.
  intros H. induction H as [|m o t [c a] H IH|m o t [c a] H IH]; intros Ht Ho Hm.
  - split; [done|]. split; try done.
  - apply traced_snoc in Ht as [Ht Ha]. apply careful_snoc in Hm as [Hm Hg]. destruct (IH Ht Ho Hm) as [Htr Hsh].
    destruct (share_client _ _ _ (honest_ok t Ht) Hsh (λ id, proj1 Ho o (reflexivity o) id) c a Ha (Hg Htr)) as [H1 H2].
    rewrite !replay_snoc. split; [by apply traced_snoc|done].
  - apply traced_snoc in Ht as [Ht Ha]. destruct (civil_snoc _ _ Ho) as (Ho' & Hc & Hcb). destruct (IH Ht Ho' Hm) as [Htr Hsh].
    split; [done|]. rewrite replay_snoc. apply (shares_same _ _ (λ id, held o id + held_by (c, a) id)); [by apply share_other|]. intros id. apply held_snoc.
Qed.
