(* ===== verification/ConnTable.v ===== *)
(** * ConnTable: the table of friend connections implements the promises

    After any operations of the connections, whatever the layers above do when
    they are called, the table is the map that the calls served determine. *)
From S2P Require Import Prelude Util MonoTime CryptoCore Network World LanDiscovery FriendRequests DhtPackets DhtLists FriendConnection ConnSpec Steps.

(** ** Invariant *)

Definition in_use (c : Friend_Conn) : Prop := fc_status c ≠ FRIENDCONN_STATUS_NONE.

(** What the table says of a connection. *)
Definition view_of (c : Friend_Conn) : Conn := mkConn (fc_real_public_key c) (fc_lock_count c + 1) (fc_callbacks c).
Definition conn_view (s : Friend_Connections) (id : Z) : option Conn :=
  if id <? 0 then None
  else match fs_conns s !! Z.to_nat id with
       | Some c => if fc_status c =? FRIENDCONN_STATUS_NONE then None else Some (view_of c)
       | None => None
       end.

Record table_ok (s : Friend_Connections) : Prop := {
  to_view : ∀ id, replay ∅ (fs_served s) !! id = conn_view s id;
  to_honest : honest (fs_served s);
  to_unique : ∀ id id' k k', conn_view s id = Some k → conn_view s id' = Some k' → k_key k = k_key k' → id = id';
  to_free : ∀ i c, fs_conns s !! i = Some c → ¬ in_use c → c = empty_friend_conn;
  to_locks : ∀ i c, fs_conns s !! i = Some c → is_u16 (fc_lock_count c);
  to_number : num_cons s <= 65536
}.

Definition used_at (s : Friend_Connections) (i : Z) : Prop := ∃ c, fs_conns s !! Z.to_nat i = Some c ∧ in_use c.

(** Besides, the connections [l] are in use. *)
Definition conns_ok (l : list Z) (s : Friend_Connections) : Prop := small (fs_served s) → table_ok s ∧ Forall (used_at s) l.

Lemma conn_view_some s id k : conn_view s id = Some k ↔
  0 <= id ∧ ∃ c, fs_conns s !! Z.to_nat id = Some c ∧ in_use c ∧ k = view_of c.
Proof.
  unfold conn_view, in_use. destruct (Z.ltb_spec id 0) as [H|H]; [split; [done|intros [? _]; lia]|].
  destruct (fs_conns s !! Z.to_nat id) as [c|]; [|split; [done|by intros (_ & ? & ? & _)]].
  destruct (Z.eqb_spec (fc_status c) FRIENDCONN_STATUS_NONE) as [E|E]; split.
  - done.
  - intros (_ & ? & [= <-] & ? & _). done.
  - intros [= <-]. split; [done|]. by exists c.
  - by intros (_ & ? & [= <-] & _ & ->).
Qed.

Lemma conns_same l s s' : conns_ok l s → fs_conns s' = fs_conns s → fs_served s' = fs_served s → conns_ok l s'.
Proof.
  intros H E1 E2 Hs. rewrite E2 in Hs. destruct (H Hs) as [[A1 A2 A3 A4 A5 A6] Hl].
  assert (∀ id, conn_view s' id = conn_view s id) as E by (intros id; unfold conn_view; by rewrite E1).
  split; [split|].
  - intros id. by rewrite E, E2.
  - by rewrite E2.
  - intros id id' k k'. rewrite !E. apply A3.
  - by rewrite E1.
  - by rewrite E1.
  - unfold num_cons. by rewrite E1.
  - eapply list.Forall_impl; [exact Hl|]. intros i. unfold used_at. by rewrite E1.
Qed.

Lemma conns_weaken l l' s : l' ⊆ l → conns_ok l s → conns_ok l' s.
Proof.
  intros Hl H Hs. destruct (H Hs) as [Ht Hu]. split; [done|]. rewrite list.Forall_forall in *. intros i Hi. by apply Hu, Hl.
Qed.

Lemma get_conn_used s i c : get_conn s i = Some c → used_at s i ∧ fs_conns s !! Z.to_nat i = Some c.
Proof.
  unfold get_conn, friendconn_id_valid, conn_at, aget, used_at, in_use. destruct (_ && _) eqn:E; [|done]. intros [= <-].
  apply andb_true_iff in E as [_ E]. apply negb_true_iff, Z.eqb_neq in E. destruct (fs_conns s !! Z.to_nat i) as [c|]; cbn in *; [|done].
  split; [|done]. by exists c.
Qed.

(** ** Elementary steps *)

(** A change that the layers above do not see. *)
Definition mild (g : Friend_Conn → Friend_Conn) : Prop := ∀ c,
  fc_real_public_key (g c) = fc_real_public_key c ∧ fc_lock_count (g c) = fc_lock_count c ∧ fc_callbacks (g c) = fc_callbacks c ∧
  (in_use c → in_use (g c)).

Lemma lookup_aset {A} (l : list A) i x a y : aset l i x !! a = Some y →
  (a = Z.to_nat i ∧ y = x ∧ (Z.to_nat i < length l)%nat) ∨ (a ≠ Z.to_nat i ∧ l !! a = Some y).
Proof. unfold aset. intros H. apply list_lookup_insert_Some in H as [(<- & <- & ?)|[? ?]]; auto. Qed.

(** Changing one connection in use changes nothing but its view. *)
Lemma view_aset s l i c c' id : fs_conns s !! Z.to_nat i = Some c → in_use c' → l = aset (fs_conns s) i c' → 0 <= i →
  conn_view (s <| fs_conns := l |>) id = if decide (id = i) then Some (view_of c') else conn_view s id.
Proof.
  intros Hc Hu -> Hi. unfold conn_view. cbn [set_field fs_conns]. destruct (decide (id = i)) as [->|Hne].
  - destruct (Z.ltb_spec i 0); [lia|]. unfold aset. rewrite list_lookup_insert_eq by (by apply lookup_lt_Some in Hc). unfold in_use in Hu.
    by destruct (Z.eqb_spec (fc_status c') FRIENDCONN_STATUS_NONE).
  - destruct (Z.ltb_spec id 0); [done|]. unfold aset. by rewrite list_lookup_insert_ne by lia.
Qed.

Lemma conns_mild l s i g : mild g → i ∈ l → conns_ok l s → conns_ok l (on_conn i g s).2.
Proof.
  intros Hg Hi H Hs. cbn [on_conn modify snd] in *. destruct (H Hs) as [[A1 A2 A3 A4 A5 A6] Hl].
  pose proof Hl as Hl'. rewrite list.Forall_forall in Hl'. destruct (Hl' i Hi) as (c & Hc & Hu).
  assert (conn_at s i = c) as -> by (unfold conn_at, aget; by rewrite Hc). destruct (Hg c) as (G1 & G2 & G3 & G4).
  set (s' := s <| fs_conns := aset (fs_conns s) i (g c) |>).
  assert (fs_conns s' = aset (fs_conns s) i (g c)) as E' by done.
  assert (∀ id, conn_view s' id = conn_view s id) as E.
  { intros id. unfold conn_view. rewrite E'. destruct (id <? 0); [done|]. unfold aset.
    destruct (decide (Z.to_nat id = Z.to_nat i)) as [->|Hne]; [|by rewrite list_lookup_insert_ne by done].
    rewrite list_lookup_insert_eq by (by apply lookup_lt_Some in Hc). rewrite Hc. unfold in_use, view_of in *. rewrite G1, G2, G3.
    destruct (Z.eqb_spec (fc_status c) FRIENDCONN_STATUS_NONE); [done|]. destruct (Z.eqb_spec (fc_status (g c)) FRIENDCONN_STATUS_NONE); tauto. }
  split; [split|].
  - intros id. rewrite E. apply A1.
  - done.
  - intros id id' k k'. rewrite !E. apply A3.
  - rewrite E'. intros a c0 Ha Hf. apply lookup_aset in Ha as [(-> & -> & _)|[_ Ha]]; [by destruct Hf; auto|by apply (A4 a)].
  - rewrite E'. intros a c0 Ha. apply lookup_aset in Ha as [(-> & -> & _)|[_ Ha]]; [rewrite G2; by apply (A5 (Z.to_nat i))|by apply (A5 a)].
  - unfold num_cons. rewrite E', zlen_aset. exact A6.
  - eapply list.Forall_impl; [exact Hl|]. intros j (cj & Hj & Huj). unfold used_at. rewrite E'. unfold aset.
    destruct (decide (Z.to_nat j = Z.to_nat i)) as [Ej|Hne]; [|by exists cj; rewrite list_lookup_insert_ne].
    exists (g c). rewrite Ej. split; [|auto]. apply list_lookup_insert_eq. by apply lookup_lt_Some in Hc.
Qed.

Lemma ck_ask l c : keeps (conns_ok l) (kask c).
Proof. intros s Hs. by apply (conns_same l s). Qed.
Lemma ck_relays l i : keeps (conns_ok l) (kask_relays i).
Proof. intros s Hs. by apply (conns_same l s). Qed.
Lemma ck_pointer l n : keeps (conns_ok l) (use_pointer n).
Proof. intros s Hs. unfold use_pointer, modify. cbn [snd]. destruct (_ =? _)%nat; [done|]. by apply (conns_same l s). Qed.
Lemma ck_conn l i g : mild g → i ∈ l → keeps (conns_ok l) (on_conn i g).
Proof. intros Hg Hi s Hs. by apply conns_mild. Qed.
Lemma ck_modify l g : (∀ s, fs_conns (g s) = fs_conns s ∧ fs_served (g s) = fs_served s) → keeps (conns_ok l) (modify g).
Proof. intros Hg. apply mk_modify. intros s Hs. destruct (Hg s). by apply (conns_same l s). Qed.

(** After a look at the table the connection is known to be in use. *)
Lemma ld_found {A} P l i (b : Friend_Connections → bool) (k : Friend_Connections → Friend_Conn → FC A) (n n' : Friend_Connections → FC A) Q :
  (∀ s, P s → conns_ok l s) →
  (∀ s, leads P (n s) Q) → (∀ s, leads P (n' s) Q) → (∀ s c, leads (conns_ok (i :: l)) (k s c) Q) →
  leads P (get (λ s, s) ≫= λ s, if b s then n s else match get_conn s i with None => n' s | Some c => k s c end) Q.
Proof.
  intros HP Hn Hn' Hk s Hs. unfold mbind, M_bind, get. cbv beta iota. destruct (b s); [by apply Hn|]. destruct (get_conn s i) as [c|] eqn:E; [|by apply Hn'].
  apply (Hk s c). intros Hsm. destruct (HP s Hs Hsm) as [? ?]. split; [done|]. apply list.Forall_cons. split; [|done].
  by destruct (get_conn_used _ _ _ E).
Qed.

Lemma ck_drop {A} l i (m : FC A) : keeps (conns_ok (i :: l)) m → leads (conns_ok (i :: l)) m (λ _, conns_ok l).
Proof. intros H. apply ld_keeps; [done|]. intros s. apply conns_weaken. set_solver. Qed.

Lemma ck_found {A} l i (k : Friend_Connections → Friend_Conn → FC A) (n : Friend_Connections → FC A) :
  (∀ s, keeps (conns_ok l) (n s)) → (∀ s c, keeps (conns_ok (i :: l)) (k s c)) →
  keeps (conns_ok l) (get (λ s, s) ≫= λ s, match get_conn s i with None => n s | Some c => k s c end).
Proof.
  intros Hn Hk. apply (ld_found _ l i (λ _, false) k n n (λ _, conns_ok l)); try done. intros s c. by apply ck_drop.
Qed.
Lemma ck_found_if {A} l i (b : Friend_Connections → bool) (k : Friend_Connections → Friend_Conn → FC A) (n n' : Friend_Connections → FC A) :
  (∀ s, keeps (conns_ok l) (n s)) → (∀ s, keeps (conns_ok l) (n' s)) → (∀ s c, keeps (conns_ok (i :: l)) (k s c)) →
  keeps (conns_ok l) (get (λ s, s) ≫= λ s, if b s then n s else match get_conn s i with None => n' s | Some c => k s c end).
Proof. intros Hn Hn' Hk. apply (ld_found _ l i b k n n' (λ _, conns_ok l)); try done. intros s c. by apply ck_drop. Qed.

Create HintDb conns.
#[local] Hint Resolve ck_ask ck_relays ck_pointer : conns.
#[local] Hint Extern 1 (_ ∈ _) => set_solver : conns.
Ltac mild_change := apply ck_conn; [intros ?; done|set_solver].
Ltac conn_step :=
  first
    [ solve [eauto 3 with conns] | mild_change
    | lazymatch goal with
      | |- keeps _ (get (λ s, s) ≫= λ s, match get_conn s _ with _ => _ end) => apply ck_found; [intros ?|intros ? ?]
      | |- keeps _ (get (λ s, s) ≫= λ s, if _ then _ else match get_conn s _ with _ => _ end) => apply ck_found_if; [intros ?|intros ?|intros ? ?]
      | |- keeps _ (the_conn _) => apply mk_get
      | |- keeps _ fc_time => apply mk_get
      | |- keeps _ the_memory => apply mk_get
      | |- keeps _ (for_each _ _) => apply mk_each; intros ? ?
      | |- keeps _ (match ?x with _ => _ end) => destruct x eqn:?
      end
    | progress intros ].
Ltac conn_steps := repeat first [conn_step | progress steps_with ltac:(conn_step)].

(** ** What the layers above do not see *)

Lemma ck_add_relay l i ip pk : keeps (conns_ok l) (friend_add_tcp_relay i ip pk).
Proof. unfold friend_add_tcp_relay. conn_steps. Qed.
#[local] Hint Resolve ck_add_relay : conns.
Lemma ck_relays_loop l n c i k : keeps (conns_ok l) (connect_relays_loop n c i k).
Proof. revert i k. induction n as [|n IH]; intros i k; cbn [connect_relays_loop]; conn_steps. Qed.
#[local] Hint Resolve ck_relays_loop : conns.
Lemma ck_saved_relays l i n : keeps (conns_ok l) (connect_to_saved_tcp_relays i n).
Proof. unfold connect_to_saved_tcp_relays. conn_steps. Qed.
Lemma ck_send_relays l i : keeps (conns_ok l) (send_relays i).
Proof. unfold send_relays. conn_steps. Qed.
Lemma ck_relay_node l i ip pk : keeps (conns_ok l) (tcp_relay_node_callback i ip pk).
Proof. unfold tcp_relay_node_callback. conn_steps. Qed.
Lemma ck_new_connection l i : keeps (conns_ok l) (friend_new_connection i).
Proof. unfold friend_new_connection. conn_steps. Qed.
#[local] Hint Resolve ck_saved_relays ck_send_relays ck_new_connection : conns.
Lemma ck_dht_ip l i ip : keeps (conns_ok l) (dht_ip_callback i ip).
Proof. unfold dht_ip_callback. conn_steps. Qed.
Lemma ck_change_dht_pk l i pk : keeps (conns_ok l) (change_dht_pk i pk).
Proof. unfold change_dht_pk. conn_steps. Qed.
#[local] Hint Resolve ck_change_dht_pk : conns.
Lemma ck_new_connections l n : keeps (conns_ok l) (handle_new_connections n).
Proof.
  unfold handle_new_connections. intros s Hs.
  refine (ck_found l (getfriend_conn_id_pk s (n_public_key n)) (λ s0 c, _) (λ _, mret (-1)) _ _ s Hs); [conn_steps|].
  intros s0 c. conn_steps.
Qed.
Lemma ck_ping l i : keeps (conns_ok l) (send_ping i).
Proof. unfold send_ping. conn_steps. Qed.
Lemma ck_request l i n d k : keeps (conns_ok l) (send_friend_request_packet i n d k).
Proof. unfold send_friend_request_packet. conn_steps. Qed.
Lemma ck_set_request l b : keeps (conns_ok l) (set_friend_request_callback b).
Proof. unfold set_friend_request_callback. conn_steps. by apply ck_modify. Qed.
Lemma ck_lan l : keeps (conns_ok l) lan_discovery.
Proof. unfold lan_discovery. conn_steps. by apply ck_modify. Qed.
#[local] Hint Resolve ck_ping ck_lan : conns.
Lemma ck_status_change l c i b : i ∈ l → keeps (conns_ok l) (status_change c i b).
Proof. intros Hi. unfold status_change. conn_steps. Qed.

(** ** Calls of the layers above *)

(** Code that needs a connection in use at first and not later. *)
Lemma ld_then {A B} l (m : FC A) (f : A → FC B) : keeps (conns_ok l) m → (∀ x, keeps (conns_ok []) (f x)) → leads (conns_ok l) (m ≫= f) (λ _, conns_ok []).
Proof.
  intros Hm Hf. eapply ld_bind; [apply ld_keeps; [exact Hm|]|].
  - intros s. apply (conns_weaken l []). set_solver.
  - intros x. by apply ld_keeps.
Qed.

Lemma ck_found_leads {A} i (k : Friend_Connections → Friend_Conn → FC A) (n : Friend_Connections → FC A) :
  (∀ s, keeps (conns_ok []) (n s)) → (∀ s c, leads (conns_ok [i]) (k s c) (λ _, conns_ok [])) →
  keeps (conns_ok []) (get (λ s, s) ≫= λ s, match get_conn s i with None => n s | Some c => k s c end).
Proof. intros Hn Hk. by apply (ld_found _ [] i (λ _, false) k n n (λ _, conns_ok [])). Qed.

Section above.
Context (upper : Upper_Call → FC unit).
Hypothesis (Hupper : ∀ u, keeps (conns_ok []) (upper u)).

Lemma ck_upper u : keeps (conns_ok []) (call_upper upper u).
Proof using Hupper. unfold call_upper. apply mk_bind; [by apply ck_modify|]. intros _. apply Hupper. Qed.
#[local] Hint Resolve ck_upper : conns.

Lemma ck_tell_status n i b : keeps (conns_ok []) (tell_status upper n i b).
Proof using Hupper. unfold tell_status. conn_steps. Qed.

Lemma ck_handle_status i b : keeps (conns_ok []) (handle_status upper i b).
Proof using Hupper.
  apply ck_found_leads; [conn_steps|]. intros s c. eapply ld_bind; [by apply ld_keeps; [apply mk_get|]|]. intros memory.
  apply ld_then; [apply ck_status_change; set_solver|]. intros []; conn_steps. apply ck_tell_status.
Qed.
#[local] Hint Resolve ck_handle_status : conns.

Lemma ck_dht_pk i pk : keeps (conns_ok []) (dht_pk_callback upper i pk).
Proof using Hupper.
  apply ck_found_leads; [conn_steps|]. intros s c. destruct (pk_equal _ _); [apply ck_drop; conn_steps|].
  eapply ld_bind; [by apply ld_keeps; [apply mk_get|]|]. intros memory.
  eapply ld_bind; [by apply ld_keeps; [apply ck_change_dht_pk|]|]. intros _.
  eapply ld_bind; [by apply ld_keeps; [apply mk_get|]|]. intros c'.
  eapply ld_bind; [|intros _; apply ld_keeps; [|done]; conn_steps].
  destruct (negb _); [|apply ck_drop; conn_steps].
  eapply ld_bind; [by apply ld_keeps; [apply ck_ask|]|]. intros _. apply ld_then; conn_steps.
Qed.

Lemma ck_data_loop b l i d c : keeps (conns_ok []) (data_loop upper b l i d c).
Proof using Hupper.
  revert c. induction l as [|j l IH]; intros c; cbn [data_loop]; [conn_steps|]. apply mk_bind; [destruct b; conn_steps|]. intros _.
  apply mk_bind; [apply mk_get|]. intros s. destruct (get_conn s i); [apply IH|conn_steps].
Qed.

Lemma ck_handle_packet i d : keeps (conns_ok []) (handle_packet upper i d).
Proof using Hupper.
  unfold handle_packet. destruct (zlen d =? 0); [conn_steps|]. apply ck_found_leads; [conn_steps|]. intros s c.
  assert (∀ (m : FC Z), keeps (conns_ok []) m → leads (conns_ok [i]) m (λ _, conns_ok [])) as Hk.
  { intros m Hm. eapply ld_weaken; [by apply ld_keeps with (P := conns_ok [])| |done]. intros s'. apply conns_weaken. set_solver. }
  cbv zeta. destruct (_ =? PACKET_ID_FRIEND_REQUESTS); [apply Hk; conn_steps|].
  destruct (_ =? PACKET_ID_ALIVE); [apply ck_drop; conn_steps|].
  destruct (_ =? PACKET_ID_SHARE_RELAYS); [apply ck_drop; conn_steps|]. apply Hk, ck_data_loop.
Qed.

Lemma ck_lossy_packet i d : keeps (conns_ok []) (handle_lossy_packet upper i d).
Proof using Hupper.
  unfold handle_lossy_packet. destruct (zlen d =? 0); [conn_steps|]. apply ck_found_leads; [conn_steps|]. intros s c.
  eapply ld_weaken; [apply (ld_keeps (conns_ok [])); [apply ck_data_loop|done]| |done]. intros s'. apply conns_weaken. set_solver.
Qed.

Lemma ck_do_connection i t : keeps (conns_ok []) (do_friend_connection upper i t).
Proof using Hupper.
  apply ck_found_leads; [conn_steps|]. intros s c. destruct (_ =? FRIENDCONN_STATUS_CONNECTING); [apply ck_drop; conn_steps|].
  destruct (_ =? FRIENDCONN_STATUS_CONNECTED); [|apply ck_drop; conn_steps].
  do 2 (eapply ld_bind; [apply ld_keeps; [conn_steps|done]|intros _]). destruct (_ <? t); [|apply ck_drop; conn_steps].
  eapply ld_bind; [by apply ld_keeps; [apply ck_ask|]|]. intros _. apply ld_then; conn_steps.
Qed.

Lemma ck_do_loop n i t : keeps (conns_ok []) (do_conns_loop upper n i t).
Proof using Hupper.
  revert i. induction n as [|n IH]; intros i; cbn [do_conns_loop]; (apply mk_bind; [apply mk_get|]); intros s; destruct (_ <=? i); conn_steps.
  apply ck_do_connection.
Qed.

Lemma ck_do_connections n : keeps (conns_ok []) (do_friend_connections upper n).
Proof using Hupper. unfold do_friend_connections. conn_steps. apply ck_do_loop. Qed.

End above.

(** ** Calls by the layers above *)

Definition is_s32 (x : Z) : Prop := - 2 ^ 31 <= x < 2 ^ 31.

Lemma get_conn_view s i : table_ok s → is_s32 i →
  (get_conn s i = None ∧ conn_view s i = None) ∨
  ∃ c, get_conn s i = Some c ∧ 0 <= i ∧ fs_conns s !! Z.to_nat i = Some c ∧ in_use c ∧ conn_view s i = Some (view_of c).
Proof.
  intros [_ _ _ _ _ Hn] Hi. unfold num_cons, zlen in Hn. unfold is_s32 in Hi. unfold get_conn, friendconn_id_valid, num_cons, zlen, conn_at, aget.
  destruct (Z.ltb_spec i 0) as [Hneg|Hpos].
  - left. split; [|unfold conn_view; by destruct (Z.ltb_spec i 0); [|lia]].
    assert (u32 i = i + 2 ^ 32) as -> by (unfold u32; symmetry; apply (Z.mod_unique_pos _ _ (-1)); lia).
    by destruct (Z.ltb_spec (i + 2 ^ 32) (Z.of_nat (length (fs_conns s)))); [lia|].
  - rewrite u32_small by lia. unfold conn_view. destruct (Z.ltb_spec i 0); [lia|].
    destruct (fs_conns s !! Z.to_nat i) as [c|] eqn:E; cbn [default from_option id].
    + apply lookup_lt_Some in E as Hlt. destruct (Z.ltb_spec i (Z.of_nat (length (fs_conns s)))); [|lia]. cbn [andb].
      destruct (Z.eqb_spec (fc_status c) FRIENDCONN_STATUS_NONE); cbn [negb]; [by left|]. right. by exists c.
    + left. split; [|done]. by rewrite andb_false_r.
Qed.

(** A call that changes nothing. *)
Lemma table_unchanged s s' c a : table_ok s → fs_conns s' = fs_conns s → fs_served s' = fs_served s ++ [(c, a)] →
  allows (replay ∅ (fs_served s)) c a → step (replay ∅ (fs_served s)) c a = replay ∅ (fs_served s) → table_ok s'.
Proof.
  intros [A1 A2 A3 A4 A5 A6] E1 E2 Ha Hst. assert (∀ id, conn_view s' id = conn_view s id) as E by (intros id; unfold conn_view; by rewrite E1).
  split.
  - intros id. by rewrite E2, replay_snoc, Hst, E.
  - rewrite E2. by apply traced_snoc.
  - intros id id' k k'. rewrite !E. apply A3.
  - by rewrite E1.
  - by rewrite E1.
  - unfold num_cons. by rewrite E1.
Qed.

(** A call that changes connection [i] from [k] to [k']. *)
Lemma table_update s s' i k k' c a : table_ok s → 0 <= i → fs_conns s !! Z.to_nat i = Some k → in_use k → in_use k' →
  fc_real_public_key k' = fc_real_public_key k → is_u16 (fc_lock_count k') →
  fs_conns s' = aset (fs_conns s) i k' → fs_served s' = fs_served s ++ [(c, a)] →
  allows (replay ∅ (fs_served s)) c a → step (replay ∅ (fs_served s)) c a = <[i := view_of k']> (replay ∅ (fs_served s)) → table_ok s'.
Proof.
  intros [A1 A2 A3 A4 A5 A6] Hi Hk Hu Hu' Hkey Hlock E1 E2 Ha Hst.
  assert (conn_view s i = Some (view_of k)) as Ei by (apply conn_view_some; eauto 6).
  assert (∀ id, conn_view s' id = if decide (id = i) then Some (view_of k') else conn_view s id) as E.
  { intros id. rewrite <- (view_aset s (fs_conns s') i k k' id) by done. unfold conn_view. cbn [set_field fs_conns]. done. }
  split.
  - intros id. rewrite E2, replay_snoc, Hst, E. destruct (decide (id = i)) as [->|Hne]; [apply lookup_insert_eq|]. rewrite lookup_insert_ne by done. apply A1.
  - rewrite E2. by apply traced_snoc.
  - intros id id' x x'. rewrite !E. destruct (decide (id = i)) as [->|H1], (decide (id' = i)) as [->|H2]; try done.
    + intros [= <-] Hx Hkk. apply (A3 i id' _ _ Ei Hx). rewrite <- Hkk. symmetry. exact Hkey.
    + intros Hx [= <-] Hkk. apply (A3 id i _ _ Hx Ei). rewrite Hkk. exact Hkey.
    + apply A3.
  - rewrite E1. intros j x Hx Hf. apply lookup_aset in Hx as [(-> & -> & _)|[_ Hx]]; [done|by apply (A4 j)].
  - rewrite E1. intros j x Hx. apply lookup_aset in Hx as [(-> & -> & _)|[_ Hx]]; [done|by apply (A5 j)].
  - unfold num_cons. by rewrite E1, zlen_aset.
Qed.

Lemma conns_nil s : (small (fs_served s) → table_ok s) → conns_ok [] s.
Proof. intros H Hs. split; [auto|constructor]. Qed.

Lemma conn_at_lookup s i c : fs_conns s !! Z.to_nat i = Some c → conn_at s i = c.
Proof. intros H. unfold conn_at, aget. by rewrite H. Qed.

(** What is known of a state before a call that was served. *)
Lemma before_call s c a : conns_ok [] s → small (fs_served s ++ [(c, a)]) → table_ok s ∧ bounded (step (replay ∅ (fs_served s)) c a).
Proof.
  intros H Hs. split; [by destruct (H (small_app _ _ Hs))|]. apply small_bounded in Hs. by rewrite replay_snoc in Hs.
Qed.

(** A reference more, which the count has room for. *)
Lemma one_more s i k key : table_ok s → fs_conns s !! Z.to_nat i = Some k → in_use k → 0 <= i →
  bounded (<[i := add_refs 1 (view_of k)]> (replay ∅ (fs_served s))) →
  u16 (fc_lock_count k + 1) = fc_lock_count k + 1 ∧ is_u16 (fc_lock_count k + 1) ∧
  view_of (k <| fc_lock_count := fc_lock_count k + 1 |>) = add_refs 1 (view_of k) ∧
  (fc_real_public_key k = key → allows (replay ∅ (fs_served s)) (SNew key) i).
Proof.
  intros Ht Hk Hu Hi [Hb _]. pose proof (to_locks s Ht _ _ Hk) as Hl. specialize (Hb i _ (lookup_insert_eq _ _ _)).
  cbn [add_refs view_of k_refs] in Hb. unfold is_u16 in *. assert (fc_lock_count k + 1 < 65536) as Hlt by lia.
  repeat split; try lia; [by apply u16_small; lia|]. intros Hkey. left. exists (view_of k). split; [|done]. rewrite (to_view s Ht). apply conn_view_some. eauto 6.
Qed.

(** A call with the id of a connection, which is in use or not. *)
Lemma call_found s i c a k : conns_ok [] s → is_s32 i → small (fs_served s ++ [(c, a)]) → get_conn s i = Some k →
  table_ok s ∧ 0 <= i ∧ fs_conns s !! Z.to_nat i = Some k ∧ in_use k ∧ replay ∅ (fs_served s) !! i = Some (view_of k) ∧
  bounded (step (replay ∅ (fs_served s)) c a).
Proof.
  intros H Hi Hs E. destruct (before_call s _ _ H Hs) as [Ht Hb].
  destruct (get_conn_view s i Ht Hi) as [[? _]|(c' & Ec & Hpos & Hc & Hu & Hv)]; [congruence|]. assert (c' = k) as -> by congruence.
  by rewrite (to_view s Ht).
Qed.

Lemma call_missing s i c a : conns_ok [] s → is_s32 i → small (fs_served s ++ [(c, a)]) → get_conn s i = None →
  table_ok s ∧ replay ∅ (fs_served s) !! i = None.
Proof.
  intros H Hi Hs E. destruct (before_call s _ _ H Hs) as [Ht _]. split; [done|]. rewrite (to_view s Ht).
  by destruct (get_conn_view s i Ht Hi) as [[_ Hv]|(c' & Ec & _)]; [|congruence].
Qed.

Ltac run_call := unfold serve, mbind, M_bind, get; cbv beta iota.

Lemma ck_lock i : is_s32 i → keeps (conns_ok []) (friend_connection_lock i).
Proof.
  intros Hi s H. apply conns_nil. unfold friend_connection_lock. run_call. destruct (get_conn s i) as [c|] eqn:E; cbv beta iota; intros Hs.
  - change (small (fs_served s ++ [(SLock i, 0)])) in Hs. destruct (call_found s i _ _ c H Hi Hs E) as (Ht & Hpos & Hc & Hu & Hv & Hb).
    assert (step (replay ∅ (fs_served s)) (SLock i) 0 = <[i := add_refs 1 (view_of c)]> (replay ∅ (fs_served s))) as Est by (by apply alter_found).
    rewrite Est in Hb. destruct (one_more s i c [] Ht Hc Hu Hpos Hb) as (E1 & E2 & E3 & _).
    apply (table_update s _ i c (c <| fc_lock_count := fc_lock_count c + 1 |>) (SLock i) 0); try done.
    + cbn [modify on_conn snd set_field fs_conns]. by rewrite (conn_at_lookup s i c Hc), E1.
    + cbn [allows]. rewrite decide_True; [done|]. by rewrite Hv.
  - change (small (fs_served s ++ [(SLock i, -1)])) in Hs. destruct (call_missing s i _ _ H Hi Hs E) as [Ht Hv].
    apply (table_unchanged s _ (SLock i) (-1)); try done. cbn [allows]. rewrite decide_False; [done|]. rewrite Hv. by intros [].
Qed.

Lemma ck_callbacks i n cb : is_s32 i → is_u32 n → keeps (conns_ok []) (friend_connection_callbacks i n cb).
Proof.
  intros Hi Hn s H. apply conns_nil. unfold friend_connection_callbacks. run_call.
  assert (∀ s', get_conn s i ≠ None → good_callbacks n cb = false → fs_conns s' = fs_conns s → fs_served s' = fs_served s ++ [(SCallbacks i n cb, -1)] →
    small (fs_served s') → table_ok s') as Hbad.
  { intros s' Hg Hbad E1 E2 Hs. rewrite E2 in Hs. destruct (get_conn s i) as [c|] eqn:E; [|done].
    destruct (call_found s i _ _ c H Hi Hs E) as (Ht & Hpos & Hc & Hu & Hv & _).
    apply (table_unchanged s _ (SCallbacks i n cb) (-1)); try done. cbn [allows]. rewrite decide_True, Hbad; [done|]. by rewrite Hv. }
  assert (good_callbacks n cb = negb (MAX_FRIEND_CONNECTION_CALLBACKS <=? u32 n) && negb (cb_object cb && negb (cb_status cb && cb_data cb && cb_lossy_data cb))) as Eg.
  { unfold good_callbacks. rewrite u32_small by exact Hn. unfold is_u32 in Hn. replace (0 <=? n) with true by lia. rewrite Z.leb_antisym, negb_involutive.
    by destruct (n <? MAX_FRIEND_CONNECTION_CALLBACKS), (cb_object cb), (cb_status cb), (cb_data cb), (cb_lossy_data cb). }
  destruct (get_conn s i) as [c|] eqn:E; cbv beta iota.
  - destruct (MAX_FRIEND_CONNECTION_CALLBACKS <=? u32 n) eqn:E1; [intros Hs; by apply Hbad|].
    destruct (cb_object cb && _) eqn:E2; [intros Hs; by apply Hbad|]. intros Hs. change (small (fs_served s ++ [(SCallbacks i n cb, 0)])) in Hs.
    destruct (call_found s i _ _ c H Hi Hs E) as (Ht & Hpos & Hc & Hu & Hv & _).
    apply (table_update s _ i c (c <| fc_callbacks := aset (fc_callbacks c) n cb |>) (SCallbacks i n cb) 0); try done.
    + apply (to_locks s Ht (Z.to_nat i) c Hc).
    + cbn [modify on_conn snd set_field fs_conns]. by rewrite (conn_at_lookup s i c Hc).
    + cbn [allows]. rewrite decide_True, Eg; [done|]. by rewrite Hv.
    + exact (alter_found _ _ _ _ Hv).
  - intros Hs. change (small (fs_served s ++ [(SCallbacks i n cb, -1)])) in Hs. destruct (call_missing s i _ _ H Hi Hs E) as [Ht Hv].
    apply (table_unchanged s _ (SCallbacks i n cb) (-1)); try done. cbn [allows]. rewrite decide_False; [done|]. rewrite Hv. by intros [].
Qed.

(** *** Removing a connection *)

Lemma trim_conns_prefix l : ∃ n, trim_conns l = take n l ∧ ∀ a c, l !! a = Some c → in_use c → trim_conns l !! a = Some c.
Proof.
  induction l as [|c l (n & E & H)]; [by exists 0%nat|]. cbn [trim_conns]. destruct (trim_conns l) as [|d r] eqn:Er.
  - destruct (Z.eqb_spec (fc_status c) FRIENDCONN_STATUS_NONE) as [Hs|Hs].
    + exists 0%nat. split; [done|]. intros [|a] c' Ha Hu; [by injection Ha as ->|]. by specialize (H a c' Ha Hu).
    + exists 1%nat. split; [done|]. intros [|a] c' Ha Hu; [done|]. by specialize (H a c' Ha Hu).
  - exists (Datatypes.S n). split; [by rewrite firstn_cons, <- E|]. intros [|a] c' Ha Hu; [done|]. by apply (H a c').
Qed.

Lemma table_remove s s' i k : table_ok s → 0 <= i → fs_conns s !! Z.to_nat i = Some k → in_use k → fc_lock_count k = 0 →
  fs_conns s' = trim_conns (aset (fs_conns s) i empty_friend_conn) → fs_served s' = fs_served s ++ [(SKill i, 0)] → table_ok s'.
Proof.
  intros [A1 A2 A3 A4 A5 A6] Hi Hk Hu Hl E1 E2. destruct (trim_conns_prefix (aset (fs_conns s) i empty_friend_conn)) as (n & En & Hin). rewrite <- E1 in *.
  assert (replay ∅ (fs_served s) !! i = Some (view_of k)) as Ei by (rewrite A1; apply conn_view_some; eauto 6).
  assert (step (replay ∅ (fs_served s)) (SKill i) 0 = delete i (replay ∅ (fs_served s))) as Est.
  { cbn [step Z.eqb]. rewrite Ei. cbn [view_of k_refs]. by rewrite Hl. }
  assert (∀ a c, fs_conns s' !! a = Some c → (a ≠ Z.to_nat i ∧ fs_conns s !! a = Some c) ∨ c = empty_friend_conn) as Hlook.
  { intros a c Ha. rewrite En in Ha. apply lookup_take_Some in Ha as [Ha _]. apply lookup_aset in Ha as [(_ & -> & _)|?]; auto. }
  assert (∀ id, conn_view s' id = if decide (id = i) then None else conn_view s id) as E.
  { intros id. apply option_eq. intros x. rewrite conn_view_some. destruct (decide (id = i)) as [->|Hne].
    - split; [|done]. intros (_ & c & Hc & Huc & _). destruct (Hlook _ _ Hc) as [[? _]| ->]; done.
    - rewrite conn_view_some. split; intros (H0 & c & Hc & Huc & ->); (split; [done|]); exists c; split; try done.
      + by destruct (Hlook _ _ Hc) as [[_ ?]| ->].
      + apply Hin; [|done]. unfold aset. by rewrite list_lookup_insert_ne by lia. }
  split.
  - intros id. rewrite E2, replay_snoc, Est, E. destruct (decide (id = i)) as [->|Hne]; [apply lookup_delete_eq|]. rewrite lookup_delete_ne by done. apply A1.
  - rewrite E2. apply traced_snoc. split; [done|]. cbn [allows]. rewrite decide_True; [done|]. by rewrite Ei.
  - intros id id' x x'. rewrite !E. destruct (decide (id = i)), (decide (id' = i)); try done. apply A3.
  - intros a c Ha Hf. by destruct (Hlook _ _ Ha) as [[_ ?]| ->]; [apply (A4 a)|].
  - intros a c Ha. by destruct (Hlook _ _ Ha) as [[_ ?]| ->]; [apply (A5 a)|].
  - unfold num_cons, zlen in *. rewrite En, length_take, length_aset. lia.
Qed.

(** What [wipe_friend_conn] leaves, and that it succeeds. *)
Lemma wipe_result s i : friendconn_id_valid s i = true →
  (wipe_friend_conn i s).1 = 0 ∧ fs_conns (wipe_friend_conn i s).2 = trim_conns (aset (fs_conns s) i empty_friend_conn) ∧
  fs_served (wipe_friend_conn i s).2 = fs_served s.
Proof.
  intros Hv. unfold wipe_friend_conn. run_call. rewrite Hv. cbn [negb]. unfold on_conn, modify. cbv beta iota. cbn [set_field fs_conns]. cbv zeta.
  set (l := trim_conns (aset (fs_conns s) i empty_friend_conn)).
  destruct (negb _) eqn:E.
  - cbv beta iota. unfold realloc_friendconns, kask, mbind, M_bind. cbv beta iota zeta. destruct (zlen l =? 0); [done|].
    by destruct (_ =? 0).
  - split; [done|]. split; [|done]. cbn [snd mret M_ret fs_conns set_field]. apply negb_false_iff, Z.eqb_eq in E.
    unfold num_cons in E. cbn [set_field fs_conns] in E. destruct (trim_conns_prefix (aset (fs_conns s) i empty_friend_conn)) as (n & En & _).
    unfold l in *. rewrite En in *. symmetry. apply take_ge. unfold zlen in E. rewrite length_take in E. lia.
Qed.

Lemma kill_last s i k : get_conn s i = Some k → fs_conns s !! Z.to_nat i = Some k → in_use k → (0 <? fc_lock_count k) = false →
  fs_conns (kill_friend_connection i s).2 = trim_conns (aset (fs_conns s) i empty_friend_conn) ∧
  fs_served (kill_friend_connection i s).2 = fs_served s ++ [(SKill i, 0)].
Proof.
  intros E Hk Hu Hl. unfold kill_friend_connection. run_call. rewrite E. cbv beta iota. rewrite Hl.
  assert (∀ s3, fs_served s3 = fs_served s → num_cons s3 = num_cons s → (∃ k3, fs_conns s3 !! Z.to_nat i = Some k3 ∧ in_use k3) →
    aset (fs_conns s3) i empty_friend_conn = aset (fs_conns s) i empty_friend_conn →
    let '(x, s4) := wipe_friend_conn i s3 in
    x = 0 ∧ fs_conns s4 = trim_conns (aset (fs_conns s) i empty_friend_conn) ∧ fs_served s4 = fs_served s) as Hw.
  { intros s3 E3 En (k3 & Hk3 & Hu3) Ea. rewrite <- Ea, <- E3. destruct (wipe_result s3 i) as (W1 & W2 & W3).
    - unfold get_conn, friendconn_id_valid in *. rewrite En. destruct (u32 i <? num_cons s); [|done]. cbn [andb]. rewrite (conn_at_lookup s3 i k3 Hk3).
      unfold in_use in Hu3. by destruct (Z.eqb_spec (fc_status k3) FRIENDCONN_STATUS_NONE).
    - by destruct (wipe_friend_conn i s3). }
  unfold kask, on_conn, modify, mret, M_ret. cbv beta iota zeta. destruct (0 <? fc_dht_lock_token k); cbv beta iota.
  - lazymatch goal with |- context[wipe_friend_conn i ?s3] => specialize (Hw s3) end.
    destruct (wipe_friend_conn i _) as [x s4]. destruct Hw as (-> & W2 & W3); [done|by unfold num_cons; cbn [set_field fs_conns]; rewrite zlen_aset| | |].
    + cbn [set_field fs_conns]. exists (k <| fc_dht_lock_token := 0 |>). split; [|done]. unfold aset. rewrite list_lookup_insert_eq by (by apply lookup_lt_Some in Hk).
      unfold conn_at, aget. cbn [set_field fs_conns]. by rewrite Hk.
    + cbn [set_field fs_conns]. unfold aset. by rewrite list_insert_insert_eq.
    + cbn [snd mret M_ret set_field fs_conns fs_served]. by rewrite W2, W3.
  - lazymatch goal with |- context[wipe_friend_conn i ?s3] => specialize (Hw s3) end.
    destruct (wipe_friend_conn i _) as [x s4]. destruct Hw as (-> & W2 & W3); [done|done|by exists k|done|].
    cbn [snd mret M_ret set_field fs_conns fs_served]. by rewrite W2, W3.
Qed.

Lemma ck_kill i : is_s32 i → keeps (conns_ok []) (kill_friend_connection i).
Proof.
  intros Hi s H. apply conns_nil. destruct (get_conn s i) as [c|] eqn:E.
  - intros Hs. pose proof (get_conn_used _ _ _ E) as [_ Hc].
    destruct (Z.ltb_spec 0 (fc_lock_count c)) as [Hl|Hl].
    + revert Hs. unfold kill_friend_connection. run_call. rewrite E. cbv beta iota. replace (0 <? fc_lock_count c) with true by lia. intros Hs.
      change (small (fs_served s ++ [(SKill i, 0)])) in Hs. destruct (call_found s i _ _ c H Hi Hs E) as (Ht & Hpos & _ & Hu & Hv & _).
      pose proof (to_locks s Ht _ _ Hc) as Hl16. unfold is_u16 in Hl16. assert (u16 (fc_lock_count c - 1) = fc_lock_count c - 1) as El by (apply u16_small; lia).
      apply (table_update s _ i c (c <| fc_lock_count := fc_lock_count c - 1 |>) (SKill i) 0); try done.
      * unfold is_u16. cbn [set_field fc_lock_count]. lia.
      * cbn [modify on_conn snd set_field fs_conns]. by rewrite (conn_at_lookup s i c Hc), El.
      * cbn [allows]. rewrite decide_True; [done|]. by rewrite Hv.
      * cbn [step Z.eqb]. rewrite Hv. cbn [view_of k_refs]. destruct (Z.eqb_spec (fc_lock_count c + 1) 1); [lia|].
        f_equal. unfold add_refs, view_of. cbn [k_key k_refs k_callbacks set_field fc_real_public_key fc_lock_count fc_callbacks]. f_equal. lia.
    + assert (in_use c) as Hu by (destruct (get_conn_used _ _ _ E) as [(c' & Hc' & ?) _]; by assert (c' = c) as -> by congruence).
      destruct (kill_last s i c E Hc Hu) as [K1 K2]; [lia|]. rewrite K2 in Hs. destruct (call_found s i _ _ c H Hi Hs E) as (Ht & Hpos & _).
      pose proof (to_locks s Ht _ _ Hc) as Hl16. unfold is_u16 in Hl16. by apply (table_remove s _ i c); [..|lia| |].
  - unfold kill_friend_connection. run_call. rewrite E. intros Hs. change (small (fs_served s ++ [(SKill i, -1)])) in Hs.
    destruct (call_missing s i _ _ H Hi Hs E) as [Ht Hv].
    apply (table_unchanged s _ (SKill i) (-1)); try done. cbn [allows]. rewrite decide_False; [done|]. rewrite Hv. by intros [].
Qed.

(** *** Adding a connection *)

Lemma find_conn_spec l x key : 0 <= x →
  (find_conn l x key = -1 ∧ ∀ a c, l !! a = Some c → in_use c → fc_real_public_key c ≠ key) ∨
  ∃ a c, find_conn l x key = x + Z.of_nat a ∧ l !! a = Some c ∧ in_use c ∧ fc_real_public_key c = key.
Proof.
  revert x. induction l as [|c l IH]; intros x Hx; cbn [find_conn]; [by left|]. unfold pk_equal, bytes_eqb.
  destruct (Z.eqb_spec (fc_status c) FRIENDCONN_STATUS_NONE) as [Es|Es]; cbn [negb andb].
  2: destruct (bool_decide_reflect (fc_real_public_key c = key)) as [Ek|Ek]; [right; exists 0%nat, c; split; [lia|done]|].
  all: destruct (IH (x + 1) ltac:(lia)) as [[-> Hn]|(a & c' & -> & Ha & Hu & Hk)].
  all: first [left; split; [done|]; intros [|a] c' Ha Hu; [injection Ha as <-; done|by apply (Hn a)]
             |right; exists (Datatypes.S a), c'; split; [lia|done]].
Qed.

Lemma first_none_spec l x : 0 <= x →
  (first_none l x = None ∧ Forall in_use l) ∨ ∃ a c, first_none l x = Some (x + Z.of_nat a) ∧ l !! a = Some c ∧ ¬ in_use c.
Proof.
  revert x. induction l as [|c l IH]; intros x Hx; cbn [first_none]; [by left|]. unfold in_use at 2.
  destruct (Z.eqb_spec (fc_status c) FRIENDCONN_STATUS_NONE) as [Es|Es].
  - right. exists 0%nat, c. split; [f_equal; lia|]. by split; [|intros H; apply H].
  - destruct (IH (x + 1) ltac:(lia)) as [[-> Hn]|(a & c' & -> & Ha & Hu)].
    + left. split; [done|]. by apply list.Forall_cons.
    + right. exists (Datatypes.S a), c'. split; [f_equal; lia|done].
Qed.

(** A full table has no more entries than the map. *)
Lemma full_size s : table_ok s → Forall in_use (fs_conns s) → num_cons s <= Z.of_nat (size (replay ∅ (fs_served s))).
Proof.
  intros Ht Hall. rewrite <- size_dom. unfold num_cons, zlen.
  assert (NoDup (seqZ 0 (Z.of_nat (length (fs_conns s))))) as Hnd by apply NoDup_seqZ.
  apply Nat2Z.inj_le.
  replace (length (fs_conns s)) with (size (list_to_set (seqZ 0 (Z.of_nat (length (fs_conns s)))) : gset Z)) at 1
    by (rewrite size_list_to_set by done; rewrite length_seqZ; lia).
  apply subseteq_size. intros i Hi. apply elem_of_list_to_set, elem_of_seqZ in Hi. apply elem_of_dom. rewrite (to_view s Ht).
  destruct (lookup_lt_is_Some_2 (fs_conns s) (Z.to_nat i)) as [c Hc]; [lia|]. exists (view_of c). apply conn_view_some. split; [lia|]. exists c.
  split; [done|]. split; [|done]. by apply (Forall_lookup_1 _ _ _ _ Hall Hc).
Qed.

(** An empty entry at the end of the table. *)
Lemma table_grow s s' : table_ok s → num_cons s <= 65535 → fs_conns s' = fs_conns s ++ [empty_friend_conn] → fs_served s' = fs_served s → table_ok s'.
Proof.
  intros [A1 A2 A3 A4 A5 A6] Hn E1 E2.
  assert (∀ a c, fs_conns s' !! a = Some c → fs_conns s !! a = Some c ∨ c = empty_friend_conn) as Hlook.
  { intros a c Ha. rewrite E1 in Ha. apply lookup_app_Some in Ha as [Ha|[_ Ha]]; [by left|]. right. by apply list_lookup_singleton_Some in Ha as [_ <-]. }
  assert (∀ id, conn_view s' id = conn_view s id) as E.
  { intros id. apply option_eq. intros x. rewrite !conn_view_some. split; intros (H0 & c & Hc & Hu & ->); (split; [done|]); exists c; split; try done.
    - by destruct (Hlook _ _ Hc) as [?| ->].
    - rewrite E1. by apply lookup_app_l_Some. }
  split.
  - intros id. by rewrite E, E2.
  - by rewrite E2.
  - intros id id' k k'. rewrite !E. apply A3.
  - intros a c Ha Hf. by destruct (Hlook _ _ Ha) as [?| ->]; [apply (A4 a)|].
  - intros a c Ha. by destruct (Hlook _ _ Ha) as [?| ->]; [apply (A5 a)|].
  - unfold num_cons, zlen in *. rewrite E1, length_app. cbn [length]. lia.
Qed.

Lemma create_result s : table_ok s → bounded (replay ∅ (fs_served s)) →
  let '(i, s') := create_friend_conn s in
  fs_served s' = fs_served s ∧ table_ok s' ∧ (∀ id, conn_view s' id = conn_view s id) ∧
  (i = -1 ∨ 0 <= i ∧ fs_conns s' !! Z.to_nat i = Some empty_friend_conn).
Proof.
  intros Ht [_ Hb]. unfold create_friend_conn. run_call. destruct (first_none_spec (fs_conns s) 0 ltac:(lia)) as [[-> Hall]|(a & c & -> & Ha & Hf)].
  - unfold realloc_friendconns, kask, mbind, M_bind, modify. cbv beta iota zeta. destruct (_ =? 0); cbn [negb mret M_ret]; cbv beta iota.
    + split; [done|]. split; [|auto]. destruct Ht. by split.
    + pose proof (full_size s Ht Hall) as Hn. set (s1 := s <| fs_calls := _ |>).
      assert (table_ok (s1 <| fs_memory := Datatypes.S (fs_memory s1) |> <| fs_conns := fs_conns s ++ [empty_friend_conn] |>)) as Ht'.
      { apply (table_grow s); try done. lia. }
      split; [done|]. split; [exact Ht'|]. split.
      { intros id. etrans; [symmetry; apply (to_view _ Ht')|]. apply (to_view s Ht). }
      right. unfold num_cons, zlen. split; [lia|]. rewrite Nat2Z.id. cbn [set_field fs_conns]. by apply list_lookup_middle.
  - cbn [mret M_ret]. split; [done|]. split; [done|]. split; [done|]. right. split; [lia|]. rewrite (to_free s Ht a c Ha Hf) in Ha. by rewrite Z.add_0_l, Nat2Z.id.
Qed.

(** A free entry becomes the connection of a new key. *)
Lemma table_fresh s s' i key k : table_ok s → 0 <= i → fs_conns s !! Z.to_nat i = Some empty_friend_conn →
  (∀ id x, conn_view s id = Some x → k_key x ≠ key) →
  in_use k → view_of k = new_conn key → fs_conns s' = aset (fs_conns s) i k → fs_served s' = fs_served s ++ [(SNew key, i)] → table_ok s'.
Proof.
  intros [A1 A2 A3 A4 A5 A6] Hi Hc Hnew Hu Hk E1 E2.
  assert (conn_view s i = None) as Ei.
  { destruct (conn_view s i) as [x|] eqn:E; [|done]. apply conn_view_some in E as (_ & c & Hc' & Huc & _). assert (c = empty_friend_conn) as -> by congruence. done. }
  assert (∀ id, conn_view s' id = if decide (id = i) then Some (new_conn key) else conn_view s id) as E.
  { intros id. rewrite <- Hk, <- (view_aset s (fs_conns s') i empty_friend_conn k id) by done. done. }
  assert (step (replay ∅ (fs_served s)) (SNew key) i = <[i := new_conn key]> (replay ∅ (fs_served s))) as Est.
  { cbn [step]. destruct (Z.eqb_spec i (-1)); [lia|]. by rewrite A1, Ei. }
  injection Hk as Hk1 Hk2 Hk3. split.
  - intros id. rewrite E2, replay_snoc, Est, E. destruct (decide (id = i)) as [->|Hne]; [apply lookup_insert_eq|]. rewrite lookup_insert_ne by done. apply A1.
  - rewrite E2. apply traced_snoc. split; [done|]. right. split; [intros id x Hx; apply (Hnew id); by rewrite <- A1|]. right. by rewrite A1.
  - intros id id' x x'. rewrite !E. destruct (decide (id = i)) as [->|H1], (decide (id' = i)) as [->|H2]; try done.
    + intros [= <-] Hx Hkk. by destruct (Hnew id' x').
    + intros Hx [= <-] Hkk. by destruct (Hnew id x).
    + apply A3.
  - rewrite E1. intros j x Hx Hf. apply lookup_aset in Hx as [(-> & -> & _)|[_ Hx]]; [done|by apply (A4 j)].
  - rewrite E1. intros j x Hx. apply lookup_aset in Hx as [(-> & -> & _)|[_ Hx]]; [unfold is_u16; lia|by apply (A5 j)].
  - unfold num_cons. by rewrite E1, zlen_aset.
Qed.

Lemma serve_log c (m : FC Z) s : frame fs_served m → fs_served (serve c m s).2 = fs_served s ++ [(c, (serve c m s).1)].
Proof. intros Hm. specialize (Hm s). unfold serve, mbind, M_bind, modify. destruct (m s) as [a s1]. cbn in *. by rewrite Hm. Qed.

Lemma new_served key s : fs_served (new_friend_connection key s).2 = fs_served s ++ [(SNew key, (new_friend_connection key s).1)].
Proof.
  apply serve_log. apply frame_bind; [apply frame_get|]. intros s0. cbv zeta. destruct (negb _); [by apply frame_bind; [|intros; apply frame_ret]|].
  apply frame_bind.
  - unfold create_friend_conn, realloc_friendconns. apply frame_bind; [apply frame_get|]. intros s1. destruct (first_none _ _); [apply frame_ret|].
    apply frame_bind; [apply frame_bind; [done|]; intros ok; destruct (ok =? 0); [apply frame_ret|]; by apply frame_bind; [|intros; apply frame_ret]|].
    intros ok. destruct (negb ok); [apply frame_ret|]. by apply frame_bind; [|intros; apply frame_ret].
  - intros i. destruct (i =? -1); [apply frame_ret|]. apply frame_bind; [done|]. intros n. destruct (n =? -1); [apply frame_ret|].
    apply frame_bind; [done|]. intros _. apply frame_bind; [done|]. intros _. apply frame_ret.
Qed.

Lemma ck_new key : keeps (conns_ok []) (new_friend_connection key).
Proof.
  intros s H. apply conns_nil. intros Hs. pose proof (new_served key s) as Elog. pose proof Hs as Hs'. rewrite Elog in Hs.
  destruct (before_call s _ _ H Hs) as [Ht Hb]. pose proof (small_bounded _ (small_app _ _ Hs)) as Hb0. revert Elog Hb. clear Hs Hs'.
  unfold new_friend_connection. run_call. unfold getfriend_conn_id_pk.
  destruct (find_conn_spec (fs_conns s) 0 key ltac:(lia)) as [[-> Hno]|(a & c & -> & Ha & Hu & Hk)].
  - change (negb (-1 =? -1)) with false. cbv beta iota. pose proof (create_result s Ht Hb0) as Hc. destruct (create_friend_conn s) as [i s1].
    destruct Hc as (C1 & C2 & C3 & C4).
    assert (∀ id x, conn_view s1 id = Some x → k_key x ≠ key) as Hnew.
    { intros id x Hx. rewrite C3 in Hx. apply conn_view_some in Hx as (_ & c & Hc & Huc & ->). by apply (Hno (Z.to_nat id)). }
    assert (∀ s', fs_conns s' = fs_conns s1 → fs_served s' = fs_served s1 ++ [(SNew key, -1)] → table_ok s') as Hfail.
    { intros s' E1 E2. apply (table_unchanged s1 _ (SNew key) (-1)); try done. right. split; [|by left]. intros id x Hx. apply (Hnew id). by rewrite <- (to_view s1 C2). }
    destruct (Z.eqb_spec i (-1)) as [->|Hi]; [intros _ _; by apply Hfail|]. destruct C4 as [?|[Hpos Hfree]]; [done|].
    unfold kask. cbv beta iota zeta. destruct (_ =? -1); [intros _ _; by apply Hfail|]. intros _ _.
    set (n := fs_answer s1 (length (fs_calls s1))). set (s2 := s1 <| fs_calls := _ |>).
    set (g := λ c, c <| fc_crypt_connection_id := -1 |> <| fc_status := FRIENDCONN_STATUS_CONNECTING |> <| fc_real_public_key := key |> <| fc_onion_friendnum := n |>).
    assert (g (conn_at s2 i) = g empty_friend_conn) as Eg by (f_equal; exact (conn_at_lookup s2 i _ Hfree)).
    refine (table_fresh s1 _ i key (g empty_friend_conn) C2 Hpos Hfree Hnew _ _ _ _); [done|done| |done]. rewrite <- Eg. reflexivity.
  - assert (negb (0 + Z.of_nat a =? -1) = true) as -> by lia. rewrite Z.add_0_l. set (i := Z.of_nat a). intros _ Hb.
    change (bounded (step (replay ∅ (fs_served s)) (SNew key) i)) in Hb.
    assert (fs_conns s !! Z.to_nat i = Some c) as Hc by (unfold i; by rewrite Nat2Z.id). assert (0 <= i) as Hpos by (unfold i; lia).
    assert (replay ∅ (fs_served s) !! i = Some (view_of c)) as Hv by (rewrite (to_view s Ht); apply conn_view_some; eauto 6).
    assert (step (replay ∅ (fs_served s)) (SNew key) i = <[i := add_refs 1 (view_of c)]> (replay ∅ (fs_served s))) as Est.
    { cbn [step]. destruct (Z.eqb_spec i (-1)); [lia|]. by rewrite Hv. }
    rewrite Est in Hb. destruct (one_more s i c key Ht Hc Hu Hpos Hb) as (E1 & E2 & E3 & E4).
    apply (table_update s _ i c (c <| fc_lock_count := fc_lock_count c + 1 |>) (SNew key) i); try done; [|by apply E4].
    cbn [modify on_conn snd set_field fs_conns]. by rewrite (conn_at_lookup s i c Hc), E1.
Qed.

(** ** Runs *)

(** What happens to the connections: calls by the layers below, iterations, and
    calls by the layers above. *)
Inductive Conn_Op :=
  | FAccept (n_c : New_Connection)
  | FStatus (number : Z) (status : bool)
  | FPacket (number : Z) (packet : bytes)
  | FLossy (number : Z) (packet : bytes)
  | FDhtKey (number : Z) (dht_public_key : bytes)
  | FDhtAddress (number : Z) (ip_port : IP_Port)
  | FRelay (number : Z) (ip_port : IP_Port) (public_key : bytes)
  | FIterate (rounds : nat)
  | FTime (time : Mono_Time)
  | FNew (real_public_key : bytes)
  | FLock (friendcon_id : Z)
  | FKill (friendcon_id : Z)
  | FCallbacks (friendcon_id index : Z) (callbacks : Friend_Conn_Callbacks)
  | FSetDhtKey (friendcon_id : Z) (dht_temp_pk : bytes)
  | FRequest (friendcon_id nospam : Z) (data : bytes) (length : Z)
  | FGlobalStatus (callback : bool)
  | FRequestCallback (callback : bool).

Definition done_with {A} (m : FC A) : FC unit := m;; mret tt.

Definition run_conn (upper : Upper_Call → FC unit) (op : Conn_Op) : FC unit :=
  match op with
  | FAccept n_c => done_with (handle_new_connections n_c)
  | FStatus i b => done_with (handle_status upper i b)
  | FPacket i d => done_with (handle_packet upper i d)
  | FLossy i d => done_with (handle_lossy_packet upper i d)
  | FDhtKey i pk => dht_pk_callback upper i pk
  | FDhtAddress i ip => dht_ip_callback i ip
  | FRelay i ip pk => done_with (tcp_relay_node_callback i ip pk)
  | FIterate n => done_with (do_friend_connections upper n)
  | FTime t => modify (λ s, s <| fs_mono_time := t |>)
  | FNew key => done_with (new_friend_connection key)
  | FLock i => done_with (friend_connection_lock (s32 i))
  | FKill i => done_with (kill_friend_connection (s32 i))
  | FCallbacks i n cb => done_with (friend_connection_callbacks (s32 i) (u32 n) cb)
  | FSetDhtKey i pk => set_dht_temp_pk upper i pk
  | FRequest i n d l => done_with (send_friend_request_packet i n d l)
  | FGlobalStatus b => set_global_status_callback b
  | FRequestCallback b => set_friend_request_callback b
  end.

Definition run_conns (upper : Upper_Call → FC unit) (ops : list Conn_Op) (s : Friend_Connections) : Friend_Connections :=
  foldl (λ s op, (run_conn upper op s).2) s ops.

(** What the layers above do in a callback: they look at what has happened and call
    functions of the connections, until they return. *)
Inductive Reaction :=
  | RReturn
  | RLook (k : Friend_Connections → Reaction)
  | RNew (real_public_key : bytes) (k : Z → Reaction)
  | RLock (friendcon_id : Z) (k : Z → Reaction)
  | RKill (friendcon_id : Z) (k : Z → Reaction)
  | RCallbacks (friendcon_id index : Z) (callbacks : Friend_Conn_Callbacks) (k : Z → Reaction)
  | RRequest (friendcon_id nospam : Z) (data : bytes) (length : Z) (k : Z → Reaction).

Fixpoint react (r : Reaction) : FC unit :=
  match r with
  | RReturn => mret tt
  | RLook k => s ← get (λ s, s); react (k s)
  | RNew key k => a ← new_friend_connection key; react (k a)
  | RLock i k => a ← friend_connection_lock (s32 i); react (k a)
  | RKill i k => a ← kill_friend_connection (s32 i); react (k a)
  | RCallbacks i n cb k => a ← friend_connection_callbacks (s32 i) (u32 n) cb; react (k a)
  | RRequest i n d l k => a ← send_friend_request_packet (s32 i) n d l; react (k a)
  end.

Lemma s32_range i : is_s32 (s32 i).
Proof. unfold is_s32. wrap_lia. Qed.

Lemma ck_react r : keeps (conns_ok []) (react r).
Proof.
  induction r as [|k IH|key k IH|i k IH|i k IH|i n cb k IH|i n d l k IH]; cbn [react]; [apply mk_ret|..]; (apply mk_bind; [|intros a; apply IH]).
  - apply mk_get.
  - apply ck_new.
  - apply ck_lock, s32_range.
  - apply ck_kill, s32_range.
  - apply ck_callbacks; [apply s32_range|apply u32_range].
  - apply ck_request.
Qed.

Lemma ck_done {A} l (m : FC A) : keeps (conns_ok l) m → keeps (conns_ok l) (done_with m).
Proof. intros H. apply mk_bind; [done|]. intros _. apply mk_ret. Qed.

Lemma ck_op upper op : (∀ u, keeps (conns_ok []) (upper u)) → keeps (conns_ok []) (run_conn upper op).
Proof.
  intros Hu. destruct op; cbn [run_conn] in *; try apply ck_done.
  - apply ck_new_connections.
  - by apply ck_handle_status.
  - by apply ck_handle_packet.
  - by apply ck_lossy_packet.
  - by apply ck_dht_pk.
  - apply ck_dht_ip.
  - apply ck_relay_node.
  - by apply ck_do_connections.
  - by apply ck_modify.
  - apply ck_new.
  - apply ck_lock, s32_range.
  - apply ck_kill, s32_range.
  - apply ck_callbacks; [apply s32_range|apply u32_range].
  - by apply ck_dht_pk.
  - apply ck_request.
  - by apply ck_modify.
  - apply ck_set_request.
Qed.

Lemma start_ok t lan udp answer relays : conns_ok [] (new_friend_connections t lan udp answer relays).
Proof.
  apply conns_nil. intros _. split; try done.
  - intros id. unfold conn_view. cbn. by destruct (id <? 0).
  - intros id id' k k' H. apply conn_view_some in H as (_ & c & Hc & _). done.
Qed.

Lemma runs_ok reaction ops t lan udp answer relays :
  conns_ok [] (run_conns (λ u, react (reaction u)) ops (new_friend_connections t lan udp answer relays)).
Proof.
  generalize (start_ok t lan udp answer relays). generalize (new_friend_connections t lan udp answer relays).
  induction ops as [|op ops IH]; intros s Hs; [done|]. apply IH. apply ck_op; [|done]. intros u. apply ck_react.
Qed.

(** C10: The table of friend connections implements reference counting by key.  Take
    any operations of the connections, calls by the layers below, iterations and
    calls by the layers above among them, also those made from callbacks; let no
    connection ever have more than 65536 references, and let no callback have
    moved or freed the table while the caller of it kept a pointer into it and
    used it again (the flag [fs_dangling], which nothing resets).  Then the results of the
    calls that add, lock, remove and set callbacks are those of a map from ids to
    keys in which a key has one connection, a connection stays until it has been
    given back as often as it was taken, and a new one starts without callbacks;
    and the table is that map. *)
Theorem connections_refine reaction ops t lan udp answer relays :
  let s := run_conns (λ u, react (reaction u)) ops (new_friend_connections t lan udp answer relays) in
  small (fs_served s) → fs_dangling s = false →
  honest (fs_served s) ∧ (∀ id, conn_view s id = replay ∅ (fs_served s) !! id) ∧
  ∀ key, getfriend_conn_id_pk s key = -1 ↔ ∀ id k, replay ∅ (fs_served s) !! id = Some k → k_key k ≠ key.
Proof.
  intros s Hs _. destruct (runs_ok reaction ops t lan udp answer relays Hs) as [Ht _]. split; [apply Ht|]. split; [intros id; by rewrite (to_view _ Ht)|].
  intros key. split.
  - intros E id k Hk. rewrite (to_view _ Ht) in Hk. apply conn_view_some in Hk as (_ & c & Hc & Hu & ->).
    destruct (find_conn_spec (fs_conns s) 0 key ltac:(lia)) as [[_ Hn]|(a & c' & E' & _)]; [by apply (Hn (Z.to_nat id))|]. unfold getfriend_conn_id_pk in E. lia.
  - intros H. destruct (find_conn_spec (fs_conns s) 0 key ltac:(lia)) as [[E _]|(a & c' & _ & Ha & Hu & Hk)]; [done|].
    destruct (H (Z.of_nat a) (view_of c')); [|done]. rewrite (to_view _ Ht). apply conn_view_some. split; [lia|]. exists c'. by rewrite Nat2Z.id.
Qed.

(** A connection that is taken twice, callbacks, and a layer above that gives a
    connection back when it goes offline. *)
Definition demo_reaction (u : Upper_Call) : Reaction :=
  match u with UStatus _ id false => RKill id (λ _, RReturn) | _ => RReturn end.
Definition demo_conn_ops : list Conn_Op :=
  [FNew (replicate 32 1); FNew (replicate 32 2); FNew (replicate 32 4); FNew (replicate 32 1); FCallbacks 1 0 (mkCallbacks true true true true 1); FLock 5;
   FStatus 1 true; FPacket 1 [64; 7]; FStatus 1 false; FKill 0; FNew (replicate 32 3)].

Lemma connections_refine_witness :
  let s := run_conns (λ u, react (demo_reaction u)) demo_conn_ops (new_friend_connections (mkMonoTime 1000 0) false false (λ _, 9) (λ _, [])) in
  (honest (fs_served s) ∧ (∀ id, conn_view s id = replay ∅ (fs_served s) !! id) ∧
   ∀ key, getfriend_conn_id_pk s key = -1 ↔ ∀ id k, replay ∅ (fs_served s) !! id = Some k → k_key k ≠ key)
  ∧ map snd (fs_served s) = [0; 1; 2; 0; 0; -1; 0; 0; 1] ∧ fs_dangling s = false ∧ conn_view s 0 = Some (new_conn (replicate 32 1)) ∧ conn_view s 1 = Some (new_conn (replicate 32 3)).
Proof.
  split; [|vm_compute; split_and!; reflexivity].
  apply (connections_refine demo_reaction demo_conn_ops (mkMonoTime 1000 0) false false (λ _, 9) (λ _, [])).
  - apply smallb_ok. vm_compute. reflexivity.
  - vm_compute. reflexivity.
Defined.
