(* ===== verification/ConnRuns.v ===== *)
(** * ConnRuns: iterations of the friend connections, and what goes wrong

    The loop over the connections ends, a friend that is silent goes offline, and
    LAN discovery goes round the ports.  Then two defects: a callback that removes
    a friend leaves a pointer into freed memory, and a friend request that cannot be
    written counts as sent. *)
From S2P Require Import Prelude Util MonoTime CryptoCore Network World LanDiscovery FriendRequests DhtPackets DhtLists FriendConnection ConnSpec ConnTable Steps.

(** ** The loop ends *)

Section loop.
Context (upper : Upper_Call → FC unit) (n : Z).
Hypothesis (Hupper : ∀ u, keeps (λ s, num_cons s <= n) (upper u)).

Definition few (s : Friend_Connections) : Prop := num_cons s <= n.

Lemma few_same s s' : few s → fs_conns s' = fs_conns s → few s'.
Proof using. unfold few, num_cons. by intros H ->. Qed.
Lemma few_ask c : keeps few (kask c).
Proof using. intros s Hs. by apply (few_same s). Qed.
Lemma few_relays i : keeps few (kask_relays i).
Proof using. intros s Hs. by apply (few_same s). Qed.
Lemma few_pointer k : keeps few (use_pointer k).
Proof using. intros s Hs. unfold use_pointer, modify. cbn [snd]. by destruct (_ =? _)%nat; [|apply (few_same s)]. Qed.
Lemma few_conn i g : keeps few (on_conn i g).
Proof using. intros s Hs. unfold few, num_cons in *. cbn [on_conn modify snd set_field fs_conns]. by rewrite zlen_aset. Qed.
Lemma few_upper u : keeps few (call_upper upper u).
Proof using Hupper. apply mk_bind; [by apply mk_modify|]. intros _. apply Hupper. Qed.

Create HintDb few.
#[local] Hint Resolve few_ask few_relays few_pointer few_conn few_upper : few.
Ltac few_step :=
  first
    [ solve [eauto 2 with few]
    | lazymatch goal with
      | |- keeps _ (the_conn _) => apply mk_get
      | |- keeps _ fc_time => apply mk_get
      | |- keeps _ the_memory => apply mk_get
      | |- keeps _ (for_each _ _) => apply mk_each; intros ? ?
      | |- keeps _ (match ?x with _ => _ end) => destruct x eqn:?
      end
    | progress intros ].
Ltac few_steps := steps_with ltac:(few_step).

Lemma few_add_relay i ip pk : keeps few (friend_add_tcp_relay i ip pk).
Proof using. unfold friend_add_tcp_relay. few_steps. Qed.
Lemma few_relays_loop k c i x : keeps few (connect_relays_loop k c i x).
Proof using. revert i x. induction k as [|k IH]; intros i x; cbn [connect_relays_loop]; few_steps. Qed.
#[local] Hint Resolve few_add_relay few_relays_loop : few.
Lemma few_new i : keeps few (friend_new_connection i).
Proof using. unfold friend_new_connection. few_steps. Qed.
Lemma few_saved i k : keeps few (connect_to_saved_tcp_relays i k).
Proof using. unfold connect_to_saved_tcp_relays. few_steps. Qed.
Lemma few_send_relays i : keeps few (send_relays i).
Proof using. unfold send_relays. few_steps. Qed.
Lemma few_ping i : keeps few (send_ping i).
Proof using. unfold send_ping. few_steps. Qed.
Lemma few_status i b : keeps few (handle_status upper i b).
Proof using Hupper. unfold handle_status, status_change, tell_status. few_steps. Qed.
#[local] Hint Resolve few_new few_saved few_send_relays few_ping few_status : few.
Lemma few_connection i t : keeps few (do_friend_connection upper i t).
Proof using Hupper. unfold do_friend_connection. few_steps. Qed.

(** The loop of [do_friend_connections] ends when the layers above do not go on
    adding connections: as many rounds as there can be connections are enough. *)
Lemma iteration_ends rounds i t s : 0 <= i → n - i <= Z.of_nat rounds → num_cons s <= n → (do_conns_loop upper rounds i t s).1 = true.
Proof using Hupper.
  revert i s. induction rounds as [|k IH]; intros i s Hi Hk Hs; cbn [do_conns_loop]; unfold mbind, M_bind, get; cbv beta iota.
  - destruct (Z.leb_spec (num_cons s) i); [done|lia].
  - destruct (Z.leb_spec (num_cons s) i); [done|]. pose proof (few_connection i t s Hs) as Hf. destruct (do_friend_connection upper i t s) as [x s'].
    apply IH; [lia|lia|exact Hf].
Qed.
End loop.

(** ** LAN discovery *)

(** The ports of a round that starts with [first], and where the next one starts. *)
Definition lan_last (first : Z) : Z := let last := u16 (first + PORTS_PER_DISCOVERY) in if TOX_PORTRANGE_TO <? last then TOX_PORTRANGE_TO else last.
Definition lan_block (first : Z) : list Z := TOX_PORT_DEFAULT :: seqZ first (lan_last first - first).
Definition lan_next (first : Z) : Z := if lan_last first =? TOX_PORTRANGE_TO then TOX_PORTRANGE_FROM + 1 else lan_last first.

Fixpoint lan_blocks (n : nat) (first : Z) : list (list Z) :=
  match n with
  | O => []
  | S n' => lan_block first :: lan_blocks n' (lan_next first)
  end.

(** LAN discovery at the times [ts]. *)
Definition lan_rounds (ts : list Mono_Time) (s : Friend_Connections) : Friend_Connections :=
  foldl (λ s t, (lan_discovery (s <| fs_mono_time := t |>)).2) s ts.

(** Each of the times is more than the interval after the one before. *)
Fixpoint spaced (last : Z) (ts : list Mono_Time) : Prop :=
  match ts with
  | [] => True
  | t :: ts' => u64 (last + LAN_DISCOVERY_INTERVAL) < mono_time_get t ∧ spaced (mono_time_get t) ts'
  end.

Lemma each_calls (l : list Z) (g : Z → Conn_Call) s : let s' := (for_each l (λ p, kask (g p);; mret tt) s).2 in
  map fst (fs_calls s') = map fst (fs_calls s) ++ map g l ∧ fs_next_lan_port s' = fs_next_lan_port s ∧
  fs_mono_time s' = fs_mono_time s ∧ fs_last_lan_discovery s' = fs_last_lan_discovery s.
Proof.
  set (f := λ p, kask (g p);; mret tt). revert s. induction l as [|p l IH]; intros s; [by cbn; rewrite app_nil_r|].
  set (s1 := s <| fs_calls := fs_calls s ++ [(g p, fs_answer s (length (fs_calls s)))] |>). change (for_each (p :: l) f s) with (for_each l f s1). cbv zeta. destruct (IH s1) as (-> & -> & -> & ->). split; [|done]. unfold s1. cbn [set_field fs_calls]. by rewrite map_app, <- app_assoc.
Qed.

Lemma lan_round s : u64 (fs_last_lan_discovery s + LAN_DISCOVERY_INTERVAL) < mono_time_get (fs_mono_time s) →
  let s' := (lan_discovery s).2 in
  map fst (fs_calls s') = map fst (fs_calls s) ++ map (λ p, KLan (net_htons p)) (lan_block (fs_next_lan_port s)) ∧
  fs_next_lan_port s' = lan_next (fs_next_lan_port s) ∧ fs_last_lan_discovery s' = mono_time_get (fs_mono_time s).
Proof.
  intros Hdue. apply Z.ltb_lt in Hdue. set (first := fs_next_lan_port s). set (f := λ p, kask (KLan (net_htons p));; mret tt).
  set (s1 := (kask (KLan (net_htons TOX_PORT_DEFAULT)) s).2). set (s2 := (for_each (seqZ first (lan_last first - first)) f s1).2).
  assert ((lan_discovery s).2 = s2 <| fs_next_lan_port := lan_next first |> <| fs_last_lan_discovery := mono_time_get (fs_mono_time s2) |>) as ->.
  { unfold lan_discovery, mbind, M_bind, get. cbv beta iota. rewrite Hdue. unfold s2, f, s1, mbind, M_bind, kask at 1. cbv beta iota zeta. cbn [snd].
    fold first. fold (lan_last first). by destruct (for_each _ _ _). }
  destruct (each_calls (seqZ first (lan_last first - first)) (λ p, KLan (net_htons p)) s1) as (E1 & E2 & E3 & E4). fold f in E1, E3. fold s2 in E1, E3.
  cbn [set_field fs_calls fs_next_lan_port fs_last_lan_discovery]. rewrite E1, E3. split; [|done]. unfold s1. cbn [kask snd set_field fs_calls].
  by rewrite map_app, <- app_assoc.
Qed.

Lemma lan_round_at s t : u64 (fs_last_lan_discovery s + LAN_DISCOVERY_INTERVAL) < mono_time_get t →
  let s' := (lan_discovery (s <| fs_mono_time := t |>)).2 in
  map fst (fs_calls s') = map fst (fs_calls s) ++ map (λ p, KLan (net_htons p)) (lan_block (fs_next_lan_port s)) ∧
  fs_next_lan_port s' = lan_next (fs_next_lan_port s) ∧ fs_last_lan_discovery s' = mono_time_get t.
Proof.
  intros H. assert (fs_last_lan_discovery (s <| fs_mono_time := t |>) = fs_last_lan_discovery s) as E by reflexivity. rewrite <- E in H.
  exact (lan_round (s <| fs_mono_time := t |>) H).
Qed.

Lemma lan_rounds_calls ts s : spaced (fs_last_lan_discovery s) ts →
  map fst (fs_calls (lan_rounds ts s)) = map fst (fs_calls s) ++ map (λ p, KLan (net_htons p)) (concat (lan_blocks (length ts) (fs_next_lan_port s))).
Proof.
  revert s. induction ts as [|t ts IH]; intros s H; [by cbn; rewrite app_nil_r|]. destruct H as [H1 H2]. destruct (lan_round_at s t H1) as (E1 & E2 & E3).
  set (s1 := (lan_discovery (s <| fs_mono_time := t |>)).2) in *. change (lan_rounds (t :: ts) s) with (lan_rounds ts s1).
  rewrite IH by (by rewrite E3). rewrite E1, E2. cbn [length lan_blocks concat]. by rewrite map_app, app_assoc.
Qed.

(** LAN discovery goes round the ports.  Ten rounds, each more than ten seconds
    after the last, ask at the default port every time, and once at each of the
    ports from 33446 to 33544; port 33545 is in the range peers choose their port
    from, and is never asked at. *)
Theorem lan_discovery_goes_round ts s : length ts = 10%nat → spaced (fs_last_lan_discovery s) ts → fs_next_lan_port s = TOX_PORTRANGE_FROM + 1 →
  map fst (fs_calls (lan_rounds ts s)) = map fst (fs_calls s) ++ map (λ p, KLan (net_htons p)) (concat (lan_blocks 10 (TOX_PORTRANGE_FROM + 1))) ∧
  filter (λ p, p ≠ TOX_PORT_DEFAULT) (concat (lan_blocks 10 (TOX_PORTRANGE_FROM + 1))) = seqZ 33446 99 ∧
  TOX_PORTRANGE_TO ∉ concat (lan_blocks 10 (TOX_PORTRANGE_FROM + 1)) ∧ Nat.iter 10 lan_next (TOX_PORTRANGE_FROM + 1) = TOX_PORTRANGE_FROM + 1.
Proof.
  intros Hl Hs Hn. split; [rewrite (lan_rounds_calls ts s Hs), Hl, Hn; done|]. split; [vm_compute; reflexivity|]. split; [|vm_compute; reflexivity].
  apply (bool_decide_unpack _). vm_compute. exact I.
Qed.

(** ** A callback that removes the friend *)

Lemma only_conn s c : fs_conns s = [c] → in_use c → friendconn_id_valid s 0 = true ∧ get_conn s 0 = Some c ∧ conn_at s 0 = c.
Proof.
  intros Hc Hu. assert (conn_at s 0 = c) as E by (apply conn_at_lookup; by rewrite Hc). unfold get_conn, friendconn_id_valid, num_cons. rewrite E, Hc.
  assert (fc_status c =? FRIENDCONN_STATUS_NONE = false) as -> by (by apply Z.eqb_neq). done.
Qed.

(** The only connection is removed: the table is freed. *)
Lemma wipe_only s c : fs_conns s = [c] → in_use c → fs_memory (wipe_friend_conn 0 s).2 = S (fs_memory s).
Proof.
  intros Hc Hu. destruct (only_conn s c Hc Hu) as (Hv & _ & _). unfold wipe_friend_conn, mbind, M_bind, get. cbv beta iota. rewrite Hv. cbn [negb].
  unfold on_conn, modify, num_cons. cbv beta iota. cbn [set_field fs_conns]. rewrite Hc. change (aset [c] 0 empty_friend_conn) with [empty_friend_conn].
  change (trim_conns [empty_friend_conn]) with ([] : list Friend_Conn). done.
Qed.

Lemma kill_only s c : fs_conns s = [c] → in_use c → fc_lock_count c = 0 →
  let s' := (kill_friend_connection 0 s).2 in fs_conns s' = [] ∧ fs_memory s' = S (fs_memory s).
Proof.
  intros Hc Hu Hl. destruct (only_conn s c Hc Hu) as (Hv & Hg & Ha).
  cbv zeta. split; [destruct (kill_last s 0 c Hg) as [-> _]; [by rewrite Hc|done|by rewrite Hl|by rewrite Hc]|].
  unfold kill_friend_connection, serve, mbind, M_bind, get. cbv beta iota. rewrite Hg. cbv beta iota. rewrite Hl. change (0 <? 0) with false.
  unfold kask, on_conn, modify, mret, M_ret. cbv beta iota zeta.
  destruct (0 <? fc_dht_lock_token c); cbv beta iota; lazymatch goal with |- context[wipe_friend_conn 0 ?s3] => pose proof (wipe_only s3) as Hw end;
    destruct (wipe_friend_conn 0 _) as [x s4]; cbn [snd set_field fs_memory fs_conns] in *.
  - eapply Hw; [by rewrite Hc|]. exact Hu.
  - by apply (Hw c).
Qed.

Lemma on_only g s c : fs_conns s = [c] → fs_conns (on_conn 0 g s).2 = [g c] ∧ fs_memory (on_conn 0 g s).2 = fs_memory s.
Proof. intros Hc. cbn [on_conn modify snd set_field fs_conns fs_memory]. unfold conn_at. by rewrite Hc. Qed.

(** C37: Removing a friend from a callback for its status leaves a dangling pointer.
    When the only friend goes offline and the layer that is told of it removes it,
    the table of connections is freed, and [handle_status] goes on to read the
    callbacks of the connection through the pointer it has. *)
Theorem status_callback_use_after_free reaction s c :
  fs_conns s = [c] → fc_status c = FRIENDCONN_STATUS_CONNECTED → fc_lock_count c = 0 → fs_global_status_callback s = false →
  cb_status (callbacks_at c 0) = true → reaction (UStatus 0 (cb_id (callbacks_at c 0)) false) = RKill 0 (λ _, RReturn) →
  let s' := (handle_status (λ u, react (reaction u)) 0 false s).2 in fs_conns s' = [] ∧ fs_dangling s' = true.
Proof.
  intros Hc Hst Hl Hgl Hcb Hr. assert (in_use c) as Hu by (unfold in_use; by rewrite Hst). destruct (only_conn s c Hc Hu) as (_ & Hg & Ha).
  set (upper := λ u, react (reaction u)).
  assert (∃ s1 c1, status_change c 0 false s = (true, s1) ∧ fs_conns s1 = [c1] ∧ in_use c1 ∧ fc_lock_count c1 = 0 ∧ callbacks_at c1 0 = callbacks_at c 0 ∧
    fs_memory s1 = fs_memory s) as (s1 & c1 & E1 & Hc1 & Hu1 & Hl1 & Hcb1 & Hm1).
  { set (g1 := λ c, c <| fc_dht_pk_lastrecv := mono_time_get (fs_mono_time s) |>).
    set (g2 := λ c, c <| fc_status := FRIENDCONN_STATUS_CONNECTING |> <| fc_crypt_connection_id := -1 |> <| fc_hosting_tcp_relay := false |>).
    destruct (on_only g1 s c Hc) as [A1 A2]. set (sa := (on_conn 0 g1 s).2) in *. set (sb := (kask (KOnionOnline (fc_onion_friendnum c) false) sa).2).
    destruct (on_only g2 sb (g1 c) A1) as [B1 B2]. exists (on_conn 0 g2 sb).2, (g2 (g1 c)). split.
    - unfold status_change, fc_time, mbind, M_bind, get. cbv beta iota zeta. by rewrite Hst.
    - split; [done|]. split; [done|]. split; [done|]. split; [done|]. by rewrite B2. }
  destruct (only_conn s1 c1 Hc1 Hu1) as (_ & _ & Ha1). set (s2 := s1 <| fs_events := fs_events s1 ++ [UStatus 0 (cb_id (callbacks_at c 0)) false] |>).
  destruct (kill_only s2 c1 Hc1 Hu1 Hl1) as [K1 K2]. set (s3 := (kill_friend_connection 0 s2).2) in *.
  assert (call_upper upper (UStatus 0 (cb_id (callbacks_at c 0)) false) s1 = (tt, s3)) as E2.
  { unfold call_upper, upper. unfold mbind, M_bind, modify. cbv beta iota. rewrite Hr. cbn [react]. unfold mbind, M_bind. change (s32 0) with 0. unfold s3, s2.
    by destruct (kill_friend_connection 0 _). }
  assert (use_pointer (fs_memory s) s1 = (tt, s1)) as E3 by (unfold use_pointer, modify; by rewrite Hm1, Nat.eqb_refl).
  assert (use_pointer (fs_memory s) s3 = (tt, s3 <| fs_dangling := true |>)) as E4.
  { unfold use_pointer, modify. rewrite K2. change (fs_memory s2) with (fs_memory s1). rewrite Hm1. by assert (S (fs_memory s) =? fs_memory s = false)%nat as -> by (apply Nat.eqb_neq; lia). }
  assert ((handle_status upper 0 false s).2 = s3 <| fs_dangling := true |>) as ->; [|done].
  unfold handle_status, the_memory. unfold mbind at 1, M_bind at 1, get at 1. cbv beta iota. rewrite Hg. unfold mbind, M_bind, get at 1. cbv beta iota. rewrite E1, Hgl.
  unfold mret at 1, M_ret at 1, tell_status. change callback_indices with [0; 1]. cbn [for_each]. unfold mbind, M_bind. rewrite E3. unfold the_conn, get. cbv beta iota.
  rewrite Ha1, Hcb1, Hcb, E2, E4. cbv beta iota. assert (conn_at (s3 <| fs_dangling := true |>) 0 = empty_friend_conn) as -> by (unfold conn_at, aget; cbn [set_field fs_conns]; by rewrite K1).
  done.
Qed.

(** A friend with the messenger's callbacks that is online, and a client that
    removes friends when they go offline. *)
Definition online_conns : Friend_Connections :=
  run_conns (λ u, react (demo_reaction u)) [FNew (replicate 32 1); FCallbacks 0 0 (mkCallbacks true true true true 0); FStatus 0 true]
    (new_friend_connections (mkMonoTime 1000 0) false false (λ _, 9) (λ _, [])).

Lemma status_callback_use_after_free_witness :
  let s' := (handle_status (λ u, react (demo_reaction u)) 0 false online_conns).2 in fs_conns s' = [] ∧ fs_dangling s' = true.
Proof. apply (status_callback_use_after_free demo_reaction online_conns (conn_at online_conns 0)); vm_compute; reflexivity. Defined.

(** ** Friend requests *)

(** A request for a friend that is online is written to the connection.  The result
    is 1 when it was written and 0 when it was not, although 0 is to say that it
    was sent directly, and -1 that it failed. *)
Theorem failed_request_counts_as_sent s i c nospam data len :
  get_conn s i = Some c → fc_status c = FRIENDCONN_STATUS_CONNECTED → 0 < len → 1 + 4 + len <= ONION_CLIENT_MAX_DATA_SIZE →
  (send_friend_request_packet i nospam data len s).1 = if fs_answer s (length (fs_calls s)) =? -1 then 0 else 1.
Proof.
  intros Hg Hst Hl Hmax. unfold send_friend_request_packet. destruct (Z.ltb_spec ONION_CLIENT_MAX_DATA_SIZE (1 + 4 + len)); [lia|].
  destruct (Z.eqb_spec len 0); [lia|]. cbn [orb]. unfold mbind, M_bind, get. cbv beta iota. by rewrite Hg, Hst.
Qed.
