(* ===== verification/Messenger.v ===== *)
(** * Messenger: friends and messages, [toxcore/Messenger.c]

    The friend list, what friends know of each other, messages with their
    receipts.  The messenger works on the friend connections; a call of them, or
    of [net_crypto] for the connection of a friend, is an entry of a log, and its
    answer is whatever the lower layer says.  A call of a callback of the client
    is an event. *)
From S2P Require Import Prelude Util MonoTime CryptoCore Network World FriendRequests CryptoConnection NetCrypto FriendConnection.

(** ** Definitions *)

Definition MAX_NAME_LENGTH : Z := 128.
Definition MAX_STATUSMESSAGE_LENGTH : Z := 1007.
Definition MAX_CONCURRENT_FILE_PIPES : Z := 256.
Definition FRIEND_ADDRESS_SIZE : Z := CRYPTO_PUBLIC_KEY_SIZE + 4 + 2.
Definition MAX_FRIEND_REQUEST_DATA_SIZE : Z := ONION_CLIENT_MAX_DATA_SIZE - (1 + 4).
Definition FRIENDREQUEST_TIMEOUT : Z := 5.
Definition FILE_ID_LENGTH : Z := 32.
Definition FILE_OFFSET_LENGTH : Z := 8.
Definition MAX_FILENAME_LENGTH : Z := 255.
Definition TOX_CAPABILITIES_SIZE : Z := 8.
Definition TOX_CAPABILITY_BASIC : Z := 0.
(** Capabilities, H.264 and H.265: bits 0, 2 and 5. *)
Definition TOX_CAPABILITIES_CURRENT : Z := 37.

Definition MESSAGE_HIGH_LEVEL_ACK : Z := 2.

Definition NOFRIEND : Z := 0.
Definition FRIEND_ADDED : Z := 1.
Definition FRIEND_REQUESTED : Z := 2.
Definition FRIEND_CONFIRMED : Z := 3.
Definition FRIEND_ONLINE : Z := 4.

Definition FAERR_TOOLONG : Z := -1.
Definition FAERR_NOMESSAGE : Z := -2.
Definition FAERR_OWNKEY : Z := -3.
Definition FAERR_ALREADYSENT : Z := -4.
Definition FAERR_BADCHECKSUM : Z := -6.
Definition FAERR_SETNEWNOSPAM : Z := -7.
Definition FAERR_NOMEM : Z := -8.

Definition CONNECTION_NONE : Z := 0.
Definition CONNECTION_TCP : Z := 1.
Definition CONNECTION_UDP : Z := 2.

Definition USERSTATUS_NONE : Z := 0.
Definition USERSTATUS_INVALID : Z := 3.

Definition PACKET_ID_ONLINE : Z := 24.
Definition PACKET_ID_OFFLINE : Z := 25.
Definition PACKET_ID_NICKNAME : Z := 48.
Definition PACKET_ID_STATUSMESSAGE : Z := 49.
Definition PACKET_ID_USERSTATUS : Z := 50.
Definition PACKET_ID_TYPING : Z := 51.
Definition PACKET_ID_MESSAGE : Z := 64.
Definition PACKET_ID_ACTION : Z := 65.
Definition PACKET_ID_HIGH_LEVEL_ACK : Z := 66.
Definition PACKET_ID_INVITE_GROUPCHAT : Z := 95.
Definition PACKET_ID_INVITE_CONFERENCE : Z := 96.

(** *** Data *)

Record File_Transfers := mkFT {
  ft_size : Z;
  ft_transferred : Z;
  ft_status : Z;
  ft_paused : Z;
  ft_last_packet_number : Z;
  ft_requested : Z;
  ft_id : bytes;
  ft_type : Z;
  ft_received_seek_control : bool;
  ft_seek_counter : Z;        (** [received_seek_control_counter] *)
  ft_receiver_idle : Z;       (** [file_receiver_last_received_chunk_this_many_iterations_ago] *)
  ft_sender_idle : Z;         (** [file_sender_started_this_many_iterations_ago] *)
  ft_send_ackd : bool;
  ft_filename : bytes;
  ft_filename_length : Z
}.

(** [f_receipts] is the list from [receipts_start] to [receipts_end], each with
    [packet_num] and [msg_id]. *)
Record Friend := mkFriend {
  f_real_pk : bytes;
  f_friendcon_id : Z;
  f_friendrequest_lastsent : Z;
  f_friendrequest_timeout : Z;
  f_status : Z;
  f_info : bytes;
  f_name : bytes;
  f_name_length : Z;
  f_name_sent : bool;
  f_statusmessage : bytes;
  f_statusmessage_length : Z;
  f_statusmessage_sent : bool;
  f_userstatus : Z;
  f_userstatus_sent : bool;
  f_user_istyping : bool;
  f_user_istyping_sent : bool;
  f_is_typing : bool;
  f_info_size : Z;
  f_message_id : Z;
  f_friendrequest_nospam : Z;
  f_last_seen_time : Z;
  f_last_connection_udp_tcp : Z;
  f_file_sending : list File_Transfers;
  f_num_sending_files : Z;
  f_num_receiving_files : Z;
  f_file_receiving : list File_Transfers;
  f_receipts : list (Z * Z);
  f_toxcore_capabilities : Z
}.

(** What the messenger asks of the layers below it; a connection is named by the
    id of the friend connection. *)
Inductive Call :=
  | CNewConnection (real_pk : bytes)                              (** [new_friend_connection] *)
  | CKillConnection (friendcon_id : Z)                            (** [kill_friend_connection] *)
  | CCallbacks (friendcon_id : Z) (friendnumber : option Z)       (** [friend_connection_callbacks] *)
  | CConnected (friendcon_id : Z)                                 (** [friend_con_connected] *)
  | CWrite (friendcon_id : Z) (packet : bytes) (congestion_control : bool)     (** [write_cryptpacket] *)
  | CWriteLossy (friendcon_id : Z) (packet : bytes)               (** [send_lossy_cryptpacket] *)
  | CReceived (friendcon_id number : Z)                           (** [cryptpacket_received] *)
  | CFreeSlots (friendcon_id : Z)                                 (** [crypto_num_free_sendqueue_slots] *)
  | CMaxSpeed (friendcon_id : Z)                                  (** [max_speed_reached] *)
  | CStatus (friendcon_id : Z)                                    (** [crypto_connection_status] *)
  | CFriendRequest (friendcon_id nospam : Z) (data : bytes)       (** [send_friend_request_packet] *)
  | CGroupNotAdded (data : bytes)                                 (** [group_not_added] *)
  | CGroupAccepted (friendnumber : Z) (data : bytes)              (** [handle_gc_invite_accepted_packet] *)
  | CGroupConfirmed (friendnumber : Z) (data : bytes)             (** [handle_gc_invite_confirmed_packet] *)
  | CAlloc                                                        (** a call of the allocator *)
  | CTime.                                                        (** [time] *)

(** The calls of the callbacks of the client. *)
Inductive Messenger_Event :=
  | EvMessage (friendnumber type : Z) (message : bytes)
  | EvName (friendnumber : Z) (name : bytes)
  | EvStatusMessage (friendnumber : Z) (message : bytes)
  | EvUserStatus (friendnumber status : Z)
  | EvTyping (friendnumber : Z) (typing : bool)
  | EvReadReceipt (friendnumber msg_id : Z)
  | EvConnectionStatus (friendnumber status : Z)
  | EvConferenceInvite (friendnumber : Z) (data : bytes)
  | EvGroupInvite (friendnumber : Z) (join_data group_name : bytes)
  | EvFileRequest (friendnumber filenumber file_type filesize : Z) (filename : bytes)
  | EvFileControl (friendnumber filenumber control : Z)
  | EvFileData (friendnumber filenumber position : Z) (data : bytes)
  | EvChunkRequest (friendnumber filenumber position length : Z)
  | EvLossy (friendnumber : Z) (packet : bytes)
  | EvLossless (friendnumber : Z) (packet : bytes).

(** [ms_friendlist] is [friendlist], its length [numfriends]. *)
Record Messenger := mkMessenger {
  ms_self_public_key : bytes;
  ms_fr : Friend_Requests;
  ms_name : bytes;
  ms_name_length : Z;
  ms_statusmessage : bytes;
  ms_statusmessage_length : Z;
  ms_userstatus : Z;
  ms_friendlist : list Friend;
  ms_mono_time : Mono_Time;
  ms_calls : list (Call * Z);
  ms_answer : nat → Z;
  ms_events : list Messenger_Event
}.

#[export] Instance eta_File_Transfers : Eta File_Transfers := λ f,
  mkFT (ft_size f) (ft_transferred f) (ft_status f) (ft_paused f) (ft_last_packet_number f) (ft_requested f) (ft_id f) (ft_type f)
    (ft_received_seek_control f) (ft_seek_counter f) (ft_receiver_idle f) (ft_sender_idle f) (ft_send_ackd f) (ft_filename f) (ft_filename_length f).
#[export] Instance eta_Friend : Eta Friend := λ f,
  mkFriend (f_real_pk f) (f_friendcon_id f) (f_friendrequest_lastsent f) (f_friendrequest_timeout f) (f_status f) (f_info f) (f_name f)
    (f_name_length f) (f_name_sent f) (f_statusmessage f) (f_statusmessage_length f) (f_statusmessage_sent f) (f_userstatus f) (f_userstatus_sent f)
    (f_user_istyping f) (f_user_istyping_sent f) (f_is_typing f) (f_info_size f) (f_message_id f) (f_friendrequest_nospam f) (f_last_seen_time f)
    (f_last_connection_udp_tcp f) (f_file_sending f) (f_num_sending_files f) (f_num_receiving_files f) (f_file_receiving f) (f_receipts f)
    (f_toxcore_capabilities f).
#[export] Instance eta_Messenger : Eta Messenger := λ m,
  mkMessenger (ms_self_public_key m) (ms_fr m) (ms_name m) (ms_name_length m) (ms_statusmessage m) (ms_statusmessage_length m) (ms_userstatus m)
    (ms_friendlist m) (ms_mono_time m) (ms_calls m) (ms_answer m) (ms_events m).

Definition empty_transfer : File_Transfers := mkFT 0 0 0 0 0 0 (zeros 32) 0 false 0 0 0 false (zeros 255) 0.
Definition empty_friend : Friend :=
  mkFriend (zeros 32) 0 0 0 0 (zeros MAX_FRIEND_REQUEST_DATA_SIZE) (zeros 128) 0 false (zeros 1007) 0 false 0 false false false false 0 0 0 0 0
    (replicate 256 empty_transfer) 0 0 (replicate 256 empty_transfer) [] 0.

(** *** The monad *)

Definition MS : Type → Type := ST Messenger.

(** A call of a lower layer, and a call of a callback. *)
Definition ask (c : Call) : MS Z := λ m,
  let a := ms_answer m (length (ms_calls m)) in (a, m <| ms_calls := ms_calls m ++ [(c, a)] |>).
Definition tell (e : Messenger_Event) : MS unit := modify (λ m, m <| ms_events := ms_events m ++ [e] |>).

Definition numfriends (m : Messenger) : Z := zlen (ms_friendlist m).

(** [friendlist[i]], and an assignment to it. *)
Definition friend_at (m : Messenger) (i : Z) : Friend := aget empty_friend (ms_friendlist m) i.
Definition the_friend (i : Z) : MS Friend := get (λ m, friend_at m i).
Definition on_friend (i : Z) (g : Friend → Friend) : MS unit :=
  modify (λ m, m <| ms_friendlist := aset (ms_friendlist m) i (g (friend_at m i)) |>).

(** [memcpy] to the start of an array. *)
Definition copy_over (src dst : bytes) : bytes := src ++ drop (length src) dst.

(** *** The friend list *)

Definition friend_is_valid (m : Messenger) (friendnumber : Z) : bool :=
  (u32 friendnumber <? numfriends m) && negb (f_status (friend_at m friendnumber) =? 0).

Definition m_friend_exists (m : Messenger) (friendnumber : Z) : bool :=
  (u32 friendnumber <? numfriends m) && negb (f_status (friend_at m friendnumber) =? 0).

Fixpoint find_friend (l : list Friend) (i : Z) (real_pk : bytes) : Z :=
  match l with
  | [] => -1
  | f :: l' => if (0 <? f_status f) && pk_equal real_pk (f_real_pk f) then i else find_friend l' (i + 1) real_pk
  end.

Definition getfriend_id (m : Messenger) (real_pk : bytes) : Z := find_friend (ms_friendlist m) 0 real_pk.

Definition get_real_pk (m : Messenger) (friendnumber : Z) : option bytes :=
  if negb (m_friend_exists m friendnumber) then None else Some (f_real_pk (friend_at m friendnumber)).

Definition getfriendcon_id (m : Messenger) (friendnumber : Z) : Z :=
  if negb (m_friend_exists m friendnumber) then -1 else f_friendcon_id (friend_at m friendnumber).

(** The address of a key with a nospam number; both numbers are copied as they
    are in memory. *)
Definition address_of (real_pk : bytes) (nospam : Z) : bytes :=
  let address := real_pk ++ le_bytes 4 nospam in address ++ le_bytes 2 (data_checksum address).

Definition getaddress (m : Messenger) : bytes := address_of (ms_self_public_key m) (get_nospam (ms_fr m)).

Definition send_online_packet (friendcon_id : Z) : MS bool :=
  r ← ask (CWrite friendcon_id (PACKET_ID_ONLINE :: net_pack_u64 TOX_CAPABILITIES_CURRENT) false);
  if r =? -1 then mret false
  else r ← ask (CWrite friendcon_id [PACKET_ID_ONLINE] false); mret (negb (r =? -1)).

Definition send_offline_packet (friendcon_id : Z) : MS bool :=
  r ← ask (CWrite friendcon_id [PACKET_ID_OFFLINE] false); mret (negb (r =? -1)).

Fixpoint first_free (l : list Friend) (i : Z) : Z :=
  match l with
  | [] => i
  | f :: l' => if f_status f =? NOFRIEND then i else first_free l' (i + 1)
  end.

(** [realloc_friendlist] makes room for an empty friend at the end, which becomes
    part of the list when no other slot is free. *)
Definition init_new_friend (real_pk : bytes) (status : Z) : MS Z :=
  m ← get (λ m, m);
  if numfriends m =? UINT32_MAX then mret FAERR_NOMEM
  else
    ok ← ask CAlloc;
    if ok =? 0 then mret FAERR_NOMEM
    else
      friendcon_id ← ask (CNewConnection real_pk);
      if friendcon_id =? -1 then mret FAERR_NOMEM
      else
        m ← get (λ m, m);
        let i := first_free (ms_friendlist m) 0 in
        (if i =? numfriends m then modify (λ m, m <| ms_friendlist := ms_friendlist m ++ [empty_friend] |>) else mret tt);;
        on_friend i (λ f, f <| f_status := status |> <| f_friendcon_id := friendcon_id |> <| f_friendrequest_lastsent := 0 |>
                           <| f_real_pk := real_pk |> <| f_statusmessage_length := 0 |> <| f_userstatus := USERSTATUS_NONE |>
                           <| f_is_typing := false |> <| f_message_id := 0 |> <| f_num_sending_files := 0 |>
                           <| f_num_receiving_files := 0 |> <| f_toxcore_capabilities := TOX_CAPABILITY_BASIC |>);;
        ask (CCallbacks friendcon_id (Some i));;
        c ← ask (CConnected friendcon_id);
        (if c =? FRIENDCONN_STATUS_CONNECTED then send_online_packet friendcon_id;; mret tt else mret tt);;
        mret i.

Definition m_add_friend_contact_norequest (real_pk : bytes) : MS Z :=
  m ← get (λ m, m);
  if negb (getfriend_id m real_pk =? -1) then mret FAERR_ALREADYSENT
  else if pk_equal real_pk (ms_self_public_key m) then mret FAERR_OWNKEY
  else init_new_friend real_pk FRIEND_CONFIRMED.

Definition m_addfriend (address data : bytes) (length : Z) : MS Z :=
  if MAX_FRIEND_REQUEST_DATA_SIZE <? length then mret FAERR_TOOLONG
  else
    let real_pk := slice 0 CRYPTO_PUBLIC_KEY_SIZE address in
    if negb (public_key_valid real_pk) then mret FAERR_BADCHECKSUM
    else if negb (le_val (slice (CRYPTO_PUBLIC_KEY_SIZE + 4) 2 address) =? data_checksum (slice 0 (FRIEND_ADDRESS_SIZE - 2) address))
    then mret FAERR_BADCHECKSUM
    else if length <? 1 then mret FAERR_NOMESSAGE
    else
      m ← get (λ m, m);
      if pk_equal real_pk (ms_self_public_key m) then mret FAERR_OWNKEY
      else
        let friend_id := getfriend_id m real_pk in
        let nospam := le_val (slice CRYPTO_PUBLIC_KEY_SIZE 4 address) in
        if negb (friend_id =? -1) then
          if FRIEND_CONFIRMED <=? f_status (friend_at m friend_id) then mret FAERR_ALREADYSENT
          else if f_friendrequest_nospam (friend_at m friend_id) =? nospam then mret FAERR_ALREADYSENT
          else on_friend friend_id (λ f, f <| f_friendrequest_nospam := nospam |>);; mret FAERR_SETNEWNOSPAM
        else
          ret ← init_new_friend real_pk FRIEND_ADDED;
          if ret <? 0 then mret ret
          else
            on_friend ret (λ f, f <| f_friendrequest_timeout := FRIENDREQUEST_TIMEOUT |>
                                  <| f_info := copy_over (slice 0 length data) (f_info f) |> <| f_info_size := length |>
                                  <| f_friendrequest_nospam := nospam |>);;
            mret ret.

Definition m_addfriend_norequest (real_pk : bytes) : MS Z :=
  m ← get (λ m, m);
  if negb (public_key_valid real_pk) then mret FAERR_BADCHECKSUM
  else if pk_equal real_pk (ms_self_public_key m) then mret FAERR_OWNKEY
  else m_add_friend_contact_norequest real_pk.

(** The list without the empty slots at its end. *)
Fixpoint trim_friends (l : list Friend) : list Friend :=
  match l with
  | [] => []
  | f :: l' => match trim_friends l' with
               | [] => if f_status f =? NOFRIEND then [] else [f]
               | r => f :: r
               end
  end.

(** *** Receipts *)

Definition clear_receipts (friendnumber : Z) : MS Z :=
  m ← get (λ m, m);
  if negb (m_friend_exists m friendnumber) then mret (-1)
  else on_friend friendnumber (λ f, f <| f_receipts := [] |>);; mret 0.

Definition add_receipt (friendnumber packet_num msg_id : Z) : MS Z :=
  m ← get (λ m, m);
  if negb (m_friend_exists m friendnumber) then mret (-1)
  else
    ok ← ask CAlloc;
    if ok =? 0 then mret (-1)
    else on_friend friendnumber (λ f, f <| f_receipts := f_receipts f ++ [(u32 packet_num, msg_id)] |>);; mret 0.

Definition friend_received_packet (friendnumber number : Z) : MS Z :=
  m ← get (λ m, m);
  if negb (m_friend_exists m friendnumber) then mret (-1)
  else ask (CReceived (f_friendcon_id (friend_at m friendnumber)) number).

(** The loop of [do_receipts] over the receipts. *)
Fixpoint receipts_loop (receipts : list (Z * Z)) (friendnumber : Z) : MS unit :=
  match receipts with
  | [] => mret tt
  | (packet_num, msg_id) :: rest =>
      r ← friend_received_packet friendnumber packet_num;
      if r =? -1 then mret tt
      else
        tell (EvReadReceipt friendnumber msg_id);;
        on_friend friendnumber (λ f, f <| f_receipts := rest |>);;
        receipts_loop rest friendnumber
  end.

Definition do_receipts (friendnumber : Z) : MS Z :=
  m ← get (λ m, m);
  if negb (m_friend_exists m friendnumber) then mret (-1)
  else receipts_loop (f_receipts (friend_at m friendnumber)) friendnumber;; mret 0.

(** *** Removing a friend *)

Definition m_delfriend (friendnumber : Z) : MS Z :=
  m ← get (λ m, m);
  if negb (m_friend_exists m friendnumber) then mret (-1)
  else
    clear_receipts friendnumber;;
    f ← the_friend friendnumber;
    modify (λ m, m <| ms_fr := (remove_request_received (ms_fr m) (f_real_pk f)).2 |>);;
    ask (CCallbacks (f_friendcon_id f) None);;
    c ← ask (CConnected (f_friendcon_id f));
    (if c =? FRIENDCONN_STATUS_CONNECTED then send_offline_packet (f_friendcon_id f);; mret tt else mret tt);;
    ask (CKillConnection (f_friendcon_id f));;
    on_friend friendnumber (λ _, empty_friend);;
    modify (λ m, m <| ms_friendlist := trim_friends (ms_friendlist m) |>);;
    m ← get (λ m, m);
    if numfriends m =? 0 then mret 0
    else ok ← ask CAlloc; mret (if ok =? 0 then FAERR_NOMEM else 0).

(** The answer to [CStatus]: negative when there is no connection, else whether
    it is direct (1) or goes over relays (2), or neither. *)
Definition m_get_friend_connectionstatus (friendnumber : Z) : MS Z :=
  m ← get (λ m, m);
  if negb (m_friend_exists m friendnumber) then mret (-1)
  else
    let f := friend_at m friendnumber in
    if negb (f_status f =? FRIEND_ONLINE) then mret CONNECTION_NONE
    else
      r ← ask (CStatus (f_friendcon_id f));
      if r <? 0 then mret CONNECTION_NONE
      else if r =? 1 then mret CONNECTION_UDP
      else if r =? 2 then mret CONNECTION_TCP
      else mret (f_last_connection_udp_tcp f).

(** *** Messages *)

(** The result and, when it is 0, the id of the message. *)
Definition m_send_message_generic (friendnumber type : Z) (message : bytes) (length : Z) : MS (Z * Z) :=
  if MESSAGE_HIGH_LEVEL_ACK <? type then mret (-5, 0)
  else
    m ← get (λ m, m);
    if negb (m_friend_exists m friendnumber) then mret (-1, 0)
    else if MAX_CRYPTO_DATA_SIZE <=? length then mret (-2, 0)
    else
      let f := friend_at m friendnumber in
      if negb (f_status f =? FRIEND_ONLINE) then mret (-3, 0)
      else
        packet_num ← ask (CWrite (f_friendcon_id f) (u8 (PACKET_ID_MESSAGE + type) :: slice 0 length message) false);
        if packet_num =? -1 then mret (-4, 0)
        else
          let msg_id := u32 (f_message_id f + 1) in
          on_friend friendnumber (λ f, f <| f_message_id := msg_id |>);;
          add_receipt friendnumber packet_num msg_id;;
          mret (0, msg_id).

Definition write_cryptpacket_id (friendnumber packet_id : Z) (data : bytes) (length : Z) (congestion_control : bool) : MS bool :=
  m ← get (λ m, m);
  if negb (m_friend_exists m friendnumber) then mret false
  else
    let f := friend_at m friendnumber in
    if (MAX_CRYPTO_DATA_SIZE <=? length) || negb (f_status f =? FRIEND_ONLINE) then mret false
    else
      r ← ask (CWrite (f_friendcon_id f) (packet_id :: slice 0 length data) congestion_control);
      mret (negb (r =? -1)).

Definition m_sendname (friendnumber : Z) (name : bytes) (length : Z) : MS bool :=
  if MAX_NAME_LENGTH <? length then mret false
  else write_cryptpacket_id friendnumber PACKET_ID_NICKNAME name length false.

Definition setfriendname (friendnumber : Z) (name : bytes) (length : Z) : MS Z :=
  m ← get (λ m, m);
  if negb (m_friend_exists m friendnumber) then mret (-1)
  else if (MAX_NAME_LENGTH <? length) || (length =? 0) then mret (-1)
  else
    on_friend friendnumber (λ f, f <| f_name_length := length |> <| f_name := copy_over (slice 0 length name) (f_name f) |>);;
    mret 0.

Definition setname (name : bytes) (length : Z) : MS Z :=
  m ← get (λ m, m);
  if MAX_NAME_LENGTH <? length then mret (-1)
  else if (ms_name_length m =? length) && ((length =? 0) || bytes_eqb (slice 0 length name) (slice 0 length (ms_name m))) then mret 0
  else
    modify (λ m, m <| ms_name := copy_over (slice 0 length name) (ms_name m) |> <| ms_name_length := length |>
                   <| ms_friendlist := map (λ f, f <| f_name_sent := false |>) (ms_friendlist m) |>);;
    mret 0.

Definition getself_name (m : Messenger) : bytes := slice 0 (ms_name_length m) (ms_name m).

Definition getname (m : Messenger) (friendnumber : Z) : option bytes :=
  if negb (m_friend_exists m friendnumber) then None
  else let f := friend_at m friendnumber in Some (slice 0 (f_name_length f) (f_name f)).

Definition m_get_name_size (m : Messenger) (friendnumber : Z) : Z :=
  if negb (m_friend_exists m friendnumber) then -1 else f_name_length (friend_at m friendnumber).
Definition m_get_self_name_size (m : Messenger) : Z := ms_name_length m.

Definition m_set_statusmessage (status : bytes) (length : Z) : MS Z :=
  m ← get (λ m, m);
  if MAX_STATUSMESSAGE_LENGTH <? length then mret (-1)
  else if (ms_statusmessage_length m =? length) && ((length =? 0) || bytes_eqb (slice 0 length (ms_statusmessage m)) (slice 0 length status))
  then mret 0
  else
    modify (λ m, m <| ms_statusmessage := copy_over (slice 0 length status) (ms_statusmessage m) |> <| ms_statusmessage_length := length |>
                   <| ms_friendlist := map (λ f, f <| f_statusmessage_sent := false |>) (ms_friendlist m) |>);;
    mret 0.

Definition m_set_userstatus (status : Z) : MS Z :=
  m ← get (λ m, m);
  if USERSTATUS_INVALID <=? status then mret (-1)
  else if ms_userstatus m =? status then mret 0
  else
    modify (λ m, m <| ms_userstatus := status |> <| ms_friendlist := map (λ f, f <| f_userstatus_sent := false |>) (ms_friendlist m) |>);;
    mret 0.

Definition m_get_statusmessage_size (m : Messenger) (friendnumber : Z) : Z :=
  if negb (m_friend_exists m friendnumber) then -1 else f_statusmessage_length (friend_at m friendnumber).

(** The first [maxlen] bytes of the buffer, and the result. *)
Definition m_copy_statusmessage (m : Messenger) (friendnumber maxlen : Z) : option (Z * bytes) :=
  if negb (m_friend_exists m friendnumber) then None
  else
    let f := friend_at m friendnumber in
    let msglen := min_u32 maxlen (f_statusmessage_length f) in
    Some (msglen, slice 0 msglen (f_statusmessage f) ++ zeros (maxlen - msglen)).

Definition m_get_self_statusmessage_size (m : Messenger) : Z := ms_statusmessage_length m.
Definition m_copy_self_statusmessage (m : Messenger) : bytes := slice 0 (ms_statusmessage_length m) (ms_statusmessage m).

Definition m_get_userstatus (m : Messenger) (friendnumber : Z) : Z :=
  if negb (m_friend_exists m friendnumber) then USERSTATUS_INVALID
  else let status := f_userstatus (friend_at m friendnumber) in if USERSTATUS_INVALID <=? status then USERSTATUS_NONE else status.
Definition m_get_self_userstatus (m : Messenger) : Z := ms_userstatus m.

Definition m_get_last_online (m : Messenger) (friendnumber : Z) : Z :=
  if negb (m_friend_exists m friendnumber) then UINT64_MAX else f_last_seen_time (friend_at m friendnumber).

Definition m_set_usertyping (friendnumber : Z) (is_typing : bool) : MS Z :=
  m ← get (λ m, m);
  if negb (m_friend_exists m friendnumber) then mret (-1)
  else if Bool.eqb (f_user_istyping (friend_at m friendnumber)) is_typing then mret 0
  else on_friend friendnumber (λ f, f <| f_user_istyping := is_typing |> <| f_user_istyping_sent := false |>);; mret 0.

Definition m_get_istyping (m : Messenger) (friendnumber : Z) : Z :=
  if negb (m_friend_exists m friendnumber) then -1 else if f_is_typing (friend_at m friendnumber) then 1 else 0.

Definition send_statusmessage (friendnumber : Z) (status : bytes) (length : Z) : MS bool :=
  write_cryptpacket_id friendnumber PACKET_ID_STATUSMESSAGE status length false.
Definition send_userstatus (friendnumber status : Z) : MS bool :=
  write_cryptpacket_id friendnumber PACKET_ID_USERSTATUS [u8 status] 1 false.
Definition send_user_istyping (friendnumber : Z) (is_typing : bool) : MS bool :=
  write_cryptpacket_id friendnumber PACKET_ID_TYPING [if is_typing then 1 else 0] 1 false.

Definition set_friend_statusmessage (friendnumber : Z) (status : bytes) (length : Z) : MS Z :=
  m ← get (λ m, m);
  if negb (m_friend_exists m friendnumber) then mret (-1)
  else if MAX_STATUSMESSAGE_LENGTH <? length then mret (-1)
  else
    on_friend friendnumber (λ f, f <| f_statusmessage := copy_over (slice 0 length status) (f_statusmessage f) |> <| f_statusmessage_length := length |>);;
    mret 0.

Definition set_friend_userstatus (friendnumber status : Z) : MS unit := on_friend friendnumber (λ f, f <| f_userstatus := status |>).
Definition set_friend_typing (friendnumber : Z) (is_typing : bool) : MS unit := on_friend friendnumber (λ f, f <| f_is_typing := is_typing |>).

Definition check_friend_tcp_udp (friendnumber : Z) : MS unit :=
  f ← the_friend friendnumber;
  ret ← m_get_friend_connectionstatus friendnumber;
  if ret =? -1 then mret tt
  else
    (if negb (f_last_connection_udp_tcp f =? ret) then tell (EvConnectionStatus friendnumber ret) else mret tt);;
    on_friend friendnumber (λ f, f <| f_last_connection_udp_tcp := ret |>).

Definition send_conference_invite_packet (friendnumber : Z) (data : bytes) (length : Z) : MS bool :=
  write_cryptpacket_id friendnumber PACKET_ID_INVITE_CONFERENCE data length false.
Definition send_group_invite_packet (friendnumber : Z) (data : bytes) (length : Z) : MS bool :=
  write_cryptpacket_id friendnumber PACKET_ID_INVITE_GROUPCHAT data length false.

Definition m_send_custom_lossy_packet (friendnumber : Z) (data : bytes) (length : Z) : MS Z :=
  m ← get (λ m, m);
  if negb (m_friend_exists m friendnumber) then mret (-1)
  else if (length =? 0) || (MAX_CRYPTO_DATA_SIZE <? length) then mret (-2)
  else if (aget 0 data 0 <? PACKET_ID_RANGE_LOSSY_START) || (PACKET_ID_RANGE_LOSSY_END <? aget 0 data 0) then mret (-3)
  else
    let f := friend_at m friendnumber in
    if negb (f_status f =? FRIEND_ONLINE) then mret (-4)
    else r ← ask (CWriteLossy (f_friendcon_id f) (slice 0 length data)); mret (if r =? -1 then -5 else 0).

Definition PACKET_ID_RANGE_LOSSLESS_CUSTOM_START : Z := 160.
Definition PACKET_ID_RANGE_LOSSLESS_CUSTOM_END : Z := 191.
Definition PACKET_ID_MSI : Z := 69.

Definition send_custom_lossless_packet (friendnumber : Z) (data : bytes) (length : Z) : MS Z :=
  m ← get (λ m, m);
  if negb (m_friend_exists m friendnumber) then mret (-1)
  else if (length =? 0) || (MAX_CRYPTO_DATA_SIZE <? length) then mret (-2)
  else if ((aget 0 data 0 <? PACKET_ID_RANGE_LOSSLESS_CUSTOM_START) || (PACKET_ID_RANGE_LOSSLESS_CUSTOM_END <? aget 0 data 0))
          && negb (aget 0 data 0 =? PACKET_ID_MSI) then mret (-3)
  else
    let f := friend_at m friendnumber in
    if negb (f_status f =? FRIEND_ONLINE) then mret (-4)
    else r ← ask (CWrite (f_friendcon_id f) (slice 0 length data) true); mret (if r =? -1 then -5 else 0).
