(* ===== verification/FileTransfer.v ===== *)
(** * FileTransfer: files between friends, [toxcore/Messenger.c]

    The transfers of a friend, the requests for chunks, the packets that control
    a transfer and carry its data, and the rest of the packets of a friend.  A
    plain transfer relies on the connection and ends when it breaks; a transfer
    of kind [FILEKIND_FTV2] numbers its chunks by their offset and goes on over
    the next connection. *)
From S2P Require Import Prelude Util MonoTime CryptoCore Network World FriendRequests CryptoConnection NetCrypto Messenger.

(** ** Definitions *)

Definition MAX_FILE_DATA_SIZE : Z := MAX_CRYPTO_DATA_SIZE - 2.
Definition CRYPTO_MIN_QUEUE_LENGTH : Z := 64.
Definition MIN_SLOTS_FREE : Z := CRYPTO_MIN_QUEUE_LENGTH / 4.
Definition PAUSE_CYCLES_ON_FTV2_SEEK_RECEIVED : Z := 20.
Definition STALE_CYCLES_ON_FTV2_RECEIVER : Z := 2000.
Definition STALE_CYCLES_ON_FTV2_SEND : Z := 1000.

Definition FILESTATUS_NONE : Z := 0.
Definition FILESTATUS_NOT_ACCEPTED : Z := 1.
Definition FILESTATUS_TRANSFERRING : Z := 2.
Definition FILESTATUS_FINISHED : Z := 3.

Definition FILE_PAUSE_NOT : Z := 0.
Definition FILE_PAUSE_US : Z := 1.
Definition FILE_PAUSE_OTHER : Z := 2.

Definition FILECONTROL_ACCEPT : Z := 0.
Definition FILECONTROL_PAUSE : Z := 1.
Definition FILECONTROL_KILL : Z := 2.
Definition FILECONTROL_SEEK : Z := 3.
Definition FILECONTROL_FINISHED : Z := 4.
Definition FILECONTROL_SEND_ACK : Z := 8.

Definition FILEKIND_FTV2 : Z := 16.
Definition HACK_TOX_FILE_KIND_MESSAGEV2_SEND : Z := 2.
Definition HACK_TOX_FILE_KIND_MESSAGEV2_ANSWER : Z := 3.
Definition HACK_TOX_FILE_KIND_MESSAGEV2_ALTER : Z := 4.
Definition HACK_TOX_FILE_KIND_MESSAGEV2_SYNC : Z := 5.
Definition HACK_TOX_MAX_FILETRANSFER_SIZE_MSGV2 : Z := 4096 + (32 + 4 + 2 + 32 + 4) + (32 + 4 + 2 + 1 + 32).

Definition PACKET_ID_FILE_SENDREQUEST : Z := 80.
Definition PACKET_ID_FILE_CONTROL : Z := 81.
Definition PACKET_ID_FILE_DATA : Z := 82.

Definition is_msgv2 (file_type : Z) : bool :=
  (file_type =? HACK_TOX_FILE_KIND_MESSAGEV2_SEND) || (file_type =? HACK_TOX_FILE_KIND_MESSAGEV2_ANSWER) ||
  (file_type =? HACK_TOX_FILE_KIND_MESSAGEV2_SYNC) || (file_type =? HACK_TOX_FILE_KIND_MESSAGEV2_ALTER).

(** *** The transfers of a friend *)

Definition transfers (inbound : bool) (f : Friend) : list File_Transfers := if inbound then f_file_receiving f else f_file_sending f.
Definition transfer (inbound : bool) (f : Friend) (n : Z) : File_Transfers := aget empty_transfer (transfers inbound f) n.
Definition set_transfer (inbound : bool) (n : Z) (g : File_Transfers → File_Transfers) (f : Friend) : Friend :=
  if inbound then f <| f_file_receiving := aset (f_file_receiving f) n (g (transfer true f n)) |>
  else f <| f_file_sending := aset (f_file_sending f) n (g (transfer false f n)) |>.

Definition the_transfer (inbound : bool) (i n : Z) : MS File_Transfers := get (λ m, transfer inbound (friend_at m i) n).
Definition on_transfer (inbound : bool) (i n : Z) (g : File_Transfers → File_Transfers) : MS unit := on_friend i (set_transfer inbound n g).

(** What is left of a transfer that is over. *)
Definition clear_transfer (ft : File_Transfers) : File_Transfers :=
  ft <| ft_status := FILESTATUS_NONE |> <| ft_type := 0 |> <| ft_received_seek_control := false |> <| ft_send_ackd := false |>
     <| ft_seek_counter := 0 |> <| ft_receiver_idle := 0 |> <| ft_sender_idle := 0 |> <| ft_filename := zeros 255 |> <| ft_filename_length := 0 |>.

(** [num_sending_files] and [num_receiving_files] are unsigned. *)
Definition add_sending (d : Z) (f : Friend) : Friend := f <| f_num_sending_files := u32 (f_num_sending_files f + d) |>.
Definition add_receiving (d : Z) (f : Friend) : Friend := f <| f_num_receiving_files := u32 (f_num_receiving_files f + d) |>.

(** The direction and the index of a file number, as in [file_control]. *)
Definition split_filenumber (filenumber : Z) : bool * Z :=
  if 2 ^ 16 <=? filenumber then (true, u32 (Z.shiftr filenumber 16 - 1)) else (false, filenumber).
Definition real_filenumber (inbound : bool) (n : Z) : Z := if inbound then Z.shiftl (n + 1) 16 else n.

(** The answer is [None] for -1 and -2. *)
Definition file_get_id (m : Messenger) (friendnumber filenumber : Z) : option bytes :=
  if negb (m_friend_exists m friendnumber) then None
  else if negb (f_status (friend_at m friendnumber) =? FRIEND_ONLINE) then None
  else
    let '(inbound, temp_filenum) := split_filenumber filenumber in
    if MAX_CONCURRENT_FILE_PIPES <=? temp_filenum then None
    else
      let ft := transfer inbound (friend_at m friendnumber) (u8 temp_filenum) in
      if ft_status ft =? FILESTATUS_NONE then None else Some (ft_id ft).

Definition file_sendrequest (friendnumber filenumber file_type filesize : Z) (file_id filename : bytes) (filename_length : Z) : MS bool :=
  m ← get (λ m, m);
  if negb (m_friend_exists m friendnumber) then mret false
  else if MAX_FILENAME_LENGTH <? filename_length then mret false
  else
    let packet := [u8 filenumber] ++ net_pack_u32 file_type ++ net_pack_u64 filesize ++ slice 0 FILE_ID_LENGTH file_id
                  ++ slice 0 filename_length filename in
    write_cryptpacket_id friendnumber PACKET_ID_FILE_SENDREQUEST packet (1 + 4 + 8 + FILE_ID_LENGTH + filename_length) false.

Fixpoint first_free_transfer (l : list File_Transfers) (i : Z) : Z :=
  match l with
  | [] => i
  | ft :: l' => if ft_status ft =? FILESTATUS_NONE then i else first_free_transfer l' (i + 1)
  end.

Definition new_filesender (friendnumber file_type filesize : Z) (file_id filename : bytes) (filename_length : Z) : MS Z :=
  m ← get (λ m, m);
  if negb (m_friend_exists m friendnumber) then mret (-1)
  else if MAX_FILENAME_LENGTH <? filename_length then mret (-2)
  else if is_msgv2 file_type && (HACK_TOX_MAX_FILETRANSFER_SIZE_MSGV2 <? filesize) then mret (-2)
  else
    let i := first_free_transfer (f_file_sending (friend_at m friendnumber)) 0 in
    if i =? MAX_CONCURRENT_FILE_PIPES then mret (-3)
    else
      sent ← file_sendrequest friendnumber i file_type filesize file_id filename filename_length;
      if negb sent then mret (-4)
      else
        on_transfer false friendnumber i (λ ft,
          ft <| ft_type := file_type |> <| ft_filename := copy_over (slice 0 filename_length filename) (zeros 255) |>
             <| ft_filename_length := filename_length |> <| ft_received_seek_control := false |> <| ft_seek_counter := 0 |>
             <| ft_send_ackd := false |> <| ft_receiver_idle := 0 |> <| ft_sender_idle := 0 |>
             <| ft_status := if is_msgv2 file_type then FILESTATUS_TRANSFERRING else FILESTATUS_NOT_ACCEPTED |>
             <| ft_size := filesize |> <| ft_transferred := 0 |> <| ft_requested := 0 |> <| ft_paused := FILE_PAUSE_NOT |>
             <| ft_id := slice 0 FILE_ID_LENGTH file_id |>);;
        (if is_msgv2 file_type then on_friend friendnumber (add_sending 1) else mret tt);;
        mret i.

Definition send_file_control_packet (friendnumber : Z) (inbound : bool) (filenumber control_type : Z) (data : bytes) (data_length : Z) : MS bool :=
  if MAX_CRYPTO_DATA_SIZE <? 1 + 3 + data_length then mret false
  else
    write_cryptpacket_id friendnumber PACKET_ID_FILE_CONTROL
      ([if inbound then 1 else 0; u8 filenumber; u8 control_type] ++ slice 0 data_length data) (3 + data_length) false.

(** Whether this control is allowed now: 0, or the error. *)
Definition control_error (inbound : bool) (ft : File_Transfers) (control : Z) : Z :=
  if negb (control =? FILECONTROL_ACCEPT) && negb (control =? FILECONTROL_PAUSE) && negb (control =? FILECONTROL_KILL)
     && negb (control =? FILECONTROL_FINISHED) then -4
  else if (control =? FILECONTROL_PAUSE)
          && (negb (Z.land (ft_paused ft) FILE_PAUSE_US =? 0) || negb (ft_status ft =? FILESTATUS_TRANSFERRING)) then -5
  else if control =? FILECONTROL_ACCEPT then
    if ft_status ft =? FILESTATUS_TRANSFERRING then
      if Z.land (ft_paused ft) FILE_PAUSE_US =? 0 then
        if negb (Z.land (ft_paused ft) FILE_PAUSE_OTHER =? 0) then -6 else -7
      else 0
    else if negb (ft_status ft =? FILESTATUS_NOT_ACCEPTED) then -7
    else if negb inbound then -6
    else 0
  else 0.

(** What a control we sent changes here. *)
Definition apply_control (inbound : bool) (n control : Z) (f : Friend) : Friend :=
  let ft := transfer inbound f n in
  if control =? FILECONTROL_KILL then
    let f := if negb inbound && ((ft_status ft =? FILESTATUS_TRANSFERRING) || (ft_status ft =? FILESTATUS_FINISHED))
             then add_sending (-1) f else f in
    let f := if inbound && negb (ft_status ft =? FILESTATUS_NONE) then add_receiving (-1) f else f in
    set_transfer inbound n clear_transfer f
  else if control =? FILECONTROL_PAUSE then set_transfer inbound n (λ ft, ft <| ft_paused := Z.lor (ft_paused ft) FILE_PAUSE_US |>) f
  else if control =? FILECONTROL_ACCEPT then
    set_transfer inbound n (λ ft, ft <| ft_status := FILESTATUS_TRANSFERRING |>
      <| ft_paused := if negb (Z.land (ft_paused ft) FILE_PAUSE_US =? 0) then Z.lxor (ft_paused ft) FILE_PAUSE_US else ft_paused ft |>) f
  else f.

Definition file_control (friendnumber filenumber control : Z) : MS Z :=
  m ← get (λ m, m);
  if negb (m_friend_exists m friendnumber) then mret (-1)
  else if negb (f_status (friend_at m friendnumber) =? FRIEND_ONLINE) then mret (-2)
  else
    let '(inbound, temp_filenum) := split_filenumber filenumber in
    if MAX_CONCURRENT_FILE_PIPES <=? temp_filenum then mret (-3)
    else
      let n := u8 temp_filenum in
      let ft := transfer inbound (friend_at m friendnumber) n in
      if ft_status ft =? FILESTATUS_NONE then mret (-3)
      else
        let e := control_error inbound ft control in
        if negb (e =? 0) then mret e
        else
          sent ← send_file_control_packet friendnumber inbound n control [] 0;
          if sent : bool then on_friend friendnumber (apply_control inbound n control);; mret 0 else mret (-8).

Definition file_seek (friendnumber filenumber position : Z) : MS Z :=
  m ← get (λ m, m);
  if negb (m_friend_exists m friendnumber) then mret (-1)
  else if negb (f_status (friend_at m friendnumber) =? FRIEND_ONLINE) then mret (-2)
  else if filenumber <? 2 ^ 16 then mret (-4)
  else
    let temp_filenum := u32 (Z.shiftr filenumber 16 - 1) in
    if MAX_CONCURRENT_FILE_PIPES <=? temp_filenum then mret (-3)
    else
      let n := u8 temp_filenum in
      let ft := transfer true (friend_at m friendnumber) n in
      if ft_status ft =? FILESTATUS_NONE then mret (-3)
      else if negb (ft_status ft =? FILESTATUS_NOT_ACCEPTED) then mret (-5)
      else if ft_size ft <=? position then mret (-6)
      else
        sent ← send_file_control_packet friendnumber true n FILECONTROL_SEEK (net_pack_u64 position) 8;
        if sent : bool then on_transfer true friendnumber n (λ ft, ft <| ft_transferred := position |>);; mret 0 else mret (-8).

(** *** Sending data *)

Definition send_file_data_packet (friendnumber filenumber : Z) (data : bytes) (length : Z) : MS Z :=
  m ← get (λ m, m);
  if negb (m_friend_exists m friendnumber) then mret (-1)
  else ask (CWrite (f_friendcon_id (friend_at m friendnumber)) ([PACKET_ID_FILE_DATA; u8 filenumber] ++ slice 0 length data) true).

(** The two branches of [send_file_data]. *)
Definition send_file_data_v2 (friendnumber n position : Z) (data : bytes) (length : Z) : MS Z :=
  ft ← the_transfer false friendnumber n;
  if MAX_FILE_DATA_SIZE - FILE_OFFSET_LENGTH <? length then mret (-5)
  else
    let length_raw := u16 (length - FILE_ID_LENGTH) in
    if u64 (ft_size ft - ft_transferred ft) <? length_raw then mret (-5)
    else if negb (position =? ft_transferred ft) || ((ft_requested ft <=? position) && negb (ft_size ft =? 0)) then mret (-7)
    else
      f ← the_friend friendnumber;
      free ← ask (CFreeSlots (f_friendcon_id f));
      if free <? MIN_SLOTS_FREE then mret (-6)
      else
        ok ← ask CAlloc;
        if ok =? 0 then mret (-6)
        else
          ret ← send_file_data_packet friendnumber n (net_pack_u64 position ++ slice 0 length data) (length + FILE_OFFSET_LENGTH);
          if ret =? -1 then mret (-6)
          else on_transfer false friendnumber n (λ ft, ft <| ft_transferred := u64 (ft_transferred ft + length_raw) |>);; mret 0.

Definition send_file_data_v1 (friendnumber n position : Z) (data : bytes) (length : Z) : MS Z :=
  ft ← the_transfer false friendnumber n;
  if u64 (ft_size ft - ft_transferred ft) <? length then mret (-5)
  else if negb (ft_size ft =? UINT64_MAX) && negb (length =? MAX_FILE_DATA_SIZE) && negb (u64 (ft_transferred ft + length) =? ft_size ft) then mret (-5)
  else if negb (position =? ft_transferred ft) || ((ft_requested ft <=? position) && negb (ft_size ft =? 0)) then mret (-7)
  else
    f ← the_friend friendnumber;
    free ← ask (CFreeSlots (f_friendcon_id f));
    if free <? MIN_SLOTS_FREE then mret (-6)
    else
      ret ← send_file_data_packet friendnumber n data length;
      if ret =? -1 then mret (-6)
      else
        on_transfer false friendnumber n (λ ft,
          let ft := ft <| ft_transferred := u64 (ft_transferred ft + length) |> in
          if negb (length =? MAX_FILE_DATA_SIZE) || (ft_size ft =? ft_transferred ft)
          then ft <| ft_status := FILESTATUS_FINISHED |> <| ft_last_packet_number := u32 ret |> else ft);;
        mret 0.

Definition send_file_data (friendnumber filenumber position : Z) (data : bytes) (length : Z) : MS Z :=
  m ← get (λ m, m);
  if negb (m_friend_exists m friendnumber) then mret (-1)
  else if negb (f_status (friend_at m friendnumber) =? FRIEND_ONLINE) then mret (-2)
  else if MAX_CONCURRENT_FILE_PIPES <=? filenumber then mret (-3)
  else
    let ft := transfer false (friend_at m friendnumber) filenumber in
    if negb (ft_status ft =? FILESTATUS_TRANSFERRING) then mret (-4)
    else if MAX_FILE_DATA_SIZE <? length then mret (-5)
    else if ft_type ft =? FILEKIND_FTV2 then send_file_data_v2 friendnumber filenumber position data length
    else send_file_data_v1 friendnumber filenumber position data length.

Section client.
(** What the client does when it is asked for a chunk: friend, file, position and
    length. *)
Context (client : Z → Z → Z → Z → MS unit).

Definition file_reqchunk (friendnumber filenumber position length : Z) : MS unit :=
  tell (EvChunkRequest friendnumber filenumber position length);; client friendnumber filenumber position length.

(** The transfer is over: a chunk of size 0 is requested. *)
Definition finish_sending (friendnumber i : Z) : MS unit :=
  ft ← the_transfer false friendnumber i;
  file_reqchunk friendnumber i (ft_transferred ft) 0;;
  on_transfer false friendnumber i clear_transfer;;
  on_friend friendnumber (add_sending (-1)).

(** The next chunk is requested. *)
Definition request_chunk (friendnumber i max_length : Z) : MS unit :=
  ft ← the_transfer false friendnumber i;
  let length := u16 (min_u64 (u64 (ft_size ft - ft_requested ft)) max_length) in
  let position := ft_requested ft in
  on_transfer false friendnumber i (λ ft, ft <| ft_requested := u64 (ft_requested ft + length) |>);;
  file_reqchunk friendnumber i position length.

(** One turn of the loop of [do_all_filetransfers] for an active transfer: the
    free slots that are left. *)
Definition do_filetransfer (friendnumber i free_slots : Z) : MS Z :=
  ft ← the_transfer false friendnumber i;
  if ft_type ft =? FILEKIND_FTV2 then
    if ft_status ft =? FILESTATUS_FINISHED then finish_sending friendnumber i;; mret free_slots
    else if (ft_status ft =? FILESTATUS_TRANSFERRING) && (ft_paused ft =? FILE_PAUSE_NOT) then
      if ft_size ft =? ft_requested ft then mret free_slots
      else if ft_received_seek_control ft then mret free_slots
      else request_chunk friendnumber i (MAX_FILE_DATA_SIZE - FILE_OFFSET_LENGTH - FILE_ID_LENGTH);; mret (free_slots - 1)
    else mret free_slots
  else
    over ← (if ft_status ft =? FILESTATUS_FINISHED then
              r ← friend_received_packet friendnumber (ft_last_packet_number ft); mret (r =? 0)
            else mret false);
    if over : bool then finish_sending friendnumber i;; mret free_slots
    else if (ft_status ft =? FILESTATUS_TRANSFERRING) && (ft_paused ft =? FILE_PAUSE_NOT) then
      if ft_size ft =? 0 then send_file_data friendnumber i 0 [] 0;; mret free_slots
      else if ft_size ft =? ft_requested ft then mret free_slots
      else request_chunk friendnumber i MAX_FILE_DATA_SIZE;; mret (free_slots - 1)
    else mret free_slots.

(** The transfers from [i] on; whether there is more to do, and the free slots. *)
Fixpoint transfers_loop (n : nat) (friendnumber i free_slots : Z) : MS (bool * Z) :=
  match n with
  | O => mret (true, free_slots)
  | S n' =>
      f ← the_friend friendnumber;
      if f_num_sending_files f =? 0 then mret (false, free_slots)
      else if free_slots =? 0 then mret (false, free_slots)
      else
        let ft := transfer false f i in
        if (ft_status ft =? FILESTATUS_NONE) || (ft_status ft =? FILESTATUS_NOT_ACCEPTED) then transfers_loop n' friendnumber (i + 1) free_slots
        else
          full ← ask (CMaxSpeed (f_friendcon_id f));
          if negb (full =? 0) then mret (false, free_slots)
          else free_slots ← do_filetransfer friendnumber i free_slots; transfers_loop n' friendnumber (i + 1) free_slots
  end.

Definition do_all_filetransfers (friendnumber free_slots : Z) : MS (bool * Z) :=
  transfers_loop (Z.to_nat MAX_CONCURRENT_FILE_PIPES) friendnumber 0 free_slots.

(** The loop of [do_reqchunk_filecb] around it. *)
Fixpoint chunks_loop (n : nat) (friendnumber free_slots : Z) : MS unit :=
  match n with
  | O => mret tt
  | S n' =>
      r ← do_all_filetransfers friendnumber free_slots;
      if negb (r.1) then mret tt
      else if r.2 =? 0 then mret tt
      else chunks_loop n' friendnumber r.2
  end.

(** The first loop of [do_reqchunk_filecb]: a request the friend did not confirm
    is sent again. *)
Definition resend_request (friendnumber i : Z) : MS unit :=
  ft ← the_transfer false friendnumber i;
  if (ft_status ft =? FILESTATUS_NOT_ACCEPTED) && (ft_type ft =? FILEKIND_FTV2) && negb (ft_send_ackd ft) then
    if STALE_CYCLES_ON_FTV2_SEND <? ft_sender_idle ft then
      on_transfer false friendnumber i (λ ft, ft <| ft_sender_idle := 0 |>);;
      file_sendrequest friendnumber i (ft_type ft) (ft_size ft) (ft_id ft) (ft_filename ft) (ft_filename_length ft);; mret tt
    else on_transfer false friendnumber i (λ ft, ft <| ft_sender_idle := u32 (ft_sender_idle ft + 1) |>)
  else mret tt.

(** The second: a transfer that got nothing for long asks for its position. *)
Definition check_stale (friendnumber i : Z) : MS unit :=
  ft ← the_transfer true friendnumber i;
  if negb (ft_status ft =? FILESTATUS_NONE) && (ft_type ft =? FILEKIND_FTV2) then
    if STALE_CYCLES_ON_FTV2_RECEIVER <? ft_receiver_idle ft then
      on_transfer true friendnumber i (λ ft, ft <| ft_receiver_idle := 0 |>);;
      sent ← send_file_control_packet friendnumber true i FILECONTROL_SEEK (net_pack_u64 (ft_transferred ft)) 8;
      if sent : bool then send_file_control_packet friendnumber true i FILECONTROL_ACCEPT (net_pack_u64 (ft_transferred ft)) 8;; mret tt
      else mret tt
    else on_transfer true friendnumber i (λ ft, ft <| ft_receiver_idle := u32 (ft_receiver_idle ft + 1) |>)
  else mret tt.

(** The last: a transfer waits for a while after the friend has sent a position. *)
Definition count_seek (ft : File_Transfers) : File_Transfers :=
  if ft_received_seek_control ft then
    let counter := u8 (ft_seek_counter ft - 1) in
    ft <| ft_seek_counter := counter |>
       <| ft_received_seek_control := negb ((counter <? 1) || (PAUSE_CYCLES_ON_FTV2_SEEK_RECEIVED <? counter)) |>
  else ft.

Definition pipes : list Z := seqZ 0 256.

Definition do_reqchunk_filecb (friendnumber : Z) : MS unit :=
  for_each pipes (resend_request friendnumber);;
  f ← the_friend friendnumber;
  (if 0 <? f_num_receiving_files f then
     let found := existsb (λ ft, negb (ft_status ft =? FILESTATUS_NONE)) (f_file_receiving f) in
     for_each pipes (check_stale friendnumber);;
     if negb found then on_friend friendnumber (λ f, f <| f_num_receiving_files := 0 |>) else mret tt
   else mret tt);;
  f ← the_friend friendnumber;
  if f_num_sending_files f =? 0 then mret tt
  else
    slots ← ask (CFreeSlots (f_friendcon_id f));
    chunks_loop 128 friendnumber (max_s32 0 (s32 slots - MIN_SLOTS_FREE));;
    f ← the_friend friendnumber;
    if 0 <? f_num_sending_files f then on_friend friendnumber (λ f, f <| f_file_sending := map count_seek (f_file_sending f) |>) else mret tt.

(** *** Connections that come and go *)

Definition break_transfer (ft : File_Transfers) : File_Transfers := if negb (ft_type ft =? FILEKIND_FTV2) then clear_transfer ft else ft.

Definition break_files (friendnumber : Z) : MS unit :=
  on_friend friendnumber (λ f, f <| f_file_sending := map break_transfer (f_file_sending f) |>
                                 <| f_file_receiving := map break_transfer (f_file_receiving f) |>).

Definition check_friend_connectionstatus (friendnumber status : Z) : MS unit :=
  if status =? NOFRIEND then mret tt
  else
    f ← the_friend friendnumber;
    let was_online := f_status f =? FRIEND_ONLINE in
    let is_online := status =? FRIEND_ONLINE in
    if negb (Bool.eqb is_online was_online) then
      (if was_online then break_files friendnumber;; clear_receipts friendnumber;; mret tt
       else on_friend friendnumber (λ f, f <| f_name_sent := false |> <| f_userstatus_sent := false |> <| f_statusmessage_sent := false |>
                                           <| f_user_istyping_sent := false |>));;
      on_friend friendnumber (λ f, f <| f_status := status |>);;
      check_friend_tcp_udp friendnumber
    else mret tt.

Definition set_friend_status (friendnumber status : Z) : MS unit :=
  check_friend_connectionstatus friendnumber status;;
  on_friend friendnumber (λ f, f <| f_status := status |>).

Definition check_friend_request_timed_out (i t : Z) : MS unit :=
  f ← the_friend i;
  if u64 (f_friendrequest_lastsent f + f_friendrequest_timeout f) <? t then
    set_friend_status i FRIEND_ADDED;;
    on_friend i (λ f, f <| f_friendrequest_timeout := u32 (f_friendrequest_timeout f * 2) |>)
  else mret tt.

Definition m_handle_status (i : Z) (status : bool) : MS Z :=
  f ← the_friend i;
  (if status then send_online_packet (f_friendcon_id f);; mret tt
   else if f_status f =? FRIEND_ONLINE then set_friend_status i FRIEND_CONFIRMED else mret tt);;
  mret 0.

Definition m_get_friend_toxcore_capabilities (m : Messenger) (friendnumber : Z) : Z :=
  if negb (m_friend_exists m friendnumber) then TOX_CAPABILITY_BASIC else f_toxcore_capabilities (friend_at m friendnumber).

(** *** Packets that control a transfer *)

(** [outbound] is the view of the receiver of the packet: its own transfer is
    meant when it is true. *)
Definition handle_filecontrol (friendnumber : Z) (outbound : bool) (filenumber control_type : Z) (data : bytes) (length : Z) : MS Z :=
  ft ← the_transfer (negb outbound) friendnumber filenumber;
  let real := real_filenumber (negb outbound) filenumber in
  let update := on_transfer (negb outbound) friendnumber filenumber in
  if ft_status ft =? FILESTATUS_NONE then
    (if negb (control_type =? FILECONTROL_KILL)
     then send_file_control_packet friendnumber (negb outbound) filenumber FILECONTROL_KILL [] 0;; mret tt else mret tt);;
    mret (-1)
  else if control_type =? FILECONTROL_ACCEPT then
    update (λ ft, ft <| ft_send_ackd := true |>);;
    if outbound && (ft_status ft =? FILESTATUS_NOT_ACCEPTED) then
      update (λ ft, ft <| ft_status := FILESTATUS_TRANSFERRING |>);;
      on_friend friendnumber (add_sending 1);;
      tell (EvFileControl friendnumber real control_type);; mret 0
    else if negb (Z.land (ft_paused ft) FILE_PAUSE_OTHER =? 0) then
      update (λ ft, ft <| ft_paused := Z.lxor (ft_paused ft) FILE_PAUSE_OTHER |>);;
      tell (EvFileControl friendnumber real control_type);; mret 0
    else mret (-1)
  else if control_type =? FILECONTROL_SEND_ACK then
    if ft_type ft =? FILEKIND_FTV2 then
      if negb outbound then mret (-1)
      else if negb (length =? FILE_ID_LENGTH) then mret (-1)
      else if negb (bytes_eqb (slice 0 FILE_ID_LENGTH data) (ft_id ft)) then mret (-1)
      else update (λ ft, ft <| ft_send_ackd := true |>);; mret 0
    else mret 0
  else if control_type =? FILECONTROL_PAUSE then
    update (λ ft, ft <| ft_send_ackd := true |>);;
    if negb (Z.land (ft_paused ft) FILE_PAUSE_OTHER =? 0) || negb (ft_status ft =? FILESTATUS_TRANSFERRING) then mret (-1)
    else
      update (λ ft, ft <| ft_paused := Z.lor (ft_paused ft) FILE_PAUSE_OTHER |>);;
      tell (EvFileControl friendnumber real control_type);; mret 0
  else if control_type =? FILECONTROL_KILL then
    update (λ ft, ft <| ft_send_ackd := true |>);;
    if outbound && (ft_status ft =? FILESTATUS_FINISHED) && (ft_type ft =? FILEKIND_FTV2) then mret 0
    else
      tell (EvFileControl friendnumber real control_type);;
      (if outbound && ((ft_status ft =? FILESTATUS_TRANSFERRING) || (ft_status ft =? FILESTATUS_FINISHED))
       then on_friend friendnumber (add_sending (-1)) else mret tt);;
      (if negb outbound && negb (ft_status ft =? FILESTATUS_NONE) then on_friend friendnumber (add_receiving (-1)) else mret tt);;
      update clear_transfer;; mret 0
  else if control_type =? FILECONTROL_SEEK then
    update (λ ft, ft <| ft_send_ackd := true |>);;
    if negb (length =? 8) then mret (-1)
    else if (if ft_type ft =? FILEKIND_FTV2 then negb outbound else negb (ft_status ft =? FILESTATUS_NOT_ACCEPTED) || negb outbound) then mret (-1)
    else
      let position := net_unpack_u64 data in
      if ft_size ft <=? position then mret (-1)
      else
        update (λ ft, ft <| ft_received_seek_control := true |> <| ft_seek_counter := PAUSE_CYCLES_ON_FTV2_SEEK_RECEIVED |>
                         <| ft_receiver_idle := 0 |> <| ft_sender_idle := 0 |> <| ft_requested := position |> <| ft_transferred := position |>);;
        mret 0
  else if control_type =? FILECONTROL_FINISHED then
    update (λ ft, ft <| ft_send_ackd := true |>);;
    (if outbound && (ft_status ft =? FILESTATUS_TRANSFERRING) && (ft_type ft =? FILEKIND_FTV2)
     then update (λ ft, ft <| ft_status := FILESTATUS_FINISHED |>) else mret tt);;
    mret 0
  else mret (-1).

(** *** Packets of a friend *)

Definition m_handle_lossy_packet (friend_num : Z) (packet : bytes) : MS Z :=
  m ← get (λ m, m);
  if negb (m_friend_exists m friend_num) then mret 1 else tell (EvLossy friend_num packet);; mret 1.

Definition handle_custom_lossless_packet (friend_num : Z) (packet : bytes) : MS Z :=
  m ← get (λ m, m);
  if negb (m_friend_exists m friend_num) then mret (-1)
  else if ((aget 0 packet 0 <? PACKET_ID_RANGE_LOSSLESS_CUSTOM_START) || (PACKET_ID_RANGE_LOSSLESS_CUSTOM_END <? aget 0 packet 0))
          && negb (aget 0 packet 0 =? PACKET_ID_MSI) then mret (-1)
  else tell (EvLossless friend_num packet);; mret 1.

Definition friend_already_added (m : Messenger) (real_pk : bytes) : Z := if getfriend_id m real_pk =? -1 then 0 else -1.

(** The case [PACKET_ID_FILE_SENDREQUEST] of [m_handle_packet]. *)
Definition handle_file_sendrequest (i : Z) (data : bytes) : MS unit :=
  let head_length := 1 + 4 + 8 + FILE_ID_LENGTH in
  if zlen data <? head_length then mret tt
  else
    let filenumber := aget 0 data 0 in
    let filename_length := zlen data - head_length in
    if MAX_FILENAME_LENGTH <? filename_length then mret tt
    else
      let file_type := net_unpack_u32 (drop 1 data) in
      let filesize := net_unpack_u64 (drop 5 data) in
      ft ← the_transfer true i filenumber;
      if negb (ft_status ft =? FILESTATUS_NONE) then
        if ft_type ft =? FILEKIND_FTV2
        then send_file_control_packet i true filenumber FILECONTROL_SEND_ACK (ft_id ft) FILE_ID_LENGTH;; mret tt else mret tt
      else
        on_transfer true i filenumber (λ ft, ft <| ft_status := if is_msgv2 file_type then FILESTATUS_TRANSFERRING else FILESTATUS_NOT_ACCEPTED |>);;
        if is_msgv2 file_type && (HACK_TOX_MAX_FILETRANSFER_SIZE_MSGV2 <? filesize) then mret tt
        else
          on_transfer true i filenumber (λ ft, ft <| ft_type := file_type |> <| ft_size := filesize |> <| ft_transferred := 0 |>
            <| ft_paused := FILE_PAUSE_NOT |> <| ft_id := slice 13 FILE_ID_LENGTH data |>);;
          on_friend i (add_receiving 1);;
          tell (EvFileRequest i (real_filenumber true filenumber) file_type filesize (slice head_length filename_length data));;
          ft ← the_transfer true i filenumber;
          if ft_type ft =? FILEKIND_FTV2
          then send_file_control_packet i true filenumber FILECONTROL_SEND_ACK (ft_id ft) FILE_ID_LENGTH;; mret tt else mret tt.

(** The case [PACKET_ID_FILE_DATA], for a transfer with offsets, ... *)
Definition handle_file_data_v2 (i filenumber : Z) (file_data : bytes) : MS unit :=
  let real := real_filenumber true filenumber in
  ft ← the_transfer true i filenumber;
  if zlen file_data <? FILE_OFFSET_LENGTH + FILE_ID_LENGTH + 1 then mret tt
  else
    let offset := net_unpack_u64 file_data in
    let length_raw_ft := u16 (zlen file_data - FILE_OFFSET_LENGTH - FILE_ID_LENGTH) in
    let raw := drop (Z.to_nat FILE_OFFSET_LENGTH) file_data in
    if negb (bytes_eqb (slice 0 FILE_ID_LENGTH raw) (ft_id ft)) then
      send_file_control_packet i true filenumber FILECONTROL_KILL [] 0;;
      tell (EvFileControl i real FILECONTROL_KILL)
    else if u64 (ft_size ft - length_raw_ft) <? offset then mret tt
    else if negb (offset =? ft_transferred ft) then
      send_file_control_packet i true filenumber FILECONTROL_SEEK (net_pack_u64 (ft_transferred ft)) 8;; mret tt
    else
      on_transfer true i filenumber (λ ft, ft <| ft_receiver_idle := 0 |>);;
      tell (EvFileData i real (ft_transferred ft) raw);;
      let transferred := u64 (ft_transferred ft + length_raw_ft) in
      on_transfer true i filenumber (λ ft, ft <| ft_transferred := transferred |>);;
      if transferred =? ft_size ft then
        sent ← send_file_control_packet i true filenumber FILECONTROL_FINISHED [] 0;
        if sent : bool then
          on_friend i (add_receiving (-1));;
          tell (EvFileData i real transferred []);;
          on_transfer true i filenumber (λ ft, clear_transfer (ft <| ft_transferred := 0 |>))
        else mret tt
      else mret tt.

(** ... and for one that relies on the order of the packets. *)
Definition handle_file_data_v1 (i filenumber : Z) (file_data : bytes) : MS unit :=
  let real := real_filenumber true filenumber in
  ft ← the_transfer true i filenumber;
  let position := ft_transferred ft in
  let length := if ft_size ft <? u64 (ft_transferred ft + zlen file_data) then u16 (ft_size ft - ft_transferred ft) else zlen file_data in
  tell (EvFileData i real position (slice 0 length file_data));;
  let transferred := u64 (ft_transferred ft + length) in
  on_transfer true i filenumber (λ ft, ft <| ft_transferred := transferred |>);;
  let over := (0 <? length) && ((ft_size ft <=? transferred) || negb (length =? MAX_FILE_DATA_SIZE)) in
  (if over then on_friend i (add_receiving (-1));; tell (EvFileData i real transferred []) else mret tt);;
  if over || (length =? 0) then
    on_friend i (add_receiving (-1));;
    on_transfer true i filenumber (λ ft, ft <| ft_status := FILESTATUS_NONE |>)
  else mret tt.

Definition handle_file_data (i : Z) (data : bytes) : MS unit :=
  if zlen data <? 1 then mret tt
  else
    let filenumber := aget 0 data 0 in
    ft ← the_transfer true i filenumber;
    if negb (ft_status ft =? FILESTATUS_TRANSFERRING) then
      if ft_status ft =? FILESTATUS_NONE then send_file_control_packet i true filenumber FILECONTROL_KILL [] 0;; mret tt else mret tt
    else
      on_transfer true i filenumber (λ ft, ft <| ft_send_ackd := true |>);;
      if ft_type ft =? FILEKIND_FTV2 then handle_file_data_v2 i filenumber (drop 1 data) else handle_file_data_v1 i filenumber (drop 1 data).

Definition GC_JOIN_DATA_LENGTH : Z := 32 + 32.
Definition GROUP_INVITE : Z := 0.
Definition GROUP_INVITE_ACCEPTED : Z := 1.
Definition GROUP_INVITE_CONFIRMATION : Z := 2.

(** The case [PACKET_ID_INVITE_GROUPCHAT]. *)
Definition handle_group_invite (i : Z) (data : bytes) : MS unit :=
  if zlen data <? 2 + GC_JOIN_DATA_LENGTH then mret tt
  else
    let invite_type := aget 0 data 1 in
    let join_data := drop 2 data in
    if (invite_type =? GROUP_INVITE) && negb (zlen data =? 2 + GC_JOIN_DATA_LENGTH) then
      new ← ask (CGroupNotAdded join_data);
      if negb (new =? 0) then tell (EvGroupInvite i (slice 0 GC_JOIN_DATA_LENGTH join_data) (drop (Z.to_nat GC_JOIN_DATA_LENGTH) join_data))
      else mret tt
    else if invite_type =? GROUP_INVITE_ACCEPTED then ask (CGroupAccepted i join_data);; mret tt
    else if invite_type =? GROUP_INVITE_CONFIRMATION then ask (CGroupConfirmed i join_data);; mret tt
    else mret tt.

(** The switch of [m_handle_packet]. *)
Definition handle_friend_packet (i : Z) (packet : bytes) : MS unit :=
  let packet_id := aget 0 packet 0 in
  let data := drop 1 packet in
  let data_length := zlen data in
  if packet_id =? PACKET_ID_OFFLINE then
    if 0 <? data_length then mret tt else set_friend_status i FRIEND_CONFIRMED
  else if packet_id =? PACKET_ID_NICKNAME then
    if MAX_NAME_LENGTH <? data_length then mret tt
    else
      tell (EvName i data);;
      on_friend i (λ f, f <| f_name := copy_over data (f_name f) |> <| f_name_length := data_length |>)
  else if packet_id =? PACKET_ID_STATUSMESSAGE then
    if MAX_STATUSMESSAGE_LENGTH <? data_length then mret tt
    else tell (EvStatusMessage i data);; set_friend_statusmessage i data data_length;; mret tt
  else if packet_id =? PACKET_ID_USERSTATUS then
    if negb (data_length =? 1) then mret tt
    else
      let status := aget 0 data 0 in
      if USERSTATUS_INVALID <=? status then mret tt
      else tell (EvUserStatus i status);; set_friend_userstatus i status
  else if packet_id =? PACKET_ID_TYPING then
    if negb (data_length =? 1) then mret tt
    else let typing := negb (aget 0 data 0 =? 0) in set_friend_typing i typing;; tell (EvTyping i typing)
  else if (packet_id =? PACKET_ID_MESSAGE) || (packet_id =? PACKET_ID_ACTION) || (packet_id =? PACKET_ID_HIGH_LEVEL_ACK) then
    if data_length =? 0 then mret tt else tell (EvMessage i (packet_id - PACKET_ID_MESSAGE) data)
  else if packet_id =? PACKET_ID_INVITE_CONFERENCE then
    if data_length =? 0 then mret tt else tell (EvConferenceInvite i data)
  else if packet_id =? PACKET_ID_FILE_SENDREQUEST then handle_file_sendrequest i data
  else if packet_id =? PACKET_ID_FILE_CONTROL then
    if data_length <? 3 then mret tt
    else handle_filecontrol i (aget 0 data 0 =? 1) (aget 0 data 1) (aget 0 data 2) (drop 3 data) (data_length - 3);; mret tt
  else if packet_id =? PACKET_ID_FILE_DATA then handle_file_data i data
  else if packet_id =? PACKET_ID_INVITE_GROUPCHAT then handle_group_invite i data
  else handle_custom_lossless_packet i packet;; mret tt.

Definition m_handle_packet (i : Z) (packet : bytes) : MS Z :=
  if zlen packet =? 0 then mret (-1)
  else
    f ← the_friend i;
    let packet_id := aget 0 packet 0 in
    go ← (if negb (f_status f =? FRIEND_ONLINE) then
            if packet_id =? PACKET_ID_ONLINE then
              if zlen packet =? TOX_CAPABILITIES_SIZE + 1 then
                on_friend i (λ f, f <| f_toxcore_capabilities := net_unpack_u64 (drop 1 packet) |>);; mret true
              else if zlen packet =? 1 then set_friend_status i FRIEND_ONLINE;; send_online_packet i;; mret true
              else mret false
            else mret false
          else mret true);
    if negb go then mret (-1) else handle_friend_packet i packet;; mret 0.

(** *** Once per iteration *)

(** The name, the status message, the status and whether we are typing are sent
    until they have been. *)
Definition send_unsent (i : Z) : MS unit :=
  m ← get (λ m, m);
  (if negb (f_name_sent (friend_at m i)) then
     ok ← m_sendname i (ms_name m) (ms_name_length m);
     if ok : bool then on_friend i (λ f, f <| f_name_sent := true |>) else mret tt
   else mret tt);;
  (if negb (f_statusmessage_sent (friend_at m i)) then
     ok ← send_statusmessage i (ms_statusmessage m) (ms_statusmessage_length m);
     if ok : bool then on_friend i (λ f, f <| f_statusmessage_sent := true |>) else mret tt
   else mret tt);;
  (if negb (f_userstatus_sent (friend_at m i)) then
     ok ← send_userstatus i (ms_userstatus m);
     if ok : bool then on_friend i (λ f, f <| f_userstatus_sent := true |>) else mret tt
   else mret tt);;
  (if negb (f_user_istyping_sent (friend_at m i)) then
     ok ← send_user_istyping i (f_user_istyping (friend_at m i));
     if ok : bool then on_friend i (λ f, f <| f_user_istyping_sent := true |>) else mret tt
   else mret tt).

Definition do_friend (i temp_time : Z) : MS unit :=
  f ← the_friend i;
  (if f_status f =? FRIEND_ADDED then
     fr ← ask (CFriendRequest (f_friendcon_id f) (f_friendrequest_nospam f) (slice 0 (f_info_size f) (f_info f)));
     if 0 <=? fr then set_friend_status i FRIEND_REQUESTED;; on_friend i (λ f, f <| f_friendrequest_lastsent := temp_time |>) else mret tt
   else mret tt);;
  f ← the_friend i;
  (if f_status f =? FRIEND_REQUESTED then check_friend_request_timed_out i temp_time else mret tt);;
  f ← the_friend i;
  if f_status f =? FRIEND_ONLINE then
    send_unsent i;;
    check_friend_tcp_udp i;;
    do_receipts i;;
    do_reqchunk_filecb i;;
    t ← ask CTime;
    on_friend i (λ f, f <| f_last_seen_time := u64 t |>)
  else mret tt.

(** The client does not remove friends while it is asked for chunks. *)
Definition do_friends : MS unit :=
  m ← get (λ m, m);
  for_each (seqZ 0 (numfriends m)) (λ i, do_friend i (mono_time_get (ms_mono_time m))).
End client.

(** *** A messenger *)

Definition new_messenger (self_public_key : bytes) (nospam : Z) (mono_time : Mono_Time) (answer : nat → Z) : Messenger :=
  mkMessenger self_public_key (callback_friendrequest (set_nospam friendreq_new nospam)) (zeros 128) 0 (zeros 1007) 0 0 [] mono_time [] answer [].

Definition count_friendlist (m : Messenger) : Z := zlen (filter (λ f, 0 < f_status f) (ms_friendlist m)).

(** The loop of [copy_friendlist]. *)
Fixpoint copy_friends (l : list Friend) (i : Z) (room : nat) : list Z :=
  match l, room with
  | [], _ | _, O => []
  | f :: l', S room' => if 0 <? f_status f then i :: copy_friends l' (i + 1) room' else copy_friends l' (i + 1) room
  end.
Definition copy_friendlist (m : Messenger) (list_size : Z) : list Z := copy_friends (ms_friendlist m) 0 (Z.to_nat list_size).
