(* ===== verification/FileRuns.v ===== *)
(** * FileRuns: what operations leave of an incoming transfer

    The operations of a messenger as one type, and the proof that all of them but
    the ones meant for a transfer leave it alone: what it has received, and where
    it stands. *)
From S2P Require Import Prelude Util MonoTime CryptoCore Network World Steps FriendRequests CryptoConnection NetCrypto Messenger FileTransfer.

(** ** Operations *)

(** What happens to a messenger: packets and changes of the connection of a
    friend, iterations, and calls of the client. *)
Inductive Messenger_Op :=
  | OPacket (friendnumber : Z) (packet : bytes)
  | OLossyPacket (friendnumber : Z) (packet : bytes)
  | OStatus (friendnumber : Z) (online : bool)
  | OIterate
  | OTime (t : Mono_Time)
  | OAddFriend (address data : bytes) (length : Z)
  | OAddFriendNoRequest (real_pk : bytes)
  | ODelFriend (friendnumber : Z)
  | OSendMessage (friendnumber type : Z) (message : bytes) (length : Z)
  | OSetName (name : bytes) (length : Z)
  | OSetStatusMessage (status : bytes) (length : Z)
  | OSetUserStatus (status : Z)
  | OSetTyping (friendnumber : Z) (is_typing : bool)
  | ONewFile (friendnumber file_type filesize : Z) (file_id filename : bytes) (filename_length : Z)
  | OFileControl (friendnumber filenumber control : Z)
  | OFileSeek (friendnumber filenumber position : Z)
  | OSendData (friendnumber filenumber position : Z) (data : bytes) (length : Z)
  | OSendLossy (friendnumber : Z) (data : bytes) (length : Z)
  | OSendLossless (friendnumber : Z) (data : bytes) (length : Z).

Definition ignore {A} (m : MS A) : MS unit := m;; mret tt.

Definition run_op (client : Z → Z → Z → Z → MS unit) (op : Messenger_Op) : MS unit :=
  match op with
  | OPacket i p => ignore (m_handle_packet i p)
  | OLossyPacket i p => ignore (m_handle_lossy_packet i p)
  | OStatus i b => ignore (m_handle_status i b)
  | OIterate => do_friends client
  | OTime t => modify (λ m, m <| ms_mono_time := t |>)
  | OAddFriend a d n => ignore (m_addfriend a d n)
  | OAddFriendNoRequest k => ignore (m_addfriend_norequest k)
  | ODelFriend i => ignore (m_delfriend i)
  | OSendMessage i t d n => ignore (m_send_message_generic i t d n)
  | OSetName d n => ignore (setname d n)
  | OSetStatusMessage d n => ignore (m_set_statusmessage d n)
  | OSetUserStatus s => ignore (m_set_userstatus s)
  | OSetTyping i b => ignore (m_set_usertyping i b)
  | ONewFile i t s id d n => ignore (new_filesender i t s id d n)
  | OFileControl i n c => ignore (file_control i n c)
  | OFileSeek i n p => ignore (file_seek i n p)
  | OSendData i n p d l => ignore (send_file_data i n p d l)
  | OSendLossy i d l => ignore (m_send_custom_lossy_packet i d l)
  | OSendLossless i d l => ignore (send_custom_lossless_packet i d l)
  end.

Fixpoint run_ops (client : Z → Z → Z → Z → MS unit) (ops : list Messenger_Op) (m : Messenger) : Messenger :=
  match ops with
  | [] => m
  | op :: ops' => run_ops client ops' (run_op client op m).2
  end.

(** ** Keeping an assertion *)

Ltac msteps_with tac :=
  steps_with ltac:(first
    [ lazymatch goal with
      | |- keeps _ (the_friend _) => apply mk_get
      | |- keeps _ (the_transfer _ _ _) => apply mk_get
      end
    | tac ]).

Create HintDb slots.

(** ** Lists of friends *)

Lemma first_free_spec l x : (first_free l x = x + zlen l) ∨
  (∃ j, 0 <= j < zlen l ∧ first_free l x = x + j ∧ f_status (aget empty_friend l j) = NOFRIEND).
Proof.
  revert x. induction l as [|f l IH]; intros x; cbn [first_free]; [left; unfold zlen; cbn; lia|].
  rewrite zlen_cons. destruct (Z.eqb_spec (f_status f) NOFRIEND) as [E|_].
  - right. exists 0. split; [unfold zlen; lia|]. split; [lia|done].
  - destruct (IH (x + 1)) as [->|(j & Hj & -> & Hs)]; [left; lia|]. right. exists (j + 1). split; [lia|]. split; [lia|].
    rewrite <- Hs. unfold aget. by replace (Z.to_nat (j + 1)) with (Datatypes.S (Z.to_nat j)) by lia.
Qed.

Lemma trim_lookup l (j : nat) f : l !! j = Some f → f_status f ≠ NOFRIEND → trim_friends l !! j = Some f.
Proof.
  revert j. induction l as [|f' l IH]; intros j Hj Hs; [done|]. cbn [trim_friends]. destruct j as [|j].
  - injection Hj as ->. rewrite (proj2 (Z.eqb_neq _ _) Hs). by destruct (trim_friends l).
  - specialize (IH j Hj Hs). by destruct (trim_friends l).
Qed.

Section slot.
(** The transfer [n] from friend [i]; [k] is the number of events before it. *)
Context (i n : Z) (k : nat).
Hypothesis (Hi : 0 <= i) (Hn : 0 <= n < 256).

(** The data handed to the client. *)
Definition piece (e : Messenger_Event) : list (Z * bytes) :=
  match e with
  | EvFileData j f p d => if bool_decide (j = i ∧ f = real_filenumber true n) then [(p, d)] else []
  | _ => []
  end.
Definition pieces (m : Messenger) : list (Z * bytes) := drop k (ms_events m) ≫= piece.

(** Where the transfer stands. *)
Record Standing := mkStanding { st_type : Z; st_id : bytes; st_size : Z; st_transferred : Z }.
Definition standing (ft : File_Transfers) : Standing := mkStanding (ft_type ft) (ft_id ft) (ft_size ft) (ft_transferred ft).

Definition active (ft : File_Transfers) : Prop := ft_status ft = FILESTATUS_NOT_ACCEPTED ∨ ft_status ft = FILESTATUS_TRANSFERRING.

Record slot_ok (c : Standing) (f : Friend) : Prop := {
  sl_live : f_status f ≠ NOFRIEND;
  sl_length : length (f_file_receiving f) = 256%nat;
  sl_active : active (transfer true f n);
  sl_standing : standing (transfer true f n) = c;
  sl_kind : st_type c = FILEKIND_FTV2
}.

Record stays (c : Standing) (g : list (Z * bytes)) (m : Messenger) : Prop := {
  sy_friend : i < numfriends m;
  sy_slot : slot_ok c (friend_at m i);
  sy_events : (k <= length (ms_events m))%nat;
  sy_pieces : pieces m = g
}.

(** ** Elementary steps *)

Lemma stays_same c g m m' : stays c g m → ms_friendlist m' = ms_friendlist m → ms_events m' = ms_events m → stays c g m'.
Proof using. intros [H1 H2 H3 H4] E1 E2. unfold numfriends, pieces, friend_at in *. split; unfold numfriends, pieces, friend_at; by rewrite ?E1, ?E2. Qed.

Lemma mk_ask c g call : keeps (stays c g) (ask call).
Proof using. intros s Hs. by apply (stays_same c g s). Qed.

Lemma mk_tell c g e : piece e = [] → keeps (stays c g) (tell e).
Proof using.
  intros He s [H1 H2 H3 H4]. split; try done; cbn [tell modify snd set_field ms_events].
  - rewrite length_app. lia.
  - unfold pieces in *. cbn [tell modify snd set_field ms_events]. rewrite drop_app_le, bind_app, H4 by done. cbn. by rewrite He, !app_nil_r.
Qed.

Lemma mk_friend c g j h : 0 <= j → (∀ f, slot_ok c f → j = i → slot_ok c (h f)) → keeps (stays c g) (on_friend j h).
Proof using Hi.
  intros Hj Hh s [H1 H2 H3 H4]. split; try done.
  - unfold numfriends, zlen. cbn [on_friend modify snd set_field ms_friendlist]. by rewrite length_aset.
  - unfold friend_at. cbn [on_friend modify snd set_field ms_friendlist]. destruct (decide (j = i)) as [->|Hne].
    + rewrite aget_aset_eq by (unfold numfriends in H1; lia). by apply Hh.
    + by rewrite aget_aset_ne.
Qed.

(** A change of the friend that the transfer does not notice. *)
Lemma slot_same c f f' : slot_ok c f → f_status f' = f_status f → f_file_receiving f' = f_file_receiving f → slot_ok c f'.
Proof using. intros [H1 H2 H3 H4 H5] E1 E2. split; unfold transfer, transfers in *; by rewrite ?E1, ?E2. Qed.

(** A change of a transfer. *)
Lemma slot_set c f inbound n' h : slot_ok c f → 0 <= n' →
  (inbound = true → n' = n → let ft := transfer true f n in active (h ft) ∧ standing (h ft) = standing ft) → slot_ok c (set_transfer inbound n' h f).
Proof using Hn.
  intros Hs Hn' Hh. destruct inbound; [|by apply (slot_same c f)]. pose proof Hs as [H1 H2 H3 H4 H5]. cbv zeta in Hh.
  destruct (decide (n' = n)) as [->|Hne].
  - destruct (Hh eq_refl eq_refl) as [Ha Hst]. assert (transfer true (set_transfer true n h f) n = h (transfer true f n)) as E.
    { unfold transfer at 1, transfers, set_transfer. cbn [set_field f_file_receiving]. apply aget_aset_eq. unfold zlen. lia. }
    split; rewrite ?E; try done; [cbn [set_transfer set_field f_file_receiving]; by rewrite length_aset|by rewrite Hst].
  - assert (transfer true (set_transfer true n' h f) n = transfer true f n) as E.
    { unfold transfer at 1, transfers, set_transfer. cbn [set_field f_file_receiving]. by rewrite aget_aset_ne by lia. }
    split; rewrite ?E; try done. cbn [set_transfer set_field f_file_receiving]. by rewrite length_aset.
Qed.

Lemma mk_transfer c g inbound j n' h : 0 <= j → 0 <= n' →
  (inbound = true → n' = n → j = i → ∀ ft, active ft → active (h ft) ∧ standing (h ft) = standing ft) → keeps (stays c g) (on_transfer inbound j n' h).
Proof using Hi Hn. intros Hj Hn' Hh. apply mk_friend; [done|]. intros f Hf E. apply slot_set; [done..|]. intros E1 E2. apply Hh; try done. apply Hf. Qed.

#[local] Hint Resolve mk_ask : slots.
Ltac slot_change := apply mk_friend; [assumption|intros ? Hsl _; by apply (slot_same _ _ _ Hsl)].
Ltac slot_step := first [solve [eauto 2 with slots] | apply mk_tell; reflexivity | slot_change | progress intros].
Ltac slot_steps := msteps_with slot_step.

(** ** Operations that do not concern the transfer *)

Lemma mk_send_online c g j : keeps (stays c g) (send_online_packet j).
Proof using. unfold send_online_packet. slot_steps. Qed.
Lemma mk_send_offline c g j : keeps (stays c g) (send_offline_packet j).
Proof using. unfold send_offline_packet. slot_steps. Qed.
Lemma mk_write c g j id d l b : keeps (stays c g) (write_cryptpacket_id j id d l b).
Proof using. unfold write_cryptpacket_id. slot_steps. Qed.
#[local] Hint Resolve mk_send_online mk_send_offline mk_write : slots.
Lemma mk_control_packet c g j inbound n' t d l : keeps (stays c g) (send_file_control_packet j inbound n' t d l).
Proof using. unfold send_file_control_packet. slot_steps. Qed.
Lemma mk_sendrequest c g j n' t s id d l : keeps (stays c g) (file_sendrequest j n' t s id d l).
Proof using. unfold file_sendrequest. slot_steps. Qed.
Lemma mk_data_packet c g j n' d l : keeps (stays c g) (send_file_data_packet j n' d l).
Proof using. unfold send_file_data_packet. slot_steps. Qed.
Lemma mk_received c g j p : keeps (stays c g) (friend_received_packet j p).
Proof using. unfold friend_received_packet. slot_steps. Qed.
Lemma mk_connection c g j : keeps (stays c g) (m_get_friend_connectionstatus j).
Proof using. unfold m_get_friend_connectionstatus. slot_steps. Qed.
#[local] Hint Resolve mk_control_packet mk_sendrequest mk_data_packet mk_received mk_connection : slots.

Lemma mk_clear_receipts c g j : 0 <= j → keeps (stays c g) (clear_receipts j).
Proof using Hi. intros Hj. unfold clear_receipts. slot_steps. Qed.
Lemma mk_add_receipt c g j p d : 0 <= j → keeps (stays c g) (add_receipt j p d).
Proof using Hi. intros Hj. unfold add_receipt. slot_steps. Qed.
Lemma mk_receipts_loop c g l j : 0 <= j → keeps (stays c g) (receipts_loop l j).
Proof using Hi. intros Hj. induction l as [|[p d] l IH]; cbn [receipts_loop]; slot_steps. Qed.
#[local] Hint Resolve mk_clear_receipts mk_add_receipt mk_receipts_loop : slots.
Lemma mk_do_receipts c g j : 0 <= j → keeps (stays c g) (do_receipts j).
Proof using Hi. intros Hj. unfold do_receipts. slot_steps. Qed.
Lemma mk_send_message c g j t d l : 0 <= j → keeps (stays c g) (m_send_message_generic j t d l).
Proof using Hi. intros Hj. unfold m_send_message_generic. slot_steps. Qed.
Lemma mk_usertyping c g j b : 0 <= j → keeps (stays c g) (m_set_usertyping j b).
Proof using Hi. intros Hj. unfold m_set_usertyping. slot_steps. Qed.
Lemma mk_friend_statusmessage c g j d l : 0 <= j → keeps (stays c g) (set_friend_statusmessage j d l).
Proof using Hi. intros Hj. unfold set_friend_statusmessage. slot_steps. Qed.
Lemma mk_tcp_udp c g j : 0 <= j → keeps (stays c g) (check_friend_tcp_udp j).
Proof using Hi. intros Hj. unfold check_friend_tcp_udp. slot_steps. Qed.
#[local] Hint Resolve mk_do_receipts mk_tcp_udp mk_friend_statusmessage : slots.
Lemma mk_unsent c g j : 0 <= j → keeps (stays c g) (send_unsent j).
Proof using Hi. intros Hj. unfold send_unsent, m_sendname, send_statusmessage, send_userstatus, send_user_istyping. slot_steps. Qed.
Lemma mk_send_lossy c g j d l : keeps (stays c g) (m_send_custom_lossy_packet j d l).
Proof using. unfold m_send_custom_lossy_packet. slot_steps. Qed.
Lemma mk_send_lossless c g j d l : keeps (stays c g) (send_custom_lossless_packet j d l).
Proof using. unfold send_custom_lossless_packet. slot_steps. Qed.
#[local] Hint Resolve mk_unsent : slots.

(** *** The list of friends *)

(** A new list in which the friend keeps what matters. *)
Lemma stays_list c g m l : stays c g m → (∀ f, ms_friendlist m !! Z.to_nat i = Some f → slot_ok c f → ∃ f', l !! Z.to_nat i = Some f' ∧ slot_ok c f') →
  stays c g (m <| ms_friendlist := l |>).
Proof using Hi.
  intros [H1 H2 H3 H4] H. pose proof (aget_lookup empty_friend (ms_friendlist m) i ltac:(unfold numfriends in H1; lia)) as Hf.
  destruct (H _ Hf H2) as (f' & Hf' & Hs). split; try done; unfold numfriends, friend_at; cbn [set_field ms_friendlist].
  - apply lookup_lt_Some in Hf'. unfold zlen. lia.
  - unfold aget. by rewrite Hf'.
Qed.

Lemma mk_map c g (h : Messenger → Messenger) u : (∀ m, ms_friendlist (h m) = map u (ms_friendlist m)) → (∀ m, ms_events (h m) = ms_events m) →
  (∀ f, f_status (u f) = f_status f) → (∀ f, f_file_receiving (u f) = f_file_receiving f) → keeps (stays c g) (modify h).
Proof using Hi.
  intros E1 E2 U1 U2. apply mk_modify. intros s Hs. apply (stays_same c g (s <| ms_friendlist := map u (ms_friendlist s) |>)); [|by rewrite E1|by rewrite E2].
  apply stays_list; [done|]. intros f Hf Hok. exists (u f). split; [by rewrite list_lookup_fmap, Hf|]. by apply (slot_same c f).
Qed.

Lemma mk_setname c g d l : keeps (stays c g) (setname d l).
Proof using Hi. unfold setname. slot_steps. by eapply mk_map. Qed.
Lemma mk_set_statusmessage c g d l : keeps (stays c g) (m_set_statusmessage d l).
Proof using Hi. unfold m_set_statusmessage. slot_steps. by eapply mk_map. Qed.
Lemma mk_set_userstatus c g b : keeps (stays c g) (m_set_userstatus b).
Proof using Hi. unfold m_set_userstatus. slot_steps. by eapply mk_map. Qed.

Lemma mk_init_friend c g key status : status ≠ NOFRIEND → keeps (stays c g) (init_new_friend key status).
Proof using Hi.
  intros Hst. unfold init_new_friend. apply mk_bind; [apply mk_get|intros m0]. destruct (_ =? _); [apply mk_ret|].
  do 2 (apply mk_bind; [apply mk_ask|intros ?]; destruct (_ =? _); [apply mk_ret|]). apply mk_read. intros s0 Hs. cbv zeta.
  assert (0 <= first_free (ms_friendlist s0) 0 ∧ first_free (ms_friendlist s0) 0 ≠ i) as [Hpos Hne].
  { destruct Hs as [H1 [H2 _ _ _ _] _ _]. unfold numfriends, zlen in H1.
    destruct (first_free_spec (ms_friendlist s0) 0) as [->|(j & Hj & -> & Hfree)]; unfold zlen in *; split; try lia.
    intros E. apply H2. unfold friend_at. by replace i with j by lia. }
  slot_steps.
  - apply mk_modify. intros s Hs'. apply stays_list; [done|]. intros f Hf Hok. exists f. split; [|done]. by apply lookup_app_l_Some.
  - apply mk_friend; [done|]. intros f _ E. by destruct Hne.
Qed.
#[local] Hint Resolve mk_init_friend : slots.

Lemma mk_add_norequest c g key : keeps (stays c g) (m_addfriend_norequest key).
Proof using Hi. unfold m_addfriend_norequest, m_add_friend_contact_norequest. slot_steps. Qed.

Lemma find_friend_nonneg l x key : 0 <= x → find_friend l x key ≠ -1 → 0 <= find_friend l x key.
Proof using.
  revert x. induction l as [|f l IH]; intros x Hx; cbn [find_friend]; [done|]. destruct (_ && _); [done|]. apply IH. lia.
Qed.

Lemma mk_addfriend c g a d l : keeps (stays c g) (m_addfriend a d l).
Proof using Hi.
  unfold m_addfriend. slot_steps.
  - apply mk_friend; [|intros ? Hsl _; by apply (slot_same _ _ _ Hsl)].
    apply find_friend_nonneg; [done|]. intros E. unfold getfriend_id in *. by rewrite E in *.
  - apply mk_friend; [by apply Z.ltb_ge|intros ? Hsl _; by apply (slot_same _ _ _ Hsl)].
Qed.

Lemma mk_delfriend c g j : 0 <= j → j ≠ i → keeps (stays c g) (m_delfriend j).
Proof using Hi.
  intros Hj Hne. unfold m_delfriend. slot_steps.
  - apply mk_modify. intros s Hs. by apply (stays_same c g s).
  - by apply mk_friend.
  - apply mk_modify. intros s Hs. apply stays_list; [done|]. intros f Hf Hok. exists f. split; [|done]. apply trim_lookup; [done|]. apply Hok.
Qed.

(** *** Connections *)

Lemma mk_status_field c g j status : 0 <= j → status ≠ NOFRIEND → keeps (stays c g) (on_friend j (λ f, f <| f_status := status |>)).
Proof using Hi. intros Hj Hst. apply mk_friend; [done|]. intros f [H1 H2 H3 H4 H5] _. by split. Qed.

Lemma mk_break_files c g j : 0 <= j → keeps (stays c g) (break_files j).
Proof using Hi Hn.
  intros Hj. apply mk_friend; [done|]. intros f [H1 H2 H3 H4 H5] _.
  match goal with |- slot_ok c ?f' => assert (transfer true f' n = transfer true f n) as E end.
  { unfold transfer, transfers. cbn [set_field f_file_receiving]. unfold aget. rewrite list_lookup_fmap.
    rewrite (aget_lookup empty_transfer) by (unfold zlen; lia). cbn [fmap option_fmap option_map].
    change (aget empty_transfer (f_file_receiving f) n) with (transfer true f n). unfold break_transfer.
    rewrite <- H4 in H5. cbn [standing st_type] in H5. by rewrite H5. }
  split; rewrite ?E; try done. cbn [set_field f_file_receiving]. by rewrite length_map.
Qed.
#[local] Hint Resolve mk_status_field mk_break_files : slots.

Lemma mk_connectionstatus c g j status : 0 <= j → keeps (stays c g) (check_friend_connectionstatus j status).
Proof using Hi Hn.
  intros Hj. unfold check_friend_connectionstatus. destruct (Z.eqb_spec status NOFRIEND); [apply mk_ret|]. slot_steps.
Qed.
#[local] Hint Resolve mk_connectionstatus : slots.
Lemma mk_set_status c g j status : 0 <= j → status ≠ NOFRIEND → keeps (stays c g) (set_friend_status j status).
Proof using Hi Hn. intros Hj Hst. unfold set_friend_status. slot_steps. Qed.
#[local] Hint Resolve mk_set_status : slots.
Lemma mk_timed_out c g j t : 0 <= j → keeps (stays c g) (check_friend_request_timed_out j t).
Proof using Hi Hn. intros Hj. unfold check_friend_request_timed_out. slot_steps. Qed.
Lemma mk_handle_status c g j b : 0 <= j → keeps (stays c g) (m_handle_status j b).
Proof using Hi Hn. intros Hj. unfold m_handle_status. slot_steps. Qed.
#[local] Hint Resolve mk_timed_out : slots.

(** *** Files *)

Lemma mk_sending c g j n' h : 0 <= j → 0 <= n' → keeps (stays c g) (on_transfer false j n' h).
Proof using Hi Hn. intros Hj Hn'. by apply mk_transfer. Qed.
#[local] Hint Resolve mk_sending : slots.

Lemma first_free_transfer_nonneg l x : 0 <= x → 0 <= first_free_transfer l x.
Proof using. revert x. induction l as [|ft l IH]; intros x Hx; cbn [first_free_transfer]; [done|]. destruct (_ =? _); [done|]. apply IH. lia. Qed.
#[local] Hint Resolve first_free_transfer_nonneg : slots.

Lemma mk_new_file c g j t s id d l : 0 <= j → keeps (stays c g) (new_filesender j t s id d l).
Proof using Hi Hn. intros Hj. unfold new_filesender. slot_steps. Qed.

Lemma mk_send_data c g j n' p d l : 0 <= j → 0 <= n' → keeps (stays c g) (send_file_data j n' p d l).
Proof using Hi Hn. intros Hj Hn'. unfold send_file_data, send_file_data_v1, send_file_data_v2. slot_steps. Qed.
#[local] Hint Resolve mk_send_data : slots.

Lemma split_range filenumber inbound n' : 0 <= filenumber → split_filenumber filenumber = (inbound, n') → 0 <= n'.
Proof using.
  unfold split_filenumber. intros H. destruct (_ <=? _); intros E; injection E as <- <-; [|done]. apply u32_range.
Qed.

Lemma slot_transfer c f inbound n' h : slot_ok c f → 0 <= n' →
  (inbound = true → n' = n → ∀ ft, active ft → active (h ft) ∧ standing (h ft) = standing ft) → slot_ok c (set_transfer inbound n' h f).
Proof using Hn. intros Hs Hn' Hh. apply slot_set; [done..|]. intros E1 E2. apply Hh; try done. apply Hs. Qed.

Lemma mk_file_control c g j filenumber control : 0 <= j → 0 <= filenumber →
  (j = i → control = FILECONTROL_KILL → split_filenumber filenumber ≠ (true, n)) → keeps (stays c g) (file_control j filenumber control).
Proof using Hi Hn.
  intros Hj Hf Hno. unfold file_control. slot_steps. pose proof (split_range _ _ _ Hf Heqp) as Hz.
  apply Z.leb_gt in Heqb1. unfold MAX_CONCURRENT_FILE_PIPES in Heqb1. rewrite u8_small in * by lia.
  apply mk_friend; [done|]. intros f Hok ->. unfold apply_control. cbv zeta.
  destruct (Z.eqb_spec control FILECONTROL_KILL) as [E|_].
  - apply slot_transfer; [|done|].
    + repeat case_match; try done; by apply (slot_same c f).
    + intros -> ->. by destruct (Hno eq_refl E).
  - destruct (control =? FILECONTROL_PAUSE); [apply slot_transfer; [done..|]; intros _ _ ft Hft; done|].
    destruct (control =? FILECONTROL_ACCEPT); [|done]. apply slot_transfer; [done..|]. intros _ _ ft Hft. split; [by right|done].
Qed.

Lemma mk_file_seek c g j filenumber p : 0 <= j → 0 <= filenumber →
  (j = i → split_filenumber filenumber ≠ (true, n)) → keeps (stays c g) (file_seek j filenumber p).
Proof using Hi Hn.
  intros Hj Hf Hno. unfold file_seek. slot_steps. unfold split_filenumber in Hno. rewrite (proj2 (Z.leb_le _ _) (proj1 (Z.ltb_ge _ _) Heqb1)) in Hno.
  apply Z.leb_gt in Heqb2. unfold MAX_CONCURRENT_FILE_PIPES in Heqb2. pose proof (u32_range (Z.shiftr filenumber 16 - 1)) as [Hz _].
  rewrite u8_small in * by lia. apply mk_transfer; [done..|]. intros _ En Ej. destruct Hno; [done|]. by rewrite En.
Qed.

(** *** Packets *)

(** A change that keeps where a transfer stands. *)
Ltac slot_quiet := apply mk_transfer; [assumption..|]; intros ? ? ? ft Hft; by split.

Lemma mk_filecontrol c g j outbound n' control d l : 0 <= j → 0 <= n' →
  (outbound = false → j = i → n' = n → control ≠ FILECONTROL_KILL) → keeps (stays c g) (handle_filecontrol j outbound n' control d l).
Proof using Hi Hn.
  intros Hj Hn' Hno. unfold handle_filecontrol. slot_steps; try slot_quiet; destruct outbound; try discriminate; try by apply mk_sending.
  - apply mk_transfer; [done..|]. intros _ En Ej. destruct (Hno eq_refl Ej En). by apply Z.eqb_eq.
  - exfalso. cbn in *. repeat case_match; try discriminate; by rewrite orb_true_r in *.
Qed.
#[local] Hint Resolve mk_filecontrol : slots.

Lemma mk_lossy_packet c g j p : keeps (stays c g) (m_handle_lossy_packet j p).
Proof using. unfold m_handle_lossy_packet. slot_steps. Qed.
Lemma mk_lossless_packet c g j p : keeps (stays c g) (handle_custom_lossless_packet j p).
Proof using. unfold handle_custom_lossless_packet. slot_steps. Qed.
Lemma mk_group_invite c g j p : keeps (stays c g) (handle_group_invite j p).
Proof using. unfold handle_group_invite. slot_steps. Qed.
#[local] Hint Resolve mk_lossless_packet mk_group_invite : slots.

Lemma active_not_none ft : active ft → ft_status ft ≠ FILESTATUS_NONE.
Proof using. intros [H|H]; rewrite H; done. Qed.

Lemma mk_file_sendrequest c g j p : 0 <= j → bytes_ok p → keeps (stays c g) (handle_file_sendrequest j p).
Proof using Hi Hn.
  intros Hj Hp. unfold handle_file_sendrequest. cbv zeta. destruct (_ <? _); [apply mk_ret|]. destruct (_ <? _); [apply mk_ret|].
  pose proof (aget_byte p 0 Hp) as [Hb _]. apply mk_read. intros s0 Hs. destruct (negb _) eqn:E; [slot_steps|].
  assert (aget 0 p 0 = n → j ≠ i) as Hne.
  { intros En ->. rewrite En in E. apply negb_false_iff, Z.eqb_eq in E. destruct (active_not_none _ (sl_active _ _ (sy_slot _ _ _ Hs)) E). }
  slot_steps; apply mk_transfer; try done; intros _ En Ej; by destruct (Hne En).
Qed.

Lemma real_inj a b : 0 <= a → 0 <= b → real_filenumber true a = real_filenumber true b → a = b.
Proof using. unfold real_filenumber. rewrite !Z.shiftl_mul_pow2 by lia. lia. Qed.

Lemma mk_file_data c g j p : 0 <= j → bytes_ok p → (aget 0 p 0 = n → j ≠ i) → keeps (stays c g) (handle_file_data j p).
Proof using Hi Hn.
  intros Hj Hp Hne. pose proof (aget_byte p 0 Hp) as [Hb _].
  assert (∀ h, keeps (stays c g) (on_transfer true j (aget 0 p 0) h)) as Ht.
  { intros h. apply mk_transfer; try done; intros _ En Ej; by destruct (Hne En). }
  assert (∀ q d, keeps (stays c g) (tell (EvFileData j (real_filenumber true (aget 0 p 0)) q d))) as Hd.
  { intros q d. apply mk_tell. cbn [piece]. rewrite bool_decide_eq_false_2; [done|]. intros [Ej En]. apply real_inj in En; lia. }
  unfold handle_file_data, handle_file_data_v1, handle_file_data_v2. slot_steps.
Qed.
#[local] Hint Resolve mk_file_sendrequest mk_file_data : slots.

(** A packet that is not data for the transfer, and does not end it. *)
Definition spares (p : bytes) : Prop :=
  let packet_id := aget 0 p 0 in
  (packet_id = PACKET_ID_FILE_DATA → aget 0 p 1 ≠ n)
  ∧ (packet_id = PACKET_ID_FILE_CONTROL → aget 0 p 1 ≠ 1 → aget 0 p 2 = n → aget 0 p 3 ≠ FILECONTROL_KILL).

Lemma mk_handle_friend_packet c g j p : 0 <= j → bytes_ok p → (j = i → spares p) → keeps (stays c g) (handle_friend_packet j p).
Proof using Hi Hn.
  intros Hj Hp Hsp. assert (bytes_ok (drop 1 p)) as Hp' by (by apply Forall_drop).
  assert (∀ x, 0 <= x → aget 0 (drop 1 p) x = aget 0 p (x + 1)) as Hd.
  { intros x Hx. unfold aget. rewrite lookup_drop. do 2 f_equal. lia. }
  unfold handle_friend_packet, set_friend_userstatus, set_friend_typing. slot_steps.
  - apply mk_filecontrol; [done|by apply aget_byte|]. rewrite !Hd by lia. intros Ho Ej En. apply Z.eqb_neq in Ho.
    destruct (Hsp Ej) as [_ H]. apply H; try done. by apply Z.eqb_eq.
  - apply mk_file_data; [done..|]. rewrite Hd by lia. intros En Ej. destruct (Hsp Ej) as [H _]. apply H; [|done]. by apply Z.eqb_eq.
Qed.
#[local] Hint Resolve mk_handle_friend_packet : slots.

Lemma mk_handle_packet c g j p : 0 <= j → bytes_ok p → (j = i → spares p) → keeps (stays c g) (m_handle_packet j p).
Proof using Hi Hn. intros Hj Hp Hsp. unfold m_handle_packet. slot_steps. Qed.

(** *** Iterations *)

Section iterate.
Context (client : Z → Z → Z → Z → MS unit) (c : Standing) (g : list (Z * bytes)).
Hypothesis (Hclient : ∀ j n' p l, 0 <= j → 0 <= n' → keeps (stays c g) (client j n' p l)).

Lemma mk_do_filetransfer j n' free : 0 <= j → 0 <= n' → keeps (stays c g) (do_filetransfer client j n' free).
Proof using All. intros Hj Hn'. unfold do_filetransfer, finish_sending, request_chunk, file_reqchunk. slot_steps. Qed.
#[local] Hint Resolve mk_do_filetransfer : slots.

Lemma mk_transfers_loop fuel j n' free : 0 <= j → 0 <= n' → keeps (stays c g) (transfers_loop client fuel j n' free).
Proof using All.
  intros Hj. revert n' free. induction fuel as [|fuel IH]; intros n' free Hn'; cbn [transfers_loop]; [apply mk_ret|]. slot_steps; apply IH; lia.
Qed.

Lemma mk_chunks_loop fuel j free : 0 <= j → keeps (stays c g) (chunks_loop client fuel j free).
Proof using All.
  intros Hj. revert free. induction fuel as [|fuel IH]; intros free; cbn [chunks_loop]; [apply mk_ret|].
  apply mk_bind; [by apply mk_transfers_loop|]. slot_steps.
Qed.
#[local] Hint Resolve mk_chunks_loop : slots.

Lemma mk_resend j n' : 0 <= j → 0 <= n' → keeps (stays c g) (resend_request j n').
Proof using Hi Hn. intros Hj Hn'. unfold resend_request. slot_steps. Qed.
Lemma mk_stale j n' : 0 <= j → 0 <= n' → keeps (stays c g) (check_stale j n').
Proof using Hi Hn. intros Hj Hn'. unfold check_stale. slot_steps; slot_quiet. Qed.

Lemma mk_pipes (h : Z → MS unit) : (∀ n', 0 <= n' → keeps (stays c g) (h n')) → keeps (stays c g) (for_each pipes h).
Proof using. intros H. apply mk_each. intros x Hx. apply elem_of_seqZ in Hx. apply H. lia. Qed.

Lemma mk_reqchunk j : 0 <= j → keeps (stays c g) (do_reqchunk_filecb client j).
Proof using All.
  intros Hj. unfold do_reqchunk_filecb. slot_steps; apply mk_pipes; try done; intros n' Hn'; [by apply mk_resend|by apply mk_stale].
Qed.
#[local] Hint Resolve mk_reqchunk : slots.

Lemma mk_do_friend j t : 0 <= j → keeps (stays c g) (do_friend client j t).
Proof using All. intros Hj. unfold do_friend. slot_steps. Qed.

Lemma mk_do_friends : keeps (stays c g) (do_friends client).
Proof using All. unfold do_friends. slot_steps. apply mk_each. intros j Hj. apply elem_of_seqZ in Hj. apply mk_do_friend. lia. Qed.

(** ** Operations *)

(** The numbers an operation is called with are unsigned, its packet is made of
    bytes, and it neither ends the transfer, nor moves it, nor is data for it. *)
Definition op_spares (op : Messenger_Op) : Prop :=
  match op with
  | OPacket j p => 0 <= j ∧ bytes_ok p ∧ (j = i → spares p)
  | OLossyPacket j _ | OStatus j _ | OSendMessage j _ _ _ | OSetTyping j _ | OSendLossy j _ _ | OSendLossless j _ _ => 0 <= j
  | ONewFile j _ _ _ _ _ => 0 <= j
  | ODelFriend j => 0 <= j ∧ j ≠ i
  | OFileControl j f control => 0 <= j ∧ 0 <= f ∧ (j = i → control = FILECONTROL_KILL → split_filenumber f ≠ (true, n))
  | OFileSeek j f _ => 0 <= j ∧ 0 <= f ∧ (j = i → split_filenumber f ≠ (true, n))
  | OSendData j f _ _ _ => 0 <= j ∧ 0 <= f
  | OIterate | OTime _ | OAddFriend _ _ _ | OAddFriendNoRequest _ | OSetName _ _ | OSetStatusMessage _ _ | OSetUserStatus _ => True
  end.

Lemma mk_ignore {A} (m : MS A) P : keeps P m → keeps P (ignore m).
Proof using. intros H. apply mk_bind; [done|]. intros _. apply mk_ret. Qed.

Lemma mk_op op : op_spares op → keeps (stays c g) (run_op client op).
Proof using All.
  destruct op; cbn [op_spares run_op]; intros Hop.
  - apply mk_ignore. destruct Hop as (?&?&?); by apply mk_handle_packet.
  - apply mk_ignore. apply mk_lossy_packet.
  - apply mk_ignore. by apply mk_handle_status.
  - apply mk_do_friends.
  - apply mk_modify. intros s Hs. by apply (stays_same c g s).
  - apply mk_ignore. apply mk_addfriend.
  - apply mk_ignore. apply mk_add_norequest.
  - apply mk_ignore. destruct Hop; by apply mk_delfriend.
  - apply mk_ignore. by apply mk_send_message.
  - apply mk_ignore. apply mk_setname.
  - apply mk_ignore. apply mk_set_statusmessage.
  - apply mk_ignore. apply mk_set_userstatus.
  - apply mk_ignore. by apply mk_usertyping.
  - apply mk_ignore. by apply mk_new_file.
  - apply mk_ignore. destruct Hop as (?&?&?); by apply mk_file_control.
  - apply mk_ignore. destruct Hop as (?&?&?); by apply mk_file_seek.
  - apply mk_ignore. destruct Hop; by apply mk_send_data.
  - apply mk_ignore. apply mk_send_lossy.
  - apply mk_ignore. apply mk_send_lossless.
Qed.
End iterate.
End slot.
