(* ===== verification/FileOrder.v ===== *)
(** * FileOrder: a file arrives in order

    Transfers of kind [FILEKIND_FTV2]: whatever happens to the connection and to
    the packets, the client gets the bytes of the file in order and once. *)
From S2P Require Import Prelude Util MonoTime CryptoCore Network World Steps FriendRequests CryptoConnection NetCrypto Messenger FileTransfer FileRuns.

Lemma ignore_state {A} (m : MS A) s : (ignore m s).2 = (m s).2.
Proof. unfold ignore, mbind, M_bind. by destruct (m s). Qed.

Section order.
(** The file [F] with the id [fid], which friend [i] sends as its file [n]. *)
Context (i n : Z) (k : nat) (fid F : bytes).
Hypothesis (Hi : 0 <= i) (Hn : 0 <= n < 256) (Hfid : zlen fid = 32) (HF : zlen F < 2 ^ 64).

(** The transfer stands at [t]. *)
Definition at_byte (t : Z) : Standing := mkStanding FILEKIND_FTV2 fid (zlen F) t.
Notation going t := (stays i n k (at_byte t)).
Notation got := (pieces i n k).

(** A data packet of the file: some bytes of it, with their offset and the id. *)
Definition data_packet (o : Z) (d : bytes) : bytes := [PACKET_ID_FILE_DATA; n] ++ net_pack_u64 o ++ fid ++ d.
Definition honest (p : bytes) : Prop :=
  ∃ o l, 0 <= o ∧ 0 <= l ∧ o + l <= zlen F ∧ l + 40 <= MAX_FILE_DATA_SIZE ∧ p = data_packet o (slice o l F).

(** What the client has, in order: each piece starts where the one before ended,
    and is what the file has there. *)
Inductive arrived : list (Z * bytes) → Z → Prop :=
  | arrived_none : arrived [] 0
  | arrived_more ps t l : arrived ps t → 0 < l → t + l <= zlen F → arrived (ps ++ [(t, fid ++ slice t l F)]) (t + l).

Lemma arrived_range ps t : arrived ps t → 0 <= t <= zlen F.
Proof using. induction 1; [|lia]. pose proof (zlen_nonneg F). lia. Qed.

(** The bytes the pieces carry after the id. *)
Lemma arrived_bytes ps t : arrived ps t → concat (map (λ q, drop 32 q.2) ps) = take (Z.to_nat t) F.
Proof using Hfid.
  induction 1 as [|ps t l Hps IH Hl Ht]; [done|]. pose proof (arrived_range _ _ Hps).
  rewrite map_app, concat_app, IH. cbn [map concat snd]. rewrite app_nil_r, drop_app_length' by (unfold zlen in Hfid; lia).
  unfold slice. rewrite take_take_drop, Z2Nat.inj_add by lia. done.
Qed.

(** ** Steps of the transfer *)

Lemma ld_piece t g p d : leads (going t g) (tell (EvFileData i (real_filenumber true n) p d)) (λ _, going t (g ++ [(p, d)])).
Proof using.
  intros s [H1 H2 H3 H4]. split; try done; cbn [tell modify snd set_field ms_events].
  - rewrite length_app. lia.
  - unfold pieces in *. cbn [tell modify snd set_field ms_events]. rewrite drop_app_le, bind_app, H4 by done.
    cbn [mbind list_bind piece]. by rewrite bool_decide_eq_true_2, app_nil_r.
Qed.

Lemma ld_move t t' g : leads (going t g) (on_transfer true i n (λ ft, ft <| ft_transferred := t' |>)) (λ _, going t' g).
Proof using Hi Hn.
  intros s [H1 H2 H3 H4]. destruct H2 as [A1 A2 A3 A4 A5]. unfold standing in A4. injection A4 as B1 B2 B3 B4.
  assert (friend_at (on_transfer true i n (λ ft, ft <| ft_transferred := t' |>) s).2 i
          = set_transfer true n (λ ft, ft <| ft_transferred := t' |>) (friend_at s i)) as E.
  { unfold friend_at at 1. cbn [on_transfer on_friend modify snd set_field ms_friendlist]. apply aget_aset_eq. unfold numfriends in H1. lia. }
  assert (transfer true (set_transfer true n (λ ft, ft <| ft_transferred := t' |>) (friend_at s i)) n
          = (transfer true (friend_at s i) n) <| ft_transferred := t' |>) as E'.
  { unfold transfer at 1, transfers, set_transfer. cbn [set_field f_file_receiving]. apply aget_aset_eq. unfold zlen. lia. }
  split; rewrite ?E; try done.
  - unfold numfriends, zlen. cbn [on_transfer on_friend modify snd set_field ms_friendlist]. by rewrite length_aset.
  - split; rewrite ?E'; try done.
    + cbn [set_transfer set_field f_file_receiving]. by rewrite length_aset.
    + unfold standing. cbn [set_field ft_type ft_id ft_size ft_transferred]. by rewrite B1, B2, B3.
Qed.
(** What a packet of the file does: nothing, or the next bytes arrive, and after
    the last ones the end, if it could be reported to the sender. *)
Definition after_packet (t : Z) (g : list (Z * bytes)) (s : Messenger) : Prop :=
  going t g s ∨ ∃ l, 0 < l ∧ t + l <= zlen F ∧
    (going (t + l) (g ++ [(t, fid ++ slice t l F)]) s ∨ (t + l = zlen F ∧ got s = g ++ [(t, fid ++ slice t l F); (zlen F, [])])).

Lemma ld_stay {A} t g (m : MS A) : keeps (going t g) m → leads (going t g) m (λ _, after_packet t g).
Proof using. intros H. apply ld_keeps; [done|]. intros s Hs. by left. Qed.

Lemma ld_quiet {A B} t g (m : MS A) (f : A → MS B) R : keeps (going t g) m → (∀ x, leads (going t g) (f x) R) → leads (going t g) (m ≫= f) R.
Proof using. intros Hm Hf. eapply ld_bind; [|done]. by apply ld_keeps. Qed.

(** The end of the transfer. *)
Lemma ld_finish t g : leads (going t g)
  (on_friend i (add_receiving (-1));; tell (EvFileData i (real_filenumber true n) t []);;
   on_transfer true i n (λ ft, clear_transfer (ft <| ft_transferred := 0 |>))) (λ _ s, got s = g ++ [(t, [])]).
Proof using Hi.
  apply ld_quiet. { apply mk_friend; [done..|]. intros f Hf _. by apply (slot_same _ _ f). } intros _.
  eapply ld_bind; [apply ld_piece|]. intros _ s [H1 H2 H3 H4]. exact H4.
Qed.

Lemma ld_deliver t g l : 0 <= t → 0 < l → t + l <= zlen F →
  leads (going t g)
    (on_transfer true i n (λ ft, ft <| ft_receiver_idle := 0 |>);;
     tell (EvFileData i (real_filenumber true n) t (fid ++ slice t l F));;
     on_transfer true i n (λ ft, ft <| ft_transferred := t + l |>);;
     if t + l =? zlen F then
       sent ← send_file_control_packet i true n FILECONTROL_FINISHED [] 0;
       if sent : bool then
         on_friend i (add_receiving (-1));; tell (EvFileData i (real_filenumber true n) (t + l) []);;
         on_transfer true i n (λ ft, clear_transfer (ft <| ft_transferred := 0 |>))
       else mret tt
     else mret tt) (λ _, after_packet t g).
Proof using Hi Hn.
  intros Ht Hl Hle. apply ld_quiet. { apply mk_transfer; [done..|lia|]. intros _ _ _ ft Hft. by split. } intros _.
  eapply ld_bind; [apply ld_piece|]. intros _. eapply ld_bind; [apply ld_move|]. intros _.
  assert (∀ s, going (t + l) (g ++ [(t, fid ++ slice t l F)]) s → after_packet t g s) as Hgo.
  { intros s Hs. right. exists l. split; [done|]. split; [done|]. by left. }
  destruct (Z.eqb_spec (t + l) (zlen F)) as [E|_]; [|by apply ld_ret].
  apply ld_quiet; [apply mk_control_packet|]. intros []; [|by apply ld_ret].
  eapply ld_weaken; [apply ld_finish|done|]. intros ? s Hs. cbn beta in Hs. right. exists l. split; [done|]. split; [done|]. right.
  split; [done|]. by rewrite Hs, <- app_assoc, E.
Qed.

Lemma zlen_pack64 v : zlen (net_pack_u64 v) = 8.
Proof using. done. Qed.

Lemma id_first d : slice 0 32 (fid ++ d) = fid.
Proof using Hfid. unfold slice. rewrite drop_0, take_app_length'; [done|]. unfold zlen in Hfid. lia. Qed.

Lemma ld_data_v2 t g o l : 0 <= t <= zlen F → 0 <= o → 0 <= l → o + l <= zlen F → l + 40 <= MAX_FILE_DATA_SIZE →
  leads (going t g) (handle_file_data_v2 i n (net_pack_u64 o ++ fid ++ slice o l F)) (λ _, after_packet t g).
Proof using Hi Hn Hfid HF.
  intros Ht Ho Hl Hle Hmax. unfold handle_file_data_v2. cbv zeta. apply ld_read. intros s0 Hs0.
  pose proof (sl_standing _ _ _ (sy_slot _ _ _ _ _ _ Hs0)) as Hst. unfold standing, at_byte in Hst. injection Hst as E1 E2 E3 E4.
  rewrite E2, E3, E4. rewrite !zlen_app, zlen_pack64, Hfid, length_slice by lia. unfold FILE_OFFSET_LENGTH, FILE_ID_LENGTH.
  change (drop (Z.to_nat 8) (net_pack_u64 o ++ fid ++ slice o l F)) with (fid ++ slice o l F).
  rewrite net_unpack_pack_u64 by (split; lia). assert (l <= 1373) as Hmax' by (change MAX_FILE_DATA_SIZE with 1371 in Hmax; lia).
  replace (8 + (32 + l) - 8 - 32) with l by lia. rewrite u16_small by lia.
  destruct (Z.ltb_spec (8 + (32 + l)) (8 + 32 + 1)) as [_|Hpos]; [by apply ld_stay, mk_ret|].
  rewrite id_first. unfold bytes_eqb. rewrite bool_decide_eq_true_2 by done. cbn [negb]. rewrite u64_small by lia. destruct (_ <? o); [by apply ld_stay, mk_ret|].
  destruct (Z.eqb_spec o t) as [->|_]; cbn [negb].
  - rewrite u64_small by lia. by apply ld_deliver; try lia.
  - apply ld_stay. apply mk_bind; [apply mk_control_packet|]. intros _. apply mk_ret.
Qed.

(** Up to the data of the transfer, all data packets do the same. *)
Lemma ld_data_packet t g fd : leads (going t g) (handle_file_data_v2 i n fd) (λ _, after_packet t g) →
  leads (going t g) (m_handle_packet i (PACKET_ID_FILE_DATA :: n :: fd)) (λ _, after_packet t g).
Proof using Hi Hn.
  intros Hfd. unfold m_handle_packet. rewrite (proj2 (Z.eqb_neq _ _)) by (rewrite !zlen_cons; pose proof (zlen_nonneg fd); lia).
  apply ld_read. intros s0 Hs0. cbv zeta.
  destruct (_ =? FRIEND_ONLINE); cbn [negb]; [|by apply (ld_stay t g), mk_ret]. apply ld_bind_ret. cbn [negb].
  eapply (ld_bind _ _ _ (after_packet t g)); [|intros _; by apply ld_ret].
  change (handle_friend_packet i (PACKET_ID_FILE_DATA :: n :: fd)) with (handle_file_data i (n :: fd)).
  unfold handle_file_data. rewrite (proj2 (Z.ltb_ge _ _)) by (rewrite zlen_cons; pose proof (zlen_nonneg fd); lia).
  cbv zeta. change (aget 0 (n :: fd) 0) with n. apply ld_read. intros s1 Hs1.
  pose proof (sl_standing _ _ _ (sy_slot _ _ _ _ _ _ Hs1)) as Hst. unfold standing, at_byte in Hst. injection Hst as E1 E2 E3 E4.
  destruct (negb _).
  { apply ld_stay. destruct (_ =? _); [apply mk_bind; [apply mk_control_packet|intros _; apply mk_ret]|apply mk_ret]. }
  apply ld_quiet. { apply mk_transfer; [done..|lia|]. intros _ _ _ ft Hft. by split. } intros _.
  rewrite E1. exact Hfd.
Qed.

Lemma ld_packet t g p : 0 <= t <= zlen F → honest p → leads (going t g) (m_handle_packet i p) (λ _, after_packet t g).
Proof using Hi Hn Hfid HF. intros Ht (o & l & Ho & Hl & Hle & Hmax & ->). apply ld_data_packet. by apply ld_data_v2. Qed.

(** Data with another id. *)
Definition foreign (p : bytes) : Prop := ∃ fd, p = PACKET_ID_FILE_DATA :: n :: fd ∧ slice 0 FILE_ID_LENGTH (drop 8 fd) ≠ fid.

Lemma ld_foreign t g p : foreign p → leads (going t g) (m_handle_packet i p) (λ _, after_packet t g).
Proof using Hi Hn.
  intros (fd & -> & Hid). apply ld_data_packet. unfold handle_file_data_v2. cbv zeta. apply ld_read. intros s0 Hs0.
  pose proof (sl_standing _ _ _ (sy_slot _ _ _ _ _ _ Hs0)) as Hst. unfold standing, at_byte in Hst. injection Hst as E1 E2 E3 E4.
  destruct (_ <? _); [by apply ld_stay, mk_ret|]. rewrite E2. unfold bytes_eqb. rewrite bool_decide_eq_false_2 by done. cbn [negb].
  apply ld_stay. apply mk_bind; [apply mk_control_packet|]. intros _. by apply mk_tell.
Qed.

(** ** Runs *)

(** Whatever happens, but no one ends or moves the transfer, and data with the id
    of the file is data of the file. *)
Definition fair (op : Messenger_Op) : Prop :=
  op_spares i n op ∨ ∃ p, op = OPacket i p ∧ (honest p ∨ foreign p).

Section run.
Context (client : Z → Z → Z → Z → MS unit).
Hypothesis (Hclient : ∀ c g j n' p l, 0 <= j → 0 <= n' → keeps (stays i n k c g) (client j n' p l)).

Lemma ld_op t g op : 0 <= t <= zlen F → fair op → leads (going t g) (run_op client op) (λ _, after_packet t g).
Proof using All.
  intros Ht [Hop|(p & -> & Hp)].
  - apply ld_stay. apply mk_op; try done. intros. by apply Hclient.
  - unfold run_op, ignore. eapply ld_bind; [destruct Hp; [by apply ld_packet|by apply ld_foreign]|]. intros ?. by apply ld_ret.
Qed.

(** The transfer is under way with these pieces, or is over and the client has
    been told after the last piece. *)
Lemma run_in_order ops m ps t : Forall fair ops → arrived ps t → going t ps m →
  (∃ ps' t', arrived ps' t' ∧ going t' ps' (run_ops client ops m))
  ∨ ∃ ops1 ops2 ps', ops = ops1 ++ ops2 ∧ arrived ps' (zlen F) ∧ got (run_ops client ops1 m) = ps' ++ [(zlen F, [])].
Proof using All.
  intros Hops. revert m ps t. induction Hops as [|op ops Hop Hops IH]; intros m ps t Hps Hm; [left; by exists ps, t|].
  destruct (ld_op t ps op (arrived_range _ _ Hps) Hop m Hm) as [Hs|(l & Hl & Hle & [Hs|[E Hg]])].
  - destruct (IH _ _ _ Hps Hs) as [?|(o1 & o2 & ps' & -> & ? & ?)]; [by left|]. right. by exists (op :: o1), o2, ps'.
  - destruct (IH _ _ _ (arrived_more _ _ _ Hps Hl Hle) Hs) as [?|(o1 & o2 & ps' & -> & ? & ?)]; [by left|]. right. by exists (op :: o1), o2, ps'.
  - right. exists [op], ops, (ps ++ [(t, fid ++ slice t l F)]). split; [done|]. rewrite <- E at 1.
    split; [by constructor|]. cbn [run_ops]. by rewrite Hg, <- app_assoc.
Qed.
End run.

(** ** The sender *)

(** The friend's messenger [s] sends the file to its friend [j]. *)
Record sending (s : Messenger) (j : Z) : Prop := {
  sd_type : ft_type (transfer false (friend_at s j) n) = FILEKIND_FTV2;
  sd_id : ft_id (transfer false (friend_at s j) n) = fid;
  sd_size : ft_size (transfer false (friend_at s j) n) = zlen F;
  sd_range : 0 <= ft_transferred (transfer false (friend_at s j) n) <= zlen F
}.

(** The packet was written when the client of that messenger sent bytes of the file
    it had read at [position], behind the id. *)
Definition sent (p : bytes) : Prop :=
  ∃ s j position data length con a calls,
    sending s j ∧ 32 <= length ∧ slice 0 length data = fid ++ slice position (length - 32) F
    ∧ ms_calls (send_file_data j n position data length s).2 = ms_calls s ++ calls ∧ (CWrite con p true, a) ∈ calls.

Definition writes_honest (s0 : Messenger) (s : Messenger) : Prop :=
  ∃ calls, ms_calls s = ms_calls s0 ++ calls ∧ ∀ con p a, (CWrite con p true, a) ∈ calls → honest p.

Lemma ld_ask s0 c : (∀ con p, c = CWrite con p true → honest p) →
  leads (λ s, writes_honest s0 s ∧ ms_friendlist s = ms_friendlist s0) (ask c) (λ _ s, writes_honest s0 s ∧ ms_friendlist s = ms_friendlist s0).
Proof using.
  intros Hc s [(calls & E & H) Hl]. split; [|done]. exists (calls ++ [(c, ms_answer s (length (ms_calls s)))]).
  split; [cbn [ask snd set_field ms_calls]; by rewrite E, app_assoc|]. intros con p a Hin.
  apply elem_of_app in Hin as [Hin|Hin]; [by apply (H con p a)|]. apply list_elem_of_singleton in Hin. injection Hin as <- _. by apply (Hc con).
Qed.

Lemma ld_send_v2 s0 j position data length : sending s0 j → 32 <= length → slice 0 length data = fid ++ slice position (length - 32) F →
  leads (λ s, writes_honest s0 s ∧ ms_friendlist s = ms_friendlist s0) (send_file_data_v2 j n position data length) (λ _, writes_honest s0).
Proof using Hn Hfid HF.
  intros [H1 H2 H3 H4] Hlen Hdata. unfold send_file_data_v2. apply ld_read. intros s [_ Hl].
  assert (transfer false (friend_at s j) n = transfer false (friend_at s0 j) n) as -> by (unfold friend_at; by rewrite Hl). rewrite H3.
  destruct (Z.ltb_spec (MAX_FILE_DATA_SIZE - FILE_OFFSET_LENGTH) length) as [_|Hmax]; [apply ld_ret; by intros ? [? _]|].
  change (MAX_FILE_DATA_SIZE - FILE_OFFSET_LENGTH) with 1363 in Hmax. cbv zeta.
  rewrite u16_small, u64_small by (unfold FILE_ID_LENGTH; lia). unfold FILE_ID_LENGTH.
  destruct (Z.ltb_spec (zlen F - ft_transferred (transfer false (friend_at s0 j) n)) (length - 32)) as [_|Hroom]; [apply ld_ret; by intros ? [? _]|].
  destruct (Z.eqb_spec position (ft_transferred (transfer false (friend_at s0 j) n))) as [E|_]; cbn [negb orb]; [|apply ld_ret; by intros ? [? _]].
  destruct (_ && _); [apply ld_ret; by intros ? [? _]|]. apply ld_read. intros s1 [_ Hl1].
  eapply ld_bind; [by apply ld_ask|]. intros free. destruct (_ <? _); [apply ld_ret; by intros ? [? _]|].
  eapply ld_bind; [by apply ld_ask|]. intros ok. destruct (_ =? _); [apply ld_ret; by intros ? [? _]|].
  eapply (ld_bind _ _ _ (λ s, writes_honest s0 s ∧ ms_friendlist s = ms_friendlist s0)).
  - unfold send_file_data_packet. apply ld_read. intros s2 _. destruct (negb _); [by apply ld_ret|]. apply ld_ask. intros con p Hp.
    apply (f_equal (λ c, match c with CWrite _ q _ => q | _ => [] end)) in Hp. cbn beta iota in Hp. subst p.
    exists position, (length - 32). split; [lia|]. split; [lia|]. split; [lia|]. split; [change MAX_FILE_DATA_SIZE with 1371; lia|].
    rewrite Hdata. unfold data_packet. rewrite u8_small by lia. rewrite slice_all; [done|].
    rewrite !zlen_app, zlen_pack64, Hfid, length_slice; unfold FILE_OFFSET_LENGTH; lia.
  - intros ret. destruct (_ =? _); [apply ld_ret; by intros ? [? _]|]. eapply (ld_bind _ _ _ (writes_honest s0)); [|intros _; by apply ld_ret].
    by intros ? [? _].
Qed.

Lemma sent_honest p : sent p → honest p.
Proof using Hn Hfid HF.
  intros (s & j & position & data & length & con & a & calls & Hs & Hlen & Hdata & Hcalls & Hin).
  assert (leads (λ s', writes_honest s s' ∧ ms_friendlist s' = ms_friendlist s) (send_file_data j n position data length) (λ _, writes_honest s)) as H.
  { unfold send_file_data. apply ld_read. intros s0 [_ Hl]. pose proof Hs as [H1 _ _ _].
    assert (transfer false (friend_at s0 j) n = transfer false (friend_at s j) n) as -> by (unfold friend_at; by rewrite Hl). rewrite H1.
    repeat (case_match; [apply ld_ret; by intros ? [? _]|]). by apply ld_send_v2. }
  destruct (H s) as (calls' & E & Hok); [split; [|done]; exists []; split; [by rewrite app_nil_r|]; intros ??? Hx; by apply elem_of_nil in Hx|].
  rewrite Hcalls in E. apply app_inv_head in E as ->. by apply (Hok con p a).
Qed.

(** ** Completion *)

(** The friend is online, the transfer accepted, and packets can be written. *)
Record ready (s : Messenger) : Prop := {
  rd_number : i < 2 ^ 32;
  rd_online : f_status (friend_at s i) = FRIEND_ONLINE;
  rd_transferring : ft_status (transfer true (friend_at s i) n) = FILESTATUS_TRANSFERRING;
  rd_answers : ∀ q, ms_answer s q ≠ -1
}.
Definition flowing (t : Z) (g : list (Z * bytes)) (s : Messenger) : Prop := going t g s ∧ ready s.

Lemma transfer_after s g t h : going t g s →
  friend_at (on_transfer true i n h s).2 i = set_transfer true n h (friend_at s i)
  ∧ transfer true (set_transfer true n h (friend_at s i)) n = h (transfer true (friend_at s i) n).
Proof using Hi Hn.
  intros [H1 H2 H3 H4]. destruct H2 as [A1 A2 A3 A4 A5]. split.
  - unfold friend_at at 1. cbn [on_transfer on_friend modify snd set_field ms_friendlist]. apply aget_aset_eq. unfold numfriends in H1. lia.
  - unfold transfer at 1, transfers, set_transfer. cbn [set_field f_file_receiving]. apply aget_aset_eq. unfold zlen. lia.
Qed.

Lemma fl_transfer t t' g g' h : leads (going t g) (on_transfer true i n h) (λ _, going t' g') → (∀ ft, ft_status (h ft) = ft_status ft) →
  leads (flowing t g) (on_transfer true i n h) (λ _, flowing t' g').
Proof using Hi Hn.
  intros H Hh s [Hs [R0 R1 R2 R3]]. split; [by apply H|]. destruct (transfer_after s g t h Hs) as [E1 E2]. split; [done|rewrite E1; done|rewrite E1, E2, Hh; done|done].
Qed.

Lemma fl_piece t g p d : leads (flowing t g) (tell (EvFileData i (real_filenumber true n) p d)) (λ _, flowing t (g ++ [(p, d)])).
Proof using. intros s [Hs [R0 R1 R2 R3]]. split; [by apply ld_piece|done]. Qed.

Lemma fl_control t g c d l : 3 + l < MAX_CRYPTO_DATA_SIZE →
  leads (flowing t g) (send_file_control_packet i true n c d l) (λ sent s, sent = true ∧ flowing t g s).
Proof using Hi.
  intros Hl. unfold send_file_control_packet. rewrite (proj2 (Z.ltb_ge _ _)) by lia. unfold write_cryptpacket_id.
  apply ld_read. intros s [Hs [R0 R1 R2 R3]]. unfold m_friend_exists. rewrite R1, u32_small by lia.
  rewrite (proj2 (Z.ltb_lt _ _)) by apply Hs. change (FRIEND_ONLINE =? 0) with false. cbn [negb andb].
  rewrite (proj2 (Z.leb_gt _ _)) by lia. rewrite Z.eqb_refl. cbn [negb orb].
  apply (ld_seq _ _ _ (λ r s, r ≠ -1 ∧ flowing t g s)).
  - intros s1 [Hs1 [Q0 Q1 Q2 Q3]]. split; [apply Q3|]. split; [by apply mk_ask|done].
  - intros r s1 [Hr Hs1]. split; [|done]. cbn. by rewrite (proj2 (Z.eqb_neq _ _)).
Qed.

Lemma fl_finish t g : leads (flowing t g)
  (on_friend i (add_receiving (-1));; tell (EvFileData i (real_filenumber true n) t []);;
   on_transfer true i n (λ ft, clear_transfer (ft <| ft_transferred := 0 |>)))
  (λ _ s, got s = g ++ [(t, [])] ∧ ft_status (transfer true (friend_at s i) n) = FILESTATUS_NONE).
Proof using Hi Hn.
  intros s Hs. split; [by apply ld_finish; destruct Hs|]. destruct Hs as [Hs _].
  assert (going t g (on_friend i (add_receiving (-1)) s).2) as H1. { apply mk_friend; try done. intros f Hf _. by apply (slot_same _ _ f). }
  pose proof (ld_piece t g t [] _ H1) as H2. destruct (transfer_after _ _ _ (λ ft, clear_transfer (ft <| ft_transferred := 0 |>)) H2) as [E1 E2].
  exact (f_equal ft_status (eq_trans (f_equal (λ f, transfer true f n) E1) E2)).
Qed.

(** The last step of a piece that arrives. *)
Definition next_result (t l : Z) (g : list (Z * bytes)) (s : Messenger) : Prop :=
  (t + l < zlen F ∧ flowing (t + l) (g ++ [(t, fid ++ slice t l F)]) s)
  ∨ (t + l = zlen F ∧ got s = g ++ [(t, fid ++ slice t l F); (zlen F, [])] ∧ ft_status (transfer true (friend_at s i) n) = FILESTATUS_NONE).

Lemma fl_v2 t g l : 0 <= t → 0 < l → t + l <= zlen F → l + 40 <= MAX_FILE_DATA_SIZE →
  leads (flowing t g) (handle_file_data_v2 i n (net_pack_u64 t ++ fid ++ slice t l F)) (λ _, next_result t l g).
Proof using Hi Hn Hfid HF.
  intros Ht Hl Hle Hmax. unfold handle_file_data_v2. cbv zeta. apply ld_read. intros s0 [Hs0 _].
  pose proof (sl_standing _ _ _ (sy_slot _ _ _ _ _ _ Hs0)) as Hst. unfold standing, at_byte in Hst. injection Hst as E1 E2 E3 E4.
  rewrite E2, E3, E4. rewrite !zlen_app, zlen_pack64, Hfid, length_slice by lia. unfold FILE_OFFSET_LENGTH, FILE_ID_LENGTH.
  change (drop (Z.to_nat 8) (net_pack_u64 t ++ fid ++ slice t l F)) with (fid ++ slice t l F).
  rewrite net_unpack_pack_u64 by (split; lia). assert (l <= 1373) as Hmax' by (change MAX_FILE_DATA_SIZE with 1371 in Hmax; lia).
  replace (8 + (32 + l) - 8 - 32) with l by lia. rewrite u16_small by lia. rewrite (proj2 (Z.ltb_ge _ _)) by lia.
  rewrite id_first. unfold bytes_eqb. rewrite bool_decide_eq_true_2 by done. cbn [negb].
  rewrite !u64_small by lia. rewrite (proj2 (Z.ltb_ge _ _)) by lia. rewrite Z.eqb_refl. cbn [negb].
  eapply ld_bind. { apply (fl_transfer t t g g); [|done]. apply ld_keeps; [|done]. apply mk_transfer; [done..|lia|]. intros _ _ _ ft Hft. by split. } intros _.
  eapply ld_bind; [apply fl_piece|]. intros _. eapply ld_bind; [apply fl_transfer; [apply ld_move|done]|]. intros _.
  destruct (Z.eqb_spec (t + l) (zlen F)) as [E|Hne].
  - eapply ld_seq; [by apply fl_control|]. intros [|]; [|by intros s [? _]].
    eapply ld_weaken; [apply fl_finish|by intros s [_ Hs]|]. intros ? s [Hs Hst]. right. split; [done|]. split; [|done]. by rewrite Hs, <- app_assoc, E.
  - apply ld_ret. intros s Hs. left. split; [lia|done].
Qed.

(** A data packet for a transfer that is under way. *)
Lemma fl_packet t g o d Q : leads (flowing t g) (handle_file_data_v2 i n (net_pack_u64 o ++ fid ++ d)) (λ _, Q) →
  leads (flowing t g) (m_handle_packet i (data_packet o d)) (λ _, Q).
Proof using Hi Hn.
  intros Hd. unfold m_handle_packet. change (zlen (data_packet o d) =? 0) with false.
  apply ld_read. intros s0 [Hs0 [R0 R1 R2 R3]]. cbv zeta. rewrite R1, Z.eqb_refl. cbn [negb]. apply ld_bind_ret. cbn [negb].
  eapply (ld_bind _ _ _ Q); [|intros _; by apply ld_ret].
  change (handle_friend_packet i (data_packet o d)) with (handle_file_data i (n :: net_pack_u64 o ++ fid ++ d)).
  unfold handle_file_data. rewrite (proj2 (Z.ltb_ge _ _)) by (rewrite zlen_cons; pose proof (zlen_nonneg (net_pack_u64 o ++ fid ++ d)); lia).
  cbv zeta. change (aget 0 (n :: net_pack_u64 o ++ fid ++ d) 0) with n. apply ld_read. intros s1 [Hs1 [Q0 Q1 Q2 Q3]].
  pose proof (sl_standing _ _ _ (sy_slot _ _ _ _ _ _ Hs1)) as Hst. unfold standing, at_byte in Hst. injection Hst as E1 E2 E3 E4.
  rewrite Q2, Z.eqb_refl, E1, Z.eqb_refl. cbn [negb].
  eapply ld_bind. { apply (fl_transfer t t g g); [|done]. apply ld_keeps; [|done]. apply mk_transfer; [done..|lia|]. intros _ _ _ ft Hft. by split. } intros _.
  exact Hd.
Qed.

Lemma fl_next t g l : 0 <= t → 0 < l → t + l <= zlen F → l + 40 <= MAX_FILE_DATA_SIZE →
  leads (flowing t g) (m_handle_packet i (data_packet t (slice t l F))) (λ _, next_result t l g).
Proof using Hi Hn Hfid HF. intros Ht Hl Hle Hmax. by apply fl_packet, fl_v2. Qed.

(** The packets of the file, cut at these lengths, from byte [t] on. *)
Fixpoint file_packets (t : Z) (ls : list Z) : list Messenger_Op :=
  match ls with
  | [] => []
  | l :: ls' => OPacket i (data_packet t (slice t l F)) :: file_packets (t + l) ls'
  end.

Lemma run_packets client ls t ps m : ls ≠ [] → Forall (λ l, 0 < l ∧ l + 40 <= MAX_FILE_DATA_SIZE) ls → t + foldr Z.add 0 ls = zlen F →
  arrived ps t → flowing t ps m →
  let m' := run_ops client (file_packets t ls) m in
  ∃ ps', arrived ps' (zlen F) ∧ got m' = ps' ++ [(zlen F, [])] ∧ ft_status (transfer true (friend_at m' i) n) = FILESTATUS_NONE.
Proof using Hi Hn Hfid HF.
  cbv zeta. intros Hne Hls. revert t ps m Hne. induction Hls as [|l ls [Hl Hmax] Hls IH]; intros t ps m Hne Hsum Hps Hm; [done|].
  cbn [foldr] in Hsum. pose proof (arrived_range _ _ Hps). assert (0 <= foldr Z.add 0 ls) as Hnn. { clear -Hls. induction Hls; cbn; lia. }
  cbn [file_packets run_ops run_op]. rewrite ignore_state. destruct (fl_next t ps l ltac:(lia) Hl ltac:(lia) Hmax m Hm) as [[Hlt Hs]|(E & Hg & Hst)].
  - apply (IH (t + l) (ps ++ [(t, fid ++ slice t l F)])); [|lia|constructor; [done|lia|lia]|done].
    intros ->. cbn in Hsum. lia.
  - destruct ls as [|l' ls]; [|exfalso; inversion Hls as [|?? [Hl' _] Hls']; cbn in Hsum; assert (0 <= foldr Z.add 0 ls) by (clear -Hls'; induction Hls'; cbn; lia); lia].
    exists (ps ++ [(t, fid ++ slice t l F)]). split; [rewrite <- E; constructor; [done|lia|lia]|]. split; [|done].
    cbn [file_packets run_ops]. by rewrite <- app_assoc.
Qed.
End order.

(** ** Theorems *)

(** The pieces without the id in front of each: the bytes the client writes. *)
Definition written (ps : list (Z * bytes)) : bytes := concat (map (λ q, drop 32 q.2) ps).

(** C7: A file of kind [FILEKIND_FTV2] arrives in order and once.  Friend [i] sends
    the file [F] with the id [fid] as its file [n], and nothing of it has arrived.
    Let anything happen: connections that come and go, packets that are lost,
    repeated or out of order, other transfers, friends that are added or removed,
    any packets of this friend; but no one ends the transfer or seeks in it, and
    data that carries the id was written by [send_file_data] of a messenger that
    sends this file, whose client read the bytes where it was asked to.  Then the
    client always has got a part of the file from its start, each piece at the
    position where the one before ended, and the transfer stands there; or there
    was a moment when it had got all of the file and was told of the end. *)
Theorem file_arrives_in_order client i n fid F ops m : 0 <= i → 0 <= n < 256 → zlen fid = 32 → zlen F < 2 ^ 64 →
  (∀ c g j n' p l, 0 <= j → 0 <= n' → keeps (stays i n (length (ms_events m)) c g) (client j n' p l)) →
  stays i n (length (ms_events m)) (at_byte fid F 0) [] m →
  Forall (λ op, op_spares i n op ∨ ∃ p, op = OPacket i p ∧ (sent n fid F p ∨ foreign n fid p)) ops →
  (∃ ps t, arrived fid F ps t ∧ written ps = take (Z.to_nat t) F ∧ stays i n (length (ms_events m)) (at_byte fid F t) ps (run_ops client ops m))
  ∨ ∃ ops1 ops2 ps, ops = ops1 ++ ops2 ∧ arrived fid F ps (zlen F) ∧ written ps = F
      ∧ pieces i n (length (ms_events m)) (run_ops client ops1 m) = ps ++ [(zlen F, [])].
Proof.
  intros Hi Hn Hfid HF Hclient Hm Hops.
  assert (Forall (fair i n fid F) ops) as Hfair.
  { eapply list.Forall_impl; [done|]. intros op [Hop|(p & -> & [Hp|Hp])]; [by left|right; exists p; split; [done|]..]; [left; by apply sent_honest|by right]. }
  destruct (run_in_order i n _ fid F Hi Hn Hfid HF client Hclient ops m [] 0 Hfair (arrived_none _ _) Hm) as [(ps & t & Hps & Hs)|(o1 & o2 & ps & -> & Hps & Hg)].
  - left. exists ps, t. split; [done|]. split; [by apply (arrived_bytes fid F Hfid)|done].
  - right. exists o1, o2, ps. split; [done|]. split; [done|]. split; [|done]. unfold written. rewrite (arrived_bytes fid F Hfid _ _ Hps).
    apply take_ge. unfold zlen. lia.
Qed.

(** C8: A file of kind [FILEKIND_FTV2] that is accepted arrives as a whole: while the
    friend is online and packets can be written, the packets of the file in
    order, cut in any way, give the client all of its bytes, then the end, and the
    slot of the transfer is free again. *)
Theorem file_completes client i n fid F ls m : 0 <= i → 0 <= n < 256 → zlen fid = 32 → zlen F < 2 ^ 64 →
  ls ≠ [] → Forall (λ l, 0 < l ∧ l + 40 <= MAX_FILE_DATA_SIZE) ls → foldr Z.add 0 ls = zlen F →
  stays i n (length (ms_events m)) (at_byte fid F 0) [] m → ready i n m →
  let m' := run_ops client (file_packets i n fid F 0 ls) m in
  ∃ ps, arrived fid F ps (zlen F) ∧ written ps = F ∧ pieces i n (length (ms_events m)) m' = ps ++ [(zlen F, [])]
    ∧ ft_status (transfer true (friend_at m' i) n) = FILESTATUS_NONE.
Proof.
  intros Hi Hn Hfid HF Hne Hls Hsum Hm Hr. cbv zeta.
  destruct (run_packets i n _ fid F Hi Hn Hfid HF client ls 0 [] m Hne Hls Hsum (arrived_none _ _) (conj Hm Hr)) as (ps & Hps & Hg & Hst).
  exists ps. split; [done|]. split; [|done]. unfold written. rewrite (arrived_bytes fid F Hfid _ _ Hps). apply take_ge. unfold zlen. lia.
Qed.

(** C36: When the last bytes of a file have arrived but the packet that reports the
    end could not be written, the transfer never ends: whatever follows that does
    not end it by force, packets of the file and the sender's repetitions among
    it, gives the client nothing more, and it is not told of the end. *)
Theorem unreported_end_is_final client i n fid F ops m g : 0 <= i → 0 <= n < 256 → zlen fid = 32 → zlen F < 2 ^ 64 →
  (∀ c g j n' p l, 0 <= j → 0 <= n' → keeps (stays i n 0 c g) (client j n' p l)) →
  stays i n 0 (at_byte fid F (zlen F)) g m → Forall (fair i n fid F) ops →
  stays i n 0 (at_byte fid F (zlen F)) g (run_ops client ops m).
Proof.
  intros Hi Hn Hfid HF Hclient Hm Hops. revert m Hm. induction Hops as [|op ops Hop Hops IH]; intros m Hm; [done|]. apply IH.
  destruct (ld_op i n 0 fid F Hi Hn Hfid HF client Hclient (zlen F) g op) with m as [Hs|(l & Hl & Hle & _)]; try done.
  - pose proof (zlen_nonneg F). lia.
  - lia.
Qed.

(** ** A transfer, step by step *)

Definition demo_time : Mono_Time := mkMonoTime 1000 0.
Definition demo_id : bytes := replicate 32 7.
Definition demo_file : bytes := [10; 20; 30; 40; 50].
Definition no_client (j n p l : Z) : MS unit := mret tt.

(** A messenger with one friend, who is online. *)
Definition demo_online (answer : nat → Z) : Messenger :=
  (new_messenger (zeros 32) 1 demo_time answer)
    <| ms_friendlist := [empty_friend <| f_status := FRIEND_ONLINE |> <| f_friendcon_id := 3 |>] |>.

(** The sender offers the file and is asked for it; the receiver accepts it. *)
Definition demo_sender : Messenger :=
  run_ops no_client [ONewFile 0 FILEKIND_FTV2 5 demo_id [97] 1; OPacket 0 [PACKET_ID_FILE_CONTROL; 1; 0; FILECONTROL_ACCEPT]; OIterate]
    (demo_online (λ q, if (q =? 7)%nat then 0 else 100)).
Definition demo_request : bytes := [PACKET_ID_FILE_SENDREQUEST; 0] ++ net_pack_u32 FILEKIND_FTV2 ++ net_pack_u64 5 ++ demo_id ++ [97].
Definition demo_receiver (answer : nat → Z) : Messenger :=
  run_ops no_client [OPacket 0 demo_request; OFileControl 0 (real_filenumber true 0) FILECONTROL_ACCEPT] (demo_online answer).

(** What the sender writes is the request the receiver gets. *)
Example demo_request_sent : (CWrite 3 demo_request false, 100) ∈ ms_calls demo_sender.
Proof. apply list_elem_of_In. vm_compute. by left. Qed.

Definition demo_start : Messenger := demo_receiver (λ _, 100).
(** The layer below refuses the third packet, the one that reports the end. *)
Definition demo_stuck : Messenger :=
  run_ops no_client (file_packets 0 0 demo_id demo_file 0 [2; 3]) (demo_receiver (λ q, if (q =? 2)%nat then -1 else 100)).

Lemma demo_stays : stays 0 0 (length (ms_events demo_start)) (at_byte demo_id demo_file 0) [] demo_start.
Proof.
  split; [by vm_compute| |by vm_compute|by vm_compute].
  split; [by vm_compute|by vm_compute|right; by vm_compute|by vm_compute|done].
Qed.

Lemma no_client_keeps i n k c g j n' p l : 0 <= j → 0 <= n' → keeps (stays i n k c g) (no_client j n' p l).
Proof. intros _ _. apply mk_ret. Qed.

Lemma demo_sent : sent 0 demo_id demo_file (data_packet 0 demo_id 0 [10; 20]).
Proof.
  exists demo_sender, 0, 0, (demo_id ++ [10; 20]), 34, 3, 100, (drop (length (ms_calls demo_sender)) (ms_calls (send_file_data 0 0 0 (demo_id ++ [10; 20]) 34 demo_sender).2)).
  split; [split; vm_compute; done|]. split; [done|]. split; [by vm_compute|]. split; [by vm_compute|].
  apply list_elem_of_In. vm_compute. auto.
Qed.

Lemma file_arrives_in_order_witness :
  let m' := run_ops no_client [OStatus 0 false; OPacket 0 (data_packet 0 demo_id 0 [10; 20]); OIterate] demo_start in
  (∃ ps t, arrived demo_id demo_file ps t ∧ written ps = take (Z.to_nat t) demo_file ∧ stays 0 0 (length (ms_events demo_start)) (at_byte demo_id demo_file t) ps m')
  ∨ ∃ ops1 ops2 ps, [OStatus 0 false; OPacket 0 (data_packet 0 demo_id 0 [10; 20]); OIterate] = ops1 ++ ops2 ∧ arrived demo_id demo_file ps (zlen demo_file) ∧ written ps = demo_file
      ∧ pieces 0 0 (length (ms_events demo_start)) (run_ops no_client ops1 demo_start) = ps ++ [(zlen demo_file, [])].
Proof.
  apply (file_arrives_in_order no_client 0 0 demo_id demo_file [OStatus 0 false; OPacket 0 (data_packet 0 demo_id 0 [10; 20]); OIterate] demo_start);
    [lia|lia|reflexivity|vm_compute; reflexivity| | |].
  - intros c g j n' p l. apply no_client_keeps.
  - exact demo_stays.
  - constructor; [left; vm_compute; discriminate|]. constructor; [|constructor; [left; exact I|constructor]].
    right. exists (data_packet 0 demo_id 0 [10; 20]). split; [reflexivity|]. left. exact demo_sent.
Defined.

Lemma file_completes_witness :
  let m' := run_ops no_client (file_packets 0 0 demo_id demo_file 0 [2; 3]) demo_start in
  ∃ ps, arrived demo_id demo_file ps (zlen demo_file) ∧ written ps = demo_file ∧ pieces 0 0 (length (ms_events demo_start)) m' = ps ++ [(zlen demo_file, [])]
    ∧ ft_status (transfer true (friend_at m' 0) 0) = FILESTATUS_NONE.
Proof.
  apply (file_completes no_client 0 0 demo_id demo_file [2; 3] demo_start); [lia|lia|reflexivity|vm_compute; reflexivity|discriminate| |reflexivity|exact demo_stays|].
  - repeat constructor; vm_compute; discriminate.
  - split; [lia|vm_compute; reflexivity|vm_compute; reflexivity|]. intros q. vm_compute. discriminate.
Defined.

Lemma unreported_end_is_final_witness :
  stays 0 0 0 (at_byte demo_id demo_file (zlen demo_file)) [(0, demo_id ++ [10; 20]); (2, demo_id ++ [30; 40; 50])]
    (run_ops no_client (OIterate :: file_packets 0 0 demo_id demo_file 0 [2; 3]) demo_stuck).
Proof.
  apply (unreported_end_is_final no_client 0 0 demo_id demo_file (OIterate :: file_packets 0 0 demo_id demo_file 0 [2; 3]) demo_stuck
           [(0, demo_id ++ [10; 20]); (2, demo_id ++ [30; 40; 50])]); [lia|lia|reflexivity|vm_compute; reflexivity| | |].
  - intros c g j n' p l. apply no_client_keeps.
  - split; [vm_compute; reflexivity| |vm_compute; lia|vm_compute; reflexivity].
    split; [vm_compute; discriminate|vm_compute; reflexivity|right; vm_compute; reflexivity|vm_compute; reflexivity|reflexivity].
  - constructor; [left; exact I|]. constructor; [|constructor; [|constructor]]; right; eexists; (split; [reflexivity|left]).
    + exists 0, 2. repeat split; vm_compute; discriminate.
    + exists 2, 3. repeat split; vm_compute; discriminate.
Defined.
