(* ===== verification/FriendList.v ===== *)
(** * FriendList: what holds of the friends of a messenger

    The friends are different from each other and from us, their names and
    messages fit their buffers, and the list has no empty slot at its end; each
    has the one connection the messenger has taken for its key.  Every operation
    keeps it so. *)
From S2P Require Import Prelude Util MonoTime CryptoCore Network World Steps FriendRequests CryptoConnection NetCrypto FriendConnection ConnSpec Messenger FileTransfer FileRuns FileOrder.

(** ** Invariant *)

Definition live (f : Friend) : Prop := f_status f ≠ NOFRIEND.

Record friend_ok (f : Friend) : Prop := {
  fo_status : 0 <= f_status f <= FRIEND_ONLINE;
  fo_pk : live f → zlen (f_real_pk f) = CRYPTO_PUBLIC_KEY_SIZE ∧ public_key_valid (f_real_pk f) = true ∧ bytes_ok (f_real_pk f);
  fo_name : zlen (f_name f) = MAX_NAME_LENGTH ∧ 0 <= f_name_length f <= MAX_NAME_LENGTH;
  fo_statusmessage : zlen (f_statusmessage f) = MAX_STATUSMESSAGE_LENGTH ∧ 0 <= f_statusmessage_length f <= MAX_STATUSMESSAGE_LENGTH;
  fo_userstatus : 0 <= f_userstatus f < USERSTATUS_INVALID;
  fo_info : zlen (f_info f) = MAX_FRIEND_REQUEST_DATA_SIZE;
  fo_info_size : 0 < f_status f < FRIEND_CONFIRMED → 1 <= f_info_size f <= MAX_FRIEND_REQUEST_DATA_SIZE;
  fo_numbers : is_u32 (f_friendrequest_nospam f) ∧ is_u64 (f_last_seen_time f);
  fo_transfers : length (f_file_sending f) = 256%nat ∧ length (f_file_receiving f) = 256%nat
}.

Record friends_ok (m : Messenger) : Prop := {
  fl_each : Forall friend_ok (ms_friendlist m);
  fl_unique : ∀ a b f g, ms_friendlist m !! a = Some f → ms_friendlist m !! b = Some g → live f → live g → f_real_pk f = f_real_pk g → a = b;
  fl_own : ∀ a f, ms_friendlist m !! a = Some f → live f → f_real_pk f ≠ ms_self_public_key m;
  fl_last : ∀ f, ms_friendlist m !! pred (length (ms_friendlist m)) = Some f → live f;
  fl_number : numfriends m <= UINT32_MAX;
  fl_name : zlen (ms_name m) = MAX_NAME_LENGTH ∧ 0 <= ms_name_length m <= MAX_NAME_LENGTH;
  fl_statusmessage : zlen (ms_statusmessage m) = MAX_STATUSMESSAGE_LENGTH ∧ 0 <= ms_statusmessage_length m <= MAX_STATUSMESSAGE_LENGTH;
  fl_userstatus : 0 <= ms_userstatus m < USERSTATUS_INVALID
}.

(** Besides, friend [j] exists, and waits for an answer to its request if [b]. *)
Definition focused (b : bool) (f : Friend) : Prop := live f ∧ (b = true → 1 <= f_info_size f <= MAX_FRIEND_REQUEST_DATA_SIZE).
Definition base (o : option (Z * bool)) (m : Messenger) : Prop :=
  friends_ok m ∧ match o with Some (j, b) => ∃ f, ms_friendlist m !! Z.to_nat j = Some f ∧ focused b f | None => True end.

(** *** Connections *)

(** The calls by which the messenger uses the friend connections. *)
Definition conn_call (c : Call) : option Served :=
  match c with
  | CNewConnection real_pk => Some (SNew real_pk)
  | CKillConnection friendcon_id => Some (SKill friendcon_id)
  | CCallbacks friendcon_id (Some friendnumber) => Some (SCallbacks friendcon_id MESSENGER_CALLBACK_INDEX (mkCallbacks true true true true friendnumber))
  | CCallbacks friendcon_id None => Some (SCallbacks friendcon_id MESSENGER_CALLBACK_INDEX no_callbacks)
  | _ => None
  end.
Definition conn_calls (log : list (Call * Z)) : list (Served * Z) := omap (λ e, (λ d, (d, e.2)) <$> conn_call e.1) log.

(** The key and the connection of every friend. *)
Definition entry (f : Friend) : option (bytes * Z) := if f_status f =? NOFRIEND then None else Some (f_real_pk f, f_friendcon_id f).
Definition roster (m : Messenger) : list (option (bytes * Z)) := map entry (ms_friendlist m).

(** What the messenger has of a connection with the friend number [i]. *)
Definition friend_conn (key : bytes) (i : nat) : Conn := mkConn key 1 [mkCallbacks true true true true (Z.of_nat i); no_callbacks].

(** If the connections do what they promise, the messenger has one connection for
    every friend and no others. *)
Record link_ok (l : list (option (bytes * Z))) (t : list (Served * Z)) : Prop := {
  lk_careful : careful ∅ t;
  lk_friend : trusted t → ∀ i key con, l !! i = Some (Some (key, con)) → replay ∅ t !! con = Some (friend_conn key i);
  lk_conn : trusted t → ∀ con k, replay ∅ t !! con = Some k → ∃ i key, l !! i = Some (Some (key, con))
}.
Definition linked (m : Messenger) : Prop := link_ok (roster m) (conn_calls (ms_calls m)).

Definition good (o : option (Z * bool)) (m : Messenger) : Prop :=
  friends_ok m ∧ match o with Some (j, b) => ∃ f, ms_friendlist m !! Z.to_nat j = Some f ∧ focused b f | None => True end ∧ linked m.

Lemma good_split o m : good o m ↔ base o m ∧ linked m.
Proof. unfold good, base. tauto. Qed.

(** ** Elementary steps *)

(** A change of a friend that leaves who it is. *)
Record soft (o : option (Z * bool)) (f f' : Friend) : Prop := {
  so_ok : friend_ok f';
  so_pk : f_real_pk f' = f_real_pk f;
  so_con : f_friendcon_id f' = f_friendcon_id f;
  so_live : live f' ↔ live f;
  so_info : o ≠ None → f_info_size f' = f_info_size f
}.

Lemma base_same o m m' : base o m → ms_friendlist m' = ms_friendlist m → ms_self_public_key m' = ms_self_public_key m →
  ms_name m' = ms_name m → ms_name_length m' = ms_name_length m → ms_statusmessage m' = ms_statusmessage m →
  ms_statusmessage_length m' = ms_statusmessage_length m → ms_userstatus m' = ms_userstatus m → base o m'.
Proof. intros [[] Ho] E1 E2 E3 E4 E5 E6 E7. unfold numfriends in *. split; [split|]; unfold numfriends; by rewrite ?E1, ?E2, ?E3, ?E4, ?E5, ?E6, ?E7. Qed.

Lemma linked_same m m' : linked m → roster m' = roster m → conn_calls (ms_calls m') = conn_calls (ms_calls m) → linked m'.
Proof. unfold linked. by intros H -> ->. Qed.

Lemma good_same o m m' : good o m → ms_friendlist m' = ms_friendlist m → ms_self_public_key m' = ms_self_public_key m →
  ms_name m' = ms_name m → ms_name_length m' = ms_name_length m → ms_statusmessage m' = ms_statusmessage m →
  ms_statusmessage_length m' = ms_statusmessage_length m → ms_userstatus m' = ms_userstatus m →
  conn_calls (ms_calls m') = conn_calls (ms_calls m) → good o m'.
Proof.
  rewrite !good_split. intros [Hb Hl] E1 E2 E3 E4 E5 E6 E7 E8. split; [by apply (base_same o m)|]. apply (linked_same m); [done| |done]. unfold roster. by rewrite E1.
Qed.

Lemma conn_calls_quiet log c a : conn_call c = None → conn_calls (log ++ [(c, a)]) = conn_calls log.
Proof. intros H. unfold conn_calls. rewrite omap_app. cbn. rewrite H. apply app_nil_r. Qed.
Lemma conn_calls_snoc log c a d : conn_call c = Some d → conn_calls (log ++ [(c, a)]) = conn_calls log ++ [(d, a)].
Proof. intros H. unfold conn_calls. rewrite omap_app. cbn. by rewrite H. Qed.

Lemma gk_ask o c : conn_call c = None → keeps (good o) (ask c).
Proof. intros Hc s Hs. apply (good_same o s); try done. by apply conn_calls_quiet. Qed.
Lemma gk_tell o e : keeps (good o) (tell e).
Proof. intros s Hs. by apply (good_same o s). Qed.
Lemma base_ask o c : keeps (base o) (ask c).
Proof. intros s Hs. by apply (base_same o s). Qed.

(** A new list in which every friend is the old one, softly changed. *)
Lemma base_list o m l : base o m → length l = length (ms_friendlist m) →
  (∀ a f', l !! a = Some f' → ∃ f, ms_friendlist m !! a = Some f ∧ soft o f f') → base o (m <| ms_friendlist := l |>).
Proof.
  intros [H Ho] Hlen Hl. pose proof H as [H1 H2 H3 H4 H5 H6 H7 H8].
  split; [split|]; try done; unfold numfriends in *; cbn [set_field ms_friendlist ms_self_public_key].
  - apply Forall_lookup. intros a f' Hf. destruct (Hl _ _ Hf) as (f & _ & Hs). apply Hs.
  - intros a b f' g' Ha Hb Hf Hg E. destruct (Hl _ _ Ha) as (f & Ha' & Sf), (Hl _ _ Hb) as (g & Hb' & Sg).
    rewrite (so_pk _ _ _ Sf), (so_pk _ _ _ Sg) in E. apply (H2 a b f g); try done; [by apply (so_live _ _ _ Sf)|by apply (so_live _ _ _ Sg)].
  - intros a f' Ha Hf. destruct (Hl _ _ Ha) as (f & Ha' & Sf). rewrite (so_pk _ _ _ Sf). apply (H3 a); [done|]. by apply (so_live _ _ _ Sf).
  - intros f' Hf. destruct (Hl _ _ Hf) as (f & Ha & Sf). apply (so_live _ _ _ Sf), H4. by rewrite <- Hlen.
  - unfold zlen in *. by rewrite Hlen.
  - destruct o as [[j b]|]; [|done]. destruct Ho as (f & Hf & Hlive & Hb). pose proof (lookup_lt_Some _ _ _ Hf) as Hlt. rewrite <- Hlen in Hlt.
    destruct (lookup_lt_is_Some_2 _ _ Hlt) as [f' Hf']. destruct (Hl _ _ Hf') as (f0 & Hf0 & S0). assert (f0 = f) as -> by congruence.
    exists f'. split; [done|]. split; [by apply (so_live _ _ _ S0)|]. by rewrite (so_info _ _ _ S0).
Qed.

Lemma soft_entry o f f' : soft o f f' → entry f' = entry f.
Proof.
  intros [_ E1 E2 E3 _]. unfold entry, live in *. rewrite E1, E2.
  destruct (Z.eqb_spec (f_status f) NOFRIEND), (Z.eqb_spec (f_status f') NOFRIEND); tauto.
Qed.

Lemma good_list o m l : good o m → length l = length (ms_friendlist m) →
  (∀ a f', l !! a = Some f' → ∃ f, ms_friendlist m !! a = Some f ∧ soft o f f') → good o (m <| ms_friendlist := l |>).
Proof.
  rewrite !good_split. intros [Hb Hk] Hlen Hl. split; [by apply base_list|]. apply (linked_same m); [done| |done].
  unfold roster. cbn [set_field ms_friendlist]. apply list_eq_same_length with (n := length l); rewrite ?length_map; try done.
  intros a x y _ Hx Hy. rewrite list_lookup_fmap in Hx, Hy. destruct (l !! a) as [f'|] eqn:E; [|done]. destruct (Hl _ _ E) as (f & Ef & Hs).
  rewrite Ef in Hy. injection Hx as <-. injection Hy as <-. by apply (soft_entry o).
Qed.

Lemma soft_refl o f : friend_ok f → soft o f f.
Proof. by split. Qed.

Lemma gk_friend o j h : (∀ f, friend_ok f → match o with Some (j', b) => Z.to_nat j' = Z.to_nat j → focused b f | None => True end → soft o f (h f)) →
  keeps (good o) (on_friend j h).
Proof.
  intros Hh s Hs. unfold on_friend, modify. cbn [snd]. apply good_list; [done|apply length_aset|].
  intros a f' Ha. pose proof Hs as [[H1 _ _ _ _ _ _ _] Ho]. unfold aset in Ha. apply list_lookup_insert_Some in Ha as [(<- & <- & Hlt)|[Hne Ha]].
  - destruct (lookup_lt_is_Some_2 _ _ Hlt) as [f Hf]. exists f. split; [done|]. unfold friend_at, aget. rewrite Hf. cbn [default from_option id].
    apply Hh; [by apply (Forall_lookup_1 _ _ _ _ H1 Hf)|]. destruct o as [[j' b]|]; [|done]. intros E. destruct Ho as [(f0 & Hf0 & Hfoc) _]. rewrite E in Hf0. congruence.
  - exists f'. split; [done|]. apply soft_refl. by apply (Forall_lookup_1 _ _ _ _ H1 Ha).
Qed.

Create HintDb goods.
#[local] Hint Resolve gk_ask gk_tell : goods.
#[local] Hint Extern 1 (conn_call _ = None) => reflexivity : goods.
(** A change of fields the invariant does not mention. *)
Ltac soft_change := apply gk_friend; intros ? [] ?; split; [split; done|done|done|done|done].
Ltac good_step := first [solve [eauto 2 with goods] | soft_change | progress intros].
Ltac good_steps := msteps_with good_step.

(** ** Operations that only write packets or change other fields *)

Lemma gk_send_online o j : keeps (good o) (send_online_packet j).
Proof. unfold send_online_packet. good_steps. Qed.
Lemma gk_send_offline o j : keeps (good o) (send_offline_packet j).
Proof. unfold send_offline_packet. good_steps. Qed.
Lemma gk_write o j id d l b : keeps (good o) (write_cryptpacket_id j id d l b).
Proof. unfold write_cryptpacket_id. good_steps. Qed.
#[local] Hint Resolve gk_send_online gk_send_offline gk_write : goods.
Lemma gk_control_packet o j inbound n' t d l : keeps (good o) (send_file_control_packet j inbound n' t d l).
Proof. unfold send_file_control_packet. good_steps. Qed.
Lemma gk_sendrequest o j n' t s id d l : keeps (good o) (file_sendrequest j n' t s id d l).
Proof. unfold file_sendrequest. good_steps. Qed.
Lemma gk_data_packet o j n' d l : keeps (good o) (send_file_data_packet j n' d l).
Proof. unfold send_file_data_packet. good_steps. Qed.
Lemma gk_received o j p : keeps (good o) (friend_received_packet j p).
Proof. unfold friend_received_packet. good_steps. Qed.
Lemma gk_connection o j : keeps (good o) (m_get_friend_connectionstatus j).
Proof. unfold m_get_friend_connectionstatus. good_steps. Qed.
#[local] Hint Resolve gk_control_packet gk_sendrequest gk_data_packet gk_received gk_connection : goods.
Lemma gk_clear_receipts o j : keeps (good o) (clear_receipts j).
Proof. unfold clear_receipts. good_steps. Qed.
Lemma gk_add_receipt o j p d : keeps (good o) (add_receipt j p d).
Proof. unfold add_receipt. good_steps. Qed.
Lemma gk_receipts_loop o l j : keeps (good o) (receipts_loop l j).
Proof. induction l as [|[p d] l IH]; cbn [receipts_loop]; good_steps. Qed.
#[local] Hint Resolve gk_clear_receipts gk_add_receipt gk_receipts_loop : goods.
Lemma gk_do_receipts o j : keeps (good o) (do_receipts j).
Proof. unfold do_receipts. good_steps. Qed.
Lemma gk_send_message o j t d l : keeps (good o) (m_send_message_generic j t d l).
Proof. unfold m_send_message_generic. good_steps. Qed.
Lemma gk_usertyping o j b : keeps (good o) (m_set_usertyping j b).
Proof. unfold m_set_usertyping. good_steps. Qed.
Lemma gk_tcp_udp o j : keeps (good o) (check_friend_tcp_udp j).
Proof. unfold check_friend_tcp_udp. good_steps. Qed.
#[local] Hint Resolve gk_do_receipts gk_tcp_udp : goods.
Lemma gk_unsent o j : keeps (good o) (send_unsent j).
Proof. unfold send_unsent, m_sendname, send_statusmessage, send_userstatus, send_user_istyping. good_steps. Qed.
Lemma gk_send_lossy o j d l : keeps (good o) (m_send_custom_lossy_packet j d l).
Proof. unfold m_send_custom_lossy_packet. good_steps. Qed.
Lemma gk_send_lossless o j d l : keeps (good o) (send_custom_lossless_packet j d l).
Proof. unfold send_custom_lossless_packet. good_steps. Qed.
#[local] Hint Resolve gk_unsent : goods.

(** ** Files *)

Lemma soft_trans o f g h : soft o f g → soft o g h → soft o f h.
Proof.
  intros [A1 A2 A2' A3 A4] [B1 B2 B2' B3 B4]. split; [done|congruence|congruence|tauto|]. intros Ho. rewrite B4 by done. by apply A4.
Qed.

Lemma soft_transfer o inbound n h f : friend_ok f → soft o f (set_transfer inbound n h f).
Proof.
  intros [? ? ? ? ? ? ? ? [? ?]]. destruct inbound; (split; [|done..]); split; try done;
    cbn [set_transfer set_field f_file_sending f_file_receiving]; by rewrite length_aset.
Qed.

Lemma soft_counters o f f' : friend_ok f → f' = f ∨ f' = add_sending (-1) f ∨ f' = add_receiving (-1) f → soft o f f'.
Proof. intros H [->|[->| ->]]; [by apply soft_refl|..]; destruct H; (split; [|done..]); by split. Qed.

Lemma gk_transfer o inbound j n h : keeps (good o) (on_transfer inbound j n h).
Proof. apply gk_friend. intros f Hf _. by apply soft_transfer. Qed.
#[local] Hint Resolve gk_transfer : goods.

Lemma gk_new_file o j t s id d l : keeps (good o) (new_filesender j t s id d l).
Proof. unfold new_filesender. good_steps. Qed.
Lemma gk_send_data o j n' p d l : keeps (good o) (send_file_data j n' p d l).
Proof. unfold send_file_data, send_file_data_v1, send_file_data_v2. good_steps. Qed.
Lemma gk_file_seek o j f p : keeps (good o) (file_seek j f p).
Proof. unfold file_seek. good_steps. Qed.
Lemma gk_file_control o j f c : keeps (good o) (file_control j f c).
Proof.
  unfold file_control. good_steps. apply gk_friend. intros fr Hf _. unfold apply_control. cbv zeta.
  destruct (c =? FILECONTROL_KILL).
  - destruct b; cbn [negb andb]; (eapply soft_trans; [apply (soft_counters o fr); [done|]|apply soft_transfer, (soft_counters o fr); [done|]]); case_match; auto.
  - repeat (case_match; [by apply soft_transfer|]). by apply soft_refl.
Qed.
Lemma gk_filecontrol o j outbound n' c d l : keeps (good o) (handle_filecontrol j outbound n' c d l).
Proof. unfold handle_filecontrol. good_steps. Qed.
Lemma gk_file_sendrequest o j p : keeps (good o) (handle_file_sendrequest j p).
Proof. unfold handle_file_sendrequest. good_steps. Qed.
Lemma gk_file_data o j p : keeps (good o) (handle_file_data j p).
Proof. unfold handle_file_data, handle_file_data_v1, handle_file_data_v2. good_steps. Qed.
Lemma gk_lossy_packet o j p : keeps (good o) (m_handle_lossy_packet j p).
Proof. unfold m_handle_lossy_packet. good_steps. Qed.
Lemma gk_lossless_packet o j p : keeps (good o) (handle_custom_lossless_packet j p).
Proof. unfold handle_custom_lossless_packet. good_steps. Qed.
Lemma gk_group_invite o j p : keeps (good o) (handle_group_invite j p).
Proof. unfold handle_group_invite. good_steps. Qed.
#[local] Hint Resolve gk_send_data gk_filecontrol gk_file_sendrequest gk_file_data gk_lossless_packet gk_group_invite : goods.

(** ** Names and messages *)

Lemma zlen_copy_over src dst : zlen src <= zlen dst → zlen (copy_over src dst) = zlen dst.
Proof. unfold copy_over, zlen. rewrite length_app, length_drop. lia. Qed.

Lemma zlen_front_le l p : 0 <= l → zlen (slice 0 l p) <= l.
Proof. unfold slice, zlen. rewrite length_take. lia. Qed.

Lemma gk_friend_statusmessage o j d l : 0 <= l → keeps (good o) (set_friend_statusmessage j d l).
Proof.
  intros Hl. unfold set_friend_statusmessage. good_steps. apply gk_friend. intros f [] _. apply Z.ltb_ge in Heqb0. pose proof (zlen_front_le l d Hl).
  split; [|done..]. split; try done. cbn [set_field f_statusmessage f_statusmessage_length]. rewrite zlen_copy_over; lia.
Qed.

Lemma gk_friend_name o j d : zlen d <= MAX_NAME_LENGTH →
  keeps (good o) (on_friend j (λ f, f <| f_name := copy_over d (f_name f) |> <| f_name_length := zlen d |>)).
Proof.
  intros Hl. apply gk_friend. intros f [] _. pose proof (zlen_nonneg d).
  split; [|done..]. split; try done. cbn [set_field f_name f_name_length]. rewrite zlen_copy_over; lia.
Qed.

Lemma gk_friend_userstatus o j b : 0 <= b < USERSTATUS_INVALID → keeps (good o) (set_friend_userstatus j b).
Proof. intros Hb. apply gk_friend. intros f [] _. split; [|done..]. by split. Qed.
#[local] Hint Resolve gk_friend_statusmessage gk_friend_userstatus : goods.

(** Our own name, messages and status; the friends are told of them again. *)
Lemma good_self o m m' u : good o m → ms_friendlist m' = map u (ms_friendlist m) → ms_self_public_key m' = ms_self_public_key m →
  ms_calls m' = ms_calls m → (∀ f, friend_ok f → soft o f (u f)) →
  (zlen (ms_name m') = MAX_NAME_LENGTH ∧ 0 <= ms_name_length m' <= MAX_NAME_LENGTH) →
  (zlen (ms_statusmessage m') = MAX_STATUSMESSAGE_LENGTH ∧ 0 <= ms_statusmessage_length m' <= MAX_STATUSMESSAGE_LENGTH) →
  0 <= ms_userstatus m' < USERSTATUS_INVALID → good o m'.
Proof.
  intros H E1 E2 E3 Hu Hn Hs Ht. destruct (good_list o m (map u (ms_friendlist m)) H) as [[A1 A2 A3 A4 A5 A6 A7 A8] [Ho Hlk]].
  - by rewrite length_map.
  - intros a f' Ha. rewrite list_lookup_fmap in Ha. destruct (ms_friendlist m !! a) as [f|] eqn:E; [|done]. injection Ha as <-. exists f.
    split; [done|]. apply Hu. destruct H as [[B1 _ _ _ _ _ _ _] _]. by apply (Forall_lookup_1 _ _ _ _ B1 E).
  - cbn [set_field ms_friendlist ms_self_public_key] in *. unfold numfriends in *. cbn [set_field ms_friendlist] in *.
    split; [split|split]; unfold numfriends, linked, roster in *; by rewrite ?E1, ?E2, ?E3.
Qed.

Ltac soft_self := intros ? []; split; [|done..]; by split.

Lemma gk_setname o d l : 0 <= l → keeps (good o) (setname d l).
Proof.
  intros Hl. unfold setname. good_steps. apply mk_modify. intros s Hs. pose proof Hs as [[B1 _ _ _ _ B2 B3 B4] _]. apply Z.ltb_ge in Heqb.
  eapply good_self; [done|done|done|done|soft_self| |done|done].
  cbn [set_field ms_name ms_name_length]. pose proof (zlen_front_le l d Hl). rewrite zlen_copy_over; lia.
Qed.
Lemma gk_set_statusmessage o d l : 0 <= l → keeps (good o) (m_set_statusmessage d l).
Proof.
  intros Hl. unfold m_set_statusmessage. good_steps. apply mk_modify. intros s Hs. pose proof Hs as [[B1 _ _ _ _ B2 B3 B4] _]. apply Z.ltb_ge in Heqb.
  eapply good_self; [done|done|done|done|soft_self|done| |done].
  cbn [set_field ms_statusmessage ms_statusmessage_length]. pose proof (zlen_front_le l d Hl). rewrite zlen_copy_over; lia.
Qed.
Lemma gk_set_userstatus o b : 0 <= b → keeps (good o) (m_set_userstatus b).
Proof.
  intros Hl. unfold m_set_userstatus. good_steps. apply mk_modify. intros s Hs. pose proof Hs as [[B1 _ _ _ _ B2 B3 B4] _]. apply Z.leb_gt in Heqb0.
  eapply good_self; [done|done|done|done|soft_self|done|done|done].
Qed.

(** ** Connections *)

Lemma gk_status_field j b st : 0 < st <= FRIEND_ONLINE → (st < FRIEND_CONFIRMED → b = true) →
  keeps (good (Some (j, b))) (on_friend j (λ f, f <| f_status := st |>)).
Proof.
  intros Hst Hb. apply gk_friend. intros f Hf Hfoc. destruct (Hfoc eq_refl) as [Hlive Hinfo]. destruct Hf.
  assert (live (f <| f_status := st |>)) as Hl by (unfold live, NOFRIEND; cbn; lia).
  split; [|done|done|done|done]. split; try done; cbn [set_field f_status f_real_pk f_info_size f_info]; [lia|auto|]. intros [_ H]. by apply Hinfo, Hb.
Qed.

Lemma gk_break_files o j : keeps (good o) (break_files j).
Proof.
  apply gk_friend. intros f [? ? ? ? ? ? ? ? [? ?]] _. split; [|done..]. split; try done.
  cbn [set_field f_file_sending f_file_receiving]. by rewrite !length_map.
Qed.
#[local] Hint Resolve gk_status_field gk_break_files : goods.

Lemma gk_set_status j b st : 0 < st <= FRIEND_ONLINE → (st < FRIEND_CONFIRMED → b = true) → keeps (good (Some (j, b))) (set_friend_status j st).
Proof. intros Hst Hb. unfold set_friend_status, check_friend_connectionstatus. good_steps. Qed.

(** A friend that was read to be there. *)
Lemma no_friend_ok : friend_ok empty_friend.
Proof. split; try (by vm_compute). intros H. by destruct H. Qed.

Lemma gk_read_friend {A} j (k : Friend → MS A) :
  (∀ f, friend_ok f → ∃ o, match o with None => True | Some (j', b) => j' = j ∧ focused b f end ∧ leads (good o) (k f) (λ _, good None)) →
  keeps (good None) (the_friend j ≫= k).
Proof.
  intros H s Hs. change ((the_friend j ≫= k) s) with (k (friend_at s j) s). pose proof Hs as [[B1 _ _ _ _ _ _ _] _].
  unfold friend_at, aget. destruct (ms_friendlist s !! Z.to_nat j) as [f|] eqn:E; cbn [default from_option id].
  - destruct (H f (Forall_lookup_1 _ _ _ _ B1 E)) as (o & Ho & Hk). apply Hk. split; [apply Hs|]. split; [|apply Hs]. destruct o as [[j' b]|]; [|done].
    destruct Ho as [-> Hfoc]. by exists f.
  - destruct (H empty_friend no_friend_ok) as (o & Ho & Hk). apply Hk. destruct o as [[j' b]|]; [|done]. destruct Ho as [_ [Hl _]]. by destruct Hl.
Qed.

(** The friend may be forgotten. *)
Lemma ld_forget {A} o (m : MS A) : keeps (good o) m → leads (good o) m (λ _, good None).
Proof. intros H. apply ld_keeps; [done|]. intros s (Hs & _ & Hl). by split. Qed.

Lemma gk_handle_status j b : keeps (good None) (m_handle_status j b).
Proof.
  apply gk_read_friend. intros f Hf. destruct (Z.eqb_spec (f_status f) FRIEND_ONLINE) as [E|_].
  - exists (Some (j, false)). split; [split; [done|]; split; [unfold live; by rewrite E|done]|]. apply ld_forget. good_steps. by apply gk_set_status.
  - exists None. split; [done|]. apply ld_forget. good_steps.
Qed.

(** ** Packets *)

Lemma gk_handle_friend_packet j p : bytes_ok p → keeps (good (Some (j, false))) (handle_friend_packet j p).
Proof.
  intros Hp. assert (bytes_ok (drop 1 p)) as Hp' by (by apply Forall_drop).
  unfold handle_friend_packet, set_friend_typing. good_steps.
  - by apply gk_set_status.
  - apply gk_friend_name. by apply Z.ltb_ge.
  - apply gk_friend_statusmessage, zlen_nonneg.
  - apply gk_friend_userstatus. split; [apply (aget_byte _ 0 Hp')|]. by apply Z.leb_gt.
Qed.

Lemma gk_handle_packet j p : bytes_ok p → keeps (good (Some (j, false))) (m_handle_packet j p).
Proof.
  intros Hp. unfold m_handle_packet. good_steps.
  - by apply gk_set_status.
  - by apply gk_handle_friend_packet.
Qed.

(** ** Iterations *)

Section iterate.
Context (client : Z → Z → Z → Z → MS unit).
Hypothesis (Hclient : ∀ j n p l, keeps (good None) (client j n p l)).

Lemma gk_do_filetransfer j n free : keeps (good None) (do_filetransfer client j n free).
Proof using Hclient. unfold do_filetransfer, finish_sending, request_chunk, file_reqchunk. good_steps. Qed.
#[local] Hint Resolve gk_do_filetransfer : goods.
Lemma gk_transfers_loop fuel j n free : keeps (good None) (transfers_loop client fuel j n free).
Proof using Hclient. revert n free. induction fuel as [|fuel IH]; intros n free; cbn [transfers_loop]; good_steps. Qed.
Lemma gk_chunks_loop fuel j free : keeps (good None) (chunks_loop client fuel j free).
Proof using Hclient.
  revert free. induction fuel as [|fuel IH]; intros free; cbn [chunks_loop]; [apply mk_ret|].
  apply mk_bind; [apply gk_transfers_loop|]. good_steps.
Qed.
#[local] Hint Resolve gk_chunks_loop : goods.
Lemma gk_count_seek j : keeps (good None) (on_friend j (λ f, f <| f_file_sending := map count_seek (f_file_sending f) |>)).
Proof using.
  apply gk_friend. intros f [? ? ? ? ? ? ? ? [? ?]] _. split; [|done..]. split; try done. cbn [set_field f_file_sending f_file_receiving]. by rewrite length_map.
Qed.
#[local] Hint Resolve gk_count_seek : goods.
Lemma gk_reqchunk j : keeps (good None) (do_reqchunk_filecb client j).
Proof using Hclient.
  unfold do_reqchunk_filecb. good_steps; apply mk_each; intros n _; unfold resend_request, check_stale; good_steps.
Qed.
#[local] Hint Resolve gk_reqchunk : goods.
Lemma gk_last_seen j t : keeps (good None) (on_friend j (λ f, f <| f_last_seen_time := u64 t |>)).
Proof using. apply gk_friend. intros f [? ? ? ? ? ? ? [? ?] ?] _. split; [|done..]. split; try done. split; [done|apply u64_range]. Qed.
#[local] Hint Resolve gk_last_seen : goods.

(** A friend whose request is not answered yet. *)
Lemma requested_focused f : friend_ok f → f_status f = FRIEND_ADDED ∨ f_status f = FRIEND_REQUESTED → focused true f.
Proof using.
  intros [] H. assert (0 < f_status f < FRIEND_CONFIRMED) as Hs by (destruct H as [-> | ->]; done).
  split; [unfold live, NOFRIEND; lia|auto].
Qed.

Lemma gk_timed_out j t : keeps (good (Some (j, true))) (check_friend_request_timed_out j t).
Proof using. unfold check_friend_request_timed_out. good_steps. by apply gk_set_status. Qed.

Lemma gk_do_friend j t : keeps (good None) (do_friend client j t).
Proof using Hclient.
  unfold do_friend. apply gk_read_friend. intros f Hf. exists (if f_status f =? FRIEND_ADDED then Some (j, true) else None).
  destruct (Z.eqb_spec (f_status f) FRIEND_ADDED) as [E|_]; (split; [done || (split; [done|]; apply requested_focused; auto)|]);
    (eapply ld_bind; [apply ld_forget; good_steps; by apply gk_set_status|]); intros _; (apply ld_keeps; [|done]).
  all: apply gk_read_friend; intros f' Hf'; exists (if f_status f' =? FRIEND_REQUESTED then Some (j, true) else None).
  all: destruct (Z.eqb_spec (f_status f') FRIEND_REQUESTED) as [E'|_]; (split; [done || (split; [done|]; apply requested_focused; auto)|]).
  all: (eapply ld_bind; [apply ld_forget; first [apply gk_timed_out|apply mk_ret]|]); intros _; (apply ld_keeps; [|done]); good_steps.
Qed.

Lemma gk_do_friends : keeps (good None) (do_friends client).
Proof using Hclient. unfold do_friends. good_steps. apply mk_each. intros j _. apply gk_do_friend. Qed.
End iterate.

(** ** Friends that come and go *)

(** The key is not one of a friend, nor ours. *)
Definition fresh_key (key : bytes) (m : Messenger) : Prop :=
  (∀ a f, ms_friendlist m !! a = Some f → live f → f_real_pk f ≠ key) ∧ key ≠ ms_self_public_key m
  ∧ zlen key = CRYPTO_PUBLIC_KEY_SIZE ∧ public_key_valid key = true ∧ bytes_ok key.

Lemma find_friend_none l x key a f : 0 <= x → find_friend l x key = -1 → Forall friend_ok l → l !! a = Some f → live f → f_real_pk f ≠ key.
Proof.
  revert x a. induction l as [|f' l IH]; intros x a Hx; [done|]. cbn [find_friend].
  destruct (_ && _) eqn:E; [lia|]. intros Hnone Hok Ha Hl. apply list.Forall_cons in Hok as [Hok' Hok]. destruct a as [|a]; [|by apply (IH (x + 1) a); try lia].
  injection Ha as ->. intros Ek. apply andb_false_iff in E as [E|E].
  - apply Z.ltb_ge in E. destruct Hok'. unfold live, NOFRIEND in Hl. lia.
  - unfold pk_equal, bytes_eqb in E. rewrite bool_decide_eq_false in E. by apply E.
Qed.

(** The messenger as if the new friend [r] had data for a request already. *)
Definition pending (r : Z) (m : Messenger) : Prop :=
  0 <= r < numfriends m ∧ base None (m <| ms_friendlist := aset (ms_friendlist m) r ((friend_at m r) <| f_info_size := 1 |>) |>).

Lemma pending_ask r c : keeps (pending r) (ask c).
Proof. intros s [Hr Hs]. split; [done|]. by apply (base_same None (s <| ms_friendlist := aset (ms_friendlist s) r ((friend_at s r) <| f_info_size := 1 |>) |>)). Qed.

Definition new_friend (r : Z) (m : Messenger) (st : Z) : Prop := pending r m ∧ (FRIEND_CONFIRMED <= st → base None m).

Lemma new_ask r st c : keeps (λ m, new_friend r m st) (ask c).
Proof. intros s [Hp Hs]. split; [by apply pending_ask|]. intros Hst. by apply base_ask, Hs. Qed.

(** A friend put into a free slot, or at the end. *)
Lemma base_add m l r f : friends_ok m → 0 <= r → friend_ok f → live f → fresh_key (f_real_pk f) m → numfriends m < UINT32_MAX →
  (l = ms_friendlist m ∧ r < numfriends m ∧ f_status (friend_at m r) = NOFRIEND ∨ l = ms_friendlist m ++ [empty_friend] ∧ r = numfriends m) →
  base None (m <| ms_friendlist := aset l r f |>).
Proof.
  intros [H1 H2 H3 H4 H5 H6 H7 H8] Hr Hf Hl (K1 & K2 & _) Hnum Hcase. unfold numfriends in *.
  assert (∀ a g, aset l r f !! a = Some g → (a = Z.to_nat r ∧ g = f) ∨ (a ≠ Z.to_nat r ∧ ms_friendlist m !! a = Some g)) as Hlook.
  { intros a g Hg. unfold aset in Hg. apply list_lookup_insert_Some in Hg as [(<- & <- & _)|[Hne Hg]]; [by left|]. right. split; [done|].
    destruct Hcase as [(-> & _)|(-> & ->)]; [done|]. apply lookup_app_Some in Hg as [Hg|[Hge Hg]]; [done|].
    unfold zlen in Hne. destruct (a - length (ms_friendlist m))%nat eqn:E; [lia|done]. }
  assert (length (aset l r f) = length (ms_friendlist m) ∧ r < zlen (ms_friendlist m) ∨ length (aset l r f) = Datatypes.S (length (ms_friendlist m)) ∧ r = zlen (ms_friendlist m)) as Hlen.
  { rewrite length_aset. destruct Hcase as [(-> & ? & _)|(-> & ?)]; [by left|right]. rewrite length_app. cbn. split; [lia|done]. }
  split; [split|]; try done; unfold numfriends; cbn [set_field ms_friendlist ms_self_public_key].
  - apply Forall_lookup. intros a g Hg. destruct (Hlook _ _ Hg) as [[_ ->]|[_ Hg']]; [done|]. by apply (Forall_lookup_1 _ _ _ _ H1 Hg').
  - intros a b g g' Ha Hb Hg Hg' E. destruct (Hlook _ _ Ha) as [[-> ->]|[Na Ha']], (Hlook _ _ Hb) as [[-> ->]|[Nb Hb']]; [done|..].
    + by destruct (K1 _ _ Hb' Hg').
    + by destruct (K1 _ _ Ha' Hg).
    + by apply (H2 a b g g').
  - intros a g Ha Hg. destruct (Hlook _ _ Ha) as [[-> ->]|[Na Ha']]; [done|]. by apply (H3 a).
  - intros g Hg. destruct (Hlook _ _ Hg) as [[_ ->]|[Na Hg']]; [done|]. apply H4. destruct Hlen as [[<- _]|[Hlen ->]]; [done|].
    rewrite Hlen in Na. unfold zlen in Na. cbn in Na. lia.
  - unfold zlen in *. destruct Hlen as [[-> _]|[-> _]]; lia.
Qed.

Lemma ld_read_at {A B} P (g : Messenger → A) (f : A → MS B) R : (∀ s0, P s0 → leads (λ s, s = s0) (f (g s0)) R) → leads P (get g ≫= f) R.
Proof. intros H s Hs. exact (H s Hs s eq_refl). Qed.

(** The friend [init_new_friend] makes of a free slot. *)
Definition made_friend (key : bytes) (st con : Z) (f : Friend) : Friend :=
  f <| f_status := st |> <| f_friendcon_id := con |> <| f_friendrequest_lastsent := 0 |>
    <| f_real_pk := key |> <| f_statusmessage_length := 0 |> <| f_userstatus := USERSTATUS_NONE |>
    <| f_is_typing := false |> <| f_message_id := 0 |> <| f_num_sending_files := 0 |>
    <| f_num_receiving_files := 0 |> <| f_toxcore_capabilities := TOX_CAPABILITY_BASIC |>.

Lemma made_ok key st con f b : friend_ok f → 0 < st <= FRIEND_ONLINE → zlen key = CRYPTO_PUBLIC_KEY_SIZE ∧ public_key_valid key = true ∧ bytes_ok key →
  (st < FRIEND_CONFIRMED → b = true) → friend_ok (if b : bool then (made_friend key st con f) <| f_info_size := 1 |> else made_friend key st con f).
Proof.
  intros [? ? ? [? ?] ? ? ? ? ?] Hst Hk Hb. destruct b; split; try done; cbn; try lia.
Qed.

Lemma made_new s0 s key st con r : friends_ok s0 → fresh_key key s0 → numfriends s0 < UINT32_MAX → 0 < st <= FRIEND_ONLINE →
  r = first_free (ms_friendlist s0) 0 → s = (if r =? numfriends s0 then s0 <| ms_friendlist := ms_friendlist s0 ++ [empty_friend] |> else s0) →
  new_friend r (on_friend r (made_friend key st con) s).2 st.
Proof.
  intros H0 Hk Hnum Hst Er Es. pose proof H0 as [Hall _ _ _ _ _ _ _].
  assert (0 <= r ∧ (ms_friendlist s = ms_friendlist s0 ∧ r < numfriends s0 ∧ f_status (friend_at s0 r) = NOFRIEND
          ∨ ms_friendlist s = ms_friendlist s0 ++ [empty_friend] ∧ r = numfriends s0)) as [Hr Hcase].
  { subst s. destruct (first_free_spec (ms_friendlist s0) 0) as [E|(j & Hj & E & Hfree)]; rewrite E in Er.
    - replace (r =? numfriends s0) with true by (symmetry; apply Z.eqb_eq; unfold numfriends; lia). unfold numfriends. pose proof (zlen_nonneg (ms_friendlist s0)).
      split; [lia|]. right. split; [done|lia].
    - replace (r =? numfriends s0) with false by (symmetry; apply Z.eqb_neq; unfold numfriends; lia). split; [lia|]. left. split; [done|]. unfold numfriends, friend_at.
      replace r with j by lia. split; [lia|done]. }
  assert (friend_ok (friend_at s r)) as Hf.
  { unfold friend_at, aget. destruct (ms_friendlist s !! Z.to_nat r) as [f|] eqn:E; [|apply no_friend_ok]. cbn.
    destruct Hcase as [(El & _)|(El & _)]; rewrite El in E.
    - by apply (Forall_lookup_1 _ _ _ _ Hall E).
    - apply lookup_app_Some in E as [E|[_ E]]; [by apply (Forall_lookup_1 _ _ _ _ Hall E)|]. apply list_lookup_singleton_Some in E as [_ <-]. apply no_friend_ok. }
  assert (0 <= r < zlen (ms_friendlist s)) as Hrange.
  { unfold numfriends in Hcase. destruct Hcase as [(-> & ? & _)|(-> & ->)]; [lia|]. rewrite zlen_app, zlen_cons. pose proof (zlen_nonneg (ms_friendlist s0)). pose proof (zlen_nonneg ([] : list Friend)). lia. }
  assert (∀ b, (st < FRIEND_CONFIRMED → b = true) → base None (s <| ms_friendlist := aset (ms_friendlist s) r
            (if b : bool then (made_friend key st con (friend_at s r)) <| f_info_size := 1 |> else made_friend key st con (friend_at s r)) |>)) as Hgood.
  { intros b Hb. pose proof (made_ok key st con _ b Hf Hst (proj2 (proj2 Hk)) Hb) as Hok.
    pose proof (base_add s0 (ms_friendlist s) r _ H0 Hr Hok) as Hadd. apply (base_same None _ _ (Hadd ltac:(destruct b; unfold live, NOFRIEND; cbn; lia) ltac:(by destruct b) Hnum Hcase));
      subst s; by destruct (_ =? _). }
  split; [split|].
  - unfold numfriends. cbn [on_friend modify snd set_field ms_friendlist]. rewrite zlen_aset. done.
  - assert (friend_at (on_friend r (made_friend key st con) s).2 r = made_friend key st con (friend_at s r)) as ->.
    { unfold friend_at at 1. cbn [on_friend modify snd set_field ms_friendlist]. by apply aget_aset_eq. }
    apply (base_same None _ _ (Hgood true ltac:(done))); try done.
    cbn [on_friend modify snd set_field ms_friendlist]. unfold aset. by rewrite list_insert_insert_eq.
  - intros Hge. apply (Hgood false). lia.
Qed.

Lemma ld_init key st : 0 < st <= FRIEND_ONLINE →
  leads (λ s, base None s ∧ fresh_key key s) (init_new_friend key st) (λ r s, (r < 0 ∧ base None s) ∨ (0 <= r ∧ new_friend r s st)).
Proof.
  intros Hst. unfold init_new_friend. apply ld_read_at. intros s0 [H0 Hk].
  assert (∀ s, base None s → (FAERR_NOMEM < 0 ∧ base None s) ∨ (0 <= FAERR_NOMEM ∧ new_friend FAERR_NOMEM s st)) as Hno by (left; split; done).
  destruct (Z.eqb_spec (numfriends s0) UINT32_MAX) as [_|Hnum]; [apply ld_ret; intros s ->; by apply Hno|].
  assert (numfriends s0 < UINT32_MAX) as Hlt by (destruct H0 as [[] _]; lia).
  set (Q := λ s, base None s ∧ fresh_key key s ∧ numfriends s < UINT32_MAX).
  assert (∀ c, leads Q (ask c) (λ _, Q)) as Hask by (intros c s (? & ? & ?); split; [by apply base_ask|done]).
  apply (ld_bind _ _ _ Q); [intros s ->; by apply (Hask CAlloc)|]. intros ok. destruct (_ =? _); [apply ld_ret; intros s [? _]; by apply Hno|].
  apply (ld_bind _ _ _ Q); [apply Hask|]. intros con. destruct (_ =? _); [apply ld_ret; intros s [? _]; by apply Hno|].
  apply ld_read_at. intros s1 ([H1 _] & Hk1 & Hn1). cbv zeta. set (r := first_free (ms_friendlist s1) 0).
  apply (ld_bind _ _ _ (λ s, s = (if r =? numfriends s1 then s1 <| ms_friendlist := ms_friendlist s1 ++ [empty_friend] |> else s1))).
  { destruct (r =? numfriends s1); by intros s ->. } intros _.
  apply (ld_bind _ _ _ (λ s, new_friend r s st)). { intros s Hs. by apply (made_new s1 s). } intros _.
  apply (ld_bind _ _ _ (λ s, new_friend r s st)); [by apply ld_keeps; [apply new_ask|]|]. intros _.
  apply (ld_bind _ _ _ (λ s, new_friend r s st)); [by apply ld_keeps; [apply new_ask|]|]. intros c.
  apply (ld_bind _ _ _ (λ s, new_friend r s st)).
  - apply ld_keeps; [|done]. unfold send_online_packet. msteps_with ltac:(apply new_ask).
  - intros _. apply ld_ret. intros s Hs. right. split; [apply Hs|done].
Qed.

(** *** The connection of a new friend *)

(** The messenger has taken connection [con] for [key], for a friend to be made. *)
Record taking (l : list (option (bytes * Z))) (key : bytes) (con : Z) (t : list (Served * Z)) : Prop := {
  tk_careful : careful ∅ t;
  tk_taken : trusted t → replay ∅ t !! con = Some (new_conn key);
  tk_friend : trusted t → ∀ i key' con', l !! i = Some (Some (key', con')) → con' ≠ con ∧ replay ∅ t !! con' = Some (friend_conn key' i);
  tk_conn : trusted t → ∀ con' k, replay ∅ t !! con' = Some k → con' = con ∨ ∃ i key', l !! i = Some (Some (key', con'))
}.

Lemma link_none l t key : link_ok l t → link_ok l (t ++ [(SNew key, -1)]).
Proof.
  intros [A1 A2 A3]. split; [by apply careful_snoc|..]; intros H; apply traced_snoc in H as [H _]; rewrite replay_snoc; [exact (A2 H)|exact (A3 H)].
Qed.

Lemma link_new l t key con : link_ok l t → con ≠ -1 → (∀ i key' con', l !! i = Some (Some (key', con')) → key' ≠ key) → taking l key con (t ++ [(SNew key, con)]).
Proof.
  intros [A1 A2 A3] Hcon Hkey.
  assert (trusted (t ++ [(SNew key, con)]) → trusted t ∧ replay ∅ t !! con = None ∧ replay ∅ (t ++ [(SNew key, con)]) = <[con := new_conn key]> (replay ∅ t)) as Hnew.
  { intros H. apply traced_snoc in H as [H [?|[Hk _]]]; [done|]. split; [done|]. assert (replay ∅ t !! con = None) as Hn.
    { destruct (replay ∅ t !! con) as [k|] eqn:E; [|done]. destruct (A3 H con k E) as (i & key' & Hi). destruct (Hkey i key' con Hi).
      specialize (Hk k eq_refl). rewrite (A2 H i key' con Hi) in E. by injection E as <-. }
    split; [done|]. rewrite replay_snoc. cbn [step]. destruct (Z.eqb_spec con (-1)); [done|]. by rewrite Hn. }
  split.
  - by apply careful_snoc.
  - intros H. destruct (Hnew H) as (_ & _ & ->). apply lookup_insert_eq.
  - intros H i key' con' Hi. destruct (Hnew H) as (Ht & Hn & ->). specialize (A2 Ht i key' con' Hi).
    assert (con' ≠ con) as Hne by (intros ->; congruence). by rewrite lookup_insert_ne.
  - intros H con' k. destruct (Hnew H) as (Ht & Hn & ->). rewrite lookup_insert_Some. intros [[<- _]|[_ Hk]]; [by left|]. right. by apply (A3 Ht con' k).
Qed.

Lemma link_made l l' t key con i a : taking l key con t → (∀ x, l !! i ≠ Some (Some x)) → l' !! i = Some (Some (key, con)) →
  (∀ j x, j ≠ i → l' !! j = Some (Some x) ↔ l !! j = Some (Some x)) →
  link_ok l' (t ++ [(SCallbacks con MESSENGER_CALLBACK_INDEX (mkCallbacks true true true true (Z.of_nat i)), a)]).
Proof.
  intros [A1 A2 A3 A4] Hfree Hi Hl. set (cb := mkCallbacks true true true true (Z.of_nat i)).
  assert (trusted (t ++ [(SCallbacks con MESSENGER_CALLBACK_INDEX cb, a)]) → trusted t ∧
    replay ∅ (t ++ [(SCallbacks con MESSENGER_CALLBACK_INDEX cb, a)]) = <[con := friend_conn key i]> (replay ∅ t)) as Hset.
  { intros H. apply traced_snoc in H as [H Ha]. split; [done|]. specialize (A2 H). cbn [trusts] in Ha. rewrite replay_snoc. rewrite Ha; [|by rewrite A2|done].
    cbn [step Z.eqb]. by rewrite (alter_found _ _ _ _ A2). }
  split.
  - apply careful_snoc. split; [done|]. intros H. cbn [guards]. by rewrite (A2 H).
  - intros H j key' con' Hj. destruct (Hset H) as [Ht ->]. destruct (decide (j = i)) as [->|Hne].
    + rewrite Hi in Hj. injection Hj as <- <-. apply lookup_insert_eq.
    + apply Hl in Hj; [|done]. destruct (A3 Ht j key' con' Hj) as [Hc Hr]. by rewrite lookup_insert_ne.
  - intros H con' k. destruct (Hset H) as [Ht ->]. rewrite lookup_insert_Some. intros [[<- _]|[Hc Hk]]; [by exists i, key|].
    destruct (A4 Ht con' k Hk) as [?|(j & key' & Hj)]; [done|]. exists j, key'. apply Hl; [|done]. intros ->. by apply (Hfree (key', con')).
Qed.

(** The friend [r] is in the list, and its connection has no callbacks yet. *)
Definition half_linked (r : Z) (key : bytes) (con : Z) (m : Messenger) : Prop :=
  0 <= r ∧ roster m !! Z.to_nat r = Some (Some (key, con)) ∧
  ∃ l, taking l key con (conn_calls (ms_calls m)) ∧ (∀ x, l !! Z.to_nat r ≠ Some (Some x)) ∧
    ∀ j x, j ≠ Z.to_nat r → roster m !! j = Some (Some x) ↔ l !! j = Some (Some x).

Lemma entry_some m i x : roster m !! i = Some (Some x) ↔ ∃ f, ms_friendlist m !! i = Some f ∧ live f ∧ x = (f_real_pk f, f_friendcon_id f).
Proof.
  unfold roster. rewrite list_lookup_fmap. destruct (ms_friendlist m !! i) as [f|]; cbn; [|naive_solver]. unfold entry, live.
  destruct (Z.eqb_spec (f_status f) NOFRIEND); naive_solver.
Qed.

(** The friend put into a free slot, or at the end. *)
Lemma made_half s0 s key st con r : taking (roster s0) key con (conn_calls (ms_calls s0)) → 0 < st →
  r = first_free (ms_friendlist s0) 0 → s = (if r =? numfriends s0 then s0 <| ms_friendlist := ms_friendlist s0 ++ [empty_friend] |> else s0) →
  half_linked r key con (on_friend r (made_friend key st con) s).2.
Proof.
  intros Ht Hst Er Es. destruct (first_free_spec (ms_friendlist s0) 0) as [E|(j & Hj & E & Hfree)]; rewrite E in Er.
  - replace (r =? numfriends s0) with true in Es by (symmetry; apply Z.eqb_eq; unfold numfriends; lia). subst s. unfold zlen in Er.
    assert (Z.to_nat r = length (ms_friendlist s0)) as En by lia. split; [lia|]. split.
    { apply entry_some. cbn [on_friend modify snd set_field ms_friendlist]. unfold aset. rewrite En. eexists. rewrite list_lookup_insert_eq by (rewrite length_app; cbn; lia).
      split; [done|]. split; [unfold live, NOFRIEND; cbn; lia|done]. }
    exists (roster s0). split; [done|]. split.
    + intros x Hx. apply entry_some in Hx as (f & Hf & _). apply lookup_lt_Some in Hf. lia.
    + intros i x Hne. rewrite !entry_some. cbn [on_friend modify snd set_field ms_friendlist]. unfold aset. rewrite list_lookup_insert_ne by done.
      split; intros (f & Hf & Hl & Hx); exists f; (split; [|done]).
      * apply lookup_app_Some in Hf as [Hf|[_ Hf]]; [done|]. apply list_lookup_singleton_Some in Hf as [_ <-]. by destruct Hl.
      * by apply lookup_app_l_Some.
  - replace (r =? numfriends s0) with false in Es by (symmetry; apply Z.eqb_neq; unfold numfriends; lia). subst s. replace j with r in * by lia.
    pose proof (aget_lookup empty_friend (ms_friendlist s0) r Hj) as Hr. split; [lia|]. split.
    { apply entry_some. cbn [on_friend modify snd set_field ms_friendlist]. unfold aset. eexists. rewrite list_lookup_insert_eq by (by apply lookup_lt_Some in Hr).
      split; [done|]. split; [unfold live, NOFRIEND; cbn; lia|done]. }
    exists (roster s0). split; [done|]. split.
    + intros x Hx. apply entry_some in Hx as (f & Hf & Hl & _). apply Hl. congruence.
    + intros i x Hne. rewrite !entry_some. cbn [on_friend modify snd set_field ms_friendlist]. unfold aset. by rewrite list_lookup_insert_ne by done.
Qed.

Lemma linked_ask c : conn_call c = None → keeps linked (ask c).
Proof. intros Hc s Hs. apply (linked_same s); [done|done|]. by apply conn_calls_quiet. Qed.

Lemma ld_init_linked key st : 0 < st → leads (λ s, linked s ∧ ∀ a f, ms_friendlist s !! a = Some f → live f → f_real_pk f ≠ key)
  (init_new_friend key st) (λ _, linked).
Proof.
  intros Hst. unfold init_new_friend. set (P := λ s, linked s ∧ ∀ a f, ms_friendlist s !! a = Some f → live f → f_real_pk f ≠ key).
  apply (ld_bind _ _ _ P); [by apply ld_keeps; [apply mk_get|]|]. intros m. destruct (_ =? UINT32_MAX); [apply ld_ret; by intros s [? _]|].
  apply (ld_bind _ _ _ P); [intros s [H1 H2]; split; [by apply linked_ask|done]|]. intros ok. destruct (ok =? 0); [apply ld_ret; by intros s [? _]|].
  apply (ld_seq _ _ _ (λ con s, if con =? -1 then linked s else taking (roster s) key con (conn_calls (ms_calls s)))).
  { intros s [H1 H2]. cbn [ask fst snd set_field ms_calls]. set (con := ms_answer s _). unfold linked.
    cbn [set_field ms_calls]. rewrite (conn_calls_snoc _ (CNewConnection key) con (SNew key) eq_refl).
    destruct (Z.eqb_spec con (-1)) as [->|Hne]; [by apply link_none|]. apply link_new; [done|done|].
    intros i key' con' Hi. apply entry_some in Hi as (f & Hf & Hl & [= -> ->]). by apply (H2 i f). }
  intros con. destruct (con =? -1); [by apply ld_ret|]. apply ld_read_at. intros s1 H1. cbv zeta. set (r := first_free (ms_friendlist s1) 0).
  apply (ld_bind _ _ _ (λ s, s = (if r =? numfriends s1 then s1 <| ms_friendlist := ms_friendlist s1 ++ [empty_friend] |> else s1))).
  { destruct (r =? numfriends s1); by intros s ->. } intros _.
  apply (ld_bind _ _ _ (half_linked r key con)). { intros s Hs. by apply (made_half s1 s). } intros _.
  apply (ld_bind _ _ _ linked).
  { intros s (Hr & Hrow & l & Ht & Hfree & Hl). unfold linked. cbn [ask snd set_field ms_calls].
    rewrite (conn_calls_snoc _ (CCallbacks con (Some r)) _ (SCallbacks con MESSENGER_CALLBACK_INDEX (mkCallbacks true true true true r)) eq_refl).
    rewrite <- (Z2Nat.id r) by done. by apply (link_made l _ _ key). }
  intros _. apply ld_keeps; [|done]. unfold send_online_packet. msteps_with ltac:(by apply linked_ask).
Qed.

(** Both. *)
Lemma ld_init_good key st : 0 < st <= FRIEND_ONLINE →
  leads (λ s, good None s ∧ fresh_key key s) (init_new_friend key st) (λ r s, ((r < 0 ∧ base None s) ∨ (0 <= r ∧ new_friend r s st)) ∧ linked s).
Proof.
  intros Hst s [Hg Hk]. apply good_split in Hg as [Hb Hl]. split; [by apply ld_init|]. apply (ld_init_linked key st); [lia|]. split; [done|apply Hk].
Qed.

Lemma keeps_leads {A} P (m : MS A) : leads P m (λ _, P) → keeps P m.
Proof. done. Qed.

Lemma gk_add_norequest key : zlen key = CRYPTO_PUBLIC_KEY_SIZE → bytes_ok key → keeps (good None) (m_addfriend_norequest key).
Proof.
  intros Hlen Hbytes. unfold m_addfriend_norequest. apply mk_bind; [apply mk_get|]. intros m. destruct (public_key_valid key) eqn:Hv; cbn [negb]; [|apply mk_ret].
  destruct (pk_equal _ _); [apply mk_ret|]. unfold m_add_friend_contact_norequest.
  apply keeps_leads, ld_read_at. intros s0 H0. destruct (Z.eqb_spec (getfriend_id s0 key) (-1)) as [E|_]; cbn [negb]; [|by apply ld_ret; intros s ->].
  destruct (pk_equal key (ms_self_public_key s0)) eqn:Eo; [by apply ld_ret; intros s ->|].
  eapply ld_weaken; [apply (ld_init_good key FRIEND_CONFIRMED); done| |].
  - intros s ->. split; [done|]. pose proof H0 as [[Hall _ _ _ _ _ _ _] _]. split; [intros a f; by apply (find_friend_none _ 0)|].
    split; [|done]. intros ->. unfold pk_equal, bytes_eqb in Eo. by rewrite bool_decide_eq_true_2 in Eo.
  - intros r s [[[_ Hs]|[_ [_ Hs]]] Hl]; apply good_split; [done|]. split; [by apply Hs|done].
Qed.

Lemma le_u32 p : bytes_ok p → is_u32 (le_val (slice CRYPTO_PUBLIC_KEY_SIZE 4 p)).
Proof.
  intros Hp. assert (bytes_ok (slice CRYPTO_PUBLIC_KEY_SIZE 4 p)) as Hs by (by apply Forall_take, Forall_drop).
  pose proof (le_val_range _ Hs) as [H1 H2]. split; [done|]. eapply Z.lt_le_trans; [done|]. change (2 ^ 32) with (256 ^ 4). apply Z.pow_le_mono_r; [lia|].
  unfold zlen, slice. rewrite length_take. lia.
Qed.

(** The data of the request completes the new friend. *)
Lemma ld_request r d l nospam : is_u32 nospam → 1 <= l <= MAX_FRIEND_REQUEST_DATA_SIZE →
  leads (pending r) (on_friend r (λ f, f <| f_friendrequest_timeout := FRIENDREQUEST_TIMEOUT |> <| f_info := copy_over (slice 0 l d) (f_info f) |>
                                        <| f_info_size := l |> <| f_friendrequest_nospam := nospam |>)) (λ _, base None).
Proof.
  intros Hn Hl s [Hr Hs]. unfold numfriends in Hr. pose proof (zlen_front_le l d ltac:(lia)) as Hle.
  set (f := friend_at s r) in *. set (f' := f <| f_friendrequest_timeout := FRIENDREQUEST_TIMEOUT |> <| f_info := copy_over (slice 0 l d) (f_info f) |>
                                              <| f_info_size := l |> <| f_friendrequest_nospam := nospam |>).
  assert (ms_friendlist s !! Z.to_nat r = Some f) as Hf by (by apply aget_lookup).
  refine (base_same None _ _ (base_list None _ (aset (ms_friendlist s) r f') Hs _ _) _ _ _ _ _ _ _); try done.
  - cbn [set_field ms_friendlist]. by rewrite !length_aset.
  - cbn [set_field ms_friendlist]. unfold aset. intros a g Hg. pose proof Hs as [[Hall _ _ _ _ _ _ _] _]. cbn [set_field ms_friendlist] in Hall. unfold aset in Hall.
    apply list_lookup_insert_Some in Hg as [(<- & <- & Hlt)|[Hne Hg]].
    + exists (f <| f_info_size := 1 |>). rewrite list_lookup_insert_eq by done. split; [done|].
      assert (friend_ok (f <| f_info_size := 1 |>)) as [] by (apply (Forall_lookup_1 _ _ (Z.to_nat r) _ Hall); by apply list_lookup_insert_eq).
      split; [|done..]. split; try done; [|split; [exact Hn|apply fo_numbers0]].
      change (zlen (copy_over (slice 0 l d) (f_info f)) = MAX_FRIEND_REQUEST_DATA_SIZE). change (zlen (f_info f) = MAX_FRIEND_REQUEST_DATA_SIZE) in fo_info0.
      rewrite zlen_copy_over; lia.
    + exists g. rewrite list_lookup_insert_ne by done. split; [done|]. apply soft_refl. apply (Forall_lookup_1 _ _ a _ Hall). by rewrite list_lookup_insert_ne.
Qed.

Lemma linked_friend_same r h : (∀ f, entry (h f) = entry f) → keeps linked (on_friend r h).
Proof.
  intros Hh s Hs. apply (linked_same s); [done| |done]. unfold roster. cbn [on_friend modify snd set_field ms_friendlist]. unfold aset.
  rewrite list_fmap_insert, Hh. unfold friend_at, aget. apply list_insert_id'. intros Hlt. rewrite length_map in Hlt.
  destruct (lookup_lt_is_Some_2 _ _ Hlt) as [f Hf]. rewrite list_lookup_fmap, Hf. done.
Qed.

Lemma gk_addfriend a d l : zlen a = FRIEND_ADDRESS_SIZE → bytes_ok a → keeps (good None) (m_addfriend a d l).
Proof.
  intros Hlen Ha. unfold m_addfriend. cbv zeta. destruct (Z.ltb_spec MAX_FRIEND_REQUEST_DATA_SIZE l) as [_|Hmax]; [apply mk_ret|].
  destruct (public_key_valid _) eqn:Hv; cbn [negb]; [|apply mk_ret]. destruct (negb _); [apply mk_ret|].
  destruct (Z.ltb_spec l 1) as [_|Hl]; [apply mk_ret|]. set (key := slice 0 CRYPTO_PUBLIC_KEY_SIZE a) in *. apply keeps_leads, ld_read_at. intros s0 H0.
  destruct (pk_equal key (ms_self_public_key s0)) eqn:Eo; [by apply ld_ret; intros s ->|].
  destruct (Z.eqb_spec (getfriend_id s0 key) (-1)) as [E|_]; cbn [negb].
  - eapply ld_seq; [apply (ld_weaken _ _ _ _ _ (ld_init_good key FRIEND_ADDED ltac:(done)))| ].
    + intros s ->. split; [done|]. pose proof H0 as [[Hall _ _ _ _ _ _ _] _]. split; [intros b f; by apply (find_friend_none _ 0)|].
      split; [intros ->; unfold pk_equal, bytes_eqb in Eo; by rewrite bool_decide_eq_true_2 in Eo|].
      split; [|split; [done|by apply Forall_take, Forall_drop]].
      unfold key. change FRIEND_ADDRESS_SIZE with 38 in Hlen. change CRYPTO_PUBLIC_KEY_SIZE with 32. rewrite length_slice; lia.
    + intros r s Hs. exact Hs.
    + intros r. destruct (Z.ltb_spec r 0) as [Hr|Hr]; [apply ld_ret; intros s [[[_ ?]|[? _]] ?]; [by apply good_split|lia]|].
      eapply ld_bind; [|intros _; by apply ld_ret]. intros s [[[? _]|[_ [Hp _]]] Hlk]; [lia|]. apply good_split.
      split; [by apply (ld_request r d l); [apply le_u32|lia|]|]. by apply linked_friend_same.
  - eapply ld_weaken; [apply (ld_keeps (good None) _ (good None)); [|done]|by intros s ->|by intros ? s Hs].
    good_steps. apply gk_friend. intros f [? ? ? ? ? ? ? [? ?] ?] _. split; [|done..]. split; try done. split; [by apply le_u32|done].
Qed.

Lemma trim_prefix l : ∃ n, trim_friends l = take n l ∧ ∀ f, trim_friends l !! pred (length (trim_friends l)) = Some f → live f.
Proof.
  induction l as [|f l (n & E & H)]; [by exists 0%nat|]. cbn [trim_friends]. destruct (trim_friends l) as [|g r] eqn:Er.
  - destruct (Z.eqb_spec (f_status f) NOFRIEND) as [_|Hs]; [by exists 0%nat|]. exists 1%nat. split; [done|]. intros f' Hf. by injection Hf as <-.
  - exists (Datatypes.S n). split; [by rewrite firstn_cons, <- E|]. intros f' Hf. apply H. exact Hf.
Qed.

(** Slots made empty and the list cut. *)
Lemma base_cut m l : friends_ok m → (∀ a f, l !! a = Some f → ms_friendlist m !! a = Some f ∨ f = empty_friend) → length l = length (ms_friendlist m) →
  base None (m <| ms_friendlist := trim_friends l |>).
Proof.
  intros [H1 H2 H3 H4 H5 H6 H7 H8] Hl Hlen. destruct (trim_prefix l) as (n & E & Hlast).
  assert (∀ a f, trim_friends l !! a = Some f → ms_friendlist m !! a = Some f ∨ f = empty_friend) as Hlook.
  { intros a f Hf. apply Hl. rewrite E in Hf. by apply lookup_take_Some in Hf as [Hf _]. }
  assert (¬ live empty_friend) as Hdead by (intros H; by apply H).
  split; [split|]; try done; unfold numfriends; cbn [set_field ms_friendlist ms_self_public_key].
  - apply Forall_lookup. intros a f Hf. destruct (Hlook _ _ Hf) as [Hf'| ->]; [by apply (Forall_lookup_1 _ _ _ _ H1 Hf')|apply no_friend_ok].
  - intros a b f g Ha Hb Hf Hg Ek. destruct (Hlook _ _ Ha) as [Ha'| ->], (Hlook _ _ Hb) as [Hb'| ->]; try done. by apply (H2 a b f g).
  - intros a f Ha Hf. destruct (Hlook _ _ Ha) as [Ha'| ->]; [by apply (H3 a)|done].
  - rewrite E. unfold zlen. rewrite length_take. unfold numfriends, zlen in H5. lia.
Qed.

(** *** The connection of a friend that goes *)

Lemma link_drop l t i key con a : link_ok l t → l !! i = Some (Some (key, con)) →
  taking (<[i := None]> l) key con (t ++ [(SCallbacks con MESSENGER_CALLBACK_INDEX no_callbacks, a)]).
Proof.
  intros [A1 A2 A3] Hi. pose proof (lookup_lt_Some _ _ _ Hi) as Hlt.
  assert (trusted (t ++ [(SCallbacks con MESSENGER_CALLBACK_INDEX no_callbacks, a)]) → trusted t ∧
    replay ∅ (t ++ [(SCallbacks con MESSENGER_CALLBACK_INDEX no_callbacks, a)]) = <[con := new_conn key]> (replay ∅ t)) as Hset.
  { intros H. apply traced_snoc in H as [H Ha]. split; [done|]. pose proof (A2 H _ _ _ Hi) as E. cbn [trusts] in Ha. rewrite replay_snoc. rewrite Ha; [|by rewrite E|done].
    cbn [step Z.eqb]. by rewrite (alter_found _ _ _ _ E). }
  assert (∀ j key' con', <[i := None]> l !! j = Some (Some (key', con')) → j ≠ i ∧ l !! j = Some (Some (key', con'))) as Hl.
  { intros j key' con' Hj. apply list_lookup_insert_Some in Hj as [(_ & ? & _)|[Hne Hj]]; [done|auto]. }
  split.
  - apply careful_snoc. split; [done|]. intros H. cbn [guards]. by rewrite (A2 H _ _ _ Hi).
  - intros H. destruct (Hset H) as [_ ->]. apply lookup_insert_eq.
  - intros H j key' con' Hj. destruct (Hset H) as [Ht ->]. apply Hl in Hj as [Hne Hj]. pose proof (A2 Ht _ _ _ Hj) as Ej. pose proof (A2 Ht _ _ _ Hi) as Ei.
    assert (con' ≠ con) as Hc by (intros ->; rewrite Ei in Ej; injection Ej as _ ?; lia). by rewrite lookup_insert_ne.
  - intros H con' k. destruct (Hset H) as [Ht ->]. rewrite lookup_insert_Some. intros [[<- _]|[Hc Hk]]; [by left|]. right.
    destruct (A3 Ht _ _ Hk) as (j & key' & Hj). exists j, key'. rewrite list_lookup_insert_ne; [done|]. intros ->. congruence.
Qed.

Lemma link_killed l t key con a : taking l key con t → link_ok l (t ++ [(SKill con, a)]).
Proof.
  intros [A1 A2 A3 A4].
  assert (trusted (t ++ [(SKill con, a)]) → trusted t ∧ replay ∅ (t ++ [(SKill con, a)]) = delete con (replay ∅ t)) as Hset.
  { intros H. apply traced_snoc in H as [H Ha]. split; [done|]. pose proof (A2 H) as E. cbn [trusts] in Ha. rewrite replay_snoc. rewrite Ha by (by rewrite E).
    cbn [step Z.eqb]. by rewrite E. }
  split.
  - apply careful_snoc. split; [done|]. intros H. exists (new_conn key). by rewrite (A2 H).
  - intros H i key' con' Hi. destruct (Hset H) as [Ht ->]. destruct (A3 Ht _ _ _ Hi) as [Hc Hr]. by rewrite lookup_delete_ne.
  - intros H con' k. destruct (Hset H) as [Ht ->]. rewrite lookup_delete_Some. intros [Hc Hk]. by destruct (A4 Ht _ _ Hk) as [?|?].
Qed.

Lemma link_ext l l' t : link_ok l t → (∀ i x, l' !! i = Some (Some x) ↔ l !! i = Some (Some x)) → link_ok l' t.
Proof.
  intros [A1 A2 A3] H. split; [done|..].
  - intros Ht i key con Hi. apply H in Hi. by apply A2.
  - intros Ht con k Hk. destruct (A3 Ht con k Hk) as (i & key & Hi). exists i, key. by apply H.
Qed.

Lemma trim_live l i f : live f → trim_friends l !! i = Some f ↔ l !! i = Some f.
Proof.
  intros Hf. revert i. induction l as [|g l IH]; intros i; [done|]. cbn [trim_friends]. destruct (trim_friends l) as [|h r] eqn:E.
  - assert (∀ i, l !! i ≠ Some f) as Hno by (intros j Hj; apply IH in Hj; done).
    destruct (Z.eqb_spec (f_status g) NOFRIEND) as [Es|Es]; destruct i as [|i]; cbn; try done;
      (split; [done|]); first [intros [= ->]; by destruct Hf|intros Hi; by destruct (Hno i)].
  - destruct i as [|i]; [done|]. apply IH.
Qed.

Lemma linked_cut s j : link_ok (<[Z.to_nat j := None]> (roster s)) (conn_calls (ms_calls s)) →
  linked (s <| ms_friendlist := trim_friends (aset (ms_friendlist s) j empty_friend) |>).
Proof.
  intros H. apply (link_ext _ _ _ H). intros i x. rewrite entry_some. cbn [set_field ms_friendlist].
  assert (∀ f, live f → trim_friends (aset (ms_friendlist s) j empty_friend) !! i = Some f ↔ i ≠ Z.to_nat j ∧ ms_friendlist s !! i = Some f) as Hl.
  { intros f Hf. rewrite trim_live by done. unfold aset. rewrite list_lookup_insert_Some. split.
    - intros [(_ & <- & _)|[? ?]]; [by destruct Hf|auto].
    - intros [? ?]. right. auto. }
  rewrite list_lookup_insert_Some. split.
  - intros (f & Hf & Hlive & Hx). apply Hl in Hf as [Hne Hf]; [|done]. right. split; [done|]. apply entry_some. eauto.
  - intros [(_ & ? & _)|[Hne Hx]]; [done|]. apply entry_some in Hx as (f & Hf & Hlive & Hx). exists f. rewrite Hl by done. auto.
Qed.

(** The friend [f], number [j], is about to go; its connection has no callbacks. *)
Definition leaving (j : Z) (f : Friend) (s : Messenger) : Prop :=
  base None s ∧ ms_friendlist s !! Z.to_nat j = Some f ∧
  taking (<[Z.to_nat j := None]> (roster s)) (f_real_pk f) (f_friendcon_id f) (conn_calls (ms_calls s)).

Lemma leaving_ask j f c : conn_call c = None → keeps (leaving j f) (ask c).
Proof.
  intros Hc s (H1 & H2 & H3). split; [by apply base_ask|]. split; [done|]. cbn [ask snd set_field ms_calls]. by rewrite conn_calls_quiet.
Qed.

Lemma exists_lookup m j : m_friend_exists m j = true → ∃ f, ms_friendlist m !! Z.to_nat j = Some f ∧ live f.
Proof.
  unfold m_friend_exists, friend_at, aget. intros H. apply andb_true_iff in H as [_ H]. apply negb_true_iff, Z.eqb_neq in H.
  destruct (ms_friendlist m !! Z.to_nat j) as [f|]; [by exists f|by destruct H].
Qed.

Lemma gk_delfriend j : keeps (good None) (m_delfriend j).
Proof.
  unfold m_delfriend. apply keeps_leads, ld_read_at. intros s0 H0. destruct (m_friend_exists s0 j) eqn:He; cbn [negb]; [|by apply ld_ret; intros s ->].
  apply (ld_bind _ _ _ (good (Some (j, false)))).
  { intros s ->. apply gk_clear_receipts. destruct (exists_lookup _ _ He) as (f & Hf & Hl). destruct H0 as (H1 & _ & H3). split; [done|]. split; [|done]. by exists f. }
  intros _. apply ld_read_at. intros s1 (H1 & (f & Hf & Hlive & _) & Hlk). assert (friend_at s1 j = f) as -> by (unfold friend_at, aget; by rewrite Hf).
  set (P := λ s, good None s ∧ ms_friendlist s !! Z.to_nat j = Some f).
  apply (ld_bind _ _ _ P). { intros s ->. split; [|done]. by apply (good_same None s1). } intros _.
  apply (ld_bind _ _ _ (leaving j f)).
  { intros s [Hg Hj]. apply good_split in Hg as [Hb Hl]. split; [by apply base_ask|]. split; [done|]. cbn [ask snd set_field ms_calls].
    rewrite (conn_calls_snoc _ (CCallbacks (f_friendcon_id f) None) _ (SCallbacks (f_friendcon_id f) MESSENGER_CALLBACK_INDEX no_callbacks) eq_refl).
    apply link_drop; [exact Hl|]. apply entry_some. by exists f. }
  intros _. apply (ld_bind _ _ _ (leaving j f)); [by apply ld_keeps; [apply leaving_ask|]|]. intros c.
  apply (ld_bind _ _ _ (leaving j f)). { apply ld_keeps; [|done]. unfold send_offline_packet. msteps_with ltac:(by apply leaving_ask). } intros _.
  apply (ld_bind _ _ _ (λ s, base None s ∧ link_ok (<[Z.to_nat j := None]> (roster s)) (conn_calls (ms_calls s)))).
  { intros s (Hb & _ & Ht). split; [by apply base_ask|]. cbn [ask snd set_field ms_calls].
    rewrite (conn_calls_snoc _ (CKillConnection (f_friendcon_id f)) _ (SKill (f_friendcon_id f)) eq_refl). by apply (link_killed _ _ (f_real_pk f)). }
  intros _. apply (ld_bind _ _ _ (λ s, ∃ m, base None m ∧ link_ok (<[Z.to_nat j := None]> (roster m)) (conn_calls (ms_calls m))
                                          ∧ s = m <| ms_friendlist := aset (ms_friendlist m) j empty_friend |>)).
  { intros s [Hb Hl]. by exists s. } intros _.
  apply (ld_bind _ _ _ (good None)).
  - intros s (m' & [Hm _] & Hl & ->). apply good_split. split; [|by apply (linked_cut m')]. apply (base_cut m'); [done| |apply length_aset]. intros a g Hg. unfold aset in Hg.
    apply list_lookup_insert_Some in Hg as [(_ & <- & _)|[_ Hg]]; auto.
  - intros _. apply ld_keeps; [|done]. good_steps.
Qed.

(** ** Runs *)

(** A packet comes from a friend that exists, and what the client hands over has
    the size it says. *)
Definition op_allowed (m : Messenger) (op : Messenger_Op) : Prop :=
  match op with
  | OPacket j p => m_friend_exists m j = true ∧ bytes_ok p
  | OAddFriend a _ _ => zlen a = FRIEND_ADDRESS_SIZE ∧ bytes_ok a
  | OAddFriendNoRequest key => zlen key = CRYPTO_PUBLIC_KEY_SIZE ∧ bytes_ok key
  | OSetName _ l | OSetStatusMessage _ l => 0 <= l
  | OSetUserStatus b => 0 <= b
  | _ => True
  end.

Fixpoint ops_allowed (client : Z → Z → Z → Z → MS unit) (ops : list Messenger_Op) (m : Messenger) : Prop :=
  match ops with
  | [] => True
  | op :: ops' => op_allowed m op ∧ ops_allowed client ops' (run_op client op m).2
  end.

Lemma good_op client op m : (∀ j n p l, keeps (good None) (client j n p l)) → good None m → op_allowed m op → good None (run_op client op m).2.
Proof.
  intros Hc Hm Hop. destruct op; cbn [op_allowed run_op] in *; rewrite ?ignore_state.
  - destruct Hop as [He Hp]. assert (good (Some (friendnumber, false)) m) as Hf.
    { split; [apply Hm|]. split; [|apply Hm]. destruct (exists_lookup _ _ He) as (f & Hf & Hl). exists f. by split. }
    by destruct (gk_handle_packet friendnumber packet Hp m Hf) as (? & _ & ?).
  - by apply gk_lossy_packet.
  - by apply gk_handle_status.
  - by apply gk_do_friends.
  - by apply (good_same None m).
  - destruct Hop. by apply gk_addfriend.
  - destruct Hop. by apply gk_add_norequest.
  - by apply gk_delfriend.
  - by apply gk_send_message.
  - by apply gk_setname.
  - by apply gk_set_statusmessage.
  - by apply gk_set_userstatus.
  - by apply gk_usertyping.
  - by apply gk_new_file.
  - by apply gk_file_control.
  - by apply gk_file_seek.
  - by apply gk_send_data.
  - by apply gk_send_lossy.
  - by apply gk_send_lossless.
Qed.

Lemma new_messenger_ok key nospam t answer : friends_ok (new_messenger key nospam t answer).
Proof. by split. Qed.

(** Under the invariant a friend is found by its key. *)
Lemma find_friend_some l x key a f : 0 <= x → Forall friend_ok l → l !! a = Some f → live f → f_real_pk f = key →
  (∀ b g, l !! b = Some g → live g → f_real_pk g = key → a = b) → find_friend l x key = x + Z.of_nat a.
Proof.
  revert x a. induction l as [|f' l IH]; intros x a Hx Hok Ha Hl Hk Hu; [done|]. cbn [find_friend]. apply list.Forall_cons in Hok as [Hok' Hok].
  destruct (_ && _) eqn:E.
  - apply andb_true_iff in E as [E1 E2]. apply Z.ltb_lt in E1. unfold pk_equal, bytes_eqb in E2. apply bool_decide_eq_true in E2.
    assert (a = 0%nat) as -> by (apply (Hu 0%nat f'); [done|unfold live, NOFRIEND; lia|done]). lia.
  - destruct a as [|a].
    + exfalso. injection Ha as ->. apply andb_false_iff in E as [E|E].
      * apply Z.ltb_ge in E. destruct Hok'. unfold live, NOFRIEND in Hl. lia.
      * unfold pk_equal, bytes_eqb in E. by rewrite Hk, bool_decide_eq_true_2 in E.
    + rewrite (IH (x + 1) a); try done; try lia. intros b g Hb Hg Eg. specialize (Hu (Datatypes.S b) g Hb Hg Eg). lia.
Qed.

Lemma new_messenger_good key nospam t answer : good None (new_messenger key nospam t answer).
Proof. split; [apply new_messenger_ok|]. split; [done|]. by split. Qed.

Lemma run_good client ops m : (∀ j n p l, keeps (good None) (client j n p l)) → good None m → ops_allowed client ops m → good None (run_ops client ops m).
Proof.
  intros Hc Hm Hops. revert m Hm Hops. induction ops as [|op ops IH]; intros m Hm Hops; [done|]. destruct Hops as [Hop Hops]. apply IH; [|done]. by apply good_op.
Qed.

(** C32: The friends of a messenger stay well-formed.  After any operations of a new
    messenger, packets of its friends, changes of their connections, iterations
    and calls of the client among them, no two friends have the same key and none
    has ours; keys are valid; names, messages and requests fit their buffers; the
    list does not end with an empty slot; and a friend is found by its key. *)
Theorem friends_well_formed client key nospam t answer ops : (∀ j n p l, keeps (good None) (client j n p l)) →
  let m := new_messenger key nospam t answer in
  ops_allowed client ops m →
  let m' := run_ops client ops m in
  friends_ok m' ∧ ∀ j, 0 <= j → m_friend_exists m' j = true → getfriend_id m' (f_real_pk (friend_at m' j)) = j.
Proof.
  intros Hc m Hops m'. assert (friends_ok m') as Hm by (by destruct (run_good client ops m Hc (new_messenger_good _ _ _ _) Hops)).
  split; [done|]. intros j Hj He. destruct (exists_lookup _ _ He) as (f & Hf & Hl). pose proof Hm as [H1 H2 _ _ _ _ _ _].
  unfold friend_at, aget. rewrite Hf. unfold getfriend_id. rewrite (find_friend_some _ 0 _ (Z.to_nat j) f); try done; try lia.
  intros b g Hb Hg E. by apply (H2 _ b f g).
Qed.

Definition bytes_okb (p : bytes) : bool := forallb (λ b, (0 <=? b) && (b <? 256)) p.
Lemma bytes_okb_ok p : bytes_okb p = true → bytes_ok p.
Proof. unfold bytes_okb. rewrite forallb_forall. intros H. apply list.Forall_forall. intros b Hb. apply list_elem_of_In in Hb. specialize (H b Hb). unfold is_u8. lia. Qed.

(** Two friends are added, the name of one arrives, and the other is removed. *)
Definition demo_ops : list Messenger_Op :=
  [OAddFriendNoRequest (replicate 32 1); OAddFriend (address_of (replicate 32 2) 77) [104; 105] 2; OPacket 0 [PACKET_ID_ONLINE];
   OPacket 0 [PACKET_ID_NICKNAME; 97; 98]; OIterate; OSetName [120; 121] 2; ODelFriend 1; OStatus 0 false].

Lemma demo_allowed : ops_allowed no_client demo_ops (new_messenger (zeros 32) 1 demo_time (λ _, 2)).
Proof.
  assert (bytes_ok (address_of (replicate 32 2) 77)) as Ha by (apply bytes_okb_ok; vm_compute; reflexivity).
  cbn [ops_allowed demo_ops op_allowed]. repeat split; try (vm_compute; reflexivity); try exact Ha; try (vm_compute; discriminate);
    apply bytes_okb_ok; vm_compute; reflexivity.
Qed.

Lemma friends_well_formed_witness :
  let m' := run_ops no_client demo_ops (new_messenger (zeros 32) 1 demo_time (λ _, 2)) in
  (friends_ok m' ∧ ∀ j, 0 <= j → m_friend_exists m' j = true → getfriend_id m' (f_real_pk (friend_at m' j)) = j)
  ∧ getname m' 0 = Some [97; 98] ∧ numfriends m' = 1.
Proof.
  split; [|vm_compute; split; reflexivity]. apply (friends_well_formed no_client (zeros 32) 1 demo_time (λ _, 2) demo_ops).
  - intros j n p l. apply mk_ret.
  - exact demo_allowed.
Defined.
