(* ===== verification/Receipts.v ===== *)
(** * Receipts: messages and what is known of their arrival

    The receipts of a friend are a queue of the packets that carry our messages;
    the client is told of a message when the connection has its packet confirmed. *)
From S2P Require Import Prelude Util MonoTime CryptoCore Network World Steps FriendRequests CryptoConnection NetCrypto Messenger FileTransfer FileRuns FileOrder.

(** ** One friend *)

Section receipts.
Context (j : Z).
Hypothesis (Hj : 0 <= j).

(** What the loop does with the receipts [l]: those in front whose packet has
    arrived are reported, up to the first that has not. *)
Record confirms (l : list (Z * Z)) (s s' : Messenger) (reported left : list (Z * Z)) (calls : list (Call * Z)) : Prop := {
  cf_split : l = reported ++ left;
  cf_events : ms_events s' = ms_events s ++ map (λ q, EvReadReceipt j q.2) reported;
  cf_calls : ms_calls s' = ms_calls s ++ calls;
  cf_reported : ∀ q, q ∈ reported → ∃ a, a ≠ -1 ∧ (CReceived (f_friendcon_id (friend_at s j)) q.1, a) ∈ calls;
  cf_left : ∀ q rest, left = q :: rest → (CReceived (f_friendcon_id (friend_at s j)) q.1, -1) ∈ calls;
  cf_others : ∀ i, 0 <= i → i ≠ j → friend_at s' i = friend_at s i
}.

Definition same_but_receipts (s s' : Messenger) (r : list (Z * Z)) : Prop :=
  friend_at s' j = (friend_at s j) <| f_receipts := r |> ∧ numfriends s' = numfriends s.

Lemma on_friend_at s h : m_friend_exists s j = true → friend_at (on_friend j h s).2 j = h (friend_at s j).
Proof using Hj.
  intros He. unfold friend_at at 1. cbn [on_friend modify snd set_field ms_friendlist]. apply aget_aset_eq.
  unfold m_friend_exists, friend_at, aget in He. apply andb_true_iff in He as [_ He]. destruct (ms_friendlist s !! Z.to_nat j) as [f|] eqn:E; [|done].
  apply lookup_lt_Some in E. unfold zlen. lia.
Qed.

Lemma same_receipts f r : f_receipts f = r → f <| f_receipts := r |> = f.
Proof using. destruct f. by intros <-. Qed.

Lemma loop_confirms l s : m_friend_exists s j = true → f_receipts (friend_at s j) = l →
  ∃ reported left calls, confirms l s (receipts_loop l j s).2 reported left calls ∧ same_but_receipts s (receipts_loop l j s).2 left.
Proof using Hj.
  revert s. induction l as [|[p d] l IH]; intros s He Hl.
  - cbn [receipts_loop]. exists [], [], []. split.
    { split; cbn; rewrite ?app_nil_r; try done. intros ? Hq. by apply elem_of_nil in Hq. }
    split; [|done]. symmetry. by apply same_receipts.
  - set (con := f_friendcon_id (friend_at s j)). set (a := ms_answer s (length (ms_calls s))).
    set (s1 := s <| ms_calls := ms_calls s ++ [(CReceived con p, a)] |>).
    assert (friend_received_packet j p s = (a, s1)) as E.
    { unfold friend_received_packet. unfold mbind, M_bind, get. cbv beta iota. by rewrite He. }
    set (s3 := (on_friend j (λ f, f <| f_receipts := l |>) (tell (EvReadReceipt j d) s1).2).2).
    assert (receipts_loop ((p, d) :: l) j s = if a =? -1 then (tt, s1) else receipts_loop l j s3) as ->.
    { cbn [receipts_loop]. unfold mbind at 1, M_bind at 1. rewrite E. by destruct (a =? -1). }
    destruct (Z.eqb_spec a (-1)) as [Ea|Ha].
    { exists [], ((p, d) :: l), [(CReceived con p, a)]. split.
      - split; cbn; rewrite ?app_nil_r; try done.
        + intros ? Hq. by apply elem_of_nil in Hq.
        + intros q rest Hq. injection Hq as <- _. rewrite Ea. by apply list_elem_of_singleton.
      - split; [|done]. symmetry. by apply same_receipts. }
    assert (friend_at s3 j = (friend_at s j) <| f_receipts := l |>) as E3 by (unfold s3; by rewrite on_friend_at).
    assert (numfriends s3 = numfriends s) as En by (unfold numfriends, s3; cbn; by rewrite zlen_aset).
    assert (m_friend_exists s3 j = true) as He3 by (unfold m_friend_exists in *; by rewrite En, E3).
    destruct (IH s3 He3 ltac:(by rewrite E3)) as (rep & left & calls & [C1 C2 C3 C4 C5 C6] & [D1 D2]).
    exists ((p, d) :: rep), left, ((CReceived con p, a) :: calls). rewrite E3 in C4, C5, D1. split; [split|].
    + by rewrite C1.
    + rewrite C2. change (ms_events s3) with (ms_events s ++ [EvReadReceipt j d]). by rewrite <- app_assoc.
    + rewrite C3. change (ms_calls s3) with (ms_calls s ++ [(CReceived con p, a)]). by rewrite <- app_assoc.
    + intros q Hq. apply elem_of_cons in Hq as [->|Hq]; [exists a; split; [done|]; by left|]. destruct (C4 q Hq) as (b & Hb & Hin). exists b. split; [done|]. by right.
    + intros q rest Hq. right. by apply (C5 q rest).
    + intros i Hi Hne. rewrite C6 by done. unfold s3, friend_at. cbn. by rewrite aget_aset_ne by lia.
    + split; [rewrite D1; by destruct (friend_at s j)|]. by rewrite D2.
Qed.
End receipts.

(** [do_receipts] reports the messages of a friend in the order they were sent,
    each once: it asks the connection for the packet of one receipt after the
    other, tells the client of the message when the packet has arrived and forgets
    the receipt, and stops at the first that has not, which it keeps with those
    behind it.  Nothing else of the friend changes, and nothing of the others. *)
Theorem receipts_in_order j s : 0 <= j → m_friend_exists s j = true →
  let s' := (do_receipts j s).2 in
  ∃ reported left calls, confirms j (f_receipts (friend_at s j)) s s' reported left calls ∧ same_but_receipts j s s' left.
Proof.
  intros Hj He. cbv zeta. destruct (loop_confirms j Hj _ s He eq_refl) as (rep & left & calls & H1 & H2).
  assert ((do_receipts j s).2 = (receipts_loop (f_receipts (friend_at s j)) j s).2) as ->; [|by exists rep, left, calls].
  unfold do_receipts, mbind, M_bind, get. cbv beta iota. rewrite He. cbn [negb]. by destruct (receipts_loop _ j s).
Qed.

(** Three messages are sent; the packets of the first two have arrived. *)
Definition demo_messages : Messenger :=
  run_ops no_client [OSendMessage 0 0 [97] 1; OSendMessage 0 0 [98] 1; OSendMessage 0 0 [99] 1] (demo_online (λ q, if (q =? 8)%nat then -1 else Z.of_nat q + 1)).

Lemma receipts_in_order_witness :
  (let s' := (do_receipts 0 demo_messages).2 in
   ∃ reported left calls, confirms 0 (f_receipts (friend_at demo_messages 0)) demo_messages s' reported left calls ∧ same_but_receipts 0 demo_messages s' left)
  ∧ f_receipts (friend_at demo_messages 0) = [(1, 1); (3, 2); (5, 3)] ∧ ms_events (do_receipts 0 demo_messages).2 = [EvReadReceipt 0 1; EvReadReceipt 0 2].
Proof.
  split; [|vm_compute; split; reflexivity]. apply (receipts_in_order 0 demo_messages); [lia|vm_compute; reflexivity].
Defined.
