(* ===== verification/MessengerSave.v ===== *)
(** * MessengerSave: saving the friends, [toxcore/Messenger.c]

    The sections of a save file for the friends, our name, our status message and
    our status, and what a messenger that loads them has of the one that saved
    them. *)
From S2P Require Import Prelude Util MonoTime CryptoCore Network World Steps State FriendRequests CryptoConnection NetCrypto Messenger FileTransfer FileRuns FileOrder FriendList.

(** ** Definitions *)

Definition SAVED_FRIEND_REQUEST_SIZE : Z := 1024.

(** The numbers are as they are in memory: the lengths in network order. *)
Record Saved_Friend := mkSavedFriend {
  sf_status : Z;
  sf_real_pk : bytes;
  sf_info : bytes;
  sf_info_size : Z;
  sf_name : bytes;
  sf_name_length : Z;
  sf_statusmessage : bytes;
  sf_statusmessage_length : Z;
  sf_userstatus : Z;
  sf_friendrequest_nospam : Z;
  sf_last_seen_time : bytes
}.

Definition friend_size : Z :=
  1 + CRYPTO_PUBLIC_KEY_SIZE + SAVED_FRIEND_REQUEST_SIZE + 1 + 2 + MAX_NAME_LENGTH + 2 + MAX_STATUSMESSAGE_LENGTH + 1 + 2 + 1 + 3 + 4 + 8.

(** [data] is what the buffer holds before; the padding is left as it is. *)
Definition friend_save (temp : Saved_Friend) (data : bytes) : bytes :=
  le_bytes 1 (sf_status temp) ++ sf_real_pk temp ++ sf_info temp ++ slice 1057 1 data ++ le_bytes 2 (sf_info_size temp)
  ++ sf_name temp ++ le_bytes 2 (sf_name_length temp) ++ sf_statusmessage temp ++ slice 2197 1 data
  ++ le_bytes 2 (sf_statusmessage_length temp) ++ le_bytes 1 (sf_userstatus temp) ++ slice 2201 3 data
  ++ le_bytes 4 (sf_friendrequest_nospam temp) ++ sf_last_seen_time temp.

(** [ARRAY_MEMBER]: the next bytes, and what is behind them. *)
Definition member (size : Z) (data : bytes) : bytes * bytes := (take (Z.to_nat size) data, drop (Z.to_nat size) data).

Definition friend_load (data : bytes) : Saved_Friend * bytes :=
  let '(status, data) := member 1 data in
  let '(real_pk, data) := member CRYPTO_PUBLIC_KEY_SIZE data in
  let '(info, data) := member SAVED_FRIEND_REQUEST_SIZE data in
  let data := drop 1 data in
  let '(info_size, data) := member 2 data in
  let '(name, data) := member MAX_NAME_LENGTH data in
  let '(name_length, data) := member 2 data in
  let '(statusmessage, data) := member MAX_STATUSMESSAGE_LENGTH data in
  let data := drop 1 data in
  let '(statusmessage_length, data) := member 2 data in
  let '(userstatus, data) := member 1 data in
  let data := drop 3 data in
  let '(nospam, data) := member 4 data in
  let '(last_seen_time, data) := member 8 data in
  (mkSavedFriend (le_val status) real_pk info (le_val info_size) name (le_val name_length) statusmessage (le_val statusmessage_length)
     (le_val userstatus) (le_val nospam) last_seen_time, data).

(** The body of the loop of [friends_list_save]. *)
Definition saved_friend (f : Friend) : Saved_Friend :=
  if f_status f <? 3 then
    let friendrequest_length := min_u32 (f_info_size f) (min_u32 SAVED_FRIEND_REQUEST_SIZE MAX_FRIEND_REQUEST_DATA_SIZE) in
    mkSavedFriend (f_status f) (f_real_pk f) (copy_over (slice 0 friendrequest_length (f_info f)) (zeros SAVED_FRIEND_REQUEST_SIZE))
      (net_htons (u16 (f_info_size f))) (zeros MAX_NAME_LENGTH) 0 (zeros MAX_STATUSMESSAGE_LENGTH) 0 0 (f_friendrequest_nospam f) (zeros 8)
  else
    mkSavedFriend 3 (f_real_pk f) (zeros SAVED_FRIEND_REQUEST_SIZE) 0
      (copy_over (slice 0 (f_name_length f) (f_name f)) (zeros MAX_NAME_LENGTH)) (net_htons (u16 (f_name_length f)))
      (copy_over (slice 0 (f_statusmessage_length f) (f_statusmessage f)) (zeros MAX_STATUSMESSAGE_LENGTH)) (net_htons (u16 (f_statusmessage_length f)))
      (f_userstatus f) 0 (net_pack_u64 (f_last_seen_time f)).

(** The loop of [friends_list_save].  Its assertion, that a friend takes [friend_size]
    bytes, is [zlen_friend_save] below. *)
Fixpoint save_friends (l : list Friend) (data : bytes) : bytes :=
  match l with
  | [] => []
  | f :: l' => if 0 <? f_status f then friend_save (saved_friend f) data ++ save_friends l' (drop (Z.to_nat friend_size) data) else save_friends l' data
  end.

Definition saved_friendslist_size (m : Messenger) : Z := u32 (count_friendlist m * friend_size).

Definition friends_list_save (m : Messenger) (data : bytes) : bytes :=
  state_write_section_header STATE_COOKIE_TYPE (saved_friendslist_size m) (state_type_value STATE_TYPE_FRIENDS) ++ save_friends (ms_friendlist m) (drop 8 data).

(** The body of the loop of [friends_list_load]. *)
Definition load_friend (temp : Saved_Friend) : MS unit :=
  if 3 <=? sf_status temp then
    fnum ← m_addfriend_norequest (sf_real_pk temp);
    if fnum <? 0 then mret tt
    else
      setfriendname fnum (sf_name temp) (net_ntohs (sf_name_length temp));;
      set_friend_statusmessage fnum (sf_statusmessage temp) (net_ntohs (sf_statusmessage_length temp));;
      set_friend_userstatus fnum (sf_userstatus temp);;
      on_friend fnum (λ f, f <| f_last_seen_time := net_unpack_u64 (sf_last_seen_time temp) |>)
  else if negb (sf_status temp =? 0) then
    m_addfriend (address_of (sf_real_pk temp) (sf_friendrequest_nospam temp)) (sf_info temp) (net_ntohs (sf_info_size temp));; mret tt
  else mret tt.

Fixpoint load_friends (num : nat) (data : bytes) : MS unit :=
  match num with
  | O => mret tt
  | S num' => let '(temp, next_data) := friend_load data in load_friend temp;; load_friends num' next_data
  end.

Definition friends_list_load (data : bytes) (length : Z) : MS State_Load_Status :=
  if negb (length mod friend_size =? 0) then mret STATE_LOAD_STATUS_ERROR
  else load_friends (Z.to_nat (length / friend_size)) data;; mret STATE_LOAD_STATUS_CONTINUE.

Definition name_size (m : Messenger) : Z := ms_name_length m.
Definition save_name (m : Messenger) : bytes :=
  state_write_section_header STATE_COOKIE_TYPE (name_size m) (state_type_value STATE_TYPE_NAME) ++ slice 0 (name_size m) (ms_name m).
Definition load_name (data : bytes) (length : Z) : MS State_Load_Status :=
  (if (0 <? length) && (length <=? MAX_NAME_LENGTH) then setname data length;; mret tt else mret tt);; mret STATE_LOAD_STATUS_CONTINUE.

Definition status_message_size (m : Messenger) : Z := ms_statusmessage_length m.
Definition save_status_message (m : Messenger) : bytes :=
  state_write_section_header STATE_COOKIE_TYPE (status_message_size m) (state_type_value STATE_TYPE_STATUSMESSAGE)
  ++ slice 0 (status_message_size m) (ms_statusmessage m).
Definition load_status_message (data : bytes) (length : Z) : MS State_Load_Status :=
  (if (0 <? length) && (length <=? MAX_STATUSMESSAGE_LENGTH) then m_set_statusmessage data length;; mret tt else mret tt);; mret STATE_LOAD_STATUS_CONTINUE.

Definition status_size (m : Messenger) : Z := 1.
Definition save_status (m : Messenger) : bytes :=
  state_write_section_header STATE_COOKIE_TYPE (status_size m) (state_type_value STATE_TYPE_STATUS) ++ [u8 (ms_userstatus m)].
Definition load_status (data : bytes) (length : Z) : MS State_Load_Status :=
  (if length =? 1 then m_set_userstatus (aget 0 data 0);; mret tt else mret tt);; mret STATE_LOAD_STATUS_CONTINUE.

(** *** Plugins *)

(** [save] gives the bytes written, from what the buffer holds before. *)
Record Messenger_State_Plugin := mkPlugin {
  pl_type : State_Type;
  pl_size : Messenger → Z;
  pl_load : bytes → Z → MS State_Load_Status;
  pl_save : Messenger → bytes → bytes
}.

(** The plugins of the sections above, in the order of [m_register_default_plugins]. *)
Definition default_plugins : list Messenger_State_Plugin :=
  [mkPlugin STATE_TYPE_FRIENDS saved_friendslist_size friends_list_load friends_list_save;
   mkPlugin STATE_TYPE_NAME name_size load_name (λ m _, save_name m);
   mkPlugin STATE_TYPE_STATUSMESSAGE status_message_size load_status_message (λ m _, save_status_message m);
   mkPlugin STATE_TYPE_STATUS status_size load_status (λ m _, save_status m)].

Section plugins.
Context (plugins : list Messenger_State_Plugin).

Definition messenger_size (m : Messenger) : Z := foldr (λ p a, u32 (8 + pl_size p m + a)) 0 plugins.

Fixpoint save_plugins (ps : list Messenger_State_Plugin) (m : Messenger) (data : bytes) : bytes :=
  match ps with
  | [] => []
  | p :: ps' => let out := pl_save p m data in out ++ save_plugins ps' m (drop (length out) data)
  end.
Definition messenger_save (m : Messenger) (data : bytes) : bytes := save_plugins plugins m data.

(** The status of the first plugin with this type, if there is one. *)
Definition messenger_load_state_section (data : bytes) (length type : Z) : MS (option State_Load_Status) :=
  match List.find (λ p, state_type_value (pl_type p) =? type) plugins with
  | Some p => status ← pl_load p data length; mret (Some status)
  | None => mret None
  end.
End plugins.

(** [state_load_callback] of [tox.c], for a part that loads the conferences. *)
Definition state_load_callback (conferences : bytes → Z → Z → option State_Load_Status) (m : Messenger) (data : bytes) (length type : Z) :
    State_Load_Status * Messenger :=
  let '(status, m) := messenger_load_state_section default_plugins data length type m in
  match status with
  | Some status => (status, m)
  | None =>
      match conferences data length type with
      | Some status => (status, m)
      | None =>
          if type =? state_type_value STATE_TYPE_END then (if negb (length =? 0) then STATE_LOAD_STATUS_ERROR else STATE_LOAD_STATUS_END, m)
          else (STATE_LOAD_STATUS_CONTINUE, m)
      end
  end.

(** ** One friend *)

Record saved_wf (t : Saved_Friend) : Prop := {
  sw_status : is_u8 (sf_status t);
  sw_pk : zlen (sf_real_pk t) = CRYPTO_PUBLIC_KEY_SIZE;
  sw_info : zlen (sf_info t) = SAVED_FRIEND_REQUEST_SIZE;
  sw_info_size : is_u16 (sf_info_size t);
  sw_name : zlen (sf_name t) = MAX_NAME_LENGTH;
  sw_name_length : is_u16 (sf_name_length t);
  sw_message : zlen (sf_statusmessage t) = MAX_STATUSMESSAGE_LENGTH;
  sw_message_length : is_u16 (sf_statusmessage_length t);
  sw_userstatus : is_u8 (sf_userstatus t);
  sw_nospam : is_u32 (sf_friendrequest_nospam t);
  sw_last_seen : zlen (sf_last_seen_time t) = 8
}.

Lemma member_app size a rest : zlen a = size → member size (a ++ rest) = (a, rest).
Proof. intros <-. unfold member, zlen. rewrite Nat2Z.id, take_app_length, drop_app_length. done. Qed.
Lemma pad_app n off data rest : 0 <= off → off + Z.of_nat n <= zlen data → drop n (slice off (Z.of_nat n) data ++ rest) = rest.
Proof. intros. rewrite drop_app_length'; [done|]. unfold slice, zlen in *. rewrite length_take, length_drop. lia. Qed.

Lemma friend_load_save t data rest : saved_wf t → friend_size <= zlen data → friend_load (friend_save t data ++ rest) = (t, rest).
Proof.
  intros [] Hd. change friend_size with 2216 in Hd. unfold friend_load, friend_save. rewrite <- !app_assoc.
  rewrite (member_app 1) by apply zlen_le_bytes. cbv iota beta. rewrite member_app by done. rewrite member_app by done.
  rewrite (pad_app 1) by (cbn; lia). rewrite (member_app 2) by apply zlen_le_bytes. rewrite member_app by done.
  rewrite (member_app 2) by apply zlen_le_bytes. rewrite member_app by done. rewrite (pad_app 1) by (cbn; lia).
  rewrite (member_app 2) by apply zlen_le_bytes. rewrite (member_app 1) by apply zlen_le_bytes. rewrite (pad_app 3) by (cbn; lia).
  rewrite (member_app 4) by apply zlen_le_bytes. rewrite member_app by done. rewrite !le_val_bytes by done. by destruct t.
Qed.

Lemma htons_ntohs x : is_u16 x → net_ntohs (net_htons x) = x ∧ is_u16 (net_htons x).
Proof.
  intros [H1 H2]. unfold net_ntohs, net_htons. assert (bytes_ok (le_bytes 2 x)) as Hb by apply le_bytes_ok.
  assert (bytes_ok (rev (le_bytes 2 x))) as Hr by (by apply Forall_rev).
  rewrite (le_bytes_of_val 2) by (done || unfold zlen; by rewrite length_rev). rewrite rev_involutive. split; [apply le_val_bytes; cbn; lia|].
  apply (le_val_range _ Hr).
Qed.

Lemma saved_friend_wf f : friend_ok f → live f → saved_wf (saved_friend f).
Proof.
  intros [S1 S2 [S3 S3'] [S4 S4'] S5 S6 S7 [S8 S8'] S9] Hl. destruct (S2 Hl) as (K1 & K2 & K3). unfold saved_friend.
  change FRIEND_ONLINE with 4 in S1. change USERSTATUS_INVALID with 3 in S5. change MAX_STATUSMESSAGE_LENGTH with 1007 in *. change MAX_NAME_LENGTH with 128 in *.
  destruct (Z.ltb_spec (f_status f) 3) as [Hs|Hs].
  - split; try done; cbn [sf_status sf_info sf_info_size].
    + unfold is_u8. lia.
    + rewrite zlen_copy_over; [done|]. unfold min_u32. change (zlen (zeros SAVED_FRIEND_REQUEST_SIZE)) with 1024.
      change MAX_FRIEND_REQUEST_DATA_SIZE with 1016 in *. change SAVED_FRIEND_REQUEST_SIZE with 1024. change FRIEND_CONFIRMED with 3 in S7.
      unfold live, NOFRIEND in Hl. specialize (S7 ltac:(lia)). cbn. destruct (Z.ltb_spec (f_info_size f) 1016); (etrans; [apply zlen_front_le; lia|lia]).
    + by apply htons_ntohs, u16_range.
  - split; try done; cbn [sf_name sf_name_length sf_statusmessage sf_statusmessage_length sf_userstatus].
    + pose proof (zlen_front_le (f_name_length f) (f_name f)). rewrite zlen_copy_over; [done|]. change (zlen (zeros 128)) with 128. lia.
    + by apply htons_ntohs, u16_range.
    + pose proof (zlen_front_le (f_statusmessage_length f) (f_statusmessage f)). rewrite zlen_copy_over; [done|]. change (zlen (zeros 1007)) with 1007. lia.
    + by apply htons_ntohs, u16_range.
    + unfold is_u8. lia.
Qed.

(** ** Loading *)

(** What a friend is after saving and loading: one whose request is not answered
    is asked again, another one waits for its connection. *)
Record restored (f g : Friend) : Prop := {
  rs_pk : f_real_pk g = f_real_pk f;
  rs_request : f_status f < FRIEND_CONFIRMED → f_status g = FRIEND_ADDED ∧ f_friendrequest_nospam g = f_friendrequest_nospam f
    ∧ f_info_size g = f_info_size f ∧ slice 0 (f_info_size f) (f_info g) = slice 0 (f_info_size f) (f_info f);
  rs_confirmed : FRIEND_CONFIRMED <= f_status f → f_status g = FRIEND_CONFIRMED
    ∧ f_name_length g = f_name_length f ∧ slice 0 (f_name_length f) (f_name g) = slice 0 (f_name_length f) (f_name f)
    ∧ f_statusmessage_length g = f_statusmessage_length f
    ∧ slice 0 (f_statusmessage_length f) (f_statusmessage g) = slice 0 (f_statusmessage_length f) (f_statusmessage f)
    ∧ f_userstatus g = f_userstatus f ∧ f_last_seen_time g = f_last_seen_time f
}.

Lemma restored_live f g : restored f g → live g.
Proof.
  intros [_ H1 H2]. unfold live. destruct (Z.lt_ge_cases (f_status f) FRIEND_CONFIRMED) as [H|H]; [destruct (H1 H) as [-> _]|destruct (H2 H) as [-> _]]; done.
Qed.

Lemma slice_copy l src dst : 0 <= l <= zlen src → slice 0 l (copy_over (slice 0 l src) dst) = slice 0 l src.
Proof.
  intros H. pose proof (length_slice 0 l src ltac:(lia) ltac:(lia) ltac:(lia)) as E. unfold copy_over. generalize dependent (slice 0 l src). intros x E.
  unfold slice. rewrite drop_0, take_app_length'; [done|]. unfold zlen in E. lia.
Qed.

Lemma ld_ex {A B} (P : B → Messenger → Prop) (m : MS A) Q : (∀ x, leads (P x) m Q) → leads (λ s, ∃ x, P x s) m Q.
Proof. intros H s [x Hs]. by apply (H x). Qed.
Lemma ld_pure {A} (φ : Prop) (P : Messenger → Prop) (m : MS A) Q : (φ → leads P m Q) → leads (λ s, φ ∧ P s) m Q.
Proof. intros H s [Hφ Hs]. by apply H. Qed.

Section loading.
(** The messenger [m0] that loads, where every allocation succeeds and every
    connection can be made. *)
Context (m0 : Messenger).

Record loading (gs : list Friend) (s : Messenger) : Prop := {
  lo_friends : ms_friendlist s = gs;
  lo_key : ms_self_public_key s = ms_self_public_key m0;
  lo_name : ms_name s = ms_name m0 ∧ ms_name_length s = ms_name_length m0;
  lo_message : ms_statusmessage s = ms_statusmessage m0 ∧ ms_statusmessage_length s = ms_statusmessage_length m0;
  lo_status : ms_userstatus s = ms_userstatus m0;
  lo_answers : ∀ q, ms_answer s q ≠ 0 ∧ ms_answer s q ≠ -1
}.

Lemma lk_ask gs c : leads (loading gs) (ask c) (λ r s, r ≠ 0 ∧ r ≠ -1 ∧ loading gs s).
Proof using. intros s [L1 L2 L3 L4 L5 L6]. split; [apply L6|]. split; [apply L6|]. by split. Qed.

Lemma lk_last gs g h : leads (loading (gs ++ [g])) (on_friend (zlen gs) h) (λ _, loading (gs ++ [h g])).
Proof using.
  intros s [L1 L2 L3 L4 L5 L6]. split; try done. cbn [on_friend modify snd set_field ms_friendlist]. rewrite L1. unfold aset, zlen, friend_at, aget.
  rewrite Nat2Z.id, insert_app_r_alt, Nat.sub_diag by lia. rewrite L1, lookup_app_r, Nat.sub_diag by lia. done.
Qed.

(** The friends so far are live, and few. *)
Definition listed (gs : list Friend) : Prop := Forall live gs ∧ zlen gs < UINT32_MAX.

Lemma first_free_end gs : Forall live gs → first_free gs 0 = zlen gs.
Proof using.
  intros H. destruct (first_free_spec gs 0) as [E|(j & Hj & _ & Hs)]; [lia|]. pose proof (aget_lookup empty_friend gs j Hj) as Hl.
  by destruct (Forall_lookup_1 _ _ _ _ H Hl).
Qed.

Lemma ld_init_end gs key st : listed gs →
  leads (loading gs) (init_new_friend key st) (λ r s, r = zlen gs ∧ ∃ con, loading (gs ++ [made_friend key st con empty_friend]) s).
Proof using.
  intros [Hl Hn]. unfold init_new_friend. apply ld_read. intros s0 H0. unfold numfriends. rewrite (lo_friends _ _ H0).
  destruct (Z.eqb_spec (zlen gs) UINT32_MAX); [lia|]. eapply ld_seq; [apply lk_ask|]. intros ok.
  destruct (Z.eqb_spec ok 0) as [->|_]; [by intros s [? _]|]. eapply ld_seq; [eapply ld_weaken; [apply lk_ask|by intros s (_ & _ & H)|by intros r s Hs]|].
  intros con. destruct (Z.eqb_spec con (-1)) as [->|_]; [by intros s (_ & ? & _)|].
  apply (ld_read _ (λ m, m)). intros s1 (_ & _ & H1). cbv zeta. unfold numfriends. rewrite (lo_friends _ _ H1), (first_free_end gs Hl), Z.eqb_refl.
  eapply (ld_bind _ _ _ (loading (gs ++ [empty_friend]))).
  { intros s (_ & _ & [L1 L2 L3 L4 L5 L6]). split; try done. cbn [modify snd set_field ms_friendlist]. by rewrite L1. } intros _.
  eapply (ld_bind _ _ _ (loading (gs ++ [made_friend key st con empty_friend]))); [apply lk_last|]. intros _.
  assert (∀ c, keeps (loading (gs ++ [made_friend key st con empty_friend])) (ask c)) as Hask by (intros c s []; by split).
  apply (ld_bind _ _ _ (loading (gs ++ [made_friend key st con empty_friend]))); [by apply ld_keeps|]. intros _.
  apply (ld_bind _ _ _ (loading (gs ++ [made_friend key st con empty_friend]))); [by apply ld_keeps|]. intros c.
  apply (ld_bind _ _ _ (loading (gs ++ [made_friend key st con empty_friend]))).
  - apply ld_keeps; [|done]. unfold send_online_packet. msteps_with ltac:(apply Hask).
  - intros _. apply ld_ret. intros s Hs. split; [done|]. by exists con.
Qed.

Lemma not_listed gs key x : Forall (λ g, f_real_pk g ≠ key) gs → find_friend gs x key = -1.
Proof using.
  intros H. revert x. induction H as [|g gs Hg H IH]; intros x; [done|]. cbn [find_friend]. unfold pk_equal, bytes_eqb.
  rewrite bool_decide_eq_false_2 by done. rewrite andb_false_r. apply IH.
Qed.

Lemma other_key a b : a ≠ b → pk_equal a b = false.
Proof using. intros H. unfold pk_equal, bytes_eqb. by rewrite bool_decide_eq_false_2. Qed.

(** The last friend exists. *)
Lemma last_exists gs g s : loading (gs ++ [g]) s → zlen gs < UINT32_MAX → live g → m_friend_exists s (zlen gs) = true.
Proof using.
  intros [L1 _ _ _ _ _] Hn Hl. unfold m_friend_exists, numfriends, friend_at, aget. rewrite L1. pose proof (zlen_nonneg gs). unfold UINT32_MAX in Hn.
  rewrite u32_small, zlen_app, zlen_cons by lia. pose proof (zlen_nonneg ([] : list Friend)). unfold zlen at 4. rewrite Nat2Z.id, lookup_app_r, Nat.sub_diag by lia.
  apply andb_true_iff. split; [apply Z.ltb_lt; lia|]. apply negb_true_iff, Z.eqb_neq. exact Hl.
Qed.

(** The fields of a confirmed friend, written one after the other. *)
Lemma ld_confirmed gs g f : listed gs → friend_ok f → FRIEND_CONFIRMED <= f_status f → f_real_pk g = f_real_pk f → f_status g = FRIEND_CONFIRMED →
  f_name_length g = 0 → zlen (f_name g) = MAX_NAME_LENGTH → zlen (f_statusmessage g) = MAX_STATUSMESSAGE_LENGTH →
  leads (loading (gs ++ [g]))
    (setfriendname (zlen gs) (sf_name (saved_friend f)) (net_ntohs (sf_name_length (saved_friend f)));;
     set_friend_statusmessage (zlen gs) (sf_statusmessage (saved_friend f)) (net_ntohs (sf_statusmessage_length (saved_friend f)));;
     set_friend_userstatus (zlen gs) (sf_userstatus (saved_friend f));;
     on_friend (zlen gs) (λ f', f' <| f_last_seen_time := net_unpack_u64 (sf_last_seen_time (saved_friend f)) |>))
    (λ _ s, ∃ g', restored f g' ∧ loading (gs ++ [g']) s).
Proof using.
  intros [_ Hn] [S1 S2 [S3 S3'] [S4 S4'] S5 S6 S7 [S8 S8'] S9] Hc Hk Hs Hl Hnm Hsm. change FRIEND_CONFIRMED with 3 in *.
  unfold saved_friend. rewrite (proj2 (Z.ltb_ge _ _)) by lia. cbn [sf_name sf_name_length sf_statusmessage sf_statusmessage_length sf_userstatus sf_last_seen_time].
  change MAX_STATUSMESSAGE_LENGTH with 1007 in *. change MAX_NAME_LENGTH with 128 in *.
  rewrite !(proj1 (htons_ntohs _ (u16_range _))), !u16_small by lia. rewrite <- (app_nil_r (net_pack_u64 _)), net_unpack_pack_u64 by done.
  set (nm := copy_over (slice 0 (f_name_length f) (f_name f)) (zeros 128)). set (sm := copy_over (slice 0 (f_statusmessage_length f) (f_statusmessage f)) (zeros 1007)).
  assert (zlen nm = 128 ∧ zlen sm = 1007) as [Znm Zsm].
  { pose proof (zlen_front_le (f_name_length f) (f_name f)). pose proof (zlen_front_le (f_statusmessage_length f) (f_statusmessage f)).
    unfold nm, sm. rewrite !zlen_copy_over; change (zlen (zeros 128)) with 128; change (zlen (zeros 1007)) with 1007; lia. }
  set (g1 := if f_name_length f =? 0 then g else g <| f_name_length := f_name_length f |> <| f_name := copy_over (slice 0 (f_name_length f) nm) (f_name g) |>).
  assert (f_status g1 = 3 ∧ f_real_pk g1 = f_real_pk f ∧ f_name_length g1 = f_name_length f ∧ zlen (f_statusmessage g1) = 1007
          ∧ slice 0 (f_name_length f) (f_name g1) = slice 0 (f_name_length f) (f_name f)) as (G1 & G2 & G3 & G4 & G5).
  { unfold g1. destruct (Z.eqb_spec (f_name_length f) 0) as [->|_]; [done|]. cbn. repeat split; try done.
    rewrite slice_copy by lia. unfold nm. by rewrite slice_copy by lia. }
  eapply (ld_bind _ _ _ (loading (gs ++ [g1]))).
  { unfold setfriendname. apply ld_read. intros s0 H0. rewrite (last_exists _ _ _ H0 Hn) by (unfold live; by rewrite Hs). cbn [negb].
    change MAX_NAME_LENGTH with 128. rewrite (proj2 (Z.ltb_ge _ _)) by lia. cbn [orb]. unfold g1. destruct (f_name_length f =? 0); [by apply ld_ret|].
    eapply ld_bind; [apply lk_last|]. intros _. by apply ld_ret. } intros _.
  eapply (ld_bind _ _ _ (loading (gs ++ [g1 <| f_statusmessage := copy_over (slice 0 (f_statusmessage_length f) sm) (f_statusmessage g1) |> <| f_statusmessage_length := f_statusmessage_length f |>]))).
  { unfold set_friend_statusmessage. apply ld_read. intros s0 H0. rewrite (last_exists _ _ _ H0 Hn) by (unfold live; by rewrite G1). cbn [negb].
    change MAX_STATUSMESSAGE_LENGTH with 1007. rewrite (proj2 (Z.ltb_ge _ _)) by lia. eapply ld_bind; [apply lk_last|]. intros _. by apply ld_ret. } intros _.
  eapply ld_bind; [apply lk_last|]. intros _. eapply ld_weaken; [apply lk_last|done|]. intros ? s Hload. eexists. split; [|exact Hload].
  split; [done|change FRIEND_CONFIRMED with 3; lia|]. intros _. repeat split; try done. cbn. rewrite slice_copy by lia. unfold sm. by rewrite slice_copy by lia.
Qed.

(** The parts of an address. *)
Lemma address_parts key nospam : zlen key = 32 → bytes_ok key → is_u32 nospam →
  slice 0 32 (address_of key nospam) = key ∧ le_val (slice 32 4 (address_of key nospam)) = nospam
  ∧ le_val (slice 36 2 (address_of key nospam)) = data_checksum (slice 0 36 (address_of key nospam)).
Proof using.
  intros Hk Hb Hn. unfold address_of. set (a := key ++ le_bytes 4 nospam).
  assert (zlen a = 36) as Ha by (unfold a; rewrite zlen_app, zlen_le_bytes; lia).
  assert (bytes_ok a) as Hab by (apply Forall_app; split; [done|apply le_bytes_ok]).
  assert (∀ off n (x y : bytes), 0 <= off → 0 <= n → off + n <= zlen x → slice off n (x ++ y) = slice off n x) as Hfront.
  { intros off n x y ???. unfold slice, zlen in *. rewrite drop_app_le, take_app_le by (rewrite ?length_drop; lia). done. }
  assert (∀ off n (x y : bytes), off = zlen x → n = zlen y → slice off n (x ++ y) = y) as Hback.
  { intros off n x y -> ->. unfold slice, zlen. rewrite !Nat2Z.id, drop_app_length. by apply take_ge. }
  split; [rewrite Hfront by lia; unfold a; rewrite Hfront by lia; by apply slice_all|].
  split; [rewrite Hfront by lia; unfold a; rewrite Hback by (rewrite ?zlen_le_bytes; lia); by apply le_val_bytes|].
  rewrite (Hback 36) by (rewrite ?zlen_le_bytes; lia). rewrite Hfront, (slice_all 36) by lia. apply le_val_bytes. by apply data_checksum_u16.
Qed.

Lemma ld_load_friend gs f : listed gs → friend_ok f → live f → Forall (λ g, f_real_pk g ≠ f_real_pk f) gs → f_real_pk f ≠ ms_self_public_key m0 →
  leads (loading gs) (load_friend (saved_friend f)) (λ _ s, ∃ g, restored f g ∧ loading (gs ++ [g]) s).
Proof using.
  intros Hgs Hf Hl Hkeys Hown. pose proof Hf as [S1 S2 [S3 S3'] [S4 S4'] S5 S6 S7 [S8 S8'] S9]. destruct (S2 Hl) as (K1 & K2 & K3).
  change FRIEND_CONFIRMED with 3 in *. unfold live, NOFRIEND in Hl. destruct (Z.lt_ge_cases (f_status f) 3) as [Hs|Hs].
  - specialize (S7 ltac:(lia)). change MAX_FRIEND_REQUEST_DATA_SIZE with 1016 in S7. change MAX_FRIEND_REQUEST_DATA_SIZE with 1016 in S6.
    unfold saved_friend, load_friend. rewrite (proj2 (Z.ltb_lt _ _)) by lia. cbn [sf_status sf_real_pk sf_friendrequest_nospam sf_info sf_info_size].
    rewrite (proj2 (Z.leb_gt _ _)) by lia. rewrite (proj2 (Z.eqb_neq _ _)) by lia. cbn [negb]. rewrite (proj1 (htons_ntohs _ (u16_range _))), u16_small by lia.
    assert (min_u32 (f_info_size f) (min_u32 SAVED_FRIEND_REQUEST_SIZE MAX_FRIEND_REQUEST_DATA_SIZE) = f_info_size f) as ->.
    { change (min_u32 SAVED_FRIEND_REQUEST_SIZE MAX_FRIEND_REQUEST_DATA_SIZE) with 1016. unfold min_u32. destruct (Z.ltb_spec (f_info_size f) 1016); lia. }
    destruct (address_parts (f_real_pk f) (f_friendrequest_nospam f) K1 K3 S8) as (A1 & A2 & A3).
    eapply (ld_bind _ _ _ (λ s, ∃ g, restored f g ∧ loading (gs ++ [g]) s)); [|intros ?; by apply ld_ret].
    unfold m_addfriend. change (CRYPTO_PUBLIC_KEY_SIZE + 4) with 36. change (FRIEND_ADDRESS_SIZE - 2) with 36. change CRYPTO_PUBLIC_KEY_SIZE with 32. cbv zeta.
    change MAX_FRIEND_REQUEST_DATA_SIZE with 1016. rewrite (proj2 (Z.ltb_ge _ _)) by lia. rewrite A1, A2, A3, K2, Z.eqb_refl. cbn [negb].
    rewrite (proj2 (Z.ltb_ge _ _)) by lia. apply ld_read. intros s0 H0. rewrite (lo_key _ _ H0), other_key by done.
    unfold getfriend_id. rewrite (lo_friends _ _ H0), not_listed by done. cbn [Z.eqb negb Pos.eqb].
    eapply ld_seq; [by apply ld_init_end|]. intros r. apply ld_pure. intros ->. apply ld_ex. intros con.
    rewrite (proj2 (Z.ltb_ge _ _)) by apply zlen_nonneg. eapply (ld_bind _ _ _ (λ s, ∃ g, restored f g ∧ loading (gs ++ [g]) s)); [|intros ?; by apply ld_ret].
    eapply ld_weaken; [apply lk_last|done|]. intros ? s Hload. eexists. split; [|exact Hload]. split; [done| |change FRIEND_CONFIRMED with 3; lia].
    intros _. repeat split. cbn. rewrite slice_copy; [by rewrite slice_copy by lia|].
    rewrite zlen_copy_over; [change (zlen (zeros SAVED_FRIEND_REQUEST_SIZE)) with 1024; lia|]. pose proof (zlen_front_le (f_info_size f) (f_info f)).
    change (zlen (zeros SAVED_FRIEND_REQUEST_SIZE)) with 1024. lia.
  - unfold load_friend. assert (sf_status (saved_friend f) = 3 ∧ sf_real_pk (saved_friend f) = f_real_pk f) as [-> ->].
    { unfold saved_friend. by rewrite (proj2 (Z.ltb_ge _ _)) by lia. } cbn [Z.leb Z.compare Pos.compare Pos.compare_cont].
    eapply (ld_seq _ _ _ (λ r s, r = zlen gs ∧ ∃ con, loading (gs ++ [made_friend (f_real_pk f) FRIEND_CONFIRMED con empty_friend]) s)).
    + unfold m_addfriend_norequest, m_add_friend_contact_norequest. apply ld_read. intros s0 H0. rewrite K2. cbn [negb]. rewrite (lo_key _ _ H0), other_key by done.
      apply ld_read. intros s1 H1. unfold getfriend_id. rewrite (lo_friends _ _ H1), not_listed by done. cbn [Z.eqb negb Pos.eqb].
      rewrite (lo_key _ _ H1), other_key by done. by apply ld_init_end.
    + intros r. apply ld_pure. intros ->. apply ld_ex. intros con. rewrite (proj2 (Z.ltb_ge _ _)) by apply zlen_nonneg. by apply ld_confirmed.
Qed.

(** The friends that are saved. *)
Definition kept (l : list Friend) : list Friend := filter (λ f, 0 < f_status f) l.

Lemma kept_cons f l : kept (f :: l) = if 0 <? f_status f then f :: kept l else kept l.
Proof using. unfold kept. rewrite filter_cons. destruct (Z.ltb_spec 0 (f_status f)); by destruct (decide (0 < f_status f)); try lia. Qed.

Lemma zlen_friend_save t data : saved_wf t → friend_size <= zlen data → zlen (friend_save t data) = friend_size.
Proof using.
  intros [] Hd. change friend_size with 2216 in *. unfold friend_save. rewrite !zlen_app, !zlen_le_bytes, !length_slice by lia.
  rewrite sw_pk0, sw_info0, sw_name0, sw_message0, sw_last_seen0. done.
Qed.

Lemma zlen_save_friends l data : Forall friend_ok l → zlen (kept l) * friend_size <= zlen data → zlen (save_friends l data) = zlen (kept l) * friend_size.
Proof using.
  intros Hl. revert data. induction Hl as [|f l Hf Hl IH]; intros data; [done|]. cbn [save_friends]. rewrite kept_cons.
  destruct (Z.ltb_spec 0 (f_status f)) as [Hs|Hs]; [|apply IH]. rewrite zlen_cons, zlen_app. intros Hd. pose proof (zlen_nonneg (kept l)).
  change friend_size with 2216 in *. rewrite zlen_friend_save; [|apply saved_friend_wf; [done|unfold live, NOFRIEND; lia]|change friend_size with 2216; lia].
  rewrite IH; [change friend_size with 2216; lia|]. unfold zlen in *. rewrite length_drop. change (Z.to_nat friend_size) with (Z.to_nat 2216). lia.
Qed.

Lemma ld_load_friends l gs data rest : Forall friend_ok l →
  (∀ a b f g, l !! a = Some f → l !! b = Some g → live f → live g → f_real_pk f = f_real_pk g → a = b) →
  (∀ a f, l !! a = Some f → live f → f_real_pk f ≠ ms_self_public_key m0 ∧ Forall (λ g, f_real_pk g ≠ f_real_pk f) gs) →
  Forall live gs → zlen gs + zlen (kept l) <= UINT32_MAX → zlen (kept l) * friend_size <= zlen data →
  leads (loading gs) (load_friends (length (kept l)) (save_friends l data ++ rest)) (λ _ s, ∃ gs', Forall2 restored (kept l) gs' ∧ loading (gs ++ gs') s).
Proof using.
  intros Hl. revert gs data. induction Hl as [|f l Hf Hl IH]; intros gs data Hu Hk Hgs Hn Hd.
  - apply ld_ret. intros s Hs. exists []. split; [constructor|]. by rewrite app_nil_r.
  - cbn [save_friends]. rewrite kept_cons in *. destruct (Z.ltb_spec 0 (f_status f)) as [Hs|Hs].
    + assert (live f) as Hlive by (unfold live, NOFRIEND; lia). rewrite zlen_cons in Hn, Hd. pose proof (zlen_nonneg (kept l)). pose proof (zlen_nonneg gs).
      cbn [length load_friends]. rewrite <- app_assoc, friend_load_save; [|by apply saved_friend_wf|change friend_size with 2216 in *; lia].
      destruct (Hk 0%nat f eq_refl Hlive) as [Hown Hkeys].
      eapply ld_bind; [apply ld_load_friend; try done; split; [done|lia]|]. intros _. apply ld_ex. intros g. apply ld_pure. intros Hg.
      eapply ld_weaken; [apply (IH (gs ++ [g]))|by intros s Hs'|].
      * intros a b f1 f2 Ha Hb L1 L2 E. specialize (Hu (Datatypes.S a) (Datatypes.S b) f1 f2 Ha Hb L1 L2 E). lia.
      * intros a f1 Ha L1. destruct (Hk (Datatypes.S a) f1 Ha L1) as [Hown1 Hkeys1]. split; [done|]. apply Forall_app. split; [done|]. constructor; [|constructor].
        rewrite (rs_pk _ _ Hg). intros E. specialize (Hu 0%nat (Datatypes.S a) f f1 eq_refl Ha Hlive L1 E). lia.
      * apply Forall_app. split; [done|]. constructor; [|constructor]. by apply (restored_live f).
      * rewrite zlen_app, zlen_cons. unfold zlen at 2. cbn. lia.
      * unfold zlen in *. rewrite length_drop. change (Z.to_nat friend_size) with (Z.to_nat 2216). change friend_size with 2216 in *. lia.
      * intros ? s (gs' & Hr & Hload). exists (g :: gs'). split; [by constructor|]. by rewrite <- app_assoc in Hload.
    + apply IH; try done.
      * intros a b f1 f2 Ha Hb L1 L2 E. specialize (Hu (Datatypes.S a) (Datatypes.S b) f1 f2 Ha Hb L1 L2 E). lia.
      * intros a f1 Ha L1. exact (Hk (Datatypes.S a) f1 Ha L1).
Qed.
End loading.

(** ** The whole file *)

(** The sections a messenger writes. *)
Definition own_sections (m : Messenger) (data : bytes) : list Section_ :=
  [(3, save_friends (ms_friendlist m) (drop 8 data)); (4, slice 0 (ms_name_length m) (ms_name m));
   (5, slice 0 (ms_statusmessage_length m) (ms_statusmessage m)); (6, [u8 (ms_userstatus m)])].

Lemma save_is_sections m data : friends_ok m → count_friendlist m * friend_size < 2 ^ 32 → 8 + count_friendlist m * friend_size <= zlen data →
  messenger_save default_plugins m data = concat (write_section STATE_COOKIE_TYPE <$> own_sections m data) ∧ Forall section_ok (own_sections m data).
Proof.
  intros [H1 _ _ _ _ [H6 H6'] [H7 H7'] H8] Hc Hd. unfold count_friendlist in *. fold (kept (ms_friendlist m)) in *.
  assert (zlen (save_friends (ms_friendlist m) (drop 8 data)) = zlen (kept (ms_friendlist m)) * friend_size) as E.
  { apply zlen_save_friends; [done|]. unfold zlen in *. rewrite length_drop. lia. }
  pose proof (zlen_nonneg (kept (ms_friendlist m))). assert (0 <= zlen (kept (ms_friendlist m)) * friend_size) by (change friend_size with 2216; lia).
  assert (zlen (slice 0 (ms_name_length m) (ms_name m)) = ms_name_length m) as En by (apply length_slice; lia).
  assert (zlen (slice 0 (ms_statusmessage_length m) (ms_statusmessage m)) = ms_statusmessage_length m) as Em by (apply length_slice; lia).
  split.
  - unfold messenger_save, default_plugins, own_sections, write_section. cbn [save_plugins pl_save fmap list_fmap concat fst snd].
    unfold friends_list_save, save_name, save_status_message, save_status, saved_friendslist_size, name_size, status_message_size, status_size, count_friendlist.
    fold (kept (ms_friendlist m)). rewrite E, En, Em, u32_small by lia. done.
  - change MAX_NAME_LENGTH with 128 in *. change MAX_STATUSMESSAGE_LENGTH with 1007 in *.
    repeat constructor; cbn [fst snd]; try (unfold is_u16; lia); rewrite ?E, ?En, ?Em; try lia.
Qed.

(** What is restored does not depend on what the friend is told next. *)
Lemma restored_map u l gs : (∀ g, f_real_pk (u g) = f_real_pk g ∧ f_status (u g) = f_status g ∧ f_friendrequest_nospam (u g) = f_friendrequest_nospam g
    ∧ f_info_size (u g) = f_info_size g ∧ f_info (u g) = f_info g ∧ f_name_length (u g) = f_name_length g ∧ f_name (u g) = f_name g
    ∧ f_statusmessage_length (u g) = f_statusmessage_length g ∧ f_statusmessage (u g) = f_statusmessage g ∧ f_userstatus (u g) = f_userstatus g
    ∧ f_last_seen_time (u g) = f_last_seen_time g) → Forall2 restored l gs → Forall2 restored l (map u gs).
Proof.
  intros Hu H. induction H as [|f g l gs Hfg H IH]; [constructor|]. cbn [map]. constructor; [|done]. destruct (Hu g) as (U1 & U2 & U3 & U4 & U5 & U6 & U7 & U8 & U9 & U10 & U11).
  destruct Hfg as [A B C]. split; by rewrite ?U1, ?U2, ?U3, ?U4, ?U5, ?U6, ?U7, ?U8, ?U9, ?U10, ?U11.
Qed.

(** The messenger with its friends, then its name, its message and its status. *)
Definition has_friends (m : Messenger) (s : Messenger) : Prop := Forall2 restored (kept (ms_friendlist m)) (ms_friendlist s).
Definition at_load (m : Messenger) (name message : bytes) (status : Z) (s : Messenger) : Prop :=
  has_friends m s ∧ getself_name s = name ∧ m_copy_self_statusmessage s = message ∧ ms_userstatus s = status
  ∧ ms_name_length s = zlen name ∧ ms_statusmessage_length s = zlen message.

Lemma ld_load_name m data : zlen data <= MAX_NAME_LENGTH →
  leads (at_load m [] [] 0) (load_name data (zlen data)) (λ r s, r = STATE_LOAD_STATUS_CONTINUE ∧ at_load m data [] 0 s).
Proof.
  intros Hd. unfold load_name. eapply (ld_bind _ _ _ (at_load m data [] 0)); [|intros _; by apply ld_ret].
  destruct (Z.ltb_spec 0 (zlen data)) as [Hpos|Hz].
  2:{ cbn [andb]. apply ld_ret. intros s Hs. destruct data as [|x d]; [done|]. rewrite zlen_cons in Hz. pose proof (zlen_nonneg d). lia. }
  rewrite (proj2 (Z.leb_le _ _)) by lia. cbn [andb]. eapply ld_bind; [|intros _; by apply ld_ret]. unfold setname. apply ld_read. intros s0 (_ & _ & _ & _ & E & _).
  rewrite (proj2 (Z.ltb_ge _ _)) by lia. rewrite E. rewrite (proj2 (Z.eqb_neq _ _)) by (change (zlen []) with 0; lia). cbn [andb].
  eapply (ld_bind _ _ _ (at_load m data [] 0)); [|intros _; by apply ld_ret]. intros s (F & _ & M1 & M2 & _ & M3).
  split; [by apply restored_map|]. unfold getself_name. cbn [modify snd set_field ms_name ms_name_length].
  split; [rewrite slice_copy by lia; by apply slice_all|]. done.
Qed.

Lemma ld_load_message m name data : zlen data <= MAX_STATUSMESSAGE_LENGTH →
  leads (at_load m name [] 0) (load_status_message data (zlen data)) (λ r s, r = STATE_LOAD_STATUS_CONTINUE ∧ at_load m name data 0 s).
Proof.
  intros Hd. unfold load_status_message. eapply (ld_bind _ _ _ (at_load m name data 0)); [|intros _; by apply ld_ret].
  destruct (Z.ltb_spec 0 (zlen data)) as [Hpos|Hz].
  2:{ cbn [andb]. apply ld_ret. intros s Hs. destruct data as [|x d]; [done|]. rewrite zlen_cons in Hz. pose proof (zlen_nonneg d). lia. }
  rewrite (proj2 (Z.leb_le _ _)) by lia. cbn [andb]. eapply ld_bind; [|intros _; by apply ld_ret]. unfold m_set_statusmessage. apply ld_read. intros s0 (_ & _ & _ & _ & _ & E).
  rewrite (proj2 (Z.ltb_ge _ _)) by lia. rewrite E. rewrite (proj2 (Z.eqb_neq _ _)) by (change (zlen []) with 0; lia). cbn [andb].
  eapply (ld_bind _ _ _ (at_load m name data 0)); [|intros _; by apply ld_ret]. intros s (F & N1 & _ & M2 & N2 & _).
  split; [by apply restored_map|]. split; [done|]. unfold m_copy_self_statusmessage. cbn [modify snd set_field ms_statusmessage ms_statusmessage_length].
  split; [rewrite slice_copy by lia; by apply slice_all|]. done.
Qed.

Lemma ld_load_status m name message b : 0 <= b < USERSTATUS_INVALID →
  leads (at_load m name message 0) (load_status [b] 1) (λ r s, r = STATE_LOAD_STATUS_CONTINUE ∧ at_load m name message b s).
Proof.
  intros Hb. unfold load_status. eapply (ld_bind _ _ _ (at_load m name message b)); [|intros _; by apply ld_ret].
  cbn [Z.eqb Pos.eqb]. change (aget 0 [b] 0) with b. eapply ld_bind; [|intros _; by apply ld_ret]. unfold m_set_userstatus. apply ld_read. intros s0 (_ & _ & _ & E & _ & _).
  rewrite (proj2 (Z.leb_gt _ _)) by lia. rewrite E. destruct (Z.eqb_spec 0 b) as [<-|_]; [by apply ld_ret|].
  eapply (ld_bind _ _ _ (at_load m name message b)); [|intros _; by apply ld_ret]. intros s (F & N1 & N2 & _ & N3 & N4). split; [by apply restored_map|]. done.
Qed.

Lemma ld_load_list m m0 data : friends_ok m → ms_self_public_key m0 = ms_self_public_key m → count_friendlist m * friend_size <= zlen data →
  let file := save_friends (ms_friendlist m) data in
  leads (loading m0 []) (friends_list_load file (zlen file)) (λ r s, r = STATE_LOAD_STATUS_CONTINUE ∧ ∃ gs, Forall2 restored (kept (ms_friendlist m)) gs ∧ loading m0 gs s).
Proof.
  intros [H1 H2 H3 _ H5 _ _ _] Hkey Hd. cbv zeta. unfold count_friendlist in Hd. fold (kept (ms_friendlist m)) in Hd. unfold friends_list_load.
  rewrite zlen_save_friends by done. change friend_size with 2216 at 1 2. rewrite Z_mod_mult. cbn [Z.eqb negb].
  change friend_size with 2216. rewrite Z_div_mult by lia. unfold zlen at 1. rewrite Nat2Z.id.
  eapply ld_bind; [|intros _; apply ld_ret; intros s Hs; split; [done|exact Hs]].
  rewrite <- (app_nil_r (save_friends _ _)). apply (ld_load_friends m0 (ms_friendlist m) []); try done.
  - intros a f Ha Hl. split; [rewrite Hkey; by apply (H3 a)|done].
  - unfold numfriends in H5. change (zlen []) with 0. etrans; [|exact H5]. unfold zlen, kept. pose proof (length_filter (λ f, 0 < f_status f) (ms_friendlist m)). lia.
Qed.

Lemma section_step conferences p data type s s' ss :
  List.find (λ p, state_type_value (pl_type p) =? type) default_plugins = Some p → pl_load p data (zlen data) s = (STATE_LOAD_STATUS_CONTINUE, s') →
  run_sections (state_load_callback conferences) s ((type, data) :: ss) = run_sections (state_load_callback conferences) s' ss.
Proof.
  intros Hp Hs. cbn [run_sections fst snd]. unfold state_load_callback at 1, messenger_load_state_section. rewrite Hp. unfold mbind, M_bind. by rewrite Hs.
Qed.

(** C33: What is saved is restored.  A messenger whose friends are well-formed writes
    its file, and a new one with the same key loads it, where allocations succeed
    and connections can be made: the file is accepted, the friends are there in
    their order, with their keys, the ones whose request is open with the request
    to send again, the others with their names, messages, status and the time they
    were last seen, and our own name, message and status are back. *)
Theorem saved_messenger_is_restored conferences m data nospam t answer : friends_ok m →
  count_friendlist m * friend_size < 2 ^ 32 → 8 + count_friendlist m * friend_size <= zlen data → (∀ q, answer q ≠ 0 ∧ answer q ≠ -1) →
  let file := messenger_save default_plugins m data in
  let '(r, m') := state_load (state_load_callback conferences) (new_messenger (ms_self_public_key m) nospam t answer) file (zlen file) STATE_COOKIE_TYPE in
  r = 0 ∧ Forall2 restored (kept (ms_friendlist m)) (ms_friendlist m') ∧ getself_name m' = getself_name m
  ∧ m_copy_self_statusmessage m' = m_copy_self_statusmessage m ∧ ms_userstatus m' = ms_userstatus m.
Proof.
  intros Hm Hc Hd Ha. cbv zeta. destruct (save_is_sections m data Hm Hc Hd) as [-> Hok]. rewrite state_load_sections by done.
  set (m0 := new_messenger (ms_self_public_key m) nospam t answer). unfold own_sections. pose proof Hm as [_ _ _ _ _ [N1 N2] [S1 S2] U].
  assert (count_friendlist m * friend_size <= zlen (drop 8 data)) as Hd' by (unfold zlen in *; rewrite length_drop; lia).
  pose proof (ld_load_list m m0 (drop 8 data) Hm eq_refl Hd' m0 ltac:(by split)) as H1. cbv zeta in H1.
  destruct (friends_list_load _ _ m0) as [r1 s1] eqn:E1. destruct H1 as (Er1 & gs & Hgs & [L1 L2 [L3 L3'] [L4 L4'] L5 L6]). cbn [fst snd] in *. subst r1.
  rewrite (section_step _ _ _ 3 _ _ _ eq_refl E1).
  assert (at_load m [] [] 0 s1) as A1 by (unfold at_load, has_friends, getself_name, m_copy_self_statusmessage; by rewrite L1, L3, L3', L4, L4', L5).
  pose proof (ld_load_name m (slice 0 (ms_name_length m) (ms_name m)) ltac:(rewrite length_slice; lia) s1 A1) as H2.
  destruct (load_name _ _ s1) as [r2 s2] eqn:E2. destruct H2 as [Er2 A2]. cbn [fst snd] in *. subst r2. rewrite (section_step _ _ _ 4 _ _ _ eq_refl E2).
  pose proof (ld_load_message m _ (slice 0 (ms_statusmessage_length m) (ms_statusmessage m)) ltac:(rewrite length_slice; lia) s2 A2) as H3.
  destruct (load_status_message _ _ s2) as [r3 s3] eqn:E3. destruct H3 as [Er3 A3]. cbn [fst snd] in *. subst r3. rewrite (section_step _ _ _ 5 _ _ _ eq_refl E3).
  change USERSTATUS_INVALID with 3 in U.
  pose proof (ld_load_status m _ _ (u8 (ms_userstatus m)) ltac:(rewrite u8_small; change USERSTATUS_INVALID with 3; lia) s3 A3) as H4.
  destruct (load_status _ _ s3) as [r4 s4] eqn:E4. destruct H4 as [Er4 (B1 & B2 & B3 & B4 & _ & _)]. cbn [fst snd] in *. subst r4.
  rewrite (section_step _ _ _ 6 _ _ _ eq_refl E4). cbn [run_sections]. rewrite u8_small in B4 by lia. done.
Qed.

(** The messenger of the operations in [demo_ops] is saved and loaded. *)
Definition demo_saved : Messenger := run_ops no_client demo_ops (new_messenger (zeros 32) 1 demo_time (λ _, 2)).

Lemma saved_messenger_is_restored_witness :
  let file := messenger_save default_plugins demo_saved (zeros 3000) in
  (let '(r, m') := state_load (state_load_callback (λ _ _ _, None)) (new_messenger (ms_self_public_key demo_saved) 5 demo_time (λ _, 3)) file (zlen file) STATE_COOKIE_TYPE in
   r = 0 ∧ Forall2 restored (kept (ms_friendlist demo_saved)) (ms_friendlist m') ∧ getself_name m' = getself_name demo_saved
   ∧ m_copy_self_statusmessage m' = m_copy_self_statusmessage demo_saved ∧ ms_userstatus m' = ms_userstatus demo_saved)
  ∧ count_friendlist demo_saved = 1 ∧ getself_name demo_saved = [120; 121].
Proof.
  split; [|vm_compute; split; reflexivity].
  apply (saved_messenger_is_restored (λ _ _ _, None) demo_saved (zeros 3000) 5 demo_time (λ _, 3)).
  - exact (proj1 (run_good no_client demo_ops _ (λ j n p l, mk_ret _ _) (new_messenger_good _ _ _ _) demo_allowed)).
  - vm_compute. reflexivity.
  - vm_compute. discriminate.
  - intros q. split; discriminate.
Defined.
