(* ===== verification/MessengerFaults.v ===== *)
(** * MessengerFaults: where the messenger does not do what it means to

    Runs of [toxcore/Messenger.c] that go wrong: a chunk longer than the file, a
    counter that goes down twice, a transfer that starts without being announced,
    and an answer that goes to another connection. *)
From S2P Require Import Prelude Util MonoTime CryptoCore Network World Steps FriendRequests CryptoConnection NetCrypto Messenger FileTransfer FileRuns FileOrder.

(** ** A chunk longer than the file *)

Section beyond.
Context (i n : Z) (k : nat) (fid F : bytes).
Hypothesis (Hi : 0 <= i) (Hn : 0 <= n < 256) (Hfid : zlen fid = 32) (HF : zlen F < 2 ^ 16).

Lemma fl_beyond t g d : 0 <= t < 2 ^ 32 → zlen F < zlen d → zlen d + 40 <= MAX_FILE_DATA_SIZE →
  leads (flowing i n k fid F t g) (handle_file_data_v2 i n (net_pack_u64 t ++ fid ++ d)) (λ _, flowing i n k fid F (t + zlen d) (g ++ [(t, fid ++ d)])).
Proof using Hi Hn Hfid HF.
  intros Ht Hd Hmax. pose proof (zlen_nonneg F). change MAX_FILE_DATA_SIZE with 1371 in Hmax. unfold handle_file_data_v2. cbv zeta. apply ld_read. intros s0 [Hs0 _].
  pose proof (sl_standing _ _ _ (sy_slot _ _ _ _ _ _ Hs0)) as Hst. unfold standing, at_byte in Hst. injection Hst as E1 E2 E3 E4.
  rewrite E2, E3, E4. rewrite !zlen_app, zlen_pack64, Hfid. unfold FILE_OFFSET_LENGTH, FILE_ID_LENGTH.
  change (drop (Z.to_nat 8) (net_pack_u64 t ++ fid ++ d)) with (fid ++ d). rewrite net_unpack_pack_u64 by (split; lia).
  replace (8 + (32 + zlen d) - 8 - 32) with (zlen d) by lia. rewrite u16_small by lia. rewrite (proj2 (Z.ltb_ge _ _)) by lia.
  rewrite id_first by done. unfold bytes_eqb. rewrite bool_decide_eq_true_2 by done. cbn [negb].
  assert (u64 (zlen F - zlen d) = 2 ^ 64 + (zlen F - zlen d)) as -> by (unfold u64; rewrite <- (Z_mod_plus_full _ 1), Z.mod_small by lia; lia).
  rewrite (proj2 (Z.ltb_ge _ _)) by lia. rewrite Z.eqb_refl. cbn [negb]. rewrite !u64_small by lia.
  eapply ld_bind. { apply (fl_transfer i n k fid F Hi Hn t t g g); [|done]. apply ld_keeps; [|done]. apply mk_transfer; [done..|lia|]. intros _ _ _ ft Hft. by split. } intros _.
  eapply ld_bind; [by apply fl_piece|]. intros _. eapply ld_bind; [by apply fl_transfer; [done|done|apply ld_move|]|]. intros _.
  rewrite (proj2 (Z.eqb_neq _ _)) by lia. by apply ld_ret.
Qed.
End beyond.

(** The check that a chunk lies within the file is done with an unsigned
    difference: a chunk longer than the whole file passes it.  The client then gets
    more bytes than the friend announced, the transfer stands behind the end of
    the file, and the test that ends a transfer is not met. *)
Theorem chunk_beyond_size_accepted client i n k fid F t g d m : 0 <= i → 0 <= n < 256 → zlen fid = 32 → zlen F < 2 ^ 16 → 0 <= t < 2 ^ 32 →
  zlen F < zlen d → zlen d + 40 <= MAX_FILE_DATA_SIZE → flowing i n k fid F t g m →
  flowing i n k fid F (t + zlen d) (g ++ [(t, fid ++ d)]) (run_op client (OPacket i (data_packet n fid t d)) m).2.
Proof.
  intros Hi Hn Hfid HF Ht Hd Hmax Hm. cbn [run_op]. rewrite ignore_state. revert m Hm.
  enough (leads (flowing i n k fid F t g) (m_handle_packet i (data_packet n fid t d)) (λ _, flowing i n k fid F (t + zlen d) (g ++ [(t, fid ++ d)]))) as H by (intros m Hm; by apply H).
  by apply fl_packet, fl_beyond.
Qed.

Lemma chunk_beyond_size_accepted_witness :
  flowing 0 0 1 demo_id demo_file 8 [(0, demo_id ++ replicate 8 1)] (run_op no_client (OPacket 0 (data_packet 0 demo_id 0 (replicate 8 1))) demo_start).2.
Proof.
  apply (chunk_beyond_size_accepted no_client 0 0 1 demo_id demo_file 0 [] (replicate 8 1) demo_start);
    [lia|lia|reflexivity|vm_compute; reflexivity|lia|vm_compute; reflexivity|vm_compute; discriminate|].
  split; [exact demo_stays|]. split; [lia|vm_compute; reflexivity|vm_compute; reflexivity|]. intros q. vm_compute. discriminate.
Defined.

(** ** A counter that goes down twice *)

(** A friend offers a plain file of one byte and one of kind [FILEKIND_FTV2]; both are
    accepted, and the byte of the first arrives. *)
Definition demo_offer (n type : Z) : bytes := [PACKET_ID_FILE_SENDREQUEST; n] ++ net_pack_u32 type ++ net_pack_u64 (1 + n) ++ demo_id ++ [97].
Definition demo_two_files : Messenger :=
  run_ops no_client
    [OPacket 0 (demo_offer 0 0); OPacket 0 (demo_offer 1 FILEKIND_FTV2); OFileControl 0 (real_filenumber true 0) FILECONTROL_ACCEPT;
     OFileControl 0 (real_filenumber true 1) FILECONTROL_ACCEPT; OPacket 0 [PACKET_ID_FILE_DATA; 0; 55]] (demo_online (λ _, 100)).

(** One transfer is left but the friend has none by its counter, so the iteration
    does not look at the transfer any more: its idle time stands still. *)
Example completion_counts_twice :
  f_num_receiving_files (friend_at demo_two_files 0) = 0
  ∧ ft_status (transfer true (friend_at demo_two_files 0) 1) = FILESTATUS_TRANSFERRING
  ∧ ft_receiver_idle (transfer true (friend_at (run_ops no_client [OIterate; OIterate] demo_two_files) 0) 1) = 0.
Proof. vm_compute. done. Qed.

(** ** A transfer that is not announced *)

(** A message of kind [MESSAGEV2] that is too long is refused, but its slot is taken:
    data for it goes to the client as data of a file it was never asked about. *)
Definition demo_long_message : bytes := [PACKET_ID_FILE_SENDREQUEST; 0] ++ net_pack_u32 HACK_TOX_FILE_KIND_MESSAGEV2_SEND ++ net_pack_u64 100000 ++ demo_id.

Example refused_message_takes_slot :
  let m := run_ops no_client [OPacket 0 demo_long_message] (demo_online (λ _, 100)) in
  ms_events m = [] ∧ ft_status (transfer true (friend_at m 0) 0) = FILESTATUS_TRANSFERRING
  ∧ ms_events (run_ops no_client [OPacket 0 [PACKET_ID_FILE_DATA; 0; 55]] m) = [EvFileData 0 65536 0 []].
Proof. vm_compute. done. Qed.

(** ** An answer to another connection *)

(** The friend with the number 0 has the connection 3; when its online packet comes,
    the answer is written to the connection 0. *)
Example online_answer_misdirected :
  let m := (demo_online (λ _, 100)) <| ms_friendlist := [empty_friend <| f_status := FRIEND_CONFIRMED |> <| f_friendcon_id := 3 |>] |> in
  map fst (ms_calls (run_ops no_client [OPacket 0 [PACKET_ID_ONLINE]] m))
  = [CStatus 3; CWrite 0 (PACKET_ID_ONLINE :: net_pack_u64 TOX_CAPABILITIES_CURRENT) false; CWrite 0 [PACKET_ID_ONLINE] false].
Proof. vm_compute. done. Qed.

(** ** A chunk shorter than the id *)

(** The length of a chunk without its id is a 16-bit number: 31 bytes move the
    transfer of the sender by 65535. *)
Definition demo_big_sender : Messenger :=
  run_ops no_client [ONewFile 0 FILEKIND_FTV2 1000000 demo_id [97] 1; OPacket 0 [PACKET_ID_FILE_CONTROL; 1; 0; FILECONTROL_ACCEPT]; OIterate]
    (demo_online (λ q, if (q =? 7)%nat then 0 else 100)).

Example short_chunk_skips :
  let '(r, m) := send_file_data 0 0 0 (replicate 31 7) 31 demo_big_sender in r = 0 ∧ ft_transferred (transfer false (friend_at m 0) 0) = 65535.
Proof. vm_compute. done. Qed.
