(* ===== verification/MessengerConns.v ===== *)
(** * MessengerConns: the messenger on the friend connections

    The messenger uses the connections together with other clients.  Every friend
    has the connection of its key, and what arrives on it is handed to the friend
    it comes from. *)
From S2P Require Import Prelude Util MonoTime CryptoCore Network World LanDiscovery FriendRequests DhtPackets DhtLists FriendConnection ConnSpec ConnShare ConnTable Steps CryptoConnection NetCrypto Messenger FileTransfer FileRuns FileOrder FriendList.

(** What the messenger's callbacks of a friend are in the table. *)
Definition messenger_callbacks (i : Z) : Friend_Conn_Callbacks := mkCallbacks true true true true i.

(** The connections [s] serve the messenger [m]: its calls and those [o] of others
    are all there were. *)
Record serves (s : Friend_Connections) (m : Messenger) (o : list (Served * Z)) : Prop := {
  sv_calls : merges (conn_calls (ms_calls m)) o (fs_served s);
  sv_others : civil o;
  sv_small : small (fs_served s)
}.

Section together.
Context (s : Friend_Connections) (m : Messenger) (o : list (Served * Z)).
Hypotheses (Hs : conns_ok [] s) (Hm : good None m) (Hsv : serves s m o).

Lemma table_good : table_ok s.
Proof using Hs Hsv. by destruct (Hs (sv_small _ _ _ Hsv)). Qed.

Lemma calls_trusted : trusted (conn_calls (ms_calls m)) ∧ shares (replay ∅ (conn_calls (ms_calls m))) (replay ∅ (fs_served s)) (held o).
Proof using Hs Hm Hsv.
  apply (merged_share _ o); [apply Hsv|apply table_good|apply Hsv|]. destruct Hm as (_ & _ & Hl). apply (lk_careful _ _ Hl).
Qed.

Lemma friend_has_conn i : 0 <= i → m_friend_exists m i = true → let f := friend_at m i in
  ∃ c, get_conn s (f_friendcon_id f) = Some c ∧ fc_real_public_key c = f_real_pk f ∧ callbacks_at c MESSENGER_CALLBACK_INDEX = messenger_callbacks i.
Proof using Hs Hm Hsv.
  intros Hi He f. destruct (exists_lookup _ _ He) as (f' & Hf & Hl). assert (f = f') as -> by (unfold f, friend_at, aget; by rewrite Hf).
  destruct calls_trusted as [Htr Hsh]. destruct Hm as (_ & _ & Hlk). pose proof (lk_friend _ _ Hlk Htr (Z.to_nat i) (f_real_pk f') (f_friendcon_id f')) as Hr.
  rewrite entry_some in Hr. specialize (Hr ltac:(by exists f')). destruct (sh_known _ _ _ Hsh _ _ Hr) as (k & Hk & Ek & Ecb).
  pose proof table_good as Ht. rewrite (to_view s Ht) in Hk. pose proof Hk as Hv. apply conn_view_some in Hv as (Hpos & c & Hc & Hu & ->).
  pose proof (to_number s Ht) as Hn. unfold num_cons, zlen in Hn. apply lookup_lt_Some in Hc as Hlt.
  destruct (get_conn_view s (f_friendcon_id f') Ht) as [[_ ?]|(c' & Hg & _ & Hc' & _)]; [unfold is_s32; lia|congruence|].
  assert (c' = c) as -> by congruence. exists c. split; [done|]. split; [done|]. unfold callbacks_at, aget. change (Z.to_nat MESSENGER_CALLBACK_INDEX) with 0%nat.
  cbn in Ecb. rewrite Ecb. cbn. unfold messenger_callbacks. f_equal. lia.
Qed.

Lemma conn_has_friend id c : is_s32 id → get_conn s id = Some c → cb_data (callbacks_at c MESSENGER_CALLBACK_INDEX) = true →
  ∃ i, 0 <= i ∧ m_friend_exists m i = true ∧ f_friendcon_id (friend_at m i) = id ∧ f_real_pk (friend_at m i) = fc_real_public_key c ∧
    callbacks_at c MESSENGER_CALLBACK_INDEX = messenger_callbacks i.
Proof using Hs Hm Hsv.
  intros Hid Hg Hcb. pose proof table_good as Ht. destruct (get_conn_view s id Ht Hid) as [[? _]|(c' & Hg' & Hpos & Hc & Hu & Hv)]; [congruence|].
  assert (c' = c) as -> by congruence. rewrite <- (to_view s Ht) in Hv. destruct calls_trusted as [Htr Hsh].
  destruct (replay ∅ (conn_calls (ms_calls m)) !! id) as [k|] eqn:Ek.
  - destruct Hm as (Hok & _ & Hlk). destruct (lk_conn _ _ Hlk Htr id k Ek) as (i & key & Hi).
    pose proof Hi as Hi'. apply entry_some in Hi' as (f & Hf & Hl & [= -> Hcon]).
    assert (m_friend_exists m (Z.of_nat i) = true) as He.
    { unfold m_friend_exists, friend_at, aget. rewrite Nat2Z.id, Hf. cbn. apply lookup_lt_Some in Hf. pose proof (fl_number _ Hok) as Hn. unfold numfriends, zlen, UINT32_MAX in *.
      rewrite u32_small by lia. unfold live, NOFRIEND in Hl. destruct (Z.eqb_spec (f_status f) 0); [done|]. cbn. rewrite andb_true_r. lia. }
    destruct (friend_has_conn (Z.of_nat i) ltac:(lia) He) as (c' & Hc' & Hk & Hb).
    assert (friend_at m (Z.of_nat i) = f) as E by (unfold friend_at, aget; by rewrite Nat2Z.id, Hf). rewrite E, <- Hcon in *. assert (c' = c) as -> by congruence.
    exists (Z.of_nat i). rewrite E. split; [lia|]. done.
  - pose proof (sh_other _ _ _ Hsh _ _ Hv Ek) as Hno. unfold callbacks_at, aget in Hcb. change (Z.to_nat MESSENGER_CALLBACK_INDEX) with 0%nat in Hcb.
    cbn in Hno. rewrite Hno in Hcb. done.
Qed.
End together.

(** ** Packets *)

(** Layers above that do nothing: what is handed to them is in the log. *)
Definition silent (u : Upper_Call) : FC unit := mret tt.

(** A packet for the layers above. *)
Definition upper_packet (d : bytes) : Prop :=
  0 < zlen d ∧ aget 0 d 0 ∉ [PACKET_ID_FRIEND_REQUESTS; PACKET_ID_ALIVE; PACKET_ID_SHARE_RELAYS].

Lemma packet_events s id c d : get_conn s id = Some c → upper_packet d → cb_data (callbacks_at c 0) = true →
  ∃ rest, fs_events (handle_packet silent id d s).2 = fs_events s ++ UData 0 (cb_id (callbacks_at c 0)) d :: rest ∧
    ∀ u, u ∈ rest → ∃ n, u = UData 1 n d.
Proof.
  intros Hc [Hd Hid] Hcb. unfold handle_packet. destruct (Z.eqb_spec (zlen d) 0); [lia|]. unfold mbind, M_bind, get. cbv beta iota. rewrite Hc. cbv zeta.
  assert (aget 0 d 0 ≠ PACKET_ID_FRIEND_REQUESTS ∧ aget 0 d 0 ≠ PACKET_ID_ALIVE ∧ aget 0 d 0 ≠ PACKET_ID_SHARE_RELAYS) as (H1 & H2 & H3) by set_solver.
  destruct (Z.eqb_spec (aget 0 d 0) PACKET_ID_FRIEND_REQUESTS), (Z.eqb_spec (aget 0 d 0) PACKET_ID_ALIVE), (Z.eqb_spec (aget 0 d 0) PACKET_ID_SHARE_RELAYS); try done.
  change callback_indices with [0; 1]. cbn [data_loop]. rewrite Hcb. unfold call_upper, silent, modify, mbind, M_bind, get, mret, M_ret. cbv beta iota.
  set (s1 := s <| fs_events := _ |>). assert (get_conn s1 id = Some c) as -> by exact Hc. destruct (cb_data (callbacks_at c 1)); cbv beta iota.
  - set (s2 := s1 <| fs_events := _ |>). assert (get_conn s2 id = Some c) as -> by exact Hc. exists [UData 1 (cb_id (callbacks_at c 1)) d].
    split; [|intros u Hu; apply list_elem_of_singleton in Hu as ->; by eexists]. cbn [snd]. unfold s2, s1. cbn [set_field fs_events]. by rewrite <- app_assoc.
  - assert (get_conn s1 id = Some c) as -> by exact Hc. exists []. split; [done|]. intros u Hu. by apply elem_of_nil in Hu.
Qed.

(** C9: What arrives from a friend is handed to that friend.  Take any run of the
    friend connections and any run of a messenger, such that the messenger's
    calls of the connections, together with those of other clients that give back
    no more than they have taken and leave the messenger's callbacks alone, are the
    calls the connections served.  Then every friend has the connection of its key,
    with the callbacks for its number; and a packet of a connection that is handed
    to the messenger goes to the friend with the key of that connection, before
    the other clients have it, or goes to no friend. *)
Theorem packets_reach_their_friend reaction cops t lan udp answer relays client mops key nospam t' answer' o :
  let s := run_conns (λ u, react (reaction u)) cops (new_friend_connections t lan udp answer relays) in
  let m0 := new_messenger key nospam t' answer' in
  let m := run_ops client mops m0 in
  (∀ j n p l, keeps (good None) (client j n p l)) → ops_allowed client mops m0 → serves s m o →
  (∀ i, 0 <= i → m_friend_exists m i = true →
     ∃ c, get_conn s (f_friendcon_id (friend_at m i)) = Some c ∧ fc_real_public_key c = f_real_pk (friend_at m i) ∧
          callbacks_at c MESSENGER_CALLBACK_INDEX = messenger_callbacks i) ∧
  (∀ id c d, is_s32 id → get_conn s id = Some c → upper_packet d → cb_data (callbacks_at c MESSENGER_CALLBACK_INDEX) = true →
     ∃ i rest, 0 <= i ∧ m_friend_exists m i = true ∧ f_real_pk (friend_at m i) = fc_real_public_key c ∧
       fs_events (handle_packet silent id d s).2 = fs_events s ++ UData MESSENGER_CALLBACK_INDEX i d :: rest ∧ ∀ u, u ∈ rest → ∃ n, u = UData 1 n d).
Proof.
  intros s m0 m Hc Hops Hsv. pose proof (runs_ok reaction cops t lan udp answer relays) as Hs.
  pose proof (run_good client mops m0 Hc (new_messenger_good _ _ _ _) Hops) as Hm. split.
  - intros i Hi He. by apply (friend_has_conn s m o Hs Hm Hsv).
  - intros id c d Hid Hg Hd Hcb. destruct (conn_has_friend s m o Hs Hm Hsv id c Hid Hg Hcb) as (i & Hi & He & _ & Hk & Hb).
    destruct (packet_events s id c d Hg Hd Hcb) as (rest & Hev & Hrest). change 0 with MESSENGER_CALLBACK_INDEX in Hev. rewrite Hb in Hev.
    exists i, rest. done.
Qed.

(** A friend and a conference that uses its connection too. *)
Definition no_reaction (u : Upper_Call) : Reaction := RReturn.
Definition memory_only (n : nat) : Z := if n is 0%nat then 1 else 0.
Definition nine (n : nat) : Z := 9.
Definition no_relays (n : nat) : list Node_format := [].
Definition shared_friends : list Messenger_Op := [OAddFriendNoRequest (replicate 32 1)].
Definition shared_ops : list Conn_Op :=
  [FNew (replicate 32 1); FCallbacks 0 0 (messenger_callbacks 0); FLock 0; FCallbacks 0 1 (mkCallbacks true true true true 5); FStatus 0 true].
Definition shared_calls : list (Served * Z) := [(SLock 0, 0); (SCallbacks 0 1 (mkCallbacks true true true true 5), 0)].
#[local] Notation shared_conns :=
  (run_conns (λ u, react (no_reaction u)) shared_ops (new_friend_connections demo_time false false nine no_relays)).
#[local] Notation shared_messenger := (run_ops no_client shared_friends (new_messenger (zeros 32) 1 demo_time memory_only)).

Lemma shared_civil : civil shared_calls.
Proof.
  split; [|unfold shared_calls; repeat constructor; done]. intros t' [r Hr] id. unfold shared_calls in Hr.
  destruct t' as [|e1 [|e2 [|e3 t']]]; simplify_eq/=; repeat case_decide; lia.
Qed.

Lemma shared_serves : serves shared_conns shared_messenger shared_calls.
Proof.
  assert (fs_served shared_conns = [(SNew (replicate 32 1), 0); (SCallbacks 0 0 (messenger_callbacks 0), 0)] ++ shared_calls) as E1 by (vm_compute; reflexivity).
  assert (conn_calls (ms_calls shared_messenger) = [(SNew (replicate 32 1), 0); (SCallbacks 0 0 (messenger_callbacks 0), 0)]) as E2 by (vm_compute; reflexivity).
  split; rewrite ?E1, ?E2.
  - apply (merges_right _ [(SLock 0, 0)] [_; _; _]), (merges_right _ [] [_; _]), (merges_left [_] [] [_]), (merges_left [] [] []), merges_nil.
  - exact shared_civil.
  - apply smallb_ok. vm_compute. reflexivity.
Qed.

Lemma sample_packet : upper_packet [64; 7].
Proof. split; [done|]. set_solver by done. Qed.

Lemma packets_reach_their_friend_witness :
  (∃ i rest, 0 <= i ∧ m_friend_exists shared_messenger i = true ∧ f_real_pk (friend_at shared_messenger i) = replicate 32 1 ∧
     fs_events (handle_packet silent 0 [64; 7] shared_conns).2 = fs_events shared_conns ++ UData 0 i [64; 7] :: rest ∧ ∀ u, u ∈ rest → ∃ n, u = UData 1 n [64; 7])
  ∧ fs_events (handle_packet silent 0 [64; 7] shared_conns).2 = fs_events shared_conns ++ [UData 0 0 [64; 7]; UData 1 5 [64; 7]].
Proof.
  split; [|vm_compute; reflexivity].
  destruct (packets_reach_their_friend no_reaction shared_ops demo_time false false nine no_relays no_client shared_friends
    (zeros 32) 1 demo_time memory_only shared_calls) as [_ H].
  - intros j n p l. apply mk_ret.
  - cbn [shared_friends ops_allowed op_allowed]. split; [split; [done|]|done]. apply bytes_okb_ok. vm_compute. reflexivity.
  - exact shared_serves.
  - assert (fc_real_public_key (conn_at shared_conns 0) = replicate 32 1) as Ek by (vm_compute; reflexivity). rewrite <- Ek.
    apply (H 0 (conn_at shared_conns 0) [64; 7]).
    + unfold is_s32. lia.
    + vm_compute. reflexivity.
    + exact sample_packet.
    + vm_compute. reflexivity.
Defined.
