(* ===== verification/EncryptSave.v ===== *)
(** * EncryptSave: encrypted save files, [toxencryptsave/toxencryptsave.c]

    A save file is encrypted with a key made from a passphrase and a salt.  The
    two hashes of libsodium that make the key are parameters, like the boxes of
    [CryptoCore]. *)
From S2P Require Import Prelude CryptoCore Network World.

(** ** Definitions *)

Definition TOX_PASS_SALT_LENGTH : Z := 32.
Definition TOX_PASS_KEY_LENGTH : Z := 32.
Definition TOX_PASS_ENCRYPTION_EXTRA_LENGTH : Z := 80.
Definition TOX_ENC_SAVE_MAGIC_LENGTH : Z := 8.
(** The characters of ["toxEsave"]. *)
Definition TOX_ENC_SAVE_MAGIC_NUMBER : bytes := [116; 111; 120; 69; 115; 97; 118; 101].

(** The hashes: [crypto_hash_sha256], and [crypto_pwhash_scryptsalsa208sha256] with
    the limits the code passes, which fails when it gets no memory. *)
Class SodiumPwhash := {
  crypto_hash_sha256 : bytes → bytes;
  crypto_pwhash : bytes → bytes → bytes    (** password, salt *)
}.

Inductive Tox_Err_Key_Derivation := TOX_ERR_KEY_DERIVATION_OK | TOX_ERR_KEY_DERIVATION_NULL | TOX_ERR_KEY_DERIVATION_FAILED.
Inductive Tox_Err_Encryption :=
  TOX_ERR_ENCRYPTION_OK | TOX_ERR_ENCRYPTION_NULL | TOX_ERR_ENCRYPTION_KEY_DERIVATION_FAILED | TOX_ERR_ENCRYPTION_FAILED.
Inductive Tox_Err_Decryption :=
  TOX_ERR_DECRYPTION_OK | TOX_ERR_DECRYPTION_NULL | TOX_ERR_DECRYPTION_INVALID_LENGTH | TOX_ERR_DECRYPTION_BAD_FORMAT
  | TOX_ERR_DECRYPTION_KEY_DERIVATION_FAILED | TOX_ERR_DECRYPTION_FAILED.
Inductive Tox_Err_Get_Salt := TOX_ERR_GET_SALT_OK | TOX_ERR_GET_SALT_NULL | TOX_ERR_GET_SALT_BAD_FORMAT.

Record Tox_Pass_Key := mkPassKey { tpk_salt : bytes; tpk_key : bytes }.

(** What the system gives: memory for the hash, for the key and for a box. *)
Record System := mkSystem { sys_pwhash : bool; sys_key : bool; sys_box : bool }.

(** [memcmp] with the magic number. *)
Definition tox_is_data_encrypted (data : bytes) : bool := bytes_eqb (slice 0 TOX_ENC_SAVE_MAGIC_LENGTH data) TOX_ENC_SAVE_MAGIC_NUMBER.

(** A pointer to read from is [None] when it is null; [out] tells whether the pointer
    to write the result to is given. *)
Definition tox_get_salt (ciphertext : option bytes) (out : bool) : Tox_Err_Get_Salt * option bytes :=
  match ciphertext, out with
  | None, _ | _, false => (TOX_ERR_GET_SALT_NULL, None)
  | Some ciphertext, true =>
      if negb (tox_is_data_encrypted ciphertext) then (TOX_ERR_GET_SALT_BAD_FORMAT, None)
      else (TOX_ERR_GET_SALT_OK, Some (slice TOX_ENC_SAVE_MAGIC_LENGTH TOX_PASS_SALT_LENGTH ciphertext))
  end.

Section pass.
Context `{Sodium, SodiumPwhash}.

Definition tox_pass_key_derive_with_salt (sys : System) (passphrase : option bytes) (passphrase_len : Z) (salt : option bytes) :
    Tox_Err_Key_Derivation * option Tox_Pass_Key :=
  match salt, passphrase with
  | None, _ => (TOX_ERR_KEY_DERIVATION_NULL, None)
  | Some salt, None =>
      if negb (passphrase_len =? 0) then (TOX_ERR_KEY_DERIVATION_NULL, None)
      else if negb (sys_pwhash sys) then (TOX_ERR_KEY_DERIVATION_FAILED, None)
      else if negb (sys_key sys) then (TOX_ERR_KEY_DERIVATION_FAILED, None)
      else (TOX_ERR_KEY_DERIVATION_OK, Some (mkPassKey (slice 0 TOX_PASS_SALT_LENGTH salt) (crypto_pwhash (crypto_hash_sha256 []) (slice 0 TOX_PASS_SALT_LENGTH salt))))
  | Some salt, Some passphrase =>
      if negb (sys_pwhash sys) then (TOX_ERR_KEY_DERIVATION_FAILED, None)
      else if negb (sys_key sys) then (TOX_ERR_KEY_DERIVATION_FAILED, None)
      else (TOX_ERR_KEY_DERIVATION_OK, Some (mkPassKey (slice 0 TOX_PASS_SALT_LENGTH salt)
              (crypto_pwhash (crypto_hash_sha256 (slice 0 passphrase_len passphrase)) (slice 0 TOX_PASS_SALT_LENGTH salt))))
  end.

(** [rng] is what [system_random] returns, and after the call what is left of it. *)
Definition tox_pass_key_derive (sys : System) (rng : option Random) (passphrase : option bytes) (passphrase_len : Z) :
    Tox_Err_Key_Derivation * option Tox_Pass_Key * option Random :=
  match rng with
  | None => (TOX_ERR_KEY_DERIVATION_FAILED, None, None)
  | Some rng =>
      let '(salt, rng) := random_bytes rng TOX_PASS_SALT_LENGTH in
      (tox_pass_key_derive_with_salt sys passphrase passphrase_len (Some salt), Some rng)
  end.

(** The result of [encrypt_data_symmetric] is an [int32_t] and is compared as a
    [size_t].  What a failing call has written already is left out. *)
Definition tox_pass_key_encrypt (sys : System) (rng : option Random) (key : option Tox_Pass_Key) (plaintext : option bytes) (plaintext_len : Z) (out : bool) :
    Tox_Err_Encryption * option bytes :=
  match rng with
  | None => (TOX_ERR_ENCRYPTION_FAILED, None)
  | Some rng =>
      match plaintext, key, out with
      | Some plaintext, Some key, true =>
          if plaintext_len =? 0 then (TOX_ERR_ENCRYPTION_NULL, None)
          else
            let '(nonce, _) := random_nonce rng in
            let '(r, encrypted) := encrypt_data_symmetric (sys_box sys) (tpk_key key) nonce plaintext plaintext_len in
            if negb (u64 (s32 r) =? u64 (plaintext_len + crypto_box_MACBYTES)) then (TOX_ERR_ENCRYPTION_FAILED, None)
            else (TOX_ERR_ENCRYPTION_OK, Some (TOX_ENC_SAVE_MAGIC_NUMBER ++ tpk_salt key ++ nonce ++ encrypted))
      | _, _, _ => (TOX_ERR_ENCRYPTION_NULL, None)
      end
  end.

Definition tox_pass_encrypt (sys : System) (rng : option Random) (plaintext : option bytes) (plaintext_len : Z) (passphrase : option bytes) (passphrase_len : Z) (out : bool) :
    Tox_Err_Encryption * option bytes :=
  let '(err, key, rng) := tox_pass_key_derive sys rng passphrase passphrase_len in
  match key with
  | None => (match err with TOX_ERR_KEY_DERIVATION_NULL => TOX_ERR_ENCRYPTION_NULL | _ => TOX_ERR_ENCRYPTION_KEY_DERIVATION_FAILED end, None)
  | Some key => tox_pass_key_encrypt sys rng (Some key) plaintext plaintext_len out
  end.

Definition tox_pass_key_decrypt (sys : System) (key : option Tox_Pass_Key) (ciphertext : option bytes) (ciphertext_len : Z) (out : bool) :
    Tox_Err_Decryption * option bytes :=
  if ciphertext_len <=? TOX_PASS_ENCRYPTION_EXTRA_LENGTH then (TOX_ERR_DECRYPTION_INVALID_LENGTH, None)
  else
    match ciphertext, key, out with
    | Some ciphertext, Some key, true =>
        if negb (tox_is_data_encrypted ciphertext) then (TOX_ERR_DECRYPTION_BAD_FORMAT, None)
        else
          let ciphertext := drop (Z.to_nat (TOX_ENC_SAVE_MAGIC_LENGTH + TOX_PASS_SALT_LENGTH)) ciphertext in
          let decrypt_length := ciphertext_len - TOX_PASS_ENCRYPTION_EXTRA_LENGTH in
          let nonce := slice 0 crypto_box_NONCEBYTES ciphertext in
          let ciphertext := drop (Z.to_nat crypto_box_NONCEBYTES) ciphertext in
          let '(r, plaintext) := decrypt_data_symmetric (sys_box sys) (tpk_key key) nonce ciphertext (decrypt_length + crypto_box_MACBYTES) in
          if negb (u64 (s32 r) =? u64 decrypt_length) then (TOX_ERR_DECRYPTION_FAILED, None)
          else (TOX_ERR_DECRYPTION_OK, Some plaintext)
    | _, _, _ => (TOX_ERR_DECRYPTION_NULL, None)
    end.

Definition tox_pass_decrypt (sys : System) (ciphertext : option bytes) (ciphertext_len : Z) (passphrase : option bytes) (passphrase_len : Z) (out : bool) :
    Tox_Err_Decryption * option bytes :=
  if ciphertext_len <=? TOX_PASS_ENCRYPTION_EXTRA_LENGTH then (TOX_ERR_DECRYPTION_INVALID_LENGTH, None)
  else
    match ciphertext, passphrase, out with
    | Some ciphertext, Some _, true =>
        if negb (tox_is_data_encrypted ciphertext) then (TOX_ERR_DECRYPTION_BAD_FORMAT, None)
        else
          let salt := slice TOX_ENC_SAVE_MAGIC_LENGTH TOX_PASS_SALT_LENGTH ciphertext in
          match (tox_pass_key_derive_with_salt sys passphrase passphrase_len (Some salt)).2 with
          | None => (TOX_ERR_DECRYPTION_KEY_DERIVATION_FAILED, None)
          | Some key => tox_pass_key_decrypt sys (Some key) (Some ciphertext) ciphertext_len out
          end
    | _, _, _ => (TOX_ERR_DECRYPTION_NULL, None)
    end.
End pass.

(** ** Properties *)

Section roundtrip.
Context {S : Sodium} {L : SodiumLaws S} {P : SodiumPwhash}.

(** A system that has memory. *)
Definition roomy : System := mkSystem true true true.

(** The layout of a file: the parts are where they are read. *)
Lemma file_parts salt nonce box : zlen salt = 32 → zlen nonce = 24 → let c := TOX_ENC_SAVE_MAGIC_NUMBER ++ salt ++ nonce ++ box in
  tox_is_data_encrypted c = true ∧ slice TOX_ENC_SAVE_MAGIC_LENGTH TOX_PASS_SALT_LENGTH c = salt ∧
  slice 0 crypto_box_NONCEBYTES (drop (Z.to_nat (TOX_ENC_SAVE_MAGIC_LENGTH + TOX_PASS_SALT_LENGTH)) c) = nonce ∧
  drop (Z.to_nat crypto_box_NONCEBYTES) (drop (Z.to_nat (TOX_ENC_SAVE_MAGIC_LENGTH + TOX_PASS_SALT_LENGTH)) c) = box.
Proof using.
  intros Hs Hn c. unfold zlen in Hs, Hn.
  assert (drop (Z.to_nat (TOX_ENC_SAVE_MAGIC_LENGTH + TOX_PASS_SALT_LENGTH)) c = nonce ++ box) as ->.
  { unfold c. rewrite app_assoc. apply drop_app_length'. rewrite length_app. cbn [length TOX_ENC_SAVE_MAGIC_NUMBER]. change (Z.to_nat _) with 40%nat. lia. }
  split; [|split; [|split]].
  - unfold tox_is_data_encrypted, bytes_eqb. apply bool_decide_eq_true_2. by apply slice_app_l.
  - unfold c. rewrite slice_skip by done. apply slice_app_l. unfold zlen. change TOX_PASS_SALT_LENGTH with 32. lia.
  - apply slice_app_l. unfold zlen. change crypto_box_NONCEBYTES with 24. lia.
  - apply drop_app_length'. change (Z.to_nat crypto_box_NONCEBYTES) with 24%nat. lia.
Qed.

Lemma file_cut (c : bytes) : c = take 8 c ++ take 32 (drop 8 c) ++ take 24 (drop 40 c) ++ drop 24 (drop 40 c).
Proof using.
  rewrite (take_drop 24 (drop 40 c)). change 40%nat with (8 + 32)%nat. by rewrite <- drop_drop, !take_drop.
Qed.

Lemma derive_ok pass salt : zlen salt = TOX_PASS_SALT_LENGTH → tox_pass_key_derive_with_salt roomy (Some pass) (zlen pass) (Some salt) =
  (TOX_ERR_KEY_DERIVATION_OK, Some (mkPassKey salt (crypto_pwhash (crypto_hash_sha256 pass) salt))).
Proof using. intros Hs. cbn. by rewrite !slice_all. Qed.

Lemma length_kept n : 0 < n < 2 ^ 31 - 16 → u64 (s32 (n + 16)) = u64 (n + crypto_box_MACBYTES).
Proof using. intros Hn. rewrite s32_small by lia. done. Qed.

(** An encrypted save file gives back what was saved, to who has the passphrase.
    With memory and random numbers, encrypting any data of less than two gigabytes
    succeeds, with 80 bytes more than the data; the result is recognised as
    encrypted and decrypts, with the same passphrase, to the data.  And whatever
    decrypts under a passphrase is the file that encrypting the result with the
    salt and the nonce in the file gives. *)
Theorem encrypted_save_roundtrip rng pass plain : 0 < zlen plain < 2 ^ 31 - 16 →
  (∃ c, tox_pass_encrypt roomy (Some rng) (Some plain) (zlen plain) (Some pass) (zlen pass) true = (TOX_ERR_ENCRYPTION_OK, Some c) ∧
     zlen c = zlen plain + TOX_PASS_ENCRYPTION_EXTRA_LENGTH ∧ tox_is_data_encrypted c = true ∧
     tox_pass_decrypt roomy (Some c) (zlen c) (Some pass) (zlen pass) true = (TOX_ERR_DECRYPTION_OK, Some plain)) ∧
  (∀ c, zlen c < 2 ^ 31 → tox_pass_decrypt roomy (Some c) (zlen c) (Some pass) (zlen pass) true = (TOX_ERR_DECRYPTION_OK, Some plain) →
     ∃ salt nonce box, zlen salt = TOX_PASS_SALT_LENGTH ∧ zlen nonce = crypto_box_NONCEBYTES ∧ c = TOX_ENC_SAVE_MAGIC_NUMBER ++ salt ++ nonce ++ box ∧
       encrypt_data_symmetric true (crypto_pwhash (crypto_hash_sha256 pass) salt) nonce plain (zlen plain) = (zlen box, box)).
Proof using L.
  intros Hp. split.
  - unfold tox_pass_encrypt, tox_pass_key_derive. destruct (random_bytes rng TOX_PASS_SALT_LENGTH) as [salt r1] eqn:E1.
    apply random_bytes_ok in E1 as [Hsalt _]; [|done]. rewrite derive_ok by done. cbv beta iota. unfold tox_pass_key_encrypt.
    destruct (Z.eqb_spec (zlen plain) 0); [lia|]. destruct (random_nonce r1) as [nonce r2] eqn:E2. apply random_nonce_ok in E2 as [Hnonce _].
    cbn [sys_box roomy tpk_key tpk_salt]. set (k := crypto_pwhash _ salt).
    destruct (encrypt_data_symmetric_ok k nonce plain (zlen plain)) as (box & Eb & Hbox & _); [lia|]. rewrite Eb, length_kept by lia. rewrite Z.eqb_refl. cbn [negb].
    destruct (file_parts salt nonce box Hsalt Hnonce) as (F1 & F2 & F3 & F4). set (c := TOX_ENC_SAVE_MAGIC_NUMBER ++ salt ++ nonce ++ box) in *.
    assert (zlen c = zlen plain + 80) as Hc.
    { unfold c, zlen in *. rewrite !length_app. cbn [length TOX_ENC_SAVE_MAGIC_NUMBER]. change TOX_PASS_SALT_LENGTH with 32 in Hsalt. lia. }
    exists c. split; [done|]. split; [done|]. split; [done|]. unfold tox_pass_decrypt. change TOX_PASS_ENCRYPTION_EXTRA_LENGTH with 80.
    destruct (Z.leb_spec (zlen c) 80); [lia|]. rewrite F1. cbn [negb]. rewrite F2, derive_ok by done. cbn [snd]. unfold tox_pass_key_decrypt.
    change TOX_PASS_ENCRYPTION_EXTRA_LENGTH with 80. destruct (Z.leb_spec (zlen c) 80); [lia|]. rewrite F1. cbn [negb]. cbv zeta. rewrite F3, F4, Hc.
    replace (zlen plain + 80 - 80 + crypto_box_MACBYTES) with (zlen plain + 16) by (change crypto_box_MACBYTES with 16; lia). cbn [sys_box roomy tpk_key].
    fold k. rewrite (decrypt_encrypt k nonce plain (zlen plain) box) by (done || lia). rewrite s32_small by lia. replace (zlen plain + 80 - 80) with (zlen plain) by lia.
    rewrite Z.eqb_refl, slice_all by done. done.
  - intros c Hc. unfold tox_pass_decrypt. change TOX_PASS_ENCRYPTION_EXTRA_LENGTH with 80. destruct (Z.leb_spec (zlen c) 80) as [|Hlen]; [done|].
    destruct (tox_is_data_encrypted c) eqn:Hm; cbn [negb]; [|done].
    assert (zlen (slice TOX_ENC_SAVE_MAGIC_LENGTH TOX_PASS_SALT_LENGTH c) = TOX_PASS_SALT_LENGTH) as Hsalt.
    { apply length_slice; [done|done|]. change TOX_ENC_SAVE_MAGIC_LENGTH with 8. change TOX_PASS_SALT_LENGTH with 32. lia. }
    rewrite derive_ok by done. cbn [snd]. unfold tox_pass_key_decrypt.
    change TOX_PASS_ENCRYPTION_EXTRA_LENGTH with 80. destruct (Z.leb_spec (zlen c) 80); [lia|]. rewrite Hm. cbn [negb]. cbv zeta. cbn [sys_box roomy tpk_key].
    set (salt := slice TOX_ENC_SAVE_MAGIC_LENGTH TOX_PASS_SALT_LENGTH c). set (nonce := slice 0 crypto_box_NONCEBYTES _). set (box := drop (Z.to_nat crypto_box_NONCEBYTES) _).
    set (k := crypto_pwhash _ salt). destruct (decrypt_data_symmetric true k nonce box _) as [r p] eqn:Ed.
    destruct (negb _) eqn:Er; [done|]. intros [= ->]. apply negb_false_iff, Z.eqb_eq in Er.
    assert (zlen box = zlen c - 64) as Hbox.
    { unfold box, zlen in *. rewrite !length_drop. change (Z.to_nat crypto_box_NONCEBYTES) with 24%nat. change (Z.to_nat (TOX_ENC_SAVE_MAGIC_LENGTH + TOX_PASS_SALT_LENGTH)) with 40%nat. lia. }
    replace (zlen c - 80 + crypto_box_MACBYTES) with (zlen c - 64) in Ed by (change crypto_box_MACBYTES with 16; lia).
    assert (r ≠ -1) as Hr by (intros ->; revert Er; unfold u64; change (s32 (-1) mod 2 ^ 64) with (2 ^ 64 - 1); rewrite Z.mod_small; lia).
    destruct (decrypt_genuine k nonce box (zlen c - 64) r plain Hbox Ed Hr) as (-> & Hl & He). exists salt, nonce, box.
    split; [done|].
    split.
    { unfold nonce. apply length_slice; [done|done|]. unfold zlen in *. rewrite length_drop. change (Z.to_nat (TOX_ENC_SAVE_MAGIC_LENGTH + TOX_PASS_SALT_LENGTH)) with 40%nat.
      change crypto_box_NONCEBYTES with 24. lia. }
    split; [|rewrite Hl, Hbox; exact He]. unfold tox_is_data_encrypted, bytes_eqb in Hm. apply bool_decide_eq_true in Hm. rewrite <- Hm.
    exact (file_cut c).
Qed.
End roundtrip.

(** An empty passphrase may be passed as a null pointer when a file is encrypted;
    the file cannot be decrypted in the same way, but only with a pointer that is
    not null. *)
Theorem null_passphrase_not_accepted_back {S : Sodium} {P : SodiumPwhash} sys rng plain len c n :
  TOX_PASS_ENCRYPTION_EXTRA_LENGTH < n →
  tox_pass_encrypt sys rng (Some plain) len None 0 true = tox_pass_encrypt sys rng (Some plain) len (Some []) 0 true ∧
  tox_pass_decrypt sys (Some c) n None 0 true = (TOX_ERR_DECRYPTION_NULL, None).
Proof.
  intros Hn. split.
  - unfold tox_pass_encrypt, tox_pass_key_derive. destruct rng as [rng|]; [|done]. destruct (random_bytes rng _) as [salt r]. done.
  - unfold tox_pass_decrypt. by destruct (Z.leb_spec n TOX_PASS_ENCRYPTION_EXTRA_LENGTH); [lia|].
Qed.

(** ** A concrete instance *)

Definition toy_pwhash : SodiumPwhash := {|
  crypto_hash_sha256 d := d;
  crypto_pwhash p s := take 32 (p ++ s)
|}.

Lemma encrypted_save_roundtrip_witness :
  let S := toy_sodium in let P := toy_pwhash in
  (∃ c, tox_pass_encrypt roomy (Some sample_rng) (Some [1; 2; 3]) 3 (Some [9; 9]) 2 true = (TOX_ERR_ENCRYPTION_OK, Some c) ∧
     zlen c = 83 ∧ tox_is_data_encrypted c = true ∧ tox_pass_decrypt roomy (Some c) (zlen c) (Some [9; 9]) 2 true = (TOX_ERR_DECRYPTION_OK, Some [1; 2; 3])).
Proof.
  intros S P. destruct (@encrypted_save_roundtrip toy_sodium toy_sodium_laws toy_pwhash sample_rng [9; 9] [1; 2; 3]) as [H _]; [|exact H].
  unfold zlen. cbn. lia.
Defined.
