(* ===== verification/CallTable.v ===== *)
(** * CallTable: the table of calls of [toxav/msi.c] and [toxav/toxav.c]

    Both keep their calls in an array indexed by the number of the friend and, at
    the same time, in a doubly linked list in the order of these numbers.  The code
    is the same in both, so it is modelled once, for any kind of cell.  Memory is
    explicit: a pointer to a cell that was freed, a null pointer and an index
    outside the array are faults. *)
From S2P Require Import Prelude.

(** ** Code that may go wrong *)

Abbreviation addr := positive.

Inductive Fault := UseAfterFree | NullPointer | OutOfBounds | Aborted.

Inductive Res (A : Type) := Ok (x : A) | Bad (f : Fault).
Arguments Ok {A} x.
Arguments Bad {A} f.

Definition FST (S A : Type) : Type := S → Res (A * S).

#[export] Instance FST_ret {S} : MRet (FST S) := λ A x s, Ok (x, s).
#[export] Instance FST_bind {S} : MBind (FST S) := λ A B f m s, match m s with Ok (x, s) => f x s | Bad b => Bad b end.

Definition reads {S A} (f : S → A) : FST S A := λ s, Ok (f s, s).
Definition writes {S} (f : S → S) : FST S unit := λ s, Ok (tt, f s).
Definition fault {S A} (b : Fault) : FST S A := λ _, Bad b.

(** ** Cells and tables *)

(** What the table uses of a cell. *)
Class Cell (C : Type) := {
  c_num : C → Z;                      (** [friend_number] *)
  c_next : C → option addr;
  c_prev : C → option addr;
  set_next : option addr → C → C;
  set_prev : option addr → C → C
}.

Class CellLaws (C : Type) `{Cell C} := {
  num_set_next p c : c_num (set_next p c) = c_num c;
  num_set_prev p c : c_num (set_prev p c) = c_num c;
  next_set_next p c : c_next (set_next p c) = p;
  next_set_prev p c : c_next (set_prev p c) = c_next c;
  prev_set_next p c : c_prev (set_next p c) = c_prev c;
  prev_set_prev p c : c_prev (set_prev p c) = p;
  set_next_next p q c : set_next p (set_next q c) = set_next p c;
  set_prev_prev p q c : set_prev p (set_prev q c) = set_prev p c;
  set_next_prev p q c : set_next p (set_prev q c) = set_prev q (set_next p c);
}.

(** [calls], [calls_head] and [calls_tail], and the cells that are allocated. *)
Record Table (C : Type) := mkTable {
  t_heap : gmap addr C;
  t_calls : option (list (option addr));
  t_head : Z;
  t_tail : Z
}.
Arguments mkTable {C} t_heap t_calls t_head t_tail.
Arguments t_heap {C} t.
Arguments t_calls {C} t.
Arguments t_head {C} t.
Arguments t_tail {C} t.

#[export] Instance eta_Table {C} : Eta (Table C) := λ t, mkTable (t_heap t) (t_calls t) (t_head t) (t_tail t).

Definition empty_table {C} : Table C := mkTable ∅ None 0 0.

Section table.
Context {C : Type} `{Cell C}.

Local Abbreviation TB := (FST (Table C)).

(** [*p], and an assignment to it. *)
Definition deref (p : addr) : TB C := λ t, match t_heap t !! p with Some c => Ok (c, t) | None => Bad UseAfterFree end.
Definition store (p : addr) (f : C → C) : TB unit := c ← deref p; writes (λ t, t <| t_heap := <[p := f c]> (t_heap t) |>).
Definition free_cell (p : addr) : TB unit := deref p;; writes (λ t, t <| t_heap := delete p (t_heap t) |>).
(** With a pointer that may be null. *)
Definition deref_null (p : option addr) : TB C := match p with None => fault NullPointer | Some p => deref p end.
Definition store_null (p : option addr) (f : C → C) : TB unit := match p with None => fault NullPointer | Some p => store p f end.
Definition store_if (p : option addr) (f : C → C) : TB unit := match p with None => mret tt | Some p => store p f end.

(** [calls[i]], and an assignment to it. *)
Definition slot (i : Z) : TB (option addr) := λ t,
  match t_calls t with
  | None => Bad NullPointer
  | Some a => match a !! Z.to_nat i with Some x => Ok (x, t) | None => Bad OutOfBounds end
  end.
Definition put_call (i : Z) (x : option addr) : TB unit :=
  slot i;; writes (λ t, t <| t_calls := (λ a, aset a i x) <$> t_calls t |>).

(** [get_call] and [call_get]. *)
Definition find_call (friend_number : Z) : TB (option addr) :=
  t ← reads (λ t, t);
  match t_calls t with
  | None => mret None
  | Some _ => if t_tail t <? friend_number then mret None else slot friend_number
  end.

(** The loop that sets the slots from [i] on to null. *)
Fixpoint clear_between (rounds : nat) (i : Z) : TB unit :=
  match rounds with
  | O => mret tt
  | S rounds' => put_call i None;; clear_between rounds' (i + 1)
  end.

(** The loops that look for the neighbours of a new call in the middle; [rounds] is
    the number of slots from [i] to the tail.  They stop at the tail at the latest,
    where there is a call with a greater number. *)
Fixpoint find_prev_entry (rounds : nat) (i friend_number : Z) (found : option addr) : TB (option addr) :=
  match rounds with
  | O => mret found
  | S rounds' =>
      x ← slot i;
      match x with
      | None => find_prev_entry rounds' (i + 1) friend_number found
      | Some _ => if i <? friend_number then find_prev_entry rounds' (i + 1) friend_number x else mret found
      end
  end.

Fixpoint find_next_entry (rounds : nat) (i friend_number : Z) : TB (option addr) :=
  match rounds with
  | O => mret None
  | S rounds' =>
      x ← slot i;
      match x with
      | None => find_next_entry rounds' (i + 1) friend_number
      | Some _ => if friend_number <? i then mret x else find_next_entry rounds' (i + 1) friend_number
      end
  end.

(** The part of [new_call] and [call_new] that puts the new cell [rc] into the
    table.  [grow] tells whether [calloc] or [realloc] succeeds, [junk] is what is
    in the memory they did not write.  [guarded] is set for [call_new], which looks
    whether the neighbours in the middle are null. *)
Definition link_call (guarded grow : bool) (junk : option addr) (rc : addr) (friend_number : Z) : TB bool :=
  t ← reads (λ t, t);
  match t_calls t with
  | None =>
      if negb grow then mret false
      else
        writes (λ t, t <| t_calls := Some (replicate (Z.to_nat (u32 (friend_number + 1))) None) |>);;
        writes (λ t, t <| t_tail := friend_number |> <| t_head := friend_number |>);;
        put_call friend_number (Some rc);; mret true
  | Some a =>
      if t_tail t <? friend_number then
        if negb grow then mret false
        else
          writes (λ t, t <| t_calls := Some (resize (Z.to_nat (u32 (friend_number + 1))) junk a) |>);;
          clear_between (Z.to_nat (friend_number - (t_tail t + 1))) (t_tail t + 1);;
          last ← slot (t_tail t);
          store rc (set_prev last);;
          store_null last (set_next (Some rc));;
          writes (λ t, t <| t_tail := friend_number |>);;
          put_call friend_number (Some rc);; mret true
      else if friend_number <? t_head t then
        first ← slot (t_head t);
        store rc (set_next first);;
        store_null first (set_prev (Some rc));;
        writes (λ t, t <| t_head := friend_number |>);;
        put_call friend_number (Some rc);; mret true
      else
        prev ← find_prev_entry (Z.to_nat (t_tail t - t_head t + 1)) (t_head t) friend_number None;
        next ← find_next_entry (Z.to_nat (t_tail t - t_head t + 1)) (t_head t) friend_number;
        store rc (set_prev prev);;
        (if guarded then store_if prev (set_next (Some rc)) else store_null prev (set_next (Some rc)));;
        store rc (set_next next);;
        (if guarded then store_if next (set_prev (Some rc)) else store_null next (set_prev (Some rc)));;
        put_call friend_number (Some rc);; mret true
  end.

(** The part of [kill_call] and [call_remove] that takes a call out of the list; the
    array is freed with the last one. *)
Definition unlink_call (prev next : option addr) : TB unit :=
  match prev, next with
  | None, None => writes (λ t, t <| t_head := 0 |> <| t_tail := 0 |> <| t_calls := None |>)
  | _, _ =>
      match prev with
      | Some p => store p (set_next next)
      | None => n ← deref_null next; writes (λ t, t <| t_head := c_num n |>)
      end;;
      match next with
      | Some n => store n (set_prev prev)
      | None => p ← deref_null prev; writes (λ t, t <| t_tail := c_num p |>)
      end
  end.
End table.

(** ** The list behind a table *)

Section rep.
Context {C : Type} `{CellLaws C}.

(** The calls in their order: addresses and cells, whose links do not matter. *)
Definition Entries : Type := list (addr * C).

Definition first_addr (l : Entries) (nx : option addr) : option addr := match l with [] => nx | (p, _) :: _ => Some p end.
Definition last_addr (pv : option addr) (l : Entries) : option addr := match list.last l with None => pv | Some (p, _) => Some p end.

(** The cells of [l] are in the heap, linked in this order between [pv] and [nx]. *)
Fixpoint dseg (h : gmap addr C) (pv : option addr) (l : Entries) (nx : option addr) : Prop :=
  match l with
  | [] => True
  | (p, c) :: l' => h !! p = Some (set_prev pv (set_next (first_addr l' nx) c)) ∧ dseg h (Some p) l' nx
  end.

Fixpoint entry_of (l : Entries) (n : Z) : option (addr * C) :=
  match l with
  | [] => None
  | (p, c) :: l' => if c_num c =? n then Some (p, c) else entry_of l' n
  end.

Definition below (n : Z) (l : Entries) : Prop := Forall (λ x, c_num x.2 < n) l.
Definition above (n : Z) (l : Entries) : Prop := Forall (λ x, n < c_num x.2) l.

Fixpoint sorted (l : Entries) : Prop :=
  match l with
  | [] => True
  | (_, c) :: l' => 0 <= c_num c < UINT32_MAX ∧ above (c_num c) l' ∧ sorted l'
  end.

Record rep (t : Table C) (l : Entries) : Prop := {
  rep_seg : dseg (t_heap t) None l None;
  rep_nodup : NoDup l.*1;
  rep_dom : ∀ p, is_Some (t_heap t !! p) ↔ p ∈ l.*1;
  rep_sorted : sorted l;
  rep_array : match t_calls t with
              | None => l = [] ∧ t_head t = 0 ∧ t_tail t = 0
              | Some a => (∃ x, list.head l = Some x ∧ t_head t = c_num x.2) ∧ (∃ x, list.last l = Some x ∧ t_tail t = c_num x.2) ∧
                  ∀ i, 0 <= i <= t_tail t → a !! Z.to_nat i = Some (fst <$> entry_of l i)
              end
}.

(** *** Segments *)

Lemma last_addr_app pv l1 l2 : last_addr pv (l1 ++ l2) = last_addr (last_addr pv l1) l2.
Proof using. unfold last_addr. rewrite last_app. by destruct (list.last l2) as [[? ?]|]. Qed.

Lemma dseg_app h l1 : ∀ pv l2 nx, dseg h pv (l1 ++ l2) nx ↔ dseg h pv l1 (first_addr l2 nx) ∧ dseg h (last_addr pv l1) l2 nx.
Proof using.
  induction l1 as [|[p c] l1 IH]; intros pv l2 nx; cbn [app dseg]; [unfold last_addr; cbn; tauto|].
  rewrite IH. replace (first_addr (l1 ++ l2) nx) with (first_addr l1 (first_addr l2 nx)) by by destruct l1 as [|[? ?] ?].
  replace (last_addr pv ((p, c) :: l1)) with (last_addr (Some p) l1); [tauto|].
  unfold last_addr. rewrite last_cons. by destruct (list.last l1) as [[? ?]|].
Qed.

Lemma dseg_frame h h' l : ∀ pv nx, (∀ p, p ∈ l.*1 → h' !! p = h !! p) → dseg h pv l nx → dseg h' pv l nx.
Proof using.
  induction l as [|[p c] l IH]; intros pv nx Hf; cbn [dseg]; [done|]. intros [Hp Hl]. split.
  - rewrite Hf by (cbn; left). done.
  - apply IH; [|done]. intros q Hq. apply Hf. by right.
Qed.

Lemma dseg_insert h l p c pv nx : p ∉ l.*1 → dseg h pv l nx → dseg (<[p := c]> h) pv l nx.
Proof using. intros Hp. apply dseg_frame. intros q Hq. rewrite lookup_insert_ne; [done|]. by intros ->. Qed.

Lemma dseg_delete h l p pv nx : p ∉ l.*1 → dseg h pv l nx → dseg (delete p h) pv l nx.
Proof using. intros Hp. apply dseg_frame. intros q Hq. rewrite lookup_delete_ne; [done|]. by intros ->. Qed.

(** The link at the end of a segment, and the one at its start. *)
Lemma dseg_set_next h l p c pv nx nx' : NoDup (l ++ [(p, c)]).*1 → dseg h pv (l ++ [(p, c)]) nx →
  ∃ x, h !! p = Some x ∧ c_num x = c_num c ∧ dseg (<[p := set_next nx' x]> h) pv (l ++ [(p, c)]) nx'.
Proof using All.
  rewrite fmap_app. intros (_ & Hn & _)%list.NoDup_app. rewrite !dseg_app. cbn [dseg first_addr]. intros (Hl & Hp & _).
  eexists. split; [exact Hp|]. split; [by rewrite num_set_prev, num_set_next|]. rewrite dseg_app. cbn [dseg first_addr]. split; [|split; [|done]].
  - apply dseg_insert; [|done]. intros Hi. apply (Hn p Hi). cbn. left.
  - rewrite lookup_insert_eq. by rewrite set_next_prev, set_next_next.
Qed.

Lemma dseg_set_prev h l p c pv pv' nx : NoDup ((p, c) :: l).*1 → dseg h pv ((p, c) :: l) nx →
  ∃ x, h !! p = Some x ∧ c_num x = c_num c ∧ dseg (<[p := set_prev pv' x]> h) pv' ((p, c) :: l) nx.
Proof using All.
  cbn [dseg fmap list_fmap fst]. intros [Hn _]%list.NoDup_cons [Hp Hl]. eexists. split; [exact Hp|].
  split; [by rewrite num_set_prev, num_set_next|]. split; [|by apply dseg_insert]. by rewrite lookup_insert_eq, set_prev_prev.
Qed.

(** *** Entries *)

Lemma entry_of_app l1 l2 n : entry_of (l1 ++ l2) n = match entry_of l1 n with Some x => Some x | None => entry_of l2 n end.
Proof using. induction l1 as [|[p c] l1 IH]; cbn [app entry_of]; [done|]. by destruct (c_num c =? n). Qed.

Lemma entry_of_below n l k : below n l → n <= k → entry_of l k = None.
Proof using. induction 1 as [|[p c] l Hc Hl IH]; intros Hk; cbn [entry_of]; [done|]. cbn in Hc. destruct (Z.eqb_spec (c_num c) k); [lia|]. by apply IH. Qed.

Lemma entry_of_above n l k : above n l → k <= n → entry_of l k = None.
Proof using. induction 1 as [|[p c] l Hc Hl IH]; intros Hk; cbn [entry_of]; [done|]. cbn in Hc. destruct (Z.eqb_spec (c_num c) k); [lia|]. by apply IH. Qed.

Lemma entry_of_some l n p c : entry_of l n = Some (p, c) → ∃ l1 l2, l = l1 ++ (p, c) :: l2 ∧ c_num c = n.
Proof using.
  induction l as [|[q d] l IH]; cbn [entry_of]; [done|]. destruct (Z.eqb_spec (c_num d) n) as [E|]; intros Hl.
  - simplify_eq. by exists [], l.
  - destruct (IH Hl) as (l1 & l2 & -> & E). by exists ((q, d) :: l1), l2.
Qed.

Lemma sorted_app l1 l2 : sorted (l1 ++ l2) ↔ sorted l1 ∧ sorted l2 ∧ (∀ x, x ∈ l1 → above (c_num x.2) l2).
Proof using.
  induction l1 as [|[p c] l1 IH]; cbn [app sorted].
  - split; [|tauto]. intros Hs. split; [done|]. split; [done|]. intros x Hx. by apply elem_of_nil in Hx.
  - rewrite IH. unfold above at 1 2. rewrite Forall_app. split.
    + intros (Hc & [H1 H2] & H3 & H4 & H5). do 2 (split; [done|]). intros x [->|Hx]%elem_of_cons; [done|]. by apply H5.
    + intros ((Hc & H1 & H3) & H4 & H5). split; [done|]. split.
      * split; [done|]. apply (H5 (p, c)). left.
      * do 2 (split; [done|]). intros x Hx. apply H5. by right.
Qed.

Lemma sorted_mid l1 p c l2 : sorted (l1 ++ (p, c) :: l2) ↔
  sorted l1 ∧ sorted l2 ∧ below (c_num c) l1 ∧ above (c_num c) l2 ∧ 0 <= c_num c < UINT32_MAX.
Proof using.
  rewrite sorted_app. cbn [sorted]. unfold below, above. split.
  - intros (H1 & (Hc & H2 & H3) & H4). do 2 (split; [done|]). split; [|done].
    apply list.Forall_forall. intros x Hx. specialize (H4 x Hx). by apply list.Forall_cons in H4 as [? _].
  - intros (H1 & H2 & H3 & H4 & Hc). split; [done|]. split; [done|]. intros x Hx. rewrite list.Forall_forall in H3. specialize (H3 x Hx).
    apply list.Forall_cons. split; [done|]. eapply list.Forall_impl; [exact H4|]. cbn. intros y Hy. cbn in H3. lia.
Qed.

Lemma entry_of_mid l1 p c l2 k : sorted (l1 ++ (p, c) :: l2) →
  entry_of (l1 ++ (p, c) :: l2) k = if k =? c_num c then Some (p, c) else entry_of (l1 ++ l2) k.
Proof using.
  intros (_ & _ & Hb & _)%sorted_mid. rewrite !entry_of_app. cbn [entry_of]. rewrite (Z.eqb_sym k).
  destruct (Z.eqb_spec (c_num c) k) as [<-|]; [|done]. by rewrite (entry_of_below (c_num c)).
Qed.

(** The place of a number that is not in the list. *)
Lemma split_at n l : sorted l → entry_of l n = None → ∃ l1 l2, l = l1 ++ l2 ∧ below n l1 ∧ above n l2.
Proof using.
  induction l as [|[p c] l IH]; cbn [sorted entry_of]; [intros _ _; exists [], []; repeat constructor|]. intros (Hc & Ha & Hs).
  destruct (Z.eqb_spec (c_num c) n) as [|Hn]; [done|]. intros He. destruct (Z.lt_ge_cases (c_num c) n) as [Hlt|Hge].
  - destruct (IH Hs He) as (l1 & l2 & -> & H1 & H2). exists ((p, c) :: l1), l2. split; [done|]. split; [|done]. by apply list.Forall_cons.
  - exists [], ((p, c) :: l). split; [done|]. split; [by apply Forall_nil|]. apply list.Forall_cons. split; [cbn; lia|].
    eapply list.Forall_impl; [exact Ha|]. cbn. lia.
Qed.
End rep.

(** ** What the operations do to the list *)

Lemma run_fst {S A B} (m : FST S A) (f : A → FST S B) s x s' : m s = Ok (x, s') → (m ≫= f) s = f x s'.
Proof. unfold mbind, FST_bind. by intros ->. Qed.

Lemma run_writes {S B} (g : S → S) (f : unit → FST S B) s : (writes g ≫= f) s = f tt (g s).
Proof. done. Qed.
Lemma run_reads {S A B} (g : S → A) (f : A → FST S B) s : (reads g ≫= f) s = f (g s) s.
Proof. done. Qed.

(** Runs the first action of the goal with an equation for it. *)
Ltac frun E := rewrite (run_fst _ _ _ _ _ E); cbv beta.

Section operations.
Context {C : Type} `{CellLaws C}.
Implicit Types (t : Table C) (l : Entries (C := C)).

Lemma deref_ok t p x : t_heap t !! p = Some x → deref p t = Ok (x, t).
Proof using. unfold deref. by intros ->. Qed.
Lemma store_ok t p f x : t_heap t !! p = Some x → store p f t = Ok (tt, t <| t_heap := <[p := f x]> (t_heap t) |>).
Proof using. intros Hp. unfold store. by frun (deref_ok t p x Hp). Qed.
Lemma slot_ok t a i x : t_calls t = Some a → a !! Z.to_nat i = Some x → slot i t = Ok (x, t).
Proof using. unfold slot. by intros -> ->. Qed.
Lemma put_call_ok t a i x : t_calls t = Some a → 0 <= i < zlen a → put_call i x t = Ok (tt, t <| t_calls := Some (aset a i x) |>).
Proof using.
  intros Ha Hi. unfold put_call. destruct (lookup_lt_is_Some_2 a (Z.to_nat i)) as [y Hy]; [unfold zlen in Hi; lia|].
  frun (slot_ok t a i y Ha Hy). unfold writes. cbn. by rewrite Ha.
Qed.

Lemma clear_between_ok rounds : ∀ t a i, t_calls t = Some a → 0 <= i → i + Z.of_nat rounds <= zlen a →
  ∃ a', clear_between rounds i t = Ok (tt, t <| t_calls := Some a' |>) ∧ length a' = length a ∧
    ∀ j, 0 <= j → a' !! Z.to_nat j = if (i <=? j) && (j <? i + Z.of_nat rounds) then Some None else a !! Z.to_nat j.
Proof using.
  induction rounds as [|r IH]; intros t a i Ha Hi Hr; cbn [clear_between].
  { exists a. split; [destruct t; cbn in *; by subst|]. split; [done|]. intros j Hj. cases; [lia|done]. }
  frun (put_call_ok t a i None Ha ltac:(lia)). destruct (IH (t <| t_calls := Some (aset a i None) |>) (aset a i None) (i + 1)) as (a' & E & Hl & Hj);
    [done|lia|rewrite zlen_aset; lia|]. exists a'. split; [exact E|]. split; [by rewrite Hl, length_aset|]. intros j Hj0. rewrite Hj by done.
  unfold aset. destruct (decide (j = i)) as [->|Hne].
  - rewrite list_lookup_insert_eq by (unfold zlen in Hr; lia). cases; try lia; done.
  - rewrite list_lookup_insert_ne by lia. cases; try lia; done.
Qed.

Lemma sorted_last l x : sorted l → list.last l = Some x → below (c_num x.2 + 1) l.
Proof using.
  intros Hs Hl. apply last_Some in Hl as [l' ->]. apply sorted_app in Hs as (_ & _ & Hs). apply Forall_app. split.
  - apply list.Forall_forall. intros y Hy. specialize (Hs y Hy). apply list.Forall_cons in Hs as [Hs _]. lia.
  - apply list.Forall_cons. split; [lia|done].
Qed.
Lemma sorted_head l x : sorted l → list.head l = Some x → above (c_num x.2 - 1) l.
Proof using.
  destruct l as [|[p c] l]; [done|]. cbn [sorted list.head]. intros (Hc & Ha & _) [= <-]. apply list.Forall_cons. split; [cbn; lia|].
  eapply list.Forall_impl; [exact Ha|]. cbn. lia.
Qed.

Lemma find_call_rep t l n : rep t l → 0 <= n → find_call n t = Ok (fst <$> entry_of l n, t).
Proof using.
  intros [_ _ _ Hs Ha] Hn. unfold find_call. rewrite run_reads. destruct (t_calls t) as [a|] eqn:Ec.
  - destruct Ha as (_ & (x & Hx & Ht) & Ha). destruct (Z.ltb_spec (t_tail t) n).
    + rewrite (entry_of_below (t_tail t + 1)); [done| |lia]. rewrite Ht. by apply sorted_last.
    + eapply slot_ok; [exact Ec|]. apply Ha. lia.
  - destruct Ha as [-> _]. done.
Qed.

Lemma rep_cell t l1 p c l2 : rep t (l1 ++ (p, c) :: l2) → t_heap t !! p = Some (set_prev (last_addr None l1) (set_next (first_addr l2 None) c)).
Proof using. intros [Hs _ _ _ _]. apply dseg_app in Hs as [_ [Hs _]]. exact Hs. Qed.

Lemma deref_rep t l1 p c l2 : rep t (l1 ++ (p, c) :: l2) → deref p t = Ok (set_prev (last_addr None l1) (set_next (first_addr l2 None) c), t).
Proof using. intros Hr. eapply deref_ok, rep_cell, Hr. Qed.

(** An assignment to a field that is not a link. *)
Definition link_free (f : C → C) : Prop := ∀ pv nx c, f (set_prev pv (set_next nx c)) = set_prev pv (set_next nx (f c)) ∧ c_num (f c) = c_num c.

Lemma below_update k l1 p c c' l2 : c_num c' = c_num c → below k (l1 ++ (p, c) :: l2) → below k (l1 ++ (p, c') :: l2).
Proof using. unfold below. rewrite !Forall_app, !list.Forall_cons. cbn. by intros ->. Qed.

Lemma entry_of_update l1 p c c' l2 k : sorted (l1 ++ (p, c) :: l2) → c_num c' = c_num c →
  entry_of (l1 ++ (p, c') :: l2) k = if k =? c_num c then Some (p, c') else entry_of (l1 ++ (p, c) :: l2) k.
Proof using.
  intros Hs Hc. pose proof Hs as (_ & _ & Hb & _)%sorted_mid. rewrite (entry_of_mid _ _ _ _ _ Hs), !entry_of_app. cbn [entry_of].
  rewrite Hc, (Z.eqb_sym k). destruct (Z.eqb_spec (c_num c) k) as [<-|]; [|done]. by rewrite (entry_of_below (c_num c)).
Qed.

Lemma store_rep t l1 p c l2 f : rep t (l1 ++ (p, c) :: l2) → link_free f →
  ∃ t', store p f t = Ok (tt, t') ∧ rep t' (l1 ++ (p, f c) :: l2) ∧ t_calls t' = t_calls t.
Proof using.
  intros Hr Hf. pose proof (rep_cell _ _ _ _ _ Hr) as Hp. destruct Hr as [Hs Hn Hd Ho Ha]. destruct (Hf None None c) as [_ Hnum].
  eexists. split; [apply store_ok, Hp|]. split; [|done]. assert ((l1 ++ (p, f c) :: l2).*1 = (l1 ++ (p, c) :: l2).*1) as Eaddr by by rewrite !fmap_app.
  split; cbn.
  - apply dseg_app in Hs as [H1 [_ H2]]. rewrite fmap_app in Hn. apply list.NoDup_app in Hn as (_ & Hn1 & [Hn2 _]%list.NoDup_cons).
    apply dseg_app. cbn [dseg first_addr]. split; [|split].
    + apply dseg_insert; [|exact H1]. intros Hi. apply (Hn1 p Hi). cbn. left.
    + rewrite lookup_insert_eq. f_equal. by destruct (Hf (last_addr None l1) (first_addr l2 None) c) as [-> _].
    + apply dseg_insert; [exact Hn2|exact H2].
  - by rewrite Eaddr.
  - intros q. rewrite Eaddr, <- Hd. destruct (decide (q = p)) as [->|]; [|by rewrite lookup_insert_ne by done]. rewrite lookup_insert_eq, Hp. done.
  - apply sorted_mid. rewrite Hnum. by apply sorted_mid in Ho.
  - destruct (t_calls t) as [a|]; [|by destruct Ha as [Ha _]; destruct l1]. destruct Ha as ((x & Hx & Hh) & (y & Hy & Ht) & Ha). split; [|split].
    + destruct l1 as [|z l1]; cbn in Hx |- *; simplify_eq; eexists; (split; [done|]); cbn; by rewrite ?Hnum.
    + rewrite last_app in Hy |- *. rewrite last_cons in Hy |- *. destruct (list.last l2) as [z|]; simplify_eq; eexists; (split; [done|]); cbn; by rewrite ?Hnum.
    + intros i Hi. rewrite Ha, (entry_of_update l1 p c (f c)) by done. rewrite (entry_of_mid l1 p c) by done. by destruct (i =? c_num c).
Qed.
End operations.

(** ** New calls and calls that end *)

Section linking.
Context {C : Type} `{CellLaws C}.
Implicit Types (t : Table C) (l : Entries (C := C)).

(** What the slot of a number not beyond [n] holds when the calls before it are
    those of [k1]. *)
Lemma entry_step n i (k1 k2 l2 : Entries (C := C)) : sorted (k1 ++ k2) → below i k1 → above (i - 1) k2 → below n (k1 ++ k2) → above n l2 → i <= n →
  (entry_of ((k1 ++ k2) ++ l2) i = None ∧ below (i + 1) k1 ∧ above i k2) ∨
  (∃ p c k, k2 = (p, c) :: k ∧ i < n ∧ entry_of ((k1 ++ k2) ++ l2) i = Some (p, c) ∧ below (i + 1) (k1 ++ [(p, c)]) ∧ above i k).
Proof using.
  intros Hs Hk1 Hk2 Hb Ha Hi. rewrite !entry_of_app, (entry_of_below i k1) by (done || lia).
  assert (below (i + 1) k1) as Hk1' by (eapply list.Forall_impl; [exact Hk1|cbn; lia]).
  destruct k2 as [|[p c] k]; [left; cbn [entry_of]; rewrite (entry_of_above n) by done; split; [done|]; split; [done|]; by apply Forall_nil|].
  apply list.Forall_cons in Hk2 as [Hc Hk]. cbn in Hc. apply sorted_mid in Hs as (_ & _ & _ & Hck & _).
  apply Forall_app in Hb as [_ [Hcn _]%list.Forall_cons]. cbn in Hcn. cbn [entry_of]. destruct (Z.eqb_spec (c_num c) i) as [Ei|Hne].
  - right. exists p, c, k. split; [done|]. split; [lia|]. split; [done|]. split; [|by rewrite <- Ei]. apply Forall_app. split; [done|].
    apply list.Forall_cons. split; [cbn; lia|done].
  - left. assert (above i k) as Hik by (eapply list.Forall_impl; [exact Hck|cbn; lia]). rewrite (entry_of_above i) by (done || lia).
    rewrite (entry_of_above n) by (done || lia). split; [done|]. split; [done|]. apply list.Forall_cons. split; [cbn; lia|done].
Qed.

(** The loops over the array. *)
Lemma find_prev_entry_ok n t a l1 l2 : t_calls t = Some a →
  (∀ j, 0 <= j <= t_tail t → a !! Z.to_nat j = Some (fst <$> entry_of (l1 ++ l2) j)) →
  sorted l1 → below n l1 → above n l2 → n <= t_tail t → ∀ rounds i found, 0 <= i → i + Z.of_nat rounds = t_tail t + 1 →
  (i <= n → ∃ k1 k2, l1 = k1 ++ k2 ∧ below i k1 ∧ above (i - 1) k2 ∧ found = last_addr None k1) →
  (n < i → found = last_addr None l1) →
  find_prev_entry rounds i n found t = Ok (last_addr None l1, t).
Proof using.
  intros Hc Ha Hs Hb Hab Hn. induction rounds as [|r IH]; intros i found Hi Hr Hinv1 Hinv2; cbn [find_prev_entry].
  { rewrite Hinv2 by lia. done. }
  frun (slot_ok t a i _ Hc (Ha i ltac:(lia))). destruct (Z.lt_ge_cases n i) as [Hlt|Hge].
  { rewrite (Hinv2 Hlt). destruct (entry_of (l1 ++ l2) i) as [x|]; cbn [fmap option_fmap option_map].
    - destruct (Z.ltb_spec i n); [lia|done].
    - apply IH; try done; lia. }
  destruct (Hinv1 Hge) as (k1 & k2 & E & Hk1 & Hk2 & ->). destruct (entry_step n i k1 k2 l2) as [(Hx & Hk1' & Hk2')|(p & c & k & E2 & Hin & Hx & Hk1' & Hk2')];
    try done; try by rewrite <- E.
  - rewrite E, Hx. cbn [fmap option_fmap option_map]. rewrite <- E. apply IH; [lia|lia| |].
    + intros _. exists k1, k2. split; [done|]. split; [done|]. split; [|done]. by replace (i + 1 - 1) with i by lia.
    + intros Hlt. destruct k2 as [|[p c] k2]; [by rewrite E, app_nil_r|]. rewrite E in Hb. apply Forall_app in Hb as [_ [Hb _]%list.Forall_cons].
      apply list.Forall_cons in Hk2' as [Hk2' _]. cbn in Hb, Hk2'. lia.
  - rewrite E, Hx. cbn [fmap option_fmap option_map fst]. destruct (Z.ltb_spec i n); [|lia]. rewrite <- E. apply IH; [lia|lia| |lia].
    intros _. exists (k1 ++ [(p, c)]), k. split; [by rewrite E, E2, <- app_assoc|]. split; [done|]. split; [by replace (i + 1 - 1) with i by lia|].
    by rewrite last_addr_app.
Qed.

Lemma find_next_entry_ok n t a l1 p c l2 : t_calls t = Some a →
  (∀ j, 0 <= j <= t_tail t → a !! Z.to_nat j = Some (fst <$> entry_of (l1 ++ (p, c) :: l2) j)) →
  sorted (l1 ++ (p, c) :: l2) → below n l1 → n < c_num c <= t_tail t → ∀ rounds i, 0 <= i → i + Z.of_nat rounds = t_tail t + 1 → i <= c_num c →
  find_next_entry rounds i n t = Ok (Some p, t).
Proof using.
  intros Hc Ha Hs Hb Hn. induction rounds as [|r IH]; intros i Hi Hr Hic; cbn [find_next_entry]; [lia|].
  frun (slot_ok t a i _ Hc (Ha i ltac:(lia))). rewrite entry_of_mid by done. destruct (Z.eqb_spec i (c_num c)) as [Ei|Hne].
  { cbn [fmap option_fmap option_map fst]. destruct (Z.ltb_spec n i); [done|lia]. }
  destruct (entry_of (l1 ++ l2) i) as [[q d]|] eqn:E; cbn [fmap option_fmap option_map fst]; [|apply IH; lia].
  assert (i < n) as Hin.
  { apply sorted_mid in Hs as (_ & _ & _ & Hab & _). destruct (Z.lt_ge_cases i n); [done|].
    rewrite entry_of_app, (entry_of_below n), (entry_of_above (c_num c)) in E by (done || lia). done. }
  destruct (Z.ltb_spec n i); [lia|]. apply IH; lia.
Qed.

(** A new cell between two parts of the list. *)
Lemma dseg_join h l1 p c l2 : dseg h None l1 (Some p) → h !! p = Some (set_prev (last_addr None l1) (set_next (first_addr l2 None) c)) →
  dseg h (Some p) l2 None → dseg h None (l1 ++ (p, c) :: l2) None.
Proof using. intros H1 H2 H3. apply dseg_app. by cbn [dseg first_addr]. Qed.

Lemma rep_link t l1 l2 n rc c t' a' : rep t (l1 ++ l2) → below n l1 → above n l2 → c_num c = n → 0 <= n < UINT32_MAX → rc ∉ (l1 ++ l2).*1 →
  dseg (t_heap t') None (l1 ++ (rc, c) :: l2) None → (∀ p, is_Some (t_heap t' !! p) ↔ p = rc ∨ is_Some (t_heap t !! p)) →
  t_calls t' = Some a' → t_head t' = from_option (λ x, c_num x.2) n (list.head l1) → t_tail t' = from_option (λ x, c_num x.2) n (list.last l2) →
  (∀ j, 0 <= j <= t_tail t' → a' !! Z.to_nat j = Some (if j =? n then Some rc else fst <$> entry_of (l1 ++ l2) j)) →
  rep t' (l1 ++ (rc, c) :: l2).
Proof using.
  intros [_ Hn Hd Ho _] Hb Hab Hc Hr Hrc Hseg Hdom Ha Hh Ht Harr.
  assert (sorted (l1 ++ (rc, c) :: l2)) as Hs by (apply sorted_app in Ho as (H1 & H2 & _); apply sorted_mid; by rewrite Hc).
  split; [done| | |done|].
  - rewrite fmap_app in Hn, Hrc |- *. cbn [fmap list_fmap fst]. rewrite <- Permutation_middle. by constructor.
  - intros p. rewrite Hdom, Hd, !fmap_app. cbn [fmap list_fmap fst]. rewrite !list.elem_of_app, list.elem_of_cons. tauto.
  - rewrite Ha. split; [|split].
    + rewrite Hh. destruct l1 as [|x l1]; eexists; (split; [done|]); [by rewrite <- Hc|done].
    + rewrite Ht, last_app, last_cons. destruct (list.last l2) as [x|]; eexists; (split; [done|]); [done|by rewrite <- Hc].
    + intros i Hi. rewrite Harr, entry_of_mid, Hc by done. by destruct (i =? n).
Qed.

(** The heap in which a call was put between its neighbours, in the order of the
    code: the new cell, the one before it, the new one again, the one after it. *)
Definition link_last (l1 : Entries (C := C)) (rc : addr) (h : gmap addr C) : gmap addr C :=
  match list.last l1 with Some (q, _) => alter (set_next (Some rc)) q h | None => h end.
Definition link_first (l2 : Entries (C := C)) (rc : addr) (h : gmap addr C) : gmap addr C :=
  match l2 with (q, _) :: _ => alter (set_prev (Some rc)) q h | [] => h end.

Lemma alter_is_insert (h : gmap addr C) f q x : h !! q = Some x → alter f q h = <[q := f x]> h.
Proof using.
  intros Hx. apply map_eq. intros p. destruct (decide (p = q)) as [->|]; [rewrite lookup_alter_eq, lookup_insert_eq, Hx; done|].
  by rewrite lookup_alter_ne, lookup_insert_ne by done.
Qed.

Lemma alter_apart (h : gmap addr C) f g p q : p ≠ q → alter f p (alter g q h) = alter g q (alter f p h).
Proof using.
  intros Hpq. apply map_eq. intros r. destruct (decide (r = p)) as [->|Hp].
  - by rewrite lookup_alter_eq, !lookup_alter_ne, lookup_alter_eq by done.
  - rewrite lookup_alter_ne by done. destruct (decide (r = q)) as [->|Hq]; [by rewrite !lookup_alter_eq, lookup_alter_ne by done|].
    by rewrite !lookup_alter_ne by done.
Qed.

Lemma link_heap h l1 rc c l2 : NoDup (l1 ++ l2).*1 → rc ∉ (l1 ++ l2).*1 → dseg h None (l1 ++ l2) None → set_prev None (set_next None c) = c →
  dseg (link_first l2 rc (link_last l1 rc (<[rc := set_prev (last_addr None l1) (set_next (first_addr l2 None) c)]> h))) None (l1 ++ (rc, c) :: l2) None.
Proof using All.
  intros Hn Hrc [H1 H2]%dseg_app Hc. rewrite fmap_app in Hn, Hrc. apply list.NoDup_app in Hn as (Hn1 & Hn12 & Hn2).
  rewrite list.elem_of_app in Hrc. set (h0 := <[rc := _]> h).
  assert (dseg h0 None l1 (first_addr l2 None)) as H1' by (apply dseg_insert; tauto).
  assert (dseg h0 (last_addr None l1) l2 None) as H2' by (apply dseg_insert; tauto).
  assert (h0 !! rc = Some (set_prev (last_addr None l1) (set_next (first_addr l2 None) c))) as H3 by apply lookup_insert_eq.
  assert (∃ h1, h1 = link_last l1 rc h0 ∧ dseg h1 None l1 (Some rc) ∧ dseg h1 (last_addr None l1) l2 None ∧ h1 !! rc = h0 !! rc) as (h1 & <- & G1 & G2 & G3).
  { eexists. split; [done|]. unfold link_last. destruct (list.last l1) as [[q d]|] eqn:El.
    - apply last_Some in El as [k ->]. destruct (dseg_set_next h0 k q d None _ (Some rc) Hn1 H1') as (x & Hx & _ & Hd).
      rewrite (alter_is_insert _ _ _ _ Hx). assert (q ∈ (k ++ [(q, d)]).*1) as Hq by (rewrite fmap_app, list.elem_of_app; right; cbn; left).
      split; [done|]. split; [apply dseg_insert; [by apply Hn12|done]|]. rewrite lookup_insert_ne; [done|]. intros ->. tauto.
    - apply last_None in El as ->. by split. }
  rewrite H3 in G3. unfold link_first. destruct l2 as [|[q d] k]; [by apply dseg_join|].
  destruct (dseg_set_prev h1 k q d _ (Some rc) None Hn2 G2) as (x & Hx & _ & Hd). rewrite (alter_is_insert _ _ _ _ Hx).
  assert (q ∈ ((q, d) :: k).*1) as Hq by (cbn; left). apply dseg_join; [|rewrite lookup_insert_ne; [done|]; intros ->; tauto|done].
  apply dseg_insert; [|done]. intros Hi. by apply (Hn12 q Hi).
Qed.

Lemma alter_dom (h : gmap addr C) f q p : is_Some (alter f q h !! p) ↔ is_Some (h !! p).
Proof using. destruct (decide (p = q)) as [->|]; [rewrite lookup_alter_eq, fmap_is_Some; done|]. by rewrite lookup_alter_ne. Qed.

Lemma store_alter t p f : is_Some (t_heap t !! p) → store p f t = Ok (tt, t <| t_heap := alter f p (t_heap t) |>).
Proof using. intros [x Hx]. rewrite (store_ok _ _ _ _ Hx). by rewrite (alter_is_insert _ _ _ _ Hx). Qed.

Lemma link_dom h l1 rc c l2 p : is_Some (link_first l2 rc (link_last l1 rc (<[rc := c]> h)) !! p) ↔ p = rc ∨ is_Some (h !! p).
Proof using.
  assert (is_Some (link_last l1 rc (<[rc := c]> h) !! p) ↔ p = rc ∨ is_Some (h !! p)) as E.
  { unfold link_last. destruct (list.last l1) as [[q d]|]; rewrite ?alter_dom.
    all: destruct (decide (p = rc)) as [->|]; [rewrite lookup_insert_eq; naive_solver|rewrite lookup_insert_ne by done; naive_solver]. }
  unfold link_first. destruct l2 as [|[q d] k]; rewrite ?alter_dom; exact E.
Qed.

Lemma entry_of_last l p c : sorted l → list.last l = Some (p, c) → entry_of l (c_num c) = Some (p, c).
Proof using. intros Hs [k ->]%last_Some. rewrite entry_of_mid by done. by rewrite Z.eqb_refl. Qed.
Lemma entry_of_head l p c : list.head l = Some (p, c) → entry_of l (c_num c) = Some (p, c).
Proof using. destruct l as [|[q d] l]; [done|]. cbn. intros [= -> ->]. by rewrite Z.eqb_refl. Qed.

Section finish.
Context t l1 l2 n rc c (Hrep : rep t (l1 ++ l2)) (Hb : below n l1) (Hab : above n l2) (Hc : c_num c = n) (Hr : 0 <= n < UINT32_MAX)
  (Hbare : set_prev None (set_next None c) = c) (Hrc : rc ∉ (l1 ++ l2).*1).

(** The last assignment. *)
Lemma link_finish t2 a :
  t_heap t2 = link_first l2 rc (link_last l1 rc (<[rc := set_prev (last_addr None l1) (set_next (first_addr l2 None) c)]> (t_heap t))) →
  t_calls t2 = Some a → t_head t2 = from_option (λ x, c_num x.2) n (list.head l1) → t_tail t2 = from_option (λ x, c_num x.2) n (list.last l2) → n < zlen a →
  (∀ j, 0 <= j <= t_tail t2 → j ≠ n → a !! Z.to_nat j = Some (fst <$> entry_of (l1 ++ l2) j)) →
  ∃ t', (put_call n (Some rc);; mret true) t2 = Ok (true, t') ∧ rep t' (l1 ++ (rc, c) :: l2).
Proof using All.
  intros Hh Ha Hhd Htl Hlen Harr. eexists. split; [by frun (put_call_ok t2 a n (Some rc) Ha ltac:(lia))|].
  eapply (rep_link t l1 l2 n rc c _ (aset a n (Some rc))); try done.
  - cbn. rewrite Hh. destruct Hrep as [Hseg Hn _ _ _]. by apply link_heap.
  - intros p. cbn. rewrite Hh. apply link_dom.
  - intros j Hj. cbn in Hj. unfold aset. destruct (Z.eqb_spec j n) as [->|Hne].
    + apply list_lookup_insert_eq. unfold zlen in Hlen. lia.
    + rewrite list_lookup_insert_ne by lia. by apply Harr.
Qed.

(** A cell of the list is allocated, and is not the new one. *)
Lemma cell_alive x : x ∈ l1 ++ l2 → is_Some (t_heap t !! x.1) ∧ x.1 ≠ rc.
Proof using Hrep Hrc.
  intros Hx. assert (x.1 ∈ (l1 ++ l2).*1) as Hi by (by apply list_elem_of_fmap_2). split; [by apply (rep_dom _ _ Hrep)|]. intros E. by rewrite E in Hi.
Qed.

(** The table with the new cell that is not linked yet. *)
Let t1 : Table C := t <| t_heap := <[rc := c]> (t_heap t) |>.

Lemma link_first_call guarded junk : t_calls t = None → ∃ t', link_call guarded true junk rc n t1 = Ok (true, t') ∧ rep t' (l1 ++ (rc, c) :: l2).
Proof using All.
  intros Ec. pose proof (rep_array _ _ Hrep) as Ha. rewrite Ec in Ha. destruct Ha as (Hnil & _ & _).
  unfold link_call. rewrite run_reads. change (t_calls t1) with (t_calls t). rewrite Ec. cbn [negb]. rewrite !run_writes.
  pose proof Hr as Hr'. unfold UINT32_MAX in Hr'.
  apply (link_finish _ (replicate (Z.to_nat (u32 (n + 1))) None)); cbn; try done; apply app_eq_nil in Hnil as [E1 E2]; rewrite ?E1, ?E2; try done.
  - unfold link_last, last_addr. cbn. by rewrite Hbare.
  - unfold zlen. rewrite length_replicate, u32_small by lia. lia.
  - intros j Hj Hne. apply lookup_replicate. split; [done|]. rewrite u32_small by lia. lia.
Qed.

(** *** The call with the greatest number *)
Lemma link_last_call guarded junk a : t_calls t = Some a → t_tail t < n →
  ∃ t', link_call guarded true junk rc n t1 = Ok (true, t') ∧ rep t' (l1 ++ (rc, c) :: l2).
Proof using All.
  intros Ec Hlt. pose proof (rep_array _ _ Hrep) as Ha. rewrite Ec in Ha. destruct Ha as ((x & Hx & Hhd) & (y & Hy & Htl) & Ha).
  pose proof (sorted_last _ _ (rep_sorted _ _ Hrep) Hy) as Hbl. assert (l2 = []) as E2.
  { destruct l2 as [|z k]; [done|]. apply Forall_app in Hbl as [_ [Hz _]%list.Forall_cons]. apply list.Forall_cons in Hab as [Hab _]. lia. }
  destruct y as [q d]. cbn in Htl.
  assert (list.last l1 = Some (q, d)) as Hy1 by (by rewrite E2, app_nil_r in Hy). destruct (cell_alive (q, d) (list.last_Some_elem_of _ _ Hy)) as [Hq Hqrc].
  assert (0 <= t_tail t) as Htl0.
  { rewrite Htl. apply last_Some in Hy as [k E]. pose proof (rep_sorted _ _ Hrep) as Hs. rewrite E in Hs. by apply sorted_mid in Hs as (_ & _ & _ & _ & Hs & _). }
  pose proof Hr as Hr'. unfold UINT32_MAX in Hr'. unfold link_call. rewrite run_reads. change (t_calls t1) with (t_calls t). rewrite Ec. change (t_tail t1) with (t_tail t).
  destruct (Z.ltb_spec (t_tail t) n); [|lia]. cbn [negb]. rewrite run_writes. rewrite u32_small by lia.
  set (a0 := resize (Z.to_nat (n + 1)) junk a). assert (length a0 = Z.to_nat (n + 1)) as Hl0 by apply length_resize.
  destruct (clear_between_ok (Z.to_nat (n - (t_tail t + 1))) (t1 <| t_calls := Some a0 |>) a0 (t_tail t + 1)) as (a1 & E1 & Hl1 & Ha1);
    [done|lia|unfold zlen; lia|]. frun E1.
  assert (∀ j, 0 <= j <= t_tail t → a1 !! Z.to_nat j = a !! Z.to_nat j) as Hlow.
  { intros j Hj. rewrite Ha1 by lia. destruct (Z.leb_spec (t_tail t + 1) j); [lia|]. cbn [andb]. unfold a0. pose proof (Ha j Hj) as Hlk. apply lookup_lt_Some in Hlk.
    apply lookup_resize; lia. }
  erewrite run_fst; [|eapply (slot_ok _ a1 (t_tail t) (Some q)); [done|]; rewrite Hlow, Ha, Htl by lia; by rewrite (entry_of_last _ _ _ (rep_sorted _ _ Hrep) Hy)].
  cbv beta. erewrite run_fst; [|apply store_alter; cbn; by rewrite lookup_insert_eq]. cbv beta. cbn [store_null].
  erewrite run_fst; [|apply store_alter; cbn; by rewrite alter_dom, lookup_insert_ne by done]. rewrite run_writes.
  apply (link_finish _ a1); cbn.
  - rewrite E2. cbn [link_first]. unfold link_last, last_addr. rewrite Hy1. cbn [first_addr]. rewrite alter_insert_eq.
    by rewrite <- (set_prev_prev _ None (set_next None c)), Hbare.
  - done.
  - rewrite Hhd. rewrite E2, app_nil_r in Hx. by rewrite Hx.
  - by rewrite E2.
  - unfold zlen. rewrite Hl1, Hl0. lia.
  - intros j Hj Hne. destruct (Z.le_gt_cases j (t_tail t)); [rewrite Hlow by lia; apply Ha; lia|]. rewrite Ha1 by lia.
    destruct (Z.leb_spec (t_tail t + 1) j); [|lia]. destruct (Z.ltb_spec j (t_tail t + 1 + Z.of_nat (Z.to_nat (n - (t_tail t + 1))))); [|lia]. cbn [andb].
    rewrite (entry_of_below (t_tail t + 1)); [done| |lia]. by rewrite Htl.
Qed.

(** *** The call with the smallest number *)
Lemma link_front_call guarded grow junk a : t_calls t = Some a → n < t_head t →
  ∃ t', link_call guarded grow junk rc n t1 = Ok (true, t') ∧ rep t' (l1 ++ (rc, c) :: l2).
Proof using All.
  intros Ec Hlt. pose proof (rep_array _ _ Hrep) as Ha. rewrite Ec in Ha. destruct Ha as (([q d] & Hx & Hhd) & (y & Hy & Htl) & Ha). cbn in Hhd.
  pose proof (sorted_head _ _ (rep_sorted _ _ Hrep) Hx) as Hal. assert (l1 = []) as E1.
  { destruct l1 as [|z k]; [done|]. apply list.Forall_cons in Hal as [Hz _]. apply list.Forall_cons in Hb as [Hz' _]. cbn in Hz. lia. }
  assert (t_head t <= t_tail t) as Hht.
  { rewrite Hhd, Htl. pose proof (sorted_head _ _ (rep_sorted _ _ Hrep) Hx) as Hz. pose proof (list.last_Some_elem_of _ _ Hy) as Hin.
    unfold above in Hal. rewrite list.Forall_forall in Hal. specialize (Hal y Hin). cbn in Hal. lia. }
  assert (list.head l2 = Some (q, d)) as Hx2 by (by rewrite E1 in Hx). destruct (cell_alive (q, d)) as [Hq Hqrc].
  { rewrite E1. destruct l2 as [|z k]; [done|]. injection Hx2 as ->. left. }
  unfold link_call. rewrite run_reads. change (t_calls t1) with (t_calls t). rewrite Ec. change (t_tail t1) with (t_tail t). change (t_head t1) with (t_head t).
  destruct (Z.ltb_spec (t_tail t) n); [lia|]. destruct (Z.ltb_spec n (t_head t)); [|lia].
  erewrite run_fst; [|eapply (slot_ok _ a (t_head t) (Some q)); [done|]; rewrite Ha, Hhd by lia; by rewrite (entry_of_head _ _ _ Hx)].
  cbv beta. erewrite run_fst; [|apply store_alter; cbn; by rewrite lookup_insert_eq]. cbv beta. cbn [store_null].
  erewrite run_fst; [|apply store_alter; cbn; by rewrite alter_dom, lookup_insert_ne by done]. rewrite run_writes.
  apply (link_finish _ a); cbn.
  - rewrite E1. unfold link_last, last_addr, link_first, first_addr. cbn. destruct l2 as [|z k]; [done|]. injection Hx2 as ->.
    rewrite alter_insert_eq. repeat f_equal. rewrite <- Hbare at 1. by rewrite set_next_prev, set_next_next.
  - done.
  - by rewrite E1.
  - rewrite Htl. rewrite E1 in Hy. cbn in Hy. by rewrite Hy.
  - assert (0 <= t_tail t <= t_tail t) as Hj by lia. apply Ha, lookup_lt_Some in Hj. unfold zlen. lia.
  - intros j Hj Hne. by apply Ha.
Qed.

(** *** A call in the middle *)
Lemma link_middle_call guarded grow junk a : t_calls t = Some a → t_head t <= n <= t_tail t →
  ∃ t', link_call guarded grow junk rc n t1 = Ok (true, t') ∧ rep t' (l1 ++ (rc, c) :: l2).
Proof using All.
  intros Ec Hbetween. pose proof (rep_array _ _ Hrep) as Ha. rewrite Ec in Ha. destruct Ha as ((x & Hx & Hhd) & (y & Hy & Htl) & Ha).
  pose proof (rep_sorted _ _ Hrep) as Hs. pose proof (rep_nodup _ _ Hrep) as Hnd. rewrite fmap_app in Hnd. apply list.NoDup_app in Hnd as (_ & Hdisj & _).
  destruct (list.last l1) as [[q d]|] eqn:E1; cycle 1.
  { exfalso. apply last_None in E1. rewrite E1 in Hx. destruct l2 as [|z k]; [done|]. injection Hx as ->. apply list.Forall_cons in Hab as [? _]. lia. }
  destruct (list.head l2) as [[r e]|] eqn:E2; cycle 1.
  { exfalso. destruct l2; [|done]. rewrite app_nil_r in Hy. rewrite E1 in Hy. injection Hy as <-. apply last_Some in E1 as [k E1]. rewrite E1 in Hb.
    apply Forall_app in Hb as [_ [Hb' _]%list.Forall_cons]. cbn in Hb', Htl. lia. }
  assert (∃ k, l2 = (r, e) :: k) as [k2 El2] by (destruct l2 as [|z k]; [done|]; injection E2 as ->; by eexists).
  assert (∃ k, l1 = k ++ [(q, d)]) as [k1 El1] by (by apply last_Some in E1).
  destruct (cell_alive (q, d)) as [Hq Hqrc]; [apply list.elem_of_app; left; by apply list.last_Some_elem_of|].
  destruct (cell_alive (r, e)) as [Hr1 Hr1rc]; [rewrite El2; apply list.elem_of_app; right; left|]. cbn [fst] in Hq, Hqrc, Hr1, Hr1rc.
  assert (q ≠ r) as Hqr.
  { intros ->. apply (Hdisj r); [rewrite El1, fmap_app; apply list.elem_of_app; right; cbn; left|rewrite El2; cbn; left]. }
  assert (n < c_num e <= t_tail t) as He.
  { rewrite El2 in Hab, Hy. apply list.Forall_cons in Hab as [He _]. cbn in He. split; [done|]. rewrite El2 in Hs. rewrite last_app, last_cons in Hy.
    destruct (list.last k2) as [z|] eqn:Ez; [|injection Hy as <-; cbn in Htl; lia]. injection Hy as <-. apply sorted_mid in Hs as (_ & _ & _ & Hs & _).
    apply list.last_Some_elem_of in Ez. unfold above in Hs. rewrite list.Forall_forall in Hs. specialize (Hs _ Ez). cbn in Hs. lia. }
  assert (0 <= t_head t) as Hh0.
  { rewrite Hhd. destruct (l1 ++ l2) as [|[z1 z2] ?]; [done|]. injection Hx as <-. by destruct Hs as [[Hs _] _]. }
  unfold link_call. rewrite run_reads. change (t_calls t1) with (t_calls t). rewrite Ec. change (t_tail t1) with (t_tail t). change (t_head t1) with (t_head t).
  destruct (Z.ltb_spec (t_tail t) n); [lia|]. destruct (Z.ltb_spec n (t_head t)); [lia|].
  erewrite run_fst.
  2:{ eapply (find_prev_entry_ok n t1 a l1 l2); try done; try lia; cbn; [by apply sorted_app in Hs as [? _]|lia|].
      intros _. exists [], l1. split; [done|]. split; [by apply Forall_nil|]. split; [|done]. rewrite Hhd. apply sorted_head; [by apply sorted_app in Hs as [? _]|].
      destruct l1; [by destruct k1|done]. }
  cbv beta. erewrite run_fst.
  2:{ eapply (find_next_entry_ok n t1 a l1 r e k2); try done; cbn; rewrite <- ?El2; try done; lia. }
  cbv beta. unfold last_addr. rewrite E1. erewrite run_fst; [|apply store_alter; cbn; by rewrite lookup_insert_eq]. cbv beta.
  cbn [store_if store_null]. replace (if guarded then store q (set_next (Some rc)) else store q (set_next (Some rc))) with (store q (set_next (C := C) (Some rc))) by (by destruct guarded).
  erewrite run_fst; [|apply store_alter; cbn; by rewrite alter_dom, lookup_insert_ne by done]. cbv beta.
  erewrite run_fst; [|apply store_alter; cbn; rewrite !alter_dom; by rewrite lookup_insert_eq]. cbv beta.
  replace (if guarded then store r (set_prev (Some rc)) else store r (set_prev (Some rc))) with (store r (set_prev (C := C) (Some rc))) by (by destruct guarded).
  erewrite run_fst; [|apply store_alter; cbn; rewrite !alter_dom; by rewrite lookup_insert_ne by done]. cbv beta.
  apply (link_finish _ a); cbn.
  - rewrite El2. cbn [link_first first_addr]. unfold link_last, last_addr. rewrite E1. rewrite alter_insert_eq.
    rewrite (alter_apart _ _ _ rc q) by done. rewrite alter_insert_eq. rewrite set_next_prev. repeat f_equal.
  - done.
  - rewrite Hhd. by destruct l1; [destruct k1|injection Hx as ->].
  - rewrite Htl. rewrite El2 in Hy |- *. rewrite last_app in Hy. destruct (list.last ((r, e) :: k2)) as [z|] eqn:Ez; [by injection Hy as ->|]. by apply last_None in Ez.
  - assert (0 <= t_tail t <= t_tail t) as Hj by lia. apply Ha, lookup_lt_Some in Hj. unfold zlen. lia.
  - intros j Hj Hne. by apply Ha.
Qed.
End finish.

(** A new call has a cell of its own and leaves the others as they are; without
    memory the table stays as it was. *)
Lemma link_call_rep guarded grow junk t l n rc c : rep t l → entry_of l n = None → 0 <= n < UINT32_MAX → c_num c = n →
  set_prev None (set_next None c) = c → t_heap t !! rc = None →
  ∃ b t', link_call guarded grow junk rc n (t <| t_heap := <[rc := c]> (t_heap t) |>) = Ok (b, t') ∧
    if b then ∃ l1 l2, l = l1 ++ l2 ∧ rep t' (l1 ++ (rc, c) :: l2) else grow = false ∧ t' = t <| t_heap := <[rc := c]> (t_heap t) |>.
Proof using All.
  intros Hrep Hn Hr Hc Hbare Hfresh. destruct (split_at n l (rep_sorted _ _ Hrep) Hn) as (l1 & l2 & -> & Hb & Hab).
  assert (rc ∉ (l1 ++ l2).*1) as Hrc by (intros [x Hx]%(rep_dom _ _ Hrep); by rewrite Hfresh in Hx).
  set (t1 := t <| t_heap := <[rc := c]> (t_heap t) |>).
  assert ((∃ t', link_call guarded grow junk rc n t1 = Ok (true, t') ∧ rep t' (l1 ++ (rc, c) :: l2)) ∨
          (grow = false ∧ link_call guarded grow junk rc n t1 = Ok (false, t1))) as [(t' & E & Ht)|[-> E]].
  { destruct (t_calls t) as [a|] eqn:Ec.
    - destruct (Z.lt_ge_cases (t_tail t) n) as [Hlt|Hge].
      + destruct grow; [left; eapply link_last_call; eauto|]. right. split; [done|]. unfold link_call. rewrite run_reads. change (t_calls t1) with (t_calls t).
        rewrite Ec. change (t_tail t1) with (t_tail t). destruct (Z.ltb_spec (t_tail t) n); [done|lia].
      + left. destruct (Z.lt_ge_cases n (t_head t)); [eapply link_front_call; eauto|]. eapply link_middle_call; eauto.
    - destruct grow; [left; eapply link_first_call; eauto|]. right. split; [done|]. unfold link_call. rewrite run_reads. change (t_calls t1) with (t_calls t). by rewrite Ec. }
  - exists true, t'. split; [done|]. by exists l1, l2.
  - by exists false, t1.
Qed.

(** *** Taking a call out *)

Definition unlink_last (l1 : Entries (C := C)) (nx : option addr) (h : gmap addr C) : gmap addr C :=
  match list.last l1 with Some (q, _) => alter (set_next nx) q h | None => h end.
Definition unlink_first (l2 : Entries (C := C)) (pv : option addr) (h : gmap addr C) : gmap addr C :=
  match l2 with (q, _) :: _ => alter (set_prev pv) q h | [] => h end.

Lemma unlink_heap h l1 p l2 : NoDup (l1 ++ l2).*1 → dseg h None l1 (Some p) → dseg h (Some p) l2 None →
  dseg (unlink_first l2 (last_addr None l1) (unlink_last l1 (first_addr l2 None) h)) None (l1 ++ l2) None.
Proof using All.
  rewrite fmap_app. intros (Hn1 & Hn12 & Hn2)%list.NoDup_app H1 H2. apply dseg_app.
  assert (∃ h1, h1 = unlink_last l1 (first_addr l2 None) h ∧ dseg h1 None l1 (first_addr l2 None) ∧ dseg h1 (Some p) l2 None) as (h1 & <- & G1 & G2).
  { eexists. split; [done|]. unfold unlink_last. destruct (list.last l1) as [[q d]|] eqn:El; [|apply last_None in El as ->; by split].
    apply last_Some in El as [k ->]. destruct (dseg_set_next h k q d None _ (first_addr l2 None) Hn1 H1) as (x & Hx & _ & Hd).
    rewrite (alter_is_insert _ _ _ _ Hx). split; [done|]. apply dseg_insert; [|done]. apply Hn12. rewrite fmap_app, list.elem_of_app. right. cbn. left. }
  unfold unlink_first. destruct l2 as [|[q d] k]; [done|].
  destruct (dseg_set_prev h1 k q d _ (last_addr None l1) None Hn2 G2) as (x & Hx & _ & Hd). rewrite (alter_is_insert _ _ _ _ Hx).
  split; [|done]. apply dseg_insert; [|done]. intros Hi. apply (Hn12 q Hi). cbn. left.
Qed.

Lemma unlink_dom h l1 nx l2 pv p : is_Some (unlink_first l2 pv (unlink_last l1 nx h) !! p) ↔ is_Some (h !! p).
Proof using.
  assert (is_Some (unlink_last l1 nx h !! p) ↔ is_Some (h !! p)) as E by (unfold unlink_last; destruct (list.last l1) as [[? ?]|]; by rewrite ?alter_dom).
  unfold unlink_first. destruct l2 as [|[? ?] ?]; by rewrite ?alter_dom.
Qed.

(** [h] is the heap with the cell or without it. *)
Lemma unlink_call_rep t l1 p c l2 a h : rep t (l1 ++ (p, c) :: l2) → t_calls t = Some a → (∀ q, q ≠ p → h !! q = t_heap t !! q) →
  ∃ t', unlink_call (last_addr None l1) (first_addr l2 None) (mkTable h (Some (aset a (c_num c) None)) (t_head t) (t_tail t)) = Ok (tt, t') ∧
    (is_Some (t_heap t' !! p) ↔ is_Some (h !! p)) ∧ rep (t' <| t_heap := delete p (t_heap t') |>) (l1 ++ l2).
Proof using All.
  intros [Hseg Hnd Hdom Hs Ha] Ec Hh. rewrite Ec in Ha. destruct Ha as ((x & Hx & Hhd) & (y & Hy & Htl) & Ha).
  rewrite fmap_app in Hnd. cbn [fmap list_fmap fst] in Hnd. rewrite <- Permutation_middle, <- fmap_app in Hnd. apply list.NoDup_cons in Hnd as [Hp Hnd].
  apply dseg_app in Hseg as [H1 [_ H2]]. cbn [first_addr] in H1.
  assert (∀ q, q ∈ (l1 ++ l2).*1 → h !! q = t_heap t !! q) as Hh' by (intros q Hq; apply Hh; by intros ->).
  rewrite fmap_app in Hh'. setoid_rewrite list.elem_of_app in Hh'.
  assert (dseg h None l1 (Some p)) as G1 by (eapply dseg_frame; [|exact H1]; auto).
  assert (dseg h (Some p) l2 None) as G2 by (eapply dseg_frame; [|exact H2]; auto).
  pose proof (unlink_heap h l1 p l2 Hnd G1 G2) as Hnew.
  pose proof Hs as (Hs1 & Hs2 & Hb & Hab & Hc)%sorted_mid. assert (sorted (l1 ++ l2)) as Hs12.
  { apply sorted_app. split; [done|]. split; [done|]. intros z Hz. unfold below in Hb. rewrite list.Forall_forall in Hb. specialize (Hb z Hz).
    eapply list.Forall_impl; [exact Hab|]. cbn in *. lia. }
  set (h' := unlink_first l2 _ (unlink_last l1 _ h)) in Hnew.
  set (t' := match l1 ++ l2 with [] => mkTable h' None 0 0
             | _ => mkTable h' (Some (aset a (c_num c) None)) (from_option (λ x, c_num x.2) 0 (list.head (l1 ++ l2)))
                      (from_option (λ x, c_num x.2) 0 (list.last (l1 ++ l2))) end).
  assert (t_heap t' = h') as Et by (unfold t'; by destruct (l1 ++ l2)).
  exists t'. split; [|split; [rewrite Et; apply unlink_dom|]].
  - unfold t', h', unlink_last, unlink_first, last_addr. destruct (list.last l1) as [[q d]|] eqn:E1.
    + pose proof E1 as [k1 El1]%last_Some. rewrite El1 in G1. destruct (dseg_set_next h k1 q d None (Some p) (first_addr l2 None)) as (z & Hz & Hzn & _);
        [rewrite <- El1; rewrite fmap_app in Hnd; by apply list.NoDup_app in Hnd as [? _]|done|].
      assert (t_head t = from_option (λ x, c_num x.2) 0 (list.head (l1 ++ l2))) as Ehd by (rewrite Hhd; destruct l1; [by destruct k1|injection Hx as <-; done]).
      assert (∃ w k, l1 ++ l2 = w :: k) as (w & k & Ew) by (destruct l1 as [|w k]; [by destruct k1|by exists w, (k ++ l2)]).
      unfold unlink_call. destruct l2 as [|[r e] k2]; cbn [first_addr].
      * erewrite run_fst; [|apply store_alter; by eexists]. cbv beta. cbn [deref_null].
        erewrite run_fst; [|apply (deref_ok _ q (set_next None z)); cbn; by rewrite lookup_alter_eq, Hz]. rewrite app_nil_r in *. rewrite num_set_next, Hzn, E1.
        unfold writes. rewrite Ehd. by rewrite Ew.
      * erewrite run_fst; [|apply store_alter; by eexists]. cbv beta. rewrite store_alter.
        2:{ cbn. rewrite alter_dom. destruct G2 as [-> _]. by eexists. }
        rewrite last_app in Hy. rewrite last_cons in Hy. rewrite last_app. destruct (list.last ((r, e) :: k2)) as [v|] eqn:Ev; [|by apply last_None in Ev].
        injection Hy as <-. rewrite Ew. rewrite <- Ew. cbn [from_option]. rewrite <- Htl, <- Ehd. done.
    + apply last_None in E1. rewrite E1 in Hx, Hy |- *. cbn [app] in *. destruct l2 as [|[r e] k2]; [done|]. cbn [first_addr unlink_call].
      destruct G2 as [G2 _]. cbn [deref_null]. unfold mbind at 1, FST_bind at 1.
      erewrite run_fst; [|apply deref_ok; exact G2]. unfold writes at 1. cbv beta iota. rewrite store_alter by (cbn; rewrite G2; by eexists).
      rewrite num_set_prev, num_set_next. cbn. rewrite Htl. rewrite last_cons in Hy. destruct (list.last ((r, e) :: k2)) as [v|] eqn:Ev; [|by apply last_None in Ev].
      by injection Hy as <-.
  - split; cbn; rewrite ?Et.
    + by apply dseg_delete.
    + done.
    + intros q. destruct (decide (q = p)) as [->|Hq]; [rewrite lookup_delete_eq; split; [by intros [? ?]|done]|].
      rewrite lookup_delete_ne by done. unfold h'. rewrite unlink_dom, Hh, Hdom, !fmap_app by done. cbn [fmap list_fmap fst]. rewrite !list.elem_of_app, list.elem_of_cons. naive_solver.
    + done.
    + unfold t'. destruct (l1 ++ l2) as [|w k] eqn:Ew; [done|]. cbn [t_calls t_head t_tail]. split; [by eexists|].
      destruct (list.last (w :: k)) as [v|] eqn:Ev; [|by apply last_None in Ev]. split; [by eexists|]. cbn [from_option].
      assert (c_num v.2 <= t_tail t) as Hv.
      { pose proof (sorted_last _ _ Hs Hy) as Hbl. unfold below in Hbl. rewrite list.Forall_forall in Hbl. apply list.last_Some_elem_of in Ev. rewrite <- Ew in Ev.
        specialize (Hbl v). rewrite Htl. cbn in Hbl. assert (v ∈ l1 ++ (p, c) :: l2) as Hin by (rewrite list.elem_of_app, list.elem_of_cons; apply list.elem_of_app in Ev; tauto).
        specialize (Hbl Hin). lia. }
      intros i Hi. rewrite <- Ew. unfold aset. assert (0 <= i <= t_tail t) as Hi' by lia. apply Ha in Hi'. rewrite entry_of_mid in Hi' by done.
      destruct (Z.eqb_spec i (c_num c)) as [->|Hne].
      * rewrite list_lookup_insert_eq by (apply lookup_lt_Some in Hi'; lia). by rewrite entry_of_app, (entry_of_below (c_num c)), (entry_of_above (c_num c)) by (done || lia).
      * by rewrite list_lookup_insert_ne by lia.
Qed.
End linking.

(** ** The table as a map *)

Section map_view.
Context {C : Type} `{CellLaws C}.
Implicit Types (t : Table C) (m : gmap Z (addr * C)).

(** The table holds, for every number in the map, a call at an address with this
    contents; the links in the contents do not matter. *)
Definition holds t m : Prop := ∃ l, rep t l ∧ ∀ k, entry_of l k = m !! k.

Lemma holds_empty : holds empty_table ∅.
Proof using.
  exists []. split; [|intros k; by rewrite lookup_empty]. split; try done; [constructor|]. cbn. intros p. rewrite lookup_empty. split; [by intros [? ?]|by intros ?%list.elem_of_nil].
Qed.

Lemma holds_entry t m n p c : holds t m → m !! n = Some (p, c) →
  ∃ l1 l2, rep t (l1 ++ (p, c) :: l2) ∧ (∀ k, entry_of (l1 ++ (p, c) :: l2) k = m !! k) ∧ c_num c = n.
Proof using. intros (l & Hr & Hm) Hn. rewrite <- Hm in Hn. destruct (entry_of_some _ _ _ _ Hn) as (l1 & l2 & -> & E). by exists l1, l2. Qed.

Lemma holds_num t m n p c : holds t m → m !! n = Some (p, c) → c_num c = n ∧ 0 <= n < UINT32_MAX.
Proof using.
  intros Ht Hn. destruct (holds_entry _ _ _ _ _ Ht Hn) as (l1 & l2 & Hr & _ & E). split; [done|]. apply rep_sorted, sorted_mid in Hr. rewrite <- E. tauto.
Qed.

Lemma holds_alive t m n p c : holds t m → m !! n = Some (p, c) → is_Some (t_heap t !! p).
Proof using. intros Ht Hn. destruct (holds_entry _ _ _ _ _ Ht Hn) as (l1 & l2 & Hr & _). rewrite (rep_cell _ _ _ _ _ Hr). by eexists. Qed.

(** No two calls share a cell, and every cell is one of a call. *)
Lemma holds_inj t m n k p c d : holds t m → m !! n = Some (p, c) → m !! k = Some (p, d) → n = k.
Proof using.
  intros Ht Hn Hk. destruct (holds_entry _ _ _ _ _ Ht Hn) as (l1 & l2 & Hr & Hm & E). rewrite <- Hm, entry_of_mid in Hk by apply (rep_sorted _ _ Hr).
  destruct (Z.eqb_spec k (c_num c)) as [->|Hne]; [done|]. exfalso. pose proof (rep_nodup _ _ Hr) as Hnd. rewrite fmap_app in Hnd. cbn [fmap list_fmap fst] in Hnd.
  rewrite <- Permutation_middle, <- fmap_app in Hnd. apply list.NoDup_cons in Hnd as [Hnd _]. apply Hnd.
  destruct (entry_of_some _ _ _ _ Hk) as (k1 & k2 & -> & _). rewrite fmap_app. apply list.elem_of_app. right. cbn. left.
Qed.

Lemma holds_cell t m p : holds t m → is_Some (t_heap t !! p) → ∃ n c, m !! n = Some (p, c).
Proof using.
  intros (l & Hr & Hm) Hp%(rep_dom _ _ Hr). apply list_elem_of_fmap in Hp as ([q c] & -> & Hin). exists (c_num c), c. rewrite <- Hm.
  apply list_elem_of_split in Hin as (l1 & l2 & ->). rewrite entry_of_mid by apply (rep_sorted _ _ Hr). by rewrite Z.eqb_refl.
Qed.

Lemma holds_find t m n : holds t m → 0 <= n → find_call n t = Ok (fst <$> m !! n, t).
Proof using. intros (l & Hr & Hm) Hn. by rewrite (find_call_rep t l n Hr Hn), Hm. Qed.

Lemma holds_deref t m n p c : holds t m → m !! n = Some (p, c) → ∃ pv nx, deref p t = Ok (set_prev pv (set_next nx c), t).
Proof using. intros Ht Hn. destruct (holds_entry _ _ _ _ _ Ht Hn) as (l1 & l2 & Hr & _). rewrite (deref_rep _ _ _ _ _ Hr). eauto. Qed.

Lemma holds_store t m n p c f : holds t m → m !! n = Some (p, c) → link_free f → ∃ t', store p f t = Ok (tt, t') ∧ holds t' (<[n := (p, f c)]> m).
Proof using.
  intros Ht Hn Hf. destruct (holds_entry _ _ _ _ _ Ht Hn) as (l1 & l2 & Hr & Hm & E). destruct (store_rep _ _ _ _ _ f Hr Hf) as (t' & Et & Hr' & _).
  exists t'. split; [done|]. exists (l1 ++ (p, f c) :: l2). split; [done|]. intros k. destruct (Hf None None c) as [_ Hc].
  rewrite (entry_of_update l1 p c (f c)) by (done || apply (rep_sorted _ _ Hr)). rewrite E, Hm. destruct (Z.eqb_spec k n) as [->|Hk]; [by rewrite lookup_insert_eq|].
  by rewrite lookup_insert_ne by done.
Qed.

Lemma holds_link guarded grow junk t m n rc c : holds t m → m !! n = None → 0 <= n < UINT32_MAX → c_num c = n →
  set_prev None (set_next None c) = c → t_heap t !! rc = None →
  ∃ b t', link_call guarded grow junk rc n (t <| t_heap := <[rc := c]> (t_heap t) |>) = Ok (b, t') ∧
    if b then holds t' (<[n := (rc, c)]> m) else grow = false ∧ t' = t <| t_heap := <[rc := c]> (t_heap t) |>.
Proof using All.
  intros (l & Hr & Hm) Hn Hrange Hc Hbare Hfresh. destruct (link_call_rep guarded grow junk t l n rc c) as (b & t' & E & Hb); try done; [by rewrite Hm|].
  exists b, t'. split; [done|]. destruct b; [|done]. destruct Hb as (l1 & l2 & -> & Hr'). exists (l1 ++ (rc, c) :: l2). split; [done|]. intros k.
  rewrite entry_of_mid, Hc, Hm by apply (rep_sorted _ _ Hr'). destruct (Z.eqb_spec k n) as [->|Hk]; [by rewrite lookup_insert_eq|]. by rewrite lookup_insert_ne by done.
Qed.

(** A call that ends: its slot, the links around it, its cell. *)
Lemma holds_unlink t m n p c h : holds t m → m !! n = Some (p, c) → (∀ q, q ≠ p → h !! q = t_heap t !! q) →
  ∃ pv nx t1 t', deref p t = Ok (set_prev pv (set_next nx c), t) ∧ put_call n None t = Ok (tt, t1) ∧ t_heap t1 = t_heap t ∧
    unlink_call pv nx (t1 <| t_heap := h |>) = Ok (tt, t') ∧ (is_Some (t_heap t' !! p) ↔ is_Some (h !! p)) ∧
    holds (t' <| t_heap := delete p (t_heap t') |>) (delete n m).
Proof using All.
  intros Ht Hn Hh. destruct (holds_entry _ _ _ _ _ Ht Hn) as (l1 & l2 & Hr & Hm & E). pose proof (rep_array _ _ Hr) as Ha.
  destruct (t_calls t) as [a|] eqn:Ec; [|by destruct Ha as [Ha _]; destruct l1]. pose proof (rep_sorted _ _ Hr) as Hs.
  destruct (unlink_call_rep t l1 p c l2 a h Hr Ec Hh) as (t' & Eu & Hp & Hr'). exists (last_addr None l1), (first_addr l2 None). eexists _, t'.
  split; [by apply deref_rep|]. split.
  { apply (put_call_ok t a n None Ec). destruct (holds_num _ _ _ _ _ Ht Hn) as [_ Hrange]. split; [lia|].
    destruct Ha as (_ & (y & Hy & Htl) & Ha). pose proof (sorted_last _ _ Hs Hy) as Hb. apply Forall_app in Hb as [_ [Hb _]%list.Forall_cons]. cbn in Hb.
    assert (0 <= n <= t_tail t) as Hin by lia. apply Ha, lookup_lt_Some in Hin. unfold zlen. lia. }
  split; [done|]. split; [by rewrite E in Eu|]. split; [done|]. exists (l1 ++ l2). split; [done|]. intros k.
  destruct (decide (k = n)) as [->|Hk].
  - rewrite lookup_delete_eq. apply sorted_mid in Hs as (_ & _ & Hb & Hab & _). by rewrite entry_of_app, (entry_of_below (c_num c)), (entry_of_above (c_num c)) by (done || lia).
  - rewrite lookup_delete_ne, <- Hm, entry_of_mid by done. destruct (Z.eqb_spec k (c_num c)); [congruence|done].
Qed.
End map_view.
