(* ===== verification/CallState.v ===== *)
(** * CallState: the state of audio and video calls

    The calls of [toxav/msi.c], which negotiates them with the friends, and of
    [toxav/toxav.c], which carries them, refer to each other by pointers.  Both are
    in one state here, with a log of what is asked of the rest of the program and of
    the system.  Other threads show only in the answers to [pthread_mutex_trylock]. *)
From S2P Require Import Prelude CallTable.

(** ** Calls as they are negotiated, [toxav/msi.h] *)

Inductive MSIError :=
  MSI_E_NONE | MSI_E_INVALID_MESSAGE | MSI_E_INVALID_PARAM | MSI_E_INVALID_STATE | MSI_E_STRAY_MESSAGE | MSI_E_SYSTEM | MSI_E_HANDLE | MSI_E_UNDISCLOSED.
#[export] Instance MSIError_eq_dec : EqDecision MSIError.
Proof. solve_decision. Defined.

Definition MSI_CAP_S_AUDIO : Z := 4.
Definition MSI_CAP_S_VIDEO : Z := 8.
Definition MSI_CAP_R_AUDIO : Z := 16.
Definition MSI_CAP_R_VIDEO : Z := 32.

Inductive MSICallState := MSI_CALL_INACTIVE | MSI_CALL_ACTIVE | MSI_CALL_REQUESTING | MSI_CALL_REQUESTED.
#[export] Instance MSICallState_eq_dec : EqDecision MSICallState.
Proof. solve_decision. Defined.

Inductive MSICallbackID := MSI_ON_INVITE | MSI_ON_START | MSI_ON_END | MSI_ON_ERROR | MSI_ON_PEERTIMEOUT | MSI_ON_CAPABILITIES.
#[export] Instance MSICallbackID_eq_dec : EqDecision MSICallbackID.
Proof. solve_decision. Defined.

(** The pointer to the session is left out: there is one.  [peer_vfpsz] is never used. *)
Record MSICall := mkMSICall {
  mc_state : MSICallState;
  mc_peer_capabilities : Z;
  mc_self_capabilities : Z;
  mc_friend_number : Z;
  mc_error : MSIError;
  mc_av_call : option addr;
  mc_next : option addr;
  mc_prev : option addr
}.

#[export] Instance eta_MSICall : Eta MSICall := λ c,
  mkMSICall (mc_state c) (mc_peer_capabilities c) (mc_self_capabilities c) (mc_friend_number c) (mc_error c) (mc_av_call c) (mc_next c) (mc_prev c).

#[export] Instance MSICall_cell : Cell MSICall := {|
  c_num := mc_friend_number; c_next := mc_next; c_prev := mc_prev;
  set_next p c := c <| mc_next := p |>; set_prev p c := c <| mc_prev := p |>
|}.
#[export] Instance MSICall_laws : CellLaws MSICall.
Proof. by split. Qed.

(** ** Calls as they are carried, [toxav/tox_generic.h] *)

(** [RTPSession], as far as it is used here. *)
Record RTPSession := mkRTPSession { rtp_receive_active : bool }.

(** The codecs, the controller of the bandwidth and the timestamps of frames are
    left out. *)
Record ToxAVCall := mkToxAVCall {
  tc_audio_rtp : option RTPSession;
  tc_video_rtp : option RTPSession;
  tc_active : bool;
  tc_msi_call : option addr;
  tc_friend_number : Z;
  tc_audio_bit_rate : Z;
  tc_video_bit_rate : Z;
  tc_video_bit_rate_not_yet_set : Z;
  tc_previous_self_capabilities : Z;
  tc_prev : option addr;
  tc_next : option addr
}.

#[export] Instance eta_ToxAVCall : Eta ToxAVCall := λ c,
  mkToxAVCall (tc_audio_rtp c) (tc_video_rtp c) (tc_active c) (tc_msi_call c) (tc_friend_number c) (tc_audio_bit_rate c) (tc_video_bit_rate c)
    (tc_video_bit_rate_not_yet_set c) (tc_previous_self_capabilities c) (tc_prev c) (tc_next c).

#[export] Instance ToxAVCall_cell : Cell ToxAVCall := {|
  c_num := tc_friend_number; c_next := tc_next; c_prev := tc_prev;
  set_next p c := c <| tc_next := p |>; set_prev p c := c <| tc_prev := p |>
|}.
#[export] Instance ToxAVCall_laws : CellLaws ToxAVCall.
Proof. by split. Qed.

(** ** The whole state *)

(** What is asked of the rest of the program. *)
Inductive Av_Ask :=
  | AAlloc                                        (** [calloc], [realloc], the creation of a mutex: 0 for a failure *)
  | ATryLock                                      (** [pthread_mutex_trylock]: 0 for success *)
  | AFriendExists (friend_number : Z)             (** [tox_friend_exists] *)
  | AConnection (friend_number : Z)               (** [tox_friend_get_connection_status] *)
  | ASend (friend_number : Z) (packet : bytes)    (** [tox_friend_send_lossless_packet]: its error, 0 for none *)
  | ACodec (friend_number : Z).                   (** [bwc_new], [ac_new], [vc_new], [rtp_new]: 0 for a failure *)

(** What the client is told. *)
Inductive Av_Event :=
  | ECall (friend_number : Z) (audio_enabled video_enabled : bool)
  | ECallState (friend_number state : Z).

(** [av_callbacks] are the callbacks of the session that are set, [av_ccb] to
    [av_vcb] those of the client.  [av_listening] is what [tox_get_av_listening] returns.
    A new cell is at [av_fresh]; addresses are not used again, so that a pointer to
    a cell that was freed never points to another one. *)
Record Tox_Av := mkToxAv {
  av_msi : Table MSICall;
  av_callbacks : MSICallbackID → bool;
  av_calls : Table ToxAVCall;
  av_ccb : bool;
  av_scb : bool;
  av_acb : bool;
  av_vcb : bool;
  av_listening : bool;
  av_fresh : addr;
  av_junk : option addr;
  av_asked : list (Av_Ask * Z);
  av_answer : Av_Ask → nat → Z;
  av_events : list Av_Event
}.

#[export] Instance eta_Tox_Av : Eta Tox_Av := λ s,
  mkToxAv (av_msi s) (av_callbacks s) (av_calls s) (av_ccb s) (av_scb s) (av_acb s) (av_vcb s) (av_listening s) (av_fresh s) (av_junk s) (av_asked s) (av_answer s) (av_events s).

Abbreviation AV := (FST Tox_Av).

Definition on_msi {A} (m : FST (Table MSICall) A) : AV A := λ s,
  match m (av_msi s) with Ok (x, t) => Ok (x, s <| av_msi := t |>) | Bad b => Bad b end.
Definition on_av {A} (m : FST (Table ToxAVCall) A) : AV A := λ s,
  match m (av_calls s) with Ok (x, t) => Ok (x, s <| av_calls := t |>) | Bad b => Bad b end.

Definition av_ask (a : Av_Ask) : AV Z := λ s,
  let r := av_answer s a (length (av_asked s)) in Ok (r, s <| av_asked := av_asked s ++ [(a, r)] |>).

(** The cells that [calloc] returned. *)
Definition new_msi_cell (c : MSICall) : AV addr := λ s,
  let p := av_fresh s in Ok (p, s <| av_fresh := Pos.succ p |> <| av_msi := (av_msi s) <| t_heap := <[p := c]> (t_heap (av_msi s)) |> |>).
Definition new_av_cell (c : ToxAVCall) : AV addr := λ s,
  let p := av_fresh s in Ok (p, s <| av_fresh := Pos.succ p |> <| av_calls := (av_calls s) <| t_heap := <[p := c]> (t_heap (av_calls s)) |> |>).

(** Whether a call for [friend_number] needs more memory for the array. *)
Definition needs_array {C} (t : Table C) (friend_number : Z) : bool :=
  match t_calls t with None => true | Some _ => t_tail t <? friend_number end.
