(* ===== verification/Msi.v ===== *)
(** * Msi: the negotiation of calls, [toxav/msi.c]

    Messages and their encoding, the calls of a session, the packets of friends and
    the functions by which [toxav.c] uses the session.  The callbacks of the session
    are an argument of the code that calls them. *)
From S2P Require Import Prelude CallTable CallState.

(** ** Messages *)

(** [PACKET_ID_MSI]. *)
Definition MSI_PACKET_ID : Z := 69.
Definition ID_REQUEST : Z := 1.
Definition ID_ERROR : Z := 2.
Definition ID_CAPABILITIES : Z := 3.

Inductive MSIRequest := REQU_INIT | REQU_PUSH | REQU_POP.
#[export] Instance MSIRequest_eq_dec : EqDecision MSIRequest.
Proof. solve_decision. Defined.

(** The numbers of the enumerations, and the casts from them. *)
Definition request_num (r : MSIRequest) : Z := match r with REQU_INIT => 0 | REQU_PUSH => 1 | REQU_POP => 2 end.
Definition request_of (z : Z) : MSIRequest := if z =? 0 then REQU_INIT else if z =? 1 then REQU_PUSH else REQU_POP.
Definition all_errors : list MSIError :=
  [MSI_E_NONE; MSI_E_INVALID_MESSAGE; MSI_E_INVALID_PARAM; MSI_E_INVALID_STATE; MSI_E_STRAY_MESSAGE; MSI_E_SYSTEM; MSI_E_HANDLE; MSI_E_UNDISCLOSED].
Definition error_num (e : MSIError) : Z :=
  match e with
  | MSI_E_NONE => 0 | MSI_E_INVALID_MESSAGE => 1 | MSI_E_INVALID_PARAM => 2 | MSI_E_INVALID_STATE => 3
  | MSI_E_STRAY_MESSAGE => 4 | MSI_E_SYSTEM => 5 | MSI_E_HANDLE => 6 | MSI_E_UNDISCLOSED => 7
  end.
Definition error_of (z : Z) : MSIError := nth (Z.to_nat z) all_errors MSI_E_UNDISCLOSED.

(** A header that does not exist is [None]. *)
Record MSIMessage := mkMSIMessage { msg_request : option MSIRequest; msg_error : option MSIError; msg_capabilities : option Z }.
#[export] Instance eta_MSIMessage : Eta MSIMessage := λ m, mkMSIMessage (msg_request m) (msg_error m) (msg_capabilities m).

Definition msg_init (request : MSIRequest) : MSIMessage := mkMSIMessage (Some request) None None.

#[export] Instance Res_ret : MRet Res := λ A x, Ok x.
#[export] Instance Res_bind : MBind Res := λ A B f r, match r with Ok x => f x | Bad b => Bad b end.

(** [data[i]]. *)
Definition byte_at (data : bytes) (i : Z) : Res Z := match data !! Z.to_nat i with Some b => Ok b | None => Bad OutOfBounds end.

(** The new constraint, and whether the header at [it] has the size. *)
Definition check_size (data : bytes) (it constraint size : Z) : Res (Z * bool) :=
  let constraint := constraint - (2 + size) in
  if constraint <? 1 then mret (constraint, false)
  else b ← byte_at data (it + 1); mret (constraint, b =? size).
Definition check_enum_high (data : bytes) (it enum_high : Z) : Res bool := b ← byte_at data (it + 2); mret (negb (enum_high <? b)).

(** The loop of [msg_parse_in]; [None] is its -1.  A header takes three bytes of what
    is left, so there are fewer rounds than bytes. *)
Fixpoint parse_headers (rounds : nat) (data : bytes) (it size_constraint : Z) (dest : MSIMessage) : Res (option MSIMessage) :=
  match rounds with
  | O => Bad Aborted
  | S rounds' =>
      id ← byte_at data it;
      if id =? 0 then mret (Some dest)
      else if id =? ID_REQUEST then
        '(c, ok) ← check_size data it size_constraint 1;
        if negb ok then mret None
        else
          ok ← check_enum_high data it (request_num REQU_POP);
          if negb ok then mret None
          else b ← byte_at data (it + 2); parse_headers rounds' data (it + 3) c (dest <| msg_request := Some (request_of b) |>)
      else if id =? ID_ERROR then
        '(c, ok) ← check_size data it size_constraint 1;
        if negb ok then mret None
        else
          ok ← check_enum_high data it (error_num MSI_E_UNDISCLOSED);
          if negb ok then mret None
          else b ← byte_at data (it + 2); parse_headers rounds' data (it + 3) c (dest <| msg_error := Some (error_of b) |>)
      else if id =? ID_CAPABILITIES then
        '(c, ok) ← check_size data it size_constraint 1;
        if negb ok then mret None
        else b ← byte_at data (it + 2); parse_headers rounds' data (it + 3) c (dest <| msg_capabilities := Some b |>)
      else mret None
  end.

Definition msg_parse_in (data : bytes) (length : Z) : Res (option MSIMessage) :=
  if length =? 0 then mret None
  else
    b ← byte_at data (length - 1);
    if negb (b =? 0) then mret None
    else
      dest ← parse_headers (Z.to_nat length) data 0 length (mkMSIMessage None None None);
      match dest with
      | Some dest => mret (match msg_request dest with None => None | Some _ => Some dest end)
      | None => mret None
      end.

Definition msg_parse_header_out (id : Z) (value : bytes) : bytes := [id; zlen value] ++ value.

Definition m_msi_packet (friendnumber : Z) (data : bytes) : AV Z :=
  mem ← av_ask AAlloc;
  if mem =? 0 then mret 0
  else
    error ← av_ask (ASend friendnumber (MSI_PACKET_ID :: data));
    mret (if error =? 0 then 1 else 0).

(** The bytes that are sent for a message. *)
Definition message_bytes (request : MSIRequest) (msg : MSIMessage) : bytes :=
  msg_parse_header_out ID_REQUEST [request_num request] ++
  match msg_error msg with Some e => msg_parse_header_out ID_ERROR [error_num e] | None => [] end ++
  match msg_capabilities msg with Some c => msg_parse_header_out ID_CAPABILITIES [c] | None => [] end ++ [0].

Definition send_message (friend_number : Z) (msg : MSIMessage) : AV Z :=
  match msg_request msg with
  | None => mret (-1)
  | Some request => r ← m_msi_packet friend_number (message_bytes request msg); mret (if negb (r =? 0) then 0 else -1)
  end.

Definition send_error (friend_number : Z) (error : MSIError) : AV Z :=
  send_message friend_number ((msg_init REQU_POP) <| msg_error := Some error |>);; mret 0.

(** ** The calls of a session *)

Definition get_call (friend_number : Z) : AV (option addr) := on_msi (find_call friend_number).

Definition zero_msi_call (friend_number : Z) : MSICall := mkMSICall MSI_CALL_INACTIVE 0 0 friend_number MSI_E_NONE None None None.

Definition new_call (friend_number : Z) : AV (option addr) :=
  mem ← av_ask AAlloc;
  if mem =? 0 then mret None
  else
    rc ← new_msi_cell (zero_msi_call friend_number);
    s ← reads (λ s, s);
    grow ← (if needs_array (av_msi s) friend_number then av_ask AAlloc else mret 1);
    ok ← on_msi (link_call false (negb (grow =? 0)) (av_junk s) rc friend_number);
    if negb ok then on_msi (free_cell rc);; mret None else mret (Some rc).

Definition kill_call (call : addr) : AV unit :=
  c ← on_msi (deref call);
  on_msi (put_call (mc_friend_number c) None);;
  on_msi (unlink_call (mc_prev c) (mc_next c));;
  on_msi (free_cell call).

(** [call->f = v]. *)
Definition set_call (call : addr) (f : MSICall → MSICall) : AV unit := on_msi (store call f).

Definition msi_register_callback (id : MSICallbackID) (set : bool) : AV unit :=
  writes (λ s, s <| av_callbacks := λ i, if bool_decide (i = id) then set else av_callbacks s i |>).

(** A new session; false is the null pointer. *)
Definition msi_new : AV bool :=
  mem ← av_ask AAlloc;
  if mem =? 0 then mret false
  else
    mutex ← av_ask AAlloc;
    if mutex =? 0 then mret false
    else writes (λ s, s <| av_msi := empty_table |> <| av_callbacks := λ _, false |> <| av_listening := true |>);; mret true.

Section callbacks.
(** What [session->callbacks[cb]] does with a call. *)
Context (callback : MSICallbackID → addr → AV Z).

Definition invoke_callback (call : addr) (cb : MSICallbackID) : AV Z :=
  on_msi (deref call);;
  s ← reads (λ s, s);
  r ← (if av_callbacks s cb then callback cb call else mret 1);
  if r =? 0 then mret 0
  else
    c ← on_msi (deref call);
    (if bool_decide (mc_error c = MSI_E_NONE) then set_call call (λ c, c <| mc_error := MSI_E_HANDLE |>) else mret tt);;
    mret (-1).

(** The end of the handlers that failed. *)
Definition handle_failure (call : addr) : AV unit :=
  c ← on_msi (deref call);
  send_error (mc_friend_number c) (mc_error c);;
  kill_call call.

Definition send_push (call : addr) : AV unit :=
  c ← on_msi (deref call);
  send_message (mc_friend_number c) ((msg_init REQU_PUSH) <| msg_capabilities := Some (mc_self_capabilities c) |>);; mret tt.

Definition handle_init (call : addr) (msg : MSIMessage) : AV unit :=
  match msg_capabilities msg with
  | None => set_call call (λ c, c <| mc_error := MSI_E_INVALID_MESSAGE |>);; handle_failure call
  | Some capabilities =>
      c ← on_msi (deref call);
      match mc_state c with
      | MSI_CALL_INACTIVE =>
          set_call call (λ c, c <| mc_peer_capabilities := capabilities |> <| mc_state := MSI_CALL_REQUESTED |>);;
          r ← invoke_callback call MSI_ON_INVITE;
          if r =? -1 then handle_failure call else mret tt
      | MSI_CALL_REQUESTING =>
          set_call call (λ c, c <| mc_peer_capabilities := capabilities |> <| mc_state := MSI_CALL_ACTIVE |>);;
          r ← invoke_callback call MSI_ON_START;
          if r =? -1 then handle_failure call else send_push call
      | MSI_CALL_ACTIVE => send_push call
      | MSI_CALL_REQUESTED => set_call call (λ c, c <| mc_error := MSI_E_INVALID_STATE |>);; handle_failure call
      end
  end.

Definition handle_push (call : addr) (msg : MSIMessage) : AV unit :=
  match msg_capabilities msg with
  | None => set_call call (λ c, c <| mc_error := MSI_E_INVALID_MESSAGE |>);; handle_failure call
  | Some capabilities =>
      c ← on_msi (deref call);
      match mc_state c with
      | MSI_CALL_ACTIVE =>
          if negb (mc_peer_capabilities c =? capabilities) then
            set_call call (λ c, c <| mc_peer_capabilities := capabilities |>);;
            r ← invoke_callback call MSI_ON_CAPABILITIES;
            if r =? -1 then handle_failure call else mret tt
          else mret tt
      | MSI_CALL_REQUESTING =>
          set_call call (λ c, c <| mc_peer_capabilities := capabilities |> <| mc_state := MSI_CALL_ACTIVE |>);;
          r ← invoke_callback call MSI_ON_START;
          if r =? -1 then handle_failure call else mret tt
      | MSI_CALL_INACTIVE | MSI_CALL_REQUESTED => mret tt
      end
  end.

Definition handle_pop (call : addr) (msg : MSIMessage) : AV unit :=
  match msg_error msg with
  | Some e => set_call call (λ c, c <| mc_error := e |>);; invoke_callback call MSI_ON_ERROR;; mret tt
  | None =>
      c ← on_msi (deref call);
      match mc_state c with
      | MSI_CALL_INACTIVE => fault Aborted
      | MSI_CALL_ACTIVE | MSI_CALL_REQUESTING | MSI_CALL_REQUESTED => invoke_callback call MSI_ON_END;; mret tt
      end
  end;;
  kill_call call.

Definition handle_msi_packet (friend_number : Z) (data : bytes) : AV unit :=
  if zlen data <? 2 then mret tt
  else
    s ← reads (λ s, s);
    if negb (av_listening s) then mret tt
    else
      match msg_parse_in (drop 1 data) (u16 (zlen data - 1)) with
      | Bad b => fault b
      | Ok None => send_error friend_number MSI_E_INVALID_MESSAGE;; mret tt
      | Ok (Some msg) =>
          let handle call :=
            match msg_request msg with
            | Some REQU_INIT => handle_init call msg
            | Some REQU_PUSH => handle_push call msg
            | Some REQU_POP => handle_pop call msg
            | None => mret tt
            end in
          call ← get_call friend_number;
          match call with
          | Some call => handle call
          | None =>
              if negb (bool_decide (msg_request msg = Some REQU_INIT)) then mret tt
              else
                call ← new_call friend_number;
                match call with
                | None => send_error friend_number MSI_E_SYSTEM;; mret tt
                | Some call => handle call
                end
          end
      end.

Definition check_peer_offline_status (friend_number : Z) : AV bool :=
  status ← av_ask (AConnection friend_number);
  if status =? 0 then
    call ← get_call friend_number;
    match call with
    | None => mret true
    | Some call => invoke_callback call MSI_ON_PEERTIMEOUT;; kill_call call;; mret true
    end
  else mret false.
End callbacks.

(** ** The functions [toxav.c] calls *)

(** The call is stored at [*call]: -1 is [None]. *)
Definition msi_invite (friend_number capabilities : Z) : AV (option addr) :=
  locked ← av_ask ATryLock;
  if negb (locked =? 0) then mret None
  else
    call ← get_call friend_number;
    match call with
    | Some _ => mret None
    | None =>
        temp ← new_call friend_number;
        match temp with
        | None => mret None
        | Some temp =>
            set_call temp (λ c, c <| mc_self_capabilities := capabilities |>);;
            send_message friend_number ((msg_init REQU_INIT) <| msg_capabilities := Some capabilities |>);;
            set_call temp (λ c, c <| mc_state := MSI_CALL_REQUESTING |>);;
            mret (Some temp)
        end
    end.

Definition msi_hangup (call : option addr) : AV Z :=
  match call with
  | None => mret (-1)
  | Some call =>
      on_msi (deref call);;
      locked ← av_ask ATryLock;
      if negb (locked =? 0) then mret (-1)
      else
        c ← on_msi (deref call);
        if bool_decide (mc_state c = MSI_CALL_INACTIVE) then mret (-1)
        else
          send_message (mc_friend_number c) (msg_init REQU_POP);;
          kill_call call;;
          mret 0
  end.

Definition msi_answer (call : option addr) (capabilities : Z) : AV Z :=
  match call with
  | None => mret (-1)
  | Some call =>
      on_msi (deref call);;
      locked ← av_ask ATryLock;
      if negb (locked =? 0) then mret (-1)
      else
        c ← on_msi (deref call);
        if negb (bool_decide (mc_state c = MSI_CALL_REQUESTED)) then mret (-1)
        else
          set_call call (λ c, c <| mc_self_capabilities := capabilities |>);;
          send_message (mc_friend_number c) ((msg_init REQU_PUSH) <| msg_capabilities := Some capabilities |>);;
          set_call call (λ c, c <| mc_state := MSI_CALL_ACTIVE |>);;
          mret 0
  end.

Definition msi_change_capabilities (call : option addr) (capabilities : Z) : AV Z :=
  match call with
  | None => mret (-1)
  | Some call =>
      on_msi (deref call);;
      locked ← av_ask ATryLock;
      if negb (locked =? 0) then mret (-1)
      else
        c ← on_msi (deref call);
        if negb (bool_decide (mc_state c = MSI_CALL_ACTIVE)) then mret (-1)
        else
          set_call call (λ c, c <| mc_self_capabilities := capabilities |>);;
          send_message (mc_friend_number c) ((msg_init REQU_PUSH) <| msg_capabilities := Some capabilities |>);;
          mret 0
  end.

(** The loop of [msi_kill]; there are no more calls than cells. *)
Fixpoint kill_calls (rounds : nat) (it : option addr) : AV unit :=
  match it, rounds with
  | None, _ => mret tt
  | Some _, O => fault Aborted
  | Some it, S rounds' =>
      c ← on_msi (deref it);
      send_message (mc_friend_number c) (msg_init REQU_POP);;
      kill_call it;;
      kill_calls rounds' (mc_next c)
  end.

Definition msi_kill : AV Z :=
  writes (λ s, s <| av_listening := false |>);;
  locked ← av_ask ATryLock;
  if negb (locked =? 0) then mret (-1)
  else
    s ← reads (λ s, s);
    match t_calls (av_msi s) with
    | None => mret tt
    | Some _ => it ← get_call (t_head (av_msi s)); kill_calls (size (t_heap (av_msi s))) it
    end;;
    mret 0.
