(* ===== verification/MsiSound.v ===== *)
(** * MsiSound: what the messages and the calls of a session do

    Messages survive their encoding, and no packet makes the parser read outside it.
    Rules to follow the code of [Msi] on a session that holds a map of calls, and the
    functions of the session in terms of single calls. *)
From S2P Require Import Prelude CallTable CallState Msi.

(** ** Messages *)

Lemma byte_at_in data i : 0 <= i < zlen data → ∃ b, byte_at data i = Ok b.
Proof. unfold byte_at, zlen. intros Hi. destruct (lookup_lt_is_Some_2 data (Z.to_nat i)) as [b ->]; [lia|]. by exists b. Qed.

Lemma parse_headers_total data rounds : ∀ it c dest, 0 <= it → it + c <= zlen data → 1 <= c <= Z.of_nat rounds → ∃ r, parse_headers rounds data it c dest = Ok r.
Proof.
  induction rounds as [|r IH]; intros it c dest Hi Hc Hr; [lia|]. cbn [parse_headers].
  destruct (byte_at_in data it) as [id ->]; [lia|]. cbn [mbind Res_bind]. destruct (id =? 0); [by eexists|].
  destruct (Z.ltb_spec (c - (2 + 1)) 1) as [Hlt|Hge].
  { assert (check_size data it c 1 = Ok (c - (2 + 1), false)) as ->; [unfold check_size; destruct (Z.ltb_spec (c - (2 + 1)) 1); [done|lia]|].
    cbn. destruct (id =? ID_REQUEST), (id =? ID_ERROR), (id =? ID_CAPABILITIES); by eexists. }
  destruct (byte_at_in data (it + 1)) as [b1 E1]; [lia|]. destruct (byte_at_in data (it + 2)) as [b2 E2]; [lia|].
  assert (check_size data it c 1 = Ok (c - (2 + 1), b1 =? 1)) as ->; [unfold check_size; destruct (Z.ltb_spec (c - (2 + 1)) 1); [lia|]; by rewrite E1|].
  unfold check_enum_high. rewrite E2. cbn [mbind Res_bind mret Res_ret].
  repeat match goal with |- context [if ?b then _ else _] => destruct b end; try (by eexists); apply IH; lia.
Qed.

(** No packet makes the parser read outside it, and the parser always ends. *)
Lemma msg_parse_in_total data length : 0 <= length <= zlen data → ∃ r, msg_parse_in data length = Ok r.
Proof.
  intros Hl. unfold msg_parse_in. destruct (Z.eqb_spec length 0); [by eexists|]. destruct (byte_at_in data (length - 1)) as [b ->]; [lia|].
  cbn [mbind Res_bind]. destruct (negb (b =? 0)); [by eexists|].
  destruct (parse_headers_total data (Z.to_nat length) 0 length (mkMSIMessage None None None)) as [[d|] ->]; [lia|lia|lia| |]; by eexists.
Qed.

Lemma request_num_of r : request_of (request_num r) = r.
Proof. by destruct r. Qed.
Lemma error_num_of e : error_of (error_num e) = e.
Proof. by destruct e. Qed.

(** A message is read as it was written. *)
Lemma message_roundtrip r m : msg_request m = Some r → msg_parse_in (message_bytes r m) (zlen (message_bytes r m)) = Ok (Some m).
Proof. destruct m as [req err caps]. cbn. intros ->. destruct r, err as [[]|], caps; reflexivity. Qed.

(** ** Total correctness *)

(** The code ends without a fault in a state with the assertion. *)
Definition does {S A} (m : FST S A) (s : S) (Q : A → S → Prop) : Prop := match m s with Ok (x, s') => Q x s' | Bad _ => False end.

Section does.
Context {S : Type}.
Lemma does_ret {A} (x : A) (s : S) Q : Q x s → does (mret x) s Q.
Proof using. done. Qed.
Lemma does_bind {A B} (m : FST S A) (f : A → FST S B) s Q : does m s (λ x s', does (f x) s' Q) → does (m ≫= f) s Q.
Proof using. unfold does, mbind, FST_bind. by destruct (m s) as [[x s']|b]. Qed.
Lemma does_reads {A} (g : S → A) s Q : Q (g s) s → does (reads g) s Q.
Proof using. done. Qed.
Lemma does_writes (g : S → S) s Q : Q tt (g s) → does (writes g) s Q.
Proof using. done. Qed.
Lemma does_mono {A} (m : FST S A) s (Q Q' : A → S → Prop) : does m s Q → (∀ x s', Q x s' → Q' x s') → does m s Q'.
Proof using. unfold does. destruct (m s) as [[x s']|b]; [|done]. auto. Qed.
Lemma does_bind_assoc {A B D} (m : FST S A) (f : A → FST S B) (g : B → FST S D) s Q : does ((m ≫= f) ≫= g) s Q → does (x ← m; f x ≫= g) s Q.
Proof using. unfold does, mbind, FST_bind. by destruct (m s) as [[x s']|b]. Qed.
Lemma does_and {A} (m : FST S A) s (Q Q' : A → S → Prop) : does m s Q → does m s Q' → does m s (λ x s', Q x s' ∧ Q' x s').
Proof using. unfold does. by destruct (m s) as [[x s']|b]. Qed.
Lemma does_ok {A} (m : FST S A) s Q : does m s Q ↔ ∃ x s', m s = Ok (x, s') ∧ Q x s'.
Proof using. unfold does. destruct (m s) as [[x s']|b]; [|naive_solver]. split; [eauto|]. by intros (? & ? & [= <- <-] & ?). Qed.
End does.

(** ** Sessions *)

Implicit Types (m : gmap Z (addr * MSICall)).

Definition msi_holds (s : Tox_Av) m : Prop := holds (av_msi s) m ∧ ∀ p, is_Some (t_heap (av_msi s) !! p) → (p < av_fresh s)%positive.

(** The packets for a friend that were accepted. *)
Definition delivered (f : Z) (log : list (Av_Ask * Z)) : list bytes :=
  omap (λ '(a, r), match a with ASend g packet => if (g =? f) && (r =? 0) then Some packet else None | _ => None end) log.

Arguments delivered f log : simpl never.

Lemma delivered_app f l1 l2 : delivered f (l1 ++ l2) = delivered f l1 ++ delivered f l2.
Proof. apply omap_app. Qed.

(** There is memory, no other thread holds the session, and packets are accepted. *)
Definition healthy (s : Tox_Av) : Prop :=
  ∀ n, av_answer s AAlloc n ≠ 0 ∧ av_answer s ATryLock n = 0 ∧ ∀ f packet, av_answer s (ASend f packet) n = 0.

(** What the code of the session leaves as it is. *)
Definition stays (s s' : Tox_Av) : Prop :=
  av_callbacks s' = av_callbacks s ∧ av_listening s' = av_listening s ∧ av_answer s' = av_answer s.

Lemma stays_refl s : stays s s.
Proof. done. Qed.
Lemma stays_trans s1 s2 s3 : stays s1 s2 → stays s2 s3 → stays s1 s3.
Proof. unfold stays. intuition congruence. Qed.
Lemma stays_healthy s s' : stays s s' → healthy s → healthy s'.
Proof. unfold healthy. intros (_ & _ & ->). done. Qed.

Lemma kill_call_on p s :
  kill_call p s = on_msi (x ← deref p; put_call (mc_friend_number x) None;; unlink_call (mc_prev x) (mc_next x);; free_cell p) s.
Proof.
  unfold kill_call, mbind, FST_bind, on_msi. destruct (deref p (av_msi s)) as [[x t]|]; [|done]. cbn.
  destruct (put_call (mc_friend_number x) None t) as [[[] t1]|]; [|done]. cbn. destruct (unlink_call (mc_prev x) (mc_next x) t1) as [[[] t2]|]; [|done]. cbn.
  by destruct (free_cell p t2) as [[? ?]|].
Qed.

Section rules.
Context (s : Tox_Av) (m : gmap Z (addr * MSICall)) (Hm : msi_holds s m).

Lemma do_get_call f Q : 0 <= f → Q (fst <$> m !! f) s → does (get_call f) s Q.
Proof using Hm. intros Hf HQ. unfold does, get_call, on_msi. rewrite (holds_find _ m) by (apply Hm || done). by destruct s. Qed.

Context (f : Z) (p : addr) (c : MSICall) (Hf : m !! f = Some (p, c)).

Lemma do_deref Q : (∀ pv nx, Q (set_prev pv (set_next nx c)) s) → does (on_msi (deref p)) s Q.
Proof using Hm Hf. intros HQ. destruct (holds_deref (av_msi s) m f p c) as (pv & nx & E); [apply Hm|done|]. unfold does, on_msi. rewrite E. destruct s. apply HQ. Qed.

(** What changed the table only. *)
Lemma msi_holds_set t m' : holds t m' → (∀ n q d, m' !! n = Some (q, d) → ∃ k e, m !! k = Some (q, e)) → msi_holds (s <| av_msi := t |>) m'.
Proof using Hm.
  intros Ht Hd. split; [done|]. cbn. intros q (n & d & Hn)%(holds_cell t m'); [|done]. apply Hd in Hn as (k & e & Hk). apply Hm. eapply holds_alive; [apply Hm|done].
Qed.

Lemma do_set g Q : link_free g → (∀ t, msi_holds (s <| av_msi := t |>) (<[f := (p, g c)]> m) → Q tt (s <| av_msi := t |>)) → does (set_call p g) s Q.
Proof using Hm Hf.
  intros Hg HQ. destruct (holds_store (av_msi s) m f p c g) as (t & E & Ht); [apply Hm|done|done|]. unfold does, set_call, on_msi. rewrite E. apply HQ.
  apply msi_holds_set; [done|]. intros n q d. destruct (decide (n = f)) as [->|]; [rewrite lookup_insert_eq; naive_solver|]. rewrite lookup_insert_ne by done. eauto.
Qed.

Lemma do_kill Q : (∀ t, msi_holds (s <| av_msi := t |>) (delete f m) → Q tt (s <| av_msi := t |>)) → does (kill_call p) s Q.
Proof using Hm Hf.
  intros HQ. destruct (holds_unlink (av_msi s) m f p c (t_heap (av_msi s))) as (pv & nx & t1 & t' & E1 & E2 & Eh & E3 & Hp & Ht); [apply Hm|done|done|].
  destruct (holds_num (av_msi s) m f p c) as [En _]; [apply Hm|done|]. replace (t1 <| t_heap := t_heap (av_msi s) |>) with t1 in E3 by (rewrite <- Eh; by destruct t1).
  unfold does. rewrite kill_call_on. unfold on_msi. frun E1. cbn in En |- *. rewrite En. frun E2. frun E3. unfold free_cell.
  destruct Hp as [_ [x Hx]]; [eapply holds_alive; [apply Hm|done]|]. frun (deref_ok t' p x Hx). unfold writes. apply HQ, msi_holds_set; [done|].
  intros n q d Hn. apply lookup_delete_Some in Hn as [_ Hn]. eauto.
Qed.
End rules.

Lemma does_ask a s Q : (let r := av_answer s a (length (av_asked s)) in Q r (s <| av_asked := av_asked s ++ [(a, r)] |>)) → does (av_ask a) s Q.
Proof. done. Qed.

Definition packet_of (msg : MSIMessage) : bytes := MSI_PACKET_ID :: message_bytes (default REQU_INIT (msg_request msg)) msg.

Lemma do_send f msg s Q : is_Some (msg_request msg) →
  (∀ x log, (healthy s → ∀ g, delivered g log = delivered g (av_asked s) ++ (if g =? f then [packet_of msg] else [])) → Q x (s <| av_asked := log |>)) →
  does (send_message f msg) s Q.
Proof.
  intros [r Hr] HQ. unfold send_message. rewrite Hr. apply does_bind. unfold m_msi_packet. apply does_bind, does_ask. cbv zeta.
  set (r1 := av_answer s AAlloc _). destruct (Z.eqb_spec r1 0) as [E0|Hne].
  { apply does_ret, does_ret, HQ. intros Hh. by destruct (Hh (length (av_asked s))) as [Hh' _]. }
  apply does_bind, does_ask. cbv zeta. cbn [av_asked set_field]. set (r2 := av_answer _ (ASend _ _) _). apply does_ret, does_ret, HQ.
  intros Hh g. destruct (Hh (length (av_asked s ++ [(AAlloc, r1)]))) as (_ & _ & Hs). assert (r2 = 0) as E2 by apply Hs. clearbody r2. subst r2.
  rewrite !delivered_app, <- app_assoc. f_equal. unfold packet_of. rewrite Hr. unfold delivered. cbn -[message_bytes]. rewrite (Z.eqb_sym f g), andb_true_r. by destruct (g =? f).
Qed.

(** What the session changes of the state. *)
Definition msi_only (s s' : Tox_Av) : Prop :=
  ∃ log q t, s' = s <| av_asked := log |> <| av_fresh := q |> <| av_msi := t |> ∧ (av_fresh s <= q)%positive.

Lemma do_new_call f s m Q : msi_holds s m → m !! f = None → 0 <= f < UINT32_MAX →
  (∀ s', msi_holds s' m → stays s s' → (∀ g, delivered g (av_asked s') = delivered g (av_asked s)) → msi_only s s' → ¬ healthy s → Q None s') →
  (∀ s' p, msi_holds s' (<[f := (p, zero_msi_call f)]> m) → stays s s' → (∀ g, delivered g (av_asked s') = delivered g (av_asked s)) → msi_only s s' → Q (Some p) s') →
  does (new_call f) s Q.
Proof.
  intros Hm Hf Hr HN HS. unfold new_call. apply does_bind, does_ask. cbv zeta. set (r1 := av_answer s AAlloc _). set (log1 := av_asked s ++ [(AAlloc, r1)]).
  assert (∀ g, delivered g log1 = delivered g (av_asked s)) as Hlog1 by (intros g; unfold log1; rewrite delivered_app; apply app_nil_r).
  destruct (Z.eqb_spec r1 0) as [E0|Hne].
  { apply does_ret, HN; [done|done|done|exists log1, (av_fresh s), (av_msi s); split; [done|lia]|]. intros Hh. by destruct (Hh (length (av_asked s))) as [Hh' _]. }
  apply does_bind. unfold new_msi_cell. unfold does at 1. cbv zeta. cbn [av_fresh set_field]. set (p := av_fresh s).
  set (s1 := s <| av_asked := log1 |> <| av_fresh := Pos.succ p |> <| av_msi := (av_msi s) <| t_heap := <[p := zero_msi_call f]> (t_heap (av_msi s)) |> |>).
  change (does (s ← reads (λ s, s); grow ← (if needs_array (av_msi s) f then av_ask AAlloc else mret 1);
    ok ← on_msi (link_call false (negb (grow =? 0)) (av_junk s) p f); if negb ok then on_msi (free_cell p);; mret None else mret (Some p)) s1 Q).
  apply does_bind, does_reads. apply does_bind.
  assert (t_heap (av_msi s) !! p = None) as Hp.
  { destruct (t_heap (av_msi s) !! p) eqn:E; [|done]. destruct Hm as [_ Hm]. assert (p < av_fresh s)%positive as Hlt by (apply Hm; by rewrite E). unfold p in Hlt. lia. }
  set (grown := λ (r : Z) s2, (r = 0 → ¬ healthy s) ∧ ∃ log, s2 = s1 <| av_asked := log |> ∧ ∀ g, delivered g log = delivered g (av_asked s)).
  apply (does_mono _ _ grown).
  { destruct (needs_array _ f).
    - apply does_ask. cbv zeta. split; [intros E Hh; apply (Hh (length (av_asked s1))); exact E|]. eexists. split; [done|]. intros g.
      rewrite delivered_app. change (av_asked s1) with log1. rewrite Hlog1. apply app_nil_r.
    - apply does_ret. split; [done|]. by exists log1. }
  intros grow s2 [Hgrow (log & -> & Hlog)]. apply does_bind. unfold does at 1, on_msi at 1.
  destruct (holds_link false (negb (grow =? 0)) (av_junk s1) (av_msi s) m f p (zero_msi_call f)) as (b & t' & E & Hb); [apply Hm|done|done|done|done|done|].
  change (av_msi (s1 <| av_asked := log |>)) with ((av_msi s) <| t_heap := <[p := zero_msi_call f]> (t_heap (av_msi s)) |>). rewrite E.
  destruct b; cbn [negb].
  - apply does_ret, HS; [|done|done|exists log, (Pos.succ p), t'; split; [done|unfold p; lia]]. split; [done|]. cbn. intros q (n & c & Hn)%(holds_cell t' _ q Hb). destruct (decide (n = f)) as [->|Hnf].
    + rewrite lookup_insert_eq in Hn. injection Hn as <- _. unfold p. lia.
    + rewrite lookup_insert_ne in Hn by done. assert (q < av_fresh s)%positive; [|unfold p; lia]. apply Hm. eapply holds_alive; [apply Hm|done].
  - destruct Hb as [Hg ->]. apply does_bind. unfold does at 1, on_msi at 1, free_cell. cbn [av_msi set_field]. cbn.
    erewrite run_fst; [|apply deref_ok; cbn; apply lookup_insert_eq]. unfold writes. apply does_ret, HN; [|done|done|eexists log, (Pos.succ p), _; split; [done|unfold p; lia]|].
    + cbn. assert (delete p (<[p := zero_msi_call f]> (t_heap (av_msi s))) = t_heap (av_msi s)) as -> by by rewrite delete_insert_id. split; cbn.
      * destruct Hm as [Hm _]. by destruct (av_msi s).
      * intros q Hq. apply Hm in Hq. unfold p. lia.
    + apply Hgrow. destruct (Z.eqb_spec grow 0); [done|discriminate].
Qed.

(** ** No packet and no call leads to a fault *)

(** Outside the code of the session every call was requested by one side. *)
Definition live m : Prop := map_Forall (λ _ x, mc_state x.2 ≠ MSI_CALL_INACTIVE) m.

Lemma live_insert m f p c : live (delete f m) → mc_state c ≠ MSI_CALL_INACTIVE → live (<[f := (p, c)]> m).
Proof.
  intros Hl Hc n x Hn. destruct (decide (n = f)) as [->|Hne].
  - rewrite lookup_insert_eq in Hn. by injection Hn as <-.
  - rewrite lookup_insert_ne in Hn by done. apply (Hl n). by rewrite lookup_delete_ne.
Qed.
Lemma live_delete m f : live m → live (delete f m).
Proof. intros Hl. by apply map_Forall_delete. Qed.
Lemma live_empty : live ∅.
Proof. apply map_Forall_empty. Qed.
#[export] Hint Resolve live_insert live_delete live_empty : msi.

(** Callbacks that may use the session as they like, but do not end the call they are
    called for. *)
Definition polite (callback : MSICallbackID → addr → AV Z) : Prop :=
  ∀ cb f p c s m, msi_holds s m → live m → m !! f = Some (p, c) →
    does (callback cb p) s (λ _ s', ∃ m' c', msi_holds s' m' ∧ live m' ∧ m' !! f = Some (p, c')).

(** The session is in order. *)
Definition sound (s : Tox_Av) : Prop := ∃ m, msi_holds s m ∧ live m.

Lemma set_fields (c : MSICall) pv nx : mc_friend_number (set_prev pv (set_next nx c)) = mc_friend_number c.
Proof. done. Qed.

Ltac links := by intros ? ? [].
(** The links of a cell that was read do not show in its other fields. *)
Ltac fields_of d :=
  repeat match goal with |- context [mc_state (set_prev ?pv (set_next ?nx d))] => change (mc_state (set_prev pv (set_next nx d))) with (mc_state d) end;
  repeat match goal with |- context [mc_friend_number (set_prev ?pv (set_next ?nx d))] => change (mc_friend_number (set_prev pv (set_next nx d))) with (mc_friend_number d) end;
  repeat match goal with |- context [mc_self_capabilities (set_prev ?pv (set_next ?nx d))] => change (mc_self_capabilities (set_prev pv (set_next nx d))) with (mc_self_capabilities d) end;
  repeat match goal with |- context [mc_peer_capabilities (set_prev ?pv (set_next ?nx d))] => change (mc_peer_capabilities (set_prev pv (set_next nx d))) with (mc_peer_capabilities d) end;
  repeat match goal with |- context [mc_error (set_prev ?pv (set_next ?nx d))] => change (mc_error (set_prev pv (set_next nx d))) with (mc_error d) end.

Section polite.
Context (callback : MSICallbackID → addr → AV Z) (Hpol : polite callback).

Lemma do_invoke cb f p c s m Q : msi_holds s m → live m → m !! f = Some (p, c) →
  (∀ r s' m' c', msi_holds s' m' → live m' → m' !! f = Some (p, c') → Q r s') → does (invoke_callback callback p cb) s Q.
Proof using Hpol.
  intros Hm Hl Hf HQ. unfold invoke_callback. apply does_bind. eapply do_deref; [done..|]. intros _ _. apply does_bind, does_reads, does_bind.
  apply (does_mono _ _ (λ _ s', ∃ m' c', msi_holds s' m' ∧ live m' ∧ m' !! f = Some (p, c'))).
  { destruct (av_callbacks s cb); [by eapply Hpol|]. apply does_ret. eauto. }
  intros r s' (m' & c' & Hm' & Hl' & Hf'). destruct (r =? 0); [eapply does_ret, HQ; eauto|]. apply does_bind. eapply do_deref; [done..|]. intros pv nx. apply does_bind.
  destruct (bool_decide _); [|apply does_ret, does_ret; eauto]. eapply do_set; [done|done|links|]. intros t Ht. apply does_ret. eapply HQ; [done| |by rewrite lookup_insert_eq].
  apply live_insert; [by apply live_delete|]. exact (Hl' _ _ Hf').
Qed.

Lemma do_failure f p c s m Q : msi_holds s m → m !! f = Some (p, c) → (∀ s', msi_holds s' (delete f m) → Q tt s') → does (handle_failure p) s Q.
Proof using.
  intros Hm Hf HQ. unfold handle_failure. apply does_bind. eapply do_deref; [done..|]. intros pv nx. apply does_bind. unfold send_error. apply does_bind, do_send; [by eexists|].
  intros _ log _. apply does_ret. eapply (do_kill (s <| av_asked := log |>)); [exact Hm|done|]. intros t Ht. by apply HQ.
Qed.

(** The end of a handler after a callback, and after an error. *)
Lemma invoke_or_fail cb f p c s m (rest : AV unit) : msi_holds s m → live m → m !! f = Some (p, c) →
  (∀ s' m' c', msi_holds s' m' → live m' → m' !! f = Some (p, c') → does rest s' (λ _ s'', sound s'')) →
  does (r ← invoke_callback callback p cb; if r =? -1 then handle_failure p else rest) s (λ _ s', sound s').
Proof using Hpol.
  intros Hm Hl Hf Hrest. apply does_bind. eapply do_invoke; [done..|]. intros r s' m' c' Hm' Hl' Hf'. destruct (r =? -1); [|by eapply Hrest].
  eapply do_failure; [done..|]. intros s'' Hs''. exists (delete f m'). eauto with msi.
Qed.

Lemma set_and_fail g f p c s m : msi_holds s m → live (delete f m) → m !! f = Some (p, c) → link_free g →
  does (set_call p g;; handle_failure p) s (λ _ s', sound s').
Proof using.
  intros Hm Hl Hf Hg. apply does_bind. eapply do_set; [done..|]. intros t Ht. eapply do_failure; [done|by rewrite lookup_insert_eq|].
  intros s' Hs'. rewrite delete_insert_eq in Hs'. by exists (delete f m).
Qed.

Lemma send_push_sound f p c s m : msi_holds s m → live m → m !! f = Some (p, c) → does (send_push p) s (λ _ s', sound s').
Proof using.
  intros Hm Hl Hf. unfold send_push. apply does_bind. eapply do_deref; [done..|]. intros pv nx. apply does_bind, do_send; [by eexists|].
  intros _ log _. apply does_ret. by exists m.
Qed.

Lemma handle_init_sound f p c s m msg : msi_holds s m → live (delete f m) → m !! f = Some (p, c) → does (handle_init callback p msg) s (λ _ s', sound s').
Proof using Hpol.
  intros Hm Hl Hf. unfold handle_init. destruct (msg_capabilities msg) as [caps|]; [|eapply set_and_fail; [done..|links]].
  apply does_bind. eapply do_deref; [done..|]. intros pv nx. cbn [mc_state set_field]. cbn.
  assert (mc_state c ≠ MSI_CALL_INACTIVE → live m) as Hlm by (intros Hc; rewrite <- (insert_id m f (p, c)) by done; by apply live_insert).
  destruct (mc_state c) eqn:Ec.
  - apply does_bind. eapply do_set; [done|done|links|]. intros t Ht. eapply invoke_or_fail; [done| |by rewrite lookup_insert_eq|].
    { by apply live_insert. }
    intros s' m' c' Hm' Hl' _. apply does_ret. by exists m'.
  - eapply send_push_sound; eauto.
  - apply does_bind. eapply do_set; [done|done|links|]. intros t Ht. eapply invoke_or_fail; [done| |by rewrite lookup_insert_eq|].
    { by apply live_insert. }
    intros s' m' c' Hm' Hl' Hf'. by eapply send_push_sound.
  - eapply set_and_fail; [done..|links].
Qed.

Lemma handle_push_sound f p c s m msg : msi_holds s m → live m → m !! f = Some (p, c) → does (handle_push callback p msg) s (λ _ s', sound s').
Proof using Hpol.
  intros Hm Hl Hf. unfold handle_push. destruct (msg_capabilities msg) as [caps|]; [|eapply set_and_fail; [done|by apply live_delete|done|links]].
  apply does_bind. eapply do_deref; [done..|]. intros pv nx. cbn [mc_state set_field]. cbn.
  assert (∀ s' m' c', msi_holds s' m' → live m' → m' !! f = Some (p, c') → does (mret tt) s' (λ _ s'', sound s'')) as Hret.
  { intros s' m' c' Hm' Hl' _. apply does_ret. by exists m'. }
  destruct (mc_state c) eqn:Ec; try (eapply Hret; eassumption).
  - destruct (negb _); [|by eapply Hret]. apply does_bind. eapply do_set; [done|done|links|]. intros t Ht. eapply invoke_or_fail; [done| |by rewrite lookup_insert_eq|done].
    apply live_insert; [by apply live_delete|]. cbn. by rewrite Ec.
  - apply does_bind. eapply do_set; [done|done|links|]. intros t Ht. eapply invoke_or_fail; [done| |by rewrite lookup_insert_eq|done].
    by apply live_insert; [apply live_delete|].
Qed.

Lemma handle_pop_sound f p c s m msg : msi_holds s m → live m → m !! f = Some (p, c) → does (handle_pop callback p msg) s (λ _ s', sound s').
Proof using Hpol.
  intros Hm Hl Hf. unfold handle_pop. apply does_bind.
  apply (does_mono _ _ (λ _ s', ∃ m' c', msi_holds s' m' ∧ live m' ∧ m' !! f = Some (p, c'))).
  - destruct (msg_error msg) as [e|].
    + apply does_bind. eapply do_set; [done|done|links|]. intros t Ht. apply does_bind. eapply do_invoke; [done| |by rewrite lookup_insert_eq|].
      { apply live_insert; [by apply live_delete|]. exact (Hl _ _ Hf). }
      intros r s' m' c' Hm' Hl' Hf'. apply does_ret. eauto.
    + apply does_bind. eapply do_deref; [done..|]. intros pv nx. cbn [mc_state set_field]. cbn. pose proof (Hl _ _ Hf) as Hc. cbn in Hc.
      destruct (mc_state c); [done| | |]; apply does_bind; (eapply do_invoke; [done..|]); intros r s' m' c' Hm' Hl' Hf'; apply does_ret; eauto.
  - intros [] s' (m' & c' & Hm' & Hl' & Hf'). eapply do_kill; [done..|]. intros t Ht. exists (delete f m'). eauto with msi.
Qed.

Lemma handle_msi_packet_sound f data s : 0 <= f < UINT32_MAX → zlen data < 2 ^ 16 → sound s → does (handle_msi_packet callback f data) s (λ _ s', sound s').
Proof using Hpol.
  intros Hf Hlen (m & Hm & Hl). unfold handle_msi_packet. destruct (Z.ltb_spec (zlen data) 2) as [|H2]; [apply does_ret; by exists m|].
  apply does_bind, does_reads. destruct (negb (av_listening s)); [apply does_ret; by exists m|]. rewrite u16_small by lia.
  destruct (msg_parse_in_total (drop 1 data) (zlen data - 1)) as [r ->]; [unfold zlen in *; rewrite length_drop; lia|].
  destruct r as [msg|]; [|apply does_bind; unfold send_error; apply does_bind, do_send; [by eexists|]; intros _ log _; do 2 apply does_ret; by exists m].
  apply does_bind. eapply do_get_call; [done|lia|]. destruct (m !! f) as [[p c]|] eqn:Ef; cbn [fmap option_fmap option_map fst].
  - destruct (msg_request msg) as [[]|]; [by eapply handle_init_sound; eauto with msi|by eapply handle_push_sound|by eapply handle_pop_sound|apply does_ret; by exists m].
  - destruct (bool_decide_reflect (msg_request msg = Some REQU_INIT)) as [->|]; cbn [negb]; [|apply does_ret; by exists m].
    apply does_bind. eapply do_new_call; [done|done|done| |].
    + intros s' Hm' _ _ _ _. apply does_bind. unfold send_error. apply does_bind, do_send; [by eexists|]. intros _ log _. do 2 apply does_ret. by exists m.
    + intros s' p Hm' _ _ _. eapply handle_init_sound; [done| |by rewrite lookup_insert_eq]. rewrite delete_insert_eq. by apply live_delete.
Qed.

Lemma check_peer_offline_sound f s : 0 <= f → sound s → does (check_peer_offline_status callback f) s (λ _ s', sound s').
Proof using Hpol.
  intros Hf (m & Hm & Hl). unfold check_peer_offline_status. apply does_bind, does_ask. cbv zeta. destruct (_ =? 0); [|apply does_ret; by exists m].
  apply does_bind. eapply (do_get_call (s <| av_asked := _ |>)); [exact Hm|lia|]. destruct (m !! f) as [[p c]|] eqn:Ef; cbn [fmap option_fmap option_map fst]; [|apply does_ret; by exists m].
  apply does_bind. eapply (do_invoke _ _ _ _ (s <| av_asked := _ |>)); [exact Hm|done..|]. intros r s' m' c' Hm' Hl' Hf'. apply does_bind. eapply do_kill; [done..|].
  intros t Ht. apply does_ret. exists (delete f m'). eauto with msi.
Qed.
End polite.

(** ** A call as its two sides see it *)

(** The state of a call, the capabilities of the peer and our own. *)
Definition Side : Type := option (MSICallState * Z * Z).
Definition side_of (x : option (addr * MSICall)) : Side := (λ y, (mc_state y.2, mc_peer_capabilities y.2, mc_self_capabilities y.2)) <$> x.

Definition msg_with (r : MSIRequest) (c : Z) : MSIMessage := (msg_init r) <| msg_capabilities := Some c |>.
Definition msg_fail (e : MSIError) : MSIMessage := (msg_init REQU_POP) <| msg_error := Some e |>.

(** What a message of the friend does to a call, and what is sent in return. *)
Definition on_message (x : Side) (msg : MSIMessage) : Side * list MSIMessage :=
  match msg_request msg with
  | Some REQU_INIT =>
      match msg_capabilities msg, x with
      | None, _ => (None, [msg_fail MSI_E_INVALID_MESSAGE])
      | Some c, None => (Some (MSI_CALL_REQUESTED, c, 0), [])
      | Some c, Some (MSI_CALL_REQUESTING, _, self) => (Some (MSI_CALL_ACTIVE, c, self), [msg_with REQU_PUSH self])
      | Some c, Some (MSI_CALL_ACTIVE, peer, self) => (x, [msg_with REQU_PUSH self])
      | Some c, Some _ => (None, [msg_fail MSI_E_INVALID_STATE])
      end
  | Some REQU_PUSH =>
      match msg_capabilities msg, x with
      | _, None => (None, [])
      | None, Some _ => (None, [msg_fail MSI_E_INVALID_MESSAGE])
      | Some c, Some (MSI_CALL_ACTIVE, _, self) => (Some (MSI_CALL_ACTIVE, c, self), [])
      | Some c, Some (MSI_CALL_REQUESTING, _, self) => (Some (MSI_CALL_ACTIVE, c, self), [])
      | Some c, Some _ => (x, [])
      end
  | Some REQU_POP => (None, [])
  | None => (x, [])
  end.

(** What we do with a call ourselves. *)
Inductive Local := Invite (capabilities : Z) | Answer (capabilities : Z) | Change (capabilities : Z) | Hangup.

Definition on_local (x : Side) (o : Local) : Side * list MSIMessage :=
  match o, x with
  | Invite c, None => (Some (MSI_CALL_REQUESTING, 0, c), [msg_with REQU_INIT c])
  | Answer c, Some (MSI_CALL_REQUESTED, peer, _) => (Some (MSI_CALL_ACTIVE, peer, c), [msg_with REQU_PUSH c])
  | Change c, Some (MSI_CALL_ACTIVE, peer, _) => (Some (MSI_CALL_ACTIVE, peer, c), [msg_with REQU_PUSH c])
  | Hangup, Some _ => (None, [msg_init REQU_POP])
  | _, _ => (x, [])
  end.

(** The same with the functions of the session. *)
Definition run_local (f : Z) (o : Local) : AV unit :=
  match o with
  | Invite c => msi_invite f c;; mret tt
  | Answer c => call ← get_call f; msi_answer call c;; mret tt
  | Change c => call ← get_call f; msi_change_capabilities call c;; mret tt
  | Hangup => call ← get_call f; msi_hangup call;; mret tt
  end.

(** A step of the session that concerned the friend [f]: the other calls are as they
    were, and if everything it asked for worked, the call and the packets are [r]. *)
Definition stepped (f : Z) (s : Tox_Av) (m : gmap Z (addr * MSICall)) (r : Side * list MSIMessage) (s' : Tox_Av) : Prop :=
  ∃ m', msi_holds s' m' ∧ stays s s' ∧ (live m → live m') ∧ (∀ k, k ≠ f → m' !! k = m !! k) ∧
    (healthy s → side_of (m' !! f) = r.1 ∧
       ∀ g, delivered g (av_asked s') = delivered g (av_asked s) ++ (if g =? f then packet_of <$> r.2 else [])).

Lemma stepped_id f s m : msi_holds s m → stepped f s m (side_of (m !! f), []) s.
Proof. intros Hm. exists m. do 4 (split; [done|]). intros _. split; [done|]. intros g. cbn. by destruct (g =? f); rewrite app_nil_r. Qed.

(** Before and after the part of a function that does the work. *)
Lemma stepped_log f s m log r s' : (∀ g, delivered g log = delivered g (av_asked s)) → stepped f (s <| av_asked := log |>) m r s' → stepped f s m r s'.
Proof. intros Hlog (m' & H1 & H2 & H3 & H4 & H5). exists m'. do 4 (split; [done|]). intros Hh. destruct (H5 Hh) as [H6 H7]. split; [done|]. intros g. by rewrite H7, <- Hlog. Qed.

Lemma delivered_lock g log n : delivered g (log ++ [(ATryLock, n)]) = delivered g log.
Proof. rewrite delivered_app. apply app_nil_r. Qed.

(** The lock that the functions take. *)
Lemma do_lock {A} (x : A) (rest : AV A) f s m r :
  msi_holds s m →
  (∀ s1, msi_holds s1 m → stays s s1 → (∀ g, delivered g (av_asked s1) = delivered g (av_asked s)) →
     does rest s1 (λ _ s', stepped f s1 m r s')) →
  does (locked ← av_ask ATryLock; if negb (locked =? 0) then mret x else rest) s (λ _ s', stepped f s m r s').
Proof.
  intros Hm Hrest. apply does_bind, does_ask. cbv zeta. set (n := av_answer s ATryLock _). destruct (Z.eqb_spec n 0) as [E|Hne]; cbn [negb].
  - eapply does_mono; [apply Hrest; [done|done|intros g; apply delivered_lock]|]. intros ? s'. apply (stepped_log _ s m (av_asked s ++ [(ATryLock, n)])). intros g. apply delivered_lock.
  - apply does_ret. exists m. do 4 (split; [done|]). intros Hh. destruct (Hh (length (av_asked s))) as (_ & Hl & _). by rewrite <- Hl in Hne.
Qed.

(** A change of a call with a message about it, in the order of the code: the
    capabilities, the message, the state. *)
Definition set_self (capabilities : Z) (c : MSICall) : MSICall := c <| mc_self_capabilities := capabilities |>.
Definition set_state (st : MSICallState) (c : MSICall) : MSICall := c <| mc_state := st |>.

Lemma stepped_insert f s m p c msgs s' : msi_holds s' (<[f := (p, c)]> m) → stays s s' → mc_state c ≠ MSI_CALL_INACTIVE →
  (healthy s → ∀ k, delivered k (av_asked s') = delivered k (av_asked s) ++ (if k =? f then packet_of <$> msgs else [])) →
  stepped f s m (side_of (Some (p, c)), msgs) s'.
Proof.
  intros Hm Hs Hc Hlog. exists (<[f := (p, c)]> m). split; [done|]. split; [done|]. split; [intros Hl; apply live_insert; [by apply live_delete|done]|].
  split; [intros k Hk; by rewrite lookup_insert_ne|]. rewrite lookup_insert_eq. intros Hh. split; [done|]. by apply Hlog.
Qed.

Lemma stepped_delete f s m msgs s' : msi_holds s' (delete f m) → stays s s' →
  (healthy s → ∀ k, delivered k (av_asked s') = delivered k (av_asked s) ++ (if k =? f then packet_of <$> msgs else [])) →
  stepped f s m (None, msgs) s'.
Proof.
  intros Hm Hs Hlog. exists (delete f m). split; [done|]. split; [done|]. split; [apply live_delete|].
  split; [intros k Hk; by rewrite lookup_delete_ne|]. rewrite lookup_delete_eq. intros Hh. split; [done|]. by apply Hlog.
Qed.

Lemma msi_invite_step f c s m : msi_holds s m → 0 <= f < UINT32_MAX → does (msi_invite f c) s (λ _ s', stepped f s m (on_local (side_of (m !! f)) (Invite c)) s').
Proof.
  intros Hm Hf. unfold msi_invite. apply (do_lock None); [done|]. intros s1 Hm1 _ _.
  apply does_bind. eapply do_get_call; [done|lia|]. destruct (m !! f) as [[p d]|] eqn:Ef; cbn [fmap option_fmap option_map fst].
  { apply does_ret. pose proof (stepped_id f s1 m Hm1) as H. by rewrite Ef in H. }
  apply does_bind. eapply do_new_call; [done..| |].
  { intros s2 Hm2 Hs2 Hl2 _ Hh. apply does_ret. exists m. do 4 (split; [done|]). intros Hh'. by destruct (Hh Hh'). }
  intros s2 p Hm2 Hs2 Hl2 _. apply does_bind. eapply do_set; [done|by rewrite lookup_insert_eq|links|]. intros t Ht. rewrite insert_insert_eq in Ht.
  apply does_bind, do_send; [by eexists|]. intros _ log Hlog. apply does_bind.
  eapply (do_set (s2 <| av_msi := t |> <| av_asked := log |>)); [exact Ht|by rewrite lookup_insert_eq|links|]. intros t' Ht'. rewrite insert_insert_eq in Ht'.
  apply does_ret. eapply (stepped_insert f s1 m p (set_state MSI_CALL_REQUESTING (set_self c (zero_msi_call f))) [msg_with REQU_INIT c]); [exact Ht'|exact Hs2|done|].
  intros Hh k. cbn [av_asked set_field]. cbn. rewrite Hlog by (by eapply stays_healthy). cbn. by rewrite Hl2.
Qed.

Lemma msi_answer_step f c s m : msi_holds s m → 0 <= f → does (call ← get_call f; msi_answer call c) s (λ _ s', stepped f s m (on_local (side_of (m !! f)) (Answer c)) s').
Proof.
  intros Hm Hf. apply does_bind. eapply do_get_call; [done..|]. pose proof (stepped_id f s m Hm) as Hid. destruct (m !! f) as [[p d]|] eqn:Ef; cbn [fmap option_fmap option_map fst]; [|done].
  unfold msi_answer. apply does_bind. eapply do_deref; [done..|]. intros _ _. apply (do_lock (-1)); [done|]. intros s1 Hm1 _ _.
  pose proof (stepped_id f s1 m Hm1) as Hid1. rewrite Ef in Hid1. clear Hid.
  apply does_bind. eapply do_deref; [done..|]. intros pv nx. fields_of d. destruct (bool_decide_reflect (mc_state d = MSI_CALL_REQUESTED)) as [E|Hne]; cbn [negb].
  2:{ apply does_ret. cbn in Hid1 |- *. by destruct (mc_state d). }
  assert (on_local (side_of (Some (p, d))) (Answer c) = (Some (MSI_CALL_ACTIVE, mc_peer_capabilities d, c), [msg_with REQU_PUSH c])) as -> by (cbn; by rewrite E).
  apply does_bind. eapply do_set; [done|done|links|]. intros t Ht. apply does_bind, do_send; [by eexists|]. intros _ log Hlog. apply does_bind.
  eapply (do_set (s1 <| av_msi := t |> <| av_asked := log |>)); [exact Ht|by rewrite lookup_insert_eq|links|]. intros t' Ht'. rewrite insert_insert_eq in Ht'.
  apply does_ret. apply (stepped_insert f s1 m p (set_state MSI_CALL_ACTIVE (set_self c d)) [msg_with REQU_PUSH c]); [exact Ht'|done|done|].
  intros Hh k. cbn. rewrite Hlog by done. cbn. destruct (holds_num (av_msi s1) m f p d) as [En _]; [apply Hm1|done|]. cbn in En. by rewrite En.
Qed.

Lemma msi_change_step f c s m : msi_holds s m → 0 <= f →
  does (call ← get_call f; msi_change_capabilities call c) s (λ _ s', stepped f s m (on_local (side_of (m !! f)) (Change c)) s').
Proof.
  intros Hm Hf. apply does_bind. eapply do_get_call; [done..|]. pose proof (stepped_id f s m Hm) as Hid. destruct (m !! f) as [[p d]|] eqn:Ef; cbn [fmap option_fmap option_map fst]; [|done].
  unfold msi_change_capabilities. apply does_bind. eapply do_deref; [done..|]. intros _ _. apply (do_lock (-1)); [done|]. intros s1 Hm1 _ _.
  pose proof (stepped_id f s1 m Hm1) as Hid1. rewrite Ef in Hid1. clear Hid.
  apply does_bind. eapply do_deref; [done..|]. intros pv nx. fields_of d. destruct (bool_decide_reflect (mc_state d = MSI_CALL_ACTIVE)) as [E|Hne]; cbn [negb].
  2:{ apply does_ret. cbn in Hid1 |- *. by destruct (mc_state d). }
  assert (on_local (side_of (Some (p, d))) (Change c) = (Some (MSI_CALL_ACTIVE, mc_peer_capabilities d, c), [msg_with REQU_PUSH c])) as -> by (cbn; by rewrite E).
  apply does_bind. eapply do_set; [done|done|links|]. intros t Ht. apply does_bind, do_send; [by eexists|]. intros _ log Hlog.
  apply does_ret. assert (side_of (Some (p, set_self c d)) = Some (MSI_CALL_ACTIVE, mc_peer_capabilities d, c)) as <- by (cbn; by rewrite E).
  apply (stepped_insert f s1 m p (set_self c d) [msg_with REQU_PUSH c]); [exact Ht|done|cbn; by rewrite E|].
  intros Hh k. cbn. rewrite Hlog by done. cbn. destruct (holds_num (av_msi s1) m f p d) as [En _]; [apply Hm1|done|]. cbn in En. by rewrite En.
Qed.

Lemma msi_hangup_step f s m : msi_holds s m → live m → 0 <= f →
  does (call ← get_call f; msi_hangup call) s (λ _ s', stepped f s m (on_local (side_of (m !! f)) Hangup) s').
Proof.
  intros Hm Hl Hf. apply does_bind. eapply do_get_call; [done..|]. pose proof (stepped_id f s m Hm) as Hid. destruct (m !! f) as [[p d]|] eqn:Ef; cbn [fmap option_fmap option_map fst]; [|done].
  unfold msi_hangup. apply does_bind. eapply do_deref; [done..|]. intros _ _. apply (do_lock (-1)); [done|]. intros s1 Hm1 _ _. clear Hid.
  apply does_bind. eapply do_deref; [done..|]. intros pv nx. fields_of d. pose proof (Hl _ _ Ef) as Hd. cbn in Hd.
  destruct (bool_decide_reflect (mc_state d = MSI_CALL_INACTIVE)); [done|]. apply does_bind, do_send; [by eexists|]. intros _ log Hlog. apply does_bind.
  eapply (do_kill (s1 <| av_asked := log |>)); [exact Hm1|done|]. intros t Ht. apply does_ret. apply (stepped_delete f s1 m [msg_init REQU_POP]); [exact Ht|done|].
  intros Hh k. cbn. rewrite Hlog by done. cbn. destruct (holds_num (av_msi s1) m f p d) as [En _]; [apply Hm1|done|]. cbn in En. by rewrite En.
Qed.

Lemma run_local_step f o s m : msi_holds s m → live m → 0 <= f < UINT32_MAX → does (run_local f o) s (λ _ s', stepped f s m (on_local (side_of (m !! f)) o) s').
Proof.
  intros Hm Hl Hf. assert (∀ {A} (x : AV A) Q, does x s (λ _ s', Q s') → does (x;; mret tt) s (λ _ s', Q s')) as Hseq by (intros A x Q Hx; by apply does_bind).
  destruct o as [c|c|c|]; cbn [run_local].
  - by apply (Hseq _ (msi_invite f c)), msi_invite_step.
  - eapply does_bind_assoc, Hseq, msi_answer_step; [done|lia].
  - eapply does_bind_assoc, Hseq, msi_change_step; [done|lia].
  - eapply does_bind_assoc, Hseq, msi_hangup_step; [done|done|lia].
Qed.

(** *** Packets of friends *)

(** Callbacks that accept what they are told and leave the calls as they are, but for
    what does not show on the other side. *)
Definition attentive (callback : MSICallbackID → addr → AV Z) : Prop :=
  ∀ cb f p c s m, msi_holds s m → live m → m !! f = Some (p, c) →
    does (callback cb p) s (λ r s', r = 0 ∧ stays s s' ∧ (∀ g, delivered g (av_asked s') = delivered g (av_asked s)) ∧
      ∃ c', msi_holds s' (<[f := (p, c')]> m) ∧ side_of (Some (p, c')) = side_of (Some (p, c))).

Lemma stepped_chain f s m p c s1 r s2 : msi_holds s1 (<[f := (p, c)]> m) → stays s s1 → (∀ g, delivered g (av_asked s1) = delivered g (av_asked s)) →
  live (delete f m) → mc_state c ≠ MSI_CALL_INACTIVE → stepped f s1 (<[f := (p, c)]> m) r s2 → stepped f s m r s2.
Proof.
  intros H1 H2 H3 Hl Hc (m' & G1 & G2 & G3 & G4 & G5). exists m'. split; [done|]. split; [by eapply stays_trans|]. split; [intros _; apply G3; by apply live_insert|].
  split; [intros k Hk; rewrite G4 by done; by rewrite lookup_insert_ne|]. intros Hh. destruct G5 as [G5 G6]; [by eapply stays_healthy|]. split; [done|]. intros g. by rewrite G6, H3.
Qed.

Lemma attentive_polite callback : attentive callback → polite callback.
Proof.
  intros Ha cb f p c s m Hm Hl Hf. eapply does_mono; [by eapply Ha|]. cbn beta. intros r s' (_ & _ & _ & c' & Hm' & Hc'). exists (<[f := (p, c')]> m), c'.
  split; [done|]. split; [|by rewrite lookup_insert_eq]. apply live_insert; [by apply live_delete|]. cbn in Hc'. injection Hc' as -> _ _. exact (Hl _ _ Hf).
Qed.

(** Whether the calls are live does not depend on the map. *)
Lemma live_unique s m m' : msi_holds s m → msi_holds s m' → live m → live m'.
Proof.
  intros [Hm _] [Hm' _] Hl n [p c] Hn. destruct (holds_deref _ _ _ _ _ Hm' Hn) as (pv & nx & E). destruct (holds_cell _ _ p Hm) as (k & d & Hk); [by eapply holds_alive|].
  destruct (holds_deref _ _ _ _ _ Hm Hk) as (pv' & nx' & E'). rewrite E in E'. injection E' as Hs _. cbn. rewrite Hs. exact (Hl _ _ Hk).
Qed.

Section attentive.
Context (callback : MSICallbackID → addr → AV Z) (Hatt : attentive callback).

Lemma do_attend cb f p c s m Q : av_callbacks s cb = true → msi_holds s m → live m → m !! f = Some (p, c) →
  (∀ s' c', msi_holds s' (<[f := (p, c')]> m) → stays s s' → (∀ g, delivered g (av_asked s') = delivered g (av_asked s)) →
     side_of (Some (p, c')) = side_of (Some (p, c)) → Q 0 s') → does (invoke_callback callback p cb) s Q.
Proof using Hatt.
  intros Hcb Hm Hl Hf HQ. unfold invoke_callback. apply does_bind. eapply do_deref; [done..|]. intros _ _. apply does_bind, does_reads, does_bind. rewrite Hcb.
  eapply does_mono; [by eapply Hatt|]. cbn beta. intros r s' (-> & Hs & Hd & c' & Hm' & Hc'). cbn. by apply (HQ s' c').
Qed.

Lemma failure_step f p c s m : msi_holds s m → m !! f = Some (p, c) → does (handle_failure p) s (λ _ s', stepped f s m (None, [msg_fail (mc_error c)]) s').
Proof using.
  intros Hm Hf. unfold handle_failure. apply does_bind. eapply do_deref; [done..|]. intros pv nx. fields_of c. apply does_bind. unfold send_error. apply does_bind, do_send; [by eexists|].
  intros _ log Hlog. apply does_ret. eapply (do_kill (s <| av_asked := log |>)); [exact Hm|done|]. intros t Ht. apply (stepped_delete f s m [_]); [exact Ht|done|].
  intros Hh k. cbn. rewrite Hlog by done. destruct (holds_num (av_msi s) m f p c) as [En _]; [apply Hm|done|]. cbn in En. by rewrite En.
Qed.

Lemma send_push_step f p c s m : msi_holds s m → m !! f = Some (p, c) →
  does (send_push p) s (λ _ s', stepped f s m (side_of (Some (p, c)), [msg_with REQU_PUSH (mc_self_capabilities c)]) s').
Proof using.
  intros Hm Hf. unfold send_push. apply does_bind. eapply do_deref; [done..|]. intros pv nx. fields_of c. apply does_bind, do_send; [by eexists|]. intros _ log Hlog.
  apply does_ret. exists m. do 4 (split; [done|]). intros Hh. rewrite Hf. split; [done|]. intros g. cbn. rewrite Hlog by done.
  destruct (holds_num (av_msi s) m f p c) as [En _]; [apply Hm|done|]. cbn in En. by rewrite En.
Qed.

Lemma set_and_fail_step e f p c s m : msi_holds s m → live (delete f m) → m !! f = Some (p, c) →
  does (set_call p (λ c, c <| mc_error := e |>);; handle_failure p) s (λ _ s', stepped f s m (None, [msg_fail e]) s').
Proof using.
  intros Hm Hl Hf. apply does_bind. eapply do_set; [done|done|links|]. intros t Ht. eapply does_mono; [eapply failure_step; [done|by rewrite lookup_insert_eq]|].
  cbn beta. intros [] s' (m' & G1 & G2 & G3 & G4 & G5). exists m'. split; [done|]. split; [done|]. split.
  { intros Hl'. apply G3. apply live_insert; [done|]. exact (Hl' _ _ Hf). }
  split; [intros k Hk; rewrite G4 by done; by rewrite lookup_insert_ne|]. intros Hh. by apply G5.
Qed.

(** A change of the call, the callback, and what follows. *)
Lemma set_and_attend cb g msgs f p c s m (rest : AV unit) : (∀ cb, av_callbacks s cb = true) → msi_holds s m → live (delete f m) → m !! f = Some (p, c) → link_free g →
  mc_state (g c) ≠ MSI_CALL_INACTIVE →
  (∀ s1 c1, msi_holds s1 (<[f := (p, c1)]> m) → side_of (Some (p, c1)) = side_of (Some (p, g c)) →
     does rest s1 (λ _ s', stepped f s1 (<[f := (p, c1)]> m) (side_of (Some (p, g c)), msgs) s')) →
  does (set_call p g;; r ← invoke_callback callback p cb; if r =? -1 then handle_failure p else rest) s (λ _ s', stepped f s m (side_of (Some (p, g c)), msgs) s').
Proof using Hatt.
  intros Hcb Hm Hl Hf Hg Hst Hrest. apply does_bind. eapply do_set; [done..|]. intros t Ht. apply does_bind. eapply do_attend; [apply Hcb|exact Ht|by apply live_insert|by rewrite lookup_insert_eq|].
  intros s' c' Hm' Hs' Hd' Hc'. rewrite insert_insert_eq in Hm'. cbn. eapply does_mono; [by apply Hrest|]. cbn beta. intros [] s'' Hs''. eapply stepped_chain; [done|done|done|done| |exact Hs''].
  cbn in Hc'. by injection Hc' as -> _ _.
Qed.

Lemma stepped_same f p c s m : msi_holds s m → m !! f = Some (p, c) → stepped f s m (side_of (Some (p, c)), []) s.
Proof using. intros Hm Hf. rewrite <- Hf. by apply stepped_id. Qed.

(** [x] is the call before the message: none for one that was just made. *)
Lemma handle_init_step f p c s m msg x : (∀ cb, av_callbacks s cb = true) → msi_holds s m → live (delete f m) → m !! f = Some (p, c) → msg_request msg = Some REQU_INIT →
  (if decide (mc_state c = MSI_CALL_INACTIVE) then x = None ∧ mc_self_capabilities c = 0 else x = side_of (Some (p, c))) →
  does (handle_init callback p msg) s (λ _ s', stepped f s m (on_message x msg) s').
Proof using Hatt.
  intros Hcb Hm Hl Hf Hr Hx. unfold handle_init, on_message. rewrite Hr. destruct (msg_capabilities msg) as [caps|]; [|by eapply set_and_fail_step].
  apply does_bind. eapply do_deref; [done..|]. intros pv nx. fields_of c. destruct (decide (mc_state c = MSI_CALL_INACTIVE)) as [Ec|Hne].
  - destruct Hx as [-> Hself]. rewrite Ec.
    assert (Some (MSI_CALL_REQUESTED, caps, 0) = side_of (Some (p, c <| mc_peer_capabilities := caps |> <| mc_state := MSI_CALL_REQUESTED |>))) as -> by (cbn; by rewrite Hself).
    apply (set_and_attend _ (λ c, c <| mc_peer_capabilities := caps |> <| mc_state := MSI_CALL_REQUESTED |>)); [done|done|done|done|links|done|]. intros s1 c1 Hs1 <-. apply does_ret, stepped_same; [done|by rewrite lookup_insert_eq].
  - rewrite Hx. cbn [side_of fmap option_fmap option_map snd]. destruct (mc_state c) eqn:Ec; [done| | |].
    + rewrite <- Ec. by apply send_push_step.
    + change (Some (MSI_CALL_ACTIVE, caps, mc_self_capabilities c)) with (side_of (Some (p, c <| mc_peer_capabilities := caps |> <| mc_state := MSI_CALL_ACTIVE |>))).
      apply (set_and_attend _ (λ c, c <| mc_peer_capabilities := caps |> <| mc_state := MSI_CALL_ACTIVE |>)); [done|done|done|done|links|done|]. intros s1 c1 Hs1 E. rewrite <- E. replace (mc_self_capabilities c) with (mc_self_capabilities c1) by (cbn in E; congruence).
      apply send_push_step; [done|by rewrite lookup_insert_eq].
    + by eapply set_and_fail_step.
Qed.

Lemma handle_push_step f p c s m msg : (∀ cb, av_callbacks s cb = true) → msi_holds s m → live m → m !! f = Some (p, c) → msg_request msg = Some REQU_PUSH →
  does (handle_push callback p msg) s (λ _ s', stepped f s m (on_message (side_of (Some (p, c))) msg) s').
Proof using Hatt.
  intros Hcb Hm Hl Hf Hr. unfold handle_push, on_message. rewrite Hr. destruct (msg_capabilities msg) as [caps|]; [|eapply set_and_fail_step; [done|by apply live_delete|done]].
  pose proof (stepped_same f p c s m Hm Hf) as Hsame. cbn [side_of fmap option_fmap option_map snd] in *.
  apply does_bind. eapply do_deref; [done..|]. intros pv nx. fields_of c. destruct (mc_state c) eqn:Ec; try (apply does_ret; exact Hsame).
  - destruct (Z.eqb_spec (mc_peer_capabilities c) caps) as [<-|]; cbn [negb]; [apply does_ret; exact Hsame|].
    assert (Some (MSI_CALL_ACTIVE, caps, mc_self_capabilities c) = side_of (Some (p, c <| mc_peer_capabilities := caps |>))) as -> by (cbn; by rewrite Ec).
    apply (set_and_attend _ (λ c, c <| mc_peer_capabilities := caps |>)); [done|done|by apply live_delete|done|links|cbn; by rewrite Ec|]. intros s1 c1 Hs1 <-. apply does_ret, stepped_same; [done|by rewrite lookup_insert_eq].
  - change (Some (MSI_CALL_ACTIVE, caps, mc_self_capabilities c)) with (side_of (Some (p, c <| mc_peer_capabilities := caps |> <| mc_state := MSI_CALL_ACTIVE |>))).
    apply (set_and_attend _ (λ c, c <| mc_peer_capabilities := caps |> <| mc_state := MSI_CALL_ACTIVE |>)); [done|done|by apply live_delete|done|links|done|]. intros s1 c1 Hs1 <-. apply does_ret, stepped_same; [done|by rewrite lookup_insert_eq].
Qed.

Lemma handle_pop_step f p c s m msg : (∀ cb, av_callbacks s cb = true) → msi_holds s m → live m → m !! f = Some (p, c) →
  does (handle_pop callback p msg) s (λ _ s', stepped f s m (None, []) s').
Proof using Hatt.
  intros Hcb Hm Hl Hf. unfold handle_pop. apply does_bind.
  apply (does_mono _ _ (λ _ s', ∃ c', msi_holds s' (<[f := (p, c')]> m) ∧ stays s s' ∧ ∀ g, delivered g (av_asked s') = delivered g (av_asked s))).
  - destruct (msg_error msg) as [e|].
    + apply does_bind. eapply do_set; [done|done|links|]. intros t Ht. apply does_bind. eapply do_attend; [apply Hcb|done| |by rewrite lookup_insert_eq|].
      { apply live_insert; [by apply live_delete|]. exact (Hl _ _ Hf). }
      intros s' c' Hm' Hs' Hd' _. rewrite insert_insert_eq in Hm'. apply does_ret. by exists c'.
    + apply does_bind. eapply do_deref; [done..|]. intros pv nx. fields_of c. pose proof (Hl _ _ Hf) as Hc. cbn in Hc.
      destruct (mc_state c); [done| | |]; apply does_bind; (eapply do_attend; [apply Hcb|done..|]); intros s' c' Hm' Hs' Hd' _; apply does_ret; by exists c'.
  - intros [] s' (c' & Hm' & Hs' & Hd'). eapply do_kill; [done|by rewrite lookup_insert_eq|]. intros t Ht. rewrite delete_insert_eq in Ht.
    apply stepped_delete; [done|done|]. intros _ k. cbn. rewrite Hd'. by destruct (k =? f); rewrite app_nil_r.
Qed.

Lemma message_short r msg : zlen (message_bytes r msg) <= 10.
Proof using. unfold message_bytes. destruct (msg_error msg), (msg_capabilities msg); cbn; unfold zlen; cbn; lia. Qed.

(** A message of a friend does to our call what [on_message] says. *)
Lemma handle_msi_packet_step f msg s m : (∀ cb, av_callbacks s cb = true) → av_listening s = true → msi_holds s m → live m → 0 <= f < UINT32_MAX →
  is_Some (msg_request msg) → does (handle_msi_packet callback f (packet_of msg)) s (λ _ s', stepped f s m (on_message (side_of (m !! f)) msg) s').
Proof using Hatt.
  intros Hcb Hli Hm Hl Hf [r Hr]. unfold handle_msi_packet, packet_of. rewrite Hr. cbn [default from_option id]. rewrite zlen_cons. pose proof (message_short r msg) as Hshort.
  assert (3 <= zlen (message_bytes r msg)) as Hlong by (unfold message_bytes, msg_parse_header_out, zlen; rewrite !length_app; cbn; lia).
  destruct (Z.ltb_spec (zlen (message_bytes r msg) + 1) 2); [lia|]. apply does_bind, does_reads. rewrite Hli. cbn [negb].
  replace (zlen (message_bytes r msg) + 1 - 1) with (zlen (message_bytes r msg)) by lia. rewrite u16_small by lia. rewrite skipn_cons, skipn_O, (message_roundtrip r msg Hr).
  apply does_bind. eapply do_get_call; [done|lia|]. pose proof (stepped_id f s m Hm) as Hid. destruct (m !! f) as [[p c]|] eqn:Ef; cbn [fmap option_fmap option_map fst].
  - pose proof (Hl _ _ Ef) as Hc. cbn in Hc. rewrite Hr. destruct r.
    + eapply handle_init_step; [done|done|by apply live_delete|done|done|]. by destruct (decide (mc_state c = MSI_CALL_INACTIVE)).
    + by apply handle_push_step.
    + unfold on_message. rewrite Hr. by eapply handle_pop_step.
  - rewrite Hr. destruct (bool_decide_reflect (Some r = Some REQU_INIT)) as [E|Hne]; cbn [negb].
    2:{ apply does_ret. unfold on_message. rewrite Hr. destruct r; [done| |done]. by destruct (msg_capabilities msg). }
    injection E as ->. apply does_bind. eapply do_new_call; [done|done|done| |].
    + intros s' Hm' Hs' Hd' _ Hh. apply does_bind. unfold send_error. apply does_bind, do_send; [by eexists|]. intros _ log _. do 2 apply does_ret.
      exists m. do 4 (split; [done|]). intros Hh'. by destruct (Hh Hh').
    + intros s' p Hm' Hs' Hd' _. eapply does_mono; [apply does_and|].
      * apply (handle_init_step f p (zero_msi_call f) s' (<[f := (p, zero_msi_call f)]> m) msg None);
          [intros cb; by rewrite (proj1 Hs')|done|rewrite delete_insert_eq; by apply live_delete|by rewrite lookup_insert_eq|done|by destruct (decide _)].
      * eapply (handle_init_sound _ (attentive_polite _ Hatt)); [done|rewrite delete_insert_eq; by apply live_delete|by rewrite lookup_insert_eq].
      * cbn beta. intros [] s'' [(m'' & G1 & G2 & G3 & G4 & G5) (m3 & Hm3 & Hl3)]. exists m''. split; [done|]. split; [by eapply stays_trans|].
        split; [intros _; by eapply live_unique|].
        split; [intros k Hk; rewrite G4 by done; by rewrite lookup_insert_ne|]. intros Hh. destruct G5 as [G5 G6]; [by eapply stays_healthy|]. split; [done|].
        intros g. by rewrite G6, Hd'.
Qed.
End attentive.
