(* ===== verification/MsiPair.v ===== *)
(** * MsiPair: calls between two peers

    Two sessions that exchange their packets in order, as a connection between friends
    does, agree about their call. *)
From S2P Require Import Prelude CallTable CallState Msi MsiSound.

(** ** Sessions on their own *)

Inductive Msi_Op :=
  | OpPacket (friend_number : Z) (data : bytes)     (** a packet of the friend arrives *)
  | OpLocal (friend_number : Z) (o : Local)
  | OpOffline (friend_number : Z).                  (** [check_peer_offline_status] *)

Definition run_op (callback : MSICallbackID → addr → AV Z) (o : Msi_Op) : AV unit :=
  match o with
  | OpPacket f data => handle_msi_packet callback f data
  | OpLocal f o => run_local f o
  | OpOffline f => check_peer_offline_status callback f;; mret tt
  end.

Fixpoint run_ops (callback : MSICallbackID → addr → AV Z) (ops : list Msi_Op) : AV unit :=
  match ops with
  | [] => mret tt
  | o :: ops' => run_op callback o;; run_ops callback ops'
  end.

(** A friend has a number that is not the greatest of 32 bits, and packets are not
    longer than 65535 bytes. *)
Definition op_ok (o : Msi_Op) : Prop :=
  match o with
  | OpPacket f data => 0 <= f < UINT32_MAX ∧ zlen data < 2 ^ 16
  | OpLocal f _ | OpOffline f => 0 <= f < UINT32_MAX
  end.

Lemma run_ops_sound callback ops : polite callback → Forall op_ok ops → ∀ s, sound s → does (run_ops callback ops) s (λ _ s', sound s').
Proof.
  intros Hpol. induction 1 as [|o ops Ho Hops IH]; intros s Hs; [exact Hs|]. cbn [run_ops]. apply does_bind.
  apply (does_mono _ _ (λ _ s', sound s')); [|intros [] s' Hs'; exact (IH s' Hs')]. destruct o as [f data|f o|f]; cbn [run_op op_ok] in *.
  - destruct Ho. by apply handle_msi_packet_sound.
  - destruct Hs as (m & Hm & Hl). eapply does_mono; [by apply run_local_step|]. intros [] s' (m' & Hm' & _ & Hl' & _). exists m'. eauto.
  - apply does_bind. eapply does_mono; [apply check_peer_offline_sound; [done|lia|done]|]. intros b s' Hs'. exact Hs'.
Qed.

(** A session on its own, under callbacks that do not end the call they are called for
    ([polite]) and uses that look the call of a friend up by its number.  The callbacks of
    [toxav.c] are not of this kind, and [toxav.c] keeps pointers to calls: for these see
    [AvSteps]. *)
Lemma polite_session_is_sound callback ops s : polite callback → Forall op_ok ops → sound s →
  ∃ s', run_ops callback ops s = Ok (tt, s') ∧ sound s'.
Proof.
  intros Hpol Hops Hs. pose proof (run_ops_sound callback ops Hpol Hops s Hs) as Hd. apply does_ok in Hd as ([] & s' & E & Hs'). by exists s'.
Qed.

(** ** Two sessions *)

Definition push (c : Z) : MSIMessage := msg_with REQU_PUSH c.
Definition init (c : Z) : MSIMessage := msg_with REQU_INIT c.
Definition pop : MSIMessage := msg_init REQU_POP.

Definition pushes (l : list MSIMessage) : Prop := Forall (λ x, ∃ c, x = push c) l.
(** Messages that do nothing to who has no call. *)
Definition strays (l : list MSIMessage) : Prop := Forall (λ x, x = pop ∨ ∃ c, x = push c) l.
(** The capabilities after the messages. *)
Definition last_cap (d : Z) (l : list MSIMessage) : Z := fold_left (λ d x, default d (msg_capabilities x)) l d.

Lemma pushes_strays l : pushes l → strays l.
Proof. intros Hl. eapply list.Forall_impl; [exact Hl|]. cbn. tauto. Qed.
Lemma last_cap_app d l x : last_cap d (l ++ [x]) = default (last_cap d l) (msg_capabilities x).
Proof. unfold last_cap. by rewrite fold_left_app. Qed.
Lemma pushes_snoc l c : pushes l → pushes (l ++ [push c]).
Proof. intros Hl. apply Forall_app. split; [done|]. apply list.Forall_cons. split; [by exists c|done]. Qed.
Lemma strays_snoc l c : strays l → strays (l ++ [push c]).
Proof. intros Hl. apply Forall_app. split; [done|]. apply list.Forall_cons. split; [right; by exists c|done]. Qed.
Lemma strays_pop l : strays l → strays (l ++ [pop]).
Proof. intros Hl. apply Forall_app. split; [done|]. apply list.Forall_cons. split; [by left|done]. Qed.
#[export] Hint Resolve pushes_strays pushes_snoc strays_snoc strays_pop : msi.

(** The states a call goes through: the side of the caller, its messages on the way, the
    side of who is called, its messages. *)
Inductive phase : Side → list MSIMessage → Side → list MSIMessage → Prop :=
  | ph_rest la lb : strays la → strays lb → phase None la None lb
  | ph_ring a q : phase (Some (MSI_CALL_REQUESTING, q, a)) [init a] None []
  | ph_rung a q r : phase (Some (MSI_CALL_REQUESTING, q, a)) [] (Some (MSI_CALL_REQUESTED, a, r)) []
  | ph_answered a b q c lb : pushes lb → last_cap c lb = b → phase (Some (MSI_CALL_REQUESTING, q, a)) [] (Some (MSI_CALL_ACTIVE, a, b)) (push c :: lb)
  | ph_talk a b a' b' la lb : pushes la → pushes lb → last_cap a' la = a → last_cap b' lb = b →
      phase (Some (MSI_CALL_ACTIVE, b', a)) la (Some (MSI_CALL_ACTIVE, a', b)) lb
  | ph_gone_ring a : phase None [init a; pop] None []
  | ph_gone_rung a r : phase None [pop] (Some (MSI_CALL_REQUESTED, a, r)) []
  | ph_gone la lb a b : pushes la → strays lb → phase None (la ++ [pop]) (Some (MSI_CALL_ACTIVE, a, b)) lb
  | ph_refused st q a la lb : pushes lb → strays la → st = MSI_CALL_REQUESTING ∨ st = MSI_CALL_ACTIVE → phase (Some (st, q, a)) la None (lb ++ [pop]).
#[export] Hint Constructors phase : msi.

(** Evaluates what a step does to a side. *)
Ltac evaluate :=
  cbn [on_local fst snd];
  repeat match goal with
    | |- context [msg_with REQU_PUSH ?c] => change (msg_with REQU_PUSH c) with (push c)
    | |- context [msg_with REQU_INIT ?c] => change (msg_with REQU_INIT c) with (init c)
    | |- context [msg_init REQU_POP] => change (msg_init REQU_POP) with pop
    end;
  rewrite ?app_nil_r.

Lemma answered_strays c lb : pushes lb → strays (push c :: lb).
Proof. intros Hl. apply list.Forall_cons. split; [right; by eexists|by apply pushes_strays]. Qed.
#[export] Hint Resolve answered_strays : msi.

(** What the caller does. *)
Lemma caller_local x la y lb o : phase x la y lb → (∀ c, o = Invite c → x = None → la = [] ∧ lb = [] ∧ y = None) →
  phase (on_local x o).1 (la ++ (on_local x o).2) y lb.
Proof.
  intros Hp Hi. destruct o as [c|c|c|].
  1:{ destruct x as [[[[] ?] ?]|]; try (evaluate; exact Hp). destruct (Hi c) as (-> & -> & ->); [done..|]. evaluate. constructor. }
  all: clear Hi; destruct Hp as [| | | | | | | |st q a la lb Hlb Hla [->| ->]]; evaluate; auto with msi.
  - apply ph_talk; [by apply pushes_snoc|done| |done]. by rewrite last_cap_app.
  - by apply ph_gone_ring.
  - apply (ph_gone []); [by constructor|]. by apply answered_strays.
Qed.

(** What who is called does. *)
Lemma callee_local x la y lb o : phase x la y lb → (∀ c, o ≠ Invite c) → phase x la (on_local y o).1 (lb ++ (on_local y o).2).
Proof.
  intros Hp Hi. destruct o as [c|c|c|]; [by destruct (Hi c)|..].
  all: clear Hi; destruct Hp as [| | | | | | | |st q a la lb Hlb Hla [->| ->]]; evaluate; auto with msi.
  - apply (ph_answered a c q c []); [by constructor|done].
  - apply (ph_gone []); [by constructor|]. apply answered_strays. by constructor.
  - apply ph_answered; [by apply pushes_snoc|]. by rewrite last_cap_app.
  - apply ph_talk; [done|by apply pushes_snoc|done|]. by rewrite last_cap_app.
  - apply (ph_refused MSI_CALL_REQUESTING q a [] []); [by constructor|by constructor|by left].
  - apply (ph_refused MSI_CALL_REQUESTING q a [] (push c :: lb)); [|by constructor|by left]. apply list.Forall_cons. split; [by eexists|done].
  - apply (ph_rest [pop] [pop]); apply (strays_pop []); by constructor.
Qed.

Lemma on_push_none c : on_message None (push c) = (None, []).
Proof. done. Qed.
Lemma on_push_active p a c : on_message (Some (MSI_CALL_ACTIVE, p, a)) (push c) = (Some (MSI_CALL_ACTIVE, c, a), []).
Proof. done. Qed.
Lemma on_push_requesting p a c : on_message (Some (MSI_CALL_REQUESTING, p, a)) (push c) = (Some (MSI_CALL_ACTIVE, c, a), []).
Proof. done. Qed.
Lemma on_init_none c : on_message None (init c) = (Some (MSI_CALL_REQUESTED, c, 0), []).
Proof. done. Qed.
Lemma on_pop x : on_message x pop = (None, []).
Proof. done. Qed.

Lemma strays_head x l : strays (x :: l) → strays l ∧ on_message None x = (None, []).
Proof. intros [[->|[c ->]] Hl]%list.Forall_cons; done. Qed.
Lemma pushes_head x l : pushes (x :: l) → pushes l ∧ ∃ c, x = push c.
Proof. by intros [Hx Hl]%list.Forall_cons. Qed.
Lemma snoc_head (x z : MSIMessage) l k : l ++ [z] = x :: k → (l = [] ∧ x = z ∧ k = []) ∨ ∃ l', l = x :: l' ∧ k = l' ++ [z].
Proof. destruct l as [|y l']; cbn; intros [= -> <-]; [by left|]. right. by exists l'. Qed.

(** A message arrives at the caller. *)
Lemma caller_receives x la y msg lb : phase x la y (msg :: lb) → phase (on_message x msg).1 (la ++ (on_message x msg).2) y lb.
Proof.
  intros Hp. inversion Hp as [? ? Hla Hlb|  | |? ? ? ? ? Hlb Hcap|? ? ? ? ? ? Hla Hlb Ha Hb| | |? ? ? ? Hla Hlb|? ? ? ? lb0 Hlb Hla Hst Eq1 Eq2 Eq3 E]; subst.
  - apply strays_head in Hlb as [Hlb ->]. evaluate. by apply ph_rest.
  - rewrite on_push_requesting. evaluate. apply ph_talk; [by constructor|done|done|done].
  - apply pushes_head in Hlb as [Hlb [c ->]]. rewrite on_push_active. evaluate. by apply ph_talk.
  - apply strays_head in Hlb as [Hlb ->]. evaluate. by apply ph_gone.
  - apply snoc_head in E as [(-> & -> & ->)|(l' & -> & ->)].
    + rewrite on_pop. evaluate. apply ph_rest; [done|by constructor].
    + apply pushes_head in Hlb as [Hlb [c ->]]. destruct Hst as [->| ->]; rewrite ?on_push_requesting, ?on_push_active; evaluate; apply ph_refused; auto.
Qed.

(** A message arrives at who is called. *)
Lemma callee_receives x msg la y lb : phase x (msg :: la) y lb → phase x la (on_message y msg).1 (lb ++ (on_message y msg).2).
Proof.
  intros Hp. inversion Hp as [? ? Hla Hlb| | |?|? ? ? ? ? ? Hla Hlb Ha Hb| | |la0 ? ? ? Hla Hlb Eq1 E|? ? ? ? lb0 Hlb Hla Hst]; subst.
  - apply strays_head in Hla as [Hla ->]. evaluate. by apply ph_rest.
  - rewrite on_init_none. evaluate. constructor.
  - apply pushes_head in Hla as [Hla [c ->]]. rewrite on_push_active. evaluate. by apply ph_talk.
  - rewrite on_init_none. evaluate. constructor.
  - rewrite on_pop. evaluate. apply ph_rest; by constructor.
  - apply snoc_head in E as [(-> & -> & ->)|(l' & -> & ->)].
    + rewrite on_pop. evaluate. apply ph_rest; [by constructor|done].
    + apply pushes_head in Hla as [Hla [c ->]]. rewrite on_push_active. evaluate. by apply ph_gone.
  - apply strays_head in Hla as [Hla ->]. evaluate. by apply ph_refused.
Qed.

(** Either may be the caller. *)
Definition agreed (x : Side) (la : list MSIMessage) (y : Side) (lb : list MSIMessage) : Prop := phase x la y lb ∨ phase y lb x la.

Lemma agreed_sym x la y lb : agreed x la y lb → agreed y lb x la.
Proof. unfold agreed. tauto. Qed.

Lemma agreed_local x la y lb o : agreed x la y lb → (∀ c, o = Invite c → la = [] ∧ lb = [] ∧ x = None ∧ y = None) →
  agreed (on_local x o).1 (la ++ (on_local x o).2) y lb.
Proof.
  intros [Hp|Hp] Hi; [left; apply caller_local; [done|]; intros c Ho _; destruct (Hi c Ho) as (-> & -> & _ & ->); done|].
  destruct o as [c|c|c|]; [|right; by apply callee_local..]. destruct (Hi c eq_refl) as (-> & -> & -> & ->). left. evaluate. constructor.
Qed.

Lemma agreed_receive x la y msg lb : agreed x la y (msg :: lb) → agreed (on_message x msg).1 (la ++ (on_message x msg).2) y lb.
Proof. intros [Hp|Hp]; [left; by apply caller_receives|right; by apply callee_receives]. Qed.

(** When no message is on the way: no call, one side rings at the other, or both talk and
    know what the other sends and receives. *)
Definition consistent (x y : Side) : Prop :=
  match x, y with
  | None, None => True
  | Some (MSI_CALL_REQUESTING, _, a), Some (MSI_CALL_REQUESTED, peer, _) => peer = a
  | Some (MSI_CALL_REQUESTED, peer, _), Some (MSI_CALL_REQUESTING, _, a) => peer = a
  | Some (MSI_CALL_ACTIVE, peer, a), Some (MSI_CALL_ACTIVE, peer', b) => peer = b ∧ peer' = a
  | _, _ => False
  end.

Lemma agreed_consistent x y : agreed x [] y [] → consistent x y.
Proof.
  intros [Hp|Hp]; inversion Hp; subst; try done.
  all: match goal with E : _ ++ [_] = [] |- _ => by apply app_eq_nil in E as [_ ?] end.
Qed.

(** *** The two programs *)

Record Pair := mkPair { pair_a : Tox_Av; pair_b : Tox_Av; a_to_b : list bytes; b_to_a : list bytes }.

(** The packets a step added for a friend. *)
Definition new_packets (f : Z) (s s' : Tox_Av) : list bytes := drop (length (delivered f (av_asked s))) (delivered f (av_asked s')).

(** The call with a friend, as the table has it. *)
Definition side_at (f : Z) (s : Tox_Av) : Side :=
  match find_call f (av_msi s) with
  | Ok (Some p, _) => side_of ((λ c, (p, c)) <$> t_heap (av_msi s) !! p)
  | _ => None
  end.

Lemma side_at_holds f s m : msi_holds s m → 0 <= f → side_at f s = side_of (m !! f).
Proof.
  intros [Hm _] Hf. unfold side_at. rewrite (holds_find _ m) by done. destruct (m !! f) as [[p c]|] eqn:E; [|done]. cbn [fmap option_fmap option_map fst].
  destruct (holds_deref _ _ _ _ _ Hm E) as (pv & nx & Ed). unfold deref in Ed. destruct (t_heap (av_msi s) !! p) as [d|]; [|done]. injection Ed as ->. done.
Qed.

(** The callbacks are set, packets are received, and what is asked for works. *)
Definition ready (s : Tox_Av) : Prop := (∀ cb, av_callbacks s cb = true) ∧ av_listening s = true ∧ healthy s.

Section pair.
(** The number of the friend on either side, and the callbacks. *)
Context (fa fb : Z) (cba cbb : MSICallbackID → addr → AV Z).

(** Neither has a call, and nothing is on the way. *)
Definition at_rest (P : Pair) : Prop := a_to_b P = [] ∧ b_to_a P = [] ∧ side_at fa (pair_a P) = None ∧ side_at fb (pair_b P) = None.

(** One side does something, or receives the next packet of the other.  [may_call] says
    when a new call is started. *)
Inductive pair_step (may_call : Pair → Prop) : Pair → Pair → Prop :=
  | a_local P o s : (∀ c, o = Invite c → may_call P) → run_local fa o (pair_a P) = Ok (tt, s) →
      pair_step may_call P (mkPair s (pair_b P) (a_to_b P ++ new_packets fa (pair_a P) s) (b_to_a P))
  | b_local P o s : (∀ c, o = Invite c → may_call P) → run_local fb o (pair_b P) = Ok (tt, s) →
      pair_step may_call P (mkPair (pair_a P) s (a_to_b P) (b_to_a P ++ new_packets fb (pair_b P) s))
  | a_receive P packet rest s : b_to_a P = packet :: rest → handle_msi_packet cba fa packet (pair_a P) = Ok (tt, s) →
      pair_step may_call P (mkPair s (pair_b P) (a_to_b P ++ new_packets fa (pair_a P) s) rest)
  | b_receive P packet rest s : a_to_b P = packet :: rest → handle_msi_packet cbb fb packet (pair_b P) = Ok (tt, s) →
      pair_step may_call P (mkPair (pair_a P) s rest (b_to_a P ++ new_packets fb (pair_b P) s)).

(** One side: its session and the messages it has on the way. *)
Definition side_ok (f : Z) (s : Tox_Av) (packets : list bytes) (x : Side) (l : list MSIMessage) : Prop :=
  ready s ∧ packets = packet_of <$> l ∧ Forall (λ msg, is_Some (msg_request msg)) l ∧ ∃ m, msi_holds s m ∧ live m ∧ x = side_of (m !! f).

Definition pair_ok (P : Pair) : Prop :=
  ∃ x la y lb, side_ok fa (pair_a P) (a_to_b P) x la ∧ side_ok fb (pair_b P) (b_to_a P) y lb ∧ agreed x la y lb.
End pair.

(** What a step of one side makes of it. *)
Lemma stepped_side f s m packets l r s' : side_ok f s packets (side_of (m !! f)) l → live m → stepped f s m r s' → Forall (λ msg, is_Some (msg_request msg)) r.2 →
  side_ok f s' (packets ++ new_packets f s s') r.1 (l ++ r.2).
Proof.
  intros ((Hcb & Hli & Hh) & -> & Hl & _) Hlm (m' & Hm' & Hs & Hlm' & _ & Heff) Hr. destruct (Heff Hh) as [Hside Hdel]. destruct Hs as (E1 & E2 & E3).
  split; [split; [by rewrite E1|split; [by rewrite E2|]]; unfold healthy; by rewrite E3|]. split; [|split; [by apply Forall_app|]].
  - unfold new_packets. rewrite Hdel, Z.eqb_refl, drop_app_length, fmap_app. done.
  - exists m'. eauto.
Qed.

Lemma on_local_requests x o : Forall (λ msg, is_Some (msg_request msg)) (on_local x o).2.
Proof. destruct o, x as [[[[] ?] ?]|]; repeat constructor; by eexists. Qed.
Lemma on_message_requests x msg : Forall (λ msg, is_Some (msg_request msg)) (on_message x msg).2.
Proof. unfold on_message. destruct (msg_request msg) as [[]|], (msg_capabilities msg), x as [[[[] ?] ?]|]; repeat constructor; by eexists. Qed.

Section sides.
Context (f : Z) (callback : MSICallbackID → addr → AV Z) (Hf : 0 <= f < UINT32_MAX) (Hatt : attentive callback).

Lemma side_local s packets x l o : side_ok f s packets x l →
  does (run_local f o) s (λ _ s', side_ok f s' (packets ++ new_packets f s s') (on_local x o).1 (l ++ (on_local x o).2)).
Proof using Hf.
  intros Hok. pose proof Hok as (_ & _ & _ & m & Hm & Hl & ->). eapply does_mono; [by apply run_local_step|]. cbn beta. intros [] s' Hs'.
  eapply stepped_side; [done..|apply on_local_requests].
Qed.

Lemma side_receive s packets x l msg : side_ok f s packets x l → is_Some (msg_request msg) →
  does (handle_msi_packet callback f (packet_of msg)) s (λ _ s', side_ok f s' (packets ++ new_packets f s s') (on_message x msg).1 (l ++ (on_message x msg).2)).
Proof using Hf Hatt.
  intros Hok Hr. pose proof Hok as ((Hcb & Hli & _) & _ & _ & m & Hm & Hl & ->). eapply does_mono; [by apply handle_msi_packet_step|]. cbn beta. intros [] s' Hs'.
  eapply stepped_side; [done..|apply on_message_requests].
Qed.

Lemma side_ok_at s packets x l : side_ok f s packets x l → side_at f s = x.
Proof using Hf. intros (_ & _ & _ & m & Hm & _ & ->). apply side_at_holds; [done|lia]. Qed.
End sides.

Section runs.
Context (fa fb : Z) (cba cbb : MSICallbackID → addr → AV Z) (Hfa : 0 <= fa < UINT32_MAX) (Hfb : 0 <= fb < UINT32_MAX) (Ha : attentive cba) (Hb : attentive cbb).

Lemma pair_step_ok P P' : pair_step fa fb cba cbb (at_rest fa fb) P P' → pair_ok fa fb P → pair_ok fa fb P'.
Proof using All.
  intros Hst (x & la & y & lb & Hx & Hy & Hag). destruct Hst as [P o s Hi E|P o s Hi E|P packet rest s Eb E|P packet rest s Eb E]; cbn [pair_a pair_b a_to_b b_to_a] in *.
  - pose proof (side_local fa Hfa _ _ _ _ o Hx) as Hd. unfold does in Hd. rewrite E in Hd. eexists _, _, y, lb. split; [exact Hd|]. split; [done|]. apply agreed_local; [done|].
    intros c Ho. destruct (Hi c Ho) as (E1 & E2 & E3 & E4). rewrite (side_ok_at fa Hfa _ _ _ _ Hx) in E3. rewrite (side_ok_at fb Hfb _ _ _ _ Hy) in E4.
    destruct Hx as (_ & Ex & _). destruct Hy as (_ & Ey & _). rewrite E1 in Ex. rewrite E2 in Ey. symmetry in Ex, Ey. apply fmap_nil_inv in Ex. apply fmap_nil_inv in Ey. done.
  - pose proof (side_local fb Hfb _ _ _ _ o Hy) as Hd. unfold does in Hd. rewrite E in Hd. eexists x, la, _, _. split; [done|]. split; [exact Hd|].
    apply agreed_sym, agreed_local; [by apply agreed_sym|].
    intros c Ho. destruct (Hi c Ho) as (E1 & E2 & E3 & E4). rewrite (side_ok_at fa Hfa _ _ _ _ Hx) in E3. rewrite (side_ok_at fb Hfb _ _ _ _ Hy) in E4.
    destruct Hx as (_ & Ex & _). destruct Hy as (_ & Ey & _). rewrite E1 in Ex. rewrite E2 in Ey. symmetry in Ex, Ey. apply fmap_nil_inv in Ex. apply fmap_nil_inv in Ey. done.
  - destruct Hy as (Hy1 & Ey & Hreq & Hy2). rewrite Eb in Ey. symmetry in Ey. apply fmap_cons_inv in Ey as (msg & lb' & Ep & -> & ->). apply list.Forall_cons in Hreq as [Hr Hreq].
    pose proof (side_receive fa cba Hfa Ha _ _ _ _ msg Hx Hr) as Hd. unfold does in Hd. rewrite <- Ep, E in Hd. eexists _, _, y, lb'. split; [exact Hd|]. split; [done|]. by apply agreed_receive.
  - destruct Hx as (Hx1 & Ex & Hreq & Hx2). rewrite Eb in Ex. symmetry in Ex. apply fmap_cons_inv in Ex as (msg & la' & Ep & -> & ->). apply list.Forall_cons in Hreq as [Hr Hreq].
    pose proof (side_receive fb cbb Hfb Hb _ _ _ _ msg Hy Hr) as Hd. unfold does in Hd. rewrite <- Ep, E in Hd. eexists x, la', _, _. split; [done|]. split; [exact Hd|].
    apply agreed_sym, agreed_receive. by apply agreed_sym.
Qed.
End runs.

(** A session without calls. *)
Definition fresh_session (s : Tox_Av) : Prop := ready s ∧ av_msi s = empty_table.

Lemma fresh_session_ok f s : fresh_session s → side_ok f s [] None [].
Proof.
  intros [Hr Hm]. split; [done|]. split; [done|]. split; [done|]. exists ∅. split; [|split; [apply live_empty|by rewrite lookup_empty]].
  split; rewrite Hm; [apply holds_empty|]. cbn. intros p [? H]. by rewrite lookup_empty in H.
Qed.

(** C11: Two peers agree about their call.  Their sessions start without calls and
    exchange their packets in order, memory, locks and the sending of packets do
    not fail, and the callbacks of both accept everything; each side calls, answers, changes what it sends and
    receives and hangs up as it likes, at any time, but for starting a new call before
    the end of the last one is known to both.  Then whatever the interleaving, no step
    goes wrong, and whenever no packet is on the way either neither side has a call, or
    one side rings at the other, which knows what the caller sends and receives, or both
    sides are in the call and each knows what the other sends and receives. *)
Theorem call_sides_agree fa fb cba cbb s t P : 0 <= fa < UINT32_MAX → 0 <= fb < UINT32_MAX → attentive cba → attentive cbb →
  fresh_session s → fresh_session t → rtc (pair_step fa fb cba cbb (at_rest fa fb)) (mkPair s t [] []) P →
  (∀ o, ∃ s', run_local fa o (pair_a P) = Ok (tt, s')) ∧ (∀ o, ∃ s', run_local fb o (pair_b P) = Ok (tt, s')) ∧
  (∀ packet rest, b_to_a P = packet :: rest → ∃ s', handle_msi_packet cba fa packet (pair_a P) = Ok (tt, s')) ∧
  (∀ packet rest, a_to_b P = packet :: rest → ∃ s', handle_msi_packet cbb fb packet (pair_b P) = Ok (tt, s')) ∧
  (a_to_b P = [] → b_to_a P = [] → consistent (side_at fa (pair_a P)) (side_at fb (pair_b P))).
Proof.
  intros Hfa Hfb Ha Hb Hs Ht Hrun. assert (pair_ok fa fb P) as (x & la & y & lb & Hx & Hy & Hag).
  { assert (pair_ok fa fb (mkPair s t [] [])) as H0.
    { exists None, [], None, []. split; [by apply fresh_session_ok|]. split; [by apply fresh_session_ok|]. left. apply ph_rest; by constructor. }
    remember (mkPair s t [] []) as P0 eqn:E0. clear E0. induction Hrun as [P|P P1 P2 Hst _ IH]; [done|]. apply IH. exact (pair_step_ok fa fb cba cbb Hfa Hfb Ha Hb P P1 Hst H0). }
  assert (∀ {A} (m : AV A) s0 Q, does m s0 Q → ∃ r s', m s0 = Ok (r, s')) as Hok by (intros A m s0 Q (r & s' & E & _)%does_ok; eauto).
  split; [intros o; destruct (Hok _ _ _ _ (side_local fa Hfa _ _ _ _ o Hx)) as ([] & s' & E); eauto|].
  split; [intros o; destruct (Hok _ _ _ _ (side_local fb Hfb _ _ _ _ o Hy)) as ([] & s' & E); eauto|].
  split; [|split].
  - intros packet rest E. destruct Hy as (_ & Ey & Hreq & _). rewrite E in Ey. symmetry in Ey. apply fmap_cons_inv in Ey as (msg & lb' & -> & -> & ->).
    apply list.Forall_cons in Hreq as [Hr _]. destruct (Hok _ _ _ _ (side_receive fa cba Hfa Ha _ _ _ _ msg Hx Hr)) as ([] & s' & E'). eauto.
  - intros packet rest E. destruct Hx as (_ & Ex & Hreq & _). rewrite E in Ex. symmetry in Ex. apply fmap_cons_inv in Ex as (msg & la' & -> & -> & ->).
    apply list.Forall_cons in Hreq as [Hr _]. destruct (Hok _ _ _ _ (side_receive fb cbb Hfb Hb _ _ _ _ msg Hy Hr)) as ([] & s' & E'). eauto.
  - intros E1 E2. rewrite (side_ok_at fa Hfa _ _ _ _ Hx), (side_ok_at fb Hfb _ _ _ _ Hy). destruct Hx as (_ & Ex & _). destruct Hy as (_ & Ey & _).
    rewrite E1 in Ex. rewrite E2 in Ey. symmetry in Ex, Ey. apply fmap_nil_inv in Ex. apply fmap_nil_inv in Ey. subst. by apply agreed_consistent.
Qed.

(** ** Concrete sessions *)

(** Everything that is asked for works, and every callback accepts. *)
Definition sample_av : Tox_Av :=
  mkToxAv empty_table (λ _, true) empty_table true true true true true 1 None [] (λ a _, match a with ASend _ _ | ATryLock => 0 | _ => 1 end) [].
Definition accepting (cb : MSICallbackID) (call : addr) : AV Z := mret 0.

Lemma accepting_attentive : attentive accepting.
Proof. intros cb f p c s m Hm Hl Hf. split; [done|]. split; [done|]. split; [done|]. exists c. by rewrite insert_id. Qed.
Lemma sample_fresh : fresh_session sample_av.
Proof. by repeat split. Qed.

(** A step to a state that was evaluated. *)
Lemma step_to {R : Pair → Pair → Prop} P P1 P2 P3 : R P P1 → P1 = P2 → rtc R P2 P3 → rtc R P P3.
Proof. intros Hst <-. by apply rtc_l. Qed.

Ltac step_with c := eapply step_to; [c; [done|vm_compute; reflexivity]|vm_compute; reflexivity|].
Ltac step_recv c := eapply step_to; [c; [reflexivity|vm_compute; reflexivity]|vm_compute; reflexivity|].

Lemma call_sides_agree_witness : ∃ P, rtc (pair_step 0 5 accepting accepting (at_rest 0 5)) (mkPair sample_av sample_av [] []) P ∧
  side_at 0 (pair_a P) = Some (MSI_CALL_ACTIVE, 20, 12) ∧ consistent (side_at 0 (pair_a P)) (side_at 5 (pair_b P)).
Proof.
  eexists. match goal with |- ?R ∧ _ => assert R as Hrun end.
  { eapply step_to; [eapply (a_local _ _ _ _ _ _ (Invite 12)); [intros c _; by repeat split|vm_compute; reflexivity]|vm_compute; reflexivity|].
    step_recv ltac:(eapply b_receive). step_with ltac:(eapply (b_local _ _ _ _ _ _ (Answer 20))). step_recv ltac:(eapply a_receive). apply rtc_refl. }
  split; [exact Hrun|]. split; [vm_compute; reflexivity|].
  refine (proj2 (proj2 (proj2 (proj2 (call_sides_agree 0 5 accepting accepting sample_av sample_av _ _ _ accepting_attentive accepting_attentive sample_fresh sample_fresh Hrun)))) _ _);
    [done|done|vm_compute; reflexivity|vm_compute; reflexivity].
Defined.

(** When two friends call each other at the same time and one of them hangs up before it
    gets the invitation of the other, it rings for a call that the other has ended; when
    it is answered, one side is in the call and the other is not, with nothing on the
    way.  Nothing ends this: what the one side sends is not answered by who has no call,
    although the error it was once answered with is handled and ends the call. *)
Theorem crossed_calls_leave_half_a_call : ∃ P, rtc (pair_step 0 0 accepting accepting (λ _, True)) (mkPair sample_av sample_av [] []) P ∧
  a_to_b P = [] ∧ b_to_a P = [] ∧ side_at 0 (pair_a P) = Some (MSI_CALL_ACTIVE, 20, 12) ∧ side_at 0 (pair_b P) = None ∧
  (∀ c, on_message None (push c) = (None, [])) ∧ (∀ x, on_message x (msg_fail MSI_E_STRAY_MESSAGE) = (None, [])).
Proof.
  eexists. split.
  { step_with ltac:(eapply (a_local _ _ _ _ _ _ (Invite 12))). step_with ltac:(eapply (b_local _ _ _ _ _ _ (Invite 20))).
    step_with ltac:(eapply (a_local _ _ _ _ _ _ Hangup)). step_recv ltac:(eapply b_receive). step_recv ltac:(eapply b_receive).
    step_recv ltac:(eapply a_receive). step_recv ltac:(eapply a_receive). step_with ltac:(eapply (a_local _ _ _ _ _ _ (Answer 12))).
    step_recv ltac:(eapply b_receive). apply rtc_refl. }
  split; [vm_compute; reflexivity|]. split; [vm_compute; reflexivity|]. split; [vm_compute; reflexivity|]. split; [vm_compute; reflexivity|]. by split.
Qed.
