(* ===== verification/ToxAv.v ===== *)
(** * ToxAv: the calls of [toxav/toxav.c]

    The calls a client starts, answers and controls, on the session of [Msi].  What is
    told to the client is an argument of the code that tells it, because the client may
    call the same functions again from there: the mutexes are recursive. *)
From S2P Require Import Prelude CallTable CallState Msi.

(** ** Data *)

Inductive Toxav_Err_Call :=
  TOXAV_ERR_CALL_OK | TOXAV_ERR_CALL_MALLOC | TOXAV_ERR_CALL_SYNC | TOXAV_ERR_CALL_FRIEND_NOT_FOUND | TOXAV_ERR_CALL_FRIEND_NOT_CONNECTED
  | TOXAV_ERR_CALL_FRIEND_ALREADY_IN_CALL | TOXAV_ERR_CALL_INVALID_BIT_RATE.
Inductive Toxav_Err_Answer :=
  TOXAV_ERR_ANSWER_OK | TOXAV_ERR_ANSWER_SYNC | TOXAV_ERR_ANSWER_CODEC_INITIALIZATION | TOXAV_ERR_ANSWER_FRIEND_NOT_FOUND
  | TOXAV_ERR_ANSWER_FRIEND_NOT_CALLING | TOXAV_ERR_ANSWER_INVALID_BIT_RATE.
Inductive Toxav_Call_Control :=
  TOXAV_CALL_CONTROL_RESUME | TOXAV_CALL_CONTROL_PAUSE | TOXAV_CALL_CONTROL_CANCEL | TOXAV_CALL_CONTROL_MUTE_AUDIO
  | TOXAV_CALL_CONTROL_UNMUTE_AUDIO | TOXAV_CALL_CONTROL_HIDE_VIDEO | TOXAV_CALL_CONTROL_SHOW_VIDEO.
#[export] Instance Toxav_Call_Control_eq_dec : EqDecision Toxav_Call_Control.
Proof. solve_decision. Defined.
Inductive Toxav_Err_Call_Control :=
  TOXAV_ERR_CALL_CONTROL_OK | TOXAV_ERR_CALL_CONTROL_SYNC | TOXAV_ERR_CALL_CONTROL_FRIEND_NOT_FOUND
  | TOXAV_ERR_CALL_CONTROL_FRIEND_NOT_IN_CALL | TOXAV_ERR_CALL_CONTROL_INVALID_TRANSITION.
Inductive Toxav_Err_Bit_Rate_Set :=
  TOXAV_ERR_BIT_RATE_SET_OK | TOXAV_ERR_BIT_RATE_SET_SYNC | TOXAV_ERR_BIT_RATE_SET_INVALID_BIT_RATE
  | TOXAV_ERR_BIT_RATE_SET_FRIEND_NOT_FOUND | TOXAV_ERR_BIT_RATE_SET_FRIEND_NOT_IN_CALL.

Definition TOXAV_FRIEND_CALL_STATE_ERROR : Z := 1.
Definition TOXAV_FRIEND_CALL_STATE_FINISHED : Z := 2.

Definition audio_bit_rate_invalid (bit_rate : Z) : bool := (bit_rate <? 6) || (510 <? bit_rate).
Definition video_bit_rate_invalid (bit_rate : Z) : bool := false.

(** [x & bit]. *)
Definition has_bit (x bit : Z) : bool := negb (Z.land x bit =? 0).

(** ** The table of calls *)

Definition toxav_friend_exists (friendnumber : Z) : AV bool := r ← av_ask (AFriendExists friendnumber); mret (negb (r =? 0)).

Definition call_get (friend_number : Z) : AV (option addr) := on_av (find_call friend_number).

Definition zero_av_call (friend_number : Z) : ToxAVCall := mkToxAVCall None None false None friend_number 0 0 0 0 None None.

(** [call->f = v]. *)
Definition set_av (call : addr) (f : ToxAVCall → ToxAVCall) : AV unit := on_av (store call f).

Definition call_new (friend_number : Z) : AV (Toxav_Err_Call * option addr) :=
  exists_ ← toxav_friend_exists friend_number;
  if negb exists_ then mret (TOXAV_ERR_CALL_FRIEND_NOT_FOUND, None)
  else
    status ← av_ask (AConnection friend_number);
    if status =? 0 then mret (TOXAV_ERR_CALL_FRIEND_NOT_CONNECTED, None)
    else
      old ← call_get friend_number;
      match old with
      | Some _ => mret (TOXAV_ERR_CALL_FRIEND_ALREADY_IN_CALL, None)
      | None =>
          mem ← av_ask AAlloc;
          if mem =? 0 then mret (TOXAV_ERR_CALL_MALLOC, None)
          else
            call ← new_av_cell (zero_av_call friend_number);
            mutex ← av_ask AAlloc;
            if mutex =? 0 then on_av (free_cell call);; mret (TOXAV_ERR_CALL_MALLOC, None)
            else
              s ← reads (λ s, s);
              grow ← (if needs_array (av_calls s) friend_number then av_ask AAlloc else mret 1);
              ok ← on_av (link_call true (negb (grow =? 0)) (av_junk s) call friend_number);
              if negb ok then on_av (free_cell call);; mret (TOXAV_ERR_CALL_MALLOC, None)
              else mret (TOXAV_ERR_CALL_OK, Some call)
      end.

(** The result is the next call. *)
Definition call_remove (call : addr) : AV (option addr) :=
  c ← on_av (deref call);
  match tc_msi_call c with
  | Some msi_call => set_call msi_call (λ m, m <| mc_av_call := None |>)
  | None => mret tt
  end;;
  on_av (put_call (tc_friend_number c) None);;
  on_av (free_cell call);;
  on_av (unlink_call (tc_prev c) (tc_next c));;
  mret (match tc_prev c, tc_next c with None, None => None | _, next => next end).

(** ** Transmission *)

(** The answers of the codecs come in the order in which they are created. *)
Definition call_prepare_transmission (call : addr) : AV bool :=
  s ← reads (λ s, s);
  c ← on_av (deref call);
  if negb (av_acb s) && negb (av_vcb s) then mret false
  else if tc_active c then mret true
  else
    mutex_audio ← av_ask AAlloc;
    if mutex_audio =? 0 then mret false
    else
      mutex_video ← av_ask AAlloc;
      if mutex_video =? 0 then mret false
      else
        let fail := set_av call (λ c, c <| tc_audio_rtp := None |> <| tc_video_rtp := None |>);; mret false in
        audio ← av_ask (ACodec (tc_friend_number c));
        if audio =? 0 then fail
        else
          audio_rtp ← av_ask (ACodec (tc_friend_number c));
          if audio_rtp =? 0 then fail
          else
            set_av call (λ c, c <| tc_audio_rtp := Some (mkRTPSession true) |>);;
            video ← av_ask (ACodec (tc_friend_number c));
            if video =? 0 then fail
            else
              video_rtp ← av_ask (ACodec (tc_friend_number c));
              if video_rtp =? 0 then fail
              else set_av call (λ c, c <| tc_video_rtp := Some (mkRTPSession true) |> <| tc_active := true |>);; mret true.

Definition call_kill_transmission (call : addr) : AV unit :=
  c ← on_av (deref call);
  if negb (tc_active c) then mret tt
  else set_av call (λ c, c <| tc_active := false |> <| tc_audio_rtp := None |> <| tc_video_rtp := None |>).

(** [rtp_allow_receiving_mark] and [rtp_stop_receiving_mark]. *)
Definition mark_audio (call : addr) (b : bool) : AV unit :=
  set_av call (λ c, c <| tc_audio_rtp := (λ _, mkRTPSession b) <$> tc_audio_rtp c |>).
Definition mark_video (call : addr) (b : bool) : AV unit :=
  set_av call (λ c, c <| tc_video_rtp := (λ _, mkRTPSession b) <$> tc_video_rtp c |>).

Section client.
(** What the client does when it is told of an event. *)
Context (client : Av_Event → AV unit).

Definition tell (e : Av_Event) : AV unit := writes (λ s, s <| av_events := av_events s ++ [e] |>);; client e.

Definition invoke_call_state_callback (friend_number state : Z) : AV bool :=
  s ← reads (λ s, s);
  if av_scb s then tell (ECallState friend_number state);; mret true else mret false.

(** ** The callbacks of the session *)

Definition callback_invite (call : addr) : AV Z :=
  c ← on_msi (deref call);
  '(_, av_call) ← call_new (mc_friend_number c);
  match av_call with
  | None => mret (-1)
  | Some av_call =>
      set_call call (λ c, c <| mc_av_call := Some av_call |>);;
      set_av av_call (λ c, c <| tc_msi_call := Some call |>);;
      s ← reads (λ s, s);
      if av_ccb s then
        c ← on_msi (deref call);
        tell (ECall (mc_friend_number c) (has_bit (mc_peer_capabilities c) MSI_CAP_S_AUDIO) (has_bit (mc_peer_capabilities c) MSI_CAP_S_VIDEO));;
        mret 0
      else mret (-1)
  end.

(** The end of [callback_end] and [callback_error]. *)
Definition remove_av_call (call : addr) : AV unit :=
  c ← on_msi (deref call);
  match mc_av_call c with
  | Some av_call => call_kill_transmission av_call;; call_remove av_call;; mret tt
  | None => mret tt
  end.

Definition callback_end (call : addr) : AV Z :=
  c ← on_msi (deref call);
  invoke_call_state_callback (mc_friend_number c) TOXAV_FRIEND_CALL_STATE_FINISHED;;
  remove_av_call call;; mret 0.

Definition callback_error (call : addr) : AV Z :=
  c ← on_msi (deref call);
  invoke_call_state_callback (mc_friend_number c) TOXAV_FRIEND_CALL_STATE_ERROR;;
  remove_av_call call;; mret 0.

Definition callback_start (call : addr) : AV Z :=
  c ← on_msi (deref call);
  av_call ← call_get (mc_friend_number c);
  match av_call with
  | None => mret (-1)
  | Some av_call =>
      ok ← call_prepare_transmission av_call;
      if negb ok then callback_error call;; mret (-1)
      else
        ok ← invoke_call_state_callback (mc_friend_number c) (mc_peer_capabilities c);
        if negb ok then callback_error call;; mret (-1) else mret 0
  end.

(** A null [av_call] is followed. *)
Definition callback_capabilites (call : addr) : AV Z :=
  c ← on_msi (deref call);
  match mc_av_call c with
  | None => fault NullPointer
  | Some av_call =>
      mark_audio av_call (has_bit (mc_peer_capabilities c) MSI_CAP_S_AUDIO);;
      mark_video av_call (has_bit (mc_peer_capabilities c) MSI_CAP_S_VIDEO);;
      invoke_call_state_callback (mc_friend_number c) (mc_peer_capabilities c);; mret 0
  end.

(** The callbacks that [toxav_new] registers. *)
Definition av_callback (cb : MSICallbackID) : addr → AV Z :=
  match cb with
  | MSI_ON_INVITE => callback_invite
  | MSI_ON_START => callback_start
  | MSI_ON_END => callback_end
  | MSI_ON_ERROR | MSI_ON_PEERTIMEOUT => callback_error
  | MSI_ON_CAPABILITIES => callback_capabilites
  end.

(** A packet of a friend. *)
Definition av_packet (friend_number : Z) (data : bytes) : AV unit := handle_msi_packet av_callback friend_number data.
End client.

(** ** The functions of the client *)

(** The capabilities of a side that sends with these bit rates. *)
Definition capabilities_for (audio_bit_rate video_bit_rate : Z) : Z :=
  Z.lor (Z.lor (Z.lor MSI_CAP_R_AUDIO MSI_CAP_R_VIDEO) (if 0 <? audio_bit_rate then MSI_CAP_S_AUDIO else 0)) (if 0 <? video_bit_rate then MSI_CAP_S_VIDEO else 0).

Definition set_bit_rates (audio_bit_rate video_bit_rate : Z) (c : ToxAVCall) : ToxAVCall :=
  c <| tc_audio_bit_rate := audio_bit_rate |> <| tc_video_bit_rate := video_bit_rate |> <| tc_video_bit_rate_not_yet_set := video_bit_rate |>
    <| tc_previous_self_capabilities := capabilities_for audio_bit_rate video_bit_rate |>.

Definition rates_invalid (audio_bit_rate video_bit_rate : Z) : bool :=
  (negb (audio_bit_rate =? 0) && audio_bit_rate_invalid audio_bit_rate) || (negb (video_bit_rate =? 0) && video_bit_rate_invalid video_bit_rate).

Definition toxav_call (friend_number audio_bit_rate video_bit_rate : Z) : AV Toxav_Err_Call :=
  if rates_invalid audio_bit_rate video_bit_rate then mret TOXAV_ERR_CALL_INVALID_BIT_RATE
  else
    '(rc, call) ← call_new friend_number;
    match call with
    | None => mret rc
    | Some call =>
        set_av call (set_bit_rates audio_bit_rate video_bit_rate);;
        msi_call ← msi_invite friend_number (capabilities_for audio_bit_rate video_bit_rate);
        match msi_call with
        | None => call_remove call;; mret TOXAV_ERR_CALL_SYNC
        | Some msi_call =>
            set_av call (λ c, c <| tc_msi_call := Some msi_call |>);;
            set_call msi_call (λ c, c <| mc_av_call := Some call |>);;
            mret rc
        end
    end.

Definition toxav_answer (friend_number audio_bit_rate video_bit_rate : Z) : AV Toxav_Err_Answer :=
  exists_ ← toxav_friend_exists friend_number;
  if negb exists_ then mret TOXAV_ERR_ANSWER_FRIEND_NOT_FOUND
  else if rates_invalid audio_bit_rate video_bit_rate then mret TOXAV_ERR_ANSWER_INVALID_BIT_RATE
  else
    call ← call_get friend_number;
    match call with
    | None => mret TOXAV_ERR_ANSWER_FRIEND_NOT_CALLING
    | Some call =>
        ok ← call_prepare_transmission call;
        if negb ok then mret TOXAV_ERR_ANSWER_CODEC_INITIALIZATION
        else
          set_av call (set_bit_rates audio_bit_rate video_bit_rate);;
          c ← on_av (deref call);
          r ← msi_answer (tc_msi_call c) (tc_previous_self_capabilities c);
          mret (if negb (r =? 0) then TOXAV_ERR_ANSWER_SYNC else TOXAV_ERR_ANSWER_OK)
    end.

(** [call->msi_call->self_capabilities]. *)
Definition self_caps (call : addr) : AV Z :=
  c ← on_av (deref call);
  match tc_msi_call c with
  | None => fault NullPointer
  | Some msi_call => m ← on_msi (deref msi_call); mret (mc_self_capabilities m)
  end.

(** New capabilities, and what follows when they were sent. *)
Definition change_then (call : addr) (capabilities : Z) (rest : AV unit) : AV Toxav_Err_Call_Control :=
  c ← on_av (deref call);
  r ← msi_change_capabilities (tc_msi_call c) capabilities;
  if r =? -1 then mret TOXAV_ERR_CALL_CONTROL_SYNC else rest;; mret TOXAV_ERR_CALL_CONTROL_OK.

Definition toxav_call_control (friend_number : Z) (control : Toxav_Call_Control) : AV Toxav_Err_Call_Control :=
  exists_ ← toxav_friend_exists friend_number;
  if negb exists_ then mret TOXAV_ERR_CALL_CONTROL_FRIEND_NOT_FOUND
  else
    call ← call_get friend_number;
    match call with
    | None => mret TOXAV_ERR_CALL_CONTROL_FRIEND_NOT_IN_CALL
    | Some call =>
        c ← on_av (deref call);
        match control with
        | TOXAV_CALL_CONTROL_CANCEL =>
            r ← msi_hangup (tc_msi_call c);
            if negb (r =? 0) then mret TOXAV_ERR_CALL_CONTROL_SYNC
            else
              set_av call (λ c, c <| tc_msi_call := None |>);;
              call_kill_transmission call;;
              call_remove call;;
              mret TOXAV_ERR_CALL_CONTROL_OK
        | _ =>
            if negb (tc_active c) then mret TOXAV_ERR_CALL_CONTROL_FRIEND_NOT_IN_CALL
            else
              caps ← self_caps call;
              match control with
              | TOXAV_CALL_CONTROL_RESUME =>
                  if (caps =? 0) && negb (tc_previous_self_capabilities c =? 0) then
                    change_then call (tc_previous_self_capabilities c) (mark_audio call true;; mark_video call true)
                  else mret TOXAV_ERR_CALL_CONTROL_INVALID_TRANSITION
              | TOXAV_CALL_CONTROL_PAUSE =>
                  if negb (caps =? 0) then
                    set_av call (λ c, c <| tc_previous_self_capabilities := caps |>);;
                    change_then call 0 (mark_audio call false;; mark_video call false)
                  else mret TOXAV_ERR_CALL_CONTROL_INVALID_TRANSITION
              | TOXAV_CALL_CONTROL_MUTE_AUDIO =>
                  if has_bit caps MSI_CAP_R_AUDIO then change_then call (Z.lxor caps MSI_CAP_R_AUDIO) (mark_audio call false)
                  else mret TOXAV_ERR_CALL_CONTROL_INVALID_TRANSITION
              | TOXAV_CALL_CONTROL_UNMUTE_AUDIO =>
                  if negb (Z.lxor caps MSI_CAP_R_AUDIO =? 0) then change_then call (Z.lor caps MSI_CAP_R_AUDIO) (mark_audio call true)
                  else mret TOXAV_ERR_CALL_CONTROL_INVALID_TRANSITION
              | TOXAV_CALL_CONTROL_HIDE_VIDEO =>
                  if has_bit caps MSI_CAP_R_VIDEO then change_then call (Z.lxor caps MSI_CAP_R_VIDEO) (mark_video call false)
                  else mret TOXAV_ERR_CALL_CONTROL_INVALID_TRANSITION
              | TOXAV_CALL_CONTROL_SHOW_VIDEO =>
                  if negb (Z.lxor caps MSI_CAP_R_VIDEO =? 0) then change_then call (Z.lor caps MSI_CAP_R_VIDEO) (mark_video call true)
                  else mret TOXAV_ERR_CALL_CONTROL_INVALID_TRANSITION
              | TOXAV_CALL_CONTROL_CANCEL => mret TOXAV_ERR_CALL_CONTROL_OK
              end
        end
    end.

(** *** Bit rates *)

(** [call->msi_call->state == MSI_CALL_ACTIVE], for a call with transmission. *)
Definition in_call (call : addr) : AV bool :=
  c ← on_av (deref call);
  if negb (tc_active c) then mret false
  else
    match tc_msi_call c with
    | None => fault NullPointer
    | Some msi_call => m ← on_msi (deref msi_call); mret (bool_decide (mc_state m = MSI_CALL_ACTIVE))
    end.

(** The part of the three functions that changes a rate; false when the friend could
    not be told. *)
Definition change_audio_rate (call : addr) (audio_bit_rate : Z) : AV bool :=
  c ← on_av (deref call);
  if tc_audio_bit_rate c =? audio_bit_rate then mret true
  else
    caps ← self_caps call;
    r ← (if audio_bit_rate =? 0 then msi_change_capabilities (tc_msi_call c) (Z.lxor caps MSI_CAP_S_AUDIO)
         else if tc_audio_bit_rate c =? 0 then msi_change_capabilities (tc_msi_call c) (Z.lor caps MSI_CAP_S_AUDIO)
         else mret 0);
    if negb (r =? 0) then mret false else set_av call (λ c, c <| tc_audio_bit_rate := audio_bit_rate |>);; mret true.

Definition change_video_rate (call : addr) (video_bit_rate : Z) : AV bool :=
  c ← on_av (deref call);
  if tc_video_bit_rate c =? video_bit_rate then mret true
  else
    caps ← self_caps call;
    r ← (if video_bit_rate =? 0 then msi_change_capabilities (tc_msi_call c) (Z.lxor caps MSI_CAP_S_VIDEO)
         else if tc_video_bit_rate c =? 0 then msi_change_capabilities (tc_msi_call c) (Z.lor caps MSI_CAP_S_VIDEO)
         else mret 0);
    if negb (r =? 0) then mret false
    else set_av call (λ c, c <| tc_video_bit_rate := video_bit_rate |> <| tc_video_bit_rate_not_yet_set := video_bit_rate |>);; mret true.

(** The call whose rates are to be set. *)
Definition with_call (friend_number : Z) (invalid : bool) (change : addr → AV bool) : AV Toxav_Err_Bit_Rate_Set :=
  exists_ ← toxav_friend_exists friend_number;
  if negb exists_ then mret TOXAV_ERR_BIT_RATE_SET_FRIEND_NOT_FOUND
  else if invalid then mret TOXAV_ERR_BIT_RATE_SET_INVALID_BIT_RATE
  else
    call ← call_get friend_number;
    match call with
    | None => mret TOXAV_ERR_BIT_RATE_SET_FRIEND_NOT_IN_CALL
    | Some call =>
        talking ← in_call call;
        if negb talking then mret TOXAV_ERR_BIT_RATE_SET_FRIEND_NOT_IN_CALL
        else ok ← change call; mret (match ok with true => TOXAV_ERR_BIT_RATE_SET_OK | false => TOXAV_ERR_BIT_RATE_SET_SYNC end)
    end.

Definition toxav_audio_set_bit_rate (friend_number audio_bit_rate : Z) : AV Toxav_Err_Bit_Rate_Set :=
  with_call friend_number ((0 <? audio_bit_rate) && audio_bit_rate_invalid audio_bit_rate) (λ call, change_audio_rate call audio_bit_rate).

Definition toxav_video_set_bit_rate (friend_number video_bit_rate : Z) : AV Toxav_Err_Bit_Rate_Set :=
  with_call friend_number ((0 <? video_bit_rate) && video_bit_rate_invalid video_bit_rate) (λ call, change_video_rate call video_bit_rate).

(** A rate below 0 stays as it is. *)
Definition toxav_bit_rate_set (friend_number audio_bit_rate video_bit_rate : Z) : AV Toxav_Err_Bit_Rate_Set :=
  with_call friend_number (((0 <? audio_bit_rate) && audio_bit_rate_invalid audio_bit_rate) || ((0 <? video_bit_rate) && video_bit_rate_invalid video_bit_rate)) (λ call,
    ok ← (if 0 <=? audio_bit_rate then change_audio_rate call audio_bit_rate else mret true);
    if negb ok then mret false
    else if 0 <=? video_bit_rate then change_video_rate call video_bit_rate else mret true).

(** *** Creation, end and iteration *)

(** False is the null pointer. *)
Definition toxav_new : AV bool :=
  mem ← av_ask AAlloc;
  if mem =? 0 then mret false
  else
    mutex ← av_ask AAlloc;
    if mutex =? 0 then mret false
    else
      endcall_mutex ← av_ask AAlloc;
      if endcall_mutex =? 0 then mret false
      else
        ok ← msi_new;
        if negb ok then mret false
        else
          writes (λ s, s <| av_calls := empty_table |> <| av_ccb := false |> <| av_scb := false |> <| av_acb := false |> <| av_vcb := false |>);;
          msi_register_callback MSI_ON_INVITE true;; msi_register_callback MSI_ON_START true;; msi_register_callback MSI_ON_END true;;
          msi_register_callback MSI_ON_ERROR true;; msi_register_callback MSI_ON_PEERTIMEOUT true;; msi_register_callback MSI_ON_CAPABILITIES true;;
          mret true.

(** The loop of [toxav_kill] over its calls; there are no more calls than cells. *)
Fixpoint remove_calls (rounds : nat) (it : option addr) : AV unit :=
  match it, rounds with
  | None, _ => mret tt
  | Some _, O => fault Aborted
  | Some it, S rounds' =>
      call_kill_transmission it;;
      set_av it (λ c, c <| tc_msi_call := None |>);;
      next ← call_remove it;
      remove_calls rounds' next
  end.

(** [msi_kill] is called again while another thread holds the lock, [tries] times. *)
Fixpoint kill_session (tries : nat) : AV unit :=
  match tries with
  | O => mret tt
  | S tries' => r ← msi_kill; if negb (r =? 0) then kill_session tries' else mret tt
  end.

Definition toxav_kill (tries : nat) : AV unit :=
  kill_session tries;;
  s ← reads (λ s, s);
  match t_calls (av_calls s) with
  | None => mret tt
  | Some _ => it ← call_get (t_head (av_calls s)); remove_calls (size (t_heap (av_calls s))) it
  end.

Section iterate.
Context (client : Av_Event → AV unit).

(** The loop of [toxav_iterate] from the call [i] on, without the codecs and the times:
    friends that went offline, and the use of the capabilities.  At the end of a round the
    mutex of the call is unlocked, which is a part of its cell. *)
Fixpoint iterate_calls (rounds : nat) (i : option addr) : AV unit :=
  match i, rounds with
  | None, _ => mret tt
  | Some _, O => fault Aborted
  | Some p, S rounds' =>
      c ← on_av (deref p);
      if negb (tc_active c) then iterate_calls rounds' (tc_next c)
      else
        match tc_msi_call c with
        | None => mret tt
        | Some msi_call =>
            on_msi (deref msi_call);;
            is_offline ← check_peer_offline_status (av_callback client) (tc_friend_number c);
            if negb is_offline then
              self_caps p;;
              on_av (deref p);;
              now ← call_get (tc_friend_number c);
              if negb (bool_decide (now = Some p)) then mret tt
              else c ← on_av (deref p); iterate_calls rounds' (tc_next c)
            else on_av (deref p);; mret tt
        end
  end.

Definition toxav_iterate : AV unit :=
  s ← reads (λ s, s);
  match t_calls (av_calls s) with
  | None => mret tt
  | Some _ => i ← on_av (slot (t_head (av_calls s))); iterate_calls (size (t_heap (av_calls s))) i
  end.
End iterate.
