(* ===== verification/AvLinked.v ===== *)
(** * AvLinked: the two layers of calls in step

    The calls of [toxav/toxav.c] and those of [toxav/msi.c] are made and ended together,
    and point to each other, as long as friends keep to the protocol. *)
From S2P Require Import Prelude CallTable CallState Msi MsiSound MsiPair ToxAv.

Implicit Types (m : gmap Z (addr * MSICall)) (n : gmap Z (addr * ToxAVCall)).

(** ** Rules for both tables *)

Definition av_holds (s : Tox_Av) n : Prop := holds (av_calls s) n ∧ ∀ p, is_Some (t_heap (av_calls s) !! p) → (p < av_fresh s)%positive.

(** The tables hold these calls, the callbacks of the session are set and the client
    listens for calls. *)
Definition both (s : Tox_Av) m n : Prop := msi_holds s m ∧ av_holds s n ∧ (∀ cb, av_callbacks s cb = true) ∧ av_ccb s = true.

Lemma msi_holds_frame s s' m : msi_holds s m → av_msi s' = av_msi s → (av_fresh s <= av_fresh s')%positive → msi_holds s' m.
Proof. intros [H1 H2] E Hf. split; rewrite E; [done|]. intros p Hp. apply H2 in Hp. lia. Qed.
Lemma av_holds_frame s s' n : av_holds s n → av_calls s' = av_calls s → (av_fresh s <= av_fresh s')%positive → av_holds s' n.
Proof. intros [H1 H2] E Hf. split; rewrite E; [done|]. intros p Hp. apply H2 in Hp. lia. Qed.

(** A client that does not use the calls when it is told of something. *)
Definition harmless (client : Av_Event → AV unit) : Prop :=
  ∀ e s, does (client e) s (λ _ s', ∃ log events, s' = s <| av_asked := log |> <| av_events := events |>).

Section rules.
Context (s : Tox_Av) (m : gmap Z (addr * MSICall)) (n : gmap Z (addr * ToxAVCall)) (Hb : both s m n).

Lemma b_ask a Q : (∀ r s', both s' m n → Q r s') → does (av_ask a) s Q.
Proof using Hb. intros HQ. apply does_ask. cbv zeta. by apply HQ. Qed.
Lemma b_send f msg Q : is_Some (msg_request msg) → (∀ r s', both s' m n → Q r s') → does (send_message f msg) s Q.
Proof using Hb. intros Hr HQ. apply do_send; [done|]. intros x log _. by apply HQ. Qed.
Lemma b_get_call f Q : 0 <= f → (both s m n → Q (fst <$> m !! f) s) → does (get_call f) s Q.
Proof using Hb. intros Hf HQ. eapply do_get_call; [apply Hb|done|auto]. Qed.
Lemma b_call_get f Q : 0 <= f → (both s m n → Q (fst <$> n !! f) s) → does (call_get f) s Q.
Proof using Hb. intros Hf HQ. unfold does, call_get, on_av. destruct Hb as (Hm & [Hn Hfr] & Hrest). rewrite (holds_find _ n) by done. destruct s. by apply HQ. Qed.
Lemma b_tell client e Q : harmless client → (∀ s', both s' m n → Q tt s') → does (tell client e) s Q.
Proof using Hb.
  intros Hc HQ. unfold tell. apply does_bind, does_writes. eapply does_mono; [apply Hc|]. cbn beta. intros [] s' (log & ev & ->). by apply HQ.
Qed.

Section msi.
Context (f : Z) (p : addr) (c : MSICall) (Hf : m !! f = Some (p, c)).
Lemma b_deref Q : (∀ pv nx, both s m n → Q (set_prev pv (set_next nx c)) s) → does (on_msi (deref p)) s Q.
Proof using Hb Hf. intros HQ. eapply do_deref; [apply Hb|done|auto]. Qed.
Lemma b_set g Q : link_free g → (∀ s', both s' (<[f := (p, g c)]> m) n → Q tt s') → does (set_call p g) s Q.
Proof using Hb Hf. intros Hg HQ. eapply do_set; [apply Hb|done|done|]. intros t Ht. apply HQ. by split; [|apply Hb]. Qed.
Lemma b_kill Q : (∀ s', both s' (delete f m) n → Q tt s') → does (kill_call p) s Q.
Proof using Hb Hf. intros HQ. eapply do_kill; [apply Hb|done|]. intros t Ht. apply HQ. by split; [|apply Hb]. Qed.
End msi.

Lemma b_new_call f Q : m !! f = None → 0 <= f < UINT32_MAX → (∀ s', both s' m n → Q None s') →
  (∀ s' p, both s' (<[f := (p, zero_msi_call f)]> m) n → Q (Some p) s') → does (new_call f) s Q.
Proof using Hb.
  intros Hf Hr HN HS. destruct Hb as (Hm & Hn & Hcb & Hccb). eapply do_new_call; [done..| |].
  - intros s' Hm' _ _ (log & q & t & -> & Hq) _. apply HN. split; [done|]. split; [|done]. by apply (av_holds_frame s).
  - intros s' p Hm' _ _ (log & q & t & -> & Hq). apply HS. split; [done|]. split; [|done]. by apply (av_holds_frame s).
Qed.

Section av.
Context (f : Z) (q : addr) (d : ToxAVCall) (Hf : n !! f = Some (q, d)).
Lemma b_av_deref Q : (∀ pv nx, both s m n → Q (set_prev pv (set_next nx d)) s) → does (on_av (deref q)) s Q.
Proof using Hb Hf.
  intros HQ. destruct Hb as (Hm & [Hn Hfr] & Hrest). destruct (holds_deref (av_calls s) n f q d) as (pv & nx & E); [done..|]. unfold does, on_av. rewrite E. destruct s. by apply HQ.
Qed.

Lemma av_holds_set t n' : holds t n' → (∀ k p x, n' !! k = Some (p, x) → ∃ j y, n !! j = Some (p, y)) → both (s <| av_calls := t |>) m n'.
Proof using Hb.
  intros Ht Hd. destruct Hb as (Hm & [Hn Hfr] & Hcb & Hccb). split; [done|]. split; [|done]. split; [done|]. cbn.
  intros p (k & x & Hk)%(holds_cell t n'); [|done]. apply Hd in Hk as (j & y & Hj). apply Hfr. by eapply holds_alive.
Qed.

Lemma b_set_av g Q : link_free g → (∀ s', both s' m (<[f := (q, g d)]> n) → Q tt s') → does (set_av q g) s Q.
Proof using Hb Hf.
  intros Hg HQ. pose proof Hb as (_ & [Hn _] & _). destruct (holds_store (av_calls s) n f q d g) as (t & E & Ht); [done..|]. unfold does, set_av, on_av. rewrite E. apply HQ.
  apply av_holds_set; [done|]. intros k p x. destruct (decide (k = f)) as [->|]; [rewrite lookup_insert_eq; naive_solver|]. rewrite lookup_insert_ne by done. eauto.
Qed.

(** The end of [call_remove], which frees the cell before it changes the links. *)
Lemma remove_tail d' Q : tc_friend_number d' = f →
  (∀ pv nx, deref q (av_calls s) = Ok (set_prev pv (set_next nx d), av_calls s) → tc_prev d' = pv ∧ tc_next d' = nx) →
  (∀ x s', both s' m (delete f n) → Q x s') →
  does (on_av (put_call (tc_friend_number d') None);; on_av (free_cell q);; on_av (unlink_call (tc_prev d') (tc_next d'));;
        mret (match tc_prev d', tc_next d' with None, None => None | _, next => next end)) s Q.
Proof using Hb Hf.
  intros Hnum Hd HQ. pose proof Hb as (_ & [Hn _] & _).
  destruct (holds_unlink (av_calls s) n f q d (delete q (t_heap (av_calls s)))) as (pv & nx & t1 & t' & E1 & E2 & Eh & E3 & Hq & Ht); [done|done|intros r Hr; by rewrite lookup_delete_ne|].
  destruct (Hd pv nx E1) as [-> ->]. rewrite Hnum. apply does_bind. unfold does at 1, on_av at 1. rewrite E2. apply does_bind. unfold does at 1, on_av at 1, free_cell.
  destruct (holds_alive (av_calls s) n f q d) as [x Hx]; [done..|]. erewrite run_fst; [|apply deref_ok; cbn; rewrite Eh; exact Hx]. unfold writes. cbn [av_calls set_field]. cbn.
  apply does_bind. unfold does at 1, on_av at 1. cbn [av_calls]. rewrite Eh.
  change (mkTable (delete q (t_heap (av_calls s))) (t_calls t1) (t_head t1) (t_tail t1)) with (t1 <| t_heap := delete q (t_heap (av_calls s)) |>). rewrite E3.
  apply does_ret, HQ. replace t' with (t' <| t_heap := delete q (t_heap t') |>).
  - apply av_holds_set; [done|]. intros k p y Hk. apply lookup_delete_Some in Hk as [_ Hk]. eauto.
  - assert (t_heap t' !! q = None) as Hnone by (destruct (t_heap t' !! q) eqn:E; [|done]; destruct Hq as [[? Hq] _]; [by eexists|]; by rewrite lookup_delete_eq in Hq).
    destruct t' as [h ? ? ?]. cbn in *. f_equal. by apply delete_id.
Qed.
End av.
End rules.

(** [call_remove], for a call with a call of the session and for one without. *)
Lemma b_call_remove s m n f q d m' Q : both s m n → n !! f = Some (q, d) →
  match tc_msi_call d with None => m' = m | Some p => ∃ c, m !! f = Some (p, c) ∧ m' = <[f := (p, c <| mc_av_call := None |>)]> m end →
  (∀ x s', both s' m' (delete f n) → Q x s') → does (call_remove q) s Q.
Proof.
  intros Hb Hf Hm' HQ. pose proof Hb as (Hm & [Hn _] & _). destruct (holds_deref (av_calls s) n f q d) as (pv & nx & E); [done..|].
  destruct (holds_num (av_calls s) n f q d) as [Hnum _]; [done..|]. unfold call_remove. apply does_bind. unfold does at 1, on_av at 1. rewrite E.
  set (d' := set_prev pv (set_next nx d)) in *. replace (s <| av_calls := av_calls s |>) with s by (by destruct s).
  assert (∀ pv' nx', deref q (av_calls s) = Ok (set_prev pv' (set_next nx' d), av_calls s) → tc_prev d' = pv' ∧ tc_next d' = nx') as Hlinks.
  { intros pv' nx' E'. assert (d' = set_prev pv' (set_next nx' d)) as -> by congruence. done. }
  apply does_bind. change (tc_msi_call d') with (tc_msi_call d). destruct (tc_msi_call d) as [p|].
  - destruct Hm' as (c & Hc & ->). eapply do_set; [exact Hm|exact Hc|links|]. intros t Ht.
    assert (both (s <| av_msi := t |>) (<[f := (p, c <| mc_av_call := None |>)]> m) n) as Hb' by (split; [done|apply Hb]).
    eapply remove_tail; [exact Hb'|done|done|exact Hlinks|exact HQ].
  - subst m'. apply does_ret. eapply remove_tail; [exact Hb|done|done|exact Hlinks|exact HQ].
Qed.

Lemma b_call_new s m n f Q : both s m n → 0 <= f < UINT32_MAX → (∀ rc s', both s' m n → Q (rc, None) s') →
  (∀ s' p, n !! f = None → both s' m (<[f := (p, zero_av_call f)]> n) → Q (TOXAV_ERR_CALL_OK, Some p) s') → does (call_new f) s Q.
Proof.
  intros Hb Hf HN HS. unfold call_new, toxav_friend_exists. do 2 apply does_bind. eapply b_ask; [done|]. intros r s1 Hb1. apply does_ret.
  destruct (negb _); [by apply does_ret, HN|]. apply does_bind. eapply b_ask; [done|]. clear r. intros r s2 Hb2. destruct (r =? 0); [by apply does_ret, HN|].
  apply does_bind. eapply b_call_get; [done|lia|]. intros _. destruct (n !! f) as [[q d]|] eqn:Ef; cbn [fmap option_fmap option_map fst]; [by apply does_ret, HN|].
  apply does_bind. eapply b_ask; [done|]. clear r. intros r s3 Hb3. destruct (r =? 0); [by apply does_ret, HN|]. apply does_bind. unfold new_av_cell, does at 1. cbv zeta.
  set (p := av_fresh s3). set (c0 := zero_av_call f). pose proof Hb3 as (Hm3 & [Hn3 Hfr3] & Hcb3 & Hccb3).
  assert (t_heap (av_calls s3) !! p = None) as Hp.
  { destruct (t_heap (av_calls s3) !! p) eqn:E; [|done]. assert (p < av_fresh s3)%positive as Hlt by (apply Hfr3; by rewrite E). unfold p in Hlt. lia. }
  assert (∀ log t n', holds t n' → (∀ q, is_Some (t_heap t !! q) → (q < Pos.succ p)%positive) →
    both (s3 <| av_fresh := Pos.succ p |> <| av_asked := log |> <| av_calls := t |>) m n') as Hnew.
  { intros log t n' Ht Hlt. split; [apply (msi_holds_frame s3); [done|done|cbn; unfold p; lia]|]. by split. }
  assert (∀ log, does (on_av (free_cell p);; mret (TOXAV_ERR_CALL_MALLOC, None))
    (s3 <| av_fresh := Pos.succ p |> <| av_asked := log |> <| av_calls := (av_calls s3) <| t_heap := <[p := c0]> (t_heap (av_calls s3)) |> |>) Q) as Hfree.
  { intros log. apply does_bind. unfold does at 1, on_av at 1, free_cell. cbn [av_calls set_field]. cbn. erewrite run_fst; [|apply deref_ok; cbn; apply lookup_insert_eq].
    unfold writes. apply does_ret, HN. cbn. rewrite delete_insert_id by done. apply (Hnew log); [by destruct (av_calls s3)|]. cbn. intros q Hq. apply Hfr3 in Hq. unfold p. lia. }
  set (s4 := s3 <| av_fresh := Pos.succ p |> <| av_calls := (av_calls s3) <| t_heap := <[p := c0]> (t_heap (av_calls s3)) |> |>).
  match goal with |- does ?x _ _ => change (does x s4 Q) end.
  apply does_bind, does_ask. cbv zeta. set (r5 := av_answer s4 AAlloc _). destruct (r5 =? 0); [exact (Hfree (av_asked s4 ++ [(AAlloc, r5)]))|]. apply does_bind, does_reads. apply does_bind.
  apply (does_mono _ _ (λ (_ : Z) s', ∃ log, s' = s4 <| av_asked := log |>)).
  { destruct (needs_array _ f); [apply does_ask; by eexists|]. apply does_ret. by eexists. }
  intros grow s' (log & ->). apply does_bind. unfold does at 1, on_av at 1.
  destruct (holds_link true (negb (grow =? 0)) (av_junk s4) (av_calls s3) n f p c0) as (b & t' & E & Hbt); [done..|].
  change (av_calls (s4 <| av_asked := log |>)) with ((av_calls s3) <| t_heap := <[p := c0]> (t_heap (av_calls s3)) |>). match goal with |- context [link_call true _ ?j p f] => change j with (av_junk s4) end. rewrite E.
  destruct b; cbn [negb].
  - apply does_ret. apply HS; [done|]. apply (Hnew log); [done|]. intros q (k & x & Hk)%(holds_cell t' _ q Hbt). destruct (decide (k = f)) as [->|Hkf].
    + rewrite lookup_insert_eq in Hk. injection Hk as <- _. lia.
    + rewrite lookup_insert_ne in Hk by done. assert (q < av_fresh s3)%positive; [|unfold p; lia]. apply Hfr3. by eapply holds_alive.
  - destruct Hbt as [_ ->]. exact (Hfree log).
Qed.

(** [tc_msi_call] is all that links a call of [toxav.c]. *)
Lemma b_prepare s m n f q d Q : both s m n → n !! f = Some (q, d) →
  (∀ r s' d', both s' m (<[f := (q, d')]> n) → tc_msi_call d' = tc_msi_call d → tc_previous_self_capabilities d' = tc_previous_self_capabilities d → Q r s') →
  does (call_prepare_transmission q) s Q.
Proof.
  intros Hb Hf HQ. unfold call_prepare_transmission. apply does_bind, does_reads. apply does_bind. eapply b_av_deref; [done..|]. intros pv nx _.
  assert (∀ s', both s' m n → Q false s') as Hno by (intros s' Hs'; eapply HQ; [by rewrite insert_id|done|done]).
  destruct (_ && _); [by apply does_ret, Hno|]. change (tc_active (set_prev pv (set_next nx d))) with (tc_active d).
  destruct (tc_active d); [apply does_ret; eapply HQ; [by rewrite insert_id|done|done]|].
  apply does_bind. eapply b_ask; [done|]. intros r1 s1 Hb1. destruct (r1 =? 0); [by apply does_ret, Hno|].
  apply does_bind. eapply b_ask; [done|]. intros r2 s2 Hb2. destruct (r2 =? 0); [by apply does_ret, Hno|]. cbv zeta.
  assert (∀ s' e, both s' m (<[f := (q, e)]> n) → tc_msi_call e = tc_msi_call d → tc_previous_self_capabilities e = tc_previous_self_capabilities d →
    does (set_av q (λ c, c <| tc_audio_rtp := None |> <| tc_video_rtp := None |>);; mret false) s' Q) as Hfail.
  { intros s' e Hs' He1 He2. apply does_bind. eapply b_set_av; [exact Hs'|by rewrite lookup_insert_eq|links|]. intros s'' Hs''. rewrite insert_insert_eq in Hs''. eapply does_ret, HQ; [exact Hs''|done|done]. }
  assert (∀ s', both s' m n → does (set_av q (λ c, c <| tc_audio_rtp := None |> <| tc_video_rtp := None |>);; mret false) s' Q) as Hfail0.
  { intros s' Hs'. apply (Hfail s' d); [by rewrite insert_id|done|done]. }
  apply does_bind. eapply b_ask; [done|]. intros r3 s3 Hb3. destruct (r3 =? 0); [by apply Hfail0|].
  apply does_bind. eapply b_ask; [done|]. intros r4 s4 Hb4. destruct (r4 =? 0); [by apply Hfail0|].
  apply does_bind. eapply b_set_av; [done|done|links|]. intros s5 Hb5.
  apply does_bind. eapply b_ask; [done|]. intros r6 s6 Hb6. destruct (r6 =? 0); [by eapply Hfail|].
  apply does_bind. eapply b_ask; [done|]. intros r7 s7 Hb7. destruct (r7 =? 0); [by eapply Hfail|].
  apply does_bind. eapply b_set_av; [done|by rewrite lookup_insert_eq|links|]. intros s8 Hb8. rewrite insert_insert_eq in Hb8. eapply does_ret, HQ; [exact Hb8|done|done].
Qed.

Lemma b_kill_transmission s m n f q d Q : both s m n → n !! f = Some (q, d) →
  (∀ s' d', both s' m (<[f := (q, d')]> n) → tc_msi_call d' = tc_msi_call d → Q tt s') → does (call_kill_transmission q) s Q.
Proof.
  intros Hb Hf HQ. unfold call_kill_transmission. apply does_bind. eapply b_av_deref; [done..|]. intros pv nx _. change (tc_active (set_prev pv (set_next nx d))) with (tc_active d).
  destruct (negb (tc_active d)); [apply does_ret; eapply HQ; [by rewrite insert_id|done]|]. eapply b_set_av; [done|done|links|]. intros s' Hs'. by eapply HQ.
Qed.

(** ** The callbacks of the session *)

(** A call of the session and one of [toxav.c] that point to each other. *)
Definition paired (x : option (addr * MSICall)) (y : option (addr * ToxAVCall)) : Prop :=
  match x, y with
  | Some (p, c), Some (q, d) => mc_av_call c = Some q ∧ tc_msi_call d = Some p
  | None, None => True
  | _, _ => False
  end.

(** All calls but that of the friend [f]. *)
Definition apart (f : Z) m n : Prop := ∀ k, k ≠ f → paired (m !! k) (n !! k).

Lemma apart_ext f m n m' n' : apart f m n → (∀ k, k ≠ f → m' !! k = m !! k) → (∀ k, k ≠ f → n' !! k = n !! k) → apart f m' n'.
Proof. intros Ha Hm Hn k Hk. rewrite Hm, Hn by done. by apply Ha. Qed.

Ltac others := first [done | eapply apart_ext; [eassumption|..]; intros ? ?; rewrite ?lookup_insert_ne, ?lookup_delete_ne by done; done].

(** The layers are in step. *)
Definition linked (s : Tox_Av) m n : Prop := both s m n ∧ live m ∧ ∀ f, paired (m !! f) (n !! f).
Definition in_step (s : Tox_Av) : Prop := ∃ m n, linked s m n.

Lemma linked_at f s m n : both s m n → live m → apart f m n → paired (m !! f) (n !! f) → in_step s.
Proof. intros Hb Hl Ha Hp. exists m, n. split; [done|]. split; [done|]. intros k. destruct (decide (k = f)) as [->|]; auto. Qed.

(** After a callback for the call at [p]: it is paired, or [toxav.c] has no call. *)
Definition called (f : Z) (p : addr) (with_av : bool) (s : Tox_Av) : Prop :=
  ∃ m n c, both s m n ∧ live m ∧ apart f m n ∧ m !! f = Some (p, c) ∧ if with_av then paired (m !! f) (n !! f) else n !! f = None.

Section callbacks.
Context (client : Av_Event → AV unit) (Hclient : harmless client).

Lemma b_state_callback s m n f state Q : both s m n → (∀ r s', both s' m n → Q r s') → does (invoke_call_state_callback client f state) s Q.
Proof using Hclient.
  intros Hb HQ. unfold invoke_call_state_callback. apply does_bind, does_reads. destruct (av_scb s); [|by apply does_ret, HQ].
  apply does_bind. eapply b_tell; [done|done|]. intros s' Hs'. by apply does_ret, HQ.
Qed.

Lemma invite_called f p c s m n : both s m n → live m → apart f m n → m !! f = Some (p, c) → n !! f = None →
  does (callback_invite client p) s (λ r s', called f p (r =? 0) s').
Proof using Hclient.
  intros Hb Hl Ha Hf Hn. pose proof (Hl _ _ Hf) as Hst. cbn in Hst. unfold callback_invite. apply does_bind. eapply b_deref; [done..|]. intros pv nx _. fields_of c.
  destruct (holds_num (av_msi s) m f p c) as [Hnum Hr]; [apply Hb|done|]. cbn in Hnum. rewrite Hnum. apply does_bind. eapply b_call_new; [done|lia| |].
  { intros rc s1 Hb1. apply does_ret. by exists m, n, c. }
  intros s1 q _ Hb1. apply does_bind. eapply b_set; [done|done|links|]. intros s2 Hb2. apply does_bind. eapply b_set_av; [done|by rewrite lookup_insert_eq|links|].
  intros s3 Hb3. rewrite insert_insert_eq in Hb3. apply does_bind, does_reads. pose proof Hb3 as (_ & _ & _ & ->).
  apply does_bind. eapply b_deref; [exact Hb3|by rewrite lookup_insert_eq|]. intros pv' nx' _. apply does_bind. eapply b_tell; [exact Hb3|done|]. intros s4 Hb4.
  apply does_ret. eexists _, _, _. split; [exact Hb4|]. split; [apply live_insert; [by apply live_delete|done]|]. split; [others|]. split; [by rewrite lookup_insert_eq|].
  cbn. by rewrite !lookup_insert_eq.
Qed.

(** The call of [toxav.c] is removed. *)
Lemma remove_av_call_called f p c s m n : both s m n → live m → apart f m n → m !! f = Some (p, c) → paired (m !! f) (n !! f) →
  does (remove_av_call p) s (λ _ s', called f p false s').
Proof using.
  intros Hb Hl Ha Hf Hp. rewrite Hf in Hp. destruct (n !! f) as [[q d]|] eqn:Hn; [|done]. destruct Hp as [Hav Hmsi]. unfold remove_av_call.
  apply does_bind. eapply b_deref; [done..|]. intros pv nx _. change (mc_av_call (set_prev pv (set_next nx c))) with (mc_av_call c). rewrite Hav.
  apply does_bind. eapply b_kill_transmission; [done..|]. intros s1 d' Hb1 Hd'. apply does_bind. eapply b_call_remove; [exact Hb1|by rewrite lookup_insert_eq|rewrite Hd', Hmsi; by exists c|].
  intros x s2 Hb2. apply does_ret. rewrite delete_insert_eq in Hb2. eexists _, _, _. split; [exact Hb2|]. pose proof (Hl _ _ Hf) as Hst. cbn in Hst.
  split; [apply live_insert; [by apply live_delete|done]|]. split; [others|]. split; [by rewrite lookup_insert_eq|by rewrite lookup_delete_eq].
Qed.

Lemma end_called f p c s m n : both s m n → live m → apart f m n → m !! f = Some (p, c) → paired (m !! f) (n !! f) →
  does (callback_end client p) s (λ _ s', called f p false s').
Proof using Hclient.
  intros Hb Hl Ha Hf Hp. unfold callback_end. apply does_bind. eapply b_deref; [done..|]. intros pv nx _. apply does_bind. eapply b_state_callback; [done|]. intros r s1 Hb1.
  apply does_bind. eapply does_mono; [by eapply remove_av_call_called|]. intros [] s2 Hs2. exact Hs2.
Qed.

Lemma error_called f p c s m n : both s m n → live m → apart f m n → m !! f = Some (p, c) → paired (m !! f) (n !! f) →
  does (callback_error client p) s (λ _ s', called f p false s').
Proof using Hclient.
  intros Hb Hl Ha Hf Hp. unfold callback_error. apply does_bind. eapply b_deref; [done..|]. intros pv nx _. apply does_bind. eapply b_state_callback; [done|]. intros r s1 Hb1.
  apply does_bind. eapply does_mono; [by eapply remove_av_call_called|]. intros [] s2 Hs2. exact Hs2.
Qed.

Lemma start_called f p c s m n : both s m n → live m → apart f m n → m !! f = Some (p, c) → paired (m !! f) (n !! f) →
  does (callback_start client p) s (λ r s', called f p (r =? 0) s').
Proof using Hclient.
  intros Hb Hl Ha Hf Hp. unfold callback_start. apply does_bind. eapply b_deref; [done..|]. intros pv nx _. fields_of c.
  destruct (holds_num (av_msi s) m f p c) as [Hnum Hr]; [apply Hb|done|]. cbn in Hnum. rewrite Hnum. apply does_bind. eapply b_call_get; [done|lia|]. intros _.
  rewrite Hf in Hp. destruct (n !! f) as [[q d]|] eqn:Hn; [|done]. destruct Hp as [Hav Hmsi]. cbn [fmap option_fmap option_map fst]. apply does_bind.
  eapply b_prepare; [done..|]. intros ok s1 d' Hb1 Hd' _. assert (apart f m (<[f := (q, d')]> n)) as Ha1 by others.
  assert (paired (m !! f) (<[f := (q, d')]> n !! f)) as Hp1 by (rewrite Hf, lookup_insert_eq; split; [done|by rewrite Hd']).
  assert (∀ s', both s' m (<[f := (q, d')]> n) → does (callback_error client p;; mret (-1)) s' (λ r s', called f p (r =? 0) s')) as Herr.
  { intros s' Hs'. apply does_bind. eapply does_mono; [by eapply error_called|]. intros r s'' Hs''. exact Hs''. }
  destruct (negb ok); [by apply Herr|]. apply does_bind. eapply b_state_callback; [done|]. intros r s2 Hb2. destruct (negb r); [by apply Herr|].
  apply does_ret. by exists m, (<[f := (q, d')]> n), c.
Qed.

Lemma capabilities_called f p c s m n : both s m n → live m → apart f m n → m !! f = Some (p, c) → paired (m !! f) (n !! f) →
  does (callback_capabilites client p) s (λ r s', called f p (r =? 0) s').
Proof using Hclient.
  intros Hb Hl Ha Hf Hp. rewrite Hf in Hp. destruct (n !! f) as [[q d]|] eqn:Hn; [|done]. destruct Hp as [Hav Hmsi]. unfold callback_capabilites.
  apply does_bind. eapply b_deref; [done..|]. intros pv nx _. change (mc_av_call (set_prev pv (set_next nx c))) with (mc_av_call c). rewrite Hav.
  apply does_bind. eapply b_set_av; [done|done|links|]. intros s1 Hb1. apply does_bind. eapply b_set_av; [exact Hb1|by rewrite lookup_insert_eq|links|].
  intros s2 Hb2. rewrite insert_insert_eq in Hb2. apply does_bind. eapply b_state_callback; [exact Hb2|]. intros r s3 Hb3. apply does_ret.
  eexists m, _, c. split; [exact Hb3|]. split; [done|]. split; [others|]. split; [done|]. cbn. rewrite Hf, lookup_insert_eq. by split.
Qed.

(** *** The handlers of messages *)

(** A field of the call that does not link it. *)
Lemma called_set g f p w s Q : (∀ c, mc_av_call (g c) = mc_av_call c) → (∀ c, mc_state c ≠ MSI_CALL_INACTIVE → mc_state (g c) ≠ MSI_CALL_INACTIVE) → link_free g →
  called f p w s → (∀ s', called f p w s' → Q tt s') → does (set_call p g) s Q.
Proof using.
  intros Hav Hst Hg (m & n & c & Hb & Hl & Ha & Hf & Hw) HQ. eapply b_set; [done..|]. intros s' Hs'. apply HQ. exists (<[f := (p, g c)]> m), n, (g c).
  split; [done|]. split; [apply live_insert; [by apply live_delete|]; apply Hst, (Hl _ _ Hf)|]. split; [others|]. split; [by rewrite lookup_insert_eq|].
  destruct w; [|done]. rewrite Hf in Hw. rewrite lookup_insert_eq. destruct (n !! f) as [[q d]|]; [|done]. cbn in *. by rewrite Hav.
Qed.

Lemma called_deref f p w s Q : called f p w s → (∀ c pv nx, Q (set_prev pv (set_next nx c)) s) → does (on_msi (deref p)) s Q.
Proof using. intros (m & n & c & Hb & _ & _ & Hf & _) HQ. eapply b_deref; [done..|]. intros pv nx _. apply HQ. Qed.

(** The result of [invoke_callback] when the callback has returned [r]. *)
Lemma b_invoke cb f p c s m n (w : Z → bool) : both s m n → m !! f = Some (p, c) → does (av_callback client cb p) s (λ r s', called f p (w r) s') →
  does (invoke_callback (av_callback client) p cb) s (λ x s', ∃ r, called f p (w r) s' ∧ x = if r =? 0 then 0 else -1).
Proof using.
  intros Hb Hf Hcb. unfold invoke_callback. apply does_bind. eapply b_deref; [done..|]. intros pv nx _. apply does_bind, does_reads.
  pose proof Hb as (_ & _ & -> & _). apply does_bind. eapply does_mono; [exact Hcb|]. intros r s' Hs'. destruct (r =? 0) eqn:Er; [apply does_ret; exists r; by rewrite Er|].
  apply does_bind. eapply called_deref; [exact Hs'|]. intros c' pv' nx'. apply does_bind.
  assert (∀ s'', called f p (w r) s'' → does (mret (-1)) s'' (λ x s', ∃ r, called f p (w r) s' ∧ x = if r =? 0 then 0 else -1)) as Hret.
  { intros s'' Hs''. apply does_ret. exists r. by rewrite Er. }
  destruct (bool_decide _); [|by apply does_ret, Hret]. eapply called_set; [done|done|links|exact Hs'|exact Hret].
Qed.

(** A call without one of [toxav.c] is ended. *)
Lemma kill_in_step f p c s m n : both s m n → live (delete f m) → apart f m n → m !! f = Some (p, c) → n !! f = None → does (kill_call p) s (λ _ s', in_step s').
Proof using.
  intros Hb Hl Ha Hf Hn. eapply b_kill; [done..|]. intros s' Hs'. apply (linked_at f s' (delete f m) n); [done|done|others|]. by rewrite lookup_delete_eq, Hn.
Qed.

Lemma failure_in_step f p c s m n : both s m n → live (delete f m) → apart f m n → m !! f = Some (p, c) → n !! f = None → does (handle_failure p) s (λ _ s', in_step s').
Proof using.
  intros Hb Hl Ha Hf Hn. unfold handle_failure. apply does_bind. eapply b_deref; [done..|]. intros pv nx _. apply does_bind. unfold send_error.
  apply does_bind. eapply b_send; [done|by eexists|]. intros _ s1 Hb1. apply does_ret. by eapply kill_in_step.
Qed.

Lemma called_kill f p s : called f p false s → does (kill_call p) s (λ _ s', in_step s').
Proof using. intros (m & n & c & Hb & Hl & Ha & Hf & Hn). eapply kill_in_step; eauto with msi. Qed.
Lemma called_failure f p s : called f p false s → does (handle_failure p) s (λ _ s', in_step s').
Proof using. intros (m & n & c & Hb & Hl & Ha & Hf & Hn). eapply failure_in_step; eauto with msi. Qed.

Lemma push_in_step f p s : called f p true s → does (send_push p) s (λ _ s', in_step s').
Proof using.
  intros (m & n & c & Hb & Hl & Ha & Hf & Hp). unfold send_push. apply does_bind. eapply b_deref; [done..|]. intros pv nx _. apply does_bind.
  eapply b_send; [done|by eexists|]. intros _ s1 Hb1. apply does_ret. by apply (linked_at f s1 m n).
Qed.

Lemma called_in_step f p s : called f p true s → in_step s.
Proof using. intros (m & n & c & Hb & Hl & Ha & Hf & Hp). by apply (linked_at f s m n). Qed.

(** A callback and, when it fails, the end of the call. *)
Lemma invoke_in_step cb f p c s m n (rest : AV unit) : both s m n → m !! f = Some (p, c) → does (av_callback client cb p) s (λ r s', called f p (r =? 0) s') →
  (∀ s', called f p true s' → does rest s' (λ _ s'', in_step s'')) →
  does (r ← invoke_callback (av_callback client) p cb; if r =? -1 then handle_failure p else rest) s (λ _ s', in_step s').
Proof using.
  intros Hb Hf Hcb Hrest. apply does_bind. eapply does_mono; [by eapply (b_invoke cb f p c s m n (λ r, r =? 0))|]. cbn beta.
  intros x s' (r & Hs' & ->). destruct (r =? 0); cbn; [by apply Hrest|by apply (called_failure f)].
Qed.

(** A message that friends who keep to the protocol send to the call [x]: in a call its
    capabilities are given, and a call that was not answered is not offered again. *)
Definition expected (x : option MSICall) (msg : MSIMessage) : bool :=
  match x, msg_request msg with
  | Some c, Some REQU_INIT => bool_decide (is_Some (msg_capabilities msg)) && negb (bool_decide (mc_state c = MSI_CALL_REQUESTED))
  | Some c, Some REQU_PUSH => bool_decide (is_Some (msg_capabilities msg))
  | _, _ => true
  end.

(** The call that was set to [c'] by a handler. *)
Lemma paired_insert f p (c c' : MSICall) m n : m !! f = Some (p, c) → mc_av_call c' = mc_av_call c → paired (m !! f) (n !! f) → paired (<[f := (p, c')]> m !! f) (n !! f).
Proof using. intros Hf Hav. rewrite Hf, lookup_insert_eq. destruct (n !! f) as [[q d]|]; [|done]. cbn. by rewrite Hav. Qed.

Lemma init_in_step f p c s m n msg : both s m n → live m → apart f m n → m !! f = Some (p, c) → paired (m !! f) (n !! f) → msg_request msg = Some REQU_INIT →
  expected (Some c) msg = true → does (handle_init (av_callback client) p msg) s (λ _ s', in_step s').
Proof using Hclient.
  intros Hb Hl Ha Hf Hp Hm He. unfold expected in He. rewrite Hm in He. apply andb_true_iff in He as [He1 He2]. unfold handle_init.
  destruct (msg_capabilities msg) as [caps|]; [|rewrite bool_decide_eq_true in He1; by destruct He1].
  apply does_bind. eapply b_deref; [done..|]. intros pv nx _. fields_of c. pose proof (Hl _ _ Hf) as Hst. cbn in Hst. destruct (mc_state c) eqn:Ec; [done| | |done].
  - apply (push_in_step f). by exists m, n, c.
  - apply does_bind. eapply b_set; [done|done|links|]. intros s1 Hb1. eapply invoke_in_step; [exact Hb1|by rewrite lookup_insert_eq| |intros s' Hs'; by apply (push_in_step f)].
    eapply start_called; [exact Hb1|apply live_insert; [by apply live_delete|done]|others|by rewrite lookup_insert_eq|by eapply paired_insert].
Qed.

Lemma handle_push_in_step f p c s m n msg : both s m n → live m → apart f m n → m !! f = Some (p, c) → paired (m !! f) (n !! f) → msg_request msg = Some REQU_PUSH →
  expected (Some c) msg = true → does (handle_push (av_callback client) p msg) s (λ _ s', in_step s').
Proof using Hclient.
  intros Hb Hl Ha Hf Hp Hm He. unfold expected in He. rewrite Hm in He. unfold handle_push.
  destruct (msg_capabilities msg) as [caps|]; [|rewrite bool_decide_eq_true in He; by destruct He].
  apply does_bind. eapply b_deref; [done..|]. intros pv nx _. fields_of c. assert (in_step s) as Hs by by apply (linked_at f s m n).
  assert (∀ s', called f p true s' → does (mret tt) s' (λ _ s'', in_step s'')) as Hret by (intros s' Hs'; by eapply does_ret, called_in_step).
  destruct (mc_state c) eqn:Ec; [by apply does_ret| | |by apply does_ret].
  - destruct (negb _); [|by apply does_ret]. apply does_bind. eapply b_set; [done|done|links|]. intros s1 Hb1. eapply invoke_in_step; [exact Hb1|by rewrite lookup_insert_eq| |exact Hret].
    eapply capabilities_called; [exact Hb1|apply live_insert; [by apply live_delete|cbn; by rewrite Ec]|others|by rewrite lookup_insert_eq|by eapply paired_insert].
  - apply does_bind. eapply b_set; [done|done|links|]. intros s1 Hb1. eapply invoke_in_step; [exact Hb1|by rewrite lookup_insert_eq| |exact Hret].
    eapply start_called; [exact Hb1|apply live_insert; [by apply live_delete|done]|others|by rewrite lookup_insert_eq|by eapply paired_insert].
Qed.

(** The first message of a call. *)
Lemma first_in_step f p s m n msg : both s (<[f := (p, zero_msi_call f)]> m) n → live m → (∀ k, paired (m !! k) (n !! k)) → m !! f = None →
  does (handle_init (av_callback client) p msg) s (λ _ s', in_step s').
Proof using Hclient.
  intros Hb Hl Hp Hf. assert (n !! f = None) as Hn by (specialize (Hp f); rewrite Hf in Hp; by destruct (n !! f)). assert (apart f m n) as Ha by by intros k _.
  unfold handle_init. destruct (msg_capabilities msg) as [caps|].
  - apply does_bind. eapply b_deref; [done|by rewrite lookup_insert_eq|]. intros pv nx _. cbn. apply does_bind. eapply b_set; [done|by rewrite lookup_insert_eq|links|].
    intros s1 Hb1. rewrite insert_insert_eq in Hb1. eapply invoke_in_step; [exact Hb1|by rewrite lookup_insert_eq| |intros s' Hs'; by eapply does_ret, called_in_step].
    eapply invite_called; [exact Hb1|apply live_insert; [by apply live_delete|done]|others|by rewrite lookup_insert_eq|done].
  - apply does_bind. eapply b_set; [done|by rewrite lookup_insert_eq|links|]. intros s1 Hb1. rewrite insert_insert_eq in Hb1.
    eapply failure_in_step; [exact Hb1|rewrite delete_insert_eq; by apply live_delete|others|by rewrite lookup_insert_eq|done].
Qed.

(** A callback that ends the call of [toxav.c], and the end of the other. *)
Lemma invoke_ends cb f p c s m n : both s m n → m !! f = Some (p, c) → does (av_callback client cb p) s (λ _ s', called f p false s') →
  does (invoke_callback (av_callback client) p cb) s (λ _ s', called f p false s').
Proof using. intros Hb Hf Hcb. eapply does_mono; [by eapply (b_invoke cb f p c s m n (λ _, false))|]. by intros x s' (r & Hs' & _). Qed.

Lemma pop_in_step f p c s m n msg : both s m n → live m → apart f m n → m !! f = Some (p, c) → paired (m !! f) (n !! f) →
  does (handle_pop (av_callback client) p msg) s (λ _ s', in_step s').
Proof using Hclient.
  intros Hb Hl Ha Hf Hp. pose proof (Hl _ _ Hf) as Hst. cbn in Hst. unfold handle_pop. apply does_bind.
  apply (does_mono _ _ (λ _ s', called f p false s')); [|intros [] s' Hs'; by apply (called_kill f)]. destruct (msg_error msg) as [e|].
  - apply does_bind. eapply b_set; [done|done|links|]. intros s1 Hb1. apply does_bind. eapply does_mono; [eapply invoke_ends; [exact Hb1|by rewrite lookup_insert_eq|]|by intros r s'].
    eapply error_called; [exact Hb1|apply live_insert; [by apply live_delete|done]|others|by rewrite lookup_insert_eq|by eapply paired_insert].
  - apply does_bind. eapply b_deref; [done..|]. intros pv nx _. fields_of c.
    destruct (mc_state c) eqn:Ec; [done| | |]; (apply does_bind; eapply does_mono; [eapply invoke_ends; [done..|by eapply end_called]|by intros r s']).
Qed.

(** A friend that is offline; the iteration fails after this, see [AvSteps]. *)
Lemma offline_in_step f s : 0 <= f → in_step s → does (check_peer_offline_status (av_callback client) f) s (λ _ s', in_step s').
Proof using Hclient.
  intros Hf0 (m & n & Hb & Hl & Hp). unfold check_peer_offline_status. apply does_bind. eapply b_ask; [done|]. intros r s1 Hb1. destruct (r =? 0); [|apply does_ret; by exists m, n].
  apply does_bind. eapply b_get_call; [done..|]. intros _. destruct (m !! f) as [[p c]|] eqn:Hf; cbn [fmap option_fmap option_map fst]; [|apply does_ret; by exists m, n].
  apply does_bind. eapply does_mono; [eapply invoke_ends; [done..|eapply error_called; [done|done|by intros k _|done|done]]|]. cbn beta. intros x s2 Hs2. apply does_bind.
  eapply does_mono; [by apply (called_kill f)|]. intros [] s3 Hs3. by apply does_ret.
Qed.

(** The message that a packet carries, and the call it is about. *)
Definition orderly (s : Tox_Av) (f : Z) (data : bytes) : bool :=
  match msg_parse_in (drop 1 data) (u16 (zlen data - 1)), find_call f (av_msi s) with
  | Ok (Some msg), Ok (p, _) => expected (p ≫= λ p, t_heap (av_msi s) !! p) msg
  | _, _ => true
  end.

Lemma orderly_expected s m n f p c data msg : both s m n → 0 <= f → m !! f = Some (p, c) → msg_parse_in (drop 1 data) (u16 (zlen data - 1)) = Ok (Some msg) →
  orderly s f data = true → expected (Some c) msg = true.
Proof using.
  intros (Hm & _) Hf0 Hf Ep. unfold orderly. rewrite Ep, (holds_find _ m) by (apply Hm || done). rewrite Hf. cbn [fmap option_fmap option_map fst mbind option_bind].
  destruct (holds_deref (av_msi s) m f p c) as (pv & nx & E); [apply Hm|done|]. unfold deref in E. destruct (t_heap (av_msi s) !! p); [|done]. injection E as ->. exact id.
Qed.

Lemma packet_in_step f data s : 0 <= f < UINT32_MAX → zlen data < 2 ^ 16 → orderly s f data = true → in_step s → does (av_packet client f data) s (λ _ s', in_step s').
Proof using Hclient.
  intros Hf Hlen Ho (m & n & Hb & Hl & Hp). assert (in_step s) as Hs by by exists m, n. unfold av_packet, handle_msi_packet.
  destruct (Z.ltb_spec (zlen data) 2); [by apply does_ret|]. apply does_bind, does_reads. destruct (negb (av_listening s)); [by apply does_ret|].
  destruct (msg_parse_in (drop 1 data) (u16 (zlen data - 1))) as [[msg|]|b] eqn:Ep.
  - apply does_bind. eapply b_get_call; [done|lia|]. intros _. destruct (m !! f) as [[p c]|] eqn:Ef; cbn [fmap option_fmap option_map fst].
    + pose proof (orderly_expected s m n f p c data msg Hb (proj1 Hf) Ef Ep Ho) as He. assert (apart f m n) as Ha by by intros k _.
      destruct (msg_request msg) as [[]|] eqn:Er; [by eapply init_in_step|by eapply handle_push_in_step|by eapply pop_in_step|by apply does_ret].
    + destruct (bool_decide_reflect (msg_request msg = Some REQU_INIT)) as [->|]; cbn [negb]; [|by apply does_ret]. apply does_bind.
      eapply b_new_call; [done..| |].
      * intros s1 Hb1. apply does_bind. unfold send_error. apply does_bind. eapply b_send; [done|by eexists|]. intros _ s2 Hb2. do 2 apply does_ret. by exists m, n.
      * intros s1 p Hb1. by eapply first_in_step.
  - apply does_bind. unfold send_error. apply does_bind. eapply b_send; [done|by eexists|]. intros _ s2 Hb2. do 2 apply does_ret. by exists m, n.
  - rewrite u16_small in Ep by lia. destruct (msg_parse_in_total (drop 1 data) (zlen data - 1)) as [r Er]; [unfold zlen in *; rewrite length_drop; lia|]. by rewrite Er in Ep.
Qed.
End callbacks.
