(* ===== verification/AvSteps.v ===== *)
(** * AvSteps: calls are used without a fault

    Every function of [toxav/toxav.c] that a client calls keeps the two layers of calls in
    step, and with it any sequence of these functions and of packets.  The runs at the end
    show what happens when friends or the client do not keep to the rules. *)
From S2P Require Import Prelude CallTable CallState Msi MsiSound MsiPair ToxAv AvLinked.

Implicit Types (m : gmap Z (addr * MSICall)) (n : gmap Z (addr * ToxAVCall)).

(** The two calls with the friend [f] are at [p] and [q]. *)
Definition joined (f : Z) (p q : addr) (s : Tox_Av) : Prop :=
  ∃ m n c d, both s m n ∧ live m ∧ apart f m n ∧ m !! f = Some (p, c) ∧ n !! f = Some (q, d) ∧ mc_av_call c = Some q ∧ tc_msi_call d = Some p.

Lemma joined_in_step f p q s : joined f p q s → in_step s.
Proof. intros (m & n & c & d & Hb & Hl & Ha & Hf & Hn & Hc & Hd). apply (linked_at f s m n); [done..|]. by rewrite Hf, Hn. Qed.

Lemma in_step_joined f s m n p c : linked s m n → m !! f = Some (p, c) → ∃ q d, n !! f = Some (q, d) ∧ joined f p q s.
Proof.
  intros (Hb & Hl & Hp) Hf. pose proof (Hp f) as Hpf. rewrite Hf in Hpf. destruct (n !! f) as [[q d]|] eqn:Hn; [|done]. exists q, d. split; [done|].
  exists m, n, c, d. destruct Hpf. do 2 (split; [done|]). split; [by intros k _|done].
Qed.

Section joined.
Context (f : Z) (p q : addr) (s : Tox_Av) (Hj : joined f p q s).

Lemma j_ask a Q : (∀ r s', joined f p q s' → Q r s') → does (av_ask a) s Q.
Proof using Hj. intros HQ. destruct Hj as (m & n & c & d & Hb & H). eapply b_ask; [done|]. intros r s' Hb'. apply HQ. by exists m, n, c, d. Qed.
Lemma j_send g msg Q : is_Some (msg_request msg) → (∀ r s', joined f p q s' → Q r s') → does (send_message g msg) s Q.
Proof using Hj. intros Hr HQ. destruct Hj as (m & n & c & d & Hb & H). eapply b_send; [done..|]. intros r s' Hb'. apply HQ. by exists m, n, c, d. Qed.
Lemma j_deref Q : (∀ c, Q c s) → does (on_msi (deref p)) s Q.
Proof using Hj. intros HQ. destruct Hj as (m & n & c & d & Hb & _ & _ & Hf & _). eapply b_deref; [done..|]. intros pv nx _. apply HQ. Qed.
Lemma j_av_deref Q : (∀ d, tc_msi_call d = Some p → Q d s) → does (on_av (deref q)) s Q.
Proof using Hj. intros HQ. destruct Hj as (m & n & c & d & Hb & _ & _ & _ & Hn & _ & Hd). eapply b_av_deref; [done..|]. intros pv nx _. by apply HQ. Qed.
Lemma j_set g Q : (∀ c, mc_av_call (g c) = mc_av_call c) → (∀ c, mc_state c ≠ MSI_CALL_INACTIVE → mc_state (g c) ≠ MSI_CALL_INACTIVE) → link_free g →
  (∀ s', joined f p q s' → Q tt s') → does (set_call p g) s Q.
Proof using Hj.
  intros Hav Hst Hg HQ. destruct Hj as (m & n & c & d & Hb & Hl & Ha & Hf & Hn & Hc & Hd). eapply b_set; [done..|]. intros s' Hb'. apply HQ.
  exists (<[f := (p, g c)]> m), n, (g c), d. split; [done|]. split; [apply live_insert; [by apply live_delete|]; apply Hst, (Hl _ _ Hf)|].
  split; [eapply apart_ext; [exact Ha| |done]; intros k Hk; by rewrite lookup_insert_ne|]. rewrite lookup_insert_eq, Hav. done.
Qed.
Lemma j_set_av g Q : (∀ d, tc_msi_call (g d) = tc_msi_call d) → link_free g → (∀ s', joined f p q s' → Q tt s') → does (set_av q g) s Q.
Proof using Hj.
  intros Hav Hg HQ. destruct Hj as (m & n & c & d & Hb & Hl & Ha & Hf & Hn & Hc & Hd). eapply b_set_av; [done..|]. intros s' Hb'. apply HQ.
  exists m, (<[f := (q, g d)]> n), c, (g d). split; [done|]. split; [done|].
  split; [eapply apart_ext; [exact Ha|done|]; intros k Hk; by rewrite lookup_insert_ne|]. rewrite lookup_insert_eq, Hav. done.
Qed.
Lemma j_prepare Q : (∀ r s', joined f p q s' → Q r s') → does (call_prepare_transmission q) s Q.
Proof using Hj.
  intros HQ. destruct Hj as (m & n & c & d & Hb & Hl & Ha & Hf & Hn & Hc & Hd). eapply b_prepare; [done..|]. intros r s' d' Hb' Hd' _. apply HQ.
  exists m, (<[f := (q, d')]> n), c, d'. split; [done|]. split; [done|].
  split; [eapply apart_ext; [exact Ha|done|]; intros k Hk; by rewrite lookup_insert_ne|]. rewrite lookup_insert_eq, Hd'. done.
Qed.
Lemma j_self_caps Q : (∀ x, Q x s) → does (self_caps q) s Q.
Proof using Hj. intros HQ. unfold self_caps. apply does_bind, j_av_deref. intros d ->. apply does_bind, j_deref. intros c. by apply does_ret. Qed.
Lemma j_in_call Q : (∀ x, Q x s) → does (in_call q) s Q.
Proof using Hj.
  intros HQ. unfold in_call. apply does_bind, j_av_deref. intros d Hd. destruct (negb _); [by apply does_ret|]. rewrite Hd. apply does_bind, j_deref. intros c. by apply does_ret.
Qed.
End joined.

(** Changes of a call that both sides agree on. *)
Lemma j_change f p q x s Q : joined f p q s → (∀ r s', joined f p q s' → Q r s') → does (msi_change_capabilities (Some p) x) s Q.
Proof.
  intros Hj HQ. unfold msi_change_capabilities. apply does_bind. eapply j_deref; [done|]. intros _. apply does_bind. eapply j_ask; [done|]. intros r s1 H1.
  destruct (negb (r =? 0)); [by apply does_ret, HQ|]. apply does_bind. eapply j_deref; [done|]. intros c. destruct (negb _); [by apply does_ret, HQ|].
  apply does_bind. eapply j_set; [done|done|done|by intros ? ? []|]. intros s2 H2. apply does_bind. eapply j_send; [done|by eexists|]. intros _ s3 H3. by apply does_ret, HQ.
Qed.

Lemma j_answer f p q x s Q : joined f p q s → (∀ r s', joined f p q s' → Q r s') → does (msi_answer (Some p) x) s Q.
Proof.
  intros Hj HQ. unfold msi_answer. apply does_bind. eapply j_deref; [done|]. intros _. apply does_bind. eapply j_ask; [done|]. intros r s1 H1.
  destruct (negb (r =? 0)); [by apply does_ret, HQ|]. apply does_bind. eapply j_deref; [done|]. intros c. destruct (negb _); [by apply does_ret, HQ|].
  apply does_bind. eapply j_set; [done|done|done|by intros ? ? []|]. intros s2 H2. apply does_bind. eapply j_send; [done|by eexists|]. intros _ s3 H3.
  apply does_bind. eapply j_set; [done|done|done|by intros ? ? []|]. intros s4 H4. by apply does_ret, HQ.
Qed.

Lemma j_mark_audio f p q b s Q : joined f p q s → (∀ s', joined f p q s' → Q tt s') → does (mark_audio q b) s Q.
Proof. intros Hj HQ. eapply j_set_av; [done|done|by intros ? ? []|done]. Qed.
Lemma j_mark_video f p q b s Q : joined f p q s → (∀ s', joined f p q s' → Q tt s') → does (mark_video q b) s Q.
Proof. intros Hj HQ. eapply j_set_av; [done|done|by intros ? ? []|done]. Qed.

Lemma j_change_then f p q x rest s : joined f p q s → (∀ s', joined f p q s' → does rest s' (λ _ s'', joined f p q s'')) →
  does (change_then q x rest) s (λ _ s', in_step s').
Proof.
  intros Hj Hrest. unfold change_then. apply does_bind. eapply j_av_deref; [done|]. intros d ->. apply does_bind. eapply j_change; [done|]. intros r s1 H1.
  destruct (r =? -1); [by apply does_ret, (joined_in_step f p q)|]. apply does_bind. eapply does_mono; [by apply Hrest|]. intros u s2 H2. by apply does_ret, (joined_in_step f p q).
Qed.

(** The two ways to find the call of a friend. *)
Lemma find_joined {A} f s (x : A) (rest : addr → AV A) : 0 <= f → in_step s → (∀ p q, joined f p q s → does (rest q) s (λ _ s', in_step s')) →
  does (call ← call_get f; match call with None => mret x | Some call => rest call end) s (λ _ s', in_step s').
Proof.
  intros Hf (m & n & Hs) Hrest. apply does_bind. eapply b_call_get; [apply Hs|done|]. intros _. destruct (n !! f) as [[q d]|] eqn:Hn; cbn [fmap option_fmap option_map fst]; [|apply does_ret; by exists m, n].
  pose proof (proj2 (proj2 Hs) f) as Hp. rewrite Hn in Hp. destruct (m !! f) as [[p c]|] eqn:Hm; [|done]. destruct (in_step_joined f s m n p c Hs Hm) as (q' & d' & Hn' & Hj).
  apply (Hrest p). congruence.
Qed.

Lemma ask_in_step a s Q : in_step s → (∀ r s', in_step s' → Q r s') → does (av_ask a) s Q.
Proof. intros (m & n & Hb & H) HQ. eapply b_ask; [done|]. intros r s' Hb'. apply HQ. by exists m, n. Qed.

Lemma exists_in_step {A} f s (x : A) (rest : AV A) : in_step s → (∀ s', in_step s' → does rest s' (λ _ s'', in_step s'')) →
  does (exists_ ← toxav_friend_exists f; if negb exists_ then mret x else rest) s (λ _ s', in_step s').
Proof.
  intros Hs Hrest. unfold toxav_friend_exists. do 2 apply does_bind. eapply ask_in_step; [done|]. intros r s1 H1. apply does_ret. destruct (negb _); [by apply does_ret|by apply Hrest].
Qed.

(** ** The functions of the client *)

Lemma b_invite s m n f x Q : both s m n → live m → 0 <= f < UINT32_MAX → (∀ s', both s' m n → Q None s') →
  (∀ s' p c, m !! f = None → both s' (<[f := (p, c)]> m) n → mc_state c = MSI_CALL_REQUESTING → Q (Some p) s') → does (msi_invite f x) s Q.
Proof.
  intros Hb Hl Hf HN HS. unfold msi_invite. apply does_bind. eapply b_ask; [done|]. intros r s1 H1. destruct (negb (r =? 0)); [by apply does_ret, HN|].
  apply does_bind. eapply b_get_call; [done|lia|]. intros _. destruct (m !! f) as [[p c]|] eqn:Hm; cbn [fmap option_fmap option_map fst]; [by apply does_ret, HN|].
  apply does_bind. eapply b_new_call; [done..| |]; [intros s2 H2; by apply does_ret, HN|]. intros s2 p H2.
  apply does_bind. eapply b_set; [done|by rewrite lookup_insert_eq|by intros ? ? []|]. intros s3 H3. rewrite insert_insert_eq in H3.
  apply does_bind. eapply b_send; [done|by eexists|]. intros _ s4 H4.
  apply does_bind. eapply b_set; [done|by rewrite lookup_insert_eq|by intros ? ? []|]. intros s5 H5. rewrite insert_insert_eq in H5. apply does_ret. by eapply HS.
Qed.

Lemma call_in_step f a v s : 0 <= f < UINT32_MAX → in_step s → does (toxav_call f a v) s (λ _ s', in_step s').
Proof.
  intros Hf Hs. unfold toxav_call. destruct (rates_invalid a v); [by apply does_ret|]. destruct Hs as (m & n & Hb & Hl & Hp). apply does_bind. eapply b_call_new; [done..| |].
  { intros rc s1 H1. apply does_ret. by exists m, n. }
  intros s1 q Hn H1. assert (m !! f = None) as Hm by (specialize (Hp f); rewrite Hn in Hp; by destruct (m !! f) as [[? ?]|]). assert (apart f m n) as Ha by by intros k _.
  apply does_bind. eapply b_set_av; [done|by rewrite lookup_insert_eq|by intros ? ? []|]. intros s2 H2. rewrite insert_insert_eq in H2. apply does_bind. eapply b_invite; [done..| |].
  - intros s3 H3. apply does_bind. eapply b_call_remove; [exact H3|by rewrite lookup_insert_eq|done|]. intros x s4 H4. apply does_ret. rewrite delete_insert_id in H4 by done. by exists m, n.
  - intros s3 p c _ H3 Hst. apply does_bind. eapply b_set_av; [exact H3|by rewrite lookup_insert_eq|by intros ? ? []|]. intros s4 H4. rewrite insert_insert_eq in H4.
    apply does_bind. eapply b_set; [exact H4|by rewrite lookup_insert_eq|by intros ? ? []|]. intros s5 H5. rewrite insert_insert_eq in H5. apply does_ret.
    eapply (linked_at f); [exact H5|apply live_insert; [by apply live_delete|cbn; by rewrite Hst]| |by rewrite !lookup_insert_eq].
    eapply apart_ext; [exact Ha|..]; intros k Hk; by rewrite lookup_insert_ne.
Qed.

Lemma answer_in_step f a v s : 0 <= f → in_step s → does (toxav_answer f a v) s (λ _ s', in_step s').
Proof.
  intros Hf Hs. unfold toxav_answer. apply exists_in_step; [done|]. intros s1 H1. destruct (rates_invalid a v); [by apply does_ret|]. apply find_joined; [done..|].
  intros p q H2. apply does_bind. eapply j_prepare; [done|]. intros ok s2 H3. destruct (negb ok); [by apply does_ret, (joined_in_step f p q)|].
  apply does_bind. eapply j_set_av; [done|done|by intros ? ? []|]. intros s3 H4. apply does_bind. eapply j_av_deref; [done|]. intros d ->.
  apply does_bind. eapply j_answer; [done|]. intros r s4 H5. by apply does_ret, (joined_in_step f p q).
Qed.

(** The user hangs up. *)
Lemma cancel_in_step f p q s : joined f p q s →
  does (c ← on_av (deref q); r ← msi_hangup (tc_msi_call c);
        if negb (r =? 0) then mret TOXAV_ERR_CALL_CONTROL_SYNC
        else set_av q (λ c, c <| tc_msi_call := None |>);; call_kill_transmission q;; call_remove q;; mret TOXAV_ERR_CALL_CONTROL_OK) s (λ _ s', in_step s').
Proof.
  intros Hj. apply does_bind. eapply j_av_deref; [done|]. intros d ->. apply does_bind. unfold msi_hangup. apply does_bind. eapply j_deref; [done|]. intros _.
  apply does_bind. eapply j_ask; [done|]. intros r s1 H1. destruct (negb (r =? 0)); [by apply does_ret, does_ret, (joined_in_step f p q)|]. pose proof H1 as Hj1.
  destruct H1 as (m & n & c & e & Hb & Hl & Ha & Hf & Hn & Hc & He).
  apply does_bind. eapply b_deref; [done..|]. intros pv nx _. destruct (bool_decide _); [by apply does_ret, does_ret, (joined_in_step f p q)|].
  apply does_bind. eapply b_send; [done|by eexists|]. intros _ s2 H2. apply does_bind. eapply b_kill; [done..|]. intros s3 H3. apply does_ret. cbn [negb Z.eqb].
  apply does_bind. eapply b_set_av; [done|done|by intros ? ? []|]. intros s4 H4. apply does_bind. eapply b_kill_transmission; [done|by rewrite lookup_insert_eq|].
  intros s5 e' H5 He'. rewrite insert_insert_eq in H5. apply does_bind. eapply b_call_remove; [exact H5|by rewrite lookup_insert_eq|by rewrite He'|]. intros x s6 H6. apply does_ret.
  rewrite delete_insert_eq in H6. eapply (linked_at f); [exact H6|by apply live_delete| |by rewrite !lookup_delete_eq].
  eapply apart_ext; [exact Ha|..]; intros k Hk; by rewrite lookup_delete_ne.
Qed.

Lemma control_in_step f control s : 0 <= f → in_step s → does (toxav_call_control f control) s (λ _ s', in_step s').
Proof.
  intros Hf Hs. unfold toxav_call_control. apply exists_in_step; [done|]. intros s1 H1. apply find_joined; [done..|]. intros p q Hj.
  destruct (decide (control = TOXAV_CALL_CONTROL_CANCEL)) as [->|Hne]; [by apply (cancel_in_step f p q)|].
  apply does_bind. eapply j_av_deref; [done|]. intros d Hd. pose proof (joined_in_step f p q s1 Hj) as Hin.
  destruct control; try done; (destruct (negb (tc_active d)); [by apply does_ret|]); apply does_bind; (eapply j_self_caps; [done|]); intros x;
    (destruct (_ : bool); [|by apply does_ret]).
  1: apply (j_change_then f p q); [done|]. 2: apply does_bind; (eapply j_set_av; [done|done|by intros ? ? []|]); intros s2 Hj2; apply (j_change_then f p q); [done|].
  3-6: apply (j_change_then f p q); [done|].
  1,2: intros s' Hs'; apply does_bind; (eapply j_mark_audio; [done|]); intros s3 Hs3; by eapply j_mark_video.
  all: intros s' Hs'; first [by eapply j_mark_audio|by eapply j_mark_video].
Qed.

(** *** Bit rates *)

Lemma change_audio_rate_joined f p q rate s : joined f p q s → does (change_audio_rate q rate) s (λ _ s', joined f p q s').
Proof.
  intros Hj. unfold change_audio_rate. apply does_bind. eapply j_av_deref; [done|]. intros d ->. destruct (tc_audio_bit_rate d =? rate); [by apply does_ret|].
  apply does_bind. eapply j_self_caps; [done|]. intros x. apply does_bind. apply (does_mono _ _ (λ _ s', joined f p q s')).
  { destruct (rate =? 0); [by eapply j_change|]. destruct (_ =? 0); [by eapply j_change|by apply does_ret]. }
  intros r s1 H1. destruct (negb (r =? 0)); [by apply does_ret|]. apply does_bind. eapply j_set_av; [done|done|by intros ? ? []|]. intros s2 H2. by apply does_ret.
Qed.

Lemma change_video_rate_joined f p q rate s : joined f p q s → does (change_video_rate q rate) s (λ _ s', joined f p q s').
Proof.
  intros Hj. unfold change_video_rate. apply does_bind. eapply j_av_deref; [done|]. intros d ->. destruct (tc_video_bit_rate d =? rate); [by apply does_ret|].
  apply does_bind. eapply j_self_caps; [done|]. intros x. apply does_bind. apply (does_mono _ _ (λ _ s', joined f p q s')).
  { destruct (rate =? 0); [by eapply j_change|]. destruct (_ =? 0); [by eapply j_change|by apply does_ret]. }
  intros r s1 H1. destruct (negb (r =? 0)); [by apply does_ret|]. apply does_bind. eapply j_set_av; [done|done|by intros ? ? []|]. intros s2 H2. by apply does_ret.
Qed.

Lemma with_call_in_step f invalid change s : 0 <= f → in_step s → (∀ p q s', joined f p q s' → does (change q) s' (λ _ s'', joined f p q s'')) →
  does (with_call f invalid change) s (λ _ s', in_step s').
Proof.
  intros Hf Hs Hc. unfold with_call. apply exists_in_step; [done|]. intros s1 H1. destruct invalid; [by apply does_ret|]. apply find_joined; [done..|]. intros p q Hj.
  apply does_bind. eapply j_in_call; [done|]. intros x. destruct (negb x); [by apply does_ret, (joined_in_step f p q)|]. apply does_bind.
  eapply does_mono; [by apply (Hc p)|]. intros ok s2 H2. by apply does_ret, (joined_in_step f p q).
Qed.

Lemma bit_rate_set_in_step f a v s : 0 <= f → in_step s → does (toxav_bit_rate_set f a v) s (λ _ s', in_step s').
Proof.
  intros Hf Hs. apply with_call_in_step; [done..|]. intros p q s1 Hj. apply does_bind. apply (does_mono _ _ (λ _ s', joined f p q s')).
  { destruct (0 <=? a); [by apply change_audio_rate_joined|by apply does_ret]. }
  intros ok s2 H2. destruct (negb ok); [by apply does_ret|]. destruct (0 <=? v); [by apply change_video_rate_joined|by apply does_ret].
Qed.

(** *** Iteration *)

(** There is a cell for every call of the list, so the rounds suffice. *)
Lemma rep_cells {C} `{CellLaws C} (t : Table C) l : rep t l → (length l <= size (t_heap t))%nat.
Proof.
  intros Hr. rewrite <- (length_fmap fst), <- (size_list_to_set (C := gset addr)) by apply (rep_nodup _ _ Hr). rewrite <- size_dom. apply subseteq_size.
  intros p Hp. apply elem_of_dom, (rep_dom _ _ Hr). by apply elem_of_list_to_set in Hp.
Qed.

(** A call of the list is one of the map. *)
Lemma rep_joined s seen q d rest : in_step s → rep (av_calls s) (seen ++ (q, d) :: rest) → ∃ p, tc_msi_call d = Some p ∧ joined (c_num d) p q s.
Proof.
  intros (m & n & Hs) Hr. pose proof Hs as (Hb & Hl & Hp). destruct Hb as (_ & [Hn _] & _). pose proof (rep_sorted _ _ Hr) as Hsort. pose proof Hsort as Hnum.
  apply sorted_mid in Hnum as (_ & _ & _ & _ & Hnum).
  pose proof (find_call_rep _ _ (c_num d) Hr (proj1 Hnum)) as E. rewrite (holds_find _ n) in E by (done || apply Hnum). rewrite entry_of_mid, Z.eqb_refl in E by done. cbn in E.
  destruct (n !! tc_friend_number d) as [[q' d']|] eqn:En; [|done]. injection E as ->. destruct (holds_deref _ _ _ _ _ Hn En) as (pv & nx & E).
  rewrite (deref_rep _ _ _ _ _ Hr) in E. assert (tc_msi_call d = tc_msi_call d') as Ed by (injection E; congruence). pose proof (Hp (tc_friend_number d)) as Hpd. rewrite En in Hpd.
  destruct (m !! tc_friend_number d) as [[p c]|] eqn:Em; [|done]. exists p. destruct Hpd as [_ Hd']. rewrite Ed.
  destruct (in_step_joined _ s m n p c Hs Em) as (q2 & d2 & En2 & Hj). split; [done|]. assert (q2 = q) as <- by congruence. exact Hj.
Qed.

(** The next [rounds] questions for the friends of the calls find them online. *)
Definition online (rounds : nat) (s : Tox_Av) (l : list (addr * ToxAVCall)) : Prop :=
  ∀ q d k, (q, d) ∈ l → (length (av_asked s) <= k < length (av_asked s) + rounds)%nat → av_answer s (AConnection (tc_friend_number d)) k ≠ 0.

(** [rest] are the calls that are still to be visited. *)
Lemma iterate_calls_in_step client rounds : ∀ seen rest s, in_step s → rep (av_calls s) (seen ++ rest) → (length rest <= rounds)%nat → online rounds s rest →
  does (iterate_calls client rounds (first_addr rest None)) s (λ _ s', in_step s').
Proof.
  induction rounds as [|r IH]; intros seen [|[q d] rest] s Hs Hr Hlen Hon; [by apply does_ret|cbn in Hlen; lia|by apply does_ret|]. cbn [first_addr iterate_calls].
  apply does_bind. unfold does at 1, on_av at 1. rewrite (deref_rep _ _ _ _ _ Hr). replace (s <| av_calls := av_calls s |>) with s by (by destruct s).
  set (c := set_prev _ _). change (tc_next c) with (first_addr rest None). change (tc_active c) with (tc_active d). change (tc_msi_call c) with (tc_msi_call d). change (tc_friend_number c) with (c_num d).
  assert (∀ log, in_step (s <| av_asked := log |>) → (length (av_asked s) <= length log <= length (av_asked s) + 1)%nat →
    does (iterate_calls client r (first_addr rest None)) (s <| av_asked := log |>) (λ _ s'', in_step s'')) as Hnext.
  { intros log Hs' Hlog. apply (IH (seen ++ [(q, d)])); [done|rewrite <- app_assoc; exact Hr|cbn in Hlen; lia|].
    intros q' d' k Hin Hk. cbn in Hk |- *. apply (Hon q'); [by apply list.elem_of_cons; right|lia]. }
  destruct (negb (tc_active d)); [replace s with (s <| av_asked := av_asked s |>) by (by destruct s); apply Hnext; [by destruct s|lia]|].
  destruct (rep_joined s seen q d rest Hs Hr) as (p & -> & Hj). pose proof (rep_sorted _ _ Hr) as Hnum. apply sorted_mid in Hnum as (_ & _ & _ & _ & Hnum).
  apply does_bind. eapply j_deref; [done|]. intros _. apply does_bind. unfold check_peer_offline_status. apply does_bind, does_ask. cbv zeta.
  destruct (Z.eqb_spec (av_answer s (AConnection (c_num d)) (length (av_asked s))) 0) as [E|_]; [by apply (Hon q d) in E; [|left|lia]|]. apply does_ret. cbn [negb].
  set (log := av_asked s ++ _). set (s1 := s <| av_asked := log |>). assert (in_step s1) as Hs1 by exact Hs. assert (rep (av_calls s1) (seen ++ (q, d) :: rest)) as Hr1 by exact Hr.
  destruct (rep_joined s1 seen q d rest Hs1 Hr1) as (p1 & _ & Hj1). apply does_bind. eapply j_self_caps; [done|]. intros _. apply does_bind. eapply j_av_deref; [done|]. intros _ _.
  apply does_bind. unfold call_get, does at 1, on_av at 1. rewrite (find_call_rep _ _ _ Hr1) by lia.
  replace (s1 <| av_calls := av_calls s1 |>) with s1 by (by destruct s1). destruct (negb _); [by apply does_ret|].
  apply does_bind. unfold does at 1, on_av at 1. rewrite (deref_rep _ _ _ _ _ Hr1). replace (s1 <| av_calls := av_calls s1 |>) with s1 by (by destruct s1).
  apply Hnext; [done|]. unfold log. rewrite length_app. cbn. lia.
Qed.

(** The friends of all calls are online during an iteration. *)
Definition all_online (s : Tox_Av) : bool :=
  forallb (λ x, forallb (λ k, negb (av_answer s (AConnection (tc_friend_number x.2)) k =? 0)) (seq (length (av_asked s)) (size (t_heap (av_calls s))))) (map_to_list (t_heap (av_calls s))).

Lemma all_online_rep s l : all_online s = true → rep (av_calls s) l → online (size (t_heap (av_calls s))) s l.
Proof.
  intros Ha Hr q d k Hin Hk. unfold all_online in Ha. rewrite forallb_forall in Ha. apply list_elem_of_split in Hin as (l1 & l2 & ->). pose proof (rep_cell _ _ _ _ _ Hr) as Hcell.
  specialize (Ha (q, set_prev (last_addr None l1) (set_next (first_addr l2 None) d))). rewrite forallb_forall in Ha.
  assert (negb (av_answer s (AConnection (tc_friend_number d)) k =? 0) = true) as H; [|by destruct (Z.eqb_spec (av_answer s (AConnection (tc_friend_number d)) k) 0)].
  apply Ha; [by apply list_elem_of_In, elem_of_map_to_list|]. by apply in_seq.
Qed.

Lemma iterate_in_step client s : in_step s → all_online s = true → does (toxav_iterate client) s (λ _ s', in_step s').
Proof.
  intros Hs Hon. pose proof Hs as (m & n & ((_ & ((l & Hr & _) & _) & _) & _)). unfold toxav_iterate. apply does_bind, does_reads. pose proof (rep_array _ _ Hr) as Ha.
  destruct (t_calls (av_calls s)) as [a|] eqn:Ea; [|by apply does_ret]. destruct Ha as ((x & Hx & Hh) & (y & Hy & Ht) & Ha). destruct l as [|[q d] l]; [done|]. cbn in Hx. injection Hx as <-.
  pose proof (rep_sorted _ _ Hr) as (Hnum & _ & _). cbn in Hnum. apply does_bind. unfold does at 1, on_av at 1.
  rewrite (slot_ok _ a (t_head (av_calls s)) (Some q)); [|done|].
  - replace (s <| av_calls := av_calls s |>) with s by (by destruct s).
    eapply (iterate_calls_in_step client _ [] ((q, d) :: l)); [done|exact Hr|apply rep_cells, Hr|by apply all_online_rep].
  - rewrite Hh. cbn [snd]. rewrite Ha; [cbn; by rewrite Z.eqb_refl|]. pose proof (sorted_last _ _ (rep_sorted _ _ Hr) Hy) as Hlast. rewrite Ht.
    apply list.Forall_cons in Hlast as [Hlast _]. cbn in *. lia.
Qed.

(** ** Sequences *)

(** What happens to the calls of a program: packets of friends, the functions of the
    client and the iteration. *)
Inductive Av_Op :=
  | AvPacket (friend_number : Z) (data : bytes)
  | AvCall (friend_number audio_bit_rate video_bit_rate : Z)
  | AvAnswer (friend_number audio_bit_rate video_bit_rate : Z)
  | AvControl (friend_number : Z) (control : Toxav_Call_Control)
  | AvAudioRate (friend_number audio_bit_rate : Z)
  | AvVideoRate (friend_number video_bit_rate : Z)
  | AvBitRates (friend_number audio_bit_rate video_bit_rate : Z)
  | AvIterate.

Section sequences.
Context (client : Av_Event → AV unit).

Definition run_av_op (o : Av_Op) : AV unit :=
  match o with
  | AvPacket f data => av_packet client f data
  | AvCall f a v => toxav_call f a v;; mret tt
  | AvAnswer f a v => toxav_answer f a v;; mret tt
  | AvControl f control => toxav_call_control f control;; mret tt
  | AvAudioRate f a => toxav_audio_set_bit_rate f a;; mret tt
  | AvVideoRate f v => toxav_video_set_bit_rate f v;; mret tt
  | AvBitRates f a v => toxav_bit_rate_set f a v;; mret tt
  | AvIterate => toxav_iterate client
  end.

Fixpoint run_av_ops (ops : list Av_Op) : AV unit :=
  match ops with
  | [] => mret tt
  | o :: ops' => run_av_op o;; run_av_ops ops'
  end.

(** Friend numbers are those of friends, packets keep to the protocol, and friends are
    online when the calls are iterated. *)
Definition av_op_ok (s : Tox_Av) (o : Av_Op) : bool :=
  let friend f := (0 <=? f) && (f <? UINT32_MAX) in
  match o with
  | AvPacket f data => friend f && (zlen data <? 2 ^ 16) && orderly s f data
  | AvCall f _ _ | AvAnswer f _ _ | AvControl f _ | AvAudioRate f _ | AvVideoRate f _ | AvBitRates f _ _ => friend f
  | AvIterate => all_online s
  end.

Fixpoint av_ops_ok (s : Tox_Av) (ops : list Av_Op) : bool :=
  match ops with
  | [] => true
  | o :: ops' => av_op_ok s o && match run_av_op o s with Ok (_, s') => av_ops_ok s' ops' | Bad _ => true end
  end.

Context (Hclient : harmless client).

Lemma run_av_op_in_step o s : av_op_ok s o = true → in_step s → does (run_av_op o) s (λ _ s', in_step s').
Proof using Hclient.
  intros Ho Hs. assert (∀ A (op : AV A), does op s (λ _ s', in_step s') → does (op;; mret tt) s (λ _ s', in_step s')) as Hdrop.
  { intros A op Hop. apply does_bind. eapply does_mono; [exact Hop|]. intros x s' Hs'. exact Hs'. }
  destruct o as [f data| | | | | | |]; cbn [run_av_op av_op_ok] in *; rewrite ?andb_true_iff, ?Z.leb_le, ?Z.ltb_lt in Ho; try apply Hdrop.
  - by apply packet_in_step; [|lia|lia|apply Ho|].
  - by apply call_in_step; [lia|].
  - by apply answer_in_step; [lia|].
  - by apply control_in_step; [lia|].
  - apply with_call_in_step; [lia|done|]. intros p q s' Hj. by apply change_audio_rate_joined.
  - apply with_call_in_step; [lia|done|]. intros p q s' Hj. by apply change_video_rate_joined.
  - by apply bit_rate_set_in_step; [lia|].
  - by apply iterate_in_step.
Qed.

Lemma run_av_in_step ops : ∀ s, av_ops_ok s ops = true → in_step s → does (run_av_ops ops) s (λ _ s', in_step s').
Proof using Hclient.
  induction ops as [|o ops IH]; intros s Ho Hs; [by apply does_ret|]. cbn [av_ops_ok run_av_ops] in *. apply andb_true_iff in Ho as [Ho Hops].
  pose proof (run_av_op_in_step o s Ho Hs) as (u & s' & E & Hs')%does_ok. rewrite E in Hops. apply does_bind. unfold does at 1. rewrite E. destruct u. by apply IH.
Qed.
End sequences.

(** The callbacks of the client, which sets one for calls. *)
Definition with_callbacks (scb acb vcb : bool) (s : Tox_Av) : Tox_Av := s <| av_ccb := true |> <| av_scb := scb |> <| av_acb := acb |> <| av_vcb := vcb |>.

(** There are no calls yet, and these callbacks of the session are set. *)
Definition registered (l : list MSICallbackID) (s : Tox_Av) : Prop := av_msi s = empty_table ∧ av_calls s = empty_table ∧ ∀ cb, cb ∈ l → av_callbacks s cb = true.

Lemma do_register id l s Q : registered l s → (∀ s', registered (id :: l) s' → Q tt s') → does (msi_register_callback id true) s Q.
Proof.
  intros (Hm & Hc & Hl) HQ. apply does_writes, HQ. do 2 (split; [done|]). cbn. intros cb Hcb. destruct (bool_decide_reflect (cb = id)); [done|]. apply Hl. by apply list.elem_of_cons in Hcb as [|].
Qed.

Lemma registered_in_step l scb acb vcb s : registered l s → (∀ cb, cb ∈ l) → in_step (with_callbacks scb acb vcb s).
Proof.
  intros (Hm & Hc & Hl) Hall. exists ∅, ∅. split; [|split; [apply live_empty|intros f; by rewrite !lookup_empty]]. unfold both, msi_holds, av_holds. cbn. rewrite Hm, Hc.
  split; [split; [apply holds_empty|by intros p [x Hx]]|]. split; [split; [apply holds_empty|by intros p [x Hx]]|]. split; [|done]. intros cb. apply Hl, Hall.
Qed.

Lemma new_in_step scb acb vcb s s' : toxav_new s = Ok (true, s') → in_step (with_callbacks scb acb vcb s').
Proof.
  intros E. assert (does toxav_new s (λ ok s', ok = true → in_step (with_callbacks scb acb vcb s'))) as Hd; [|unfold does in Hd; rewrite E in Hd; by apply Hd]. clear E s'.
  unfold toxav_new. do 3 (apply does_bind, does_ask; cbv zeta; destruct (_ =? 0); [by apply does_ret|]). apply does_bind, (does_mono _ _ (λ ok s', ok = true → av_msi s' = empty_table)).
  { unfold msi_new. do 2 (apply does_bind, does_ask; cbv zeta; destruct (_ =? 0); [by apply does_ret|]). apply does_bind, does_writes, does_ret. done. }
  clear s. intros ok s Hs. destruct ok; cbn [negb]; [|by apply does_ret]. apply does_bind, does_writes. match goal with |- does _ ?x _ => set (s1 := x) end.
  assert (registered [] s1) as H1 by (split; [by apply Hs|split; [done|by intros cb ?%list.elem_of_nil]]). clearbody s1. clear s Hs.
  do 6 (apply does_bind; eapply do_register; [exact H1|]; clear s1 H1; intros s1 H1). apply does_ret. intros _. apply (registered_in_step _ scb acb vcb _ H1).
  intros []; set_solver.
Qed.

(** C13: From [toxav_new] on, calls are used without a fault.  Whatever sequence of
    packets, calls, answers, controls, changes of bit rates and iterations follows, with
    any answers of the allocator, the locks, the network and the codecs, no pointer that
    is followed is null or points to a call that was freed, every loop ends, and after it
    every call of [toxav.c] has one of the session with the same friend, the two point to
    each other, and both tables are well formed.  The client has set a callback for calls
    and does not use the calls inside its callbacks; friend numbers are below 2^32 - 1;
    packets, of less than 65536 bytes, keep to the protocol: in a call they give
    capabilities, and a call that was not answered is not offered again; and no friend in
    a call is offline when the calls are iterated.  Without the conditions on the client,
    the protocol and the friends a freed call is used, see below. *)
Theorem layers_stay_in_step (client : Av_Event → AV unit) ops scb acb vcb s0 s1 :
  harmless client → toxav_new s0 = Ok (true, s1) → av_ops_ok client (with_callbacks scb acb vcb s1) ops = true →
  ∃ s2, run_av_ops client ops (with_callbacks scb acb vcb s1) = Ok (tt, s2) ∧ in_step s2.
Proof.
  intros Hc Hnew Hops. pose proof (run_av_in_step client Hc ops _ Hops (new_in_step scb acb vcb _ _ Hnew)) as ([] & s2 & E & Hs2)%does_ok. by exists s2.
Qed.

(** ** Where the layers come apart

    A call of the lower layer that ends without the upper one, a call that is used after
    its end, and calls that are not controlled as they are meant to be. *)

(** A client that looks on, and one that hangs up when it is told that a call is over. *)
Definition onlooker (e : Av_Event) : AV unit := mret tt.
Definition hanging_up (e : Av_Event) : AV unit :=
  match e with
  | ECallState f state => if state =? TOXAV_FRIEND_CALL_STATE_FINISHED then toxav_call_control f TOXAV_CALL_CONTROL_CANCEL;; mret tt else mret tt
  | _ => mret tt
  end.

(** What a friend sends: an invitation, and one without capabilities. *)
Definition invitation (c : Z) : bytes := packet_of (init c).
Definition bad_invitation : bytes := packet_of (msg_init REQU_INIT).

(** A friend that sends a message that is not valid in a call, or that invites twice before
    it is answered, makes the program use memory that was freed.  The session sends an
    error and ends its call without a callback, so the call of [toxav.c] keeps its
    pointer; it is followed by the next iteration, or when the user answers or hangs up. *)
Theorem invalid_message_use_after_free :
  (av_packet onlooker 0 (invitation 12);; toxav_answer 0 48 500;; av_packet onlooker 0 bad_invitation;; toxav_iterate onlooker) sample_av = Bad UseAfterFree ∧
  (toxav_call 0 48 500;; av_packet onlooker 0 (packet_of (push 12));; av_packet onlooker 0 bad_invitation;; toxav_iterate onlooker) sample_av = Bad UseAfterFree ∧
  (av_packet onlooker 0 (invitation 12);; av_packet onlooker 0 (invitation 12);; toxav_answer 0 48 500) sample_av = Bad UseAfterFree ∧
  (av_packet onlooker 0 (invitation 12);; av_packet onlooker 0 (invitation 12);; toxav_call_control 0 TOXAV_CALL_CONTROL_CANCEL) sample_av = Bad UseAfterFree.
Proof. repeat split; vm_compute; reflexivity. Qed.

(** When the client has not set a callback for incoming calls, an invitation is refused
    after the call of [toxav.c] was made, which stays with a pointer to the call that the
    session freed. *)
Theorem unheard_invitation_dangles :
  (av_packet onlooker 0 (invitation 12);; toxav_call_control 0 TOXAV_CALL_CONTROL_CANCEL) (sample_av <| av_ccb := false |>) = Bad UseAfterFree.
Proof. vm_compute. reflexivity. Qed.

(** A client that hangs up when it is told that a call is finished: the callback goes on
    with the call that the client ended. *)
Theorem hang_up_in_callback_use_after_free :
  (av_packet hanging_up 0 (invitation 12);; toxav_answer 0 48 500;; av_packet hanging_up 0 (packet_of pop)) sample_av = Bad UseAfterFree.
Proof. vm_compute. reflexivity. Qed.

(** From now on friends are offline. *)
Definition goes_offline : AV unit := writes (λ s, s <| av_answer := λ a k, match a with AConnection _ => 0 | _ => av_answer s a k end |>).

(** When the friend in a call goes offline, the iteration ends the call and then unlocks
    the mutex of the call that it ended. *)
Theorem offline_friend_use_after_free :
  (toxav_call 0 48 500;; av_packet onlooker 0 (packet_of (push 12));; toxav_iterate onlooker;; goes_offline;; toxav_iterate onlooker) sample_av = Bad UseAfterFree ∧
  (av_packet onlooker 0 (invitation 12);; toxav_answer 0 48 500;; goes_offline;; toxav_iterate onlooker) sample_av = Bad UseAfterFree.
Proof. split; vm_compute; reflexivity. Qed.

(** The packets that a run on the sample session hands over. *)
Definition packets_of {A} (m : AV A) : list bytes := match m sample_av with Ok (_, s) => delivered 0 (av_asked s) | Bad _ => [] end.

(** An audio call in which the friend has answered. *)
Definition talking : AV unit := toxav_call 0 48 0;; av_packet onlooker 0 (packet_of (push 4)).

(** Audio that is turned off while the call is paused is announced as being sent, because
    the bit is flipped and not cleared; and sound that is not muted can be unmuted, which
    is meant to be refused, because the bits are compared with an exclusive or. *)
Theorem flipped_capabilities :
  packets_of (talking;; toxav_call_control 0 TOXAV_CALL_CONTROL_PAUSE;; toxav_audio_set_bit_rate 0 0) =
    packets_of (talking;; toxav_call_control 0 TOXAV_CALL_CONTROL_PAUSE) ++ [packet_of (push MSI_CAP_S_AUDIO)] ∧
  (∃ s, (talking;; toxav_call_control 0 TOXAV_CALL_CONTROL_UNMUTE_AUDIO) sample_av = Ok (TOXAV_ERR_CALL_CONTROL_OK, s)).
Proof. split; [vm_compute; reflexivity|]. eexists. vm_compute. reflexivity. Qed.

(** ** A run *)

Lemma onlooker_harmless : harmless onlooker.
Proof. intros e s. apply does_ret. exists (av_asked s), (av_events s). by destruct s. Qed.

(** Two calls, one that a friend starts and one that we start and hang up, in the end
    with a third friend that hangs up. *)
Definition sample_ops : list Av_Op :=
  [AvPacket 3 (invitation 12); AvCall 1 48 500; AvAnswer 3 48 0; AvPacket 1 (packet_of (push 12)); AvIterate; AvControl 1 TOXAV_CALL_CONTROL_PAUSE; AvBitRates 1 0 100;
   AvPacket 3 (packet_of (push 4)); AvControl 1 TOXAV_CALL_CONTROL_CANCEL; AvPacket 2 (invitation 4); AvIterate; AvPacket 2 (packet_of pop)].

(** The state that [toxav_new] leaves. *)
Definition sample_new : Tox_Av := match toxav_new sample_av with Ok (_, s) => s | Bad _ => sample_av end.

Lemma layers_stay_in_step_witness : ∃ s2, run_av_ops onlooker sample_ops (with_callbacks true true true sample_new) = Ok (tt, s2) ∧ in_step s2 ∧
  size (t_heap (av_msi s2)) = 1%nat ∧ length (av_events s2) = 5%nat.
Proof.
  assert (match run_av_ops onlooker sample_ops (with_callbacks true true true sample_new) with
          | Ok (_, s) => size (t_heap (av_msi s)) = 1%nat ∧ length (av_events s) = 5%nat | Bad _ => False end) as Hend by (vm_compute; split; reflexivity).
  destruct (layers_stay_in_step onlooker sample_ops true true true sample_av sample_new onlooker_harmless) as (s2 & E & Hs2); [vm_compute; reflexivity|vm_compute; reflexivity|].
  exists s2. rewrite E in Hend. split; [exact E|]. split; [exact Hs2|exact Hend].
Defined.
